(* ===== verification/_CoqProject ===== *)
-Q . S2P
Prelude.v
Dpdk.v
Sim.v
Types.v
Text.v
Prefix.v
Netif.v
Route.v
Config.v
Ports.v
NetConfig.v
PolicyRoute.v
Neighbour.v
Ipc.v
Queue.v
Control.v
ControlInv.v
ControlSpec.v
ControlFrames.v
Shutdown.v
Graph.v
Packet.v
IcmpError.v
Resolution.v
Sockets.v
Udp.v
Tcp.v
Nodes.v
Runtime.v
CoreSocket.v
Dispatch.v
Client.v
ClientSpec.v
AdminWire.v
AdminState.v
AdminWorker.v
AdminFormat.v
AdminFormatSpec.v
AdminControl.v
AdminParse.v
AdminParseSpec.v
AdminRuleset.v
AdminClient.v
GraphInv.v
Scheduler.v
Ownership.v
Protocols.v
NodeProofs.v
Conservation.v
SocketFrame.v
SocketTyped.v
Service.v
TcpMachine.v
TcpWire.v
TcpStream.v
TcpRefine.v
TcpSpec.v
AdminWorkerSpec.v
AdminControlSpec.v
AdminClientSpec.v
AdminEvents.v
Main.v
MainSpec.v
Wire.v
WireSpec.v
Traffic.v
TrafficSpec.v
SocketBench.v
SocketBenchSpec.v
