(* ===== verification/Prelude.v ===== *)
(** * PulsarOS netstack: a verification of the user-space IPv4 stack

    The program is a router and host stack over DPDK in C.  A worker thread polls
    the ports and runs packets through a graph of nodes; a control thread serves
    local clients over a stream socket and passes their requests to the worker
    through two lock-free rings; an administrative thread prepares changed
    configurations that the worker publishes.  Every definition below is a
    translation of the C source named in its file's header (paths are relative to
    [src/] of the repository; headers are in [include/]).

    ** Conventions

    A struct is a record with the source's field names under a short prefix and
    setters [set_f]; [x |> set_f v] reads as [x.f = v].  Integers are [Z] with
    the wrap-around of their width written out ([u8], [u16], [u32], [u64], [s32]).  A
    pointer into a table is an index.  A counted array is the list of its live
    elements.  Error codes are the negative numbers of the source; a function that
    fails after a [goto] returns a sum or an option.  DPDK, the ethernet device
    layer and the kernel are not part of the repository: they are the classes
    [Dpdk], [DpdkLaws], [BufferLaws] ([Dpdk.v]), [Ethdev] ([Ports.v]) and [Nic]
    ([AdminWorker.v]) and the arguments of the operations of [Control.v],
    [AdminControl.v] and [Client.v]; [Sim.v] is one concrete DPDK for the
    witnesses.

    ** Files

    - [Prelude.v]: machine integers, byte strings, loops with a measure, list
      lemmas, tactics and the hint database [net].
    - [Types.v]: the data model of [include/*.h].  [Text.v]: the C text functions
      of the parsers.
    - Configuration and routing: [Prefix.v] ([net_prefix.c]), [Netif.v] (lookups
      of [runtime.c]), [Route.v] ([route.c]), [Config.v] ([config.c]), [Ports.v]
      ([dpdk_port.c]), [NetConfig.v] ([net_config.c]), [PolicyRoute.v]
      ([policy_route.c]), [Neighbour.v] ([neighbour.c], [network_events.c]).
    - Daemon: [Ipc.v] ([ipc.c]), [Queue.v] ([daemon/queue.c]), [Control.v]
      ([daemon/control.c]) with its invariant in [ControlInv.v] and its properties
      in [ControlSpec.v], [ControlFrames.v] and [Shutdown.v]; [Dispatch.v]
      ([daemon/dispatch.c]); [SocketTyped.v] keeps the fields of the socket table
      in their ranges through every function of the stack, and [Service.v] shows
      with it that the stack is the [Worker] the control thread relies on.
      [Client.v] is the client library
      ([client.c]), [ClientSpec.v] its properties.
    - Packets: [Graph.v] ([graph.c]), [Packet.v] (header fields), [IcmpError.v]
      ([icmp_error.c]), [Resolution.v] ([neighbour_resolution.c], [nodes/arp.c]),
      [Sockets.v] and [CoreSocket.v] ([socket.c]), [Udp.v] ([udp.c]), [Tcp.v]
      ([tcp.c], [tcp_output.c], [tcp_timer.c]), [Nodes.v] ([nodes/*.c]),
      [Runtime.v] ([runtime.c]).
    - Administration: [AdminWire.v] ([admin_wire.c]), [AdminState.v]
      ([admin_state.c]), [AdminWorker.v] ([admin_worker.c]), [AdminFormat.v]
      ([admin_format.c]) and [AdminControl.v] ([admin_control.c]).
    - Command line: [AdminParse.v] ([admin_parse.c]) with [AdminParseSpec.v] and
      [AdminRuleset.v] (saving and restoring access lists); [AdminClient.v]
      ([admin_client.c], [pulsar.c]) with [AdminClientSpec.v].
    - Process: [Main.v] ([main.c]: arguments, start-up, the loops of the main
      thread, shutdown) with [MainSpec.v].
    - Benchmarks: [Wire.v] ([bench/wire.c]: test frames, checksums, options) with
      [WireSpec.v]; [Traffic.v] ([bench/traffic_generator.c],
      [traffic_receiver.c], [traffic_probe.c]) with [TrafficSpec.v];
      [SocketBench.v] ([bench/socket_server.c], [socket_client.c]) with
      [SocketBenchSpec.v].
    - Proofs about the whole stack: [GraphInv.v], [Scheduler.v], [Ownership.v],
      [Protocols.v], [NodeProofs.v], [Conservation.v] (buffers), [SocketFrame.v],
      [TcpMachine.v], [TcpWire.v], [TcpStream.v], [TcpRefine.v], [TcpSpec.v] (TCP).
    - Proofs about administration: [AdminFormatSpec.v] (replies and JSON),
      [AdminWorkerSpec.v] (links, neighbours, publication), [AdminControlSpec.v]
      (both threads around the mailbox), [AdminEvents.v] (the event stream).

    ** Theorems

    - Buffers.  Node functions are verified against the interface
      [NodeFunctions], the protocol code against [Ownership]; what they keep is a
      [books] record, the balance of every buffer and the [base] of the runtime
      (configuration, routes, ports up to their counters).  [Conservation]: after
      any history of polls, requests, neighbour and administrative operations each
      buffer taken from DPDK was given back, transmitted, or waits in one
      neighbour queue;
      [graph_submit] always finishes and never refuses a frame; [app_fini] leaves
      nothing.
    - TCP.  [TcpMachine] is an abstract machine of one connection; [TcpRefine] and
      [TcpSpec] prove that every call, segment and timer tick of the code is a run
      of it, labelled with what the call returned and the segment carried;
      [TcpWire] observes the buffers the output routines hand over and reads their
      segments back; [TcpStream] proves that over a network that carries these
      segments, and loses, repeats and reorders them, the bytes read are a prefix
      of the bytes written.
    - Routing.  The validation equals a declarative predicate; the sorted index
      with its binary search gives the answers of the linear scan; a query follows
      the rules in order and answers with usable routes; the static table is a
      longest-prefix match.
    - Tables.  The open-addressing neighbour table refines a finite map; access
      lists take the first match and their counters are conserved.
    - Daemon.  The rings are FIFO and race free under every interleaving of their
      loads, copies and stores.  The control thread keeps sessions apart: a request
      names only descriptors granted to the same session; one request per session
      is under way and the rings never fill; frames survive any fragmentation;
      descriptors are not lost; shutdown ends within three rounds.
    - Codecs.  The IPC and administrative formats are bijections on what they
      accept; a configuration file that is accepted gives a valid configuration;
      administrative requests change the configuration as operations on maps
      and keep it valid.
    - Administration.  Over every interleaving of the control thread and the
      worker ([admin_step]) the published configuration is valid, its generation
      never goes back, an accepted change is the one the client asked for, every
      configuration is freed exactly once, replies are never disturbed, no
      connection starves and the thread ends when told to.  The flags of the ports
      follow the devices whatever they answer; a flush removes exactly the
      neighbours of its interface; a reply is exactly the text of the items of the
      snapshot, in JSON a text that denotes them; a subscriber gets every event it
      wants once or the number of those it missed.
    - Command line.  An accepted command line is a request the administrative
      decoder accepts and denotes what was typed; an access list that is saved
      and restored is the same list; the client sends the request whole and takes
      exactly one answer, however the stream is cut; every outcome of [pulsar] is
      accounted for by its exit status.
    - Process.  Start-up establishes the invariants the other theorems start from;
      through every failure of start-up and every interleaving of turns, thread
      rounds and signals, [main] returns with every descriptor, configuration and
      buffer given back; told to stop, it does after eight rounds of each thread
      and its last second.  The threads interleave by whole rounds here and step
      by step in [ControlSpec.v] and [AdminControlSpec.v].
    - Benchmarks.  [packet_validate] accepts exactly the frames [packet_build]
      makes, up to the type of service and a checksum of minus zero; the counters
      of the receiver tell which of the generator's frames arrived, how often and
      how many were lost; a bulk transfer over the echoing server comes back as it
      was sent, whatever pieces the sockets take and give: the channels carry what
      the two programs log as sent.

    ** Bounds

    [graph_drain] runs [2 ^ 40] rounds by doubling ([iterate]): the weight of the
    packets of the graph decreases in every round and is at most [16 * 17 ^ 8]
    ([Scheduler.v]).  [submit_depth] allows one nested [graph_submit]: a node
    function that submits tests [active_output] first ([Conservation.v]).
    [tcp_options] has as many rounds as option bytes, [read_lines] as characters,
    [collect_loop] as items in the ring, [pick_handle] as handles, [event_loop] as
    events behind, [transmit_loop] as messages, [flush_loop] twice the neighbour slots and one, [fold_loop]
    two rounds (a 32-bit sum folds into 16 bits in two); each bound is proved
    sufficient where the loop is used.

    ** Not modelled

    The messages and the functions that only print counters; in [bench/] the
    wrappers of the system calls, the packet sockets, sleeps, metrics files and
    floating-point durations; the examples and tests.  The memory model is interleaving of atomic accesses ([Queue.v]); the worker is
    sequential, as in the source. *)
From Stdlib Require Export ZArith Lia Bool.
From stdpp Require Export base list list_numbers sorting gmap strings.
From stdpp Require Export option list_basics list_relations list_misc list.

(** * Notations *)

Create HintDb net.

Declare Scope net_scope.
Delimit Scope net_scope with net.

(** [r |> set_f v] updates a record the way [r->f = v] does; updates chain
    from left to right. *)
Notation "x |> f" := (f x)
  (at level 61, left associativity, only parsing) : net_scope.

#[global] Open Scope Z_scope.
#[global] Open Scope net_scope.

(** * Machine integers *)

Definition u8 (x : Z) : Z := x mod 256.
Definition u16 (x : Z) : Z := x mod 65536.
Definition u32 (x : Z) : Z := x mod 4294967296.
Definition u64 (x : Z) : Z := x mod 18446744073709551616.

(** Two's complement reading of a 32-bit word ([(int32_t)x]). *)
Definition s32 (x : Z) : Z := let y := u32 x in if y <? 2147483648 then y else y - 4294967296.

Definition UINT16_MAX : Z := 65535.
Definition UINT32_MAX : Z := 4294967295.
Definition UINT64_MAX : Z := 18446744073709551615.
Definition INT_MAX : Z := 2147483647.

(** The bitwise complement of a 32-bit word. *)
Definition not32 (x : Z) : Z := Z.lxor (u32 x) UINT32_MAX.

(** C truth values. *)
Definition truth (x : Z) : bool := negb (x =? 0).
Definition b2z (b : bool) : Z := if b then 1 else 0.

(** Byte order. The host is little endian, as on every target of the build:
    [htonl] and [rte_cpu_to_be_32] swap the four bytes of a word. *)
Definition byte_at (x k : Z) : Z := Z.land (Z.shiftr x (8 * k)) 255.

Definition bswap32 (x : Z) : Z :=
  Z.lor (Z.shiftl (byte_at x 0) 24)
    (Z.lor (Z.shiftl (byte_at x 1) 16)
       (Z.lor (Z.shiftl (byte_at x 2) 8) (byte_at x 3))).

Definition bswap16 (x : Z) : Z := Z.lor (Z.shiftl (byte_at x 0) 8) (byte_at x 1).

Definition htonl (x : Z) : Z := bswap32 x.
Definition ntohl (x : Z) : Z := bswap32 x.

(** Words in memory: [le32 x] is what [memcpy] of a [uint32_t] leaves behind,
    [be32 x] the same after [htonl]. *)
Definition le32 (x : Z) : list Z := [byte_at x 0; byte_at x 1; byte_at x 2; byte_at x 3].
Definition be32 (x : Z) : list Z := [byte_at x 3; byte_at x 2; byte_at x 1; byte_at x 0].
Definition be16 (x : Z) : list Z := [byte_at x 1; byte_at x 0].
Definition le16 (x : Z) : list Z := [byte_at x 0; byte_at x 1].

(** [(uint16_t)~x]. *)
Definition not16 (x : Z) : Z := 65535 - u16 x.

Definition byte_of (l : list Z) (i : nat) : Z := default 0 (l !! i).

Definition rd_be16 (l : list Z) (i : nat) : Z := byte_of l i * 256 + byte_of l (i + 1).
Definition rd_be32 (l : list Z) (i : nat) : Z :=
  byte_of l i * 16777216 + byte_of l (i + 1) * 65536 + byte_of l (i + 2) * 256 + byte_of l (i + 3).
Definition rd_le32 (l : list Z) (i : nat) : Z :=
  byte_of l (i + 3) * 16777216 + byte_of l (i + 2) * 65536 + byte_of l (i + 1) * 256 + byte_of l i.

(** [memcpy] into a buffer at an offset (the copied range lies inside). *)
Definition write_at (l : list Z) (i : nat) (v : list Z) : list Z :=
  take i l ++ v ++ drop (i + length v) l.

Definition is_u8 (x : Z) : Prop := 0 <= x < 256.
Definition is_u16 (x : Z) : Prop := 0 <= x < 65536.
Definition is_u32 (x : Z) : Prop := 0 <= x < 4294967296.
Definition is_u64 (x : Z) : Prop := 0 <= x < 18446744073709551616.
Definition is_s32 (x : Z) : Prop := -2147483648 <= x < 2147483648.

#[export] Instance is_u8_dec x : Decision (is_u8 x).
Proof. unfold is_u8. apply _. Defined.
#[export] Instance is_u16_dec x : Decision (is_u16 x).
Proof. unfold is_u16. apply _. Defined.
#[export] Instance is_u32_dec x : Decision (is_u32 x).
Proof. unfold is_u32. apply _. Defined.
#[export] Instance is_u64_dec x : Decision (is_u64 x).
Proof. unfold is_u64. apply _. Defined.
#[export] Instance is_s32_dec x : Decision (is_s32 x).
Proof. unfold is_s32. apply _. Defined.

#[export] Hint Unfold is_u8 is_u16 is_u32 is_u64 is_s32 : net.

(** * Loops *)

(** A loop body says whether to go on. [iterate n] runs at most [2 ^ n] bodies
    and stops as soon as one says so, without building the bound. *)
Inductive outcome (S : Type) : Type :=
| More (s : S)
| Done (s : S).
Arguments More {S} s.
Arguments Done {S} s.

Definition state_of {S} (o : outcome S) : S := match o with More s => s | Done s => s end.

Fixpoint iterate {S} (n : nat) (body : S -> outcome S) (s : S) : outcome S :=
  match n with
  | O => body s
  | S n' => match iterate n' body s with
            | Done s' => Done s'
            | More s' => iterate n' body s'
            end
  end.

(** First index whose element satisfies a test: [for (i = 0; i < n; i++) if (p(a[i])) break;]. *)
Fixpoint find_index {A} (p : A -> bool) (l : list A) : option nat :=
  match l with
  | [] => None
  | x :: l' => if p x then Some O else S <$> find_index p l'
  end.

Definition sum_list_Z (l : list Z) : Z := foldr Z.add 0 l.

#[global] Arguments u8 : simpl never.
#[global] Arguments u16 : simpl never.
#[global] Arguments u32 : simpl never.
#[global] Arguments u64 : simpl never.
#[global] Arguments s32 : simpl never.
#[global] Arguments not32 : simpl never.
#[global] Arguments truth : simpl never.
#[global] Arguments byte_at : simpl never.
#[global] Arguments bswap32 : simpl never.
#[global] Arguments bswap16 : simpl never.
#[global] Arguments htonl : simpl never.
#[global] Arguments ntohl : simpl never.


(** * Tactics *)

(** Case analysis on the boolean tests of the code, with the comparisons
    turned into arithmetic. *)
Ltac bool_hyps :=
  repeat match goal with
  | H : andb _ _ = true |- _ => apply andb_true_iff in H as [? ?]
  | H : orb _ _ = false |- _ => apply orb_false_iff in H as [? ?]
  | H : negb _ = true |- _ => apply negb_true_iff in H
  | H : negb _ = false |- _ => apply negb_false_iff in H
  | H : (_ =? _) = true |- _ => apply Z.eqb_eq in H
  | H : (_ =? _) = false |- _ => apply Z.eqb_neq in H
  | H : (_ <? _) = true |- _ => apply Z.ltb_lt in H
  | H : (_ <? _) = false |- _ => apply Z.ltb_ge in H
  | H : (_ <=? _) = true |- _ => apply Z.leb_le in H
  | H : (_ <=? _) = false |- _ => apply Z.leb_gt in H
  end.

(** Boolean and pair reduction only; the code's definitions stay folded. *)
Ltac bsimpl := cbn [negb andb orb fst snd].
Tactic Notation "bsimpl" "in" hyp(H) := cbn [negb andb orb fst snd] in H.

(** A closed decidable statement, by evaluation. *)
Ltac compute_closed := apply (bool_decide_unpack _); vm_compute; exact I.

(** Arithmetic with the widths unfolded. *)
Ltac zlia :=
  unfold is_u8, is_u16, is_u32, is_u64, is_s32, u8, u16, u32, u64,
    UINT16_MAX, UINT32_MAX, UINT64_MAX, INT_MAX in *;
  solve [lia | Z.div_mod_to_equations; lia].

(** * Lemmas: machine integers *)

Lemma u16_range x : is_u16 (u16 x).
Proof. zlia. Qed.
Lemma u32_range x : is_u32 (u32 x).
Proof. zlia. Qed.
Lemma u64_range x : is_u64 (u64 x).
Proof. zlia. Qed.
Lemma u8_id x : is_u8 x -> u8 x = x.
Proof. intros. apply Z.mod_small. auto with net. Qed.
Lemma u16_id x : is_u16 x -> u16 x = x.
Proof. intros. apply Z.mod_small. auto with net. Qed.
Lemma u32_id x : is_u32 x -> u32 x = x.
Proof. intros. apply Z.mod_small. auto with net. Qed.
Lemma u64_id x : is_u64 x -> u64 x = x.
Proof. intros. apply Z.mod_small. auto with net. Qed.
Lemma s32_u32 x : is_s32 x -> s32 (u32 x) = x.
Proof. unfold s32. intros. destruct (_ <? _) eqn:E; bool_hyps; zlia. Qed.
Lemma s32_range x : is_s32 (s32 x).
Proof. unfold s32. destruct (_ <? _) eqn:E; bool_hyps; zlia. Qed.

#[export] Hint Resolve u16_range u32_range u64_range s32_range : net.

Lemma byte_at_bits x k i : 0 <= i -> 0 <= k ->
  Z.testbit (byte_at x k) i = (i <? 8) && Z.testbit x (8 * k + i).
Proof.
  intros. unfold byte_at. rewrite Z.land_spec, Z.shiftr_spec by lia.
  change 255 with (Z.ones 8). destruct (i <? 8) eqn:E; bool_hyps.
  - rewrite Z.ones_spec_low by lia. rewrite andb_true_r. simpl. f_equal. lia.
  - rewrite Z.ones_spec_high by lia. by rewrite andb_false_r.
Qed.

Lemma byte_at_div x k : 0 <= k -> byte_at x k = (x / 2 ^ (8 * k)) mod 256.
Proof.
  intros. unfold byte_at. rewrite Z.shiftr_div_pow2 by lia.
  change 255 with (Z.ones 8). by rewrite Z.land_ones by lia.
Qed.

Lemma byte_of_u8 l i : Forall is_u8 l -> is_u8 (byte_of l i).
Proof. intros H. unfold byte_of. destruct (l !! i) eqn:E; cbn; [by eapply Forall_lookup_1|unfold is_u8; lia]. Qed.
Lemma byte_at_range x k : 0 <= k -> is_u8 (byte_at x k).
Proof. intros. rewrite byte_at_div by done. zlia. Qed.

(** Bit [i] of the swapped word is bit [swap_bit i] of the original. *)
Definition swap_bit (i : Z) : Z := 8 * (3 - i / 8) + i mod 8.

Lemma bswap32_bits x i : 0 <= i ->
  Z.testbit (bswap32 x) i = (i <? 32) && Z.testbit x (swap_bit i).
Proof.
  intros Hi. unfold bswap32, swap_bit. rewrite !Z.lor_spec, !Z.shiftl_spec by lia.
  assert (Hneg : forall b k, b < 0 -> Z.testbit (byte_at x k) b = false)
    by (intros; by apply Z.testbit_neg_r).
  assert (Hbit : forall b k, 0 <= k -> Z.testbit (byte_at x k) b =
     (0 <=? b) && (b <? 8) && Z.testbit x (8 * k + b)).
  { intros b k ?. destruct (0 <=? b) eqn:E; bool_hyps; [by rewrite byte_at_bits by lia|auto]. }
  rewrite !Hbit by lia.
  assert (i / 8 = 0 /\ i < 8 \/ i / 8 = 1 /\ 8 <= i < 16 \/ i / 8 = 2 /\ 16 <= i < 24 \/
          i / 8 = 3 /\ 24 <= i < 32 \/ 32 <= i) as C by zlia.
  repeat match goal with |- context [?a <=? ?b] => destruct (Z.leb_spec a b); try lia end;
  repeat match goal with |- context [?a <? ?b] => destruct (Z.ltb_spec a b); try lia end;
  simpl; rewrite ?orb_false_r; try reflexivity; f_equal; zlia.
Qed.

Lemma swap_bit_involutive i : 0 <= i < 32 -> swap_bit (swap_bit i) = i.
Proof. unfold swap_bit. intros. zlia. Qed.

Lemma swap_bit_range i : 0 <= i < 32 -> 0 <= swap_bit i < 32.
Proof. unfold swap_bit. intros. zlia. Qed.

Lemma bits_above x i : is_u32 x -> 32 <= i -> Z.testbit x i = false.
Proof.
  intros Hx Hi. rewrite <- (Z.mod_small x (2 ^ 32)) by (revert Hx; zlia).
  by apply Z.mod_pow2_bits_high; lia.
Qed.

Lemma bswap32_range x : is_u32 (bswap32 x).
Proof.
  assert (H0 := byte_at_range x 0 ltac:(lia)). assert (H1 := byte_at_range x 1 ltac:(lia)).
  assert (H2 := byte_at_range x 2 ltac:(lia)). assert (H3 := byte_at_range x 3 ltac:(lia)).
  assert (Hnn : 0 <= bswap32 x).
  { unfold bswap32. rewrite !Z.lor_nonneg, !Z.shiftl_nonneg. revert H0 H1 H2 H3. zlia. }
  split; [done|]. change 4294967296 with (2 ^ 32).
  destruct (Z.eq_dec (bswap32 x) 0) as [->|]; [lia|].
  apply Z.log2_lt_pow2; [lia|]. apply Z.nle_gt. intros Hlog.
  assert (Hb := Z.bit_log2 (bswap32 x) ltac:(lia)).
  rewrite bswap32_bits in Hb by lia. bool_hyps. lia.
Qed.
#[export] Hint Resolve bswap32_range : net.

Lemma bswap32_involutive x : is_u32 x -> bswap32 (bswap32 x) = x.
Proof.
  intros Hx. apply Z.bits_inj'. intros i Hi. rewrite bswap32_bits by done.
  destruct (i <? 32) eqn:E; bool_hyps; simpl; [|by rewrite bits_above].
  assert (Hs := swap_bit_range i ltac:(lia)).
  rewrite bswap32_bits by lia. rewrite swap_bit_involutive by lia.
  by replace (swap_bit i <? 32) with true by (symmetry; apply Z.ltb_lt; lia).
Qed.

Lemma bswap32_inj x y : is_u32 x -> is_u32 y -> bswap32 x = bswap32 y -> x = y.
Proof. intros Hx Hy H. by rewrite <- (bswap32_involutive x), <- (bswap32_involutive y), H. Qed.

Lemma bswap32_land x y : bswap32 (Z.land x y) = Z.land (bswap32 x) (bswap32 y).
Proof.
  apply Z.bits_inj'. intros i Hi. rewrite Z.land_spec, !bswap32_bits, Z.land_spec by done.
  by destruct (i <? 32), (Z.testbit x _), (Z.testbit y _).
Qed.

Lemma bswap32_lxor x y : bswap32 (Z.lxor x y) = Z.lxor (bswap32 x) (bswap32 y).
Proof.
  apply Z.bits_inj'. intros i Hi. rewrite Z.lxor_spec, !bswap32_bits, Z.lxor_spec by done.
  by destruct (i <? 32), (Z.testbit x _), (Z.testbit y _).
Qed.

Lemma not32_bswap32 x : is_u32 x -> not32 (bswap32 x) = bswap32 (not32 x).
Proof.
  intros. unfold not32. rewrite !u32_id by auto with net.
  change UINT32_MAX with (bswap32 UINT32_MAX) at 1. by rewrite bswap32_lxor.
Qed.

Lemma not32_range x : is_u32 (not32 x).
Proof.
  unfold not32. assert (H := u32_range x). revert H. generalize (u32 x) as y. intros y Hy.
  assert (Hnn : 0 <= Z.lxor y UINT32_MAX).
  { apply Z.lxor_nonneg. unfold UINT32_MAX. revert Hy. zlia. }
  split; [done|]. change 4294967296 with (2 ^ 32).
  destruct (Z.eq_dec (Z.lxor y UINT32_MAX) 0) as [->|]; [lia|].
  apply Z.log2_lt_pow2; [lia|].
  eapply Z.le_lt_trans; [apply Z.log2_lxor; unfold UINT32_MAX; revert Hy; zlia|].
  apply Z.max_lub_lt; [|reflexivity].
  destruct (Z.eq_dec y 0) as [->|]; [reflexivity|].
  apply Z.log2_lt_pow2; revert Hy; zlia.
Qed.
#[export] Hint Resolve not32_range : net.

Lemma land_u32 x y : is_u32 x -> is_u32 (Z.land x y).
Proof.
  intros Hx. assert (H : 0 <= Z.land x y <= x); [|unfold is_u32 in *; lia].
  apply Z.ldiff_le; [apply Hx|]. apply Z.bits_inj'. intros i Hi. rewrite Z.ldiff_spec, Z.land_spec, Z.bits_0.
  by destruct (Z.testbit x i), (Z.testbit y i).
Qed.

Lemma not32_eq x : is_u32 x -> not32 x = 4294967295 - x.
Proof.
  intros Hx. unfold not32. rewrite u32_id by done.
  assert (Hl : Z.lxor x UINT32_MAX = Z.ldiff (Z.ones 32) x).
  { apply Z.bits_inj'. intros i Hi. rewrite Z.lxor_spec, Z.ldiff_spec.
    change UINT32_MAX with (Z.ones 32).
    destruct (Z.lt_ge_cases i 32).
    - rewrite Z.ones_spec_low by lia. by destruct (Z.testbit x i).
    - rewrite Z.ones_spec_high by lia. by rewrite bits_above. }
  rewrite Hl, <- Z.sub_nocarry_ldiff; [done|].
  apply Z.bits_inj'. intros i Hi. rewrite Z.ldiff_spec, Z.bits_0.
  destruct (Z.lt_ge_cases i 32).
  - rewrite Z.ones_spec_low by lia. apply andb_false_r.
  - by rewrite bits_above.
Qed.

(** A word put together from its two parts. *)
Lemma lor_shiftl k x y : 0 <= k -> 0 <= y < 2 ^ k -> Z.lor (Z.shiftl x k) y = x * 2 ^ k + y.
Proof.
  intros Hk Hy. assert (Hsum := Z.add_lor_land (Z.shiftl x k) y). rewrite Z.shiftl_mul_pow2 in Hsum |- * by lia.
  assert (Hland : Z.land (x * 2 ^ k) y = 0); [|lia].
  apply Z.bits_inj'. intros i Hi. rewrite Z.land_spec, Z.bits_0. destruct (Z.lt_ge_cases i k).
  - by rewrite Z.mul_pow2_bits_low.
  - rewrite <- (Z.mod_small y (2 ^ k)), Z.mod_pow2_bits_high by lia. apply andb_false_r.
Qed.

(** * Lemmas: words in memory *)

Lemma bytes4_eq x : is_u32 x ->
  byte_at x 3 * 16777216 + byte_at x 2 * 65536 + byte_at x 1 * 256 + byte_at x 0 = x.
Proof. intros. rewrite !byte_at_div by lia. simpl Z.mul. simpl Z.pow. zlia. Qed.

(** Reading past a prefix of known length. *)
Lemma byte_of_skip l r i k : i = (length l + k)%nat -> byte_of (l ++ r) i = byte_of r k.
Proof. intros ->. unfold byte_of. rewrite lookup_app_r by lia. do 2 f_equal. lia. Qed.

Lemma rd_be32_skip l r i k : i = (length l + k)%nat -> rd_be32 (l ++ r) i = rd_be32 r k.
Proof. intros ->. unfold rd_be32. erewrite !byte_of_skip; [done|lia..]. Qed.

Lemma rd_le32_skip l r i k : i = (length l + k)%nat -> rd_le32 (l ++ r) i = rd_le32 r k.
Proof. intros ->. unfold rd_le32. erewrite !byte_of_skip; [done|lia..]. Qed.

Lemma rd_be32_be32 x r : is_u32 x -> rd_be32 (be32 x ++ r) 0 = x.
Proof. intros. by apply bytes4_eq. Qed.

Lemma rd_le32_le32 x r : is_u32 x -> rd_le32 (le32 x ++ r) 0 = x.
Proof. intros. by apply bytes4_eq. Qed.

Lemma length_be32 x : length (be32 x) = 4%nat.
Proof. done. Qed.
Lemma length_le32 x : length (le32 x) = 4%nat.
Proof. done. Qed.

Lemma length_write_at l i v :
  (i + length v <= length l)%nat -> length (write_at l i v) = length l.
Proof. intros. unfold write_at. rewrite !length_app, length_take, length_drop. lia. Qed.

(** * Lemmas: loops and searches *)

Lemma iterate_done_measure {S} (body : S -> outcome S) (m : S -> Z) (I : S -> Prop) :
  (forall s s', I s -> body s = More s' -> I s' /\ 0 <= m s' < m s) ->
  (forall s s', I s -> body s = Done s' -> I s') ->
  forall n s, I s -> 0 <= m s ->
  match iterate n body s with
  | Done s' => I s'
  | More s' => I s' /\ 0 <= m s' <= m s - 2 ^ Z.of_nat n
  end.
Proof.
  intros Hm Hd n. induction n as [|n IH]; intros s Hs Hms; simpl.
  - destruct (body s) eqn:E; [|eauto]. destruct (Hm _ _ Hs E). simpl Z.pow. split; [done|lia].
  - assert (H1 := IH s Hs Hms). destruct (iterate n body s) as [s1|s1]; [|done].
    destruct H1 as [Hs1 Hm1]. assert (H2 := IH s1 Hs1 ltac:(lia)).
    destruct (iterate n body s1) as [s2|s2]; [|done].
    destruct H2. split; [done|]. rewrite Nat2Z.inj_succ, Z.pow_succ_r by lia. lia.
Qed.

(** A loop whose measure starts below [2 ^ n] finishes within the bound. *)
Lemma iterate_terminates {S} (body : S -> outcome S) (m : S -> Z) (I : S -> Prop) n s :
  (forall s s', I s -> body s = More s' -> I s' /\ 0 <= m s' < m s) ->
  (forall s s', I s -> body s = Done s' -> I s') ->
  I s -> 0 <= m s < 2 ^ Z.of_nat n ->
  exists s', iterate n body s = Done s' /\ I s'.
Proof.
  intros Hm Hd Hs Hb. assert (H := iterate_done_measure body m I Hm Hd n s Hs ltac:(lia)).
  destruct (iterate n body s) as [s'|s']; [lia|eauto].
Qed.

Lemma find_index_Some {A} (p : A -> bool) l i :
  find_index p l = Some i <->
  (exists x, l !! i = Some x /\ p x = true) /\ (forall j y, (j < i)%nat -> l !! j = Some y -> p y = false).
Proof.
  revert i. induction l as [|x l IH]; intros i; simpl.
  - split; [done|]. intros [(y & H & _) _]. done.
  - destruct (p x) eqn:E.
    + split.
      * intros [= <-]. split; [eauto|]. intros; lia.
      * intros [_ H]. destruct i; [done|]. specialize (H O x ltac:(lia) eq_refl). congruence.
    + rewrite fmap_Some. split.
      * intros (k & Hk & ->). apply IH in Hk as [(y & Hy & Hp) Hlt]. split; [eauto|].
        intros [|j] z Hj Hz; [simpl in Hz; congruence|]. apply (Hlt j); [lia|done].
      * intros [(y & Hy & Hp) Hlt]. destruct i; [simpl in Hy; congruence|].
        exists i. split; [|done]. apply IH. split; [eauto|].
        intros j z Hj Hz. by apply (Hlt (S j)); [lia|].
Qed.

Lemma find_index_None {A} (p : A -> bool) l :
  find_index p l = None <-> (forall i x, l !! i = Some x -> p x = false).
Proof.
  induction l as [|x l IH]; simpl; [done|]. destruct (p x) eqn:E.
  - split; [done|]. intros H. specialize (H O x eq_refl). congruence.
  - rewrite fmap_None, IH. split.
    + intros H [|i] y Hy; [simpl in Hy; congruence|]. eapply H, Hy.
    + intros H i y Hy. apply (H (S i) y Hy).
Qed.

Lemma find_index_lt {A} (p : A -> bool) l i : find_index p l = Some i -> (i < length l)%nat.
Proof. intros [(x & Hx & _) _]%find_index_Some. by eapply lookup_lt_Some. Qed.

(** Elements with their index, as a counting loop sees them. *)
Definition indexed {A} (l : list A) : list (Z * A) := imap (fun i x => (Z.of_nat i, x)) l.

(** A loop over an array that returns as soon as a step gives a nonzero code. *)
Fixpoint fold_rc {A S} (f : S -> A -> Z * S) (l : list A) (s : S) : Z * S :=
  match l with
  | [] => (0, s)
  | x :: l' => let '(rc, s') := f s x in if truth rc then (rc, s') else fold_rc f l' s'
  end.

(** The first nonzero code of a loop of checks, or 0. *)
Fixpoint first_rc {A} (f : A -> Z) (l : list A) : Z :=
  match l with
  | [] => 0
  | x :: l' => if truth (f x) then f x else first_rc f l'
  end.

Lemma truth_false x : truth x = false <-> x = 0.
Proof. unfold truth. rewrite negb_false_iff. apply Z.eqb_eq. Qed.
Lemma truth_true x : truth x = true <-> x <> 0.
Proof. unfold truth. rewrite negb_true_iff. apply Z.eqb_neq. Qed.

Lemma first_rc_0 {A} (f : A -> Z) l : first_rc f l = 0 <-> Forall (fun x => f x = 0) l.
Proof.
  induction l as [|x l IH]; simpl; [by split|].
  rewrite Forall_cons_iff.
  destruct (truth (f x)) eqn:E.
  - apply truth_true in E. naive_solver.
  - apply truth_false in E. naive_solver.
Qed.

(** An invariant of every step is an invariant of the loop. *)
Lemma fold_rc_invariant {A S} (f : S -> A -> Z * S) (P : list A -> S -> Prop) l s s' :
  fold_rc f l s = (0, s') -> P [] s ->
  (forall done x s1 s2, P done s1 -> f s1 x = (0, s2) -> P (done ++ [x]) s2) ->
  P l s'.
Proof.
  intros H H0 Hstep. cut (forall done, P done s -> P (done ++ l) s'); [intros C; by apply (C [])|].
  clear H0. revert s H. induction l as [|x l IH]; intros s H done Hd; simpl in H.
  - injection H as <-. by rewrite app_nil_r.
  - destruct (f s x) as [rc s1] eqn:E. destruct (truth rc) eqn:Erc.
    + injection H as Hrc _. apply truth_true in Erc. done.
    + apply truth_false in Erc as ->. rewrite cons_middle, app_assoc. eapply IH; eauto.
Qed.

Lemma indexed_lookup {A} (l : list A) i : indexed l !! i = (fun x => (Z.of_nat i, x)) <$> l !! i.
Proof. unfold indexed. by rewrite list_lookup_imap. Qed.

Lemma indexed_elem {A} (l : list A) i x : (i, x) ∈ indexed l -> 0 <= i /\ l !! Z.to_nat i = Some x.
Proof.
  intros (k & Hk)%list_elem_of_lookup. rewrite indexed_lookup in Hk.
  apply fmap_Some in Hk as (y & Hy & [= -> ->]). split; [lia|]. by rewrite Nat2Z.id.
Qed.
