(* ===== verification/Dpdk.v ===== *)
(** The DPDK interface.  DPDK is not part of the repository: its functions are
    the fields of a type class, and what the code relies on is the companion
    class [DpdkLaws].  Calls whose answer depends on the outside world (the
    mempool, the NIC, the clock, the random generator) are answered by functions
    of the history of earlier calls, so that a [Dpdk] instance is one possible
    behaviour of the environment. *)
From S2P Require Import Prelude.

(** [struct rte_ether_addr]: six bytes. *)
Abbreviation ether_addr := (list Z).
Definition zero_ether_addr : ether_addr := replicate 6 0.

(** [struct rte_mbuf] as the code uses it: the bytes of the first segment
    ([data_len] of them), the bytes in further segments, and the metadata that
    [eth_input] and [tx] look at.  [mb_id] is the identity of the buffer. *)
Record mbuf : Type := mk_mbuf {
  mb_id : Z;
  mb_data : list Z;
  mb_rest : Z;
  mb_segs : Z;
  mb_direct : bool;
  mb_refcnt : Z;
  mb_ol_flags : Z;
  mb_tx_offload : Z;
  mb_headroom : Z;
  mb_tailroom : Z
}.
#[export] Instance mbuf_inhabited : Inhabited mbuf := populate (mk_mbuf 0 [] 0 1 true 1 0 0 0 0).
#[export] Instance mbuf_eq_dec : EqDecision mbuf.
Proof. solve_decision. Defined.

Definition set_mb_data (v : list Z) (m : mbuf) : mbuf :=
  mk_mbuf (mb_id m) v (mb_rest m) (mb_segs m) (mb_direct m) (mb_refcnt m)
    (mb_ol_flags m) (mb_tx_offload m) (mb_headroom m) (mb_tailroom m).

Definition rte_pktmbuf_data_len (m : mbuf) : Z := Z.of_nat (length (mb_data m)).
Definition rte_pktmbuf_pkt_len (m : mbuf) : Z := Z.of_nat (length (mb_data m)) + mb_rest m.
Definition rte_pktmbuf_is_contiguous (m : mbuf) : bool := mb_segs m =? 1.

(** What the code asked of DPDK, newest first. *)
Inductive dpdk_event : Type :=
| EvAlloc (r : option mbuf)
| EvFree (m : mbuf)
| EvTx (port : Z) (batch : list mbuf) (sent : nat)
| EvRx (port : Z) (batch : list mbuf)
| EvCycles (now : Z)
| EvRand (r : Z).

Class Dpdk : Type := {
  rte_get_timer_hz : Z;
  cycles_of : list dpdk_event -> Z;
  rand_of : list dpdk_event -> Z;
  alloc_of : list dpdk_event -> option mbuf;
  tx_burst_of : list dpdk_event -> Z -> list mbuf -> nat;
  rx_burst_of : list dpdk_event -> Z -> nat -> list mbuf;
  rte_pktmbuf_prepend : mbuf -> Z -> option mbuf;
  rte_pktmbuf_append : mbuf -> Z -> option mbuf;
  rte_pktmbuf_trim : mbuf -> Z -> option mbuf;
  rte_pktmbuf_adj : mbuf -> Z -> option mbuf;
  rte_raw_cksum : list Z -> Z;
  rte_ipv4_cksum : list Z -> Z;
  rte_ipv4_phdr_cksum : list Z -> Z;
  rte_ipv4_udptcp_cksum : list Z -> list Z -> Z;
  rte_is_valid_assigned_ether_addr : ether_addr -> bool;
  rte_is_multicast_ether_addr : ether_addr -> bool;
  rte_is_broadcast_ether_addr : ether_addr -> bool
}.

(** [rte_is_same_ether_addr] compares the six bytes. *)
Definition rte_is_same_ether_addr (a b : ether_addr) : bool := bool_decide (a = b).

(** What the code relies on: the buffer operations keep the identity of the
    buffer, and a burst never exceeds what was asked for. *)
Class DpdkLaws `{!Dpdk} : Prop := {
  prepend_id : forall m n m', rte_pktmbuf_prepend m n = Some m' -> mb_id m' = mb_id m;
  append_id : forall m n m', rte_pktmbuf_append m n = Some m' -> mb_id m' = mb_id m;
  trim_id : forall m n m', rte_pktmbuf_trim m n = Some m' -> mb_id m' = mb_id m;
  adj_id : forall m n m', rte_pktmbuf_adj m n = Some m' -> mb_id m' = mb_id m;
  tx_burst_bound : forall h port batch, (tx_burst_of h port batch <= length batch)%nat;
  rx_burst_bound : forall h port n, (length (rx_burst_of h port n) <= n)%nat
}.

(** What the contents of a buffer rely on, as the mbuf library documents it: a
    buffer comes from the pool as one empty segment, and appending to a buffer of
    one segment lengthens its data by as many bytes as were asked for. *)
Class BufferLaws `{!Dpdk} : Prop := {
  alloc_empty : forall h m, alloc_of h = Some m -> mb_data m = [] /\ mb_segs m = 1 /\ mb_rest m = 0;
  append_data : forall m n m', mb_segs m = 1 -> rte_pktmbuf_append m n = Some m' ->
    (exists tail, mb_data m' = mb_data m ++ tail /\ length tail = Z.to_nat n) /\ mb_rest m' = mb_rest m
}.
