(* ===== verification/Sim.v ===== *)
(** One concrete behaviour of DPDK, for the witnesses: buffers of 2048 bytes with
    128 bytes of headroom, numbered by the length of the history; transmission
    takes everything; reception returns what the script [arrivals] says. *)
From S2P Require Import Prelude.
From S2P Require Import Dpdk.

Definition sim_fresh (id : Z) : mbuf := mk_mbuf id [] 0 1 true 1 0 0 128 1920.

Definition resize_data (data : list Z) (headroom tailroom : Z) (m : mbuf) : mbuf :=
  mk_mbuf (mb_id m) data (mb_rest m) (mb_segs m) (mb_direct m) (mb_refcnt m) (mb_ol_flags m) (mb_tx_offload m) headroom tailroom.

Definition sim_prepend (m : mbuf) (n : Z) : option mbuf :=
  if mb_headroom m <? n then None else
  Some (resize_data (replicate (Z.to_nat n) 0 ++ mb_data m) (mb_headroom m - n) (mb_tailroom m) m).
Definition sim_append (m : mbuf) (n : Z) : option mbuf :=
  if mb_tailroom m <? n then None else
  Some (resize_data (mb_data m ++ replicate (Z.to_nat n) 0) (mb_headroom m) (mb_tailroom m - n) m).
Definition sim_trim (m : mbuf) (n : Z) : option mbuf :=
  let len := Z.of_nat (length (mb_data m)) in
  if len <? n then None else Some (resize_data (take (Z.to_nat (len - n)) (mb_data m)) (mb_headroom m) (mb_tailroom m + n) m).
Definition sim_adj (m : mbuf) (n : Z) : option mbuf :=
  if Z.of_nat (length (mb_data m)) <? n then None else
  Some (resize_data (drop (Z.to_nat n) (mb_data m)) (mb_headroom m + n) (mb_tailroom m) m).

(** The one's complement sum of little-endian 16-bit words. *)
Fixpoint sum_words (l : list Z) : Z :=
  match l with
  | a :: b :: l' => a + 256 * b + sum_words l'
  | [a] => a
  | [] => 0
  end.
Definition fold16 (x : Z) : Z := x mod 65536 + x / 65536.
Definition sim_cksum (l : list Z) : Z := fold16 (fold16 (sum_words l)).

Definition sim (arrivals : list dpdk_event -> Z -> list mbuf) : Dpdk := {|
  rte_get_timer_hz := 1000;
  cycles_of := fun h => Z.of_nat (length h);
  rand_of := fun h => 12345;
  alloc_of := fun h => Some (sim_fresh (1000 + Z.of_nat (length h)));
  tx_burst_of := fun _ _ batch => length batch;
  rx_burst_of := fun h port n => take n (arrivals h port);
  rte_pktmbuf_prepend := sim_prepend;
  rte_pktmbuf_append := sim_append;
  rte_pktmbuf_trim := sim_trim;
  rte_pktmbuf_adj := sim_adj;
  rte_raw_cksum := sim_cksum;
  rte_ipv4_cksum := fun h => 65535 - sim_cksum (take 20 h);
  rte_ipv4_phdr_cksum := fun h => sim_cksum (take 8 (drop 12 h) ++ [0; byte_of h 9] ++ be16 (u16 (rd_be16 h 2 - 20)));
  rte_ipv4_udptcp_cksum := fun h l4 =>
    65535 - sim_cksum (take 8 (drop 12 h) ++ [0; byte_of h 9] ++ be16 (u16 (rd_be16 h 2 - 20)) ++ l4);
  rte_is_valid_assigned_ether_addr := fun a => negb (Z.odd (byte_of a 0)) && negb (bool_decide (a = zero_ether_addr));
  rte_is_multicast_ether_addr := fun a => Z.odd (byte_of a 0);
  rte_is_broadcast_ether_addr := fun a => bool_decide (a = replicate 6 255)
|}.

#[export] Instance sim_laws arrivals : @DpdkLaws (sim arrivals).
Proof.
  split; cbn [rte_pktmbuf_prepend rte_pktmbuf_append rte_pktmbuf_trim rte_pktmbuf_adj tx_burst_of rx_burst_of sim].
  - intros m n m'. unfold sim_prepend. case_match; [done|]. by intros [= <-].
  - intros m n m'. unfold sim_append. case_match; [done|]. by intros [= <-].
  - intros m n m'. unfold sim_trim. cbv zeta. case_match; [done|]. by intros [= <-].
  - intros m n m'. unfold sim_adj. case_match; [done|]. by intros [= <-].
  - lia.
  - intros h port n. rewrite length_take. lia.
Defined.

#[export] Instance sim_buffers arrivals : @BufferLaws (sim arrivals).
Proof.
  split; cbn [alloc_of rte_pktmbuf_append sim].
  - by intros h m [= <-].
  - intros m n m' _. unfold sim_append. case_match; [done|]. intros [= <-]. split; [|done]. eexists. split; [done|]. apply length_replicate.
Defined.

(** A buffer as the NIC delivers it. *)
Definition received (id : Z) (bytes : list Z) : mbuf :=
  mk_mbuf id bytes 0 1 true 1 0 0 128 (1920 - Z.of_nat (length bytes)).
