(* ===== verification/Types.v ===== *)
(** Data model: the structures and constants of [include/*.h], one record per
    struct with the source's field names under a short prefix.  A counted array
    ([x[MAX]] with [x_count]) is the list of its live elements, so the count is
    the list's length; a fixed-size array is a list of that length.  [zero_T]
    is the all-zero object ([memset], [{0}]) and [set_f v r] is [r.f = v].
    Flags that only ever hold 0 or 1 are [bool]. *)
From S2P Require Import Prelude.
From S2P Require Import Dpdk.

(** * Constants *)

(** [include/constants.h], [app.h], [route.h], [neighbour.h], [net_config.h],
    [socket.h], [tcp.h], [ps_socket.h], [icmp.h]. *)
Definition GRAPH_FRAME_SIZE : nat := 64.
Definition GRAPH_FRAME_POOL_SIZE : nat := 16.
Definition NETIF_MAX : Z := 8.
Definition ROUTE_CAPACITY : Z := 32.
Definition NEIGHBOUR_CAPACITY : Z := 64.
Definition NEIGHBOUR_PENDING_MAX : nat := 16.
Definition NEIGHBOUR_PENDING_QUEUE_MAX : nat := 8.
Definition ARP_MAX_REQUESTS : Z := 3.
Definition ARP_RETRY_SECONDS : Z := 1.
Definition NET_ADDR_MAX : Z := 64.
Definition NET_ROUTE_MAX : Z := 256.
Definition NET_RULE_MAX : Z := 64.
Definition NET_ACL_MAX : Z := 128.
Definition NET_TABLE_LOCAL : Z := 255.
Definition NET_TABLE_MAIN : Z := 254.
Definition NET_TABLE_DEFAULT : Z := 253.
Definition NET_IIF_NONE : Z := UINT32_MAX.
Definition ADMIN_EVENT_MAX : Z := 128.
Definition PS_AF_INET : Z := 2.
Definition PS_SOCK_STREAM : Z := 1.
Definition PS_SOCK_DGRAM : Z := 2.
Definition PS_SOCKET_MAX : Z := 256.
Definition PS_DGRAM_QUEUE_SIZE : Z := 16.
Definition PS_DGRAM_MAX_PAYLOAD : Z := 1472.
Definition PS_DGRAM_BATCH_MAX : Z := 16.
Definition TCP_BUFFER_SIZE : Z := 8192.
Definition TCP_MAX_RETRIES : Z := 5.
Definition TCP_TIME_WAIT_SECONDS : Z := 120.
Definition TCP_FIN_WAIT_SECONDS : Z := 120.
Definition ICMP_ERROR_RATE : Z := 10.
Definition ICMP_ERROR_BURST : Z := 10.

(** [enum net_action]. *)
Definition NET_UNICAST : Z := 0.
Definition NET_BLACKHOLE : Z := 1.
Definition NET_UNREACHABLE : Z := 2.
Definition NET_PROHIBIT : Z := 3.

(** [enum admin_group] and [enum admin_verb]. *)
Definition ADM_STATUS : Z := 1.
Definition ADM_STATS : Z := 2.
Definition ADM_LINK : Z := 3.
Definition ADM_ADDR : Z := 4.
Definition ADM_ROUTE : Z := 5.
Definition ADM_RULE : Z := 6.
Definition ADM_NEIGH : Z := 7.
Definition ADM_ACL : Z := 8.
Definition ADM_APP : Z := 9.
Definition ADM_SOCKET : Z := 10.
Definition ADM_MONITOR : Z := 11.
Definition ADM_SHOW : Z := 1.
Definition ADM_ADD : Z := 2.
Definition ADM_REPLACE : Z := 3.
Definition ADM_DEL : Z := 4.
Definition ADM_FLUSH : Z := 5.
Definition ADM_GET : Z := 6.
Definition ADM_SET : Z := 7.
Definition ADM_APPLY : Z := 8.
Definition ADM_DEFAULT : Z := 9.

(** Linux [errno] values. *)
Definition ENOENT : Z := 2.
Definition EIO : Z := 5.
Definition EBADF : Z := 9.
Definition EAGAIN : Z := 11.
Definition ENOMEM : Z := 12.
Definition EACCES : Z := 13.
Definition EBUSY : Z := 16.
Definition EEXIST : Z := 17.
Definition ENODEV : Z := 19.
Definition EINVAL : Z := 22.
Definition EMFILE : Z := 24.
Definition ENOSPC : Z := 28.
Definition EPERM : Z := 1.
Definition EPROTO : Z := 71.
Definition EOVERFLOW : Z := 75.
Definition EMSGSIZE : Z := 90.
Definition EPROTOTYPE : Z := 91.
Definition EPROTONOSUPPORT : Z := 93.
Definition EOPNOTSUPP : Z := 95.
Definition EAFNOSUPPORT : Z := 97.
Definition EADDRINUSE : Z := 98.
Definition EADDRNOTAVAIL : Z := 99.
Definition ENETDOWN : Z := 100.
Definition ENETUNREACH : Z := 101.
Definition ECONNABORTED : Z := 103.
Definition ECONNRESET : Z := 104.
Definition ENOBUFS : Z := 105.
Definition EISCONN : Z := 106.
Definition ENOTCONN : Z := 107.
Definition ETIMEDOUT : Z := 110.
Definition ECONNREFUSED : Z := 111.
Definition EALREADY : Z := 114.
Definition EINPROGRESS : Z := 115.
Definition ESTALE : Z := 116.

Definition IPPROTO_ICMP : Z := 1.
Definition IPPROTO_TCP : Z := 6.
Definition IPPROTO_UDP : Z := 17.

(** TCP flag bits. *)
Definition RTE_TCP_FIN_FLAG : Z := 1.
Definition RTE_TCP_SYN_FLAG : Z := 2.
Definition RTE_TCP_RST_FLAG : Z := 4.
Definition RTE_TCP_PSH_FLAG : Z := 8.
Definition RTE_TCP_ACK_FLAG : Z := 16.
Definition RTE_TCP_URG_FLAG : Z := 32.

(** * Packets and graph nodes *)

(** [enum drop_reason]. *)
Inductive drop_reason : Type :=
| DROP_NONE | DROP_PORT_BINDING | DROP_TRUNCATED_ETH | DROP_UNSUPPORTED_ETHERTYPE
| DROP_INVALID_ARP | DROP_INVALID_IPV4 | DROP_IPV4_FRAGMENT | DROP_NOT_LOCAL
| DROP_IPV4_OPTIONS | DROP_INVALID_ICMP | DROP_UNSUPPORTED_ICMP | DROP_UNSUPPORTED_PROTOCOL
| DROP_GRAPH_FULL | DROP_TX_FAILED | DROP_MTU | DROP_NO_TAILROOM
| DROP_NONCONTIGUOUS | DROP_INVALID_SOURCE | DROP_NEIGHBOUR_NOT_FOUND | DROP_INVALID_DESTINATION
| DROP_INVALID_UDP | DROP_UDP_BAD_LENGTH | DROP_UDP_BAD_CHECKSUM | DROP_UDP_UNBOUND_PORT
| DROP_UDP_RX_QUEUE_FULL | DROP_MBUF_ALLOCATION_FAILED | DROP_NO_HEADROOM | DROP_NO_ROUTE
| DROP_INVALID_EGRESS | DROP_FORWARDING_DISABLED | DROP_NEIGHBOUR_QUEUE_FULL | DROP_NEIGHBOUR_PENDING_FULL
| DROP_NEIGHBOUR_RESOLUTION_TIMEOUT | DROP_NEIGHBOUR_CANCELLED | DROP_TTL_EXPIRED | DROP_INVALID_TCP
| DROP_TCP_BAD_CHECKSUM | DROP_TCP_INVALID_STATE | DROP_TCP_NO_SOCKET | DROP_TCP_BACKLOG_FULL
| DROP_TCP_OUT_OF_ORDER | DROP_ROUTE_BLACKHOLE | DROP_ROUTE_UNREACHABLE | DROP_ROUTE_PROHIBIT
| DROP_ACL.
#[export] Instance drop_reason_eq_dec : EqDecision drop_reason.
Proof. solve_decision. Defined.

(** The numeric value of the enumeration constant. *)
Definition drop_index (x : drop_reason) : nat :=
  match x with
  | DROP_NONE => 0 | DROP_PORT_BINDING => 1 | DROP_TRUNCATED_ETH => 2 | DROP_UNSUPPORTED_ETHERTYPE => 3
  | DROP_INVALID_ARP => 4 | DROP_INVALID_IPV4 => 5 | DROP_IPV4_FRAGMENT => 6 | DROP_NOT_LOCAL => 7
  | DROP_IPV4_OPTIONS => 8 | DROP_INVALID_ICMP => 9 | DROP_UNSUPPORTED_ICMP => 10 | DROP_UNSUPPORTED_PROTOCOL => 11
  | DROP_GRAPH_FULL => 12 | DROP_TX_FAILED => 13 | DROP_MTU => 14 | DROP_NO_TAILROOM => 15
  | DROP_NONCONTIGUOUS => 16 | DROP_INVALID_SOURCE => 17 | DROP_NEIGHBOUR_NOT_FOUND => 18 | DROP_INVALID_DESTINATION => 19
  | DROP_INVALID_UDP => 20 | DROP_UDP_BAD_LENGTH => 21 | DROP_UDP_BAD_CHECKSUM => 22 | DROP_UDP_UNBOUND_PORT => 23
  | DROP_UDP_RX_QUEUE_FULL => 24 | DROP_MBUF_ALLOCATION_FAILED => 25 | DROP_NO_HEADROOM => 26 | DROP_NO_ROUTE => 27
  | DROP_INVALID_EGRESS => 28 | DROP_FORWARDING_DISABLED => 29 | DROP_NEIGHBOUR_QUEUE_FULL => 30 | DROP_NEIGHBOUR_PENDING_FULL => 31
  | DROP_NEIGHBOUR_RESOLUTION_TIMEOUT => 32 | DROP_NEIGHBOUR_CANCELLED => 33 | DROP_TTL_EXPIRED => 34 | DROP_INVALID_TCP => 35
  | DROP_TCP_BAD_CHECKSUM => 36 | DROP_TCP_INVALID_STATE => 37 | DROP_TCP_NO_SOCKET => 38 | DROP_TCP_BACKLOG_FULL => 39
  | DROP_TCP_OUT_OF_ORDER => 40 | DROP_ROUTE_BLACKHOLE => 41 | DROP_ROUTE_UNREACHABLE => 42 | DROP_ROUTE_PROHIBIT => 43
  | DROP_ACL => 44
  end%nat.

Definition DROP_REASON_MAX : nat := 45.

(** [enum node_id]. *)
Inductive node_id : Type :=
| NODE_DROP | NODE_ETH_INPUT | NODE_ARP_INPUT | NODE_IPV4_INPUT
| NODE_ICMP_INPUT | NODE_UDP_INPUT | NODE_TCP_INPUT | NODE_IPV4_ROUTE
| NODE_UDP_OUTPUT | NODE_IPV4_OUTPUT | NODE_ETH_OUTPUT | NODE_ARP_OUTPUT
| NODE_TX | NODE_IPV4_FORWARD | NODE_IPV4_ACL.
#[export] Instance node_id_eq_dec : EqDecision node_id.
Proof. solve_decision. Defined.

(** The numeric value of the enumeration constant. *)
Definition node_index (x : node_id) : nat :=
  match x with
  | NODE_DROP => 0 | NODE_ETH_INPUT => 1 | NODE_ARP_INPUT => 2 | NODE_IPV4_INPUT => 3
  | NODE_ICMP_INPUT => 4 | NODE_UDP_INPUT => 5 | NODE_TCP_INPUT => 6 | NODE_IPV4_ROUTE => 7
  | NODE_UDP_OUTPUT => 8 | NODE_IPV4_OUTPUT => 9 | NODE_ETH_OUTPUT => 10 | NODE_ARP_OUTPUT => 11
  | NODE_TX => 12 | NODE_IPV4_FORWARD => 13 | NODE_IPV4_ACL => 14
  end%nat.

Definition NODE_MAX : nat := 15.

(** Every node, in index order. *)
Definition all_nodes : list node_id :=
  [NODE_DROP; NODE_ETH_INPUT; NODE_ARP_INPUT; NODE_IPV4_INPUT; NODE_ICMP_INPUT;
   NODE_UDP_INPUT; NODE_TCP_INPUT; NODE_IPV4_ROUTE; NODE_UDP_OUTPUT; NODE_IPV4_OUTPUT;
   NODE_ETH_OUTPUT; NODE_ARP_OUTPUT; NODE_TX; NODE_IPV4_FORWARD; NODE_IPV4_ACL].

(** [struct packet_ctx]. *)
Record packet_ctx : Type := mk_packet_ctx {
  cx_ingress_port_id : Z;
  cx_egress_port_id : Z;
  cx_l3_offset : Z;
  cx_l4_offset : Z;
  cx_src_ip_be : Z;
  cx_dst_ip_be : Z;
  cx_next_hop_ip_be : Z;
  cx_src_port : Z;
  cx_dst_port : Z;
  cx_ip_protocol : Z;
  cx_drop_reason : Z;
  cx_report_acceptance : bool;
  cx_transit : bool
}.
Definition zero_packet_ctx : packet_ctx := mk_packet_ctx 0 0 0 0 0 0 0 0 0 0 0 false false.
#[export] Instance packet_ctx_inhabited : Inhabited packet_ctx := populate zero_packet_ctx.
Definition set_cx_ingress_port_id (v : Z) (r : packet_ctx) : packet_ctx := mk_packet_ctx v (cx_egress_port_id r) (cx_l3_offset r) (cx_l4_offset r) (cx_src_ip_be r) (cx_dst_ip_be r) (cx_next_hop_ip_be r) (cx_src_port r) (cx_dst_port r) (cx_ip_protocol r) (cx_drop_reason r) (cx_report_acceptance r) (cx_transit r).
Definition set_cx_egress_port_id (v : Z) (r : packet_ctx) : packet_ctx := mk_packet_ctx (cx_ingress_port_id r) v (cx_l3_offset r) (cx_l4_offset r) (cx_src_ip_be r) (cx_dst_ip_be r) (cx_next_hop_ip_be r) (cx_src_port r) (cx_dst_port r) (cx_ip_protocol r) (cx_drop_reason r) (cx_report_acceptance r) (cx_transit r).
Definition set_cx_l3_offset (v : Z) (r : packet_ctx) : packet_ctx := mk_packet_ctx (cx_ingress_port_id r) (cx_egress_port_id r) v (cx_l4_offset r) (cx_src_ip_be r) (cx_dst_ip_be r) (cx_next_hop_ip_be r) (cx_src_port r) (cx_dst_port r) (cx_ip_protocol r) (cx_drop_reason r) (cx_report_acceptance r) (cx_transit r).
Definition set_cx_l4_offset (v : Z) (r : packet_ctx) : packet_ctx := mk_packet_ctx (cx_ingress_port_id r) (cx_egress_port_id r) (cx_l3_offset r) v (cx_src_ip_be r) (cx_dst_ip_be r) (cx_next_hop_ip_be r) (cx_src_port r) (cx_dst_port r) (cx_ip_protocol r) (cx_drop_reason r) (cx_report_acceptance r) (cx_transit r).
Definition set_cx_src_ip_be (v : Z) (r : packet_ctx) : packet_ctx := mk_packet_ctx (cx_ingress_port_id r) (cx_egress_port_id r) (cx_l3_offset r) (cx_l4_offset r) v (cx_dst_ip_be r) (cx_next_hop_ip_be r) (cx_src_port r) (cx_dst_port r) (cx_ip_protocol r) (cx_drop_reason r) (cx_report_acceptance r) (cx_transit r).
Definition set_cx_dst_ip_be (v : Z) (r : packet_ctx) : packet_ctx := mk_packet_ctx (cx_ingress_port_id r) (cx_egress_port_id r) (cx_l3_offset r) (cx_l4_offset r) (cx_src_ip_be r) v (cx_next_hop_ip_be r) (cx_src_port r) (cx_dst_port r) (cx_ip_protocol r) (cx_drop_reason r) (cx_report_acceptance r) (cx_transit r).
Definition set_cx_next_hop_ip_be (v : Z) (r : packet_ctx) : packet_ctx := mk_packet_ctx (cx_ingress_port_id r) (cx_egress_port_id r) (cx_l3_offset r) (cx_l4_offset r) (cx_src_ip_be r) (cx_dst_ip_be r) v (cx_src_port r) (cx_dst_port r) (cx_ip_protocol r) (cx_drop_reason r) (cx_report_acceptance r) (cx_transit r).
Definition set_cx_src_port (v : Z) (r : packet_ctx) : packet_ctx := mk_packet_ctx (cx_ingress_port_id r) (cx_egress_port_id r) (cx_l3_offset r) (cx_l4_offset r) (cx_src_ip_be r) (cx_dst_ip_be r) (cx_next_hop_ip_be r) v (cx_dst_port r) (cx_ip_protocol r) (cx_drop_reason r) (cx_report_acceptance r) (cx_transit r).
Definition set_cx_dst_port (v : Z) (r : packet_ctx) : packet_ctx := mk_packet_ctx (cx_ingress_port_id r) (cx_egress_port_id r) (cx_l3_offset r) (cx_l4_offset r) (cx_src_ip_be r) (cx_dst_ip_be r) (cx_next_hop_ip_be r) (cx_src_port r) v (cx_ip_protocol r) (cx_drop_reason r) (cx_report_acceptance r) (cx_transit r).
Definition set_cx_ip_protocol (v : Z) (r : packet_ctx) : packet_ctx := mk_packet_ctx (cx_ingress_port_id r) (cx_egress_port_id r) (cx_l3_offset r) (cx_l4_offset r) (cx_src_ip_be r) (cx_dst_ip_be r) (cx_next_hop_ip_be r) (cx_src_port r) (cx_dst_port r) v (cx_drop_reason r) (cx_report_acceptance r) (cx_transit r).
Definition set_cx_drop_reason (v : Z) (r : packet_ctx) : packet_ctx := mk_packet_ctx (cx_ingress_port_id r) (cx_egress_port_id r) (cx_l3_offset r) (cx_l4_offset r) (cx_src_ip_be r) (cx_dst_ip_be r) (cx_next_hop_ip_be r) (cx_src_port r) (cx_dst_port r) (cx_ip_protocol r) v (cx_report_acceptance r) (cx_transit r).
Definition set_cx_report_acceptance (v : bool) (r : packet_ctx) : packet_ctx := mk_packet_ctx (cx_ingress_port_id r) (cx_egress_port_id r) (cx_l3_offset r) (cx_l4_offset r) (cx_src_ip_be r) (cx_dst_ip_be r) (cx_next_hop_ip_be r) (cx_src_port r) (cx_dst_port r) (cx_ip_protocol r) (cx_drop_reason r) v (cx_transit r).
Definition set_cx_transit (v : bool) (r : packet_ctx) : packet_ctx := mk_packet_ctx (cx_ingress_port_id r) (cx_egress_port_id r) (cx_l3_offset r) (cx_l4_offset r) (cx_src_ip_be r) (cx_dst_ip_be r) (cx_next_hop_ip_be r) (cx_src_port r) (cx_dst_port r) (cx_ip_protocol r) (cx_drop_reason r) (cx_report_acceptance r) v.
#[export] Instance packet_ctx_eq_dec : EqDecision packet_ctx.
Proof. solve_decision. Defined.

(** [struct node_frame]: the packets and their contexts, [count] of them. *)
Abbreviation node_frame := (list (mbuf * packet_ctx)).

(** [struct node_stats]. *)
Record node_stats : Type := mk_node_stats {
  ns_packets : Z;
  ns_bytes : Z;
  ns_drops : Z;
  ns_errors : Z
}.
Definition zero_node_stats : node_stats := mk_node_stats 0 0 0 0.
#[export] Instance node_stats_inhabited : Inhabited node_stats := populate zero_node_stats.
Definition set_ns_packets (v : Z) (r : node_stats) : node_stats := mk_node_stats v (ns_bytes r) (ns_drops r) (ns_errors r).
Definition set_ns_bytes (v : Z) (r : node_stats) : node_stats := mk_node_stats (ns_packets r) v (ns_drops r) (ns_errors r).
Definition set_ns_drops (v : Z) (r : node_stats) : node_stats := mk_node_stats (ns_packets r) (ns_bytes r) v (ns_errors r).
Definition set_ns_errors (v : Z) (r : node_stats) : node_stats := mk_node_stats (ns_packets r) (ns_bytes r) (ns_drops r) v.
#[export] Instance node_stats_eq_dec : EqDecision node_stats.
Proof. solve_decision. Defined.

(** [struct dp_node]; the [run] pointer is [dn_run], the node whose function it is. *)
Record dp_node : Type := mk_dp_node {
  dn_id : node_id;
  dn_name : string;
  dn_run : option node_id;
  dn_stats : node_stats
}.
Definition zero_dp_node : dp_node := mk_dp_node NODE_DROP EmptyString None zero_node_stats.
#[export] Instance dp_node_inhabited : Inhabited dp_node := populate zero_dp_node.
Definition set_dn_id (v : node_id) (r : dp_node) : dp_node := mk_dp_node v (dn_name r) (dn_run r) (dn_stats r).
Definition set_dn_name (v : string) (r : dp_node) : dp_node := mk_dp_node (dn_id r) v (dn_run r) (dn_stats r).
Definition set_dn_run (v : option node_id) (r : dp_node) : dp_node := mk_dp_node (dn_id r) (dn_name r) v (dn_stats r).
Definition set_dn_stats (v : node_stats) (r : dp_node) : dp_node := mk_dp_node (dn_id r) (dn_name r) (dn_run r) v.
#[export] Instance dp_node_eq_dec : EqDecision dp_node.
Proof. solve_decision. Defined.

(** [struct graph_frame_slot]. *)
Record graph_frame_slot : Type := mk_graph_frame_slot {
  sl_frame : node_frame;
  sl_node : node_id;
  sl_used : bool
}.
Definition zero_graph_frame_slot : graph_frame_slot := mk_graph_frame_slot [] NODE_DROP false.
#[export] Instance graph_frame_slot_inhabited : Inhabited graph_frame_slot := populate zero_graph_frame_slot.
Definition set_sl_frame (v : node_frame) (r : graph_frame_slot) : graph_frame_slot := mk_graph_frame_slot v (sl_node r) (sl_used r).
Definition set_sl_node (v : node_id) (r : graph_frame_slot) : graph_frame_slot := mk_graph_frame_slot (sl_frame r) v (sl_used r).
Definition set_sl_used (v : bool) (r : graph_frame_slot) : graph_frame_slot := mk_graph_frame_slot (sl_frame r) (sl_node r) v.
#[export] Instance graph_frame_slot_eq_dec : EqDecision graph_frame_slot.
Proof. solve_decision. Defined.

(** [struct dp_graph]. *)
Record dp_graph : Type := mk_dp_graph {
  gr_nodes : list dp_node;
  gr_slots : list graph_frame_slot;
  gr_queue : list nat;
  gr_q_head : nat;
  gr_q_tail : nat;
  gr_q_count : nat;
  gr_drop_reasons : list Z
}.
Definition zero_dp_graph : dp_graph := mk_dp_graph (replicate NODE_MAX zero_dp_node) (replicate GRAPH_FRAME_POOL_SIZE zero_graph_frame_slot) (replicate GRAPH_FRAME_POOL_SIZE O) O O O (replicate DROP_REASON_MAX 0).
#[export] Instance dp_graph_inhabited : Inhabited dp_graph := populate zero_dp_graph.
Definition set_gr_nodes (v : list dp_node) (r : dp_graph) : dp_graph := mk_dp_graph v (gr_slots r) (gr_queue r) (gr_q_head r) (gr_q_tail r) (gr_q_count r) (gr_drop_reasons r).
Definition set_gr_slots (v : list graph_frame_slot) (r : dp_graph) : dp_graph := mk_dp_graph (gr_nodes r) v (gr_queue r) (gr_q_head r) (gr_q_tail r) (gr_q_count r) (gr_drop_reasons r).
Definition set_gr_queue (v : list nat) (r : dp_graph) : dp_graph := mk_dp_graph (gr_nodes r) (gr_slots r) v (gr_q_head r) (gr_q_tail r) (gr_q_count r) (gr_drop_reasons r).
Definition set_gr_q_head (v : nat) (r : dp_graph) : dp_graph := mk_dp_graph (gr_nodes r) (gr_slots r) (gr_queue r) v (gr_q_tail r) (gr_q_count r) (gr_drop_reasons r).
Definition set_gr_q_tail (v : nat) (r : dp_graph) : dp_graph := mk_dp_graph (gr_nodes r) (gr_slots r) (gr_queue r) (gr_q_head r) v (gr_q_count r) (gr_drop_reasons r).
Definition set_gr_q_count (v : nat) (r : dp_graph) : dp_graph := mk_dp_graph (gr_nodes r) (gr_slots r) (gr_queue r) (gr_q_head r) (gr_q_tail r) v (gr_drop_reasons r).
Definition set_gr_drop_reasons (v : list Z) (r : dp_graph) : dp_graph := mk_dp_graph (gr_nodes r) (gr_slots r) (gr_queue r) (gr_q_head r) (gr_q_tail r) (gr_q_count r) v.
#[export] Instance dp_graph_eq_dec : EqDecision dp_graph.
Proof. solve_decision. Defined.

(** [struct node_output]: the slot pending for each node; [UINT16_MAX] is [None]. *)
Abbreviation node_output := (list (option nat)).

(** * Routing and policy *)

(** [struct route_entry]. *)
Record route_entry : Type := mk_route_entry {
  re_prefix_be : Z;
  re_gateway_be : Z;
  re_netif_id : Z;
  re_prefix_len : Z
}.
Definition zero_route_entry : route_entry := mk_route_entry 0 0 0 0.
#[export] Instance route_entry_inhabited : Inhabited route_entry := populate zero_route_entry.
Definition set_re_prefix_be (v : Z) (r : route_entry) : route_entry := mk_route_entry v (re_gateway_be r) (re_netif_id r) (re_prefix_len r).
Definition set_re_gateway_be (v : Z) (r : route_entry) : route_entry := mk_route_entry (re_prefix_be r) v (re_netif_id r) (re_prefix_len r).
Definition set_re_netif_id (v : Z) (r : route_entry) : route_entry := mk_route_entry (re_prefix_be r) (re_gateway_be r) v (re_prefix_len r).
Definition set_re_prefix_len (v : Z) (r : route_entry) : route_entry := mk_route_entry (re_prefix_be r) (re_gateway_be r) (re_netif_id r) v.
#[export] Instance route_entry_eq_dec : EqDecision route_entry.
Proof. solve_decision. Defined.

(** [struct route_table]: [count] entries. *)
Abbreviation route_table := (list route_entry).

(** [struct route_result]. *)
Record route_result : Type := mk_route_result {
  rr_netif_id : Z;
  rr_mtu : Z;
  rr_next_hop_be : Z;
  rr_source_ip_be : Z;
  rr_table : Z;
  rr_rule_pref : Z;
  rr_type : Z;
  rr_local : Z
}.
Definition zero_route_result : route_result := mk_route_result 0 0 0 0 0 0 0 0.
#[export] Instance route_result_inhabited : Inhabited route_result := populate zero_route_result.
Definition set_rr_netif_id (v : Z) (r : route_result) : route_result := mk_route_result v (rr_mtu r) (rr_next_hop_be r) (rr_source_ip_be r) (rr_table r) (rr_rule_pref r) (rr_type r) (rr_local r).
Definition set_rr_mtu (v : Z) (r : route_result) : route_result := mk_route_result (rr_netif_id r) v (rr_next_hop_be r) (rr_source_ip_be r) (rr_table r) (rr_rule_pref r) (rr_type r) (rr_local r).
Definition set_rr_next_hop_be (v : Z) (r : route_result) : route_result := mk_route_result (rr_netif_id r) (rr_mtu r) v (rr_source_ip_be r) (rr_table r) (rr_rule_pref r) (rr_type r) (rr_local r).
Definition set_rr_source_ip_be (v : Z) (r : route_result) : route_result := mk_route_result (rr_netif_id r) (rr_mtu r) (rr_next_hop_be r) v (rr_table r) (rr_rule_pref r) (rr_type r) (rr_local r).
Definition set_rr_table (v : Z) (r : route_result) : route_result := mk_route_result (rr_netif_id r) (rr_mtu r) (rr_next_hop_be r) (rr_source_ip_be r) v (rr_rule_pref r) (rr_type r) (rr_local r).
Definition set_rr_rule_pref (v : Z) (r : route_result) : route_result := mk_route_result (rr_netif_id r) (rr_mtu r) (rr_next_hop_be r) (rr_source_ip_be r) (rr_table r) v (rr_type r) (rr_local r).
Definition set_rr_type (v : Z) (r : route_result) : route_result := mk_route_result (rr_netif_id r) (rr_mtu r) (rr_next_hop_be r) (rr_source_ip_be r) (rr_table r) (rr_rule_pref r) v (rr_local r).
Definition set_rr_local (v : Z) (r : route_result) : route_result := mk_route_result (rr_netif_id r) (rr_mtu r) (rr_next_hop_be r) (rr_source_ip_be r) (rr_table r) (rr_rule_pref r) (rr_type r) v.
#[export] Instance route_result_eq_dec : EqDecision route_result.
Proof. solve_decision. Defined.

(** [struct net_address]. *)
Record net_address : Type := mk_net_address {
  na_ip : Z;
  na_prefix : Z;
  na_dev : Z
}.
Definition zero_net_address : net_address := mk_net_address 0 0 0.
#[export] Instance net_address_inhabited : Inhabited net_address := populate zero_net_address.
Definition set_na_ip (v : Z) (r : net_address) : net_address := mk_net_address v (na_prefix r) (na_dev r).
Definition set_na_prefix (v : Z) (r : net_address) : net_address := mk_net_address (na_ip r) v (na_dev r).
Definition set_na_dev (v : Z) (r : net_address) : net_address := mk_net_address (na_ip r) (na_prefix r) v.
#[export] Instance net_address_eq_dec : EqDecision net_address.
Proof. solve_decision. Defined.

(** [struct net_route]. *)
Record net_route : Type := mk_net_route {
  nr_ip : Z;
  nr_prefix : Z;
  nr_gateway : Z;
  nr_dev : Z;
  nr_table : Z;
  nr_type : Z;
  nr_connected : Z
}.
Definition zero_net_route : net_route := mk_net_route 0 0 0 0 0 0 0.
#[export] Instance net_route_inhabited : Inhabited net_route := populate zero_net_route.
Definition set_nr_ip (v : Z) (r : net_route) : net_route := mk_net_route v (nr_prefix r) (nr_gateway r) (nr_dev r) (nr_table r) (nr_type r) (nr_connected r).
Definition set_nr_prefix (v : Z) (r : net_route) : net_route := mk_net_route (nr_ip r) v (nr_gateway r) (nr_dev r) (nr_table r) (nr_type r) (nr_connected r).
Definition set_nr_gateway (v : Z) (r : net_route) : net_route := mk_net_route (nr_ip r) (nr_prefix r) v (nr_dev r) (nr_table r) (nr_type r) (nr_connected r).
Definition set_nr_dev (v : Z) (r : net_route) : net_route := mk_net_route (nr_ip r) (nr_prefix r) (nr_gateway r) v (nr_table r) (nr_type r) (nr_connected r).
Definition set_nr_table (v : Z) (r : net_route) : net_route := mk_net_route (nr_ip r) (nr_prefix r) (nr_gateway r) (nr_dev r) v (nr_type r) (nr_connected r).
Definition set_nr_type (v : Z) (r : net_route) : net_route := mk_net_route (nr_ip r) (nr_prefix r) (nr_gateway r) (nr_dev r) (nr_table r) v (nr_connected r).
Definition set_nr_connected (v : Z) (r : net_route) : net_route := mk_net_route (nr_ip r) (nr_prefix r) (nr_gateway r) (nr_dev r) (nr_table r) (nr_type r) v.
#[export] Instance net_route_eq_dec : EqDecision net_route.
Proof. solve_decision. Defined.

(** [struct net_rule]. *)
Record net_rule : Type := mk_net_rule {
  ru_pref : Z;
  ru_src : Z;
  ru_src_prefix : Z;
  ru_dst : Z;
  ru_dst_prefix : Z;
  ru_iif : Z;
  ru_table : Z;
  ru_type : Z
}.
Definition zero_net_rule : net_rule := mk_net_rule 0 0 0 0 0 0 0 0.
#[export] Instance net_rule_inhabited : Inhabited net_rule := populate zero_net_rule.
Definition set_ru_pref (v : Z) (r : net_rule) : net_rule := mk_net_rule v (ru_src r) (ru_src_prefix r) (ru_dst r) (ru_dst_prefix r) (ru_iif r) (ru_table r) (ru_type r).
Definition set_ru_src (v : Z) (r : net_rule) : net_rule := mk_net_rule (ru_pref r) v (ru_src_prefix r) (ru_dst r) (ru_dst_prefix r) (ru_iif r) (ru_table r) (ru_type r).
Definition set_ru_src_prefix (v : Z) (r : net_rule) : net_rule := mk_net_rule (ru_pref r) (ru_src r) v (ru_dst r) (ru_dst_prefix r) (ru_iif r) (ru_table r) (ru_type r).
Definition set_ru_dst (v : Z) (r : net_rule) : net_rule := mk_net_rule (ru_pref r) (ru_src r) (ru_src_prefix r) v (ru_dst_prefix r) (ru_iif r) (ru_table r) (ru_type r).
Definition set_ru_dst_prefix (v : Z) (r : net_rule) : net_rule := mk_net_rule (ru_pref r) (ru_src r) (ru_src_prefix r) (ru_dst r) v (ru_iif r) (ru_table r) (ru_type r).
Definition set_ru_iif (v : Z) (r : net_rule) : net_rule := mk_net_rule (ru_pref r) (ru_src r) (ru_src_prefix r) (ru_dst r) (ru_dst_prefix r) v (ru_table r) (ru_type r).
Definition set_ru_table (v : Z) (r : net_rule) : net_rule := mk_net_rule (ru_pref r) (ru_src r) (ru_src_prefix r) (ru_dst r) (ru_dst_prefix r) (ru_iif r) v (ru_type r).
Definition set_ru_type (v : Z) (r : net_rule) : net_rule := mk_net_rule (ru_pref r) (ru_src r) (ru_src_prefix r) (ru_dst r) (ru_dst_prefix r) (ru_iif r) (ru_table r) v.
#[export] Instance net_rule_eq_dec : EqDecision net_rule.
Proof. solve_decision. Defined.

(** [struct net_route_index]. *)
Record net_route_index : Type := mk_net_route_index {
  ix_table : Z;
  ix_ip : Z;
  ix_mask : Z;
  ix_route : nat;
  ix_prefix : Z
}.
Definition zero_net_route_index : net_route_index := mk_net_route_index 0 0 0 O 0.
#[export] Instance net_route_index_inhabited : Inhabited net_route_index := populate zero_net_route_index.
Definition set_ix_table (v : Z) (r : net_route_index) : net_route_index := mk_net_route_index v (ix_ip r) (ix_mask r) (ix_route r) (ix_prefix r).
Definition set_ix_ip (v : Z) (r : net_route_index) : net_route_index := mk_net_route_index (ix_table r) v (ix_mask r) (ix_route r) (ix_prefix r).
Definition set_ix_mask (v : Z) (r : net_route_index) : net_route_index := mk_net_route_index (ix_table r) (ix_ip r) v (ix_route r) (ix_prefix r).
Definition set_ix_route (v : nat) (r : net_route_index) : net_route_index := mk_net_route_index (ix_table r) (ix_ip r) (ix_mask r) v (ix_prefix r).
Definition set_ix_prefix (v : Z) (r : net_route_index) : net_route_index := mk_net_route_index (ix_table r) (ix_ip r) (ix_mask r) (ix_route r) v.
#[export] Instance net_route_index_eq_dec : EqDecision net_route_index.
Proof. solve_decision. Defined.

(** [struct net_acl]. *)
Record net_acl : Type := mk_net_acl {
  ac_pref : Z;
  ac_src : Z;
  ac_src_prefix : Z;
  ac_dst : Z;
  ac_dst_prefix : Z;
  ac_iif : Z;
  ac_proto : Z;
  ac_sport_min : Z;
  ac_sport_max : Z;
  ac_dport_min : Z;
  ac_dport_max : Z;
  ac_ports : Z;
  ac_drop : Z
}.
Definition zero_net_acl : net_acl := mk_net_acl 0 0 0 0 0 0 0 0 0 0 0 0 0.
#[export] Instance net_acl_inhabited : Inhabited net_acl := populate zero_net_acl.
Definition set_ac_pref (v : Z) (r : net_acl) : net_acl := mk_net_acl v (ac_src r) (ac_src_prefix r) (ac_dst r) (ac_dst_prefix r) (ac_iif r) (ac_proto r) (ac_sport_min r) (ac_sport_max r) (ac_dport_min r) (ac_dport_max r) (ac_ports r) (ac_drop r).
Definition set_ac_src (v : Z) (r : net_acl) : net_acl := mk_net_acl (ac_pref r) v (ac_src_prefix r) (ac_dst r) (ac_dst_prefix r) (ac_iif r) (ac_proto r) (ac_sport_min r) (ac_sport_max r) (ac_dport_min r) (ac_dport_max r) (ac_ports r) (ac_drop r).
Definition set_ac_src_prefix (v : Z) (r : net_acl) : net_acl := mk_net_acl (ac_pref r) (ac_src r) v (ac_dst r) (ac_dst_prefix r) (ac_iif r) (ac_proto r) (ac_sport_min r) (ac_sport_max r) (ac_dport_min r) (ac_dport_max r) (ac_ports r) (ac_drop r).
Definition set_ac_dst (v : Z) (r : net_acl) : net_acl := mk_net_acl (ac_pref r) (ac_src r) (ac_src_prefix r) v (ac_dst_prefix r) (ac_iif r) (ac_proto r) (ac_sport_min r) (ac_sport_max r) (ac_dport_min r) (ac_dport_max r) (ac_ports r) (ac_drop r).
Definition set_ac_dst_prefix (v : Z) (r : net_acl) : net_acl := mk_net_acl (ac_pref r) (ac_src r) (ac_src_prefix r) (ac_dst r) v (ac_iif r) (ac_proto r) (ac_sport_min r) (ac_sport_max r) (ac_dport_min r) (ac_dport_max r) (ac_ports r) (ac_drop r).
Definition set_ac_iif (v : Z) (r : net_acl) : net_acl := mk_net_acl (ac_pref r) (ac_src r) (ac_src_prefix r) (ac_dst r) (ac_dst_prefix r) v (ac_proto r) (ac_sport_min r) (ac_sport_max r) (ac_dport_min r) (ac_dport_max r) (ac_ports r) (ac_drop r).
Definition set_ac_proto (v : Z) (r : net_acl) : net_acl := mk_net_acl (ac_pref r) (ac_src r) (ac_src_prefix r) (ac_dst r) (ac_dst_prefix r) (ac_iif r) v (ac_sport_min r) (ac_sport_max r) (ac_dport_min r) (ac_dport_max r) (ac_ports r) (ac_drop r).
Definition set_ac_sport_min (v : Z) (r : net_acl) : net_acl := mk_net_acl (ac_pref r) (ac_src r) (ac_src_prefix r) (ac_dst r) (ac_dst_prefix r) (ac_iif r) (ac_proto r) v (ac_sport_max r) (ac_dport_min r) (ac_dport_max r) (ac_ports r) (ac_drop r).
Definition set_ac_sport_max (v : Z) (r : net_acl) : net_acl := mk_net_acl (ac_pref r) (ac_src r) (ac_src_prefix r) (ac_dst r) (ac_dst_prefix r) (ac_iif r) (ac_proto r) (ac_sport_min r) v (ac_dport_min r) (ac_dport_max r) (ac_ports r) (ac_drop r).
Definition set_ac_dport_min (v : Z) (r : net_acl) : net_acl := mk_net_acl (ac_pref r) (ac_src r) (ac_src_prefix r) (ac_dst r) (ac_dst_prefix r) (ac_iif r) (ac_proto r) (ac_sport_min r) (ac_sport_max r) v (ac_dport_max r) (ac_ports r) (ac_drop r).
Definition set_ac_dport_max (v : Z) (r : net_acl) : net_acl := mk_net_acl (ac_pref r) (ac_src r) (ac_src_prefix r) (ac_dst r) (ac_dst_prefix r) (ac_iif r) (ac_proto r) (ac_sport_min r) (ac_sport_max r) (ac_dport_min r) v (ac_ports r) (ac_drop r).
Definition set_ac_ports (v : Z) (r : net_acl) : net_acl := mk_net_acl (ac_pref r) (ac_src r) (ac_src_prefix r) (ac_dst r) (ac_dst_prefix r) (ac_iif r) (ac_proto r) (ac_sport_min r) (ac_sport_max r) (ac_dport_min r) (ac_dport_max r) v (ac_drop r).
Definition set_ac_drop (v : Z) (r : net_acl) : net_acl := mk_net_acl (ac_pref r) (ac_src r) (ac_src_prefix r) (ac_dst r) (ac_dst_prefix r) (ac_iif r) (ac_proto r) (ac_sport_min r) (ac_sport_max r) (ac_dport_min r) (ac_dport_max r) (ac_ports r) v.
#[export] Instance net_acl_eq_dec : EqDecision net_acl.
Proof. solve_decision. Defined.

(** [struct net_config]; the counts are the lengths of the lists. *)
Record net_config : Type := mk_net_config {
  nc_generation : Z;
  nc_default_drop : Z;
  nc_addresses : list net_address;
  nc_routes : list net_route;
  nc_routes_indexed : bool;
  nc_route_index : list net_route_index;
  nc_rules : list net_rule;
  nc_acls : list net_acl
}.
Definition zero_net_config : net_config := mk_net_config 0 0 [] [] false [] [] [].
#[export] Instance net_config_inhabited : Inhabited net_config := populate zero_net_config.
Definition set_nc_generation (v : Z) (r : net_config) : net_config := mk_net_config v (nc_default_drop r) (nc_addresses r) (nc_routes r) (nc_routes_indexed r) (nc_route_index r) (nc_rules r) (nc_acls r).
Definition set_nc_default_drop (v : Z) (r : net_config) : net_config := mk_net_config (nc_generation r) v (nc_addresses r) (nc_routes r) (nc_routes_indexed r) (nc_route_index r) (nc_rules r) (nc_acls r).
Definition set_nc_addresses (v : list net_address) (r : net_config) : net_config := mk_net_config (nc_generation r) (nc_default_drop r) v (nc_routes r) (nc_routes_indexed r) (nc_route_index r) (nc_rules r) (nc_acls r).
Definition set_nc_routes (v : list net_route) (r : net_config) : net_config := mk_net_config (nc_generation r) (nc_default_drop r) (nc_addresses r) v (nc_routes_indexed r) (nc_route_index r) (nc_rules r) (nc_acls r).
Definition set_nc_routes_indexed (v : bool) (r : net_config) : net_config := mk_net_config (nc_generation r) (nc_default_drop r) (nc_addresses r) (nc_routes r) v (nc_route_index r) (nc_rules r) (nc_acls r).
Definition set_nc_route_index (v : list net_route_index) (r : net_config) : net_config := mk_net_config (nc_generation r) (nc_default_drop r) (nc_addresses r) (nc_routes r) (nc_routes_indexed r) v (nc_rules r) (nc_acls r).
Definition set_nc_rules (v : list net_rule) (r : net_config) : net_config := mk_net_config (nc_generation r) (nc_default_drop r) (nc_addresses r) (nc_routes r) (nc_routes_indexed r) (nc_route_index r) v (nc_acls r).
Definition set_nc_acls (v : list net_acl) (r : net_config) : net_config := mk_net_config (nc_generation r) (nc_default_drop r) (nc_addresses r) (nc_routes r) (nc_routes_indexed r) (nc_route_index r) (nc_rules r) v.
#[export] Instance net_config_eq_dec : EqDecision net_config.
Proof. solve_decision. Defined.

(** [struct acl_counter]. *)
Record acl_counter : Type := mk_acl_counter {
  ct_packets : Z;
  ct_bytes : Z
}.
Definition zero_acl_counter : acl_counter := mk_acl_counter 0 0.
#[export] Instance acl_counter_inhabited : Inhabited acl_counter := populate zero_acl_counter.
Definition set_ct_packets (v : Z) (r : acl_counter) : acl_counter := mk_acl_counter v (ct_bytes r).
Definition set_ct_bytes (v : Z) (r : acl_counter) : acl_counter := mk_acl_counter (ct_packets r) v.
#[export] Instance acl_counter_eq_dec : EqDecision acl_counter.
Proof. solve_decision. Defined.

(** [struct acl_counters]. *)
Record acl_counters : Type := mk_acl_counters {
  cs_rules : list acl_counter;
  cs_accepted : Z;
  cs_dropped : Z;
  cs_defaults : Z
}.
Definition zero_acl_counters : acl_counters := mk_acl_counters (replicate (Z.to_nat NET_ACL_MAX) zero_acl_counter) 0 0 0.
#[export] Instance acl_counters_inhabited : Inhabited acl_counters := populate zero_acl_counters.
Definition set_cs_rules (v : list acl_counter) (r : acl_counters) : acl_counters := mk_acl_counters v (cs_accepted r) (cs_dropped r) (cs_defaults r).
Definition set_cs_accepted (v : Z) (r : acl_counters) : acl_counters := mk_acl_counters (cs_rules r) v (cs_dropped r) (cs_defaults r).
Definition set_cs_dropped (v : Z) (r : acl_counters) : acl_counters := mk_acl_counters (cs_rules r) (cs_accepted r) v (cs_defaults r).
Definition set_cs_defaults (v : Z) (r : acl_counters) : acl_counters := mk_acl_counters (cs_rules r) (cs_accepted r) (cs_dropped r) v.
#[export] Instance acl_counters_eq_dec : EqDecision acl_counters.
Proof. solve_decision. Defined.

(** [struct acl_key]. *)
Record acl_key : Type := mk_acl_key {
  ak_src : Z;
  ak_dst : Z;
  ak_iif : Z;
  ak_sport : Z;
  ak_dport : Z;
  ak_proto : Z;
  ak_ports_valid : bool
}.
Definition zero_acl_key : acl_key := mk_acl_key 0 0 0 0 0 0 false.
#[export] Instance acl_key_inhabited : Inhabited acl_key := populate zero_acl_key.
Definition set_ak_src (v : Z) (r : acl_key) : acl_key := mk_acl_key v (ak_dst r) (ak_iif r) (ak_sport r) (ak_dport r) (ak_proto r) (ak_ports_valid r).
Definition set_ak_dst (v : Z) (r : acl_key) : acl_key := mk_acl_key (ak_src r) v (ak_iif r) (ak_sport r) (ak_dport r) (ak_proto r) (ak_ports_valid r).
Definition set_ak_iif (v : Z) (r : acl_key) : acl_key := mk_acl_key (ak_src r) (ak_dst r) v (ak_sport r) (ak_dport r) (ak_proto r) (ak_ports_valid r).
Definition set_ak_sport (v : Z) (r : acl_key) : acl_key := mk_acl_key (ak_src r) (ak_dst r) (ak_iif r) v (ak_dport r) (ak_proto r) (ak_ports_valid r).
Definition set_ak_dport (v : Z) (r : acl_key) : acl_key := mk_acl_key (ak_src r) (ak_dst r) (ak_iif r) (ak_sport r) v (ak_proto r) (ak_ports_valid r).
Definition set_ak_proto (v : Z) (r : acl_key) : acl_key := mk_acl_key (ak_src r) (ak_dst r) (ak_iif r) (ak_sport r) (ak_dport r) v (ak_ports_valid r).
Definition set_ak_ports_valid (v : bool) (r : acl_key) : acl_key := mk_acl_key (ak_src r) (ak_dst r) (ak_iif r) (ak_sport r) (ak_dport r) (ak_proto r) v.
#[export] Instance acl_key_eq_dec : EqDecision acl_key.
Proof. solve_decision. Defined.

(** [struct admin_event]. *)
Record admin_event : Type := mk_admin_event {
  ev_sequence : Z;
  ev_generation : Z;
  ev_group : Z;
  ev_id : Z;
  ev_action : Z;
  ev_ip : Z;
  ev_prefix : Z;
  ev_dev : Z;
  ev_table : Z
}.
Definition zero_admin_event : admin_event := mk_admin_event 0 0 0 0 0 0 0 0 0.
#[export] Instance admin_event_inhabited : Inhabited admin_event := populate zero_admin_event.
Definition set_ev_sequence (v : Z) (r : admin_event) : admin_event := mk_admin_event v (ev_generation r) (ev_group r) (ev_id r) (ev_action r) (ev_ip r) (ev_prefix r) (ev_dev r) (ev_table r).
Definition set_ev_generation (v : Z) (r : admin_event) : admin_event := mk_admin_event (ev_sequence r) v (ev_group r) (ev_id r) (ev_action r) (ev_ip r) (ev_prefix r) (ev_dev r) (ev_table r).
Definition set_ev_group (v : Z) (r : admin_event) : admin_event := mk_admin_event (ev_sequence r) (ev_generation r) v (ev_id r) (ev_action r) (ev_ip r) (ev_prefix r) (ev_dev r) (ev_table r).
Definition set_ev_id (v : Z) (r : admin_event) : admin_event := mk_admin_event (ev_sequence r) (ev_generation r) (ev_group r) v (ev_action r) (ev_ip r) (ev_prefix r) (ev_dev r) (ev_table r).
Definition set_ev_action (v : Z) (r : admin_event) : admin_event := mk_admin_event (ev_sequence r) (ev_generation r) (ev_group r) (ev_id r) v (ev_ip r) (ev_prefix r) (ev_dev r) (ev_table r).
Definition set_ev_ip (v : Z) (r : admin_event) : admin_event := mk_admin_event (ev_sequence r) (ev_generation r) (ev_group r) (ev_id r) (ev_action r) v (ev_prefix r) (ev_dev r) (ev_table r).
Definition set_ev_prefix (v : Z) (r : admin_event) : admin_event := mk_admin_event (ev_sequence r) (ev_generation r) (ev_group r) (ev_id r) (ev_action r) (ev_ip r) v (ev_dev r) (ev_table r).
Definition set_ev_dev (v : Z) (r : admin_event) : admin_event := mk_admin_event (ev_sequence r) (ev_generation r) (ev_group r) (ev_id r) (ev_action r) (ev_ip r) (ev_prefix r) v (ev_table r).
Definition set_ev_table (v : Z) (r : admin_event) : admin_event := mk_admin_event (ev_sequence r) (ev_generation r) (ev_group r) (ev_id r) (ev_action r) (ev_ip r) (ev_prefix r) (ev_dev r) v.
#[export] Instance admin_event_eq_dec : EqDecision admin_event.
Proof. solve_decision. Defined.

(** [struct admin_events]. *)
Record admin_events : Type := mk_admin_events {
  es_sequence : Z;
  es_entries : list admin_event
}.
Definition zero_admin_events : admin_events := mk_admin_events 0 (replicate (Z.to_nat ADMIN_EVENT_MAX) zero_admin_event).
#[export] Instance admin_events_inhabited : Inhabited admin_events := populate zero_admin_events.
Definition set_es_sequence (v : Z) (r : admin_events) : admin_events := mk_admin_events v (es_entries r).
Definition set_es_entries (v : list admin_event) (r : admin_events) : admin_events := mk_admin_events (es_sequence r) v.
#[export] Instance admin_events_eq_dec : EqDecision admin_events.
Proof. solve_decision. Defined.

(** * Neighbours *)

(** [struct neighbour_entry]. *)
Record neighbour_entry : Type := mk_neighbour_entry {
  ne_ip_be : Z;
  ne_netif_id : Z;
  ne_mac : ether_addr;
  ne_in_use : bool;
  ne_permanent : bool
}.
Definition zero_neighbour_entry : neighbour_entry := mk_neighbour_entry 0 0 zero_ether_addr false false.
#[export] Instance neighbour_entry_inhabited : Inhabited neighbour_entry := populate zero_neighbour_entry.
Definition set_ne_ip_be (v : Z) (r : neighbour_entry) : neighbour_entry := mk_neighbour_entry v (ne_netif_id r) (ne_mac r) (ne_in_use r) (ne_permanent r).
Definition set_ne_netif_id (v : Z) (r : neighbour_entry) : neighbour_entry := mk_neighbour_entry (ne_ip_be r) v (ne_mac r) (ne_in_use r) (ne_permanent r).
Definition set_ne_mac (v : ether_addr) (r : neighbour_entry) : neighbour_entry := mk_neighbour_entry (ne_ip_be r) (ne_netif_id r) v (ne_in_use r) (ne_permanent r).
Definition set_ne_in_use (v : bool) (r : neighbour_entry) : neighbour_entry := mk_neighbour_entry (ne_ip_be r) (ne_netif_id r) (ne_mac r) v (ne_permanent r).
Definition set_ne_permanent (v : bool) (r : neighbour_entry) : neighbour_entry := mk_neighbour_entry (ne_ip_be r) (ne_netif_id r) (ne_mac r) (ne_in_use r) v.
#[export] Instance neighbour_entry_eq_dec : EqDecision neighbour_entry.
Proof. solve_decision. Defined.

(** [struct pending_neighbour]; [count] is the length of the packet list. *)
Record pending_neighbour : Type := mk_pending_neighbour {
  pn_ip_be : Z;
  pn_netif_id : Z;
  pn_requests : Z;
  pn_last_request : Z;
  pn_packets : node_frame
}.
Definition zero_pending_neighbour : pending_neighbour := mk_pending_neighbour 0 0 0 0 [].
#[export] Instance pending_neighbour_inhabited : Inhabited pending_neighbour := populate zero_pending_neighbour.
Definition set_pn_ip_be (v : Z) (r : pending_neighbour) : pending_neighbour := mk_pending_neighbour v (pn_netif_id r) (pn_requests r) (pn_last_request r) (pn_packets r).
Definition set_pn_netif_id (v : Z) (r : pending_neighbour) : pending_neighbour := mk_pending_neighbour (pn_ip_be r) v (pn_requests r) (pn_last_request r) (pn_packets r).
Definition set_pn_requests (v : Z) (r : pending_neighbour) : pending_neighbour := mk_pending_neighbour (pn_ip_be r) (pn_netif_id r) v (pn_last_request r) (pn_packets r).
Definition set_pn_last_request (v : Z) (r : pending_neighbour) : pending_neighbour := mk_pending_neighbour (pn_ip_be r) (pn_netif_id r) (pn_requests r) v (pn_packets r).
Definition set_pn_packets (v : node_frame) (r : pending_neighbour) : pending_neighbour := mk_pending_neighbour (pn_ip_be r) (pn_netif_id r) (pn_requests r) (pn_last_request r) v.
#[export] Instance pending_neighbour_eq_dec : EqDecision pending_neighbour.
Proof. solve_decision. Defined.

(** [struct neighbour_table]: [NEIGHBOUR_CAPACITY] entries. *)
Abbreviation neighbour_table := (list neighbour_entry).
Definition zero_neighbour_table : neighbour_table :=
  replicate (Z.to_nat NEIGHBOUR_CAPACITY) zero_neighbour_entry.

(** * Sockets *)

(** [struct ps_sockaddr]. *)
Record ps_sockaddr : Type := mk_ps_sockaddr {
  sa_ip_be : Z;
  sa_port : Z
}.
Definition zero_ps_sockaddr : ps_sockaddr := mk_ps_sockaddr 0 0.
#[export] Instance ps_sockaddr_inhabited : Inhabited ps_sockaddr := populate zero_ps_sockaddr.
Definition set_sa_ip_be (v : Z) (r : ps_sockaddr) : ps_sockaddr := mk_ps_sockaddr v (sa_port r).
Definition set_sa_port (v : Z) (r : ps_sockaddr) : ps_sockaddr := mk_ps_sockaddr (sa_ip_be r) v.
#[export] Instance ps_sockaddr_eq_dec : EqDecision ps_sockaddr.
Proof. solve_decision. Defined.

(** [struct udp_datagram]; [payload] holds [length] bytes. *)
Record udp_datagram : Type := mk_udp_datagram {
  dg_source : ps_sockaddr;
  dg_length : Z;
  dg_payload : list Z
}.
Definition zero_udp_datagram : udp_datagram := mk_udp_datagram zero_ps_sockaddr 0 [].
#[export] Instance udp_datagram_inhabited : Inhabited udp_datagram := populate zero_udp_datagram.
Definition set_dg_source (v : ps_sockaddr) (r : udp_datagram) : udp_datagram := mk_udp_datagram v (dg_length r) (dg_payload r).
Definition set_dg_length (v : Z) (r : udp_datagram) : udp_datagram := mk_udp_datagram (dg_source r) v (dg_payload r).
Definition set_dg_payload (v : list Z) (r : udp_datagram) : udp_datagram := mk_udp_datagram (dg_source r) (dg_length r) v.
#[export] Instance udp_datagram_eq_dec : EqDecision udp_datagram.
Proof. solve_decision. Defined.

(** [struct udp_endpoint]. *)
Record udp_endpoint : Type := mk_udp_endpoint {
  ud_head : Z;
  ud_count : Z;
  ud_queue : list udp_datagram
}.
Definition zero_udp_endpoint : udp_endpoint := mk_udp_endpoint 0 0 (replicate (Z.to_nat PS_DGRAM_QUEUE_SIZE) zero_udp_datagram).
#[export] Instance udp_endpoint_inhabited : Inhabited udp_endpoint := populate zero_udp_endpoint.
Definition set_ud_head (v : Z) (r : udp_endpoint) : udp_endpoint := mk_udp_endpoint v (ud_count r) (ud_queue r).
Definition set_ud_count (v : Z) (r : udp_endpoint) : udp_endpoint := mk_udp_endpoint (ud_head r) v (ud_queue r).
Definition set_ud_queue (v : list udp_datagram) (r : udp_endpoint) : udp_endpoint := mk_udp_endpoint (ud_head r) (ud_count r) v.
#[export] Instance udp_endpoint_eq_dec : EqDecision udp_endpoint.
Proof. solve_decision. Defined.

(** [enum tcp_state]. *)
Inductive tcp_state : Type :=
| TCP_CLOSED | TCP_LISTEN | TCP_SYN_SENT | TCP_SYN_RECEIVED
| TCP_ESTABLISHED | TCP_FIN_WAIT_1 | TCP_FIN_WAIT_2 | TCP_CLOSE_WAIT
| TCP_LAST_ACK | TCP_TIME_WAIT.
#[export] Instance tcp_state_eq_dec : EqDecision tcp_state.
Proof. solve_decision. Defined.

(** The numeric value of the enumeration constant. *)
Definition tcp_state_index (x : tcp_state) : nat :=
  match x with
  | TCP_CLOSED => 0 | TCP_LISTEN => 1 | TCP_SYN_SENT => 2 | TCP_SYN_RECEIVED => 3
  | TCP_ESTABLISHED => 4 | TCP_FIN_WAIT_1 => 5 | TCP_FIN_WAIT_2 => 6 | TCP_CLOSE_WAIT => 7
  | TCP_LAST_ACK => 8 | TCP_TIME_WAIT => 9
  end%nat.

(** [struct tcp_connection]; [tc_rx] and [tc_tx] are the filled parts of the two buffers. *)
Record tcp_connection : Type := mk_tcp_connection {
  tc_state : tcp_state;
  tc_parent : Z;
  tc_backlog : Z;
  tc_mss : Z;
  tc_peer_window : Z;
  tc_snd_una : Z;
  tc_snd_nxt : Z;
  tc_rcv_nxt : Z;
  tc_snd_wl1 : Z;
  tc_snd_wl2 : Z;
  tc_rx_len : Z;
  tc_tx_len : Z;
  tc_flight_len : Z;
  tc_flight_flags : Z;
  tc_retries : Z;
  tc_closing : bool;
  tc_peer_fin : bool;
  tc_deadline : Z;
  tc_rto : Z;
  tc_expires : Z;
  tc_rx : list Z;
  tc_tx : list Z
}.
Definition zero_tcp_connection : tcp_connection := mk_tcp_connection TCP_CLOSED 0 0 0 0 0 0 0 0 0 0 0 0 0 0 false false 0 0 0 [] [].
#[export] Instance tcp_connection_inhabited : Inhabited tcp_connection := populate zero_tcp_connection.
Definition set_tc_state (v : tcp_state) (r : tcp_connection) : tcp_connection := mk_tcp_connection v (tc_parent r) (tc_backlog r) (tc_mss r) (tc_peer_window r) (tc_snd_una r) (tc_snd_nxt r) (tc_rcv_nxt r) (tc_snd_wl1 r) (tc_snd_wl2 r) (tc_rx_len r) (tc_tx_len r) (tc_flight_len r) (tc_flight_flags r) (tc_retries r) (tc_closing r) (tc_peer_fin r) (tc_deadline r) (tc_rto r) (tc_expires r) (tc_rx r) (tc_tx r).
Definition set_tc_parent (v : Z) (r : tcp_connection) : tcp_connection := mk_tcp_connection (tc_state r) v (tc_backlog r) (tc_mss r) (tc_peer_window r) (tc_snd_una r) (tc_snd_nxt r) (tc_rcv_nxt r) (tc_snd_wl1 r) (tc_snd_wl2 r) (tc_rx_len r) (tc_tx_len r) (tc_flight_len r) (tc_flight_flags r) (tc_retries r) (tc_closing r) (tc_peer_fin r) (tc_deadline r) (tc_rto r) (tc_expires r) (tc_rx r) (tc_tx r).
Definition set_tc_backlog (v : Z) (r : tcp_connection) : tcp_connection := mk_tcp_connection (tc_state r) (tc_parent r) v (tc_mss r) (tc_peer_window r) (tc_snd_una r) (tc_snd_nxt r) (tc_rcv_nxt r) (tc_snd_wl1 r) (tc_snd_wl2 r) (tc_rx_len r) (tc_tx_len r) (tc_flight_len r) (tc_flight_flags r) (tc_retries r) (tc_closing r) (tc_peer_fin r) (tc_deadline r) (tc_rto r) (tc_expires r) (tc_rx r) (tc_tx r).
Definition set_tc_mss (v : Z) (r : tcp_connection) : tcp_connection := mk_tcp_connection (tc_state r) (tc_parent r) (tc_backlog r) v (tc_peer_window r) (tc_snd_una r) (tc_snd_nxt r) (tc_rcv_nxt r) (tc_snd_wl1 r) (tc_snd_wl2 r) (tc_rx_len r) (tc_tx_len r) (tc_flight_len r) (tc_flight_flags r) (tc_retries r) (tc_closing r) (tc_peer_fin r) (tc_deadline r) (tc_rto r) (tc_expires r) (tc_rx r) (tc_tx r).
Definition set_tc_peer_window (v : Z) (r : tcp_connection) : tcp_connection := mk_tcp_connection (tc_state r) (tc_parent r) (tc_backlog r) (tc_mss r) v (tc_snd_una r) (tc_snd_nxt r) (tc_rcv_nxt r) (tc_snd_wl1 r) (tc_snd_wl2 r) (tc_rx_len r) (tc_tx_len r) (tc_flight_len r) (tc_flight_flags r) (tc_retries r) (tc_closing r) (tc_peer_fin r) (tc_deadline r) (tc_rto r) (tc_expires r) (tc_rx r) (tc_tx r).
Definition set_tc_snd_una (v : Z) (r : tcp_connection) : tcp_connection := mk_tcp_connection (tc_state r) (tc_parent r) (tc_backlog r) (tc_mss r) (tc_peer_window r) v (tc_snd_nxt r) (tc_rcv_nxt r) (tc_snd_wl1 r) (tc_snd_wl2 r) (tc_rx_len r) (tc_tx_len r) (tc_flight_len r) (tc_flight_flags r) (tc_retries r) (tc_closing r) (tc_peer_fin r) (tc_deadline r) (tc_rto r) (tc_expires r) (tc_rx r) (tc_tx r).
Definition set_tc_snd_nxt (v : Z) (r : tcp_connection) : tcp_connection := mk_tcp_connection (tc_state r) (tc_parent r) (tc_backlog r) (tc_mss r) (tc_peer_window r) (tc_snd_una r) v (tc_rcv_nxt r) (tc_snd_wl1 r) (tc_snd_wl2 r) (tc_rx_len r) (tc_tx_len r) (tc_flight_len r) (tc_flight_flags r) (tc_retries r) (tc_closing r) (tc_peer_fin r) (tc_deadline r) (tc_rto r) (tc_expires r) (tc_rx r) (tc_tx r).
Definition set_tc_rcv_nxt (v : Z) (r : tcp_connection) : tcp_connection := mk_tcp_connection (tc_state r) (tc_parent r) (tc_backlog r) (tc_mss r) (tc_peer_window r) (tc_snd_una r) (tc_snd_nxt r) v (tc_snd_wl1 r) (tc_snd_wl2 r) (tc_rx_len r) (tc_tx_len r) (tc_flight_len r) (tc_flight_flags r) (tc_retries r) (tc_closing r) (tc_peer_fin r) (tc_deadline r) (tc_rto r) (tc_expires r) (tc_rx r) (tc_tx r).
Definition set_tc_snd_wl1 (v : Z) (r : tcp_connection) : tcp_connection := mk_tcp_connection (tc_state r) (tc_parent r) (tc_backlog r) (tc_mss r) (tc_peer_window r) (tc_snd_una r) (tc_snd_nxt r) (tc_rcv_nxt r) v (tc_snd_wl2 r) (tc_rx_len r) (tc_tx_len r) (tc_flight_len r) (tc_flight_flags r) (tc_retries r) (tc_closing r) (tc_peer_fin r) (tc_deadline r) (tc_rto r) (tc_expires r) (tc_rx r) (tc_tx r).
Definition set_tc_snd_wl2 (v : Z) (r : tcp_connection) : tcp_connection := mk_tcp_connection (tc_state r) (tc_parent r) (tc_backlog r) (tc_mss r) (tc_peer_window r) (tc_snd_una r) (tc_snd_nxt r) (tc_rcv_nxt r) (tc_snd_wl1 r) v (tc_rx_len r) (tc_tx_len r) (tc_flight_len r) (tc_flight_flags r) (tc_retries r) (tc_closing r) (tc_peer_fin r) (tc_deadline r) (tc_rto r) (tc_expires r) (tc_rx r) (tc_tx r).
Definition set_tc_rx_len (v : Z) (r : tcp_connection) : tcp_connection := mk_tcp_connection (tc_state r) (tc_parent r) (tc_backlog r) (tc_mss r) (tc_peer_window r) (tc_snd_una r) (tc_snd_nxt r) (tc_rcv_nxt r) (tc_snd_wl1 r) (tc_snd_wl2 r) v (tc_tx_len r) (tc_flight_len r) (tc_flight_flags r) (tc_retries r) (tc_closing r) (tc_peer_fin r) (tc_deadline r) (tc_rto r) (tc_expires r) (tc_rx r) (tc_tx r).
Definition set_tc_tx_len (v : Z) (r : tcp_connection) : tcp_connection := mk_tcp_connection (tc_state r) (tc_parent r) (tc_backlog r) (tc_mss r) (tc_peer_window r) (tc_snd_una r) (tc_snd_nxt r) (tc_rcv_nxt r) (tc_snd_wl1 r) (tc_snd_wl2 r) (tc_rx_len r) v (tc_flight_len r) (tc_flight_flags r) (tc_retries r) (tc_closing r) (tc_peer_fin r) (tc_deadline r) (tc_rto r) (tc_expires r) (tc_rx r) (tc_tx r).
Definition set_tc_flight_len (v : Z) (r : tcp_connection) : tcp_connection := mk_tcp_connection (tc_state r) (tc_parent r) (tc_backlog r) (tc_mss r) (tc_peer_window r) (tc_snd_una r) (tc_snd_nxt r) (tc_rcv_nxt r) (tc_snd_wl1 r) (tc_snd_wl2 r) (tc_rx_len r) (tc_tx_len r) v (tc_flight_flags r) (tc_retries r) (tc_closing r) (tc_peer_fin r) (tc_deadline r) (tc_rto r) (tc_expires r) (tc_rx r) (tc_tx r).
Definition set_tc_flight_flags (v : Z) (r : tcp_connection) : tcp_connection := mk_tcp_connection (tc_state r) (tc_parent r) (tc_backlog r) (tc_mss r) (tc_peer_window r) (tc_snd_una r) (tc_snd_nxt r) (tc_rcv_nxt r) (tc_snd_wl1 r) (tc_snd_wl2 r) (tc_rx_len r) (tc_tx_len r) (tc_flight_len r) v (tc_retries r) (tc_closing r) (tc_peer_fin r) (tc_deadline r) (tc_rto r) (tc_expires r) (tc_rx r) (tc_tx r).
Definition set_tc_retries (v : Z) (r : tcp_connection) : tcp_connection := mk_tcp_connection (tc_state r) (tc_parent r) (tc_backlog r) (tc_mss r) (tc_peer_window r) (tc_snd_una r) (tc_snd_nxt r) (tc_rcv_nxt r) (tc_snd_wl1 r) (tc_snd_wl2 r) (tc_rx_len r) (tc_tx_len r) (tc_flight_len r) (tc_flight_flags r) v (tc_closing r) (tc_peer_fin r) (tc_deadline r) (tc_rto r) (tc_expires r) (tc_rx r) (tc_tx r).
Definition set_tc_closing (v : bool) (r : tcp_connection) : tcp_connection := mk_tcp_connection (tc_state r) (tc_parent r) (tc_backlog r) (tc_mss r) (tc_peer_window r) (tc_snd_una r) (tc_snd_nxt r) (tc_rcv_nxt r) (tc_snd_wl1 r) (tc_snd_wl2 r) (tc_rx_len r) (tc_tx_len r) (tc_flight_len r) (tc_flight_flags r) (tc_retries r) v (tc_peer_fin r) (tc_deadline r) (tc_rto r) (tc_expires r) (tc_rx r) (tc_tx r).
Definition set_tc_peer_fin (v : bool) (r : tcp_connection) : tcp_connection := mk_tcp_connection (tc_state r) (tc_parent r) (tc_backlog r) (tc_mss r) (tc_peer_window r) (tc_snd_una r) (tc_snd_nxt r) (tc_rcv_nxt r) (tc_snd_wl1 r) (tc_snd_wl2 r) (tc_rx_len r) (tc_tx_len r) (tc_flight_len r) (tc_flight_flags r) (tc_retries r) (tc_closing r) v (tc_deadline r) (tc_rto r) (tc_expires r) (tc_rx r) (tc_tx r).
Definition set_tc_deadline (v : Z) (r : tcp_connection) : tcp_connection := mk_tcp_connection (tc_state r) (tc_parent r) (tc_backlog r) (tc_mss r) (tc_peer_window r) (tc_snd_una r) (tc_snd_nxt r) (tc_rcv_nxt r) (tc_snd_wl1 r) (tc_snd_wl2 r) (tc_rx_len r) (tc_tx_len r) (tc_flight_len r) (tc_flight_flags r) (tc_retries r) (tc_closing r) (tc_peer_fin r) v (tc_rto r) (tc_expires r) (tc_rx r) (tc_tx r).
Definition set_tc_rto (v : Z) (r : tcp_connection) : tcp_connection := mk_tcp_connection (tc_state r) (tc_parent r) (tc_backlog r) (tc_mss r) (tc_peer_window r) (tc_snd_una r) (tc_snd_nxt r) (tc_rcv_nxt r) (tc_snd_wl1 r) (tc_snd_wl2 r) (tc_rx_len r) (tc_tx_len r) (tc_flight_len r) (tc_flight_flags r) (tc_retries r) (tc_closing r) (tc_peer_fin r) (tc_deadline r) v (tc_expires r) (tc_rx r) (tc_tx r).
Definition set_tc_expires (v : Z) (r : tcp_connection) : tcp_connection := mk_tcp_connection (tc_state r) (tc_parent r) (tc_backlog r) (tc_mss r) (tc_peer_window r) (tc_snd_una r) (tc_snd_nxt r) (tc_rcv_nxt r) (tc_snd_wl1 r) (tc_snd_wl2 r) (tc_rx_len r) (tc_tx_len r) (tc_flight_len r) (tc_flight_flags r) (tc_retries r) (tc_closing r) (tc_peer_fin r) (tc_deadline r) (tc_rto r) v (tc_rx r) (tc_tx r).
Definition set_tc_rx (v : list Z) (r : tcp_connection) : tcp_connection := mk_tcp_connection (tc_state r) (tc_parent r) (tc_backlog r) (tc_mss r) (tc_peer_window r) (tc_snd_una r) (tc_snd_nxt r) (tc_rcv_nxt r) (tc_snd_wl1 r) (tc_snd_wl2 r) (tc_rx_len r) (tc_tx_len r) (tc_flight_len r) (tc_flight_flags r) (tc_retries r) (tc_closing r) (tc_peer_fin r) (tc_deadline r) (tc_rto r) (tc_expires r) v (tc_tx r).
Definition set_tc_tx (v : list Z) (r : tcp_connection) : tcp_connection := mk_tcp_connection (tc_state r) (tc_parent r) (tc_backlog r) (tc_mss r) (tc_peer_window r) (tc_snd_una r) (tc_snd_nxt r) (tc_rcv_nxt r) (tc_snd_wl1 r) (tc_snd_wl2 r) (tc_rx_len r) (tc_tx_len r) (tc_flight_len r) (tc_flight_flags r) (tc_retries r) (tc_closing r) (tc_peer_fin r) (tc_deadline r) (tc_rto r) (tc_expires r) (tc_rx r) v.
#[export] Instance tcp_connection_eq_dec : EqDecision tcp_connection.
Proof. solve_decision. Defined.

(** [struct tcp_stats]. *)
Record tcp_stats : Type := mk_tcp_stats {
  ts_syns : Z;
  ts_established : Z;
  ts_closed : Z;
  ts_resets : Z;
  ts_retransmissions : Z;
  ts_timeouts : Z;
  ts_duplicate_acks : Z;
  ts_out_of_order : Z;
  ts_sent : Z;
  ts_output_failed : Z
}.
Definition zero_tcp_stats : tcp_stats := mk_tcp_stats 0 0 0 0 0 0 0 0 0 0.
#[export] Instance tcp_stats_inhabited : Inhabited tcp_stats := populate zero_tcp_stats.
Definition set_ts_syns (v : Z) (r : tcp_stats) : tcp_stats := mk_tcp_stats v (ts_established r) (ts_closed r) (ts_resets r) (ts_retransmissions r) (ts_timeouts r) (ts_duplicate_acks r) (ts_out_of_order r) (ts_sent r) (ts_output_failed r).
Definition set_ts_established (v : Z) (r : tcp_stats) : tcp_stats := mk_tcp_stats (ts_syns r) v (ts_closed r) (ts_resets r) (ts_retransmissions r) (ts_timeouts r) (ts_duplicate_acks r) (ts_out_of_order r) (ts_sent r) (ts_output_failed r).
Definition set_ts_closed (v : Z) (r : tcp_stats) : tcp_stats := mk_tcp_stats (ts_syns r) (ts_established r) v (ts_resets r) (ts_retransmissions r) (ts_timeouts r) (ts_duplicate_acks r) (ts_out_of_order r) (ts_sent r) (ts_output_failed r).
Definition set_ts_resets (v : Z) (r : tcp_stats) : tcp_stats := mk_tcp_stats (ts_syns r) (ts_established r) (ts_closed r) v (ts_retransmissions r) (ts_timeouts r) (ts_duplicate_acks r) (ts_out_of_order r) (ts_sent r) (ts_output_failed r).
Definition set_ts_retransmissions (v : Z) (r : tcp_stats) : tcp_stats := mk_tcp_stats (ts_syns r) (ts_established r) (ts_closed r) (ts_resets r) v (ts_timeouts r) (ts_duplicate_acks r) (ts_out_of_order r) (ts_sent r) (ts_output_failed r).
Definition set_ts_timeouts (v : Z) (r : tcp_stats) : tcp_stats := mk_tcp_stats (ts_syns r) (ts_established r) (ts_closed r) (ts_resets r) (ts_retransmissions r) v (ts_duplicate_acks r) (ts_out_of_order r) (ts_sent r) (ts_output_failed r).
Definition set_ts_duplicate_acks (v : Z) (r : tcp_stats) : tcp_stats := mk_tcp_stats (ts_syns r) (ts_established r) (ts_closed r) (ts_resets r) (ts_retransmissions r) (ts_timeouts r) v (ts_out_of_order r) (ts_sent r) (ts_output_failed r).
Definition set_ts_out_of_order (v : Z) (r : tcp_stats) : tcp_stats := mk_tcp_stats (ts_syns r) (ts_established r) (ts_closed r) (ts_resets r) (ts_retransmissions r) (ts_timeouts r) (ts_duplicate_acks r) v (ts_sent r) (ts_output_failed r).
Definition set_ts_sent (v : Z) (r : tcp_stats) : tcp_stats := mk_tcp_stats (ts_syns r) (ts_established r) (ts_closed r) (ts_resets r) (ts_retransmissions r) (ts_timeouts r) (ts_duplicate_acks r) (ts_out_of_order r) v (ts_output_failed r).
Definition set_ts_output_failed (v : Z) (r : tcp_stats) : tcp_stats := mk_tcp_stats (ts_syns r) (ts_established r) (ts_closed r) (ts_resets r) (ts_retransmissions r) (ts_timeouts r) (ts_duplicate_acks r) (ts_out_of_order r) (ts_sent r) v.
#[export] Instance tcp_stats_eq_dec : EqDecision tcp_stats.
Proof. solve_decision. Defined.

(** [struct ps_socket_entry]; the [transport] union is the pair of its two members, selected by [type]. *)
Record ps_socket_entry : Type := mk_ps_socket_entry {
  so_fd : Z;
  so_owner : Z;
  so_allocated : bool;
  so_open : bool;
  so_type : Z;
  so_error : Z;
  so_local : ps_sockaddr;
  so_remote : ps_sockaddr;
  so_udp : udp_endpoint;
  so_tcp : tcp_connection
}.
Definition zero_ps_socket_entry : ps_socket_entry := mk_ps_socket_entry 0 0 false false 0 0 zero_ps_sockaddr zero_ps_sockaddr zero_udp_endpoint zero_tcp_connection.
#[export] Instance ps_socket_entry_inhabited : Inhabited ps_socket_entry := populate zero_ps_socket_entry.
Definition set_so_fd (v : Z) (r : ps_socket_entry) : ps_socket_entry := mk_ps_socket_entry v (so_owner r) (so_allocated r) (so_open r) (so_type r) (so_error r) (so_local r) (so_remote r) (so_udp r) (so_tcp r).
Definition set_so_owner (v : Z) (r : ps_socket_entry) : ps_socket_entry := mk_ps_socket_entry (so_fd r) v (so_allocated r) (so_open r) (so_type r) (so_error r) (so_local r) (so_remote r) (so_udp r) (so_tcp r).
Definition set_so_allocated (v : bool) (r : ps_socket_entry) : ps_socket_entry := mk_ps_socket_entry (so_fd r) (so_owner r) v (so_open r) (so_type r) (so_error r) (so_local r) (so_remote r) (so_udp r) (so_tcp r).
Definition set_so_open (v : bool) (r : ps_socket_entry) : ps_socket_entry := mk_ps_socket_entry (so_fd r) (so_owner r) (so_allocated r) v (so_type r) (so_error r) (so_local r) (so_remote r) (so_udp r) (so_tcp r).
Definition set_so_type (v : Z) (r : ps_socket_entry) : ps_socket_entry := mk_ps_socket_entry (so_fd r) (so_owner r) (so_allocated r) (so_open r) v (so_error r) (so_local r) (so_remote r) (so_udp r) (so_tcp r).
Definition set_so_error (v : Z) (r : ps_socket_entry) : ps_socket_entry := mk_ps_socket_entry (so_fd r) (so_owner r) (so_allocated r) (so_open r) (so_type r) v (so_local r) (so_remote r) (so_udp r) (so_tcp r).
Definition set_so_local (v : ps_sockaddr) (r : ps_socket_entry) : ps_socket_entry := mk_ps_socket_entry (so_fd r) (so_owner r) (so_allocated r) (so_open r) (so_type r) (so_error r) v (so_remote r) (so_udp r) (so_tcp r).
Definition set_so_remote (v : ps_sockaddr) (r : ps_socket_entry) : ps_socket_entry := mk_ps_socket_entry (so_fd r) (so_owner r) (so_allocated r) (so_open r) (so_type r) (so_error r) (so_local r) v (so_udp r) (so_tcp r).
Definition set_so_udp (v : udp_endpoint) (r : ps_socket_entry) : ps_socket_entry := mk_ps_socket_entry (so_fd r) (so_owner r) (so_allocated r) (so_open r) (so_type r) (so_error r) (so_local r) (so_remote r) v (so_tcp r).
Definition set_so_tcp (v : tcp_connection) (r : ps_socket_entry) : ps_socket_entry := mk_ps_socket_entry (so_fd r) (so_owner r) (so_allocated r) (so_open r) (so_type r) (so_error r) (so_local r) (so_remote r) (so_udp r) v.
#[export] Instance ps_socket_entry_eq_dec : EqDecision ps_socket_entry.
Proof. solve_decision. Defined.

(** [struct socket_subsystem]. *)
Record socket_subsystem : Type := mk_socket_subsystem {
  ss_entries : list ps_socket_entry;
  ss_capacity : Z;
  ss_generations : list Z;
  ss_next_port : Z
}.
Definition zero_socket_subsystem : socket_subsystem := mk_socket_subsystem (replicate (Z.to_nat PS_SOCKET_MAX) zero_ps_socket_entry) 0 (replicate (Z.to_nat PS_SOCKET_MAX) 0) 0.
#[export] Instance socket_subsystem_inhabited : Inhabited socket_subsystem := populate zero_socket_subsystem.
Definition set_ss_entries (v : list ps_socket_entry) (r : socket_subsystem) : socket_subsystem := mk_socket_subsystem v (ss_capacity r) (ss_generations r) (ss_next_port r).
Definition set_ss_capacity (v : Z) (r : socket_subsystem) : socket_subsystem := mk_socket_subsystem (ss_entries r) v (ss_generations r) (ss_next_port r).
Definition set_ss_generations (v : list Z) (r : socket_subsystem) : socket_subsystem := mk_socket_subsystem (ss_entries r) (ss_capacity r) v (ss_next_port r).
Definition set_ss_next_port (v : Z) (r : socket_subsystem) : socket_subsystem := mk_socket_subsystem (ss_entries r) (ss_capacity r) (ss_generations r) v.
#[export] Instance socket_subsystem_eq_dec : EqDecision socket_subsystem.
Proof. solve_decision. Defined.

(** * Configuration *)

(** [enum app_pmd]. *)
Inductive app_pmd : Type :=
| PMD_TAP | PMD_AFPKT | PMD_PHYS.
#[export] Instance app_pmd_eq_dec : EqDecision app_pmd.
Proof. solve_decision. Defined.

(** [struct netif_config]. *)
Record netif_config : Type := mk_netif_config {
  if_pmd : app_pmd;
  if_device : string;
  if_ip_be : Z;
  if_prefix_len : Z
}.
Definition zero_netif_config : netif_config := mk_netif_config PMD_TAP EmptyString 0 0.
#[export] Instance netif_config_inhabited : Inhabited netif_config := populate zero_netif_config.
Definition set_if_pmd (v : app_pmd) (r : netif_config) : netif_config := mk_netif_config v (if_device r) (if_ip_be r) (if_prefix_len r).
Definition set_if_device (v : string) (r : netif_config) : netif_config := mk_netif_config (if_pmd r) v (if_ip_be r) (if_prefix_len r).
Definition set_if_ip_be (v : Z) (r : netif_config) : netif_config := mk_netif_config (if_pmd r) (if_device r) v (if_prefix_len r).
Definition set_if_prefix_len (v : Z) (r : netif_config) : netif_config := mk_netif_config (if_pmd r) (if_device r) (if_ip_be r) v.
#[export] Instance netif_config_eq_dec : EqDecision netif_config.
Proof. solve_decision. Defined.

(** [struct route_config]. *)
Record route_config : Type := mk_route_config {
  rc_prefix_be : Z;
  rc_gateway_be : Z;
  rc_prefix_len : Z;
  rc_device : string
}.
Definition zero_route_config : route_config := mk_route_config 0 0 0 EmptyString.
#[export] Instance route_config_inhabited : Inhabited route_config := populate zero_route_config.
Definition set_rc_prefix_be (v : Z) (r : route_config) : route_config := mk_route_config v (rc_gateway_be r) (rc_prefix_len r) (rc_device r).
Definition set_rc_gateway_be (v : Z) (r : route_config) : route_config := mk_route_config (rc_prefix_be r) v (rc_prefix_len r) (rc_device r).
Definition set_rc_prefix_len (v : Z) (r : route_config) : route_config := mk_route_config (rc_prefix_be r) (rc_gateway_be r) v (rc_device r).
Definition set_rc_device (v : string) (r : route_config) : route_config := mk_route_config (rc_prefix_be r) (rc_gateway_be r) (rc_prefix_len r) v.
#[export] Instance route_config_eq_dec : EqDecision route_config.
Proof. solve_decision. Defined.

(** [struct app_config]; [netif_count] and [route_count] are the lengths of the lists. *)
Record app_config : Type := mk_app_config {
  cf_lcore : Z;
  cf_interfaces : list netif_config;
  cf_no_huge : Z;
  cf_ipv4_forwarding : Z;
  cf_routes : list route_config;
  cf_mbufs : Z;
  cf_mbuf_cache : Z;
  cf_rx_desc : Z;
  cf_tx_desc : Z
}.
Definition zero_app_config : app_config := mk_app_config 0 [] 0 0 [] 0 0 0 0.
#[export] Instance app_config_inhabited : Inhabited app_config := populate zero_app_config.
Definition set_cf_lcore (v : Z) (r : app_config) : app_config := mk_app_config v (cf_interfaces r) (cf_no_huge r) (cf_ipv4_forwarding r) (cf_routes r) (cf_mbufs r) (cf_mbuf_cache r) (cf_rx_desc r) (cf_tx_desc r).
Definition set_cf_interfaces (v : list netif_config) (r : app_config) : app_config := mk_app_config (cf_lcore r) v (cf_no_huge r) (cf_ipv4_forwarding r) (cf_routes r) (cf_mbufs r) (cf_mbuf_cache r) (cf_rx_desc r) (cf_tx_desc r).
Definition set_cf_no_huge (v : Z) (r : app_config) : app_config := mk_app_config (cf_lcore r) (cf_interfaces r) v (cf_ipv4_forwarding r) (cf_routes r) (cf_mbufs r) (cf_mbuf_cache r) (cf_rx_desc r) (cf_tx_desc r).
Definition set_cf_ipv4_forwarding (v : Z) (r : app_config) : app_config := mk_app_config (cf_lcore r) (cf_interfaces r) (cf_no_huge r) v (cf_routes r) (cf_mbufs r) (cf_mbuf_cache r) (cf_rx_desc r) (cf_tx_desc r).
Definition set_cf_routes (v : list route_config) (r : app_config) : app_config := mk_app_config (cf_lcore r) (cf_interfaces r) (cf_no_huge r) (cf_ipv4_forwarding r) v (cf_mbufs r) (cf_mbuf_cache r) (cf_rx_desc r) (cf_tx_desc r).
Definition set_cf_mbufs (v : Z) (r : app_config) : app_config := mk_app_config (cf_lcore r) (cf_interfaces r) (cf_no_huge r) (cf_ipv4_forwarding r) (cf_routes r) v (cf_mbuf_cache r) (cf_rx_desc r) (cf_tx_desc r).
Definition set_cf_mbuf_cache (v : Z) (r : app_config) : app_config := mk_app_config (cf_lcore r) (cf_interfaces r) (cf_no_huge r) (cf_ipv4_forwarding r) (cf_routes r) (cf_mbufs r) v (cf_rx_desc r) (cf_tx_desc r).
Definition set_cf_rx_desc (v : Z) (r : app_config) : app_config := mk_app_config (cf_lcore r) (cf_interfaces r) (cf_no_huge r) (cf_ipv4_forwarding r) (cf_routes r) (cf_mbufs r) (cf_mbuf_cache r) v (cf_tx_desc r).
Definition set_cf_tx_desc (v : Z) (r : app_config) : app_config := mk_app_config (cf_lcore r) (cf_interfaces r) (cf_no_huge r) (cf_ipv4_forwarding r) (cf_routes r) (cf_mbufs r) (cf_mbuf_cache r) (cf_rx_desc r) v.
#[export] Instance app_config_eq_dec : EqDecision app_config.
Proof. solve_decision. Defined.

(** * The runtime *)

(** [struct icmp_error_state]. *)
Record icmp_error_state : Type := mk_icmp_error_state {
  ie_generated : Z;
  ie_suppressed : Z;
  ie_rate_limited : Z;
  ie_failed : Z;
  ie_last_refill : Z;
  ie_tokens : Z;
  ie_initialized : bool
}.
Definition zero_icmp_error_state : icmp_error_state := mk_icmp_error_state 0 0 0 0 0 0 false.
#[export] Instance icmp_error_state_inhabited : Inhabited icmp_error_state := populate zero_icmp_error_state.
Definition set_ie_generated (v : Z) (r : icmp_error_state) : icmp_error_state := mk_icmp_error_state v (ie_suppressed r) (ie_rate_limited r) (ie_failed r) (ie_last_refill r) (ie_tokens r) (ie_initialized r).
Definition set_ie_suppressed (v : Z) (r : icmp_error_state) : icmp_error_state := mk_icmp_error_state (ie_generated r) v (ie_rate_limited r) (ie_failed r) (ie_last_refill r) (ie_tokens r) (ie_initialized r).
Definition set_ie_rate_limited (v : Z) (r : icmp_error_state) : icmp_error_state := mk_icmp_error_state (ie_generated r) (ie_suppressed r) v (ie_failed r) (ie_last_refill r) (ie_tokens r) (ie_initialized r).
Definition set_ie_failed (v : Z) (r : icmp_error_state) : icmp_error_state := mk_icmp_error_state (ie_generated r) (ie_suppressed r) (ie_rate_limited r) v (ie_last_refill r) (ie_tokens r) (ie_initialized r).
Definition set_ie_last_refill (v : Z) (r : icmp_error_state) : icmp_error_state := mk_icmp_error_state (ie_generated r) (ie_suppressed r) (ie_rate_limited r) (ie_failed r) v (ie_tokens r) (ie_initialized r).
Definition set_ie_tokens (v : Z) (r : icmp_error_state) : icmp_error_state := mk_icmp_error_state (ie_generated r) (ie_suppressed r) (ie_rate_limited r) (ie_failed r) (ie_last_refill r) v (ie_initialized r).
Definition set_ie_initialized (v : bool) (r : icmp_error_state) : icmp_error_state := mk_icmp_error_state (ie_generated r) (ie_suppressed r) (ie_rate_limited r) (ie_failed r) (ie_last_refill r) (ie_tokens r) v.
#[export] Instance icmp_error_state_eq_dec : EqDecision icmp_error_state.
Proof. solve_decision. Defined.

(** [struct port_state]. *)
Record port_state : Type := mk_port_state {
  pt_id : Z;
  pt_port_id : Z;
  pt_mtu : Z;
  pt_ip_be : Z;
  pt_prefix_len : Z;
  pt_configured : bool;
  pt_started : bool;
  pt_mac : ether_addr;
  pt_rx_packets : Z;
  pt_tx_packets : Z;
  pt_tx_drops : Z;
  pt_rx_bytes : Z;
  pt_tx_bytes : Z;
  pt_name : string;
  pt_admin_down : bool
}.
Definition zero_port_state : port_state := mk_port_state 0 0 0 0 0 false false zero_ether_addr 0 0 0 0 0 EmptyString false.
#[export] Instance port_state_inhabited : Inhabited port_state := populate zero_port_state.
Definition set_pt_id (v : Z) (r : port_state) : port_state := mk_port_state v (pt_port_id r) (pt_mtu r) (pt_ip_be r) (pt_prefix_len r) (pt_configured r) (pt_started r) (pt_mac r) (pt_rx_packets r) (pt_tx_packets r) (pt_tx_drops r) (pt_rx_bytes r) (pt_tx_bytes r) (pt_name r) (pt_admin_down r).
Definition set_pt_port_id (v : Z) (r : port_state) : port_state := mk_port_state (pt_id r) v (pt_mtu r) (pt_ip_be r) (pt_prefix_len r) (pt_configured r) (pt_started r) (pt_mac r) (pt_rx_packets r) (pt_tx_packets r) (pt_tx_drops r) (pt_rx_bytes r) (pt_tx_bytes r) (pt_name r) (pt_admin_down r).
Definition set_pt_mtu (v : Z) (r : port_state) : port_state := mk_port_state (pt_id r) (pt_port_id r) v (pt_ip_be r) (pt_prefix_len r) (pt_configured r) (pt_started r) (pt_mac r) (pt_rx_packets r) (pt_tx_packets r) (pt_tx_drops r) (pt_rx_bytes r) (pt_tx_bytes r) (pt_name r) (pt_admin_down r).
Definition set_pt_ip_be (v : Z) (r : port_state) : port_state := mk_port_state (pt_id r) (pt_port_id r) (pt_mtu r) v (pt_prefix_len r) (pt_configured r) (pt_started r) (pt_mac r) (pt_rx_packets r) (pt_tx_packets r) (pt_tx_drops r) (pt_rx_bytes r) (pt_tx_bytes r) (pt_name r) (pt_admin_down r).
Definition set_pt_prefix_len (v : Z) (r : port_state) : port_state := mk_port_state (pt_id r) (pt_port_id r) (pt_mtu r) (pt_ip_be r) v (pt_configured r) (pt_started r) (pt_mac r) (pt_rx_packets r) (pt_tx_packets r) (pt_tx_drops r) (pt_rx_bytes r) (pt_tx_bytes r) (pt_name r) (pt_admin_down r).
Definition set_pt_configured (v : bool) (r : port_state) : port_state := mk_port_state (pt_id r) (pt_port_id r) (pt_mtu r) (pt_ip_be r) (pt_prefix_len r) v (pt_started r) (pt_mac r) (pt_rx_packets r) (pt_tx_packets r) (pt_tx_drops r) (pt_rx_bytes r) (pt_tx_bytes r) (pt_name r) (pt_admin_down r).
Definition set_pt_started (v : bool) (r : port_state) : port_state := mk_port_state (pt_id r) (pt_port_id r) (pt_mtu r) (pt_ip_be r) (pt_prefix_len r) (pt_configured r) v (pt_mac r) (pt_rx_packets r) (pt_tx_packets r) (pt_tx_drops r) (pt_rx_bytes r) (pt_tx_bytes r) (pt_name r) (pt_admin_down r).
Definition set_pt_mac (v : ether_addr) (r : port_state) : port_state := mk_port_state (pt_id r) (pt_port_id r) (pt_mtu r) (pt_ip_be r) (pt_prefix_len r) (pt_configured r) (pt_started r) v (pt_rx_packets r) (pt_tx_packets r) (pt_tx_drops r) (pt_rx_bytes r) (pt_tx_bytes r) (pt_name r) (pt_admin_down r).
Definition set_pt_rx_packets (v : Z) (r : port_state) : port_state := mk_port_state (pt_id r) (pt_port_id r) (pt_mtu r) (pt_ip_be r) (pt_prefix_len r) (pt_configured r) (pt_started r) (pt_mac r) v (pt_tx_packets r) (pt_tx_drops r) (pt_rx_bytes r) (pt_tx_bytes r) (pt_name r) (pt_admin_down r).
Definition set_pt_tx_packets (v : Z) (r : port_state) : port_state := mk_port_state (pt_id r) (pt_port_id r) (pt_mtu r) (pt_ip_be r) (pt_prefix_len r) (pt_configured r) (pt_started r) (pt_mac r) (pt_rx_packets r) v (pt_tx_drops r) (pt_rx_bytes r) (pt_tx_bytes r) (pt_name r) (pt_admin_down r).
Definition set_pt_tx_drops (v : Z) (r : port_state) : port_state := mk_port_state (pt_id r) (pt_port_id r) (pt_mtu r) (pt_ip_be r) (pt_prefix_len r) (pt_configured r) (pt_started r) (pt_mac r) (pt_rx_packets r) (pt_tx_packets r) v (pt_rx_bytes r) (pt_tx_bytes r) (pt_name r) (pt_admin_down r).
Definition set_pt_rx_bytes (v : Z) (r : port_state) : port_state := mk_port_state (pt_id r) (pt_port_id r) (pt_mtu r) (pt_ip_be r) (pt_prefix_len r) (pt_configured r) (pt_started r) (pt_mac r) (pt_rx_packets r) (pt_tx_packets r) (pt_tx_drops r) v (pt_tx_bytes r) (pt_name r) (pt_admin_down r).
Definition set_pt_tx_bytes (v : Z) (r : port_state) : port_state := mk_port_state (pt_id r) (pt_port_id r) (pt_mtu r) (pt_ip_be r) (pt_prefix_len r) (pt_configured r) (pt_started r) (pt_mac r) (pt_rx_packets r) (pt_tx_packets r) (pt_tx_drops r) (pt_rx_bytes r) v (pt_name r) (pt_admin_down r).
Definition set_pt_name (v : string) (r : port_state) : port_state := mk_port_state (pt_id r) (pt_port_id r) (pt_mtu r) (pt_ip_be r) (pt_prefix_len r) (pt_configured r) (pt_started r) (pt_mac r) (pt_rx_packets r) (pt_tx_packets r) (pt_tx_drops r) (pt_rx_bytes r) (pt_tx_bytes r) v (pt_admin_down r).
Definition set_pt_admin_down (v : bool) (r : port_state) : port_state := mk_port_state (pt_id r) (pt_port_id r) (pt_mtu r) (pt_ip_be r) (pt_prefix_len r) (pt_configured r) (pt_started r) (pt_mac r) (pt_rx_packets r) (pt_tx_packets r) (pt_tx_drops r) (pt_rx_bytes r) (pt_tx_bytes r) (pt_name r) v.
#[export] Instance port_state_eq_dec : EqDecision port_state.
Proof. solve_decision. Defined.

(** [struct app_runtime]. [ports] holds [port_count] ports; [rt_dpdk] is the
    history of calls into DPDK (see [Dpdk]), in place of the pool handle. *)
Record app_runtime : Type := mk_app_runtime {
  rt_dpdk : list dpdk_event;
  rt_ports : list port_state;
  rt_routes : route_table;
  rt_network : option net_config;
  rt_acl_stats : acl_counters;
  rt_events : admin_events;
  rt_graph : dp_graph;
  rt_neighbours : neighbour_table;
  rt_pending_neighbours : list pending_neighbour;
  rt_sockets : socket_subsystem;
  rt_tcp_stats : tcp_stats;
  rt_tcp_timer_next : Z;
  rt_icmp_errors : icmp_error_state;
  rt_ipv4_forwarding : bool;
  rt_neighbour_learn_failures : Z;
  rt_next_ip_id : Z;
  rt_active_output : option node_output;
  rt_tx_packets : Z;
  rt_accepted_sends : Z
}.
Definition zero_app_runtime : app_runtime := mk_app_runtime [] [] [] None zero_acl_counters zero_admin_events zero_dp_graph zero_neighbour_table (replicate NEIGHBOUR_PENDING_MAX zero_pending_neighbour) zero_socket_subsystem zero_tcp_stats 0 zero_icmp_error_state false 0 0 None 0 0.
#[export] Instance app_runtime_inhabited : Inhabited app_runtime := populate zero_app_runtime.
Definition set_rt_dpdk (v : list dpdk_event) (r : app_runtime) : app_runtime := mk_app_runtime v (rt_ports r) (rt_routes r) (rt_network r) (rt_acl_stats r) (rt_events r) (rt_graph r) (rt_neighbours r) (rt_pending_neighbours r) (rt_sockets r) (rt_tcp_stats r) (rt_tcp_timer_next r) (rt_icmp_errors r) (rt_ipv4_forwarding r) (rt_neighbour_learn_failures r) (rt_next_ip_id r) (rt_active_output r) (rt_tx_packets r) (rt_accepted_sends r).
Definition set_rt_ports (v : list port_state) (r : app_runtime) : app_runtime := mk_app_runtime (rt_dpdk r) v (rt_routes r) (rt_network r) (rt_acl_stats r) (rt_events r) (rt_graph r) (rt_neighbours r) (rt_pending_neighbours r) (rt_sockets r) (rt_tcp_stats r) (rt_tcp_timer_next r) (rt_icmp_errors r) (rt_ipv4_forwarding r) (rt_neighbour_learn_failures r) (rt_next_ip_id r) (rt_active_output r) (rt_tx_packets r) (rt_accepted_sends r).
Definition set_rt_routes (v : route_table) (r : app_runtime) : app_runtime := mk_app_runtime (rt_dpdk r) (rt_ports r) v (rt_network r) (rt_acl_stats r) (rt_events r) (rt_graph r) (rt_neighbours r) (rt_pending_neighbours r) (rt_sockets r) (rt_tcp_stats r) (rt_tcp_timer_next r) (rt_icmp_errors r) (rt_ipv4_forwarding r) (rt_neighbour_learn_failures r) (rt_next_ip_id r) (rt_active_output r) (rt_tx_packets r) (rt_accepted_sends r).
Definition set_rt_network (v : option net_config) (r : app_runtime) : app_runtime := mk_app_runtime (rt_dpdk r) (rt_ports r) (rt_routes r) v (rt_acl_stats r) (rt_events r) (rt_graph r) (rt_neighbours r) (rt_pending_neighbours r) (rt_sockets r) (rt_tcp_stats r) (rt_tcp_timer_next r) (rt_icmp_errors r) (rt_ipv4_forwarding r) (rt_neighbour_learn_failures r) (rt_next_ip_id r) (rt_active_output r) (rt_tx_packets r) (rt_accepted_sends r).
Definition set_rt_acl_stats (v : acl_counters) (r : app_runtime) : app_runtime := mk_app_runtime (rt_dpdk r) (rt_ports r) (rt_routes r) (rt_network r) v (rt_events r) (rt_graph r) (rt_neighbours r) (rt_pending_neighbours r) (rt_sockets r) (rt_tcp_stats r) (rt_tcp_timer_next r) (rt_icmp_errors r) (rt_ipv4_forwarding r) (rt_neighbour_learn_failures r) (rt_next_ip_id r) (rt_active_output r) (rt_tx_packets r) (rt_accepted_sends r).
Definition set_rt_events (v : admin_events) (r : app_runtime) : app_runtime := mk_app_runtime (rt_dpdk r) (rt_ports r) (rt_routes r) (rt_network r) (rt_acl_stats r) v (rt_graph r) (rt_neighbours r) (rt_pending_neighbours r) (rt_sockets r) (rt_tcp_stats r) (rt_tcp_timer_next r) (rt_icmp_errors r) (rt_ipv4_forwarding r) (rt_neighbour_learn_failures r) (rt_next_ip_id r) (rt_active_output r) (rt_tx_packets r) (rt_accepted_sends r).
Definition set_rt_graph (v : dp_graph) (r : app_runtime) : app_runtime := mk_app_runtime (rt_dpdk r) (rt_ports r) (rt_routes r) (rt_network r) (rt_acl_stats r) (rt_events r) v (rt_neighbours r) (rt_pending_neighbours r) (rt_sockets r) (rt_tcp_stats r) (rt_tcp_timer_next r) (rt_icmp_errors r) (rt_ipv4_forwarding r) (rt_neighbour_learn_failures r) (rt_next_ip_id r) (rt_active_output r) (rt_tx_packets r) (rt_accepted_sends r).
Definition set_rt_neighbours (v : neighbour_table) (r : app_runtime) : app_runtime := mk_app_runtime (rt_dpdk r) (rt_ports r) (rt_routes r) (rt_network r) (rt_acl_stats r) (rt_events r) (rt_graph r) v (rt_pending_neighbours r) (rt_sockets r) (rt_tcp_stats r) (rt_tcp_timer_next r) (rt_icmp_errors r) (rt_ipv4_forwarding r) (rt_neighbour_learn_failures r) (rt_next_ip_id r) (rt_active_output r) (rt_tx_packets r) (rt_accepted_sends r).
Definition set_rt_pending_neighbours (v : list pending_neighbour) (r : app_runtime) : app_runtime := mk_app_runtime (rt_dpdk r) (rt_ports r) (rt_routes r) (rt_network r) (rt_acl_stats r) (rt_events r) (rt_graph r) (rt_neighbours r) v (rt_sockets r) (rt_tcp_stats r) (rt_tcp_timer_next r) (rt_icmp_errors r) (rt_ipv4_forwarding r) (rt_neighbour_learn_failures r) (rt_next_ip_id r) (rt_active_output r) (rt_tx_packets r) (rt_accepted_sends r).
Definition set_rt_sockets (v : socket_subsystem) (r : app_runtime) : app_runtime := mk_app_runtime (rt_dpdk r) (rt_ports r) (rt_routes r) (rt_network r) (rt_acl_stats r) (rt_events r) (rt_graph r) (rt_neighbours r) (rt_pending_neighbours r) v (rt_tcp_stats r) (rt_tcp_timer_next r) (rt_icmp_errors r) (rt_ipv4_forwarding r) (rt_neighbour_learn_failures r) (rt_next_ip_id r) (rt_active_output r) (rt_tx_packets r) (rt_accepted_sends r).
Definition set_rt_tcp_stats (v : tcp_stats) (r : app_runtime) : app_runtime := mk_app_runtime (rt_dpdk r) (rt_ports r) (rt_routes r) (rt_network r) (rt_acl_stats r) (rt_events r) (rt_graph r) (rt_neighbours r) (rt_pending_neighbours r) (rt_sockets r) v (rt_tcp_timer_next r) (rt_icmp_errors r) (rt_ipv4_forwarding r) (rt_neighbour_learn_failures r) (rt_next_ip_id r) (rt_active_output r) (rt_tx_packets r) (rt_accepted_sends r).
Definition set_rt_tcp_timer_next (v : Z) (r : app_runtime) : app_runtime := mk_app_runtime (rt_dpdk r) (rt_ports r) (rt_routes r) (rt_network r) (rt_acl_stats r) (rt_events r) (rt_graph r) (rt_neighbours r) (rt_pending_neighbours r) (rt_sockets r) (rt_tcp_stats r) v (rt_icmp_errors r) (rt_ipv4_forwarding r) (rt_neighbour_learn_failures r) (rt_next_ip_id r) (rt_active_output r) (rt_tx_packets r) (rt_accepted_sends r).
Definition set_rt_icmp_errors (v : icmp_error_state) (r : app_runtime) : app_runtime := mk_app_runtime (rt_dpdk r) (rt_ports r) (rt_routes r) (rt_network r) (rt_acl_stats r) (rt_events r) (rt_graph r) (rt_neighbours r) (rt_pending_neighbours r) (rt_sockets r) (rt_tcp_stats r) (rt_tcp_timer_next r) v (rt_ipv4_forwarding r) (rt_neighbour_learn_failures r) (rt_next_ip_id r) (rt_active_output r) (rt_tx_packets r) (rt_accepted_sends r).
Definition set_rt_ipv4_forwarding (v : bool) (r : app_runtime) : app_runtime := mk_app_runtime (rt_dpdk r) (rt_ports r) (rt_routes r) (rt_network r) (rt_acl_stats r) (rt_events r) (rt_graph r) (rt_neighbours r) (rt_pending_neighbours r) (rt_sockets r) (rt_tcp_stats r) (rt_tcp_timer_next r) (rt_icmp_errors r) v (rt_neighbour_learn_failures r) (rt_next_ip_id r) (rt_active_output r) (rt_tx_packets r) (rt_accepted_sends r).
Definition set_rt_neighbour_learn_failures (v : Z) (r : app_runtime) : app_runtime := mk_app_runtime (rt_dpdk r) (rt_ports r) (rt_routes r) (rt_network r) (rt_acl_stats r) (rt_events r) (rt_graph r) (rt_neighbours r) (rt_pending_neighbours r) (rt_sockets r) (rt_tcp_stats r) (rt_tcp_timer_next r) (rt_icmp_errors r) (rt_ipv4_forwarding r) v (rt_next_ip_id r) (rt_active_output r) (rt_tx_packets r) (rt_accepted_sends r).
Definition set_rt_next_ip_id (v : Z) (r : app_runtime) : app_runtime := mk_app_runtime (rt_dpdk r) (rt_ports r) (rt_routes r) (rt_network r) (rt_acl_stats r) (rt_events r) (rt_graph r) (rt_neighbours r) (rt_pending_neighbours r) (rt_sockets r) (rt_tcp_stats r) (rt_tcp_timer_next r) (rt_icmp_errors r) (rt_ipv4_forwarding r) (rt_neighbour_learn_failures r) v (rt_active_output r) (rt_tx_packets r) (rt_accepted_sends r).
Definition set_rt_active_output (v : option node_output) (r : app_runtime) : app_runtime := mk_app_runtime (rt_dpdk r) (rt_ports r) (rt_routes r) (rt_network r) (rt_acl_stats r) (rt_events r) (rt_graph r) (rt_neighbours r) (rt_pending_neighbours r) (rt_sockets r) (rt_tcp_stats r) (rt_tcp_timer_next r) (rt_icmp_errors r) (rt_ipv4_forwarding r) (rt_neighbour_learn_failures r) (rt_next_ip_id r) v (rt_tx_packets r) (rt_accepted_sends r).
Definition set_rt_tx_packets (v : Z) (r : app_runtime) : app_runtime := mk_app_runtime (rt_dpdk r) (rt_ports r) (rt_routes r) (rt_network r) (rt_acl_stats r) (rt_events r) (rt_graph r) (rt_neighbours r) (rt_pending_neighbours r) (rt_sockets r) (rt_tcp_stats r) (rt_tcp_timer_next r) (rt_icmp_errors r) (rt_ipv4_forwarding r) (rt_neighbour_learn_failures r) (rt_next_ip_id r) (rt_active_output r) v (rt_accepted_sends r).
Definition set_rt_accepted_sends (v : Z) (r : app_runtime) : app_runtime := mk_app_runtime (rt_dpdk r) (rt_ports r) (rt_routes r) (rt_network r) (rt_acl_stats r) (rt_events r) (rt_graph r) (rt_neighbours r) (rt_pending_neighbours r) (rt_sockets r) (rt_tcp_stats r) (rt_tcp_timer_next r) (rt_icmp_errors r) (rt_ipv4_forwarding r) (rt_neighbour_learn_failures r) (rt_next_ip_id r) (rt_active_output r) (rt_tx_packets r) v.
