(* ===== verification/Text.v ===== *)
(** The C text functions the parsers use ([<ctype.h>], [strchr], [strtok],
    [strtoul], [fgets], [inet_pton], [inet_ntop]) on strings in the C locale.  A
    string is the characters before the terminator. *)
From Stdlib Require Import Ascii.
From stdpp Require Import pretty.
From S2P Require Import Prelude.

Definition code (c : ascii) : Z := Z.of_N (Ascii.N_of_ascii c).
Definition isdigit (c : ascii) : bool := (48 <=? code c) && (code c <=? 57).
Definition isalpha (c : ascii) : bool := ((65 <=? code c) && (code c <=? 90)) || ((97 <=? code c) && (code c <=? 122)).
Definition isalnum (c : ascii) : bool := isdigit c || isalpha c.
Definition isspace (c : ascii) : bool := (code c =? 32) || ((9 <=? code c) && (code c <=? 13)).

Fixpoint all_chars (p : ascii -> bool) (s : string) : bool :=
  match s with EmptyString => true | String c s' => p c && all_chars p s' end.

Definition empty (s : string) : bool := match s with EmptyString => true | _ => false end.

(** What a C function sees of a buffer: the part before the first NUL. *)
Fixpoint c_str (s : string) : string :=
  match s with
  | EmptyString => EmptyString
  | String c s' => if code c =? 0 then EmptyString else String c (c_str s')
  end.

(** [p = strchr(s, c); *p++ = 0]: the parts before and after, if [c] occurs. *)
Fixpoint strchr (c : ascii) (s : string) : option (string * string) :=
  match s with
  | EmptyString => None
  | String d s' => if Ascii.eqb d c then Some (EmptyString, s') else
    '(l, r) ← strchr c s'; Some (String d l, r)
  end.
Definition has_char (c : ascii) (s : string) : bool := match strchr c s with Some _ => true | None => false end.

Fixpoint skip_space (s : string) : string :=
  match s with String c s' => if isspace c then skip_space s' else s | EmptyString => s end.
Fixpoint drop_space (s : string) : string :=
  match s with
  | EmptyString => EmptyString
  | String c s' => match drop_space s' with EmptyString => if isspace c then EmptyString else String c EmptyString | t => String c t end
  end.
(** [trim]: spaces off both ends. *)
Definition trim (s : string) : string := drop_space (skip_space s).

(** [strtoul(s, &end, 10)] of a string of digits, before its range check. *)
Fixpoint decimal (acc : Z) (s : string) : Z :=
  match s with EmptyString => acc | String c s' => decimal (acc * 10 + (code c - 48)) s' end.

(** Digits only, at most [max]; a number that overflows [unsigned long] is above
    every [max] the code passes. *)
Definition number (s : string) (max : Z) : option Z :=
  if empty s || negb (all_chars isdigit s) then None else
  if max <? decimal 0 s then None else Some (decimal 0 s).

(** [inet_pton(AF_INET, ...)]: four decimal bytes without leading zeros.  [octets]
    are the finished ones, [cur] the one being read. *)
Fixpoint pton (octets : list Z) (cur : option Z) (s : string) : option (list Z) :=
  match s with
  | EmptyString => match cur with Some v => if Nat.eqb (length octets) 3 then Some (octets ++ [v]) else None | None => None end
  | String c s' =>
    if isdigit c then
      match cur with
      | Some v => if (v =? 0) || (255 <? v * 10 + (code c - 48)) then None else pton octets (Some (v * 10 + (code c - 48))) s'
      | None => if Nat.eqb (length octets) 4 then None else pton octets (Some (code c - 48)) s'
      end
    else if code c =? 46 then
      match cur with
      | Some v => if Nat.eqb (length octets) 3 then None else pton (octets ++ [v]) None s'
      | None => None
      end
    else None
  end.
Definition inet_pton (s : string) : option Z := bytes ← pton [] None s; Some (rd_le32 bytes 0).

Definition inet_ntop (ip_be : Z) : string :=
  (pretty (byte_at ip_be 0) +:+ "." +:+ pretty (byte_at ip_be 1) +:+ "." +:+ pretty (byte_at ip_be 2) +:+ "." +:+ pretty (byte_at ip_be 3))%string.

(** [strtok] over the whole line. *)
Fixpoint tokens_from (sep : ascii -> bool) (cur : string) (s : string) : list string :=
  match s with
  | EmptyString => if empty cur then [] else [cur]
  | String c s' => if sep c then (if empty cur then [] else [cur]) ++ tokens_from sep EmptyString s'
                   else tokens_from sep (cur +:+ String c EmptyString) s'
  end.
Definition tokens (sep : ascii -> bool) (s : string) : list string := tokens_from sep EmptyString s.

(** [fgets(line, size, f)] on the rest of a file: the characters read, what is
    left, and whether the end was reached ([feof]). *)
Fixpoint fgets (room : nat) (s : string) : string * string * bool :=
  match room with
  | O => (EmptyString, s, false)
  | S room' =>
    match s with
    | EmptyString => (EmptyString, EmptyString, true)
    | String c s' => if code c =? 10 then (String c EmptyString, s', false) else
      let '(line, rest, eof) := fgets room' s' in (String c line, rest, eof)
    end
  end.

(** A stream: the characters it delivers, and whether a read error ended it. *)
Record file : Type := mk_file { fl_text : string; fl_error : bool }.

(** The lines a loop [while (fgets(line, room + 1, f))] sees, each with the test
    [!strchr(line, '\n') && !feof(f)] of a line that did not fit.  A read error
    in the middle of a line makes [fgets] return NULL.  A round takes at least one
    character. *)
Fixpoint read_lines (err : bool) (fuel room : nat) (s : string) : list (string * bool) :=
  match fuel with
  | O => []
  | S fuel' =>
    if empty s then [] else
    let '(line, rest, eof) := fgets room s in
    if eof && err then [] else
    (c_str line, negb (has_char "010" (c_str line)) && negb eof) :: read_lines err fuel' room rest
  end.
Definition lines (room : nat) (f : file) : list (string * bool) :=
  read_lines (fl_error f) (String.length (fl_text f)) room (fl_text f).

#[global] Arguments number : simpl never.
#[global] Arguments inet_pton : simpl never.
#[global] Arguments inet_ntop : simpl never.
#[global] Arguments trim : simpl never.

(** * Lemmas *)

Lemma fgets_length room s : let '(line, rest, _) := fgets room s in
  (String.length line + String.length rest)%nat = String.length s.
Proof.
  revert s. induction room as [|room IH]; intros [|c s]; cbn; try done. destruct (code c =? 10); [done|].
  specialize (IH s). destruct (fgets room s) as [[line rest] eof]. cbn. lia.
Qed.

Lemma fgets_progress room s : (0 < room)%nat -> s <> EmptyString -> (String.length (fgets room s).1.2 < String.length s)%nat.
Proof.
  intros Hr Hs. destruct room as [|room]; [lia|]. destruct s as [|c s]; [done|]. cbn. destruct (code c =? 10); cbn; [lia|].
  assert (H := fgets_length room s). destruct (fgets room s) as [[line rest] eof]. cbn. lia.
Qed.

Lemma number_range s max n : number s max = Some n -> 0 <= n <= max.
Proof.
  unfold number. destruct (empty s || negb (all_chars isdigit s)) eqn:E; [done|]. destruct (Z.ltb_spec max (decimal 0 s)); [done|]. intros [= <-].
  apply orb_false_iff in E as [_ E]. apply negb_false_iff in E. split; [|lia].
  assert (H' : forall s acc, all_chars isdigit s = true -> 0 <= acc -> 0 <= decimal acc s).
  { clear. induction s as [|c s IH]; intros acc; cbn; [done|]. rewrite andb_true_iff. intros [Hc Hs] Ha. apply IH; [done|].
    unfold isdigit in Hc. apply andb_true_iff in Hc as [Hc _]. apply Z.leb_le in Hc. lia. }
  by apply H'.
Qed.

(** More rounds than characters change nothing. *)
Lemma read_lines_fuel err room fuel extra s : (0 < room)%nat -> (String.length s <= fuel)%nat ->
  read_lines err (fuel + extra) room s = read_lines err fuel room s.
Proof.
  intros Hr. revert s. induction fuel as [|fuel IH]; intros s Hs.
  - destruct s; [|cbn in Hs; lia]. by destruct extra.
  - cbn [read_lines Nat.add]. destruct s as [|c s]; [done|]. cbn [empty].
    assert (H := fgets_progress room (String c s) Hr ltac:(done)). destruct (fgets room (String c s)) as [[line rest] eof]. cbn in H.
    destruct (eof && err); [done|]. f_equal. apply IH. cbn in Hs. lia.
Qed.

(** * Printed numbers *)

Lemma app_empty_r s : (s +:+ "")%string = s.
Proof. induction s as [|c s IH]; [done|]. exact (f_equal _ IH). Qed.
Lemma string_app_assoc s t u : (s +:+ t +:+ u)%string = ((s +:+ t) +:+ u)%string.
Proof. induction s as [|c s IH]; [done|]. exact (f_equal _ IH). Qed.
Lemma string_app_length s t : String.length (s +:+ t)%string = (String.length s + String.length t)%nat.
Proof. induction s as [|c s IH]; [done|]. exact (f_equal S IH). Qed.

(** The character of a decimal digit. *)
Definition digit (d : Z) : ascii := pretty_N_char (Z.to_N d).

Lemma digit_code d : 0 <= d <= 9 -> code (digit d) = 48 + d.
Proof.
  intros H. assert (d = 0 \/ d = 1 \/ d = 2 \/ d = 3 \/ d = 4 \/ d = 5 \/ d = 6 \/ d = 7 \/ d = 8 \/ d = 9) by lia.
  repeat destruct H0 as [->|H0]; subst; reflexivity.
Qed.
Lemma isdigit_digit d : 0 <= d <= 9 -> isdigit (digit d) = true.
Proof. intros H. unfold isdigit. rewrite digit_code by done. apply andb_true_iff. lia. Qed.

Lemma pretty_N_go_app x s : pretty_N_go x s = (pretty_N_go x "" +:+ s)%string.
Proof.
  revert s. induction (N.lt_wf_0 x) as [x _ IH]; intros s. destruct (decide (x = 0)%N) as [->|H]; [done|].
  rewrite (pretty_N_go_step x s), (pretty_N_go_step x "") by lia. assert (Hl : (x / 10 < x)%N) by (apply N.div_lt; lia).
  rewrite (IH _ Hl (String _ s)), (IH _ Hl (String _ "")). by rewrite <- string_app_assoc.
Qed.

(** A reader of numbers: [first] meets the first digit, [more n] the digits after
    those of [n].  On the text of [x] it ends having read [x]; a step never needs
    more than what stays below [bound]. *)
Section reader.
Context {A : Type} (first : string -> A) (more : Z -> string -> A) (bound : Z).
Hypothesis first_digit : forall d s, 0 <= d <= 9 -> first (String (digit d) s) = more d s.
Hypothesis more_digit : forall n d s, 0 < n -> 0 <= d <= 9 -> n * 10 + d <= bound -> more n (String (digit d) s) = more (n * 10 + d) s.

Lemma reads_positive x s : (0 < x)%N -> Z.of_N x <= bound -> first (pretty_N_go x s) = more (Z.of_N x) s.
Proof using first_digit more_digit.
  revert s. induction (N.lt_wf_0 x) as [x _ IH]; intros s Hx Hb. rewrite pretty_N_go_step by done.
  assert (Hm := N.mod_lt x 10 ltac:(done)). assert (Hd := N.div_mod x 10 ltac:(done)).
  assert (Hc : pretty_N_char (x mod 10) = digit (Z.of_N (x mod 10))) by (unfold digit; by rewrite N2Z.id).
  rewrite Hc. assert (Hq : (x / 10 < x)%N) by (apply N.div_lt; lia). specialize (IH _ Hq).
  generalize dependent (x / 10)%N. generalize dependent (x mod 10)%N. intros d Hm Hc q IH Hd Hq. destruct (decide (q = 0)%N) as [->|E].
  - rewrite pretty_N_go_0, first_digit by lia. f_equal. lia.
  - rewrite IH by lia. rewrite more_digit by lia. f_equal. lia.
Qed.

Lemma reads_number x s : 0 <= x <= bound -> first (pretty x +:+ s)%string = more x s.
Proof using first_digit more_digit.
  intros [H0 Hb]. destruct x as [|p|p]; [|..|lia].
  - by apply (first_digit 0).
  - change (pretty (Z.pos p)) with (pretty_N_go (N.pos p) ""). rewrite <- pretty_N_go_app. by rewrite reads_positive.
Qed.
End reader.

(** ** Characters of a text *)

Lemma all_chars_app p s t : all_chars p (s +:+ t)%string = all_chars p s && all_chars p t.
Proof. induction s as [|c s IH]; [done|]. change (String c s +:+ t)%string with (String c (s +:+ t)%string). cbn [all_chars]. by rewrite IH, andb_assoc. Qed.

Lemma all_chars_impl (p q : ascii -> bool) s : (forall c, p c = true -> q c = true) -> all_chars p s = true -> all_chars q s = true.
Proof. intros H. induction s as [|c s IH]; [done|]. cbn. intros [Hc Hs]%andb_true_iff. by rewrite (H _ Hc), IH. Qed.

Lemma pretty_chars p x : (forall d, 0 <= d <= 9 -> p (digit d) = true) -> 0 <= x -> all_chars p (pretty x) = true.
Proof.
  intros Hp Hx. rewrite <- (app_empty_r (pretty x)). apply (reads_number (all_chars p) (fun _ => all_chars p) x); [..|lia];
    intros; cbn [all_chars]; rewrite Hp by done; done.
Qed.

Lemma inet_ntop_chars p ip : (forall d, 0 <= d <= 9 -> p (digit d) = true) -> p "."%char = true -> all_chars p (inet_ntop ip) = true.
Proof.
  intros Hp Hd. assert (H : forall k, 0 <= k -> all_chars p (pretty (byte_at ip k)) = true) by (intros k Hk; apply pretty_chars; [done|]; by apply byte_at_range).
  unfold inet_ntop. rewrite !all_chars_app, !H by lia. cbn. by rewrite Hd.
Qed.

Lemma pretty_nonempty x : 0 <= x -> empty (pretty x) = false.
Proof. intros H. rewrite <- (app_empty_r (pretty x)). apply (reads_number empty (fun _ _ => false) x); [done|done|lia]. Qed.

(** Nothing before the character [strchr] finds is that character. *)
Lemma strchr_app c s t : all_chars (fun d => negb (Ascii.eqb d c)) s = true -> strchr c (s +:+ String c t)%string = Some (s, t).
Proof.
  induction s as [|d s IH].
  - intros _. change (EmptyString +:+ String c t)%string with (String c t). cbn [strchr]. by rewrite Ascii.eqb_refl.
  - change (String d s +:+ String c t)%string with (String d (s +:+ String c t)%string). cbn [strchr all_chars].
    intros [Hd%negb_true_iff Hs]%andb_true_iff. by rewrite Hd, (IH Hs).
Qed.
Lemma strchr_none c s : all_chars (fun d => negb (Ascii.eqb d c)) s = true -> strchr c s = None.
Proof. induction s as [|d s IH]; [done|]. cbn [strchr all_chars]. intros [Hd%negb_true_iff Hs]%andb_true_iff. by rewrite Hd, (IH Hs). Qed.

(** [strtok] cuts off the first word. *)
Lemma tokens_from_app sep w : forall cur t, all_chars (fun c => negb (sep c)) w = true -> tokens_from sep cur (w +:+ t) = tokens_from sep (cur +:+ w) t.
Proof.
  induction w as [|c w IH]; intros cur t; cbn [all_chars]; [by rewrite app_empty_r|]. intros [Hc%negb_true_iff Hw]%andb_true_iff.
  change (String c w +:+ t)%string with (String c (w +:+ t)%string). cbn [tokens_from]. rewrite Hc, IH by done. f_equal. by rewrite <- string_app_assoc.
Qed.
Lemma tokens_word sep w c t : all_chars (fun c => negb (sep c)) w = true -> empty w = false -> sep c = true ->
  tokens sep (w +:+ String c t) = w :: tokens sep t.
Proof. intros Hw He Hc. unfold tokens. rewrite tokens_from_app by done. change (EmptyString +:+ w)%string with w. cbn [tokens_from]. by rewrite Hc, He. Qed.

(** [fgets] takes one line when it fits. *)
Definition line_char (c : ascii) : bool := negb (code c =? 10) && negb (code c =? 0).
Lemma fgets_line line rest room : all_chars line_char line = true -> (String.length line < room)%nat ->
  fgets room (line +:+ String "010" rest) = ((line +:+ String "010" EmptyString)%string, rest, false).
Proof.
  revert room. induction line as [|c line IH]; intros [|room] Hc Hl; try (cbn in Hl; lia); [done|]. cbn [all_chars] in Hc.
  apply andb_true_iff in Hc as [Hc Hs]. unfold line_char in Hc. apply andb_true_iff in Hc as [Hn%negb_true_iff _].
  change (String c line +:+ String "010" rest)%string with (String c (line +:+ String "010" rest)%string). cbn [fgets]. rewrite Hn, IH by (cbn in Hl; done || lia). done.
Qed.
Lemma c_str_line line : all_chars line_char line = true -> c_str (line +:+ String "010" EmptyString) = (line +:+ String "010" EmptyString)%string.
Proof.
  induction line as [|c line IH]; [done|]. cbn [all_chars]. intros [Hc Hs]%andb_true_iff. unfold line_char in Hc. apply andb_true_iff in Hc as [_ Hn%negb_true_iff].
  change (String c line +:+ String "010" EmptyString)%string with (String c (line +:+ String "010" EmptyString)%string). cbn [c_str]. by rewrite Hn, IH.
Qed.

(** The text of a file, from its lines. *)
Definition file_text (l : list string) : string := foldr (fun line rest => line +:+ String "010" rest)%string EmptyString l.
Lemma has_char_line line : has_char "010" (line +:+ String "010" EmptyString) = true.
Proof.
  unfold has_char. induction line as [|c line IH]; [done|]. change (String c line +:+ String "010" EmptyString)%string with (String c (line +:+ String "010" EmptyString)%string).
  cbn [strchr]. destruct (Ascii.eqb c "010"); [done|]. by destruct (strchr "010" _) as [[]|].
Qed.
Lemma lines_file_text room l err : (forall line, line ∈ l -> all_chars line_char line = true /\ (String.length line < room)%nat) ->
  lines room (mk_file (file_text l) err) = (fun line => (line +:+ String "010" EmptyString, false)%string) <$> l.
Proof.
  unfold lines. cbn [fl_text fl_error]. induction l as [|line l IH]; intros Hl; [done|]. destruct (Hl line) as [Hc Hlen]; [left|].
  assert (Hr : (0 < room)%nat) by lia. cbn [file_text foldr]. fold (file_text l). set (rest := file_text l) in *.
  assert (El : String.length (line +:+ String "010" rest) = S (String.length line + String.length rest)) by (rewrite string_app_length; cbn; lia).
  rewrite El. cbn [read_lines]. destruct (empty _) eqn:E; [by destruct line|]. rewrite fgets_line by done. cbn [andb].
  rewrite c_str_line, has_char_line by done. rewrite fmap_cons. f_equal. rewrite Nat.add_comm, read_lines_fuel by lia. apply IH. intros x Hx. apply Hl. by right.
Qed.

(** [number] reads what [%u] printed. *)
Lemma number_pretty x max : 0 <= x <= max -> number (pretty x) max = Some x.
Proof.
  intros H.
  assert (Hd : all_chars isdigit (pretty x) = true) by (apply pretty_chars; [apply isdigit_digit|lia]).
  assert (Hv : decimal 0 (pretty x) = x).
  { rewrite <- (app_empty_r (pretty x)). apply (reads_number (decimal 0) decimal x); [..|lia]; intros; cbn; rewrite digit_code by done; f_equal; lia. }
  assert (He : empty (pretty x) = false) by (apply pretty_nonempty; lia).
  unfold number. rewrite Hd, Hv, He. cbn. destruct (Z.ltb_spec max x); [lia|done].
Qed.

(** One octet of an address, then the rest. *)
Lemma pton_octet octets x s : (length octets < 4)%nat -> 0 <= x <= 255 ->
  pton octets None (pretty x +:+ s)%string = pton octets (Some x) s.
Proof.
  intros Hl. apply (reads_number (pton octets None) (fun n => pton octets (Some n))).
  - intros d t Hd. cbn. rewrite isdigit_digit, digit_code by done. destruct (Nat.eqb_spec (length octets) 4); [lia|]. do 2 f_equal. lia.
  - intros n d t Hn Hd Hb. cbn. rewrite isdigit_digit, digit_code by done.
    replace (48 + d - 48) with d by lia. destruct (Z.eqb_spec n 0); [lia|]. destruct (Z.ltb_spec 255 (n * 10 + d)); [lia|done].
Qed.
Lemma pton_dot octets x s : (length octets < 3)%nat ->
  pton octets (Some x) ("." +:+ s)%string = pton (octets ++ [x]) None s.
Proof.
  intros H. change ((if Nat.eqb (length octets) 3 then None else pton (octets ++ [x]) None s) = pton (octets ++ [x]) None s).
  destruct (Nat.eqb_spec (length octets) 3); [lia|done].
Qed.

(** [inet_pton] reads back what [inet_ntop] printed. *)
Lemma inet_pton_ntop ip : is_u32 ip -> inet_pton (inet_ntop ip) = Some ip.
Proof.
  intros H. unfold inet_pton, inet_ntop.
  assert (Hb : forall k, 0 <= k -> 0 <= byte_at ip k <= 255) by (intros k Hk; assert (B := byte_at_range ip k Hk); unfold is_u8 in B; lia).
  do 3 (rewrite <- ?string_app_assoc; rewrite pton_octet by (cbn; auto with lia); rewrite pton_dot by (cbn; lia)).
  rewrite <- (app_empty_r (pretty (byte_at ip 3))), pton_octet by (cbn; auto with lia). cbn. f_equal.
  by apply (rd_le32_le32 ip []).
Qed.
