(* ===== verification/Prefix.v ===== *)
(** IPv4 prefixes: [src/net_prefix.c] and the prefix helpers at the top of
    [src/route.c].  Addresses are 32-bit words holding network-order bytes, as
    in the source; the lemmas relate the masks to the leading bits of the
    host-order address. *)
From S2P Require Import Prelude.

(** * [src/net_prefix.c] *)

(** A shift by more than 32 is undefined in C; every caller bounds the prefix. *)
Definition net_mask (prefix : Z) : Z :=
  htonl (if truth prefix then u32 (Z.shiftl UINT32_MAX (32 - prefix)) else 0).

Definition net_match (ip network prefix : Z) : bool :=
  Z.land ip (net_mask prefix) =? network.

Definition net_prefix_valid (ip prefix : Z) : bool :=
  (prefix <=? 32) && negb (truth (Z.land ip (not32 (net_mask prefix)))).

Definition net_unicast (ip_be : Z) : bool :=
  let ip := ntohl ip_be in
  truth (Z.shiftr ip 24) && negb (Z.shiftr ip 24 =? 127) && (ip <? 3758096384).

Definition net_host (ip prefix : Z) : bool :=
  if 32 <? prefix then false else
  let mask := net_mask prefix in
  (31 <=? prefix) ||
  (truth (Z.land ip (not32 mask)) && negb (Z.land ip (not32 mask) =? not32 mask)).

(** * The static helpers of [src/route.c] *)

Definition prefix_mask (length : Z) : Z :=
  if truth length then u32 (Z.shiftl UINT32_MAX (32 - length)) else 0.

Definition unicast (ip_be : Z) : bool :=
  let ip := ntohl ip_be in
  negb (Z.shiftr ip 24 =? 0) && negb (Z.shiftr ip 24 =? 127) && (ip <? 3758096384).

Definition subnet_host (prefix_be length ip_be : Z) : bool :=
  let mask := prefix_mask length in
  let ip := ntohl ip_be in
  (31 <=? length) || negb (Z.land ip mask =? Z.land (ntohl prefix_be) mask) ||
  (negb (Z.land ip (not32 mask) =? 0) && negb (Z.land ip (not32 mask) =? not32 mask)).

#[global] Arguments net_mask : simpl never.
#[global] Arguments net_match : simpl never.
#[global] Arguments net_prefix_valid : simpl never.
#[global] Arguments net_unicast : simpl never.
#[global] Arguments net_host : simpl never.
#[global] Arguments prefix_mask : simpl never.
#[global] Arguments unicast : simpl never.
#[global] Arguments subnet_host : simpl never.

(** * Specification: leading and trailing bits *)

(** The network part (the leading [p] bits) and the host part of an address. *)
Definition netbits (ip p : Z) : Z := ntohl ip / 2 ^ (32 - p).
Definition hostbits (ip p : Z) : Z := ntohl ip mod 2 ^ (32 - p).

Definition valid_len (p : Z) : Prop := 0 <= p <= 32.
#[export] Instance valid_len_dec p : Decision (valid_len p).
Proof. unfold valid_len. apply _. Defined.

(** * Lemmas *)

Lemma net_mask_prefix_mask p : net_mask p = htonl (prefix_mask p).
Proof. done. Qed.

Lemma net_unicast_unicast ip : net_unicast ip = unicast ip.
Proof. unfold net_unicast, unicast, truth. done. Qed.

Lemma pow2_bounds k : 0 <= k <= 32 -> 1 <= 2 ^ k <= 4294967296.
Proof.
  intros. split.
  - apply (Z.pow_le_mono_r 2 0 k); lia.
  - apply (Z.pow_le_mono_r 2 k 32); lia.
Qed.

Lemma prefix_mask_eq p : valid_len p -> prefix_mask p = 4294967296 - 2 ^ (32 - p).
Proof.
  unfold valid_len, prefix_mask, truth. intros Hp.
  destruct (Z.eqb_spec p 0) as [->|]; [done|]. simpl.
  rewrite Z.shiftl_mul_pow2 by lia. unfold u32, UINT32_MAX.
  assert (Hb := pow2_bounds (32 - p) ltac:(lia)).
  replace (4294967295 * 2 ^ (32 - p))
    with (4294967296 - 2 ^ (32 - p) + (2 ^ (32 - p) - 1) * 4294967296) by lia.
  rewrite Z.mod_add by lia. apply Z.mod_small.
  assert (2 ^ (32 - p) <= 2 ^ 31) by (apply Z.pow_le_mono_r; lia). lia.
Qed.

Lemma prefix_mask_range p : valid_len p -> is_u32 (prefix_mask p).
Proof.
  intros Hp. rewrite prefix_mask_eq by done.
  assert (Hb := pow2_bounds (32 - p) ltac:(unfold valid_len in Hp; lia)). zlia.
Qed.

Lemma not32_prefix_mask p : valid_len p -> not32 (prefix_mask p) = 2 ^ (32 - p) - 1.
Proof. intros. rewrite not32_eq by (by apply prefix_mask_range). rewrite prefix_mask_eq by done. lia. Qed.

Lemma land_prefix_mask h p : is_u32 h -> valid_len p ->
  Z.land h (prefix_mask p) = h / 2 ^ (32 - p) * 2 ^ (32 - p).
Proof.
  unfold valid_len. intros Hh Hp.
  assert (Hm : Z.land h (prefix_mask p) = Z.ldiff h (Z.ones (32 - p))).
  { apply Z.bits_inj'. intros i Hi. rewrite Z.land_spec, Z.ldiff_spec.
    destruct (Z.lt_ge_cases i 32); [|by rewrite !bits_above by done].
    f_equal. transitivity (negb (Z.testbit (not32 (prefix_mask p)) i)).
    - unfold not32. rewrite u32_id by (by apply prefix_mask_range).
      rewrite Z.lxor_spec. change UINT32_MAX with (Z.ones 32).
      rewrite (Z.ones_spec_low 32) by lia. by destruct (Z.testbit (prefix_mask p) i).
    - by rewrite not32_prefix_mask, Z.ones_equiv, <- Z.sub_1_r by done. }
  rewrite Hm, Z.ldiff_ones_r by lia.
  by rewrite Z.shiftl_mul_pow2, Z.shiftr_div_pow2 by lia.
Qed.

Lemma land_not_prefix_mask h p : valid_len p ->
  Z.land h (not32 (prefix_mask p)) = h mod 2 ^ (32 - p).
Proof.
  unfold valid_len. intros Hp. rewrite not32_prefix_mask by done.
  rewrite <- Z.land_ones by lia. by rewrite Z.ones_equiv, <- Z.sub_1_r.
Qed.

(** Masking a network-order word is masking its host-order value. *)
Lemma land_htonl x m : is_u32 x -> Z.land x (htonl m) = htonl (Z.land (ntohl x) m).
Proof. intros. unfold htonl, ntohl. by rewrite bswap32_land, bswap32_involutive. Qed.

Lemma htonl_eqb h x : is_u32 h -> is_u32 x -> (htonl h =? x) = (h =? ntohl x).
Proof.
  intros. apply eq_bool_prop_intro. rewrite !Is_true_true, !Z.eqb_eq. unfold htonl, ntohl. split.
  - intros <-. by rewrite bswap32_involutive.
  - intros ->. by apply bswap32_involutive.
Qed.

Lemma ntohl_range x : is_u32 (ntohl x).
Proof. apply bswap32_range. Qed.
Lemma htonl_range x : is_u32 (htonl x).
Proof. apply bswap32_range. Qed.
#[export] Hint Resolve ntohl_range htonl_range : net.

Lemma land_mask_range h p : is_u32 h -> valid_len p -> is_u32 (Z.land h (prefix_mask p)).
Proof.
  intros Hh Hp. rewrite land_prefix_mask by done.
  assert (Hb := pow2_bounds (32 - p) ltac:(unfold valid_len in Hp; lia)).
  assert (0 <= h / 2 ^ (32 - p)) by (apply Z.div_pos; revert Hh; zlia).
  assert (2 ^ (32 - p) * (h / 2 ^ (32 - p)) <= h) by (apply Z.mul_div_le; lia).
  revert Hh. zlia.
Qed.

(** Two words that agree on their leading bits have the same masked value. *)
Lemma net_match_netbits ip network p :
  is_u32 ip -> is_u32 network -> valid_len p ->
  net_match ip network p = (netbits ip p * 2 ^ (32 - p) =? ntohl network).
Proof.
  intros Hi Hn Hp. unfold net_match, netbits. rewrite net_mask_prefix_mask.
  rewrite land_htonl by done.
  rewrite htonl_eqb by (try apply land_mask_range; auto with net).
  by rewrite land_prefix_mask by auto with net.
Qed.

Lemma net_prefix_valid_hostbits ip p :
  is_u32 ip -> 0 <= p ->
  net_prefix_valid ip p = true <-> (p <= 32 /\ hostbits ip p = 0).
Proof.
  intros Hi Hp. unfold net_prefix_valid, hostbits, truth. rewrite andb_true_iff, Z.leb_le.
  split; intros [Hle H]; (split; [done|]); rewrite negb_involutive in *;
  assert (Hv : valid_len p) by (unfold valid_len; lia);
  rewrite net_mask_prefix_mask in *; unfold htonl in *;
  rewrite not32_bswap32 in * by (by apply prefix_mask_range);
  change (bswap32 (not32 (prefix_mask p))) with (htonl (not32 (prefix_mask p))) in *;
  rewrite land_htonl, land_not_prefix_mask in * by done.
  - apply Z.eqb_eq in H. change 0 with (bswap32 0) in H.
    apply bswap32_inj in H; [done| |zlia].
    assert (Hb := pow2_bounds (32 - p) ltac:(unfold valid_len in Hv; lia)).
    assert (Hr := Z.mod_pos_bound (ntohl ip) (2 ^ (32 - p)) ltac:(lia)). revert Hr. zlia.
  - rewrite H. done.
Qed.

(** A valid network address is its own masked value. *)
Lemma valid_prefix_netbits network p :
  is_u32 network -> valid_len p -> hostbits network p = 0 ->
  ntohl network = netbits network p * 2 ^ (32 - p).
Proof.
  unfold hostbits, netbits, valid_len. intros Hn Hp H.
  assert (2 ^ (32 - p) <> 0) by (apply Z.pow_nonzero; lia).
  rewrite (Z.div_mod (ntohl network) (2 ^ (32 - p))) at 1 by done. lia.
Qed.

Lemma net_match_spec ip network p :
  is_u32 ip -> is_u32 network -> 0 <= p -> net_prefix_valid network p = true ->
  net_match ip network p = true <-> netbits ip p = netbits network p.
Proof.
  intros Hi Hn Hp [Hle Hh]%net_prefix_valid_hostbits; [|done..].
  assert (Hv : valid_len p) by (unfold valid_len; lia).
  rewrite net_match_netbits, Z.eqb_eq, (valid_prefix_netbits network p) by done.
  assert (0 < 2 ^ (32 - p)) by (apply Z.pow_pos_nonneg; lia).
  split; [apply Z.mul_reg_r; lia|by intros ->].
Qed.

(** The word [ip & net_mask(p)] is the network of [ip]. *)
Lemma land_net_mask_network ip p : is_u32 ip -> valid_len p ->
  ntohl (Z.land ip (net_mask p)) = netbits ip p * 2 ^ (32 - p) /\ is_u32 (Z.land ip (net_mask p)).
Proof.
  intros Hi Hp. rewrite net_mask_prefix_mask, land_htonl by done. split; [|apply htonl_range].
  unfold netbits, htonl. rewrite <- land_prefix_mask by auto with net.
  unfold ntohl at 1. rewrite bswap32_involutive; [done|]. apply land_mask_range; auto with net.
Qed.

Lemma netbits_of_network ip p : is_u32 ip -> valid_len p ->
  netbits (Z.land ip (net_mask p)) p = netbits ip p.
Proof.
  intros Hi Hp. unfold netbits at 1. rewrite (proj1 (land_net_mask_network ip p Hi Hp)).
  apply Z.div_mul. apply Z.pow_nonzero; unfold valid_len in Hp; lia.
Qed.

Lemma hostbits_of_network ip p : is_u32 ip -> valid_len p ->
  hostbits (Z.land ip (net_mask p)) p = 0.
Proof.
  intros Hi Hp. unfold hostbits. rewrite (proj1 (land_net_mask_network ip p Hi Hp)).
  apply Z.mod_mul. apply Z.pow_nonzero; unfold valid_len in Hp; lia.
Qed.

Lemma network_prefix_valid ip p : is_u32 ip -> valid_len p ->
  net_prefix_valid (Z.land ip (net_mask p)) p = true.
Proof.
  intros Hi Hp. apply net_prefix_valid_hostbits.
  - by apply land_net_mask_network.
  - unfold valid_len in Hp; lia.
  - split; [unfold valid_len in Hp; lia|by apply hostbits_of_network].
Qed.

(** Host part of a network-order word under the complemented mask. *)
Lemma land_not_net_mask ip p : is_u32 ip -> valid_len p ->
  Z.land ip (not32 (net_mask p)) = htonl (hostbits ip p).
Proof.
  intros Hi Hp. rewrite net_mask_prefix_mask. unfold htonl at 1.
  rewrite not32_bswap32 by (by apply prefix_mask_range).
  change (bswap32 (not32 (prefix_mask p))) with (htonl (not32 (prefix_mask p))).
  by rewrite land_htonl, land_not_prefix_mask by done.
Qed.

Lemma not32_net_mask p : valid_len p -> not32 (net_mask p) = htonl (2 ^ (32 - p) - 1).
Proof.
  intros Hp. rewrite net_mask_prefix_mask. unfold htonl.
  by rewrite not32_bswap32, not32_prefix_mask by (try done; by apply prefix_mask_range).
Qed.

Lemma hostbits_range ip p : valid_len p -> is_u32 (hostbits ip p) /\ hostbits ip p < 2 ^ (32 - p).
Proof.
  unfold valid_len, hostbits. intros Hp. assert (Hb := pow2_bounds (32 - p) ltac:(lia)).
  assert (Hr := Z.mod_pos_bound (ntohl ip) (2 ^ (32 - p)) ltac:(lia)). split; [|lia].
  revert Hr. zlia.
Qed.

(** Neither the network nor the broadcast address, unless the prefix has none. *)
Definition host_address (ip p : Z) : Prop :=
  31 <= p \/ (hostbits ip p <> 0 /\ hostbits ip p <> 2 ^ (32 - p) - 1).

#[export] Instance host_address_dec ip p : Decision (host_address ip p).
Proof. unfold host_address. apply _. Defined.

Lemma net_host_spec ip p : is_u32 ip -> 0 <= p ->
  net_host ip p = true <-> p <= 32 /\ host_address ip p.
Proof.
  intros Hi Hp. unfold net_host, host_address. destruct (32 <? p) eqn:E; bool_hyps.
  { split; [done|lia]. }
  assert (Hv : valid_len p) by (unfold valid_len; lia).
  rewrite land_not_net_mask, not32_net_mask by done.
  destruct (hostbits_range ip p Hv) as [Hr1 Hr2].
  assert (Hb := pow2_bounds (32 - p) ltac:(lia)).
  assert (E0 : truth (htonl (hostbits ip p)) = negb (hostbits ip p =? 0)).
  { unfold truth. rewrite htonl_eqb by (try done; zlia). done. }
  assert (E1 : (htonl (hostbits ip p) =? htonl (2 ^ (32 - p) - 1)) = (hostbits ip p =? 2 ^ (32 - p) - 1)).
  { rewrite htonl_eqb by auto with net. unfold htonl, ntohl.
    by rewrite bswap32_involutive by zlia. }
  rewrite E0, E1, orb_true_iff, andb_true_iff, !negb_true_iff, Z.leb_le, !Z.eqb_neq. lia.
Qed.

Lemma subnet_host_spec prefix_be p ip : is_u32 prefix_be -> is_u32 ip -> valid_len p ->
  subnet_host prefix_be p ip = true <->
  netbits ip p <> netbits prefix_be p \/ host_address ip p.
Proof.
  intros Hn Hi Hv. unfold subnet_host, host_address, netbits, hostbits.
  rewrite land_not_prefix_mask, not32_prefix_mask, !land_prefix_mask by auto with net.
  assert (0 < 2 ^ (32 - p)) by (apply Z.pow_pos_nonneg; unfold valid_len in Hv; lia).
  rewrite !orb_true_iff, andb_true_iff, !negb_true_iff, Z.leb_le, !Z.eqb_neq.
  assert (forall a b, a * 2 ^ (32 - p) = b * 2 ^ (32 - p) <-> a = b) as Hm
    by (intros a b; split; [apply Z.mul_reg_r; lia|by intros ->]).
  rewrite Hm. clear. tauto.
Qed.

Lemma unicast_spec ip :
  unicast ip = true <->
  16777216 <= ntohl ip < 3758096384 /\ ~ (2130706432 <= ntohl ip < 2147483648).
Proof.
  unfold unicast. assert (H := ntohl_range ip). rewrite Z.shiftr_div_pow2 by lia.
  change (2 ^ 24) with 16777216.
  rewrite !andb_true_iff, !negb_true_iff, !Z.eqb_neq, Z.ltb_lt. revert H. zlia.
Qed.
