(* ===== verification/Netif.v ===== *)
(** Interface lookups of [src/runtime.c] and the address queries of
    [src/net_config.c] that the whole stack shares. *)
From S2P Require Import Prelude.
From S2P Require Import Dpdk.
From S2P Require Import Types.
From S2P Require Import Prefix.

(** * Interfaces *)

(** Pointers into [rt->ports] are indices; the lookups return the port. *)
Definition netif_slot_by_dpdk_port (rt : app_runtime) (id : Z) : option nat :=
  find_index (fun p => pt_configured p && (pt_port_id p =? id)) (rt_ports rt).

Definition netif_by_dpdk_port (rt : app_runtime) (id : Z) : option port_state :=
  i ← netif_slot_by_dpdk_port rt id; rt_ports rt !! i.

Definition netif_by_id (rt : app_runtime) (id : Z) : option port_state :=
  let scan := i ← find_index (fun p => pt_configured p && (pt_id p =? id)) (rt_ports rt);
              rt_ports rt !! i in
  if id <? Z.of_nat (length (rt_ports rt)) then
    match rt_ports rt !! Z.to_nat id with
    | Some p => if pt_configured p && (pt_id p =? id) then Some p else scan
    | None => scan
    end
  else scan.

(** [!port || !port->started || port->admin_down] is the negation of this. *)
Definition port_up (p : port_state) : bool := pt_started p && negb (pt_admin_down p).

(** * Addresses *)

Definition net_address_on (rt : app_runtime) (dev ip : Z) : bool :=
  match rt_network rt with
  | None => match netif_by_id rt (u16 dev) with Some p => pt_ip_be p =? ip | None => false end
  | Some c => existsb (fun a => (na_dev a =? dev) && (na_ip a =? ip)) (nc_addresses c)
  end.

(** The loop of [net_source]: the first address of the device, the best match
    and its prefix length. *)
Definition net_source_step (dev dst : Z) (acc : Z * Z * Z) (a : net_address) : Z * Z * Z :=
  let '(first, best, prefix) := acc in
  if negb (na_dev a =? dev) then acc else
  let first := if truth first then first else na_ip a in
  if net_match dst (Z.land (na_ip a) (net_mask (na_prefix a))) (na_prefix a) &&
     (negb (truth best) || (prefix <? na_prefix a))
  then (first, na_ip a, na_prefix a)
  else (first, best, prefix).

Definition net_source (rt : app_runtime) (dev dst : Z) : Z :=
  match rt_network rt with
  | None => match netif_by_id rt (u16 dev) with Some p => pt_ip_be p | None => 0 end
  | Some c =>
    let '(first, best, _) := foldl (net_source_step dev dst) (0, 0, 0) (nc_addresses c) in
    if truth best then best else first
  end.

Definition netif_is_local_ip (rt : app_runtime) (ip_be : Z) : bool :=
  match rt_network rt with
  | Some c =>
    existsb (fun a => (na_ip a =? ip_be) &&
      match netif_by_id rt (u16 (na_dev a)) with Some _ => true | None => false end)
      (nc_addresses c)
  | None =>
    existsb (fun p => pt_configured p && net_address_on rt (pt_id p) ip_be) (rt_ports rt)
  end.

(** * Lemmas *)

(** Configured interfaces have distinct ids. *)
Definition netif_ids_unique (rt : app_runtime) : Prop :=
  forall i j p q, rt_ports rt !! i = Some p -> rt_ports rt !! j = Some q ->
    pt_configured p = true -> pt_configured q = true -> pt_id p = pt_id q -> i = j.

Lemma netif_by_id_Some rt id p : netif_by_id rt id = Some p ->
  pt_configured p = true /\ pt_id p = id /\ p ∈ rt_ports rt.
Proof.
  unfold netif_by_id.
  set (scan := (i ← find_index _ _; rt_ports rt !! i)).
  assert (Hscan : scan = Some p -> pt_configured p = true /\ pt_id p = id /\ p ∈ rt_ports rt).
  { unfold scan. intros (i & Hi & Hp)%bind_Some. apply find_index_Some in Hi as [(q & Hq & Ht) _].
    rewrite Hp in Hq. injection Hq as <-. bool_hyps.
    split; [done|]. split; [done|]. by eapply list_elem_of_lookup_2. }
  destruct (id <? _); [|done]. destruct (rt_ports rt !! Z.to_nat id) as [q|] eqn:E; [|done].
  destruct (pt_configured q && (pt_id q =? id)) eqn:Eq; [|done].
  intros [= <-]. bool_hyps. split; [done|]. split; [done|]. by eapply list_elem_of_lookup_2.
Qed.

Lemma netif_by_id_complete rt p : p ∈ rt_ports rt -> pt_configured p = true ->
  is_Some (netif_by_id rt (pt_id p)).
Proof.
  intros Hin Hc. apply list_elem_of_lookup in Hin as [i Hi]. unfold netif_by_id.
  set (scan := (i ← find_index _ _; rt_ports rt !! i)).
  assert (Hscan : is_Some scan).
  { unfold scan. destruct (find_index _ (rt_ports rt)) as [k|] eqn:E.
    - apply find_index_Some in E as [(q & Hq & _) _]. simpl. rewrite Hq. eauto.
    - exfalso. rewrite find_index_None in E. specialize (E i p Hi).
      rewrite Hc, Z.eqb_refl in E. done. }
  destruct (_ <? _); [|done]. destruct (rt_ports rt !! Z.to_nat (pt_id p)) as [q|]; [|done].
  destruct (_ && _); [eauto|done].
Qed.

Lemma netif_by_dpdk_port_Some rt id p : netif_by_dpdk_port rt id = Some p ->
  pt_configured p = true /\ pt_port_id p = id /\ p ∈ rt_ports rt.
Proof.
  unfold netif_by_dpdk_port. intros (i & Hi & Hp)%bind_Some.
  apply find_index_Some in Hi as [(q & Hq & Ht) _]. rewrite Hp in Hq. injection Hq as <-.
  bool_hyps. split; [done|]. split; [done|]. by eapply list_elem_of_lookup_2.
Qed.

Lemma existsb_elem {A} (f : A -> bool) (l : list A) :
  existsb f l = true <-> exists x, x ∈ l /\ f x = true.
Proof. rewrite existsb_exists. by setoid_rewrite list_elem_of_In. Qed.

Lemma forallb_elem {A} (f : A -> bool) (l : list A) :
  forallb f l = true <-> forall x, x ∈ l -> f x = true.
Proof. rewrite forallb_forall. by setoid_rewrite list_elem_of_In. Qed.

(** * Distinct ports *)

(** What names a port: the tests of [netif_by_dpdk_port]. *)
Definition port_shape (ports : list port_state) : list (bool * Z) := (fun p => (pt_configured p, pt_port_id p)) <$> ports.

(** No two configured ports share a DPDK port; [configure_port] refuses a second. *)
Definition ports_wf (ports : list port_state) : Prop :=
  forall i j p q, ports !! i = Some p -> ports !! j = Some q -> pt_configured p = true -> pt_configured q = true ->
    pt_port_id p = pt_port_id q -> i = j.

Lemma ports_wf_shape ports ports' : port_shape ports = port_shape ports' -> ports_wf ports -> ports_wf ports'.
Proof.
  intros Hs Hwf i j p q Hp Hq Hcp Hcq Hid.
  assert (Hl : forall k x, ports' !! k = Some x -> exists y, ports !! k = Some y /\ pt_configured y = pt_configured x /\ pt_port_id y = pt_port_id x).
  { intros k x Hx. assert (Hk : port_shape ports !! k = Some (pt_configured x, pt_port_id x))
      by (rewrite Hs; unfold port_shape; by rewrite list_lookup_fmap, Hx).
    unfold port_shape in Hk. rewrite list_lookup_fmap in Hk. destruct (ports !! k) as [y|]; [|done].
    injection Hk as H1 H2. eauto. }
  destruct (Hl i p Hp) as (p' & Hp' & Hc1 & Hi1). destruct (Hl j q Hq) as (q' & Hq' & Hc2 & Hi2).
  apply (Hwf i j p' q'); congruence.
Qed.
