(* ===== verification/Route.v ===== *)
(** The static route table of [src/route.c]: building it from the
    configuration, the gateway checks and the longest-prefix lookup used while
    no policy configuration is published. *)
From S2P Require Import Prelude.
From S2P Require Import Dpdk.
From S2P Require Import Types.
From S2P Require Import Prefix.
From S2P Require Import Netif.

(** * Building the table *)

Definition route_add_gateway (table : route_table) (prefix_be length id gateway_be : Z) : Z * route_table :=
  if 32 <? length then (- EINVAL, table) else
  if Z.of_nat (List.length table) =? ROUTE_CAPACITY then (- ENOSPC, table) else
  (0, table ++ [{| re_prefix_be := Z.land prefix_be (htonl (prefix_mask length));
                   re_gateway_be := gateway_be; re_netif_id := id; re_prefix_len := length |}]).

Definition route_add (table : route_table) (prefix_be length id : Z) : Z * route_table :=
  route_add_gateway table prefix_be length id 0.

(** [(ip_be & mask) == route->prefix_be]. *)
Definition route_matches (route : route_entry) (ip_be : Z) : bool :=
  Z.land ip_be (htonl (prefix_mask (re_prefix_len route))) =? re_prefix_be route.

Definition route_is_direct (table : route_table) (id ip_be : Z) : bool :=
  if negb (unicast ip_be) then false else
  existsb (fun route =>
    (re_netif_id route =? id) && negb (truth (re_gateway_be route)) &&
    route_matches route ip_be &&
    subnet_host (re_prefix_be route) (re_prefix_len route) ip_be) table.

(** The gateway check of one table entry. *)
Definition gateway_check (conf : app_config) (table : route_table) (route : route_entry) : Z :=
  if negb (truth (re_gateway_be route)) then 0 else
  if negb (route_is_direct table (re_netif_id route) (re_gateway_be route)) then - EINVAL else
  first_rc (fun netif =>
    if (re_gateway_be route =? if_ip_be netif) ||
       negb (subnet_host (if_ip_be netif) (if_prefix_len netif) (re_gateway_be route))
    then - EINVAL else 0) (cf_interfaces conf).

Definition route_config_init (conf : app_config) (table : route_table) : Z * route_table :=
  if (Nat.eqb (length (cf_interfaces conf)) 0) || (NETIF_MAX <? Z.of_nat (length (cf_interfaces conf))) ||
     (ROUTE_CAPACITY <? Z.of_nat (length (cf_routes conf))) || (1 <? cf_ipv4_forwarding conf)
  then (- EINVAL, table) else
  let '(rc, table) :=
    fold_rc (fun t '(i, netif) => route_add t (if_ip_be netif) (if_prefix_len netif) i)
      (indexed (cf_interfaces conf)) [] in
  if truth rc then (rc, table) else
  let '(rc, table) :=
    fold_rc (fun t route =>
      match find_index (fun netif => String.eqb (rc_device route) (if_device netif)) (cf_interfaces conf) with
      | None => (- ENODEV, t)
      | Some id => route_add_gateway t (rc_prefix_be route) (rc_prefix_len route) (Z.of_nat id)
                     (rc_gateway_be route)
      end) (cf_routes conf) table in
  if truth rc then (rc, table) else
  (first_rc (gateway_check conf table) table, table).

(** [(rc, table)] of the loop over the ports; a failing [route_add] gives -1. *)
Definition route_init_connected (rt : app_runtime) : Z * app_runtime :=
  let '(rc, table) :=
    fold_rc (fun t p =>
      if pt_configured p then
        let '(rc, t') := route_add t (pt_ip_be p) (pt_prefix_len p) (pt_id p) in
        if truth rc then (- 1, t') else (0, t')
      else (0, t)) (rt_ports rt) [] in
  (rc, set_rt_routes table rt).

(** * Lookup *)

Definition ipv4_destination_valid (rt : app_runtime) (ip_be : Z) : bool :=
  if negb (unicast ip_be) || netif_is_local_ip rt ip_be then false else
  match rt_network rt with
  | Some c => forallb (fun a => subnet_host (na_ip a) (u8 (na_prefix a)) ip_be) (nc_addresses c)
  | None => forallb (fun p => negb (pt_configured p) || subnet_host (pt_ip_be p) (pt_prefix_len p) ip_be)
              (rt_ports rt)
  end.

(** The scan that keeps the first entry with the longest prefix. *)
Definition best_route_step (dst_ip_be : Z) (best : option route_entry) (route : route_entry) : option route_entry :=
  if route_matches route dst_ip_be &&
     match best with None => true | Some b => re_prefix_len b <? re_prefix_len route end
  then Some route else best.

Definition best_route (table : route_table) (dst_ip_be : Z) : option route_entry :=
  foldl (best_route_step dst_ip_be) None table.

(** [ipv4_route_lookup] while [rt->network] is null. *)
Definition ipv4_route_lookup_static (rt : app_runtime) (dst_ip_be : Z) (result : route_result)
  : drop_reason * route_result :=
  if negb (ipv4_destination_valid rt dst_ip_be) then (DROP_INVALID_DESTINATION, result) else
  match best_route (rt_routes rt) dst_ip_be with
  | None => (DROP_NO_ROUTE, result)
  | Some best =>
    match netif_by_id rt (re_netif_id best) with
    | None => (DROP_INVALID_EGRESS, result)
    | Some port =>
      if negb (port_up port) then (DROP_INVALID_EGRESS, result) else
      let next_hop := if truth (re_gateway_be best) then re_gateway_be best else dst_ip_be in
      if negb (truth (re_gateway_be best)) &&
         negb (subnet_host (re_prefix_be best) (re_prefix_len best) dst_ip_be)
      then (DROP_INVALID_DESTINATION, result) else
      if truth (re_gateway_be best) &&
         (negb (ipv4_destination_valid rt next_hop) ||
          negb (route_is_direct (rt_routes rt) (re_netif_id best) next_hop))
      then (DROP_INVALID_EGRESS, result) else
      (DROP_NONE, {| rr_netif_id := pt_id port; rr_mtu := pt_mtu port; rr_next_hop_be := next_hop;
                     rr_source_ip_be := pt_ip_be port; rr_table := 0; rr_rule_pref := 0;
                     rr_type := 0; rr_local := 0 |})
    end
  end.

#[global] Arguments route_matches : simpl never.
#[global] Arguments route_is_direct : simpl never.
#[global] Arguments gateway_check : simpl never.
#[global] Arguments ipv4_destination_valid : simpl never.

(** * Specification *)

(** A table entry as [route_add_gateway] leaves it: a masked prefix. *)
Definition entry_wf (e : route_entry) : Prop :=
  is_u32 (re_prefix_be e) /\ valid_len (re_prefix_len e) /\
  hostbits (re_prefix_be e) (re_prefix_len e) = 0.

#[export] Instance entry_wf_dec e : Decision (entry_wf e).
Proof. unfold entry_wf. apply _. Defined.

(** The destination lies in the entry's network. *)
Definition covers (e : route_entry) (ip : Z) : Prop :=
  netbits ip (re_prefix_len e) = netbits (re_prefix_be e) (re_prefix_len e).

(** Entry [i] is the first of the longest covering prefixes. *)
Definition longest_match (table : route_table) (ip : Z) (i : nat) (e : route_entry) : Prop :=
  table !! i = Some e /\ covers e ip /\
  forall j e', table !! j = Some e' -> covers e' ip ->
    re_prefix_len e' < re_prefix_len e \/ (re_prefix_len e' = re_prefix_len e /\ (i <= j)%nat).

(** The types of the configuration fields. *)
Definition config_typed (conf : app_config) : Prop :=
  Forall (fun n => is_u32 (if_ip_be n) /\ 0 <= if_prefix_len n) (cf_interfaces conf) /\
  Forall (fun r => is_u32 (rc_prefix_be r) /\ 0 <= rc_prefix_len r /\ is_u32 (rc_gateway_be r)) (cf_routes conf).

#[export] Instance config_typed_dec conf : Decision (config_typed conf).
Proof. unfold config_typed. apply _. Defined.

(** What the port setup of [src/dpdk_port.c] establishes for the lookup: port
    [i] carries the address of interface [i] and is up. *)
Definition ports_match (conf : app_config) (rt : app_runtime) : Prop :=
  Forall2 (fun '(i, n) p =>
    pt_id p = i /\ pt_ip_be p = if_ip_be n /\ pt_prefix_len p = if_prefix_len n /\
    pt_configured p = true /\ port_up p = true)
    (indexed (cf_interfaces conf)) (rt_ports rt).

(** * Lemmas: matching *)

Lemma route_matches_spec e ip : entry_wf e -> is_u32 ip ->
  route_matches e ip = true <-> covers e ip.
Proof.
  intros (Hp & Hv & Hh) Hi. unfold covers.
  change (route_matches e ip) with (net_match ip (re_prefix_be e) (re_prefix_len e)).
  apply net_match_spec; [done..|unfold valid_len in Hv; lia|].
  apply net_prefix_valid_hostbits; unfold valid_len in Hv; [done|lia|split; [lia|done]].
Qed.

Lemma best_route_snoc table e ip :
  best_route (table ++ [e]) ip = best_route_step ip (best_route table ip) e.
Proof. unfold best_route. by rewrite foldl_app. Qed.

Lemma longest_match_old table e ip i b :
  longest_match table ip i b -> covers e ip -> re_prefix_len e <= re_prefix_len b ->
  longest_match (table ++ [e]) ip i b.
Proof.
  intros (Hl & Hc & Hmax) He Hle. split; [by apply lookup_app_l_Some|]. split; [done|].
  intros j e' Hj Hc'. apply lookup_app_Some in Hj as [Hj|[Hj Hs]]; [eauto|].
  apply list_lookup_singleton_Some in Hs as [_ <-].
  assert (i < length table)%nat by (by eapply lookup_lt_Some). lia.
Qed.

Lemma longest_match_skip table e ip i b :
  longest_match table ip i b -> ~ covers e ip -> longest_match (table ++ [e]) ip i b.
Proof.
  intros (Hl & Hc & Hmax) He. split; [by apply lookup_app_l_Some|]. split; [done|].
  intros j e' Hj Hc'. apply lookup_app_Some in Hj as [Hj|[Hj Hs]]; [eauto|].
  by apply list_lookup_singleton_Some in Hs as [_ <-].
Qed.

(** The scan computes the longest match, or nothing covers the destination. *)
Lemma best_route_longest table ip : Forall entry_wf table -> is_u32 ip ->
  match best_route table ip with
  | Some b => exists i, longest_match table ip i b
  | None => forall e, e ∈ table -> ~ covers e ip
  end.
Proof.
  intros Hwf Hi. induction table as [|e table IH] using rev_ind.
  { simpl. intros e He. by apply elem_of_nil in He. }
  rewrite best_route_snoc. apply Forall_app in Hwf as [Hwf [He _]%Forall_cons_iff].
  specialize (IH Hwf). unfold best_route_step.
  destruct (route_matches e ip) eqn:Em.
  - apply route_matches_spec in Em; [|done..].
    destruct (best_route table ip) as [b|] eqn:Eb; simpl.
    + destruct IH as [i Hlm]. destruct (_ <? _) eqn:El; bool_hyps.
      * exists (length table). split; [by rewrite list_lookup_middle|]. split; [done|].
        intros j e' Hj Hc'. apply lookup_app_Some in Hj as [Hj|[Hj Hs]].
        -- destruct Hlm as (_ & _ & Hmax). destruct (Hmax j e' Hj Hc'); lia.
        -- apply list_lookup_singleton_Some in Hs as [? <-]. lia.
      * exists i. by apply longest_match_old.
    + exists (length table). split; [by rewrite list_lookup_middle|]. split; [done|].
      intros j e' Hj Hc'. apply lookup_app_Some in Hj as [Hj|[Hj Hs]].
      * exfalso. eapply IH; [by eapply list_elem_of_lookup_2|done].
      * apply list_lookup_singleton_Some in Hs as [? <-]. lia.
  - assert (Hn : ~ covers e ip) by (rewrite <- route_matches_spec by done; congruence).
    simpl. destruct (best_route table ip) as [b|].
    + destruct IH as [i Hlm]. exists i. by apply longest_match_skip.
    + intros e' [He'|He']%elem_of_app; [eauto|]. apply list_elem_of_singleton in He' as ->. done.
Qed.

(** * Lemmas: building the table *)

(** The entry [route_add_gateway] appends. *)
Definition entry_of (prefix_be len id gateway : Z) : route_entry :=
  {| re_prefix_be := Z.land prefix_be (net_mask len); re_gateway_be := gateway;
     re_netif_id := id; re_prefix_len := len |}.

Lemma route_add_gateway_ok table prefix_be len id gateway table' :
  route_add_gateway table prefix_be len id gateway = (0, table') ->
  len <= 32 /\ table' = table ++ [entry_of prefix_be len id gateway] /\
  (Z.of_nat (length table) <> ROUTE_CAPACITY).
Proof.
  unfold route_add_gateway. destruct (32 <? len) eqn:E1; [done|].
  destruct (_ =? ROUTE_CAPACITY) eqn:E2; [done|]. intros [= <-]. bool_hyps.
  split; [lia|]. split; [done|lia].
Qed.

Lemma entry_of_wf prefix_be len id gateway : is_u32 prefix_be -> valid_len len ->
  entry_wf (entry_of prefix_be len id gateway).
Proof.
  intros Hp Hv. unfold entry_wf, entry_of; simpl. split; [by apply land_net_mask_network|].
  split; [done|by apply hostbits_of_network].
Qed.

(** The entry built from interface [i]. *)
Definition connected_entry (x : Z * netif_config) : route_entry :=
  entry_of (if_ip_be x.2) (if_prefix_len x.2) x.1 0.

(** The entry built from a configured route. *)
Definition static_entry (conf : app_config) (r : route_config) (e : route_entry) : Prop :=
  exists id netif, cf_interfaces conf !! id = Some netif /\ if_device netif = rc_device r /\
    rc_prefix_len r <= 32 /\
    e = entry_of (rc_prefix_be r) (rc_prefix_len r) (Z.of_nat id) (rc_gateway_be r).

(** A table built without error: the connected routes in interface order, then
    the configured ones in file order. *)
Definition table_of (conf : app_config) (table : route_table) : Prop :=
  exists statics, table = (connected_entry <$> indexed (cf_interfaces conf)) ++ statics /\
    Forall2 (static_entry conf) (cf_routes conf) statics /\
    Forall (fun n => if_prefix_len n <= 32) (cf_interfaces conf) /\
    Z.of_nat (length table) <= ROUTE_CAPACITY.

Lemma connected_loop interfaces table :
  fold_rc (fun t '(i, netif) => route_add t (if_ip_be netif) (if_prefix_len netif) i) interfaces [] = (0, table) ->
  table = connected_entry <$> interfaces /\
  Forall (fun x => if_prefix_len x.2 <= 32) interfaces /\ Z.of_nat (length table) <= ROUTE_CAPACITY.
Proof.
  intros H. refine (fold_rc_invariant _ (fun l t => t = connected_entry <$> l /\
    Forall (fun x => if_prefix_len x.2 <= 32) l /\ Z.of_nat (length t) <= ROUTE_CAPACITY) _ _ _ H _ _).
  { split; [done|]. split; [by constructor|done]. }
  intros done [i n] s1 s2 (-> & Hf & Hl) (Hle & -> & Hne)%route_add_gateway_ok.
  rewrite fmap_app. split; [done|]. split.
  - apply Forall_app. split; [done|]. by constructor.
  - rewrite length_app. simpl in *. lia.
Qed.

Lemma static_loop conf routes t0 table :
  Z.of_nat (length t0) <= ROUTE_CAPACITY ->
  fold_rc (fun t route =>
      match find_index (fun netif => String.eqb (rc_device route) (if_device netif)) (cf_interfaces conf) with
      | None => (- ENODEV, t)
      | Some id => route_add_gateway t (rc_prefix_be route) (rc_prefix_len route) (Z.of_nat id) (rc_gateway_be route)
      end) routes t0 = (0, table) ->
  exists statics, table = t0 ++ statics /\ Forall2 (static_entry conf) routes statics /\
    Z.of_nat (length table) <= ROUTE_CAPACITY.
Proof.
  intros Ht0 H. refine (fold_rc_invariant _ (fun l t => exists statics, t = t0 ++ statics /\
    Forall2 (static_entry conf) l statics /\ Z.of_nat (length t) <= ROUTE_CAPACITY) _ _ _ H _ _).
  { exists []. rewrite app_nil_r. split; [done|]. split; [by constructor|done]. }
  intros done r s1 s2 (st & -> & Hf & Hl). destruct (find_index _ _) as [id|] eqn:E; [|done].
  intros (Hle & -> & Hne)%route_add_gateway_ok.
  apply find_index_Some in E as [(n & Hn & Heq) _]. apply String.eqb_eq in Heq.
  exists (st ++ [entry_of (rc_prefix_be r) (rc_prefix_len r) (Z.of_nat id) (rc_gateway_be r)]).
  rewrite <- app_assoc. split; [done|]. split.
  - apply Forall2_app; [done|]. constructor; [|by constructor]. exists id, n. done.
  - rewrite !length_app in *. simpl in *. lia.
Qed.

Lemma indexed_Forall {A} (P : A -> Prop) (l : list A) : Forall (fun x => P x.2) (indexed l) <-> Forall P l.
Proof.
  rewrite !Forall_lookup. split; intros H i x Hx.
  - apply (H i (Z.of_nat i, x)). by rewrite indexed_lookup, Hx.
  - rewrite indexed_lookup in Hx. apply fmap_Some in Hx as (y & Hy & ->). by apply (H i y).
Qed.

Lemma route_config_init_ok conf t0 table :
  route_config_init conf t0 = (0, table) ->
  table_of conf table /\ Forall (fun e => gateway_check conf table e = 0) table.
Proof.
  unfold route_config_init. destruct (_ || _); [done|].
  destruct (fold_rc _ (indexed _) _) as [rc1 t1] eqn:E1. destruct (truth rc1) eqn:Er1.
  { intros [= -> _]. done. }
  apply truth_false in Er1 as ->. apply connected_loop in E1 as (-> & Hf & Hl).
  destruct (fold_rc _ (cf_routes conf) _) as [rc2 t2] eqn:E2. destruct (truth rc2) eqn:Er2.
  { intros [= -> _]. done. }
  apply truth_false in Er2 as ->. apply static_loop in E2 as (st & -> & Hst & Hl2); [|done].
  intros [= Hg <-]. apply first_rc_0 in Hg. split; [|done].
  exists st. split; [done|]. split; [done|]. split; [|done]. by apply (indexed_Forall (fun n => if_prefix_len n <= 32)).
Qed.

Lemma table_of_wf conf table : config_typed conf -> table_of conf table -> Forall entry_wf table.
Proof.
  intros [Hi Hr] (st & -> & Hst & Hp & _). apply Forall_app. split.
  - apply Forall_fmap, Forall_forall. intros [i n] Hin. apply indexed_elem in Hin as [_ Hin].
    rewrite Forall_lookup in Hi, Hp. specialize (Hi _ _ Hin) as [? ?]. specialize (Hp _ _ Hin).
    apply entry_of_wf; simpl in *; [done|unfold valid_len; lia].
  - induction Hst as [|r e rs es He Hst IH]; [done|]. apply Forall_cons_iff in Hr as [(? & ? & ?) Hr].
    constructor; [|by apply IH]. destruct He as (id & n & _ & _ & Hle & ->).
    apply entry_of_wf; [done|unfold valid_len; lia].
Qed.

(** * Lemmas: lookups over a configured table *)

Section configured.
Context (conf : app_config) (rt : app_runtime).
Hypothesis Hports : ports_match conf rt.
Hypothesis Hnet : rt_network rt = None.
Hypothesis Hcount : Z.of_nat (length (cf_interfaces conf)) <= NETIF_MAX.

Lemma configured_port (i : nat) n : cf_interfaces conf !! i = Some n ->
  exists p, netif_by_id rt (Z.of_nat i) = Some p /\ rt_ports rt !! i = Some p /\
    pt_id p = Z.of_nat i /\ pt_ip_be p = if_ip_be n /\ pt_prefix_len p = if_prefix_len n /\
    pt_configured p = true /\ port_up p = true.
Proof.
  intros Hn. unfold ports_match in Hports. rewrite Forall2_lookup in Hports.
  specialize (Hports i). rewrite indexed_lookup, Hn in Hports. simpl in Hports.
  inversion Hports as [x p Hp Hx Hy|]; subst. destruct Hp as (Hid & Hip & Hlen & Hc & Hup).
  exists p. split; [|by repeat split]. unfold netif_by_id. rewrite Nat2Z.id, <- Hy, Hc, Hid, Z.eqb_refl.
  assert (i < length (rt_ports rt))%nat by (eapply lookup_lt_Some; by symmetry).
  replace (Z.of_nat i <? Z.of_nat (length (rt_ports rt))) with true by (symmetry; apply Z.ltb_lt; lia).
  done.
Qed.

Lemma configured_port_inv p : p ∈ rt_ports rt ->
  exists i n, cf_interfaces conf !! i = Some n /\ rt_ports rt !! i = Some p /\ pt_id p = Z.of_nat i /\
    pt_ip_be p = if_ip_be n /\ pt_prefix_len p = if_prefix_len n /\ pt_configured p = true.
Proof.
  intros [i Hi]%list_elem_of_lookup. unfold ports_match in Hports. rewrite Forall2_lookup in Hports.
  specialize (Hports i). rewrite indexed_lookup, Hi in Hports.
  inversion Hports as [x q Hp Hx Hy|]; subst. symmetry in Hx. apply fmap_Some in Hx as (n & Hn & ->).
  destruct Hp as (? & ? & ? & ? & ?). exists i, n. by repeat split.
Qed.

Lemma configured_index_u16 (i : nat) n : cf_interfaces conf !! i = Some n -> is_u16 (Z.of_nat i).
Proof.
  intros H%lookup_lt_Some. unfold NETIF_MAX in Hcount. unfold is_u16. lia.
Qed.

Lemma configured_local_ip ip : netif_is_local_ip rt ip = true <->
  exists n, n ∈ cf_interfaces conf /\ if_ip_be n = ip.
Proof.
  unfold netif_is_local_ip, net_address_on. rewrite Hnet, existsb_elem. split.
  - intros (p & Hp & Ht). bool_hyps. apply configured_port_inv in Hp as (i & n & Hn & Hpi & Hid & Hip & _).
    assert (Hi := configured_index_u16 i n Hn). rewrite Hid, u16_id in * by done.
    destruct (configured_port i n Hn) as (q & Hq & Hqi & _). rewrite Hq in *.
    rewrite Hpi in Hqi. injection Hqi as <-. bool_hyps.
    exists n. split; [by eapply list_elem_of_lookup_2|congruence].
  - intros (n & [i Hn]%list_elem_of_lookup & <-).
    destruct (configured_port i n Hn) as (q & Hq & Hqi & Hid & Hip & _ & Hc & _).
    exists q. split; [by eapply list_elem_of_lookup_2|].
    assert (Hi := configured_index_u16 i n Hn).
    by rewrite Hc, Hid, u16_id, Hq, Hip, Z.eqb_refl by done.
Qed.

(** A gateway that passed the configuration check is a valid next hop. *)
Lemma checked_gateway_valid table e :
  gateway_check conf table e = 0 -> re_gateway_be e <> 0 ->
  ipv4_destination_valid rt (re_gateway_be e) = true /\
  route_is_direct table (re_netif_id e) (re_gateway_be e) = true.
Proof.
  unfold gateway_check. intros H Hne. apply truth_true in Hne. rewrite Hne in H. bsimpl in H.
  destruct (route_is_direct table _ _) eqn:Ed; [|done]. bsimpl in H. split; [|done].
  apply first_rc_0 in H. rewrite Forall_forall in H.
  assert (Hu : unicast (re_gateway_be e) = true).
  { unfold route_is_direct in Ed. by destruct (unicast _). }
  unfold ipv4_destination_valid. rewrite Hu. bsimpl.
  destruct (netif_is_local_ip rt _) eqn:El.
  { apply configured_local_ip in El as (n & Hn & Heq). specialize (H n Hn).
    rewrite Heq, Z.eqb_refl in H. done. }
  rewrite Hnet. apply forallb_elem. intros p Hp.
  apply configured_port_inv in Hp as (i & n & Hn & _ & _ & Hip & Hlen & Hc).
  rewrite Hc, Hip, Hlen. bsimpl. specialize (H n (list_elem_of_lookup_2 _ _ _ Hn)).
  destruct (subnet_host _ _ _); [done|]. by rewrite orb_true_r in H.
Qed.

Lemma table_netif_up table e : table_of conf table -> e ∈ table ->
  exists p, netif_by_id rt (re_netif_id e) = Some p /\ port_up p = true.
Proof.
  intros (st & -> & Hst & _) [He|He]%elem_of_app.
  - apply list_elem_of_fmap in He as ([i n] & -> & Hin). apply indexed_elem in Hin as [Hi Hin].
    destruct (configured_port _ _ Hin) as (p & Hp & _ & _ & _ & _ & _ & Hup).
    rewrite Z2Nat.id in Hp by done. eauto.
  - apply list_elem_of_lookup in He as [k Hk]. rewrite Forall2_lookup in Hst. specialize (Hst k).
    rewrite Hk in Hst. inversion Hst as [r e' (id & n & Hn & _ & _ & Heq) Hr He|]; subst.
    destruct (configured_port _ _ Hn) as (p & Hp & _ & _ & _ & _ & _ & Hup). eauto.
Qed.

Lemma best_route_elem table ip b : best_route table ip = Some b -> b ∈ table.
Proof.
  induction table as [|e table IH] using rev_ind; [done|].
  rewrite best_route_snoc. unfold best_route_step. destruct (_ && _).
  - intros [= <-]. apply elem_of_app. right. by apply list_elem_of_singleton.
  - intros H. apply elem_of_app. left. auto.
Qed.

Lemma static_lookup_egress dst result :
  table_of conf (rt_routes rt) ->
  Forall (fun e => gateway_check conf (rt_routes rt) e = 0) (rt_routes rt) ->
  (ipv4_route_lookup_static rt dst result).1 <> DROP_INVALID_EGRESS.
Proof.
  intros Ht Hg. unfold ipv4_route_lookup_static. destruct (negb _); [done|].
  destruct (best_route _ _) as [b|] eqn:Eb; [|done]. apply best_route_elem in Eb.
  destruct (table_netif_up _ _ Ht Eb) as (p & -> & ->). bsimpl.
  destruct (truth (re_gateway_be b)) eqn:Etr; bsimpl.
  - apply truth_true in Etr. rewrite Forall_forall in Hg.
    destruct (checked_gateway_valid _ _ (Hg b Eb) Etr) as [-> ->]. done.
  - by destruct (negb _).
Qed.
End configured.

(** * Properties *)

(** The static lookup table scan of [ipv4_route_lookup] returns the first
    entry with the longest prefix covering the destination, and finds nothing
    only when no entry covers it. *)
Theorem best_route_is_longest_match table ip :
  Forall entry_wf table -> is_u32 ip ->
  match best_route table ip with
  | Some b => exists i, longest_match table ip i b
  | None => forall e, e ∈ table -> ~ covers e ip
  end.
Proof. apply best_route_longest. Qed.

(** A table accepted by [route_config_init] holds the connected route of
    every interface followed by the configured routes, each with a masked
    prefix, and never exceeds its capacity. *)
Theorem route_config_init_table conf t0 table :
  config_typed conf -> route_config_init conf t0 = (0, table) ->
  table_of conf table /\ Forall entry_wf table.
Proof. intros Hc [H _]%route_config_init_ok. split; [done|by eapply table_of_wf]. Qed.

(** Once [route_config_init] accepted the configuration and the ports came
    up with it, a lookup never fails on the egress interface or the gateway. *)
Theorem configured_lookup_has_egress conf rt t0 dst result :
  route_config_init conf t0 = (0, rt_routes rt) -> ports_match conf rt -> rt_network rt = None ->
  (ipv4_route_lookup_static rt dst result).1 <> DROP_INVALID_EGRESS.
Proof.
  intros Hinit Hp Hn. destruct (route_config_init_ok _ _ _ Hinit) as [Ht Hg].
  apply (static_lookup_egress conf); [done..| |done|done].
  unfold route_config_init in Hinit. destruct (_ || _) eqn:E; [done|].
  apply orb_false_iff in E as [[[_ E]%orb_false_iff _]%orb_false_iff _].
  by apply Z.ltb_ge in E.
Qed.

(** * Witnesses *)

(** Two interfaces, 10.0.0.1/24 and 10.1.0.1/16, and a default route through
    10.1.0.254. *)
Definition sample_conf : app_config :=
  zero_app_config
  |> set_cf_interfaces
       [mk_netif_config PMD_TAP "eth0" (htonl 167772161) 24;
        mk_netif_config PMD_TAP "eth1" (htonl 167837697) 16]
  |> set_cf_routes [mk_route_config 0 (htonl 167837950) 0 "eth1"].

Definition sample_ports : list port_state :=
  (fun '(i, n) => zero_port_state |> set_pt_id i |> set_pt_port_id i |> set_pt_mtu 1500
     |> set_pt_ip_be (if_ip_be n) |> set_pt_prefix_len (if_prefix_len n)
     |> set_pt_configured true |> set_pt_started true
     |> set_pt_mac [2; 0; 0; 0; 0; i + 1] |> set_pt_name (if_device n))
  <$> indexed (cf_interfaces sample_conf).

Definition sample_runtime : app_runtime :=
  zero_app_runtime |> set_rt_ports sample_ports
  |> set_rt_routes (route_config_init sample_conf []).2.

Lemma best_route_is_longest_match_witness :
  match best_route (rt_routes sample_runtime) (htonl 167837953) with
  | Some b => exists i, longest_match (rt_routes sample_runtime) (htonl 167837953) i b
  | None => forall e, e ∈ rt_routes sample_runtime -> ~ covers e (htonl 167837953)
  end.
Proof. apply best_route_is_longest_match; compute_closed. Defined.

Lemma route_config_init_table_witness :
  table_of sample_conf (rt_routes sample_runtime) /\ Forall entry_wf (rt_routes sample_runtime).
Proof. apply (route_config_init_table sample_conf []); [compute_closed|reflexivity]. Defined.

Lemma configured_lookup_has_egress_witness :
  (ipv4_route_lookup_static sample_runtime (htonl 167837953) zero_route_result).1 <> DROP_INVALID_EGRESS.
Proof.
  apply (configured_lookup_has_egress sample_conf sample_runtime []);
    [reflexivity| |reflexivity].
  repeat constructor.
Defined.
