(* ===== verification/Config.v ===== *)
(** The configuration file parser of [src/config.c].  A [goto bad] is an error
    value: the text of [why]; [app_config_load] adds the line number.  The arrays
    [interfaces], [seen], [routes] and [route_seen] are lists of the same size. *)
From Stdlib Require Import Ascii.
From S2P Require Import Prelude.
From S2P Require Import Types.
From S2P Require Import Text.
From S2P Require Import Prefix.
From S2P Require Import Route.

Definition DPDK_MBUF_COUNT : Z := 8192.
Definition DPDK_MBUF_CACHE : Z := 256.
Definition DPDK_RX_DESC : Z := 1024.
Definition DPDK_TX_DESC : Z := 1024.

Definition app_config_defaults : app_config :=
  zero_app_config |> set_cf_mbufs DPDK_MBUF_COUNT |> set_cf_mbuf_cache DPDK_MBUF_CACHE
    |> set_cf_rx_desc DPDK_RX_DESC |> set_cf_tx_desc DPDK_TX_DESC.

(** * Values *)

Definition parse_prefix (s : string) : option (Z * Z) :=
  '(host, len) ← strchr "/" s;
  prefix ← number len 32; ip ← inet_pton host; Some (ip, prefix).

Definition parse_cidr (s : string) : option (Z * Z) :=
  '(ip_be, prefix) ← parse_prefix s;
  let host := ntohl ip_be in
  let mask := prefix_mask prefix in
  if (Z.shiftr host 24 =? 0) || (Z.shiftr host 24 =? 127) || (3758096384 <=? host) ||
     ((prefix <=? 30) && ((Z.land host (not32 mask) =? 0) || (Z.land host (not32 mask) =? not32 mask)))
  then None else Some (ip_be, prefix).

Definition DEVICE_SIZE : nat := 64.
Definition device_char (c : ascii) : bool := isalnum c || has_char c "_.:-".

(** * The state of the loop *)

Record parse_state : Type := mk_parse_state {
  ps_conf : app_config;                 (* the scalar fields *)
  ps_interfaces : list netif_config;    (* conf->interfaces, all NETIF_MAX of them *)
  ps_netif_count : Z;
  ps_routes : list route_config;        (* the first route_count *)
  ps_global_seen : Z;
  ps_seen : list Z;
  ps_route_seen : list Z;
  ps_sectioned : bool;
  ps_in_route : bool;
  ps_current : Z
}.

Definition initial_state : parse_state :=
  mk_parse_state app_config_defaults (replicate (Z.to_nat NETIF_MAX) zero_netif_config) 0 []
    0 (replicate (Z.to_nat NETIF_MAX) 0) [] false false 0.

Definition invalid_value : string := "invalid value".

(** [[interface]] *)
Definition interface_section (st : parse_state) : string + parse_state :=
  let '(mk_parse_state conf ifs count routes gseen seen rseen sectioned in_route current) := st in
  if negb sectioned && truth (nth 0 seen 0) then inl "cannot mix legacy and interface sections"%string else
  if count =? NETIF_MAX then inl "too many interfaces"%string else
  inr (mk_parse_state conf ifs (count + 1) routes gseen seen rseen true false count).

(** [[route]] *)
Definition route_section (st : parse_state) : string + parse_state :=
  let '(mk_parse_state conf ifs count routes gseen seen rseen sectioned in_route current) := st in
  if Z.of_nat (length routes) =? ROUTE_CAPACITY then inl "too many routes"%string else
  inr (mk_parse_state conf ifs count (routes ++ [zero_route_config]) gseen seen (rseen ++ [0]) sectioned true current).

(** A key of the route section. *)
Definition set_route_key (bit : Z) (value : string) (route : route_config) : option route_config :=
  if bit =? 1 then
    '(ip, len) ← parse_prefix value;
    Some (route |> set_rc_prefix_be (Z.land ip (htonl (prefix_mask len))) |> set_rc_prefix_len len)
  else if bit =? 2 then
    if empty value || Nat.leb DEVICE_SIZE (String.length value) then None else Some (set_rc_device value route)
  else
    gateway ← inet_pton value; if negb (truth gateway) then None else Some (set_rc_gateway_be gateway route).

Definition route_key (key : string) : option Z :=
  if String.eqb key "prefix" then Some 1 else
  if String.eqb key "device" then Some 2 else
  if String.eqb key "gateway" then Some 4 else None.

Definition route_line (key value : string) (st : parse_state) : string + parse_state :=
  let '(mk_parse_state conf ifs count routes gseen seen rseen sectioned in_route current) := st in
  let at_ := pred (length routes) in
  match route_key key with
  | None => inl "unknown route key"%string
  | Some bit =>
    if truth (Z.land (nth at_ rseen 0) bit) then inl "duplicate route key"%string else
    match set_route_key bit value (nth at_ routes zero_route_config) with
    | None => inl invalid_value
    | Some route => inr (mk_parse_state conf ifs count (<[at_ := route]> routes) gseen seen
                           (<[at_ := Z.lor (nth at_ rseen 0) bit]> rseen) sectioned in_route current)
    end
  end.

(** The keys outside a route section. *)
Definition config_keys : list string := ["lcore"; "pmd"; "device"; "ip"; "no_huge"; "ipv4_forwarding"]%string.
Definition global_key (k : Z) : bool := (k =? 0) || (k =? 4) || (k =? 5).

Definition set_global_key (k : Z) (value : string) (conf : app_config) : option app_config :=
  if k =? 0 then n ← number value 1023; Some (set_cf_lcore n conf) else
  if k =? 4 then n ← number value 1; Some (set_cf_no_huge n conf) else
  n ← number value 1; Some (set_cf_ipv4_forwarding n conf).

Definition set_netif_key (k : Z) (value : string) (netif : netif_config) : option netif_config :=
  if k =? 1 then
    if String.eqb value "tap" then Some (set_if_pmd PMD_TAP netif) else
    if String.eqb value "af_packet" then Some (set_if_pmd PMD_AFPKT netif) else
    if String.eqb value "physical" then Some (set_if_pmd PMD_PHYS netif) else None
  else if k =? 2 then
    if empty value || Nat.leb DEVICE_SIZE (String.length value) || negb (all_chars device_char value) then None
    else Some (set_if_device value netif)
  else '(ip, len) ← parse_cidr value; Some (netif |> set_if_ip_be ip |> set_if_prefix_len len).

Definition key_line (key value : string) (st : parse_state) : string + parse_state :=
  let '(mk_parse_state conf ifs count routes gseen seen rseen sectioned in_route current) := st in
  let cur := Z.to_nat current in
  match find_index (String.eqb key) config_keys with
  | None => inl "unknown key"%string
  | Some k =>
    let k := Z.of_nat k in
    let bit := Z.shiftl 1 k in
    if sectioned && global_key k then inl "global keys must precede sections"%string else
    if global_key k then
      if truth (Z.land gseen bit) then inl "duplicate key"%string else
      match set_global_key k value conf with
      | None => inl invalid_value
      | Some conf => inr (mk_parse_state conf ifs count routes (Z.lor gseen bit) seen rseen sectioned in_route current)
      end
    else
      if truth (Z.land (nth cur seen 0) bit) then inl "duplicate key"%string else
      match set_netif_key k value (nth cur ifs zero_netif_config) with
      | None => inl invalid_value
      | Some netif => inr (mk_parse_state conf (<[cur := netif]> ifs) count routes gseen
                             (<[cur := Z.lor (nth cur seen 0) bit]> seen) rseen sectioned in_route current)
      end
  end.

(** One round of the loop. *)
Definition config_line (line : string * bool) (st : parse_state) : string + parse_state :=
  if line.2 then inl "line too long"%string else
  let key := trim line.1 in
  if empty key || (match key with String c _ => Ascii.eqb c "#" | _ => false end) then inr st else
  if String.eqb key "[interface]" then interface_section st else
  if String.eqb key "[route]" then route_section st else
  match strchr "=" key with
  | None => inl "expected key=value"%string
  | Some (key, value) =>
    if ps_in_route st then route_line (trim key) (trim value) st else key_line (trim key) (trim value) st
  end.

(** The loop: the state, or the number of the bad line and the reason. *)
Fixpoint config_lines (n : Z) (ls : list (string * bool)) (st : parse_state) : Z * string + Z * parse_state :=
  match ls with
  | [] => inr (n, st)
  | line :: ls' =>
    match config_line line st with
    | inl why => inl (n + 1, why)
    | inr st' => config_lines (n + 1) ls' st'
    end
  end.

(** * After the loop *)

Definition netif_problem (conf : app_config) (netifs : list netif_config) (seen : list Z) (i : Z) (netif : netif_config) : option string :=
  if negb (Z.land (nth (Z.to_nat i) seen 0) 14 =? 14) then Some "pmd, device and ip are required per interface"%string else
  if negb (bool_decide (if_pmd netif = PMD_PHYS)) && Nat.leb 16 (String.length (if_device netif))
  then Some "interface name must be shorter than 16 bytes"%string else
  if bool_decide (if_pmd netif = PMD_PHYS) && truth (cf_no_huge conf) then Some "no_huge is only supported with virtual PMDs"%string else
  head (omap (fun other =>
    if String.eqb (if_device netif) (if_device other) then Some "duplicate device"%string else
    if if_ip_be netif =? if_ip_be other then Some "duplicate local IP"%string else None) (take (Z.to_nat i) netifs)).

Definition first_problem {A} (problem : Z -> A -> option string) (l : list A) : option string :=
  head (omap (fun '(i, x) => problem i x) (indexed l)).

Definition route_problem (rc : Z) : option string :=
  if negb (truth rc) then None else
  Some (if rc =? - ENOSPC then "too many connected and static routes"%string else
        if rc =? - ENODEV then "unknown route device"%string else "invalid or unreachable gateway"%string).

(** The configuration the state stands for. *)
Definition finished_config (st : parse_state) : app_config :=
  let count := if ps_sectioned st then ps_netif_count st else 1 in
  ps_conf st |> set_cf_interfaces (take (Z.to_nat count) (ps_interfaces st)) |> set_cf_routes (ps_routes st).

Definition config_problem (error : bool) (st : parse_state) : option string :=
  let conf := finished_config st in
  if error then Some "read failed"%string else
  match first_problem (netif_problem conf (cf_interfaces conf) (ps_seen st)) (cf_interfaces conf) with
  | Some why => Some why
  | None =>
    match first_problem (fun _ seen => if Z.land seen 3 =? 3 then None else Some "prefix and device are required per route"%string) (ps_route_seen st) with
    | Some why => Some why
    | None => route_problem (route_config_init conf []).1
    end
  end.

(** [fopen] gives the stream; a file that cannot be opened is an error before the
    parser starts. *)
Definition app_config_load (f : file) : Z * string + app_config :=
  match config_lines 0 (lines 255 f) initial_state with
  | inl bad => inl bad
  | inr (n, st) => match config_problem (fl_error f) st with Some why => inl (n, why) | None => inr (finished_config st) end
  end.

#[global] Arguments app_config_load : simpl never.
#[global] Arguments config_line : simpl never.
#[global] Arguments key_line : simpl never.
#[global] Arguments route_line : simpl never.

(** * What a loaded configuration satisfies *)

Definition device_ok (d : string) : Prop := d <> EmptyString /\ (String.length d < DEVICE_SIZE)%nat.

(** A host address of its own network. *)
Definition address_ok (ip_be prefix : Z) : Prop :=
  is_u32 ip_be /\ 0 <= prefix <= 32 /\ unicast ip_be = true /\ subnet_host ip_be prefix ip_be = true.

Record config_valid (conf : app_config) : Prop := {
  cv_scalars : 0 <= cf_lcore conf <= 1023 /\ 0 <= cf_no_huge conf <= 1 /\ 0 <= cf_ipv4_forwarding conf <= 1;
  cv_count : (1 <= length (cf_interfaces conf))%nat /\ Z.of_nat (length (cf_interfaces conf)) <= NETIF_MAX;
  cv_interfaces : Forall (fun n => device_ok (if_device n) /\ all_chars device_char (if_device n) = true /\
    address_ok (if_ip_be n) (if_prefix_len n)) (cf_interfaces conf);
  cv_names : Forall (fun n => if_pmd n <> PMD_PHYS -> (String.length (if_device n) < 16)%nat) (cf_interfaces conf);
  cv_huge : Forall (fun n => if_pmd n = PMD_PHYS -> cf_no_huge conf = 0) (cf_interfaces conf);
  cv_distinct : NoDup (if_device <$> cf_interfaces conf) /\ NoDup (if_ip_be <$> cf_interfaces conf);
  cv_routes : Forall (fun r => device_ok (rc_device r) /\ 0 <= rc_prefix_len r <= 32 /\ is_u32 (rc_prefix_be r) /\ is_u32 (rc_gateway_be r) /\
    Z.land (rc_prefix_be r) (htonl (prefix_mask (rc_prefix_len r))) = rc_prefix_be r) (cf_routes conf);
  cv_table : exists table, route_config_init conf [] = (0, table)
}.

(** ** Values *)

Lemma pton_bytes s octets cur bytes : Forall is_u8 octets -> (forall v, cur = Some v -> is_u8 v) -> pton octets cur s = Some bytes ->
  Forall is_u8 bytes /\ length bytes = 4%nat.
Proof.
  revert octets cur. induction s as [|c s IH]; intros octets cur Ho Hc; cbn [pton].
  - destruct cur as [v|]; [|done]. destruct (Nat.eqb_spec (length octets) 3) as [Hl|]; [|done]. intros [= <-].
    split; [by apply Forall_app; auto|]. rewrite length_app, Hl. done.
  - destruct (isdigit c) eqn:Ed.
    + unfold isdigit in Ed. apply andb_true_iff in Ed as [E1 E2]. apply Z.leb_le in E1, E2. destruct cur as [v|].
      * destruct ((v =? 0) || _) eqn:Eb; [done|]. apply orb_false_iff in Eb as [_ Eb]. apply Z.ltb_ge in Eb. apply IH; [done|].
        intros w [= <-]. specialize (Hc v eq_refl). unfold is_u8 in *. lia.
      * destruct (Nat.eqb _ 4); [done|]. apply IH; [done|]. intros w [= <-]. unfold is_u8. lia.
    + destruct (code c =? 46); [|done]. destruct cur as [v|]; [|done]. destruct (Nat.eqb _ 3); [done|]. apply IH; [|done]. by apply Forall_app; auto.
Qed.

Lemma inet_pton_u32 s ip : inet_pton s = Some ip -> is_u32 ip.
Proof.
  unfold inet_pton. destruct (pton [] None s) as [bytes|] eqn:E; [|done]. intros [= <-]. apply pton_bytes in E as [Hb Hl]; [|constructor|done].
  destruct bytes as [|a [|b [|c [|d [|]]]]]; try done. repeat (apply Forall_cons in Hb as [? Hb]). unfold rd_le32, byte_of, is_u32, is_u8 in *. cbn. lia.
Qed.

Lemma parse_prefix_ok s ip len : parse_prefix s = Some (ip, len) -> is_u32 ip /\ 0 <= len <= 32.
Proof.
  unfold parse_prefix. destruct (strchr "/" s) as [[host t]|]; [|done]. cbn. destruct (number t 32) as [n|] eqn:En; [|done]. cbn.
  destruct (inet_pton host) as [i|] eqn:Ei; [|done]. cbn. intros [= <- <-]. split; [by eapply inet_pton_u32|by eapply number_range].
Qed.

Lemma parse_cidr_ok s ip len : parse_cidr s = Some (ip, len) -> address_ok ip len.
Proof.
  unfold parse_cidr. destruct (parse_prefix s) as [[i p]|] eqn:E; [|done]. cbn. apply parse_prefix_ok in E as [Hi Hp].
  destruct (_ || _) eqn:Eb; [done|]. intros [= <- <-]. rewrite !orb_false_iff in Eb. destruct Eb as [[[H1 H2] H3] H4].
  split_and!; [done|lia|lia| |].
  - unfold unicast. rewrite H1, H2. cbn. apply Z.leb_gt in H3. by apply Z.ltb_lt.
  - unfold subnet_host. rewrite Z.eqb_refl. cbn [negb]. rewrite orb_false_r. destruct (Z.leb_spec 31 p); [done|]. cbn [orb].
    destruct (Z.leb_spec p 30); [|lia]. cbn [andb] in H4. apply orb_false_iff in H4 as [H4 H5]. by rewrite H4, H5.
Qed.

(** ** The loop *)

(** What the bits of [seen] and of [route_seen] say of the fields. *)
Definition netif_seen (bits : Z) (n : netif_config) : Prop :=
  (Z.testbit bits 2 = true -> device_ok (if_device n) /\ all_chars device_char (if_device n) = true) /\
  (Z.testbit bits 3 = true -> address_ok (if_ip_be n) (if_prefix_len n)).

Definition route_seen (bits : Z) (r : route_config) : Prop :=
  (Z.testbit bits 0 = true -> 0 <= rc_prefix_len r <= 32 /\ is_u32 (rc_prefix_be r) /\
     Z.land (rc_prefix_be r) (htonl (prefix_mask (rc_prefix_len r))) = rc_prefix_be r) /\
  (Z.testbit bits 1 = true -> device_ok (rc_device r)) /\ is_u32 (rc_gateway_be r).

(** The indices of the loop stay inside their arrays: [pi_current] and
    [pi_route]. *)
Record parse_inv (st : parse_state) : Prop := {
  pi_scalars : 0 <= cf_lcore (ps_conf st) <= 1023 /\ 0 <= cf_no_huge (ps_conf st) <= 1 /\ 0 <= cf_ipv4_forwarding (ps_conf st) <= 1;
  pi_size : length (ps_interfaces st) = Z.to_nat NETIF_MAX;
  pi_netifs : Forall2 netif_seen (ps_seen st) (ps_interfaces st);
  pi_routes : Forall2 route_seen (ps_route_seen st) (ps_routes st);
  pi_count : 0 <= ps_netif_count st <= NETIF_MAX;
  pi_current : 0 <= ps_current st < NETIF_MAX;
  pi_capacity : Z.of_nat (length (ps_routes st)) <= ROUTE_CAPACITY;
  pi_sectioned : ps_sectioned st = true -> 1 <= ps_netif_count st;
  pi_route : ps_in_route st = true -> ps_routes st <> []
}.

Lemma initial_state_inv : parse_inv initial_state.
Proof. split; cbn; try done; try lia; repeat constructor; done. Qed.

Lemma testbit_set bits k j : 0 <= k -> 0 <= j -> Z.testbit (Z.lor bits (Z.shiftl 1 k)) j = Z.testbit bits j || (k =? j).
Proof. intros Hk Hj. rewrite Z.lor_spec, Z.shiftl_1_l, Z.pow2_bits_eqb by lia. done. Qed.

Lemma set_netif_key_seen k value bits n n' : 0 <= k < 6 -> global_key k = false ->
  set_netif_key k value n = Some n' -> netif_seen bits n -> netif_seen (Z.lor bits (Z.shiftl 1 k)) n'.
Proof.
  intros Hk Hg. unfold set_netif_key. destruct (Z.eqb_spec k 1) as [->|H1]; [|destruct (Z.eqb_spec k 2) as [->|H2]].
  - intros H [Hd Ha]. split; rewrite testbit_set by lia; rewrite orb_false_r; intros Hb;
      repeat (match type of H with context [String.eqb ?a ?b] => destruct (String.eqb a b) end; [injection H as <-; cbn; tauto|]); done.
  - destruct (_ || _) eqn:E; [done|]. intros [= <-] [Hd Ha]. rewrite !orb_false_iff in E. destruct E as [[E1 E2] E3].
    split; rewrite testbit_set by lia; cbn; [|rewrite orb_false_r; tauto]. intros _.
    apply Nat.leb_gt in E2. apply negb_false_iff in E3. split; [split; [|done]|done]. intros ->. done.
  - assert (k = 3) as -> by (unfold global_key in Hg; apply orb_false_iff in Hg as [[? ?]%orb_false_iff ?]; lia).
    destruct (parse_cidr value) as [[ip len]|] eqn:E; [|done]. cbn. intros [= <-] [Hd Ha]. apply parse_cidr_ok in E.
    split; rewrite testbit_set by lia; cbn; [rewrite orb_false_r|]; tauto.
Qed.

Lemma set_route_key_seen key bit value bits r r' : route_key key = Some bit ->
  set_route_key bit value r = Some r' -> route_seen bits r -> route_seen (Z.lor bits bit) r'.
Proof.
  intros Hk. assert (exists k, 0 <= k < 3 /\ bit = Z.shiftl 1 k) as (k & Hkr & ->).
  { unfold route_key in Hk. repeat case_match; try done; injection Hk as <-; [exists 0|exists 1|exists 2]; (split; [lia|done]). }
  clear Hk. unfold set_route_key. assert (k = 0 \/ k = 1 \/ k = 2) as [-> | [-> | ->]] by lia; cbn [Z.eqb Z.shiftl Pos.eqb Pos.iter Z.mul].
  - destruct (parse_prefix value) as [[ip len]|] eqn:E; [|done]. cbn. intros [= <-] (Hp & Hd & Hg). apply parse_prefix_ok in E as [Hi Hl].
    split_and!; [|rewrite (testbit_set _ 0 1) by lia; cbn; rewrite orb_false_r; tauto|done]. intros _. cbn. split_and!; [lia|lia| |].
    + by apply land_u32.
    + by rewrite <- Z.land_assoc, Z.land_diag.
  - destruct (_ || _) eqn:E; [done|]. intros [= <-] (Hp & Hd & Hg). rewrite !orb_false_iff in E. destruct E as [E1 E2].
    apply Nat.leb_gt in E2. split_and!; [rewrite (testbit_set _ 1 0) by lia; cbn; rewrite orb_false_r; tauto| |done].
    intros _. cbn. split; [|done]. intros ->. done.
  - destruct (inet_pton value) as [g|] eqn:E; [|done]. cbn. destruct (truth g); [|done]. intros [= <-] (Hp & Hd & Hg).
    apply inet_pton_u32 in E. split_and!; [rewrite (testbit_set _ 2 0) by lia|rewrite (testbit_set _ 2 1) by lia|done]; cbn; rewrite orb_false_r; tauto.
Qed.

Lemma Forall2_update {A B} (P : A -> B -> Prop) l k i a b a' b' da db : Forall2 P l k ->
  a = nth i l da -> b = nth i k db -> (P a b -> P a' b') -> (i < length k)%nat -> Forall2 P (<[i:=a']> l) (<[i:=b']> k).
Proof.
  intros H -> -> Hp Hi. apply Forall2_insert; [done|]. apply Hp. rewrite !nth_lookup.
  destruct (lookup_lt_is_Some_2 k i Hi) as [y Hy]. destruct (Forall2_lookup_r _ _ _ _ _ H Hy) as (x & Hx & Hxy).
  by rewrite Hx, Hy.
Qed.

Lemma config_line_inv line st st' : parse_inv st -> config_line line st = inr st' -> parse_inv st'.
Proof.
  intros Hinv. unfold config_line. destruct line.2; [done|]. set (key := trim line.1). destruct (empty key || _); [by intros [= <-]|].
  destruct st as [conf ifs count routes gseen seen rseen sectioned in_route current]. destruct Hinv. cbn in *.
  destruct (String.eqb key "[interface]"); [|destruct (String.eqb key "[route]")].
  - destruct (negb sectioned && _); [done|]. destruct (Z.eqb_spec count NETIF_MAX); [done|]. intros [= <-]. split; cbn; try done; lia.
  - destruct (Z.eqb_spec (Z.of_nat (length routes)) ROUTE_CAPACITY); [done|]. intros [= <-]. split; cbn; try done.
    + apply Forall2_app; [done|]. repeat constructor; done.
    + rewrite length_app. cbn. lia.
    + intros _ [_ ?]%app_eq_nil. done.
  - destruct (strchr "=" key) as [[k v]|]; [|done]. destruct in_route.
    + unfold route_line. destruct (route_key (trim k)) as [bit|] eqn:Ek; [|done]. destruct (truth _); [done|].
      destruct (set_route_key bit (trim v) _) as [r|] eqn:Er; [|done]. intros [= <-]. split; cbn; try done.
      * eapply Forall2_update; [done|done|done|by eapply set_route_key_seen|]. assert (H := pi_route0 eq_refl). destruct routes; [done|]. cbn. lia.
      * by rewrite length_insert.
      * intros _ Hn. apply (f_equal length) in Hn. rewrite length_insert in Hn. destruct routes; [|done]. by apply pi_route0.
    + unfold key_line. destruct (find_index (String.eqb (trim k)) config_keys) as [i|] eqn:Ei; [|done]. apply find_index_lt in Ei. cbn in Ei.
      destruct (sectioned && _); [done|]. destruct (global_key (Z.of_nat i)) eqn:Eg.
      * destruct (truth _); [done|]. destruct (set_global_key _ _ conf) as [conf'|] eqn:Es; [|done]. intros [= <-]. split; cbn; try done.
        unfold set_global_key in Es. destruct (Z.of_nat i =? 0); [|destruct (Z.of_nat i =? 4)]; (destruct (number (trim v) _) as [n|] eqn:En in Es; [|done]);
          cbn in Es; injection Es as <-; cbn; apply number_range in En; lia.
      * destruct (truth _); [done|]. destruct (set_netif_key _ _ _) as [n|] eqn:Es; [|done]. intros [= <-]. split; cbn; try done.
        { by rewrite length_insert. }
        eapply Forall2_update; [done|done|done| |]; [intros; eapply set_netif_key_seen; [|done|done|done]; lia|]. rewrite pi_size0. lia.
Qed.

Lemma config_lines_inv ls n st m st' : parse_inv st -> config_lines n ls st = inr (m, st') -> parse_inv st'.
Proof.
  revert n st. induction ls as [|line ls IH]; intros n st Hst; cbn; [by intros [= <- <-]|].
  destruct (config_line line st) as [|st1] eqn:E; [done|]. apply IH. by eapply config_line_inv.
Qed.

(** ** The checks after the loop *)

Lemma head_omap_None {A B} (f : A -> option B) l : head (omap f l) = None <-> Forall (fun x => f x = None) l.
Proof.
  induction l as [|x l IH]; cbn; [by split|]. rewrite Forall_cons, <- IH. destruct (f x) as [y|]; cbn; naive_solver.
Qed.

Lemma first_problem_None {A} (problem : Z -> A -> option string) l : first_problem problem l = None ->
  forall i x, l !! i = Some x -> problem (Z.of_nat i) x = None.
Proof.
  unfold first_problem. rewrite head_omap_None. intros H i x Hx. rewrite Forall_lookup in H.
  apply (H i (Z.of_nat i, x)). by rewrite indexed_lookup, Hx.
Qed.

(** A field no later interface shares with an earlier one. *)
Lemma NoDup_earlier {A B} (f : A -> B) l : (forall i x y, l !! i = Some x -> y ∈ take i l -> f x <> f y) -> NoDup (f <$> l).
Proof.
  intros H. apply NoDup_alt. intros i j v Hi Hj. rewrite list_lookup_fmap in Hi, Hj.
  apply fmap_Some in Hi as (x & Hx & ->). apply fmap_Some in Hj as (y & Hy & Hxy).
  destruct (lt_eq_lt_dec i j) as [[Hlt|]|Hlt]; [|done|]; exfalso.
  - apply (H j y x Hy); [|done]. apply list_elem_of_lookup. exists i. by rewrite lookup_take_lt.
  - apply (H i x y Hx); [|done]. apply list_elem_of_lookup. exists j. by rewrite lookup_take_lt.
Qed.

Lemma netif_problem_None conf netifs seen i n : netif_problem conf netifs seen (Z.of_nat i) n = None ->
  Z.land (nth i seen 0) 14 = 14 /\ (if_pmd n <> PMD_PHYS -> (String.length (if_device n) < 16)%nat) /\
  (if_pmd n = PMD_PHYS -> cf_no_huge conf = 0) /\ forall m, m ∈ take i netifs -> if_device n <> if_device m /\ if_ip_be n <> if_ip_be m.
Proof.
  unfold netif_problem. rewrite Nat2Z.id. destruct (Z.eqb_spec (Z.land (nth i seen 0) 14) 14) as [E|]; [|done]. cbn [negb].
  destruct (negb _ && _) eqn:E1; [done|]. destruct (_ && truth _) eqn:E2; [done|]. rewrite head_omap_None, Forall_forall. intros H. split_and!; [done| | |].
  - intros Hp. rewrite bool_decide_eq_false_2 in E1 by done. cbn [negb andb] in E1. by apply Nat.leb_gt in E1.
  - intros Hp. rewrite bool_decide_eq_true_2 in E2 by done. cbn in E2. by apply truth_false in E2.
  - intros m Hm. specialize (H m Hm). cbn in H. destruct (String.eqb_spec (if_device n) (if_device m)); [done|]. by destruct (Z.eqb_spec (if_ip_be n) (if_ip_be m)).
Qed.

Lemma testbit_all bits m k : Z.land bits m = m -> Z.testbit m k = true -> Z.testbit bits k = true.
Proof. intros H Hk. rewrite <- H, Z.land_spec, andb_true_iff in Hk. tauto. Qed.

Section Finished.
Context (st : parse_state) (error : bool) (Hinv : parse_inv st) (Hok : config_problem error st = None).
Let conf := finished_config st.

Lemma finished_netif i n : cf_interfaces conf !! i = Some n ->
  netif_problem conf (cf_interfaces conf) (ps_seen st) (Z.of_nat i) n = None.
Proof.
  unfold config_problem in Hok. destruct error; [done|]. destruct (first_problem _ (cf_interfaces (finished_config st))) eqn:E; [done|].
  by apply first_problem_None.
Qed.

Lemma finished_netif_seen i n : cf_interfaces conf !! i = Some n -> netif_seen (nth i (ps_seen st) 0) n.
Proof.
  intros Hn. assert (Hl : ps_interfaces st !! i = Some n).
  { revert Hn. unfold conf, finished_config. cbn. rewrite lookup_take. by destruct (decide _). }
  destruct (Forall2_lookup_r _ _ _ _ _ (pi_netifs st Hinv) Hl) as (x & Hx & Hxn). by rewrite nth_lookup, Hx.
Qed.

Lemma finished_route r : r ∈ cf_routes conf -> exists bits, route_seen bits r /\ Z.land bits 3 = 3.
Proof.
  intros [i Hr]%list_elem_of_lookup. destruct (Forall2_lookup_r _ _ _ _ _ (pi_routes st Hinv) Hr) as (bits & Hb & Hbr). exists bits. split; [done|].
  unfold config_problem in Hok. destruct error; [done|]. destruct (first_problem _ _); [done|].
  destruct (first_problem _ (ps_route_seen st)) eqn:E; [done|]. assert (H := first_problem_None _ _ E i bits Hb). cbn in H.
  by destruct (Z.eqb_spec (Z.land bits 3) 3).
Qed.

Lemma finished_table : exists table, route_config_init conf [] = (0, table).
Proof.
  unfold config_problem in Hok. destruct error; [done|]. destruct (first_problem _ _); [done|]. destruct (first_problem _ _); [done|].
  fold conf in Hok. destruct (route_config_init conf []) as [rc table]. cbn [fst] in Hok. exists table. unfold route_problem in Hok. destruct (truth rc) eqn:E; [by cbn in Hok|].
  by apply truth_false in E as ->.
Qed.

Lemma finished_valid : config_valid conf.
Proof.
  destruct Hinv. split.
  - done.
  - unfold conf, finished_config. cbn. rewrite length_take, pi_size0. destruct (ps_sectioned st); unfold NETIF_MAX in *; [specialize (pi_sectioned0 eq_refl)|]; lia.
  - apply Forall_lookup. intros i n Hn. destruct (netif_problem_None _ _ _ _ _ (finished_netif i n Hn)) as [Hb _]. destruct (finished_netif_seen i n Hn) as [Hd Ha].
    assert (H2 := testbit_all _ _ 2 Hb eq_refl). assert (H3 := testbit_all _ _ 3 Hb eq_refl). tauto.
  - apply Forall_lookup. intros i n Hn. apply (netif_problem_None _ _ _ _ _ (finished_netif i n Hn)).
  - apply Forall_lookup. intros i n Hn. apply (netif_problem_None _ _ _ _ _ (finished_netif i n Hn)).
  - split; apply NoDup_earlier; intros i x y Hx Hy; destruct (netif_problem_None _ _ _ _ _ (finished_netif i x Hx)) as (_ & _ & _ & H); by apply H.
  - apply Forall_forall. intros r (bits & (Hp & Hd & Hg) & Hb)%finished_route.
    assert (H0 := testbit_all _ _ 0 Hb eq_refl). assert (H1 := testbit_all _ _ 1 Hb eq_refl). specialize (Hp H0). specialize (Hd H1). tauto.
  - apply finished_table.
Qed.
End Finished.

(** * Theorems *)

(** C34: a configuration file the parser accepts gives between one and
    [NETIF_MAX] interfaces with a device name that fits its buffer and a host
    address of its own network, no two with the same device or address, no
    physical interface without huge pages, scalar options in range, and routes with masked
    prefixes from which [route_config_init] builds the route table. *)
Theorem config_load_valid f conf : app_config_load f = inr conf -> config_valid conf.
Proof.
  unfold app_config_load. destruct (config_lines _ _ _) as [|[n st]] eqn:E; [done|]. apply config_lines_inv in E; [|apply initial_state_inv].
  destruct (config_problem _ st) eqn:Ep; [done|]. intros [= <-]. by eapply finished_valid.
Qed.

(** A router with two interfaces and a default route. *)
Module SampleConfig.
Definition eol : string := String "010" EmptyString.
Definition text : string := String.concat eol
  ["# edge router"; "lcore = 2"; "ipv4_forwarding=1"; ""; "[interface]"; "pmd=tap"; "device=pulsar0"; "ip=10.0.0.1/24";
   "[interface]"; " pmd = af_packet "; "device=eth1"; "ip=192.168.7.1/30"; "[route]"; "prefix=0.0.0.0/0"; "device=eth1"; "gateway=192.168.7.2"; ""]%string.
Definition conf : app_config := match app_config_load (mk_file text false) with inr c => c | inl _ => app_config_defaults end.
End SampleConfig.

Lemma config_load_valid_witness : app_config_load (mk_file SampleConfig.text false) = inr SampleConfig.conf /\
  length (cf_interfaces SampleConfig.conf) = 2%nat /\ length (cf_routes SampleConfig.conf) = 1%nat /\ config_valid SampleConfig.conf.
Proof.
  assert (H : app_config_load (mk_file SampleConfig.text false) = inr SampleConfig.conf) by (vm_compute; reflexivity).
  split_and!; [exact H|vm_compute; reflexivity|vm_compute; reflexivity|exact (config_load_valid _ _ H)].
Defined.
