(* ===== verification/Ports.v ===== *)
(** Bringing the ports up and down: [port_init] and [port_fini] of
    [src/dpdk_port.c].  The ethernet device layer of DPDK and the kernel's
    interface table are not part of the repository; their answers are the fields
    of [Ethdev].  Each is asked once per port. *)
From stdpp Require Import pretty.
From S2P Require Import Prelude.
From S2P Require Import Dpdk.
From S2P Require Import Sim.
From S2P Require Import Types.
From S2P Require Import Netif.
From S2P Require Import Route.

Class Ethdev : Type := {
  getpid : Z;
  rte_eal_init : list string -> Z;
  rte_lcore_count : Z;
  rte_eth_dev_get_port_by_name : string -> option Z;
  rte_eth_dev_configure : Z -> Z;
  rte_eth_dev_adjust_nb_rx_tx_desc : Z -> Z * Z -> Z * (Z * Z);
  rte_eth_rx_queue_setup : Z -> Z -> Z;
  rte_eth_tx_queue_setup : Z -> Z -> Z;
  rte_eth_macaddr_get : Z -> Z * ether_addr;
  rte_eth_dev_get_mtu : Z -> Z * Z;
  rte_eth_dev_start : Z -> Z;
  rte_pktmbuf_pool_create : Z -> Z -> bool;
  interface_mtu : string -> option Z
}.

Definition IFNAMSIZ : nat := 16.

Definition device_name (conf : netif_config) (index : Z) : string :=
  match if_pmd conf with
  | PMD_PHYS => if_device conf
  | PMD_TAP => ("net_tap" +:+ pretty index)%string
  | PMD_AFPKT => ("net_af_packet" +:+ pretty index)%string
  end.

(** * The arguments of the environment layer *)

Definition EAL_ARG_MAX : nat := 12 + 2 * Z.to_nat NETIF_MAX.
Definition EAL_ARG_LEN : nat := 128.

(** [None] is the early return of -1. *)
Definition add_arg (argv : list string) (arg : string) : option (list string) :=
  if Nat.leb EAL_ARG_MAX (length argv) || Nat.leb EAL_ARG_LEN (String.length arg) then None else Some (argv ++ [arg]).

Definition add_args (argv : list string) (args : list string) : option (list string) :=
  foldl (fun acc arg => argv ← acc; add_arg argv arg) (Some argv) args.

(** The arguments of one interface. *)
Definition device_args (index : Z) (netif : netif_config) : list string :=
  match if_pmd netif with
  | PMD_PHYS => ["-a"; if_device netif]
  | PMD_TAP => ["--vdev=" +:+ device_name netif index +:+ ",iface=" +:+ if_device netif]
  | PMD_AFPKT => ["--vdev=" +:+ device_name netif index +:+ ",iface=" +:+ if_device netif +:+ ",qpairs=1"]
  end%string.

Section ports.
Context `{!Dpdk, !Ethdev}.

Definition eal_args (progname : string) (conf : app_config) : option (list string) :=
  let physical := existsb (fun n => bool_decide (if_pmd n = PMD_PHYS)) (cf_interfaces conf) in
  argv ← add_args [] [progname; "-l"; pretty (cf_lcore conf); "-n"; "1"; "--proc-type=primary";
                      "--file-prefix=pulsaros-netstack-" +:+ pretty getpid]%string;
  argv ← foldl (fun acc '(i, n) => argv ← acc; add_args argv (device_args i n)) (Some argv) (indexed (cf_interfaces conf));
  if physical && truth (cf_no_huge conf) then None else
  argv ← (if physical then Some argv else add_arg argv "--no-pci");
  if truth (cf_no_huge conf) then add_arg argv "--no-huge" else Some argv.

(** The return code.  [rte_eal_cleanup], called when there is not exactly one
    lcore, returns nothing the code looks at and is not recorded. *)
Definition eal_init (progname : string) (conf : app_config) : Z :=
  if Nat.eqb (length (cf_interfaces conf)) 0 || (NETIF_MAX <? Z.of_nat (length (cf_interfaces conf))) then - 1 else
  match eal_args progname conf with
  | None => - 1
  | Some argv => if rte_eal_init argv <? 0 then - 1 else if negb (rte_lcore_count =? 1) then - 1 else 0
  end.

(** [interface_mtu] is the [SIOCGIFMTU] request on a fresh socket. *)
Definition af_packet_mtu (device : string) (mtu : Z) : Z * Z :=
  if Nat.leb IFNAMSIZ (String.length device) then (- 1, mtu) else
  match interface_mtu device with
  | None => (- 1, mtu)
  | Some value => if value <? 68 then (- 1, mtu) else (0, if value <? mtu then u16 value else mtu)
  end.

(** [if (!rc) rc = ...], over the port and the two descriptor counts. *)
Definition if_ok {S} (f : S -> Z * S) (x : Z * S) : Z * S := if truth x.1 then x else f x.2.

Definition set_up_port (conf : app_config) (netif : netif_config) (id : Z) (port : port_state) : Z * (port_state * (Z * Z)) :=
  (rte_eth_dev_configure id, (port, (cf_rx_desc conf, cf_tx_desc conf)))
  |> if_ok (fun '(p, desc) => let '(rc, desc) := rte_eth_dev_adjust_nb_rx_tx_desc id desc in (rc, (p, desc)))
  |> if_ok (fun '(p, desc) => (rte_eth_rx_queue_setup id desc.1, (p, desc)))
  |> if_ok (fun '(p, desc) => (rte_eth_tx_queue_setup id desc.2, (p, desc)))
  |> if_ok (fun '(p, desc) => let '(rc, mac) := rte_eth_macaddr_get id in (rc, (set_pt_mac mac p, desc)))
  |> if_ok (fun '(p, desc) => let '(rc, mtu) := rte_eth_dev_get_mtu id in (rc, (set_pt_mtu mtu p, desc)))
  |> if_ok (fun '(p, desc) =>
       if bool_decide (if_pmd netif = PMD_AFPKT)
       then let '(rc, mtu) := af_packet_mtu (if_device netif) (pt_mtu p) in (rc, (set_pt_mtu mtu p, desc))
       else (0, (p, desc)))
  |> if_ok (fun '(p, desc) => (if negb (rte_is_valid_assigned_ether_addr (pt_mac p)) || (1500 <? pt_mtu p) then - 1 else 0, (p, desc)))
  |> if_ok (fun '(p, desc) => (rte_eth_dev_start id, (p, desc))).

Definition configure_port (conf : app_config) (rt : app_runtime) (index : nat) : Z * app_runtime :=
  let netif := nth index (cf_interfaces conf) zero_netif_config in
  match rte_eth_dev_get_port_by_name (device_name netif (Z.of_nat index)) with
  | None => (- 1, rt)
  | Some id =>
    match netif_by_dpdk_port rt id with
    | Some _ => (- 1, rt)
    | None =>
      let port := nth index (rt_ports rt) zero_port_state
        |> set_pt_name (if_device netif) |> set_pt_id (Z.of_nat index) |> set_pt_port_id id |> set_pt_configured true
        |> set_pt_ip_be (if_ip_be netif) |> set_pt_prefix_len (if_prefix_len netif) in
      let '(rc, (port, _)) := set_up_port conf netif id port in
      if truth rc then (- 1, set_rt_ports (<[index := port]> (rt_ports rt)) rt) else
      (0, set_rt_ports (<[index := set_pt_started true port]> (rt_ports rt)) rt)
    end
  end.

(** [rt->port_count] is the length of [rt_ports]. *)
Definition port_init (conf : app_config) (rt : app_runtime) : Z * app_runtime :=
  let n := length (cf_interfaces conf) in
  if Nat.eqb n 0 || (NETIF_MAX <? Z.of_nat n) then (- 1, rt) else
  let rt := set_rt_ports (resize n zero_port_state (rt_ports rt)) rt in
  if negb (rte_pktmbuf_pool_create (cf_mbufs conf) (cf_mbuf_cache conf)) then (- 1, rt) else
  let '(rc, rt) := fold_rc (configure_port conf) (seq 0 n) rt in
  if truth rc then (- 1, rt) else
  let '(rc, routes) := route_config_init conf (rt_routes rt) in
  (if truth rc then - 1 else 0, set_rt_routes routes rt).
End ports.

(** The ports are gone: [port_count] is zero.  What the code tells DPDK on the way
    ([rte_eth_dev_stop], [rte_eth_dev_close], [rte_mempool_free]) returns nothing
    it looks at and is not recorded. *)
Definition port_fini (rt : app_runtime) : app_runtime := set_rt_ports [] rt.

(** * Lemmas *)

Section port_proofs.
Context {D : Dpdk} {E : Ethdev}.

Lemma if_ok_rc {S} (f : S -> Z * S) x s : if_ok f x = (0, s) -> exists s0, x = (0, s0) /\ f s0 = (0, s).
Proof.
  unfold if_ok. destruct x as [rc s0]. cbn [fst snd]. destruct (truth rc) eqn:Er.
  - intros [= -> _]. done.
  - apply truth_false in Er as ->. eauto.
Qed.

(** What bringing a port up leaves alone. *)
Definition port_names (p : port_state) : Z * Z * bool * Z * Z * bool :=
  (pt_id p, pt_port_id p, pt_configured p, pt_ip_be p, pt_prefix_len p, pt_admin_down p).

Lemma set_up_port_ok conf netif id port port' desc : set_up_port conf netif id port = (0, (port', desc)) ->
  port_names port' = port_names port /\ pt_mtu port' <= 1500 /\ rte_is_valid_assigned_ether_addr (pt_mac port') = true.
Proof.
  unfold set_up_port. intros H. apply if_ok_rc in H as ([p8 d8] & H & [= _ <- _]). apply if_ok_rc in H as ([p7 d7] & H & [= Hc <- _]).
  destruct (negb _ || _) eqn:Ec; [done|]. apply orb_false_iff in Ec as [Hm Hu]. split; [|split; [lia|by apply negb_false_iff in Hm]].
  clear Hc Hm Hu. apply if_ok_rc in H as ([p6 d6] & H & H6). transitivity (port_names p6).
  { case_bool_decide; [|by injection H6 as <- _]. destruct (af_packet_mtu _ _). by injection H6 as _ <- _. }
  apply if_ok_rc in H as ([p5 d5] & H & H5). destruct (rte_eth_dev_get_mtu id). injection H5 as _ <- _. change (port_names p5 = port_names port).
  apply if_ok_rc in H as ([p4 d4] & H & H4). destruct (rte_eth_macaddr_get id). injection H4 as _ <- _. change (port_names p4 = port_names port).
  apply if_ok_rc in H as ([p3 d3] & H & [= _ <- _]). apply if_ok_rc in H as ([p2 d2] & H & [= _ <- _]).
  apply if_ok_rc in H as ([p1 d1] & H & H1). destruct (rte_eth_dev_adjust_nb_rx_tx_desc id d1). injection H1 as _ <- _. by injection H as _ <- _.
Qed.

(** A port that came up as interface [i] of the configuration. *)
Definition port_ready (netif : netif_config) (i : nat) (p : port_state) : Prop :=
  pt_id p = Z.of_nat i /\ pt_ip_be p = if_ip_be netif /\ pt_prefix_len p = if_prefix_len netif /\ pt_configured p = true /\
  port_up p = true /\ pt_mtu p <= 1500 /\ rte_is_valid_assigned_ether_addr (pt_mac p) = true.

(** After [k] ports: the first [k] are up, the others untouched. *)
Record ports_upto (conf : app_config) (k : nat) (ports : list port_state) : Prop := {
  pu_length : length ports = length (cf_interfaces conf);
  pu_ready : forall i p netif, (i < k)%nat -> ports !! i = Some p -> cf_interfaces conf !! i = Some netif -> port_ready netif i p;
  pu_rest : forall i p, (k <= i)%nat -> ports !! i = Some p -> p = zero_port_state;
  pu_distinct : ports_wf ports
}.

Lemma configure_port_upto conf rt k rt' : (k < length (cf_interfaces conf))%nat -> ports_upto conf k (rt_ports rt) ->
  configure_port conf rt k = (0, rt') -> ports_upto conf (S k) (rt_ports rt') /\ rt' = set_rt_ports (rt_ports rt') rt.
Proof.
  intros Hk [Hl Hr Hz Hd] H. unfold configure_port in H. destruct (rte_eth_dev_get_port_by_name _) as [id|]; [|done].
  destruct (netif_by_dpdk_port rt id) eqn:Edup; [done|]. destruct (set_up_port _ _ _ _) as [rc [port desc]] eqn:Es.
  destruct (truth rc) eqn:Er; [done|]. apply truth_false in Er as ->. injection H as <-.
  destruct (lookup_lt_is_Some_2 _ _ Hk) as [netif Hn]. destruct (lookup_lt_is_Some_2 (rt_ports rt) k) as [p0 Hp0]; [lia|].
  assert (p0 = zero_port_state) as -> by (by eapply Hz). rewrite !nth_lookup, Hn, Hp0 in Es. cbn [from_option Datatypes.id] in Es.
  apply set_up_port_ok in Es as ([= Hid Hpid Hcf Hip Hpl Had] & Hmtu & Hmac). cbn [pt_id pt_port_id pt_configured pt_ip_be pt_prefix_len pt_admin_down] in *.
  split; [|done]. cbn [rt_ports set_rt_ports]. constructor.
  - by rewrite length_insert.
  - intros i p netif' Hi Hp Hn'. destruct (decide (i = k)) as [->|Hne].
    + rewrite list_lookup_insert_eq in Hp by lia. injection Hp as <-. assert (netif' = netif) as -> by congruence.
      unfold port_ready, port_up. cbn. by rewrite Had.
    + rewrite list_lookup_insert_ne in Hp by done. eapply Hr; [lia|done..].
  - intros i p Hi Hp. rewrite list_lookup_insert_ne in Hp by lia. eapply Hz; [|done]. lia.
  - assert (Hfree : forall j q, j <> k -> rt_ports rt !! j = Some q -> pt_configured q = true -> pt_port_id q <> id).
    { intros j q _ Hq Hc Hi. unfold netif_by_dpdk_port, netif_slot_by_dpdk_port in Edup. apply bind_None in Edup as [Hnone|(j' & Hj' & Hno)].
      - assert (Hb := proj1 (find_index_None _ _) Hnone j q Hq). cbv beta in Hb. by rewrite Hc, Hi, Z.eqb_refl in Hb.
      - apply find_index_Some in Hj' as [(x & Hx & _) _]. by rewrite Hno in Hx. }
    intros i j p q Hp Hq Hcp Hcq Heq. destruct (decide (i = k)) as [->|Hi]; destruct (decide (j = k)) as [->|Hj]; [done|..].
    + rewrite list_lookup_insert_eq in Hp by lia. rewrite list_lookup_insert_ne in Hq by done. injection Hp as <-. destruct (Hfree j q Hj Hq Hcq). cbn in Heq. congruence.
    + rewrite list_lookup_insert_eq in Hq by lia. rewrite list_lookup_insert_ne in Hp by done. injection Hq as <-. destruct (Hfree i p Hi Hp Hcp). cbn in Heq. congruence.
    + rewrite list_lookup_insert_ne in Hp, Hq by done. by eapply Hd.
Qed.

Lemma configure_ports_upto conf n k rt rt' : (k + n)%nat = length (cf_interfaces conf) -> ports_upto conf k (rt_ports rt) ->
  fold_rc (configure_port conf) (seq k n) rt = (0, rt') ->
  ports_upto conf (k + n) (rt_ports rt') /\ rt' = set_rt_ports (rt_ports rt') rt.
Proof.
  revert k rt. induction n as [|n IH]; intros k rt Hkn Hu H.
  - injection H as <-. rewrite Nat.add_0_r. split; [done|by destruct rt].
  - cbn [seq fold_rc] in H. destruct (configure_port conf rt k) as [rc rt1] eqn:Ec. destruct (truth rc) eqn:Er; [injection H as -> _; done|].
    apply truth_false in Er as ->. apply configure_port_upto in Ec as [Hu1 Hrt1]; [|lia|done].
    apply IH in H as [Hu2 Hrt2]; [|lia|done]. split; [by rewrite <- plus_n_Sm|]. rewrite Hrt2, Hrt1. done.
Qed.

Lemma port_init_ok conf rt rt' : rt_ports rt = [] -> port_init conf rt = (0, rt') ->
  ports_upto conf (length (cf_interfaces conf)) (rt_ports rt') /\ route_config_init conf (rt_routes rt) = (0, rt_routes rt') /\
  rt' = (rt |> set_rt_ports (rt_ports rt') |> set_rt_routes (rt_routes rt')).
Proof.
  intros Hnil H. unfold port_init in H. destruct (_ || _); [done|]. destruct (negb _); [done|].
  set (rt1 := set_rt_ports _ rt) in H. destruct (fold_rc _ _ rt1) as [rc rt2] eqn:Ef. destruct (truth rc) eqn:Er; [done|]. apply truth_false in Er as ->.
  apply (configure_ports_upto conf _ 0) in Ef as [Hu Hrt]; [|done|].
  - destruct (route_config_init conf (rt_routes rt2)) as [rc routes] eqn:Er. destruct (truth rc) eqn:Ec; [done|]. apply truth_false in Ec as ->.
    injection H as <-. cbn [rt_ports rt_routes set_rt_routes]. rewrite Nat.add_0_l in Hu. rewrite Hrt in Er |- *. done.
  - unfold rt1. cbn [rt_ports set_rt_ports]. rewrite Hnil, resize_nil. constructor.
    + by rewrite length_replicate.
    + lia.
    + intros i p _ Hp. by apply lookup_replicate in Hp as [-> _].
    + intros i j p q Hp _ Hc. apply lookup_replicate in Hp as [-> _]. done.
Qed.
End port_proofs.

(** When [port_init] succeeds on a zeroed runtime, every interface of the
    configuration has its port, in order, started, with the configured address
    and an MTU of at most 1500, and no two ports share a DPDK port. *)
Theorem port_init_brings_up {D : Dpdk} {E : Ethdev} conf rt rt' : rt_ports rt = [] -> port_init conf rt = (0, rt') ->
  ports_match conf rt' /\ ports_wf (rt_ports rt') /\ Forall (fun p => pt_mtu p <= 1500) (rt_ports rt') /\
  Z.of_nat (length (rt_ports rt')) <= NETIF_MAX.
Proof.
  intros Hnil H. assert (Hn : Z.of_nat (length (cf_interfaces conf)) <= NETIF_MAX)
    by (unfold port_init in H; destruct (_ || _) eqn:En; [done|]; apply orb_false_iff in En as [_ En]; lia).
  apply port_init_ok in H as ([Hl Hr Hz Hd] & _ & _); [|done].
  assert (Hready : forall i p, rt_ports rt' !! i = Some p -> exists n, cf_interfaces conf !! i = Some n /\ port_ready n i p).
  { intros i p Hp. assert (Hi := lookup_lt_Some _ _ _ Hp). destruct (lookup_lt_is_Some_2 (cf_interfaces conf) i) as [n Hn']; [lia|].
    exists n. split; [done|]. apply Hr; [lia|done..]. }
  split; [|split; [done|split; [|lia]]].
  - unfold ports_match. apply Forall2_same_length_lookup_2; [unfold indexed; by rewrite length_imap|]. intros i [j n] p Hj Hp.
    destruct (Hready i p Hp) as (n' & Hn' & H). rewrite indexed_lookup in Hj. rewrite Hn' in Hj. injection Hj as <- <-.
    destruct H as (H1 & H2 & H3 & H4 & H5 & _). done.
  - apply Forall_lookup. intros i p Hp. by destruct (Hready i p Hp) as (n & _ & (_ & _ & _ & _ & _ & H & _)).
Qed.

#[local] Instance sample_dpdk : Dpdk := sim (fun _ _ => []).

(** An environment in which every device comes up, port ids by name length. *)
#[local] Instance sample_ethdev : Ethdev := {|
  getpid := 4242; rte_eal_init := fun _ => 0; rte_lcore_count := 1;
  rte_eth_dev_get_port_by_name := fun name => Some (Z.of_nat (String.length name));
  rte_eth_dev_configure := fun _ => 0; rte_eth_dev_adjust_nb_rx_tx_desc := fun _ d => (0, d);
  rte_eth_rx_queue_setup := fun _ _ => 0; rte_eth_tx_queue_setup := fun _ _ => 0;
  rte_eth_macaddr_get := fun id => (0, [2; 0; 0; 0; 0; id]); rte_eth_dev_get_mtu := fun _ => (0, 1500);
  rte_eth_dev_start := fun _ => 0; rte_pktmbuf_pool_create := fun _ _ => true; interface_mtu := fun _ => Some 1400 |}.

Definition sample_config : app_config :=
  zero_app_config |> set_cf_interfaces
    [mk_netif_config PMD_TAP "tap0" (rd_le32 [10; 0; 0; 1] 0) 24; mk_netif_config PMD_PHYS "0000:01:00.0" (rd_le32 [10; 0; 1; 1] 0) 24].


Definition sample_up : app_runtime := (port_init sample_config zero_app_runtime).2.

Lemma port_init_brings_up_witness : ports_match sample_config sample_up /\ ports_wf (rt_ports sample_up) /\
  Forall (fun p => pt_mtu p <= 1500) (rt_ports sample_up) /\ Z.of_nat (length (rt_ports sample_up)) <= NETIF_MAX.
Proof. apply (port_init_brings_up sample_config zero_app_runtime sample_up); [reflexivity|vm_compute; reflexivity]. Defined.
