(* ===== verification/NetConfig.v ===== *)
(** The published network configuration of [src/net_config.c]: connected
    routes, validation, the route index, access lists and their counters. *)
From S2P Require Import Prelude.
From S2P Require Import Dpdk.
From S2P Require Import Types.
From S2P Require Import Prefix.
From S2P Require Import Netif.
From S2P Require Import Route.

(** * Connected routes *)

(** [ip & net_mask(prefix)] of an address. *)
Definition address_network (a : net_address) : Z := Z.land (na_ip a) (net_mask (na_prefix a)).

Definition connected_route (a : net_address) : net_route :=
  {| nr_ip := address_network a; nr_prefix := na_prefix a; nr_gateway := 0; nr_dev := na_dev a;
     nr_table := NET_TABLE_MAIN; nr_type := 0; nr_connected := 1 |}.

(** The test of the inner loop: the route is already the connected route of [a]. *)
Definition same_connected (a : net_address) (r : net_route) : bool :=
  (nr_table r =? NET_TABLE_MAIN) && (nr_ip r =? address_network a) && (nr_prefix r =? na_prefix a) &&
  (nr_dev r =? na_dev a) && truth (nr_connected r).

Definition connected_add (routes : list net_route) (a : net_address) : Z * list net_route :=
  if existsb (same_connected a) routes then (0, routes) else
  if Z.of_nat (length routes) =? NET_ROUTE_MAX then (- ENOSPC, routes) else
  (0, routes ++ [connected_route a]).

Definition net_connected_rebuild (c : net_config) : Z * net_config :=
  if (NET_ADDR_MAX <? Z.of_nat (length (nc_addresses c))) ||
     (NET_ROUTE_MAX <? Z.of_nat (length (nc_routes c))) then (- EINVAL, c) else
  if existsb (fun a => 32 <? na_prefix a) (nc_addresses c) then (- EINVAL, c) else
  let statics := List.filter (fun r => negb (truth (nr_connected r))) (nc_routes c) in
  let '(rc, routes) := fold_rc connected_add (nc_addresses c) statics in
  (rc, c |> set_nc_routes_indexed false |> set_nc_routes routes).

(** * Validation *)

Definition address_check (c : net_config) (ports : Z) (i : nat) (a : net_address) : Z :=
  if (ports <=? na_dev a) || (32 <? na_prefix a) || negb (net_unicast (na_ip a)) ||
     negb (net_host (na_ip a) (na_prefix a)) then - EINVAL else
  if existsb (fun b => na_ip b =? na_ip a) (take i (nc_addresses c)) then - EEXIST else 0.

(** The gateway's checks against the addresses; the state is [reachable]. *)
Definition gateway_address_step (r : net_route) (reachable : bool) (a : net_address) : Z * bool :=
  let inside := net_match (nr_gateway r) (address_network a) (na_prefix a) in
  if (na_ip a =? nr_gateway r) || (inside && negb (net_host (nr_gateway r) (na_prefix a)))
  then (- EINVAL, reachable) else
  if (na_dev a =? nr_dev r) && inside && net_host (nr_gateway r) (na_prefix a) then (0, true) else
  (0, reachable).

(** Route [p] reaches the gateway of [r] without a gateway of its own. *)
Definition gateway_on_link (r p : net_route) : bool :=
  (nr_table p =? nr_table r) && (nr_dev p =? nr_dev r) && (nr_type p =? NET_UNICAST) &&
  negb (truth (nr_gateway p)) && net_match (nr_gateway r) (nr_ip p) (nr_prefix p) &&
  net_host (nr_gateway r) (nr_prefix p).

Definition route_gateway_check (c : net_config) (r : net_route) : Z :=
  if negb (truth (nr_gateway r)) then 0 else
  if negb (net_unicast (nr_gateway r)) then - EINVAL else
  let '(rc, reachable) := fold_rc (gateway_address_step r) (nc_addresses c) false in
  if truth rc then rc else
  if reachable || existsb (gateway_on_link r) (nc_routes c) then 0 else - ENETUNREACH.

(** Two routes that may not stand in one configuration. *)
Definition route_conflict (r p : net_route) : bool :=
  (nr_table r =? nr_table p) && (nr_ip r =? nr_ip p) && (nr_prefix r =? nr_prefix p) &&
  negb (truth (nr_connected r) && truth (nr_connected p) && negb (nr_dev r =? nr_dev p)).

Definition route_check (c : net_config) (ports : Z) (i : nat) (r : net_route) : Z :=
  if negb (net_prefix_valid (nr_ip r) (nr_prefix r)) || negb (truth (nr_table r)) ||
     (nr_table r =? NET_TABLE_LOCAL) || (NET_PROHIBIT <? nr_type r) || (1 <? nr_connected r) ||
     ((nr_type r =? NET_UNICAST) && (ports <=? nr_dev r)) || (truth (nr_type r) && truth (nr_gateway r))
  then - EINVAL else
  if existsb (route_conflict r) (take i (nc_routes c)) then - EEXIST else
  route_gateway_check c r.

(** [i && array[i-1].pref >= pref]. *)
Definition pref_out_of_order {A} (pref : A -> Z) (l : list A) (i : nat) (x : A) : bool :=
  match i with
  | O => false
  | S j => match l !! j with Some y => pref x <=? pref y | None => false end
  end.

Definition rule_check (c : net_config) (ports : Z) (i : nat) (r : net_rule) : Z :=
  if negb (truth (ru_pref r)) || (32766 <=? ru_pref r) || negb (net_prefix_valid (ru_src r) (ru_src_prefix r)) ||
     negb (net_prefix_valid (ru_dst r) (ru_dst_prefix r)) ||
     (negb (ru_iif r =? NET_IIF_NONE) && (ports <=? ru_iif r)) || (NET_PROHIBIT <? ru_type r) ||
     (negb (truth (ru_type r)) && (negb (truth (ru_table r)) || (ru_table r =? NET_TABLE_LOCAL))) ||
     pref_out_of_order ru_pref (nc_rules c) i r
  then - EINVAL else 0.

Definition acl_check (c : net_config) (ports : Z) (i : nat) (a : net_acl) : Z :=
  if negb (net_prefix_valid (ac_src a) (ac_src_prefix a)) || negb (net_prefix_valid (ac_dst a) (ac_dst_prefix a)) ||
     (negb (ac_iif a =? NET_IIF_NONE) && (ports <=? ac_iif a)) || (255 <? ac_proto a) || (1 <? ac_drop a) ||
     (3 <? ac_ports a) || (truth (ac_ports a) && negb (ac_proto a =? 6) && negb (ac_proto a =? 17)) ||
     (ac_sport_max a <? ac_sport_min a) || (ac_dport_max a <? ac_dport_min a) ||
     (65535 <? ac_sport_max a) || (65535 <? ac_dport_max a) ||
     pref_out_of_order ac_pref (nc_acls c) i a
  then - EINVAL else 0.

(** A loop over an array that returns the first nonzero code. *)
Definition check_all {A} (check : nat -> A -> Z) (l : list A) : Z :=
  first_rc (fun '(i, x) => check (Z.to_nat i) x) (indexed l).

Definition net_config_validate (c : net_config) (ports : Z) : Z :=
  if (NET_ADDR_MAX <? Z.of_nat (length (nc_addresses c))) || (NET_ROUTE_MAX <? Z.of_nat (length (nc_routes c))) ||
     (NET_RULE_MAX <? Z.of_nat (length (nc_rules c))) || (NET_ACL_MAX <? Z.of_nat (length (nc_acls c))) ||
     (1 <? nc_default_drop c) then - EINVAL else
  let rc := check_all (address_check c ports) (nc_addresses c) in if truth rc then rc else
  let rc := check_all (route_check c ports) (nc_routes c) in if truth rc then rc else
  let rc := check_all (rule_check c ports) (nc_rules c) in if truth rc then rc else
  check_all (acl_check c ports) (nc_acls c).

(** * The route index *)

Definition route_order (a b : net_route_index) : Z :=
  if negb (ix_table a =? ix_table b) then b2z (ix_table b <? ix_table a) - b2z (ix_table a <? ix_table b) else
  if negb (ix_prefix a =? ix_prefix b) then b2z (ix_prefix a <? ix_prefix b) - b2z (ix_prefix b <? ix_prefix a) else
  b2z (Nat.ltb (ix_route b) (ix_route a)) - b2z (Nat.ltb (ix_route a) (ix_route b)).

Definition route_before (a b : net_route_index) : Prop := route_order a b <= 0.
#[export] Instance route_before_dec : RelDecision route_before.
Proof. intros a b. unfold route_before. apply _. Defined.

Definition index_entry (i : nat) (r : net_route) : net_route_index :=
  {| ix_table := nr_table r; ix_ip := nr_ip r; ix_mask := net_mask (nr_prefix r); ix_route := i;
     ix_prefix := u8 (nr_prefix r) |}.

(** [qsort] with [route_order]; the order is total and strict on distinct route
    numbers, so every sorting algorithm gives this array
    ([route_index_unique]). *)
Definition build_index (routes : list net_route) : list net_route_index :=
  merge_sort route_before (imap index_entry routes).

Definition net_config_prepare (c : net_config) (ports : Z) : Z * net_config :=
  let c := set_nc_routes_indexed false c in
  let rc := net_config_validate c ports in
  if truth rc then (rc, c) else
  if Z.of_nat (length (nc_routes c)) <=? 2 then (0, c) else
  (0, c |> set_nc_route_index (build_index (nc_routes c)) |> set_nc_routes_indexed true).

(** * Access lists *)

(** The tests of one rule, in the order of the [continue]s. *)
Definition acl_matches (a : net_acl) (k : acl_key) : bool :=
  if negb (net_match (ak_src k) (ac_src a) (ac_src_prefix a)) || negb (net_match (ak_dst k) (ac_dst a) (ac_dst_prefix a)) ||
     (negb (ac_iif a =? NET_IIF_NONE) && negb (ac_iif a =? ak_iif k)) ||
     (truth (ac_proto a) && negb (ac_proto a =? ak_proto k)) then false else
  if truth (ac_ports a) && negb (ak_ports_valid k) then false else
  if truth (Z.land (ac_ports a) 1) && ((ak_sport k <? ac_sport_min a) || (ac_sport_max a <? ak_sport k)) then false else
  if truth (Z.land (ac_ports a) 2) && ((ak_dport k <? ac_dport_min a) || (ac_dport_max a <? ak_dport k)) then false else
  true.

Definition net_acl_classify (c : net_config) (k : acl_key) : Z :=
  match find_index (fun a => acl_matches a k) (nc_acls c) with
  | Some i => Z.of_nat i
  | None => - 1
  end.

Definition net_acl_classify_batch (c : net_config) (keys : list acl_key) : list Z :=
  net_acl_classify c <$> keys.

Definition acl_hit (bytes : Z) (t : acl_counter) : acl_counter :=
  t |> set_ct_packets (u64 (ct_packets t + 1)) |> set_ct_bytes (u64 (ct_bytes t + bytes)).

Definition net_acl_account (c : net_config) (s : acl_counters) (i bytes : Z) : bool * acl_counters :=
  let '(drop, s) :=
    match (if 0 <=? i then nc_acls c !! Z.to_nat i else None) with
    | Some a => (ac_drop a, set_cs_rules (alter (acl_hit bytes) (Z.to_nat i) (cs_rules s)) s)
    | None => (nc_default_drop c, set_cs_defaults (u64 (cs_defaults s + 1)) s)
    end in
  (negb (truth drop),
   if truth drop then set_cs_dropped (u64 (cs_dropped s + 1)) s
   else set_cs_accepted (u64 (cs_accepted s + 1)) s).

Definition net_acl_accept (c : net_config) (s : acl_counters) (k : acl_key) (bytes : Z) : bool * acl_counters :=
  net_acl_account c s (net_acl_classify c k) bytes.

(** The inner loop of the migration: the last old rule equal to the new one wins. *)
Definition migrated_counter (old : net_config) (saved : list acl_counter) (a : net_acl) : acl_counter :=
  foldl (fun t '(j, b) => if decide (a = b) then nth (Z.to_nat j) saved zero_acl_counter else t)
    zero_acl_counter (indexed (nc_acls old)).

Definition net_acl_counters_migrate (old next : net_config) (s : acl_counters) : acl_counters :=
  set_cs_rules
    ((migrated_counter old (cs_rules s) <$> nc_acls next) ++
     replicate (Z.to_nat NET_ACL_MAX - length (nc_acls next)) zero_acl_counter) s.

(** * Publication and direct destinations *)

Section init.
(** Whether [calloc] returned memory. *)
Context (calloc_ok : bool).

Definition net_config_init (rt : app_runtime) : Z * app_runtime :=
  if negb calloc_ok then (- ENOMEM, rt) else
  let c := zero_net_config |> set_nc_generation 1
    |> set_nc_addresses ((fun p => mk_net_address (pt_ip_be p) (pt_prefix_len p) (pt_id p)) <$> rt_ports rt)
    |> set_nc_routes ((fun r => zero_net_route |> set_nr_ip (re_prefix_be r) |> set_nr_prefix (re_prefix_len r)
          |> set_nr_gateway (re_gateway_be r) |> set_nr_dev (re_netif_id r) |> set_nr_table NET_TABLE_MAIN)
        <$> drop (length (rt_ports rt)) (rt_routes rt)) in
  let '(rc, c) := net_connected_rebuild c in
  let '(rc, c) := if truth rc then (rc, c) else net_config_prepare c (Z.of_nat (length (rt_ports rt))) in
  if truth rc then (rc, rt) else (0, set_rt_network (Some c) rt).
End init.

Definition net_direct (rt : app_runtime) (dev ip : Z) : bool :=
  match rt_network rt with
  | None => route_is_direct (rt_routes rt) (u16 dev) ip
  | Some c =>
    if negb (net_unicast ip) then false else
    existsb (fun r => (nr_dev r =? dev) && negb (truth (nr_type r)) && negb (truth (nr_gateway r)) &&
      net_match ip (nr_ip r) (nr_prefix r) && net_host ip (nr_prefix r)) (nc_routes c)
  end.

#[global] Arguments address_check : simpl never.
#[global] Arguments route_check : simpl never.
#[global] Arguments rule_check : simpl never.
#[global] Arguments acl_check : simpl never.
#[global] Arguments route_gateway_check : simpl never.
#[global] Arguments route_conflict : simpl never.
#[global] Arguments gateway_on_link : simpl never.
#[global] Arguments net_config_validate : simpl never.
#[global] Arguments acl_matches : simpl never.
#[global] Arguments same_connected : simpl never.

(** * Specification *)

(** The C types of the fields. *)
Definition address_typed (a : net_address) : Prop := is_u32 (na_ip a) /\ is_u32 (na_prefix a) /\ is_u32 (na_dev a).
Definition route_typed (r : net_route) : Prop :=
  is_u32 (nr_ip r) /\ is_u32 (nr_prefix r) /\ is_u32 (nr_gateway r) /\ is_u32 (nr_dev r) /\
  is_u32 (nr_table r) /\ is_u32 (nr_type r) /\ is_u32 (nr_connected r).
Definition rule_typed (r : net_rule) : Prop :=
  is_u32 (ru_pref r) /\ is_u32 (ru_src r) /\ is_u32 (ru_src_prefix r) /\ is_u32 (ru_dst r) /\
  is_u32 (ru_dst_prefix r) /\ is_u32 (ru_iif r) /\ is_u32 (ru_table r) /\ is_u32 (ru_type r).
Definition acl_typed (a : net_acl) : Prop :=
  is_u32 (ac_src a) /\ is_u32 (ac_src_prefix a) /\ is_u32 (ac_dst a) /\ is_u32 (ac_dst_prefix a) /\
  is_u32 (ac_iif a) /\ is_u32 (ac_proto a) /\ is_u32 (ac_ports a) /\ is_u32 (ac_drop a).
Definition net_typed (c : net_config) : Prop :=
  Forall address_typed (nc_addresses c) /\ Forall route_typed (nc_routes c) /\
  Forall rule_typed (nc_rules c) /\ Forall acl_typed (nc_acls c).

#[export] Instance net_typed_dec c : Decision (net_typed c).
Proof. unfold net_typed, address_typed, route_typed, rule_typed, acl_typed. apply _. Defined.

(** A prefix with no host bits set. *)
Definition prefix_ok (ip p : Z) : Prop := p <= 32 /\ hostbits ip p = 0.

(** The address lies in the network [ip/p]. *)
Definition in_network (addr ip p : Z) : Prop := netbits addr p = netbits ip p.

(** [ip] is an assignable unicast address: not 0/8, not 127/8, below 224/4. *)
Definition unicast_address (ip : Z) : Prop :=
  16777216 <= ntohl ip < 3758096384 /\ ~ (2130706432 <= ntohl ip < 2147483648).

Definition address_valid (ports : Z) (a : net_address) : Prop :=
  na_dev a < ports /\ na_prefix a <= 32 /\ unicast_address (na_ip a) /\ host_address (na_ip a) (na_prefix a).

(** The gateway of [r] is a unicast host next to the interface of the route. *)
Definition gateway_valid (c : net_config) (r : net_route) : Prop :=
  unicast_address (nr_gateway r) /\
  (forall a, a ∈ nc_addresses c -> na_ip a <> nr_gateway r /\
     (in_network (nr_gateway r) (na_ip a) (na_prefix a) -> host_address (nr_gateway r) (na_prefix a))) /\
  ((exists a, a ∈ nc_addresses c /\ na_dev a = nr_dev r /\ in_network (nr_gateway r) (na_ip a) (na_prefix a)) \/
   (exists p, p ∈ nc_routes c /\ nr_table p = nr_table r /\ nr_dev p = nr_dev r /\ nr_type p = NET_UNICAST /\
      nr_gateway p = 0 /\ in_network (nr_gateway r) (nr_ip p) (nr_prefix p) /\
      host_address (nr_gateway r) (nr_prefix p))).

Definition route_valid (ports : Z) (r : net_route) : Prop :=
  prefix_ok (nr_ip r) (nr_prefix r) /\ nr_table r <> 0 /\ nr_table r <> NET_TABLE_LOCAL /\
  nr_type r <= NET_PROHIBIT /\ nr_connected r <= 1 /\ (nr_type r = NET_UNICAST -> nr_dev r < ports) /\
  (nr_type r <> 0 -> nr_gateway r = 0).

(** Routes of one table with one prefix are connected routes of different devices. *)
Definition routes_compatible (r p : net_route) : Prop :=
  nr_table r = nr_table p -> nr_ip r = nr_ip p -> nr_prefix r = nr_prefix p ->
  nr_connected r <> 0 /\ nr_connected p <> 0 /\ nr_dev r <> nr_dev p.

Definition rule_valid (ports : Z) (r : net_rule) : Prop :=
  0 < ru_pref r < 32766 /\ prefix_ok (ru_src r) (ru_src_prefix r) /\ prefix_ok (ru_dst r) (ru_dst_prefix r) /\
  (ru_iif r = NET_IIF_NONE \/ ru_iif r < ports) /\ ru_type r <= NET_PROHIBIT /\
  (ru_type r = 0 -> ru_table r <> 0 /\ ru_table r <> NET_TABLE_LOCAL).

Definition acl_valid (ports : Z) (a : net_acl) : Prop :=
  prefix_ok (ac_src a) (ac_src_prefix a) /\ prefix_ok (ac_dst a) (ac_dst_prefix a) /\
  (ac_iif a = NET_IIF_NONE \/ ac_iif a < ports) /\ ac_proto a <= 255 /\ ac_drop a <= 1 /\ ac_ports a <= 3 /\
  (ac_ports a <> 0 -> ac_proto a = IPPROTO_TCP \/ ac_proto a = IPPROTO_UDP) /\
  ac_sport_min a <= ac_sport_max a <= 65535 /\ ac_dport_min a <= ac_dport_max a <= 65535.

Definition increasing {A} (pref : A -> Z) (l : list A) : Prop :=
  forall i j x y, (i < j)%nat -> l !! i = Some x -> l !! j = Some y -> pref x < pref y.

Record config_valid (c : net_config) (ports : Z) : Prop := {
  cv_counts : Z.of_nat (length (nc_addresses c)) <= NET_ADDR_MAX /\ Z.of_nat (length (nc_routes c)) <= NET_ROUTE_MAX /\
    Z.of_nat (length (nc_rules c)) <= NET_RULE_MAX /\ Z.of_nat (length (nc_acls c)) <= NET_ACL_MAX /\
    nc_default_drop c <= 1;
  cv_addresses : Forall (address_valid ports) (nc_addresses c);
  cv_addresses_distinct : NoDup (na_ip <$> nc_addresses c);
  cv_routes : Forall (route_valid ports) (nc_routes c);
  cv_routes_distinct : forall i j r p, (j < i)%nat -> nc_routes c !! i = Some r -> nc_routes c !! j = Some p ->
    routes_compatible r p;
  cv_gateways : Forall (fun r => nr_gateway r <> 0 -> gateway_valid c r) (nc_routes c);
  cv_rules : Forall (rule_valid ports) (nc_rules c) /\ increasing ru_pref (nc_rules c);
  cv_acls : Forall (acl_valid ports) (nc_acls c) /\ increasing ac_pref (nc_acls c)
}.

(** * Lemmas: validation *)

Lemma check_all_0 {A} (f : nat -> A -> Z) l :
  check_all f l = 0 <-> forall i x, l !! i = Some x -> f i x = 0.
Proof.
  unfold check_all. rewrite first_rc_0, Forall_lookup. split.
  - intros H i x Hx. specialize (H i (Z.of_nat i, x)). rewrite indexed_lookup, Hx in H.
    specialize (H eq_refl). simpl in H. by rewrite Nat2Z.id in H.
  - intros H i [k x] Hx. rewrite indexed_lookup in Hx. apply fmap_Some in Hx as (y & Hy & [= -> ->]).
    rewrite Nat2Z.id. by apply H.
Qed.

Lemma check_all_Forall {A} (f : nat -> A -> Z) (P : A -> Prop) (Q : nat -> A -> Prop) l :
  (forall i x, l !! i = Some x -> f i x = 0 <-> P x /\ Q i x) ->
  check_all f l = 0 <-> Forall P l /\ (forall i x, l !! i = Some x -> Q i x).
Proof. intros H. rewrite check_all_0, Forall_lookup. split; [|naive_solver]. intros Hf. split; intros i x Hx; by apply (H i x Hx), Hf. Qed.

Lemma pref_increasing {A} (pref : A -> Z) l :
  (forall i x, l !! i = Some x -> pref_out_of_order pref l i x = false) <-> increasing pref l.
Proof.
  split.
  - intros H i j x y Hij Hx Hy. revert x Hx. induction j as [|j IH] in y, Hij, Hy |- *; [lia|].
    intros x Hx. specialize (H _ _ Hy) as Hj. simpl in Hj.
    destruct (lookup_lt_is_Some_2 l j) as [z Hz]; [apply lookup_lt_Some in Hy; lia|].
    rewrite Hz in Hj. bool_hyps. destruct (decide (i = j)) as [->|]; [congruence|].
    specialize (IH z ltac:(lia) Hz x Hx). lia.
  - intros H [|j] x Hx; [done|]. simpl. destruct (l !! j) as [y|] eqn:Ey; [|done].
    apply Z.leb_gt. by apply (H j (S j)); [lia|..].
Qed.

(** Turns the checks of the code into the propositions of the specification. *)
Lemma net_unicast_spec ip : net_unicast ip = true <-> unicast_address ip.
Proof. rewrite net_unicast_unicast. apply unicast_spec. Qed.

Lemma prefix_valid_ok ip p : is_u32 ip -> is_u32 p -> net_prefix_valid ip p = true <-> prefix_ok ip p.
Proof. intros Hi Hp. apply net_prefix_valid_hostbits; [done|]. unfold is_u32 in Hp. lia. Qed.

Lemma address_network_match g a : is_u32 g -> address_typed a -> na_prefix a <= 32 ->
  net_match g (address_network a) (na_prefix a) = true <-> in_network g (na_ip a) (na_prefix a).
Proof.
  intros Hg (Hi & Hp & _) Hle. unfold address_network, in_network.
  assert (Hv : valid_len (na_prefix a)) by (unfold valid_len, is_u32 in *; lia).
  rewrite net_match_spec, netbits_of_network by first [done | by apply land_net_mask_network
    | by apply network_prefix_valid | unfold valid_len in Hv; lia]. done.
Qed.

Lemma NoDup_take_existsb (l : list net_address) :
  NoDup (na_ip <$> l) <->
  (forall i a, l !! i = Some a -> existsb (fun b => na_ip b =? na_ip a) (take i l) = false).
Proof.
  rewrite NoDup_alt. setoid_rewrite list_lookup_fmap. setoid_rewrite fmap_Some. split.
  - intros H i a Ha. apply not_true_is_false. rewrite existsb_elem. intros (b & Hb & He).
    apply Z.eqb_eq in He. apply list_elem_of_lookup in Hb as [j Hj].
    apply lookup_take_Some in Hj as [Hj Hlt].
    assert (i = j) by (apply (H i j (na_ip a)); eauto). lia.
  - intros H.
    assert (Hlt : forall i j a b, (j < i)%nat -> l !! i = Some a -> l !! j = Some b -> na_ip b <> na_ip a).
    { intros i j a b Hji Ha Hb Heq. specialize (H i a Ha). rewrite <- not_true_iff_false, existsb_elem in H.
      apply H. exists b. split; [|by apply Z.eqb_eq]. apply list_elem_of_lookup. exists j.
      by rewrite lookup_take_lt by done. }
    intros i j x (a & Ha & ->) (b & Hb & Heq). destruct (Nat.lt_trichotomy i j) as [Hij|[Hij|Hij]]; [|done|].
    + exfalso. by apply (Hlt j i b a).
    + exfalso. by apply (Hlt i j a b).
Qed.

Lemma if_rc (b : bool) e x : e <> 0 -> (if b then - e else x) = 0 <-> b = false /\ x = 0.
Proof. intros. destruct b; naive_solver lia. Qed.
Lemma if_rc0 (b : bool) e : e <> 0 -> (if b then - e else 0) = 0 <-> b = false.
Proof. intros. destruct b; naive_solver lia. Qed.

(** Rewrites a disjunction of checks into the propositions they test. *)
Ltac checks :=
  repeat first
    [ rewrite orb_false_iff | rewrite andb_false_iff | rewrite negb_false_iff | rewrite negb_true_iff
    | rewrite Z.leb_gt | rewrite Z.ltb_ge | rewrite Z.eqb_neq | rewrite Z.eqb_eq
    | rewrite truth_false | rewrite truth_true | rewrite net_unicast_spec ].

Lemma address_check_0 c ports i a : address_typed a ->
  address_check c ports i a = 0 <->
  address_valid ports a /\ existsb (fun b => na_ip b =? na_ip a) (take i (nc_addresses c)) = false.
Proof.
  intros (Hi & Hp & Hd). unfold address_check, address_valid.
  rewrite if_rc, if_rc0 by done. checks. rewrite net_host_spec by (unfold is_u32 in *; lia). tauto.
Qed.

Lemma rule_check_0 c ports i r : rule_typed r ->
  rule_check c ports i r = 0 <-> rule_valid ports r /\ pref_out_of_order ru_pref (nc_rules c) i r = false.
Proof.
  intros (? & ? & ? & ? & ? & ? & ? & ?). unfold rule_check, rule_valid. rewrite if_rc0 by done.
  checks. rewrite !prefix_valid_ok by done. unfold is_u32 in *. split; [|naive_solver lia].
  intros Hc. destruct_and?. split_and?; try done; try lia.
  all: destruct_or?; naive_solver.
Qed.

Lemma acl_check_0 c ports i a : acl_typed a ->
  acl_check c ports i a = 0 <-> acl_valid ports a /\ pref_out_of_order ac_pref (nc_acls c) i a = false.
Proof.
  intros (? & ? & ? & ? & ? & ? & ? & ?). unfold acl_check, acl_valid, IPPROTO_TCP, IPPROTO_UDP.
  rewrite if_rc0 by done. checks. rewrite !prefix_valid_ok by done. split.
  - intros Hc. destruct_and?. split_and?; try done. intros. destruct_or?; naive_solver.
  - intros [(? & ? & ? & ? & ? & ? & Hp & ? & ?) ?]. split_and?; try done; try lia.
Qed.

(** The two tests of the loop over the addresses. *)
Definition gateway_bad (r : net_route) (a : net_address) : bool :=
  (na_ip a =? nr_gateway r) ||
  (net_match (nr_gateway r) (address_network a) (na_prefix a) && negb (net_host (nr_gateway r) (na_prefix a))).
Definition gateway_near (r : net_route) (a : net_address) : bool :=
  (na_dev a =? nr_dev r) && net_match (nr_gateway r) (address_network a) (na_prefix a) &&
  net_host (nr_gateway r) (na_prefix a).

Lemma gateway_address_loop r l b :
  fold_rc (gateway_address_step r) l b =
    if existsb (gateway_bad r) l
    then (- EINVAL, (fold_rc (gateway_address_step r) l b).2)
    else (0, b || existsb (gateway_near r) l).
Proof.
  induction l as [|a l IH] in b |- *; cbn [fold_rc existsb]; [by rewrite orb_false_r|].
  unfold gateway_address_step at 1 3. fold (gateway_bad r a). fold (gateway_near r a).
  destruct (gateway_bad r a); bsimpl; [done|].
  destruct (gateway_near r a) eqn:En; change (truth 0) with false; cbn iota; rewrite IH at 1;
    destruct (existsb (gateway_bad r) l); bsimpl; rewrite ?orb_true_r; done.
Qed.

Section gateway.
Context (c : net_config) (ports : Z) (r : net_route).
Hypothesis Htyped : net_typed c.
Hypothesis Haddresses : Forall (address_valid ports) (nc_addresses c).
Hypothesis Hroutes : Forall (route_valid ports) (nc_routes c).
Hypothesis Hg : is_u32 (nr_gateway r).

Lemma typed_address a : a ∈ nc_addresses c -> address_typed a /\ address_valid ports a /\ 0 <= na_prefix a.
Proof.
  intros Ha. destruct Htyped as [Ht _]. rewrite Forall_forall in Ht, Haddresses.
  split; [by apply Ht|]. split; [by apply Haddresses|]. destruct (Ht a Ha) as (_ & Hp & _).
  unfold is_u32 in Hp. lia.
Qed.

Lemma typed_route p : p ∈ nc_routes c -> route_typed p /\ route_valid ports p /\ 0 <= nr_prefix p.
Proof.
  intros Hp. destruct Htyped as (_ & Ht & _). rewrite Forall_forall in Ht, Hroutes.
  split; [by apply Ht|]. split; [by apply Hroutes|]. destruct (Ht p Hp) as (_ & Hq & _).
  unfold is_u32 in Hq. lia.
Qed.

Lemma gateway_bad_spec a : a ∈ nc_addresses c ->
  gateway_bad r a = false <-> na_ip a <> nr_gateway r /\
    (in_network (nr_gateway r) (na_ip a) (na_prefix a) -> host_address (nr_gateway r) (na_prefix a)).
Proof.
  intros Ha. destruct (typed_address a Ha) as (Hty & (_ & Hle & _) & Hp). unfold gateway_bad.
  rewrite <- (address_network_match _ _ Hg Hty Hle).
  assert (Hh := net_host_spec (nr_gateway r) (na_prefix a) Hg Hp).
  checks. destruct (net_match _ _ _), (net_host _ _); naive_solver.
Qed.

Lemma gateway_near_spec a : a ∈ nc_addresses c -> gateway_bad r a = false ->
  gateway_near r a = true <-> na_dev a = nr_dev r /\ in_network (nr_gateway r) (na_ip a) (na_prefix a).
Proof.
  intros Ha [_ Hb]%gateway_bad_spec; [|done].
  destruct (typed_address a Ha) as (Hty & (_ & Hle & _) & Hp). unfold gateway_near.
  rewrite !andb_true_iff, Z.eqb_eq, (address_network_match _ _ Hg Hty Hle), net_host_spec by done. tauto.
Qed.

Lemma gateway_on_link_spec p : p ∈ nc_routes c ->
  gateway_on_link r p = true <->
  nr_table p = nr_table r /\ nr_dev p = nr_dev r /\ nr_type p = NET_UNICAST /\ nr_gateway p = 0 /\
  in_network (nr_gateway r) (nr_ip p) (nr_prefix p) /\ host_address (nr_gateway r) (nr_prefix p).
Proof.
  intros Hp. destruct (typed_route p Hp) as ((Hi & Hq & _) & (Hok & _) & H0). unfold gateway_on_link, in_network.
  rewrite !andb_true_iff, !Z.eqb_eq, negb_true_iff, truth_false, net_host_spec by done.
  rewrite net_match_spec by (try done; by apply prefix_valid_ok). destruct Hok. tauto.
Qed.

Lemma no_bad_gateway :
  existsb (gateway_bad r) (nc_addresses c) = false <-> forall a, a ∈ nc_addresses c -> gateway_bad r a = false.
Proof. rewrite <- not_true_iff_false, existsb_elem. setoid_rewrite <- not_true_iff_false. naive_solver. Qed.

Lemma route_gateway_check_0 :
  route_gateway_check c r = 0 <-> (nr_gateway r <> 0 -> gateway_valid c r).
Proof.
  unfold route_gateway_check, gateway_valid.
  destruct (truth (nr_gateway r)) eqn:Eg; [apply truth_true in Eg|by apply truth_false in Eg].
  rewrite gateway_address_loop. bsimpl. rewrite <- net_unicast_spec.
  destruct (net_unicast (nr_gateway r)); bsimpl; [|naive_solver].
  destruct (existsb (gateway_bad r) _) eqn:Eb.
  { change (truth (- EINVAL)) with true. cbn iota. split; [done|]. intros H. destruct (H Eg) as (_ & H' & _).
    rewrite (proj2 no_bad_gateway) in Eb; [done|]. intros a Ha. apply gateway_bad_spec; auto. }
  change (truth 0) with false. cbn iota. assert (Hb := proj1 no_bad_gateway Eb).
  assert (Ereach : (existsb (gateway_near r) (nc_addresses c) || existsb (gateway_on_link r) (nc_routes c)) = true <->
    (exists a, a ∈ nc_addresses c /\ gateway_near r a = true) \/ (exists p, p ∈ nc_routes c /\ gateway_on_link r p = true))
    by (by rewrite orb_true_iff, !existsb_elem).
  assert (Hbad : forall a, a ∈ nc_addresses c -> na_ip a <> nr_gateway r /\
    (in_network (nr_gateway r) (na_ip a) (na_prefix a) -> host_address (nr_gateway r) (na_prefix a)))
    by (intros a Ha; apply gateway_bad_spec; auto).
  bsimpl. transitivity ((existsb (gateway_near r) (nc_addresses c) || existsb (gateway_on_link r) (nc_routes c)) = true).
  { by destruct (_ || _). }
  rewrite Ereach. split.
  - intros Hr _. split; [done|]. split; [done|].
    destruct Hr as [(a & Ha & Hn)|(p & Hp & Hn)]; [left; exists a|right; exists p]; (split; [done|]).
    + apply gateway_near_spec; auto.
    + by apply gateway_on_link_spec.
  - intros H. destruct (H Eg) as (_ & _ & [(a & Ha & Hn)|(p & Hp & Hn)]); [left; exists a|right; exists p]; (split; [done|]).
    + apply gateway_near_spec; auto.
    + by apply gateway_on_link_spec.
Qed.
End gateway.

Lemma route_check_0 c ports i r : route_typed r ->
  route_check c ports i r = 0 <->
  route_valid ports r /\ (existsb (route_conflict r) (take i (nc_routes c)) = false /\ route_gateway_check c r = 0).
Proof.
  intros (? & ? & ? & ? & ? & ? & ?). unfold route_check, route_valid, NET_UNICAST.
  rewrite !if_rc by done. checks. rewrite prefix_valid_ok by done.
  split; [|naive_solver lia]. intros [Hc [? ?]]. destruct_and?. split_and?; try done; lia.
Qed.

Lemma route_conflict_spec r p : route_conflict r p = false <-> routes_compatible r p.
Proof.
  unfold route_conflict, routes_compatible. checks. rewrite !andb_true_iff. checks.
  destruct (decide (nr_table r = nr_table p)), (decide (nr_ip r = nr_ip p)), (decide (nr_prefix r = nr_prefix p)); tauto.
Qed.

Lemma no_conflicts routes :
  (forall i r, routes !! i = Some r -> existsb (route_conflict r) (take i routes) = false) <->
  (forall i j r p, (j < i)%nat -> routes !! i = Some r -> routes !! j = Some p -> routes_compatible r p).
Proof.
  setoid_rewrite <- route_conflict_spec. setoid_rewrite <- not_true_iff_false. setoid_rewrite existsb_elem. split.
  - intros H i j r p Hji Hr Hp Hc. apply (H i r Hr). exists p. split; [|done].
    apply list_elem_of_lookup. exists j. by rewrite lookup_take_lt.
  - intros H i r Hr (p & [j Hj]%list_elem_of_lookup & Hc). apply lookup_take_Some in Hj as [Hj Hlt]. by apply (H i j r p).
Qed.

(** The route loop accepts exactly the routes the specification accepts. *)
Lemma check_routes_0 c ports : net_typed c -> Forall (address_valid ports) (nc_addresses c) ->
  check_all (route_check c ports) (nc_routes c) = 0 <->
  Forall (route_valid ports) (nc_routes c) /\
  (forall i j r p, (j < i)%nat -> nc_routes c !! i = Some r -> nc_routes c !! j = Some p -> routes_compatible r p) /\
  Forall (fun r => nr_gateway r <> 0 -> gateway_valid c r) (nc_routes c).
Proof.
  intros Ht Ha. assert (Htr := proj1 (proj2 Ht)). rewrite Forall_lookup in Htr.
  rewrite (check_all_Forall _ (route_valid ports)
    (fun i r => existsb (route_conflict r) (take i (nc_routes c)) = false /\ route_gateway_check c r = 0))
    by (intros; apply route_check_0; eauto).
  rewrite <- no_conflicts, (Forall_lookup (fun r => nr_gateway r <> 0 -> _)).
  assert (Hgw : Forall (route_valid ports) (nc_routes c) -> forall i r, nc_routes c !! i = Some r ->
    route_gateway_check c r = 0 <-> (nr_gateway r <> 0 -> gateway_valid c r)).
  { intros Hv i r Hr. apply (route_gateway_check_0 c ports r Ht Ha Hv). by destruct (Htr i r Hr) as (_ & _ & ? & _). }
  split.
  - intros [Hv H]. split; [done|]. split; intros i r Hr; [by apply (H i r Hr)|]. apply (Hgw Hv i r Hr), (H i r Hr).
  - intros (Hv & Hc & Hg). split; [done|]. intros i r Hr. split; [by apply Hc|]. by apply (Hgw Hv i r Hr), (Hg i r Hr).
Qed.

Lemma validate_counts c ports : net_config_validate c ports = 0 <->
  (Z.of_nat (length (nc_addresses c)) <= NET_ADDR_MAX /\ Z.of_nat (length (nc_routes c)) <= NET_ROUTE_MAX /\
   Z.of_nat (length (nc_rules c)) <= NET_RULE_MAX /\ Z.of_nat (length (nc_acls c)) <= NET_ACL_MAX /\ nc_default_drop c <= 1) /\
  check_all (address_check c ports) (nc_addresses c) = 0 /\ check_all (route_check c ports) (nc_routes c) = 0 /\
  check_all (rule_check c ports) (nc_rules c) = 0 /\ check_all (acl_check c ports) (nc_acls c) = 0.
Proof.
  unfold net_config_validate. rewrite if_rc by done. checks.
  assert (Hif : forall x y, (if truth x then x else y) = 0 <-> x = 0 /\ y = 0).
  { intros x y. destruct (truth x) eqn:E; [apply truth_true in E|apply truth_false in E]; naive_solver. }
  rewrite !Hif. tauto.
Qed.

Lemma net_config_validate_iff c ports : net_typed c ->
  net_config_validate c ports = 0 <-> config_valid c ports.
Proof.
  intros Ht. pose proof Ht as (Hta & Htr & Htu & Htc). rewrite validate_counts.
  rewrite Forall_lookup in Hta. rewrite Forall_lookup in Htu. rewrite Forall_lookup in Htc.
  rewrite (check_all_Forall (address_check c ports) _ _ _ (fun i a Ha => address_check_0 c ports i a (Hta i a Ha))).
  rewrite <- NoDup_take_existsb.
  rewrite (check_all_Forall (rule_check c ports) _ _ _ (fun i r Hr => rule_check_0 c ports i r (Htu i r Hr))).
  rewrite (check_all_Forall (acl_check c ports) _ _ _ (fun i a Ha => acl_check_0 c ports i a (Htc i a Ha))).
  rewrite !pref_increasing. split.
  - intros (Hc & [Ha Hd] & Hr & Hu & Hl). apply check_routes_0 in Hr as (? & ? & ?); [|done..]. by constructor.
  - intros [? ? ? ? ? ? ? ?]. split; [done|]. split; [done|]. rewrite check_routes_0 by done. done.
Qed.

(** * Lemmas: connected routes *)

Definition static_routes (c : net_config) : list net_route :=
  List.filter (fun r => negb (truth (nr_connected r))) (nc_routes c).

(** What the rebuild leaves: the static routes in order, then one connected
    route per network and device of the addresses. *)
Definition rebuilt (statics : list net_route) (addresses : list net_address) (routes : list net_route) : Prop :=
  exists connected, routes = statics ++ connected /\ NoDup connected /\
    (forall r, r ∈ connected <-> exists a, a ∈ addresses /\ r = connected_route a) /\
    Z.of_nat (length routes) <= NET_ROUTE_MAX.

Lemma same_connected_spec a b : same_connected a (connected_route b) = true <-> connected_route b = connected_route a.
Proof.
  unfold same_connected, connected_route. simpl. rewrite !andb_true_iff, !Z.eqb_eq.
  change (truth 1) with true. split.
  - intros H. destruct_and?. congruence.
  - intros H. by injection H as -> -> ->.
Qed.

Lemma connected_add_known statics connected a :
  Forall (fun r => nr_connected r = 0) statics -> (forall r, r ∈ connected -> exists b, r = connected_route b) ->
  existsb (same_connected a) (statics ++ connected) = true <-> connected_route a ∈ connected.
Proof.
  intros Hs Hc. rewrite existsb_elem. split.
  - intros (r & [Hr|Hr]%elem_of_app & Ht).
    + rewrite Forall_forall in Hs. unfold same_connected in Ht. rewrite (Hs r Hr), andb_false_r in Ht. done.
    + destruct (Hc r Hr) as [b ->]. apply same_connected_spec in Ht. by rewrite <- Ht.
  - intros Hin. exists (connected_route a). split; [apply elem_of_app; auto|by apply same_connected_spec].
Qed.

Lemma rebuild_loop statics addresses routes :
  Forall (fun r => nr_connected r = 0) statics -> Z.of_nat (length statics) <= NET_ROUTE_MAX ->
  fold_rc connected_add addresses statics = (0, routes) -> rebuilt statics addresses routes.
Proof.
  intros Hs Hl H. refine (fold_rc_invariant _ (rebuilt statics) _ _ _ H _ _).
  { exists []. rewrite app_nil_r. split; [done|]. split; [constructor|]. split; [set_solver|done]. }
  intros seen a s1 s2 (conn & -> & Hnd & Hin & Hlen) Hstep. unfold connected_add in Hstep.
  assert (Hk := connected_add_known statics conn a Hs
    (fun r Hr => let '(ex_intro _ b (conj _ Hb)) := proj1 (Hin r) Hr in ex_intro _ b Hb)).
  destruct (existsb _ _) eqn:Ee.
  - injection Hstep as <-. apply proj1 in Hk. specialize (Hk eq_refl). exists conn.
    split; [done|]. split; [done|]. split; [|done]. intros r. rewrite Hin. set_solver.
  - destruct (_ =? NET_ROUTE_MAX) eqn:En; [done|]. injection Hstep as <-. bool_hyps.
    assert (Hni : connected_route a ∉ conn) by (intros Hc; apply Hk in Hc; done).
    exists (conn ++ [connected_route a]). rewrite app_assoc. split; [done|]. split.
    { apply NoDup_app. split; [done|]. split; [set_solver|apply NoDup_singleton]. }
    split; [intros r; set_solver|]. rewrite !length_app in *. simpl. lia.
Qed.

Lemma static_routes_unconnected c : Forall (fun r => nr_connected r = 0) (static_routes c).
Proof.
  apply Forall_forall. intros r Hr. apply list_elem_of_In, filter_In in Hr as [_ Hr].
  by apply negb_true_iff, truth_false in Hr.
Qed.

Lemma net_connected_rebuild_ok c c' : net_connected_rebuild c = (0, c') ->
  rebuilt (static_routes c) (nc_addresses c) (nc_routes c') /\
  c' = (c |> set_nc_routes_indexed false |> set_nc_routes (nc_routes c')) /\
  Z.of_nat (length (nc_addresses c)) <= NET_ADDR_MAX /\ Forall (fun a => na_prefix a <= 32) (nc_addresses c).
Proof.
  unfold net_connected_rebuild. destruct (_ || _) eqn:E1; [done|]. destruct (existsb _ _) eqn:E2; [done|].
  fold (static_routes c). destruct (fold_rc _ _ _) as [rc routes] eqn:E3. intros [= -> <-]. bool_hyps.
  split; [|split; [done|split; [done|]]].
  - eapply rebuild_loop; [apply static_routes_unconnected| |done].
    etransitivity; [|done]. unfold static_routes. apply inj_le, filter_length_le.
  - apply Forall_forall. intros a Ha. apply not_true_iff_false in E2. rewrite existsb_elem in E2.
    destruct (Z.ltb_spec 32 (na_prefix a)); [|done]. exfalso. apply E2. exists a. split; [done|]. by apply Z.ltb_lt.
Qed.

Lemma rebuilt_statics statics addresses routes c : rebuilt statics addresses routes -> nc_routes c = routes ->
  Forall (fun r => nr_connected r = 0) statics -> static_routes c = statics.
Proof.
  intros (conn & -> & _ & Hin & _) Hr Hs. unfold static_routes. rewrite Hr, List.filter_app.
  assert (E1 : List.filter (fun r => negb (truth (nr_connected r))) statics = statics).
  { clear -Hs. induction Hs as [|r l Hr Hs IH]; [done|]. cbn [List.filter].
    rewrite (proj2 (truth_false _) Hr). simpl. by rewrite IH. }
  assert (E2 : List.filter (fun r => negb (truth (nr_connected r))) conn = []).
  { assert (Hc : Forall (fun r => nr_connected r = 1) conn).
    { apply Forall_forall. intros r (a & _ & ->)%Hin. done. }
    clear -Hc. induction Hc as [|r l Hr Hc IH]; [done|]. cbn [List.filter]. by rewrite Hr. }
  by rewrite E1, E2, app_nil_r.
Qed.

Lemma net_connected_rebuild_idem c c' :
  net_connected_rebuild c = (0, c') -> net_connected_rebuild c' = (0, c').
Proof.
  intros H. destruct (net_connected_rebuild_ok _ _ H) as (Hr & Hc' & Hn & Hp).
  assert (Hs : static_routes c' = static_routes c)
    by (eapply rebuilt_statics; [done|done|apply static_routes_unconnected]).
  assert (Ha : nc_addresses c' = nc_addresses c) by (rewrite Hc'; done).
  assert (Hlen : Z.of_nat (length (nc_routes c')) <= NET_ROUTE_MAX) by (destruct Hr as (? & _ & _ & _ & ?); done).
  unfold net_connected_rebuild in H |- *. destruct (_ || _); [done|]. destruct (existsb _ _) eqn:Ee; [done|].
  rewrite Ha, Ee. fold (static_routes c) in H. fold (static_routes c'). rewrite Hs.
  destruct (fold_rc _ _ _) as [rc routes] eqn:E3. injection H as -> <-. bsimpl.
  apply Z.ltb_ge in Hn, Hlen. by rewrite Hn, Hlen.
Qed.

(** * Lemmas: the route index *)

(** Table ascending, prefix length descending, route number ascending. *)
Lemma route_before_spec a b : route_before a b <->
  ix_table a < ix_table b \/ (ix_table a = ix_table b /\
    (ix_prefix b < ix_prefix a \/ (ix_prefix a = ix_prefix b /\ (ix_route a <= ix_route b)%nat))).
Proof.
  unfold route_before, route_order, b2z.
  destruct (Z.eqb_spec (ix_table a) (ix_table b)), (Z.eqb_spec (ix_prefix a) (ix_prefix b)),
    (Z.ltb_spec (ix_table b) (ix_table a)), (Z.ltb_spec (ix_table a) (ix_table b)),
    (Z.ltb_spec (ix_prefix a) (ix_prefix b)), (Z.ltb_spec (ix_prefix b) (ix_prefix a)),
    (Nat.ltb_spec (ix_route b) (ix_route a)), (Nat.ltb_spec (ix_route a) (ix_route b)); bsimpl; lia.
Qed.

#[export] Instance route_before_total : Total route_before.
Proof. intros a b. rewrite !route_before_spec. lia. Qed.
#[export] Instance route_before_trans : Transitive route_before.
Proof. intros a b d. rewrite !route_before_spec. lia. Qed.

Lemma build_index_perm routes : build_index routes ≡ₚ imap index_entry routes.
Proof. apply merge_sort_Permutation. Qed.
Lemma build_index_sorted routes : StronglySorted route_before (build_index routes).
Proof. apply StronglySorted_merge_sort; apply _. Qed.

Lemma length_build_index routes : length (build_index routes) = length routes.
Proof. by rewrite build_index_perm, length_imap. Qed.

Lemma build_index_elem routes x :
  x ∈ build_index routes <-> exists i r, routes !! i = Some r /\ x = index_entry i r.
Proof. rewrite build_index_perm, elem_of_lookup_imap. naive_solver. Qed.

(** Entries of one index that the order does not separate are the same entry. *)
Lemma index_antisym routes x y : x ∈ build_index routes -> y ∈ build_index routes ->
  route_before x y -> route_before y x -> x = y.
Proof.
  rewrite !build_index_elem, !route_before_spec.
  intros (i & r & Hr & ->) (j & s & Hs & ->). simpl. intros H1 H2.
  assert (i = j) as -> by lia. congruence.
Qed.

(** Any sorted permutation of the entries, whatever [qsort] does, is the index. *)
Lemma route_index_unique routes l :
  l ≡ₚ imap index_entry routes -> StronglySorted route_before l -> l = build_index routes.
Proof.
  rewrite <- build_index_perm. intros Hp Hs.
  eapply StronglySorted_unique_strong; [|exact Hs|apply build_index_sorted|exact Hp].
  intros x y Hx Hy. rewrite Hp in Hx. by apply (index_antisym routes).
Qed.

Lemma net_config_prepare_generation c ports c' :
  net_config_prepare c ports = (0, c') -> nc_generation c' = nc_generation c.
Proof.
  unfold net_config_prepare. destruct (truth _) eqn:E; [intros [= H _]; apply truth_true in E; done|].
  destruct (_ <=? 2); by intros [= <-].
Qed.

Lemma net_config_prepare_ok c ports c' : net_config_prepare c ports = (0, c') ->
  net_config_validate c' ports = 0 /\ nc_routes c' = nc_routes c /\ nc_addresses c' = nc_addresses c /\
  nc_rules c' = nc_rules c /\
  (nc_routes_indexed c' = true -> nc_route_index c' = build_index (nc_routes c')).
Proof.
  unfold net_config_prepare. set (c0 := set_nc_routes_indexed false c).
  destruct (truth (net_config_validate c0 ports)) eqn:E; [intros [= H _]; apply truth_true in E; done|].
  apply truth_false in E. destruct (_ <=? 2); intros [= <-]; by repeat split.
Qed.

(** * Lemmas: access lists *)

(** What a rule asks of a packet. *)
Definition acl_covers (a : net_acl) (k : acl_key) : Prop :=
  in_network (ak_src k) (ac_src a) (ac_src_prefix a) /\ in_network (ak_dst k) (ac_dst a) (ac_dst_prefix a) /\
  (ac_iif a = NET_IIF_NONE \/ ac_iif a = ak_iif k) /\ (ac_proto a = 0 \/ ac_proto a = ak_proto k) /\
  (ac_ports a <> 0 -> ak_ports_valid k = true) /\
  (Z.testbit (ac_ports a) 0 = true -> ac_sport_min a <= ak_sport k <= ac_sport_max a) /\
  (Z.testbit (ac_ports a) 1 = true -> ac_dport_min a <= ak_dport k <= ac_dport_max a).

Definition key_typed (k : acl_key) : Prop := is_u32 (ak_src k) /\ is_u32 (ak_dst k).
#[export] Instance key_typed_dec k : Decision (key_typed k).
Proof. unfold key_typed. apply _. Defined.

Lemma truth_land_bit x n : 0 <= n -> truth (Z.land x (2 ^ n)) = Z.testbit x n.
Proof.
  intros Hn. apply eq_bool_prop_intro. rewrite !Is_true_true, truth_true. split.
  - intros H. apply not_false_is_true. intros Hb. apply H. apply Z.bits_inj'. intros i Hi.
    rewrite Z.land_spec, Z.pow2_bits_eqb, Z.bits_0 by done.
    destruct (Z.eqb_spec n i) as [->|]; [by rewrite Hb|by rewrite andb_false_r].
  - intros Hb H. apply (f_equal (fun z => Z.testbit z n)) in H.
    rewrite Z.land_spec, Z.pow2_bits_true, Hb, Z.bits_0 in H by done. done.
Qed.

Lemma acl_matches_spec ports a k : acl_typed a -> acl_valid ports a -> key_typed k ->
  acl_matches a k = true <-> acl_covers a k.
Proof.
  intros (? & ? & ? & ? & _) (Hs & Hd & _) [? ?]. unfold acl_matches, acl_covers, in_network.
  change (Z.land (ac_ports a) 1) with (Z.land (ac_ports a) (2 ^ 0)).
  change (Z.land (ac_ports a) 2) with (Z.land (ac_ports a) (2 ^ 1)). rewrite !truth_land_bit by done.
  rewrite <- !net_match_spec by first [done | by apply prefix_valid_ok | unfold is_u32 in *; lia].
  assert (Hif : forall b y : bool, (if b then false else y) = true <-> b = false /\ y = true)
    by (intros [] y; naive_solver).
  rewrite !Hif. checks.
  assert (Hb : forall (b : bool) (P : Prop), (b = false \/ P) <-> (b = true -> P)) by (intros [] P; naive_solver).
  assert (Hz : forall (P : Prop), (ac_ports a = 0 \/ P) <-> (ac_ports a <> 0 -> P))
    by (intros P; destruct (decide (ac_ports a = 0)); naive_solver).
  rewrite !Hb, Hz. tauto.
Qed.

(** The first rule that covers the packet decides; without one the default does. *)
Inductive acl_verdict (c : net_config) (k : acl_key) : bool -> Prop :=
| verdict_rule i a : nc_acls c !! i = Some a -> acl_covers a k ->
    (forall j b, (j < i)%nat -> nc_acls c !! j = Some b -> ~ acl_covers b k) ->
    acl_verdict c k (negb (truth (ac_drop a)))
| verdict_default : (forall a, a ∈ nc_acls c -> ~ acl_covers a k) ->
    acl_verdict c k (negb (truth (nc_default_drop c))).

Lemma acl_lookup_covers c ports k i a : net_typed c -> config_valid c ports -> key_typed k ->
  nc_acls c !! i = Some a -> acl_matches a k = true <-> acl_covers a k.
Proof.
  intros (_ & _ & _ & Ht) Hv Hk Ha. destruct (cv_acls _ _ Hv) as [Hav _].
  rewrite Forall_lookup in Ht. rewrite Forall_lookup in Hav. eapply acl_matches_spec; eauto.
Qed.

Lemma net_acl_accept_verdict c ports s k bytes : net_typed c -> config_valid c ports -> key_typed k ->
  acl_verdict c k (net_acl_accept c s k bytes).1.
Proof.
  intros Ht Hv Hk. assert (Hm := fun i a => acl_lookup_covers c ports k i a Ht Hv Hk).
  unfold net_acl_accept, net_acl_classify, net_acl_account. destruct (find_index _ _) as [i|] eqn:Ef.
  - apply find_index_Some in Ef as [(a & Ha & Hc) Hlt].
    replace (0 <=? Z.of_nat i) with true by (symmetry; apply Z.leb_le; lia). rewrite Nat2Z.id, Ha. bsimpl.
    eapply verdict_rule; [done|by eapply Hm|]. intros j b Hj Hb Hcov.
    apply (Hm j b Hb) in Hcov. specialize (Hlt j b Hj Hb). congruence.
  - simpl. apply verdict_default. intros a [i Ha]%list_elem_of_lookup Hcov.
    rewrite find_index_None in Ef. apply (Hm i a Ha) in Hcov. specialize (Ef i a Ha). congruence.
Qed.

(** ** Counters *)

Definition counter_total (l : list acl_counter) : Z := sum_list_Z (ct_packets <$> l).

(** Every packet is counted once by a rule or the default, and once by its
    verdict (modulo the width of the counters). *)
Definition counters_balanced (s : acl_counters) : Prop :=
  u64 (counter_total (cs_rules s) + cs_defaults s) = u64 (cs_accepted s + cs_dropped s).

Lemma counter_total_cons t l : counter_total (t :: l) = ct_packets t + counter_total l.
Proof. done. Qed.

Lemma counter_total_alter bytes l i : (i < length l)%nat ->
  exists t, l !! i = Some t /\ counter_total (alter (acl_hit bytes) i l) =
    counter_total l - ct_packets t + u64 (ct_packets t + 1).
Proof.
  revert i. induction l as [|t l IH]; intros i Hi; simpl in Hi; [lia|]. destruct i as [|i].
  - exists t. split; [done|]. change (alter (acl_hit bytes) 0%nat (t :: l)) with (acl_hit bytes t :: l).
    rewrite !counter_total_cons. simpl. lia.
  - destruct (IH i ltac:(lia)) as (t' & Ht' & He). exists t'. split; [done|].
    change (alter (acl_hit bytes) (S i) (t :: l)) with (t :: alter (acl_hit bytes) i l).
    rewrite !counter_total_cons, He. lia.
Qed.

Lemma u64_eq_add x y d : u64 x = u64 y -> u64 (x + d) = u64 (y + d).
Proof. unfold u64. intros H. rewrite (Z.add_mod x), (Z.add_mod y), H by lia. done. Qed.
Lemma u64_add_u64 a b : u64 (a + u64 b) = u64 (a + b).
Proof. unfold u64. by rewrite Z.add_mod_idemp_r. Qed.
Lemma u64_u64_add a b : u64 (u64 a + b) = u64 (a + b).
Proof. unfold u64. by rewrite Z.add_mod_idemp_l. Qed.

(** Field projections of updated counters. *)
Ltac counters := cbn [snd cs_rules cs_defaults cs_accepted cs_dropped set_cs_rules set_cs_defaults set_cs_accepted set_cs_dropped].

Lemma net_acl_account_balanced c s i bytes :
  length (cs_rules s) = Z.to_nat NET_ACL_MAX -> Z.of_nat (length (nc_acls c)) <= NET_ACL_MAX ->
  counters_balanced s -> counters_balanced (net_acl_account c s i bytes).2.
Proof.
  intros Hl Hn Hb. unfold net_acl_account. destruct (if 0 <=? i then _ else _) as [a|] eqn:Ea.
  - destruct (0 <=? i) eqn:E0; [|done]. bool_hyps.
    destruct (counter_total_alter bytes (cs_rules s) (Z.to_nat i)) as (t & Ht & He).
    { apply lookup_lt_Some in Ea. unfold NET_ACL_MAX in *. lia. }
    assert (Hd : u64 (counter_total (cs_rules s) - ct_packets t + u64 (ct_packets t + 1) + cs_defaults s)
                 = u64 (cs_accepted s + cs_dropped s + 1)).
    { rewrite <- (u64_eq_add _ _ 1 Hb). rewrite <- Z.add_assoc, (Z.add_comm (u64 _)), Z.add_assoc, u64_add_u64. f_equal. lia. }
    unfold counters_balanced in *. destruct (truth (ac_drop a)); counters; rewrite He, Hd;
      rewrite ?u64_add_u64, ?u64_u64_add; f_equal; lia.
  - assert (Hd : u64 (counter_total (cs_rules s) + u64 (cs_defaults s + 1)) = u64 (cs_accepted s + cs_dropped s + 1)).
    { rewrite u64_add_u64, <- (u64_eq_add _ _ 1 Hb). f_equal. lia. }
    unfold counters_balanced in *. destruct (truth (nc_default_drop c)); counters; rewrite Hd;
      rewrite ?u64_add_u64, ?u64_u64_add; f_equal; lia.
Qed.

Lemma net_acl_account_length c s i bytes :
  length (cs_rules (net_acl_account c s i bytes).2) = length (cs_rules s).
Proof.
  unfold net_acl_account. destruct (if 0 <=? i then _ else _) as [a|];
    [destruct (truth (ac_drop a))|destruct (truth (nc_default_drop c))]; counters; by rewrite ?length_alter.
Qed.

Lemma migrated_counter_spec old saved a : increasing ac_pref (nc_acls old) ->
  (forall j, nc_acls old !! j = Some a -> (j < length saved)%nat -> saved !! j = Some (migrated_counter old saved a)) /\
  (a ∉ nc_acls old -> migrated_counter old saved a = zero_acl_counter).
Proof.
  unfold migrated_counter. generalize (nc_acls old) as acls. clear old. intros acls Hinc.
  induction acls as [|b acls IH] using rev_ind; [done|].
  unfold indexed in *. rewrite imap_app, foldl_app. simpl. rewrite Nat.add_0_r, Nat2Z.id.
  assert (Hinc' : increasing ac_pref acls).
  { intros i j x y Hij Hx Hy. eapply (Hinc i j); [done|by apply lookup_app_l_Some..]. }
  destruct (IH Hinc') as [IH1 IH2]. destruct (decide (a = b)) as [->|Hne].
  - split; [|set_solver]. intros j Hj Hlt. assert (j = length acls) as ->.
    { apply lookup_app_Some in Hj as [Hj|[? Hj]].
      - exfalso. assert (Hlt' := lookup_lt_Some _ _ _ Hj).
        assert (ac_pref b < ac_pref b); [|lia]. eapply (Hinc j (length acls)); [done|by apply lookup_app_l_Some|].
        by rewrite list_lookup_middle.
      - apply list_lookup_singleton_Some in Hj as [? _]. lia. }
    rewrite (nth_lookup_Some saved (length acls) zero_acl_counter (default zero_acl_counter (saved !! length acls)));
      destruct (lookup_lt_is_Some_2 saved (length acls) Hlt) as [t ->]; done.
  - split; [|set_solver]. intros j Hj Hlt. apply IH1; [|done].
    apply lookup_app_Some in Hj as [Hj|[? Hj]]; [done|]. apply list_lookup_singleton_Some in Hj as [_ ?]. congruence.
Qed.

(** A stream of packets through the access list. *)
Definition acl_run (c : net_config) (s : acl_counters) (pkts : list (acl_key * Z)) : acl_counters :=
  foldl (fun s '(k, bytes) => (net_acl_accept c s k bytes).2) s pkts.

Lemma net_acl_account_verdicts c s i bytes :
  u64 (cs_accepted (net_acl_account c s i bytes).2 + cs_dropped (net_acl_account c s i bytes).2) =
  u64 (cs_accepted s + cs_dropped s + 1).
Proof.
  unfold net_acl_account. destruct (if 0 <=? i then _ else _) as [a|];
    [destruct (truth (ac_drop a))|destruct (truth (nc_default_drop c))]; counters;
    rewrite ?u64_add_u64, ?u64_u64_add; f_equal; lia.
Qed.

Lemma acl_run_counts c s pkts :
  length (cs_rules s) = Z.to_nat NET_ACL_MAX -> Z.of_nat (length (nc_acls c)) <= NET_ACL_MAX -> counters_balanced s ->
  counters_balanced (acl_run c s pkts) /\
  u64 (cs_accepted (acl_run c s pkts) + cs_dropped (acl_run c s pkts)) =
  u64 (cs_accepted s + cs_dropped s + Z.of_nat (length pkts)).
Proof.
  intros Hl Hn. revert s Hl. induction pkts as [|[k bytes] pkts IH]; intros s Hl Hb.
  { simpl. rewrite Z.add_0_r. done. }
  change (acl_run c s ((k, bytes) :: pkts)) with (acl_run c (net_acl_accept c s k bytes).2 pkts).
  destruct (IH (net_acl_accept c s k bytes).2) as [IH1 IH2].
  - unfold net_acl_accept. by rewrite net_acl_account_length.
  - by apply net_acl_account_balanced.
  - split; [done|]. rewrite IH2. unfold net_acl_accept.
    rewrite (u64_eq_add _ _ _ (net_acl_account_verdicts c s _ bytes)). f_equal. simpl length. lia.
Qed.

Lemma net_config_init_ok calloc_ok rt rt' : net_config_init calloc_ok rt = (0, rt') ->
  exists c, rt' = set_rt_network (Some c) rt /\ nc_generation c = 1 /\
    net_config_validate c (Z.of_nat (length (rt_ports rt))) = 0 /\
    nc_addresses c = (fun p => mk_net_address (pt_ip_be p) (pt_prefix_len p) (pt_id p)) <$> rt_ports rt /\
    (nc_routes_indexed c = true -> nc_route_index c = build_index (nc_routes c)) /\
    (forall a, a ∈ nc_addresses c -> connected_route a ∈ nc_routes c).
Proof.
  unfold net_config_init. destruct calloc_ok; [|done]. cbn [negb]. set (c0 := set_nc_routes _ _).
  destruct (net_connected_rebuild c0) as [rc1 c1] eqn:E1. destruct (truth rc1) eqn:Er1.
  { rewrite Er1. intros [= -> _]. done. }
  apply truth_false in Er1 as ->. destruct (net_config_prepare c1 _) as [rc2 c2] eqn:E2.
  destruct (truth rc2) eqn:Er2; [intros [= -> _]; done|]. apply truth_false in Er2 as ->. intros [= <-].
  destruct (net_config_prepare_ok _ _ _ E2) as (Hv & Hr & Ha & _ & Hix).
  destruct (net_connected_rebuild_ok _ _ E1) as ((conn & Hrt & _ & Hin & _) & Hc1 & _).
  assert (Ha1 : nc_addresses c1 = nc_addresses c0) by (rewrite Hc1; done).
  exists c2. split; [done|]. split.
  { by rewrite (net_config_prepare_generation _ _ _ E2), Hc1. }
  split; [done|]. split; [by rewrite Ha, Ha1|]. split; [done|].
  intros a Ha'. rewrite Hr, Hrt. apply elem_of_app. right. apply Hin. exists a. split; [|done].
  by rewrite <- Ha1, <- Ha.
Qed.

(** * Properties *)

(** C9: [net_config_validate] accepts exactly the configurations that meet the
    declarative conditions on addresses, routes, gateways, rules and access
    lists. *)
Theorem net_config_validate_spec c ports : net_typed c ->
  net_config_validate c ports = 0 <-> config_valid c ports.
Proof. apply net_config_validate_iff. Qed.

(** A successful [net_connected_rebuild] keeps the static routes in order,
    adds exactly one connected route per network and device of the addresses,
    stays within the capacity, drops the index, and is idempotent. *)
Theorem net_connected_rebuild_spec c c' : net_connected_rebuild c = (0, c') ->
  rebuilt (static_routes c) (nc_addresses c) (nc_routes c') /\ nc_routes_indexed c' = false /\
  nc_addresses c' = nc_addresses c /\ nc_rules c' = nc_rules c /\ nc_acls c' = nc_acls c /\
  net_connected_rebuild c' = (0, c').
Proof.
  intros H. destruct (net_connected_rebuild_ok _ _ H) as (Hr & Hc & _ & _).
  split; [done|]. rewrite Hc at 1 2 3 4. by repeat split; try apply net_connected_rebuild_idem with c.
Qed.

(** On a validated configuration [net_acl_accept] gives the verdict of the
    first rule covering the packet, and the default verdict when none does. *)
Theorem net_acl_accept_first_match c ports s k bytes :
  net_typed c -> net_config_validate c ports = 0 -> key_typed k ->
  acl_verdict c k (net_acl_accept c s k bytes).1.
Proof. intros Ht Hv%net_config_validate_iff Hk; [|done]. by eapply net_acl_accept_verdict. Qed.

(** Over any stream of packets the access list counters stay balanced: the
    rule hits and the default hits together count every packet once, and so do
    the accepted and dropped totals (modulo 2^64). *)
Theorem acl_counters_conserved c ports pkts : net_typed c -> net_config_validate c ports = 0 ->
  let s := acl_run c zero_acl_counters pkts in
  u64 (counter_total (cs_rules s) + cs_defaults s) = u64 (Z.of_nat (length pkts)) /\
  u64 (cs_accepted s + cs_dropped s) = u64 (Z.of_nat (length pkts)).
Proof.
  intros Ht Hv%net_config_validate_iff; [|done]. simpl.
  destruct (acl_run_counts c zero_acl_counters pkts) as [Hb Hc]; [done|apply (cv_counts _ _ Hv)|done|].
  split; [|exact Hc]. unfold counters_balanced in Hb. rewrite Hb. exact Hc.
Qed.

(** When a new configuration replaces the old one, every access rule that
    stays keeps its counters and every new rule starts from zero. *)
Theorem acl_counters_migrate_spec old next ports s i a :
  net_typed old -> net_config_validate old ports = 0 -> Z.of_nat (length (nc_acls next)) <= NET_ACL_MAX ->
  length (cs_rules s) = Z.to_nat NET_ACL_MAX -> nc_acls next !! i = Some a ->
  let rules := cs_rules (net_acl_counters_migrate old next s) in
  length rules = Z.to_nat NET_ACL_MAX /\
  (forall j, nc_acls old !! j = Some a -> rules !! i = cs_rules s !! j) /\
  (a ∉ nc_acls old -> rules !! i = Some zero_acl_counter).
Proof.
  intros Ht Hv%net_config_validate_iff Hn Hl Ha; [|done]. simpl.
  destruct (migrated_counter_spec old (cs_rules s) a (proj2 (cv_acls _ _ Hv))) as [H1 H2].
  assert (Hi : ((migrated_counter old (cs_rules s) <$> nc_acls next) ++
     replicate (Z.to_nat NET_ACL_MAX - length (nc_acls next)) zero_acl_counter) !! i =
     Some (migrated_counter old (cs_rules s) a)).
  { apply lookup_app_l_Some. by rewrite list_lookup_fmap, Ha. }
  split; [|split].
  - rewrite length_app, length_fmap, length_replicate. unfold NET_ACL_MAX in *. lia.
  - intros j Hj. rewrite Hi. symmetry. apply H1; [done|]. rewrite Hl.
    destruct (cv_counts _ _ Hv) as (_ & _ & _ & Hc & _). apply lookup_lt_Some in Hj. unfold NET_ACL_MAX in *. lia.
  - intros Hno. rewrite Hi. by rewrite H2.
Qed.

(** The configuration published at start-up is validated, carries every
    interface address with its connected route, and its index, when built, is
    the sorted index of its routes. *)
Theorem net_config_init_publishes calloc_ok rt rt' : net_config_init calloc_ok rt = (0, rt') ->
  exists c, rt' = set_rt_network (Some c) rt /\ nc_generation c = 1 /\
    net_config_validate c (Z.of_nat (length (rt_ports rt))) = 0 /\
    nc_addresses c = (fun p => mk_net_address (pt_ip_be p) (pt_prefix_len p) (pt_id p)) <$> rt_ports rt /\
    (nc_routes_indexed c = true -> nc_route_index c = build_index (nc_routes c)) /\
    (forall a, a ∈ nc_addresses c -> connected_route a ∈ nc_routes c).
Proof. apply net_config_init_ok. Qed.

(** * Witnesses *)

Definition sample_published : app_runtime := (net_config_init true sample_runtime).2.
Definition sample_acl : net_acl :=
  zero_net_acl |> set_ac_pref 10 |> set_ac_iif NET_IIF_NONE |> set_ac_proto 6 |> set_ac_ports 2
  |> set_ac_dport_min 80 |> set_ac_dport_max 80 |> set_ac_drop 1.
Definition sample_net : net_config :=
  set_nc_acls [sample_acl] (default zero_net_config (rt_network sample_published)).
Definition sample_key : acl_key :=
  {| ak_src := htonl 167772162; ak_dst := htonl 167837698; ak_iif := 0; ak_sport := 4000; ak_dport := 80;
     ak_proto := 6; ak_ports_valid := true |}.

Lemma net_config_validate_spec_witness :
  net_config_validate sample_net 2 = 0 /\ config_valid sample_net 2.
Proof.
  assert (H : net_config_validate sample_net 2 = 0) by reflexivity.
  split; [exact H|]. apply (net_config_validate_spec sample_net 2); [compute_closed|exact H].
Defined.

Lemma net_connected_rebuild_spec_witness :
  rebuilt (static_routes sample_net) (nc_addresses sample_net) (nc_routes (net_connected_rebuild sample_net).2) /\
  net_connected_rebuild (net_connected_rebuild sample_net).2 = (0, (net_connected_rebuild sample_net).2).
Proof.
  destruct (net_connected_rebuild_spec sample_net (net_connected_rebuild sample_net).2 ltac:(vm_compute; reflexivity))
    as (H1 & _ & _ & _ & _ & H2). split; [exact H1|exact H2].
Defined.

Lemma net_acl_accept_first_match_witness :
  acl_verdict sample_net sample_key (net_acl_accept sample_net zero_acl_counters sample_key 60).1 /\
  (net_acl_accept sample_net zero_acl_counters sample_key 60).1 = false.
Proof.
  split; [|vm_compute; reflexivity].
  apply (net_acl_accept_first_match sample_net 2); [compute_closed|vm_compute; reflexivity|compute_closed].
Defined.

Lemma acl_counters_conserved_witness :
  let s := acl_run sample_net zero_acl_counters [(sample_key, 60); (set_ak_dport 81 sample_key, 60)] in
  u64 (counter_total (cs_rules s) + cs_defaults s) = u64 2 /\ u64 (cs_accepted s + cs_dropped s) = u64 2.
Proof.
  apply (acl_counters_conserved sample_net 2 [(sample_key, 60); (set_ak_dport 81 sample_key, 60)]);
    [compute_closed|vm_compute; reflexivity].
Defined.

Lemma acl_counters_migrate_spec_witness :
  let s := acl_run sample_net zero_acl_counters [(sample_key, 60)] in
  let next := set_nc_acls [set_ac_pref 5 sample_acl; sample_acl] sample_net in
  cs_rules (net_acl_counters_migrate sample_net next s) !! 1%nat = cs_rules s !! 0%nat.
Proof.
  intros s next.
  apply (acl_counters_migrate_spec sample_net next 2 s 1 sample_acl);
    [compute_closed|vm_compute; reflexivity|vm_compute; discriminate|reflexivity|reflexivity|reflexivity].
Defined.

Lemma net_config_init_publishes_witness :
  exists c, sample_published = set_rt_network (Some c) sample_runtime /\ nc_generation c = 1 /\
    net_config_validate c 2 = 0 /\
    nc_addresses c = (fun p => mk_net_address (pt_ip_be p) (pt_prefix_len p) (pt_id p)) <$> rt_ports sample_runtime /\
    (nc_routes_indexed c = true -> nc_route_index c = build_index (nc_routes c)) /\
    (forall a, a ∈ nc_addresses c -> connected_route a ∈ nc_routes c).
Proof. apply (net_config_init_publishes true sample_runtime sample_published). vm_compute. reflexivity. Defined.
