(* ===== verification/PolicyRoute.v ===== *)
(** Policy routing, [src/policy_route.c]: rule evaluation, the table lookup
    through the sorted index or by a linear scan, and the two entry points
    [ipv4_route_query] and [ipv4_route_lookup]. *)
From S2P Require Import Prelude.
From S2P Require Import Dpdk.
From S2P Require Import Types.
From S2P Require Import Prefix.
From S2P Require Import Netif.
From S2P Require Import Route.
From S2P Require Import NetConfig.

(** * Table lookup *)

Definition action (type : Z) : drop_reason :=
  if type =? NET_BLACKHOLE then DROP_ROUTE_BLACKHOLE else
  if type =? NET_UNREACHABLE then DROP_ROUTE_UNREACHABLE else
  if type =? NET_PROHIBIT then DROP_ROUTE_PROHIBIT else DROP_NONE.

(** The binary search for the first entry of a table: [while (begin < end)].
    Each round halves the interval, so [end - begin] rounds are enough. *)
Fixpoint first_of_table (rounds : nat) (index : list net_route_index) (table : Z) (begin end_ : nat) : nat :=
  match rounds with
  | O => begin
  | S rounds' =>
    if Nat.ltb begin end_ then
      let mid := (begin + (end_ - begin) / 2)%nat in
      if ix_table (nth mid index zero_net_route_index) <? table
      then first_of_table rounds' index table (mid + 1) end_
      else first_of_table rounds' index table begin mid
    else begin
  end.

(** [!r->type] routes need an interface that is up. *)
Definition route_usable (rt : app_runtime) (r : net_route) : bool :=
  truth (nr_type r) ||
  match netif_by_id rt (u16 (nr_dev r)) with Some p => port_up p | None => false end.

(** The scan of the index from [begin]: stops at the first usable match. *)
Fixpoint scan_index (rt : app_runtime) (routes : list net_route) (index : list net_route_index) (dst table : Z)
  : option net_route :=
  match index with
  | [] => None
  | ix :: index' =>
    if negb (ix_table ix =? table) then None else
    if negb (Z.land dst (ix_mask ix) =? ix_ip ix) then scan_index rt routes index' dst table else
    match routes !! ix_route ix with
    | Some r => if route_usable rt r then Some r else scan_index rt routes index' dst table
    | None => scan_index rt routes index' dst table
    end
  end.

(** The scan of the unsorted routes: keeps the longest usable match. *)
Definition scan_routes_step (rt : app_runtime) (dst table : Z) (best : option net_route) (r : net_route)
  : option net_route :=
  if negb (nr_table r =? table) || negb (net_match dst (nr_ip r) (nr_prefix r)) ||
     match best with Some b => nr_prefix r <=? nr_prefix b | None => false end then best else
  if route_usable rt r then Some r else best.

Definition scan_routes (rt : app_runtime) (routes : list net_route) (dst table : Z) : option net_route :=
  foldl (scan_routes_step rt dst table) None routes.

Definition table_best (rt : app_runtime) (c : net_config) (dst table : Z) : option net_route :=
  if nc_routes_indexed c then
    let n := length (nc_routes c) in
    let begin := first_of_table n (nc_route_index c) table 0 n in
    scan_index rt (nc_routes c) (drop begin (take n (nc_route_index c))) dst table
  else scan_routes rt (nc_routes c) dst table.

Definition table_lookup (rt : app_runtime) (c : net_config) (dst src table pref : Z) (out : route_result)
  : drop_reason * route_result :=
  match table_best rt c dst table with
  | None => (DROP_NO_ROUTE, out)
  | Some best =>
    let next_hop := if truth (nr_gateway best) then nr_gateway best else dst in
    let out := zero_route_result |> set_rr_table table |> set_rr_rule_pref pref |> set_rr_type (nr_type best)
      |> set_rr_netif_id (u16 (nr_dev best)) |> set_rr_next_hop_be next_hop in
    if truth (nr_type best) then (action (nr_type best), out) else
    if negb (truth (nr_gateway best)) && negb (net_host dst (nr_prefix best))
    then (DROP_INVALID_DESTINATION, out) else
    let p := default zero_port_state (netif_by_id rt (u16 (nr_dev best))) in
    let source := if truth src then src else net_source rt (pt_id p) next_hop in
    let out := out |> set_rr_mtu (pt_mtu p) |> set_rr_source_ip_be source in
    ((if truth source then DROP_NONE else DROP_INVALID_EGRESS), out)
  end.

(** * Policy rules *)

Definition rule_matches (src dst iif : Z) (r : net_rule) : bool :=
  net_match src (ru_src r) (ru_src_prefix r) && net_match dst (ru_dst r) (ru_dst_prefix r) &&
  ((ru_iif r =? NET_IIF_NONE) || (ru_iif r =? iif)).

(** The loop over the rules; [None] when no rule decided. *)
Fixpoint rules_query (rt : app_runtime) (c : net_config) (dst src iif : Z) (rules : list net_rule) (out : route_result)
  : option drop_reason * route_result :=
  match rules with
  | [] => (None, out)
  | r :: rules' =>
    if negb (rule_matches src dst iif r) then rules_query rt c dst src iif rules' out else
    if truth (ru_type r) then
      (Some (action (ru_type r)), zero_route_result |> set_rr_rule_pref (ru_pref r) |> set_rr_type (ru_type r)) else
    let '(reason, out) := table_lookup rt c dst src (ru_table r) (ru_pref r) out in
    if decide (reason <> DROP_NO_ROUTE) then (Some reason, out) else rules_query rt c dst src iif rules' out
  end.

Definition ipv4_route_query_policy (rt : app_runtime) (c : net_config) (dst src iif : Z) (out : route_result)
  : drop_reason * route_result :=
  match find_index (fun a => na_ip a =? dst) (nc_addresses c) with
  | Some i =>
    let a := nth i (nc_addresses c) zero_net_address in
    (DROP_NONE, zero_route_result |> set_rr_table NET_TABLE_LOCAL |> set_rr_netif_id (u16 (na_dev a))
       |> set_rr_source_ip_be dst |> set_rr_next_hop_be dst
       |> set_rr_mtu (pt_mtu (nth (Z.to_nat (na_dev a)) (rt_ports rt) zero_port_state)) |> set_rr_local 1)
  | None =>
    if negb (ipv4_destination_valid rt dst) then (DROP_INVALID_DESTINATION, out) else
    match rules_query rt c dst src iif (nc_rules c) out with
    | (Some reason, out) => (reason, out)
    | (None, out) =>
      let '(reason, out) := table_lookup rt c dst src NET_TABLE_MAIN 32766 out in
      if decide (reason <> DROP_NO_ROUTE) then (reason, out) else
      table_lookup rt c dst src NET_TABLE_DEFAULT 32767 out
    end
  end.

(** * Entry points *)

Definition ipv4_route_query (rt : app_runtime) (dst src iif : Z) (out : route_result) : drop_reason * route_result :=
  match rt_network rt with
  | None => ipv4_route_lookup_static rt dst out
  | Some c => ipv4_route_query_policy rt c dst src iif out
  end.

Definition ipv4_route_lookup (rt : app_runtime) (dst_ip_be : Z) (result : route_result) : drop_reason * route_result :=
  match rt_network rt with
  | Some _ => ipv4_route_query rt dst_ip_be 0 NET_IIF_NONE result
  | None => ipv4_route_lookup_static rt dst_ip_be result
  end.

Definition ipv4_route_errno (reason : drop_reason) : Z :=
  match reason with
  | DROP_ROUTE_PROHIBIT => EACCES
  | DROP_ROUTE_BLACKHOLE => EINVAL
  | _ => ENETUNREACH
  end.

#[global] Arguments table_lookup : simpl never.
#[global] Arguments route_usable : simpl never.
#[global] Arguments rule_matches : simpl never.
#[global] Arguments ipv4_route_query : simpl never.
#[global] Arguments ipv4_route_lookup : simpl never.

(** * Specification *)

(** A route the lookup of [dst] in [table] may return. *)
Definition eligible (rt : app_runtime) (dst table : Z) (r : net_route) : bool :=
  (nr_table r =? table) && net_match dst (nr_ip r) (nr_prefix r) && route_usable rt r.

(** Route number [i] is the first of the longest eligible prefixes. *)
Definition best_of (rt : app_runtime) (routes : list net_route) (dst table : Z) (i : nat) (r : net_route) : Prop :=
  routes !! i = Some r /\ eligible rt dst table r = true /\
  forall j s, routes !! j = Some s -> eligible rt dst table s = true ->
    nr_prefix s < nr_prefix r \/ (nr_prefix s = nr_prefix r /\ (i <= j)%nat).

Definition best_spec (rt : app_runtime) (routes : list net_route) (dst table : Z) (o : option net_route) : Prop :=
  match o with
  | Some r => exists i, best_of rt routes dst table i r
  | None => forall r, r ∈ routes -> eligible rt dst table r = false
  end.

(** * Lemmas: both scans find the best route *)

Section scans.
Context (rt : app_runtime) (dst table : Z).

Lemma best_spec_unique routes o1 o2 :
  best_spec rt routes dst table o1 -> best_spec rt routes dst table o2 -> o1 = o2.
Proof.
  assert (Hno : forall i r, best_of rt routes dst table i r -> best_spec rt routes dst table None -> False).
  { intros i r (Hi & He & _) Hn. rewrite (Hn r) in He; [done|]. by eapply list_elem_of_lookup_2. }
  destruct o1 as [r1|], o2 as [r2|]; intros H1 H2; [|exfalso..|done].
  - destruct H1 as (i & Hi & Hei & Hmi), H2 as (j & Hj & Hej & Hmj).
    destruct (Hmi j r2 Hj Hej), (Hmj i r1 Hi Hei); try lia. assert (i = j) as -> by lia. congruence.
  - destruct H1 as [i H1]. eauto.
  - destruct H2 as [i H2]. eauto.
Qed.

Lemma scan_routes_snoc routes r :
  scan_routes rt (routes ++ [r]) dst table = scan_routes_step rt dst table (scan_routes rt routes dst table) r.
Proof. unfold scan_routes. by rewrite foldl_app. Qed.

Lemma scan_routes_step_eq best r : scan_routes_step rt dst table best r =
  if eligible rt dst table r && match best with Some b => nr_prefix b <? nr_prefix r | None => true end
  then Some r else best.
Proof.
  unfold scan_routes_step, eligible. destruct (nr_table r =? table), (net_match _ _ _), (route_usable rt r); try done;
    destruct best as [b|]; bsimpl; try done; rewrite ?orb_false_r;
    destruct (Z.leb_spec (nr_prefix r) (nr_prefix b)), (Z.ltb_spec (nr_prefix b) (nr_prefix r)); try done; lia.
Qed.

Lemma best_spec_snoc routes r o : best_spec rt routes dst table o ->
  best_spec rt (routes ++ [r]) dst table
    (if eligible rt dst table r && match o with Some b => nr_prefix b <? nr_prefix r | None => true end
     then Some r else o).
Proof.
  intros H. destruct (eligible rt dst table r) eqn:Er; bsimpl.
  - destruct o as [b|].
    + destruct H as (i & Hi & Hei & Hm). assert (Hlt := lookup_lt_Some _ _ _ Hi).
      destruct (nr_prefix b <? nr_prefix r) eqn:Ep; bool_hyps; simpl.
      * exists (length routes). split; [by rewrite list_lookup_middle|]. split; [done|].
        intros j s [Hj|[Hj Hs]]%lookup_app_Some Hes; [destruct (Hm j s Hj Hes); lia|].
        apply list_lookup_singleton_Some in Hs as [? <-]. lia.
      * exists i. split; [by apply lookup_app_l_Some|]. split; [done|].
        intros j s [Hj|[Hj Hs]]%lookup_app_Some Hes; [by apply Hm|].
        apply list_lookup_singleton_Some in Hs as [? <-]. lia.
    + simpl. exists (length routes). split; [by rewrite list_lookup_middle|]. split; [done|].
      intros j s [Hj|[Hj Hs]]%lookup_app_Some Hes.
      * rewrite (H s) in Hes; [done|]. by eapply list_elem_of_lookup_2.
      * apply list_lookup_singleton_Some in Hs as [? <-]. lia.
  - destruct o as [b|]; simpl in *.
    + destruct H as (i & Hi & Hei & Hm). exists i. split; [by apply lookup_app_l_Some|]. split; [done|].
      intros j s [Hj|[Hj Hs]]%lookup_app_Some Hes; [by apply Hm|].
      apply list_lookup_singleton_Some in Hs as [? <-]. congruence.
    + intros s [Hs|Hs]%elem_of_app; [by apply H|]. by apply list_elem_of_singleton in Hs as ->.
Qed.

Lemma scan_routes_best routes : best_spec rt routes dst table (scan_routes rt routes dst table).
Proof.
  induction routes as [|r routes IH] using rev_ind.
  - intros r Hr. by apply elem_of_nil in Hr.
  - rewrite scan_routes_snoc, scan_routes_step_eq. by apply best_spec_snoc.
Qed.

(** ** The binary search *)

Definition table_at (index : list net_route_index) (i : nat) : Z := ix_table (nth i index zero_net_route_index).

Lemma first_of_table_range rounds index begin end_ : (begin <= end_)%nat -> (end_ - begin <= rounds)%nat ->
  (forall i j, (i <= j < length index)%nat -> table_at index i <= table_at index j) ->
  (end_ <= length index)%nat ->
  (forall i, (i < begin)%nat -> table_at index i < table) ->
  (forall i, (end_ <= i < length index)%nat -> table <= table_at index i) ->
  let b := first_of_table rounds index table begin end_ in
  (b <= length index)%nat /\
  (forall i, (i < b)%nat -> table_at index i < table) /\
  (forall i, (b <= i < length index)%nat -> table <= table_at index i).
Proof.
  intros Hbe Hr Hmono. revert begin end_ Hbe Hr.
  induction rounds as [|rounds IH]; intros begin end_ Hbe Hr Hlen Hlo Hhi; cbn [first_of_table].
  - assert (begin = end_) as -> by lia. auto.
  - destruct (Nat.ltb_spec begin end_) as [Hlt|Hge].
    + assert (Hm : ((end_ - begin) / 2 < end_ - begin)%nat) by (apply Nat.div_lt; lia).
      fold (table_at index (begin + (end_ - begin) / 2)). set (mid := (begin + (end_ - begin) / 2)%nat) in *.
      destruct (Z.ltb_spec (table_at index mid) table) as [Ht|Ht].
      * apply IH; try lia; [|done]. intros i Hi.
        assert (table_at index i <= table_at index mid) by (apply Hmono; lia). lia.
      * apply IH; try lia; [done|]. intros i Hi.
        assert (table_at index mid <= table_at index i) by (apply Hmono; lia). lia.
    + assert (begin = end_) as -> by lia. auto.
Qed.

(** ** The indexed scan *)

Lemma scan_index_best routes : Forall (fun r => is_u8 (nr_prefix r)) routes ->
  forall before index, before ++ index = build_index routes ->
  (forall x, x ∈ before -> forall r, routes !! ix_route x = Some r -> eligible rt dst table r = false) ->
  (forall x, x ∈ index -> table <= ix_table x) ->
  best_spec rt routes dst table (scan_index rt routes index dst table).
Proof.
  intros Hp before index. revert before. induction index as [|x index IH]; intros before Heq Hb Ht.
  - simpl. intros r [i Hi]%list_elem_of_lookup. apply (Hb (index_entry i r)); [|done].
    rewrite app_nil_r in Heq. subst before. apply build_index_elem. eauto.
  - assert (Hx : x ∈ build_index routes) by (rewrite <- Heq; set_solver).
    apply build_index_elem in Hx as (i & r & Hi & ->). cbn [scan_index].
    change (ix_table (index_entry i r)) with (nr_table r). change (ix_route (index_entry i r)) with i.
    change (Z.land dst (ix_mask (index_entry i r)) =? ix_ip (index_entry i r)) with (net_match dst (nr_ip r) (nr_prefix r)).
    assert (Hs := build_index_sorted routes). rewrite <- Heq in Hs.
    apply StronglySorted_app_1_r, StronglySorted_inv in Hs as [_ Hs]. rewrite Forall_forall in Hs.
    assert (Hlater : forall j s, routes !! j = Some s -> eligible rt dst table s = true ->
      index_entry j s ∈ index_entry i r :: index).
    { intros j s Hj Hes. assert (Hin : index_entry j s ∈ build_index routes) by (apply build_index_elem; eauto).
      rewrite <- Heq in Hin. apply elem_of_app in Hin as [Hin|Hin]; [|done].
      rewrite (Hb _ Hin s Hj) in Hes. done. }
    assert (Hskip : eligible rt dst table r = false -> best_spec rt routes dst table (scan_index rt routes index dst table)).
    { intros He. apply (IH (before ++ [index_entry i r])).
      - by rewrite <- app_assoc.
      - intros y [Hy|Hy]%elem_of_app s Hs'; [by eapply Hb|]. apply list_elem_of_singleton in Hy as ->.
        simpl in Hs'. congruence.
      - intros y Hy. apply Ht. by apply list_elem_of_further. }
    assert (Helig := eq_refl (eligible rt dst table r)). unfold eligible at 2 in Helig.
    destruct (Z.eqb_spec (nr_table r) table) as [Etab|Etab]; bsimpl; bsimpl in Helig.
    2:{ intros s [j Hj]%list_elem_of_lookup. destruct (eligible rt dst table s) eqn:Ees; [exfalso|done].
        assert (Hst : nr_table s = table) by (unfold eligible in Ees; bool_hyps; done).
        assert (Hrt : table <= nr_table r) by (apply (Ht (index_entry i r)), list_elem_of_here).
        specialize (Hlater j s Hj Ees) as [Hin|Hin]%elem_of_cons.
        - injection Hin as H1 _ _ _ _. congruence.
        - apply Hs, route_before_spec in Hin. simpl in Hin. lia. }
    destruct (net_match dst _ _) eqn:Em; bsimpl; bsimpl in Helig; [|by apply Hskip].
    rewrite Hi. destruct (route_usable rt r) eqn:Eu; [|by apply Hskip].
    exists i. split; [done|]. split; [done|]. intros j s Hj Hes.
    assert (Hst : nr_table s = table) by (unfold eligible in Hes; bool_hyps; done).
    rewrite Forall_lookup in Hp. assert (Hpi := Hp _ _ Hi). assert (Hpj := Hp _ _ Hj).
    specialize (Hlater j s Hj Hes) as [Hin|Hin]%elem_of_cons.
    + injection Hin as _ _ _ -> _. rewrite Hi in Hj. injection Hj as <-. lia.
    + apply Hs, route_before_spec in Hin. simpl in Hin. rewrite !u8_id in Hin by done. lia.
Qed.
End scans.

(** * Lemmas: the index does not change the answer *)

Lemma StronglySorted_tables index i j :
  StronglySorted route_before index -> (i <= j < length index)%nat -> table_at index i <= table_at index j.
Proof.
  intros Hs [Hij Hj]. destruct (decide (i = j)) as [->|Hne]; [lia|].
  destruct (lookup_lt_is_Some_2 index i ltac:(lia)) as [x Hx].
  destruct (lookup_lt_is_Some_2 index j Hj) as [y Hy]. unfold table_at.
  rewrite (nth_lookup_Some _ _ _ _ Hx), (nth_lookup_Some _ _ _ _ Hy).
  assert (Hb : route_before x y).
  { rewrite <- (take_drop j index) in Hs. eapply StronglySorted_app_1_elem_of; [exact Hs|..].
    - apply list_elem_of_lookup. exists i. by rewrite lookup_take_lt by lia.
    - apply list_elem_of_lookup. exists O. by rewrite lookup_drop, Nat.add_0_r. }
  apply route_before_spec in Hb. lia.
Qed.

Lemma table_best_indexed rt c dst table :
  nc_route_index c = build_index (nc_routes c) -> Forall (fun r => is_u8 (nr_prefix r)) (nc_routes c) ->
  best_spec rt (nc_routes c) dst table (table_best rt c dst table).
Proof.
  intros Hix Hp. unfold table_best. destruct (nc_routes_indexed c); [|apply scan_routes_best].
  assert (Hlen := length_build_index (nc_routes c)). rewrite Hix.
  assert (Hs := build_index_sorted (nc_routes c)).
  assert (Hb := first_of_table_range table (length (nc_routes c)) (build_index (nc_routes c)) 0 (length (nc_routes c))
    ltac:(lia) ltac:(lia) (fun i j => StronglySorted_tables _ i j Hs) ltac:(lia)
    ltac:(intros; lia) ltac:(intros; lia)).
  cbv zeta in *. set (b := first_of_table _ _ _ _ _) in *. destruct Hb as (Hb & Hlo & Hhi).
  rewrite <- Hlen, firstn_all. apply (scan_index_best rt dst table (nc_routes c) Hp (take b (build_index (nc_routes c)))).
  - apply take_drop.
  - intros x [i Hi]%list_elem_of_lookup r Hr. apply lookup_take_Some in Hi as [Hi Hlt].
    assert (Hx : x ∈ build_index (nc_routes c)) by (by eapply list_elem_of_lookup_2).
    apply build_index_elem in Hx as (k & r' & Hk & ->). simpl in Hr. rewrite Hk in Hr. injection Hr as <-.
    specialize (Hlo i Hlt). unfold table_at in Hlo. rewrite (nth_lookup_Some _ _ _ _ Hi) in Hlo. simpl in Hlo.
    unfold eligible. destruct (Z.eqb_spec (nr_table r') table); [lia|done].
  - intros x [i Hi]%list_elem_of_lookup. rewrite lookup_drop in Hi.
    assert (Hlt := lookup_lt_Some _ _ _ Hi). specialize (Hhi (b + i)%nat ltac:(lia)).
    unfold table_at in Hhi. by rewrite (nth_lookup_Some _ _ _ _ Hi) in Hhi.
Qed.

(** A configuration whose index, if any, is the one [net_config_prepare] builds. *)
Definition index_ok (c : net_config) : Prop :=
  (nc_routes_indexed c = true -> nc_route_index c = build_index (nc_routes c)) /\
  Forall (fun r => is_u8 (nr_prefix r)) (nc_routes c).

Lemma table_best_best rt c dst table : index_ok c -> best_spec rt (nc_routes c) dst table (table_best rt c dst table).
Proof.
  intros [Hix Hp]. destruct (nc_routes_indexed c) eqn:E; [apply table_best_indexed; auto|].
  unfold table_best. rewrite E. apply scan_routes_best.
Qed.

Lemma table_best_linear rt c dst table : index_ok c ->
  table_best rt c dst table = scan_routes rt (nc_routes c) dst table.
Proof. intros. eapply best_spec_unique; [by apply table_best_best|apply scan_routes_best]. Qed.

(** The answer depends on the runtime only through its ports and the published
    addresses, routes and rules. *)
Definition unindexed (c : net_config) : net_config := c |> set_nc_routes_indexed false |> set_nc_route_index [].
Definition publish (c : net_config) (rt : app_runtime) : app_runtime := set_rt_network (Some c) rt.

Lemma route_usable_publish rt c r : route_usable (publish c rt) r = route_usable rt r.
Proof. done. Qed.

Lemma scan_routes_publish rt c routes dst table :
  scan_routes (publish c rt) routes dst table = scan_routes rt routes dst table.
Proof. done. Qed.

Lemma table_lookup_unindexed rt c dst src table pref out : index_ok c ->
  table_lookup (publish c rt) c dst src table pref out =
  table_lookup (publish (unindexed c) rt) (unindexed c) dst src table pref out.
Proof.
  intros Hok. unfold table_lookup. rewrite (table_best_linear _ c) by done.
  rewrite (table_best_linear _ (unindexed c)) by (split; [done|apply Hok]).
  change (nc_routes (unindexed c)) with (nc_routes c). rewrite !scan_routes_publish. done.
Qed.

Lemma rules_query_unindexed rt c dst src iif rules out : index_ok c ->
  rules_query (publish c rt) c dst src iif rules out =
  rules_query (publish (unindexed c) rt) (unindexed c) dst src iif rules out.
Proof.
  intros Hok. revert out. induction rules as [|r rules IH]; intros out; cbn [rules_query]; [done|].
  rewrite IH. destruct (negb _); [done|]. destruct (truth _); [done|].
  rewrite table_lookup_unindexed by done. destruct (table_lookup (publish (unindexed c) rt) _ _ _ _ _ _) as [reason o].
  destruct (decide _); [done|]. apply IH.
Qed.

Lemma ipv4_route_query_unindexed rt c dst src iif out : index_ok c ->
  ipv4_route_query (publish c rt) dst src iif out = ipv4_route_query (publish (unindexed c) rt) dst src iif out.
Proof.
  intros Hok. unfold ipv4_route_query. cbn [rt_network publish set_rt_network].
  unfold ipv4_route_query_policy. change (nc_addresses (unindexed c)) with (nc_addresses c).
  change (nc_rules (unindexed c)) with (nc_rules c).
  change (ipv4_destination_valid (publish c rt) dst) with (ipv4_destination_valid (publish (unindexed c) rt) dst).
  rewrite rules_query_unindexed by done. destruct (find_index _ _); [done|]. destruct (negb _); [done|].
  destruct (rules_query _ _ _ _ _ _ _) as [[reason|] o]; [done|].
  rewrite !table_lookup_unindexed by done.
  destruct (table_lookup (publish (unindexed c) rt) _ _ _ NET_TABLE_MAIN _ _) as [reason o'].
  destruct (decide _); [done|]. by rewrite table_lookup_unindexed.
Qed.

(** A prepared configuration is well indexed. *)
Lemma validate_prefix_u8 c ports : net_typed c -> net_config_validate c ports = 0 ->
  Forall (fun r => is_u8 (nr_prefix r)) (nc_routes c).
Proof.
  intros Ht Hv%net_config_validate_iff; [|done]. assert (Hr := cv_routes _ _ Hv). destruct Ht as (_ & Ht & _).
  rewrite Forall_forall in Hr, Ht |- *. intros r Hin. destruct (Hr r Hin) as ((Hle & _) & _), (Ht r Hin) as (_ & Hp & _).
  unfold is_u32 in Hp. unfold is_u8. lia.
Qed.

Lemma prepare_typed c ports c' : net_typed c -> net_config_prepare c ports = (0, c') -> net_typed c'.
Proof.
  intros Ht. unfold net_config_prepare. destruct (truth _) eqn:E; [intros [= H _]; by apply truth_true in E|].
  destruct (_ <=? 2); by intros [= <-].
Qed.

Lemma prepare_index_ok c ports c' : net_typed c -> net_config_prepare c ports = (0, c') -> index_ok c'.
Proof.
  intros Ht H. assert (Ht' := prepare_typed _ _ _ Ht H).
  destruct (net_config_prepare_ok _ _ _ H) as (Hv & _ & _ & _ & Hix). split; [done|]. by eapply validate_prefix_u8.
Qed.

(** * Lemmas: policy evaluation *)

(** The decisions a packet meets, in order: the matching rules, then the main
    and default tables. *)
Inductive decision : Type :=
| Reject (pref type : Z)
| Consult (table pref : Z).

Definition decision_of_rule (r : net_rule) : decision :=
  if truth (ru_type r) then Reject (ru_pref r) (ru_type r) else Consult (ru_table r) (ru_pref r).

Definition decisions (c : net_config) (dst src iif : Z) : list decision :=
  (decision_of_rule <$> List.filter (rule_matches src dst iif) (nc_rules c)) ++
  [Consult NET_TABLE_MAIN 32766; Consult NET_TABLE_DEFAULT 32767].

Definition decide_step (rt : app_runtime) (c : net_config) (dst src : Z) (out : route_result) (d : decision)
  : drop_reason * route_result :=
  match d with
  | Reject pref type => (action type, zero_route_result |> set_rr_rule_pref pref |> set_rr_type type)
  | Consult table pref => table_lookup rt c dst src table pref out
  end.

(** The first decision that does not end in [DROP_NO_ROUTE]. *)
Fixpoint first_decisive (rt : app_runtime) (c : net_config) (dst src : Z) (out : route_result) (ds : list decision)
  : drop_reason * route_result :=
  match ds with
  | [] => (DROP_NO_ROUTE, out)
  | d :: ds' =>
    let '(reason, o) := decide_step rt c dst src out d in
    if decide (reason = DROP_NO_ROUTE) then first_decisive rt c dst src out ds' else (reason, o)
  end.

Lemma action_decisive type : action type <> DROP_NO_ROUTE.
Proof. unfold action. repeat destruct (_ =? _); done. Qed.

Lemma table_lookup_no_route rt c dst src table pref out o :
  table_lookup rt c dst src table pref out = (DROP_NO_ROUTE, o) -> o = out.
Proof.
  unfold table_lookup. destruct (table_best _ _ _ _) as [b|]; [|by intros [= <-]]. cbv zeta.
  destruct (truth (nr_type b)); [intros [= H _]; by apply action_decisive in H|].
  destruct (negb _ && _); [done|]. by destruct (truth _).
Qed.

Lemma rules_query_decisive rt c dst src iif rules out rest :
  first_decisive rt c dst src out ((decision_of_rule <$> List.filter (rule_matches src dst iif) rules) ++ rest) =
  match rules_query rt c dst src iif rules out with
  | (Some reason, o) => (reason, o)
  | (None, o) => first_decisive rt c dst src out rest
  end /\
  (forall o, rules_query rt c dst src iif rules out = (None, o) -> o = out).
Proof.
  induction rules as [|r rules IH]; cbn [rules_query List.filter]; [split; [done|by intros o [= <-]]|].
  destruct (rule_matches src dst iif r); bsimpl; [|done].
  rewrite fmap_cons. cbn [app first_decisive]. unfold decision_of_rule at 1, decide_step.
  destruct (truth (ru_type r)).
  - destruct (decide (action _ = _)) as [H|]; [by apply action_decisive in H|done].
  - destruct (table_lookup _ _ _ _ _ _ _) as [reason o] eqn:E.
    destruct (decide (reason = DROP_NO_ROUTE)) as [->|Hne].
    + apply table_lookup_no_route in E as ->. by rewrite decide_False by naive_solver.
    + by rewrite decide_True by done.
Qed.

Lemma ipv4_route_query_decisions rt c dst src iif out :
  rt_network rt = Some c -> dst ∉ (na_ip <$> nc_addresses c) -> ipv4_destination_valid rt dst = true ->
  ipv4_route_query rt dst src iif out = first_decisive rt c dst src out (decisions c dst src iif).
Proof.
  intros Hn Hl Hv. unfold ipv4_route_query, ipv4_route_query_policy. rewrite Hn, Hv.
  destruct (find_index _ _) as [i|] eqn:Ef.
  { apply find_index_Some in Ef as [(a & Ha & He) _]. bool_hyps. exfalso. apply Hl. subst dst.
    apply list_elem_of_fmap_2. by eapply list_elem_of_lookup_2. }
  unfold decisions. destruct (rules_query_decisive rt c dst src iif (nc_rules c) out
    [Consult NET_TABLE_MAIN 32766; Consult NET_TABLE_DEFAULT 32767]) as [-> Ho]. bsimpl.
  destruct (rules_query _ _ _ _ _ _ _) as [[reason|] o]; [done|]. rewrite (Ho o eq_refl).
  cbn [first_decisive]. unfold decide_step.
  destruct (table_lookup rt c dst src NET_TABLE_MAIN _ _) as [r1 o1] eqn:E1.
  destruct (decide (r1 = DROP_NO_ROUTE)) as [->|Hne].
  - apply table_lookup_no_route in E1 as ->. rewrite decide_False by naive_solver.
    destruct (table_lookup rt c dst src NET_TABLE_DEFAULT _ _) as [r2 o2] eqn:E2.
    destruct (decide (r2 = _)) as [->|]; [by apply table_lookup_no_route in E2 as ->|done].
  - by rewrite decide_True by done.
Qed.

(** ** Successful answers *)

(** An answer the transmit path can use: an interface that is up, its MTU, a
    source address and a next hop that is the destination or a gateway. *)
Definition usable_answer (rt : app_runtime) (c : net_config) (dst : Z) (o : route_result) : Prop :=
  rr_local o = 0 /\ rr_source_ip_be o <> 0 /\
  (exists p, netif_by_id rt (rr_netif_id o) = Some p /\ port_up p = true /\ rr_mtu o = pt_mtu p) /\
  (exists r, r ∈ nc_routes c /\ nr_table r = rr_table o /\ nr_type r = NET_UNICAST /\
     net_match dst (nr_ip r) (nr_prefix r) = true /\ rr_netif_id o = u16 (nr_dev r) /\
     (nr_gateway r = 0 /\ rr_next_hop_be o = dst \/ nr_gateway r <> 0 /\ rr_next_hop_be o = nr_gateway r)).

Lemma action_none type : 0 <= type <= NET_PROHIBIT -> action type = DROP_NONE -> type = 0.
Proof.
  unfold action, NET_BLACKHOLE, NET_UNREACHABLE, NET_PROHIBIT. intros Ht.
  destruct (Z.eqb_spec type 1), (Z.eqb_spec type 2), (Z.eqb_spec type 3); try done. lia.
Qed.

Lemma best_spec_eligible rt routes dst table r : best_spec rt routes dst table (Some r) ->
  r ∈ routes /\ nr_table r = table /\ net_match dst (nr_ip r) (nr_prefix r) = true /\ route_usable rt r = true.
Proof.
  intros (i & Hi & He & _). unfold eligible in He. bool_hyps. split; [by eapply list_elem_of_lookup_2|done].
Qed.

Lemma table_lookup_usable rt c dst src table pref out o :
  index_ok c -> Forall (fun r => 0 <= nr_type r <= NET_PROHIBIT) (nc_routes c) ->
  table_lookup rt c dst src table pref out = (DROP_NONE, o) -> usable_answer rt c dst o.
Proof.
  intros Hok Hty. unfold table_lookup. assert (Hb := table_best_best rt c dst table Hok).
  destruct (table_best _ _ _ _) as [b|]; [|done]. apply best_spec_eligible in Hb as (Hin & Htab & Hm & Hu).
  rewrite Forall_forall in Hty. cbv zeta. destruct (truth (nr_type b)) eqn:Et.
  { intros [= H _]. apply action_none in H; [|auto]. apply truth_true in Et. done. }
  apply truth_false in Et. destruct (negb _ && _); [done|].
  unfold route_usable in Hu. rewrite Et in Hu. change (truth 0) with false in Hu. bsimpl in Hu.
  destruct (netif_by_id rt (u16 (nr_dev b))) as [p|] eqn:Ep; [|done]. simpl default.
  destruct (truth (if truth src then src else _)) eqn:Es; [|done]. intros [= <-].
  apply truth_true in Es. unfold usable_answer. cbn.
  split; [done|]. split; [done|]. split; [eauto|]. exists b. split; [done|]. split; [done|].
  split; [done|]. split; [done|]. split; [done|].
  destruct (truth (nr_gateway b)) eqn:Eg; [apply truth_true in Eg|apply truth_false in Eg]; auto.
Qed.

Lemma first_decisive_usable rt c dst src out ds o :
  index_ok c -> Forall (fun r => 0 <= nr_type r <= NET_PROHIBIT) (nc_routes c) ->
  Forall (fun d => match d with Reject _ type => 0 < type <= NET_PROHIBIT | _ => True end) ds ->
  first_decisive rt c dst src out ds = (DROP_NONE, o) -> usable_answer rt c dst o.
Proof.
  intros Hok Hty Hds. induction Hds as [|d ds Hd Hds IH]; [done|]. cbn [first_decisive].
  destruct (decide_step rt c dst src out d) as [reason o1] eqn:Ed. destruct (decide _); [done|].
  intros [= -> ->]. destruct d as [pref type|table pref]; simpl in Ed.
  - injection Ed as Ha _. apply action_none in Ha; lia.
  - by eapply table_lookup_usable.
Qed.

Lemma decisions_types c ports dst src iif : net_typed c -> config_valid c ports ->
  Forall (fun d => match d with Reject _ type => 0 < type <= NET_PROHIBIT | _ => True end) (decisions c dst src iif) /\
  Forall (fun r => 0 <= nr_type r <= NET_PROHIBIT) (nc_routes c).
Proof.
  intros (_ & Hr & Hu & _) Hv. assert (Hvr := cv_routes _ _ Hv). destruct (cv_rules _ _ Hv) as [Hvu _].
  rewrite Forall_forall in Hr, Hvr. rewrite Forall_forall in Hu, Hvu. split.
  - apply Forall_app. split; [|by repeat constructor]. apply Forall_fmap, Forall_forall. intros r Hin.
    apply list_elem_of_In, filter_In in Hin as [Hin _]. apply list_elem_of_In in Hin.
    unfold compose, decision_of_rule. destruct (truth (ru_type r)) eqn:E; [|done]. apply truth_true in E.
    destruct (Hu r Hin) as (_ & _ & _ & _ & _ & _ & _ & Ht), (Hvu r Hin) as (_ & _ & _ & _ & Hle & _).
    unfold is_u32 in Ht. lia.
  - apply Forall_forall. intros r Hin. destruct (Hr r Hin) as (_ & _ & _ & _ & _ & Ht & _), (Hvr r Hin) as (_ & _ & _ & Hle & _).
    unfold is_u32 in Ht. lia.
Qed.

(** * Properties *)

(** C7: the sorted index and its binary search are an optimisation only: on a
    prepared configuration every query gives the same answer as the linear scan
    over the unsorted routes. *)
Theorem route_query_index_transparent c ports c' rt dst src iif out :
  net_typed c -> net_config_prepare c ports = (0, c') ->
  ipv4_route_query (publish c' rt) dst src iif out = ipv4_route_query (publish (unindexed c') rt) dst src iif out.
Proof. intros Ht H. by eapply ipv4_route_query_unindexed, prepare_index_ok. Qed.

(** C27: in a prepared configuration a table lookup picks the first of the
    longest prefixes covering the destination among the routes of the table whose
    interface is up (or that reject), and fails only when there is none. *)
Theorem table_best_longest_usable c ports c' rt dst table :
  net_typed c -> net_config_prepare c ports = (0, c') -> is_u32 dst ->
  let usable r := nr_table r = table /\ in_network dst (nr_ip r) (nr_prefix r) /\ route_usable rt r = true in
  match table_best rt c' dst table with
  | Some r => exists i, nc_routes c' !! i = Some r /\ usable r /\
      forall j s, nc_routes c' !! j = Some s -> usable s ->
        nr_prefix s < nr_prefix r \/ (nr_prefix s = nr_prefix r /\ (i <= j)%nat)
  | None => forall r, r ∈ nc_routes c' -> ~ usable r
  end.
Proof.
  intros Ht H Hd usable. assert (Ht' := prepare_typed _ _ _ Ht H). assert (Hok := prepare_index_ok _ _ _ Ht H).
  destruct (net_config_prepare_ok _ _ _ H) as (Hv & _). apply net_config_validate_iff in Hv; [|done].
  assert (He : forall r, r ∈ nc_routes c' -> eligible rt dst table r = true <-> usable r).
  { intros r Hr. assert (Hvr := cv_routes _ _ Hv). destruct Ht' as (_ & Htr & _).
    rewrite Forall_forall in Hvr, Htr. destruct (Hvr r Hr) as (Hp & _), (Htr r Hr) as (Hi & Hq & _).
    unfold eligible, usable, in_network. rewrite !andb_true_iff, Z.eqb_eq.
    rewrite net_match_spec by first [done | by apply prefix_valid_ok | unfold is_u32 in Hq; lia]. tauto. }
  assert (Hb := table_best_best rt c' dst table Hok). destruct (table_best _ _ _ _) as [r|].
  - destruct Hb as (i & Hi & Hel & Hm). exists i. split; [done|].
    split; [apply He; [by eapply list_elem_of_lookup_2|done]|].
    intros j s Hj Hs. apply Hm; [done|]. apply He; [by eapply list_elem_of_lookup_2|done].
  - intros r Hr Hu. apply He in Hu; [|done]. rewrite (Hb r Hr) in Hu. done.
Qed.

(** C28: a packet for another host meets the matching policy rules in
    preference order, then the main and the default table; the first decision
    that is not "no route" is the answer. *)
Theorem route_query_rule_order rt c dst src iif out :
  rt_network rt = Some c -> dst ∉ (na_ip <$> nc_addresses c) -> ipv4_destination_valid rt dst = true ->
  ipv4_route_query rt dst src iif out = first_decisive rt c dst src out (decisions c dst src iif).
Proof. apply ipv4_route_query_decisions. Qed.

(** When [ipv4_route_query] succeeds on a prepared configuration, the
    destination is one of the own addresses, or the answer names an interface
    that is up with its MTU, a nonzero source address and a next hop taken from
    a matching unicast route. *)
Theorem route_query_answer_usable c ports c' rt dst src iif out o :
  net_typed c -> net_config_prepare c ports = (0, c') ->
  ipv4_route_query (publish c' rt) dst src iif out = (DROP_NONE, o) ->
  (dst ∈ (na_ip <$> nc_addresses c') /\ rr_local o = 1 /\ rr_next_hop_be o = dst) \/
  usable_answer (publish c' rt) c' dst o.
Proof.
  intros Ht H Hq. assert (Ht' := prepare_typed _ _ _ Ht H). assert (Hok := prepare_index_ok _ _ _ Ht H).
  destruct (net_config_prepare_ok _ _ _ H) as (Hv & _). apply net_config_validate_iff in Hv; [|done].
  destruct (decide (dst ∈ na_ip <$> nc_addresses c')) as [Hin|Hno].
  - left. split; [done|]. unfold ipv4_route_query, ipv4_route_query_policy in Hq. simpl rt_network in Hq. cbn iota in Hq.
    destruct (find_index _ _) as [i|] eqn:Ef; [by injection Hq as <-|].
    apply list_elem_of_fmap in Hin as (a & -> & [i Ha]%list_elem_of_lookup). rewrite find_index_None in Ef.
    specialize (Ef i a Ha). by rewrite Z.eqb_refl in Ef.
  - right. destruct (ipv4_destination_valid (publish c' rt) dst) eqn:Ed.
    + rewrite (ipv4_route_query_decisions _ c') in Hq by done.
      destruct (decisions_types c' ports dst src iif Ht' Hv). by eapply first_decisive_usable.
    + unfold ipv4_route_query, ipv4_route_query_policy in Hq. simpl rt_network in Hq. cbn iota in Hq. rewrite Ed in Hq.
      destruct (find_index _ _) as [i|] eqn:Ef; [|done]. apply find_index_Some in Ef as [(a & Ha & He) _].
      bool_hyps. exfalso. apply Hno. subst dst. apply list_elem_of_fmap_2. by eapply list_elem_of_lookup_2.
Qed.

(** * Witnesses *)

(** The published sample plus a rule that sends 10.0.0.0/24 to table 100 and a
    blackhole there. *)
Definition sample_policy : net_config :=
  sample_net
  |> set_nc_rules [zero_net_rule |> set_ru_pref 100 |> set_ru_src (htonl 167772160) |> set_ru_src_prefix 24
                   |> set_ru_iif NET_IIF_NONE |> set_ru_table 100]
  |> set_nc_routes (nc_routes sample_net ++
       [zero_net_route |> set_nr_ip (htonl 3232235520) |> set_nr_prefix 16 |> set_nr_table 100 |> set_nr_type NET_BLACKHOLE]).

Definition sample_policy_prepared : net_config := (net_config_prepare sample_policy 2).2.
Definition sample_policy_runtime : app_runtime := publish sample_policy_prepared sample_runtime.

Lemma sample_policy_indexed : nc_routes_indexed sample_policy_prepared = true.
Proof. reflexivity. Qed.

Lemma route_query_index_transparent_witness :
  ipv4_route_query (publish sample_policy_prepared sample_runtime) (htonl 134744072) 0 NET_IIF_NONE zero_route_result =
  ipv4_route_query (publish (unindexed sample_policy_prepared) sample_runtime) (htonl 134744072) 0 NET_IIF_NONE zero_route_result.
Proof.
  apply (route_query_index_transparent sample_policy 2); [compute_closed|vm_compute; reflexivity].
Defined.

Lemma table_best_longest_usable_witness :
  match table_best sample_runtime sample_policy_prepared (htonl 134744072) NET_TABLE_MAIN with
  | Some r => exists i, nc_routes sample_policy_prepared !! i = Some r
  | None => False
  end.
Proof.
  assert (H := table_best_longest_usable sample_policy 2 sample_policy_prepared sample_runtime (htonl 134744072)
    NET_TABLE_MAIN ltac:(compute_closed) ltac:(vm_compute; reflexivity) ltac:(compute_closed)).
  cbv zeta in H. destruct (table_best _ _ _ _) as [r|] eqn:E; [|vm_compute in E; discriminate].
  destruct H as (i & Hi & _). exists i. exact Hi.
Defined.

Lemma route_query_rule_order_witness :
  ipv4_route_query sample_policy_runtime (htonl 3232235777) (htonl 167772162) 0 zero_route_result =
  first_decisive sample_policy_runtime sample_policy_prepared (htonl 3232235777) (htonl 167772162) zero_route_result
    (decisions sample_policy_prepared (htonl 3232235777) (htonl 167772162) 0) /\
  (ipv4_route_query sample_policy_runtime (htonl 3232235777) (htonl 167772162) 0 zero_route_result).1 = DROP_ROUTE_BLACKHOLE.
Proof.
  split; [|vm_compute; reflexivity]. apply route_query_rule_order; [reflexivity|compute_closed|vm_compute; reflexivity].
Defined.

Lemma route_query_answer_usable_witness :
  let o := (ipv4_route_query sample_policy_runtime (htonl 134744072) 0 NET_IIF_NONE zero_route_result).2 in
  (htonl 134744072 ∈ (na_ip <$> nc_addresses sample_policy_prepared) /\ rr_local o = 1 /\ rr_next_hop_be o = htonl 134744072) \/
  usable_answer sample_policy_runtime sample_policy_prepared (htonl 134744072) o.
Proof.
  intros o. apply (route_query_answer_usable sample_policy 2 sample_policy_prepared sample_runtime (htonl 134744072) 0
    NET_IIF_NONE zero_route_result); [compute_closed|vm_compute; reflexivity|vm_compute; reflexivity].
Defined.
