(* ===== verification/Neighbour.v ===== *)
(** The neighbour table of [src/neighbour.c]: an open-addressing hash table
    with linear probing and deletion by closing the probe chain, and the event
    ring of [src/network_events.c].  The table is proved to implement a finite
    map from (interface, address) to (MAC address, permanence). *)
From S2P Require Import Prelude.
From S2P Require Import Dpdk.
From S2P Require Import Types.

(** * Operations on the table *)

Definition hash (x : Z) : Z :=
  let x := Z.lxor x (Z.shiftr x 16) in
  let x := u32 (x * 2146121005) in
  let x := Z.lxor x (Z.shiftr x 15) in
  let x := u32 (x * 2221713035) in
  Z.lxor x (Z.shiftr x 16).

(** [hash(ip ^ dev) % NEIGHBOUR_CAPACITY]. *)
Definition home_slot (dev ip : Z) : Z := hash (Z.lxor ip dev) mod NEIGHBOUR_CAPACITY.

(** [&table->entries[i]] *)
Definition slot (t : neighbour_table) (i : Z) : neighbour_entry := nth (Z.to_nat i) t zero_neighbour_entry.
Definition set_slot (t : neighbour_table) (i : Z) (e : neighbour_entry) : neighbour_table := <[Z.to_nat i := e]> t.

(** The slots in probe order: [(start + i) % NEIGHBOUR_CAPACITY]. *)
Definition probe (start : Z) : list Z :=
  (fun n => (start + Z.of_nat n) mod NEIGHBOUR_CAPACITY) <$> seq 0 (Z.to_nat NEIGHBOUR_CAPACITY).

Definition holds (e : neighbour_entry) (dev ip : Z) : bool := (ne_ip_be e =? ip) && (ne_netif_id e =? dev).

Definition find_slot (t : neighbour_table) (dev ip : Z) : option Z :=
  List.find (fun i => negb (ne_in_use (slot t i)) || holds (slot t i) dev ip) (probe (home_slot dev ip)).

Section learn.
Context `{!Dpdk}.

Definition neighbour_learn (t : neighbour_table) (netif_id ip_be : Z) (mac : ether_addr) : Z * neighbour_table :=
  if negb (truth ip_be) || negb (rte_is_valid_assigned_ether_addr mac) then (- EINVAL, t) else
  match find_slot t netif_id ip_be with
  | None => (- ENOSPC, t)
  | Some i =>
    let entry := slot t i in
    if negb (ne_in_use entry) then
      (0, set_slot t i {| ne_ip_be := ip_be; ne_netif_id := netif_id; ne_mac := mac; ne_in_use := true;
                          ne_permanent := false |})
    else if negb (ne_permanent entry) then (0, set_slot t i (set_ne_mac mac entry)) else (0, t)
  end.
End learn.

Fixpoint lookup_probe (t : neighbour_table) (netif_id ip_be : Z) (slots : list Z) : option ether_addr :=
  match slots with
  | [] => None
  | i :: slots' =>
    let entry := slot t i in
    if negb (ne_in_use entry) then None else
    if holds entry netif_id ip_be then Some (ne_mac entry) else lookup_probe t netif_id ip_be slots'
  end.

(** [Some mac] for return code 0, [None] for [-ENOENT]. *)
Definition neighbour_lookup (t : neighbour_table) (netif_id ip_be : Z) : option ether_addr :=
  lookup_probe t netif_id ip_be (probe (home_slot netif_id ip_be)).

(** The store of [neighbour_set] into the slot it found. *)
Definition neighbour_store (t : neighbour_table) (dev ip : Z) (mac : ether_addr) (replace : bool) : Z * neighbour_table :=
  match find_slot t dev ip with
  | None => (- ENOSPC, t)
  | Some i =>
    if ne_in_use (slot t i) && negb replace then (- EEXIST, t) else
    (0, set_slot t i {| ne_ip_be := ip; ne_netif_id := dev; ne_mac := mac; ne_in_use := true; ne_permanent := true |})
  end.

(** The loop of [neighbour_delete] that closes the probe-chain gap; [n] rounds
    remain and [i] is the next slot to look at. *)
Fixpoint close_gap (n : nat) (t : neighbour_table) (hole i : Z) : neighbour_table * Z :=
  match n with
  | O => (t, hole)
  | S n' =>
    let next := slot t i in
    if negb (ne_in_use next) then (t, hole) else
    let home := home_slot (ne_netif_id next) (ne_ip_be next) in
    let i' := (i + 1) mod NEIGHBOUR_CAPACITY in
    if (i - hole + NEIGHBOUR_CAPACITY) mod NEIGHBOUR_CAPACITY <=? (i - home + NEIGHBOUR_CAPACITY) mod NEIGHBOUR_CAPACITY
    then close_gap n' (set_slot t hole next) i i'
    else close_gap n' t hole i'
  end.

(** The table part of [neighbour_delete]. *)
Definition neighbour_remove (t : neighbour_table) (dev ip : Z) : Z * neighbour_table :=
  match find_slot t dev ip with
  | None => (- ENOENT, t)
  | Some e =>
    if negb (ne_in_use (slot t e)) then (- ENOENT, t) else
    let '(t, hole) := close_gap (Z.to_nat NEIGHBOUR_CAPACITY - 1) t e ((e + 1) mod NEIGHBOUR_CAPACITY) in
    (0, set_slot t hole zero_neighbour_entry)
  end.

(** * The event ring *)

Definition admin_event_emit (rt : app_runtime) (group id act : Z) : app_runtime :=
  match rt_network rt with
  | None => rt
  | Some c =>
    let seq := u64 (es_sequence (rt_events rt) + 1) in
    let e := zero_admin_event |> set_ev_sequence seq |> set_ev_generation (nc_generation c) |> set_ev_group group
      |> set_ev_id id |> set_ev_action act |> set_ev_dev NET_IIF_NONE in
    set_rt_events (rt_events rt |> set_es_sequence seq
      |> set_es_entries (<[Z.to_nat (u64 (seq - 1) mod ADMIN_EVENT_MAX) := e]> (es_entries (rt_events rt)))) rt
  end.

Definition admin_neighbour_event (rt : app_runtime) (dev ip act : Z) : app_runtime :=
  let rt := admin_event_emit rt ADM_NEIGH ip act in
  match rt_network rt with
  | None => rt
  | Some _ =>
    let i := Z.to_nat (u64 (es_sequence (rt_events rt) - 1) mod ADMIN_EVENT_MAX) in
    set_rt_events (set_es_entries (alter (fun e => e |> set_ev_ip ip |> set_ev_dev dev) i (es_entries (rt_events rt)))
      (rt_events rt)) rt
  end.

#[global] Arguments home_slot : simpl never.
#[global] Arguments hash : simpl never.
#[global] Arguments slot : simpl never.
#[global] Arguments set_slot : simpl never.
#[global] Arguments probe : simpl never.
#[global] Arguments holds : simpl never.
#[global] Arguments neighbour_learn : simpl never.
#[global] Arguments neighbour_lookup : simpl never.
#[global] Arguments neighbour_remove : simpl never.
#[global] Arguments admin_event_emit : simpl never.
#[global] Arguments admin_neighbour_event : simpl never.

(** * Specification: a finite map *)

Abbreviation neighbour_map := (gmap (Z * Z) (ether_addr * bool)).

Definition entry_key (e : neighbour_entry) : Z * Z := (ne_netif_id e, ne_ip_be e).
Definition entry_value (e : neighbour_entry) : ether_addr * bool := (ne_mac e, ne_permanent e).
Definition key_home (k : Z * Z) : Z := home_slot k.1 k.2.

(** Slots in ring order from a base: rank [r] is slot [(b + r) mod capacity]. *)
Definition at_rank (b r : Z) : Z := (b + r) mod NEIGHBOUR_CAPACITY.
Definition rank_of (b i : Z) : Z := (i - b) mod NEIGHBOUR_CAPACITY.

(** The slots other than [hole] hold exactly the bindings of [m], each key once. *)
Definition contents (t : neighbour_table) (hole : Z) (m : neighbour_map) : Prop :=
  (forall k v, m !! k = Some v <-> exists i, 0 <= i < NEIGHBOUR_CAPACITY /\ i <> hole /\
     ne_in_use (slot t i) = true /\ entry_key (slot t i) = k /\ entry_value (slot t i) = v) /\
  (forall i j, 0 <= i < NEIGHBOUR_CAPACITY -> 0 <= j < NEIGHBOUR_CAPACITY -> i <> hole -> j <> hole ->
     ne_in_use (slot t i) = true -> ne_in_use (slot t j) = true ->
     entry_key (slot t i) = entry_key (slot t j) -> i = j).

(** Reading the ring from base [b], every entry but the one at [hole] sits at or
    after its home slot and no free slot lies in between. *)
Definition chained (t : neighbour_table) (b hole : Z) : Prop :=
  forall r, 0 <= r < NEIGHBOUR_CAPACITY -> at_rank b r <> hole -> ne_in_use (slot t (at_rank b r)) = true ->
    let h := rank_of b (key_home (entry_key (slot t (at_rank b r)))) in
    h <= r /\ forall q, h <= q < r -> ne_in_use (slot t (at_rank b q)) = true.

(** [t] implements [m].  [-1] is no slot. *)
Definition represents (t : neighbour_table) (m : neighbour_map) : Prop :=
  length t = Z.to_nat NEIGHBOUR_CAPACITY /\ contents t (-1) m /\
  exists b, 0 <= b < NEIGHBOUR_CAPACITY /\ chained t b (-1).

(** What the operations promise. *)
Definition spec_learn (m : neighbour_map) (k : Z * Z) (mac : ether_addr) : Z * neighbour_map :=
  match m !! k with
  | Some (_, true) => (0, m)
  | Some (_, false) => (0, <[k := (mac, false)]> m)
  | None => if Z.of_nat (size m) =? NEIGHBOUR_CAPACITY then (- ENOSPC, m) else (0, <[k := (mac, false)]> m)
  end.

Definition spec_store (m : neighbour_map) (k : Z * Z) (mac : ether_addr) (replace : bool) : Z * neighbour_map :=
  match m !! k with
  | Some _ => if replace then (0, <[k := (mac, true)]> m) else (- EEXIST, m)
  | None => if Z.of_nat (size m) =? NEIGHBOUR_CAPACITY then (- ENOSPC, m) else (0, <[k := (mac, true)]> m)
  end.

Definition spec_remove (m : neighbour_map) (k : Z * Z) : Z * neighbour_map :=
  match m !! k with Some _ => (0, delete k m) | None => (- ENOENT, m) end.

(** * Lemmas: slots and ranks *)

(** Ring arithmetic at the table's capacity. *)
Ltac ring_lia := unfold at_rank, rank_of, NEIGHBOUR_CAPACITY in *; Z.div_mod_to_equations; lia.

Lemma at_rank_range b r : 0 <= at_rank b r < NEIGHBOUR_CAPACITY.
Proof. ring_lia. Qed.
Lemma rank_of_range b i : 0 <= rank_of b i < NEIGHBOUR_CAPACITY.
Proof. ring_lia. Qed.
Lemma at_rank_of b i : 0 <= i < NEIGHBOUR_CAPACITY -> at_rank b (rank_of b i) = i.
Proof. intros. ring_lia. Qed.
Lemma rank_of_at b r : 0 <= r < NEIGHBOUR_CAPACITY -> rank_of b (at_rank b r) = r.
Proof. intros. ring_lia. Qed.
Lemma at_rank_inj b r q : 0 <= r < NEIGHBOUR_CAPACITY -> 0 <= q < NEIGHBOUR_CAPACITY ->
  at_rank b r = at_rank b q -> r = q.
Proof. intros Hr Hq H. rewrite <- (rank_of_at b r), <- (rank_of_at b q), H by done. done. Qed.
Lemma at_rank_succ b r : (at_rank b r + 1) mod NEIGHBOUR_CAPACITY = at_rank b (r + 1).
Proof. unfold at_rank. rewrite Z.add_mod_idemp_l by done. f_equal. lia. Qed.
#[export] Hint Resolve at_rank_range rank_of_range : net.

Lemma home_slot_range dev ip : 0 <= home_slot dev ip < NEIGHBOUR_CAPACITY.
Proof. apply Z.mod_pos_bound. done. Qed.
Lemma key_home_range k : 0 <= key_home k < NEIGHBOUR_CAPACITY.
Proof. apply home_slot_range. Qed.
#[export] Hint Resolve key_home_range : net.

Lemma slot_same t i e : length t = Z.to_nat NEIGHBOUR_CAPACITY -> 0 <= i < NEIGHBOUR_CAPACITY -> slot (set_slot t i e) i = e.
Proof.
  intros Hl Hi. unfold slot, set_slot. apply nth_lookup_Some. rewrite list_lookup_insert_eq; [done|].
  unfold NEIGHBOUR_CAPACITY in *. lia.
Qed.

Lemma slot_other t i j e : 0 <= i -> 0 <= j -> i <> j -> slot (set_slot t i e) j = slot t j.
Proof.
  intros Hi Hj Hne. unfold slot, set_slot. rewrite !nth_lookup. by rewrite list_lookup_insert_ne by lia.
Qed.

Lemma slot_set_slot t i j e : length t = Z.to_nat NEIGHBOUR_CAPACITY -> 0 <= i < NEIGHBOUR_CAPACITY -> 0 <= j ->
  slot (set_slot t i e) j = if decide (i = j) then e else slot t j.
Proof. intros. destruct (decide (i = j)) as [<-|]; [by apply slot_same|apply slot_other; lia]. Qed.

Lemma length_set_slot t i e : length (set_slot t i e) = length t.
Proof. apply length_insert. Qed.

Lemma holds_key e dev ip : holds e dev ip = true <-> entry_key e = (dev, ip).
Proof. unfold holds, entry_key. rewrite andb_true_iff, !Z.eqb_eq. naive_solver. Qed.

(** ** The probe *)

Lemma probe_find_Some f start i : List.find f (probe start) = Some i <->
  exists n, 0 <= n < NEIGHBOUR_CAPACITY /\ i = at_rank start n /\ f i = true /\
    forall m, 0 <= m < n -> f (at_rank start m) = false.
Proof.
  unfold probe. change (Z.to_nat NEIGHBOUR_CAPACITY) with 64%nat. unfold NEIGHBOUR_CAPACITY.
  cut (forall k s, List.find f ((fun n : nat => (start + Z.of_nat n) mod 64) <$> seq s k) = Some i <->
    exists n, Z.of_nat s <= n < Z.of_nat (s + k) /\ i = at_rank start n /\ f i = true /\
      forall m, Z.of_nat s <= m < n -> f (at_rank start m) = false).
  { intros H. rewrite H. done. }
  induction k as [|k IH]; intros s; simpl.
  - split; [done|]. intros (n & ? & _). lia.
  - change ((start + Z.of_nat s) mod 64) with (at_rank start (Z.of_nat s)). destruct (f (at_rank start (Z.of_nat s))) eqn:E.
    + split.
      * intros [= <-]. exists (Z.of_nat s). split; [lia|]. split; [done|]. split; [done|]. intros; lia.
      * intros (n & Hn & -> & Hf & Hm). destruct (decide (n = Z.of_nat s)) as [->|]; [done|].
        rewrite Hm in E; [done|lia].
    + rewrite IH. split; intros (n & Hn & Hi & Hf & Hm).
      * exists n. split; [lia|]. split; [done|]. split; [done|]. intros m ?.
        destruct (decide (m = Z.of_nat s)) as [->|]; [done|]. apply Hm. lia.
      * exists n. destruct (decide (n = Z.of_nat s)) as [->|]; [congruence|].
        split; [lia|]. split; [done|]. split; [done|]. intros m ?. apply Hm. lia.
Qed.

Lemma probe_find_None f start : List.find f (probe start) = None <->
  forall i, 0 <= i < NEIGHBOUR_CAPACITY -> f i = false.
Proof.
  split.
  - intros H i Hi. apply (List.find_none _ _ H). unfold probe. apply list_elem_of_In, list_elem_of_fmap.
    exists (Z.to_nat (rank_of start i)). split.
    + rewrite Z2Nat.id by apply rank_of_range. symmetry. by apply at_rank_of.
    + apply elem_of_seq. assert (Hr := rank_of_range start i). unfold NEIGHBOUR_CAPACITY in *. lia.
  - intros H. destruct (List.find f (probe start)) as [i|] eqn:E; [|done].
    apply probe_find_Some in E as (n & Hn & -> & Hf & _). rewrite H in Hf; [done|apply at_rank_range].
Qed.

(** The lookup walks the same slots as [find_slot]. *)
Lemma neighbour_lookup_find t dev ip : neighbour_lookup t dev ip =
  match find_slot t dev ip with
  | Some i => if ne_in_use (slot t i) then Some (ne_mac (slot t i)) else None
  | None => None
  end.
Proof.
  unfold neighbour_lookup, find_slot. induction (probe (home_slot dev ip)) as [|i l IH]; [done|].
  cbn [lookup_probe List.find]. destruct (ne_in_use (slot t i)) eqn:E; bsimpl; [|by rewrite E].
  destruct (holds _ _ _); [by rewrite E|done].
Qed.

(** * Lemmas: searching a represented table *)

Section search.
Context (t : neighbour_table) (m : neighbour_map).
Hypothesis Hrep : represents t m.

Lemma used_slot_bound i : 0 <= i < NEIGHBOUR_CAPACITY -> ne_in_use (slot t i) = true ->
  m !! entry_key (slot t i) = Some (entry_value (slot t i)).
Proof.
  intros Hi Hu. destruct Hrep as (_ & [Hc _] & _). apply Hc. exists i. split; [done|]. split; [lia|done].
Qed.

(** Rank [n] of the probe that starts at the home of a key, seen from base [b]. *)
Lemma probe_rank b h n : 0 <= h < NEIGHBOUR_CAPACITY -> 0 <= n -> rank_of b h + n < NEIGHBOUR_CAPACITY ->
  at_rank h n = at_rank b (rank_of b h + n).
Proof. intros. ring_lia. Qed.

Lemma find_slot_present dev ip v : m !! (dev, ip) = Some v ->
  exists i, find_slot t dev ip = Some i /\ 0 <= i < NEIGHBOUR_CAPACITY /\ ne_in_use (slot t i) = true /\
    entry_key (slot t i) = (dev, ip) /\ entry_value (slot t i) = v.
Proof.
  destruct Hrep as (_ & [Hc Huniq] & b & Hb & Hch). intros (i & Hi & Hne & Hu & Hk & Hv)%Hc.
  exists i. split; [|done]. apply probe_find_Some.
  set (r := rank_of b i). assert (Hr := rank_of_range b i). fold r in Hr.
  assert (Hat : at_rank b r = i) by (by apply at_rank_of).
  destruct (Hch r Hr) as [Hle Hpath]; [rewrite Hat; lia|by rewrite Hat|]. rewrite Hat, Hk in Hle, Hpath.
  change (key_home (dev, ip)) with (home_slot dev ip) in *.
  assert (Hh := rank_of_range b (home_slot dev ip)). set (h := rank_of b (home_slot dev ip)) in *.
  exists (r - h). split; [lia|]. split.
  { rewrite probe_rank with (b := b); [|apply home_slot_range|lia|fold h; lia]. fold h.
    replace (h + (r - h)) with r by lia. done. }
  split; [apply orb_true_iff; right; by apply holds_key|]. intros q Hq.
  rewrite probe_rank with (b := b); [|apply home_slot_range|lia|fold h; lia]. fold h.
  rewrite (Hpath (h + q)) by lia. simpl. apply not_true_is_false. intros Hholds%holds_key.
  assert (Heq : at_rank b (h + q) = i).
  { apply (Huniq _ _ (at_rank_range _ _) Hi); [assert (X := at_rank_range b (h + q)); lia|lia|apply Hpath; lia|done|congruence]. }
  rewrite <- Hat in Heq. apply at_rank_inj in Heq; lia.
Qed.

Lemma find_slot_absent dev ip : m !! (dev, ip) = None ->
  match find_slot t dev ip with
  | Some i => ne_in_use (slot t i) = false /\ exists n, 0 <= n < NEIGHBOUR_CAPACITY /\ i = at_rank (home_slot dev ip) n /\
      forall q, 0 <= q < n -> ne_in_use (slot t (at_rank (home_slot dev ip) q)) = true
  | None => forall i, 0 <= i < NEIGHBOUR_CAPACITY -> ne_in_use (slot t i) = true
  end.
Proof.
  intros Hno. assert (Hfree : forall i, 0 <= i < NEIGHBOUR_CAPACITY -> ne_in_use (slot t i) = true -> holds (slot t i) dev ip = false).
  { intros i Hi Hu. apply not_true_is_false. intros Hk%holds_key. apply used_slot_bound in Hu; [|done]. congruence. }
  unfold find_slot. destruct (List.find _ _) as [i|] eqn:E.
  - apply probe_find_Some in E as (n & Hn & -> & Hf & Hm). split.
    + destruct (ne_in_use _) eqn:Eu; [|done]. rewrite Hfree in Hf; [done|apply at_rank_range|done].
    + exists n. split; [done|]. split; [done|]. intros q Hq. specialize (Hm q Hq). by apply orb_false_iff in Hm as [?%negb_false_iff _].
  - intros i Hi. rewrite probe_find_None in E. specialize (E i Hi). by apply orb_false_iff in E as [?%negb_false_iff _].
Qed.

Lemma neighbour_lookup_represents dev ip : neighbour_lookup t dev ip = fst <$> m !! (dev, ip).
Proof.
  rewrite neighbour_lookup_find. destruct (m !! (dev, ip)) as [v|] eqn:E.
  - destruct (find_slot_present _ _ _ E) as (i & -> & _ & -> & _ & <-). done.
  - assert (H := find_slot_absent _ _ E). destruct (find_slot t dev ip) as [i|]; [|done]. by destruct H as [-> _].
Qed.
End search.

(** ** The number of bindings *)

Definition entry_pair (e : neighbour_entry) : option ((Z * Z) * (ether_addr * bool)) :=
  if ne_in_use e then Some (entry_key e, entry_value e) else None.

Lemma slot_lookup t i e : t !! i = Some e -> slot t (Z.of_nat i) = e.
Proof. intros H. unfold slot. rewrite Nat2Z.id. by apply nth_lookup_Some. Qed.

Lemma omap_keys_NoDup l : (forall i j x y, l !! i = Some x -> l !! j = Some y -> ne_in_use x = true -> ne_in_use y = true ->
    entry_key x = entry_key y -> i = j) -> NoDup (omap entry_pair l).*1.
Proof.
  induction l as [|e l IH]; intros H; [constructor|]. cbn [omap list_omap].
  assert (Hl : NoDup (omap entry_pair l).*1).
  { apply IH. intros i j x y Hx Hy Hux Huy Hk. assert (S i = S j) by (eapply (H (S i) (S j)); eauto). lia. }
  unfold entry_pair at 1. destruct (ne_in_use e) eqn:Eu; [|done]. rewrite fmap_cons. constructor; [|done].
  intros (p & Hp & Hin)%list_elem_of_fmap. apply list_elem_of_omap in Hin as (y & [j Hy]%list_elem_of_lookup & Hpair).
  unfold entry_pair in Hpair. destruct (ne_in_use y) eqn:Euy; [|done]. injection Hpair as <-. simpl in Hp.
  assert (O = S j) by (eapply (H O (S j)); eauto). done.
Qed.

Lemma length_omap_le l : (length (omap entry_pair l) <= length l)%nat /\
  (length (omap entry_pair l) = length l <-> Forall (fun e => ne_in_use e = true) l).
Proof.
  induction l as [|e l [IH1 IH2]]; [done|].
  change (omap entry_pair (e :: l)) with (match entry_pair e with Some p => p :: omap entry_pair l | None => omap entry_pair l end).
  rewrite Forall_cons_iff. destruct (entry_pair e) as [p|] eqn:Ep; unfold entry_pair in Ep;
    destruct (ne_in_use e); try done; cbn [length]; (split; [lia|]).
  - rewrite <- IH2. naive_solver lia.
  - split; [lia|]. by intros [? _].
Qed.

Lemma represents_count t m : represents t m -> size m = length (omap entry_pair t).
Proof.
  intros (Hl & [Hc Hu] & _).
  assert (Hnd : NoDup (omap entry_pair t).*1).
  { apply omap_keys_NoDup. intros i j x y Hx Hy Hux Huy Hk. assert (Hli := lookup_lt_Some _ _ _ Hx).
    assert (Hlj := lookup_lt_Some _ _ _ Hy). apply slot_lookup in Hx, Hy. rewrite <- Hx in Hux, Hk. rewrite <- Hy in Huy, Hk.
    apply Nat2Z.inj, Hu; first [done | lia | unfold NEIGHBOUR_CAPACITY in *; lia]. }
  assert (Hm : m = list_to_map (omap entry_pair t)).
  { apply map_eq. intros k. apply option_eq. intros v. rewrite Hc, <- elem_of_list_to_map by done.
    rewrite list_elem_of_omap. split.
    - intros (i & Hi & _ & Hui & <- & <-). exists (slot t i). split; [|unfold entry_pair; by rewrite Hui].
      apply list_elem_of_lookup. exists (Z.to_nat i). unfold slot. destruct (lookup_lt_is_Some_2 t (Z.to_nat i)) as [e He].
      { unfold NEIGHBOUR_CAPACITY in *. lia. }
      by rewrite (nth_lookup_Some _ _ _ _ He).
    - intros (e & [i Hi]%list_elem_of_lookup & Hp). unfold entry_pair in Hp. destruct (ne_in_use e) eqn:Ee; [|done].
      injection Hp as <- <-. exists (Z.of_nat i). assert (Hlt := lookup_lt_Some _ _ _ Hi). apply slot_lookup in Hi. rewrite Hi.
      split; [unfold NEIGHBOUR_CAPACITY in *; lia|]. split; [lia|done]. }
  by rewrite Hm, map_size_list_to_map by done.
Qed.

Lemma represents_bound t m : represents t m -> (size m <= Z.to_nat NEIGHBOUR_CAPACITY)%nat.
Proof. intros H. rewrite (represents_count t m H). destruct H as [<- _]. apply length_omap_le. Qed.

Lemma represents_size t m : represents t m ->
  Z.of_nat (size m) = NEIGHBOUR_CAPACITY <-> (forall i, 0 <= i < NEIGHBOUR_CAPACITY -> ne_in_use (slot t i) = true).
Proof.
  intros Hr. rewrite (represents_count t m Hr). destruct Hr as [Hl _]. destruct (length_omap_le t) as [_ Hall].
  transitivity (length (omap entry_pair t) = length t); [rewrite Hl; unfold NEIGHBOUR_CAPACITY; lia|].
  rewrite Hall, Forall_lookup. split.
  - intros H i Hi. unfold slot. destruct (lookup_lt_is_Some_2 t (Z.to_nat i)) as [e He].
    { unfold NEIGHBOUR_CAPACITY in *. lia. }
    rewrite (nth_lookup_Some _ _ _ _ He). by apply (H _ _ He).
  - intros H i e He. assert (Hlt := lookup_lt_Some _ _ _ He). apply slot_lookup in He. rewrite <- He. apply H.
    unfold NEIGHBOUR_CAPACITY in *. lia.
Qed.

(** * Lemmas: storing an entry *)

Lemma contents_store t m i e : length t = Z.to_nat NEIGHBOUR_CAPACITY -> contents t (-1) m ->
  0 <= i < NEIGHBOUR_CAPACITY -> ne_in_use e = true ->
  (if ne_in_use (slot t i) then entry_key (slot t i) = entry_key e else m !! entry_key e = None) ->
  contents (set_slot t i e) (-1) (<[entry_key e := entry_value e]> m).
Proof.
  intros Hl [Hc Hu] Hi He Hk.
  assert (Hother : forall j, 0 <= j < NEIGHBOUR_CAPACITY -> j <> i -> ne_in_use (slot t j) = true -> entry_key (slot t j) <> entry_key e).
  { intros j Hj Hne Huj Heq. destruct (ne_in_use (slot t i)) eqn:Ei.
    - apply Hne, Hu; try done; [lia|lia|congruence].
    - assert (Hm : m !! entry_key e = Some (entry_value (slot t j))); [|congruence].
      apply Hc. exists j. split; [done|]. split; [lia|done]. }
  assert (Hs : forall j, 0 <= j < NEIGHBOUR_CAPACITY -> slot (set_slot t i e) j = if decide (i = j) then e else slot t j)
    by (intros; apply slot_set_slot; [done|done|lia]).
  split.
  - intros k v. destruct (decide (k = entry_key e)) as [->|Hne].
    + rewrite lookup_insert_eq. split.
      * intros [= <-]. exists i. rewrite Hs, decide_True by done. split; [done|]. split; [lia|done].
      * intros (j & Hj & _ & Huj & Hkj & Hvj). rewrite Hs in * by done. destruct (decide (i = j)); [congruence|].
        exfalso. by eapply (Hother j).
    + rewrite lookup_insert_ne, Hc by done. split.
      * intros (j & Hj & Hn & Huj & Hkj & Hvj). exists j. rewrite Hs by done.
        destruct (decide (i = j)) as [<-|]; [|done]. rewrite Huj in Hk. congruence.
      * intros (j & Hj & Hn & Huj & Hkj & Hvj). rewrite Hs in * by done. destruct (decide (i = j)); [congruence|].
        exists j. done.
  - intros j1 j2 H1 H2 _ _ Hu1 Hu2 Heq. rewrite !Hs in * by done.
    destruct (decide (i = j1)), (decide (i = j2)); [congruence|..].
    + exfalso. eapply (Hother j2); [done|congruence|done|congruence].
    + exfalso. by eapply (Hother j1).
    + apply Hu; try done; lia.
Qed.

Lemma chained_store_used t b i e : length t = Z.to_nat NEIGHBOUR_CAPACITY -> chained t b (-1) ->
  0 <= i < NEIGHBOUR_CAPACITY -> ne_in_use (slot t i) = true -> ne_in_use e = true -> entry_key (slot t i) = entry_key e ->
  chained (set_slot t i e) b (-1).
Proof.
  intros Hl Hch Hi Hu He Hk.
  assert (Hs : forall r, ne_in_use (slot (set_slot t i e) (at_rank b r)) = ne_in_use (slot t (at_rank b r)) /\
    entry_key (slot (set_slot t i e) (at_rank b r)) = entry_key (slot t (at_rank b r))).
  { intros r. rewrite slot_set_slot by (try done; apply at_rank_range). destruct (decide _) as [<-|]; [|done]. split; congruence. }
  intros r Hr Hne Hur. destruct (Hs r) as [Hsu Hsk]. rewrite Hsk. rewrite Hsu in Hur.
  destruct (Hch r Hr Hne Hur) as [Hle Hp]. split; [done|]. intros q Hq. rewrite (proj1 (Hs q)). by apply Hp.
Qed.

(** Any free slot can serve as the end of the ring. *)
Lemma chained_rebase t b i : chained t b (-1) -> 0 <= i < NEIGHBOUR_CAPACITY -> ne_in_use (slot t i) = false ->
  chained t (at_rank i 1) (-1).
Proof.
  intros Hch Hi Hfree r Hr Hne Hu. set (j := at_rank (at_rank i 1) r) in *.
  assert (Hj : 0 <= j < NEIGHBOUR_CAPACITY) by apply at_rank_range.
  destruct (Hch (rank_of b j) (rank_of_range b j)) as [Hle Hp]; [rewrite at_rank_of by done; done|by rewrite at_rank_of|].
  rewrite at_rank_of in Hle, Hp by done. set (home := key_home (entry_key (slot t j))) in *.
  assert (Hh : 0 <= home < NEIGHBOUR_CAPACITY) by apply key_home_range.
  assert (Hnot : ~ (rank_of b home <= rank_of b i < rank_of b j)).
  { intros Hin. specialize (Hp _ Hin). rewrite at_rank_of in Hp by done. congruence. }
  assert (Hji : j <> i) by (intros ->; congruence).
  assert (Hrank : r = rank_of (at_rank i 1) j) by (symmetry; apply rank_of_at; done).
  assert (Hd : rank_of (at_rank i 1) j - rank_of (at_rank i 1) home = rank_of b j - rank_of b home).
  { clear -Hle Hnot Hji Hj Hh Hi. ring_lia. }
  split; [lia|]. intros q Hq.
  replace (at_rank (at_rank i 1) q) with (at_rank b (rank_of b home + (q - rank_of (at_rank i 1) home))).
  { apply Hp. lia. }
  clear -Hh Hi. ring_lia.
Qed.

Lemma chained_store_free t b i e n : length t = Z.to_nat NEIGHBOUR_CAPACITY -> chained t b (-1) ->
  ne_in_use (slot t i) = false -> ne_in_use e = true ->
  0 <= n < NEIGHBOUR_CAPACITY -> i = at_rank (key_home (entry_key e)) n ->
  (forall q, 0 <= q < n -> ne_in_use (slot t (at_rank (key_home (entry_key e)) q)) = true) ->
  chained (set_slot t i e) (at_rank i 1) (-1).
Proof.
  intros Hl Hch Hfree He Hn Hi Hpath.
  assert (Hi' : 0 <= i < NEIGHBOUR_CAPACITY) by (rewrite Hi; apply at_rank_range).
  assert (Hre := chained_rebase t b i Hch Hi' Hfree). set (b' := at_rank i 1) in *.
  assert (Hs : forall j, 0 <= j < NEIGHBOUR_CAPACITY -> slot (set_slot t i e) j = if decide (i = j) then e else slot t j)
    by (intros; apply slot_set_slot; [done|done|lia]).
  assert (Hmono : forall j, 0 <= j < NEIGHBOUR_CAPACITY -> ne_in_use (slot t j) = true -> ne_in_use (slot (set_slot t i e) j) = true).
  { intros j Hj Hu. rewrite Hs by done. by destruct (decide (i = j)). }
  intros r Hr Hne Hu. rewrite Hs in * by apply at_rank_range. destruct (decide (i = at_rank b' r)) as [Ei|Ei].
  - assert (Hr63 : r = NEIGHBOUR_CAPACITY - 1) by (clear -Ei Hr Hi'; unfold b' in *; ring_lia).
    assert (Hh := key_home_range (entry_key e)). split; [assert (X := rank_of_range b' (key_home (entry_key e))); lia|].
    intros q Hq. apply Hmono; [apply at_rank_range|].
    replace (at_rank b' q) with (at_rank (key_home (entry_key e)) (q - rank_of b' (key_home (entry_key e)))).
    + apply Hpath. clear -Hi Hq Hr63 Hn Hh Hi'. unfold b' in *. ring_lia.
    + clear -Hh Hi'. unfold b' in *. ring_lia.
  - destruct (Hre r Hr Hne Hu) as [Hle Hp]. split; [done|]. intros q Hq. apply Hmono; [apply at_rank_range|]. by apply Hp.
Qed.

(** Storing into the slot [find_slot] returned is inserting into the map. *)
Lemma represents_store t m i e : represents t m -> find_slot t (ne_netif_id e) (ne_ip_be e) = Some i ->
  ne_in_use e = true -> represents (set_slot t i e) (<[entry_key e := entry_value e]> m).
Proof.
  intros Hrep Hf He. pose proof Hrep as (Hl & Hc & b & Hb & Hch). split; [by rewrite length_set_slot|].
  destruct (m !! entry_key e) as [v|] eqn:Em.
  - destruct (find_slot_present t m Hrep _ _ _ Em) as (i' & Hf' & Hi & Hu & Hk & _). rewrite Hf in Hf'. injection Hf' as <-.
    split; [apply contents_store; try done; by rewrite Hu|]. exists b. split; [done|]. by apply chained_store_used.
  - assert (Ha := find_slot_absent t m Hrep _ _ Em). rewrite Hf in Ha. destruct Ha as (Hfree & n & Hn & Hi & Hp).
    assert (Hi' : 0 <= i < NEIGHBOUR_CAPACITY) by (rewrite Hi; apply at_rank_range).
    split; [apply contents_store; try done; by rewrite Hfree|]. exists (at_rank i 1). split; [apply at_rank_range|].
    exact (chained_store_free t b i e n Hl Hch Hfree He Hn Hi Hp).
Qed.

(** * Lemmas: closing the gap after a deletion *)

(** While the loop runs, slot [hole] is stale and the others hold the result. *)
Definition gap_inv (t : neighbour_table) (b hole : Z) (m : neighbour_map) : Prop :=
  length t = Z.to_nat NEIGHBOUR_CAPACITY /\ 0 <= hole < NEIGHBOUR_CAPACITY /\ ne_in_use (slot t hole) = true /\
  contents t hole m /\ chained t b hole.

(** Home rank of the entry at rank [r]. *)
Definition home_rank (t : neighbour_table) (b r : Z) : Z := rank_of b (key_home (entry_key (slot t (at_rank b r)))).

(** The entries between the hole and rank [x] do not probe across the hole. *)
Definition scanned (t : neighbour_table) (b hole x : Z) : Prop :=
  forall r, rank_of b hole < r < x -> ne_in_use (slot t (at_rank b r)) = true -> rank_of b hole < home_rank t b r.

Section gap.
Context (b : Z) (m : neighbour_map).

Lemma gap_home t hole r : gap_inv t b hole m -> 0 <= r < NEIGHBOUR_CAPACITY -> r <> rank_of b hole ->
  ne_in_use (slot t (at_rank b r)) = true ->
  0 <= home_rank t b r <= r /\ forall q, home_rank t b r <= q < r -> ne_in_use (slot t (at_rank b q)) = true.
Proof.
  intros (_ & Hh & _ & _ & Hch) Hr Hne Hu. assert (Hn : at_rank b r <> hole).
  { intros <-. rewrite rank_of_at in Hne by done. done. }
  destruct (Hch r Hr Hn Hu) as [Hle Hp]. split; [|done].
  split; [|done]. apply rank_of_range.
Qed.

(** Clearing the hole once nothing probes across it. *)
Lemma gap_close t hole : gap_inv t b hole m -> 0 <= b < NEIGHBOUR_CAPACITY -> scanned t b hole NEIGHBOUR_CAPACITY ->
  represents (set_slot t hole zero_neighbour_entry) m.
Proof.
  intros Hg Hb Hsc. pose proof Hg as (Hl & Hh & Hu & [Hc Huniq] & Hch).
  assert (Hs : forall j, 0 <= j < NEIGHBOUR_CAPACITY -> slot (set_slot t hole zero_neighbour_entry) j =
    if decide (hole = j) then zero_neighbour_entry else slot t j) by (intros; apply slot_set_slot; [done|done|lia]).
  split; [by rewrite length_set_slot|]. split; [split|].
  - intros k v. rewrite Hc. split; intros (i & Hi & Hne & Hui & Hk & Hv); exists i.
    + rewrite Hs, decide_False by congruence. split; [done|]. split; [lia|done].
    + rewrite Hs in * by done. destruct (decide (hole = i)); [done|]. split; [done|]. split; [congruence|done].
  - intros i j Hi Hj _ _ Hui Huj Hk. rewrite !Hs in * by done.
    destruct (decide (hole = i)), (decide (hole = j)); try done. by apply Huniq.
  - exists b. split; [done|]. intros r Hr _ Hur. rewrite Hs in * by apply at_rank_range.
    destruct (decide (hole = at_rank b r)) as [|Hne]; [done|].
    assert (Hrne : r <> rank_of b hole) by (intros ->; rewrite at_rank_of in Hne by done; done).
    destruct (gap_home t hole r Hg Hr Hrne Hur) as [Hle Hp]. unfold home_rank in *. split; [lia|].
    intros q Hq. rewrite Hs by apply at_rank_range. destruct (decide (hole = at_rank b q)) as [Hq'|]; [exfalso|by apply Hp].
    assert (Hqr : rank_of b hole = q) by (rewrite Hq'; apply rank_of_at; lia).
    specialize (Hsc r ltac:(lia) Hur). unfold home_rank in Hsc. lia.
Qed.

(** Past the end of the ring nothing moves any more. *)
Lemma close_gap_wrapped n t hole r : gap_inv t b hole m -> 0 <= r -> r + Z.of_nat n <= rank_of b hole ->
  close_gap n t hole (at_rank b r) = (t, hole).
Proof.
  intros Hg. revert r. induction n as [|n IH]; intros r Hr Hn; [done|]. cbn [close_gap].
  assert (HH := rank_of_range b hole). destruct (ne_in_use (slot t (at_rank b r))) eqn:Hu; bsimpl; [|done].
  destruct (gap_home t hole r Hg ltac:(lia) ltac:(lia) Hu) as [Hle _]. unfold home_rank in Hle.
  change (home_slot _ _) with (key_home (entry_key (slot t (at_rank b r)))).
  assert (Hk := key_home_range (entry_key (slot t (at_rank b r)))). destruct Hg as (_ & Hh & _).
  rewrite at_rank_succ.
  destruct (Z.leb_spec ((at_rank b r - hole + NEIGHBOUR_CAPACITY) mod NEIGHBOUR_CAPACITY)
    ((at_rank b r - key_home (entry_key (slot t (at_rank b r))) + NEIGHBOUR_CAPACITY) mod NEIGHBOUR_CAPACITY)) as [Hc|Hc].
  - exfalso. revert Hc Hle Hn HH Hk Hh. generalize (key_home (entry_key (slot t (at_rank b r)))) as k. intros k Hc Hle Hn HH Hk Hh.
    clear -Hc Hle Hn HH Hk Hh Hr. ring_lia.
  - apply IH; lia.
Qed.

(** The comparison of the loop asks whether the entry probes across the hole. *)
Lemma gap_test hole x k : 0 <= hole < NEIGHBOUR_CAPACITY -> 0 <= k < NEIGHBOUR_CAPACITY ->
  rank_of b hole < x < NEIGHBOUR_CAPACITY -> rank_of b k <= x ->
  ((at_rank b x - hole + NEIGHBOUR_CAPACITY) mod NEIGHBOUR_CAPACITY <=?
   (at_rank b x - k + NEIGHBOUR_CAPACITY) mod NEIGHBOUR_CAPACITY) = (rank_of b k <=? rank_of b hole).
Proof.
  intros Hh Hk Hx Hle. apply eq_bool_prop_intro. rewrite !Is_true_true, !Z.leb_le.
  split; intros; ring_lia.
Qed.

(** Moving the entry at [x] into the hole. *)
Lemma gap_move t hole x : gap_inv t b hole m -> rank_of b hole < x < NEIGHBOUR_CAPACITY ->
  ne_in_use (slot t (at_rank b x)) = true -> home_rank t b x <= rank_of b hole ->
  gap_inv (set_slot t hole (slot t (at_rank b x))) b (at_rank b x) m.
Proof.
  intros Hg Hx Hu Hle. pose proof Hg as (Hl & Hh & Huh & [Hc Huniq] & Hch).
  assert (HH := rank_of_range b hole).
  assert (Hxh : at_rank b x <> hole) by (intros E; assert (rank_of b hole = x) by (rewrite <- E; apply rank_of_at; lia); lia).
  set (i := at_rank b x) in *. assert (Hi : 0 <= i < NEIGHBOUR_CAPACITY) by apply at_rank_range.
  set (t' := set_slot t hole (slot t i)).
  assert (Hs : forall j, 0 <= j < NEIGHBOUR_CAPACITY -> slot t' j = if decide (hole = j) then slot t i else slot t j)
    by (intros; apply slot_set_slot; [done|done|lia]).
  assert (Hused : forall j, 0 <= j < NEIGHBOUR_CAPACITY -> ne_in_use (slot t j) = true -> ne_in_use (slot t' j) = true)
    by (intros j Hj Huj; rewrite Hs by done; by destruct (decide _)).
  split; [unfold t'; by rewrite length_set_slot|]. split; [done|]. split; [by apply Hused|]. split; [split|].
  - intros k v. rewrite Hc. split; intros (j & Hj & Hne & Huj & Hkj & Hvj).
    + destruct (decide (j = i)) as [->|Hji].
      * exists hole. rewrite Hs, decide_True by done. split; [done|]. split; [congruence|done].
      * exists j. rewrite Hs, decide_False by congruence. done.
    + rewrite Hs in * by done. destruct (decide (hole = j)) as [<-|].
      * exists i. done.
      * exists j. split; [done|]. split; [congruence|done].
  - intros j1 j2 H1 H2 Hn1 Hn2 Hu1 Hu2 Hk. rewrite !Hs in * by done.
    destruct (decide (hole = j1)) as [<-|], (decide (hole = j2)) as [<-|]; [done|..].
    + exfalso. apply Hn2. symmetry. apply Huniq; first [done | congruence].
    + exfalso. apply Hn1. apply Huniq; first [done | congruence].
    + apply Huniq; first [done | congruence].
  - intros r Hr Hne Hur. rewrite Hs in * by apply at_rank_range.
    destruct (decide (hole = at_rank b r)) as [Er|Er].
    + assert (Hrr : rank_of b hole = r) by (rewrite Er; by apply rank_of_at).
      destruct (gap_home t hole x Hg ltac:(lia) ltac:(lia) Hu) as [_ Hp]. unfold home_rank in *. fold i in Hp, Hle |- *.
      split; [lia|]. intros q Hq. apply Hused; [apply at_rank_range|]. apply Hp. lia.
    + assert (Hrr : r <> rank_of b hole) by (intros ->; rewrite at_rank_of in Er by done; done).
      destruct (gap_home t hole r Hg Hr Hrr Hur) as [Hle' Hp]. unfold home_rank in *. split; [lia|].
      intros q Hq. apply Hused; [apply at_rank_range|]. by apply Hp.
Qed.

Lemma close_gap_scan n : forall t hole x, gap_inv t b hole m -> scanned t b hole x ->
  rank_of b hole < x <= NEIGHBOUR_CAPACITY -> NEIGHBOUR_CAPACITY <= Z.of_nat n + x <= NEIGHBOUR_CAPACITY + rank_of b hole ->
  let '(t', hole') := close_gap n t hole (at_rank b x) in
  gap_inv t' b hole' m /\ scanned t' b hole' NEIGHBOUR_CAPACITY.
Proof.
  induction n as [|n IH]; intros t hole x Hg Hsc Hx Hn; assert (HH := rank_of_range b hole).
  { cbn [close_gap]. split; [done|]. by replace NEIGHBOUR_CAPACITY with x by lia. }
  destruct (decide (x = NEIGHBOUR_CAPACITY)) as [->|Hlt].
  { replace (at_rank b NEIGHBOUR_CAPACITY) with (at_rank b 0) by ring_lia.
    rewrite close_gap_wrapped by (first [done | lia]). done. }
  cbn [close_gap]. destruct (ne_in_use (slot t (at_rank b x))) eqn:Hu; bsimpl.
  2:{ split; [done|]. intros r Hr Hur. destruct (decide (r < x)) as [|Hge]; [by apply Hsc; [lia|]|].
      destruct (gap_home t hole r Hg ltac:(lia) ltac:(lia) Hur) as [Hle Hp].
      destruct (decide (home_rank t b r <= x)) as [Hhx|]; [exfalso|lia].
      assert (r <> x) by congruence. rewrite Hp in Hu; [done|lia]. }
  destruct (gap_home t hole x Hg ltac:(lia) ltac:(lia) Hu) as [Hle Hp].
  change (home_slot _ _) with (key_home (entry_key (slot t (at_rank b x)))).
  rewrite (gap_test hole x (key_home (entry_key (slot t (at_rank b x)))) ltac:(apply Hg) (key_home_range _) ltac:(lia) (proj2 Hle)).
  fold (home_rank t b x). rewrite at_rank_succ.
  destruct (Z.leb_spec (home_rank t b x) (rank_of b hole)) as [Hmv|Hst].
  - apply IH; [apply gap_move; first [done | lia]| |rewrite rank_of_at by lia; lia..].
    intros r Hr. rewrite rank_of_at in Hr by lia. lia.
  - apply IH; try done; try lia. intros r Hr Hur. destruct (decide (r = x)) as [->|]; [done|]. apply Hsc; [lia|done].
Qed.
End gap.

Lemma gap_start t m b k hole v : represents t m -> chained t b (-1) -> 0 <= hole < NEIGHBOUR_CAPACITY ->
  ne_in_use (slot t hole) = true -> entry_key (slot t hole) = k -> m !! k = Some v -> gap_inv t b hole (delete k m).
Proof.
  intros (Hl & [Hc Huniq] & _) Hch Hh Hu Hk Hm. split; [done|]. split; [done|]. split; [done|]. split; [split|].
  - intros k' v'. rewrite lookup_delete_Some, Hc. split.
    + intros [Hne (i & Hi & Hn & Hui & Hki & Hvi)]. exists i. split; [done|]. split; [congruence|done].
    + intros (i & Hi & Hn & Hui & Hki & Hvi). split; [|exists i; split; [done|]; split; [lia|done]].
      intros <-. apply Hn, Huniq; first [done | lia | congruence].
  - intros i j Hi Hj Hni Hnj. apply Huniq; first [done | lia].
  - intros r Hr Hn Hur. apply Hch; [done| |done]. assert (X := at_rank_range b r). lia.
Qed.

Lemma represents_remove t m dev ip v : represents t m -> m !! (dev, ip) = Some v ->
  exists t', neighbour_remove t dev ip = (0, t') /\ represents t' (delete (dev, ip) m).
Proof.
  intros Hrep Hm. destruct (find_slot_present t m Hrep _ _ _ Hm) as (e & Hf & He & Hu & Hk & _).
  pose proof Hrep as (_ & _ & b & Hb & Hch). unfold neighbour_remove. rewrite Hf, Hu. bsimpl.
  assert (Hg := gap_start t m b (dev, ip) e v Hrep Hch He Hu Hk Hm).
  assert (HH := rank_of_range b e).
  replace (e + 1) with (at_rank b (rank_of b e) + 1) by (by rewrite at_rank_of). rewrite at_rank_succ.
  assert (Hscan := close_gap_scan b (delete (dev, ip) m) (Z.to_nat NEIGHBOUR_CAPACITY - 1) t e (rank_of b e + 1) Hg
    ltac:(intros r Hr; lia) ltac:(lia) ltac:(unfold NEIGHBOUR_CAPACITY; lia)).
  destruct (close_gap _ _ _ _) as [t' hole']. destruct Hscan as [Hg' Hs']. eexists. split; [done|].
  by apply (gap_close b).
Qed.

(** * Refinement: every operation behaves as its map counterpart *)

Lemma represents_empty : represents zero_neighbour_table ∅.
Proof.
  assert (Hz : forall i, slot zero_neighbour_table i = zero_neighbour_entry).
  { intros i. unfold slot. destruct (nth_in_or_default (Z.to_nat i) zero_neighbour_table zero_neighbour_entry) as [H| ->]; [|done].
    apply list_elem_of_In in H. by apply elem_of_replicate in H as [-> _]. }
  split; [done|]. split; [split|].
  - intros k v. split; [done|]. intros (i & _ & _ & Hu & _). by rewrite Hz in Hu.
  - intros i j _ _ _ _ Hu. by rewrite Hz in Hu.
  - exists 0. split; [done|]. intros r _ _ Hu. by rewrite Hz in Hu.
Qed.

Lemma represents_full t m dev ip : represents t m -> m !! (dev, ip) = None ->
  (find_slot t dev ip = None <-> Z.of_nat (size m) = NEIGHBOUR_CAPACITY) /\
  (forall i, find_slot t dev ip = Some i -> ne_in_use (slot t i) = false).
Proof.
  intros Hrep Hm. assert (Ha := find_slot_absent t m Hrep _ _ Hm). rewrite (represents_size t m Hrep).
  destruct (find_slot t dev ip) as [i|]; [|done]. destruct Ha as (Hfree & n & Hn & Hi & _). split; [|by intros ? [= <-]].
  split; [done|]. intros Hall. rewrite Hall in Hfree; [done|]. rewrite Hi. apply at_rank_range.
Qed.

Section refinement.
Context `{!Dpdk}.

Lemma neighbour_learn_refines t m dev ip mac : represents t m -> ip <> 0 -> rte_is_valid_assigned_ether_addr mac = true ->
  exists t', neighbour_learn t dev ip mac = ((spec_learn m (dev, ip) mac).1, t') /\
    represents t' (spec_learn m (dev, ip) mac).2.
Proof.
  intros Hrep Hip Hmac. unfold neighbour_learn, spec_learn. apply truth_true in Hip. rewrite Hip, Hmac. bsimpl.
  destruct (m !! (dev, ip)) as [[old perm]|] eqn:Em.
  - destruct (find_slot_present t m Hrep _ _ _ Em) as (i & Hf & Hi & Hu & Hk & Hv). rewrite Hf, Hu. bsimpl.
    injection Hv as Hmacv Hperm. rewrite Hperm. injection Hk as Hkd Hki. destruct perm; bsimpl; eexists; (split; [done|]); [done|].
    assert (Hs := represents_store t m i (set_ne_mac mac (slot t i)) Hrep). unfold entry_key, entry_value in Hs. simpl in Hs.
    rewrite Hkd, Hki, Hperm in Hs. by apply Hs.
  - destruct (represents_full t m dev ip Hrep Em) as [Hfull Hfree]. destruct (find_slot t dev ip) as [i|] eqn:Ef.
    + rewrite (Hfree i eq_refl). bsimpl. destruct (Z.eqb_spec (Z.of_nat (size m)) NEIGHBOUR_CAPACITY) as [Hsz|_].
      { apply Hfull in Hsz. done. }
      eexists. split; [done|]. by apply (represents_store t m i {| ne_ip_be := ip; ne_netif_id := dev; ne_mac := mac;
        ne_in_use := true; ne_permanent := false |}).
    + rewrite (proj2 (Z.eqb_eq _ _) (proj1 Hfull eq_refl)). by eexists.
Qed.

Lemma neighbour_store_refines t m dev ip mac replace : represents t m ->
  exists t', neighbour_store t dev ip mac replace = ((spec_store m (dev, ip) mac replace).1, t') /\
    represents t' (spec_store m (dev, ip) mac replace).2.
Proof.
  intros Hrep. unfold neighbour_store, spec_store.
  assert (Hs : forall i, find_slot t dev ip = Some i ->
    represents (set_slot t i (mk_neighbour_entry ip dev mac true true)) (<[(dev, ip) := (mac, true)]> m))
    by (intros i Hi; by apply (represents_store t m i (mk_neighbour_entry ip dev mac true true))).
  destruct (m !! (dev, ip)) as [v|] eqn:Em.
  - destruct (find_slot_present t m Hrep _ _ _ Em) as (i & Hf & _ & Hu & _). rewrite Hf, Hu.
    destruct replace; bsimpl; eexists; (split; [done|]); [by apply Hs|done].
  - destruct (represents_full t m dev ip Hrep Em) as [Hfull Hfree]. destruct (find_slot t dev ip) as [i|] eqn:Ef.
    + rewrite (Hfree i eq_refl). bsimpl. destruct (Z.eqb_spec (Z.of_nat (size m)) NEIGHBOUR_CAPACITY) as [Hsz|_].
      { apply Hfull in Hsz. done. }
      eexists. split; [done|]. by apply Hs.
    + rewrite (proj2 (Z.eqb_eq _ _) (proj1 Hfull eq_refl)). by eexists.
Qed.

Lemma neighbour_remove_refines t m dev ip : represents t m ->
  exists t', neighbour_remove t dev ip = ((spec_remove m (dev, ip)).1, t') /\ represents t' (spec_remove m (dev, ip)).2.
Proof.
  intros Hrep. unfold spec_remove. destruct (m !! (dev, ip)) as [v|] eqn:Em; [by eapply represents_remove|].
  unfold neighbour_remove. destruct (represents_full t m dev ip Hrep Em) as [_ Hfree].
  destruct (find_slot t dev ip) as [i|]; [rewrite (Hfree i eq_refl)|]; by eexists.
Qed.

(** Operations with what their callers see. *)
Inductive neighbour_op : Type :=
| OpLearn (dev ip : Z) (mac : ether_addr)
| OpStore (dev ip : Z) (mac : ether_addr) (replace : bool)
| OpRemove (dev ip : Z)
| OpLookup (dev ip : Z).

Inductive neighbour_reply : Type :=
| ReplyCode (rc : Z)
| ReplyMac (mac : option ether_addr).

Definition table_step (t : neighbour_table) (op : neighbour_op) : neighbour_reply * neighbour_table :=
  match op with
  | OpLearn dev ip mac => let '(rc, t) := neighbour_learn t dev ip mac in (ReplyCode rc, t)
  | OpStore dev ip mac replace => let '(rc, t) := neighbour_store t dev ip mac replace in (ReplyCode rc, t)
  | OpRemove dev ip => let '(rc, t) := neighbour_remove t dev ip in (ReplyCode rc, t)
  | OpLookup dev ip => (ReplyMac (neighbour_lookup t dev ip), t)
  end.

Definition map_step (m : neighbour_map) (op : neighbour_op) : neighbour_reply * neighbour_map :=
  match op with
  | OpLearn dev ip mac =>
    if negb (truth ip) || negb (rte_is_valid_assigned_ether_addr mac) then (ReplyCode (- EINVAL), m) else
    let '(rc, m) := spec_learn m (dev, ip) mac in (ReplyCode rc, m)
  | OpStore dev ip mac replace => let '(rc, m) := spec_store m (dev, ip) mac replace in (ReplyCode rc, m)
  | OpRemove dev ip => let '(rc, m) := spec_remove m (dev, ip) in (ReplyCode rc, m)
  | OpLookup dev ip => (ReplyMac (fst <$> m !! (dev, ip)), m)
  end.

(** Replies of a sequence of operations, oldest first, and the final state. *)
Fixpoint run {S} (step : S -> neighbour_op -> neighbour_reply * S) (s : S) (ops : list neighbour_op)
  : list neighbour_reply * S :=
  match ops with
  | [] => ([], s)
  | op :: ops' =>
    let '(reply, s) := step s op in let '(replies, s) := run step s ops' in (reply :: replies, s)
  end.

Lemma table_step_refines t m op : represents t m ->
  (table_step t op).1 = (map_step m op).1 /\ represents (table_step t op).2 (map_step m op).2.
Proof.
  intros Hrep. destruct op as [dev ip mac|dev ip mac replace|dev ip|dev ip]; cbn [table_step map_step].
  - destruct (negb (truth ip) || negb (rte_is_valid_assigned_ether_addr mac)) eqn:E.
    + unfold neighbour_learn. rewrite E. done.
    + apply orb_false_iff in E as [H1%negb_false_iff%truth_true H2%negb_false_iff].
      destruct (neighbour_learn_refines t m dev ip mac Hrep H1 H2) as (t' & -> & Hr). by destruct (spec_learn _ _ _).
  - destruct (neighbour_store_refines t m dev ip mac replace Hrep) as (t' & -> & Hr). by destruct (spec_store _ _ _ _).
  - destruct (neighbour_remove_refines t m dev ip Hrep) as (t' & -> & Hr). by destruct (spec_remove _ _).
  - split; [|done]. simpl. by rewrite (neighbour_lookup_represents t m Hrep).
Qed.

Lemma run_refines ops t m : represents t m ->
  (run table_step t ops).1 = (run map_step m ops).1 /\ represents (run table_step t ops).2 (run map_step m ops).2.
Proof.
  revert t m. induction ops as [|op ops IH]; intros t m Hrep; cbn [run]; [done|].
  destruct (table_step_refines t m op Hrep) as [H1 H2].
  destruct (table_step t op) as [r1 t1], (map_step m op) as [r2 m2]. simpl in H1, H2. subst r2.
  destruct (IH t1 m2 H2) as [H3 H4]. destruct (run table_step t1 ops), (run map_step m2 ops). simpl in *. by subst.
Qed.

(** * Properties *)

(** C8: the hash table with its probe chains, in-place updates and chain-closing
    deletions is indistinguishable from a finite map of at most 64 neighbours:
    every sequence of operations on the empty table gives the replies of the
    map. *)
Theorem neighbour_table_refines_map ops :
  (run table_step zero_neighbour_table ops).1 = (run map_step ∅ ops).1 /\
  represents (run table_step zero_neighbour_table ops).2 (run map_step ∅ ops).2.
Proof. apply run_refines, represents_empty. Qed.
End refinement.

(** Deleting a neighbour leaves every other lookup unchanged and the deleted
    one absent, even when the table is full and the probe chains wrap. *)
Theorem neighbour_remove_lookup t m dev ip dev' ip' : represents t m ->
  (neighbour_remove t dev ip).1 = (if decide (is_Some (m !! (dev, ip))) then 0 else - ENOENT) /\
  neighbour_lookup (neighbour_remove t dev ip).2 dev' ip' =
    if decide ((dev', ip') = (dev, ip)) then None else neighbour_lookup t dev' ip'.
Proof.
  intros Hrep. destruct (neighbour_remove_refines t m dev ip Hrep) as (t' & -> & Hrep').
  bsimpl. rewrite (neighbour_lookup_represents _ _ Hrep'), (neighbour_lookup_represents _ _ Hrep).
  unfold spec_remove. destruct (m !! (dev, ip)) as [v|] eqn:Em; bsimpl.
  - split; [by rewrite decide_True by eauto|]. destruct (decide ((dev', ip') = (dev, ip))) as [->|].
    + by rewrite lookup_delete_eq.
    + by rewrite lookup_delete_ne by congruence.
  - split; [by rewrite decide_False by (intros [? ?]; done)|]. destruct (decide _) as [->|]; [by rewrite Em|done].
Qed.

(** * Witness *)

(** Five static neighbours of interface 0. *)
Definition sample_mac (ip : Z) : ether_addr := [2; 0; 0; 0; 0; ip].
Definition sample_table : neighbour_table :=
  foldl (fun t ip => (neighbour_store t 0 ip (sample_mac ip) false).2) zero_neighbour_table [1; 2; 3; 4; 5].
Definition sample_map : neighbour_map :=
  foldl (fun m ip => (spec_store m (0, ip) (sample_mac ip) false).2) ∅ [1; 2; 3; 4; 5].

Lemma sample_table_represents : represents sample_table sample_map.
Proof.
  unfold sample_table, sample_map. generalize represents_empty.
  generalize zero_neighbour_table as t, (∅ : neighbour_map) as m. generalize [1; 2; 3; 4; 5] as l.
  induction l as [|ip l IH]; intros t m Hrep; [done|]. cbn [foldl]. apply IH.
  destruct (neighbour_store_refines t m 0 ip (sample_mac ip) false Hrep) as (t' & -> & H). exact H.
Qed.

Lemma neighbour_remove_lookup_witness :
  neighbour_lookup (neighbour_remove sample_table 0 2).2 0 3 = Some [2; 0; 0; 0; 0; 3].
Proof.
  destruct (neighbour_remove_lookup sample_table sample_map 0 2 0 3 sample_table_represents) as [_ H].
  rewrite H. vm_compute. reflexivity.
Defined.
