(* ===== verification/Ipc.v ===== *)
(** The local socket protocol of [src/ipc.c]: header and datagram codecs and
    the request checks. *)
From S2P Require Import Prelude.
From S2P Require Import Dpdk.
From S2P Require Import Types.

(** * Messages *)

Definition IPC_MAGIC : Z := 1347636819.
Definition IPC_VERSION : Z := 1.
Definition IPC_HEADER_SIZE : Z := 64.
Definition IPC_PAYLOAD_MAX : Z := 8192.
Definition IPC_DGRAM_HEADER : Z := 12.

Definition IPC_HELLO : Z := 1.
Definition IPC_SOCKET : Z := 2.
Definition IPC_BIND : Z := 3.
Definition IPC_CONNECT : Z := 4.
Definition IPC_LISTEN : Z := 5.
Definition IPC_ACCEPT : Z := 6.
Definition IPC_SEND : Z := 7.
Definition IPC_RECV : Z := 8.
Definition IPC_SENDTO : Z := 9.
Definition IPC_RECVFROM : Z := 10.
Definition IPC_CLOSE : Z := 11.
Definition IPC_SENDMMSG : Z := 12.
Definition IPC_RECVMMSG : Z := 13.
Definition IPC_CLEANUP : Z := 65535.

(** [im_data] holds the bytes of [data] up to the last one written; the bytes
    behind are zero. *)
Record ipc_message : Type := mk_ipc_message {
  im_op : Z;
  im_id : Z;
  im_length : Z;
  im_fd : Z;
  im_a : Z;
  im_b : Z;
  im_c : Z;
  im_result : Z;
  im_addr : ps_sockaddr;
  im_data : list Z
}.
Definition zero_ipc_message : ipc_message := mk_ipc_message 0 0 0 0 0 0 0 0 zero_ps_sockaddr [].

Definition set_im_length (v : Z) (m : ipc_message) : ipc_message :=
  mk_ipc_message (im_op m) (im_id m) v (im_fd m) (im_a m) (im_b m) (im_c m) (im_result m) (im_addr m) (im_data m).
Definition set_im_fd (v : Z) (m : ipc_message) : ipc_message :=
  mk_ipc_message (im_op m) (im_id m) (im_length m) v (im_a m) (im_b m) (im_c m) (im_result m) (im_addr m) (im_data m).
Definition set_im_result (v : Z) (m : ipc_message) : ipc_message :=
  mk_ipc_message (im_op m) (im_id m) (im_length m) (im_fd m) (im_a m) (im_b m) (im_c m) v (im_addr m) (im_data m).
Definition set_im_addr (v : ps_sockaddr) (m : ipc_message) : ipc_message :=
  mk_ipc_message (im_op m) (im_id m) (im_length m) (im_fd m) (im_a m) (im_b m) (im_c m) (im_result m) v (im_data m).
Definition set_im_data (v : list Z) (m : ipc_message) : ipc_message :=
  mk_ipc_message (im_op m) (im_id m) (im_length m) (im_fd m) (im_a m) (im_b m) (im_c m) (im_result m) (im_addr m) v.

(** * Codecs *)

(** [memcpy(header, words, sizeof(words))]. *)
Definition words_bytes (words : list Z) : list Z := concat (le32 <$> words).

Definition ipc_encode (m : ipc_message) : list Z :=
  let words := [IPC_MAGIC; IPC_VERSION; im_op m; im_id m; im_length m; u32 (im_fd m); u32 (im_a m); u32 (im_b m);
                u32 (im_c m); 0; sa_port (im_addr m); u32 (im_result m); 0; 0; 0; 0] in
  write_at (words_bytes (htonl <$> words)) 36 (le32 (sa_ip_be (im_addr m))).

(** Word [i] of a header after [ntohl]. *)
Definition header_word (header : list Z) (i : nat) : Z := ntohl (rd_le32 header (4 * i)).

Definition ipc_decode (header : list Z) (m : ipc_message) : Z * ipc_message :=
  let word := header_word header in
  if negb (word 0%nat =? IPC_MAGIC) || negb (word 1%nat =? IPC_VERSION) || (IPC_PAYLOAD_MAX <? word 4%nat) ||
     (UINT16_MAX <? word 10%nat) || truth (word 12%nat) || truth (word 13%nat) || truth (word 14%nat) ||
     truth (word 15%nat) || negb (truth (word 3%nat)) then (- EPROTO, m) else
  (0, {| im_op := word 2%nat; im_id := word 3%nat; im_length := word 4%nat; im_fd := s32 (word 5%nat);
         im_a := s32 (word 6%nat); im_b := s32 (word 7%nat); im_c := s32 (word 8%nat);
         im_result := s32 (word 11%nat);
         im_addr := {| sa_ip_be := rd_le32 header 36; sa_port := u16 (word 10%nat) |}; im_data := [] |}).

Definition ipc_request_valid (m : ipc_message) : bool :=
  let op := im_op m in
  if (op <? IPC_HELLO) || (IPC_RECVMMSG <? op) || truth (im_result m) || (IPC_PAYLOAD_MAX <? im_length m) then false else
  if negb (op =? IPC_SEND) && negb (op =? IPC_SENDTO) && negb (op =? IPC_SENDMMSG) && negb (op =? IPC_RECVMMSG) &&
     truth (im_length m) then false else
  if ((op =? IPC_RECV) || (op =? IPC_RECVFROM)) && ((im_a m <? 0) || (IPC_PAYLOAD_MAX <? im_a m)) then false else
  if (op =? IPC_SENDMMSG) || (op =? IPC_RECVMMSG) then
    if (im_a m <? 1) || (PS_DGRAM_BATCH_MAX <? im_a m) then false else
    if (op =? IPC_RECVMMSG) && negb (im_length m =? u32 (im_a m) * 4) then false else
    if (op =? IPC_SENDMMSG) && (im_length m <? u32 (im_a m) * IPC_DGRAM_HEADER) then false else true
  else true.

(** The twelve bytes written at [data]. *)
Definition ipc_datagram_encode (addr : ps_sockaddr) (length : Z) : list Z :=
  le32 (sa_ip_be addr) ++ le32 (htonl (sa_port addr)) ++ le32 (htonl length).

(** [None] for [-EPROTO]. *)
Definition ipc_datagram_decode (data : list Z) (available : Z) : option (ps_sockaddr * Z) :=
  if available <? IPC_DGRAM_HEADER then None else
  let port := ntohl (rd_le32 data 4) in
  let size := ntohl (rd_le32 data 8) in
  if (UINT16_MAX <? port) || (PS_DGRAM_MAX_PAYLOAD <? size) || (available - IPC_DGRAM_HEADER <? size) then None else
  Some ({| sa_ip_be := rd_le32 data 0; sa_port := u16 port |}, size).

#[global] Arguments ipc_encode : simpl never.
#[global] Arguments ipc_decode : simpl never.
#[global] Arguments ipc_request_valid : simpl never.
#[global] Arguments header_word : simpl never.
#[global] Arguments ipc_datagram_encode : simpl never.
#[global] Arguments ipc_datagram_decode : simpl never.

(** * Specification *)

(** A message as the header can carry it. *)
Definition header_typed (m : ipc_message) : Prop :=
  is_u32 (im_op m) /\ is_u32 (im_id m) /\ im_id m <> 0 /\ 0 <= im_length m <= IPC_PAYLOAD_MAX /\
  is_s32 (im_fd m) /\ is_s32 (im_a m) /\ is_s32 (im_b m) /\ is_s32 (im_c m) /\ is_s32 (im_result m) /\
  is_u32 (sa_ip_be (im_addr m)) /\ is_u16 (sa_port (im_addr m)).

#[export] Instance header_typed_dec m : Decision (header_typed m).
Proof. unfold header_typed. apply _. Defined.

(** * Lemmas *)

Lemma rd_le32_words words i : Forall is_u32 words -> (i < length words)%nat ->
  rd_le32 (words_bytes words) (4 * i) = nth i words 0.
Proof.
  revert i. induction words as [|w words IH]; intros i Hw Hi; simpl in Hi; [lia|].
  apply Forall_cons_iff in Hw as [Hw Hws]. unfold words_bytes in *. rewrite fmap_cons. cbn [concat].
  destruct i as [|i]; [by apply rd_le32_le32|].
  rewrite (rd_le32_skip (le32 w) _ _ (4 * i)) by (rewrite length_le32; lia). apply IH; [done|lia].
Qed.

Lemma byte_at_le32 a b c d : is_u8 a -> is_u8 b -> is_u8 c -> is_u8 d ->
  le32 (d * 16777216 + c * 65536 + b * 256 + a) = [a; b; c; d].
Proof.
  intros. unfold le32. rewrite !byte_at_div by lia. simpl Z.mul. simpl Z.pow.
  repeat f_equal; unfold is_u8 in *; Z.div_mod_to_equations; lia.
Qed.

Lemma words_of_bytes n : forall h, length h = (4 * n)%nat -> Forall is_u8 h ->
  words_bytes ((fun i => rd_le32 h (4 * i)) <$> seq 0 n) = h.
Proof.
  induction n as [|n IH]; intros h Hl Hh.
  { by apply nil_length_inv in Hl as ->. }
  destruct h as [|a [|b [|c [|d h]]]]; try (simpl in Hl; lia).
  apply Forall_cons_iff in Hh as [Ha Hh]. apply Forall_cons_iff in Hh as [Hb Hh].
  apply Forall_cons_iff in Hh as [Hc Hh]. apply Forall_cons_iff in Hh as [Hd Hh].
  specialize (IH h ltac:(simpl in Hl; lia) Hh). unfold words_bytes in *. cbn [seq]. rewrite fmap_cons. cbn [concat].
  rewrite fmap_cons. cbn [concat].
  change (rd_le32 (a :: b :: c :: d :: h) (4 * 0)) with (d * 16777216 + c * 65536 + b * 256 + a).
  rewrite (byte_at_le32 a b c d) by done.
  cbn [app]. do 4 f_equal. etransitivity; [|exact IH]. f_equal. f_equal.
  rewrite <- fmap_S_seq, <- list_fmap_compose. apply list_fmap_ext. intros i k _. unfold compose.
  change (a :: b :: c :: d :: h) with ([a; b; c; d] ++ h). apply rd_le32_skip. simpl. lia.
Qed.

Lemma rd_le32_range h i : Forall is_u8 h -> is_u32 (rd_le32 h i).
Proof.
  intros Hh. assert (Hb : forall k, is_u8 (byte_of h k)).
  { intros k. unfold byte_of. destruct (h !! k) as [x|] eqn:E; [|done]. rewrite Forall_lookup in Hh. by apply (Hh k). }
  unfold rd_le32. assert (H0 := Hb i). assert (H1 := Hb (i + 1)%nat). assert (H2 := Hb (i + 2)%nat).
  assert (H3 := Hb (i + 3)%nat). unfold is_u8, is_u32 in *. lia.
Qed.

(** The words as they sit in memory. *)
Definition wire_words (m : ipc_message) : list Z :=
  [htonl IPC_MAGIC; htonl IPC_VERSION; htonl (im_op m); htonl (im_id m); htonl (im_length m); htonl (u32 (im_fd m));
   htonl (u32 (im_a m)); htonl (u32 (im_b m)); htonl (u32 (im_c m)); sa_ip_be (im_addr m); htonl (sa_port (im_addr m));
   htonl (u32 (im_result m)); htonl 0; htonl 0; htonl 0; htonl 0].

Lemma ipc_encode_words m : ipc_encode m = words_bytes (wire_words m).
Proof. reflexivity. Qed.

Lemma ntohl_htonl x : is_u32 x -> ntohl (htonl x) = x.
Proof. apply bswap32_involutive. Qed.
Lemma htonl_ntohl x : is_u32 x -> htonl (ntohl x) = x.
Proof. apply bswap32_involutive. Qed.

Lemma wire_words_typed m : header_typed m -> Forall is_u32 (wire_words m).
Proof. intros H. unfold wire_words. repeat constructor; try apply bswap32_range; apply H. Qed.

Lemma ipc_roundtrip m m0 : header_typed m ->
  ipc_decode (ipc_encode m) m0 = (0, set_im_data [] m).
Proof.
  intros Ht. rewrite ipc_encode_words. assert (Hw := wire_words_typed m Ht).
  assert (Hword : forall i, (i < 16)%nat -> header_word (words_bytes (wire_words m)) i = ntohl (nth i (wire_words m) 0)).
  { intros i Hi. unfold header_word. by rewrite rd_le32_words. }
  unfold ipc_decode. rewrite !Hword by lia.
  change (rd_le32 (words_bytes (wire_words m)) 36) with (rd_le32 (words_bytes (wire_words m)) (4 * 9)).
  rewrite rd_le32_words by (first [done | simpl; lia]). unfold wire_words. cbn [nth].
  destruct Ht as (Hop & Hid & Hid0 & Hlen & Hfd & Ha & Hb & Hc & Hres & Hip & Hport).
  rewrite !ntohl_htonl by first [done | apply u32_range | unfold is_u32, is_u16, IPC_PAYLOAD_MAX in *; lia].
  rewrite !s32_u32, u16_id by done. rewrite (proj2 (truth_true _) Hid0).
  replace (IPC_PAYLOAD_MAX <? im_length m) with false by (symmetry; apply Z.ltb_ge; lia).
  replace (UINT16_MAX <? sa_port (im_addr m)) with false by (symmetry; apply Z.ltb_ge; unfold is_u16, UINT16_MAX in *; lia).
  unfold set_im_data. by destruct m as [? ? ? ? ? ? ? ? [? ?] ?].
Qed.

Lemma seq16 : seq 0 16 = [0; 1; 2; 3; 4; 5; 6; 7; 8; 9; 10; 11; 12; 13; 14; 15]%nat.
Proof. done. Qed.

Lemma u32_s32 x : is_u32 x -> u32 (s32 x) = x.
Proof. intros H. unfold s32. cbv zeta. rewrite (u32_id x) by done. destruct (x <? 2147483648) eqn:E; bool_hyps; zlia. Qed.

Lemma ipc_decode_canonical h m0 m : length h = 64%nat -> Forall is_u8 h -> ipc_decode h m0 = (0, m) ->
  ipc_encode m = h /\ header_typed m.
Proof.
  intros Hl Hh. unfold ipc_decode. destruct (_ || _) eqn:E; [done|]. intros [= <-].
  repeat (apply orb_false_iff in E as [E ?]). bool_hyps.
  repeat match goal with H : truth _ = false |- _ => apply truth_false in H end.
  assert (Hr : forall i, is_u32 (header_word h i)) by (intros; apply bswap32_range).
  assert (Hn : forall i, htonl (header_word h i) = rd_le32 h (4 * i))
    by (intros; unfold header_word; apply htonl_ntohl, rd_le32_range; done).
  split.
  - rewrite ipc_encode_words. etransitivity; [|exact (words_of_bytes 16 h Hl Hh)]. f_equal. rewrite seq16. unfold wire_words.
    cbn [im_op im_id im_length im_fd im_a im_b im_c im_result im_addr sa_ip_be sa_port fmap list_fmap].
    assert (Hp : is_u16 (header_word h 10)) by (specialize (Hr 10%nat); unfold is_u32, is_u16, UINT16_MAX in *; lia).
    rewrite !u32_s32 by apply Hr. rewrite u16_id by exact Hp. rewrite <- !Hn. change (rd_le32 h 36) with (rd_le32 h (4 * 9)). rewrite <- Hn.
    repeat match goal with H : header_word h _ = _ |- _ => rewrite H; clear H end. done.
  - unfold header_typed. cbn. assert (Hlen := Hr 4%nat). unfold is_u32 in Hlen.
    split_and!; try apply Hr; try apply s32_range; try apply u16_range; try (by apply truth_true); try lia.
    all: apply rd_le32_range; done.
Qed.

Lemma datagram_roundtrip addr payload rest :
  is_u32 (sa_ip_be addr) -> is_u16 (sa_port addr) -> Z.of_nat (length payload) <= PS_DGRAM_MAX_PAYLOAD ->
  ipc_datagram_decode (ipc_datagram_encode addr (Z.of_nat (length payload)) ++ payload ++ rest)
    (IPC_DGRAM_HEADER + Z.of_nat (length payload) + Z.of_nat (length rest)) = Some (addr, Z.of_nat (length payload)).
Proof.
  intros Hip Hport Hlen. set (n := Z.of_nat (length payload)) in *. assert (0 <= n) by (unfold n; lia).
  assert (Hn : is_u32 n) by (unfold is_u32, PS_DGRAM_MAX_PAYLOAD in *; lia).
  assert (Hp : is_u32 (sa_port addr)) by (unfold is_u32, is_u16 in *; lia).
  unfold ipc_datagram_decode, ipc_datagram_encode. rewrite <- !app_assoc.
  set (tail := payload ++ rest).
  assert (E4 : rd_le32 (le32 (sa_ip_be addr) ++ le32 (htonl (sa_port addr)) ++ le32 (htonl n) ++ tail) 4 = htonl (sa_port addr)).
  { rewrite (rd_le32_skip _ _ 4 0) by done. apply rd_le32_le32, bswap32_range. }
  assert (E8 : rd_le32 (le32 (sa_ip_be addr) ++ le32 (htonl (sa_port addr)) ++ le32 (htonl n) ++ tail) 8 = htonl n).
  { rewrite (rd_le32_skip _ _ 8 4), (rd_le32_skip _ _ 4 0) by done. apply rd_le32_le32, bswap32_range. }
  rewrite E4, E8, rd_le32_le32, !ntohl_htonl, u16_id by done. unfold IPC_DGRAM_HEADER, UINT16_MAX, is_u16 in *.
  replace (12 + n + Z.of_nat (length rest) <? 12) with false by (symmetry; apply Z.ltb_ge; lia).
  replace (65535 <? sa_port addr) with false by (symmetry; apply Z.ltb_ge; lia).
  replace (PS_DGRAM_MAX_PAYLOAD <? n) with false by (symmetry; apply Z.ltb_ge; lia).
  replace (12 + n + Z.of_nat (length rest) - 12 <? n) with false by (symmetry; apply Z.ltb_ge; lia).
  by destruct addr.
Qed.

Lemma datagram_decode_bounds data available addr size :
  ipc_datagram_decode data available = Some (addr, size) ->
  IPC_DGRAM_HEADER + size <= available /\ 0 <= size <= PS_DGRAM_MAX_PAYLOAD /\ is_u16 (sa_port addr).
Proof.
  unfold ipc_datagram_decode. destruct (available <? _) eqn:E1; [done|]. destruct (_ || _) eqn:E2; [done|].
  intros [= <- <-]. bool_hyps. assert (Hs := bswap32_range (rd_le32 data 8)). unfold ntohl, is_u32 in *.
  split; [lia|]. split; [lia|]. apply u16_range.
Qed.

(** What a request that passes the checks guarantees to the dispatcher. *)
Lemma request_valid_bounds m : is_s32 (im_a m) -> ipc_request_valid m = true ->
  IPC_HELLO <= im_op m <= IPC_RECVMMSG /\ im_result m = 0 /\ im_length m <= IPC_PAYLOAD_MAX /\
  (im_op m = IPC_RECV \/ im_op m = IPC_RECVFROM -> 0 <= im_a m <= IPC_PAYLOAD_MAX) /\
  (im_op m = IPC_RECVMMSG -> 1 <= im_a m <= PS_DGRAM_BATCH_MAX /\ im_length m = 4 * im_a m) /\
  (im_op m = IPC_SENDMMSG -> 1 <= im_a m <= PS_DGRAM_BATCH_MAX /\ IPC_DGRAM_HEADER * im_a m <= im_length m).
Proof.
  intros Ha. unfold ipc_request_valid, IPC_HELLO, IPC_RECVMMSG, IPC_SENDMMSG, IPC_RECV, IPC_RECVFROM, IPC_SEND, IPC_SENDTO,
    PS_DGRAM_BATCH_MAX, IPC_PAYLOAD_MAX, IPC_DGRAM_HEADER.
  destruct (_ || _ || truth _ || _) eqn:E1; [done|]. destruct (_ && truth _); [done|].
  destruct (((im_op m =? 8) || _) && _) eqn:E3; [done|]. bool_hyps.
  repeat match goal with H : truth _ = false |- _ => apply truth_false in H end.
  assert (H3 : im_op m = 8 \/ im_op m = 10 -> 0 <= im_a m <= 8192).
  { intros Hop. apply andb_false_iff in E3 as [E3|E3]; bool_hyps; lia. }
  clear E3.
  destruct (Z.eqb_spec (im_op m) 12) as [E12|E12]; [|destruct (Z.eqb_spec (im_op m) 13) as [E13|E13]]; bsimpl.
  - destruct (_ || _) eqn:E4; [done|]. bool_hyps. replace (im_op m =? 13) with false by (symmetry; apply Z.eqb_neq; lia). bsimpl.
    destruct (_ <? _) eqn:E5; [done|]. bool_hyps. rewrite u32_id in E5 by (unfold is_u32; lia). intros _.
    split_and!; try done; try lia.
  - destruct (_ || _) eqn:E4; [done|]. bool_hyps. destruct (negb _) eqn:E5; [done|]. bool_hyps.
    rewrite u32_id in E5 by (unfold is_u32; lia). intros _. split_and!; try done; try lia.
  - intros _. split_and!; try done; lia.
Qed.

(** * Properties *)

(** The IPC header codec is a bijection: every message the header can carry
    survives encoding, and every 64-byte header the decoder accepts is the
    encoding of what it decoded. *)
Theorem ipc_header_bijection :
  (forall m m0, header_typed m -> ipc_decode (ipc_encode m) m0 = (0, set_im_data [] m)) /\
  (forall h m0 m, length h = Z.to_nat IPC_HEADER_SIZE -> Forall is_u8 h -> ipc_decode h m0 = (0, m) ->
     ipc_encode m = h /\ header_typed m).
Proof. split; [exact ipc_roundtrip|exact ipc_decode_canonical]. Qed.

(** A datagram record decodes to the address and length that were encoded,
    whatever follows it, and an accepted record never reaches past the bytes
    available. *)
Theorem ipc_datagram_codec :
  (forall addr payload rest,
     is_u32 (sa_ip_be addr) -> is_u16 (sa_port addr) -> Z.of_nat (length payload) <= PS_DGRAM_MAX_PAYLOAD ->
     ipc_datagram_decode (ipc_datagram_encode addr (Z.of_nat (length payload)) ++ payload ++ rest)
       (IPC_DGRAM_HEADER + Z.of_nat (length payload) + Z.of_nat (length rest)) = Some (addr, Z.of_nat (length payload))) /\
  (forall data available addr size, ipc_datagram_decode data available = Some (addr, size) ->
     IPC_DGRAM_HEADER + size <= available /\ 0 <= size <= PS_DGRAM_MAX_PAYLOAD /\ is_u16 (sa_port addr)).
Proof. split; [exact datagram_roundtrip|exact datagram_decode_bounds]. Qed.

(** * Witnesses *)

Definition sample_message : ipc_message :=
  mk_ipc_message IPC_BIND 7 0 3 0 0 0 (- EBADF) (mk_ps_sockaddr (htonl 167772161) 8080) [].

Lemma ipc_header_bijection_witness :
  ipc_decode (ipc_encode sample_message) zero_ipc_message = (0, sample_message) /\
  ipc_encode sample_message = ipc_encode sample_message /\ header_typed sample_message.
Proof.
  destruct ipc_header_bijection as [H1 H2].
  assert (E : ipc_decode (ipc_encode sample_message) zero_ipc_message = (0, sample_message))
    by (apply (H1 sample_message zero_ipc_message); compute_closed).
  split; [exact E|]. apply (H2 _ zero_ipc_message sample_message); [reflexivity|compute_closed|exact E].
Defined.

Lemma ipc_datagram_codec_witness :
  ipc_datagram_decode (ipc_datagram_encode (im_addr sample_message) 2 ++ [1; 2] ++ []) 14 = Some (im_addr sample_message, 2).
Proof.
  destruct ipc_datagram_codec as [H _].
  apply (H (im_addr sample_message) [1; 2] []); [compute_closed|compute_closed|vm_compute; discriminate].
Defined.
