(* ===== verification/Queue.v ===== *)
(** The single-producer single-consumer rings of [src/daemon/queue.c] between
    the control thread and the worker.  Besides the three functions run to
    completion, the file models push and pop as their individual loads, copies
    and stores, interleaved in any order; the acquire/release pairs of the source
    make this interleaving semantics the right one for the two indices. *)
From stdpp Require Import relations.
From S2P Require Import Prelude.
From S2P Require Import Dpdk.
From S2P Require Import Types.
From S2P Require Import Ipc.

Definition DAEMON_QUEUE_SIZE : Z := 64.

Record daemon_item : Type := mk_daemon_item {
  di_owner : Z;
  di_message : ipc_message
}.
Definition zero_daemon_item : daemon_item := mk_daemon_item 0 zero_ipc_message.

(** [read] and [write] are free-running unsigned counters. *)
Record daemon_queue : Type := mk_daemon_queue {
  dq_read : Z;
  dq_write : Z;
  dq_entries : list daemon_item
}.

Definition ring_slot (n : Z) : nat := Z.to_nat (n mod DAEMON_QUEUE_SIZE).

Definition daemon_queue_init (q : daemon_queue) : daemon_queue := mk_daemon_queue 0 0 (dq_entries q).

Definition daemon_queue_room (q : daemon_queue) : bool := u32 (dq_write q - dq_read q) <? DAEMON_QUEUE_SIZE.

Definition daemon_queue_push (q : daemon_queue) (item : daemon_item) : Z * daemon_queue :=
  if u32 (dq_write q - dq_read q) =? DAEMON_QUEUE_SIZE then (- 1, q) else
  (0, mk_daemon_queue (dq_read q) (u32 (dq_write q + 1)) (<[ring_slot (dq_write q) := item]> (dq_entries q))).

(** The item, or [None] for return code -1. *)
Definition daemon_queue_pop (q : daemon_queue) : option daemon_item * daemon_queue :=
  if dq_read q =? dq_write q then (None, q) else
  (Some (nth (ring_slot (dq_read q)) (dq_entries q) zero_daemon_item),
   mk_daemon_queue (u32 (dq_read q + 1)) (dq_write q) (dq_entries q)).

(** * The interleaved spsc_machine *)

(** Where the producer is inside [daemon_queue_push]: before the call, after the
    load of [write], after the load of [read] and the test, after the copy. *)
Inductive producer : Type :=
| PIdle
| PLoaded (item : daemon_item) (write : Z)
| PChecked (item : daemon_item) (write : Z)
| PCopied (item : daemon_item) (write : Z).

(** The same for the consumer inside [daemon_queue_pop]. *)
Inductive consumer : Type :=
| CIdle
| CLoaded (read : Z)
| CChecked (read : Z)
| CCopied (item : daemon_item) (read : Z).

(** The shared queue, both threads, and the history of items whose push and pop
    completed. *)
Record spsc_machine : Type := mk_spsc {
  mc_queue : daemon_queue;
  mc_producer : producer;
  mc_consumer : consumer;
  mc_pushed : list daemon_item;
  mc_popped : list daemon_item
}.

Inductive spsc_step : spsc_machine -> spsc_machine -> Prop :=
| push_load item q c pushed popped :
    spsc_step (mk_spsc q PIdle c pushed popped) (mk_spsc q (PLoaded item (dq_write q)) c pushed popped)
| push_full item w q c pushed popped : u32 (w - dq_read q) = DAEMON_QUEUE_SIZE ->
    spsc_step (mk_spsc q (PLoaded item w) c pushed popped) (mk_spsc q PIdle c pushed popped)
| push_check item w q c pushed popped : u32 (w - dq_read q) <> DAEMON_QUEUE_SIZE ->
    spsc_step (mk_spsc q (PLoaded item w) c pushed popped) (mk_spsc q (PChecked item w) c pushed popped)
| push_copy item w q c pushed popped :
    spsc_step (mk_spsc q (PChecked item w) c pushed popped)
      (mk_spsc (mk_daemon_queue (dq_read q) (dq_write q) (<[ring_slot w := item]> (dq_entries q)))
         (PCopied item w) c pushed popped)
| push_publish item w q c pushed popped :
    spsc_step (mk_spsc q (PCopied item w) c pushed popped)
      (mk_spsc (mk_daemon_queue (dq_read q) (u32 (w + 1)) (dq_entries q)) PIdle c (pushed ++ [item]) popped)
| pop_load q p pushed popped :
    spsc_step (mk_spsc q p CIdle pushed popped) (mk_spsc q p (CLoaded (dq_read q)) pushed popped)
| pop_empty r q p pushed popped : r = dq_write q ->
    spsc_step (mk_spsc q p (CLoaded r) pushed popped) (mk_spsc q p CIdle pushed popped)
| pop_check r q p pushed popped : r <> dq_write q ->
    spsc_step (mk_spsc q p (CLoaded r) pushed popped) (mk_spsc q p (CChecked r) pushed popped)
| pop_copy r q p pushed popped :
    spsc_step (mk_spsc q p (CChecked r) pushed popped)
      (mk_spsc q p (CCopied (nth (ring_slot r) (dq_entries q) zero_daemon_item) r) pushed popped)
| pop_publish item r q p pushed popped :
    spsc_step (mk_spsc q p (CCopied item r) pushed popped)
      (mk_spsc (mk_daemon_queue (u32 (r + 1)) (dq_write q) (dq_entries q)) p CIdle pushed (popped ++ [item])).

Definition initial (q : daemon_queue) : spsc_machine := mk_spsc (daemon_queue_init q) PIdle CIdle [] [].

(** * Invariant *)

(** Completed pushes and pops as unbounded counters. *)
Definition pushes (s : spsc_machine) : Z := Z.of_nat (length (mc_pushed s)).
Definition pops (s : spsc_machine) : Z := Z.of_nat (length (mc_popped s)).

(** Slot of item number [k] holds it. *)
Definition stored (q : daemon_queue) (k : Z) (item : daemon_item) : Prop :=
  dq_entries q !! ring_slot k = Some item.

Definition producer_inv (s : spsc_machine) : Prop :=
  match mc_producer s with
  | PIdle => True
  | PLoaded _ w => w = u32 (pushes s)
  | PChecked _ w => w = u32 (pushes s) /\ pushes s < pops s + DAEMON_QUEUE_SIZE
  | PCopied item w => w = u32 (pushes s) /\ pushes s < pops s + DAEMON_QUEUE_SIZE /\ stored (mc_queue s) (pushes s) item
  end.

Definition consumer_inv (s : spsc_machine) : Prop :=
  match mc_consumer s with
  | CIdle => True
  | CLoaded r => r = u32 (pops s)
  | CChecked r => r = u32 (pops s) /\ pops s < pushes s
  | CCopied item r => r = u32 (pops s) /\ pops s < pushes s /\ mc_pushed s !! length (mc_popped s) = Some item
  end.

Record queue_inv (s : spsc_machine) : Prop := {
  qi_slots : length (dq_entries (mc_queue s)) = Z.to_nat DAEMON_QUEUE_SIZE;
  qi_read : dq_read (mc_queue s) = u32 (pops s);
  qi_write : dq_write (mc_queue s) = u32 (pushes s);
  qi_room : pops s <= pushes s <= pops s + DAEMON_QUEUE_SIZE;
  qi_fifo : mc_popped s = take (length (mc_popped s)) (mc_pushed s);
  qi_live : forall k item, (length (mc_popped s) <= k)%nat -> mc_pushed s !! k = Some item ->
    stored (mc_queue s) (Z.of_nat k) item;
  qi_producer : producer_inv s;
  qi_consumer : consumer_inv s
}.

(** * Lemmas *)

(** Counters at width 32 keep their slot and their difference. *)
Lemma ring_slot_u32 n : ring_slot (u32 n) = ring_slot n.
Proof. unfold ring_slot, u32, DAEMON_QUEUE_SIZE. f_equal. Z.div_mod_to_equations; lia. Qed.

Lemma u32_difference a b : 0 <= a - b <= DAEMON_QUEUE_SIZE -> u32 (u32 a - u32 b) = a - b.
Proof. unfold u32, DAEMON_QUEUE_SIZE. intros. Z.div_mod_to_equations; lia. Qed.

Lemma u32_succ a : u32 (u32 a + 1) = u32 (a + 1).
Proof. unfold u32. by rewrite Z.add_mod_idemp_l. Qed.

Lemma ring_slot_distinct a b : 0 < a - b < DAEMON_QUEUE_SIZE -> ring_slot a <> ring_slot b.
Proof.
  unfold ring_slot, DAEMON_QUEUE_SIZE. intros H E. apply Z2Nat.inj in E; [|apply Z.mod_pos_bound; lia..].
  Z.div_mod_to_equations; lia.
Qed.

Lemma ring_slot_lt n : (ring_slot n < Z.to_nat DAEMON_QUEUE_SIZE)%nat.
Proof. unfold ring_slot, DAEMON_QUEUE_SIZE. assert (H := Z.mod_pos_bound n 64 ltac:(lia)). lia. Qed.

Lemma initial_inv q : length (dq_entries q) = Z.to_nat DAEMON_QUEUE_SIZE -> queue_inv (initial q).
Proof. intros Hl. by constructor. Qed.

(** Unfolds the counters of a spsc_machine given field by field. *)
Ltac spsc_machine := unfold producer_inv, consumer_inv, stored, pushes, pops in *;
  cbn [mc_queue mc_producer mc_consumer mc_pushed mc_popped dq_read dq_write dq_entries] in *.

Lemma fifo_extend (popped pushed : list daemon_item) item : popped = take (length popped) pushed ->
  pushed !! length popped = Some item -> popped ++ [item] = take (length (popped ++ [item])) pushed.
Proof. intros H Hi. rewrite length_app, Nat.add_1_r. erewrite take_S_r by done. by rewrite <- H. Qed.

Lemma take_snoc_fifo (popped pushed : list daemon_item) item : popped = take (length popped) pushed ->
  popped = take (length popped) (pushed ++ [item]).
Proof.
  intros H. destruct (decide (length popped <= length pushed)%nat).
  - by rewrite take_app_le.
  - assert (Hl := f_equal length H). rewrite length_take in Hl. lia.
Qed.

Lemma step_inv s s' : spsc_step s s' -> queue_inv s -> queue_inv s'.
Proof.
  intros Hstep [Hsl Hrd Hwr Hroom Hfifo Hlive Hp Hc].
  destruct Hstep as [item q c pushed popped|item w q c pushed popped Hfull|item w q c pushed popped Hne|item w q c pushed popped
    |item w q c pushed popped|q p pushed popped|r q p pushed popped He|r q p pushed popped Hne|r q p pushed popped
    |item r q p pushed popped]; spsc_machine.
  - by constructor; spsc_machine.
  - by constructor; spsc_machine.
  - constructor; spsc_machine; try done. split; [done|]. subst w. rewrite Hrd, u32_difference in Hne by lia. lia.
  - destruct Hp as [-> Hlt]. constructor; spsc_machine; try done.
    + by rewrite length_insert.
    + intros k x Hk Hx. assert (Hkl := lookup_lt_Some _ _ _ Hx). rewrite ring_slot_u32, list_lookup_insert_ne; [by apply Hlive|].
      apply ring_slot_distinct. lia.
    + split; [done|]. split; [done|]. rewrite ring_slot_u32, list_lookup_insert_eq; [done|]. rewrite Hsl. apply ring_slot_lt.
  - destruct Hp as (-> & Hlt & Hst). rewrite u32_succ. constructor; spsc_machine; rewrite ?length_app; simpl length; try done.
    + f_equal. lia.
    + lia.
    + by apply take_snoc_fifo.
    + intros k x Hk [Hx|[Hkl Hx]]%lookup_app_Some; [by apply Hlive|].
      apply list_lookup_singleton_Some in Hx as [Hk0 <-]. by replace k with (length pushed) by lia.
    + destruct c as [|r|r|x r]; try done.
      * destruct Hc. split; [done|lia].
      * destruct Hc as (? & ? & ?). split; [done|]. split; [lia|]. by apply lookup_app_l_Some.
  - constructor; spsc_machine; try done.
  - constructor; spsc_machine; try done.
  - constructor; spsc_machine; try done. split; [done|]. subst r.
    destruct (decide (length popped = length pushed)) as [E|]; [rewrite Hwr, E in Hne; done|lia].
  - destruct Hc as [-> Hlt]. constructor; spsc_machine; try done. split; [done|]. split; [done|].
    destruct (lookup_lt_is_Some_2 pushed (length popped)) as [x Hx]; [lia|]. rewrite Hx. f_equal.
    rewrite ring_slot_u32. symmetry. apply nth_lookup_Some. by apply Hlive.
  - destruct Hc as (-> & Hlt & Hit). rewrite u32_succ. constructor; spsc_machine; rewrite ?length_app; simpl length; try done.
    + f_equal. lia.
    + lia.
    + rewrite <- length_app with (l' := [item]). by apply fifo_extend.
    + intros k x Hk Hx. apply Hlive; [lia|done].
    + destruct p as [|x w|x w|x w]; try done.
      * destruct Hp. split; [done|lia].
      * destruct Hp as (? & ? & ?). split; [done|]. split; [lia|done].
Qed.

Lemma reachable_inv q s : length (dq_entries q) = Z.to_nat DAEMON_QUEUE_SIZE -> rtc spsc_step (initial q) s -> queue_inv s.
Proof.
  intros Hl H. assert (H0 := initial_inv q Hl). induction H as [x|x y z Hxy _ IH]; [done|].
  apply IH. by eapply step_inv.
Qed.

(** ** Run to completion *)

(** The queue holds the items [l], oldest first. *)
Definition queue_holds (q : daemon_queue) (l : list daemon_item) : Prop :=
  length (dq_entries q) = Z.to_nat DAEMON_QUEUE_SIZE /\ Z.of_nat (length l) <= DAEMON_QUEUE_SIZE /\
  is_u32 (dq_read q) /\ dq_write q = u32 (dq_read q + Z.of_nat (length l)) /\
  forall k item, l !! k = Some item -> dq_entries q !! ring_slot (dq_read q + Z.of_nat k) = Some item.

Lemma queue_holds_count q l : queue_holds q l -> u32 (dq_write q - dq_read q) = Z.of_nat (length l).
Proof.
  intros (_ & Hn & Hr & Hw & _). rewrite Hw. unfold DAEMON_QUEUE_SIZE, u32, is_u32 in *. Z.div_mod_to_equations; lia.
Qed.

Lemma push_holds q l item : queue_holds q l ->
  daemon_queue_push q item =
    (if Z.of_nat (length l) =? DAEMON_QUEUE_SIZE then (- 1, q) else (0, (daemon_queue_push q item).2)) /\
  (Z.of_nat (length l) < DAEMON_QUEUE_SIZE -> queue_holds (daemon_queue_push q item).2 (l ++ [item])).
Proof.
  intros Hq. unfold daemon_queue_push. rewrite (queue_holds_count q l Hq).
  split; [by destruct (_ =? _)|]. intros Hlt. replace (_ =? _) with false by (symmetry; apply Z.eqb_neq; lia). bsimpl.
  destruct Hq as (Hl & Hn & Hr & Hw & Hlive). unfold queue_holds. cbn [dq_read dq_write dq_entries].
  split; [by rewrite length_insert|]. rewrite length_app. cbn [length].
  split; [lia|]. split; [done|]. split.
  { rewrite Hw, u32_succ. f_equal. lia. }
  intros k x [Hx|[Hk Hx]]%lookup_app_Some.
  - assert (Hkl := lookup_lt_Some _ _ _ Hx). rewrite Hw, ring_slot_u32, list_lookup_insert_ne; [by apply Hlive|].
    apply ring_slot_distinct. lia.
  - apply list_lookup_singleton_Some in Hx as [Hk0 <-]. replace k with (length l) by lia.
    rewrite Hw, ring_slot_u32, list_lookup_insert_eq; [done|]. rewrite Hl. apply ring_slot_lt.
Qed.

Lemma pop_holds q l : queue_holds q l ->
  match l with
  | [] => daemon_queue_pop q = (None, q)
  | item :: l' => (daemon_queue_pop q).1 = Some item /\ queue_holds (daemon_queue_pop q).2 l'
  end.
Proof.
  intros Hq. assert (Hc := queue_holds_count q l Hq). destruct Hq as (Hl & Hn & Hr & Hw & Hlive).
  unfold daemon_queue_pop. destruct l as [|item l].
  - replace (dq_read q =? dq_write q) with true; [done|]. symmetry. apply Z.eqb_eq. rewrite Hw. simpl. rewrite Z.add_0_r, u32_id by done. done.
  - replace (dq_read q =? dq_write q) with false.
    2:{ symmetry. apply Z.eqb_neq. intros E. rewrite <- E, Z.sub_diag in Hc. simpl in Hc. unfold u32 in Hc. rewrite Z.mod_0_l in Hc; lia. }
    cbn [fst snd]. assert (H0 := Hlive O item eq_refl). rewrite Z.add_0_r in H0. split; [by rewrite (nth_lookup_Some _ _ _ _ H0)|].
    cbn [length] in *. split; [done|]. split; [lia|]. split; [apply u32_range|]. cbn [dq_read dq_write dq_entries]. split.
    { rewrite Hw. unfold u32. rewrite Z.add_mod_idemp_l by lia. f_equal. lia. }
    intros k x Hx. assert (Hs := Hlive (S k) x Hx).
    replace (ring_slot (u32 (dq_read q + 1) + Z.of_nat k)) with (ring_slot (dq_read q + Z.of_nat (S k))); [done|].
    rewrite <- (ring_slot_u32 (u32 _ + _)). rewrite <- ring_slot_u32. f_equal. unfold u32. rewrite Z.add_mod_idemp_l by lia. f_equal. lia.
Qed.

(** * Properties *)

(** C26: however the loads, copies and stores of the two threads interleave, and
    through any number of wrap-arounds of the 32-bit counters, the items popped
    are a prefix of the items pushed, in order and without loss or duplication,
    and never more than 64 are in flight. *)
Theorem spsc_fifo q s : length (dq_entries q) = Z.to_nat DAEMON_QUEUE_SIZE -> rtc spsc_step (initial q) s ->
  mc_popped s `prefix_of` mc_pushed s /\ pushes s - pops s <= DAEMON_QUEUE_SIZE.
Proof.
  intros Hl H. assert (Hi := reachable_inv q s Hl H). split; [|assert (Hr := qi_room s Hi); lia].
  rewrite (qi_fifo s Hi). apply prefix_take.
Qed.

(** The copies never race: whenever the producer is about to write a slot
    and the consumer about to read one, the slots differ. *)
Theorem spsc_race_free q s item w r : length (dq_entries q) = Z.to_nat DAEMON_QUEUE_SIZE -> rtc spsc_step (initial q) s ->
  mc_producer s = PChecked item w -> mc_consumer s = CChecked r -> ring_slot w <> ring_slot r.
Proof.
  intros Hl H Hp Hc. assert (Hi := reachable_inv q s Hl H). assert (Hpi := qi_producer s Hi). assert (Hci := qi_consumer s Hi).
  unfold producer_inv in Hpi. unfold consumer_inv in Hci. rewrite Hp in Hpi. rewrite Hc in Hci.
  destruct Hpi as [-> H1], Hci as [-> H2]. rewrite !ring_slot_u32. apply ring_slot_distinct. lia.
Qed.

(** Run to completion, push and pop implement a bounded FIFO list: push
    fails exactly when 64 items are held and otherwise appends, pop takes the
    oldest item, and [daemon_queue_room] tells whether a push would succeed. *)
Theorem queue_implements_fifo q l item : queue_holds q l ->
  daemon_queue_room q = (Z.of_nat (length l) <? DAEMON_QUEUE_SIZE) /\
  ((daemon_queue_push q item).1 = if daemon_queue_room q then 0 else - 1) /\
  (daemon_queue_room q = true -> queue_holds (daemon_queue_push q item).2 (l ++ [item])) /\
  match l with
  | [] => daemon_queue_pop q = (None, q)
  | x :: l' => (daemon_queue_pop q).1 = Some x /\ queue_holds (daemon_queue_pop q).2 l'
  end.
Proof.
  intros Hq. assert (Hroom : daemon_queue_room q = (Z.of_nat (length l) <? DAEMON_QUEUE_SIZE)).
  { unfold daemon_queue_room. by rewrite (queue_holds_count q l Hq). }
  destruct (push_holds q l item Hq) as [Hp1 Hp2]. split; [done|]. rewrite Hroom. split; [|split].
  - rewrite Hp1. destruct Hq as (_ & Hn & _).
    destruct (Z.eqb_spec (Z.of_nat (length l)) DAEMON_QUEUE_SIZE), (Z.ltb_spec (Z.of_nat (length l)) DAEMON_QUEUE_SIZE); simpl; lia.
  - intros H%Z.ltb_lt. by apply Hp2.
  - by apply pop_holds.
Qed.

(** * Witnesses *)

Definition sample_queue : daemon_queue := mk_daemon_queue 0 0 (replicate 64 zero_daemon_item).

(** A push followed by the start of a pop. *)
Definition sample_machine : spsc_machine :=
  mk_spsc (daemon_queue_push sample_queue (mk_daemon_item 1 zero_ipc_message)).2
    (PChecked (mk_daemon_item 2 zero_ipc_message) 1) (CChecked 0) [mk_daemon_item 1 zero_ipc_message] [].

Lemma sample_machine_reachable : rtc spsc_step (initial sample_queue) sample_machine.
Proof.
  eapply rtc_l; [apply (push_load (mk_daemon_item 1 zero_ipc_message))|].
  eapply rtc_l; [apply push_check; done|]. eapply rtc_l; [apply push_copy|]. eapply rtc_l; [apply push_publish|].
  eapply rtc_l; [apply pop_load|]. eapply rtc_l; [apply pop_check; done|].
  eapply rtc_l; [apply (push_load (mk_daemon_item 2 zero_ipc_message))|]. eapply rtc_l; [apply push_check; done|].
  apply rtc_refl.
Qed.

Lemma spsc_fifo_witness : mc_popped sample_machine `prefix_of` mc_pushed sample_machine.
Proof. apply (spsc_fifo sample_queue sample_machine eq_refl sample_machine_reachable). Defined.

Lemma spsc_race_free_witness : ring_slot 1 <> ring_slot 0.
Proof.
  exact (spsc_race_free sample_queue sample_machine _ 1 0 eq_refl sample_machine_reachable eq_refl eq_refl).
Defined.

Lemma queue_implements_fifo_witness : queue_holds sample_queue [] /\ daemon_queue_room sample_queue = true.
Proof.
  assert (H : queue_holds sample_queue []) by (split; [done|]; split; [done|]; split; [done|]; split; [done|]; intros k x Hx; done).
  split; [exact H|]. destruct (queue_implements_fifo sample_queue [] zero_daemon_item H) as (Hr & _). exact Hr.
Defined.
