(* ===== verification/Control.v ===== *)
(** The control thread of [src/daemon/control.c]: the client sessions of the
    daemon, their handles, frames and requests.  The kernel is an argument: what
    [accept4], [recv], [send] and [poll] answer comes in with each round.  The
    thread shares only the two rings and the atomic flags with the worker. *)
From S2P Require Import Prelude.
From S2P Require Import Dpdk.
From S2P Require Import Types.
From S2P Require Import Ipc.
From S2P Require Import Queue.

Definition DAEMON_CLIENT_MAX : Z := 64.
Definition DAEMON_SOCKET_MAX : Z := 256.
Definition IPC_FRAME_MAX : Z := IPC_HEADER_SIZE + IPC_PAYLOAD_MAX.
Definition IPC_FEATURE_DGRAM_BATCH : Z := 1.
Definition EINTR : Z := 4.

(** * State *)

(** A handle of a client and the core descriptor it stands for; [dh_local = 0] is a free entry. *)
Record daemon_handle : Type := mk_daemon_handle {
  dh_local : Z;
  dh_core : Z
}.
Definition zero_daemon_handle : daemon_handle := mk_daemon_handle 0 0.
#[export] Instance daemon_handle_inhabited : Inhabited daemon_handle := populate zero_daemon_handle.
Definition set_dh_local (v : Z) (r : daemon_handle) : daemon_handle := mk_daemon_handle v (dh_core r).
Definition set_dh_core (v : Z) (r : daemon_handle) : daemon_handle := mk_daemon_handle (dh_local r) v.
#[export] Instance daemon_handle_eq_dec : EqDecision daemon_handle.
Proof. solve_decision. Defined.

(** [struct daemon_client].  [dc_header] and [im_data (dc_input c)] hold the bytes received so far, [dc_output] the last frame. *)
Record daemon_client : Type := mk_daemon_client {
  dc_fd : Z;
  dc_pidfd : Z;
  dc_dead : bool;
  dc_pending : bool;
  dc_cleanup : bool;
  dc_hello : bool;
  dc_next_handle : Z;
  dc_owner : Z;
  dc_last_id : Z;
  dc_have : Z;
  dc_target : Z;
  dc_sent : Z;
  dc_output_length : Z;
  dc_input : ipc_message;
  dc_header : list Z;
  dc_output : list Z;
  dc_handles : list daemon_handle
}.
Definition zero_daemon_client : daemon_client := mk_daemon_client 0 0 false false false false 0 0 0 0 0 0 0 zero_ipc_message [] [] (replicate (Z.to_nat DAEMON_SOCKET_MAX) zero_daemon_handle).
#[export] Instance daemon_client_inhabited : Inhabited daemon_client := populate zero_daemon_client.
Definition set_dc_fd (v : Z) (r : daemon_client) : daemon_client := mk_daemon_client v (dc_pidfd r) (dc_dead r) (dc_pending r) (dc_cleanup r) (dc_hello r) (dc_next_handle r) (dc_owner r) (dc_last_id r) (dc_have r) (dc_target r) (dc_sent r) (dc_output_length r) (dc_input r) (dc_header r) (dc_output r) (dc_handles r).
Definition set_dc_pidfd (v : Z) (r : daemon_client) : daemon_client := mk_daemon_client (dc_fd r) v (dc_dead r) (dc_pending r) (dc_cleanup r) (dc_hello r) (dc_next_handle r) (dc_owner r) (dc_last_id r) (dc_have r) (dc_target r) (dc_sent r) (dc_output_length r) (dc_input r) (dc_header r) (dc_output r) (dc_handles r).
Definition set_dc_dead (v : bool) (r : daemon_client) : daemon_client := mk_daemon_client (dc_fd r) (dc_pidfd r) v (dc_pending r) (dc_cleanup r) (dc_hello r) (dc_next_handle r) (dc_owner r) (dc_last_id r) (dc_have r) (dc_target r) (dc_sent r) (dc_output_length r) (dc_input r) (dc_header r) (dc_output r) (dc_handles r).
Definition set_dc_pending (v : bool) (r : daemon_client) : daemon_client := mk_daemon_client (dc_fd r) (dc_pidfd r) (dc_dead r) v (dc_cleanup r) (dc_hello r) (dc_next_handle r) (dc_owner r) (dc_last_id r) (dc_have r) (dc_target r) (dc_sent r) (dc_output_length r) (dc_input r) (dc_header r) (dc_output r) (dc_handles r).
Definition set_dc_cleanup (v : bool) (r : daemon_client) : daemon_client := mk_daemon_client (dc_fd r) (dc_pidfd r) (dc_dead r) (dc_pending r) v (dc_hello r) (dc_next_handle r) (dc_owner r) (dc_last_id r) (dc_have r) (dc_target r) (dc_sent r) (dc_output_length r) (dc_input r) (dc_header r) (dc_output r) (dc_handles r).
Definition set_dc_hello (v : bool) (r : daemon_client) : daemon_client := mk_daemon_client (dc_fd r) (dc_pidfd r) (dc_dead r) (dc_pending r) (dc_cleanup r) v (dc_next_handle r) (dc_owner r) (dc_last_id r) (dc_have r) (dc_target r) (dc_sent r) (dc_output_length r) (dc_input r) (dc_header r) (dc_output r) (dc_handles r).
Definition set_dc_next_handle (v : Z) (r : daemon_client) : daemon_client := mk_daemon_client (dc_fd r) (dc_pidfd r) (dc_dead r) (dc_pending r) (dc_cleanup r) (dc_hello r) v (dc_owner r) (dc_last_id r) (dc_have r) (dc_target r) (dc_sent r) (dc_output_length r) (dc_input r) (dc_header r) (dc_output r) (dc_handles r).
Definition set_dc_owner (v : Z) (r : daemon_client) : daemon_client := mk_daemon_client (dc_fd r) (dc_pidfd r) (dc_dead r) (dc_pending r) (dc_cleanup r) (dc_hello r) (dc_next_handle r) v (dc_last_id r) (dc_have r) (dc_target r) (dc_sent r) (dc_output_length r) (dc_input r) (dc_header r) (dc_output r) (dc_handles r).
Definition set_dc_last_id (v : Z) (r : daemon_client) : daemon_client := mk_daemon_client (dc_fd r) (dc_pidfd r) (dc_dead r) (dc_pending r) (dc_cleanup r) (dc_hello r) (dc_next_handle r) (dc_owner r) v (dc_have r) (dc_target r) (dc_sent r) (dc_output_length r) (dc_input r) (dc_header r) (dc_output r) (dc_handles r).
Definition set_dc_have (v : Z) (r : daemon_client) : daemon_client := mk_daemon_client (dc_fd r) (dc_pidfd r) (dc_dead r) (dc_pending r) (dc_cleanup r) (dc_hello r) (dc_next_handle r) (dc_owner r) (dc_last_id r) v (dc_target r) (dc_sent r) (dc_output_length r) (dc_input r) (dc_header r) (dc_output r) (dc_handles r).
Definition set_dc_target (v : Z) (r : daemon_client) : daemon_client := mk_daemon_client (dc_fd r) (dc_pidfd r) (dc_dead r) (dc_pending r) (dc_cleanup r) (dc_hello r) (dc_next_handle r) (dc_owner r) (dc_last_id r) (dc_have r) v (dc_sent r) (dc_output_length r) (dc_input r) (dc_header r) (dc_output r) (dc_handles r).
Definition set_dc_sent (v : Z) (r : daemon_client) : daemon_client := mk_daemon_client (dc_fd r) (dc_pidfd r) (dc_dead r) (dc_pending r) (dc_cleanup r) (dc_hello r) (dc_next_handle r) (dc_owner r) (dc_last_id r) (dc_have r) (dc_target r) v (dc_output_length r) (dc_input r) (dc_header r) (dc_output r) (dc_handles r).
Definition set_dc_output_length (v : Z) (r : daemon_client) : daemon_client := mk_daemon_client (dc_fd r) (dc_pidfd r) (dc_dead r) (dc_pending r) (dc_cleanup r) (dc_hello r) (dc_next_handle r) (dc_owner r) (dc_last_id r) (dc_have r) (dc_target r) (dc_sent r) v (dc_input r) (dc_header r) (dc_output r) (dc_handles r).
Definition set_dc_input (v : ipc_message) (r : daemon_client) : daemon_client := mk_daemon_client (dc_fd r) (dc_pidfd r) (dc_dead r) (dc_pending r) (dc_cleanup r) (dc_hello r) (dc_next_handle r) (dc_owner r) (dc_last_id r) (dc_have r) (dc_target r) (dc_sent r) (dc_output_length r) v (dc_header r) (dc_output r) (dc_handles r).
Definition set_dc_header (v : list Z) (r : daemon_client) : daemon_client := mk_daemon_client (dc_fd r) (dc_pidfd r) (dc_dead r) (dc_pending r) (dc_cleanup r) (dc_hello r) (dc_next_handle r) (dc_owner r) (dc_last_id r) (dc_have r) (dc_target r) (dc_sent r) (dc_output_length r) (dc_input r) v (dc_output r) (dc_handles r).
Definition set_dc_output (v : list Z) (r : daemon_client) : daemon_client := mk_daemon_client (dc_fd r) (dc_pidfd r) (dc_dead r) (dc_pending r) (dc_cleanup r) (dc_hello r) (dc_next_handle r) (dc_owner r) (dc_last_id r) (dc_have r) (dc_target r) (dc_sent r) (dc_output_length r) (dc_input r) (dc_header r) v (dc_handles r).
Definition set_dc_handles (v : list daemon_handle) (r : daemon_client) : daemon_client := mk_daemon_client (dc_fd r) (dc_pidfd r) (dc_dead r) (dc_pending r) (dc_cleanup r) (dc_hello r) (dc_next_handle r) (dc_owner r) (dc_last_id r) (dc_have r) (dc_target r) (dc_sent r) (dc_output_length r) (dc_input r) (dc_header r) (dc_output r) v.

(** What the worker may read of a client. *)
Record daemon_identity : Type := mk_daemon_identity {
  id_owner : Z;
  id_pid : Z;
  id_uid : Z
}.
Definition zero_daemon_identity : daemon_identity := mk_daemon_identity 0 0 0.
#[export] Instance daemon_identity_inhabited : Inhabited daemon_identity := populate zero_daemon_identity.
Definition set_id_owner (v : Z) (r : daemon_identity) : daemon_identity := mk_daemon_identity v (id_pid r) (id_uid r).
Definition set_id_pid (v : Z) (r : daemon_identity) : daemon_identity := mk_daemon_identity (id_owner r) v (id_uid r).
Definition set_id_uid (v : Z) (r : daemon_identity) : daemon_identity := mk_daemon_identity (id_owner r) (id_pid r) v.
#[export] Instance daemon_identity_eq_dec : EqDecision daemon_identity.
Proof. solve_decision. Defined.

(** What crossed the rings, oldest first: the history of the thread. *)
Inductive control_event : Type :=
| Submitted (item : daemon_item)
| Took (item : daemon_item).

(** [struct daemon_service]; the descriptors are -1 when there is none.  [ds_open] lists the descriptors the process holds for the service and [ds_log] is the history; no operation reads them. *)
Record daemon_service : Type := mk_daemon_service {
  ds_requests : daemon_queue;
  ds_responses : daemon_queue;
  ds_stopping : bool;
  ds_done : bool;
  ds_failed : bool;
  ds_listener : Z;
  ds_lock_fd : Z;
  ds_response_fd : Z;
  ds_max_clients : Z;
  ds_max_sockets : Z;
  ds_next_owner : Z;
  ds_socket_device : Z;
  ds_socket_inode : Z;
  ds_path : string;
  ds_clients : list daemon_client;
  ds_identities : list daemon_identity;
  ds_open : list Z;
  ds_log : list control_event
}.
Definition zero_daemon_service : daemon_service := mk_daemon_service (mk_daemon_queue 0 0 (replicate (Z.to_nat DAEMON_QUEUE_SIZE) zero_daemon_item)) (mk_daemon_queue 0 0 (replicate (Z.to_nat DAEMON_QUEUE_SIZE) zero_daemon_item)) false false false (-1) (-1) (-1) 0 0 0 0 0 EmptyString [] [] [] [].
#[export] Instance daemon_service_inhabited : Inhabited daemon_service := populate zero_daemon_service.
Definition set_ds_requests (v : daemon_queue) (r : daemon_service) : daemon_service := mk_daemon_service v (ds_responses r) (ds_stopping r) (ds_done r) (ds_failed r) (ds_listener r) (ds_lock_fd r) (ds_response_fd r) (ds_max_clients r) (ds_max_sockets r) (ds_next_owner r) (ds_socket_device r) (ds_socket_inode r) (ds_path r) (ds_clients r) (ds_identities r) (ds_open r) (ds_log r).
Definition set_ds_responses (v : daemon_queue) (r : daemon_service) : daemon_service := mk_daemon_service (ds_requests r) v (ds_stopping r) (ds_done r) (ds_failed r) (ds_listener r) (ds_lock_fd r) (ds_response_fd r) (ds_max_clients r) (ds_max_sockets r) (ds_next_owner r) (ds_socket_device r) (ds_socket_inode r) (ds_path r) (ds_clients r) (ds_identities r) (ds_open r) (ds_log r).
Definition set_ds_stopping (v : bool) (r : daemon_service) : daemon_service := mk_daemon_service (ds_requests r) (ds_responses r) v (ds_done r) (ds_failed r) (ds_listener r) (ds_lock_fd r) (ds_response_fd r) (ds_max_clients r) (ds_max_sockets r) (ds_next_owner r) (ds_socket_device r) (ds_socket_inode r) (ds_path r) (ds_clients r) (ds_identities r) (ds_open r) (ds_log r).
Definition set_ds_done (v : bool) (r : daemon_service) : daemon_service := mk_daemon_service (ds_requests r) (ds_responses r) (ds_stopping r) v (ds_failed r) (ds_listener r) (ds_lock_fd r) (ds_response_fd r) (ds_max_clients r) (ds_max_sockets r) (ds_next_owner r) (ds_socket_device r) (ds_socket_inode r) (ds_path r) (ds_clients r) (ds_identities r) (ds_open r) (ds_log r).
Definition set_ds_failed (v : bool) (r : daemon_service) : daemon_service := mk_daemon_service (ds_requests r) (ds_responses r) (ds_stopping r) (ds_done r) v (ds_listener r) (ds_lock_fd r) (ds_response_fd r) (ds_max_clients r) (ds_max_sockets r) (ds_next_owner r) (ds_socket_device r) (ds_socket_inode r) (ds_path r) (ds_clients r) (ds_identities r) (ds_open r) (ds_log r).
Definition set_ds_listener (v : Z) (r : daemon_service) : daemon_service := mk_daemon_service (ds_requests r) (ds_responses r) (ds_stopping r) (ds_done r) (ds_failed r) v (ds_lock_fd r) (ds_response_fd r) (ds_max_clients r) (ds_max_sockets r) (ds_next_owner r) (ds_socket_device r) (ds_socket_inode r) (ds_path r) (ds_clients r) (ds_identities r) (ds_open r) (ds_log r).
Definition set_ds_lock_fd (v : Z) (r : daemon_service) : daemon_service := mk_daemon_service (ds_requests r) (ds_responses r) (ds_stopping r) (ds_done r) (ds_failed r) (ds_listener r) v (ds_response_fd r) (ds_max_clients r) (ds_max_sockets r) (ds_next_owner r) (ds_socket_device r) (ds_socket_inode r) (ds_path r) (ds_clients r) (ds_identities r) (ds_open r) (ds_log r).
Definition set_ds_response_fd (v : Z) (r : daemon_service) : daemon_service := mk_daemon_service (ds_requests r) (ds_responses r) (ds_stopping r) (ds_done r) (ds_failed r) (ds_listener r) (ds_lock_fd r) v (ds_max_clients r) (ds_max_sockets r) (ds_next_owner r) (ds_socket_device r) (ds_socket_inode r) (ds_path r) (ds_clients r) (ds_identities r) (ds_open r) (ds_log r).
Definition set_ds_max_clients (v : Z) (r : daemon_service) : daemon_service := mk_daemon_service (ds_requests r) (ds_responses r) (ds_stopping r) (ds_done r) (ds_failed r) (ds_listener r) (ds_lock_fd r) (ds_response_fd r) v (ds_max_sockets r) (ds_next_owner r) (ds_socket_device r) (ds_socket_inode r) (ds_path r) (ds_clients r) (ds_identities r) (ds_open r) (ds_log r).
Definition set_ds_max_sockets (v : Z) (r : daemon_service) : daemon_service := mk_daemon_service (ds_requests r) (ds_responses r) (ds_stopping r) (ds_done r) (ds_failed r) (ds_listener r) (ds_lock_fd r) (ds_response_fd r) (ds_max_clients r) v (ds_next_owner r) (ds_socket_device r) (ds_socket_inode r) (ds_path r) (ds_clients r) (ds_identities r) (ds_open r) (ds_log r).
Definition set_ds_next_owner (v : Z) (r : daemon_service) : daemon_service := mk_daemon_service (ds_requests r) (ds_responses r) (ds_stopping r) (ds_done r) (ds_failed r) (ds_listener r) (ds_lock_fd r) (ds_response_fd r) (ds_max_clients r) (ds_max_sockets r) v (ds_socket_device r) (ds_socket_inode r) (ds_path r) (ds_clients r) (ds_identities r) (ds_open r) (ds_log r).
Definition set_ds_socket_device (v : Z) (r : daemon_service) : daemon_service := mk_daemon_service (ds_requests r) (ds_responses r) (ds_stopping r) (ds_done r) (ds_failed r) (ds_listener r) (ds_lock_fd r) (ds_response_fd r) (ds_max_clients r) (ds_max_sockets r) (ds_next_owner r) v (ds_socket_inode r) (ds_path r) (ds_clients r) (ds_identities r) (ds_open r) (ds_log r).
Definition set_ds_socket_inode (v : Z) (r : daemon_service) : daemon_service := mk_daemon_service (ds_requests r) (ds_responses r) (ds_stopping r) (ds_done r) (ds_failed r) (ds_listener r) (ds_lock_fd r) (ds_response_fd r) (ds_max_clients r) (ds_max_sockets r) (ds_next_owner r) (ds_socket_device r) v (ds_path r) (ds_clients r) (ds_identities r) (ds_open r) (ds_log r).
Definition set_ds_path (v : string) (r : daemon_service) : daemon_service := mk_daemon_service (ds_requests r) (ds_responses r) (ds_stopping r) (ds_done r) (ds_failed r) (ds_listener r) (ds_lock_fd r) (ds_response_fd r) (ds_max_clients r) (ds_max_sockets r) (ds_next_owner r) (ds_socket_device r) (ds_socket_inode r) v (ds_clients r) (ds_identities r) (ds_open r) (ds_log r).
Definition set_ds_clients (v : list daemon_client) (r : daemon_service) : daemon_service := mk_daemon_service (ds_requests r) (ds_responses r) (ds_stopping r) (ds_done r) (ds_failed r) (ds_listener r) (ds_lock_fd r) (ds_response_fd r) (ds_max_clients r) (ds_max_sockets r) (ds_next_owner r) (ds_socket_device r) (ds_socket_inode r) (ds_path r) v (ds_identities r) (ds_open r) (ds_log r).
Definition set_ds_identities (v : list daemon_identity) (r : daemon_service) : daemon_service := mk_daemon_service (ds_requests r) (ds_responses r) (ds_stopping r) (ds_done r) (ds_failed r) (ds_listener r) (ds_lock_fd r) (ds_response_fd r) (ds_max_clients r) (ds_max_sockets r) (ds_next_owner r) (ds_socket_device r) (ds_socket_inode r) (ds_path r) (ds_clients r) v (ds_open r) (ds_log r).
Definition set_ds_open (v : list Z) (r : daemon_service) : daemon_service := mk_daemon_service (ds_requests r) (ds_responses r) (ds_stopping r) (ds_done r) (ds_failed r) (ds_listener r) (ds_lock_fd r) (ds_response_fd r) (ds_max_clients r) (ds_max_sockets r) (ds_next_owner r) (ds_socket_device r) (ds_socket_inode r) (ds_path r) (ds_clients r) (ds_identities r) v (ds_log r).
Definition set_ds_log (v : list control_event) (r : daemon_service) : daemon_service := mk_daemon_service (ds_requests r) (ds_responses r) (ds_stopping r) (ds_done r) (ds_failed r) (ds_listener r) (ds_lock_fd r) (ds_response_fd r) (ds_max_clients r) (ds_max_sockets r) (ds_next_owner r) (ds_socket_device r) (ds_socket_inode r) (ds_path r) (ds_clients r) (ds_identities r) (ds_open r) v.

Definition closed_client : daemon_client := zero_daemon_client |> set_dc_fd (-1) |> set_dc_pidfd (-1).

Definition client (s : daemon_service) (i : nat) : daemon_client := nth i (ds_clients s) closed_client.
Definition set_client (i : nat) (c : daemon_client) (s : daemon_service) : daemon_service :=
  set_ds_clients (<[i := c]> (ds_clients s)) s.
Definition log (e : control_event) (s : daemon_service) : daemon_service := set_ds_log (ds_log s ++ [e]) s.

(** The first [n] bytes of an array whose bytes behind the list are zero. *)
Definition padded (n : Z) (bytes : list Z) : list Z :=
  take (Z.to_nat n) (bytes ++ replicate (Z.to_nat n) 0).

(** * Operations *)

(** [if (fd >= 0) close(fd)]. *)
Fixpoint remove_first (x : Z) (l : list Z) : list Z :=
  match l with [] => [] | y :: l' => if y =? x then l' else y :: remove_first x l' end.
Definition close_fd (fd : Z) (open : list Z) : list Z :=
  if 0 <=? fd then remove_first fd open else open.

Definition disconnected (c : daemon_client) : daemon_client :=
  c |> set_dc_fd (-1) |> set_dc_pidfd (-1) |> set_dc_dead true |> set_dc_output_length 0.

Definition disconnect_client (i : nat) (s : daemon_service) : daemon_service :=
  let c := client s i in
  set_client i (disconnected c) (set_ds_open (close_fd (dc_pidfd c) (close_fd (dc_fd c) (ds_open s))) s).

(** The entry of a handle. *)
Definition handle (c : daemon_client) (fd : Z) : option nat :=
  find_index (fun h => (dh_local h =? fd) && (0 <? fd)) (dc_handles c).
Definition handle_entry (c : daemon_client) (i : nat) : daemon_handle := nth i (dc_handles c) zero_daemon_handle.

(** The inner loop of [add_handle]: the handle and the new [next_handle]. *)
Fixpoint pick_handle (rounds : nat) (c : daemon_client) : option (Z * Z) :=
  match rounds with
  | O => None
  | S rounds' =>
    let fd := dc_next_handle c in
    let next := if fd =? INT_MAX then 1 else fd + 1 in
    match handle c fd with
    | Some _ => pick_handle rounds' (set_dc_next_handle next c)
    | None => Some (fd, next)
    end
  end.

(** The result of the loop is always there: of [DAEMON_SOCKET_MAX] handles one
    entry is free, so that many candidates cannot all be taken. *)
Definition add_handle (c : daemon_client) (core : Z) : Z * daemon_client :=
  match find_index (fun h => negb (truth (dh_local h))) (dc_handles c) with
  | None => (- EMFILE, c)
  | Some i =>
    match pick_handle (Z.to_nat DAEMON_SOCKET_MAX) c with
    | None => (- EMFILE, c)
    | Some (fd, next) => (fd, c |> set_dc_next_handle next |> set_dc_handles (<[i := mk_daemon_handle fd core]> (dc_handles c)))
    end
  end.

(** The bytes of a message on the wire. *)
Definition frame (m : ipc_message) : list Z :=
  ipc_encode m ++ (if truth (im_length m) then padded (im_length m) (im_data m) else []).

Definition reply (m : ipc_message) (c : daemon_client) : daemon_client :=
  c |> set_dc_output (frame m) |> set_dc_output_length (IPC_HEADER_SIZE + im_length m)
    |> set_dc_sent 0 |> set_dc_have 0 |> set_dc_target IPC_HEADER_SIZE.

(** One response, past the search for its client. *)
Definition collect_client (i : nat) (item : daemon_item) (s : daemon_service) : daemon_service :=
  let c := set_dc_pending false (client s i) in
  let m := di_message item in
  if (im_op m =? IPC_CLEANUP) && dc_cleanup c then set_client i closed_client s else
  let s := set_client i c s in
  if dc_dead c then s else
  if negb (im_id m =? im_id (dc_input c)) || negb (im_op m =? im_op (dc_input c)) then disconnect_client i s else
  let opens := (0 <=? im_result m) && ((im_op m =? IPC_SOCKET) || (im_op m =? IPC_ACCEPT)) in
  let '(result, c) := if opens then add_handle c (im_result m) else (im_result m, c) in
  if opens && (result <? 0) then disconnect_client i (set_client i c s) else
  let c := if negb (truth result) && (im_op m =? IPC_CLOSE) then
             match handle c (im_fd (dc_input c)) with
             | Some k => set_dc_handles (<[k := zero_daemon_handle]> (dc_handles c)) c
             | None => c
             end else c in
  set_client i (reply (m |> set_im_result result |> set_im_fd (im_fd (dc_input c))) c) s.

Definition owner_slot (s : daemon_service) (owner : Z) : option nat :=
  find_index (fun c => dc_owner c =? owner) (take (Z.to_nat (ds_max_clients s)) (ds_clients s)).

Definition collect_item (item : daemon_item) (s : daemon_service) : daemon_service :=
  let s := log (Took item) s in
  match owner_slot s (di_owner item) with None => s | Some i => collect_client i item s end.

(** The loop empties the ring; [rounds] bounds what it can find there. *)
Fixpoint collect_loop (rounds : nat) (s : daemon_service) : daemon_service :=
  match rounds with
  | O => s
  | S rounds' =>
    match daemon_queue_pop (ds_responses s) with
    | (None, _) => s
    | (Some item, ring) => collect_loop rounds' (collect_item item (set_ds_responses ring s))
    end
  end.
Definition collect_responses (s : daemon_service) : daemon_service :=
  collect_loop (Z.to_nat (u32 (dq_write (ds_responses s) - dq_read (ds_responses s)))) s.

(** [daemon_queue_push(&service->requests, &item)]: whether it went in. *)
Definition push_request (item : daemon_item) (s : daemon_service) : bool * daemon_service :=
  let '(rc, ring) := daemon_queue_push (ds_requests s) item in
  if truth rc then (false, s) else (true, log (Submitted item) (set_ds_requests ring s)).

Definition message_response (m : ipc_message) : ipc_message :=
  mk_ipc_message (im_op m) (im_id m) 0 0 0 0 0 0 zero_ps_sockaddr [].

Definition submit_client (i : nat) (s : daemon_service) : daemon_service :=
  let c := client s i in
  if negb (truth (dc_owner c)) || dc_pending c then s else
  if dc_dead c then
    let '(ok, s) := push_request (mk_daemon_item (dc_owner c) (mk_ipc_message IPC_CLEANUP 0 0 0 0 0 0 0 zero_ps_sockaddr [])) s in
    if ok then set_client i (c |> set_dc_pending true |> set_dc_cleanup true) s else s
  else
  if truth (dc_output_length c) || negb (dc_have c =? dc_target c) then s else
  let m := dc_input c in
  if negb (dc_hello c) then
    if negb (im_op m =? IPC_HELLO) then disconnect_client i s else
    set_client i (reply (mk_ipc_message (im_op m) (im_id m) 0 0 (s32 (ds_max_sockets s)) IPC_FEATURE_DGRAM_BATCH 0 0 zero_ps_sockaddr [])
                    (set_dc_hello true c)) s
  else
  if im_op m =? IPC_HELLO then set_client i (reply (set_im_result (- EALREADY) (message_response m)) c) s else
  let send := fun fd =>
    let '(ok, s) := push_request (mk_daemon_item (dc_owner c) (set_im_fd fd m)) s in
    if ok then set_client i (set_dc_pending true c) s else s in
  if negb (im_op m =? IPC_SOCKET) then
    match handle c (im_fd m) with
    | None => set_client i (reply (message_response m |> set_im_fd (im_fd m) |> set_im_result (- EBADF)) c) s
    | Some k => send (dh_core (handle_entry c k))
    end
  else send (im_fd m).

(** What a socket call answers: the bytes or the count, or [errno]. *)
Inductive io_result (A : Type) : Type :=
| Answered (a : A)
| Failed (errno : Z).
#[global] Arguments Answered {A} a.
#[global] Arguments Failed {A} errno.

Definition retry (errno : Z) : bool := (errno =? EAGAIN) || (errno =? EINTR).

(** The bytes go to [header] first, then to [input.data]. *)
Definition received (data : list Z) (c : daemon_client) : daemon_client :=
  set_dc_have (dc_have c + Z.of_nat (length data))
    (if dc_have c <? IPC_HEADER_SIZE
     then set_dc_header (take (Z.to_nat (dc_have c)) (dc_header c) ++ data) c
     else set_dc_input (set_im_data (take (Z.to_nat (dc_have c - IPC_HEADER_SIZE)) (im_data (dc_input c)) ++ data) (dc_input c)) c).

(** [recv] stores at most the room it is given. *)
Definition read_client (i : nat) (r : io_result (list Z)) (s : daemon_service) : daemon_service :=
  let c := client s i in
  match r with
  | Answered bytes =>
    let data := take (Z.to_nat (dc_target c - dc_have c)) bytes in
    if Nat.eqb (length data) 0 then disconnect_client i s else
    let c := received data c in
    if (dc_have c =? IPC_HEADER_SIZE) && (dc_target c =? IPC_HEADER_SIZE) then
      let '(rc, input) := ipc_decode (dc_header c) (dc_input c) in
      let c := set_dc_input input c in
      if truth rc || negb (ipc_request_valid input) || (im_id input =? dc_last_id c)
      then disconnect_client i (set_client i c s)
      else set_client i (c |> set_dc_last_id (im_id input) |> set_dc_target (dc_target c + im_length input)) s
    else set_client i c s
  | Failed errno => if retry errno then s else disconnect_client i s
  end.

(** [send] takes at most the bytes it is given. *)
Definition write_client (i : nat) (r : io_result Z) (s : daemon_service) : daemon_service :=
  let c := client s i in
  match r with
  | Answered n =>
    let n := Z.min n (dc_output_length c - dc_sent c) in
    if n <=? 0 then disconnect_client i s else
    let c := set_dc_sent (dc_sent c + n) c in
    set_client i (if dc_sent c =? dc_output_length c then c |> set_dc_sent 0 |> set_dc_output_length 0 else c) s
  | Failed errno => if retry errno then s else disconnect_client i s
  end.

(** A connection [accept4] hands out: its descriptor, the descriptor of the peer
    process if [pidfd_open] gave one, the credentials if the second
    [SO_PEERCRED] call gave them. *)
Record peer_connection : Type := mk_peer_connection { cn_fd : Z; cn_pidfd : Z; cn_identity : option (Z * Z) }.

Definition free_slot (s : daemon_service) : option nat :=
  find_index (fun c => negb (truth (dc_owner c))) (take (Z.to_nat (ds_max_clients s)) (ds_clients s)).

Definition accept_client (conn : peer_connection) (s : daemon_service) : daemon_service :=
  match free_slot s with
  | None => s
  | Some i =>
    if ds_next_owner s =? UINT64_MAX then s else
    let owner := ds_next_owner s + 1 in
    let open := (if 0 <=? cn_pidfd conn then [cn_pidfd conn] else []) ++ cn_fd conn :: ds_open s in
    let s := s |> set_ds_open open |> set_ds_next_owner owner in
    let s := match cn_identity conn with
             | Some (pid, uid) => set_ds_identities (<[i := mk_daemon_identity owner pid uid]> (ds_identities s)) s
             | None => s
             end in
    set_client i (zero_daemon_client |> set_dc_fd (cn_fd conn) |> set_dc_pidfd (cn_pidfd conn) |> set_dc_owner owner
                    |> set_dc_next_handle 1 |> set_dc_target IPC_HEADER_SIZE) s
  end.

(** At most [DAEMON_CLIENT_MAX] connections per call; [conns] are those [accept4]
    hands out before it fails.  One without a slot is closed at once. *)
Definition accept_clients (conns : list peer_connection) (s : daemon_service) : daemon_service :=
  foldl (fun s conn => accept_client conn s) s (take (Z.to_nat DAEMON_CLIENT_MAX) conns).

(** * The loop *)

Definition POLLIN : Z := 1.
Definition POLLOUT : Z := 4.
Definition POLLERR : Z := 8.
Definition POLLHUP : Z := 16.
Definition POLLNVAL : Z := 32.
Definition poll_failure : Z := Z.lor POLLERR (Z.lor POLLHUP POLLNVAL).

(** What the kernel answers in one round. [ri_poll] gives the [revents] of the
    entries of [fds], or [errno]. *)
Record round_input : Type := mk_round_input {
  ri_poll : Z + list Z;
  ri_accept : list peer_connection;
  ri_send : nat -> io_result Z;
  ri_recv : nat -> io_result (list Z)
}.

(** The body of the first loop over the clients. *)
Definition service_client (s : daemon_service) (i : nat) : daemon_service :=
  if negb (truth (dc_owner (client s i))) then s else
  let s := if ds_stopping s && negb (dc_dead (client s i)) then disconnect_client i s else s in
  let s := if dc_dead (client s i)
           then set_ds_identities (alter (set_id_owner 0) i (ds_identities s)) s else s in
  submit_client i s.

Definition live_clients (s : daemon_service) : nat :=
  length (filter (fun c => dc_owner c <> 0) (take (Z.to_nat (ds_max_clients s)) (ds_clients s))).

(** An entry of [fds] past the first two: the client, whether it is the entry
    of [pidfd], and [events]. *)
Definition client_events (c : daemon_client) : Z :=
  if truth (dc_output_length c) then POLLOUT else
  if negb (dc_pending c) && (dc_have c <? dc_target c) then POLLIN else 0.

Definition client_entries (s : daemon_service) (i : nat) : list (nat * bool * Z) :=
  let c := client s i in
  if dc_fd c <? 0 then [] else
  (i, false, client_events c) :: (if 0 <=? dc_pidfd c then [(i, true, POLLIN)] else []).

Definition poll_entries (s : daemon_service) : list (nat * bool * Z) :=
  seq 0 (Z.to_nat (ds_max_clients s)) ≫= client_entries s.

(** [poll] reports what was asked for and the three conditions that cannot be
    masked. *)
Definition revents (reported events : Z) : Z := Z.land reported (Z.lor events poll_failure).

Definition poll_client (r : round_input) (s : daemon_service) (entry : nat * bool * Z * Z) : daemon_service :=
  let '(i, pid, events, reported) := entry in
  let got := revents reported events in
  if (pid : bool) then (if truth got then disconnect_client i s else s) else
  if dc_fd (client s i) <? 0 then s else
  if truth (Z.land got poll_failure) then disconnect_client i s else
  let s := if truth (Z.land got POLLOUT) then write_client i (ri_send r i) s else s in
  if (0 <=? dc_fd (client s i)) && truth (Z.land got POLLIN) then read_client i (ri_recv r i) s else s.

Definition service_failed (s : daemon_service) : daemon_service := s |> set_ds_failed true |> set_ds_stopping true.

(** After [poll]. *)
Definition poll_round (r : round_input) (s : daemon_service) : daemon_service :=
  let entries := poll_entries s in
  match ri_poll r with
  | inl errno => if errno =? EINTR then s else service_failed s
  | inr reported =>
    let listener := if ds_listener s <? 0 then 0 else revents (nth 0 reported 0) POLLIN in
    let response := revents (nth 1 reported 0) POLLIN in
    let s := if truth (Z.land listener POLLIN) then accept_clients (ri_accept r) s else s in
    let s := if truth (Z.land listener poll_failure) then service_failed s else s in
    let s := if truth (Z.land response poll_failure) then service_failed s else s in
    foldl (poll_client r) s (zip entries (drop 2 reported))
  end.

Definition close_listener (s : daemon_service) : daemon_service :=
  s |> set_ds_open (close_fd (ds_listener s) (ds_open s)) |> set_ds_listener (-1).

(** One round of the loop; [true] when it breaks out of it. *)
Definition control_round (r : round_input) (s : daemon_service) : daemon_service * bool :=
  let s := collect_responses s in
  let s := if ds_stopping s && (0 <=? ds_listener s) then close_listener s else s in
  let live := live_clients s in
  let s := foldl service_client s (seq 0 (Z.to_nat (ds_max_clients s))) in
  if ds_stopping s && Nat.eqb live 0 then (set_ds_done true s, true) else (poll_round r s, false).

(** * Start and end *)

(** What the system calls of [daemon_prepare] answer: a descriptor, or the
    negated [errno]; [None] for success or [Some errno]; the inode, or [errno]. *)
Record inode_info : Type := mk_inode_info {
  in_regular : bool;
  in_socket : bool;
  in_uid : Z;
  in_links : Z;
  in_device : Z;
  in_number : Z
}.

Record prepare_input : Type := mk_prepare_input {
  pi_eventfd : Z;
  pi_lock : Z;
  pi_fstat : Z + inode_info;
  pi_euid : Z;
  pi_flock : option Z;
  pi_lstat : Z + inode_info;
  pi_probe : Z;
  pi_connect : option Z;
  pi_unlink : option Z;
  pi_socket : Z;
  pi_bind : option Z;
  pi_bound : Z + inode_info;
  pi_listen : option Z
}.

Definition SUN_PATH : nat := 108.

Definition zero_service : daemon_service :=
  zero_daemon_service |> set_ds_clients (replicate (Z.to_nat DAEMON_CLIENT_MAX) closed_client)
    |> set_ds_identities (replicate (Z.to_nat DAEMON_CLIENT_MAX) zero_daemon_identity).

(** The lock file: a regular file of the user with one name, locked. *)
Definition lock_check (e : prepare_input) : Z :=
  match pi_fstat e with
  | inl errno => - errno
  | inr info =>
    if negb (in_regular info) || negb (in_uid info =? pi_euid e) || negb (in_links info =? 1) then - EACCES else
    match pi_flock e with Some errno => - errno | None => 0 end
  end.

(** A socket left at the path is removed if no daemon listens on it. *)
Definition stale_socket (e : prepare_input) : Z :=
  match pi_lstat e with
  | inl errno => if errno =? ENOENT then 0 else - errno
  | inr info =>
    if negb (in_socket info) || negb (in_uid info =? pi_euid e) then - EEXIST else
    if pi_probe e <? 0 then pi_probe e else
    match pi_connect e with
    | None => - EADDRINUSE
    | Some errno =>
      if negb (errno =? ECONNREFUSED) && negb (errno =? ENOENT) then - EADDRINUSE else
      match pi_unlink e with
      | Some errno => if errno =? ENOENT then 0 else - errno
      | None => 0
      end
    end
  end.

Definition listen_socket (e : prepare_input) (s : daemon_service) : Z * daemon_service :=
  if pi_socket e <? 0 then (pi_socket e, set_ds_listener (-1) s) else
  let s := s |> set_ds_listener (pi_socket e) |> set_ds_open (pi_socket e :: ds_open s) in
  match pi_bind e with
  | Some errno => (- errno, s)
  | None =>
    match pi_bound e with
    | inl errno => (- errno, s)
    | inr info =>
      let s := s |> set_ds_socket_device (in_device info) |> set_ds_socket_inode (in_number info) in
      match pi_listen e with Some errno => (- errno, s) | None => (0, s) end
    end
  end.

Definition daemon_prepare (path : string) (max_clients max_sockets : Z) (e : prepare_input) : Z * daemon_service :=
  let s := zero_service in
  if negb (truth max_clients) || (DAEMON_CLIENT_MAX <? max_clients) || negb (truth max_sockets) || (DAEMON_SOCKET_MAX <? max_sockets) ||
     String.eqb path EmptyString || Nat.leb SUN_PATH (String.length path) then (- EINVAL, s) else
  if pi_eventfd e <? 0 then (pi_eventfd e, s) else
  let s := s |> set_ds_response_fd (pi_eventfd e) |> set_ds_open [pi_eventfd e] |> set_ds_max_clients max_clients
             |> set_ds_max_sockets max_sockets |> set_ds_path path in
  if pi_lock e <? 0 then (pi_lock e, s) else
  let s := s |> set_ds_lock_fd (pi_lock e) |> set_ds_open (pi_lock e :: ds_open s) in
  let rc := lock_check e in
  if truth rc then (rc, s) else
  let rc := stale_socket e in
  if truth rc then (rc, s) else
  listen_socket e s.

(** [info] is what [lstat] finds at the path: whether the socket file goes is the
    second result. *)
Definition daemon_release (info : option inode_info) (s : daemon_service) : daemon_service * bool :=
  (set_ds_open (close_fd (ds_lock_fd s) (close_fd (ds_listener s) (close_fd (ds_response_fd s) (ds_open s)))) s,
   truth (ds_socket_inode s) &&
   match info with
   | Some info => (in_device info =? ds_socket_device s) && (in_number info =? ds_socket_inode s)
   | None => false
   end).
