(* ===== verification/ControlInv.v ===== *)
(** Invariants of the control thread of [src/daemon/control.c], whatever the
    clients send and however the worker is scheduled. *)
From stdpp Require Import relations.
From S2P Require Import Prelude.
From S2P Require Import Dpdk.
From S2P Require Import Types.
From S2P Require Import Ipc.
From S2P Require Import Queue.
From S2P Require Import Control.

#[global] Arguments disconnected : simpl never.
#[global] Arguments reply : simpl never.
#[global] Arguments received : simpl never.
#[global] Arguments add_handle : simpl never.
#[global] Arguments padded : simpl never.

(** What the control thread relies on: in a sound state the worker answers a
    request with the same owner, operation and identifier, and at most a frame of
    data; neither the requests nor what it does on its own ([background]: polling
    the ports, administrative jobs) lead out of the sound states. *)
Class Worker : Type := {
  worker : Type;
  sound : worker -> Prop;
  serve : daemon_item -> worker -> daemon_item * worker;
  background : worker -> worker -> Prop;
  serve_request request w : sound w -> let response := (serve request w).1 in
    di_owner response = di_owner request /\ im_op (di_message response) = im_op (di_message request) /\
    im_id (di_message response) = im_id (di_message request) /\ 0 <= im_length (di_message response) <= IPC_PAYLOAD_MAX;
  serve_sound request w : sound w -> sound (serve request w).2;
  background_sound w w' : background w w' -> sound w -> sound w'
}.

(** * The system *)

(** The thread and the worker take turns in any order.  A step of the thread is
    one item of [collect_responses], one client of the service loop, one
    connection, one [recv] or [send]; the flags may change at any time. *)
Inductive control_step `{Worker} : daemon_service * worker -> daemon_service * worker -> Prop :=
| step_collect s w item ring : daemon_queue_pop (ds_responses s) = (Some item, ring) ->
    control_step (s, w) (collect_item item (set_ds_responses ring s), w)
| step_service s w i : control_step (s, w) (service_client s i, w)
| step_accept s w conn : 0 <= cn_fd conn -> control_step (s, w) (accept_client conn s, w)
| step_read s w i r : control_step (s, w) (read_client i r s, w)
| step_write s w i r : control_step (s, w) (write_client i r s, w)
| step_disconnect s w i : control_step (s, w) (disconnect_client i s, w)
| step_flags s w stopping done failed : control_step (s, w) (s |> set_ds_stopping stopping |> set_ds_done done |> set_ds_failed failed, w)
| step_listener s w : control_step (s, w) (close_listener s, w)
| step_background s w w' : background w w' -> control_step (s, w) (s, w')
| step_worker s w request requests : daemon_queue_room (ds_responses s) = true ->
    daemon_queue_pop (ds_requests s) = (Some request, requests) ->
    control_step (s, w) (s |> set_ds_requests requests
      |> set_ds_responses (daemon_queue_push (ds_responses s) (serve request w).1).2, (serve request w).2).

(** * Invariant *)

(** The worker gave descriptor [core] to [owner]. *)
Definition granted (events : list control_event) (owner core : Z) : Prop :=
  exists r, Took r ∈ events /\ di_owner r = owner /\ 0 <= im_result (di_message r) /\ core = im_result (di_message r) /\
    (im_op (di_message r) = IPC_SOCKET \/ im_op (di_message r) = IPC_ACCEPT).

(** What may be submitted after [events]. *)
Definition permitted (events : list control_event) (item : daemon_item) : Prop :=
  di_owner item <> 0 /\
  (im_op (di_message item) = IPC_CLEANUP \/
   ipc_request_valid (di_message item) = true /\
   (im_op (di_message item) = IPC_SOCKET \/ granted events (di_owner item) (im_fd (di_message item)))).

Definition log_ok (events : list control_event) : Prop :=
  forall before item after, events = before ++ Submitted item :: after -> permitted before item.

Record client_inv (next : Z) (events : list control_event) (c : daemon_client) : Prop := {
  ci_owner : 0 <= dc_owner c <= next;
  ci_free : dc_owner c = 0 -> dc_pending c = false /\ dc_fd c < 0 /\ dc_pidfd c < 0;
  ci_dead : dc_dead c = true -> dc_fd c < 0 /\ dc_pidfd c < 0 /\ dc_output_length c = 0;
  ci_cleanup : dc_cleanup c = true -> dc_dead c = true /\ dc_pending c = true;
  ci_size : length (dc_handles c) = Z.to_nat DAEMON_SOCKET_MAX;
  ci_handles : Forall (fun h => 0 <= dh_local h <= INT_MAX /\ (dh_local h <> 0 -> granted events (dc_owner c) (dh_core h))) (dc_handles c);
  ci_distinct : forall i j hi hj, dc_handles c !! i = Some hi -> dc_handles c !! j = Some hj ->
    dh_local hi = dh_local hj -> dh_local hi <> 0 -> i = j;
  ci_next : dc_owner c <> 0 -> 1 <= dc_next_handle c <= INT_MAX;
  ci_have : 0 <= dc_have c <= dc_target c;
  ci_target : dc_target c = IPC_HEADER_SIZE \/
    (IPC_HEADER_SIZE <= dc_have c /\ dc_target c = IPC_HEADER_SIZE + im_length (dc_input c)) \/ dc_owner c = 0 /\ dc_target c = 0;
  ci_valid : IPC_HEADER_SIZE <= dc_have c -> dc_dead c = false -> ipc_request_valid (dc_input c) = true /\ 0 <= im_length (dc_input c);
  ci_output : dc_output_length c <= IPC_FRAME_MAX /\ 0 <= dc_sent c /\ (dc_dead c = false -> dc_sent c <= dc_output_length c);
  ci_frame : dc_output_length c <> 0 -> dc_output_length c = Z.of_nat (length (dc_output c));
  ci_pending : dc_pending c = true -> dc_cleanup c = false -> dc_hello c = true /\ ipc_request_valid (dc_input c) = true;
  ci_waiting : dc_pending c = true -> dc_cleanup c = false -> dc_have c = dc_target c /\ dc_output_length c = 0
}.

(** The request or response under way for a client. *)
Definition expects (c : daemon_client) (item : daemon_item) : Prop :=
  di_owner item = dc_owner c /\
  if dc_cleanup c then im_op (di_message item) = IPC_CLEANUP
  else im_op (di_message item) = im_op (dc_input c) /\ im_id (di_message item) = im_id (dc_input c).

Record flight_inv (clients : list daemon_client) (flight : list daemon_item) : Prop := {
  fi_distinct : NoDup (di_owner <$> flight);
  fi_expected : forall item, item ∈ flight -> exists i c, clients !! i = Some c /\ dc_pending c = true /\ expects c item;
  fi_pending : forall i c, clients !! i = Some c -> dc_pending c = true -> dc_owner c ∈ di_owner <$> flight
}.

Definition owners_distinct (clients : list daemon_client) : Prop :=
  forall i j ci cj, clients !! i = Some ci -> clients !! j = Some cj -> dc_owner ci = dc_owner cj -> dc_owner ci <> 0 -> i = j.

Definition open_fds (c : daemon_client) : list Z :=
  (if 0 <=? dc_fd c then [dc_fd c] else []) ++ (if 0 <=? dc_pidfd c then [dc_pidfd c] else []).

(** The descriptors of the service itself. *)
Definition own_fds (s : daemon_service) : list Z :=
  (if 0 <=? ds_listener s then [ds_listener s] else []) ++ (if 0 <=? ds_lock_fd s then [ds_lock_fd s] else []) ++
  (if 0 <=? ds_response_fd s then [ds_response_fd s] else []).

Record service_inv (s : daemon_service) (reqs resps : list daemon_item) : Prop := {
  si_size : length (ds_clients s) = Z.to_nat DAEMON_CLIENT_MAX;
  si_max : 0 <= ds_max_clients s <= DAEMON_CLIENT_MAX;
  si_beyond : forall i c, ds_clients s !! i = Some c -> dc_owner c <> 0 -> Z.of_nat i < ds_max_clients s;
  si_next : 0 <= ds_next_owner s <= UINT64_MAX;
  si_clients : Forall (client_inv (ds_next_owner s) (ds_log s)) (ds_clients s);
  si_owners : owners_distinct (ds_clients s);
  si_flight : flight_inv (ds_clients s) (reqs ++ resps);
  si_open : ds_open s ≡ₚ own_fds s ++ (ds_clients s ≫= open_fds);
  si_log : log_ok (ds_log s);
  si_requests : queue_holds (ds_requests s) reqs;
  si_responses : queue_holds (ds_responses s) resps;
  si_lengths : Forall (fun r => 0 <= im_length (di_message r) <= IPC_PAYLOAD_MAX) resps
}.

(** * Lemmas *)

Lemma granted_app events more owner core : granted events owner core -> granted (events ++ more) owner core.
Proof. intros (r & Hr & H). exists r. split; [|done]. apply elem_of_app. by left. Qed.

Lemma client_inv_mono next next' events more c : next <= next' -> client_inv next events c -> client_inv next' (events ++ more) c.
Proof.
  intros Hn []. split; try done; [lia|]. eapply Forall_impl; [done|]. intros h [Hl Hg]. split; [done|]. intros H. by apply granted_app, Hg.
Qed.

Lemma snoc_split {A} (l : list A) x before y after : l ++ [x] = before ++ y :: after ->
  (after = [] /\ before = l /\ y = x) \/ exists after', after = after' ++ [x] /\ l = before ++ y :: after'.
Proof.
  destruct after as [|z after _] using rev_ind.
  - intros [-> [= ->]]%app_inj_tail. by left.
  - rewrite app_comm_cons, app_assoc. intros [-> ->]%app_inj_tail. right. by exists after.
Qed.

Lemma log_ok_took events item : log_ok events -> log_ok (events ++ [Took item]).
Proof.
  intros H before it after [(-> & -> & [=])|(after' & -> & ->)]%snoc_split. by eapply H.
Qed.

Lemma log_ok_submitted events item : log_ok events -> permitted events item -> log_ok (events ++ [Submitted item]).
Proof.
  intros H Hp before it after [(-> & -> & [= ->])|(after' & -> & ->)]%snoc_split; [done|]. by eapply H.
Qed.

Lemma remove_first_perm x l : x ∈ l -> l ≡ₚ x :: remove_first x l.
Proof.
  induction l as [|y l IH]; [by intros ?%elem_of_nil|]. cbn. destruct (Z.eqb_spec y x) as [->|Hne]; [done|].
  intros [->|Hx]%elem_of_cons; [done|]. etransitivity; [by apply perm_skip, IH|]. apply perm_swap.
Qed.

Lemma remove_first_tail x l k : l ≡ₚ x :: k -> remove_first x l ≡ₚ k.
Proof.
  intros H. assert (Hx : x ∈ l) by (rewrite H; apply elem_of_cons; by left).
  apply (Permutation_cons_inv (a := x)). rewrite <- H. symmetry. by apply remove_first_perm.
Qed.

Lemma bind_insert_perm {A B} (f : A -> list B) (l : list A) i x y : l !! i = Some x ->
  (<[i:=y]> l ≫= f) ++ f x ≡ₚ (l ≫= f) ++ f y.
Proof.
  revert i. induction l as [|z l IH]; intros [|i]; cbn; try done.
  - intros [= ->]. solve_Permutation.
  - intros H. specialize (IH i H). rewrite <- !app_assoc. by apply Permutation_app_head.
Qed.

(** The general step: client [i] goes from [c] to [c']. *)
Lemma service_update s s' i c c' reqs resps reqs' resps' more :
  service_inv s reqs resps -> ds_clients s !! i = Some c ->
  ds_clients s' = <[i := c']> (ds_clients s) -> ds_max_clients s' = ds_max_clients s ->
  ds_next_owner s <= ds_next_owner s' <= UINT64_MAX ->
  ds_log s' = ds_log s ++ more -> log_ok (ds_log s') ->
  client_inv (ds_next_owner s') (ds_log s') c' ->
  (dc_owner c' <> 0 -> Z.of_nat i < ds_max_clients s) ->
  (dc_owner c' = dc_owner c \/ dc_owner c' = 0 \/ ds_next_owner s < dc_owner c') ->
  flight_inv (ds_clients s') (reqs' ++ resps') ->
  own_fds s' = own_fds s -> ds_open s' ++ open_fds c ≡ₚ ds_open s ++ open_fds c' ->
  queue_holds (ds_requests s') reqs' -> queue_holds (ds_responses s') resps' ->
  Forall (fun r => 0 <= im_length (di_message r) <= IPC_PAYLOAD_MAX) resps' ->
  service_inv s' reqs' resps'.
Proof.
  intros [] Hi Hcl Hmax Hnext Hlog Hok Hc' Hb Howner Hfl Hown Hopen Hq Hr Hlen.
  assert (Hlt := lookup_lt_Some _ _ _ Hi). split; try done.
  - by rewrite Hcl, length_insert.
  - by rewrite Hmax.
  - intros j d. rewrite Hmax, Hcl. intros [(-> & -> & _)|[_ Hj]]%list_lookup_insert_Some; [done|]. by apply si_beyond0.
  - lia.
  - rewrite Hcl. apply Forall_insert; [|done]. eapply Forall_impl; [done|]. intros d Hd. rewrite Hlog. apply client_inv_mono with (next := ds_next_owner s); [lia|done].
  - rewrite Hcl. intros j k cj ck [(<- & -> & _)|[Hne Hj]]%list_lookup_insert_Some [(<- & -> & _)|[Hne' Hk]]%list_lookup_insert_Some E E0; try done.
    + destruct Howner as [Ho|[Ho|Ho]]; [|congruence|]; [by eapply si_owners0; eauto; congruence|].
      assert (Hd := ci_owner _ _ _ (proj1 (Forall_lookup _ _) si_clients0 k ck Hk)). lia.
    + destruct Howner as [Ho|[Ho|Ho]]; [|congruence|]; [by eapply si_owners0; eauto; congruence|].
      assert (Hd := ci_owner _ _ _ (proj1 (Forall_lookup _ _) si_clients0 j cj Hj)). lia.
    + by eapply si_owners0.
  - rewrite Hcl, Hown. apply (Permutation_app_inv_r (open_fds c)). rewrite Hopen, si_open0, <- !app_assoc. apply Permutation_app_head. symmetry. by apply bind_insert_perm.
Qed.

(** A client that keeps what the flight depends on. *)
Lemma flight_keep clients flight i c c' : flight_inv clients flight -> clients !! i = Some c ->
  dc_owner c' = dc_owner c -> dc_pending c' = dc_pending c -> dc_cleanup c' = dc_cleanup c ->
  (dc_pending c = true -> dc_cleanup c = false -> im_op (dc_input c') = im_op (dc_input c) /\ im_id (dc_input c') = im_id (dc_input c)) ->
  flight_inv (<[i := c']> clients) flight.
Proof.
  intros [] Hi Ho Hp Hcl Hin. assert (Hlt := lookup_lt_Some _ _ _ Hi). split; [done| |].
  - intros item Hit. destruct (fi_expected0 item Hit) as (j & d & Hj & Hd & [Ho' He]). destruct (decide (i = j)) as [<-|Hne].
    + exists i, c'. rewrite list_lookup_insert_eq by done. rewrite Hi in Hj. injection Hj as <-. split; [done|]. split; [congruence|].
      split; [congruence|]. rewrite Hcl. destruct (dc_cleanup c) eqn:E; [done|]. destruct (Hin Hd eq_refl) as [-> ->]. done.
    + exists j, d. by rewrite list_lookup_insert_ne.
  - intros j d [(<- & <- & _)|[_ Hj]]%list_lookup_insert_Some Hd; [|by eapply fi_pending0]. rewrite Ho. eapply fi_pending0; [done|congruence].
Qed.

(** ** Disconnecting *)

Lemma disconnected_inv next events c : client_inv next events c -> client_inv next events (disconnected c).
Proof.
  intros []. unfold disconnected. split; cbn; try done.
  - intros H. by destruct (ci_free0 H).
  - intros H. by destruct (ci_cleanup0 H).
  - split; [unfold IPC_FRAME_MAX, IPC_HEADER_SIZE, IPC_PAYLOAD_MAX; lia|split; [apply ci_output0|done]].
  - intros Hp Hc. by destruct (ci_waiting0 Hp Hc).
Qed.

Lemma close_fd_head fd l k : l ≡ₚ (if 0 <=? fd then [fd] else []) ++ k -> close_fd fd l ≡ₚ k.
Proof. unfold close_fd. destruct (0 <=? fd); [|done]. apply remove_first_tail. Qed.

Lemma service_open s reqs resps i c : service_inv s reqs resps -> ds_clients s !! i = Some c ->
  ds_open s ≡ₚ close_fd (dc_pidfd c) (close_fd (dc_fd c) (ds_open s)) ++ open_fds c.
Proof.
  intros [] Hi. assert (Hp : exists rest, ds_open s ≡ₚ open_fds c ++ rest).
  { exists (own_fds s ++ (<[i := closed_client]> (ds_clients s) ≫= open_fds)). rewrite si_open0.
    assert (H := bind_insert_perm open_fds _ i c closed_client Hi). cbn in H. rewrite app_nil_r in H. rewrite <- H. solve_Permutation. }
  destruct Hp as [rest Hr]. rewrite (close_fd_head (dc_pidfd c) _ rest); [rewrite Hr; apply Permutation_app_comm|].
  apply close_fd_head. rewrite Hr. unfold open_fds. by rewrite <- app_assoc.
Qed.

Lemma client_lookup s i : (i < length (ds_clients s))%nat -> ds_clients s !! i = Some (client s i).
Proof. intros H. unfold client. destruct (lookup_lt_is_Some_2 _ _ H) as [c Hc]. by rewrite (nth_lookup_Some _ _ _ _ Hc). Qed.

Lemma client_out s i : (length (ds_clients s) <= i)%nat -> client s i = closed_client /\ forall c, set_client i c s = s.
Proof.
  intros H. split; [unfold client; by apply nth_overflow|]. intros c. unfold set_client. rewrite list_insert_ge by done. by destruct s.
Qed.

(** One client changes, and nothing the flight depends on. *)
Lemma set_client_inv s reqs resps i c' : service_inv s reqs resps ->
  ((i < length (ds_clients s))%nat -> let c := client s i in
    client_inv (ds_next_owner s) (ds_log s) c -> client_inv (ds_next_owner s) (ds_log s) c' /\
    dc_owner c' = dc_owner c /\ dc_pending c' = dc_pending c /\ dc_cleanup c' = dc_cleanup c /\ open_fds c' = open_fds c /\
    (dc_pending c = true -> dc_cleanup c = false -> im_op (dc_input c') = im_op (dc_input c) /\ im_id (dc_input c') = im_id (dc_input c))) ->
  service_inv (set_client i c' s) reqs resps.
Proof.
  intros Hinv H. destruct (decide (i < length (ds_clients s))%nat) as [Hlt|]; [|by rewrite (proj2 (client_out s i ltac:(lia)))].
  assert (Hi := client_lookup s i Hlt). assert (Hc := proj1 (Forall_lookup _ _) (si_clients _ _ _ Hinv) i _ Hi).
  destruct (H Hlt Hc) as (Hc' & Ho & Hp & Hcl & Hop & Hin).
  eapply (service_update s _ i _ c' _ _ _ _ []); eauto; cbn; try done.
  - assert (Hn := si_next _ _ _ Hinv). lia.
  - by rewrite app_nil_r.
  - apply Hinv.
  - intros Hne. eapply si_beyond; [done|done|congruence].
  - eapply flight_keep; eauto. apply Hinv.
  - by rewrite Hop.
  - apply Hinv.
  - apply Hinv.
  - apply Hinv.
Qed.

Lemma disconnect_inv s reqs resps i : service_inv s reqs resps -> service_inv (disconnect_client i s) reqs resps.
Proof.
  intros Hinv. unfold disconnect_client. destruct (decide (i < length (ds_clients s))%nat) as [Hlt|].
  2:{ destruct (client_out s i ltac:(lia)) as [-> H]. unfold set_client. cbn. rewrite list_insert_ge by lia. by destruct s. }
  assert (Hi := client_lookup s i Hlt). assert (Hc := proj1 (Forall_lookup _ _) (si_clients _ _ _ Hinv) i _ Hi).
  eapply (service_update s _ i _ (disconnected (client s i)) _ _ _ _ []); eauto; cbn; try done.
  - assert (Hn := si_next _ _ _ Hinv). lia.
  - by rewrite app_nil_r.
  - apply Hinv.
  - by apply disconnected_inv.
  - intros Hne. by eapply si_beyond.
  - eapply flight_keep; eauto. apply Hinv.
  - rewrite app_nil_r. symmetry. by eapply service_open.
  - apply Hinv.
  - apply Hinv.
  - apply Hinv.
Qed.

(** ** Frames *)

Lemma client_set_client s i c : (i < length (ds_clients s))%nat -> client (set_client i c s) i = c.
Proof. intros H. unfold client, set_client. cbn. apply nth_lookup_Some. by rewrite list_lookup_insert_eq. Qed.

(** A change to a client that is disconnected at once. *)
Lemma disconnect_set_client s i c : (i < length (ds_clients s))%nat -> dc_fd c = dc_fd (client s i) -> dc_pidfd c = dc_pidfd (client s i) ->
  disconnect_client i (set_client i c s) = set_client i (disconnected c) (disconnect_client i s).
Proof.
  intros H Hf Hp. unfold disconnect_client. rewrite client_set_client by done. rewrite Hf, Hp. unfold set_client. cbn. by rewrite !list_insert_insert_eq.
Qed.

Lemma client_disconnect s i : (i < length (ds_clients s))%nat -> client (disconnect_client i s) i = disconnected (client s i).
Proof. intros H. unfold disconnect_client. by rewrite client_set_client. Qed.

Lemma disconnect_changed_inv s reqs resps i c : service_inv s reqs resps -> (i < length (ds_clients s))%nat ->
  dc_fd c = dc_fd (client s i) -> dc_pidfd c = dc_pidfd (client s i) -> dc_owner c = dc_owner (client s i) ->
  dc_pending c = dc_pending (client s i) -> dc_cleanup c = dc_cleanup (client s i) ->
  (dc_pending c = true -> dc_cleanup c = false -> dc_input c = dc_input (client s i)) ->
  client_inv (ds_next_owner s) (ds_log s) (disconnected c) ->
  service_inv (disconnect_client i (set_client i c s)) reqs resps.
Proof.
  intros Hinv Hlt Hf Hp Ho Hpe Hcl Hin Hc. rewrite disconnect_set_client by done. apply set_client_inv; [by apply disconnect_inv|].
  cbn zeta. intros _. rewrite client_disconnect by done. intros _. split_and!; try done.
  intros H1 H2. change (dc_input (disconnected c)) with (dc_input c). rewrite Hin; [done|..]; rewrite ?Hpe, ?Hcl; done.
Qed.

Lemma ipc_decode_length h m m' : ipc_decode h m = (0, m') -> 0 <= im_length m'.
Proof.
  unfold ipc_decode. destruct (_ || _); [done|]. intros [= <-]. cbn. assert (H := bswap32_range (rd_le32 h 16)). unfold is_u32 in H. apply H.
Qed.

Lemma ipc_request_valid_length m : ipc_request_valid m = true -> im_length m <= IPC_PAYLOAD_MAX /\ 1 <= im_op m <= 13.
Proof.
  unfold ipc_request_valid. destruct (_ || _) eqn:E; [done|]. rewrite !orb_false_iff in E. destruct E as [[[E1 E2] E3] E4].
  apply Z.ltb_ge in E1, E2, E4. unfold IPC_HELLO, IPC_RECVMMSG in *. lia.
Qed.

Lemma received_same data c : let c' := received data c in
  dc_have c' = dc_have c + Z.of_nat (length data) /\ dc_target c' = dc_target c /\ im_length (dc_input c') = im_length (dc_input c) /\
  ipc_request_valid (dc_input c') = ipc_request_valid (dc_input c) /\ dc_owner c' = dc_owner c /\ dc_pending c' = dc_pending c /\ dc_cleanup c' = dc_cleanup c /\
  dc_fd c' = dc_fd c /\ dc_pidfd c' = dc_pidfd c /\ dc_dead c' = dc_dead c /\ dc_handles c' = dc_handles c /\ dc_next_handle c' = dc_next_handle c /\
  dc_output_length c' = dc_output_length c /\ dc_output c' = dc_output c /\ dc_sent c' = dc_sent c /\ dc_hello c' = dc_hello c.
Proof. unfold received. cbn. by destruct (dc_have c <? IPC_HEADER_SIZE). Qed.

(** The client after [recv]; [input] is only looked at when the header is
    complete. *)
Lemma received_inv next events c data input target : client_inv next events c ->
  1 <= Z.of_nat (length data) <= dc_target c - dc_have c ->
  let c' := received data c in
  (dc_have c' = IPC_HEADER_SIZE -> dc_target c = IPC_HEADER_SIZE ->
     dc_dead c = true /\ target = dc_target c \/ ipc_request_valid input = true /\ 0 <= im_length input /\ target = dc_target c + im_length input) ->
  (dc_have c' <> IPC_HEADER_SIZE \/ dc_target c <> IPC_HEADER_SIZE -> input = dc_input c' /\ target = dc_target c) ->
  client_inv next events (c' |> set_dc_input input |> set_dc_target target).
Proof.
  intros [] Hd c' Hh Hn. destruct (received_same data c) as (Eh & Et & El & Ev & Eo & Ep & Ec & Ef & Epf & Ed & Eha & En & Eol & Eou & Es & Ehe).
  fold c' in Eh, Et, El, Ev, Eo, Ep, Ec, Ef, Epf, Ed, Eha, En, Eol, Eou, Es, Ehe. clearbody c'.
  assert (Hnp : dc_pending c = true -> dc_cleanup c = false -> False) by (intros Hp Hc; destruct (ci_waiting0 Hp Hc); lia).
  assert (Hcase : (dc_have c' = IPC_HEADER_SIZE /\ dc_target c = IPC_HEADER_SIZE) \/ (dc_have c' <> IPC_HEADER_SIZE \/ dc_target c <> IPC_HEADER_SIZE)) by lia.
  split; cbn; rewrite ?Eo, ?Ep, ?Ec, ?Ef, ?Epf, ?Ed, ?Eha, ?En, ?Eol, ?Eou, ?Es, ?Ehe; try done.
  - destruct Hcase as [[H1 H2]|H]; [destruct (Hh H1 H2) as [[_ ->]|(_ & ? & ->)]|destruct (Hn H) as [_ ->]]; lia.
  - destruct Hcase as [[H1 H2]|H]; [destruct (Hh H1 H2) as [[_ ->]|(_ & ? & ->)]|destruct (Hn H) as [-> ->]].
    + by left.
    + right. left. lia.
    + destruct ci_target0 as [?|[[? ?]|[? ?]]]; [by left|right; left; lia|]. lia.
  - intros H64 Hdead. destruct Hcase as [[H1 H2]|H]; [destruct (Hh H1 H2) as [[? _]|(? & ? & _)]; [congruence|done]|].
    destruct (Hn H) as [-> _]. rewrite Ev, El. apply ci_valid0; [|done]. destruct ci_target0 as [?|[[? ?]|[? ?]]]; lia.
  - intros Hp Hc. by destruct (Hnp Hp Hc).
  - intros Hp Hc. by destruct (Hnp Hp Hc).
Qed.

Lemma disconnected_received data c input : disconnected (set_dc_input input (received data c)) =
  (received data (disconnected c) |> set_dc_input input |> set_dc_target (dc_target (disconnected c))).
Proof. unfold received, disconnected. cbn. by destruct (dc_have c <? IPC_HEADER_SIZE). Qed.

Lemma last_id_inv next events c id input target : client_inv next events (c |> set_dc_input input |> set_dc_target target) ->
  client_inv next events (c |> set_dc_input input |> set_dc_last_id id |> set_dc_target target).
Proof. by intros []. Qed.

Lemma read_inv s reqs resps i r : service_inv s reqs resps -> service_inv (read_client i r s) reqs resps.
Proof.
  intros Hinv. unfold read_client. destruct r as [bytes|errno]; [|destruct (retry errno); [done|by apply disconnect_inv]].
  set (c := client s i). destruct (Nat.eqb_spec (length (take (Z.to_nat (dc_target c - dc_have c)) bytes)) 0) as [|Hlen]; [by apply disconnect_inv|].
  destruct (decide (i < length (ds_clients s))%nat) as [Hlt|Hge].
  2:{ exfalso. unfold c in Hlen. by rewrite (proj1 (client_out s i ltac:(lia))) in Hlen. }
  assert (Hi := client_lookup s i Hlt). assert (Hc := proj1 (Forall_lookup _ _) (si_clients _ _ _ Hinv) i _ Hi). fold c in Hc, Hi.
  assert (Hgl : 1 <= Z.of_nat (length (take (Z.to_nat (dc_target c - dc_have c)) bytes)) <= dc_target c - dc_have c) by (rewrite length_take in *; lia).
  revert Hgl. clear Hlen. generalize (take (Z.to_nat (dc_target c - dc_have c)) bytes) as data. clear bytes. intros data Hgl.
  assert (Hsame := received_same data c). cbn zeta in Hsame.
  destruct Hsame as (Eh & Et & El & Ev & Eo & Ep & Ec & Ef & Epf & Ed & Eha & En & Eol & Eou & Es & Ehe).
  assert (Hnp : dc_pending c = true -> dc_cleanup c = false -> False) by (intros Hp Hcl; destruct (ci_waiting _ _ _ Hc Hp Hcl); lia).
  assert (Hri := fun input target => received_inv _ _ c data input target Hc Hgl). cbn zeta in Hri.
  assert (Hfin : forall c', (dc_owner c' = dc_owner c /\ dc_pending c' = dc_pending c /\ dc_cleanup c' = dc_cleanup c /\ dc_fd c' = dc_fd c /\ dc_pidfd c' = dc_pidfd c) ->
    client_inv (ds_next_owner s) (ds_log s) c' -> service_inv (set_client i c' s) reqs resps).
  { intros c' (H1 & H2 & H3 & H4 & H5) Hc'. apply set_client_inv; [done|]. cbn zeta. fold c. intros _ _. split_and!; try done.
    - unfold open_fds. by rewrite H4, H5.
    - intros Hp Hcl. by destruct (Hnp Hp Hcl). }
  destruct (_ && _) eqn:E.
  - apply andb_true_iff in E as [E1 E2]. apply Z.eqb_eq in E1, E2. destruct (ipc_decode _ _) as [rc input] eqn:Edec. destruct (_ || _) eqn:Ebad.
    + apply disconnect_changed_inv; try done; cbn; rewrite ?Ep, ?Ec.
      * intros Hp Hcl. by destruct (Hnp Hp Hcl).
      * rewrite disconnected_received. apply received_inv; [by apply disconnected_inv|done| |].
        { intros _ _. by left. }
        { intros H. exfalso. destruct (received_same data (disconnected c)) as (Eh' & _).
          destruct H as [H|H]; apply H; [rewrite Eh'; change (dc_have (disconnected c)) with (dc_have c)|change (dc_target (disconnected c)) with (dc_target c)]; congruence. }
    + rewrite !orb_false_iff in Ebad. destruct Ebad as [[Erc Evalid] _]. apply truth_false in Erc as ->. apply negb_false_iff in Evalid.
      apply ipc_decode_length in Edec. apply Hfin; [done|]. apply last_id_inv. apply Hri; [|intros []; congruence].
      intros _ _. right. split; [done|]. split; [done|]. cbn. by rewrite Et.
  - apply Hfin; [done|]. apply andb_false_iff in E.
    assert (Hne : dc_have (received data c) <> IPC_HEADER_SIZE \/ dc_target c <> IPC_HEADER_SIZE) by (destruct E as [E|E]; apply Z.eqb_neq in E; [by left|right; congruence]).
    assert (H : received data c = (received data c |> set_dc_input (dc_input (received data c)) |> set_dc_target (dc_target c))) by (rewrite <- Et; by destruct (received data c)).
    rewrite H. apply Hri; [|done]. intros ? ?. destruct Hne; congruence.
Qed.

Lemma write_inv s reqs resps i r : service_inv s reqs resps -> service_inv (write_client i r s) reqs resps.
Proof.
  intros Hinv. unfold write_client. destruct r as [n|errno]; [|destruct (retry errno); [done|by apply disconnect_inv]].
  set (c := client s i). destruct (Z.leb_spec (Z.min n (dc_output_length c - dc_sent c)) 0) as [|Hn]; [by apply disconnect_inv|].
  apply set_client_inv; [done|]. cbn zeta. fold c. intros Hlt Hc.
  destruct Hc. assert (Hd : dc_dead c = false).
  { destruct (dc_dead c) eqn:E; [|done]. destruct (ci_dead0 eq_refl) as (_ & _ & H0). lia. }
  destruct ci_output0 as (Hmax & Hs & Hso). specialize (Hso Hd).
  assert (Hout : dc_output_length c <> 0) by lia.
  assert (Hnp : dc_pending c = true -> dc_cleanup c = false -> False) by (intros Hp Hcl; by destruct (ci_waiting0 Hp Hcl)).
  split; [|by destruct (_ =? _)]. destruct (_ =? _) eqn:E; cbn in E; (split; cbn; try done).
  - congruence.
  - intros Hp Hcl. by destruct (Hnp Hp Hcl).
  - lia.
Qed.

(** ** Handles *)

Lemma handle_None c fd : 0 < fd -> handle c fd = None -> Forall (fun h => dh_local h <> fd) (dc_handles c).
Proof.
  intros Hfd. unfold handle. rewrite find_index_None. intros H. apply Forall_lookup. intros i h Hi E. specialize (H i h Hi). subst fd.
  rewrite Z.eqb_refl in H. destruct (Z.ltb_spec 0 (dh_local h)); [done|lia].
Qed.

Lemma handle_Some c fd k : handle c fd = Some k -> 0 < fd /\ exists h, dc_handles c !! k = Some h /\ dh_local h = fd /\ handle_entry c k = h.
Proof.
  intros H. apply find_index_Some in H as [(h & Hk & Hh) _]. apply andb_true_iff in Hh as [E1 E2]. apply Z.eqb_eq in E1. apply Z.ltb_lt in E2.
  split; [done|]. exists h. split; [done|]. split; [done|]. unfold handle_entry. by apply nth_lookup_Some.
Qed.

(** The candidates the loop tries, in order. *)
Definition next_handle (fd : Z) : Z := if fd =? INT_MAX then 1 else fd + 1.
Fixpoint candidates (n : nat) (fd : Z) : list Z := match n with O => [] | S n' => fd :: candidates n' (next_handle fd) end.

Lemma candidates_lookup n fd k : 1 <= fd <= INT_MAX -> (k < n)%nat ->
  candidates n fd !! k = Some ((fd - 1 + Z.of_nat k) mod INT_MAX + 1).
Proof.
  revert fd k. induction n as [|n IH]; intros fd k Hfd Hk; [lia|]. destruct k as [|k].
  - cbn. f_equal. rewrite Z.mod_small; unfold INT_MAX in *; lia.
  - assert (Hn : 1 <= next_handle fd <= INT_MAX) by (unfold next_handle; destruct (Z.eqb_spec fd INT_MAX); unfold INT_MAX in *; lia).
    change (candidates (S n) fd !! S k) with (candidates n (next_handle fd) !! k). rewrite (IH _ k Hn) by lia. do 2 f_equal. unfold next_handle. destruct (Z.eqb_spec fd INT_MAX) as [->|].
    + replace (INT_MAX - 1 + Z.of_nat (S k)) with (1 - 1 + Z.of_nat k + 1 * INT_MAX) by lia. by rewrite Z_mod_plus_full.
    + f_equal. lia.
Qed.

Lemma candidates_NoDup n fd : 1 <= fd <= INT_MAX -> Z.of_nat n <= INT_MAX -> NoDup (candidates n fd).
Proof.
  intros Hfd Hn. apply NoDup_alt. intros i j x Hi Hj. assert (Li := lookup_lt_Some _ _ _ Hi). assert (Lj := lookup_lt_Some _ _ _ Hj).
  assert (Hl : length (candidates n fd) = n) by (clear; revert fd; induction n; intros; cbn; auto).
  rewrite candidates_lookup in Hi, Hj by lia. injection Hi as Hi. injection Hj as Hj.
  rewrite Hl in Li, Lj. unfold INT_MAX in *. Z.div_mod_to_equations. nia.
Qed.

Lemma pick_handle_None n c : pick_handle n c = None -> Forall (fun fd => handle c fd <> None) (candidates n (dc_next_handle c)).
Proof.
  revert c. induction n as [|n IH]; intros c; cbn [pick_handle candidates]; [constructor|].
  destruct (handle c (dc_next_handle c)) eqn:E; [|done]. intros H. constructor; [congruence|]. apply IH in H. done.
Qed.

Lemma pick_handle_Some n c fd next : pick_handle n c = Some (fd, next) -> 1 <= dc_next_handle c <= INT_MAX ->
  handle c fd = None /\ 1 <= fd <= INT_MAX /\ 1 <= next <= INT_MAX.
Proof.
  revert c. induction n as [|n IH]; intros c; cbn [pick_handle]; [done|]. intros H Hr.
  assert (Hn : 1 <= next_handle (dc_next_handle c) <= INT_MAX) by (unfold next_handle; destruct (Z.eqb_spec (dc_next_handle c) INT_MAX); unfold INT_MAX in *; lia).
  destruct (handle c (dc_next_handle c)) eqn:E; [apply IH in H; done|]. by injection H as <- <-.
Qed.

(** A free entry leaves at most [DAEMON_SOCKET_MAX - 1] handles in use, so one of
    the candidates is free. *)
Lemma pick_handle_total c i h : length (dc_handles c) = Z.to_nat DAEMON_SOCKET_MAX -> dc_handles c !! i = Some h -> dh_local h = 0 ->
  1 <= dc_next_handle c <= INT_MAX -> pick_handle (Z.to_nat DAEMON_SOCKET_MAX) c <> None.
Proof.
  intros Hl Hi Hh Hn H. apply pick_handle_None in H.
  assert (Hsub : candidates (Z.to_nat DAEMON_SOCKET_MAX) (dc_next_handle c) ⊆ (dh_local <$> (take i (dc_handles c) ++ drop (S i) (dc_handles c)))).
  { intros fd Hfd. rewrite Forall_forall in H. specialize (H fd Hfd). destruct (handle c fd) as [k|] eqn:E; [|done].
    apply handle_Some in E as (Hpos & g & Hk & <- & _). apply list_elem_of_fmap. exists g. split; [done|]. apply elem_of_app.
    destruct (lt_eq_lt_dec k i) as [[Hlt| ->]|Hgt].
    - left. apply list_elem_of_lookup. exists k. by rewrite lookup_take_lt.
    - rewrite Hi in Hk. injection Hk as <-. lia.
    - right. apply list_elem_of_lookup. exists (k - S i)%nat. rewrite lookup_drop. by replace (S i + (k - S i))%nat with k by lia. }
  apply NoDup_submseteq, submseteq_length in Hsub; [|apply candidates_NoDup; [done|unfold DAEMON_SOCKET_MAX, INT_MAX; lia]].
  assert (Hlc : forall n fd, length (candidates n fd) = n) by (clear; intros n; induction n; intros; cbn; auto).
  assert (Hli := lookup_lt_Some _ _ _ Hi).
  rewrite Hlc, length_fmap, length_app, length_take, length_drop in Hsub. lia.
Qed.

(** The handle is fresh, and [-EMFILE] is answered only to a client with
    [DAEMON_SOCKET_MAX] handles. *)
Lemma add_handle_spec next events c core : client_inv next events c -> dc_owner c <> 0 -> granted events (dc_owner c) core ->
  let '(fd, c') := add_handle c core in
  (fd = - EMFILE /\ c' = c /\ Forall (fun h => dh_local h <> 0) (dc_handles c)) \/
  (0 < fd /\ handle c fd = None /\ client_inv next events c' /\
   exists i next_handle, c' = (c |> set_dc_next_handle next_handle |> set_dc_handles (<[i := mk_daemon_handle fd core]> (dc_handles c)))).
Proof.
  intros [] Ho Hg. unfold add_handle. destruct (find_index _ _) as [i|] eqn:Ei.
  2:{ left. split; [done|]. split; [done|]. rewrite find_index_None in Ei. apply Forall_lookup. intros k h Hk. specialize (Ei k h Hk). by apply negb_false_iff, truth_true in Ei. }
  apply find_index_Some in Ei as [(h & Hi & Hh) _]. apply negb_true_iff, truth_false in Hh. specialize (ci_next0 Ho).
  destruct (pick_handle _ c) as [[fd nh]|] eqn:Ep; [|by destruct (pick_handle_total c i h ci_size0 Hi Hh ci_next0)].
  apply pick_handle_Some in Ep as (Hnone & Hfd & Hnh); [|done]. right. split; [lia|]. split; [done|]. split; [|eauto].
  apply handle_None in Hnone; [|lia]. rewrite Forall_lookup in Hnone. split; cbn; try done.
  - by rewrite length_insert.
  - apply Forall_insert; [done|]. split; [cbn; lia|done].
  - intros j k hj hk [(<- & <- & _)|[Hj1 Hj]]%list_lookup_insert_Some [(<- & <- & _)|[Hk1 Hk]]%list_lookup_insert_Some E E0; try done; cbn in *.
    + by destruct (Hnone k hk Hk).
    + by destruct (Hnone j hj Hj).
    + by eapply ci_distinct0.
Qed.

(** ** Replies *)

Lemma length_frame m : 0 <= im_length m -> Z.of_nat (length (frame m)) = IPC_HEADER_SIZE + im_length m.
Proof.
  intros Hm. unfold frame. rewrite length_app. assert (H : length (ipc_encode m) = 64%nat) by done. rewrite H.
  destruct (truth (im_length m)) eqn:E; [|apply truth_false in E as ->; done]. unfold padded, IPC_HEADER_SIZE. rewrite length_take, length_app, length_replicate. lia.
Qed.

Lemma reply_inv next events c m : client_inv next events c -> dc_pending c = false -> dc_dead c = false -> dc_owner c <> 0 ->
  0 <= im_length m <= IPC_PAYLOAD_MAX -> client_inv next events (reply m c).
Proof.
  intros [] Hp Hd Ho Hm. unfold reply. split; cbn; try done; try (by rewrite ?Hd, ?Hp; intros); try (unfold IPC_FRAME_MAX, IPC_HEADER_SIZE in *; lia).
  intros _. symmetry. apply length_frame. lia.
Qed.

(** ** The flight *)

Lemma flight_owner_fresh clients flight i c : flight_inv clients flight -> owners_distinct clients -> clients !! i = Some c ->
  dc_owner c <> 0 -> dc_pending c = false -> dc_owner c ∉ di_owner <$> flight.
Proof.
  intros Hf Ho Hi Hc Hp. intros (item & E & Hit)%list_elem_of_fmap. destruct (fi_expected _ _ Hf item Hit) as (j & d & Hj & Hd & Hd' & _).
  assert (i = j) as <- by (eapply Ho; eauto; congruence). congruence.
Qed.

Lemma flight_push clients reqs resps i c item : flight_inv clients (reqs ++ resps) -> owners_distinct clients -> clients !! i = Some c ->
  dc_owner c <> 0 -> dc_pending c = false -> forall c', dc_owner c' = dc_owner c -> dc_pending c' = true -> expects c' item ->
  flight_inv (<[i := c']> clients) ((reqs ++ [item]) ++ resps).
Proof.
  intros Hf Ho Hi Hc Hp c' Eo Ep He. assert (Hfresh := flight_owner_fresh _ _ _ _ Hf Ho Hi Hc Hp). assert (Hlt := lookup_lt_Some _ _ _ Hi).
  assert (Hperm : (reqs ++ [item]) ++ resps ≡ₚ item :: reqs ++ resps) by solve_Permutation. split.
  - rewrite Hperm, fmap_cons. apply NoDup_cons. split; [|apply Hf]. by rewrite (proj1 He), Eo.
  - intros it. rewrite Hperm. intros [->|Hit]%elem_of_cons; [exists i, c'; by rewrite list_lookup_insert_eq|].
    destruct (fi_expected _ _ Hf it Hit) as (j & d & Hj & Hd & Hde). exists j, d. rewrite list_lookup_insert_ne; [done|]. intros ->. congruence.
  - intros j d. rewrite Hperm, fmap_cons. intros [(<- & <- & _)|[_ Hj]]%list_lookup_insert_Some Hd; apply elem_of_cons; [left|right; by eapply fi_pending].
    symmetry. apply He.
Qed.

Lemma flight_pop clients reqs resps i c item : flight_inv clients (reqs ++ item :: resps) -> owners_distinct clients -> clients !! i = Some c ->
  dc_owner c <> 0 -> di_owner item = dc_owner c -> forall c', dc_pending c' = false -> flight_inv (<[i := c']> clients) (reqs ++ resps).
Proof.
  intros Hf Ho Hi Hc Hit c' Ep. assert (Hperm : reqs ++ item :: resps ≡ₚ item :: reqs ++ resps) by solve_Permutation.
  assert (Hnd := fi_distinct _ _ Hf). rewrite Hperm, fmap_cons in Hnd. apply NoDup_cons in Hnd as [Hfresh Hnd]. split; [done| |].
  - intros it Hx. assert (Hx' : it ∈ reqs ++ item :: resps) by (rewrite Hperm; apply elem_of_cons; by right).
    destruct (fi_expected _ _ Hf it Hx') as (j & d & Hj & Hd & Hde). exists j, d. rewrite list_lookup_insert_ne; [done|].
    intros ->. rewrite Hj in Hi. injection Hi as ->. apply Hfresh. rewrite Hit, <- (proj1 Hde). by apply list_elem_of_fmap_2.
  - intros j d [(<- & <- & _)|[Hne Hj]]%list_lookup_insert_Some Hd; [congruence|].
    assert (H := fi_pending _ _ Hf j d Hj Hd). rewrite Hperm, fmap_cons in H. apply elem_of_cons in H as [H|H]; [|done].
    destruct Hne. eapply Ho; eauto. congruence.
Qed.

(** A slot without a request on either side. *)
Lemma flight_idle clients flight i c c' : flight_inv clients flight -> clients !! i = Some c -> dc_pending c = false -> dc_pending c' = false ->
  flight_inv (<[i := c']> clients) flight.
Proof.
  intros Hf Hi Hp Hp'. split; [apply Hf| |].
  - intros it Hx. destruct (fi_expected _ _ Hf it Hx) as (j & d & Hj & Hd & Hde). exists j, d. rewrite list_lookup_insert_ne; [done|].
    intros ->. congruence.
  - intros j d [(<- & <- & _)|[Hne Hj]]%list_lookup_insert_Some Hd; [congruence|]. by eapply fi_pending.
Qed.

Definition item_key (item : daemon_item) : Z * Z * Z := (di_owner item, im_op (di_message item), im_id (di_message item)).

Lemma flight_serve clients flight flight' : flight_inv clients flight -> item_key <$> flight' ≡ₚ item_key <$> flight -> flight_inv clients flight'.
Proof.
  intros Hf Hk. assert (Ho : di_owner <$> flight' ≡ₚ di_owner <$> flight).
  { apply (fmap_Permutation (fun k => k.1.1)) in Hk. by rewrite <- !list_fmap_compose in Hk. }
  split.
  - rewrite Ho. apply Hf.
  - intros it Hit. assert (Hx : item_key it ∈ item_key <$> flight) by (rewrite <- Hk; by apply list_elem_of_fmap_2).
    apply list_elem_of_fmap in Hx as (it0 & E & Hx). injection E as E1 E2 E3.
    destruct (fi_expected _ _ Hf it0 Hx) as (j & d & Hj & Hd & Hd1 & Hd2). exists j, d. split; [done|]. split; [done|]. split; [congruence|].
    destruct (dc_cleanup d); [congruence|]. destruct Hd2. split; congruence.
  - intros j d Hj Hd. rewrite Ho. by eapply fi_pending.
Qed.

(** ** Responses *)

Lemma owner_slot_found s reqs resps i c : service_inv s reqs resps -> ds_clients s !! i = Some c -> dc_owner c <> 0 ->
  owner_slot s (dc_owner c) = Some i.
Proof.
  intros Hinv Hi Ho. assert (Hb := si_beyond _ _ _ Hinv i c Hi Ho). apply find_index_Some. split.
  - exists c. rewrite lookup_take_lt by lia. split; [done|apply Z.eqb_refl].
  - intros j d Hj. rewrite lookup_take_lt by lia. intros Hd. apply Z.eqb_neq. intros E. assert (j = i) by (eapply (si_owners _ _ _ Hinv); eauto; congruence). lia.
Qed.

(** The client a response is for, its request taken off the rings. *)
Lemma collect_clear s reqs item resps ring i c c' :
  service_inv s reqs (item :: resps) -> daemon_queue_pop (ds_responses s) = (Some item, ring) ->
  ds_clients s !! i = Some c -> dc_owner c <> 0 -> di_owner item = dc_owner c ->
  dc_pending c' = false -> (dc_owner c' = dc_owner c \/ dc_owner c' = 0) -> open_fds c' = open_fds c ->
  client_inv (ds_next_owner s) (ds_log s ++ [Took item]) c' ->
  service_inv (set_client i c' (log (Took item) (set_ds_responses ring s))) reqs resps.
Proof.
  intros Hinv Hpop Hi Ho Hit Hp Ho' Hop Hc. assert (Hq := pop_holds _ _ (si_responses _ _ _ Hinv)). cbn in Hq. rewrite Hpop in Hq. destruct Hq as [_ Hq].
  eapply (service_update s _ i c c' _ _ _ _ [Took item]); eauto; cbn; try done.
  - assert (Hn := si_next _ _ _ Hinv). lia.
  - apply log_ok_took, Hinv.
  - intros _. eapply si_beyond; eauto.
  - tauto.
  - eapply flight_pop; eauto; apply Hinv.
  - by rewrite Hop.
  - apply Hinv.
  - assert (H := si_lengths _ _ _ Hinv). by apply Forall_cons in H as [_ H].
Qed.

Lemma closed_client_inv next events : 0 <= next -> client_inv next events closed_client.
Proof.
  intros Hn. split; cbn; try done; try lia.
  - apply Forall_replicate. cbn. split; [unfold INT_MAX; lia|done].
  - intros i j hi hj Hi Hj. apply lookup_replicate in Hi as [-> _]. done.
Qed.

Lemma idle_inv next events c : client_inv next events c -> dc_cleanup c = false -> client_inv next events (set_dc_pending false c).
Proof. intros [] Hcl. split; cbn; try done. - intros H. by destruct (ci_free0 H). - intros H. congruence. Qed.

Lemma drop_handle_inv next events c k : client_inv next events c -> client_inv next events (set_dc_handles (<[k := zero_daemon_handle]> (dc_handles c)) c).
Proof.
  intros []. split; cbn; try done.
  - by rewrite length_insert.
  - apply Forall_insert; [done|]. cbn. split; [unfold INT_MAX; lia|done].
  - intros i j hi hj [(<- & <- & _)|[Hj1 Hj]]%list_lookup_insert_Some [(<- & <- & _)|[Hk1 Hk]]%list_lookup_insert_Some E E0; try done.
    by eapply ci_distinct0.
Qed.

Lemma collect_inv s reqs item resps ring :
  service_inv s reqs (item :: resps) -> daemon_queue_pop (ds_responses s) = (Some item, ring) ->
  service_inv (collect_item item (set_ds_responses ring s)) reqs resps.
Proof.
  intros Hinv Hpop. destruct (fi_expected _ _ (si_flight _ _ _ Hinv) item ltac:(set_solver)) as (i & c & Hi & Hp & Howner & Hexp).
  assert (Hc := proj1 (Forall_lookup _ _) (si_clients _ _ _ Hinv) i _ Hi). assert (Hlt := lookup_lt_Some _ _ _ Hi).
  assert (Ho : dc_owner c <> 0) by (intros H; destruct (ci_free _ _ _ Hc H); congruence).
  assert (Hcc : client s i = c) by (unfold client; by apply nth_lookup_Some).
  set (s0 := log (Took item) (set_ds_responses ring s)). unfold collect_item. fold s0.
  change (owner_slot s0 (di_owner item)) with (owner_slot s (di_owner item)). rewrite Howner, (owner_slot_found _ _ _ _ _ Hinv Hi Ho).
  assert (Hlen : 0 <= im_length (di_message item) <= IPC_PAYLOAD_MAX) by (assert (H := si_lengths _ _ _ Hinv); by apply Forall_cons in H as [H _]).
  unfold collect_client. replace (client s0 i) with c by done. change (dc_cleanup (set_dc_pending false c)) with (dc_cleanup c).
  destruct (dc_cleanup c) eqn:Ecl.
  { rewrite Hexp. cbn [Z.eqb andb Pos.eqb IPC_CLEANUP]. destruct (ci_cleanup _ _ _ Hc Ecl) as [Hd _]. destruct (ci_dead _ _ _ Hc Hd) as (Hf & Hpf & _).
    eapply collect_clear; eauto.
    - unfold open_fds. cbn. destruct (Z.leb_spec 0 (dc_fd c)); [lia|]. destruct (Z.leb_spec 0 (dc_pidfd c)); [lia|done].
    - apply closed_client_inv, (si_next _ _ _ Hinv). }
  rewrite andb_false_r. destruct Hexp as [Eop Eid].
  assert (Hcm : client_inv (ds_next_owner s) (ds_log s ++ [Took item]) (set_dc_pending false c)).
  { apply idle_inv; [|done]. eapply client_inv_mono; [|done]. lia. }
  assert (Hs1 : service_inv (set_client i (set_dc_pending false c) s0) reqs resps) by (eapply collect_clear; eauto).
  set (c1 := set_dc_pending false c) in *. set (s1 := set_client i c1 s0) in *.
  assert (Hlt1 : (i < length (ds_clients s1))%nat) by (unfold s1; cbn; by rewrite length_insert).
  assert (Hc1 : client s1 i = c1) by (by apply client_set_client).
  destruct (dc_dead c1) eqn:Ed; [done|]. change (dc_input c1) with (dc_input c). rewrite Eid, Eop, !Z.eqb_refl. cbn [negb orb].
  assert (Hfinal : forall c2 m, client_inv (ds_next_owner s) (ds_log s ++ [Took item]) c2 -> dc_owner c2 = dc_owner c1 -> dc_pending c2 = false ->
    dc_cleanup c2 = false -> dc_dead c2 = false -> open_fds c2 = open_fds c1 -> im_length m = im_length (di_message item) ->
    service_inv (set_client i (reply m c2) s1) reqs resps).
  { intros c2 m Hc2 E1 E2 E3 E4 E5 E6. apply set_client_inv; [done|]. cbn zeta. rewrite Hc1. intros _ _.
    split_and!; [|exact E1|exact E2|by transitivity false|exact E5|done]. apply reply_inv; [done|done|done|by rewrite E1|by rewrite E6]. }
  destruct ((0 <=? im_result (di_message item)) && _) eqn:Eopen.
  - apply andb_true_iff in Eopen as [Er Eops]. apply Z.leb_le in Er. rewrite <- Eop in Eops.
    assert (Hg : granted (ds_log s ++ [Took item]) (dc_owner c1) (im_result (di_message item))).
    { exists item. split; [apply elem_of_app; right; by apply list_elem_of_singleton|]. split_and!; try done.
      apply orb_true_iff in Eops as [E|E]; apply Z.eqb_eq in E; auto. }
    assert (Hadd := add_handle_spec _ _ c1 _ Hcm Ho Hg). destruct (add_handle c1 _) as [fd c2]. cbn [andb].
    destruct Hadd as [(-> & -> & _)|(Hfd & _ & Hc2 & k & nh & Ec2)].
    + cbn [Z.ltb Z.opp Z.compare]. unfold EMFILE. cbn. apply disconnect_inv. apply set_client_inv; [done|]. cbn zeta. by rewrite Hc1.
    + destruct (Z.ltb_spec fd 0); [lia|]. replace (negb (truth fd)) with false by (symmetry; apply negb_false_iff, truth_true; lia). cbn [andb].
      apply Hfinal; try done; by rewrite Ec2.
  - cbn [andb]. destruct (negb (truth (im_result (di_message item))) && _); [|by apply Hfinal].
    destruct (handle c1 _) as [k|] eqn:Eh; [|by apply Hfinal]. apply Hfinal; try done. by apply drop_handle_inv.
Qed.

(** ** Requests *)

Lemma push_inv s reqs resps i c c' item : service_inv s reqs resps -> ds_clients s !! i = Some c -> dc_owner c <> 0 -> dc_pending c = false ->
  permitted (ds_log s) item -> dc_owner c' = dc_owner c -> dc_pending c' = true -> expects c' item -> open_fds c' = open_fds c ->
  client_inv (ds_next_owner s) (ds_log s) c' ->
  exists reqs', service_inv (let '(ok, s') := push_request item s in if ok : bool then set_client i c' s' else s') reqs' resps.
Proof.
  intros Hinv Hi Ho Hp Hperm Ho' Hp' He Hop Hc. unfold push_request. assert (Hq := si_requests _ _ _ Hinv).
  destruct (push_holds _ _ item Hq) as [E1 E2]. rewrite E1. destruct (Z.eqb_spec (Z.of_nat (length reqs)) DAEMON_QUEUE_SIZE) as [|Hne]; [by exists reqs|].
  change (truth 0) with false. cbn iota. exists (reqs ++ [item]). assert (Hl := proj1 (proj2 Hq)).
  eapply (service_update s _ i c c' _ _ _ _ [Submitted item]); eauto; cbn; try done.
  - assert (Hn := si_next _ _ _ Hinv). lia.
  - apply log_ok_submitted; [apply Hinv|done].
  - eapply client_inv_mono; [|done]. lia.
  - intros _. by eapply si_beyond.
  - eapply flight_push; eauto; apply Hinv.
  - by rewrite Hop.
  - apply E2. lia.
  - apply Hinv.
  - apply Hinv.
Qed.

Lemma service_client_inv_at s reqs resps i : service_inv s reqs resps -> (i < length (ds_clients s))%nat -> client_inv (ds_next_owner s) (ds_log s) (client s i).
Proof. intros Hinv Hlt. apply (proj1 (Forall_lookup _ _) (si_clients _ _ _ Hinv) i). by apply client_lookup. Qed.

Lemma hello_inv next events c : client_inv next events c -> client_inv next events (set_dc_hello true c).
Proof. intros []. split; cbn; try done. intros Hp Hcl. split; [done|]. by apply ci_pending0. Qed.

Lemma submit_inv s reqs resps i : service_inv s reqs resps -> exists reqs', service_inv (submit_client i s) reqs' resps.
Proof.
  intros Hinv. unfold submit_client. destruct (decide (i < length (ds_clients s))%nat) as [Hlt|Hge].
  2:{ destruct (client_out s i ltac:(lia)) as [-> _]. by exists reqs. }
  assert (Hi := client_lookup s i Hlt). assert (Hc := service_client_inv_at _ _ _ i Hinv Hlt). set (c := client s i) in *.
  destruct (truth (dc_owner c)) eqn:Eo; [|by exists reqs]. apply truth_true in Eo. cbn [negb orb]. destruct (dc_pending c) eqn:Ep; [by exists reqs|].
  assert (Hrep : forall m c', im_length m = 0 -> client_inv (ds_next_owner s) (ds_log s) c' -> dc_dead c = false -> dc_owner c' = dc_owner c -> dc_pending c' = false ->
    dc_cleanup c' = dc_cleanup c -> dc_dead c' = false -> open_fds c' = open_fds c -> exists reqs', service_inv (set_client i (reply m c') s) reqs' resps).
  { intros m c' Hm Hc' _ H1 H2 H3 H4 H5. exists reqs. apply set_client_inv; [done|]. cbn zeta. fold c. intros _ _.
    split_and!; [|exact H1|by rewrite Ep|exact H3|exact H5|by rewrite Ep]. apply reply_inv; [done|done|done|by rewrite H1|by rewrite Hm]. }
  destruct (dc_dead c) eqn:Ed.
  { eapply push_inv; eauto; try done.
    - split; [done|by left].
    - destruct Hc. split; cbn; try done; intros H; congruence. }
  destruct (truth (dc_output_length c) || _) eqn:Ew; [by exists reqs|]. apply orb_false_iff in Ew as [Eout Ehave].
  apply truth_false in Eout. apply negb_false_iff, Z.eqb_eq in Ehave.
  assert (Hcl : dc_cleanup c = false) by (destruct (dc_cleanup c) eqn:E; [destruct (ci_cleanup _ _ _ Hc E); congruence|done]).
  assert (Hv : ipc_request_valid (dc_input c) = true).
  { apply (ci_valid _ _ _ Hc); [|done]. destruct (ci_target _ _ _ Hc) as [H|[[H _]|[H _]]]; [lia|done|done]. }
  destruct (dc_hello c) eqn:Eh; cbn [negb].
  2:{ destruct (im_op (dc_input c) =? IPC_HELLO); cbn [negb]; [|exists reqs; by apply disconnect_inv]. apply Hrep; try done. by apply hello_inv. }
  destruct (im_op (dc_input c) =? IPC_HELLO) eqn:Ehello; [by apply Hrep|].
  assert (Hsend : forall fd, (im_op (dc_input c) = IPC_SOCKET \/ granted (ds_log s) (dc_owner c) fd) -> exists reqs', service_inv
    (let '(ok, s') := push_request (mk_daemon_item (dc_owner c) (set_im_fd fd (dc_input c))) s in if ok : bool then set_client i (set_dc_pending true c) s' else s') reqs' resps).
  { intros fd Hfd. eapply push_inv; eauto; try done.
    - split; [done|]. right. done.
    - split; [done|]. change (dc_cleanup (set_dc_pending true c)) with (dc_cleanup c). rewrite Hcl. done.
    - destruct Hc. split; cbn; try done; intros; congruence. }
  destruct (Z.eqb_spec (im_op (dc_input c)) IPC_SOCKET) as [Es|Es]; cbn [negb]; [apply Hsend; by left|].
  destruct (handle c _) as [k|] eqn:Ek; [|by apply Hrep]. apply Hsend. right.
  apply handle_Some in Ek as (Hpos & h & Hk & Hl & ->). apply (proj1 (Forall_lookup _ _) (ci_handles _ _ _ Hc) k h Hk). lia.
Qed.

Lemma identities_inv s reqs resps ids : service_inv s reqs resps -> service_inv (set_ds_identities ids s) reqs resps.
Proof. by intros []. Qed.

Lemma service_client_inv s reqs resps i : service_inv s reqs resps -> exists reqs', service_inv (service_client s i) reqs' resps.
Proof.
  intros Hinv. unfold service_client. destruct (negb _); [by exists reqs|]. apply (submit_inv _ reqs).
  destruct (_ && _); [apply (disconnect_inv _ _ _ i) in Hinv|]; (destruct (dc_dead _); [by apply identities_inv|done]).
Qed.

(** ** Connections *)

Lemma accepted_inv next events conn : 0 <= next -> client_inv (next + 1) events
  (zero_daemon_client |> set_dc_fd (cn_fd conn) |> set_dc_pidfd (cn_pidfd conn) |> set_dc_owner (next + 1) |> set_dc_next_handle 1 |> set_dc_target IPC_HEADER_SIZE).
Proof.
  intros Hn. split; cbn; try done; try lia; try (unfold IPC_HEADER_SIZE, INT_MAX; lia).
  - apply Forall_replicate. cbn. split; [unfold INT_MAX; lia|done].
  - intros i j hi hj Hi Hj. apply lookup_replicate in Hi as [-> _]. done.
Qed.

Lemma accept_inv s reqs resps conn : 0 <= cn_fd conn -> service_inv s reqs resps -> service_inv (accept_client conn s) reqs resps.
Proof.
  intros Hfd Hinv. unfold accept_client. destruct (free_slot s) as [i|] eqn:Ei; [|done]. destruct (Z.eqb_spec (ds_next_owner s) UINT64_MAX) as [|Hne]; [done|].
  apply find_index_Some in Ei as [(c & Hi & Ho) _]. apply negb_true_iff, truth_false in Ho.
  assert (Hb : (i < Z.to_nat (ds_max_clients s))%nat) by (apply lookup_lt_Some in Hi; rewrite length_take in Hi; lia). rewrite lookup_take_lt in Hi by done.
  assert (Hc := proj1 (Forall_lookup _ _) (si_clients _ _ _ Hinv) i _ Hi). assert (Hn := si_next _ _ _ Hinv).
  destruct (ci_free _ _ _ Hc Ho) as (Hp & Hf & Hpf).
  eapply (service_update s _ i c _ _ _ reqs resps []); [done|done|by destruct (cn_identity conn) as [[]|]|by destruct (cn_identity conn) as [[]|]|..].
  - destruct (cn_identity conn) as [[]|]; cbn; lia.
  - rewrite app_nil_r. by destruct (cn_identity conn) as [[]|].
  - destruct (cn_identity conn) as [[]|]; apply Hinv.
  - destruct (cn_identity conn) as [[]|]; apply accepted_inv; lia.
  - lia.
  - right. right. cbn. lia.
  - destruct (cn_identity conn) as [[]|]; (eapply flight_idle; eauto; apply Hinv).
  - by destruct (cn_identity conn) as [[]|].
  - replace (open_fds c) with (@nil Z) by (unfold open_fds; destruct (Z.leb_spec 0 (dc_fd c)); [lia|]; destruct (Z.leb_spec 0 (dc_pidfd c)); [lia|done]).
    rewrite app_nil_r. unfold open_fds. cbn. destruct (Z.leb_spec 0 (cn_fd conn)); [|lia].
    destruct (cn_identity conn) as [[]|]; cbn; destruct (0 <=? cn_pidfd conn); solve_Permutation.
  - destruct (cn_identity conn) as [[]|]; apply Hinv.
  - destruct (cn_identity conn) as [[]|]; apply Hinv.
  - apply Hinv.
Qed.

(** ** The system *)

Section System.
Context {W : Worker}.

Lemma worker_inv s reqs resps w request ring : sound w -> service_inv s (request :: reqs) resps ->
  daemon_queue_room (ds_responses s) = true -> daemon_queue_pop (ds_requests s) = (Some request, ring) ->
  service_inv (s |> set_ds_requests ring |> set_ds_responses (daemon_queue_push (ds_responses s) (serve request w).1).2) reqs (resps ++ [(serve request w).1]).
Proof.
  intros Hsound [] Hroom Hpop. destruct (serve_request request w Hsound) as (Ho & Hop & Hid & Hlen).
  assert (Hq := pop_holds _ _ si_requests0). cbn in Hq. rewrite Hpop in Hq. destruct Hq as [_ Hq].
  destruct (push_holds _ _ (serve request w).1 si_responses0) as [_ Hr].
  unfold daemon_queue_room in Hroom. rewrite (queue_holds_count _ _ si_responses0) in Hroom. apply Z.ltb_lt in Hroom. specialize (Hr Hroom).
  split; try done.
  - eapply flight_serve; [exact si_flight0|]. rewrite !fmap_app. cbn. replace (item_key (serve request w).1) with (item_key request) by (unfold item_key; congruence).
    solve_Permutation.
  - apply Forall_app. split; [done|]. by apply Forall_singleton.
Qed.

Lemma flags_inv s reqs resps stopping done failed : service_inv s reqs resps ->
  service_inv (s |> set_ds_stopping stopping |> set_ds_done done |> set_ds_failed failed) reqs resps.
Proof. by intros []. Qed.

Lemma close_listener_inv s reqs resps : service_inv s reqs resps -> service_inv (close_listener s) reqs resps.
Proof.
  intros []. split; try done. unfold close_listener. cbn. apply close_fd_head. rewrite si_open0. unfold own_fds. cbn. by rewrite <- !app_assoc.
Qed.

Definition system_inv (x : daemon_service * worker) : Prop := sound x.2 /\ exists reqs resps, service_inv x.1 reqs resps.

Lemma control_step_sound x y : control_step x y -> sound x.2 -> sound y.2.
Proof. intros []; cbn; eauto using serve_sound, background_sound. Qed.

Lemma control_step_inv x y : control_step x y -> system_inv x -> system_inv y.
Proof.
  intros Hstep [Hsound (reqs & resps & Hinv)]. split; [by eapply control_step_sound|].
  destruct Hstep as [s w item ring Hpop|s w i|s w conn Hfd|s w i r|s w i r|s w i|s w sp dn fl|s w|s w w' Hb|s w request ring Hroom Hpop]; cbn [fst snd] in *.
  - assert (Hq := pop_holds _ _ (si_responses _ _ _ Hinv)). destruct resps as [|item' resps]; [rewrite Hpop in Hq; done|]. rewrite Hpop in Hq. destruct Hq as [[= <-] _].
    exists reqs, resps. by apply collect_inv.
  - destruct (service_client_inv _ _ _ i Hinv) as [reqs' ?]. eauto.
  - exists reqs, resps. by apply accept_inv.
  - exists reqs, resps. by apply read_inv.
  - exists reqs, resps. by apply write_inv.
  - exists reqs, resps. by apply disconnect_inv.
  - exists reqs, resps. by apply flags_inv.
  - exists reqs, resps. by apply close_listener_inv.
  - by exists reqs, resps.
  - assert (Hq := pop_holds _ _ (si_requests _ _ _ Hinv)). destruct reqs as [|request' reqs]; [rewrite Hpop in Hq; done|]. rewrite Hpop in Hq. destruct Hq as [[= <-] _].
    exists reqs, (resps ++ [(serve request w).1]). by apply worker_inv.
Qed.

Lemma control_reachable_inv x y : rtc control_step x y -> system_inv x -> system_inv y.
Proof. induction 1 as [|x y z Hxy _ IH]; [done|]. intros Hx. apply IH. by eapply control_step_inv. Qed.
End System.
