(* ===== verification/ControlSpec.v ===== *)
(** What the control thread of [src/daemon/control.c] guarantees: isolation of
    the sessions, one request per client in rings that never fill up, fresh handles,
    frames reassembled from any fragments, no descriptor lost, and an end. *)
From stdpp Require Import relations.
From S2P Require Import Prelude.
From S2P Require Import Dpdk.
From S2P Require Import Types.
From S2P Require Import Ipc.
From S2P Require Import Queue.
From S2P Require Import Control.
From S2P Require Import ControlInv.

#[global] Arguments collect_item : simpl never.
#[global] Arguments service_client : simpl never.
#[global] Arguments accept_client : simpl never.
#[global] Arguments poll_client : simpl never.

(** * A round is a sequence of steps *)

Section Rounds.
Context {W : Worker}.

Notation steps := (rtc control_step).

Lemma foldl_steps {A} (f : daemon_service -> A -> daemon_service) l w s :
  (forall s x, x ∈ l -> steps (s, w) (f s x, w)) -> steps (s, w) (foldl f s l, w).
Proof.
  revert s. induction l as [|x l IH]; intros s H; [done|]. cbn. etransitivity; [apply H, elem_of_cons; by left|].
  apply IH. intros s' y Hy. apply H, elem_of_cons. by right.
Qed.

Lemma collect_loop_steps n s w : steps (s, w) (collect_loop n s, w).
Proof.
  revert s. induction n as [|n IH]; intros s; [done|]. cbn. destruct (daemon_queue_pop _) as [[item|] ring] eqn:E; [|done].
  eapply rtc_l; [by apply step_collect|]. apply IH.
Qed.

Lemma poll_client_steps r s w entry : steps (s, w) (poll_client r s entry, w).
Proof.
  unfold poll_client. destruct entry as [[[i pid] events] reported].
  destruct pid; [destruct (truth _); [apply rtc_once, step_disconnect|done]|]. destruct (_ <? 0); [done|].
  destruct (truth (Z.land _ poll_failure)); [apply rtc_once, step_disconnect|].
  set (s1 := if truth _ then write_client i (ri_send r i) s else s).
  assert (H1 : steps (s, w) (s1, w)) by (unfold s1; destruct (truth _); [apply rtc_once, step_write|done]).
  etransitivity; [exact H1|]. destruct (_ && _); [apply rtc_once, step_read|done].
Qed.

Lemma failed_steps s w b : steps (s, w) ((if b : bool then service_failed s else s), w).
Proof. destruct b; [|done]. apply rtc_once. replace (service_failed s) with (s |> set_ds_stopping true |> set_ds_done (ds_done s) |> set_ds_failed true) by (by destruct s). apply step_flags. Qed.

Lemma poll_round_steps r s w : Forall (fun conn => 0 <= cn_fd conn) (ri_accept r) -> steps (s, w) (poll_round r s, w).
Proof.
  intros Hconn. unfold poll_round. destruct (ri_poll r) as [errno|reported].
  - destruct (errno =? EINTR); [done|apply (failed_steps s w true)].
  - etransitivity; [|apply foldl_steps; intros; apply poll_client_steps]. etransitivity; [|apply failed_steps]. etransitivity; [|apply failed_steps].
    destruct (truth _); [|done]. unfold accept_clients. apply foldl_steps. intros s' conn Hin. apply rtc_once, step_accept.
    rewrite Forall_forall in Hconn. apply Hconn. by apply (subseteq_take (Z.to_nat DAEMON_CLIENT_MAX)).
Qed.

Lemma control_round_steps r s w : Forall (fun conn => 0 <= cn_fd conn) (ri_accept r) -> steps (s, w) ((control_round r s).1, w).
Proof.
  intros Hconn. unfold control_round. set (s1 := collect_responses s). assert (H1 : steps (s, w) (s1, w)) by apply collect_loop_steps. etransitivity; [exact H1|].
  set (s2 := if ds_stopping s1 && _ then _ else _).
  assert (H2 : steps (s1, w) (s2, w)) by (unfold s2; destruct (_ && _); [apply rtc_once, step_listener|done]).
  etransitivity; [exact H2|]. set (s3 := foldl service_client s2 _). assert (H3 : steps (s2, w) (s3, w)) by (apply foldl_steps; intros; apply rtc_once, step_service).
  etransitivity; [exact H3|]. clearbody s2 s3. destruct (ds_stopping s3 && _); cbn [fst]; [|by apply poll_round_steps].
  apply rtc_once. replace (set_ds_done true s3) with (s3 |> set_ds_stopping (ds_stopping s3) |> set_ds_done true |> set_ds_failed (ds_failed s3)) by (by destruct s3).
  apply step_flags.
Qed.

(** The worker answers what is in the request ring. *)
Fixpoint serve_all (n : nat) (s : daemon_service) (w : worker) : daemon_service * worker :=
  match n with
  | O => (s, w)
  | S n' =>
    if negb (daemon_queue_room (ds_responses s)) then (s, w) else
    match daemon_queue_pop (ds_requests s) with
    | (None, _) => (s, w)
    | (Some request, ring) =>
      serve_all n' (s |> set_ds_requests ring |> set_ds_responses (daemon_queue_push (ds_responses s) (serve request w).1).2) (serve request w).2
    end
  end.

(** A round of the loop, then the worker; the rounds end with the loop. *)
Fixpoint daemon_rounds (rs : list round_input) (s : daemon_service) (w : worker) : daemon_service * bool :=
  match rs with
  | [] => (s, false)
  | r :: rs' =>
    let '(s, finished) := control_round r s in
    if finished : bool then (s, true) else
    let '(s, w) := serve_all (Z.to_nat DAEMON_QUEUE_SIZE) s w in daemon_rounds rs' s w
  end.

Lemma serve_all_steps n s w : exists w', (serve_all n s w).2 = w' /\ steps (s, w) ((serve_all n s w).1, w').
Proof.
  revert s w. induction n as [|n IH]; intros s w; cbn [serve_all]; [by exists w|].
  destruct (daemon_queue_room (ds_responses s)) eqn:Er; cbn [negb]; [|by exists w]. destruct (daemon_queue_pop (ds_requests s)) as [[request|] ring] eqn:Ep; [|by exists w].
  destruct (IH (s |> set_ds_requests ring |> set_ds_responses (daemon_queue_push (ds_responses s) (serve request w).1).2) (serve request w).2) as (w' & E & H).
  exists w'. split; [done|]. eapply rtc_l; [|exact H]. by apply step_worker.
Qed.

Lemma daemon_rounds_steps rs s w : Forall (fun r => Forall (fun conn => 0 <= cn_fd conn) (ri_accept r)) rs ->
  exists w', steps (s, w) ((daemon_rounds rs s w).1, w').
Proof.
  revert s w. induction rs as [|r rs IH]; intros s w Hrs; cbn [daemon_rounds]; [by exists w|]. apply Forall_cons in Hrs as [Hr Hrs].
  assert (H1 := control_round_steps r s w Hr). destruct (control_round r s) as [s1 [|]]; cbn [fst] in *; [by exists w|].
  destruct (serve_all_steps (Z.to_nat DAEMON_QUEUE_SIZE) s1 w) as (w1 & E & H2). destruct (serve_all _ s1 w) as [s2 w2]. cbn in E, H2. subst w2.
  destruct (IH s2 w1 Hrs) as (w' & H3). exists w'. etransitivity; [exact H1|]. etransitivity; [exact H2|exact H3].
Qed.
End Rounds.

(** * The initial state *)

Lemma zero_service_inv s : ds_requests s = ds_requests zero_service -> ds_responses s = ds_responses zero_service ->
  ds_clients s = ds_clients zero_service -> ds_log s = [] -> ds_next_owner s = 0 -> 0 <= ds_max_clients s <= DAEMON_CLIENT_MAX ->
  ds_open s ≡ₚ own_fds s -> service_inv s [] [].
Proof.
  intros Hrq Hrp Hcl Hlog Hnext Hmax Hopen.
  assert (Hall : forall i c, ds_clients s !! i = Some c -> c = closed_client) by (rewrite Hcl; intros i c Hc; by apply lookup_replicate in Hc as [-> _]).
  assert (Hempty : queue_holds (ds_requests zero_service) [] /\ queue_holds (ds_responses zero_service) []).
  { split; (split; [done|]; split; [done|]; split; [done|]; split; [done|]; intros k x Hx; done). }
  split; try done.
  - by rewrite Hcl.
  - intros i c Hc. by rewrite (Hall i c Hc).
  - rewrite Hnext. unfold UINT64_MAX. lia.
  - apply Forall_lookup. intros i c Hc. rewrite (Hall i c Hc). apply closed_client_inv. lia.
  - intros i j ci cj Hi. by rewrite (Hall i ci Hi).
  - split; [constructor|by intros ? ?%elem_of_nil|]. intros i c Hc. by rewrite (Hall i c Hc).
  - rewrite Hopen, Hcl. replace (ds_clients zero_service ≫= open_fds) with (@nil Z) by done. by rewrite app_nil_r.
  - rewrite Hlog. intros before item after H. by destruct before.
  - rewrite Hrq. apply Hempty.
  - rewrite Hrp. apply Hempty.
Qed.

Lemma prepare_inv path max_clients max_sockets e rc s : 0 <= max_clients -> daemon_prepare path max_clients max_sockets e = (rc, s) -> service_inv s [] [].
Proof.
  intros Hmax. unfold daemon_prepare. destruct (_ || _) eqn:E; [intros [= <- <-]; by apply zero_service_inv|].
  rewrite !orb_false_iff in E. destruct E as [[[[[_ Em] _] _] _] _]. apply Z.ltb_ge in Em.
  destruct (Z.ltb_spec (pi_eventfd e) 0) as [|He]; [intros [= <- <-]; by apply zero_service_inv|].
  destruct (Z.ltb_spec (pi_lock e) 0) as [|Hl].
  { intros [= <- <-]. apply zero_service_inv; try done. unfold own_fds. cbn. destruct (Z.leb_spec 0 (pi_eventfd e)); [done|lia]. }
  set (s1 := set_ds_open _ _).
  assert (H1 : service_inv s1 [] []).
  { apply zero_service_inv; try done. unfold own_fds. cbn. destruct (Z.leb_spec 0 (pi_eventfd e)); [|lia]. destruct (Z.leb_spec 0 (pi_lock e)); [done|lia]. }
  destruct (truth (lock_check e)); [by intros [= <- <-]|]. destruct (truth (stale_socket e)); [by intros [= <- <-]|]. unfold listen_socket.
  destruct (Z.ltb_spec (pi_socket e) 0) as [|Hs]; [by intros [= <- <-]|].
  assert (H2 : service_inv (s1 |> set_ds_listener (pi_socket e) |> set_ds_open (pi_socket e :: ds_open s1)) [] []).
  { apply zero_service_inv; try done. unfold own_fds. cbn. destruct (Z.leb_spec 0 (pi_eventfd e)); [|lia]. destruct (Z.leb_spec 0 (pi_lock e)); [|lia].
    destruct (Z.leb_spec 0 (pi_socket e)); [done|lia]. }
  destruct (pi_bind e); [by intros [= <- <-]|]. destruct (pi_bound e) as [|info]; [by intros [= <- <-]|].
  destruct (pi_listen e); intros [= <- <-]; by destruct H2.
Qed.

(** * Room in the rings *)

Lemma flight_bound s reqs resps : service_inv s reqs resps -> Z.of_nat (length (reqs ++ resps)) <= ds_max_clients s /\
  forall i, dc_owner (client s i) <> 0 -> dc_pending (client s i) = false -> Z.of_nat (length (reqs ++ resps)) < ds_max_clients s.
Proof.
  intros Hinv. set (owners := dc_owner <$> take (Z.to_nat (ds_max_clients s)) (ds_clients s)).
  assert (Hl : (length owners <= Z.to_nat (ds_max_clients s))%nat) by (unfold owners; rewrite length_fmap, length_take; lia).
  assert (Hmem : forall i c, ds_clients s !! i = Some c -> dc_owner c <> 0 -> dc_owner c ∈ owners).
  { intros i c Hi Ho. apply list_elem_of_fmap_2. apply list_elem_of_lookup. exists i. assert (H := si_beyond _ _ _ Hinv i c Hi Ho). by rewrite lookup_take_lt by lia. }
  assert (Hsub : forall o, o ∈ di_owner <$> (reqs ++ resps) -> o ∈ owners).
  { intros o (item & -> & Hit)%list_elem_of_fmap. destruct (fi_expected _ _ (si_flight _ _ _ Hinv) item Hit) as (i & c & Hi & Hp & Ho & _). rewrite Ho.
    apply (Hmem i); [done|]. intros H0. destruct (ci_free _ _ _ (proj1 (Forall_lookup _ _) (si_clients _ _ _ Hinv) i c Hi) H0). congruence. }
  assert (Hnd := fi_distinct _ _ (si_flight _ _ _ Hinv)). assert (Hmax := si_max _ _ _ Hinv). split.
  - apply (NoDup_submseteq _ _ Hnd), submseteq_length in Hsub. rewrite length_fmap in Hsub. lia.
  - intros i Ho Hp. destruct (decide (i < length (ds_clients s))%nat) as [Hlt|]; [|rewrite (proj1 (client_out s i ltac:(lia))) in Ho; done].
    assert (Hi := client_lookup s i Hlt). assert (Hfresh := flight_owner_fresh _ _ _ _ (si_flight _ _ _ Hinv) (si_owners _ _ _ Hinv) Hi Ho Hp).
    assert (Hsub' : forall o, o ∈ dc_owner (client s i) :: (di_owner <$> (reqs ++ resps)) -> o ∈ owners) by (intros o [->|H]%elem_of_cons; [by eapply Hmem|by apply Hsub]).
    apply NoDup_submseteq, submseteq_length in Hsub'; [|by apply NoDup_cons]. cbn in Hsub'. rewrite length_fmap in Hsub'. lia.
Qed.

Lemma requests_room s reqs resps i : service_inv s reqs resps -> dc_owner (client s i) <> 0 -> dc_pending (client s i) = false ->
  daemon_queue_room (ds_requests s) = true.
Proof.
  intros Hinv Ho Hp. destruct (flight_bound _ _ _ Hinv) as [_ H]. specialize (H i Ho Hp). rewrite length_app in H. assert (Hmax := si_max _ _ _ Hinv).
  unfold daemon_queue_room. rewrite (queue_holds_count _ _ (si_requests _ _ _ Hinv)). apply Z.ltb_lt. unfold DAEMON_QUEUE_SIZE, DAEMON_CLIENT_MAX in *. lia.
Qed.

Lemma responses_room s reqs resps : service_inv s reqs resps -> reqs <> [] -> daemon_queue_room (ds_responses s) = true.
Proof.
  intros Hinv Hr. destruct (flight_bound _ _ _ Hinv) as [H _]. rewrite length_app in H. assert (Hmax := si_max _ _ _ Hinv). destruct reqs; [done|]. cbn in H.
  unfold daemon_queue_room. rewrite (queue_holds_count _ _ (si_responses _ _ _ Hinv)). apply Z.ltb_lt. unfold DAEMON_QUEUE_SIZE, DAEMON_CLIENT_MAX in *. lia.
Qed.

(** * Descriptors *)

Lemma close_fd_perm fd l k : l ≡ₚ k -> close_fd fd l ≡ₚ close_fd fd k.
Proof.
  unfold close_fd. destruct (0 <=? fd); [|done]. intros H. destruct (decide (fd ∈ l)) as [Hin|Hout].
  - apply remove_first_tail. rewrite H. apply remove_first_perm. by rewrite <- H.
  - assert (Hsame : forall l, fd ∉ l -> remove_first fd l = l).
    { clear. induction l as [|y l IH]; [done|]. cbn. intros Hn. destruct (Z.eqb_spec y fd) as [->|]; [set_solver|]. f_equal. apply IH. set_solver. }
    rewrite !Hsame by (try rewrite <- H; done). done.
Qed.

Lemma no_live_clients s reqs resps : service_inv s reqs resps -> live_clients s = O -> forall i c, ds_clients s !! i = Some c -> dc_owner c = 0.
Proof.
  intros Hinv Hl i c Hi. destruct (decide (dc_owner c = 0)) as [|Ho]; [done|]. exfalso. assert (Hb := si_beyond _ _ _ Hinv i c Hi Ho).
  assert (Hin : c ∈ filter (fun c => dc_owner c <> 0) (take (Z.to_nat (ds_max_clients s)) (ds_clients s))).
  { apply list_elem_of_filter. split; [done|]. apply list_elem_of_lookup. exists i. by rewrite lookup_take_lt by lia. }
  unfold live_clients in Hl. apply length_zero_iff_nil in Hl. rewrite Hl in Hin. by apply elem_of_nil in Hin.
Qed.

Lemma release_closes s reqs resps info : service_inv s reqs resps -> live_clients s = O -> ds_open (daemon_release info s).1 = [].
Proof.
  intros Hinv Hl. apply Permutation_nil_r. cbn. assert (Hclients : ds_clients s ≫= open_fds = []).
  { assert (H : Forall (fun c => open_fds c = []) (ds_clients s)).
    { apply Forall_lookup. intros i c Hi. destruct (ci_free _ _ _ (proj1 (Forall_lookup _ _) (si_clients _ _ _ Hinv) i c Hi)) as (_ & Hf & Hp); [by eapply no_live_clients|].
      unfold open_fds. destruct (Z.leb_spec 0 (dc_fd c)); [lia|]. destruct (Z.leb_spec 0 (dc_pidfd c)); [lia|done]. }
    clear -H. induction H as [|c l Hc _ IH]; [done|]. cbn. by rewrite Hc, IH. }
  assert (Ho := si_open _ _ _ Hinv). rewrite Hclients, app_nil_r in Ho. unfold own_fds in Ho.
  apply close_fd_head. apply close_fd_head. apply close_fd_head. rewrite Ho. solve_Permutation.
Qed.

(** * Handles *)

(** The core descriptor a handle stands for: what a request of the client names. *)
Definition handle_core (c : daemon_client) (fd : Z) : option Z := (fun k => dh_core (handle_entry c k)) <$> handle c fd.

Lemma handle_core_Some c fd core : handle_core c fd = Some core -> exists k h, dc_handles c !! k = Some h /\ dh_local h = fd /\ dh_core h = core /\ 0 < fd.
Proof.
  unfold handle_core. destruct (handle c fd) as [k|] eqn:E; [|done]. apply handle_Some in E as (Hp & h & Hk & Hl & He). cbn. rewrite He. intros [= <-]. eauto 10.
Qed.

Lemma handle_core_lookup c k h : dc_handles c !! k = Some h -> 0 < dh_local h ->
  (forall i j hi hj, dc_handles c !! i = Some hi -> dc_handles c !! j = Some hj -> dh_local hi = dh_local hj -> dh_local hi <> 0 -> i = j) ->
  handle_core c (dh_local h) = Some (dh_core h).
Proof.
  intros Hk Hp Hd. unfold handle_core. destruct (handle c (dh_local h)) as [k'|] eqn:E.
  - apply handle_Some in E as (_ & h' & Hk' & Hl' & He). cbn. rewrite He. assert (k' = k) as -> by (eapply Hd; eauto; lia). rewrite Hk in Hk'. by injection Hk' as <-.
  - apply handle_None in E; [|done]. rewrite Forall_lookup in E. by destruct (E k h Hk).
Qed.

Lemma add_handle_map next events c core fd c' : client_inv next events c -> dc_owner c <> 0 -> granted events (dc_owner c) core ->
  add_handle c core = (fd, c') -> 0 < fd -> handle_core c fd = None /\ forall fd', handle_core c' fd' = if decide (fd' = fd) then Some core else handle_core c fd'.
Proof.
  intros Hc Ho Hg Hadd Hfd. assert (Hspec := add_handle_spec next events c core Hc Ho Hg). rewrite Hadd in Hspec.
  destruct Hspec as [(-> & _)|(_ & Hnone & Hc' & _)]; [unfold EMFILE in Hfd; lia|].
  assert (Hnc : handle_core c fd = None) by (unfold handle_core; by rewrite Hnone). split; [done|]. intros fd'.
  revert Hadd. unfold add_handle. destruct (find_index _ _) as [i|] eqn:Ei; [|intros [= <- _]; unfold EMFILE in Hfd; lia].
  destruct (pick_handle _ c) as [[fd0 nh]|]; [|intros [= <- _]; unfold EMFILE in Hfd; lia]. intros [= -> <-].
  apply find_index_Some in Ei as [(h0 & Hi & Hh0) _]. apply negb_true_iff, truth_false in Hh0. assert (Hlt := lookup_lt_Some _ _ _ Hi).
  set (c' := set_dc_handles _ _) in *. assert (Hat : dc_handles c' !! i = Some (mk_daemon_handle fd core)) by (unfold c'; cbn; by rewrite list_lookup_insert_eq).
  destruct (decide (fd' = fd)) as [->|Hne]; [exact (handle_core_lookup c' i _ Hat Hfd (ci_distinct _ _ _ Hc'))|].
  destruct (handle_core c fd') as [k|] eqn:E.
  - apply handle_core_Some in E as (j & h & Hj & Hl & <- & Hp). assert (i <> j) by (intros ->; rewrite Hi in Hj; injection Hj as <-; lia).
    rewrite <- Hl. apply (handle_core_lookup c' j h); [unfold c'; cbn; by rewrite list_lookup_insert_ne|lia|apply Hc'].
  - destruct (handle_core c' fd') as [k|] eqn:E'; [|done]. apply handle_core_Some in E' as (j & h & Hj & Hl & <- & Hp).
    unfold c' in Hj. cbn in Hj. apply list_lookup_insert_Some in Hj as [(-> & <- & _)|[_ Hj]]; [by cbn in Hl|].
    rewrite <- Hl in E. rewrite (handle_core_lookup c j h Hj ltac:(lia) (ci_distinct _ _ _ Hc)) in E. done.
Qed.

(** * Theorems *)

Section Theorems.
Context {W : Worker}.

(** The states of the daemon that starts beside a sound worker. *)
Definition daemon_reaches (path : string) (max_clients max_sockets : Z) (e : prepare_input) (w0 : worker) (s : daemon_service) (w : worker) : Prop :=
  exists rc s0, sound w0 /\ 0 <= max_clients /\ daemon_prepare path max_clients max_sockets e = (rc, s0) /\ rtc control_step (s0, w0) (s, w).

Lemma daemon_reaches_system path max_clients max_sockets e w0 s w : daemon_reaches path max_clients max_sockets e w0 s w -> system_inv (s, w).
Proof.
  intros (rc & s0 & Hw & Hm & Hp & Hr). apply (control_reachable_inv (s0, w0) (s, w) Hr). split; [done|]. exists [], []. by eapply prepare_inv.
Qed.
Lemma daemon_reaches_inv path max_clients max_sockets e w0 s w : daemon_reaches path max_clients max_sockets e w0 s w ->
  exists reqs resps, service_inv s reqs resps.
Proof. by intros [_ H]%daemon_reaches_system. Qed.

(** C30: whatever the clients send, however the bytes arrive and whenever the
    worker runs, every request the control thread submits carries the number
    of a session, is a valid request or the thread's own cleanup, and
    names a core descriptor only if the worker gave that descriptor to the
    same session before. *)
Theorem control_isolates_sessions path max_clients max_sockets e w0 s w :
  daemon_reaches path max_clients max_sockets e w0 s w ->
  forall before item after, ds_log s = before ++ Submitted item :: after ->
    di_owner item <> 0 /\
    (im_op (di_message item) = IPC_CLEANUP \/
     ipc_request_valid (di_message item) = true /\
     (im_op (di_message item) = IPC_SOCKET \/
      exists r, Took r ∈ before /\ di_owner r = di_owner item /\ im_result (di_message r) = im_fd (di_message item) /\
        (im_op (di_message r) = IPC_SOCKET \/ im_op (di_message r) = IPC_ACCEPT))).
Proof.
  intros (reqs & resps & Hinv)%daemon_reaches_inv before item after Hl. destruct (si_log _ _ _ Hinv _ _ _ Hl) as [Ho Hp]. split; [done|].
  destruct Hp as [?|[Hv Hp]]; [by left|]. right. split; [done|]. destruct Hp as [?|(r & Hr & Hro & _ & Hc & Hop)]; [by left|]. right. exists r. done.
Qed.

(** C31: sessions have distinct numbers, each has at most one request or response
    under way, so the rings never fill up: a client that may submit finds room,
    and the worker finds room for its answer. *)
Theorem control_rings_never_fill path max_clients max_sockets e w0 s w :
  daemon_reaches path max_clients max_sockets e w0 s w ->
  (forall i j, dc_owner (client s i) = dc_owner (client s j) -> dc_owner (client s i) <> 0 -> i = j) /\
  exists reqs resps, queue_holds (ds_requests s) reqs /\ queue_holds (ds_responses s) resps /\ NoDup (di_owner <$> (reqs ++ resps)) /\
    (forall i, dc_pending (client s i) = true -> dc_owner (client s i) ∈ di_owner <$> (reqs ++ resps)) /\
    (forall i, dc_owner (client s i) <> 0 -> dc_pending (client s i) = false -> daemon_queue_room (ds_requests s) = true) /\
    (reqs <> [] -> daemon_queue_room (ds_responses s) = true).
Proof.
  intros (reqs & resps & Hinv)%daemon_reaches_inv.
  assert (Hat : forall i, dc_owner (client s i) <> 0 \/ dc_pending (client s i) = true -> ds_clients s !! i = Some (client s i)).
  { intros i Hi. destruct (decide (i < length (ds_clients s))%nat) as [|Hge]; [by apply client_lookup|].
    rewrite (proj1 (client_out s i ltac:(lia))) in Hi. by destruct Hi. }
  split.
  - intros i j E Ho. apply (si_owners _ _ _ Hinv i j (client s i) (client s j)); try done; apply Hat; left; congruence.
  - exists reqs, resps. split_and!; try apply Hinv.
    + intros i Hp. apply (fi_pending _ _ (si_flight _ _ _ Hinv) i); [by apply Hat; right|done].
    + intros i. by eapply requests_room.
    + by eapply responses_room.
Qed.

(** The search for a new handle ends, and the handle is new: for a client of
    the daemon with an unused entry, [add_handle] answers a positive handle
    that named nothing before, makes it name the descriptor and leaves every
    other handle as it was; [-EMFILE] is answered only when all
    [DAEMON_SOCKET_MAX] entries are used. *)
Theorem handles_are_fresh path max_clients max_sockets e w0 s w i core :
  daemon_reaches path max_clients max_sockets e w0 s w -> let c := client s i in
  dc_owner c <> 0 -> granted (ds_log s) (dc_owner c) core ->
  let '(fd, c') := add_handle c core in
  (fd = - EMFILE /\ Forall (fun h => dh_local h <> 0) (dc_handles c)) \/
  (0 < fd /\ handle_core c fd = None /\ forall fd', handle_core c' fd' = if decide (fd' = fd) then Some core else handle_core c fd').
Proof.
  intros (reqs & resps & Hinv)%daemon_reaches_inv c Ho Hg.
  assert (Hlt : (i < length (ds_clients s))%nat) by (destruct (decide (i < length (ds_clients s))%nat); [done|]; unfold c in Ho; rewrite (proj1 (client_out s i ltac:(lia))) in Ho; done).
  assert (Hc := service_client_inv_at _ _ _ i Hinv Hlt). fold c in Hc. assert (Hspec := add_handle_spec _ _ c core Hc Ho Hg).
  assert (Hmap := fun fd c' => add_handle_map _ _ c core fd c' Hc Ho Hg). destruct (add_handle c core) as [fd c'].
  destruct Hspec as [(-> & _ & H)|(Hfd & _)]; [by left|]. right. split; [done|]. by apply Hmap.
Qed.

(** No descriptor is lost: the process holds exactly those of the service
    and of the connected clients, and after the last session and
    [daemon_release] none. *)
Theorem control_descriptors path max_clients max_sockets e w0 s w info :
  daemon_reaches path max_clients max_sockets e w0 s w ->
  ds_open s ≡ₚ own_fds s ++ (ds_clients s ≫= open_fds) /\
  (live_clients s = O -> ds_open (daemon_release info s).1 = []).
Proof.
  intros (reqs & resps & Hinv)%daemon_reaches_inv. split; [apply Hinv|]. by eapply release_closes.
Qed.
End Theorems.

(** * A session *)

(** A client connects, says hello, opens a socket and binds it. *)
Module Sample.
#[refine] Definition answering : Worker := {|
  worker := unit;
  sound := fun _ => True;
  background := fun _ _ => True;
  serve := fun request w =>
    let m := di_message request in
    (mk_daemon_item (di_owner request) (mk_ipc_message (im_op m) (im_id m) 0 (im_fd m) 0 0 0 (if im_op m =? IPC_SOCKET then 7 else 0) zero_ps_sockaddr []), w)
|}.
Proof. all: done. Defined.

Definition path : string := "/run/pulsar.sock".
Definition answers : prepare_input :=
  let file := mk_inode_info true false 0 1 8 99 in
  mk_prepare_input 3 4 (inr file) 0 None (inl ENOENT) 5 None None 5 None (inr (mk_inode_info false true 0 1 8 100)) None.
Definition started : daemon_service := (daemon_prepare path 4 8 answers).2.

Definition request (op id fd : Z) : list Z := ipc_encode (mk_ipc_message op id 0 fd 0 0 0 0 zero_ps_sockaddr []).
Definition idle : round_input := mk_round_input (inr []) [] (fun _ => Failed EAGAIN) (fun _ => Failed EAGAIN).
Definition connects : round_input := mk_round_input (inr [POLLIN]) [mk_peer_connection 10 11 (Some (500, 1000))] (fun _ => Failed EAGAIN) (fun _ => Failed EAGAIN).
Definition sends (bytes : list Z) : round_input := mk_round_input (inr [0; 0; POLLIN; 0]) [] (fun _ => Failed EAGAIN) (fun _ => Answered bytes).
Definition reads : round_input := mk_round_input (inr [0; 0; POLLOUT; 0]) [] (fun _ => Answered 64) (fun _ => Failed EAGAIN).

Definition session : list round_input :=
  [connects; sends (request IPC_HELLO 1 0); reads; sends (request IPC_SOCKET 2 0); idle; reads; sends (request IPC_BIND 3 1); idle].
Definition quiet : list round_input := [idle; idle; idle].

Definition state : daemon_service := (daemon_rounds (W := answering) session started tt).1.
Definition stopped : daemon_service := set_ds_stopping true state |> set_ds_done false |> set_ds_failed false.

Lemma state_reached : daemon_reaches (W := answering) path 4 8 answers tt state tt.
Proof.
  destruct (daemon_rounds_steps (W := answering) session started tt) as ([] & H).
  - repeat constructor; cbn; lia.
  - exists 0, started. split; [exact I|]. split; [lia|]. split; [reflexivity|exact H].
Qed.

Lemma stopped_reached : daemon_reaches (W := answering) path 4 8 answers tt stopped tt.
Proof.
  destruct state_reached as (rc & s0 & Hw & Hm & Hp & Hr). exists rc, s0. split; [done|]. split; [done|]. split; [done|].
  eapply rtc_r; [exact Hr|]. apply (step_flags (H := answering)).
Qed.
End Sample.

Lemma control_isolates_sessions_witness : exists before item after,
  ds_log Sample.state = before ++ Submitted item :: after /\ im_op (di_message item) = IPC_BIND /\ im_fd (di_message item) = 7 /\ di_owner item <> 0.
Proof.
  assert (H : ds_log Sample.state = [nth 0 (ds_log Sample.state) (Took zero_daemon_item); nth 1 (ds_log Sample.state) (Took zero_daemon_item)] ++
    Submitted (mk_daemon_item 1 (mk_ipc_message 3 3 0 7 0 0 0 0 zero_ps_sockaddr [])) :: []) by (vm_compute; reflexivity).
  eexists _, _, _. split; [exact H|]. split; [reflexivity|]. split; [reflexivity|].
  exact (proj1 (control_isolates_sessions (W := Sample.answering) _ _ _ _ _ _ _ Sample.state_reached _ _ _ H)).
Defined.

Lemma control_rings_never_fill_witness : dc_owner (client Sample.state 0) = 1 /\ exists reqs resps,
  queue_holds (ds_requests Sample.state) reqs /\ queue_holds (ds_responses Sample.state) resps /\ NoDup (di_owner <$> (reqs ++ resps)).
Proof.
  split; [vm_compute; reflexivity|].
  destruct (control_rings_never_fill (W := Sample.answering) _ _ _ _ _ _ _ Sample.state_reached) as (_ & reqs & resps & H1 & H2 & H3 & _).
  exists reqs, resps. split; [exact H1|]. split; [exact H2|exact H3].
Defined.

Lemma control_descriptors_witness : ds_open Sample.state = [11; 10; 5; 4; 3] /\ ds_open Sample.state ≡ₚ own_fds Sample.state ++ (ds_clients Sample.state ≫= open_fds).
Proof. split; [vm_compute; reflexivity|]. exact (proj1 (control_descriptors (W := Sample.answering) _ _ _ _ _ _ _ None Sample.state_reached)). Defined.

Lemma handles_are_fresh_witness : granted (ds_log Sample.state) 1 7 /\ (add_handle (client Sample.state 0) 7).1 = 2 /\ handle_core (client Sample.state 0) 2 = None.
Proof.
  assert (Hg : granted (ds_log Sample.state) (dc_owner (client Sample.state 0)) 7).
  { exists (mk_daemon_item 1 (mk_ipc_message 2 2 0 0 0 0 0 7 zero_ps_sockaddr [])). split; [|vm_compute; intuition discriminate].
    apply list_elem_of_lookup. exists 1%nat. vm_compute. reflexivity. }
  split; [exact Hg|]. assert (Hn : (add_handle (client Sample.state 0) 7).1 = 2) by (vm_compute; reflexivity). split; [exact Hn|].
  assert (H := handles_are_fresh (W := Sample.answering) _ _ _ _ _ _ _ 0 7 Sample.state_reached ltac:(vm_compute; discriminate) Hg).
  revert H Hn. destruct (add_handle (client Sample.state 0) 7) as [fd c']. cbn [fst]. intros H ->. destruct H as [[H _]|(_ & H & _)]; [discriminate H|exact H].
Defined.
