(* ===== verification/ControlFrames.v ===== *)
(** Frames over the stream socket of a client: a request is reassembled from any
    fragments [recv] delivers, a reply leaves complete through any partial [send]. *)
From S2P Require Import Prelude.
From S2P Require Import Dpdk.
From S2P Require Import Types.
From S2P Require Import Ipc.
From S2P Require Import Queue.
From S2P Require Import Control.
From S2P Require Import ControlInv.

(** * The stream *)

(** The bytes waiting in the socket of client [i]; each element of [sizes] is a
    round in which that many have arrived.  The loop reads only while the frame is
    incomplete ([client_events]). *)
Fixpoint feed (i : nat) (sizes : list nat) (stream : list Z) (s : daemon_service) : list Z * daemon_service :=
  match sizes with
  | [] => (stream, s)
  | n :: sizes' =>
    let c := client s i in
    let data := take (Nat.min n (Z.to_nat (dc_target c - dc_have c))) stream in
    if (dc_have c <? dc_target c) && negb (Nat.eqb (length data) 0)
    then feed i sizes' (drop (length data) stream) (read_client i (Answered data) s)
    else feed i sizes' stream s
  end.

(** [k] bytes of the frame of [m] are in. *)
Record progress (m : ipc_message) (k : nat) (c : daemon_client) : Prop := {
  pr_have : dc_have c = Z.of_nat k;
  pr_dead : dc_dead c = false;
  pr_header : (k < 64)%nat -> dc_target c = IPC_HEADER_SIZE /\ take k (dc_header c) = take k (ipc_encode m) /\ dc_last_id c <> im_id m;
  pr_data : (64 <= k)%nat -> dc_target c = IPC_HEADER_SIZE + im_length m /\ dc_input c = set_im_data (take (k - 64) (im_data m)) m
}.

Section Feed.
Context (m : ipc_message).
Hypothesis Htyped : header_typed m.
Hypothesis Hvalid : ipc_request_valid m = true.
Hypothesis Hdata : Z.of_nat (length (im_data m)) = im_length m.

Lemma length_encode : length (ipc_encode m) = 64%nat.
Proof. done. Qed.

Lemma frame_data : frame m = ipc_encode m ++ im_data m.
Proof.
  unfold frame. f_equal. destruct (truth (im_length m)) eqn:E.
  - unfold padded. rewrite <- Hdata, Nat2Z.id. by rewrite take_app_length.
  - apply truth_false in E. by rewrite E in Hdata; destruct (im_data m).
Qed.

Definition frame_size : nat := (64 + length (im_data m))%nat.

Lemma length_frame_data : length (frame m) = frame_size.
Proof. by rewrite frame_data, length_app, length_encode. Qed.

(** What [recv] is asked for in state [k]. *)
Definition asked (k : nat) : nat := if Nat.ltb k 64 then (64 - k)%nat else (frame_size - k)%nat.

Lemma progress_asked k c : progress m k c -> (k < frame_size)%nat -> Z.to_nat (dc_target c - dc_have c) = asked k /\ dc_have c < dc_target c.
Proof.
  intros [] Hk. unfold asked, frame_size, IPC_HEADER_SIZE in *. rewrite pr_have0. destruct (Nat.ltb_spec k 64) as [Hlt|Hge].
  - destruct (pr_header0 Hlt) as (-> & _). lia.
  - destruct (pr_data0 Hge) as (-> & _). lia.
Qed.

Lemma progress_read k n c data s i : progress m k c -> (k < frame_size)%nat -> client s i = c -> (i < length (ds_clients s))%nat ->
  (1 <= n <= asked k)%nat -> data = take n (drop k (frame m)) ->
  exists c', read_client i (Answered data) s = set_client i c' s /\ progress m (k + n) c'.
Proof.
  intros Hp Hk Hc Hi Hn ->. destruct (progress_asked k c Hp Hk) as [Hask Hlt]. unfold read_client. rewrite Hc. rewrite Hask.
  assert (Hnf : (k + n <= frame_size)%nat) by (unfold asked, frame_size in *; destruct (Nat.ltb_spec k 64); lia).
  assert (Hl : length (take n (drop k (frame m))) = n) by (rewrite length_take, length_drop, length_frame_data; lia).
  rewrite (take_ge _ (asked k)) by lia. rewrite Hl. destruct (Nat.eqb_spec n 0); [lia|]. destruct Hp.
  destruct (decide (k < 64)%nat) as [Hk64|Hk64].
  - destruct (pr_header0 Hk64) as (Ht & Hh & Hid). unfold asked in Hn. destruct (Nat.ltb_spec k 64); [|lia].
    assert (Hr : received (take n (drop k (frame m))) c = (c |> set_dc_header (take (k + n) (ipc_encode m)) |> set_dc_have (Z.of_nat (k + n)))).
    { unfold received. rewrite pr_have0, Hl. destruct (Z.ltb_spec (Z.of_nat k) IPC_HEADER_SIZE); [|unfold IPC_HEADER_SIZE in *; lia].
      rewrite Nat2Z.id, Hh, frame_data. rewrite <- Nat2Z.inj_add. f_equal. f_equal.
      rewrite drop_app_le, take_app_le by (rewrite ?length_drop, length_encode; lia). by rewrite take_take_drop. }
    rewrite Hr. cbn. destruct (Z.eqb_spec (Z.of_nat (k + n)) IPC_HEADER_SIZE) as [E64|E64]; cbn [andb].
    + rewrite Ht, Z.eqb_refl. assert (k + n = 64)%nat as -> by (unfold IPC_HEADER_SIZE in E64; lia).
      rewrite take_ge by (by rewrite length_encode). rewrite ipc_roundtrip by done. change (truth 0) with false. cbn [orb].
      change (ipc_request_valid (set_im_data [] m)) with (ipc_request_valid m). rewrite Hvalid. cbn [negb orb im_id set_im_data].
      destruct (Z.eqb_spec (im_id m) (dc_last_id c)); [congruence|]. eexists. split; [done|]. split; cbn; try done; try lia.
    + eexists. split; [done|]. split; cbn; try done; try lia.
      * intros _. split; [done|]. split; [|done]. rewrite take_take. by rewrite Nat.min_id.
      * unfold IPC_HEADER_SIZE in E64. lia.
  - destruct (pr_data0 ltac:(lia)) as (Ht & Hin). unfold asked in Hn. destruct (Nat.ltb_spec k 64); [lia|].
    assert (Hr : received (take n (drop k (frame m))) c = (c |> set_dc_input (set_im_data (take (k + n - 64) (im_data m)) m) |> set_dc_have (Z.of_nat (k + n)))).
    { unfold received. rewrite pr_have0, Hl. destruct (Z.ltb_spec (Z.of_nat k) IPC_HEADER_SIZE); [unfold IPC_HEADER_SIZE in *; lia|].
      rewrite Hin, frame_data. rewrite <- Nat2Z.inj_add. f_equal. f_equal. unfold set_im_data. cbn. f_equal. unfold IPC_HEADER_SIZE.
      replace (Z.to_nat (Z.of_nat k - 64)) with (k - 64)%nat by lia. rewrite drop_app_ge by (rewrite length_encode; lia). rewrite length_encode.
      rewrite take_take, Nat.min_id. rewrite take_take_drop. f_equal. lia. }
    rewrite Hr. cbn. rewrite Ht. destruct (Z.eqb_spec (Z.of_nat (k + n)) IPC_HEADER_SIZE) as [E64|E64]; [unfold IPC_HEADER_SIZE in E64; lia|]. cbn [andb].
    eexists. split; [done|]. split; cbn; try done; try lia.
Qed.

Lemma feed_progress i sizes k s rest : progress m k (client s i) -> (k <= frame_size)%nat -> (i < length (ds_clients s))%nat ->
  Forall (fun n => 1 <= n)%nat sizes -> (frame_size - k <= length sizes)%nat ->
  exists c', feed i sizes (drop k (frame m) ++ rest) s = (rest, set_client i c' s) /\ progress m frame_size c'.
Proof.
  revert k s. induction sizes as [|n sizes IH]; intros k s Hp Hk Hi Hs Hlen; cbn [length] in Hlen.
  - assert (k = frame_size) as -> by lia. exists (client s i). cbn [feed]. rewrite drop_ge by (rewrite length_frame_data; lia). split; [|done]. f_equal.
    unfold set_client. rewrite list_insert_id by (by apply client_lookup). by destruct s.
  - apply Forall_cons in Hs as [Hn Hs]. cbn [feed]. destruct (decide (k = frame_size)) as [->|Hne].
    + assert (Hfull : dc_have (client s i) = dc_target (client s i)).
      { destruct Hp. destruct (pr_data0 ltac:(unfold frame_size; lia)) as [Ht _]. rewrite pr_have0, Ht. unfold frame_size, IPC_HEADER_SIZE. lia. }
      rewrite Hfull, Z.ltb_irrefl. cbn [andb]. apply (IH frame_size); try done. lia.
    + assert (Hk' : (k < frame_size)%nat) by lia. destruct (progress_asked _ _ Hp Hk') as [Hask Hlt].
      rewrite Hask. destruct (Z.ltb_spec (dc_have (client s i)) (dc_target (client s i))); [|lia]. cbn [andb].
      assert (Hrem : (asked k <= length (drop k (frame m)))%nat) by (rewrite length_drop, length_frame_data; unfold asked, frame_size; destruct (Nat.ltb_spec k 64); lia).
      assert (Hapos : (1 <= asked k)%nat) by (unfold asked; destruct (Nat.ltb_spec k 64); lia).
      rewrite take_app_le by lia. set (d := Nat.min n (asked k)). assert (Hd : (1 <= d <= asked k)%nat) by (unfold d; lia).
      rewrite (length_take_le _ d) by lia. destruct (Nat.eqb_spec d 0); [lia|]. cbn [negb].
      destruct (progress_read k d _ _ s i Hp Hk' eq_refl Hi Hd eq_refl) as (c' & -> & Hp').
      rewrite drop_app_le by lia. rewrite drop_drop.
      destruct (IH (k + d)%nat (set_client i c' s)) as (c2 & -> & Hc2); try done.
      * by rewrite client_set_client.
      * unfold asked, frame_size in *. destruct (Nat.ltb_spec k 64); lia.
      * cbn. by rewrite length_insert.
      * lia.
      * exists c2. split; [|done]. f_equal. unfold set_client. cbn. by rewrite list_insert_insert_eq.
Qed.
End Feed.

(** * Sending *)

(** The rounds of [send]: the bytes that went out. *)
Fixpoint drain (i : nat) (counts : list Z) (s : daemon_service) : list Z * daemon_service :=
  match counts with
  | [] => ([], s)
  | n :: counts' =>
    let c := client s i in
    if truth (dc_output_length c) then
      let n := Z.min n (dc_output_length c - dc_sent c) in
      let '(out, s') := drain i counts' (write_client i (Answered n) s) in
      (take (Z.to_nat n) (drop (Z.to_nat (dc_sent c)) (dc_output c)) ++ out, s')
    else drain i counts' s
  end.

Lemma drain_idle i counts s : dc_output_length (client s i) = 0 -> drain i counts s = ([], s).
Proof. intros H. induction counts as [|n counts IH]; cbn; [done|]. rewrite H. change (truth 0) with false. apply IH. Qed.

Lemma drain_all i counts s c : (i < length (ds_clients s))%nat -> client s i = c ->
  0 <= dc_sent c < dc_output_length c -> dc_output_length c = Z.of_nat (length (dc_output c)) -> Forall (fun n => 1 <= n) counts ->
  dc_output_length c - dc_sent c <= Z.of_nat (length counts) ->
  drain i counts s = (drop (Z.to_nat (dc_sent c)) (dc_output c), set_client i (c |> set_dc_sent 0 |> set_dc_output_length 0) s).
Proof.
  revert s c. induction counts as [|n counts IH]; intros s c Hi Hc Hs Hout Hn Hlen; cbn [length] in Hlen; [lia|].
  apply Forall_cons in Hn as [Hn Hns]. cbn [drain]. rewrite Hc. replace (truth (dc_output_length c)) with true by (symmetry; apply truth_true; lia).
  set (d := Z.min n (dc_output_length c - dc_sent c)). assert (Hd : 1 <= d <= dc_output_length c - dc_sent c) by (unfold d; lia).
  unfold write_client. rewrite Hc. replace (Z.min d (dc_output_length c - dc_sent c)) with d by lia. destruct (Z.leb_spec d 0); [lia|]. cbn [dc_sent dc_output_length set_dc_sent].
  destruct (Z.eqb_spec (dc_sent c + d) (dc_output_length c)) as [E|E].
  - rewrite drain_idle by (by rewrite client_set_client). rewrite app_nil_r. f_equal. apply take_ge. rewrite length_drop. lia.
  - rewrite (IH _ (set_dc_sent (dc_sent c + d) c));
      [|cbn; by rewrite length_insert|by rewrite client_set_client|cbn; lia|done|done|cbn; lia].
    f_equal; [|unfold set_client; cbn; by rewrite list_insert_insert_eq].
    cbn. rewrite Z2Nat.inj_add, <- drop_drop by lia. apply take_drop.
Qed.

(** * Theorem *)

(** C33: a valid request reaches the control thread whole however the stream
    is cut into reads, the bytes behind it stay in the socket, and the reply leaves
    the process whole however the writes are cut. *)
Theorem control_frames m i sizes s rest :
  header_typed m -> ipc_request_valid m = true -> Z.of_nat (length (im_data m)) = im_length m ->
  let c := client s i in
  (i < length (ds_clients s))%nat -> dc_dead c = false -> dc_have c = 0 -> dc_target c = IPC_HEADER_SIZE -> dc_last_id c <> im_id m ->
  Forall (fun n => 1 <= n)%nat sizes -> (length (frame m) <= length sizes)%nat ->
  (exists c', feed i sizes (frame m ++ rest) s = (rest, set_client i c' s) /\ dc_input c' = m /\ dc_have c' = dc_target c' /\ dc_dead c' = false) /\
  forall r counts, 0 <= im_length r -> Forall (fun n => 1 <= n) counts -> Z.of_nat (length (frame r)) <= Z.of_nat (length counts) ->
    (drain i counts (set_client i (reply r c) s)).1 = frame r.
Proof.
  intros Ht Hv Hd c Hi Hdead Hh Htg Hid Hs Hl. split.
  - destruct (feed_progress m Ht Hv Hd i sizes 0 s rest) as (c' & Hf & []); try done.
    + split; [done|done| |lia]. intros _. by rewrite !take_0.
    + unfold frame_size. lia.
    + rewrite length_frame_data in Hl by done. lia.
    + exists c'. rewrite drop_0 in Hf. split; [done|]. destruct (pr_data0 ltac:(unfold frame_size; lia)) as [E1 E2]. split; [|split; [|done]].
      * rewrite E2. unfold frame_size. rewrite take_ge by lia. by destruct m.
      * rewrite E1, pr_have0. unfold frame_size, IPC_HEADER_SIZE. lia.
  - intros r counts Hr Hc Hlen. assert (Hfl := length_frame r Hr).
    rewrite (drain_all i counts _ (reply r c)); [done|cbn; by rewrite length_insert|by rewrite client_set_client|unfold reply; cbn; unfold IPC_HEADER_SIZE; lia|unfold reply; cbn; lia|done|unfold reply; cbn; lia].
Qed.

(** * Witness *)

Module SampleFrames.
Definition message : ipc_message := mk_ipc_message IPC_SEND 5 3 2 0 0 0 0 zero_ps_sockaddr [1; 2; 3].
Definition waiting : daemon_service :=
  set_ds_clients [zero_daemon_client |> set_dc_fd 9 |> set_dc_owner 1 |> set_dc_next_handle 1 |> set_dc_target IPC_HEADER_SIZE |> set_dc_hello true] zero_daemon_service.
Definition sizes : list nat := replicate 70 7%nat.
End SampleFrames.

Lemma control_frames_witness : exists c', feed 0 SampleFrames.sizes (frame SampleFrames.message ++ [255; 254]) SampleFrames.waiting = ([255; 254], set_client 0 c' SampleFrames.waiting) /\
  dc_input c' = SampleFrames.message.
Proof.
  destruct (control_frames SampleFrames.message 0 SampleFrames.sizes SampleFrames.waiting [255; 254]) as [(c' & H1 & H2 & _) _].
  - compute_closed.
  - reflexivity.
  - reflexivity.
  - vm_compute. lia.
  - reflexivity.
  - reflexivity.
  - reflexivity.
  - vm_compute. discriminate.
  - apply Forall_replicate. lia.
  - vm_compute. lia.
  - exists c'. split; [exact H1|exact H2].
Defined.
