(* ===== verification/Shutdown.v ===== *)
(** The end of the control thread: once [stopping] is set, three rounds of the
    loop, with the worker answering in between, close every session. *)
From stdpp Require Import relations.
From S2P Require Import Prelude.
From S2P Require Import Dpdk.
From S2P Require Import Types.
From S2P Require Import Ipc.
From S2P Require Import Queue.
From S2P Require Import Control.
From S2P Require Import ControlInv.
From S2P Require Import ControlSpec.

#[global] Arguments collect_client : simpl never.
#[global] Arguments submit_client : simpl never.
#[global] Arguments disconnect_client : simpl never.
#[global] Arguments push_request : simpl never.

Definition all_dead (s : daemon_service) : Prop := forall i, dc_owner (client s i) <> 0 -> dc_dead (client s i) = true.
Definition all_clean (s : daemon_service) : Prop := forall i, dc_owner (client s i) <> 0 -> dc_cleanup (client s i) = true.

(** * The clients an operation leaves alone *)

Lemma client_set_other s i j c : i <> j -> client (set_client i c s) j = client s j.
Proof. intros H. unfold client, set_client. cbn. rewrite !nth_lookup. by rewrite list_lookup_insert_ne. Qed.

Lemma client_set s i j c : client (set_client i c s) j = if decide (i = j) then if decide (i < length (ds_clients s))%nat then c else client s j else client s j.
Proof.
  destruct (decide (i = j)) as [<-|Hne]; [|by apply client_set_other]. destruct (decide _) as [Hlt|]; [by apply client_set_client|].
  by rewrite (proj2 (client_out s i ltac:(lia))).
Qed.

Lemma clients_eq s s' i : ds_clients s' = ds_clients s -> client s' i = client s i.
Proof. unfold client. by intros ->. Qed.

(** ** Collecting *)

(** What does not change besides client [i]. *)
Definition only_client (i : nat) (s s' : daemon_service) : Prop :=
  (exists c', ds_clients s' = <[i := c']> (ds_clients s)) /\ ds_stopping s' = ds_stopping s /\ ds_listener s' = ds_listener s /\
  ds_max_clients s' = ds_max_clients s.

Lemma only_client_other i j s s' : only_client i s s' -> i <> j -> client s' j = client s j.
Proof. intros [[c' H] _] Hne. unfold client. rewrite H, !nth_lookup. by rewrite list_lookup_insert_ne. Qed.

Lemma only_set i c s : only_client i s (set_client i c s).
Proof. split; [by exists c|done]. Qed.

Lemma only_trans i s s1 s2 : only_client i s s1 -> only_client i s1 s2 -> only_client i s s2.
Proof. intros [[c Hc] H1] [[d Hd] H2]. split; [exists d; by rewrite Hd, Hc, list_insert_insert_eq|]. destruct H1 as (-> & -> & ->) in H2. done. Qed.

Lemma only_disconnect i s : only_client i s (disconnect_client i s).
Proof. split; [by eexists|done]. Qed.

Lemma collect_client_only i item s : only_client i s (collect_client i item s).
Proof.
  unfold collect_client. destruct (_ && dc_cleanup _); [apply only_set|]. set (s1 := set_client i _ s). assert (H1 : only_client i s s1) by apply only_set.
  destruct (dc_dead _); [done|]. destruct (_ || _); [eapply only_trans; [done|apply only_disconnect]|]. destruct (if _ : bool then add_handle _ _ else _) as [result c].
  destruct (_ && (result <? 0)).
  - eapply only_trans; [done|]. eapply only_trans; [apply only_set|apply only_disconnect].
  - eapply only_trans; [done|]. apply only_set.
Qed.

Lemma collect_client_dead i item s : (i < length (ds_clients s))%nat -> dc_dead (client s i) = true ->
  client (collect_client i item s) i = if (im_op (di_message item) =? IPC_CLEANUP) && dc_cleanup (client s i) then closed_client else set_dc_pending false (client s i).
Proof.
  intros Hi Hd. unfold collect_client. change (dc_cleanup (set_dc_pending false (client s i))) with (dc_cleanup (client s i)).
  destruct (_ && _); [by apply client_set_client|]. change (dc_dead (set_dc_pending false (client s i))) with (dc_dead (client s i)). rewrite Hd. by apply client_set_client.
Qed.

(** ** The loop over the responses *)

Lemma collect_loop_inv n s reqs resps : service_inv s reqs resps -> (length resps <= n)%nat ->
  let s' := collect_loop n s in
  service_inv s' reqs [] /\ ds_stopping s' = ds_stopping s /\ ds_listener s' = ds_listener s /\ ds_max_clients s' = ds_max_clients s /\
  (all_dead s -> all_dead s') /\ (all_dead s -> all_clean s -> all_clean s').
Proof.
  revert s resps. induction n as [|n IH]; intros s resps Hinv Hn; [destruct resps; [done|cbn in Hn; lia]|]. cbn [collect_loop].
  assert (Hq := pop_holds _ _ (si_responses _ _ _ Hinv)). destruct resps as [|item resps]; [rewrite Hq; done|].
  destruct (daemon_queue_pop (ds_responses s)) as [o ring] eqn:Epop. destruct Hq as [Hq1 _]. cbn in Hq1. subst o.
  assert (Hinv' := collect_inv s reqs item resps ring Hinv Epop). set (s1 := collect_item item (set_ds_responses ring s)) in *.
  destruct (fi_expected _ _ (si_flight _ _ _ Hinv) item ltac:(set_solver)) as (k & c & Hk & Hp & Howner & Hexp).
  assert (Hc := proj1 (Forall_lookup _ _) (si_clients _ _ _ Hinv) k _ Hk). assert (Hlt := lookup_lt_Some _ _ _ Hk).
  assert (Ho : dc_owner c <> 0) by (intros H; destruct (ci_free _ _ _ Hc H); congruence).
  assert (Hcc : client s k = c) by (unfold client; by apply nth_lookup_Some).
  set (s0 := log (Took item) (set_ds_responses ring s)). assert (Hs1 : s1 = collect_client k item s0).
  { unfold s1, collect_item. fold s0. change (owner_slot s0 (di_owner item)) with (owner_slot s (di_owner item)). by rewrite Howner, (owner_slot_found _ _ _ _ _ Hinv Hk Ho). }
  assert (Honly : only_client k s s1) by (rewrite Hs1; apply (collect_client_only k item s0)).
  destruct (IH s1 resps Hinv' ltac:(cbn in Hn; lia)) as (H1 & H2 & H3 & H4 & H5 & H6). destruct Honly as [Hch (E1 & E2 & E3)].
  assert (Hdead : all_dead s -> client s1 k = if dc_cleanup c then closed_client else set_dc_pending false c).
  { intros Had. specialize (Had k). rewrite Hcc in Had. rewrite Hs1. rewrite collect_client_dead; [|done|by rewrite <- Hcc in Had; apply Had; rewrite Hcc].
    change (client s0 k) with (client s k). rewrite Hcc. destruct (dc_cleanup c); [by rewrite Hexp|by rewrite andb_false_r]. }
  assert (Hother : forall j, k <> j -> client s1 j = client s j) by (intros j Hj; apply (only_client_other k); [split; done|done]).
  assert (Had1 : all_dead s -> all_dead s1).
  { intros Had j. destruct (decide (k = j)) as [<-|Hne]; [|rewrite Hother by done; apply Had]. rewrite Hdead by done. destruct (dc_cleanup c); [done|].
    intros _. cbn. rewrite <- Hcc. apply Had. by rewrite Hcc. }
  cbn zeta. split_and!; [done|congruence..|auto|].
  intros Had Hac. apply H6; [auto|]. intros j. destruct (decide (k = j)) as [<-|Hne]; [|rewrite Hother by done; apply Hac].
  rewrite Hdead by done. destruct (dc_cleanup c) eqn:Ecl; [done|]. specialize (Hac k). rewrite Hcc in Hac. rewrite (Hac Ho) in Ecl. done.
Qed.

Lemma collect_responses_inv s reqs resps : service_inv s reqs resps -> let s' := collect_responses s in
  service_inv s' reqs [] /\ ds_stopping s' = ds_stopping s /\ ds_listener s' = ds_listener s /\ ds_max_clients s' = ds_max_clients s /\
  (all_dead s -> all_dead s') /\ (all_dead s -> all_clean s -> all_clean s').
Proof.
  intros Hinv. apply collect_loop_inv with (resps := resps); [done|]. rewrite (queue_holds_count _ _ (si_responses _ _ _ Hinv)). lia.
Qed.

(** No request under way: nobody waits. *)
Lemma idle_clients s i : service_inv s [] [] -> dc_pending (client s i) = false.
Proof.
  intros Hinv. destruct (decide (i < length (ds_clients s))%nat) as [Hlt|]; [|by rewrite (proj1 (client_out s i ltac:(lia)))].
  destruct (dc_pending (client s i)) eqn:E; [|done]. assert (H := fi_pending _ _ (si_flight _ _ _ Hinv) i _ (client_lookup s i Hlt) E). by apply elem_of_nil in H.
Qed.

(** ** The service loop *)

Lemma push_request_only i item s c' : only_client i s (let '(ok, s') := push_request item s in if ok : bool then set_client i c' s' else s').
Proof.
  unfold push_request. destruct (daemon_queue_push _ _) as [rc ring]. destruct (truth rc); [|split; [by exists c'|done]].
  split; [|done]. exists (client s i). destruct (decide (i < length (ds_clients s))%nat) as [Hlt|]; [|by rewrite list_insert_ge by lia].
  by rewrite list_insert_id by (by apply client_lookup).
Qed.

Lemma only_refl i s : only_client i s s.
Proof.
  split; [|done]. exists (client s i). destruct (decide (i < length (ds_clients s))%nat) as [Hlt|]; [|by rewrite list_insert_ge by lia].
  by rewrite list_insert_id by (by apply client_lookup).
Qed.

Lemma submit_client_only i s : only_client i s (submit_client i s).
Proof.
  unfold submit_client. set (c := client s i). destruct (_ || dc_pending c); [apply only_refl|].
  destruct (dc_dead c); [apply push_request_only|]. destruct (_ || _); [apply only_refl|]. destruct (negb (dc_hello c)).
  - destruct (negb _); [apply only_disconnect|apply only_set].
  - destruct (_ =? IPC_HELLO); [apply only_set|]. destruct (negb _); [|apply push_request_only].
    destruct (handle c _); [apply push_request_only|apply only_set].
Qed.

Lemma service_client_only i s : only_client i s (service_client s i).
Proof.
  unfold service_client. destruct (negb _); [apply only_refl|]. eapply only_trans; [|apply submit_client_only].
  set (s1 := if _ && _ then _ else s). assert (H1 : only_client i s s1) by (unfold s1; destruct (_ && _); [apply only_disconnect|apply only_refl]).
  destruct (dc_dead (client s1 i)); [|done]. eapply only_trans; [exact H1|]. destruct (only_refl i s1) as [H _]. by split.
Qed.

(** A dead client that is not waiting goes into cleanup: there is room. *)
Lemma submit_dead s reqs resps i : service_inv s reqs resps -> dc_owner (client s i) <> 0 -> dc_dead (client s i) = true ->
  let c' := client (submit_client i s) i in
  dc_owner c' = dc_owner (client s i) /\ dc_dead c' = true /\ dc_pending c' = true /\ (dc_pending (client s i) = false -> dc_cleanup c' = true).
Proof.
  intros Hinv Ho Hd. cbn zeta. unfold submit_client. replace (truth (dc_owner (client s i))) with true by (symmetry; by apply truth_true). cbn [negb orb].
  destruct (dc_pending (client s i)) eqn:Ep; [done|]. rewrite Hd. assert (Hroom := requests_room _ _ _ i Hinv Ho Ep).
  assert (Hlt : (i < length (ds_clients s))%nat).
  { destruct (decide (i < length (ds_clients s))%nat) as [|Hge]; [done|]. rewrite (proj1 (client_out s i ltac:(lia))) in Ho. done. }
  unfold push_request, daemon_queue_push. unfold daemon_queue_room in Hroom. apply Z.ltb_lt in Hroom.
  destruct (Z.eqb_spec (u32 (dq_write (ds_requests s) - dq_read (ds_requests s))) DAEMON_QUEUE_SIZE); [lia|]. change (truth 0) with false. cbn iota.
  rewrite client_set_client by done. done.
Qed.

Lemma service_client_stopping s reqs resps i : service_inv s reqs resps -> ds_stopping s = true -> dc_owner (client s i) <> 0 ->
  let c' := client (service_client s i) i in
  dc_owner c' = dc_owner (client s i) /\ dc_dead c' = true /\ dc_pending c' = true /\ (dc_pending (client s i) = false -> dc_cleanup c' = true).
Proof.
  intros Hinv Hst Ho. assert (Hlt : (i < length (ds_clients s))%nat).
  { destruct (decide (i < length (ds_clients s))%nat) as [|Hge]; [done|]. rewrite (proj1 (client_out s i ltac:(lia))) in Ho. done. }
  cbn zeta. unfold service_client. replace (truth (dc_owner (client s i))) with true by (symmetry; by apply truth_true). cbn [negb]. rewrite Hst. cbn [andb].
  set (s1 := if negb (dc_dead (client s i)) then disconnect_client i s else s).
  assert (H1 : service_inv s1 reqs resps /\ dc_owner (client s1 i) = dc_owner (client s i) /\ dc_dead (client s1 i) = true /\ dc_pending (client s1 i) = dc_pending (client s i)).
  { unfold s1. destruct (dc_dead (client s i)) eqn:Ed; cbn [negb]; [done|]. split; [by apply disconnect_inv|]. by rewrite client_disconnect. }
  clearbody s1. destruct H1 as (Hinv1 & Ho1 & Hd1 & Hp1). rewrite Hd1.
  set (s2 := set_ds_identities (alter (set_id_owner 0) i (ds_identities s1)) s1). assert (E2 : client s2 i = client s1 i) by done.
  destruct (submit_dead s2 reqs resps i) as (R1 & R2 & R3 & R4).
  - by apply identities_inv.
  - by rewrite E2, Ho1.
  - by rewrite E2.
  - rewrite E2 in R1, R4. split; [congruence|]. split; [done|]. split; [done|]. intros H. apply R4. congruence.
Qed.

Lemma service_loop s reqs resps k n : service_inv s reqs resps -> ds_stopping s = true -> 
  let s' := foldl service_client s (seq k n) in
  exists reqs', service_inv s' reqs' resps /\ ds_stopping s' = true /\ ds_listener s' = ds_listener s /\ ds_max_clients s' = ds_max_clients s /\
  (forall i, dc_owner (client s' i) = dc_owner (client s i)) /\
  (forall i, ~ (k <= i < k + n)%nat -> client s' i = client s i) /\
  (forall i, (k <= i < k + n)%nat -> dc_owner (client s i) <> 0 -> dc_dead (client s' i) = true /\ dc_pending (client s' i) = true /\
     (dc_pending (client s i) = false -> dc_cleanup (client s' i) = true)).
Proof.
  revert k s reqs. induction n as [|n IH]; intros k s reqs Hinv Hst; cbn [seq foldl].
  { exists reqs. split_and!; try done. intros i Hi. lia. }
  destruct (service_client_inv s reqs resps k Hinv) as [reqs1 Hinv1]. assert (Honly := service_client_only k s).
  assert (Hother := fun j => only_client_other k j _ _ Honly). destruct Honly as [_ (E1 & E2 & E3)].
  assert (Hown : dc_owner (client (service_client s k) k) = dc_owner (client s k)).
  { destruct (decide (dc_owner (client s k) = 0)) as [H0|H0]; [|by destruct (service_client_stopping s reqs resps k Hinv Hst H0)].
    unfold service_client. rewrite H0. change (truth 0) with false. cbn [negb]. done. }
  destruct (IH (S k) (service_client s k) reqs1 Hinv1 ltac:(congruence)) as (reqs' & R1 & R2 & R3 & R4 & R5 & R6 & R7).
  exists reqs'. split_and!; try done; try congruence.
  - intros i. rewrite R5. destruct (decide (k = i)) as [<-|Hne]; [done|]. by rewrite Hother.
  - intros i Hi. rewrite R6 by lia. apply Hother. lia.
  - intros i Hi Ho. destruct (decide (k = i)) as [<-|Hne].
    + rewrite R6 by lia. by destruct (service_client_stopping s reqs resps k Hinv Hst Ho) as (_ & ? & ? & ?).
    + assert (Hc : client (service_client s k) i = client s i) by (by apply Hother). destruct (R7 i ltac:(lia)) as (? & ? & Hcl); [by rewrite Hc|]. rewrite Hc in Hcl. done.
Qed.

(** ** Polling *)

Lemma poll_round_dead r s reqs resps : service_inv s reqs resps -> all_dead s -> ds_listener s < 0 -> ds_stopping s = true ->
  let s' := poll_round r s in service_inv s' reqs resps /\ ds_clients s' = ds_clients s /\ ds_stopping s' = true /\ ds_listener s' < 0.
Proof.
  intros Hinv Had Hl Hst. assert (Hentries : poll_entries s = []).
  { unfold poll_entries. assert (H : forall i, client_entries s i = []).
    { intros i. unfold client_entries. assert (Hf : dc_fd (client s i) < 0).
      { destruct (decide (i < length (ds_clients s))%nat) as [Hlt|]; [|by rewrite (proj1 (client_out s i ltac:(lia)))].
        assert (Hc := service_client_inv_at _ _ _ i Hinv Hlt). destruct (decide (dc_owner (client s i) = 0)) as [H0|H0].
        - by destruct (ci_free _ _ _ Hc H0) as (_ & ? & _).
        - by destruct (ci_dead _ _ _ Hc (Had i H0)). }
      apply Z.ltb_lt in Hf. by rewrite Hf. }
    induction (seq 0 _) as [|i l IH]; [done|]. cbn. by rewrite H, IH. }
  assert (Hfail : forall b : bool, service_inv (if b then service_failed s else s) reqs resps) by (intros [|]; [by destruct Hinv|done]).
  cbn zeta. unfold poll_round. rewrite Hentries. destruct (ri_poll r) as [errno|reported].
  - destruct (errno =? EINTR); [done|]. split; [apply (Hfail true)|done].
  - replace (ds_listener s <? 0) with true by (symmetry; by apply Z.ltb_lt). rewrite !Z.land_0_l. change (truth 0) with false. cbn iota. cbn [zip zip_with foldl].
    destruct (truth _); [split; [apply (Hfail true)|done]|done].
Qed.

Lemma live_zero s : (forall i, dc_owner (client s i) = 0) -> live_clients s = O.
Proof.
  intros H. unfold live_clients. apply length_zero_iff_nil.
  destruct (filter _ _) as [|c l] eqn:E; [done|]. exfalso.
  assert (Hin : c ∈ c :: l) by (apply elem_of_cons; by left). rewrite <- E in Hin. apply list_elem_of_filter in Hin as [Hne Hin].
  apply (subseteq_take (Z.to_nat (ds_max_clients s))), list_elem_of_lookup in Hin as [i Hi]. apply Hne. rewrite <- (H i). unfold client. by rewrite (nth_lookup_Some _ _ _ _ Hi).
Qed.

(** * Rounds *)

Lemma flight_limit s reqs resps : service_inv s reqs resps -> (length reqs <= Z.to_nat DAEMON_QUEUE_SIZE)%nat.
Proof. intros Hinv. destruct (si_requests _ _ _ Hinv) as (_ & H & _). lia. Qed.

(** One round while stopping. *)
Lemma stopping_head r s reqs resps : service_inv s reqs resps -> ds_stopping s = true ->
  let '(s1, finished) := control_round r s in
  if finished : bool then ds_done s1 = true /\ (exists reqs1, service_inv s1 reqs1 []) /\ live_clients s1 = O else
  (exists reqs1, service_inv s1 reqs1 []) /\ ds_stopping s1 = true /\ all_dead s1 /\
  (reqs = [] -> all_dead s -> all_clean s1) /\ (reqs = [] -> all_dead s -> all_clean s -> False).
Proof.
  intros Hinv Hst. unfold control_round. destruct (collect_responses_inv s reqs resps Hinv) as (H1 & E1 & E2 & E3 & Hd1 & Hc1).
  set (s1 := collect_responses s) in *. rewrite E1, Hst. cbn [andb].
  set (s2 := if 0 <=? ds_listener s1 then close_listener s1 else s1).
  assert (H2 : service_inv s2 reqs [] /\ ds_stopping s2 = true /\ ds_listener s2 < 0 /\ ds_clients s2 = ds_clients s1 /\ ds_max_clients s2 = ds_max_clients s1).
  { unfold s2. destruct (Z.leb_spec 0 (ds_listener s1)); [|split_and!; try done; congruence]. split_and!; try done; [by apply close_listener_inv|cbn; congruence]. }
  clearbody s2. destruct H2 as (H2 & Hst2 & Hl2 & Hcl2 & Hm2).
  destruct (service_loop s2 reqs [] 0 (Z.to_nat (ds_max_clients s2)) H2 Hst2) as (reqs3 & H3 & Hst3 & Hl3 & Hm3 & Ho3 & _ & Hloop).
  set (s3 := foldl service_client s2 _) in *. rewrite Hst3. cbn [andb].
  assert (Hin : forall i, dc_owner (client s2 i) <> 0 -> (0 <= i < 0 + Z.to_nat (ds_max_clients s2))%nat).
  { intros i Ho. destruct (decide (i < length (ds_clients s2))%nat) as [Hlt|]; [|rewrite (proj1 (client_out s2 i ltac:(lia))) in Ho; done].
    assert (Hb := si_beyond _ _ _ H2 i _ (client_lookup s2 i Hlt) Ho). lia. }
  assert (Hdead3 : all_dead s3) by (intros i; rewrite Ho3; intros Ho; by destruct (Hloop i (Hin i Ho) Ho)).
  destruct (Nat.eqb_spec (live_clients s2) 0) as [Hz|Hz].
  { split; [done|]. split; [exists reqs3; by destruct H3|]. apply live_zero. intros i. change (client (set_ds_done true s3) i) with (client s3 i). rewrite Ho3.
    destruct (decide (i < length (ds_clients s2))%nat) as [Hlt|]; [|by rewrite (proj1 (client_out s2 i ltac:(lia)))].
    by eapply no_live_clients, client_lookup. }
  destruct (poll_round_dead r s3 reqs3 [] H3 Hdead3 ltac:(lia) Hst3) as (H4 & Hc4 & Hst4 & _).
  assert (Hclient : forall i, client (poll_round r s3) i = client s3 i) by (intros i; by apply clients_eq).
  assert (Hsame : forall i, client s2 i = client s1 i) by (intros i; by apply clients_eq).
  split_and!; [by exists reqs3|done| | |].
  - intros i. rewrite Hclient. apply Hdead3.
  - intros -> Had i. rewrite Hclient, Ho3. intros Ho. destruct (Hloop i (Hin i Ho) Ho) as (_ & _ & Hcl). apply Hcl. rewrite Hsame. by apply idle_clients.
  - intros -> Had Hac. apply Hz, live_zero. intros i. rewrite Hsame. destruct (decide (dc_owner (client s1 i) = 0)) as [|Ho]; [done|]. exfalso.
    assert (Hcl := Hc1 Had Hac i Ho). assert (Hp := idle_clients s1 i H1).
    destruct (decide (i < length (ds_clients s1))%nat) as [Hlt|]; [|by rewrite (proj1 (client_out s1 i ltac:(lia))) in Ho].
    destruct (ci_cleanup _ _ _ (service_client_inv_at _ _ _ i H1 Hlt) Hcl). congruence.
Qed.

Section Shutdown.
Context {W : Worker}.

Lemma serve_all_inv n s w reqs resps : service_inv s reqs resps -> sound w -> (length reqs <= n)%nat ->
  let '(s', w') := serve_all n s w in
  sound w' /\ (exists resps', service_inv s' [] resps') /\ ds_clients s' = ds_clients s /\ ds_stopping s' = ds_stopping s /\ ds_listener s' = ds_listener s.
Proof.
  revert s w reqs resps. induction n as [|n IH]; intros s w reqs resps Hinv Hw Hn; cbn [serve_all].
  { destruct reqs; [|cbn in Hn; lia]. split; [done|]. split; [by exists resps|done]. }
  assert (Hq := pop_holds _ _ (si_requests _ _ _ Hinv)). destruct reqs as [|request reqs].
  { rewrite Hq. destruct (negb _); (split; [done|]; split; [by exists resps|done]). }
  rewrite (responses_room _ _ _ Hinv) by done. cbn [negb]. destruct (daemon_queue_pop (ds_requests s)) as [o ring] eqn:Epop. destruct Hq as [Hq1 _]. cbn in Hq1. subst o.
  assert (Hinv' := worker_inv s reqs resps w request ring Hw Hinv (responses_room _ _ _ Hinv ltac:(done)) Epop).
  assert (H := IH _ (serve request w).2 reqs _ Hinv' (serve_sound _ _ Hw) ltac:(cbn in Hn; lia)).
  by destruct (serve_all n _ _) as [s' w'].
Qed.

(** With the worker answering after it. *)
Lemma stopping_round r s reqs resps w : service_inv s reqs resps -> ds_stopping s = true -> sound w ->
  let '(s1, finished) := control_round r s in
  if finished : bool then ds_done s1 = true /\ (exists reqs1, service_inv s1 reqs1 []) /\ live_clients s1 = O else
  let '(s2, w2) := serve_all (Z.to_nat DAEMON_QUEUE_SIZE) s1 w in
  sound w2 /\ (exists resps2, service_inv s2 [] resps2) /\ ds_stopping s2 = true /\ all_dead s2 /\
  (reqs = [] -> all_dead s -> all_clean s2) /\ (reqs = [] -> all_dead s -> all_clean s -> False).
Proof.
  intros Hinv Hst Hw. assert (H := stopping_head r s reqs resps Hinv Hst). destruct (control_round r s) as [s1 [|]]; [done|].
  destruct H as ([reqs1 H1] & Hst1 & Hd & Hc & Hf). assert (Hs := serve_all_inv (Z.to_nat DAEMON_QUEUE_SIZE) _ w _ _ H1 Hw (flight_limit _ _ _ H1)).
  destruct (serve_all _ s1 w) as [s2 w2]. destruct Hs as (Hw2 & H2 & Hc2 & Hst2 & _).
  assert (Hclient : forall i, client s2 i = client s1 i) by (intros i; by apply clients_eq).
  split_and!; [done|done|congruence| | |done].
  - intros i. rewrite Hclient. apply Hd.
  - intros H Had i. rewrite Hclient. by apply Hc.
Qed.

Lemma stopping_ends rs s reqs resps w : service_inv s reqs resps -> ds_stopping s = true -> sound w -> (3 <= length rs)%nat ->
  let '(s', finished) := daemon_rounds rs s w in finished = true /\ ds_done s' = true /\ live_clients s' = O.
Proof.
  intros Hinv Hst Hw Hrs. destruct rs as [|r1 [|r2 [|r3 rs]]]; cbn in Hrs; try lia. cbn [daemon_rounds].
  assert (R1 := stopping_round r1 s reqs resps w Hinv Hst Hw). destruct (control_round r1 s) as [s1 [|]]; [tauto|].
  destruct (serve_all _ s1 w) as [s1' w1]. destruct R1 as (Hw1 & (resps1 & Hinv1) & Hst1 & Hd1 & _).
  assert (R2 := stopping_round r2 s1' [] resps1 w1 Hinv1 Hst1 Hw1). destruct (control_round r2 s1') as [s2 [|]]; [tauto|].
  destruct (serve_all _ s2 w1) as [s2' w2]. destruct R2 as (Hw2 & (resps2 & Hinv2) & Hst2 & Hd2 & Hc2 & _).
  assert (R3 := stopping_round r3 s2' [] resps2 w2 Hinv2 Hst2 Hw2). destruct (control_round r3 s2') as [s3 [|]]; [tauto|].
  destruct (serve_all _ s3 w2) as [s3' w3]. destruct R3 as (_ & _ & _ & _ & _ & Hfalse). destruct (Hfalse eq_refl Hd2 (Hc2 eq_refl Hd1)).
Qed.

(** From any state of the daemon, once [stopping] is set, the loop of the
    control thread ends within three rounds, with no session left and [done]
    set, whatever the kernel answers, if the worker answers requests between
    the rounds. *)
Theorem control_shutdown path max_clients max_sockets e w0 s rs w :
  daemon_reaches path max_clients max_sockets e w0 s w -> ds_stopping s = true -> (3 <= length rs)%nat ->
  let '(s', finished) := daemon_rounds rs s w in finished = true /\ ds_done s' = true /\ live_clients s' = O.
Proof. intros [Hw (reqs & resps & Hinv)]%daemon_reaches_system Hst Hrs. by eapply stopping_ends. Qed.
End Shutdown.

(** * The flags of the control thread *)

(** [stopping] and [done] of the service. *)
Definition flags (s : daemon_service) : bool * bool := (ds_stopping s, ds_done s).

Ltac keep_flags := repeat case_match; simplify_eq; try done.

Lemma push_request_flags item s : flags (push_request item s).2 = flags s.
Proof. unfold push_request. keep_flags. Qed.

Lemma collect_item_flags item s : flags (collect_item item s) = flags s.
Proof. unfold collect_item, collect_client, disconnect_client. cbv zeta. keep_flags. Qed.

Lemma collect_loop_flags n s : flags (collect_loop n s) = flags s.
Proof.
  revert s. induction n as [|n IH]; intros s; [done|]. cbn [collect_loop]. destruct (daemon_queue_pop _) as [[item|] ring]; [|done].
  by rewrite IH, collect_item_flags.
Qed.

Lemma submit_client_flags i s : flags (submit_client i s) = flags s.
Proof.
  unfold submit_client, disconnect_client. cbv zeta. repeat case_match; try done;
    match goal with H : push_request ?x s = _ |- _ => assert (E := push_request_flags x s); rewrite H in E; exact E end.
Qed.

Lemma service_client_flags s i : flags (service_client s i) = flags s.
Proof. unfold service_client. destruct (negb _); [done|]. cbv zeta. rewrite submit_client_flags. unfold disconnect_client. keep_flags. Qed.

Lemma foldl_flags {A} (f : daemon_service -> A -> daemon_service) l s : (forall s x, flags (f s x) = flags s) -> flags (foldl f s l) = flags s.
Proof. intros Hf. revert s. induction l as [|x l IH]; intros s; [done|]. cbn [foldl]. by rewrite IH, Hf. Qed.

(** A round before [poll]. *)
Lemma control_head_flags s : flags (let s := collect_responses s in
  let s := if ds_stopping s && (0 <=? ds_listener s) then close_listener s else s in foldl service_client s (seq 0 (Z.to_nat (ds_max_clients s)))) = flags s.
Proof.
  cbv zeta. rewrite foldl_flags by apply service_client_flags. destruct (_ && _); [change (flags (collect_responses s) = flags s)|]; apply collect_loop_flags.
Qed.

Lemma poll_client_flags r s entry : flags (poll_client r s entry) = flags s.
Proof.
  destruct entry as [[[i pid] events] reported]. unfold poll_client, read_client, write_client, disconnect_client. cbv zeta. keep_flags.
Qed.

(** A round sets [done] only when it ends the thread, and never takes [stopping]
    back. *)
Lemma poll_round_flags r s : ds_done (poll_round r s) = ds_done s /\ (ds_stopping s = true -> ds_stopping (poll_round r s) = true).
Proof.
  unfold poll_round. destruct (ri_poll r) as [errno|reported]; [by destruct (errno =? EINTR)|]. cbv zeta.
  set (s1 := if truth (Z.land _ POLLIN) then _ else s). assert (H1 : flags s1 = flags s).
  { unfold s1. destruct (truth _); [|done]. apply foldl_flags. intros s' conn. unfold accept_client. keep_flags. }
  clearbody s1. match goal with |- context[foldl ?f ?s0 ?l] => assert (H2 := foldl_flags f l s0 (poll_client_flags r)) end.
  injection H2 as -> ->. injection H1 as H1 H1'. rewrite <- H1, <- H1'. by repeat case_match.
Qed.

Lemma control_round_flags r s reqs resps : service_inv s reqs resps ->
  let '(s', finished) := control_round r s in
  (if finished : bool then ds_done s' = true /\ live_clients s' = O else ds_done s' = ds_done s) /\ (ds_stopping s = true -> ds_stopping s' = true).
Proof.
  intros Hinv. assert (Hr := stopping_head r s reqs resps Hinv). unfold control_round in *. assert (Hh := control_head_flags s). cbv zeta in *.
  set (s2 := if ds_stopping (collect_responses s) && _ then _ else _) in *. set (s3 := foldl service_client _ _) in *. injection Hh as Hst Hd.
  destruct (ds_stopping s3 && Nat.eqb (live_clients s2) 0) eqn:E.
  - apply andb_true_iff in E as [E _]. split; [|done]. destruct Hr as (_ & _ & Hl); [congruence|]. by split.
  - clear Hr. destruct (poll_round_flags r s3) as [H1 H2]. split; [congruence|]. intros H. apply H2. congruence.
Qed.

Lemma control_shutdown_witness : exists s, daemon_reaches (W := Sample.answering) Sample.path 4 8 Sample.answers tt s tt /\ ds_stopping s = true /\ live_clients s = 1%nat /\
  let '(s', finished) := daemon_rounds (W := Sample.answering) Sample.quiet s tt in finished = true /\ ds_done s' = true /\ live_clients s' = O.
Proof.
  exists (Sample.stopped). assert (H : daemon_reaches (W := Sample.answering) Sample.path 4 8 Sample.answers tt Sample.stopped tt) by exact Sample.stopped_reached.
  split; [exact H|]. split; [reflexivity|]. split; [vm_compute; reflexivity|].
  apply (control_shutdown (W := Sample.answering) Sample.path 4 8 Sample.answers tt Sample.stopped Sample.quiet tt H); [reflexivity|].
  cbn. lia.
Defined.
