(* ===== verification/Graph.v ===== *)
(** The packet graph of [src/graph.c]: a pool of frame slots, the queue of ready
    slots, and the scheduler that runs node after node until nothing is ready.
    The node functions themselves are a parameter here; [Nodes.v] supplies them.

    A buffer is owned by exactly one place at a time.  The ledger [balance]
    counts, for every buffer, what came in (allocations and receptions), what
    went out (frees and transmissions) and what the slots and the neighbour
    queues hold. *)
From S2P Require Import Prelude.
From S2P Require Import Dpdk.
From S2P Require Import Types.

(** * Calls into DPDK, recorded in the history *)

Definition record_event (e : dpdk_event) (rt : app_runtime) : app_runtime := set_rt_dpdk (e :: rt_dpdk rt) rt.

Definition mbuf_free (m : mbuf) (rt : app_runtime) : app_runtime := record_event (EvFree m) rt.

Section dpdk_calls.
Context `{!Dpdk}.

Definition mbuf_alloc (rt : app_runtime) : option mbuf * app_runtime :=
  let r := alloc_of (rt_dpdk rt) in (r, record_event (EvAlloc r) rt).

Definition timer_cycles (rt : app_runtime) : Z * app_runtime :=
  let now := u64 (cycles_of (rt_dpdk rt)) in (now, record_event (EvCycles now) rt).

Definition rte_rand (rt : app_runtime) : Z * app_runtime :=
  let r := u64 (rand_of (rt_dpdk rt)) in (r, record_event (EvRand r) rt).
End dpdk_calls.

(** * Statistics *)

Definition alter_graph (f : dp_graph -> dp_graph) (rt : app_runtime) : app_runtime := set_rt_graph (f (rt_graph rt)) rt.

Definition alter_stats (n : node_id) (f : node_stats -> node_stats) (rt : app_runtime) : app_runtime :=
  alter_graph (fun g => set_gr_nodes
    (alter (fun d => set_dn_stats (f (dn_stats d)) d) (node_index n) (gr_nodes g)) g) rt.

Definition count_packets (n : node_id) (k : Z) (rt : app_runtime) : app_runtime :=
  alter_stats n (fun s => set_ns_packets (u64 (ns_packets s + k)) s) rt.
Definition count_bytes (n : node_id) (k : Z) (rt : app_runtime) : app_runtime :=
  alter_stats n (fun s => set_ns_bytes (u64 (ns_bytes s + k)) s) rt.
Definition count_drops (n : node_id) (k : Z) (rt : app_runtime) : app_runtime :=
  alter_stats n (fun s => set_ns_drops (u64 (ns_drops s + k)) s) rt.
Definition count_errors (n : node_id) (k : Z) (rt : app_runtime) : app_runtime :=
  alter_stats n (fun s => set_ns_errors (u64 (ns_errors s + k)) s) rt.
Definition count_reason (r : nat) (k : Z) (rt : app_runtime) : app_runtime :=
  alter_graph (fun g => set_gr_drop_reasons (alter (fun x => u64 (x + k)) r (gr_drop_reasons g)) g) rt.

Definition node_packets (n : node_id) (rt : app_runtime) : Z :=
  match gr_nodes (rt_graph rt) !! node_index n with Some d => ns_packets (dn_stats d) | None => 0 end.

(** * Slots and the ready queue *)

Definition slot_alloc (g : dp_graph) : option nat * dp_graph :=
  match find_index (fun s => negb (sl_used s)) (gr_slots g) with
  | Some i => (Some i, set_gr_slots (alter (fun s => s |> set_sl_used true |> set_sl_frame []) i (gr_slots g)) g)
  | None => (None, g)
  end.

Definition queue_slot (g : dp_graph) (slot : nat) : Z * dp_graph :=
  if Nat.eqb (gr_q_count g) GRAPH_FRAME_POOL_SIZE then (- 1, g) else
  (0, g |> set_gr_queue (<[gr_q_tail g := slot]> (gr_queue g))
        |> set_gr_q_tail ((gr_q_tail g + 1) mod GRAPH_FRAME_POOL_SIZE)%nat
        |> set_gr_q_count (gr_q_count g + 1)%nat).

Definition slot_frame (rt : app_runtime) (slot : nat) : node_frame :=
  match gr_slots (rt_graph rt) !! slot with Some s => sl_frame s | None => [] end.

Definition free_slot (slot : nat) (rt : app_runtime) : app_runtime :=
  alter_graph (fun g => set_gr_slots (alter (set_sl_used false) slot (gr_slots g)) g) rt.

Definition no_output : node_output := replicate NODE_MAX None.

(** [out] is passed and returned; it is [rt->active_output] or a local. *)
Definition flush_pending (rt : app_runtime) (out : node_output) (n : node_id) : Z * app_runtime * node_output :=
  match nth (node_index n) out None with
  | None => (0, rt, out)
  | Some slot =>
    let out := <[node_index n := None]> out in
    let '(rc, g) := queue_slot (rt_graph rt) slot in
    if rc =? 0 then (0, set_rt_graph g rt, out) else
    let frame := slot_frame rt slot in
    let count := Z.of_nat (length frame) in
    (- 1, foldl (fun rt p => mbuf_free p.1 rt) rt frame |> free_slot slot
            |> count_reason (drop_index DROP_GRAPH_FULL) count |> count_drops n count |> count_errors n count, out)
  end.

Definition node_enqueue (rt : app_runtime) (out : node_output) (n : node_id) (m : mbuf) (ctx : packet_ctx)
  : Z * app_runtime * node_output :=
  let '(slot, rt, out) :=
    match nth (node_index n) out None with
    | Some slot => (Some slot, rt, out)
    | None =>
      match slot_alloc (rt_graph rt) with
      | (Some slot, g) =>
        let g := set_gr_slots (alter (set_sl_node n) slot (gr_slots g)) g in
        (Some slot, set_rt_graph g rt, <[node_index n := Some slot]> out)
      | (None, g) => (None, rt, out)
      end
    end in
  match slot with
  | None =>
    (- 1, rt |> count_reason (drop_index DROP_GRAPH_FULL) 1 |> count_drops n 1 |> count_errors n 1 |> mbuf_free m, out)
  | Some slot =>
    let frame := slot_frame rt slot ++ [(m, ctx)] in
    let rt := alter_graph (fun g => set_gr_slots (alter (set_sl_frame frame) slot (gr_slots g)) g) rt in
    if Nat.eqb (length frame) GRAPH_FRAME_SIZE then flush_pending rt out n else (0, rt, out)
  end.

(** [node_enqueue(out, ...)] of a node, whose [out] is [rt->active_output]. *)
Definition enqueue_active (n : node_id) (m : mbuf) (ctx : packet_ctx) (rt : app_runtime) : Z * app_runtime :=
  match rt_active_output rt with
  | Some out => let '(rc, rt, out) := node_enqueue rt out n m ctx in (rc, set_rt_active_output (Some out) rt)
  | None => (- 1, rt)
  end.

Definition enqueue (n : node_id) (m : mbuf) (ctx : packet_ctx) (rt : app_runtime) : app_runtime :=
  (enqueue_active n m ctx rt).2.

(** [error] is a flag. *)
Definition graph_drop (owner : node_id) (m : mbuf) (ctx : packet_ctx) (reason : drop_reason) (error : bool)
  (rt : app_runtime) : app_runtime :=
  let ctx := set_cx_drop_reason (u8 (Z.of_nat (drop_index reason))) ctx in
  let rt := count_drops owner 1 rt in
  let rt := if error then count_errors owner 1 rt else rt in
  match rt_active_output rt with
  | Some _ => enqueue NODE_DROP m ctx rt
  | None =>
    let '(rc, rt, out) := node_enqueue rt no_output NODE_DROP m ctx in
    if rc =? 0 then let '(_, rt, _) := flush_pending rt out NODE_DROP in rt else rt
  end.

(** * The scheduler *)

Section scheduler.
(** The node functions: [run n frame rt] is [nodes[n].run(rt, frame, rt->active_output)]. *)
Context (run : node_id -> node_frame -> app_runtime -> app_runtime).

Definition flush_all (rt : app_runtime) (out : node_output) : app_runtime * node_output :=
  foldl (fun '(rt, out) n => let '(_, rt, out) := flush_pending rt out n in (rt, out)) (rt, out) all_nodes.

(** One round of [while (rt->graph.q_count)]. *)
Definition graph_round (rt : app_runtime) : outcome app_runtime :=
  let g := rt_graph rt in
  match gr_q_count g with
  | O => Done rt
  | S count =>
    let slot := nth (gr_q_head g) (gr_queue g) O in
    let rt := set_rt_graph (g |> set_gr_q_head ((gr_q_head g + 1) mod GRAPH_FRAME_POOL_SIZE)%nat
                              |> set_gr_q_count count) rt in
    let s := nth slot (gr_slots g) zero_graph_frame_slot in
    let n := sl_node s in
    let rt := foldl (fun rt p => rt |> count_packets n 1 |> count_bytes n (rte_pktmbuf_pkt_len p.1)) rt (sl_frame s) in
    let rt := set_rt_active_output (Some no_output) rt in
    let rt := match gr_nodes g !! node_index n with
              | Some d => match dn_run d with Some f => run f (sl_frame s) rt | None => rt end
              | None => rt
              end in
    let out := default no_output (rt_active_output rt) in
    let rt := rt |> set_rt_active_output None |> free_slot slot in
    More (flush_all rt out).1
  end.

(** The rounds a scheduler call may take: at most [2^40], see [graph_drain_terminates]. *)
Definition graph_drain (rt : app_runtime) : app_runtime := state_of (iterate 40 graph_round rt).

Definition graph_submit (n : node_id) (frame : node_frame) (rt : app_runtime) : Z * app_runtime :=
  if Nat.ltb GRAPH_FRAME_SIZE (length frame) then (- 1, rt) else
  let '(rt, seed) := foldl (fun '(rt, seed) p => let '(_, rt, seed) := node_enqueue rt seed n p.1 p.2 in (rt, seed))
                       (rt, no_output) frame in
  let '(_, rt, _) := flush_pending rt seed n in
  (0, graph_drain rt).
End scheduler.

(** * Registration *)

Definition node_name (n : node_id) : string :=
  match n with
  | NODE_DROP => "drop" | NODE_ETH_INPUT => "eth_input" | NODE_ARP_INPUT => "arp_input"
  | NODE_IPV4_INPUT => "ipv4_input" | NODE_ICMP_INPUT => "icmp_input" | NODE_UDP_INPUT => "udp_input"
  | NODE_TCP_INPUT => "tcp_input" | NODE_IPV4_ROUTE => "ipv4_route" | NODE_UDP_OUTPUT => "udp_output"
  | NODE_IPV4_OUTPUT => "ipv4_output" | NODE_ETH_OUTPUT => "eth_output" | NODE_ARP_OUTPUT => "arp_output"
  | NODE_TX => "tx" | NODE_IPV4_FORWARD => "ipv4_forward" | NODE_IPV4_ACL => "ipv4_acl"
  end.

(** [run] names the node function by the node it is written for. *)
Definition register_node (rt : app_runtime) (id : node_id) : app_runtime :=
  alter_graph (fun g => set_gr_nodes
    (<[node_index id := mk_dp_node id (node_name id) (Some id) zero_node_stats]> (gr_nodes g)) g) rt.

Definition nodes_register (rt : app_runtime) : app_runtime :=
  foldl register_node rt
    [NODE_DROP; NODE_ETH_INPUT; NODE_ARP_OUTPUT; NODE_ARP_INPUT; NODE_IPV4_ACL; NODE_IPV4_INPUT; NODE_IPV4_FORWARD;
     NODE_ICMP_INPUT; NODE_UDP_INPUT; NODE_TCP_INPUT; NODE_IPV4_OUTPUT; NODE_IPV4_ROUTE; NODE_UDP_OUTPUT;
     NODE_ETH_OUTPUT; NODE_TX].

Definition graph_init (rt : app_runtime) : Z * app_runtime :=
  let rt := nodes_register (set_rt_graph zero_dp_graph rt) in
  (if existsb (fun d => match dn_run d with None => true | Some _ => false end) (gr_nodes (rt_graph rt)) then - 1 else 0, rt).

Definition drop_names : list string :=
  ["none"; "port_binding"; "truncated_eth"; "unsupported_ethertype"; "invalid_arp";
   "invalid_ipv4"; "ipv4_fragment"; "not_local"; "ipv4_options"; "invalid_icmp";
   "unsupported_icmp"; "unsupported_protocol"; "graph_full"; "tx_failed";
   "mtu"; "no_tailroom"; "noncontiguous"; "invalid_source";
   "neighbour_not_found"; "invalid_destination"; "invalid_udp"; "udp_bad_length";
   "udp_bad_checksum"; "udp_unbound_port"; "udp_rx_queue_full";
   "mbuf_allocation_failed"; "no_headroom"; "no_route"; "invalid_egress"; "forwarding_disabled";
   "neighbour_queue_full"; "neighbour_pending_full"; "neighbour_resolution_timeout"; "neighbour_cancelled";
   "ttl_expired"; "invalid_tcp"; "tcp_bad_checksum"; "tcp_invalid_state";
   "tcp_no_socket"; "tcp_backlog_full"; "tcp_out_of_order";
   "route_blackhole"; "route_unreachable"; "route_prohibit"; "acl"]%string.

Definition graph_drop_name (reason : nat) : string := nth reason drop_names "unknown"%string.

#[global] Arguments mbuf_free : simpl never.
#[global] Arguments alter_stats : simpl never.
#[global] Arguments count_packets : simpl never.
#[global] Arguments count_bytes : simpl never.
#[global] Arguments count_drops : simpl never.
#[global] Arguments count_errors : simpl never.
#[global] Arguments count_reason : simpl never.
#[global] Arguments slot_alloc : simpl never.
#[global] Arguments queue_slot : simpl never.
#[global] Arguments flush_pending : simpl never.
#[global] Arguments node_enqueue : simpl never.
#[global] Arguments enqueue_active : simpl never.
#[global] Arguments enqueue : simpl never.
#[global] Arguments graph_drop : simpl never.
#[global] Arguments graph_submit : simpl never.
#[global] Arguments graph_drain : simpl never.
