(* ===== verification/Packet.v ===== *)
(** Header fields inside a packet buffer.  The offsets are those of the wire
    formats ([rte_ether_hdr], [rte_arp_hdr], [rte_ipv4_hdr], [rte_udp_hdr],
    [rte_tcp_hdr]); 32-bit addresses are read as the source does, as native words
    holding network-order bytes. *)
From S2P Require Import Prelude.
From S2P Require Import Dpdk.
From S2P Require Import Types.

Definition sizeof_ether_hdr : Z := 14.
Definition sizeof_arp_hdr : Z := 28.
Definition sizeof_ipv4_hdr : Z := 20.
Definition sizeof_udp_hdr : Z := 8.
Definition sizeof_tcp_hdr : Z := 20.
Definition sizeof_icmp_hdr : Z := 8.
Definition RTE_ETHER_TYPE_IPV4 : Z := 2048.
Definition RTE_ETHER_TYPE_ARP : Z := 2054.
Definition RTE_IPV4_HDR_DF_FLAG : Z := 16384.
Definition RTE_IPV4_HDR_MF_FLAG : Z := 8192.
Definition RTE_IPV4_HDR_OFFSET_MASK : Z := 8191.

(** Raw access at a byte offset. *)
Definition byte_in (m : mbuf) (off : Z) : Z := byte_of (mb_data m) (Z.to_nat off).
Definition be16_in (m : mbuf) (off : Z) : Z := rd_be16 (mb_data m) (Z.to_nat off).
Definition word_in (m : mbuf) (off : Z) : Z := rd_le32 (mb_data m) (Z.to_nat off).
Definition be32_in (m : mbuf) (off : Z) : Z := rd_be32 (mb_data m) (Z.to_nat off).
Definition bytes_in (m : mbuf) (off len : Z) : list Z := take (Z.to_nat len) (drop (Z.to_nat off) (mb_data m)).
Definition bytes_from (m : mbuf) (off : Z) : list Z := drop (Z.to_nat off) (mb_data m).
Definition put_bytes (off : Z) (v : list Z) (m : mbuf) : mbuf := set_mb_data (write_at (mb_data m) (Z.to_nat off) v) m.

(** ** Ethernet *)
Definition eth_dst (m : mbuf) : ether_addr := bytes_in m 0 6.
Definition eth_src (m : mbuf) : ether_addr := bytes_in m 6 6.
Definition eth_type (m : mbuf) : Z := be16_in m 12.

(** ** IPv4, at offset [o] *)
Definition ip_version (m : mbuf) (o : Z) : Z := Z.shiftr (byte_in m o) 4.
Definition ip_ihl (m : mbuf) (o : Z) : Z := Z.land (byte_in m o) 15 * 4.
Definition ip_total (m : mbuf) (o : Z) : Z := be16_in m (o + 2).
Definition ip_fragment (m : mbuf) (o : Z) : Z := be16_in m (o + 6).
Definition ip_ttl (m : mbuf) (o : Z) : Z := byte_in m (o + 8).
Definition ip_proto (m : mbuf) (o : Z) : Z := byte_in m (o + 9).
Definition ip_src (m : mbuf) (o : Z) : Z := word_in m (o + 12).
Definition ip_dst (m : mbuf) (o : Z) : Z := word_in m (o + 16).

(** The header [rte_ipv4_cksum] and friends are given when the code builds one
    on the stack. *)
Definition pseudo_header (total proto src dst : Z) : list Z :=
  [69; 0] ++ be16 total ++ [0; 0; 0; 0; 0; proto; 0; 0] ++ le32 src ++ le32 dst.

#[global] Arguments byte_in : simpl never.
#[global] Arguments be16_in : simpl never.
#[global] Arguments word_in : simpl never.
#[global] Arguments be32_in : simpl never.
#[global] Arguments bytes_in : simpl never.
#[global] Arguments bytes_from : simpl never.
#[global] Arguments put_bytes : simpl never.

Lemma put_bytes_id off v m : mb_id (put_bytes off v m) = mb_id m.
Proof. done. Qed.
