(* ===== verification/IcmpError.v ===== *)
(** ICMP error generation of [src/icmp_error.c] with its token bucket. *)
From S2P Require Import Prelude.
From S2P Require Import Dpdk.
From S2P Require Import Types.
From S2P Require Import Netif.
From S2P Require Import Route.
From S2P Require Import PolicyRoute.
From S2P Require Import Graph.
From S2P Require Import Packet.

Section icmp_error.
Context `{!Dpdk}.

Definition take_token (state : icmp_error_state) (now : Z) : bool * icmp_error_state :=
  let interval := rte_get_timer_hz / ICMP_ERROR_RATE in
  let state := if ie_initialized state then state else
    state |> set_ie_initialized true |> set_ie_last_refill now |> set_ie_tokens ICMP_ERROR_BURST in
  let elapsed := u64 (now - ie_last_refill state) in
  let refill := elapsed / interval in
  let state := if truth refill then
      state |> set_ie_tokens (if u32 (ICMP_ERROR_BURST - ie_tokens state) <=? refill then ICMP_ERROR_BURST
                              else u32 (ie_tokens state + u32 refill))
            |> set_ie_last_refill (u64 (now - elapsed mod interval))
    else state in
  if negb (truth (ie_tokens state)) then (false, state) else
  (true, set_ie_tokens (u32 (ie_tokens state - 1)) state).

Definition alter_icmp (f : icmp_error_state -> icmp_error_state) (rt : app_runtime) : app_runtime :=
  set_rt_icmp_errors (f (rt_icmp_errors rt)) rt.
Definition icmp_suppressed (rt : app_runtime) : app_runtime :=
  alter_icmp (fun s => set_ie_suppressed (u64 (ie_suppressed s + 1)) s) rt.
Definition icmp_failed (rt : app_runtime) : app_runtime :=
  alter_icmp (fun s => set_ie_failed (u64 (ie_failed s + 1)) s) rt.

(** The checks of RFC 1812 on the offending packet: an error may be sent. *)
Definition icmp_error_allowed (rt : app_runtime) (original : mbuf) (ctx : packet_ctx) : bool :=
  let o := cx_l3_offset ctx in
  if negb (rte_pktmbuf_is_contiguous original) || (rte_pktmbuf_data_len original <? o + sizeof_ipv4_hdr) then false else
  let ihl := ip_ihl original o in
  let total := ip_total original o in
  if negb (ip_version original o =? 4) || (ihl <? sizeof_ipv4_hdr) || (total <? ihl) ||
     (rte_pktmbuf_data_len original <? o + total) || negb (rte_ipv4_cksum (bytes_from original o) =? 0) ||
     negb (ipv4_destination_valid rt (ip_src original o)) ||
     (negb (netif_is_local_ip rt (ip_dst original o)) && negb (ipv4_destination_valid rt (ip_dst original o))) ||
     truth (Z.land (ip_fragment original o) RTE_IPV4_HDR_OFFSET_MASK) then false else
  if (sizeof_ether_hdr <=? o) && rte_is_multicast_ether_addr (eth_dst original) then false else
  if ip_proto original o =? IPPROTO_ICMP then
    let type := byte_in original (o + ihl) in
    negb ((total - ihl <? 8) || (type =? 3) || (type =? 4) || (type =? 5) || (type =? 11) || (type =? 12))
  else true.

(** The bytes of [struct icmp_error_hdr] and the quoted packet, checksummed. *)
Definition icmp_error_bytes (type code mtu : Z) (quoted : list Z) : list Z :=
  let body := [type; code; 0; 0; 0; 0] ++
    (if (type =? 3) && (code =? 4) then be16 mtu else [0; 0]) ++ quoted in
  write_at body 2 (le16 (not16 (rte_raw_cksum body))).

(** Hands a packet to [NODE_IPV4_OUTPUT]: through the running node's output, or
    by a scheduler call of its own, which counts as failed when the node did not
    see it. *)
Context (submit : node_id -> node_frame -> app_runtime -> app_runtime).

Definition send_ipv4 (m : mbuf) (ctx : packet_ctx) (rt : app_runtime) : Z * app_runtime :=
  match rt_active_output rt with
  | Some _ => enqueue_active NODE_IPV4_OUTPUT m ctx rt
  | None =>
    let before := node_packets NODE_IPV4_OUTPUT rt in
    let rt := submit NODE_IPV4_OUTPUT [(m, ctx)] rt in
    (if node_packets NODE_IPV4_OUTPUT rt =? before then - 1 else 0, rt)
  end.

Definition icmp_send_error (original : mbuf) (ctx : packet_ctx) (type code mtu now : Z) (rt : app_runtime) : app_runtime :=
  if negb (icmp_error_allowed rt original ctx) then icmp_suppressed rt else
  let o := cx_l3_offset ctx in
  let ihl := ip_ihl original o in
  let total := ip_total original o in
  let src := ip_src original o in
  let dst := ip_dst original o in
  let '(granted, state) := take_token (rt_icmp_errors rt) now in
  let rt := set_rt_icmp_errors state rt in
  if negb granted then alter_icmp (fun s => set_ie_rate_limited (u64 (ie_rate_limited s + 1)) s) rt else
  let '(reason, route) :=
    ipv4_route_query rt src (if netif_is_local_ip rt dst then dst else 0) NET_IIF_NONE zero_route_result in
  if negb (bool_decide (reason = DROP_NONE)) ||
     (rr_mtu route <? sizeof_ipv4_hdr + sizeof_icmp_hdr + ihl + Z.min (total - ihl) 8) then icmp_failed rt else
  let limit := Z.min (rr_mtu route) 576 in
  let quote := Z.min total (limit - sizeof_ipv4_hdr - sizeof_icmp_hdr) in
  let '(m, rt) := mbuf_alloc rt in
  match m with
  | None => icmp_failed rt
  | Some m =>
    match rte_pktmbuf_append m (sizeof_icmp_hdr + quote) with
    | None => rt |> mbuf_free m |> icmp_failed
    | Some m' =>
      let m' := put_bytes (rte_pktmbuf_data_len m) (icmp_error_bytes type code mtu (bytes_in original o quote)) m' in
      let response := zero_packet_ctx
        |> set_cx_egress_port_id (pt_port_id (default zero_port_state (netif_by_id rt (rr_netif_id route))))
        |> set_cx_src_ip_be (if netif_is_local_ip rt dst then dst else rr_source_ip_be route)
        |> set_cx_dst_ip_be src |> set_cx_next_hop_ip_be (rr_next_hop_be route) |> set_cx_ip_protocol IPPROTO_ICMP in
      let '(rc, rt) := send_ipv4 m' response rt in
      if truth rc then icmp_failed rt
      else alter_icmp (fun s => set_ie_generated (u64 (ie_generated s + 1)) s) rt
    end
  end.
End icmp_error.

#[global] Arguments take_token : simpl never.
#[global] Arguments icmp_error_allowed : simpl never.
#[global] Arguments icmp_error_bytes : simpl never.
#[global] Arguments send_ipv4 : simpl never.
#[global] Arguments icmp_send_error : simpl never.
