(* ===== verification/Resolution.v ===== *)
(** Neighbour resolution of [src/neighbour_resolution.c]: the queues of packets
    that wait for an ARP reply, their release, retry and timeout, the ARP request
    of [src/nodes/arp.c], and the administrative operations of
    [src/neighbour.c] that touch those queues. *)
From S2P Require Import Prelude.
From S2P Require Import Dpdk.
From S2P Require Import Types.
From S2P Require Import Netif.
From S2P Require Import Route.
From S2P Require Import Neighbour.
From S2P Require Import Graph.
From S2P Require Import Packet.
From S2P Require Import IcmpError.

(** [&rt->pending_neighbours.entries[i]]; an empty queue is an unused entry. *)
Definition pending_at (rt : app_runtime) (i : nat) : pending_neighbour :=
  nth i (rt_pending_neighbours rt) zero_pending_neighbour.
Definition set_pending (i : nat) (p : pending_neighbour) (rt : app_runtime) : app_runtime :=
  set_rt_pending_neighbours (<[i := p]> (rt_pending_neighbours rt)) rt.
Definition pending_count (p : pending_neighbour) : Z := Z.of_nat (length (pn_packets p)).
Definition pending_used (p : pending_neighbour) : bool := negb (pending_count p =? 0).
Definition pending_slots : list nat := seq 0 NEIGHBOUR_PENDING_MAX.

Section resolution.
Context `{!Dpdk}.
Context (submit : node_id -> node_frame -> app_runtime -> app_runtime).

Definition arp_request (port : port_state) (target_ip_be : Z) (rt : app_runtime) : app_runtime :=
  let '(m, rt) := mbuf_alloc rt in
  match m with
  | None => rt |> count_drops NODE_ARP_OUTPUT 1 |> count_errors NODE_ARP_OUTPUT 1
               |> count_reason (drop_index DROP_MBUF_ALLOCATION_FAILED) 1
  | Some m =>
    let ctx := zero_packet_ctx |> set_cx_egress_port_id (pt_port_id port) |> set_cx_next_hop_ip_be target_ip_be in
    match rt_active_output rt with
    | Some _ => enqueue NODE_ARP_OUTPUT m ctx rt
    | None => submit NODE_ARP_OUTPUT [(m, ctx)] rt
    end
  end.

(** The entry is emptied before its packets go back to the graph. *)
Definition release_pending (i : nat) (rt : app_runtime) : app_runtime :=
  let frame := pn_packets (pending_at rt i) in
  let rt := set_pending i zero_pending_neighbour rt in
  match rt_active_output rt with
  | Some _ => foldl (fun rt p => enqueue NODE_ETH_OUTPUT p.1 p.2 rt) rt frame
  | None => submit NODE_ETH_OUTPUT frame rt
  end.

Definition discard_pending (i : nat) (reason : drop_reason) (now : Z) (rt : app_runtime) : app_runtime :=
  let detached := pending_at rt i in
  let count := pending_count detached in
  let rt := set_pending i zero_pending_neighbour rt
    |> count_packets NODE_DROP count |> count_drops NODE_DROP count |> count_drops NODE_ETH_OUTPUT count
    |> count_reason (drop_index reason) count in
  foldl (fun rt p =>
    let rt := if bool_decide (reason = DROP_NEIGHBOUR_RESOLUTION_TIMEOUT) && cx_transit p.2
              then icmp_send_error submit p.1 p.2 3 1 0 now rt else rt in
    rt |> count_bytes NODE_DROP (rte_pktmbuf_pkt_len p.1) |> mbuf_free p.1) rt (pn_packets detached).

(** The scan for the entry of this next hop, or the first empty one. *)
Definition find_pending (rt : app_runtime) (netif_id ip : Z) : option nat :=
  let entries := rt_pending_neighbours rt in
  match find_index (fun p => pending_used p && (pn_netif_id p =? netif_id) && (pn_ip_be p =? ip)) entries with
  | Some i => Some i
  | None => find_index (fun p => negb (pending_used p)) entries
  end.

Definition neighbour_queue (netif_id : Z) (m : mbuf) (ctx : packet_ctx) (now : Z) (rt : app_runtime)
  : drop_reason * app_runtime :=
  match find_pending rt netif_id (cx_next_hop_ip_be ctx) with
  | None => (DROP_NEIGHBOUR_PENDING_FULL, rt)
  | Some i =>
    let pending := pending_at rt i in
    if pending_count pending =? Z.of_nat NEIGHBOUR_PENDING_QUEUE_MAX then (DROP_NEIGHBOUR_QUEUE_FULL, rt) else
    match netif_by_id rt netif_id with
    | None => (DROP_INVALID_EGRESS, rt)
    | Some port =>
      if negb (port_up port) || negb (pt_port_id port =? cx_egress_port_id ctx) then (DROP_INVALID_EGRESS, rt) else
      let first := negb (pending_used pending) in
      let pending := if first then
          pending |> set_pn_netif_id netif_id |> set_pn_ip_be (cx_next_hop_ip_be ctx) |> set_pn_requests 1
                  |> set_pn_last_request now
        else pending in
      let pending := set_pn_packets (pn_packets pending ++ [(m, set_cx_report_acceptance false ctx)]) pending in
      let rt := set_pending i pending rt in
      let rt := if cx_report_acceptance ctx then set_rt_accepted_sends (u64 (rt_accepted_sends rt + 1)) rt else rt in
      (DROP_NONE, if first then arp_request port (pn_ip_be pending) rt else rt)
    end
  end.

Definition neighbour_update (netif_id ip_be : Z) (mac : ether_addr) (rt : app_runtime) : Z * app_runtime :=
  let previous := neighbour_lookup (rt_neighbours rt) netif_id ip_be in
  let '(rc, table) := neighbour_learn (rt_neighbours rt) netif_id ip_be mac in
  let rt := set_rt_neighbours table rt in
  if truth rc then (rc, rt) else
  let rt :=
    match neighbour_lookup (rt_neighbours rt) netif_id ip_be with
    | Some current =>
      if match previous with None => true | Some p => negb (rte_is_same_ether_addr p current) end
      then admin_neighbour_event rt netif_id ip_be ADM_REPLACE else rt
    | None => rt
    end in
  (0, foldl (fun rt i =>
        let p := pending_at rt i in
        if pending_used p && (pn_netif_id p =? netif_id) && (pn_ip_be p =? ip_be) then release_pending i rt else rt)
      rt pending_slots).

(** One entry of [neighbour_tick]. *)
Definition tick_pending (now : Z) (rt : app_runtime) (i : nat) : app_runtime :=
  let p := pending_at rt i in
  if negb (pending_used p) then rt else
  match netif_by_id rt (pn_netif_id p) with
  | None => discard_pending i DROP_INVALID_EGRESS now rt
  | Some port =>
    if negb (port_up port) then discard_pending i DROP_INVALID_EGRESS now rt else
    match neighbour_lookup (rt_neighbours rt) (pn_netif_id p) (pn_ip_be p) with
    | Some _ => release_pending i rt
    | None =>
      if u64 (now - pn_last_request p) <? u64 (rte_get_timer_hz * ARP_RETRY_SECONDS) then rt else
      if pn_requests p =? ARP_MAX_REQUESTS then discard_pending i DROP_NEIGHBOUR_RESOLUTION_TIMEOUT now rt else
      let p := p |> set_pn_requests (u32 (pn_requests p + 1)) |> set_pn_last_request now in
      rt |> set_pending i p |> arp_request port (pn_ip_be p)
    end
  end.

Definition neighbour_tick (now : Z) (rt : app_runtime) : app_runtime := foldl (tick_pending now) rt pending_slots.

Definition neighbour_fini (rt : app_runtime) : app_runtime :=
  foldl (fun rt i => discard_pending i DROP_NEIGHBOUR_CANCELLED 0 rt) rt pending_slots.

Definition neighbour_cancel (dev ip : Z) (rt : app_runtime) : app_runtime :=
  foldl (fun rt i =>
    let p := pending_at rt i in
    if pending_used p && (pn_netif_id p =? dev) && (negb (truth ip) || (pn_ip_be p =? ip))
    then discard_pending i DROP_NEIGHBOUR_CANCELLED 0 rt else rt) rt pending_slots.

(** * Administrative operations *)

Definition neighbour_set (dev ip : Z) (mac : ether_addr) (replace : bool) (rt : app_runtime) : Z * app_runtime :=
  if match netif_by_id rt dev with Some _ => false | None => true end ||
     negb (ipv4_destination_valid rt ip) || negb (rte_is_valid_assigned_ether_addr mac) then (- EINVAL, rt) else
  let '(rc, table) := neighbour_store (rt_neighbours rt) dev ip mac replace in
  if truth rc then (rc, rt) else
  let rt := set_rt_neighbours table rt in
  let rt := admin_neighbour_event rt dev ip (if replace then ADM_REPLACE else ADM_ADD) in
  neighbour_update dev ip mac rt.

Definition neighbour_delete (dev ip : Z) (rt : app_runtime) : Z * app_runtime :=
  let '(rc, table) := neighbour_remove (rt_neighbours rt) dev ip in
  if truth rc then (rc, rt) else
  (0, set_rt_neighbours table rt |> (fun rt => admin_neighbour_event rt dev ip ADM_DEL) |> neighbour_cancel dev ip).
End resolution.

#[global] Arguments pending_at : simpl never.
#[global] Arguments arp_request : simpl never.
#[global] Arguments release_pending : simpl never.
#[global] Arguments discard_pending : simpl never.
#[global] Arguments find_pending : simpl never.
#[global] Arguments neighbour_queue : simpl never.
#[global] Arguments neighbour_update : simpl never.
#[global] Arguments tick_pending : simpl never.
