(* ===== verification/Sockets.v ===== *)
(** The socket table of [src/socket.c]: handles with slot and generation, port
    allocation and binding.  A pointer to an entry is its index in the table. *)
From S2P Require Import Prelude.
From S2P Require Import Dpdk.
From S2P Require Import Types.
From S2P Require Import Netif.

Definition sock (rt : app_runtime) (i : nat) : ps_socket_entry := nth i (ss_entries (rt_sockets rt)) zero_ps_socket_entry.
Definition alter_sock (i : nat) (f : ps_socket_entry -> ps_socket_entry) (rt : app_runtime) : app_runtime :=
  set_rt_sockets (set_ss_entries (alter f i (ss_entries (rt_sockets rt))) (rt_sockets rt)) rt.
(** [memset] of a whole entry. *)
Definition clear_sock (i : nat) (rt : app_runtime) : app_runtime := alter_sock i (fun _ => zero_ps_socket_entry) rt.

(** The entries a loop [for (i = 0; i < rt->sockets.capacity; i++)] visits. *)
Definition open_slots (rt : app_runtime) : list ps_socket_entry :=
  take (Z.to_nat (ss_capacity (rt_sockets rt))) (ss_entries (rt_sockets rt)).

Definition socket_subsystem_init (rt : app_runtime) : Z * app_runtime :=
  if truth (ss_capacity (rt_sockets rt)) then (- EBUSY, rt) else
  (0, rt |> set_rt_sockets (zero_socket_subsystem |> set_ss_next_port 49152 |> set_ss_capacity PS_SOCKET_MAX)
         |> set_rt_tcp_timer_next 0).

Definition socket_subsystem_fini (rt : app_runtime) : app_runtime := set_rt_sockets zero_socket_subsystem rt.

Definition socket_lookup (rt : app_runtime) (fd : Z) : option nat :=
  if fd <=? 0 then None else
  let slot := (fd - 1) mod PS_SOCKET_MAX in
  if ss_capacity (rt_sockets rt) <=? slot then None else
  let s := sock rt (Z.to_nat slot) in
  if so_allocated s && (so_fd s =? fd) then Some (Z.to_nat slot) else None.

Definition socket_allocate (rt : app_runtime) (type : Z) : option nat * app_runtime :=
  match find_index (fun s => negb (so_allocated s)) (open_slots rt) with
  | None => (None, rt)
  | Some i =>
    let n := Z.of_nat i in
    let generation := nth i (ss_generations (rt_sockets rt)) 0 in
    let fd := u32 (generation * PS_SOCKET_MAX + n + 1) in
    let next := if generation =? (INT_MAX - n - 1) / PS_SOCKET_MAX then 0 else u32 (generation + 1) in
    let rt := set_rt_sockets (set_ss_generations (<[i := next]> (ss_generations (rt_sockets rt))) (rt_sockets rt)) rt in
    (Some i, alter_sock i (fun _ => zero_ps_socket_entry |> set_so_fd (s32 fd) |> set_so_allocated true
                                      |> set_so_open true |> set_so_type (u8 type)) rt)
  end.

Definition socket_bound (rt : app_runtime) (type ip_be port : Z) : option nat :=
  if negb (truth port) then None else
  find_index (fun s => so_allocated s && (so_type s =? type) && (sa_port (so_local s) =? port) &&
    (negb (truth (sa_ip_be (so_local s))) || (sa_ip_be (so_local s) =? ip_be))) (open_slots rt).

Definition port_available (rt : app_runtime) (i : nat) (addr : ps_sockaddr) : bool :=
  let s := sock rt i in
  negb (existsb (fun '(k, other) =>
    negb (k =? Z.of_nat i) && so_allocated other && (so_type other =? so_type s) &&
    (sa_port (so_local other) =? sa_port addr) &&
    (negb (truth (sa_ip_be addr)) || negb (truth (sa_ip_be (so_local other))) ||
     (sa_ip_be addr =? sa_ip_be (so_local other)))) (indexed (open_slots rt))).

(** The 16384 attempts at an ephemeral port. *)
Definition EPHEMERAL_TRIES : nat := 16384.
Definition next_ephemeral (rt : app_runtime) : Z * app_runtime :=
  let port := ss_next_port (rt_sockets rt) in
  let next := u16 (port + 1) in
  (port, set_rt_sockets (set_ss_next_port (if next <? 49152 then 49152 else next) (rt_sockets rt)) rt).

Fixpoint ephemeral_port (tries : nat) (i : nat) (ip : Z) (rt : app_runtime) : option Z * app_runtime :=
  match tries with
  | O => (None, rt)
  | S tries' =>
    let '(port, rt) := next_ephemeral rt in
    if port_available rt i (mk_ps_sockaddr ip port) then (Some port, rt) else ephemeral_port tries' i ip rt
  end.

Definition socket_bind (i : nat) (addr : ps_sockaddr) (rt : app_runtime) : Z * app_runtime :=
  let s := sock rt i in
  if truth (sa_port (so_local s)) then (- EINVAL, rt) else
  if truth (sa_ip_be addr) && negb (netif_is_local_ip rt (sa_ip_be addr)) then (- EADDRNOTAVAIL, rt) else
  if negb (truth (sa_port addr)) then
    match ephemeral_port EPHEMERAL_TRIES i (sa_ip_be addr) rt with
    | (None, rt) => (- EADDRINUSE, rt)
    | (Some port, rt) =>
      if negb (truth port) then (- EADDRINUSE, rt) else
      (0, alter_sock i (set_so_local (mk_ps_sockaddr (sa_ip_be addr) port)) rt)
    end
  else if negb (port_available rt i addr) then (- EADDRINUSE, rt) else
  (0, alter_sock i (set_so_local addr) rt).

(** [static get]: an open socket. *)
Definition get_open (rt : app_runtime) (fd : Z) : option nat :=
  i ← socket_lookup rt fd; if so_open (sock rt i) then Some i else None.

#[global] Arguments sock : simpl never.
#[global] Arguments alter_sock : simpl never.
#[global] Arguments clear_sock : simpl never.
#[global] Arguments socket_lookup : simpl never.
#[global] Arguments socket_allocate : simpl never.
#[global] Arguments socket_bound : simpl never.
#[global] Arguments port_available : simpl never.
#[global] Arguments ephemeral_port : simpl never.
#[global] Arguments socket_bind : simpl never.
