(* ===== verification/Udp.v ===== *)
(** UDP endpoints of [src/udp.c]: the receive ring of a datagram socket and
    datagram transmission. *)
From S2P Require Import Prelude.
From S2P Require Import Dpdk.
From S2P Require Import Types.
From S2P Require Import Netif.
From S2P Require Import Route.
From S2P Require Import PolicyRoute.
From S2P Require Import Graph.
From S2P Require Import Packet.
From S2P Require Import Sockets.

(** * The receive ring *)

Definition ring_pos (n : Z) : nat := Z.to_nat (n mod PS_DGRAM_QUEUE_SIZE).

(** The store of [udp_deliver] into a ring that is not full. *)
Definition ring_store (source : ps_sockaddr) (payload : list Z) (ep : udp_endpoint) : udp_endpoint :=
  let datagram := mk_udp_datagram source (u16 (Z.of_nat (length payload))) payload in
  ep |> set_ud_queue (<[ring_pos (ud_head ep + ud_count ep) := datagram]> (ud_queue ep))
     |> set_ud_count (u16 (ud_count ep + 1)).

Definition udp_deliver (local_ip_be port : Z) (source : ps_sockaddr) (payload : list Z) (rt : app_runtime) : Z * app_runtime :=
  match socket_bound rt PS_SOCK_DGRAM local_ip_be port with
  | None => (- ENOENT, rt)
  | Some i =>
    let s := sock rt i in
    if truth (sa_port (so_remote s)) &&
       (negb (sa_port (so_remote s) =? sa_port source) || negb (sa_ip_be (so_remote s) =? sa_ip_be source))
    then (- ENOENT, rt) else
    if PS_DGRAM_MAX_PAYLOAD <? Z.of_nat (length payload) then (- EMSGSIZE, rt) else
    if ud_count (so_udp s) =? PS_DGRAM_QUEUE_SIZE then (- ENOBUFS, rt) else
    (0, alter_sock i (fun s => set_so_udp (ring_store source payload (so_udp s)) s) rt)
  end.

(** The datagram handed out: return code, bytes for [buf] and source. *)
Definition udp_recv (ep : udp_endpoint) (len : Z) : Z * option (list Z * ps_sockaddr) * udp_endpoint :=
  if negb (truth (ud_count ep)) then (- EAGAIN, None, ep) else
  let datagram := nth (Z.to_nat (ud_head ep)) (ud_queue ep) zero_udp_datagram in
  if len <? dg_length datagram then (- EMSGSIZE, None, ep) else
  (dg_length datagram, Some (take (Z.to_nat (dg_length datagram)) (dg_payload datagram), dg_source datagram),
   ep |> set_ud_head ((ud_head ep + 1) mod PS_DGRAM_QUEUE_SIZE) |> set_ud_count (u16 (ud_count ep - 1))).

(** * Transmission *)

Section udp_send.
Context `{!Dpdk}.
Context (submit : node_id -> node_frame -> app_runtime -> app_runtime).

Definition send_failure (reason : drop_reason) (error : Z) (rt : app_runtime) : Z * app_runtime :=
  (- error, rt |> count_drops NODE_UDP_OUTPUT 1 |> count_errors NODE_UDP_OUTPUT 1 |> count_reason (drop_index reason) 1).

Definition udp_send (i : nat) (buf : list Z) (destination : ps_sockaddr) (rt : app_runtime) : Z * app_runtime :=
  let len := Z.of_nat (length buf) in
  let local := so_local (sock rt i) in
  if PS_DGRAM_MAX_PAYLOAD <? len then send_failure DROP_MTU EMSGSIZE rt else
  let '(reason, route) := ipv4_route_query rt (sa_ip_be destination) (sa_ip_be local) NET_IIF_NONE zero_route_result in
  if bool_decide (reason = DROP_ROUTE_PROHIBIT) || bool_decide (reason = DROP_ROUTE_BLACKHOLE) ||
     bool_decide (reason = DROP_ROUTE_UNREACHABLE) then send_failure reason (ipv4_route_errno reason) rt else
  if bool_decide (reason = DROP_NONE) && (rr_mtu route <? len + sizeof_ipv4_hdr + sizeof_udp_hdr)
  then send_failure DROP_MTU EMSGSIZE rt else
  let '(m, rt) := mbuf_alloc rt in
  match m with
  | None => send_failure DROP_MBUF_ALLOCATION_FAILED ENOMEM rt
  | Some m =>
    match rte_pktmbuf_append m (u16 len) with
    | None => send_failure DROP_NO_TAILROOM ENOBUFS (mbuf_free m rt)
    | Some m' =>
      let m' := put_bytes (rte_pktmbuf_data_len m) buf m' in
      let ctx := zero_packet_ctx |> set_cx_src_port (sa_port local) |> set_cx_src_ip_be (sa_ip_be local)
        |> set_cx_dst_port (sa_port destination) |> set_cx_dst_ip_be (sa_ip_be destination)
        |> set_cx_ip_protocol IPPROTO_UDP |> set_cx_report_acceptance true in
      let accepted_before := rt_accepted_sends rt in
      let rt := submit NODE_IPV4_ROUTE [(m', ctx)] rt in
      (if negb (rt_accepted_sends rt =? accepted_before) then len else - EIO, rt)
    end
  end.
End udp_send.

#[global] Arguments ring_store : simpl never.
#[global] Arguments udp_deliver : simpl never.
#[global] Arguments udp_recv : simpl never.
#[global] Arguments send_failure : simpl never.
#[global] Arguments udp_send : simpl never.
