(* ===== verification/Tcp.v ===== *)
(** TCP of [src/tcp.c], [src/tcp_output.c] and [src/tcp_timer.c]: single-flight
    connections with copied byte buffers.  A buffer [rx] or [tx] is the list of
    its bytes; [rx_len] and [tx_len] are kept beside it at their width, as in the
    source. *)
From S2P Require Import Prelude.
From S2P Require Import Dpdk.
From S2P Require Import Types.
From S2P Require Import Netif.
From S2P Require Import Route.
From S2P Require Import PolicyRoute.
From S2P Require Import Graph.
From S2P Require Import Packet.
From S2P Require Import IcmpError.
From S2P Require Import Sockets.

(** * Helpers *)

Definition before (a b : Z) : bool := s32 (u32 (a - b)) <? 0.

Definition flag (flags bit : Z) : bool := truth (Z.land flags bit).

Definition alter_tcp (i : nat) (f : tcp_connection -> tcp_connection) (rt : app_runtime) : app_runtime :=
  alter_sock i (fun s => set_so_tcp (f (so_tcp s)) s) rt.
Definition conn (rt : app_runtime) (i : nat) : tcp_connection := so_tcp (sock rt i).
Definition in_state (c : tcp_connection) (st : tcp_state) : bool := bool_decide (tc_state c = st).

Definition alter_tcp_stats (f : tcp_stats -> tcp_stats) (rt : app_runtime) : app_runtime :=
  set_rt_tcp_stats (f (rt_tcp_stats rt)) rt.
Definition stat_sent (rt : app_runtime) := alter_tcp_stats (fun s => set_ts_sent (u64 (ts_sent s + 1)) s) rt.
Definition stat_output_failed (rt : app_runtime) := alter_tcp_stats (fun s => set_ts_output_failed (u64 (ts_output_failed s + 1)) s) rt.
Definition stat_closed (rt : app_runtime) := alter_tcp_stats (fun s => set_ts_closed (u64 (ts_closed s + 1)) s) rt.
Definition stat_resets (rt : app_runtime) := alter_tcp_stats (fun s => set_ts_resets (u64 (ts_resets s + 1)) s) rt.
Definition stat_syns (rt : app_runtime) := alter_tcp_stats (fun s => set_ts_syns (u64 (ts_syns s + 1)) s) rt.
Definition stat_established (rt : app_runtime) := alter_tcp_stats (fun s => set_ts_established (u64 (ts_established s + 1)) s) rt.
Definition stat_duplicate (rt : app_runtime) := alter_tcp_stats (fun s => set_ts_duplicate_acks (u64 (ts_duplicate_acks s + 1)) s) rt.
Definition stat_out_of_order (rt : app_runtime) := alter_tcp_stats (fun s => set_ts_out_of_order (u64 (ts_out_of_order s + 1)) s) rt.
Definition stat_timeouts (rt : app_runtime) := alter_tcp_stats (fun s => set_ts_timeouts (u64 (ts_timeouts s + 1)) s) rt.
Definition stat_retransmissions (rt : app_runtime) := alter_tcp_stats (fun s => set_ts_retransmissions (u64 (ts_retransmissions s + 1)) s) rt.

(** * Demultiplexing *)

Definition connection (rt : app_runtime) (local remote : ps_sockaddr) : option nat :=
  find_index (fun s => so_allocated s && (so_type s =? PS_SOCK_STREAM) && negb (in_state (so_tcp s) TCP_CLOSED) &&
    negb (in_state (so_tcp s) TCP_LISTEN) && (sa_ip_be (so_local s) =? sa_ip_be local) &&
    (sa_port (so_local s) =? sa_port local) && (sa_ip_be (so_remote s) =? sa_ip_be remote) &&
    (sa_port (so_remote s) =? sa_port remote)) (open_slots rt).

Definition listener (rt : app_runtime) (local : ps_sockaddr) : option nat :=
  find_index (fun s => so_allocated s && so_open s && (so_type s =? PS_SOCK_STREAM) && in_state (so_tcp s) TCP_LISTEN &&
    (sa_port (so_local s) =? sa_port local) &&
    (negb (truth (sa_ip_be (so_local s))) || (sa_ip_be (so_local s) =? sa_ip_be local))) (open_slots rt).

Section tcp.
Context `{!Dpdk}.

(** * Connection bookkeeping *)

Definition start_flight (flags length now : Z) (c : tcp_connection) : tcp_connection :=
  let rto := u64 rte_get_timer_hz in
  c |> set_tc_flight_flags flags |> set_tc_flight_len length
    |> set_tc_snd_nxt (u32 (tc_snd_una c + length + b2z (flag flags (Z.lor RTE_TCP_SYN_FLAG RTE_TCP_FIN_FLAG))))
    |> set_tc_rto rto |> set_tc_deadline (u64 (now + rto)) |> set_tc_retries 0.

Definition initialize (i : nat) (now : Z) (rt : app_runtime) : app_runtime :=
  let '(r, rt) := rte_rand rt in
  let iss := Z.lxor (u32 r) (u32 now) in
  alter_tcp i (fun c => c |> set_tc_snd_una iss |> set_tc_snd_nxt iss |> set_tc_mss 536 |> set_tc_peer_window UINT16_MAX) rt.

(** A queued segment of the connection being cancelled. *)
Definition queued_for (s : ps_socket_entry) (p : mbuf * packet_ctx) : bool :=
  (cx_ip_protocol p.2 =? IPPROTO_TCP) && (cx_src_ip_be p.2 =? sa_ip_be (so_local s)) &&
  (cx_dst_ip_be p.2 =? sa_ip_be (so_remote s)) && (cx_src_port p.2 =? sa_port (so_local s)) &&
  (cx_dst_port p.2 =? sa_port (so_remote s)).

Definition cancel_pending (s : ps_socket_entry) (rt : app_runtime) (i : nat) : app_runtime :=
  let pending := nth i (rt_pending_neighbours rt) zero_pending_neighbour in
  let rt := foldl (fun rt p =>
    if queued_for s p then
      rt |> count_packets NODE_DROP 1 |> count_drops NODE_DROP 1 |> count_bytes NODE_DROP (rte_pktmbuf_pkt_len p.1)
         |> count_drops NODE_ETH_OUTPUT 1 |> count_reason (drop_index DROP_NEIGHBOUR_CANCELLED) 1 |> mbuf_free p.1
    else rt) rt (pn_packets pending) in
  let keep := List.filter (fun p => negb (queued_for s p)) (pn_packets pending) in
  let pending := if Nat.eqb (length keep) 0 then zero_pending_neighbour else set_pn_packets keep pending in
  set_rt_pending_neighbours (<[i := pending]> (rt_pending_neighbours rt)) rt.

Definition cancel_queued (s : ps_socket_entry) (rt : app_runtime) : app_runtime :=
  foldl (cancel_pending s) rt (seq 0 NEIGHBOUR_PENDING_MAX).

Definition tcp_fail (i : nat) (error : Z) (rt : app_runtime) : app_runtime :=
  let s := sock rt i in
  let rt := if negb (in_state (so_tcp s) TCP_CLOSED) then rt |> cancel_queued s |> stat_closed else rt in
  if negb (so_open s) then clear_sock i rt else
  alter_sock i (fun s => s |> set_so_error error |> set_so_tcp zero_tcp_connection) rt.

Definition tcp_time_wait (now : Z) (c : tcp_connection) : tcp_connection :=
  c |> set_tc_state TCP_TIME_WAIT |> set_tc_flight_flags 0 |> set_tc_deadline 0
    |> set_tc_expires (u64 (now + TCP_TIME_WAIT_SECONDS * rte_get_timer_hz)).

(** * Output *)

Context (submit : node_id -> node_frame -> app_runtime -> app_runtime).

(** The segment without its checksum. *)
Definition tcp_segment (local remote : ps_sockaddr) (seq ack flags window mtu : Z) (data : list Z) : list Z :=
  let syn := flag flags RTE_TCP_SYN_FLAG in
  let header_len := sizeof_tcp_hdr + (if syn then 4 else 0) in
  be16 (sa_port local) ++ be16 (sa_port remote) ++ be32 seq ++ be32 ack ++
  [u8 (Z.shiftl (header_len / 4) 4); flags] ++ be16 window ++ [0; 0; 0; 0] ++
  (if syn then [2; 4] ++ be16 (u16 (mtu - 40)) else []) ++ data.

Definition tcp_emit (local remote : ps_sockaddr) (seq ack flags window : Z) (data : list Z) (rt : app_runtime)
  : Z * app_runtime :=
  let length := Z.of_nat (List.length data) in
  let '(reason, route) := ipv4_route_query rt (sa_ip_be remote) (sa_ip_be local) NET_IIF_NONE zero_route_result in
  if negb (bool_decide (reason = DROP_NONE)) then (- ipv4_route_errno reason, stat_output_failed rt) else
  let header_len := sizeof_tcp_hdr + (if flag flags RTE_TCP_SYN_FLAG then 4 else 0) in
  if rr_mtu route <? 20 + header_len + length then (- EMSGSIZE, stat_output_failed rt) else
  let '(m, rt) := mbuf_alloc rt in
  match m with
  | None => (- ENOMEM, stat_output_failed rt)
  | Some m =>
    match rte_pktmbuf_append m (header_len + length) with
    | None => (- ENOBUFS, rt |> mbuf_free m |> stat_output_failed)
    | Some m' =>
      let segment := tcp_segment local remote seq ack flags window (rr_mtu route) data in
      let pseudo := pseudo_header (u16 (20 + header_len + length)) IPPROTO_TCP (sa_ip_be local) (sa_ip_be remote) in
      let segment := write_at segment 16 (le16 (rte_ipv4_udptcp_cksum pseudo segment)) in
      let m' := put_bytes (rte_pktmbuf_data_len m) segment m' in
      let ctx := zero_packet_ctx
        |> set_cx_egress_port_id (pt_port_id (default zero_port_state (netif_by_id rt (rr_netif_id route))))
        |> set_cx_src_ip_be (sa_ip_be local) |> set_cx_dst_ip_be (sa_ip_be remote)
        |> set_cx_next_hop_ip_be (rr_next_hop_be route) |> set_cx_src_port (sa_port local)
        |> set_cx_dst_port (sa_port remote) |> set_cx_ip_protocol IPPROTO_TCP in
      let '(rc, rt) := send_ipv4 submit m' ctx rt in
      if truth rc then (- ENOBUFS, stat_output_failed rt) else (0, stat_sent rt)
    end
  end.

Definition rx_window (c : tcp_connection) : Z := u16 (TCP_BUFFER_SIZE - tc_rx_len c).

Definition tcp_emit_flight (i : nat) (rt : app_runtime) : app_runtime :=
  let s := sock rt i in let c := so_tcp s in
  (tcp_emit (so_local s) (so_remote s) (tc_snd_una c) (tc_rcv_nxt c) (tc_flight_flags c) (rx_window c)
    (take (Z.to_nat (tc_flight_len c)) (tc_tx c)) rt).2.

Definition tcp_ack (i : nat) (rt : app_runtime) : app_runtime :=
  let s := sock rt i in let c := so_tcp s in
  (tcp_emit (so_local s) (so_remote s) (tc_snd_nxt c) (tc_rcv_nxt c) RTE_TCP_ACK_FLAG (rx_window c) [] rt).2.

Definition tcp_kick (i : nat) (now : Z) (rt : app_runtime) : app_runtime :=
  let s := sock rt i in let c := so_tcp s in
  if truth (tc_flight_flags c) || (negb (in_state c TCP_ESTABLISHED) && negb (in_state c TCP_CLOSE_WAIT)) then rt else
  if negb (truth (tc_peer_window c)) && (truth (tc_tx_len c) || tc_closing c) then
    if negb (truth (tc_deadline c)) then
      let rto := u64 rte_get_timer_hz in
      alter_tcp i (fun c => c |> set_tc_rto rto |> set_tc_deadline (u64 (now + rto)) |> set_tc_retries 0) rt
    else rt
  else if truth (tc_tx_len c) then
    let '(reason, route) :=
      ipv4_route_query rt (sa_ip_be (so_remote s)) (sa_ip_be (so_local s)) NET_IIF_NONE zero_route_result in
    if negb (bool_decide (reason = DROP_NONE)) || (rr_mtu route <=? 40) then tcp_fail i (ipv4_route_errno reason) rt else
    let length := Z.min (tc_tx_len c) (Z.min (tc_peer_window c) (Z.min (tc_mss c) (rr_mtu route - 40))) in
    rt |> alter_tcp i (start_flight (Z.lor RTE_TCP_ACK_FLAG RTE_TCP_PSH_FLAG) length now) |> tcp_emit_flight i
  else if tc_closing c then
    rt |> alter_tcp i (fun c => set_tc_state (if in_state c TCP_CLOSE_WAIT then TCP_LAST_ACK else TCP_FIN_WAIT_1) c)
       |> alter_tcp i (start_flight (Z.lor RTE_TCP_FIN_FLAG RTE_TCP_ACK_FLAG) 0 now) |> tcp_emit_flight i
  else rt.

(** * Socket operations *)

Definition tcp_connect (i : nat) (addr : ps_sockaddr) (rt : app_runtime) : Z * app_runtime :=
  let s := sock rt i in let c := so_tcp s in
  if truth (so_error s) then (- so_error s, rt) else
  if in_state c TCP_SYN_SENT || in_state c TCP_SYN_RECEIVED then (- EALREADY, rt) else
  if negb (in_state c TCP_CLOSED) then ((if in_state c TCP_LISTEN then - EINVAL else - EISCONN), rt) else
  let '(reason, route) := ipv4_route_query rt (sa_ip_be addr) (sa_ip_be (so_local s)) NET_IIF_NONE zero_route_result in
  if negb (bool_decide (reason = DROP_NONE)) || (rr_mtu route <? 44) then (- ipv4_route_errno reason, rt) else
  let '(rc, rt) := if truth (sa_port (so_local s)) then (0, rt) else socket_bind i zero_ps_sockaddr rt in
  if truth rc then (rc, rt) else
  let rt := alter_sock i (fun s => if truth (sa_ip_be (so_local s)) then s else
    set_so_local (set_sa_ip_be (rr_source_ip_be route) (so_local s)) s) rt in
  let rt := alter_sock i (set_so_remote addr) rt in
  let '(now, rt) := timer_cycles rt in
  let rt := rt |> initialize i now |> alter_tcp i (set_tc_state TCP_SYN_SENT)
               |> alter_tcp i (start_flight RTE_TCP_SYN_FLAG 0 now) |> tcp_emit_flight i in
  (- EINPROGRESS, rt).

Definition tcp_listen (i : nat) (backlog : Z) (rt : app_runtime) : Z * app_runtime :=
  let s := sock rt i in
  if (backlog <=? 0) || negb (truth (sa_port (so_local s))) then (- EINVAL, rt) else
  if negb (in_state (so_tcp s) TCP_CLOSED) && negb (in_state (so_tcp s) TCP_LISTEN) then (- EINVAL, rt) else
  (0, alter_tcp i (fun c => c |> set_tc_backlog (Z.min backlog (PS_SOCKET_MAX - 1)) |> set_tc_state TCP_LISTEN) rt).

(** The peer address is part of the answer. *)
Definition tcp_accept (i : nat) (rt : app_runtime) : Z * option ps_sockaddr * app_runtime :=
  let s := sock rt i in
  if negb (in_state (so_tcp s) TCP_LISTEN) then (- EINVAL, None, rt) else
  match find_index (fun child => so_allocated child && (so_type child =? PS_SOCK_STREAM) &&
          (tc_parent (so_tcp child) =? so_fd s) &&
          (in_state (so_tcp child) TCP_ESTABLISHED || in_state (so_tcp child) TCP_CLOSE_WAIT)) (open_slots rt) with
  | None => (- EAGAIN, None, rt)
  | Some k =>
    let child := sock rt k in
    (so_fd child, Some (so_remote child),
     rt |> alter_sock k (set_so_open true) |> alter_tcp k (fun c => c |> set_tc_parent 0 |> set_tc_expires 0))
  end.

(** One child of a listener being closed. *)
Definition abort_child (fd : Z) (rt : app_runtime) (k : nat) : app_runtime :=
  let child := sock rt k in
  if negb (so_allocated child) || negb (so_type child =? PS_SOCK_STREAM) || negb (tc_parent (so_tcp child) =? fd) then rt else
  let rt := tcp_fail k ECONNRESET rt in
  (tcp_emit (so_local child) (so_remote child) (tc_snd_nxt (so_tcp child)) (tc_rcv_nxt (so_tcp child))
    (Z.lor RTE_TCP_RST_FLAG RTE_TCP_ACK_FLAG) 0 [] rt).2.

Definition tcp_close (i : nat) (now : Z) (rt : app_runtime) : app_runtime :=
  let rt := alter_sock i (set_so_open false) rt in
  let s := sock rt i in let c := so_tcp s in
  if in_state c TCP_LISTEN then
    foldl (abort_child (so_fd s)) rt (seq 0 (Z.to_nat (ss_capacity (rt_sockets rt)))) |> clear_sock i
  else if in_state c TCP_CLOSED || in_state c TCP_SYN_SENT || in_state c TCP_SYN_RECEIVED then tcp_fail i ECONNABORTED rt
  else rt |> alter_tcp i (set_tc_closing true) |> tcp_kick i now.

Definition tcp_send (i : nat) (data : list Z) (rt : app_runtime) : Z * app_runtime :=
  let s := sock rt i in let c := so_tcp s in
  let length := Z.of_nat (List.length data) in
  if truth (so_error s) then (- so_error s, rt) else
  if negb (in_state c TCP_ESTABLISHED) && negb (in_state c TCP_CLOSE_WAIT) then (- ENOTCONN, rt) else
  if negb (truth length) then (0, rt) else
  let accepted := Z.min length (TCP_BUFFER_SIZE - tc_tx_len c) in
  if negb (truth accepted) then (- EAGAIN, rt) else
  let rt := alter_tcp i (fun c => c
    |> set_tc_tx (take (Z.to_nat (tc_tx_len c)) (tc_tx c) ++ take (Z.to_nat accepted) data)
    |> set_tc_tx_len (u16 (tc_tx_len c + accepted))) rt in
  let '(now, rt) := timer_cycles rt in
  let rt := tcp_kick i now rt in
  ((if truth (so_error (sock rt i)) then - so_error (sock rt i) else accepted), rt).

(** Return code and the bytes copied to the caller. *)
Definition tcp_recv (i : nat) (length : Z) (rt : app_runtime) : Z * list Z * app_runtime :=
  let s := sock rt i in let c := so_tcp s in
  if negb (truth length) then (0, [], rt) else
  if negb (truth (tc_rx_len c)) then
    if truth (so_error s) then (- so_error s, [], rt) else
    if tc_peer_fin c then (0, [], rt) else
    ((if in_state c TCP_ESTABLISHED then - EAGAIN else - ENOTCONN), [], rt)
  else
  let received := Z.min length (tc_rx_len c) in
  let rest := u16 (tc_rx_len c - received) in
  let rt := alter_tcp i (fun c => c |> set_tc_rx_len rest
    |> set_tc_rx (take (Z.to_nat rest) (drop (Z.to_nat received) (tc_rx c)))) rt in
  (received, take (Z.to_nat received) (tc_rx c), tcp_ack i rt).

(** * Segment arrival *)

Definition reset_reply (local remote : ps_sockaddr) (seq ack flags length : Z) (rt : app_runtime) : app_runtime :=
  if flag flags RTE_TCP_RST_FLAG then rt else
  let acked := flag flags RTE_TCP_ACK_FLAG in
  let response := if acked then RTE_TCP_RST_FLAG else Z.lor RTE_TCP_RST_FLAG RTE_TCP_ACK_FLAG in
  let response_seq := if acked then ack else 0 in
  let response_ack := if acked then 0 else
    u32 (seq + length + b2z (flag flags RTE_TCP_SYN_FLAG) + b2z (flag flags RTE_TCP_FIN_FLAG)) in
  (tcp_emit local remote response_seq response_ack response 0 [] rt).2 |> stat_resets.

Definition passive_open (listen : nat) (local remote : ps_sockaddr) (seq window mss now : Z) (rt : app_runtime)
  : drop_reason * app_runtime :=
  let l := sock rt listen in
  let pending := Z.of_nat (length (List.filter (fun s => so_allocated s && (so_type s =? PS_SOCK_STREAM) &&
    (tc_parent (so_tcp s) =? so_fd l)) (open_slots rt))) in
  if tc_backlog (so_tcp l) <=? pending then (DROP_TCP_BACKLOG_FULL, rt) else
  let '(i, rt) := socket_allocate rt PS_SOCK_STREAM in
  match i with
  | None => (DROP_TCP_BACKLOG_FULL, rt)
  | Some i =>
    let rt := rt
      |> alter_sock i (fun s => s |> set_so_open false |> set_so_owner (so_owner l) |> set_so_local local |> set_so_remote remote)
      |> initialize i now
      |> alter_tcp i (fun c => c |> set_tc_parent (so_fd l) |> set_tc_state TCP_SYN_RECEIVED |> set_tc_rcv_nxt (u32 (seq + 1))
           |> set_tc_peer_window window |> set_tc_mss mss |> set_tc_snd_wl1 seq)
      |> alter_tcp i (start_flight (Z.lor RTE_TCP_SYN_FLAG RTE_TCP_ACK_FLAG) 0 now)
      |> tcp_emit_flight i in
    (DROP_NONE, stat_syns rt)
  end.

(** The connection's own part of [acknowledge], for an acknowledgment that
    advances; the flags of a completed flight are returned. *)
Definition acknowledge_flight (ack now : Z) (c : tcp_connection) : option Z * tcp_connection :=
  let bytes := u32 (ack - tc_snd_una c) in
  let c := if truth (tc_flight_len c) then
      let tx_len := u16 (tc_tx_len c - bytes) in
      c |> set_tc_tx_len tx_len |> set_tc_flight_len (u16 (tc_flight_len c - bytes))
        |> set_tc_tx (take (Z.to_nat tx_len) (drop (Z.to_nat bytes) (tc_tx c)))
    else c in
  let c := c |> set_tc_snd_una ack |> set_tc_deadline (u64 (now + tc_rto c)) in
  if negb (ack =? tc_snd_nxt c) then (None, c) else
  (Some (tc_flight_flags c), c |> set_tc_flight_flags 0 |> set_tc_deadline 0 |> set_tc_retries 0).

Definition acknowledge (i : nat) (ack now : Z) (rt : app_runtime) : app_runtime :=
  if negb (before (tc_snd_una (conn rt i)) ack) then stat_duplicate rt else
  let '(flags, c) := acknowledge_flight ack now (conn rt i) in
  let rt := alter_tcp i (fun _ => c) rt in
  match flags with
  | None => rt
  | Some flags =>
    if flag flags RTE_TCP_FIN_FLAG then
      if in_state c TCP_LAST_ACK then tcp_fail i 0 rt else
      if tc_peer_fin c then alter_tcp i (tcp_time_wait now) rt else
      alter_tcp i (fun c => c |> set_tc_state TCP_FIN_WAIT_2
        |> set_tc_expires (u64 (now + TCP_FIN_WAIT_SECONDS * rte_get_timer_hz))) rt
    else rt
  end.

(** The reply to a segment in [TCP_SYN_SENT]. *)
Definition input_syn_sent (i : nat) (local remote : ps_sockaddr) (seq ack window flags length mss : Z) (rt : app_runtime)
  : drop_reason * app_runtime :=
  let c := conn rt i in
  if flag flags RTE_TCP_ACK_FLAG && negb (ack =? tc_snd_nxt c) then
    (DROP_TCP_INVALID_STATE, reset_reply local remote seq ack flags length rt) else
  if flag flags RTE_TCP_RST_FLAG then
    (DROP_NONE, if flag flags RTE_TCP_ACK_FLAG then tcp_fail i ECONNREFUSED rt else rt) else
  if negb (Z.land flags (Z.lor RTE_TCP_SYN_FLAG RTE_TCP_ACK_FLAG) =? Z.lor RTE_TCP_SYN_FLAG RTE_TCP_ACK_FLAG)
  then (DROP_TCP_INVALID_STATE, rt) else
  (DROP_NONE, rt
    |> alter_tcp i (fun c => c |> set_tc_rcv_nxt (u32 (seq + 1)) |> set_tc_snd_una ack |> set_tc_flight_flags 0
         |> set_tc_deadline 0 |> set_tc_mss mss |> set_tc_peer_window window |> set_tc_snd_wl1 seq |> set_tc_snd_wl2 ack
         |> set_tc_state TCP_ESTABLISHED)
    |> stat_established |> tcp_ack i).

(** The send window update. *)
Definition update_window (seq ack window : Z) (c : tcp_connection) : tcp_connection :=
  if negb (before seq (tc_snd_wl1 c)) && (negb (seq =? tc_snd_wl1 c) || negb (before ack (tc_snd_wl2 c)))
  then c |> set_tc_peer_window window |> set_tc_snd_wl1 seq |> set_tc_snd_wl2 ack else c.

(** How many payload bytes fit, and the connection with them buffered. *)
Definition accept_payload (payload : list Z) (c : tcp_connection) : Z * tcp_connection :=
  let received := Z.min (Z.of_nat (length payload)) (TCP_BUFFER_SIZE - tc_rx_len c) in
  (received, c |> set_tc_rx (take (Z.to_nat (tc_rx_len c)) (tc_rx c) ++ take (Z.to_nat received) payload)
    |> set_tc_rx_len (u16 (tc_rx_len c + received)) |> set_tc_rcv_nxt (u32 (tc_rcv_nxt c + received))).

Definition accept_fin (now : Z) (c : tcp_connection) : tcp_connection :=
  let c := c |> set_tc_peer_fin true |> set_tc_rcv_nxt (u32 (tc_rcv_nxt c + 1)) in
  if in_state c TCP_ESTABLISHED then set_tc_state TCP_CLOSE_WAIT c else
  if in_state c TCP_FIN_WAIT_2 then tcp_time_wait now c else c.

(** The data and FIN part of [tcp_input], after the acknowledgment. *)
Definition input_data (i : nat) (seq ack window flags : Z) (payload : list Z) (now : Z) (rt : app_runtime)
  : drop_reason * app_runtime :=
  let length := Z.of_nat (List.length payload) in
  let rt := alter_tcp i (update_window seq ack window) rt in
  let '(received, rt) :=
    if negb (tc_peer_fin (conn rt i)) && truth length then
      let '(received, c) := accept_payload payload (conn rt i) in (received, alter_tcp i (fun _ => c) rt)
    else (length, rt) in
  if negb (received =? length) then (DROP_NONE, rt |> tcp_ack i |> tcp_kick i now) else
  let rt := if negb (tc_peer_fin (conn rt i)) && flag flags RTE_TCP_FIN_FLAG && (tc_rx_len (conn rt i) <? TCP_BUFFER_SIZE)
            then alter_tcp i (accept_fin now) rt else rt in
  let rt := if truth length || flag flags RTE_TCP_FIN_FLAG then tcp_ack i rt else rt in
  (DROP_NONE, tcp_kick i now rt).

(** [tcp_input] for a connection past [TCP_SYN_SENT]. *)
Definition input_synchronized (i : nat) (local remote : ps_sockaddr) (seq ack window flags : Z) (payload : list Z)
  (now : Z) (rt : app_runtime) : drop_reason * app_runtime :=
  let c := conn rt i in
  let length := Z.of_nat (List.length payload) in
  if in_state c TCP_SYN_RECEIVED && flag flags RTE_TCP_SYN_FLAG && (u32 (seq + 1) =? tc_rcv_nxt c)
  then (DROP_NONE, tcp_emit_flight i rt) else
  if in_state c TCP_TIME_WAIT then
    (DROP_NONE, if flag flags RTE_TCP_RST_FLAG then rt else
      let rt := tcp_ack i rt in
      if flag flags RTE_TCP_FIN_FLAG && (u32 (seq + length + 1) =? tc_rcv_nxt (conn rt i))
      then alter_tcp i (tcp_time_wait now) rt else rt) else
  if negb (seq =? tc_rcv_nxt c) then
    let rt := if negb (flag flags RTE_TCP_RST_FLAG) then tcp_ack i rt else
      if negb (before seq (tc_rcv_nxt c)) && before seq (u32 (tc_rcv_nxt c + TCP_BUFFER_SIZE - tc_rx_len c))
      then tcp_ack i rt else rt in
    (DROP_TCP_OUT_OF_ORDER, stat_out_of_order rt) else
  if flag flags RTE_TCP_RST_FLAG then (DROP_NONE, rt |> stat_resets |> tcp_fail i ECONNRESET) else
  if flag flags RTE_TCP_SYN_FLAG then (DROP_TCP_INVALID_STATE, tcp_ack i rt) else
  if (truth length || flag flags RTE_TCP_FIN_FLAG) && (tc_rx_len c =? TCP_BUFFER_SIZE)
  then (DROP_TCP_OUT_OF_ORDER, tcp_ack i rt) else
  if negb (flag flags RTE_TCP_ACK_FLAG) then (DROP_TCP_INVALID_STATE, rt) else
  if before (tc_snd_nxt c) ack then (DROP_TCP_INVALID_STATE, tcp_ack i rt) else
  if in_state c TCP_SYN_RECEIVED && negb (ack =? tc_snd_nxt c)
  then (DROP_TCP_INVALID_STATE, reset_reply local remote seq ack flags length rt) else
  let rt := if in_state c TCP_SYN_RECEIVED then
      rt |> alter_tcp i (fun c => c |> set_tc_state TCP_ESTABLISHED |> set_tc_expires (u64 (now + 60 * rte_get_timer_hz)))
         |> stat_established
    else rt in
  let rt := acknowledge i ack now rt in
  if negb (so_allocated (sock rt i)) || in_state (conn rt i) TCP_CLOSED then (DROP_NONE, rt) else
  input_data i seq ack window flags payload now rt.

(** [o] is the offset of the TCP header in [m]. *)
Definition tcp_input (ctx : packet_ctx) (m : mbuf) (o header_len length mss now : Z) (rt : app_runtime)
  : drop_reason * app_runtime :=
  let local := mk_ps_sockaddr (cx_dst_ip_be ctx) (be16_in m (o + 2)) in
  let remote := mk_ps_sockaddr (cx_src_ip_be ctx) (be16_in m o) in
  if negb (ipv4_destination_valid rt (sa_ip_be remote)) then (DROP_INVALID_SOURCE, rt) else
  let seq := be32_in m (o + 4) in
  let ack := be32_in m (o + 8) in
  let window := be16_in m (o + 14) in
  let flags := byte_in m (o + 13) in
  match connection rt local remote with
  | None =>
    match listener rt local with
    | Some listen =>
      if negb (flag flags RTE_TCP_RST_FLAG) && negb (flag flags RTE_TCP_ACK_FLAG) && flag flags RTE_TCP_SYN_FLAG
      then passive_open listen local remote seq window mss now rt
      else (DROP_TCP_NO_SOCKET, reset_reply local remote seq ack flags length rt)
    | None => (DROP_TCP_NO_SOCKET, reset_reply local remote seq ack flags length rt)
    end
  | Some i =>
    if in_state (conn rt i) TCP_SYN_SENT then input_syn_sent i local remote seq ack window flags length mss rt else
    input_synchronized i local remote seq ack window flags (bytes_in m (o + header_len) length) now rt
  end.

(** * Timers *)

Definition tick_socket (now : Z) (rt : app_runtime) (i : nat) : app_runtime :=
  let s := sock rt i in let c := so_tcp s in
  if negb (so_allocated s) || negb (so_type s =? PS_SOCK_STREAM) then rt else
  if truth (tc_expires c) && (tc_expires c <=? now) then
    let rt := if in_state c TCP_TIME_WAIT then rt else stat_timeouts rt in
    tcp_fail i (if in_state c TCP_TIME_WAIT then 0 else ETIMEDOUT) rt else
  if negb (truth (tc_deadline c)) || (now <? tc_deadline c) then rt else
  if tc_retries c =? TCP_MAX_RETRIES then rt |> stat_timeouts |> tcp_fail i ETIMEDOUT else
  let again rt := alter_tcp i (fun c =>
      let rto := Z.min (u64 (tc_rto c * 2)) (u64 (60 * rte_get_timer_hz)) in
      c |> set_tc_retries (u8 (tc_retries c + 1)) |> set_tc_rto rto |> set_tc_deadline (u64 (now + rto))) rt in
  if truth (tc_flight_flags c) then rt |> tcp_emit_flight i |> stat_retransmissions |> again else
  if (truth (tc_tx_len c) || tc_closing c) && negb (truth (tc_peer_window c)) then
    (tcp_emit (so_local s) (so_remote s) (u32 (tc_snd_nxt c - 1)) (tc_rcv_nxt c) RTE_TCP_ACK_FLAG (rx_window c) [] rt).2
      |> again
  else alter_tcp i (set_tc_deadline 0) rt.

Definition tcp_tick (now : Z) (rt : app_runtime) : app_runtime :=
  foldl (tick_socket now) rt (seq 0 (Z.to_nat (ss_capacity (rt_sockets rt)))).

Definition tcp_timer_progress (now : Z) (rt : app_runtime) : app_runtime :=
  if now <? rt_tcp_timer_next rt then rt else
  rt |> set_rt_tcp_timer_next (u64 (now + Z.max 1 (rte_get_timer_hz / 1000))) |> tcp_tick now.
End tcp.

#[global] Arguments before : simpl never.
#[global] Arguments flag : simpl never.
#[global] Arguments alter_tcp : simpl never.
#[global] Arguments connection : simpl never.
#[global] Arguments listener : simpl never.
#[global] Arguments start_flight : simpl never.
#[global] Arguments initialize : simpl never.
#[global] Arguments cancel_queued : simpl never.
#[global] Arguments tcp_fail : simpl never.
#[global] Arguments tcp_emit : simpl never.
#[global] Arguments tcp_emit_flight : simpl never.
#[global] Arguments tcp_ack : simpl never.
#[global] Arguments tcp_kick : simpl never.
#[global] Arguments reset_reply : simpl never.
#[global] Arguments passive_open : simpl never.
#[global] Arguments acknowledge : simpl never.
#[global] Arguments acknowledge_flight : simpl never.
#[global] Arguments tcp_input : simpl never.
#[global] Arguments tick_socket : simpl never.
