(* ===== verification/Nodes.v ===== *)
(** The node functions of [src/nodes/] and the runtime loop of [src/runtime.c]
    that feeds them.  A node function runs over the packets of its frame in
    order; [out] is the active output of the runtime, so the functions take and
    return the runtime only.  A packet is rewritten in place in the source; here
    the rewritten buffer is what is handed on.  A pointer that the source uses
    without a test ([netif_by_id(...)->port_id]) reads a zeroed port when the
    lookup fails. *)
From S2P Require Import Prelude.
From S2P Require Import Dpdk.
From S2P Require Import Types.
From S2P Require Import Netif.
From S2P Require Import Route.
From S2P Require Import NetConfig.
From S2P Require Import PolicyRoute.
From S2P Require Import Neighbour.
From S2P Require Import Graph.
From S2P Require Import Packet.
From S2P Require Import IcmpError.
From S2P Require Import Resolution.
From S2P Require Import Sockets.
From S2P Require Import Udp.
From S2P Require Import Tcp.

(** * Helpers *)

Definition alter_port (i : nat) (f : port_state -> port_state) (rt : app_runtime) : app_runtime :=
  set_rt_ports (alter f i (rt_ports rt)) rt.

Definition port_of (o : option port_state) : port_state := default zero_port_state o.

(** A port lookup followed by the administrative tests. *)
Definition ingress_port (rt : app_runtime) (ctx : packet_ctx) : option port_state :=
  match netif_by_dpdk_port rt (cx_ingress_port_id ctx) with
  | Some p => if pt_admin_down p then None else Some p
  | None => None
  end.
Definition egress_port (rt : app_runtime) (ctx : packet_ctx) : option port_state :=
  match netif_by_dpdk_port rt (cx_egress_port_id ctx) with
  | Some p => if port_up p then Some p else None
  | None => None
  end.

(** ** ARP header, at offset [o] *)
Definition RTE_ARP_HRD_ETHER : Z := 1.
Definition RTE_ARP_OP_REQUEST : Z := 1.
Definition RTE_ARP_OP_REPLY : Z := 2.
Definition arp_hardware (m : mbuf) (o : Z) : Z := be16_in m o.
Definition arp_protocol (m : mbuf) (o : Z) : Z := be16_in m (o + 2).
Definition arp_hlen (m : mbuf) (o : Z) : Z := byte_in m (o + 4).
Definition arp_plen (m : mbuf) (o : Z) : Z := byte_in m (o + 5).
Definition arp_opcode (m : mbuf) (o : Z) : Z := be16_in m (o + 6).
Definition arp_sha (m : mbuf) (o : Z) : ether_addr := bytes_in m (o + 8) 6.
Definition arp_sip (m : mbuf) (o : Z) : Z := word_in m (o + 14).
Definition arp_tha (m : mbuf) (o : Z) : ether_addr := bytes_in m (o + 18) 6.
Definition arp_tip (m : mbuf) (o : Z) : Z := word_in m (o + 24).

Definition DF_OR_MORE : Z := Z.lor RTE_IPV4_HDR_MF_FLAG RTE_IPV4_HDR_OFFSET_MASK.
Definition RTE_ETHER_MIN_PAYLOAD : Z := 60.
Definition RTE_IP_ICMP_ECHO_REPLY : Z := 0.
Definition RTE_IP_ICMP_ECHO_REQUEST : Z := 8.

Section nodes.
Context `{!Dpdk}.
Context (submit : node_id -> node_frame -> app_runtime -> app_runtime).

(** The IPv4 checksum is recomputed over the 20 header bytes at [o]. *)
Definition ip_rechecksum (o : Z) (m : mbuf) : mbuf :=
  let m := put_bytes (o + 10) [0; 0] m in
  put_bytes (o + 10) (le16 (rte_ipv4_cksum (bytes_from m o))) m.

(** * Drop *)

Definition drop_packet (rt : app_runtime) (p : mbuf * packet_ctx) : app_runtime :=
  let '(m, ctx) := p in
  let rt := if cx_drop_reason ctx <? Z.of_nat DROP_REASON_MAX
            then count_reason (Z.to_nat (cx_drop_reason ctx)) 1 rt else rt in
  mbuf_free m rt.

Definition drop_node_run (frame : node_frame) (rt : app_runtime) : app_runtime :=
  foldl drop_packet (count_drops NODE_DROP (Z.of_nat (length frame)) rt) frame.

(** * Ingress *)

Definition valid_source_ip (rt : app_runtime) (port : port_state) (ip_be : Z) : bool :=
  let ip := ntohl ip_be in
  if netif_is_local_ip rt ip_be then false else
  match rt_network rt with
  | Some _ => ipv4_destination_valid rt ip_be
  | None =>
    let local := ntohl (pt_ip_be port) in
    let mask := if truth (pt_prefix_len port) then u32 (Z.shiftl UINT32_MAX (32 - pt_prefix_len port)) else 0 in
    if (Z.shiftr ip 24 =? 0) || (Z.shiftr ip 24 =? 127) || (3758096384 <=? ip) || (ip =? local) then false else
    negb ((pt_prefix_len port <=? 30) && (Z.land ip mask =? Z.land local mask) &&
          ((Z.land ip (not32 mask) =? 0) || (Z.land ip (not32 mask) =? not32 mask)))
  end.

Definition eth_input_packet (rt : app_runtime) (p : mbuf * packet_ctx) : app_runtime :=
  let '(m, ctx) := p in
  match ingress_port rt ctx with
  | None => graph_drop NODE_ETH_INPUT m ctx DROP_PORT_BINDING true rt
  | Some port =>
    if negb (rte_pktmbuf_is_contiguous m) || negb (mb_direct m) || negb (mb_refcnt m =? 1)
    then graph_drop NODE_ETH_INPUT m ctx DROP_NONCONTIGUOUS true rt else
    if rte_pktmbuf_data_len m <? sizeof_ether_hdr then graph_drop NODE_ETH_INPUT m ctx DROP_TRUNCATED_ETH true rt else
    if negb (rte_is_valid_assigned_ether_addr (eth_src m)) || rte_is_same_ether_addr (eth_src m) (pt_mac port)
    then graph_drop NODE_ETH_INPUT m ctx DROP_INVALID_SOURCE true rt else
    let arp := eth_type m =? RTE_ETHER_TYPE_ARP in
    if negb (rte_is_same_ether_addr (eth_dst m) (pt_mac port)) && negb (arp && rte_is_broadcast_ether_addr (eth_dst m))
    then graph_drop NODE_ETH_INPUT m ctx DROP_NOT_LOCAL false rt else
    let ctx := set_cx_l3_offset sizeof_ether_hdr ctx in
    if arp then enqueue NODE_ARP_INPUT m ctx rt else
    if eth_type m =? RTE_ETHER_TYPE_IPV4 then enqueue NODE_IPV4_INPUT m ctx rt else
    graph_drop NODE_ETH_INPUT m ctx DROP_UNSUPPORTED_ETHERTYPE false rt
  end.
Definition eth_input_node_run (frame : node_frame) (rt : app_runtime) : app_runtime := foldl eth_input_packet rt frame.

(** The sanity checks of an ARP packet. *)
Definition arp_malformed (rt : app_runtime) (port : port_state) (m : mbuf) (o : Z) : bool :=
  negb (arp_hardware m o =? RTE_ARP_HRD_ETHER) || negb (arp_protocol m o =? RTE_ETHER_TYPE_IPV4) ||
  negb (arp_hlen m o =? 6) || negb (arp_plen m o =? 4) || negb (rte_is_same_ether_addr (eth_src m) (arp_sha m o)) ||
  (negb (arp_opcode m o =? RTE_ARP_OP_REQUEST) && negb (arp_opcode m o =? RTE_ARP_OP_REPLY)) ||
  (truth (arp_sip m o) && negb (valid_source_ip rt port (arp_sip m o))).

(** The request turned into the reply, in place. *)
Definition arp_reply (port : port_state) (o : Z) (m : mbuf) : mbuf :=
  let requester := arp_sha m o in
  let requester_ip := arp_sip m o in
  let local_ip := arp_tip m o in
  m |> put_bytes 0 requester |> put_bytes 6 (pt_mac port) |> put_bytes (o + 6) (be16 RTE_ARP_OP_REPLY)
    |> put_bytes (o + 18) requester |> put_bytes (o + 24) (le32 requester_ip)
    |> put_bytes (o + 8) (pt_mac port) |> put_bytes (o + 14) (le32 local_ip).

Definition arp_input_packet (rt : app_runtime) (p : mbuf * packet_ctx) : app_runtime :=
  let '(m, ctx) := p in
  match ingress_port rt ctx with
  | None => graph_drop NODE_ARP_INPUT m ctx DROP_PORT_BINDING true rt
  | Some port =>
    let o := cx_l3_offset ctx in
    let length := u16 (o + sizeof_arp_hdr) in
    if rte_pktmbuf_data_len m <? length then graph_drop NODE_ARP_INPUT m ctx DROP_INVALID_ARP true rt else
    if arp_malformed rt port m o then graph_drop NODE_ARP_INPUT m ctx DROP_INVALID_ARP true rt else
    if negb (net_address_on rt (pt_id port) (arp_tip m o)) then graph_drop NODE_ARP_INPUT m ctx DROP_NOT_LOCAL false rt else
    if (arp_opcode m o =? RTE_ARP_OP_REPLY) && negb (rte_is_same_ether_addr (arp_tha m o) (pt_mac port))
    then graph_drop NODE_ARP_INPUT m ctx DROP_INVALID_ARP true rt else
    let rt :=
      if truth (arp_sip m o) && negb (netif_is_local_ip rt (arp_sip m o)) && net_direct rt (pt_id port) (arp_sip m o) then
        let '(rc, rt) := neighbour_update submit (pt_id port) (arp_sip m o) (arp_sha m o) rt in
        if rc <? 0 then set_rt_neighbour_learn_failures (u64 (rt_neighbour_learn_failures rt + 1)) rt else rt
      else rt in
    if arp_opcode m o =? RTE_ARP_OP_REPLY then mbuf_free m rt else
    let m := arp_reply port o m in
    let m := default m (rte_pktmbuf_trim m (u16 (rte_pktmbuf_pkt_len m - length))) in
    enqueue NODE_TX m (set_cx_egress_port_id (pt_port_id port) ctx) rt
  end.
Definition arp_input_node_run (frame : node_frame) (rt : app_runtime) : app_runtime := foldl arp_input_packet rt frame.

Definition ipv4_input_packet (rt : app_runtime) (p : mbuf * packet_ctx) : app_runtime :=
  let '(m, ctx) := p in
  match ingress_port rt ctx with
  | None => graph_drop NODE_IPV4_INPUT m ctx DROP_PORT_BINDING true rt
  | Some port =>
    let o := cx_l3_offset ctx in
    if rte_pktmbuf_data_len m <? o + sizeof_ipv4_hdr then graph_drop NODE_IPV4_INPUT m ctx DROP_INVALID_IPV4 true rt else
    let ihl := ip_ihl m o in
    let total := ip_total m o in
    if negb (ip_version m o =? 4) || (ihl <? sizeof_ipv4_hdr) || (total <? ihl) || (rte_pktmbuf_data_len m <? o + total) ||
       negb (rte_ipv4_cksum (bytes_from m o) =? 0) || truth (Z.land (ip_fragment m o) 32768)
    then graph_drop NODE_IPV4_INPUT m ctx DROP_INVALID_IPV4 true rt else
    if negb (valid_source_ip rt port (ip_src m o)) || netif_is_local_ip rt (ip_src m o)
    then graph_drop NODE_IPV4_INPUT m ctx DROP_INVALID_SOURCE true rt else
    if pt_mtu port <? total then graph_drop NODE_IPV4_INPUT m ctx DROP_MTU false rt else
    if truth (Z.land (ip_fragment m o) DF_OR_MORE) then graph_drop NODE_IPV4_INPUT m ctx DROP_IPV4_FRAGMENT false rt else
    if negb (ihl =? sizeof_ipv4_hdr) then graph_drop NODE_IPV4_INPUT m ctx DROP_IPV4_OPTIONS false rt else
    let ctx := ctx |> set_cx_l4_offset (u16 (o + ihl)) |> set_cx_src_ip_be (ip_src m o)
                   |> set_cx_dst_ip_be (ip_dst m o) |> set_cx_ip_protocol (ip_proto m o) in
    let m := default m (rte_pktmbuf_trim m (u16 (rte_pktmbuf_pkt_len m - (o + total)))) in
    enqueue NODE_IPV4_ACL m ctx rt
  end.
Definition ipv4_input_node_run (frame : node_frame) (rt : app_runtime) : app_runtime := foldl ipv4_input_packet rt frame.

(** * Access control and the local/transit split *)

Definition packet_acl_key (rt : app_runtime) (p : mbuf * packet_ctx) : acl_key :=
  let '(m, ctx) := p in
  let o := cx_l3_offset ctx in
  let key := zero_acl_key |> set_ak_src (cx_src_ip_be ctx) |> set_ak_dst (cx_dst_ip_be ctx)
    |> set_ak_iif (pt_id (port_of (netif_by_dpdk_port rt (cx_ingress_port_id ctx)))) |> set_ak_proto (cx_ip_protocol ctx) in
  let length := u32 (ip_total m o - sizeof_ipv4_hdr) in
  if ((ak_proto key =? IPPROTO_UDP) && (8 <=? length)) || ((ak_proto key =? IPPROTO_TCP) && (20 <=? length)) then
    key |> set_ak_ports_valid true |> set_ak_sport (be16_in m (o + sizeof_ipv4_hdr))
        |> set_ak_dport (be16_in m (o + sizeof_ipv4_hdr + 2))
  else key.

Definition acl_packet (rt : app_runtime) (p : mbuf * packet_ctx * Z) : app_runtime :=
  let '(m, ctx, result) := p in
  let o := cx_l3_offset ctx in
  let '(accept, rt) :=
    match rt_network rt with
    | Some c => let '(ok, stats) := net_acl_account c (rt_acl_stats rt) result (ip_total m o) in
                (ok, set_rt_acl_stats stats rt)
    | None => (true, rt)
    end in
  if negb accept then graph_drop NODE_IPV4_ACL m ctx DROP_ACL false rt else
  if negb (netif_is_local_ip rt (ip_dst m o)) then
    if negb (rt_ipv4_forwarding rt) then graph_drop NODE_IPV4_ACL m ctx DROP_FORWARDING_DISABLED false rt else
    let src := ntohl (ip_src m o) in
    let dst := ntohl (ip_dst m o) in
    if negb (ipv4_destination_valid rt (ip_src m o)) || (Z.shiftr src 16 =? 43518)
    then graph_drop NODE_IPV4_ACL m ctx DROP_INVALID_SOURCE false rt else
    if negb (ipv4_destination_valid rt (ip_dst m o)) || (Z.shiftr dst 16 =? 43518)
    then graph_drop NODE_IPV4_ACL m ctx DROP_INVALID_DESTINATION false rt else
    enqueue NODE_IPV4_FORWARD m (set_cx_transit true ctx) rt
  else if ip_proto m o =? IPPROTO_ICMP then enqueue NODE_ICMP_INPUT m ctx rt
  else if ip_proto m o =? IPPROTO_UDP then enqueue NODE_UDP_INPUT m ctx rt
  else if ip_proto m o =? IPPROTO_TCP then enqueue NODE_TCP_INPUT m ctx rt
  else graph_drop NODE_IPV4_ACL m ctx DROP_UNSUPPORTED_PROTOCOL false rt.

(** The keys of the whole frame are classified before any packet is counted. *)
Definition ipv4_acl_node_run (frame : node_frame) (rt : app_runtime) : app_runtime :=
  let results := match rt_network rt with
                 | Some c => net_acl_classify_batch c (packet_acl_key rt <$> frame)
                 | None => replicate (length frame) 0
                 end in
  foldl acl_packet rt (zip frame results).

(** * Forwarding *)

Definition forward_unreachable (reason : drop_reason) : bool :=
  bool_decide (reason ∈ [DROP_NO_ROUTE; DROP_INVALID_EGRESS; DROP_ROUTE_UNREACHABLE; DROP_ROUTE_PROHIBIT]).

(** [icmp_send_error(rt, m, &ctx, ..., rte_get_timer_cycles())]. *)
Definition icmp_error_now (m : mbuf) (ctx : packet_ctx) (type code mtu : Z) (rt : app_runtime) : app_runtime :=
  let '(now, rt) := timer_cycles rt in icmp_send_error submit m ctx type code mtu now rt.

(** The header of a packet that is forwarded: TTL decremented, checksum redone. *)
Definition forward_header (o : Z) (m : mbuf) : mbuf :=
  m |> put_bytes (o + 8) [ip_ttl m o - 1] |> ip_rechecksum o.

Definition strip_l2 (m : mbuf) (ctx : packet_ctx) : mbuf * packet_ctx :=
  (default m (rte_pktmbuf_adj m (cx_l3_offset ctx)),
   ctx |> set_cx_l4_offset (u16 (cx_l4_offset ctx - cx_l3_offset ctx)) |> set_cx_l3_offset 0).

Definition forward_packet (rt : app_runtime) (p : mbuf * packet_ctx) : app_runtime :=
  let '(m, ctx) := p in
  let o := cx_l3_offset ctx in
  if ip_ttl m o <=? 1 then
    rt |> icmp_error_now m ctx 11 0 0 |> graph_drop NODE_IPV4_FORWARD m ctx DROP_TTL_EXPIRED false else
  let '(reason, route) := ipv4_route_query rt (ip_dst m o) (ip_src m o)
    (pt_id (port_of (netif_by_dpdk_port rt (cx_ingress_port_id ctx)))) zero_route_result in
  if negb (bool_decide (reason = DROP_NONE)) then
    let rt := if forward_unreachable reason
      then icmp_error_now m ctx 3 (if bool_decide (reason = DROP_ROUTE_PROHIBIT) then 13 else 0) 0 rt else rt in
    graph_drop NODE_IPV4_FORWARD m ctx reason false rt else
  if rr_mtu route <? ip_total m o then
    let rt := if truth (Z.land (ip_fragment m o) RTE_IPV4_HDR_DF_FLAG)
      then icmp_error_now m ctx 3 4 (rr_mtu route) rt else rt in
    graph_drop NODE_IPV4_FORWARD m ctx DROP_MTU false rt else
  let m := forward_header o m in
  let ctx := ctx |> set_cx_egress_port_id (pt_port_id (port_of (netif_by_id rt (rr_netif_id route))))
                 |> set_cx_next_hop_ip_be (rr_next_hop_be route) in
  let '(m, ctx) := strip_l2 m ctx in
  enqueue NODE_ETH_OUTPUT m ctx rt.
Definition ipv4_forward_node_run (frame : node_frame) (rt : app_runtime) : app_runtime := foldl forward_packet rt frame.

(** * ICMP *)

(** The echo request turned into the reply, in place. *)
Definition echo_reply (o l4 length : Z) (m : mbuf) : mbuf :=
  let requester := ip_src m o in
  let m := m |> put_bytes (o + 12) (le32 (ip_dst m o)) |> put_bytes (o + 16) (le32 requester)
             |> put_bytes l4 [RTE_IP_ICMP_ECHO_REPLY] |> put_bytes (l4 + 2) [0; 0] in
  m |> put_bytes (l4 + 2) (le16 (not16 (rte_raw_cksum (bytes_in m l4 length))))
    |> put_bytes (o + 8) [64] |> ip_rechecksum o.

Definition icmp_packet (rt : app_runtime) (p : mbuf * packet_ctx) : app_runtime :=
  let '(m, ctx) := p in
  let o := cx_l3_offset ctx in
  let l4 := cx_l4_offset ctx in
  let length := u16 (rte_pktmbuf_pkt_len m - l4) in
  if (length <? sizeof_icmp_hdr) || negb (rte_raw_cksum (bytes_in m l4 length) =? UINT16_MAX) ||
     negb (byte_in m (l4 + 1) =? 0) then graph_drop NODE_ICMP_INPUT m ctx DROP_INVALID_ICMP true rt else
  if negb (byte_in m l4 =? RTE_IP_ICMP_ECHO_REQUEST) then graph_drop NODE_ICMP_INPUT m ctx DROP_UNSUPPORTED_ICMP false rt else
  let requester := ip_src m o in
  let '(reason, route) := ipv4_route_query rt requester (ip_dst m o) NET_IIF_NONE zero_route_result in
  if negb (bool_decide (reason = DROP_NONE)) then graph_drop NODE_ICMP_INPUT m ctx reason false rt else
  if rr_mtu route <? ip_total m o then graph_drop NODE_ICMP_INPUT m ctx DROP_MTU false rt else
  let m := echo_reply o l4 length m in
  let port := port_of (netif_by_id rt (rr_netif_id route)) in
  let ctx := ctx |> set_cx_egress_port_id (pt_port_id port) |> set_cx_next_hop_ip_be (rr_next_hop_be route) in
  if (cx_egress_port_id ctx =? cx_ingress_port_id ctx) && (cx_next_hop_ip_be ctx =? requester) then
    let m := m |> put_bytes 0 (eth_src m) |> put_bytes 6 (pt_mac port) in
    enqueue NODE_TX m ctx rt else
  let '(m, ctx) := strip_l2 m ctx in
  enqueue NODE_ETH_OUTPUT m ctx rt.
Definition icmp_input_node_run (frame : node_frame) (rt : app_runtime) : app_runtime := foldl icmp_packet rt frame.

(** * UDP *)

Definition fold_carry (x : Z) : Z := u32 (Z.land x 65535 + Z.shiftr x 16).

(** The checksum of a datagram with its pseudo header. *)
Definition udp_checksum (m : mbuf) (o l4 length : Z) : Z :=
  let pseudo := write_at (bytes_in m o sizeof_ipv4_hdr) 2 (be16 (u16 (sizeof_ipv4_hdr + length))) in
  fold_carry (fold_carry (u32 (rte_raw_cksum (bytes_in m l4 length) + rte_ipv4_phdr_cksum pseudo))).

Definition udp_input_packet (rt : app_runtime) (p : mbuf * packet_ctx) : app_runtime :=
  let '(m, ctx) := p in
  let o := cx_l3_offset ctx in
  let l4 := cx_l4_offset ctx in
  let available := u16 (rte_pktmbuf_pkt_len m - l4) in
  if available <? sizeof_udp_hdr then graph_drop NODE_UDP_INPUT m ctx DROP_INVALID_UDP true rt else
  let length := be16_in m (l4 + 4) in
  if (length <? sizeof_udp_hdr) || (available <? length) then graph_drop NODE_UDP_INPUT m ctx DROP_UDP_BAD_LENGTH true rt else
  if truth (be16_in m (l4 + 6)) && negb (udp_checksum m o l4 length =? UINT16_MAX)
  then graph_drop NODE_UDP_INPUT m ctx DROP_UDP_BAD_CHECKSUM true rt else
  let source := mk_ps_sockaddr (ip_src m o) (be16_in m l4) in
  let '(rc, rt) := udp_deliver (ip_dst m o) (be16_in m (l4 + 2)) source
    (bytes_in m (l4 + sizeof_udp_hdr) (length - sizeof_udp_hdr)) rt in
  if rc <? 0 then
    let rt := if rc =? - ENOENT then icmp_error_now m ctx 3 3 0 rt else rt in
    let reason := if rc =? - ENOENT then DROP_UDP_UNBOUND_PORT
                  else if rc =? - ENOBUFS then DROP_UDP_RX_QUEUE_FULL else DROP_MTU in
    graph_drop NODE_UDP_INPUT m ctx reason false rt
  else mbuf_free m rt.
Definition udp_input_node_run (frame : node_frame) (rt : app_runtime) : app_runtime := foldl udp_input_packet rt frame.

Definition udp_output_packet (rt : app_runtime) (p : mbuf * packet_ctx) : app_runtime :=
  let '(m, ctx) := p in
  let length := u32 (rte_pktmbuf_pkt_len m + sizeof_udp_hdr) in
  if UINT16_MAX - sizeof_ipv4_hdr <? length then graph_drop NODE_UDP_OUTPUT m ctx DROP_MTU false rt else
  match rte_pktmbuf_prepend m sizeof_udp_hdr with
  | None => graph_drop NODE_UDP_OUTPUT m ctx DROP_NO_HEADROOM true rt
  | Some m =>
    let m := put_bytes 0 (be16 (cx_src_port ctx) ++ be16 (cx_dst_port ctx) ++ be16 (u16 length) ++ [0; 0]) m in
    let pseudo := pseudo_header (u16 (sizeof_ipv4_hdr + length)) IPPROTO_UDP (cx_src_ip_be ctx) (cx_dst_ip_be ctx) in
    let m := put_bytes 6 (le16 (rte_ipv4_udptcp_cksum pseudo (mb_data m))) m in
    enqueue NODE_IPV4_OUTPUT m (set_cx_ip_protocol IPPROTO_UDP ctx) rt
  end.
Definition udp_output_node_run (frame : node_frame) (rt : app_runtime) : app_runtime := foldl udp_output_packet rt frame.

(** * TCP *)

(** The option loop: [None] for malformed options, else the MSS.  [off] counts
    both [offset] and the [options] pointer, which move together.  Every round
    advances by at least one, so the header length bounds the rounds. *)
Fixpoint tcp_options (rounds : nat) (m : mbuf) (o : Z) (syn : bool) (header_len off mss : Z) : option Z :=
  match rounds with
  | O => Some mss
  | S rounds' =>
    if header_len <=? off then Some mss else
    let kind := byte_in m (o + off) in
    let size := byte_in m (o + off + 1) in
    if kind =? 0 then Some mss else
    if kind =? 1 then tcp_options rounds' m o syn header_len (off + 1) mss else
    if (header_len - off <? 2) || (size <? 2) || (header_len - off <? size) || ((kind =? 2) && negb (size =? 4)) then None else
    let mss := if (kind =? 2) && (size =? 4) && syn then
        let value := be16_in m (o + off + 2) in if truth value then value else mss
      else mss in
    tcp_options rounds' m o syn header_len (off + size) mss
  end.

Definition tcp_input_packet (rt : app_runtime) (p : mbuf * packet_ctx) : app_runtime :=
  let '(m, ctx) := p in
  let o := cx_l4_offset ctx in
  let length := u16 (rte_pktmbuf_pkt_len m - o) in
  if length <? sizeof_tcp_hdr then graph_drop NODE_TCP_INPUT m ctx DROP_INVALID_TCP true rt else
  let header_len := Z.shiftr (byte_in m (o + 12)) 4 * 4 in
  let flags := byte_in m (o + 13) in
  if (header_len <? sizeof_tcp_hdr) || (length <? header_len) || flag flags RTE_TCP_URG_FLAG ||
     (flag flags RTE_TCP_SYN_FLAG && flag flags (Z.lor RTE_TCP_FIN_FLAG RTE_TCP_RST_FLAG))
  then graph_drop NODE_TCP_INPUT m ctx DROP_INVALID_TCP true rt else
  if negb (rte_ipv4_udptcp_cksum (bytes_in m (cx_l3_offset ctx) sizeof_ipv4_hdr) (bytes_from m o) =? 0)
  then graph_drop NODE_TCP_INPUT m ctx DROP_TCP_BAD_CHECKSUM true rt else
  match tcp_options (Z.to_nat (header_len - sizeof_tcp_hdr)) m o (flag flags RTE_TCP_SYN_FLAG) header_len sizeof_tcp_hdr 536 with
  | None => graph_drop NODE_TCP_INPUT m ctx DROP_INVALID_TCP true rt
  | Some mss =>
    let '(now, rt) := timer_cycles rt in
    let '(reason, rt) := tcp_input submit ctx m o header_len (length - header_len) mss now rt in
    if negb (bool_decide (reason = DROP_NONE))
    then graph_drop NODE_TCP_INPUT m ctx reason (bool_decide (reason = DROP_TCP_INVALID_STATE)) rt
    else mbuf_free m rt
  end.
Definition tcp_input_node_run (frame : node_frame) (rt : app_runtime) : app_runtime := foldl tcp_input_packet rt frame.

(** * Output *)

Definition route_packet (rt : app_runtime) (p : mbuf * packet_ctx) : app_runtime :=
  let '(m, ctx) := p in
  let '(reason, route) := ipv4_route_query rt (cx_dst_ip_be ctx) (cx_src_ip_be ctx) NET_IIF_NONE zero_route_result in
  if negb (bool_decide (reason = DROP_NONE)) then graph_drop NODE_IPV4_ROUTE m ctx reason false rt else
  if negb (cx_ip_protocol ctx =? IPPROTO_UDP) then graph_drop NODE_IPV4_ROUTE m ctx DROP_UNSUPPORTED_PROTOCOL false rt else
  let port := port_of (netif_by_id rt (rr_netif_id route)) in
  let ctx := set_cx_egress_port_id (pt_port_id port) ctx in
  let ctx := if truth (cx_src_ip_be ctx) then ctx else set_cx_src_ip_be (rr_source_ip_be route) ctx in
  enqueue NODE_UDP_OUTPUT m (set_cx_next_hop_ip_be (rr_next_hop_be route) ctx) rt.
Definition ipv4_route_node_run (frame : node_frame) (rt : app_runtime) : app_runtime := foldl route_packet rt frame.

(** The 20 bytes of the header [ipv4_output] writes, checksum included. *)
Definition ipv4_header (total id : Z) (ctx : packet_ctx) : list Z :=
  let header := [69; 0] ++ be16 (u16 total) ++ be16 id ++ be16 RTE_IPV4_HDR_DF_FLAG ++ [64; cx_ip_protocol ctx; 0; 0] ++
    le32 (cx_src_ip_be ctx) ++ le32 (cx_dst_ip_be ctx) in
  write_at header 10 (le16 (rte_ipv4_cksum header)).

Definition ipv4_output_packet (rt : app_runtime) (p : mbuf * packet_ctx) : app_runtime :=
  let '(m, ctx) := p in
  match egress_port rt ctx with
  | None => graph_drop NODE_IPV4_OUTPUT m ctx DROP_INVALID_EGRESS true rt
  | Some port =>
    let total := u32 (rte_pktmbuf_pkt_len m + sizeof_ipv4_hdr) in
    if (pt_mtu port <? total) || (UINT16_MAX <? total) then graph_drop NODE_IPV4_OUTPUT m ctx DROP_MTU false rt else
    match rte_pktmbuf_prepend m sizeof_ipv4_hdr with
    | None => graph_drop NODE_IPV4_OUTPUT m ctx DROP_NO_HEADROOM true rt
    | Some m =>
      let m := put_bytes 0 (ipv4_header total (rt_next_ip_id rt) ctx) m in
      let rt := set_rt_next_ip_id (u16 (rt_next_ip_id rt + 1)) rt in
      enqueue NODE_ETH_OUTPUT m (ctx |> set_cx_l3_offset 0 |> set_cx_l4_offset sizeof_ipv4_hdr) rt
    end
  end.
Definition ipv4_output_node_run (frame : node_frame) (rt : app_runtime) : app_runtime := foldl ipv4_output_packet rt frame.

Definition eth_output_packet (rt : app_runtime) (p : mbuf * packet_ctx) : app_runtime :=
  let '(m, ctx) := p in
  match egress_port rt ctx with
  | None => graph_drop NODE_ETH_OUTPUT m ctx DROP_INVALID_EGRESS true rt
  | Some port =>
    if pt_mtu port <? rte_pktmbuf_pkt_len m then graph_drop NODE_ETH_OUTPUT m ctx DROP_MTU false rt else
    match neighbour_lookup (rt_neighbours rt) (pt_id port) (cx_next_hop_ip_be ctx) with
    | None =>
      let '(now, rt) := timer_cycles rt in
      let '(reason, rt) := neighbour_queue submit (pt_id port) m ctx now rt in
      if negb (bool_decide (reason = DROP_NONE)) then graph_drop NODE_ETH_OUTPUT m ctx reason false rt else rt
    | Some destination =>
      match rte_pktmbuf_prepend m sizeof_ether_hdr with
      | None => graph_drop NODE_ETH_OUTPUT m ctx DROP_NO_HEADROOM true rt
      | Some m =>
        let m := put_bytes 0 (destination ++ pt_mac port ++ be16 RTE_ETHER_TYPE_IPV4) m in
        let ctx := ctx |> set_cx_l3_offset (u16 (cx_l3_offset ctx + sizeof_ether_hdr))
                       |> set_cx_l4_offset (u16 (cx_l4_offset ctx + sizeof_ether_hdr)) in
        enqueue NODE_TX m ctx rt
      end
    end
  end.
Definition eth_output_node_run (frame : node_frame) (rt : app_runtime) : app_runtime := foldl eth_output_packet rt frame.

(** The 42 bytes of an ARP request. *)
Definition arp_request_bytes (port : port_state) (sip tip : Z) : list Z :=
  replicate 6 255 ++ pt_mac port ++ be16 RTE_ETHER_TYPE_ARP ++
  be16 RTE_ARP_HRD_ETHER ++ be16 RTE_ETHER_TYPE_IPV4 ++ [6; 4] ++ be16 RTE_ARP_OP_REQUEST ++
  pt_mac port ++ le32 sip ++ replicate 6 0 ++ le32 tip.

Definition arp_output_packet (rt : app_runtime) (p : mbuf * packet_ctx) : app_runtime :=
  let '(m, ctx) := p in
  match egress_port rt ctx with
  | None => graph_drop NODE_ARP_OUTPUT m ctx DROP_INVALID_EGRESS true rt
  | Some port =>
    match rte_pktmbuf_append m (sizeof_ether_hdr + sizeof_arp_hdr) with
    | None => graph_drop NODE_ARP_OUTPUT m ctx DROP_NO_TAILROOM true rt
    | Some m' =>
      let target := cx_next_hop_ip_be ctx in
      let m' := put_bytes (rte_pktmbuf_data_len m) (arp_request_bytes port (net_source rt (pt_id port) target) target) m' in
      enqueue NODE_TX m' ctx rt
    end
  end.
Definition arp_output_node_run (frame : node_frame) (rt : app_runtime) : app_runtime := foldl arp_output_packet rt frame.

(** * Transmission *)

(** The first loop of [tx_node_run]: padding; the packets that can be sent. *)
Definition tx_pad (acc : app_runtime * node_frame) (p : mbuf * packet_ctx) : app_runtime * node_frame :=
  let '(rt, ready) := acc in
  let '(m, ctx) := p in
  match egress_port rt ctx with
  | None => (graph_drop NODE_TX m ctx DROP_INVALID_EGRESS true rt, ready)
  | Some _ =>
    let clean m := mk_mbuf (mb_id m) (mb_data m) (mb_rest m) (mb_segs m) (mb_direct m) (mb_refcnt m) 0 0
                     (mb_headroom m) (mb_tailroom m) in
    if rte_pktmbuf_pkt_len m <? RTE_ETHER_MIN_PAYLOAD then
      let padding := u16 (RTE_ETHER_MIN_PAYLOAD - rte_pktmbuf_pkt_len m) in
      match rte_pktmbuf_append m padding with
      | None =>
        let i := default O (netif_slot_by_dpdk_port rt (cx_egress_port_id ctx)) in
        let rt := alter_port i (fun p => set_pt_tx_drops (u64 (pt_tx_drops p + 1)) p) rt in
        (graph_drop NODE_TX m ctx DROP_NO_TAILROOM true rt, ready)
      | Some m' => (rt, ready ++ [(clean (put_bytes (rte_pktmbuf_data_len m) (replicate (Z.to_nat padding) 0) m'), ctx)])
      end
    else (rt, ready ++ [(clean m, ctx)])
  end.

Definition tx_burst (port : Z) (batch : list mbuf) (rt : app_runtime) : nat * app_runtime :=
  let sent := tx_burst_of (rt_dpdk rt) port batch in (sent, record_event (EvTx port batch sent) rt).

(** One port of the second loop. *)
Definition tx_port (ready : node_frame) (rt : app_runtime) (i : nat) : app_runtime :=
  match rt_ports rt !! i with
  | None => rt
  | Some port =>
    if negb (pt_configured port) || negb (port_up port) then rt else
    let batch := List.filter (fun p => cx_egress_port_id p.2 =? pt_port_id port) ready in
    if Nat.eqb (length batch) 0 then rt else
    let '(sent, rt) := tx_burst (pt_port_id port) (fst <$> batch) rt in
    let accepted := Z.of_nat (length (List.filter (fun p => cx_report_acceptance p.2) (take sent batch))) in
    let bytes := sum_list_Z ((fun p => rte_pktmbuf_pkt_len p.1) <$> take sent batch) in
    let n := Z.of_nat (length batch) in
    let rt := rt |> set_rt_accepted_sends (u64 (rt_accepted_sends rt + accepted))
      |> set_rt_tx_packets (u64 (rt_tx_packets rt + Z.of_nat sent))
      |> alter_port i (fun p => p |> set_pt_tx_bytes (u64 (pt_tx_bytes p + bytes))
           |> set_pt_tx_packets (u64 (pt_tx_packets p + Z.of_nat sent))
           |> set_pt_tx_drops (u64 (pt_tx_drops p + (n - Z.of_nat sent)))) in
    foldl (fun rt p => graph_drop NODE_TX p.1 p.2 DROP_TX_FAILED true rt) rt (drop sent batch)
  end.

Definition tx_node_run (frame : node_frame) (rt : app_runtime) : app_runtime :=
  let '(rt, ready) := foldl tx_pad (rt, []) frame in
  foldl (tx_port ready) rt (seq 0 (length (rt_ports rt))).

(** * Dispatch *)

(** The function behind [nodes[n].run]. *)
Definition nodes_run (n : node_id) : node_frame -> app_runtime -> app_runtime :=
  match n with
  | NODE_DROP => drop_node_run
  | NODE_ETH_INPUT => eth_input_node_run
  | NODE_ARP_INPUT => arp_input_node_run
  | NODE_IPV4_INPUT => ipv4_input_node_run
  | NODE_ICMP_INPUT => icmp_input_node_run
  | NODE_UDP_INPUT => udp_input_node_run
  | NODE_TCP_INPUT => tcp_input_node_run
  | NODE_IPV4_ROUTE => ipv4_route_node_run
  | NODE_UDP_OUTPUT => udp_output_node_run
  | NODE_IPV4_OUTPUT => ipv4_output_node_run
  | NODE_ETH_OUTPUT => eth_output_node_run
  | NODE_ARP_OUTPUT => arp_output_node_run
  | NODE_TX => tx_node_run
  | NODE_IPV4_FORWARD => ipv4_forward_node_run
  | NODE_IPV4_ACL => ipv4_acl_node_run
  end.
End nodes.
