(* ===== verification/Runtime.v ===== *)
(** The runtime of [src/runtime.c]: the scheduler closed over the node functions,
    the poll step, start-up and shutdown of the parts modelled here. *)
From S2P Require Import Prelude.
From S2P Require Import Dpdk.
From S2P Require Import Types.
From S2P Require Import Ports.
From S2P Require Import Graph.
From S2P Require Import Packet.
From S2P Require Import Resolution.
From S2P Require Import Sockets.
From S2P Require Import Tcp.
From S2P Require Import Nodes.

Section runtime.
Context `{!Dpdk}.

(** [graph_submit] calls node functions, and a node function may reach
    [graph_submit] again ([arp_request], [icmp_send_error] and [tcp_emit] test
    [rt->active_output] first).  [submit_depth k] allows [k] nested calls.  One
    is enough: the node functions meet the scheduler's interface whatever function
    stands for the nested call ([nodes_run_functions]), even one that loses the
    packets it is given. *)
Fixpoint submit_depth (k : nat) (n : node_id) (frame : node_frame) (rt : app_runtime) : app_runtime :=
  match k with
  | O => rt
  | S k' => (graph_submit (nodes_run (submit_depth k')) n frame rt).2
  end.

Definition submit : node_id -> node_frame -> app_runtime -> app_runtime := submit_depth 1.

(** * The poll step *)

Definition rx_burst (port : Z) (rt : app_runtime) : list mbuf * app_runtime :=
  let pkts := rx_burst_of (rt_dpdk rt) port GRAPH_FRAME_SIZE in (pkts, record_event (EvRx port pkts) rt).

(** One port of the loop of [app_step]. *)
Definition poll_port (acc : Z * app_runtime) (i : nat) : Z * app_runtime :=
  let '(received, rt) := acc in
  match rt_ports rt !! i with
  | None => (received, rt)
  | Some port =>
    if negb (pt_configured port) || negb (pt_started port) || pt_admin_down port then (received, rt) else
    let '(pkts, rt) := rx_burst (pt_port_id port) rt in
    let frame := (fun m => (m, set_cx_ingress_port_id (pt_port_id port) zero_packet_ctx)) <$> pkts in
    let count := Z.of_nat (length frame) in
    let rt := alter_port i (fun p => p |> set_pt_rx_packets (u64 (pt_rx_packets p + count))
      |> set_pt_rx_bytes (u64 (pt_rx_bytes p + sum_list_Z (rte_pktmbuf_pkt_len <$> pkts)))) rt in
    (u32 (received + count), if Nat.eqb (length frame) 0 then rt else submit NODE_ETH_INPUT frame rt)
  end.

Definition app_step (rt : app_runtime) : Z * app_runtime :=
  let '(received, rt) := foldl poll_port (0, rt) (seq 0 (length (rt_ports rt))) in
  let '(now, rt) := timer_cycles rt in
  (received, rt |> neighbour_tick submit now |> tcp_timer_progress submit now).

(** [app_fini]. *)
Definition app_fini (rt : app_runtime) : app_runtime :=
  rt |> socket_subsystem_fini |> neighbour_fini submit |> set_rt_network None |> port_fini.

(** [app_init]; the history of DPDK calls outlives the [memset]. *)
Definition app_init `{!Ethdev} (progname : string) (conf : app_config) (rt : app_runtime) : Z * app_runtime :=
  let rt := zero_app_runtime |> set_rt_dpdk (rt_dpdk rt) |> set_rt_ipv4_forwarding (truth (cf_ipv4_forwarding conf)) in
  if eal_init progname conf <? 0 then (- 1, rt) else
  let '(rc, rt) := port_init conf rt in
  if rc <? 0 then (- 1, app_fini rt) else
  let '(rc, rt) := graph_init rt in
  if rc <? 0 then (- 1, app_fini rt) else
  let '(rc, rt) := socket_subsystem_init rt in
  if rc <? 0 then (- 1, app_fini rt) else (0, rt).
End runtime.
