(* ===== verification/CoreSocket.v ===== *)
(** The [core_*] socket calls of [src/socket.c], as the daemon invokes them.
    Buffers are never null here: the caller passes byte lists and addresses. *)
From S2P Require Import Prelude.
From S2P Require Import Dpdk.
From S2P Require Import Types.
From S2P Require Import Netif.
From S2P Require Import Route.
From S2P Require Import Graph.
From S2P Require Import Sockets.
From S2P Require Import Udp.
From S2P Require Import Tcp.

Section core.
Context `{!Dpdk}.
Context (submit : node_id -> node_frame -> app_runtime -> app_runtime).

Definition core_busy (rt : app_runtime) : bool := match rt_active_output rt with Some _ => true | None => false end.

Definition core_socket (domain type protocol : Z) (rt : app_runtime) : Z * app_runtime :=
  if negb (truth (ss_capacity (rt_sockets rt))) then (- ENETDOWN, rt) else
  if core_busy rt then (- EBUSY, rt) else
  if negb (domain =? PS_AF_INET) then (- EAFNOSUPPORT, rt) else
  if negb (type =? PS_SOCK_DGRAM) && negb (type =? PS_SOCK_STREAM) then (- EPROTOTYPE, rt) else
  if truth protocol && negb (protocol =? (if type =? PS_SOCK_DGRAM then 17 else 6)) then (- EPROTONOSUPPORT, rt) else
  match socket_allocate rt type with
  | (Some i, rt) => (so_fd (sock rt i), rt)
  | (None, rt) => (- EMFILE, rt)
  end.

Definition core_bind (fd : Z) (addr : ps_sockaddr) (rt : app_runtime) : Z * app_runtime :=
  match get_open rt fd with
  | None => (- EBADF, rt)
  | Some i => socket_bind i addr rt
  end.

Definition core_close (fd : Z) (rt : app_runtime) : Z * app_runtime :=
  match get_open rt fd with
  | None => (- EBADF, rt)
  | Some i =>
    if so_type (sock rt i) =? PS_SOCK_STREAM then
      let '(now, rt) := timer_cycles rt in (0, tcp_close submit i now rt)
    else (0, clear_sock i rt)
  end.

(** [socket_bind(rt, s, &(struct ps_sockaddr){0})] for a socket without a port. *)
Definition auto_bind (i : nat) (rt : app_runtime) : Z * app_runtime :=
  if truth (sa_port (so_local (sock rt i))) then (0, rt) else socket_bind i zero_ps_sockaddr rt.

Definition core_sendto (fd : Z) (buf : list Z) (dst : ps_sockaddr) (rt : app_runtime) : Z * app_runtime :=
  match get_open rt fd with
  | None => (- EBADF, rt)
  | Some i =>
    if negb (so_type (sock rt i) =? PS_SOCK_DGRAM) then (- EOPNOTSUPP, rt) else
    if negb (truth (sa_port dst)) then (- EINVAL, rt) else
    if core_busy rt then (- EBUSY, rt) else
    let '(rc, rt) := auto_bind i rt in
    if truth rc then (rc, rt) else udp_send submit i buf dst rt
  end.

(** The answer carries the bytes and the source that were written. *)
Definition core_recvfrom (fd len : Z) (rt : app_runtime) : Z * option (list Z * ps_sockaddr) * app_runtime :=
  match get_open rt fd with
  | None => (- EBADF, None, rt)
  | Some i =>
    if negb (so_type (sock rt i) =? PS_SOCK_DGRAM) then (- EOPNOTSUPP, None, rt) else
    let '(rc, datagram, ep) := udp_recv (so_udp (sock rt i)) len in
    (rc, datagram, alter_sock i (set_so_udp ep) rt)
  end.

Definition core_connect (fd : Z) (addr : ps_sockaddr) (rt : app_runtime) : Z * app_runtime :=
  match get_open rt fd with
  | None => (- EBADF, rt)
  | Some i =>
    if negb (truth (sa_port addr)) || negb (ipv4_destination_valid rt (sa_ip_be addr)) then (- EINVAL, rt) else
    if so_type (sock rt i) =? PS_SOCK_STREAM then tcp_connect submit i addr rt else
    let '(rc, rt) := auto_bind i rt in
    if truth rc then (rc, rt) else (0, alter_sock i (set_so_remote addr) rt)
  end.

Definition core_listen (fd backlog : Z) (rt : app_runtime) : Z * app_runtime :=
  match get_open rt fd with
  | None => (- EBADF, rt)
  | Some i =>
    if negb (so_type (sock rt i) =? PS_SOCK_STREAM) then (- EOPNOTSUPP, rt) else
    let limit := ss_capacity (rt_sockets rt) - 1 in
    tcp_listen i (if limit <? backlog then limit else backlog) rt
  end.

Definition core_accept (fd : Z) (rt : app_runtime) : Z * option ps_sockaddr * app_runtime :=
  match get_open rt fd with
  | None => (- EBADF, None, rt)
  | Some i =>
    if negb (so_type (sock rt i) =? PS_SOCK_STREAM) then (- EOPNOTSUPP, None, rt) else tcp_accept i rt
  end.

Definition core_send (fd : Z) (buf : list Z) (rt : app_runtime) : Z * app_runtime :=
  match get_open rt fd with
  | None => (- EBADF, rt)
  | Some i =>
    if so_type (sock rt i) =? PS_SOCK_STREAM then tcp_send submit i buf rt else
    if negb (truth (sa_port (so_remote (sock rt i)))) then (- ENOTCONN, rt) else
    core_sendto fd buf (so_remote (sock rt i)) rt
  end.

Definition core_recv (fd len : Z) (rt : app_runtime) : Z * list Z * app_runtime :=
  match get_open rt fd with
  | None => (- EBADF, [], rt)
  | Some i =>
    if so_type (sock rt i) =? PS_SOCK_STREAM then tcp_recv submit i len rt else
    let '(rc, datagram, rt) := core_recvfrom fd len rt in
    (rc, match datagram with Some (bytes, _) => bytes | None => [] end, rt)
  end.
End core.

#[global] Arguments core_socket : simpl never.
#[global] Arguments core_bind : simpl never.
#[global] Arguments core_close : simpl never.
#[global] Arguments core_sendto : simpl never.
#[global] Arguments core_recvfrom : simpl never.
#[global] Arguments core_connect : simpl never.
#[global] Arguments core_listen : simpl never.
#[global] Arguments core_accept : simpl never.
#[global] Arguments core_send : simpl never.
#[global] Arguments core_recv : simpl never.
