(* ===== verification/Dispatch.v ===== *)
(** Request dispatch of [src/daemon/dispatch.c]: one request of a session turned
    into socket calls and its response, the datagram batches, and the bounded
    pump between the two rings. *)
From S2P Require Import Prelude.
From S2P Require Import Dpdk.
From S2P Require Import Types.
From S2P Require Import Graph.
From S2P Require Import Sockets.
From S2P Require Import CoreSocket.
From S2P Require Import Ipc.
From S2P Require Import Queue.

(** [in->data + offset]: the bytes of a message from an offset on. *)
Definition data_from (m : ipc_message) (offset : Z) : list Z := drop (Z.to_nat offset) (im_data m).

(** The first loop of [send_batch]: [count] datagrams from [used] on, as their
    destination, offset and length; the second component is the bytes used. *)
Fixpoint parse_batch (count : nat) (m : ipc_message) (used : Z) : option (list (ps_sockaddr * Z * Z) * Z) :=
  match count with
  | O => Some ([], used)
  | S count' =>
    match ipc_datagram_decode (data_from m used) (im_length m - used) with
    | None => None
    | Some (addr, length) =>
      match parse_batch count' m (used + IPC_DGRAM_HEADER + length) with
      | None => None
      | Some (rest, total) => Some ((addr, used + IPC_DGRAM_HEADER, length) :: rest, total)
      end
    end
  end.

(** The capacities of [receive_batch]; [None] when one is too large. *)
Fixpoint parse_capacities (count : nat) (m : ipc_message) (i : nat) : option (list Z) :=
  match count with
  | O => Some []
  | S count' =>
    let capacity := ntohl (rd_le32 (im_data m) (4 * i)) in
    if PS_DGRAM_MAX_PAYLOAD <? capacity then None else
    (cons capacity) <$> parse_capacities count' m (S i)
  end.

Section dispatch.
Context `{!Dpdk}.
Context (submit : node_id -> node_frame -> app_runtime -> app_runtime).

(** The second loop of [send_batch], from datagram [i] on. *)
Fixpoint send_datagrams (i : Z) (todo : list (ps_sockaddr * Z * Z)) (m : ipc_message) (rt : app_runtime)
  (out : ipc_message) : ipc_message * app_runtime :=
  match todo with
  | [] => (out, rt)
  | (addr, offset, length) :: todo' =>
    let '(n, rt) := core_sendto submit (im_fd m) (take (Z.to_nat length) (data_from m offset)) addr rt in
    if n <? 0 then (set_im_result (if truth i then i else s32 n) out, rt) else
    send_datagrams (i + 1) todo' m rt (set_im_result (i + 1) out)
  end.

Definition send_batch (m out : ipc_message) (rt : app_runtime) : ipc_message * app_runtime :=
  match parse_batch (Z.to_nat (im_a m)) m 0 with
  | None => (set_im_result (- EINVAL) out, rt)
  | Some (todo, used) =>
    if negb (used =? im_length m) then (set_im_result (- EINVAL) out, rt) else send_datagrams 0 todo m rt out
  end.

(** The second loop of [receive_batch], from slot [i] on. *)
Fixpoint receive_datagrams (i : Z) (capacities : list Z) (fd : Z) (rt : app_runtime) (out : ipc_message)
  : ipc_message * app_runtime :=
  match capacities with
  | [] => (out, rt)
  | wanted :: capacities' =>
    if IPC_PAYLOAD_MAX - im_length out <? IPC_DGRAM_HEADER then (out, rt) else
    let available := IPC_PAYLOAD_MAX - im_length out - IPC_DGRAM_HEADER in
    let capacity := if wanted <? available then wanted else available in
    let '(n, datagram, rt) := core_recvfrom fd capacity rt in
    if n <? 0 then ((if truth i then out else set_im_result (s32 n) out), rt) else
    let '(bytes, source) := default ([], zero_ps_sockaddr) datagram in
    receive_datagrams (i + 1) capacities' fd rt
      (out |> set_im_data (take (Z.to_nat (im_length out)) (im_data out) ++ ipc_datagram_encode source (u32 n) ++ bytes)
           |> set_im_length (u32 (im_length out + IPC_DGRAM_HEADER + n)) |> set_im_result (i + 1))
  end.

Definition receive_batch (m out : ipc_message) (rt : app_runtime) : ipc_message * app_runtime :=
  match parse_capacities (Z.to_nat (im_a m)) m 0 with
  | None => (set_im_result (- EINVAL) out, rt)
  | Some capacities => receive_datagrams 0 capacities (im_fd m) rt out
  end.

(** [IPC_CLEANUP]: every open socket of the session is closed. *)
Definition cleanup_socket (owner : Z) (rt : app_runtime) (i : nat) : app_runtime :=
  let s := sock rt i in
  if so_allocated s && so_open s && (so_owner s =? owner) then (core_close submit (so_fd s) rt).2 else rt.

Definition dispatch_cleanup (owner : Z) (rt : app_runtime) : app_runtime :=
  foldl (cleanup_socket owner) rt (seq 0 (Z.to_nat (ss_capacity (rt_sockets rt)))).

(** [out->result = ...] for a call that only answers a code. *)
Definition answer (out : ipc_message) (r : Z * app_runtime) : ipc_message * app_runtime :=
  (set_im_result (s32 r.1) out, r.2).

(** The switch of [daemon_dispatch]. *)
Definition dispatch_call (m out : ipc_message) (rt : app_runtime) : ipc_message * app_runtime :=
  let op := im_op m in
  let fd := im_fd m in
  if op =? IPC_BIND then answer out (core_bind fd (im_addr m) rt) else
  if op =? IPC_CONNECT then answer out (core_connect submit fd (im_addr m) rt) else
  if op =? IPC_LISTEN then answer out (core_listen fd (im_a m) rt) else
  if op =? IPC_ACCEPT then
    let '(rc, peer, rt) := core_accept fd rt in
    answer (match peer with Some addr => set_im_addr addr out | None => out end) (rc, rt) else
  if op =? IPC_CLOSE then answer out (core_close submit fd rt) else
  if op =? IPC_SEND then answer out (core_send submit fd (take (Z.to_nat (im_length m)) (im_data m)) rt) else
  if op =? IPC_SENDTO then
    answer out (core_sendto submit fd (take (Z.to_nat (im_length m)) (im_data m)) (im_addr m) rt) else
  if op =? IPC_RECV then
    let '(rc, bytes, rt) := core_recv submit fd (im_a m) rt in answer (set_im_data bytes out) (rc, rt) else
  if op =? IPC_RECVFROM then
    let '(rc, datagram, rt) := core_recvfrom fd (im_a m) rt in
    answer (match datagram with
            | Some (bytes, source) => out |> set_im_data bytes |> set_im_addr source
            | None => out
            end) (rc, rt) else
  if op =? IPC_SENDMMSG then send_batch m out rt else
  if op =? IPC_RECVMMSG then receive_batch m out rt else
  (out, rt).

Definition response_to (request : daemon_item) : ipc_message :=
  let m := di_message request in
  mk_ipc_message (im_op m) (im_id m) 0 (im_fd m) 0 0 0 (- EOPNOTSUPP) zero_ps_sockaddr [].

Definition dispatch_message (request : daemon_item) (rt : app_runtime) : ipc_message * app_runtime :=
  let m := di_message request in
  let out := response_to request in
  if negb (truth (di_owner request)) then (set_im_result (- EINVAL) out, rt) else
  if im_op m =? IPC_CLEANUP then (set_im_result 0 out, dispatch_cleanup (di_owner request) rt) else
  if negb (ipc_request_valid m) then (set_im_result (- EINVAL) out, rt) else
  if im_op m =? IPC_SOCKET then
    let '(fd, rt) := core_socket (im_a m) (im_b m) (im_c m) rt in
    (set_im_result fd out,
     if 0 <=? fd then match socket_lookup rt fd with
                      | Some i => alter_sock i (set_so_owner (di_owner request)) rt
                      | None => rt
                      end else rt) else
  match socket_lookup rt (im_fd m) with
  | None => (set_im_result (- EBADF) out, rt)
  | Some i =>
    let s := sock rt i in
    if negb (so_open s) || negb (so_owner s =? di_owner request) then (set_im_result (- EBADF) out, rt) else
    if ((im_op m =? IPC_SENDMMSG) || (im_op m =? IPC_RECVMMSG)) && negb (so_type s =? PS_SOCK_DGRAM)
    then (set_im_result (- EOPNOTSUPP) out, rt) else
    let '(out, rt) := dispatch_call m out rt in
    (if ((im_op m =? IPC_RECV) || (im_op m =? IPC_RECVFROM)) && (0 <=? im_result out)
     then set_im_length (u32 (im_result out)) out else out, rt)
  end.

Definition daemon_dispatch (request : daemon_item) (rt : app_runtime) : daemon_item * app_runtime :=
  let '(out, rt) := dispatch_message request rt in (mk_daemon_item (di_owner request) out, rt).

(** [service->requests] and [service->responses]. *)
Record daemon_rings : Type := mk_daemon_rings {
  dr_requests : daemon_queue;
  dr_responses : daemon_queue
}.

(** The loop of [daemon_progress], at most [budget] more requests; the write to
    the event descriptor that follows it is not modelled. *)
Fixpoint progress_loop (budget : nat) (count : Z) (rings : daemon_rings) (rt : app_runtime)
  : Z * daemon_rings * app_runtime :=
  match budget with
  | O => (count, rings, rt)
  | S budget' =>
    if negb (daemon_queue_room (dr_responses rings)) then (count, rings, rt) else
    match daemon_queue_pop (dr_requests rings) with
    | (None, _) => (count, rings, rt)
    | (Some request, requests) =>
      let '(response, rt) := daemon_dispatch request rt in
      let '(_, responses) := daemon_queue_push (dr_responses rings) response in
      progress_loop budget' (count + 1) (mk_daemon_rings requests responses) rt
    end
  end.

Definition daemon_progress (rings : daemon_rings) (rt : app_runtime) : Z * daemon_rings * app_runtime :=
  progress_loop 16 0 rings rt.
End dispatch.
