(* ===== verification/Client.v ===== *)
(** The client library of [src/client.c]: one request at a time over the stream
    socket of the daemon, the [ps_*] calls and their batches.  The kernel is an
    argument: the answers of [poll], [send] and [recv] in the order of the calls;
    when no answer of [poll] is left the deadline has passed. *)
From S2P Require Import Prelude.
From S2P Require Import Dpdk.
From S2P Require Import Types.
From S2P Require Import Ipc.
From S2P Require Import Queue.
From S2P Require Import Control.
From S2P Require Import ControlInv.
From S2P Require Import ControlFrames.
From S2P Require Import Graph.
From S2P Require Import Sockets.
From S2P Require Import CoreSocket.
From S2P Require Import Dispatch.

Definition ENAMETOOLONG : Z := 36.

(** * The socket *)

Inductive poll_answer : Type :=
| Interrupted
| PollFailed (errno : Z)
| PollTimeout
| Revents (events : Z).

(** What the kernel will answer, and what was written so far. *)
Record wire : Type := mk_wire {
  wi_polls : list poll_answer;
  wi_sends : list (io_result Z);
  wi_recvs : list (io_result (list Z));
  wi_written : list Z
}.
Definition zero_wire : wire := mk_wire [] [] [] [].
#[export] Instance wire_inhabited : Inhabited wire := populate zero_wire.
Definition set_wi_polls (v : list poll_answer) (r : wire) : wire := mk_wire v (wi_sends r) (wi_recvs r) (wi_written r).
Definition set_wi_sends (v : list (io_result Z)) (r : wire) : wire := mk_wire (wi_polls r) v (wi_recvs r) (wi_written r).
Definition set_wi_recvs (v : list (io_result (list Z))) (r : wire) : wire := mk_wire (wi_polls r) (wi_sends r) v (wi_written r).
Definition set_wi_written (v : list Z) (r : wire) : wire := mk_wire (wi_polls r) (wi_sends r) (wi_recvs r) v.

(** One round of [wait_socket]: its result, or [None] to poll again. *)
Definition wait_step (events : Z) (answer : poll_answer) : option Z :=
  match answer with
  | Interrupted => None
  | PollFailed errno => Some (- errno)
  | PollTimeout => Some (- ETIMEDOUT)
  | Revents got =>
    if truth (Z.land got events) then Some 0 else
    if truth (Z.land got poll_failure) then Some (- ECONNRESET) else None
  end.

(** [transfer(data, size, 1, deadline)]. *)
Fixpoint transfer_out (polls : list poll_answer) (data : list Z) (w : wire) : Z * wire :=
  match data with
  | [] => (0, set_wi_polls polls w)
  | _ =>
    match polls with
    | [] => (- ETIMEDOUT, set_wi_polls [] w)
    | answer :: polls' =>
      match wait_step POLLOUT answer with
      | None => transfer_out polls' data w
      | Some rc =>
        if truth rc then (rc, set_wi_polls polls' w) else
        match wi_sends w with
        | [] => transfer_out polls' data w
        | Failed errno :: sends =>
          let w := set_wi_sends sends w in
          if retry errno then transfer_out polls' data w else (- errno, set_wi_polls polls' w)
        | Answered n :: sends =>
          let w := set_wi_sends sends w in
          let n := Z.min n (Z.of_nat (length data)) in
          if n <=? 0 then (- ECONNRESET, set_wi_polls polls' w) else
          transfer_out polls' (drop (Z.to_nat n) data) (set_wi_written (wi_written w ++ take (Z.to_nat n) data) w)
        end
      end
    end
  end.

(** [transfer(data, size, 0, deadline)]: also the bytes that came in. *)
Fixpoint transfer_in (polls : list poll_answer) (size : nat) (got : list Z) (w : wire) : Z * list Z * wire :=
  if Nat.eqb size 0 then (0, got, set_wi_polls polls w) else
  match polls with
  | [] => (- ETIMEDOUT, got, set_wi_polls [] w)
  | answer :: polls' =>
    match wait_step POLLIN answer with
    | None => transfer_in polls' size got w
    | Some rc =>
      if truth rc then (rc, got, set_wi_polls polls' w) else
      match wi_recvs w with
      | [] => transfer_in polls' size got w
      | Failed errno :: recvs =>
        let w := set_wi_recvs recvs w in
        if retry errno then transfer_in polls' size got w else (- errno, got, set_wi_polls polls' w)
      | Answered bytes :: recvs =>
        let w := set_wi_recvs recvs w in
        let data := take size bytes in
        if Nat.eqb (length data) 0 then (- ECONNRESET, got, set_wi_polls polls' w) else
        transfer_in polls' (size - length data) (got ++ data) w
      end
    end
  end.

Definition send_all (data : list Z) (w : wire) : Z * wire := transfer_out (wi_polls w) data w.
Definition recv_all (size : Z) (w : wire) : Z * list Z * wire := transfer_in (wi_polls w) (Z.to_nat size) [] w.

(** * The session *)

(** The static [client]; [fd] is -1 when there is no session. *)
Record client_state : Type := mk_client_state {
  cl_fd : Z;
  cl_error : Z;
  cl_next_id : Z;
  cl_features : Z;
  cl_pid : Z
}.
Definition zero_client_state : client_state := mk_client_state (-1) 0 0 0 0.
#[export] Instance client_state_inhabited : Inhabited client_state := populate zero_client_state.
Definition set_cl_fd (v : Z) (r : client_state) : client_state := mk_client_state v (cl_error r) (cl_next_id r) (cl_features r) (cl_pid r).
Definition set_cl_error (v : Z) (r : client_state) : client_state := mk_client_state (cl_fd r) v (cl_next_id r) (cl_features r) (cl_pid r).
Definition set_cl_next_id (v : Z) (r : client_state) : client_state := mk_client_state (cl_fd r) (cl_error r) v (cl_features r) (cl_pid r).
Definition set_cl_features (v : Z) (r : client_state) : client_state := mk_client_state (cl_fd r) (cl_error r) (cl_next_id r) v (cl_pid r).
Definition set_cl_pid (v : Z) (r : client_state) : client_state := mk_client_state (cl_fd r) (cl_error r) (cl_next_id r) (cl_features r) v.
#[export] Instance client_state_eq_dec : EqDecision client_state.
Proof. solve_decision. Defined.

Definition broken (error : Z) (c : client_state) : Z * client_state := (error, c |> set_cl_fd (-1) |> set_cl_error (- ECONNRESET)).

(** After [fork] the session of the parent is left alone. *)
Definition own_session (pid : Z) (c : client_state) : client_state :=
  if cl_pid c =? pid then c else c |> set_cl_fd (-1) |> set_cl_error 0 |> set_cl_pid pid.

Definition take_id (c : client_state) : Z :=
  let id := u32 (cl_next_id c + 1) in if truth id then id else u32 (id + 1).

Definition set_im_id (v : Z) (m : ipc_message) : ipc_message :=
  mk_ipc_message (im_op m) v (im_length m) (im_fd m) (im_a m) (im_b m) (im_c m) (im_result m) (im_addr m) (im_data m).

(** The exchange: the reply, or the error that breaks the session. *)
Definition exchange (m : ipc_message) (w : wire) : (Z + ipc_message) * wire :=
  let '(rc, w) := send_all (ipc_encode m) w in
  let '(rc, w) := if truth rc then (rc, w) else
                  if truth (im_length m) then send_all (padded (im_length m) (im_data m)) w else (0, w) in
  if truth rc then (inl rc, w) else
  let '(rc, header, w) := recv_all IPC_HEADER_SIZE w in
  if truth rc then (inl rc, w) else
  let '(rc, answer) := ipc_decode header m in
  if truth rc then (inl rc, w) else
  if negb (im_id answer =? im_id m) || negb (im_op answer =? im_op m) || ((im_result answer <? 0) && truth (im_length answer))
  then (inl (- EPROTO), w) else
  if truth (im_length answer) then
    let '(rc, data, w) := recv_all (im_length answer) w in
    if truth rc then (inl rc, w) else (inr (set_im_data data answer), w)
  else (inr answer, w).

(** The result, the message as the caller finds it afterwards, the session. *)
Definition request (pid : Z) (m : ipc_message) (w : wire) (c : client_state) : Z * ipc_message * wire * client_state :=
  let c := own_session pid c in
  if cl_fd c <? 0 then ((if truth (cl_error c) then cl_error c else - ENOTCONN), m, w, c) else
  let id := take_id c in
  let c := set_cl_next_id id c in
  let m := set_im_id id m in
  match exchange m w with
  | (inl rc, w) => let '(rc, c) := broken rc c in (rc, m, w, c)
  | (inr answer, w) => (im_result answer, answer, w, c)
  end.

Definition ps_fini (pid : Z) (c : client_state) : client_state :=
  c |> set_cl_fd (-1) |> set_cl_error 0 |> set_cl_next_id 0 |> set_cl_features 0 |> set_cl_pid pid.

(** [path] is the argument after the default; [fd] what [socket] answers, [connected]
    what [connect] does, [so_error] what [getsockopt] finds. *)
Definition ps_init (pid : Z) (path : string) (fd : Z) (connected : option Z) (so_error : Z + Z) (w : wire) (c : client_state) : Z * wire * client_state :=
  if (cl_pid c =? pid) && (0 <=? cl_fd c) then (- EALREADY, w, c) else
  let c := ps_fini pid c in
  if String.eqb path EmptyString || Nat.leb SUN_PATH (String.length path) then (- ENAMETOOLONG, w, c) else
  if fd <? 0 then (fd, w, set_cl_fd (-1) c) else
  let c := set_cl_fd fd c in
  let '(rc, w) :=
    match connected with
    | None => (0, w)
    | Some errno =>
      if negb (errno =? EINPROGRESS) then (- errno, w) else
      (fix wait polls := match polls with
        | [] => (- ETIMEDOUT, set_wi_polls [] w)
        | answer :: polls' =>
          match wait_step POLLOUT answer with
          | None => wait polls'
          | Some rc => (if truth rc then rc else match so_error with inl errno => - errno | inr error => - error end, set_wi_polls polls' w)
          end
        end) (wi_polls w)
    end in
  if truth rc then let '(rc, c) := broken rc c in (rc, w, c) else
  let '(rc, m, w, c) := request pid (mk_ipc_message IPC_HELLO 0 0 0 0 0 0 0 zero_ps_sockaddr []) w c in
  if truth rc then let '(rc, c) := broken rc c in (rc, w, c) else
  (0, w, set_cl_features (u32 (im_b m)) c).

(** * Calls *)

Definition plain (op fd a b c : Z) (addr : ps_sockaddr) : ipc_message := mk_ipc_message op 0 0 fd a b c 0 addr [].

(** [struct ps_mmsg]: the buffer, [None] for a null pointer, its length and the address. *)
Record ps_mmsg : Type := mk_ps_mmsg {
  mm_data : option (list Z);
  mm_len : Z;
  mm_addr : ps_sockaddr
}.
Definition zero_ps_mmsg : ps_mmsg := mk_ps_mmsg None 0 zero_ps_sockaddr.
#[export] Instance ps_mmsg_inhabited : Inhabited ps_mmsg := populate zero_ps_mmsg.
Definition set_mm_data (v : option (list Z)) (r : ps_mmsg) : ps_mmsg := mk_ps_mmsg v (mm_len r) (mm_addr r).
Definition set_mm_len (v : Z) (r : ps_mmsg) : ps_mmsg := mk_ps_mmsg (mm_data r) v (mm_addr r).
Definition set_mm_addr (v : ps_sockaddr) (r : ps_mmsg) : ps_mmsg := mk_ps_mmsg (mm_data r) (mm_len r) v.
#[export] Instance ps_mmsg_eq_dec : EqDecision ps_mmsg.
Proof. solve_decision. Defined.

Section calls.
Context (pid : Z).

Definition ps_socket (domain type protocol : Z) (w : wire) (c : client_state) : Z * wire * client_state :=
  let '(rc, _, w, c) := request pid (plain IPC_SOCKET 0 domain type protocol zero_ps_sockaddr) w c in (rc, w, c).

Definition address_request (op fd : Z) (addr : option ps_sockaddr) (w : wire) (c : client_state) : Z * wire * client_state :=
  match addr with
  | None => (- EINVAL, w, c)
  | Some addr => let '(rc, _, w, c) := request pid (plain op fd 0 0 0 addr) w c in (rc, w, c)
  end.
Definition ps_bind (fd : Z) := address_request IPC_BIND fd.
Definition ps_connect (fd : Z) := address_request IPC_CONNECT fd.

Definition ps_close (fd : Z) (w : wire) (c : client_state) : Z * wire * client_state :=
  let '(rc, _, w, c) := request pid (plain IPC_CLOSE fd 0 0 0 zero_ps_sockaddr) w c in (rc, w, c).
Definition ps_listen (fd backlog : Z) (w : wire) (c : client_state) : Z * wire * client_state :=
  let '(rc, _, w, c) := request pid (plain IPC_LISTEN fd backlog 0 0 zero_ps_sockaddr) w c in (rc, w, c).

(** The peer's address too. *)
Definition ps_accept (fd : Z) (w : wire) (c : client_state) : Z * option ps_sockaddr * wire * client_state :=
  let '(rc, m, w, c) := request pid (plain IPC_ACCEPT fd 0 0 0 zero_ps_sockaddr) w c in
  (rc, if 0 <=? rc then Some (im_addr m) else None, w, c).

(** A buffer is [None] for a null pointer; its length is [len]. *)
Definition send_request (op fd : Z) (buf : option (list Z)) (len : Z) (dst : option ps_sockaddr) (w : wire) (c : client_state)
  : Z * wire * client_state :=
  match buf, truth len with
  | None, true => (- EINVAL, w, c)
  | _, _ =>
    if (op =? IPC_SENDTO) && (bool_decide (dst = None) || (PS_DGRAM_MAX_PAYLOAD <? len))
    then (if bool_decide (dst = None) then - EINVAL else - EMSGSIZE, w, c) else
    let length := if IPC_PAYLOAD_MAX <? len then IPC_PAYLOAD_MAX else len in
    let m := mk_ipc_message op 0 length fd 0 0 0 0 (default zero_ps_sockaddr dst) (take (Z.to_nat length) (default [] buf)) in
    let '(rc, _, w, c) := request pid m w c in
    if (0 <=? rc) && ((if len <? IPC_PAYLOAD_MAX then len else IPC_PAYLOAD_MAX) <? rc)
    then let '(rc, c) := broken (- EPROTO) c in (rc, w, c) else (rc, w, c)
  end.
Definition ps_send (fd : Z) (buf : option (list Z)) (len : Z) := send_request IPC_SEND fd buf len None.
Definition ps_sendto (fd : Z) (buf : option (list Z)) (len : Z) (dst : option ps_sockaddr) := send_request IPC_SENDTO fd buf len dst.

(** The bytes written to the buffer and the source. *)
Definition recv_request (op fd : Z) (buffer : bool) (len : Z) (w : wire) (c : client_state)
  : Z * option (list Z * ps_sockaddr) * wire * client_state :=
  if negb buffer && truth len then (- EINVAL, None, w, c) else
  let requested := if IPC_PAYLOAD_MAX <? len then IPC_PAYLOAD_MAX else len in
  let '(rc, m, w, c) := request pid (plain op fd requested 0 0 zero_ps_sockaddr) w c in
  if rc <? 0 then (rc, None, w, c) else
  if negb (u32 rc =? im_length m) || (requested <? im_length m) then let '(rc, c) := broken (- EPROTO) c in (rc, None, w, c) else
  (rc, Some (take (Z.to_nat (im_length m)) (im_data m), im_addr m), w, c).
Definition ps_recv (fd : Z) (buffer : bool) (len : Z) := recv_request IPC_RECV fd buffer len.
Definition ps_recvfrom (fd : Z) (buffer : bool) (len : Z) (source : bool) (w : wire) (c : client_state)
  : Z * option (list Z * ps_sockaddr) * wire * client_state :=
  if negb source then (- EINVAL, None, w, c) else recv_request IPC_RECVFROM fd buffer len w c.

(** * Batches *)

Definition batch_valid (present : bool) (count : Z) (c : client_state) : Z * client_state :=
  if negb (cl_pid c =? pid) then (- ENOTCONN, ps_fini pid c) else
  if cl_fd c <? 0 then ((if truth (cl_error c) then cl_error c else - ENOTCONN), c) else
  if negb present || negb (truth count) || (PS_DGRAM_BATCH_MAX <? count) then (- EINVAL, c) else
  if negb (truth (Z.land (cl_features c) IPC_FEATURE_DGRAM_BATCH)) then (- EOPNOTSUPP, c) else (0, c).

(** The loop of [ps_sendmmsg]: the error of a datagram, or the message. *)
Fixpoint encode_batch (messages : list ps_mmsg) (m : ipc_message) : Z + ipc_message :=
  match messages with
  | [] => inr m
  | message :: messages' =>
    if bool_decide (mm_data message = None) && truth (mm_len message) then inl (- EINVAL) else
    if PS_DGRAM_MAX_PAYLOAD <? mm_len message then inl (- EMSGSIZE) else
    if IPC_PAYLOAD_MAX - im_length m <? IPC_DGRAM_HEADER + mm_len message then inr m else
    encode_batch messages'
      (mk_ipc_message (im_op m) (im_id m) (im_length m + IPC_DGRAM_HEADER + mm_len message) (im_fd m) (im_a m + 1) (im_b m) (im_c m) (im_result m) (im_addr m)
         (im_data m ++ ipc_datagram_encode (mm_addr message) (mm_len message) ++ take (Z.to_nat (mm_len message)) (default [] (mm_data message))))
  end.

Definition ps_sendmmsg (fd : Z) (messages : option (list ps_mmsg)) (count : Z) (w : wire) (c : client_state) : Z * wire * client_state :=
  let '(error, c) := batch_valid (bool_decide (messages <> None)) count c in
  if truth error then (error, w, c) else
  match encode_batch (take (Z.to_nat count) (default [] messages)) (plain IPC_SENDMMSG fd 0 0 0 zero_ps_sockaddr) with
  | inl error => (error, w, c)
  | inr m =>
    let '(rc, answer, w, c) := request pid m w c in
    if (0 <=? rc) && (negb (truth rc) || (im_a m <? rc) || truth (im_length answer))
    then let '(rc, c) := broken (- EPROTO) c in (rc, w, c) else (rc, w, c)
  end.

(** The capacities [ps_recvmmsg] sends. *)
Definition capacity (message : ps_mmsg) : Z := if PS_DGRAM_MAX_PAYLOAD <? mm_len message then PS_DGRAM_MAX_PAYLOAD else mm_len message.
Definition capacities (messages : list ps_mmsg) : list Z := concat ((fun message => le32 (htonl (capacity message))) <$> messages).

(** The first loop over the answer: the offset, length and source of each
    datagram, and the bytes used. *)
Fixpoint decode_batch (messages : list ps_mmsg) (m : ipc_message) (used : Z) : option (list (Z * Z * ps_sockaddr) * Z) :=
  match messages with
  | [] => Some ([], used)
  | message :: messages' =>
    '(source, len) ← ipc_datagram_decode (data_from m used) (im_length m - used);
    if mm_len message <? len then None else
    '(rest, total) ← decode_batch messages' m (used + IPC_DGRAM_HEADER + len);
    Some ((used + IPC_DGRAM_HEADER, len, source) :: rest, total)
  end.

(** The second loop: [messages[i]] after the copy. *)
Definition filled (m : ipc_message) (message : ps_mmsg) (datagram : Z * Z * ps_sockaddr) : ps_mmsg :=
  let '(offset, len, source) := datagram in
  mk_ps_mmsg (if truth len then Some (take (Z.to_nat len) (data_from m offset)) else mm_data message) len source.

(** The result and the messages that were filled. *)
Definition ps_recvmmsg (fd : Z) (messages : option (list ps_mmsg)) (count : Z) (w : wire) (c : client_state)
  : Z * list ps_mmsg * wire * client_state :=
  let '(error, c) := batch_valid (bool_decide (messages <> None)) count c in
  if truth error then (error, [], w, c) else
  let messages := take (Z.to_nat count) (default [] messages) in
  if existsb (fun message => bool_decide (mm_data message = None) && truth (mm_len message)) messages then (- EINVAL, [], w, c) else
  let m := mk_ipc_message IPC_RECVMMSG 0 (count * 4) fd count 0 0 0 zero_ps_sockaddr (capacities messages) in
  let '(rc, answer, w, c) := request pid m w c in
  let bad := let '(rc, c) := broken (- EPROTO) c in (rc, [], w, c) in
  if rc <? 0 then (rc, [], w, c) else
  if negb (truth rc) || (count <? rc) then bad else
  match decode_batch (take (Z.to_nat rc) messages) answer 0 with
  | None => bad
  | Some (datagrams, used) =>
    if negb (used =? im_length answer) then bad else
    (rc, zip_with (filled answer) messages datagrams, w, c)
  end.
End calls.
