(* ===== verification/ClientSpec.v ===== *)
(** What the client library of [src/client.c] guarantees: requests leave as whole
    frames, replies are matched to them, buffers are never overrun whatever the
    daemon sends, and a broken session stays broken.  The batches the client and
    the dispatcher exchange decode to the datagrams that were put in. *)
From S2P Require Import Prelude.
From S2P Require Import Dpdk.
From S2P Require Import Types.
From S2P Require Import Ipc.
From S2P Require Import Control.
From S2P Require Import ControlInv.
From S2P Require Import Dispatch.
From S2P Require Import Client.

(** * Batches *)

(** Datagrams on the wire: the header and the payload of each. *)
Definition datagram : Type := ps_sockaddr * list Z.
Definition datagram_bytes (d : datagram) : list Z := ipc_datagram_encode d.1 (Z.of_nat (length d.2)) ++ d.2.
Definition batch_bytes (l : list datagram) : list Z := concat (datagram_bytes <$> l).
Definition datagram_typed (d : datagram) : Prop :=
  is_u32 (sa_ip_be d.1) /\ is_u16 (sa_port d.1) /\ Z.of_nat (length d.2) <= PS_DGRAM_MAX_PAYLOAD.

Lemma length_datagram_encode addr n : length (ipc_datagram_encode addr n) = 12%nat.
Proof. done. Qed.

Lemma data_from_skip m pre rest : im_data m = pre ++ rest -> data_from m (Z.of_nat (length pre)) = rest.
Proof. intros H. unfold data_from. by rewrite Nat2Z.id, H, drop_app_length. Qed.

(** One datagram of a batch, decoded in place. *)
Lemma decode_in_batch m pre d l : im_data m = pre ++ batch_bytes (d :: l) -> im_length m = Z.of_nat (length (im_data m)) -> datagram_typed d ->
  ipc_datagram_decode (data_from m (Z.of_nat (length pre))) (im_length m - Z.of_nat (length pre)) = Some (d.1, Z.of_nat (length d.2)) /\
  take (length d.2) (data_from m (Z.of_nat (length pre) + IPC_DGRAM_HEADER)) = d.2 /\
  im_data m = (pre ++ datagram_bytes d) ++ batch_bytes l /\
  Z.of_nat (length (pre ++ datagram_bytes d)) = Z.of_nat (length pre) + IPC_DGRAM_HEADER + Z.of_nat (length d.2).
Proof.
  intros Hd Hl (Hip & Hport & Hlen). unfold batch_bytes in Hd. rewrite fmap_cons in Hd. cbn [concat] in Hd. fold (batch_bytes l) in Hd.
  assert (Hsplit : im_data m = (pre ++ datagram_bytes d) ++ batch_bytes l) by (by rewrite Hd, app_assoc).
  assert (Hsize : Z.of_nat (length (pre ++ datagram_bytes d)) = Z.of_nat (length pre) + IPC_DGRAM_HEADER + Z.of_nat (length d.2)).
  { unfold datagram_bytes. rewrite !length_app, length_datagram_encode. unfold IPC_DGRAM_HEADER. lia. }
  split_and!; [| |done|done].
  - rewrite (data_from_skip m pre _ Hd). unfold datagram_bytes. rewrite <- app_assoc.
    replace (im_length m - Z.of_nat (length pre)) with (IPC_DGRAM_HEADER + Z.of_nat (length d.2) + Z.of_nat (length (batch_bytes l))).
    + rewrite datagram_roundtrip by done. by destruct d.
    + rewrite Hl, Hsplit, length_app. lia.
  - replace (Z.of_nat (length pre) + IPC_DGRAM_HEADER) with (Z.of_nat (length (pre ++ ipc_datagram_encode d.1 (Z.of_nat (length d.2))))).
    + rewrite (data_from_skip m _ (d.2 ++ batch_bytes l)); [by rewrite take_app_length|]. rewrite Hd. unfold datagram_bytes. by rewrite <- !app_assoc.
    + rewrite length_app, length_datagram_encode. unfold IPC_DGRAM_HEADER. lia.
Qed.

(** [parse_batch] of the dispatcher. *)
Lemma parse_batch_bytes m l pre : im_data m = pre ++ batch_bytes l -> im_length m = Z.of_nat (length (im_data m)) -> Forall datagram_typed l ->
  exists todo, parse_batch (length l) m (Z.of_nat (length pre)) = Some (todo, im_length m) /\
    Forall2 (fun d '(addr, offset, len) => addr = d.1 /\ take (Z.to_nat len) (data_from m offset) = d.2) l todo.
Proof.
  revert pre. induction l as [|d l IH]; intros pre Hd Hl Ht; cbn [parse_batch length].
  - exists []. split; [|constructor]. do 2 f_equal. rewrite Hl, Hd. unfold batch_bytes. cbn. by rewrite app_nil_r.
  - apply Forall_cons in Ht as [Hdt Ht]. destruct (decode_in_batch m pre d l Hd Hl Hdt) as (E & Hp & Hd' & Hs). rewrite E, <- Hs.
    destruct (IH (pre ++ datagram_bytes d) Hd' Hl Ht) as (todo & Eq & Hall). rewrite Eq. eexists. split; [done|]. constructor; [|done]. split; [done|]. by rewrite Nat2Z.id.
Qed.

(** [decode_batch] of the client, when the buffers are large enough. *)
Lemma decode_batch_bytes m l messages pre : im_data m = pre ++ batch_bytes l -> im_length m = Z.of_nat (length (im_data m)) -> Forall datagram_typed l ->
  Forall2 (fun d message => Z.of_nat (length d.2) <= mm_len message) l messages ->
  exists found, decode_batch messages m (Z.of_nat (length pre)) = Some (found, im_length m) /\
    zip_with (filled m) messages found = zip_with (fun message d => mk_ps_mmsg (if Nat.eqb (length d.2) 0 then mm_data message else Some d.2) (Z.of_nat (length d.2)) d.1) messages l.
Proof.
  intros Hd Hl Ht Hm. revert pre Hd Ht. induction Hm as [|d message l messages Hmm Hms IH]; intros pre Hd Ht; cbn [decode_batch].
  - exists []. split; [|done]. do 2 f_equal. rewrite Hl, Hd. unfold batch_bytes. cbn. by rewrite app_nil_r.
  - apply Forall_cons in Ht as [Hdt Ht]. destruct (decode_in_batch m pre d l Hd Hl Hdt) as (E & Hp & Hd' & Hs). rewrite E. cbn.
    replace (mm_len message <? Z.of_nat (length d.2)) with false by (symmetry; by apply Z.ltb_ge). rewrite <- Hs.
    destruct (IH (pre ++ datagram_bytes d) Hd' Ht) as (found & Eq & Hz). rewrite Eq. cbn. eexists. split; [done|]. cbn. f_equal; [|done].
    rewrite Nat2Z.id, Hp. destruct d as [addr payload]. cbn. destruct payload; done.
Qed.

(** A message of the caller as a datagram. *)
Definition mmsg_datagram (message : ps_mmsg) : datagram := (mm_addr message, take (Z.to_nat (mm_len message)) (default [] (mm_data message))).
Definition mmsg_typed (message : ps_mmsg) : Prop :=
  is_u32 (sa_ip_be (mm_addr message)) /\ is_u16 (sa_port (mm_addr message)) /\ 0 <= mm_len message /\
  forall bytes, mm_data message = Some bytes -> mm_len message <= Z.of_nat (length bytes).

Lemma mmsg_length message : mmsg_typed message -> bool_decide (mm_data message = None) && truth (mm_len message) = false ->
  Z.of_nat (length (mmsg_datagram message).2) = mm_len message.
Proof.
  intros (_ & _ & Hl & Hb) Hn. unfold mmsg_datagram. cbn. rewrite length_take. destruct (mm_data message) as [bytes|]; cbn in *.
  - specialize (Hb bytes eq_refl). lia.
  - apply truth_false in Hn. rewrite Hn. done.
Qed.

Lemma batch_bytes_headers l : IPC_DGRAM_HEADER * Z.of_nat (length l) <= Z.of_nat (length (batch_bytes l)).
Proof.
  induction l as [|d l IH]; [done|]. unfold batch_bytes in *. rewrite fmap_cons. cbn [concat length]. rewrite length_app. unfold datagram_bytes at 1.
  rewrite length_app, length_datagram_encode. unfold IPC_DGRAM_HEADER in *. lia.
Qed.

Lemma sendmmsg_valid m : im_op m = IPC_SENDMMSG -> im_result m = 0 -> im_length m <= IPC_PAYLOAD_MAX -> 1 <= im_a m <= PS_DGRAM_BATCH_MAX ->
  IPC_DGRAM_HEADER * im_a m <= im_length m -> ipc_request_valid m = true.
Proof.
  intros Hop Hr Hl Ha Hh. unfold ipc_request_valid. rewrite Hop, Hr. cbn [Z.ltb Z.eqb Z.compare Pos.eqb Pos.compare Pos.compare_cont IPC_SENDMMSG IPC_HELLO IPC_RECVMMSG IPC_SEND IPC_SENDTO IPC_RECV IPC_RECVFROM negb andb orb].
  replace (truth 0) with false by done. cbn [orb].
  replace (IPC_PAYLOAD_MAX <? im_length m) with false by (symmetry; apply Z.ltb_ge; lia).
  replace (im_a m <? 1) with false by (symmetry; apply Z.ltb_ge; lia). replace (PS_DGRAM_BATCH_MAX <? im_a m) with false by (symmetry; apply Z.ltb_ge; lia).
  cbn. rewrite u32_id by (unfold is_u32, PS_DGRAM_BATCH_MAX in *; lia).
  replace (im_length m <? im_a m * IPC_DGRAM_HEADER) with false by (symmetry; apply Z.ltb_ge; lia). done.
Qed.

Lemma encode_batch_bytes messages m m' : Forall mmsg_typed messages -> encode_batch messages m = inr m' ->
  im_length m = Z.of_nat (length (im_data m)) -> im_length m <= IPC_PAYLOAD_MAX ->
  exists k, (k <= length messages)%nat /\ let l := mmsg_datagram <$> take k messages in
    im_data m' = im_data m ++ batch_bytes l /\ im_a m' = im_a m + Z.of_nat k /\ im_length m' = Z.of_nat (length (im_data m')) /\ im_length m' <= IPC_PAYLOAD_MAX /\
    Forall datagram_typed l /\ im_op m' = im_op m /\ im_fd m' = im_fd m /\ im_result m' = im_result m /\ (im_length m = 0 -> messages <> [] -> k <> 0%nat).
Proof.
  revert m. induction messages as [|message messages IH]; intros m Ht H Hl Hmax; cbn [encode_batch] in H.
  { injection H as <-. exists 0%nat. split; [done|]. cbn. unfold batch_bytes. cbn. rewrite app_nil_r. split_and!; try done; try lia. }
  apply Forall_cons in Ht as [Hmt Ht]. destruct (bool_decide _ && truth _) eqn:En; [done|]. assert (Hml := mmsg_length message Hmt En).
  destruct (Z.ltb_spec PS_DGRAM_MAX_PAYLOAD (mm_len message)) as [|Hp]; [done|].
  destruct (Z.ltb_spec (IPC_PAYLOAD_MAX - im_length m) (IPC_DGRAM_HEADER + mm_len message)) as [Hfull|Hroom].
  { injection H as <-. exists 0%nat. split; [lia|]. cbn. unfold batch_bytes. cbn. rewrite app_nil_r. split_and!; try done; try lia.
    intros H0 _. unfold IPC_PAYLOAD_MAX, IPC_DGRAM_HEADER, PS_DGRAM_MAX_PAYLOAD in *. lia. }
  set (m1 := mk_ipc_message _ _ _ _ _ _ _ _ _ _) in H.
  assert (Hd1 : im_data m1 = im_data m ++ datagram_bytes (mmsg_datagram message)).
  { unfold m1, datagram_bytes. cbn [im_data]. by rewrite Hml. }
  assert (Hl1 : im_length m1 = Z.of_nat (length (im_data m1))).
  { rewrite Hd1. unfold datagram_bytes. rewrite !length_app, length_datagram_encode. unfold m1. cbn [im_length]. unfold IPC_DGRAM_HEADER. lia. }
  destruct (IH m1 Ht H Hl1) as (k & Hk & E1 & E2 & E3 & E4 & E5 & E6 & E7 & E8 & _); [unfold m1; cbn [im_length]; lia|].
  exists (S k). cbn [length]. split; [lia|]. cbn [take]. rewrite fmap_cons. cbn zeta. split_and!; try done.
  - rewrite E1, Hd1. unfold batch_bytes. rewrite fmap_cons. cbn [concat]. by rewrite app_assoc.
  - rewrite E2. unfold m1. cbn [im_a]. lia.
  - constructor; [|done]. destruct Hmt as (? & ? & _). split; [done|]. split; [done|]. rewrite Hml. lia.
Qed.

(** * Transfers *)

(** A failing system call leaves a positive [errno]. *)
Definition poll_ok (answer : poll_answer) : Prop := match answer with PollFailed errno => 0 < errno | _ => True end.
Definition io_ok {A} (r : io_result A) : Prop := match r with Failed errno => 0 < errno | _ => True end.
Record kernel_ok (w : wire) : Prop := {
  ko_polls : Forall poll_ok (wi_polls w);
  ko_sends : Forall io_ok (wi_sends w);
  ko_recvs : Forall io_ok (wi_recvs w)
}.

Lemma wait_step_ok events answer rc : poll_ok answer -> wait_step events answer = Some rc -> rc = 0 \/ rc < 0.
Proof.
  destruct answer as [|errno| |got]; cbn; [done|intros ? [= <-]; lia|intros _ [= <-]; right; done|intros _].
  destruct (truth _); [intros [= <-]; by left|]. destruct (truth _); [intros [= <-]; by right|done].
Qed.

(** What was written is a prefix of the data, all of it on success. *)
Lemma transfer_out_written polls data w rc w' : Forall poll_ok polls -> Forall io_ok (wi_sends w) -> Forall io_ok (wi_recvs w) ->
  transfer_out polls data w = (rc, w') ->
  kernel_ok w' /\ rc <= 0 /\ exists n, wi_written w' = wi_written w ++ take n data /\ (rc = 0 -> wi_written w' = wi_written w ++ data).
Proof.
  revert data w. induction polls as [|answer polls IH]; intros data w Hp Hs Hr; cbn [transfer_out].
  { destruct data; intros [= <- <-]; (split; [by split|]; split; [done|]; exists 0%nat; cbn; by rewrite ?take_0, app_nil_r). }
  apply Forall_cons in Hp as [Ha Hp].
  destruct data as [|b data]; [intros [= <- <-]; (split; [split; [by constructor|done|done]|]); split; [done|]; exists 0%nat; cbn; by rewrite app_nil_r|].
  assert (Hstop : forall r v, wi_written v = wi_written w -> kernel_ok v -> r < 0 -> (r, v) = (rc, w') ->
    kernel_ok w' /\ rc <= 0 /\ exists n, wi_written w' = wi_written w ++ take n (b :: data) /\ (rc = 0 -> wi_written w' = wi_written w ++ b :: data)).
  { intros r v Hv Hk Hlt [= <- <-]. split; [done|]. split; [lia|]. exists 0%nat. rewrite take_0, app_nil_r. split; [done|lia]. }
  destruct (wait_step POLLOUT answer) as [r|] eqn:Ew; [|by apply IH]. apply wait_step_ok in Ew; [|done].
  destruct (truth r) eqn:Er; [apply truth_true in Er; apply Hstop; [done|by split|lia]|].
  destruct (wi_sends w) as [|[n|errno] sends] eqn:Es; [by apply IH; rewrite ?Es| |]; apply Forall_cons in Hs as [Hone Hs].
  - destruct (Z.leb_spec (Z.min n (Z.of_nat (length (b :: data)))) 0) as [|Hn]; [by apply Hstop|].
    set (k := Z.to_nat (Z.min n (Z.of_nat (length (b :: data))))). intros H. apply IH in H as (Hk & Hrc & j & E1 & E2); [|done..]. cbn in E1, E2.
    split; [done|]. split; [done|]. exists (k + j)%nat. split; [|intros H0; rewrite (E2 H0), <- app_assoc; f_equal; apply (take_drop k (b :: data))].
    rewrite E1, <- app_assoc. f_equal. by rewrite take_take_drop.
  - cbn in Hone. destruct (retry errno) eqn:Ere; [intros H; by apply IH in H|]. apply Hstop; [done|by split|lia].
Qed.

(** On success exactly [size] bytes came in; nothing is written. *)
Lemma transfer_in_length polls size got w rc got' w' : Forall poll_ok polls -> Forall io_ok (wi_sends w) -> Forall io_ok (wi_recvs w) ->
  transfer_in polls size got w = (rc, got', w') ->
  kernel_ok w' /\ rc <= 0 /\ wi_written w' = wi_written w /\ (rc = 0 -> length got' = (length got + size)%nat).
Proof.
  revert size got w. induction polls as [|answer polls IH]; intros size got w Hp Hs Hr; cbn [transfer_in];
    (destruct (Nat.eqb_spec size 0) as [->|Hsize]; [intros [= <- <- <-]; rewrite Nat.add_0_r; by repeat split|]).
  { intros [= <- <- <-]. by repeat split. }
  apply Forall_cons in Hp as [Ha Hp].
  destruct (wait_step POLLIN answer) as [r|] eqn:Ew; [|by apply IH]. apply wait_step_ok in Ew; [|done].
  destruct (truth r) eqn:Er; [apply truth_true in Er; intros [= <- <- <-]; (split; [by split|]); split; [lia|]; split; [done|lia]|].
  destruct (wi_recvs w) as [|[bytes|errno] recvs] eqn:Es; [by apply IH; rewrite ?Es| |]; apply Forall_cons in Hr as [Hone Hr].
  - destruct (Nat.eqb_spec (length (take size bytes)) 0) as [|Hn]; [intros [= <- <- <-]; by repeat split|].
    intros H. apply IH in H as (Hk & Hrc & E1 & E2); [|done..]. split; [done|]. split; [done|]. split; [done|]. intros H0. rewrite (E2 H0), length_app.
    rewrite length_take in *. lia.
  - cbn in Hone. destruct (retry errno) eqn:Ere; [intros H; by apply IH in H|]. intros [= <- <- <-]. (split; [by split|]). split; [lia|]. split; [done|lia].
Qed.

(** * Requests *)

Lemma decode_length_bound h m answer : ipc_decode h m = (0, answer) -> 0 <= im_length answer <= IPC_PAYLOAD_MAX /\ is_s32 (im_result answer).
Proof.
  intros H. split; [|revert H; unfold ipc_decode; destruct (_ || _); [done|]; intros [= <-]; apply s32_range]. split; [by eapply ipc_decode_length|]. revert H. unfold ipc_decode. destruct (_ || _) eqn:E; [done|]. intros [= <-]. cbn.
  rewrite !orb_false_iff in E. destruct E as [[[[[[[[_ _] E] _] _] _] _] _] _]. by apply Z.ltb_ge in E.
Qed.

(** A successful exchange wrote the frame of the request, nothing else, and gives
    a reply with its identifier and operation and all of its data. *)
Lemma exchange_spec m w r w' : kernel_ok w -> 0 <= im_length m -> exchange m w = (r, w') ->
  kernel_ok w' /\ (exists n, wi_written w' = wi_written w ++ take n (frame m)) /\
  match r with
  | inl rc => rc < 0
  | inr answer => wi_written w' = wi_written w ++ frame m /\ im_id answer = im_id m /\ im_op answer = im_op m /\
      0 <= im_length answer <= IPC_PAYLOAD_MAX /\ (truth (im_length answer) = true -> Z.of_nat (length (im_data answer)) = im_length answer) /\
      (im_result answer < 0 -> im_length answer = 0) /\ is_s32 (im_result answer)
  end.
Proof.
  intros [Hp Hs Hr] Hlen. unfold exchange, send_all, recv_all. destruct (transfer_out _ (ipc_encode m) w) as [rc1 w1] eqn:E1.
  apply transfer_out_written in E1 as ([Hp1 Hs1 Hr1] & Hrc1 & n1 & Hw1 & Hall1); [|done..].
  set (body := if truth (im_length m) then padded (im_length m) (im_data m) else []). assert (Hframe : frame m = ipc_encode m ++ body) by done.
  assert (Hpre : exists n, wi_written w1 = wi_written w ++ take n (frame m)).
  { exists (Nat.min n1 (length (ipc_encode m))). rewrite Hw1, Hframe, take_app_le by lia. f_equal. by rewrite <- (take_take _ n1), firstn_all. }
  destruct (truth rc1) eqn:Erc1.
  { rewrite Erc1. intros [= <- <-]. apply truth_true in Erc1. split; [by split|]. split; [done|]. lia. }
  apply truth_false in Erc1 as ->. specialize (Hall1 eq_refl).
  assert (Hbody : exists rc2 w2, (if truth (im_length m) then transfer_out (wi_polls w1) (padded (im_length m) (im_data m)) w1 else (0, w1)) = (rc2, w2) /\
    kernel_ok w2 /\ rc2 <= 0 /\ (exists n, wi_written w2 = wi_written w ++ take n (frame m)) /\ (rc2 = 0 -> wi_written w2 = wi_written w ++ frame m)).
  { destruct (truth (im_length m)) eqn:El.
    - destruct (transfer_out (wi_polls w1) _ w1) as [rc2 w2] eqn:E2. exists rc2, w2. split; [done|].
      apply transfer_out_written in E2 as (Hk2 & Hrc2 & n2 & Hw2 & Hall2); [|done..]. split; [done|]. split; [done|]. split.
      + exists (length (ipc_encode m) + n2)%nat. rewrite Hw2, Hall1, Hframe, take_app_add. unfold body. by rewrite <- app_assoc.
      + intros H0. rewrite (Hall2 H0), Hall1, Hframe. unfold body. by rewrite <- app_assoc.
    - exists 0, w1. split; [done|]. split; [by split|]. split; [done|]. split; [done|]. intros _. rewrite Hall1, Hframe. unfold body. by rewrite app_nil_r. }
  destruct Hbody as (rc2 & w2 & -> & [Hp2 Hs2 Hr2] & Hrc2 & Hpre2 & Hall2). destruct (truth rc2) eqn:Erc2.
  { intros [= <- <-]. apply truth_true in Erc2. split; [by split|]. split; [done|]. lia. }
  apply truth_false in Erc2 as ->. specialize (Hall2 eq_refl).
  destruct (transfer_in (wi_polls w2) _ [] w2) as [[rc3 header] w3] eqn:E3. apply transfer_in_length in E3 as ([Hp3 Hs3 Hr3] & Hrc3 & Hw3 & _); [|done..].
  assert (Hpre3 : exists n, wi_written w3 = wi_written w ++ take n (frame m)) by (by rewrite Hw3).
  destruct (truth rc3) eqn:Erc3.
  { intros [= <- <-]. apply truth_true in Erc3. split; [by split|]. split; [done|]. lia. }
  destruct (ipc_decode header m) as [rc4 answer] eqn:E4. destruct (truth rc4) eqn:Erc4.
  { intros [= <- <-]. split; [by split|]. split; [done|]. revert E4 Erc4. unfold ipc_decode. destruct (_ || _); intros [= <- _]; [unfold EPROTO; lia|done]. }
  apply truth_false in Erc4 as ->. destruct (decode_length_bound _ _ _ E4) as [Hal Hs32].
  destruct (_ || _) eqn:Ebad; [intros [= <- <-]; split; [by split|]; split; [done|]; unfold EPROTO; lia|].
  rewrite !orb_false_iff in Ebad. destruct Ebad as [[Eid Eop] Eres]. apply negb_false_iff, Z.eqb_eq in Eid, Eop.
  assert (Hres : im_result answer < 0 -> im_length answer = 0).
  { intros Hneg. apply andb_false_iff in Eres as [Eres|Eres]; [apply Z.ltb_ge in Eres; lia|by apply truth_false]. }
  destruct (truth (im_length answer)) eqn:Eal.
  - destruct (transfer_in (wi_polls w3) _ [] w3) as [[rc5 data] w5] eqn:E5. apply transfer_in_length in E5 as (Hk5 & Hrc5 & Hw5 & Hl5); [|done..].
    destruct (truth rc5) eqn:Erc5.
    + intros [= <- <-]. apply truth_true in Erc5. split; [done|]. rewrite Hw5. split; [done|]. lia.
    + intros [= <- <-]. apply truth_false in Erc5. split; [done|]. rewrite Hw5, Hw3. split; [done|]. cbn. split_and!; try done; try lia.
      intros _. rewrite (Hl5 Erc5). cbn. lia.
  - intros [= <- <-]. split; [by split|]. rewrite Hw3. split; [done|]. split_and!; try done; try lia. congruence.
Qed.

Lemma take_id_fresh c : is_u32 (cl_next_id c) -> take_id c <> 0 /\ is_u32 (take_id c) /\ take_id c <> cl_next_id c.
Proof.
  intros H. unfold take_id. unfold is_u32, u32 in *. destruct (truth ((cl_next_id c + 1) mod 4294967296)) eqn:E.
  - apply truth_true in E. split; [done|]. split; [apply Z.mod_pos_bound; lia|]. intros E'. Z.div_mod_to_equations. lia.
  - apply truth_false in E. rewrite E. change ((0 + 1) mod 4294967296) with 1. split; [lia|]. split; [lia|]. Z.div_mod_to_equations. lia.
Qed.

(** A request in a session, or without one. *)
Lemma request_spec pid m w c rc answer w' c' : kernel_ok w -> 0 <= im_length m -> is_u32 (cl_next_id c) ->
  request pid m w c = (rc, answer, w', c') ->
  kernel_ok w' /\ is_u32 (cl_next_id c') /\
  ((cl_fd (own_session pid c) < 0 /\ w' = w /\ c' = own_session pid c /\ rc = (if truth (cl_error c') then cl_error c' else - ENOTCONN)) \/
   (0 <= cl_fd (own_session pid c) /\ rc < 0 /\ cl_fd c' = -1 /\ cl_error c' = - ECONNRESET /\ cl_pid c' = pid) \/
   (0 <= cl_fd (own_session pid c) /\ c' = set_cl_next_id (take_id c) (own_session pid c) /\
    wi_written w' = wi_written w ++ frame (set_im_id (take_id c) m) /\ im_id answer = take_id c /\ im_op answer = im_op m /\ rc = im_result answer /\
    0 <= im_length answer <= IPC_PAYLOAD_MAX /\ (truth (im_length answer) = true -> Z.of_nat (length (im_data answer)) = im_length answer) /\
    (rc < 0 -> im_length answer = 0) /\ is_s32 rc)).
Proof.
  intros Hk Hm Hid. unfold request. assert (Hnext : cl_next_id (own_session pid c) = cl_next_id c) by (unfold own_session; by destruct (_ =? _)).
  assert (Hpid : cl_pid (own_session pid c) = pid) by (unfold own_session; destruct (Z.eqb_spec (cl_pid c) pid); done).
  set (c1 := own_session pid c) in *. destruct (Z.ltb_spec (cl_fd c1) 0) as [Hfd|Hfd].
  { intros [= <- <- <- <-]. split; [done|]. split; [by rewrite Hnext|]. left. done. }
  assert (Htid : take_id c1 = take_id c) by (unfold take_id; by rewrite Hnext). rewrite Htid. destruct (take_id_fresh c Hid) as (_ & Hu & _).
  destruct (exchange _ w) as [r w1] eqn:E. apply exchange_spec in E as (Hk1 & _ & Hr); [|done|done]. destruct r as [rc1|ans]; cbn; intros [= <- <- <- <-].
  - split; [done|]. split; [done|]. right. left. done.
  - split; [done|]. split; [done|]. right. right. destruct Hr as (H1 & H2 & H3 & H4 & H5 & H6 & H7). done.
Qed.

(** * Theorems *)

(** A request that gets a result wrote exactly its frame, under an
    identifier that is not zero and differs from the one before, and the reply
    carries that identifier and operation; every other outcome is an error that
    closes the session, and a closed session answers every later request with
    the same error without touching the socket. *)
Theorem client_request pid m w c rc answer w' c' :
  kernel_ok w -> 0 <= im_length m -> is_u32 (cl_next_id c) -> cl_pid c = pid -> 0 <= cl_fd c ->
  request pid m w c = (rc, answer, w', c') ->
  (exists id, id <> 0 /\ id <> cl_next_id c /\ wi_written w' = wi_written w ++ frame (set_im_id id m) /\
     im_id answer = id /\ im_op answer = im_op m /\ rc = im_result answer /\ cl_fd c' = cl_fd c /\ cl_next_id c' = id) \/
  (rc < 0 /\ forall m2 w2, request pid m2 w2 c' = (- ECONNRESET, m2, w2, c')).
Proof.
  intros Hk Hm Hid Hpid Hfd H. assert (Hown : own_session pid c = c) by (unfold own_session; by rewrite Hpid, Z.eqb_refl).
  apply request_spec in H as (_ & _ & H); [|done..]. rewrite Hown in H. destruct H as [(Hneg & _)|[(_ & Hrc & Hfd' & Herr & Hpid')|(_ & -> & Hw & Ha & Hop & Hrc & _)]]; [lia| |].
  - right. split; [done|]. intros m2 w2. unfold request. replace (own_session pid c') with c' by (unfold own_session; by rewrite Hpid', Z.eqb_refl).
    rewrite Hfd', Herr. done.
  - left. destruct (take_id_fresh c Hid) as (Hn & _ & Hf). by exists (take_id c).
Qed.

Lemma request_result pid m w c rc answer w' c' : kernel_ok w -> 0 <= im_length m -> is_u32 (cl_next_id c) -> cl_error c <= 0 ->
  request pid m w c = (rc, answer, w', c') -> 0 <= rc -> is_s32 rc /\ 0 <= im_length answer /\ (truth (im_length answer) = true -> Z.of_nat (length (im_data answer)) = im_length answer).
Proof.
  intros Hk Hm Hid Herr E Hrc. apply request_spec in E as (_ & _ & E); [|done..].
  destruct E as [(_ & _ & -> & ->)|[(_ & Hneg & _)|(_ & _ & _ & _ & _ & _ & Hl & Hd & _ & Hs)]]; [|lia|split; [done|]; split; [lia|done]].
  exfalso. assert (Ho : cl_error (own_session pid c) <= 0) by (unfold own_session; destruct (_ =? _); cbn; lia).
  destruct (truth (cl_error (own_session pid c))) eqn:E; [apply truth_true in E; lia|unfold ENOTCONN in Hrc; lia].
Qed.

Lemma decode_batch_lengths messages m used found total : decode_batch messages m used = Some (found, total) ->
  Forall2 (fun message '(_, len, _) => 0 <= len <= mm_len message) messages found.
Proof.
  revert used found total. induction messages as [|message messages IH]; intros used found total; cbn [decode_batch]; [by intros [= <- _]|].
  destruct (ipc_datagram_decode _ _) as [[source len]|] eqn:E; [|done]. cbn. destruct (Z.ltb_spec (mm_len message) len); [done|].
  destruct (decode_batch messages m _) as [[rest t]|] eqn:Er; [|done]. cbn. intros [= <- <-]. constructor; [|by eapply IH].
  apply datagram_decode_bounds in E as (_ & ? & _). lia.
Qed.

(** The message [after] was filled within the capacity of [before]. *)
Definition within (before after : ps_mmsg) : Prop :=
  0 <= mm_len after <= mm_len before /\
  (mm_data after = mm_data before \/ exists bytes, mm_data after = Some bytes /\ Z.of_nat (length bytes) <= mm_len before).

Lemma filled_within m messages k found : Forall2 (fun message '(_, len, _) => 0 <= len <= mm_len message) (take k messages) found ->
  length (zip_with (filled m) messages found) = length found /\ Forall2 within (take (length found) messages) (zip_with (filled m) messages found).
Proof.
  revert k found. induction messages as [|message messages IH]; intros k found H.
  { rewrite take_nil in H. apply Forall2_nil_inv_l in H as ->. done. }
  destruct k as [|k]; cbn [take] in H; [apply Forall2_nil_inv_l in H as ->; done|].
  apply Forall2_cons_inv_l in H as ([[offset len] source] & found' & Hlen & H & ->). destruct (IH k found' H) as [E Hw]. cbn [zip_with length take]. split; [by rewrite E|].
  constructor; [|done]. split; [done|]. unfold filled. cbn. destruct (truth len); [|by left]. right. eexists. split; [done|]. rewrite length_take. lia.
Qed.

(** Whatever the daemon answers, a receive copies no more than the caller's
    buffer holds, and copies what it reports; a batch fills at most the
    messages given, each within its capacity. *)
Theorem client_buffers pid fd w c : kernel_ok w -> is_u32 (cl_next_id c) -> cl_error c <= 0 ->
  (forall op len rc bytes source w' c', 0 <= len -> recv_request pid op fd true len w c = (rc, Some (bytes, source), w', c') ->
     Z.of_nat (length bytes) = rc /\ rc <= len) /\
  (forall messages count rc filled w' c', 0 <= count -> ps_recvmmsg pid fd (Some messages) count w c = (rc, filled, w', c') ->
     Z.of_nat (length filled) <= count /\ Forall2 within (take (length filled) messages) filled).
Proof.
  intros Hk Hid Herr. split.
  - intros op len rc bytes source w' c' Hlen. unfold recv_request. cbn [negb andb]. set (requested := if _ <? _ then _ else _).
    assert (Hreq : requested <= len) by (unfold requested; destruct (Z.ltb_spec IPC_PAYLOAD_MAX len); lia).
    destruct (request pid _ w c) as [[[rc1 m] w1] c1] eqn:E. destruct (Z.ltb_spec rc1 0) as [|Hrc1]; [done|].
    apply request_result in E as (Hs & Hl & Hd); [|done..]. destruct (_ || _) eqn:Eb; [done|]. intros [= <- <- <- <- <-].
    apply orb_false_iff in Eb as [E1 E2]. apply negb_false_iff, Z.eqb_eq in E1. apply Z.ltb_ge in E2.
    rewrite u32_id in E1 by (unfold is_u32, is_s32 in *; lia). rewrite E1. split; [|lia]. rewrite length_take.
    destruct (truth (im_length m)) eqn:Et; [rewrite <- (Hd eq_refl); lia|]. apply truth_false in Et. lia.
  - intros messages count rc out w' c' Hcount. unfold ps_recvmmsg. destruct (batch_valid pid _ count c) as [error c0] eqn:Ev.
    assert (Hnone : forall r v d, (r, [], v, d) = (rc, out, w', c') -> Z.of_nat (length out) <= count /\ Forall2 within (take (length out) messages) out)
      by (intros r v d [= _ <- _ _]; split; [done|constructor]).
    destruct (truth error) eqn:Eerr; [apply Hnone|]. change (default [] (Some messages)) with messages. destruct (existsb _ _); [apply Hnone|].
    destruct (request pid _ w c0) as [[[rc1 answer] w1] c1] eqn:E. destruct (Z.ltb_spec rc1 0) as [|Hrc1]; [apply Hnone|].
    destruct (negb (truth rc1) || _) eqn:Eb; [apply Hnone|]. destruct (decode_batch _ answer 0) as [[found used]|] eqn:Ed; [|apply Hnone].
    destruct (used =? im_length answer); cbn [negb]; [|apply Hnone]. apply orb_false_iff in Eb as [_ Eb]. apply Z.ltb_ge in Eb. intros [= _ <- _ _].
    apply decode_batch_lengths in Ed. assert (Hfl := Forall2_length _ _ _ Ed). rewrite !length_take in Hfl.
    destruct (filled_within answer _ _ _ Ed) as [El Hw]. rewrite El. split; [lia|]. rewrite take_take in Hw. by rewrite Nat.min_l in Hw by lia.
Qed.

(** C35: the client and the dispatcher agree on batches.  What [ps_sendmmsg]
    encodes is a valid request whose parts, as the dispatcher cuts them, are the
    first datagrams of the caller, at least one; and a reply that holds
    datagrams fills the caller's messages with exactly these datagrams. *)
Theorem client_batches :
  (forall messages fd m, messages <> [] -> (length messages <= Z.to_nat PS_DGRAM_BATCH_MAX)%nat -> Forall mmsg_typed messages ->
     encode_batch messages (plain IPC_SENDMMSG fd 0 0 0 zero_ps_sockaddr) = inr m ->
     ipc_request_valid m = true /\ exists todo, parse_batch (Z.to_nat (im_a m)) m 0 = Some (todo, im_length m) /\ todo <> [] /\
       Forall2 (fun message '(addr, offset, len) => addr = mm_addr message /\
         take (Z.to_nat len) (data_from m offset) = take (Z.to_nat (mm_len message)) (default [] (mm_data message)))
         (take (Z.to_nat (im_a m)) messages) todo) /\
  (forall m l messages, im_data m = batch_bytes l -> im_length m = Z.of_nat (length (im_data m)) -> Forall datagram_typed l ->
     Forall2 (fun d message => Z.of_nat (length d.2) <= mm_len message) l messages ->
     exists found, decode_batch messages m 0 = Some (found, im_length m) /\
       zip_with (filled m) messages found =
       zip_with (fun message d => mk_ps_mmsg (if Nat.eqb (length d.2) 0 then mm_data message else Some d.2) (Z.of_nat (length d.2)) d.1) messages l).
Proof.
  split.
  - intros messages fd m Hne Hcount Ht H. apply encode_batch_bytes in H as (k & Hk & H); [|done..]. cbn zeta in H.
    destruct H as (Hd & Ha & Hl & Hmax & Hty & Hop & Hfd & Hres & Hpos). specialize (Hpos eq_refl Hne). cbn in Ha, Hop, Hres.
    set (l := mmsg_datagram <$> take k messages) in *. assert (Hll : length l = k) by (unfold l; rewrite length_fmap, length_take; lia).
    assert (Hak : Z.to_nat (im_a m) = k) by lia. rewrite Hak.
    destruct (parse_batch_bytes m l [] Hd Hl Hty) as (todo & Hp & Hall). rewrite Hll in Hp. split.
    + apply sendmmsg_valid; try done; [unfold PS_DGRAM_BATCH_MAX in *; lia|]. rewrite Hl, Hd. cbn [im_data app plain]. rewrite Ha. cbn.
      rewrite <- Hll. apply batch_bytes_headers.
    + exists todo. split; [done|]. split.
      * intros ->. apply Forall2_nil_inv_r in Hall. rewrite Hall in Hll. cbn in Hll. lia.
      * unfold l in Hall. apply Forall2_fmap_l in Hall. eapply Forall2_impl; [exact Hall|]. intros message [[addr offset] len] [-> E]. done.
  - intros m l messages Hd Hl Ht Hm. exact (decode_batch_bytes m l messages [] Hd Hl Ht Hm).
Qed.

(** * Witnesses *)

Module SampleClient.
Definition session : client_state := mk_client_state 6 0 41 1 500.
Definition reply_to (op result length : Z) (data : list Z) : list Z :=
  ipc_encode (mk_ipc_message op 42 length 0 0 0 0 result zero_ps_sockaddr []) ++ data.
Definition answers (bytes : list Z) : wire :=
  mk_wire (replicate 10 (Revents (POLLIN + POLLOUT))) [Failed EAGAIN; Answered 64] [Answered (take 64 bytes); Failed EINTR; Answered (drop 64 bytes)] [].
Definition closing : ipc_message := plain IPC_CLOSE 3 0 0 0 zero_ps_sockaddr.
Definition replies : wire := answers (reply_to IPC_CLOSE 0 0 []).
Definition receiving : wire := answers (reply_to IPC_RECV 2 2 [7; 8]).
Definition datagrams : list ps_mmsg := [mk_ps_mmsg (Some [1; 2; 3]) 3 (mk_ps_sockaddr 16777226 53); mk_ps_mmsg None 0 (mk_ps_sockaddr 16777226 54)].

Lemma answers_ok bytes : kernel_ok (answers bytes).
Proof. split; cbn; repeat constructor; done. Qed.
End SampleClient.

Lemma client_request_witness : exists answer w', request 500 SampleClient.closing SampleClient.replies SampleClient.session =
    (0, answer, w', set_cl_next_id 42 SampleClient.session) /\
  ((exists id, id <> 0 /\ id <> 41 /\ wi_written w' = frame (set_im_id id SampleClient.closing) /\ im_id answer = id) \/ 0 < 0).
Proof.
  assert (Hk : kernel_ok SampleClient.replies) by apply SampleClient.answers_ok.
  assert (H0 : 0 <= im_length SampleClient.closing) by done. assert (Hid : is_u32 (cl_next_id SampleClient.session)) by done. assert (Hfd : 0 <= cl_fd SampleClient.session) by done.
  destruct (request 500 SampleClient.closing SampleClient.replies SampleClient.session) as [[[rc answer] w'] c'] eqn:E.
  assert (Hrc : rc = 0 /\ c' = set_cl_next_id 42 SampleClient.session) by (clear -E; vm_compute in E; by injection E as <- _ _ <-).
  destruct Hrc as [-> ->]. exists answer, w'. split; [reflexivity|].
  destruct (client_request 500 SampleClient.closing SampleClient.replies SampleClient.session 0 answer w' (set_cl_next_id 42 SampleClient.session) Hk H0 Hid eq_refl Hfd E) as [(id & H1 & H2 & H3 & H4 & _)|[H _]]; [left|right; exact H].
  exists id. split; [exact H1|]. split; [exact H2|]. split; [exact H3|exact H4].
Defined.

Lemma client_buffers_witness : exists w' c', recv_request 500 IPC_RECV 3 true 16 SampleClient.receiving SampleClient.session =
    (2, Some ([7; 8], zero_ps_sockaddr), w', c') /\ 2 <= 16.
Proof.
  assert (Hk : kernel_ok SampleClient.receiving) by apply SampleClient.answers_ok.
  assert (Hid : is_u32 (cl_next_id SampleClient.session)) by done. assert (Her : cl_error SampleClient.session <= 0) by done. assert (H16 : 0 <= 16) by done.
  destruct (recv_request 500 IPC_RECV 3 true 16 SampleClient.receiving SampleClient.session) as [[[rc out] w'] c'] eqn:E.
  assert (Hr : rc = 2 /\ out = Some ([7; 8], zero_ps_sockaddr)) by (clear -E; vm_compute in E; by injection E as <- <- _ _). destruct Hr as [-> ->].
  exists w', c'. split; [reflexivity|].
  destruct (client_buffers 500 3 SampleClient.receiving SampleClient.session Hk Hid Her) as [H _].
  destruct (H IPC_RECV 16 2 [7; 8] zero_ps_sockaddr w' c' H16 E) as [_ H2]. exact H2.
Defined.

Lemma client_batches_witness : exists m, encode_batch SampleClient.datagrams (plain IPC_SENDMMSG 3 0 0 0 zero_ps_sockaddr) = inr m /\ im_a m = 2 /\ ipc_request_valid m = true.
Proof.
  eexists. split; [vm_compute; reflexivity|]. split; [reflexivity|].
  refine (proj1 (proj1 client_batches SampleClient.datagrams 3 _ _ _ _ _)); [done|vm_compute; lia| |vm_compute; reflexivity].
  repeat constructor; cbn; try lia; try done; intros bytes [= <-]; cbn; lia.
Defined.
