(* ===== verification/AdminWire.v ===== *)
(** The administrative wire protocol of [src/admin_wire.c]: the response and
    request header, and the request with its access-list records. *)
From S2P Require Import Prelude.
From S2P Require Import Dpdk.
From S2P Require Import Types.
From S2P Require Import Ipc.

(** * Messages *)

Definition ADMIN_MAGIC : Z := 1347636551.
Definition ADMIN_VERSION : Z := 1.
Definition ADMIN_HEADER : Z := 32.
Definition ADMIN_REQUEST_BASE : Z := 144.
Definition ADMIN_ACL_RECORD : Z := 116.
Definition ADMIN_RESPONSE_MAX : Z := 131072.

(** [enum admin_field]. *)
Definition F_PREF : nat := 0.
Definition F_SRC : nat := 1.
Definition F_SRC_PREFIX : nat := 2.
Definition F_DST : nat := 3.
Definition F_DST_PREFIX : nat := 4.
Definition F_PROTO : nat := 5.
Definition F_SPORT_MIN : nat := 6.
Definition F_SPORT_MAX : nat := 7.
Definition F_DPORT_MIN : nat := 8.
Definition F_DPORT_MAX : nat := 9.
Definition F_PORTS : nat := 10.
Definition F_ACTION : nat := 11.
Definition F_TABLE : nat := 12.
Definition F_GATEWAY : nat := 13.
Definition F_IP : nat := 14.
Definition F_PREFIX : nat := 15.

Record admin_header : Type := mk_admin_header {
  ah_id : Z;
  ah_length : Z;
  ah_result : Z;
  ah_generation : Z
}.

(** [aa_dev] is the whole [char dev[64]]. *)
Record admin_acl : Type := mk_admin_acl {
  aa_rule : net_acl;
  aa_dev : list Z
}.

(** [rq_acls] holds the first [count] records. *)
Record admin_request : Type := mk_admin_request {
  rq_group : Z;
  rq_verb : Z;
  rq_flags : Z;
  rq_count : Z;
  rq_v : list Z;
  rq_dev : list Z;
  rq_acls : list admin_acl
}.

#[export] Instance admin_acl_eq_dec : EqDecision admin_acl.
Proof. solve_decision. Defined.
#[export] Instance admin_request_eq_dec : EqDecision admin_request.
Proof. solve_decision. Defined.

(** [r->v[i]]. *)
Definition field (r : admin_request) (i : nat) : Z := nth i (rq_v r) 0.

(** [memcpy] between [struct net_acl] and thirteen words. *)
Definition acl_words (a : net_acl) : list Z :=
  [ac_pref a; ac_src a; ac_src_prefix a; ac_dst a; ac_dst_prefix a; ac_iif a; ac_proto a;
   ac_sport_min a; ac_sport_max a; ac_dport_min a; ac_dport_max a; ac_ports a; ac_drop a].
Definition acl_of_words (w : nat -> Z) : net_acl :=
  mk_net_acl (w 0%nat) (w 1%nat) (w 2%nat) (w 3%nat) (w 4%nat) (w 5%nat) (w 6%nat) (w 7%nat) (w 8%nat) (w 9%nat)
    (w 10%nat) (w 11%nat) (w 12%nat).

(** * Header *)

(** [put] and [get]. *)
Definition put_word (n : Z) : list Z := le32 (htonl n).
Definition get_word (b : list Z) (o : nat) : Z := ntohl (rd_le32 b o).

Definition admin_header_encode (h : admin_header) : list Z :=
  put_word ADMIN_MAGIC ++ put_word ADMIN_VERSION ++ put_word (ah_id h) ++ put_word (ah_length h) ++
  put_word (u32 (ah_result h)) ++ put_word (u32 (Z.shiftr (ah_generation h) 32)) ++ put_word (u32 (ah_generation h)) ++
  put_word 0.

(** [inl] carries the error code. *)
Definition admin_header_decode (b : list Z) : Z + admin_header :=
  if negb (get_word b 0 =? ADMIN_MAGIC) || negb (get_word b 4 =? ADMIN_VERSION) || truth (get_word b 28)
  then inl (- EPROTO) else
  let h := mk_admin_header (get_word b 8) (get_word b 12) (s32 (get_word b 16))
             (Z.lor (Z.shiftl (get_word b 20) 32) (get_word b 24)) in
  if negb (truth (ah_id h)) || (ADMIN_RESPONSE_MAX <? ah_length h) then inl (- EPROTO) else inr h.

(** * Request *)

Definition address_field (i : nat) : bool :=
  Nat.eqb i F_SRC || Nat.eqb i F_DST || Nat.eqb i F_GATEWAY || Nat.eqb i F_IP.

(** A field or rule word between host and wire. *)
Definition field_word (i : nat) (x : Z) : Z := if address_field i then x else htonl x.
Definition rule_word (j : nat) (x : Z) : Z := if Nat.eqb j 1 || Nat.eqb j 3 then x else htonl x.

Definition acl_record (a : admin_acl) : list Z := words_bytes (imap rule_word (acl_words (aa_rule a))) ++ aa_dev a.

(** The bytes written; none (length 0) when [count] is too large. *)
Definition admin_request_encode (r : admin_request) : list Z :=
  if NET_ACL_MAX <? rq_count r then [] else
  words_bytes (htonl <$> [rq_group r; rq_verb r; rq_flags r; rq_count r]) ++
  words_bytes (imap field_word (rq_v r)) ++ rq_dev r ++ concat (acl_record <$> take (Z.to_nat (rq_count r)) (rq_acls r)).

(** [memchr(s, 0, 64)]. *)
Definition terminated (s : list Z) : bool := existsb (fun x => x =? 0) s.

Definition verb_in (r : admin_request) (verbs : list Z) : bool := existsb (fun v => rq_verb r =? v) verbs.

(** The verbs a group has. *)
Definition verb_valid (r : admin_request) : bool :=
  let g := rq_group r in
  if (g =? ADM_STATUS) || (g =? ADM_STATS) || (g =? ADM_APP) || (g =? ADM_SOCKET) || (g =? ADM_MONITOR)
  then rq_verb r =? ADM_SHOW else
  if g =? ADM_LINK then verb_in r [ADM_SHOW; ADM_SET] else
  if (g =? ADM_ADDR) || (g =? ADM_NEIGH) then verb_in r [ADM_SHOW; ADM_ADD; ADM_REPLACE; ADM_DEL; ADM_FLUSH] else
  if g =? ADM_ROUTE then rq_verb r <=? ADM_GET else
  if g =? ADM_RULE then verb_in r [ADM_SHOW; ADM_ADD; ADM_DEL; ADM_FLUSH] else
  if g =? ADM_ACL then verb_in r [ADM_SHOW; ADM_ADD; ADM_DEL; ADM_FLUSH; ADM_APPLY; ADM_DEFAULT] else false.

(** [1u << f] for a list of fields. *)
Definition bits (fields : list nat) : Z := foldr (fun f acc => Z.lor (Z.shiftl 1 (Z.of_nat f)) acc) 0 fields.

(** The fields a request may set and whether it may name a device; [None] for
    a request that is refused here. *)
Definition field_mask (r : admin_request) : option (Z * bool) :=
  let g := rq_group r in
  if g =? ADM_LINK then
    if rq_verb r =? ADM_SET then
      if field r F_PORTS =? 1 then Some (bits [F_PORTS; F_ACTION], true) else
      if field r F_PORTS =? 2 then Some (bits [F_PORTS; F_IP], true) else None
    else Some (0, true) else
  if g =? ADM_ADDR then
    Some (if verb_in r [ADM_ADD; ADM_REPLACE; ADM_DEL] then bits [F_IP; F_PREFIX] else 0, true) else
  if g =? ADM_ROUTE then
    if rq_verb r =? ADM_GET then Some (bits [F_IP; F_PREFIX; F_SRC; F_SRC_PREFIX], false) else
    let mask := bits [F_TABLE] in
    let mask := if negb (rq_verb r =? ADM_SHOW) && negb (rq_verb r =? ADM_FLUSH)
                then Z.lor mask (bits [F_IP; F_PREFIX]) else mask in
    Some (if verb_in r [ADM_ADD; ADM_REPLACE] then (Z.lor mask (bits [F_GATEWAY; F_ACTION]), true) else (mask, false)) else
  if g =? ADM_RULE then
    Some (if rq_verb r =? ADM_ADD then
            (bits [F_PREF; F_SRC; F_SRC_PREFIX; F_DST; F_DST_PREFIX; F_ACTION; F_TABLE], true)
          else (if rq_verb r =? ADM_DEL then bits [F_PREF] else 0, false)) else
  if g =? ADM_ACL then
    Some (if rq_verb r =? ADM_ADD then (Z.shiftl 1 (Z.of_nat (F_ACTION + 1)) - 1, true)
          else (if rq_verb r =? ADM_DEL then bits [F_PREF] else
                if verb_in r [ADM_DEFAULT; ADM_APPLY] then bits [F_ACTION] else 0, false)) else
  if g =? ADM_NEIGH then
    let mask := if negb (rq_verb r =? ADM_SHOW) && negb (rq_verb r =? ADM_FLUSH) then bits [F_IP] else 0 in
    Some (if verb_in r [ADM_ADD; ADM_REPLACE] then Z.lor mask (bits [F_SPORT_MIN; F_SPORT_MAX]) else mask, true) else
  if g =? ADM_MONITOR then
    if truth (field r F_PROTO) && ((field r F_PROTO <? ADM_LINK) || (ADM_ACL <? field r F_PROTO)) then None
    else Some (bits [F_PROTO], false)
  else Some (0, false).

(** The range checks on the four leading words. *)
Definition request_shape (group verb flags count n : Z) : bool :=
  negb ((group <? ADM_STATUS) || (ADM_MONITOR <? group) || (verb <? ADM_SHOW) || (ADM_DEFAULT <? verb) || (15 <? flags) ||
        (NET_ACL_MAX <? count) || negb (n =? ADMIN_REQUEST_BASE + count * ADMIN_ACL_RECORD) ||
        (truth count && (negb (group =? ADM_ACL) || negb (verb =? ADM_APPLY)))).

(** The checks after the copy: strings, verb, fields, device and interface. *)
Definition request_check (r : admin_request) : Z :=
  if negb (terminated (rq_dev r)) || negb (forallb (fun a => terminated (aa_dev a)) (rq_acls r)) then - EINVAL else
  if negb (verb_valid r) then - EOPNOTSUPP else
  match field_mask r with
  | None => - EINVAL
  | Some (mask, device) =>
    if existsb (fun i => negb (truth (Z.land mask (Z.shiftl 1 (Z.of_nat i)))) && truth (field r i)) (seq 0 16)
    then - EINVAL else
    if negb device && truth (byte_of (rq_dev r) 0) then - EINVAL else
    if existsb (fun a => negb (ac_iif (aa_rule a) =? NET_IIF_NONE)) (rq_acls r) then - EINVAL else 0
  end.

(** [n] bytes at an offset. *)
Definition slice (b : list Z) (o n : nat) : list Z := take n (drop o b).

(** Record [i] of the access list in a request. *)
Definition record_offset (i : nat) : nat := 144 + i * 116.
Definition decode_acl (b : list Z) (i : nat) : admin_acl :=
  let o := record_offset i in
  mk_admin_acl (acl_of_words (fun j => let w := rd_le32 b (o + 4 * j) in if Nat.eqb j 1 || Nat.eqb j 3 then w else ntohl w))
    (slice b (o + 52) 64).

(** [b] is the [n] bytes received. *)
Definition admin_request_decode (b : list Z) : Z + admin_request :=
  let n := Z.of_nat (length b) in
  if n <? ADMIN_REQUEST_BASE then inl (- EPROTO) else
  let count := get_word b 12 in
  if negb (request_shape (get_word b 0) (get_word b 4) (get_word b 8) count n) then inl (- EINVAL) else
  let r := mk_admin_request (get_word b 0) (get_word b 4) (get_word b 8) count
    ((fun i => let w := rd_le32 b (16 + 4 * i) in if address_field i then w else ntohl w) <$> seq 0 16)
    (slice b 80 64) (decode_acl b <$> seq 0 (Z.to_nat count)) in
  let rc := request_check r in
  if truth rc then inl rc else inr r.

#[global] Arguments admin_header_encode : simpl never.
#[global] Arguments admin_header_decode : simpl never.
#[global] Arguments admin_request_encode : simpl never.
#[global] Arguments admin_request_decode : simpl never.
#[global] Arguments request_check : simpl never.
#[global] Arguments request_shape : simpl never.
#[global] Arguments field_mask : simpl never.
#[global] Arguments verb_valid : simpl never.
#[global] Arguments get_word : simpl never.
#[global] Arguments put_word : simpl never.

(** * Specification *)

(** What the wire can carry: widths, the sizes of the fixed arrays, and as many
    access-list records as [count] says. *)
Definition record_typed (a : admin_acl) : Prop :=
  Forall is_u32 (acl_words (aa_rule a)) /\ length (aa_dev a) = 64%nat /\ Forall is_u8 (aa_dev a).
Definition request_typed (r : admin_request) : Prop :=
  Forall is_u32 [rq_group r; rq_verb r; rq_flags r; rq_count r] /\ length (rq_v r) = 16%nat /\ Forall is_u32 (rq_v r) /\
  length (rq_dev r) = 64%nat /\ Forall is_u8 (rq_dev r) /\
  rq_count r = Z.of_nat (length (rq_acls r)) /\ Forall record_typed (rq_acls r).

(** A request the daemon accepts. *)
Definition request_ok (r : admin_request) : Prop :=
  request_typed r /\
  request_shape (rq_group r) (rq_verb r) (rq_flags r) (rq_count r)
    (ADMIN_REQUEST_BASE + rq_count r * ADMIN_ACL_RECORD) = true /\
  request_check r = 0.

Definition header_ok (h : admin_header) : Prop :=
  is_u32 (ah_id h) /\ ah_id h <> 0 /\ 0 <= ah_length h <= ADMIN_RESPONSE_MAX /\ is_s32 (ah_result h) /\ is_u64 (ah_generation h).

#[export] Instance record_typed_dec a : Decision (record_typed a).
Proof. unfold record_typed. apply _. Defined.
#[export] Instance request_ok_dec r : Decision (request_ok r).
Proof. unfold request_ok, request_typed. apply _. Defined.

(** * Lemmas: bytes *)

Lemma byte_of_app_l l r i : (i < length l)%nat -> byte_of (l ++ r) i = byte_of l i.
Proof. intros. unfold byte_of. by rewrite lookup_app_l. Qed.

Lemma rd_le32_app_l l r i : (i + 3 < length l)%nat -> rd_le32 (l ++ r) i = rd_le32 l i.
Proof. intros. unfold rd_le32. rewrite !byte_of_app_l by lia. done. Qed.

Lemma byte_of_slice b o n i : (i < n)%nat -> byte_of (slice b o n) i = byte_of b (o + i).
Proof. intros. unfold byte_of, slice. by rewrite lookup_take_lt, lookup_drop. Qed.

Lemma rd_le32_slice b o n i : (i + 3 < n)%nat -> rd_le32 (slice b o n) i = rd_le32 b (o + i).
Proof. intros. unfold rd_le32. rewrite !byte_of_slice by lia. by rewrite !Nat.add_assoc. Qed.

Lemma length_slice b o n : (o + n <= length b)%nat -> length (slice b o n) = n.
Proof. intros. unfold slice. rewrite length_take, length_drop. lia. Qed.

Lemma slice_app b o n m : slice b o n ++ slice b (o + n) m = slice b o (n + m).
Proof. unfold slice. by rewrite <- drop_drop, take_take_drop. Qed.

Lemma slice_all b : slice b 0 (length b) = b.
Proof. unfold slice. rewrite drop_0. by apply take_ge. Qed.

Lemma Forall_slice (P : Z -> Prop) b o n : Forall P b -> Forall P (slice b o n).
Proof. intros. unfold slice. by apply Forall_take, Forall_drop. Qed.

Lemma length_words ws : length (words_bytes ws) = (4 * length ws)%nat.
Proof. unfold words_bytes. induction ws as [|w ws IH]; [done|]. rewrite fmap_cons. cbn [concat]. rewrite length_app, IH, length_le32. simpl. lia. Qed.

Lemma words_of_slice b o n : Forall is_u8 b -> (o + 4 * n <= length b)%nat ->
  words_bytes ((fun i => rd_le32 b (o + 4 * i)) <$> seq 0 n) = slice b o (4 * n).
Proof.
  intros Hb Hl. rewrite <- (words_of_bytes n (slice b o (4 * n))) by (first [by apply length_slice | by apply Forall_slice]).
  f_equal. apply list_fmap_ext. intros k i Hi. apply lookup_seq in Hi as [-> Hi]. rewrite rd_le32_slice by lia. done.
Qed.

Lemma concat_slices b o k n : concat ((fun i => slice b (o + i * k) k) <$> seq 0 n) = slice b o (n * k).
Proof.
  induction n as [|n IH]; [by unfold slice|]. rewrite seq_S, fmap_app, concat_app, IH. simpl. rewrite app_nil_r.
  rewrite slice_app. f_equal. lia.
Qed.

(** A record inside a list of records of one size. *)
Lemma slice_concat {A} (f : A -> list Z) k l i x rest : (forall y, y ∈ l -> length (f y) = k) -> l !! i = Some x ->
  slice (concat (f <$> l) ++ rest) (i * k) k = f x.
Proof.
  revert i. induction l as [|y l IH]; intros i Hk Hx; [done|].
  rewrite fmap_cons. cbn [concat]. rewrite <- app_assoc. assert (Hy : length (f y) = k) by (apply Hk; left).
  destruct i as [|i]; simpl in Hx.
  - injection Hx as ->. unfold slice. simpl. rewrite drop_0, <- Hy. apply take_app_length.
  - rewrite <- (IH i); [|intros; apply Hk; by right|done].
    unfold slice. rewrite drop_app_ge by lia. f_equal. f_equal. lia.
Qed.

Lemma length_concat_records {A} (f : A -> list Z) k l : (forall y, y ∈ l -> length (f y) = k) ->
  length (concat (f <$> l)) = (length l * k)%nat.
Proof.
  induction l as [|y l IH]; intros Hk; [done|]. rewrite fmap_cons. cbn [concat]. rewrite length_app, IH by (intros; apply Hk; by right).
  rewrite Hk by left. simpl. lia.
Qed.

(** Undoing the byte order of the words one by one. *)
Lemma unswap_words (keep : nat -> bool) ws i : Forall is_u32 ws -> (i < length ws)%nat ->
  let w := nth i (imap (fun j x => if keep j then x else htonl x) ws) 0 in (if keep i then w else ntohl w) = nth i ws 0.
Proof.
  intros Hw Hi. cbv zeta. rewrite !nth_lookup, list_lookup_imap.
  destruct (lookup_lt_is_Some_2 ws i Hi) as [x Hx]. rewrite Hx. simpl. destruct (keep i); [done|].
  apply ntohl_htonl. rewrite Forall_lookup in Hw. by apply (Hw i).
Qed.

Lemma imap_swap_typed (keep : nat -> bool) ws : Forall is_u32 ws ->
  Forall is_u32 (imap (fun j x => if keep j then x else htonl x) ws).
Proof.
  intros Hw. apply Forall_lookup. intros i x Hx. rewrite list_lookup_imap in Hx. apply fmap_Some in Hx as (y & Hy & ->).
  destruct (keep i); [|apply bswap32_range]. rewrite Forall_lookup in Hw. by apply (Hw i).
Qed.

Lemma nth_seq_map (f : nat -> Z) ws n : length ws = n -> (forall i, (i < n)%nat -> f i = nth i ws 0) -> f <$> seq 0 n = ws.
Proof.
  intros Hl Hf. apply list_eq. intros i. rewrite list_lookup_fmap.
  destruct (decide (i < n)%nat) as [Hi|Hi].
  - rewrite lookup_seq_lt by done. simpl. rewrite Hf by done. destruct (lookup_lt_is_Some_2 ws i) as [x Hx]; [lia|].
    rewrite Hx. f_equal. by apply nth_lookup_Some.
  - rewrite lookup_seq_ge by lia. simpl. symmetry. apply lookup_ge_None. lia.
Qed.

(** * Lemmas: the request codec *)

Definition lead_words (r : admin_request) : list Z := htonl <$> [rq_group r; rq_verb r; rq_flags r; rq_count r].

Lemma length_acl_record a : record_typed a -> length (acl_record a) = 116%nat.
Proof. intros (_ & Hd & _). unfold acl_record. rewrite length_app, length_words, length_imap, Hd. done. Qed.

(** A request that can be encoded: the caller may still refuse it. *)
Definition request_fits (r : admin_request) : Prop := request_typed r /\ rq_count r <= NET_ACL_MAX.
Lemma request_ok_fits r : request_ok r -> request_fits r.
Proof. intros [Ht [Hs _]]. split; [done|]. unfold request_shape in Hs. apply negb_true_iff in Hs. bool_hyps. lia. Qed.

Lemma request_encode_shape r : request_fits r ->
  admin_request_encode r = words_bytes (lead_words r ++ imap field_word (rq_v r)) ++ rq_dev r ++ concat (acl_record <$> rq_acls r).
Proof.
  intros [(_ & _ & _ & _ & _ & Hc & _) Hs]. unfold admin_request_encode. replace (NET_ACL_MAX <? rq_count r) with false by (symmetry; by apply Z.ltb_ge).
  rewrite take_ge by lia. unfold words_bytes. by rewrite fmap_app, concat_app, <- app_assoc.
Qed.

Lemma length_request_encode r : request_fits r ->
  length (admin_request_encode r) = (144 + length (rq_acls r) * 116)%nat.
Proof.
  intros Hr. rewrite request_encode_shape by done. destruct Hr as [(_ & Hv & _ & Hd & _ & _ & Ha) _].
  rewrite !length_app, length_words, length_app, length_imap, Hv, Hd. rewrite (length_concat_records acl_record 116).
  - change (length (lead_words r)) with 4%nat. lia.
  - intros a Ha'. apply length_acl_record. rewrite Forall_forall in Ha. by apply Ha.
Qed.

Lemma request_word r i : request_fits r -> (i < 20)%nat ->
  rd_le32 (admin_request_encode r) (4 * i) = nth i (lead_words r ++ imap field_word (rq_v r)) 0.
Proof.
  intros Hr Hi. rewrite request_encode_shape by done. destruct Hr as [(_ & Hv & Hvt & _) _].
  assert (Hl : length (lead_words r ++ imap field_word (rq_v r)) = 20%nat) by (rewrite length_app, length_imap, Hv; done).
  rewrite rd_le32_app_l by (rewrite length_words; lia). apply rd_le32_words; [|lia].
  apply Forall_app. split; [|by apply imap_swap_typed].
  unfold lead_words. repeat constructor; apply bswap32_range.
Qed.

Lemma request_record r i a : request_fits r -> rq_acls r !! i = Some a ->
  slice (admin_request_encode r) (record_offset i) 116 = acl_record a.
Proof.
  intros Hr Ha. rewrite request_encode_shape by done. destruct Hr as [(_ & Hv & _ & Hd & _ & _ & Hat) _].
  rewrite <- (slice_concat acl_record 116 (rq_acls r) i a []); [|intros y Hy; apply length_acl_record; rewrite Forall_forall in Hat; by apply Hat|done].
  assert (Hl : length (words_bytes (lead_words r ++ imap field_word (rq_v r)) ++ rq_dev r) = 144%nat)
    by (rewrite length_app, length_words, length_app, length_imap, Hv, Hd; done).
  unfold slice, record_offset. rewrite app_nil_r, app_assoc, drop_app_ge by lia. rewrite Hl. do 2 f_equal. lia.
Qed.

Lemma decode_acl_encode r i a : request_fits r -> rq_acls r !! i = Some a -> decode_acl (admin_request_encode r) i = a.
Proof.
  intros Hr Ha. assert (Hs := request_record r i a Hr Ha).
  assert (Hat : record_typed a). { destruct Hr as [(_ & _ & _ & _ & _ & _ & H) _]. rewrite Forall_lookup in H. by apply (H i). }
  destruct Hat as (Hw & Hl & _). unfold decode_acl.
  assert (Hword : forall j, (j < 13)%nat ->
    (let w := rd_le32 (admin_request_encode r) (record_offset i + 4 * j) in if Nat.eqb j 1 || Nat.eqb j 3 then w else ntohl w)
    = nth j (acl_words (aa_rule a)) 0).
  { intros j Hj. rewrite <- (rd_le32_slice _ _ 116) by lia. rewrite Hs. unfold acl_record.
    rewrite rd_le32_app_l by (rewrite length_words, length_imap; simpl length; lia).
    rewrite rd_le32_words by first [by apply (imap_swap_typed (fun j => Nat.eqb j 1 || Nat.eqb j 3)) | rewrite length_imap; simpl; lia].
    by apply (unswap_words (fun j => Nat.eqb j 1 || Nat.eqb j 3)). }
  destruct a as [[] dev]. f_equal.
  - unfold acl_of_words. rewrite !Hword by lia. done.
  - simpl in *. transitivity (slice (slice (admin_request_encode r) (record_offset i) 116) 52 64).
    + unfold slice. rewrite skipn_firstn_comm, drop_drop, take_take. f_equal.
    + rewrite Hs. unfold acl_record, slice. rewrite drop_app_ge by (rewrite length_words; done).
      rewrite length_words. change (52 - _)%nat with 0%nat. rewrite drop_0. apply take_ge. cbn [aa_dev]. lia.
Qed.

Lemma request_fields r : request_fits r ->
  ((fun i => let w := rd_le32 (admin_request_encode r) (16 + 4 * i) in if address_field i then w else ntohl w) <$> seq 0 16)
  = rq_v r.
Proof.
  intros Hr. assert (Hr' := Hr). destruct Hr' as [(_ & Hv & Hvt & _) _].
  apply nth_seq_map; [done|]. intros i Hi.
  replace (16 + 4 * i)%nat with (4 * (4 + i))%nat by lia. rewrite request_word by (done || lia).
  change (nth (4 + i) (lead_words r ++ imap field_word (rq_v r)) 0) with (nth i (imap field_word (rq_v r)) 0).
  apply (unswap_words address_field); [done|lia].
Qed.

Lemma request_device r : request_fits r -> slice (admin_request_encode r) 80 64 = rq_dev r.
Proof.
  intros Hr. rewrite request_encode_shape by done. destruct Hr as [(_ & Hv & _ & Hd & _) _].
  assert (Hl : length (words_bytes (lead_words r ++ imap field_word (rq_v r))) = 80%nat)
    by (rewrite length_words, length_app, length_imap, Hv; done).
  unfold slice. rewrite drop_app_ge by lia. rewrite Hl. simpl. rewrite drop_0, take_app_le by lia.
  apply take_ge. lia.
Qed.

(** What the daemon makes of an encoded request: it comes back as it was, or
    the checks refuse it. *)
Lemma request_decode_verdict r : request_fits r ->
  admin_request_decode (admin_request_encode r) =
  (if negb (request_shape (rq_group r) (rq_verb r) (rq_flags r) (rq_count r) (ADMIN_REQUEST_BASE + rq_count r * ADMIN_ACL_RECORD))
   then inl (- EINVAL) else if truth (request_check r) then inl (request_check r) else inr r).
Proof.
  intros Hr. assert (Hl := length_request_encode r Hr). unfold admin_request_decode.
  assert (Hlead : forall i x, (i < 4)%nat -> [rq_group r; rq_verb r; rq_flags r; rq_count r] !! i = Some x ->
    get_word (admin_request_encode r) (4 * i) = x).
  { intros i x Hi Hx. unfold get_word. rewrite request_word by (done || lia). rewrite app_nth1 by (simpl; lia).
    unfold lead_words. assert (Hn : nth i (htonl <$> [rq_group r; rq_verb r; rq_flags r; rq_count r]) 0 = htonl x)
      by (apply nth_lookup_Some; by rewrite list_lookup_fmap, Hx).
    rewrite Hn. apply ntohl_htonl.
    destruct Hr as [(H & _) _]. rewrite Forall_lookup in H. by apply (H i). }
  rewrite (Hlead 0%nat _ ltac:(lia) eq_refl : get_word _ 0 = _), (Hlead 1%nat _ ltac:(lia) eq_refl : get_word _ 4 = _),
    (Hlead 2%nat _ ltac:(lia) eq_refl : get_word _ 8 = _), (Hlead 3%nat _ ltac:(lia) eq_refl : get_word _ 12 = _).
  rewrite request_fields, request_device by done.
  assert (Ha : decode_acl (admin_request_encode r) <$> seq 0 (length (rq_acls r)) = rq_acls r).
  { apply list_eq. intros i. rewrite list_lookup_fmap. destruct (rq_acls r !! i) as [a|] eqn:E.
    - rewrite lookup_seq_lt by (by eapply lookup_lt_Some). simpl. f_equal. by apply decode_acl_encode.
    - rewrite lookup_seq_ge by (by apply lookup_ge_None). done. }
  destruct Hr as [(_ & _ & _ & _ & _ & Hc & _) _]. rewrite Hc in *. rewrite Hl, Nat2Z.id, Ha.
  replace (Z.of_nat (144 + length (rq_acls r) * 116)) with (ADMIN_REQUEST_BASE + Z.of_nat (length (rq_acls r)) * ADMIN_ACL_RECORD)
    by (unfold ADMIN_REQUEST_BASE, ADMIN_ACL_RECORD; lia).
  replace (_ <? ADMIN_REQUEST_BASE) with false by (symmetry; apply Z.ltb_ge; unfold ADMIN_ACL_RECORD; lia).
  rewrite <- Hc. destruct r as [g v f c vs d acls]. done.
Qed.

Lemma request_decode_encode r : request_ok r -> admin_request_decode (admin_request_encode r) = inr r.
Proof.
  intros Hr. rewrite request_decode_verdict by (by apply request_ok_fits). destruct Hr as (_ & Hs & Hk). by rewrite Hs, Hk.
Qed.

Lemma request_decoded_ok r r' : request_fits r -> admin_request_decode (admin_request_encode r) = inr r' -> request_ok r.
Proof.
  intros Hr. rewrite request_decode_verdict by done. destruct (request_shape _ _ _ _ _) eqn:Hs; [|done].
  cbn [negb]. destruct (truth (request_check r)) eqn:Hk; [done|]. intros _. destruct Hr. split_and!; [done..|]. by apply truth_false.
Qed.

(** Swapping twice restores the word, kept or not. *)
Lemma imap_unswap (keep : nat -> bool) (w : nat -> Z) n : (forall i, is_u32 (w i)) ->
  imap (fun j x => if keep j then x else htonl x) ((fun i => if keep i then w i else ntohl (w i)) <$> seq 0 n) = w <$> seq 0 n.
Proof.
  intros Hw. apply list_eq. intros i. rewrite list_lookup_imap, !list_lookup_fmap.
  destruct (decide (i < n)%nat) as [Hi|Hi]; [|by rewrite lookup_seq_ge by lia].
  rewrite lookup_seq_lt by done. simpl. f_equal. destruct (keep i); [done|]. by apply htonl_ntohl.
Qed.

Lemma acl_words_of_words w : acl_words (acl_of_words w) = w <$> seq 0 13.
Proof. reflexivity. Qed.

Lemma decode_acl_typed b i : Forall is_u8 b -> (record_offset i + 116 <= length b)%nat ->
  record_typed (decode_acl b i) /\ acl_record (decode_acl b i) = slice b (record_offset i) 116.
Proof.
  intros Hb Hl. unfold record_typed, acl_record, decode_acl. cbn [aa_rule aa_dev]. rewrite acl_words_of_words.
  split_and!.
  - apply Forall_fmap, Forall_forall. intros j _. cbv beta. simpl. destruct (_ || _); [by apply rd_le32_range|apply bswap32_range].
  - apply length_slice. lia.
  - by apply Forall_slice.
  - unfold rule_word. rewrite (imap_unswap (fun j => Nat.eqb j 1 || Nat.eqb j 3)) by (intros; by apply rd_le32_range).
    rewrite words_of_slice by (done || lia). by rewrite slice_app.
Qed.

Lemma request_encode_decode b r : Forall is_u8 b -> admin_request_decode b = inr r ->
  request_ok r /\ admin_request_encode r = b.
Proof.
  intros Hb. unfold admin_request_decode. destruct (_ <? ADMIN_REQUEST_BASE) eqn:E1; [done|].
  destruct (negb _) eqn:E2; [done|]. set (r' := mk_admin_request _ _ _ _ _ _ _).
  destruct (truth _) eqn:E3; [done|]. intros [= <-]. apply truth_false in E3. apply negb_false_iff in E2.
  assert (Hcount := E2). unfold request_shape in Hcount. apply negb_true_iff in Hcount. bool_hyps.
  assert (Hc0 := bswap32_range (rd_le32 b 12)). change (bswap32 (rd_le32 b 12)) with (get_word b 12) in Hc0.
  set (count := get_word b 12) in *. set (k := Z.to_nat count).
  assert (Hk : count = Z.of_nat k) by (unfold k, is_u32 in *; lia).
  assert (Hlen : length b = (144 + k * 116)%nat) by (unfold ADMIN_REQUEST_BASE, ADMIN_ACL_RECORD in *; lia).
  assert (Hrec : forall i, (i < k)%nat -> (record_offset i + 116 <= length b)%nat) by (intros; unfold record_offset; nia).
  assert (Hok : request_ok r').
  { unfold r'. split; [|split; [|exact E3]].
    - split_and!.
      + repeat constructor; apply bswap32_range.
      + apply length_fmap.
      + cbn [rq_v]. apply Forall_fmap, Forall_forall. intros i _. simpl. destruct (address_field i); [by apply rd_le32_range|apply bswap32_range].
      + cbn [rq_dev]. apply length_slice. lia.
      + by apply Forall_slice.
      + cbn [rq_acls rq_count]. rewrite length_fmap, length_seq. done.
      + cbn [rq_acls]. apply Forall_fmap, Forall_forall. intros i Hi. apply elem_of_seq in Hi. apply decode_acl_typed; [done|]. apply Hrec. unfold k. lia.
    - cbn [rq_group rq_verb rq_flags rq_count]. rewrite <- E2. f_equal. lia. }
  split; [done|]. rewrite request_encode_shape by (by apply request_ok_fits).
  transitivity (slice b 0 80 ++ slice b 80 64 ++ slice b 144 (k * 116)).
  2:{ rewrite (slice_app b 80 64), (slice_app b 0 80). etransitivity; [|apply slice_all]. rewrite Hlen. f_equal. }
  unfold r', lead_words. cbn [rq_group rq_verb rq_flags rq_count rq_v rq_dev rq_acls]. f_equal; [|f_equal].
  - unfold field_word. rewrite (imap_unswap address_field) by (intros; by apply rd_le32_range).
    change 80%nat with (4 * 20)%nat. rewrite <- (words_of_slice b 0 20) by (done || lia).
    unfold count, get_word. cbn [fmap list_fmap]. rewrite !htonl_ntohl by (by apply rd_le32_range). reflexivity.
  - rewrite <- concat_slices. f_equal. rewrite <- list_fmap_compose. apply list_fmap_ext. intros j i Hi.
    apply lookup_seq in Hi as [-> Hi]. apply decode_acl_typed; [done|]. apply Hrec. unfold k. lia.
Qed.

(** * Lemmas: the header codec *)

Lemma header_bytes h : admin_header_encode h =
  words_bytes (htonl <$> [ADMIN_MAGIC; ADMIN_VERSION; ah_id h; ah_length h; u32 (ah_result h);
    u32 (Z.shiftr (ah_generation h) 32); u32 (ah_generation h); 0]).
Proof. reflexivity. Qed.

Lemma lor_halves x y : is_u32 x -> is_u32 y -> Z.lor (Z.shiftl x 32) y = x * 4294967296 + y.
Proof. intros _ Hy. by apply (lor_shiftl 32). Qed.

Lemma generation_halves g : is_u64 g -> Z.lor (Z.shiftl (u32 (Z.shiftr g 32)) 32) (u32 g) = g.
Proof.
  intros Hg. rewrite lor_halves by apply u32_range. rewrite Z.shiftr_div_pow2 by lia. change (2 ^ 32) with 4294967296. zlia.
Qed.

Lemma header_decode_encode h rest : header_ok h -> admin_header_decode (admin_header_encode h ++ rest) = inr h.
Proof.
  intros (Hid & Hid0 & Hlen & Hres & Hgen). rewrite header_bytes.
  set (ws := [ADMIN_MAGIC; ADMIN_VERSION; ah_id h; ah_length h; u32 (ah_result h);
    u32 (Z.shiftr (ah_generation h) 32); u32 (ah_generation h); 0]).
  assert (Hws : Forall is_u32 ws).
  { assert (is_u32 (ah_length h)) by (unfold is_u32, ADMIN_RESPONSE_MAX in *; lia). unfold ws.
    repeat (constructor; [first [done | apply u32_range]|]). constructor. }
  assert (Hw : forall i, (i < 8)%nat -> get_word (words_bytes (htonl <$> ws) ++ rest) (4 * i) = nth i ws 0).
  { intros i Hi. unfold get_word. rewrite rd_le32_app_l by (rewrite length_words, length_fmap; simpl length; lia).
    rewrite rd_le32_words by first [apply Forall_fmap, Forall_forall; intros; apply bswap32_range | rewrite length_fmap; simpl; lia].
    rewrite !nth_lookup, list_lookup_fmap. destruct (lookup_lt_is_Some_2 ws i) as [x Hx]; [simpl; lia|]. rewrite Hx. simpl.
    apply ntohl_htonl. rewrite Forall_lookup in Hws. by apply (Hws i). }
  unfold admin_header_decode.
  rewrite (Hw 0%nat ltac:(lia) : get_word _ 0 = _), (Hw 1%nat ltac:(lia) : get_word _ 4 = _),
    (Hw 2%nat ltac:(lia) : get_word _ 8 = _), (Hw 3%nat ltac:(lia) : get_word _ 12 = _),
    (Hw 4%nat ltac:(lia) : get_word _ 16 = _), (Hw 5%nat ltac:(lia) : get_word _ 20 = _),
    (Hw 6%nat ltac:(lia) : get_word _ 24 = _), (Hw 7%nat ltac:(lia) : get_word _ 28 = _).
  unfold ws. cbn [nth]. rewrite generation_halves, s32_u32 by done.
  change (negb (ADMIN_MAGIC =? ADMIN_MAGIC) || negb (ADMIN_VERSION =? ADMIN_VERSION) || truth 0) with false. cbv iota.
  cbn [ah_id ah_length]. rewrite (proj2 (truth_true _) Hid0).
  replace (ADMIN_RESPONSE_MAX <? ah_length h) with false by (symmetry; apply Z.ltb_ge; lia). bsimpl. by destruct h.
Qed.

Lemma header_encode_decode b h : length b = 32%nat -> Forall is_u8 b -> admin_header_decode b = inr h ->
  header_ok h /\ admin_header_encode h = b.
Proof.
  intros Hl Hb. unfold admin_header_decode. destruct (_ || truth _) eqn:E1; [done|].
  destruct (negb _ || (_ <? _)) eqn:E2; [done|]. intros [= <-]. cbn [ah_id ah_length] in E2. bool_hyps.
  repeat match goal with
  | H : truth _ = true |- _ => apply truth_true in H
  | H : truth _ = false |- _ => apply truth_false in H
  end.
  assert (Hr : forall o, is_u32 (get_word b o)) by (intros; apply bswap32_range).
  assert (Hn : forall o, htonl (get_word b o) = rd_le32 b o) by (intros; unfold get_word; apply htonl_ntohl; by apply rd_le32_range).
  set (g := Z.lor _ _). assert (Hg : g = get_word b 20 * 4294967296 + get_word b 24) by (unfold g; by apply lor_halves).
  clearbody g. assert (H20 := Hr 20%nat). assert (H24 := Hr 24%nat). assert (H12 := Hr 12%nat). split.
  - unfold header_ok. cbn [ah_id ah_length ah_result ah_generation].
    split; [apply Hr|]. split; [done|]. split; [unfold is_u32 in H12; lia|]. split; [apply s32_range|].
    unfold is_u32, is_u64 in *; lia.
  - rewrite header_bytes. cbn [ah_id ah_length ah_result ah_generation].
    replace (u32 (Z.shiftr g 32)) with (get_word b 20)
      by (rewrite Z.shiftr_div_pow2 by lia; change (2 ^ 32) with 4294967296; zlia).
    replace (u32 g) with (get_word b 24) by zlia. rewrite u32_s32 by apply Hr.
    replace ADMIN_MAGIC with (get_word b 0) by done. replace ADMIN_VERSION with (get_word b 4) by done.
    replace (htonl <$> [get_word b 0; get_word b 4; get_word b 8; get_word b 12; get_word b 16; get_word b 20; get_word b 24; 0])
      with ((fun i => rd_le32 b (0 + 4 * i)) <$> seq 0 8).
    + rewrite words_of_slice by (done || lia). change (4 * 8)%nat with 32%nat. rewrite <- Hl. apply slice_all.
    + cbn [fmap list_fmap]. rewrite !Hn. assert (H28 := Hn 28%nat). rewrite H2 in H28. rewrite H28. reflexivity.
Qed.

(** * Properties *)

(** C29: the administrative request codec is a bijection between the requests the
    daemon accepts and the byte strings it accepts: an acceptable request
    survives encoding and decoding, and any bytes that decode are exactly the
    encoding of the result, which then has every width, string and field
    restriction the decoder promises. *)
Theorem admin_request_bijection :
  (forall r, request_ok r -> admin_request_decode (admin_request_encode r) = inr r) /\
  (forall b r, Forall is_u8 b -> admin_request_decode b = inr r -> request_ok r /\ admin_request_encode r = b).
Proof. split; [exact request_decode_encode|exact request_encode_decode]. Qed.

(** The administrative header codec is a bijection on 32-byte headers. *)
Theorem admin_header_bijection :
  (forall h rest, header_ok h -> admin_header_decode (admin_header_encode h ++ rest) = inr h) /\
  (forall b h, length b = Z.to_nat ADMIN_HEADER -> Forall is_u8 b -> admin_header_decode b = inr h ->
     header_ok h /\ admin_header_encode h = b).
Proof. split; [exact header_decode_encode|exact header_encode_decode]. Qed.

(** * Witnesses *)

(** A route to 10.1.0.0/16 over 10.0.0.2 on device [p]. *)
Definition sample_request : admin_request :=
  mk_admin_request ADM_ROUTE ADM_ADD 0 0
    [0; 0; 0; 0; 0; 0; 0; 0; 0; 0; 0; NET_UNICAST; NET_TABLE_MAIN; htonl 167772162; htonl 167837696; 16]
    (112 :: replicate 63 0) [].

Lemma admin_request_bijection_witness :
  admin_request_decode (admin_request_encode sample_request) = inr sample_request /\
  (request_ok sample_request /\ admin_request_encode sample_request = admin_request_encode sample_request).
Proof.
  destruct admin_request_bijection as [H1 H2].
  assert (E : admin_request_decode (admin_request_encode sample_request) = inr sample_request)
    by (apply H1; compute_closed).
  split; [exact E|]. apply H2; [compute_closed|exact E].
Defined.

Definition sample_header : admin_header := mk_admin_header 5 144 (- EINVAL) 4294967298.

Lemma admin_header_bijection_witness :
  admin_header_decode (admin_header_encode sample_header) = inr sample_header /\
  (header_ok sample_header /\ admin_header_encode sample_header = admin_header_encode sample_header).
Proof.
  destruct admin_header_bijection as [H1 H2].
  assert (E : admin_header_decode (admin_header_encode sample_header) = inr sample_header).
  { rewrite <- (app_nil_r (admin_header_encode sample_header)). apply H1.
    unfold header_ok. split_and!; try compute_closed; vm_compute; discriminate. }
  split; [exact E|]. apply H2; [reflexivity|compute_closed|exact E].
Defined.
