(* ===== verification/AdminState.v ===== *)
(** Configuration changes of [src/admin_state.c]: one administrative request
    applied to a copy of the published configuration.  The control thread works
    on a snapshot ([struct admin_view]); the result is published by the worker
    (see [AdminWorker.v]) or dropped. *)
From S2P Require Import Prelude.
From S2P Require Import Dpdk.
From S2P Require Import Types.
From S2P Require Import Prefix.
From S2P Require Import Route.
From S2P Require Import NetConfig.
From S2P Require Import AdminWire.

(** * Data *)

(** The parts of [struct admin_view] a change depends on; [av_ports] are
    [links[i].port] for the [port_count] interfaces. *)
Record admin_view : Type := mk_admin_view {
  av_config : net_config;
  av_ports : list port_state
}.

(** A [char] array up to its terminator. *)
Fixpoint c_string (s : list Z) : string :=
  match s with
  | [] => EmptyString
  | x :: s' => if x =? 0 then EmptyString else String (Ascii.ascii_of_N (Z.to_N x)) (c_string s')
  end.

(** [*s]: the string is not empty. *)
Definition named (s : list Z) : bool := truth (byte_of s 0).

(** The index, or [-ENODEV]. *)
Definition admin_device (v : admin_view) (name : list Z) : Z :=
  match find_index (fun p => String.eqb (pt_name p) (c_string name)) (av_ports v) with
  | Some i => Z.of_nat i
  | None => - ENODEV
  end.

(** [qsort] by preference.  The order of equal preferences is not specified by
    the library; a configuration with equal preferences is refused by
    [net_config_validate]. *)
Definition pref_le {A} (pref : A -> Z) (x y : A) : Prop := pref x <= pref y.
#[export] Instance pref_le_dec {A} (pref : A -> Z) : RelDecision (pref_le pref).
Proof. unfold pref_le. intros x y. apply _. Defined.
Definition sort_prefs {A} (pref : A -> Z) (l : list A) : list A := merge_sort (pref_le pref) l.

(** An array slot: overwritten, or appended when [i] is the count. *)
Definition store_at {A} (i : nat) (x : A) (l : list A) : list A :=
  if Nat.eqb i (length l) then l ++ [x] else <[i := x]> l.

(** The first index with a property, or the count. *)
Definition position {A} (p : A -> bool) (l : list A) : nat := default (length l) (find_index p l).

(** * The four tables *)

(** [inl] carries the error code.  [dev] is [-1] when the request names none. *)
Definition mutate_addresses (r : admin_request) (dev : Z) (c : net_config) : Z + net_config :=
  if dev <? 0 then inl (- ENODEV) else
  let l := nc_addresses c in
  let i := position (fun a => (na_ip a =? field r F_IP) && (na_dev a =? dev)) l in
  let next :=
    if rq_verb r =? ADM_FLUSH then inr (List.filter (fun a => negb (na_dev a =? dev)) l) else
    if rq_verb r =? ADM_DEL then
      match l !! i with
      | Some a => if na_prefix a =? field r F_PREFIX then inr (delete i l) else inl (- ENOENT)
      | None => inl (- ENOENT)
      end else
    if (rq_verb r =? ADM_ADD) || (rq_verb r =? ADM_REPLACE) then
      if Nat.ltb i (length l) && (rq_verb r =? ADM_ADD) then inl (- EEXIST) else
      if Nat.eqb i (length l) && (Z.of_nat i =? NET_ADDR_MAX) then inl (- ENOSPC) else
      inr (store_at i (mk_net_address (field r F_IP) (field r F_PREFIX) dev) l)
    else inl (- EOPNOTSUPP) in
  match next with
  | inl rc => inl rc
  | inr l =>
    let '(rc, c) := net_connected_rebuild (set_nc_addresses l c) in
    if truth rc then inl rc else inr c
  end.

(** The routes a request of the [ADM_ROUTE] group is about. *)
Definition route_key (table ip prefix : Z) (p : net_route) : bool :=
  (nr_table p =? table) && (nr_ip p =? ip) && (nr_prefix p =? prefix).

Definition mutate_routes (v : admin_view) (r : admin_request) (dev : Z) (c : net_config) : Z + net_config :=
  let table := field r F_TABLE in
  if negb (truth table) || (table =? NET_TABLE_LOCAL) then inl (- EPERM) else
  let l := nc_routes c in
  let i := position (route_key table (field r F_IP) (field r F_PREFIX)) l in
  if rq_verb r =? ADM_FLUSH then
    inr (set_nc_routes (List.filter (fun p => negb (nr_table p =? table) || truth (nr_connected p)) l) c) else
  if rq_verb r =? ADM_DEL then
    match l !! i with
    | None => inl (- ENOENT)
    | Some p => if truth (nr_connected p) then inl (- EPERM) else inr (set_nc_routes (delete i l) c)
    end else
  if (rq_verb r =? ADM_ADD) || (rq_verb r =? ADM_REPLACE) then
    if match l !! i with Some p => (rq_verb r =? ADM_ADD) || truth (nr_connected p) | None => false end then inl (- EEXIST) else
    if negb (truth (field r F_ACTION)) &&
       match (if dev <? 0 then None else av_ports v !! Z.to_nat dev) with
       | None => true
       | Some p => pt_admin_down p || negb (pt_started p)
       end then inl (- ENETDOWN) else
    if Nat.eqb i (length l) && (Z.of_nat i =? NET_ROUTE_MAX) then inl (- ENOSPC) else
    inr (set_nc_routes (store_at i (mk_net_route (field r F_IP) (field r F_PREFIX) (field r F_GATEWAY)
      (if dev <? 0 then 0 else dev) table (field r F_ACTION) 0) l) c)
  else inl (- EOPNOTSUPP).

Definition mutate_rules (r : admin_request) (dev : Z) (c : net_config) : Z + net_config :=
  let l := nc_rules c in
  let i := position (fun u => ru_pref u =? field r F_PREF) l in
  if rq_verb r =? ADM_FLUSH then inr (set_nc_rules [] c) else
  if rq_verb r =? ADM_DEL then
    if Nat.eqb i (length l) then inl (- ENOENT) else inr (set_nc_rules (delete i l) c) else
  if rq_verb r =? ADM_ADD then
    if Nat.ltb i (length l) then inl (- EEXIST) else
    if Z.of_nat i =? NET_RULE_MAX then inl (- ENOSPC) else
    let rule := mk_net_rule (field r F_PREF) (field r F_SRC) (field r F_SRC_PREFIX) (field r F_DST) (field r F_DST_PREFIX)
                  (if dev <? 0 then NET_IIF_NONE else dev) (field r F_TABLE) (field r F_ACTION) in
    inr (set_nc_rules (sort_prefs ru_pref (l ++ [rule])) c)
  else inl (- EOPNOTSUPP).

(** The access list of an [ADM_APPLY] request, devices resolved. *)
Fixpoint resolve_acls (v : admin_view) (acls : list admin_acl) : Z + list net_acl :=
  match acls with
  | [] => inr []
  | a :: acls' =>
    let id := if named (aa_dev a) then admin_device v (aa_dev a) else - 1 in
    if named (aa_dev a) && (id <? 0) then inl id else
    match resolve_acls v acls' with
    | inl rc => inl rc
    | inr rules => inr (set_ac_iif (if id <? 0 then NET_IIF_NONE else id) (aa_rule a) :: rules)
    end
  end.

Definition mutate_acls (v : admin_view) (r : admin_request) (dev : Z) (c : net_config) : Z + net_config :=
  let l := nc_acls c in
  let i := position (fun a => ac_pref a =? field r F_PREF) l in
  if rq_verb r =? ADM_FLUSH then inr (set_nc_acls [] c) else
  if rq_verb r =? ADM_DEFAULT then inr (set_nc_default_drop (field r F_ACTION) c) else
  if rq_verb r =? ADM_APPLY then
    if NET_ACL_MAX <? rq_count r then inl (- ENOSPC) else
    match resolve_acls v (take (Z.to_nat (rq_count r)) (rq_acls r)) with
    | inl rc => inl rc
    | inr rules => inr (c |> set_nc_default_drop (field r F_ACTION) |> set_nc_acls (sort_prefs ac_pref rules))
    end else
  if rq_verb r =? ADM_DEL then
    if Nat.eqb i (length l) then inl (- ENOENT) else inr (set_nc_acls (delete i l) c) else
  if rq_verb r =? ADM_ADD then
    if Nat.ltb i (length l) then inl (- EEXIST) else
    if Z.of_nat i =? NET_ACL_MAX then inl (- ENOSPC) else
    let acl := mk_net_acl (field r F_PREF) (field r F_SRC) (field r F_SRC_PREFIX) (field r F_DST) (field r F_DST_PREFIX)
      (if dev <? 0 then NET_IIF_NONE else dev) (field r F_PROTO) (field r F_SPORT_MIN) (field r F_SPORT_MAX)
      (field r F_DPORT_MIN) (field r F_DPORT_MAX) (field r F_PORTS) (field r F_ACTION) in
    inr (set_nc_acls (sort_prefs ac_pref (l ++ [acl])) c)
  else inl (- EOPNOTSUPP).

(** * The request *)

Definition mutate_group (v : admin_view) (r : admin_request) (dev : Z) (c : net_config) : Z + net_config :=
  if rq_group r =? ADM_ADDR then mutate_addresses r dev c else
  if rq_group r =? ADM_ROUTE then mutate_routes v r dev c else
  if rq_group r =? ADM_RULE then mutate_rules r dev c else
  if rq_group r =? ADM_ACL then mutate_acls v r dev c else inl (- EOPNOTSUPP).

Definition admin_mutate (v : admin_view) (r : admin_request) : Z + net_config :=
  let dev := if named (rq_dev r) then admin_device v (rq_dev r) else - 1 in
  if named (rq_dev r) && (dev <? 0) then inl dev else
  match mutate_group v r dev (av_config v) with
  | inl rc => inl rc
  | inr c =>
    if nc_generation c =? UINT64_MAX then inl (- EOVERFLOW) else
    let '(rc, c) := net_config_prepare (set_nc_generation (u64 (nc_generation c + 1)) c) (Z.of_nat (length (av_ports v))) in
    if truth rc then inl rc else inr c
  end.

#[global] Arguments admin_device : simpl never.
#[global] Arguments sort_prefs : simpl never.
#[global] Arguments position : simpl never.
#[global] Arguments store_at : simpl never.
#[global] Arguments mutate_addresses : simpl never.
#[global] Arguments mutate_routes : simpl never.
#[global] Arguments mutate_rules : simpl never.
#[global] Arguments mutate_acls : simpl never.
#[global] Arguments admin_mutate : simpl never.

(** * Lemmas *)

Lemma sort_prefs_perm {A} (pref : A -> Z) l : sort_prefs pref l ≡ₚ l.
Proof. apply merge_sort_Permutation. Qed.

Lemma position_Some {A} (p : A -> bool) l x : l !! position p l = Some x -> p x = true.
Proof.
  unfold position. destruct (find_index p l) as [i|] eqn:E; simpl.
  - apply find_index_Some in E as [(y & Hy & Hp) _]. rewrite Hy. by intros [= <-].
  - rewrite lookup_ge_None_2 by done. done.
Qed.

Lemma position_None {A} (p : A -> bool) l : l !! position p l = None -> Forall (fun x => p x = false) l.
Proof.
  unfold position. destruct (find_index p l) as [i|] eqn:E; simpl.
  - apply find_index_Some in E as [(y & Hy & Hp) _]. by rewrite Hy.
  - intros _. apply Forall_lookup. intros i x. by apply find_index_None.
Qed.

Lemma position_le {A} (p : A -> bool) l : (position p l <= length l)%nat.
Proof. unfold position. destruct (find_index p l) as [i|] eqn:E; simpl; [|done]. apply find_index_lt in E. lia. Qed.

(** The position is the count exactly when there is nothing there. *)
Lemma position_cases {A} (p : A -> bool) l :
  (exists x, l !! position p l = Some x /\ p x = true /\ (position p l < length l)%nat) \/
  (l !! position p l = None /\ position p l = length l /\ Forall (fun x => p x = false) l).
Proof.
  destruct (l !! position p l) as [x|] eqn:E.
  - left. exists x. split; [done|]. split; [by eapply position_Some|by eapply lookup_lt_Some].
  - right. split; [done|]. split; [|by apply position_None]. apply lookup_ge_None in E. pose proof (position_le p l). lia.
Qed.

(** Slots of a list: what stands before and after. *)
Lemma list_split_at {A} (l : list A) i x : l !! i = Some x ->
  exists before after, l = before ++ x :: after /\ i = length before.
Proof.
  intros H. exists (take i l), (drop (S i) l). split; [by rewrite take_drop_middle|].
  apply lookup_lt_Some in H. rewrite length_take. lia.
Qed.

Lemma delete_at {A} (before after : list A) x : delete (length before) (before ++ x :: after) = before ++ after.
Proof. by rewrite delete_middle. Qed.

Lemma store_at_slot {A} (before after : list A) x y : store_at (length before) y (before ++ x :: after) = before ++ y :: after.
Proof.
  unfold store_at. destruct (Nat.eqb_spec (length before) (length (before ++ x :: after))) as [E|E].
  - rewrite length_app in E. simpl in E. lia.
  - rewrite insert_app_r_alt by lia. by rewrite Nat.sub_diag.
Qed.

Lemma store_at_end {A} (l : list A) x : store_at (length l) x l = l ++ [x].
Proof. unfold store_at. by rewrite Nat.eqb_refl. Qed.

Lemma Forall_store_at {A} (P : A -> Prop) i x l : P x -> Forall P l -> Forall P (store_at i x l).
Proof.
  intros Hx Hl. unfold store_at. destruct (Nat.eqb i (length l)); [by apply Forall_app_2; [|constructor]|by apply Forall_insert].
Qed.

Lemma Forall_bfilter {A} (P : A -> Prop) f l : Forall P l -> Forall P (List.filter f l).
Proof. induction 1 as [|x l Hx Hl IH]; simpl; [done|]. destruct (f x); auto. Qed.

Lemma bfilter_none {A} (f : A -> bool) l : Forall (fun x => f x = false) l -> List.filter f l = [].
Proof. induction 1 as [|x l Hx Hl IH]; simpl; [done|]. by rewrite Hx. Qed.

Lemma bfilter_filter {A} (f g : A -> bool) l :
  List.filter f (List.filter g l) = List.filter (fun x => g x && f x) l.
Proof. induction l as [|x l IH]; [done|]. simpl. destruct (g x); simpl; [destruct (f x); by rewrite IH|done]. Qed.

(** * Lemmas: widths *)

Lemma field_u32 r i : request_typed r -> is_u32 (field r i).
Proof.
  intros (_ & _ & Hv & _). unfold field. rewrite nth_lookup. destruct (rq_v r !! i) as [x|] eqn:E; [|done].
  simpl. rewrite Forall_lookup in Hv. by apply (Hv i).
Qed.
#[export] Hint Resolve field_u32 : net.

Lemma connected_route_typed a : address_typed a -> route_typed (connected_route a).
Proof. intros (Hip & Hp & Hd). unfold route_typed. cbn. split_and!; try done. by apply land_u32. Qed.

Lemma rebuilt_typed statics addresses routes : rebuilt statics addresses routes ->
  Forall route_typed statics -> Forall address_typed addresses -> Forall route_typed routes.
Proof.
  intros (connected & -> & _ & Hin & _) Hs Ha. apply Forall_app_2; [done|]. apply Forall_forall. intros r Hr.
  apply Hin in Hr as (a & Hia & ->). apply connected_route_typed. rewrite Forall_forall in Ha. by apply Ha.
Qed.

Lemma admin_device_range v name : Z.of_nat (length (av_ports v)) <= NETIF_MAX ->
  admin_device v name = - ENODEV \/ 0 <= admin_device v name < Z.of_nat (length (av_ports v)).
Proof.
  intros _. unfold admin_device. destruct (find_index _ _) as [i|] eqn:E; [|by left]. right.
  apply find_index_lt in E. lia.
Qed.

(** The interface number a request resolves to. *)
Definition dev_range (v : admin_view) (dev : Z) : Prop := dev < 0 \/ 0 <= dev < Z.of_nat (length (av_ports v)).

Lemma request_device_range v r : Z.of_nat (length (av_ports v)) <= NETIF_MAX ->
  dev_range v (if named (rq_dev r) then admin_device v (rq_dev r) else - 1).
Proof.
  intros H. unfold dev_range. destruct (named _); [|left; lia].
  destruct (admin_device_range v (rq_dev r) H) as [->|]; [left; unfold ENODEV; lia|by right].
Qed.

Lemma resolve_acls_typed v acls rules : Z.of_nat (length (av_ports v)) <= NETIF_MAX ->
  Forall record_typed acls -> resolve_acls v acls = inr rules -> Forall acl_typed rules.
Proof.
  intros Hp Ht. revert rules. induction Ht as [|a acls Ha Ht IH]; intros rules; simpl; [by intros [= <-]|].
  destruct (_ && _); [done|]. destruct (resolve_acls v acls) as [rc|rest]; [done|]. intros [= <-]. constructor; [|by apply IH].
  destruct Ha as (Hw & _). unfold acl_words in Hw. rewrite !Forall_cons_iff in Hw.
  destruct (aa_rule a). unfold acl_typed. cbn in *. split_and!; try tauto.
  destruct (_ <? 0) eqn:E; [done|]. bool_hyps. destruct (named (aa_dev a)); [|lia].
  destruct (admin_device_range v (aa_dev a) Hp); unfold NETIF_MAX, ENODEV, is_u32 in *; lia.
Qed.

Lemma sort_prefs_Forall {A} (P : A -> Prop) (pref : A -> Z) l : Forall P l -> Forall P (sort_prefs pref l).
Proof. intros H. by rewrite sort_prefs_perm. Qed.

Section typed.
Context (v : admin_view) (r : admin_request) (dev : Z) (c : net_config).
Hypothesis Hports : Z.of_nat (length (av_ports v)) <= NETIF_MAX.
Hypothesis Hr : request_typed r.
Hypothesis Hdev : dev_range v dev.
Hypothesis Hc : net_typed c.

Lemma iif_typed : is_u32 (if dev <? 0 then NET_IIF_NONE else dev).
Proof. destruct (dev <? 0) eqn:E; [done|]. bool_hyps. destruct Hdev; unfold NETIF_MAX, is_u32 in *; lia. Qed.

Lemma mutate_addresses_typed c' : mutate_addresses r dev c = inr c' -> net_typed c'.
Proof.
  destruct Hc as (Ha & Hro & Hru & Hac). unfold mutate_addresses. destruct (dev <? 0) eqn:Ed; [done|]. bool_hyps.
  set (next := if rq_verb r =? ADM_FLUSH then _ else _).
  assert (Hnext : forall l, next = inr l -> Forall address_typed l).
  { intros l. unfold next. destruct (_ =? ADM_FLUSH); [intros [= <-]; by apply Forall_bfilter|].
    destruct (_ =? ADM_DEL).
    { destruct (_ !! _) as [a|]; [|done]. destruct (_ =? _); [|done]. intros [= <-]. by apply Forall_delete. }
    destruct (_ || _); [|done]. destruct (_ && _); [done|]. destruct (_ && _); [done|]. intros [= <-].
    apply Forall_store_at; [|done]. destruct Hdev; [lia|]. unfold address_typed. cbn.
    split_and!; eauto with net; unfold NETIF_MAX, is_u32 in *; lia. }
  destruct next as [rc|l]; [done|]. specialize (Hnext l eq_refl).
  destruct (net_connected_rebuild _) as [rc c2] eqn:E. destruct (truth rc) eqn:Erc; [done|]. intros [= <-].
  apply truth_false in Erc as ->. apply net_connected_rebuild_ok in E as (Hreb & -> & _).
  unfold net_typed. cbn. split_and!; try done. eapply rebuilt_typed; [exact Hreb|by apply Forall_bfilter|done].
Qed.

Lemma mutate_routes_typed c' : mutate_routes v r dev c = inr c' -> net_typed c'.
Proof.
  destruct Hc as (Ha & Hro & Hru & Hac). unfold mutate_routes. destruct (_ || _); [done|].
  assert (Hset : forall l, Forall route_typed l -> net_typed (set_nc_routes l c)) by (intros; by split_and!).
  destruct (_ =? ADM_FLUSH); [intros [= <-]; apply Hset; by apply Forall_bfilter|].
  destruct (_ =? ADM_DEL).
  { destruct (_ !! _) as [p|]; [|done]. destruct (truth _); [done|]. intros [= <-]. apply Hset. by apply Forall_delete. }
  destruct (_ || _); [|done]. destruct (match _ with Some _ => _ | None => _ end); [done|]. destruct (_ && _); [done|].
  destruct (_ && _); [done|]. intros [= <-]. apply Hset, Forall_store_at; [|done].
  unfold route_typed. cbn. assert (is_u32 (if dev <? 0 then 0 else dev)).
  { destruct (dev <? 0) eqn:E; [done|]. bool_hyps. destruct Hdev; unfold NETIF_MAX, is_u32 in *; lia. }
  split_and!; eauto with net; done.
Qed.

Lemma mutate_rules_typed c' : mutate_rules r dev c = inr c' -> net_typed c'.
Proof.
  destruct Hc as (Ha & Hro & Hru & Hac). unfold mutate_rules.
  assert (Hset : forall l, Forall rule_typed l -> net_typed (set_nc_rules l c)) by (intros; by split_and!).
  destruct (_ =? ADM_FLUSH); [intros [= <-]; by apply Hset|].
  destruct (_ =? ADM_DEL). { destruct (Nat.eqb _ _); [done|]. intros [= <-]. apply Hset. by apply Forall_delete. }
  destruct (_ =? ADM_ADD); [|done]. destruct (Nat.ltb _ _); [done|]. destruct (_ =? NET_RULE_MAX); [done|].
  intros [= <-]. apply Hset, sort_prefs_Forall, Forall_app_2; [done|]. constructor; [|done].
  unfold rule_typed. cbn. split_and!; try apply iif_typed; eauto with net.
Qed.

Lemma mutate_acls_typed c' : mutate_acls v r dev c = inr c' -> net_typed c'.
Proof.
  destruct Hc as (Ha & Hro & Hru & Hac). unfold mutate_acls.
  assert (Hset : forall l, Forall acl_typed l -> net_typed (set_nc_acls l c)) by (intros; by split_and!).
  destruct (_ =? ADM_FLUSH); [intros [= <-]; by apply Hset|].
  destruct (_ =? ADM_DEFAULT); [by intros [= <-]|].
  destruct (_ =? ADM_APPLY).
  { destruct (_ <? _); [done|]. destruct (resolve_acls _ _) as [rc|rules] eqn:E; [done|]. intros [= <-].
    apply (Hset (sort_prefs ac_pref rules)), sort_prefs_Forall. eapply resolve_acls_typed; [done| |exact E].
    apply Forall_take. apply Hr. }
  destruct (_ =? ADM_DEL). { destruct (Nat.eqb _ _); [done|]. intros [= <-]. apply Hset. by apply Forall_delete. }
  destruct (_ =? ADM_ADD); [|done]. destruct (Nat.ltb _ _); [done|]. destruct (_ =? NET_ACL_MAX); [done|].
  intros [= <-]. apply Hset, sort_prefs_Forall, Forall_app_2; [done|]. constructor; [|done].
  unfold acl_typed. cbn. split_and!; try apply iif_typed; eauto with net.
Qed.

Lemma mutate_group_typed c' : mutate_group v r dev c = inr c' -> net_typed c'.
Proof.
  unfold mutate_group. destruct (_ =? ADM_ADDR); [apply mutate_addresses_typed|].
  destruct (_ =? ADM_ROUTE); [apply mutate_routes_typed|]. destruct (_ =? ADM_RULE); [apply mutate_rules_typed|].
  destruct (_ =? ADM_ACL); [apply mutate_acls_typed|done].
Qed.
End typed.

(** * Lemmas: the whole request *)

Lemma net_config_prepare_rest c ports c' : net_config_prepare c ports = (0, c') ->
  nc_acls c' = nc_acls c /\ nc_default_drop c' = nc_default_drop c.
Proof.
  unfold net_config_prepare. destruct (truth _) eqn:E; [intros [= H _]; apply truth_true in E; done|].
  destruct (_ <=? 2); by intros [= <-].
Qed.

Lemma mutate_group_generation v r dev c c' : mutate_group v r dev c = inr c' -> nc_generation c' = nc_generation c.
Proof.
  unfold mutate_group. destruct (_ =? ADM_ADDR).
  { unfold mutate_addresses. destruct (dev <? 0); [done|]. destruct (if rq_verb r =? ADM_FLUSH then _ else _) as [|l]; [done|].
    destruct (net_connected_rebuild _) as [rc c2] eqn:E. destruct (truth rc) eqn:Erc; [done|]. intros [= <-].
    apply truth_false in Erc as ->. by apply net_connected_rebuild_ok in E as (_ & -> & _). }
  destruct (_ =? ADM_ROUTE).
  { unfold mutate_routes. repeat case_match; intros; simplify_eq; done. }
  destruct (_ =? ADM_RULE).
  { unfold mutate_rules. repeat case_match; intros; simplify_eq; done. }
  destruct (_ =? ADM_ACL); [|done].
  unfold mutate_acls. repeat case_match; intros; simplify_eq; done.
Qed.

(** A request that succeeds: the table change, then the new generation is
    prepared, which touches only the route index. *)
Lemma admin_mutate_ok v r c : admin_mutate v r = inr c ->
  exists dev c1, dev = (if named (rq_dev r) then admin_device v (rq_dev r) else - 1) /\
    mutate_group v r dev (av_config v) = inr c1 /\ nc_generation (av_config v) <> UINT64_MAX /\
    nc_generation c = u64 (nc_generation (av_config v) + 1) /\
    net_config_validate c (Z.of_nat (length (av_ports v))) = 0 /\
    (nc_routes_indexed c = true -> nc_route_index c = build_index (nc_routes c)) /\
    nc_addresses c = nc_addresses c1 /\ nc_routes c = nc_routes c1 /\ nc_rules c = nc_rules c1 /\
    nc_acls c = nc_acls c1 /\ nc_default_drop c = nc_default_drop c1.
Proof.
  unfold admin_mutate. set (dev := if named _ then _ else _). destruct (_ && _); [done|].
  destruct (mutate_group _ _ _ _) as [|c1] eqn:Em; [done|]. destruct (_ =? UINT64_MAX) eqn:Eg; [done|].
  destruct (net_config_prepare _ _) as [rc c2] eqn:Ep. destruct (truth rc) eqn:Erc; [done|]. intros [= <-].
  apply truth_false in Erc as ->. bool_hyps. assert (Hg := mutate_group_generation _ _ _ _ _ Em). rewrite Hg in *.
  assert (H1 := net_config_prepare_generation _ _ _ Ep). assert (H2 := net_config_prepare_rest _ _ _ Ep).
  apply net_config_prepare_ok in Ep as (Hval & Hro & Had & Hru & Hix). exists dev, c1.
  cbn [nc_generation set_nc_generation nc_acls nc_default_drop nc_routes nc_addresses nc_rules] in *.
  destruct H2. split_and!; try done; congruence.
Qed.

Lemma admin_mutate_routes_ok v r c : admin_mutate v r = inr c -> rq_group r = ADM_ROUTE ->
  exists dev c1, mutate_routes v r dev (av_config v) = inr c1 /\ nc_addresses c = nc_addresses c1 /\ nc_routes c = nc_routes c1 /\
    nc_rules c = nc_rules c1 /\ nc_acls c = nc_acls c1 /\ nc_default_drop c = nc_default_drop c1.
Proof.
  intros H Hg. apply admin_mutate_ok in H as (dev & c1 & _ & Hm & _ & _ & _ & _ & Hrest). exists dev, c1.
  split; [|done]. unfold mutate_group in Hm. by rewrite Hg in Hm.
Qed.

(** In a valid configuration a static route has its prefix for itself. *)
Lemma static_route_alone c ports before p after t ip len : config_valid c ports ->
  nc_routes c = before ++ p :: after -> route_key t ip len p = true -> nr_connected p = 0 ->
  List.filter (route_key t ip len) before = [] /\ List.filter (route_key t ip len) after = [].
Proof.
  intros Hv Hl Hk Hc.
  assert (Hno : forall j q, nc_routes c !! j = Some q -> j <> length before -> route_key t ip len q = false).
  { intros j q Hj Hne. apply not_true_iff_false. intros Hq. unfold route_key in *. bool_hyps.
    assert (Hp : nc_routes c !! length before = Some p) by (rewrite Hl; by apply list_lookup_middle).
    destruct (Nat.lt_gt_cases j (length before)) as [[Hlt|Hgt] _]; [done| |].
    - destruct (cv_routes_distinct c ports Hv _ _ _ _ Hlt Hp Hj) as (? & _); congruence.
    - destruct (cv_routes_distinct c ports Hv _ _ _ _ Hgt Hj Hp) as (_ & ? & _); congruence. }
  split; apply bfilter_none, Forall_lookup; intros j q Hj.
  - apply (Hno j); [|apply lookup_lt_Some in Hj; lia]. rewrite Hl. by apply lookup_app_l_Some.
  - apply (Hno (length before + S j)%nat); [|lia]. rewrite Hl, lookup_app_r by lia.
    replace (length before + S j - length before)%nat with (S j) by lia. done.
Qed.

(** * Specification *)

(** The routes of one table with one prefix. *)
Definition routes_at (c : net_config) (table ip len : Z) : list net_route := List.filter (route_key table ip len) (nc_routes c).
Definition connected_routes (c : net_config) : list net_route := List.filter (fun p => truth (nr_connected p)) (nc_routes c).

Definition request_key (r : admin_request) : Z * Z * Z := (field r F_TABLE, field r F_IP, field r F_PREFIX).

(** What a route request does to its own prefix. *)
Definition route_effect (r : admin_request) (old new : list net_route) : Prop :=
  if rq_verb r =? ADM_ADD then old = [] /\ exists p, new = [p] /\ nr_connected p = 0 /\ nr_gateway p = field r F_GATEWAY /\ nr_type p = field r F_ACTION
  else if rq_verb r =? ADM_REPLACE then exists p, new = [p] /\ nr_connected p = 0 /\ nr_gateway p = field r F_GATEWAY /\ nr_type p = field r F_ACTION
  else if rq_verb r =? ADM_DEL then (exists p, old = [p] /\ nr_connected p = 0) /\ new = []
  else Forall (fun p => nr_connected p <> 0) new.

Lemma filter_stored {A} f (l : list A) i x : (forall y, l !! i = Some y -> f y = false) -> f x = false -> (i <= length l)%nat ->
  List.filter f (store_at i x l) = List.filter f l.
Proof.
  intros Hold Hnew Hi. destruct (l !! i) as [y|] eqn:E.
  - apply list_split_at in E as (before & after & -> & ->). rewrite store_at_slot, !List.filter_app. simpl.
    by rewrite Hnew, (Hold y).
  - apply lookup_ge_None in E. replace i with (length l) by lia. rewrite store_at_end, List.filter_app. simpl.
    by rewrite Hnew, app_nil_r.
Qed.

Lemma filter_deleted {A} f (l : list A) i y : l !! i = Some y -> f y = false -> List.filter f (delete i l) = List.filter f l.
Proof.
  intros E Hy. apply list_split_at in E as (before & after & -> & ->). rewrite delete_at, !List.filter_app. simpl. by rewrite Hy.
Qed.

Lemma mutate_routes_effect v r dev c ports c' : config_valid c ports -> mutate_routes v r dev c = inr c' ->
  let '(t, ip, len) := request_key r in
  c' = set_nc_routes (nc_routes c') c /\ connected_routes c' = connected_routes c /\
  (forall t' ip' len', t' <> t \/ (rq_verb r <> ADM_FLUSH /\ (ip' <> ip \/ len' <> len)) ->
     routes_at c' t' ip' len' = routes_at c t' ip' len') /\
  route_effect r (routes_at c t ip len) (routes_at c' t ip len).
Proof.
  intros Hv. unfold request_key, mutate_routes, routes_at, connected_routes, route_effect. destruct (_ || _); [done|].
  set (t := field r F_TABLE). set (ip := field r F_IP). set (len := field r F_PREFIX). set (l := nc_routes c).
  set (i := position (route_key t ip len) l).
  assert (Hother : forall t' ip' len' q, t' <> t \/ (ip' <> ip \/ len' <> len) -> route_key t ip len q = true -> route_key t' ip' len' q = false).
  { intros t' ip' len' q Hne Hq. apply not_true_iff_false. unfold route_key in *. intros Hq'. bool_hyps. lia. }
  destruct (Z.eqb_spec (rq_verb r) ADM_FLUSH) as [Ef|Ef].
  { intros [= <-]. rewrite Ef. cbn [nc_routes set_nc_routes]. change (ADM_FLUSH =? ADM_ADD) with false.
    change (ADM_FLUSH =? ADM_REPLACE) with false. change (ADM_FLUSH =? ADM_DEL) with false. cbv iota.
    split; [done|]. rewrite !bfilter_filter. split; [|split].
    - apply filter_ext. intros q. by destruct (truth (nr_connected q)), (nr_table q =? t).
    - intros t' ip' len' [Ht|[? _]]; [|done]. rewrite bfilter_filter. apply filter_ext. intros q. unfold route_key.
      destruct (Z.eqb_spec (nr_table q) t'), (Z.eqb_spec (nr_table q) t); subst; simpl; try done; by rewrite ?andb_false_r.
    - apply Forall_forall. intros q Hq. apply list_elem_of_In, filter_In in Hq as [_ Hq]. unfold route_key in Hq. bool_hyps.
      apply orb_true_iff in H as [H|H]; [apply negb_true_iff, Z.eqb_neq in H; done|]. by apply truth_true. }
  destruct (Z.eqb_spec (rq_verb r) ADM_DEL) as [Ed|Ed].
  { destruct (l !! i) as [p|] eqn:Ei; [|done]. destruct (truth (nr_connected p)) eqn:Ec; [done|]. intros [= <-].
    apply truth_false in Ec. assert (Hk := position_Some _ _ _ Ei). rewrite Ed. cbn [nc_routes set_nc_routes].
    change (ADM_DEL =? ADM_ADD) with false. change (ADM_DEL =? ADM_REPLACE) with false. cbv iota.
    split; [done|]. split; [eapply filter_deleted; [exact Ei|by apply truth_false]|]. split.
    - intros t' ip' len' Hne. eapply filter_deleted; [exact Ei|]. apply Hother; [tauto|done].
    - apply list_split_at in Ei as (before & after & Hl & Hi). rewrite Hl, Hi. fold l in Hl.
      destruct (static_route_alone c ports before p after t ip len Hv Hl Hk Ec) as [Hb Ha].
      rewrite delete_at, !List.filter_app. simpl. rewrite Hk, Hb, Ha. simpl. split; [|done]. eauto. }
  destruct (_ || _) eqn:Everb; [|done]. destruct (match l !! i with Some _ => _ | None => _ end) eqn:Eex; [done|].
  destruct (_ && _); [done|]. destruct (_ && _); [done|]. intros [= <-]. set (new := mk_net_route _ _ _ _ _ _ _).
  assert (Hnew : route_key t ip len new = true) by (unfold route_key, new; cbn; by rewrite !Z.eqb_refl).
  cbn [nc_routes set_nc_routes]. fold l.
  assert (Hold : forall y, l !! i = Some y -> truth (nr_connected y) = false /\ route_key t ip len y = true /\ rq_verb r <> ADM_ADD).
  { intros y Hy. rewrite Hy in Eex. apply orb_false_iff in Eex as [? ?]. bool_hyps. split; [done|]. split; [by eapply position_Some|done]. }
  assert (Hle : (i <= length l)%nat) by apply position_le.
  split; [done|]. split; [apply filter_stored; [by intros y Hy; apply Hold|done|done]|]. split.
  - intros t' ip' len' Hne. apply filter_stored; [|apply Hother; [tauto|done]|done]. intros y Hy. apply Hother; [tauto|by apply Hold].
  - assert (Hres : exists q, List.filter (route_key t ip len) (store_at i new l) = [q] /\ nr_connected q = 0 /\
      nr_gateway q = field r F_GATEWAY /\ nr_type q = field r F_ACTION).
    { exists new. split; [|done]. destruct (l !! i) as [y|] eqn:Ei.
      - destruct (Hold y eq_refl) as (Hc & Hk & _). apply truth_false in Hc.
        apply list_split_at in Ei as (before & after & Hl & Hi). rewrite Hi, Hl, store_at_slot, List.filter_app. simpl. rewrite Hnew.
        by destruct (static_route_alone c ports before y after t ip len Hv Hl Hk Hc) as [-> ->].
      - assert (Hnone := position_None _ _ Ei). apply lookup_ge_None in Ei. replace i with (length l) by lia.
        rewrite store_at_end, List.filter_app. simpl. by rewrite Hnew, bfilter_none. }
    destruct (Z.eqb_spec (rq_verb r) ADM_ADD) as [Ea|Ea].
    + split; [|done]. apply bfilter_none. destruct (l !! i) as [y|] eqn:Ei; [by destruct (Hold y eq_refl) as (_ & _ & ?)|].
      by apply position_None.
    + destruct (rq_verb r =? ADM_REPLACE) eqn:Er; [done|]. simpl in Everb. congruence.
Qed.

(** What a rule or access-list request does to a table ordered by preference. *)
Definition ordered_effect {A} (r : admin_request) (pref : A -> Z) (old new : list A) : Prop :=
  increasing pref new /\
  (rq_verb r = ADM_ADD -> exists x, pref x = field r F_PREF /\ new ≡ₚ x :: old /\ Forall (fun y => pref y <> field r F_PREF) old) /\
  (rq_verb r = ADM_DEL -> exists x, pref x = field r F_PREF /\ old ≡ₚ x :: new /\ Forall (fun y => pref y <> field r F_PREF) new) /\
  (rq_verb r = ADM_FLUSH -> new = []).

Lemma delete_perm {A} (l : list A) i x : l !! i = Some x -> l ≡ₚ x :: delete i l.
Proof. apply delete_Permutation. Qed.

Lemma deleted_pref {A} (pref : A -> Z) l i x : increasing pref l -> l !! i = Some x ->
  Forall (fun y => pref y <> pref x) (delete i l).
Proof.
  intros Hinc Hx. apply list_split_at in Hx as (before & after & -> & ->). rewrite delete_at.
  assert (Hmid : (before ++ x :: after) !! length before = Some x) by (by apply list_lookup_middle).
  apply Forall_app_2; apply Forall_lookup; intros j y Hj.
  - assert (Hlt := lookup_lt_Some _ _ _ Hj).
    assert (pref y < pref x); [|lia]. eapply (Hinc j (length before)); [done|by apply lookup_app_l_Some|done].
  - assert (pref x < pref y); [|lia]. eapply (Hinc (length before) (length before + S j)%nat); [lia|done|].
    rewrite lookup_app_r by lia. by replace (length before + S j - length before)%nat with (S j) by lia.
Qed.

Lemma position_pref {A} (pref : A -> Z) n l :
  (exists x, l !! position (fun y => pref y =? n) l = Some x /\ pref x = n) \/
  (position (fun y => pref y =? n) l = length l /\ Forall (fun y => pref y <> n) l).
Proof.
  destruct (position_cases (fun y => pref y =? n) l) as [(x & Hx & Hp & _)|(_ & Hn & Hall)].
  - left. exists x. bool_hyps. done.
  - right. split; [done|]. eapply Forall_impl; [exact Hall|]. intros y Hy. by apply Z.eqb_neq.
Qed.

Lemma mutate_rules_effect r dev ports c c' : config_valid c ports -> mutate_rules r dev c = inr c' ->
  increasing ru_pref (nc_rules c') -> c' = set_nc_rules (nc_rules c') c /\ ordered_effect r ru_pref (nc_rules c) (nc_rules c').
Proof.
  intros Hv Hm Hinc. unfold mutate_rules in Hm. unfold ordered_effect.
  destruct (position_pref ru_pref (field r F_PREF) (nc_rules c)) as [(x & Hx & Hp)|[Hn Hall]];
    (destruct (Z.eqb_spec (rq_verb r) ADM_FLUSH) as [E|_]; [rewrite E in *; simplify_eq; by split_and!|]);
    (destruct (Z.eqb_spec (rq_verb r) ADM_DEL) as [E|_]; [rewrite E in *|destruct (Z.eqb_spec (rq_verb r) ADM_ADD) as [E|_]; [rewrite E in *|done]]).
  - destruct (Nat.eqb _ _); [done|]. injection Hm as <-. split; [done|]. split_and!; try done.
    intros _. exists x. split; [done|]. split; [by apply delete_perm|].
    eapply Forall_impl; [apply deleted_pref; [apply Hv|exact Hx]|]. simpl. congruence.
  - apply lookup_lt_Some, Nat.ltb_lt in Hx. by rewrite Hx in Hm.
  - by rewrite Hn, Nat.eqb_refl in Hm.
  - destruct (Nat.ltb _ _); [done|]. destruct (_ =? NET_RULE_MAX); [done|]. injection Hm as <-. split; [done|]. split_and!; try done.
    intros _. set (x := mk_net_rule _ _ _ _ _ _ _ _). exists x. split; [done|]. split; [|done]. cbn [nc_rules set_nc_rules].
    rewrite sort_prefs_perm. by rewrite Permutation_app_comm.
Qed.

Lemma mutate_acls_effect v r dev ports c c' : config_valid c ports -> mutate_acls v r dev c = inr c' ->
  increasing ac_pref (nc_acls c') ->
  c' = (c |> set_nc_default_drop (nc_default_drop c') |> set_nc_acls (nc_acls c')) /\ ordered_effect r ac_pref (nc_acls c) (nc_acls c') /\
  (rq_verb r = ADM_DEFAULT -> nc_acls c' = nc_acls c) /\
  (rq_verb r = ADM_APPLY -> exists rules, resolve_acls v (take (Z.to_nat (rq_count r)) (rq_acls r)) = inr rules /\ nc_acls c' ≡ₚ rules) /\
  nc_default_drop c' = (if (rq_verb r =? ADM_DEFAULT) || (rq_verb r =? ADM_APPLY) then field r F_ACTION else nc_default_drop c).
Proof.
  intros Hv Hm Hinc. unfold mutate_acls in Hm. unfold ordered_effect.
  destruct (Z.eqb_spec (rq_verb r) ADM_FLUSH) as [E|_]; [rewrite E in *; injection Hm as <-; destruct c; by split_and!|].
  destruct (Z.eqb_spec (rq_verb r) ADM_DEFAULT) as [E|Ed].
  { rewrite E in *. injection Hm as <-. destruct c. by split_and!. }
  destruct (Z.eqb_spec (rq_verb r) ADM_APPLY) as [E|Ea].
  { rewrite E in *. destruct (_ <? _); [done|]. destruct (resolve_acls _ _) as [|rules]; [done|]. injection Hm as <-.
    destruct c. split_and!; try done. intros _. exists rules. split; [done|]. apply sort_prefs_perm. }
  destruct (position_pref ac_pref (field r F_PREF) (nc_acls c)) as [(x & Hx & Hp)|[Hn Hall]];
    (destruct (Z.eqb_spec (rq_verb r) ADM_DEL) as [E|_]; [rewrite E in *|destruct (Z.eqb_spec (rq_verb r) ADM_ADD) as [E|_]; [rewrite E in *|done]]).
  - destruct (Nat.eqb _ _); [done|]. injection Hm as <-. split; [by destruct c|]. split_and!; try done.
    intros _. exists x. split; [done|]. split; [by apply delete_perm|].
    eapply Forall_impl; [apply deleted_pref; [apply Hv|exact Hx]|]. simpl. congruence.
  - apply lookup_lt_Some, Nat.ltb_lt in Hx. by rewrite Hx in Hm.
  - by rewrite Hn, Nat.eqb_refl in Hm.
  - destruct (Nat.ltb _ _); [done|]. destruct (_ =? NET_ACL_MAX); [done|]. injection Hm as <-. split; [by destruct c|]. split_and!; try done.
    intros _. set (x := mk_net_acl _ _ _ _ _ _ _ _ _ _ _ _ _). exists x. split; [done|]. split; [|done]. cbn [nc_acls set_nc_acls].
    rewrite sort_prefs_perm. by rewrite Permutation_app_comm.
Qed.

(** What an address request does to the address list. *)
Definition address_effect (r : admin_request) (dev : Z) (old new : list net_address) : Prop :=
  let a := mk_net_address (field r F_IP) (field r F_PREFIX) dev in
  (rq_verb r = ADM_ADD -> new = old ++ [a]) /\
  (rq_verb r = ADM_REPLACE -> a ∈ new /\
     forall b, na_ip b <> field r F_IP \/ na_dev b <> dev -> b ∈ new <-> b ∈ old) /\
  (rq_verb r = ADM_DEL -> old ≡ₚ a :: new) /\
  (rq_verb r = ADM_FLUSH -> forall b, b ∈ new <-> b ∈ old /\ na_dev b <> dev).

Lemma store_at_elem {A} (l : list A) i x b : (i <= length l)%nat -> (forall y, l !! i = Some y -> y <> b) -> x <> b ->
  b ∈ store_at i x l <-> b ∈ l.
Proof.
  intros Hi Hy Hx. destruct (l !! i) as [y|] eqn:E.
  - apply list_split_at in E as (before & after & -> & ->). rewrite store_at_slot. specialize (Hy y eq_refl). set_solver.
  - apply lookup_ge_None in E. replace i with (length l) by lia. rewrite store_at_end. set_solver.
Qed.

Lemma mutate_addresses_effect r dev c c' : mutate_addresses r dev c = inr c' ->
  0 <= dev /\ c' = (set_nc_addresses (nc_addresses c') c |> set_nc_routes_indexed false |> set_nc_routes (nc_routes c')) /\
  rebuilt (static_routes c) (nc_addresses c') (nc_routes c') /\ address_effect r dev (nc_addresses c) (nc_addresses c').
Proof.
  unfold mutate_addresses, address_effect. destruct (dev <? 0) eqn:Ed; [done|]. bool_hyps. set (l := nc_addresses c).
  set (i := position _ l). set (a := mk_net_address _ _ _). set (next := if rq_verb r =? ADM_FLUSH then _ else _).
  destruct next as [rc|l'] eqn:En; [done|]. destruct (net_connected_rebuild _) as [rc c2] eqn:E.
  destruct (truth rc) eqn:Erc; [done|]. intros [= <-]. apply truth_false in Erc as ->.
  apply net_connected_rebuild_ok in E as (Hreb & -> & _). cbn [nc_addresses set_nc_addresses set_nc_routes set_nc_routes_indexed] in *.
  split; [done|]. split; [done|]. split; [exact Hreb|]. clear Hreb c2. unfold next in En. clear next.
  assert (Hi : (i <= length l)%nat) by apply position_le.
  assert (Hat : forall y, l !! i = Some y -> na_ip y = field r F_IP /\ na_dev y = dev)
    by (intros y Hy; apply position_Some in Hy; bool_hyps; done).
  revert En. destruct (Z.eqb_spec (rq_verb r) ADM_FLUSH) as [E|_].
  { rewrite E. intros [= <-]. split_and!; try done. intros _ b. rewrite list_elem_of_In, filter_In, <- list_elem_of_In.
    rewrite negb_true_iff, Z.eqb_neq. done. }
  destruct (Z.eqb_spec (rq_verb r) ADM_DEL) as [E|_].
  { rewrite E. destruct (l !! i) as [y|] eqn:Ey; [|done].
    destruct (Z.eqb_spec (na_prefix y) (field r F_PREFIX)) as [Ep|]; [|done]. intros [= <-]. split_and!; try done. intros _.
    destruct (Hat y eq_refl) as [Hip Hdev]. replace a with y by (destruct y; unfold a; cbn in *; by subst). by apply delete_Permutation. }
  destruct (_ || _) eqn:Ev; [|done]. destruct (_ && _) eqn:Eadd; [done|]. destruct (Nat.eqb i _ && _); [done|]. intros [= <-].
  split_and!; try (intros E; rewrite E in Ev; done).
  - intros E. rewrite E in Eadd. change (ADM_ADD =? ADM_ADD) with true in Eadd. rewrite andb_true_r in Eadd. apply Nat.ltb_ge in Eadd.
    replace i with (length l) by lia. apply store_at_end.
  - intros _. split.
    + destruct (l !! i) as [y|] eqn:Ey.
      * apply list_split_at in Ey as (before & after & -> & ->). rewrite store_at_slot. set_solver.
      * apply lookup_ge_None in Ey. replace i with (length l) by lia. rewrite store_at_end. set_solver.
    + intros b Hb. apply store_at_elem; [done| |]; [intros y Hy <-; apply Hat in Hy; lia|intros <-; cbn in Hb; lia].
Qed.

(** * Properties *)

(** What a successful change yields. *)
Lemma admin_mutate_sound v r c : net_typed (av_config v) -> request_typed r ->
  Z.of_nat (length (av_ports v)) <= NETIF_MAX -> is_u64 (nc_generation (av_config v)) -> admin_mutate v r = inr c ->
  config_valid c (Z.of_nat (length (av_ports v))) /\ net_typed c /\ nc_generation c = nc_generation (av_config v) + 1 /\
  (nc_routes_indexed c = true -> nc_route_index c = build_index (nc_routes c)).
Proof.
  intros Ht Hr Hp Hg H. apply admin_mutate_ok in H as (dev & c1 & -> & Hm & Hmax & Hgen & Hval & Hix & Ha & Hro & Hru & Hac & _).
  assert (Htc : net_typed c).
  { assert (H1 : net_typed c1) by (eapply mutate_group_typed; eauto using request_device_range).
    unfold net_typed in *. by rewrite Ha, Hro, Hru, Hac. }
  split; [by apply net_config_validate_iff|]. split; [done|]. split; [|done].
  rewrite Hgen. apply u64_id. unfold is_u64, UINT64_MAX in *. lia.
Qed.

(** C10: a configuration change that succeeds yields a configuration that is
    valid for the interfaces, exactly one generation later, with every field at
    its width and, when it has a route index, the right one.  A failing request
    yields no configuration at all. *)
Theorem admin_mutate_valid v r c : net_typed (av_config v) -> request_typed r ->
  Z.of_nat (length (av_ports v)) <= NETIF_MAX -> is_u64 (nc_generation (av_config v)) -> admin_mutate v r = inr c ->
  config_valid c (Z.of_nat (length (av_ports v))) /\ net_typed c /\ nc_generation c = nc_generation (av_config v) + 1 /\
  (nc_routes_indexed c = true -> nc_route_index c = build_index (nc_routes c)).
Proof. apply admin_mutate_sound. Qed.

(** C39: route requests act as operations on a map keyed by table and prefix:
    adding needs a free key and fills it, replacing fills it, deleting needs a
    static route and empties the key, flushing leaves connected routes only.
    Every other key keeps its routes, and connected routes, addresses, rules and
    the access list are never touched. *)
Theorem admin_route_semantics v r c ports : config_valid (av_config v) ports ->
  rq_group r = ADM_ROUTE -> admin_mutate v r = inr c ->
  let '(t, ip, len) := request_key r in
  nc_addresses c = nc_addresses (av_config v) /\ nc_rules c = nc_rules (av_config v) /\ nc_acls c = nc_acls (av_config v) /\
  connected_routes c = connected_routes (av_config v) /\
  (forall t' ip' len', t' <> t \/ (rq_verb r <> ADM_FLUSH /\ (ip' <> ip \/ len' <> len)) ->
     routes_at c t' ip' len' = routes_at (av_config v) t' ip' len') /\
  route_effect r (routes_at (av_config v) t ip len) (routes_at c t ip len).
Proof.
  intros Hv Hg H. destruct (admin_mutate_routes_ok _ _ _ H Hg) as (dev & c1 & Hm & Ha & Hro & Hru & Hac & _).
  assert (He := mutate_routes_effect _ _ _ _ _ _ Hv Hm). destruct (request_key r) as [[t ip] len].
  destruct He as (Heq & Hconn & Hrest & Heff). rewrite Ha, Hru, Hac, Heq. cbn.
  unfold connected_routes, routes_at in *. rewrite Hro. by split_and!.
Qed.

(** Rule and access-list requests keep their table strictly ordered by
    preference: adding needs a free preference, deleting an existing one, and
    both change that one entry; applying replaces the whole list by the
    requested one; the other tables stay as they are. *)
Theorem admin_ordered_semantics v r c : let old := av_config v in let ports := Z.of_nat (length (av_ports v)) in
  net_typed old -> request_typed r -> ports <= NETIF_MAX -> config_valid old ports -> admin_mutate v r = inr c ->
  (rq_group r = ADM_RULE -> ordered_effect r ru_pref (nc_rules old) (nc_rules c) /\
     nc_addresses c = nc_addresses old /\ nc_routes c = nc_routes old /\ nc_acls c = nc_acls old) /\
  (rq_group r = ADM_ACL -> ordered_effect r ac_pref (nc_acls old) (nc_acls c) /\
     nc_addresses c = nc_addresses old /\ nc_routes c = nc_routes old /\ nc_rules c = nc_rules old /\
     (rq_verb r = ADM_APPLY -> exists rules,
        resolve_acls v (take (Z.to_nat (rq_count r)) (rq_acls r)) = inr rules /\ nc_acls c ≡ₚ rules)).
Proof.
  intros old ports Ht Hr Hp Hv H. apply admin_mutate_ok in H as (dev & c1 & -> & Hm & _ & _ & Hval & _ & Ha & Hro & Hru & Hac & _).
  assert (Htc : net_typed c).
  { assert (H1 : net_typed c1) by (eapply mutate_group_typed; eauto using request_device_range).
    unfold net_typed in *. by rewrite Ha, Hro, Hru, Hac. }
  apply net_config_validate_iff in Hval; [|done]. destruct (cv_rules _ _ Hval) as [_ Hir]. destruct (cv_acls _ _ Hval) as [_ Hia].
  rewrite Hru in Hir. rewrite Hac in Hia. unfold mutate_group in Hm.
  split; intros Hg; rewrite Hg in Hm; change (ADM_RULE =? ADM_ADDR) with false in Hm; change (ADM_RULE =? ADM_ROUTE) with false in Hm.
  - destruct (mutate_rules_effect _ _ _ _ _ Hv Hm Hir) as (Heq & He). rewrite Hru. split; [done|].
    rewrite Ha, Hro, Hac, Heq. by split_and!.
  - destruct (mutate_acls_effect _ _ _ _ _ _ Hv Hm Hia) as (Heq & He & _ & Happly & _). rewrite Hac. split; [done|].
    rewrite Ha, Hro, Hru. split_and!; try done; rewrite Heq; done.
Qed.

(** Address requests keep the connected routes in step with the addresses:
    afterwards the connected routes are exactly those of the new addresses, the
    static routes, rules and access list are unchanged, and the address list
    differs by the one address of the request (or, when flushing, by the
    addresses of the interface). *)
Theorem admin_address_semantics v r c : let old := av_config v in
  rq_group r = ADM_ADDR -> admin_mutate v r = inr c ->
  rebuilt (static_routes old) (nc_addresses c) (nc_routes c) /\ static_routes c = static_routes old /\
  nc_rules c = nc_rules old /\ nc_acls c = nc_acls old /\
  exists dev, 0 <= dev /\ address_effect r dev (nc_addresses old) (nc_addresses c).
Proof.
  intros old Hg H. apply admin_mutate_ok in H as (dev & c1 & _ & Hm & _ & _ & _ & _ & Ha & Hro & Hru & Hac & _).
  unfold mutate_group in Hm. rewrite Hg in Hm. change (ADM_ADDR =? ADM_ADDR) with true in Hm. cbv iota in Hm.
  apply mutate_addresses_effect in Hm as (Hdev & Heq & Hreb & He). rewrite Hru, Hac, Ha, Hro.
  split; [done|]. split; [|by rewrite Heq; eauto].
  eapply rebuilt_statics; [exact Hreb|done|apply static_routes_unconnected].
Qed.

(** * Witnesses *)

(** The sample interfaces with the sample configuration published. *)
Definition sample_view : admin_view := mk_admin_view sample_net (rt_ports sample_runtime).

(** A request for the device [eth0]. *)
Definition sample_change (group verb : Z) (v : list Z) : admin_request :=
  mk_admin_request group verb 0 0 v ([101; 116; 104; 48] ++ replicate 60 0) [].

Definition sample_route_request : admin_request :=
  sample_change ADM_ROUTE ADM_ADD
    [0; 0; 0; 0; 0; 0; 0; 0; 0; 0; 0; NET_UNICAST; 77; htonl 167772163; htonl 3405803776; 24].
Definition sample_rule_request : admin_request :=
  sample_change ADM_RULE ADM_ADD [50; 0; 0; htonl 3405803776; 24; 0; 0; 0; 0; 0; 0; NET_UNICAST; 77; 0; 0; 0].
Definition sample_address_request : admin_request :=
  sample_change ADM_ADDR ADM_ADD [0; 0; 0; 0; 0; 0; 0; 0; 0; 0; 0; 0; 0; 0; htonl 3405803777; 24].

Definition sample_mutated (r : admin_request) : net_config :=
  match admin_mutate sample_view r with inr c => c | inl _ => zero_net_config end.

Lemma sample_config_valid : config_valid sample_net 2.
Proof. apply net_config_validate_iff; [compute_closed|reflexivity]. Qed.

Lemma admin_mutate_valid_witness :
  let c := sample_mutated sample_route_request in
  config_valid c 2 /\ net_typed c /\ nc_generation c = nc_generation sample_net + 1 /\
  (nc_routes_indexed c = true -> nc_route_index c = build_index (nc_routes c)).
Proof.
  apply (admin_mutate_valid sample_view sample_route_request);
    [compute_closed|unfold request_typed; compute_closed|vm_compute; discriminate|compute_closed|vm_compute; reflexivity].
Defined.

Lemma admin_route_semantics_witness :
  exists p, routes_at (sample_mutated sample_route_request) 77 (htonl 3405803776) 24 = [p] /\ nr_gateway p = htonl 167772163.
Proof.
  assert (H := admin_route_semantics sample_view sample_route_request (sample_mutated sample_route_request) 2
    sample_config_valid eq_refl ltac:(vm_compute; reflexivity)).
  destruct H as (_ & _ & _ & _ & _ & _ & p & Hp & _ & Hgw & _). exists p. split; [exact Hp|exact Hgw].
Defined.

Lemma admin_ordered_semantics_witness :
  ordered_effect sample_rule_request ru_pref [] (nc_rules (sample_mutated sample_rule_request)).
Proof.
  destruct (admin_ordered_semantics sample_view sample_rule_request (sample_mutated sample_rule_request)) as [H _];
    [compute_closed|unfold request_typed; compute_closed|vm_compute; discriminate|exact sample_config_valid|vm_compute; reflexivity|].
  apply H. reflexivity.
Defined.

Lemma admin_address_semantics_witness :
  static_routes (sample_mutated sample_address_request) = static_routes sample_net.
Proof.
  apply (admin_address_semantics sample_view sample_address_request); [reflexivity|vm_compute; reflexivity].
Defined.
