(* ===== verification/AdminWorker.v ===== *)
(** The worker's side of administration, [src/admin_worker.c]: the mailbox job
    of [include/admin_service.h], publication of a prepared configuration, link
    and neighbour operations, and the snapshot every reply is made from.  The
    ethernet devices are an argument ([Nic]): what a call answers is a function
    of the calls made before it. *)
From S2P Require Import Prelude.
From S2P Require Import Dpdk.
From S2P Require Import Types.
From S2P Require Import Netif.
From S2P Require Import NetConfig.
From S2P Require Import PolicyRoute.
From S2P Require Import Neighbour.
From S2P Require Import Graph.
From S2P Require Import Packet.
From S2P Require Import IcmpError.
From S2P Require Import Resolution.
From S2P Require Import Nodes.
From S2P Require Import Runtime.
From S2P Require Import AdminWire.
From S2P Require Import AdminState.

(** * Devices *)

(** The calls that change a device, newest first, with what they returned. *)
Inductive nic_event : Type :=
| NicStart (port rc : Z)
| NicStop (port rc : Z)
| NicSetMtu (port mtu rc : Z)
| NicGetMtu (port : Z)
| NicInfo (port : Z)
| NicLink (port : Z)
| NicStats (port : Z).

(** [struct rte_eth_dev_info], as far as it is read. *)
Record dev_info : Type := mk_dev_info { di_min_mtu : Z; di_max_mtu : Z; di_driver_name : option string }.

(** The answers; those of calls that fill a structure are pairs of the return
    code and what the structure holds afterwards.  Of [struct rte_eth_stats] the
    counters that are shown are kept: [ierrors], [imissed], [oerrors]. *)
Class Nic : Type := {
  start_of : list nic_event -> Z -> Z;
  stop_of : list nic_event -> Z -> Z;
  set_mtu_of : list nic_event -> Z -> Z -> Z;
  get_mtu_of : list nic_event -> Z -> Z * Z;
  info_of : list nic_event -> Z -> Z * dev_info;
  link_of : list nic_event -> Z -> Z * Z;
  stats_of : list nic_event -> Z -> list Z
}.

(** * State *)

(** [struct app_runtime]: the part every component shares, the device calls so far, and the fields only administration uses.  [wk_published] names the allocation [rt->network] points to. *)
Record worker : Type := mk_worker {
  wk_rt : app_runtime;
  wk_nic : list nic_event;
  wk_carrier : list Z;
  wk_carrier_checked : Z;
  wk_admin_started : Z;
  wk_published : nat
}.
Definition zero_worker : worker := mk_worker zero_app_runtime [] (replicate (Z.to_nat NETIF_MAX) 0) 0 0 O.
#[export] Instance worker_inhabited : Inhabited worker := populate zero_worker.
Definition set_wk_rt (v : app_runtime) (r : worker) : worker := mk_worker v (wk_nic r) (wk_carrier r) (wk_carrier_checked r) (wk_admin_started r) (wk_published r).
Definition set_wk_nic (v : list nic_event) (r : worker) : worker := mk_worker (wk_rt r) v (wk_carrier r) (wk_carrier_checked r) (wk_admin_started r) (wk_published r).
Definition set_wk_carrier (v : list Z) (r : worker) : worker := mk_worker (wk_rt r) (wk_nic r) v (wk_carrier_checked r) (wk_admin_started r) (wk_published r).
Definition set_wk_carrier_checked (v : Z) (r : worker) : worker := mk_worker (wk_rt r) (wk_nic r) (wk_carrier r) v (wk_admin_started r) (wk_published r).
Definition set_wk_admin_started (v : Z) (r : worker) : worker := mk_worker (wk_rt r) (wk_nic r) (wk_carrier r) (wk_carrier_checked r) v (wk_published r).
Definition set_wk_published (v : nat) (r : worker) : worker := mk_worker (wk_rt r) (wk_nic r) (wk_carrier r) (wk_carrier_checked r) (wk_admin_started r) v.

(** [struct admin_link] less [port], which is in [av_ports]. *)
Record admin_link : Type := mk_admin_link {
  al_carrier : Z;
  al_carrier_known : bool;
  al_driver : string;
  al_hardware : list Z
}.
Definition zero_admin_link : admin_link := mk_admin_link 0 false EmptyString [].
#[export] Instance admin_link_inhabited : Inhabited admin_link := populate zero_admin_link.
Definition set_al_carrier (v : Z) (r : admin_link) : admin_link := mk_admin_link v (al_carrier_known r) (al_driver r) (al_hardware r).
Definition set_al_carrier_known (v : bool) (r : admin_link) : admin_link := mk_admin_link (al_carrier r) v (al_driver r) (al_hardware r).
Definition set_al_driver (v : string) (r : admin_link) : admin_link := mk_admin_link (al_carrier r) (al_carrier_known r) v (al_hardware r).
Definition set_al_hardware (v : list Z) (r : admin_link) : admin_link := mk_admin_link (al_carrier r) (al_carrier_known r) (al_driver r) v.
#[export] Instance admin_link_eq_dec : EqDecision admin_link.
Proof. solve_decision. Defined.

(** [struct admin_socket]. *)
Record admin_socket : Type := mk_admin_socket {
  as_owner : Z;
  as_fd : Z;
  as_open : bool;
  as_type : Z;
  as_state : Z;
  as_rx : Z;
  as_tx : Z;
  as_local : ps_sockaddr;
  as_remote : ps_sockaddr
}.
Definition zero_admin_socket : admin_socket := mk_admin_socket 0 0 false 0 0 0 0 zero_ps_sockaddr zero_ps_sockaddr.
#[export] Instance admin_socket_inhabited : Inhabited admin_socket := populate zero_admin_socket.
Definition set_as_owner (v : Z) (r : admin_socket) : admin_socket := mk_admin_socket v (as_fd r) (as_open r) (as_type r) (as_state r) (as_rx r) (as_tx r) (as_local r) (as_remote r).
Definition set_as_fd (v : Z) (r : admin_socket) : admin_socket := mk_admin_socket (as_owner r) v (as_open r) (as_type r) (as_state r) (as_rx r) (as_tx r) (as_local r) (as_remote r).
Definition set_as_open (v : bool) (r : admin_socket) : admin_socket := mk_admin_socket (as_owner r) (as_fd r) v (as_type r) (as_state r) (as_rx r) (as_tx r) (as_local r) (as_remote r).
Definition set_as_type (v : Z) (r : admin_socket) : admin_socket := mk_admin_socket (as_owner r) (as_fd r) (as_open r) v (as_state r) (as_rx r) (as_tx r) (as_local r) (as_remote r).
Definition set_as_state (v : Z) (r : admin_socket) : admin_socket := mk_admin_socket (as_owner r) (as_fd r) (as_open r) (as_type r) v (as_rx r) (as_tx r) (as_local r) (as_remote r).
Definition set_as_rx (v : Z) (r : admin_socket) : admin_socket := mk_admin_socket (as_owner r) (as_fd r) (as_open r) (as_type r) (as_state r) v (as_tx r) (as_local r) (as_remote r).
Definition set_as_tx (v : Z) (r : admin_socket) : admin_socket := mk_admin_socket (as_owner r) (as_fd r) (as_open r) (as_type r) (as_state r) (as_rx r) v (as_local r) (as_remote r).
Definition set_as_local (v : ps_sockaddr) (r : admin_socket) : admin_socket := mk_admin_socket (as_owner r) (as_fd r) (as_open r) (as_type r) (as_state r) (as_rx r) (as_tx r) v (as_remote r).
Definition set_as_remote (v : ps_sockaddr) (r : admin_socket) : admin_socket := mk_admin_socket (as_owner r) (as_fd r) (as_open r) (as_type r) (as_state r) (as_rx r) (as_tx r) (as_local r) v.
#[export] Instance admin_socket_eq_dec : EqDecision admin_socket.
Proof. solve_decision. Defined.

(** [struct admin_view]; [sn_view] holds [config] and [links[i].port]. *)
Record admin_snapshot : Type := mk_admin_snapshot {
  sn_view : admin_view;
  sn_acl : acl_counters;
  sn_events : admin_events;
  sn_links : list admin_link;
  sn_sockets : list admin_socket;
  sn_neighbours : neighbour_table;
  sn_nodes : list node_stats;
  sn_node_names : list string;
  sn_tcp : tcp_stats;
  sn_icmp : icmp_error_state;
  sn_drops : list Z;
  sn_uptime : Z;
  sn_forwarding : bool;
  sn_route : route_result;
  sn_route_reason : drop_reason
}.
Definition zero_admin_snapshot : admin_snapshot := mk_admin_snapshot (mk_admin_view zero_net_config []) zero_acl_counters zero_admin_events [] [] zero_neighbour_table [] [] zero_tcp_stats zero_icmp_error_state [] 0 false zero_route_result DROP_NONE.
#[export] Instance admin_snapshot_inhabited : Inhabited admin_snapshot := populate zero_admin_snapshot.
Definition set_sn_view (v : admin_view) (r : admin_snapshot) : admin_snapshot := mk_admin_snapshot v (sn_acl r) (sn_events r) (sn_links r) (sn_sockets r) (sn_neighbours r) (sn_nodes r) (sn_node_names r) (sn_tcp r) (sn_icmp r) (sn_drops r) (sn_uptime r) (sn_forwarding r) (sn_route r) (sn_route_reason r).
Definition set_sn_acl (v : acl_counters) (r : admin_snapshot) : admin_snapshot := mk_admin_snapshot (sn_view r) v (sn_events r) (sn_links r) (sn_sockets r) (sn_neighbours r) (sn_nodes r) (sn_node_names r) (sn_tcp r) (sn_icmp r) (sn_drops r) (sn_uptime r) (sn_forwarding r) (sn_route r) (sn_route_reason r).
Definition set_sn_events (v : admin_events) (r : admin_snapshot) : admin_snapshot := mk_admin_snapshot (sn_view r) (sn_acl r) v (sn_links r) (sn_sockets r) (sn_neighbours r) (sn_nodes r) (sn_node_names r) (sn_tcp r) (sn_icmp r) (sn_drops r) (sn_uptime r) (sn_forwarding r) (sn_route r) (sn_route_reason r).
Definition set_sn_links (v : list admin_link) (r : admin_snapshot) : admin_snapshot := mk_admin_snapshot (sn_view r) (sn_acl r) (sn_events r) v (sn_sockets r) (sn_neighbours r) (sn_nodes r) (sn_node_names r) (sn_tcp r) (sn_icmp r) (sn_drops r) (sn_uptime r) (sn_forwarding r) (sn_route r) (sn_route_reason r).
Definition set_sn_sockets (v : list admin_socket) (r : admin_snapshot) : admin_snapshot := mk_admin_snapshot (sn_view r) (sn_acl r) (sn_events r) (sn_links r) v (sn_neighbours r) (sn_nodes r) (sn_node_names r) (sn_tcp r) (sn_icmp r) (sn_drops r) (sn_uptime r) (sn_forwarding r) (sn_route r) (sn_route_reason r).
Definition set_sn_neighbours (v : neighbour_table) (r : admin_snapshot) : admin_snapshot := mk_admin_snapshot (sn_view r) (sn_acl r) (sn_events r) (sn_links r) (sn_sockets r) v (sn_nodes r) (sn_node_names r) (sn_tcp r) (sn_icmp r) (sn_drops r) (sn_uptime r) (sn_forwarding r) (sn_route r) (sn_route_reason r).
Definition set_sn_nodes (v : list node_stats) (r : admin_snapshot) : admin_snapshot := mk_admin_snapshot (sn_view r) (sn_acl r) (sn_events r) (sn_links r) (sn_sockets r) (sn_neighbours r) v (sn_node_names r) (sn_tcp r) (sn_icmp r) (sn_drops r) (sn_uptime r) (sn_forwarding r) (sn_route r) (sn_route_reason r).
Definition set_sn_node_names (v : list string) (r : admin_snapshot) : admin_snapshot := mk_admin_snapshot (sn_view r) (sn_acl r) (sn_events r) (sn_links r) (sn_sockets r) (sn_neighbours r) (sn_nodes r) v (sn_tcp r) (sn_icmp r) (sn_drops r) (sn_uptime r) (sn_forwarding r) (sn_route r) (sn_route_reason r).
Definition set_sn_tcp (v : tcp_stats) (r : admin_snapshot) : admin_snapshot := mk_admin_snapshot (sn_view r) (sn_acl r) (sn_events r) (sn_links r) (sn_sockets r) (sn_neighbours r) (sn_nodes r) (sn_node_names r) v (sn_icmp r) (sn_drops r) (sn_uptime r) (sn_forwarding r) (sn_route r) (sn_route_reason r).
Definition set_sn_icmp (v : icmp_error_state) (r : admin_snapshot) : admin_snapshot := mk_admin_snapshot (sn_view r) (sn_acl r) (sn_events r) (sn_links r) (sn_sockets r) (sn_neighbours r) (sn_nodes r) (sn_node_names r) (sn_tcp r) v (sn_drops r) (sn_uptime r) (sn_forwarding r) (sn_route r) (sn_route_reason r).
Definition set_sn_drops (v : list Z) (r : admin_snapshot) : admin_snapshot := mk_admin_snapshot (sn_view r) (sn_acl r) (sn_events r) (sn_links r) (sn_sockets r) (sn_neighbours r) (sn_nodes r) (sn_node_names r) (sn_tcp r) (sn_icmp r) v (sn_uptime r) (sn_forwarding r) (sn_route r) (sn_route_reason r).
Definition set_sn_uptime (v : Z) (r : admin_snapshot) : admin_snapshot := mk_admin_snapshot (sn_view r) (sn_acl r) (sn_events r) (sn_links r) (sn_sockets r) (sn_neighbours r) (sn_nodes r) (sn_node_names r) (sn_tcp r) (sn_icmp r) (sn_drops r) v (sn_forwarding r) (sn_route r) (sn_route_reason r).
Definition set_sn_forwarding (v : bool) (r : admin_snapshot) : admin_snapshot := mk_admin_snapshot (sn_view r) (sn_acl r) (sn_events r) (sn_links r) (sn_sockets r) (sn_neighbours r) (sn_nodes r) (sn_node_names r) (sn_tcp r) (sn_icmp r) (sn_drops r) (sn_uptime r) v (sn_route r) (sn_route_reason r).
Definition set_sn_route (v : route_result) (r : admin_snapshot) : admin_snapshot := mk_admin_snapshot (sn_view r) (sn_acl r) (sn_events r) (sn_links r) (sn_sockets r) (sn_neighbours r) (sn_nodes r) (sn_node_names r) (sn_tcp r) (sn_icmp r) (sn_drops r) (sn_uptime r) (sn_forwarding r) v (sn_route_reason r).
Definition set_sn_route_reason (v : drop_reason) (r : admin_snapshot) : admin_snapshot := mk_admin_snapshot (sn_view r) (sn_acl r) (sn_events r) (sn_links r) (sn_sockets r) (sn_neighbours r) (sn_nodes r) (sn_node_names r) (sn_tcp r) (sn_icmp r) (sn_drops r) (sn_uptime r) (sn_forwarding r) (sn_route r) v.

(** [enum admin_job_type]. *)
Inductive admin_job_type : Type := ADMIN_READ | ADMIN_ACTIVATE | ADMIN_HARDWARE.
#[export] Instance admin_job_type_eq_dec : EqDecision admin_job_type.
Proof. solve_decision. Defined.

(** A configuration on the heap: the allocation and its contents. *)
Abbreviation config_block := (nat * net_config)%type.

Definition zero_admin_request : admin_request := mk_admin_request 0 0 0 0 (replicate 16 0) (replicate 64 0) [].

(** [struct admin_job]. *)
Record admin_job : Type := mk_admin_job {
  jb_type : admin_job_type;
  jb_request : admin_request;
  jb_next : option config_block;
  jb_retired : option config_block;
  jb_view : admin_snapshot;
  jb_result : Z
}.
Definition zero_admin_job : admin_job := mk_admin_job ADMIN_READ zero_admin_request None None zero_admin_snapshot 0.
#[export] Instance admin_job_inhabited : Inhabited admin_job := populate zero_admin_job.
Definition set_jb_type (v : admin_job_type) (r : admin_job) : admin_job := mk_admin_job v (jb_request r) (jb_next r) (jb_retired r) (jb_view r) (jb_result r).
Definition set_jb_request (v : admin_request) (r : admin_job) : admin_job := mk_admin_job (jb_type r) v (jb_next r) (jb_retired r) (jb_view r) (jb_result r).
Definition set_jb_next (v : option config_block) (r : admin_job) : admin_job := mk_admin_job (jb_type r) (jb_request r) v (jb_retired r) (jb_view r) (jb_result r).
Definition set_jb_retired (v : option config_block) (r : admin_job) : admin_job := mk_admin_job (jb_type r) (jb_request r) (jb_next r) v (jb_view r) (jb_result r).
Definition set_jb_view (v : admin_snapshot) (r : admin_job) : admin_job := mk_admin_job (jb_type r) (jb_request r) (jb_next r) (jb_retired r) v (jb_result r).
Definition set_jb_result (v : Z) (r : admin_job) : admin_job := mk_admin_job (jb_type r) (jb_request r) (jb_next r) (jb_retired r) (jb_view r) v.

(** The shared part of [struct admin_service]: [state] is 0 while the control thread owns the job, 1 while the worker does, 2 when the reply is ready. *)
Record mailbox : Type := mk_mailbox {
  mx_state : Z;
  mx_job : admin_job
}.
Definition zero_mailbox : mailbox := mk_mailbox 0 zero_admin_job.
#[export] Instance mailbox_inhabited : Inhabited mailbox := populate zero_mailbox.
Definition set_mx_state (v : Z) (r : mailbox) : mailbox := mk_mailbox v (mx_job r).
Definition set_mx_job (v : admin_job) (r : mailbox) : mailbox := mk_mailbox (mx_state r) v.

(** Run an operation of the shared runtime. *)
Definition on_rt (f : app_runtime -> app_runtime) (w : worker) : worker := set_wk_rt (f (wk_rt w)) w.
Definition on_rt_rc (f : app_runtime -> Z * app_runtime) (w : worker) : Z * worker :=
  let '(rc, rt) := f (wk_rt w) in (rc, set_wk_rt rt w).
Definition on_port (i : nat) (f : port_state -> port_state) (w : worker) : worker := on_rt (alter_port i f) w.
Definition port_at (w : worker) (i : nat) : port_state := nth i (rt_ports (wk_rt w)) zero_port_state.

(** [rt->network], which [net_config_init] sets before the service starts. *)
Definition published (w : worker) : net_config := default zero_net_config (rt_network (wk_rt w)).

(** A string in a [char[n]] filled by [snprintf]. *)
Definition truncated (n : nat) (s : string) : string := String.substring 0 (n - 1) s.

Section operations.
Context `{!Dpdk, !Nic}.

(** The calls of [rte_ethdev.h]: each is recorded with what it returned. *)
Definition record_nic (e : nic_event) (w : worker) : worker := set_wk_nic (e :: wk_nic w) w.

Definition dev_start (port : Z) (w : worker) : Z * worker :=
  let rc := start_of (wk_nic w) port in (rc, record_nic (NicStart port rc) w).
Definition dev_stop (port : Z) (w : worker) : Z * worker :=
  let rc := stop_of (wk_nic w) port in (rc, record_nic (NicStop port rc) w).
Definition dev_set_mtu (port mtu : Z) (w : worker) : Z * worker :=
  let rc := set_mtu_of (wk_nic w) port mtu in (rc, record_nic (NicSetMtu port mtu rc) w).
Definition dev_get_mtu (port : Z) (w : worker) : Z * Z * worker :=
  (get_mtu_of (wk_nic w) port, record_nic (NicGetMtu port) w).
Definition dev_info_get (port : Z) (w : worker) : Z * dev_info * worker :=
  (info_of (wk_nic w) port, record_nic (NicInfo port) w).
Definition link_get_nowait (port : Z) (w : worker) : Z * Z * worker :=
  (link_of (wk_nic w) port, record_nic (NicLink port) w).
Definition stats_get (port : Z) (w : worker) : list Z * worker :=
  (stats_of (wk_nic w) port, record_nic (NicStats port) w).
Definition timer (w : worker) : Z * worker := on_rt_rc timer_cycles w.

(** * Publication *)

(** The sockets a configuration change must leave alone. *)
Definition bound (s : ps_socket_entry) : bool := so_allocated s && truth (sa_ip_be (so_local s)).
Definition live_sockets (rt : app_runtime) : list ps_socket_entry :=
  take (Z.to_nat (ss_capacity (rt_sockets rt))) (ss_entries (rt_sockets rt)).

Definition removed_binding (rt : app_runtime) (next : net_config) : bool :=
  existsb (fun s => bound s && negb (existsb (fun a => na_ip a =? sa_ip_be (so_local s)) (nc_addresses next)))
    (live_sockets rt).

(** * The snapshot *)

Definition capture_link (p : port_state) (w : worker) : admin_link * worker :=
  let '((rc, status), w) := link_get_nowait (pt_port_id p) w in
  let '(hardware, w) := stats_get (pt_port_id p) w in
  let '((rc_info, info), w) := dev_info_get (pt_port_id p) w in
  let driver := if truth rc_info then EmptyString
                else match di_driver_name info with Some name => truncated 64 name | None => EmptyString end in
  (mk_admin_link status (negb (truth rc)) driver hardware, w).

Fixpoint capture_links (ports : list port_state) (w : worker) : list admin_link * worker :=
  match ports with
  | [] => ([], w)
  | p :: ports' =>
    let '(link, w) := capture_link p w in
    let '(links, w) := capture_links ports' w in (link :: links, w)
  end.

Definition capture_socket (s : ps_socket_entry) : admin_socket :=
  let stream := so_type s =? PS_SOCK_STREAM in
  mk_admin_socket (so_owner s) (so_fd s) (so_open s) (so_type s)
    (if stream then Z.of_nat (tcp_state_index (tc_state (so_tcp s))) else 0)
    (if stream then tc_rx_len (so_tcp s) else ud_count (so_udp s))
    (if stream then tc_tx_len (so_tcp s) else 0) (so_local s) (so_remote s).

Definition capture (r : admin_request) (w : worker) : admin_snapshot * worker :=
  let rt := wk_rt w in
  let '(now, w) := timer w in
  let '(links, w) := capture_links (rt_ports rt) w in
  let '(reason, route) :=
    if (rq_group r =? ADM_ROUTE) && (rq_verb r =? ADM_GET)
    then ipv4_route_query rt (field r F_IP) (field r F_SRC) NET_IIF_NONE zero_route_result
    else (DROP_NONE, zero_route_result) in
  (mk_admin_snapshot (mk_admin_view (published w) (rt_ports rt)) (rt_acl_stats rt) (rt_events rt) links
     (capture_socket <$> List.filter so_allocated (live_sockets rt)) (rt_neighbours rt)
     (dn_stats <$> take NODE_MAX (gr_nodes (rt_graph rt))) ((fun n => truncated 32 (dn_name n)) <$> take NODE_MAX (gr_nodes (rt_graph rt)))
     (rt_tcp_stats rt) (rt_icmp_errors rt) (gr_drop_reasons (rt_graph rt))
     (u64 (now - wk_admin_started w) / rte_get_timer_hz) (rt_ipv4_forwarding rt) route reason, w).

(** * Links *)

(** The second half of [mtu_set], for a device that has to be stopped first. *)
Definition mtu_restart (i : nat) (port mtu old : Z) (w : worker) : Z * worker :=
  let '(rc, w) := dev_stop port w in
  if truth rc then (rc, w) else
  let w := on_port i (set_pt_started false) w in
  let '(rc, w) := dev_set_mtu port (u16 mtu) w in
  let '(rc, w) := if truth rc then (rc, w) else dev_start port w in
  if truth rc then
    let w := (dev_set_mtu port old w).2 in
    let '(rc2, w) := dev_start port w in
    (rc, if truth rc2 then on_port i (set_pt_admin_down true) w else on_port i (set_pt_started true) w)
  else (0, on_port i (set_pt_started true) w).

(** Reading the MTU back. *)
Definition mtu_confirm (i : nat) (port mtu old : Z) (w : worker) : Z * worker :=
  let '((rc, actual), w) := dev_get_mtu port w in
  if truth rc || negb (actual =? mtu)
  then (if truth rc then rc else - EIO, (dev_set_mtu port old w).2)
  else (0, on_port i (set_pt_mtu actual) w).

Definition mtu_set (i : nat) (mtu : Z) (w : worker) : Z * worker :=
  let p := port_at w i in
  let port := pt_port_id p in
  if (mtu <? 68) || (1500 <? mtu) then (- EINVAL, w) else
  let '((rc, info), w) := dev_info_get port w in
  if truth rc then (rc, w) else
  if (truth (di_min_mtu info) && (mtu <? di_min_mtu info)) || (truth (di_max_mtu info) && (di_max_mtu info <? mtu))
  then (- EINVAL, w) else
  let '(rc, w) := dev_set_mtu port (u16 mtu) w in
  let '(rc, w) := if (rc =? - EBUSY) && pt_started p then mtu_restart i port mtu (pt_mtu p) w else (rc, w) in
  if truth rc then (rc, w) else mtu_confirm i port mtu (pt_mtu p) w.

(** [inl] is an early return, [inr] goes on to cancel the waiting packets. *)
Definition link_up (i : nat) (w : worker) : (Z * worker) + worker :=
  let p := port_at w i in
  if pt_started p && negb (pt_admin_down p) then inl (0, w) else
  let '(rc, w) := dev_start (pt_port_id p) w in
  if truth rc then inl (rc, w) else inr (on_port i (fun p => p |> set_pt_started true |> set_pt_admin_down false) w).

Definition link_down (i : nat) (w : worker) : (Z * worker) + worker :=
  let p := port_at w i in
  if pt_admin_down p then inl (0, w) else
  let '(rc, w) := dev_stop (pt_port_id p) w in
  if truth rc then inl (rc, w) else inr (on_port i (fun p => p |> set_pt_started false |> set_pt_admin_down true) w).

Definition link_operation (dev : nat) (r : admin_request) (w : worker) : (Z * worker) + worker :=
  if field r F_PORTS =? 1 then
    if 1 <? field r F_ACTION then inl (- EINVAL, w) else
    if truth (field r F_ACTION) then link_up dev w else link_down dev w
  else if field r F_PORTS =? 2 then
    let '(rc, w) := mtu_set dev (field r F_IP) w in if truth rc then inl (rc, w) else inr w
  else inl (- EINVAL, w).

(** * Neighbours *)

(** The loop of a flush.  An entry of the device is deleted and its slot looked
    at again, because closing the probe chain may move another entry there.
    [fuel] bounds the rounds: every round deletes an entry or moves on. *)
Fixpoint flush_loop (fuel : nat) (dev : Z) (i : Z) (rt : app_runtime) : Z * app_runtime :=
  match fuel with
  | O => (0, rt)
  | S fuel' =>
    if NEIGHBOUR_CAPACITY <=? i then (0, rt) else
    let e := slot (rt_neighbours rt) i in
    if ne_in_use e && (ne_netif_id e =? dev) then
      let '(rc, rt) := neighbour_delete submit dev (ne_ip_be e) rt in
      if truth rc then (rc, rt) else flush_loop fuel' dev i rt
    else flush_loop fuel' dev (i + 1) rt
  end.
Definition flush_fuel : nat := 2 * Z.to_nat NEIGHBOUR_CAPACITY + 1.

Definition neighbour_flush (dev : Z) (rt : app_runtime) : Z * app_runtime :=
  let '(rc, rt) := flush_loop flush_fuel dev 0 rt in
  if truth rc then (rc, rt) else (0, neighbour_cancel submit dev 0 rt).

(** The MAC address of a request: two bytes in one field, four in the next. *)
Definition request_mac (r : admin_request) : ether_addr :=
  let first := field r F_SPORT_MIN in
  let rest := field r F_SPORT_MAX in
  [u8 (Z.shiftr first 8); u8 first; u8 (Z.shiftr rest 24); u8 (Z.shiftr rest 16); u8 (Z.shiftr rest 8); u8 rest].

(** The last port of that name. *)
Definition port_named (name : list Z) (ports : list port_state) : option nat :=
  foldl (fun found '(i, p) => if String.eqb (c_string name) (pt_name p) then Some i else found) None
    (imap (fun i p => (i, p)) ports).

Definition neighbour_operation (dev : Z) (r : admin_request) (rt : app_runtime) : Z * app_runtime :=
  let ip := field r F_IP in
  if rq_verb r =? ADM_FLUSH then neighbour_flush dev rt else
  if rq_verb r =? ADM_DEL then neighbour_delete submit dev ip rt else
  if negb (rq_verb r =? ADM_ADD) && negb (rq_verb r =? ADM_REPLACE) then (- EOPNOTSUPP, rt) else
  if UINT16_MAX <? field r F_SPORT_MIN then (- EINVAL, rt) else
  neighbour_set submit dev ip (request_mac r) (rq_verb r =? ADM_REPLACE) rt.

Definition admin_worker_operation (r : admin_request) (w : worker) : Z * worker :=
  match port_named (rq_dev r) (rt_ports (wk_rt w)) with
  | None => (- ENODEV, w)
  | Some dev =>
    if (rq_group r =? ADM_LINK) && (rq_verb r =? ADM_SET) then
      match link_operation dev r w with
      | inl early => early
      | inr w =>
        (0, on_rt (fun rt => admin_event_emit (neighbour_cancel submit (Z.of_nat dev) 0 rt) ADM_LINK (Z.of_nat dev) ADM_SET) w)
      end
    else if negb (rq_group r =? ADM_NEIGH) then (- EOPNOTSUPP, w)
    else on_rt_rc (neighbour_operation (Z.of_nat dev) r) w
  end.

(** * The step of the worker *)

(** One port of the carrier scan, once per second. *)
Definition check_carrier (w : worker) (i : nat) : worker :=
  let '((rc, status), w) := link_get_nowait (pt_port_id (port_at w i)) w in
  if negb (truth rc) && negb (nth i (wk_carrier w) 0 =? status) then
    on_rt (fun rt => admin_event_emit rt ADM_LINK (Z.of_nat i) ADM_SHOW) (set_wk_carrier (<[i := status]> (wk_carrier w)) w)
  else w.

Definition scan_carrier (w : worker) : worker :=
  let '(now, w) := timer w in
  if u64 (now - wk_carrier_checked w) <? rte_get_timer_hz then w else
  foldl check_carrier (set_wk_carrier_checked now w) (seq 0 (length (rt_ports (wk_rt w)))).

(** The event of a change: [rt->events.entries[(rt->events.sequence-1)%ADMIN_EVENT_MAX]]. *)
Definition describe_change (r : admin_request) (rt : app_runtime) : app_runtime :=
  let i := Z.to_nat (u64 (es_sequence (rt_events rt) - 1) mod ADMIN_EVENT_MAX) in
  let dev := port_named (rq_dev r) (rt_ports rt) in
  let f := fun e => e |> set_ev_ip (field r F_IP) |> set_ev_prefix (field r F_PREFIX) |> set_ev_table (field r F_TABLE)
    |> set_ev_dev (match dev with Some d => Z.of_nat d | None => ev_dev e end) in
  set_rt_events (set_es_entries (alter f i (es_entries (rt_events rt))) (rt_events rt)) rt.

(** Whether a change moves routes, so that packets waiting for a neighbour may
    have the wrong next hop. *)
Definition reroutes (r : admin_request) : bool :=
  (rq_group r =? ADM_ADDR) || (rq_group r =? ADM_ROUTE) || (rq_group r =? ADM_RULE).

Definition publish (r : admin_request) (next : net_config) (rt : app_runtime) : app_runtime :=
  let retired := default zero_net_config (rt_network rt) in
  rt |> set_rt_acl_stats (net_acl_counters_migrate retired next (rt_acl_stats rt))
     |> set_rt_network (Some next)
     |> (fun rt => if reroutes r then neighbour_fini submit rt else rt)
     |> (fun rt => admin_event_emit rt (rq_group r) (field r F_PREF) (rq_verb r))
     |> describe_change r
     |> (fun rt => admin_event_emit rt ADM_STATUS 0 ADM_APPLY).

Definition activate (j : admin_job) (w : worker) : admin_job * worker :=
  let refuse := fun rc => (set_jb_result rc j, w) in
  match jb_next j with
  | None => refuse (- ESTALE)
  | Some (block, next) =>
    if negb (nc_generation next =? u64 (nc_generation (published w) + 1)) then refuse (- ESTALE) else
    if removed_binding (wk_rt w) next then refuse (- EBUSY) else
    (j |> set_jb_retired (Some (wk_published w, published w)) |> set_jb_result 0,
     w |> on_rt (publish (jb_request j) next) |> set_wk_published block)
  end.

Definition admin_progress (mx : mailbox) (w : worker) : Z * mailbox * worker :=
  let w := scan_carrier w in
  if negb (mx_state mx =? 1) then (0, mx, w) else
  let j := set_jb_result 0 (mx_job mx) in
  let '(j, w) :=
    match jb_type j with
    | ADMIN_ACTIVATE => activate j w
    | ADMIN_HARDWARE => let '(rc, w) := admin_worker_operation (jb_request j) w in (set_jb_result rc j, w)
    | ADMIN_READ => (j, w)
    end in
  let '(view, w) := capture (jb_request j) w in
  (1, mx |> set_mx_job (set_jb_view view j) |> set_mx_state 2, w).
End operations.

#[global] Arguments capture : simpl never.
#[global] Arguments mtu_restart : simpl never.
#[global] Arguments mtu_confirm : simpl never.
#[global] Arguments mtu_set : simpl never.
#[global] Arguments link_up : simpl never.
#[global] Arguments link_down : simpl never.
#[global] Arguments neighbour_flush : simpl never.
#[global] Arguments port_named : simpl never.
#[global] Arguments link_operation : simpl never.
#[global] Arguments neighbour_operation : simpl never.
#[global] Arguments admin_worker_operation : simpl never.
#[global] Arguments scan_carrier : simpl never.
#[global] Arguments publish : simpl never.
#[global] Arguments activate : simpl never.
#[global] Arguments admin_progress : simpl never.

(** * What device operations touch *)

(** A property that survives recording a call, and any change of a port but to
    the fields that name it, survives the link operations. *)
Section device_steps.
Context {N : Nic} (P : worker -> Prop).
Hypothesis Hrecord : forall e w, P w -> P (record_nic e w).
Hypothesis Hport : forall i f w,
  (forall p, (pt_configured (f p), pt_port_id (f p)) = (pt_configured p, pt_port_id p)) -> P w -> P (on_port i f w).

Ltac kept := cbn [snd]; repeat (first [assumption | apply Hrecord | apply Hport; [done|]]).

Lemma mtu_restart_keeps i port mtu old w : P w -> P (mtu_restart i port mtu old w).2.
Proof.
  intros H. unfold mtu_restart, dev_stop. destruct (truth _); [kept|].
  set (w2 := on_port _ _ _). assert (H2 : P w2) by (unfold w2; kept). clearbody w2. unfold dev_set_mtu at 1.
  set (w3 := record_nic _ w2). assert (H3 : P w3) by (unfold w3; kept). clearbody w3.
  assert (Hend : forall x : Z * worker, P x.2 -> P (let '(rc, w) := x in
    if truth rc then
      let w := (dev_set_mtu port old w).2 in
      let '(rc2, w) := dev_start port w in
      (rc, if truth rc2 then on_port i (set_pt_admin_down true) w else on_port i (set_pt_started true) w)
    else (0, on_port i (set_pt_started true) w)).2).
  { intros [rc2 w4] H4. destruct (truth rc2); [|kept].
    unfold dev_set_mtu, dev_start. cbv zeta. cbn [snd]. destruct (truth _); kept. }
  apply Hend. destruct (truth _); kept.
Qed.

Lemma mtu_confirm_keeps i port mtu old w : P w -> P (mtu_confirm i port mtu old w).2.
Proof.
  intros H. unfold mtu_confirm, dev_get_mtu, dev_set_mtu.
  destruct (get_mtu_of _ _) as [rc4 actual]. destruct (_ || _); [kept|]. kept.
Qed.

Lemma mtu_set_keeps i mtu w : P w -> P (mtu_set i mtu w).2.
Proof.
  intros H. unfold mtu_set. cbv zeta. destruct (_ || _); [kept|]. unfold dev_info_get.
  destruct (info_of _ _) as [rc info]. destruct (truth rc); [kept|]. destruct (_ || _); [kept|].
  unfold dev_set_mtu at 1. set (w1 := record_nic _ (record_nic _ w)). assert (H1 : P w1) by (unfold w1; kept). clearbody w1.
  assert (Hend : forall x : Z * worker, P x.2 -> P (let '(rc, w2) := x in
    if truth rc then (rc, w2) else mtu_confirm i (pt_port_id (port_at w i)) mtu (pt_mtu (port_at w i)) w2).2).
  { intros [rc2 w2] H2. destruct (truth rc2); [kept|by apply mtu_confirm_keeps]. }
  apply Hend. destruct (_ && _); [by apply mtu_restart_keeps|kept].
Qed.

Lemma link_operation_keeps dev r w : P w ->
  match link_operation dev r w with inl early => P early.2 | inr w' => P w' end.
Proof.
  intros H. unfold link_operation. destruct (_ =? 1).
  - destruct (_ <? _); [kept|]. unfold link_up, link_down, dev_start, dev_stop.
    destruct (truth _); (destruct (_ : bool); [kept|]); (destruct (truth _); [kept|]); kept.
  - destruct (_ =? 2); [|kept]. assert (H1 := mtu_set_keeps dev (field r F_IP) w H). destruct (mtu_set _ _ _) as [rc w'].
    by destruct (truth rc).
Qed.
End device_steps.
