(* ===== verification/AdminFormat.v ===== *)
(** The replies of [src/admin_format.c]: what a snapshot looks like as text or as
    JSON.  The buffer is [struct output]; an [append] that does not fit sets a
    sticky error. *)
From Stdlib Require Import Ascii.
From stdpp Require Import pretty.
From S2P Require Import Prelude.
From S2P Require Import Dpdk.
From S2P Require Import Types.
From S2P Require Import Text.
From S2P Require Import Graph.
From S2P Require Import Control.
From S2P Require Import AdminWire.
From S2P Require Import AdminState.
From S2P Require Import AdminWorker.

Definition ADMIN_JSON : Z := 1.
Definition ADMIN_BRIEF : Z := 2.
Definition ADMIN_STATS : Z := 4.
Definition ADMIN_NODES : Z := 8.

(** * The buffer *)

(** [struct output]; [used] is the length of the text. *)
Record output : Type := mk_output {
  ou_text : string;
  ou_size : Z;
  ou_error : Z;
  ou_json : bool;
  ou_first : bool
}.

Definition text_length (s : string) : Z := Z.of_nat (String.length s).

Definition append (s : string) (o : output) : output :=
  if truth (ou_error o) then o else
  if ou_size o - text_length (ou_text o) <=? text_length s
  then mk_output (ou_text o) (ou_size o) (- ENOBUFS) (ou_json o) (ou_first o)
  else mk_output (ou_text o +:+ s) (ou_size o) (ou_error o) (ou_json o) (ou_first o).

(** The quotation mark. *)
Definition quote : string := String "034" EmptyString.

Definition hex_digit (n : Z) : ascii := ascii_of_N (Z.to_N (if n <? 10 then 48 + n else 87 + n)).
Definition hex2 (n : Z) : string := String (hex_digit (n / 16 mod 16)) (String (hex_digit (n mod 16)) EmptyString).
Definition hex4 (n : Z) : string := (hex2 (n / 256) +:+ hex2 (n mod 256))%string.

Definition row (o : output) : output :=
  if ou_json o then
    let o := append (if ou_first o then "{" else ",{")%string o in mk_output (ou_text o) (ou_size o) (ou_error o) (ou_json o) false
  else o.
Definition end_row (o : output) : output := append (if ou_json o then "}" else String "010" EmptyString)%string o.

(** What separates one field from the next. *)
Definition separator (json last : bool) : string := (if last then "" else if json then "," else " ")%string.

Definition number (name : string) (n : Z) (last : bool) (o : output) : output :=
  append ((if ou_json o then quote +:+ name +:+ quote +:+ ":" else name +:+ "=") +:+ pretty n +:+ separator (ou_json o) last)%string o.

(** One character of [string]. *)
Definition escaped (json : bool) (c : ascii) : string :=
  if json && ((code c <? 32) || (code c =? 34) || (code c =? 92)) then ("\u" +:+ hex4 (code c))%string else String c EmptyString.
Fixpoint append_chars (s : string) (o : output) : output :=
  match s with EmptyString => o | String c s' => append_chars s' (append (escaped (ou_json o) c) o) end.

Definition string_field (name s : string) (last : bool) (o : output) : output :=
  append ((if ou_json o then quote else "") +:+ separator (ou_json o) last)%string
    (append_chars s (append (if ou_json o then quote +:+ name +:+ quote +:+ ":" +:+ quote else name +:+ "=")%string o)).

Definition type_name (action : Z) : string :=
  if action <=? NET_PROHIBIT then nth (Z.to_nat action) ["unicast"; "blackhole"; "unreachable"; "prohibit"]%string EmptyString
  else "invalid"%string.

Definition mac_text (mac : ether_addr) : string :=
  (hex2 (byte_of mac 0) +:+ ":" +:+ hex2 (byte_of mac 1) +:+ ":" +:+ hex2 (byte_of mac 2) +:+ ":" +:+
   hex2 (byte_of mac 3) +:+ ":" +:+ hex2 (byte_of mac 4) +:+ ":" +:+ hex2 (byte_of mac 5))%string.

Definition flag (r : admin_request) (bit : Z) : bool := truth (Z.land (rq_flags r) bit).

Section format.
Context (v : admin_snapshot) (r : admin_request) (apps : daemon_service).

Definition ports : list port_state := av_ports (sn_view v).
Definition config : net_config := av_config (sn_view v).

Definition device (dev : Z) : string :=
  if dev <? Z.of_nat (length ports) then pt_name (nth (Z.to_nat dev) ports zero_port_state) else "*"%string.

(** [snprintf] of an address and a length into 24 characters. *)
Definition prefix_text (ip len : Z) : string := truncated 24 (inet_ntop ip +:+ "/" +:+ pretty len)%string.
Definition prefix_field (name : string) (ip len : Z) (last : bool) (o : output) : output := string_field name (prefix_text ip len) last o.

Definition bit (b : bool) : Z := if b then 1 else 0.

(** * The groups *)

Definition format_rule (u : net_rule) (o : output) : output :=
  o |> row |> number "pref" (ru_pref u) false |> prefix_field "from" (ru_src u) (ru_src_prefix u) false
    |> prefix_field "to" (ru_dst u) (ru_dst_prefix u) false
    |> string_field "iif" (device (ru_iif u)) false |> string_field "action" (type_name (ru_type u)) false
    |> number "table" (ru_table u) true |> end_row.

(** The identities the control thread of the daemon publishes. *)
Definition identities : list daemon_identity := take (Z.to_nat (ds_max_clients apps)) (ds_identities apps).
Definition connected : list daemon_identity := List.filter (fun i => truth (id_owner i)) identities.

(** The loop over [ids]: the routing tables in use. *)
Definition routing_tables : list Z :=
  foldl (fun ids t => if truth t && negb (existsb (Z.eqb t) ids) then ids ++ [t] else ids)
    [NET_TABLE_LOCAL; NET_TABLE_MAIN; NET_TABLE_DEFAULT] ((nr_table <$> nc_routes config) ++ (ru_table <$> nc_rules config)).

Definition format_status (o : output) : output :=
  o |> row |> string_field "state" "running" false |> number "uptime_seconds" (sn_uptime v) false
    |> number "generation" (nc_generation config) false |> number "workers" 1 false
    |> number "ports" (Z.of_nat (length ports)) false |> number "applications" (Z.of_nat (length connected)) false
    |> number "sockets" (Z.of_nat (length (sn_sockets v))) false |> number "acl_rules" (Z.of_nat (length (nc_acls config))) false
    |> number "routing_tables" (Z.of_nat (length routing_tables)) false |> number "forwarding" (bit (sn_forwarding v)) true |> end_row.

(** Whether an interface passes the filter; [-1] is no filter. *)
Definition selected (filter dev : Z) : bool := (filter <? 0) || (dev =? filter).

Definition format_link (filter : Z) (o : output) (i : nat) : output :=
  if negb (selected filter (Z.of_nat i)) then o else
  let l := nth i (sn_links v) zero_admin_link in
  let p := nth i ports zero_port_state in
  let o := o |> row |> number "id" (pt_id p) false |> string_field "name" (pt_name p) false
    |> string_field "admin" (if pt_admin_down p then "DOWN" else "UP") false
    |> number "carrier_known" (bit (al_carrier_known l)) false |> number "carrier" (al_carrier l) false
    |> number "mtu" (pt_mtu p) (negb (flag r ADMIN_STATS) && flag r ADMIN_BRIEF) in
  let o := if flag r ADMIN_BRIEF then o else
    o |> number "dpdk_port" (pt_port_id p) false |> string_field "mac" (mac_text (pt_mac p)) false
      |> string_field "driver" (al_driver l) (negb (flag r ADMIN_STATS)) in
  let o := if negb (flag r ADMIN_STATS) then o else
    o |> number "rx_packets" (pt_rx_packets p) false |> number "rx_bytes" (pt_rx_bytes p) false
      |> number "tx_packets" (pt_tx_packets p) false |> number "tx_bytes" (pt_tx_bytes p) false
      |> number "tx_drops" (pt_tx_drops p) false |> number "rx_errors" (nth 0 (al_hardware l) 0) false
      |> number "rx_missed" (nth 1 (al_hardware l) 0) false |> number "tx_errors" (nth 2 (al_hardware l) 0) true in
  end_row o.

Definition format_address (filter : Z) (o : output) (a : net_address) : output :=
  if negb (selected filter (na_dev a)) then o else
  o |> row |> string_field "dev" (device (na_dev a)) false |> prefix_field "address" (na_ip a) (na_prefix a) true |> end_row.

Definition format_lookup (o : output) : output :=
  let p := sn_route v in
  o |> row |> string_field "destination" (inet_ntop (field r F_IP)) false |> string_field "source" (inet_ntop (rr_source_ip_be p)) false
    |> string_field "dev" (if truth (rr_type p) then "*"%string else device (rr_netif_id p)) false
    |> string_field "next_hop" (inet_ntop (rr_next_hop_be p)) false |> number "table" (rr_table p) false
    |> number "rule_pref" (rr_rule_pref p) false
    |> string_field "type" (if truth (rr_local p) then "local"%string else type_name (rr_type p)) true |> end_row.

Definition format_local (o : output) (a : net_address) : output :=
  o |> row |> prefix_field "destination" (na_ip a) 32 false |> string_field "dev" (device (na_dev a)) false
    |> number "table" NET_TABLE_LOCAL false |> string_field "type" "local" true |> end_row.

Definition format_route (o : output) (p : net_route) : output :=
  if truth (field r F_TABLE) && negb (nr_table p =? field r F_TABLE) then o else
  o |> row |> prefix_field "destination" (nr_ip p) (nr_prefix p) false |> string_field "gateway" (inet_ntop (nr_gateway p)) false
    |> string_field "dev" (if truth (nr_type p) then "*"%string else device (nr_dev p)) false |> number "table" (nr_table p) false
    |> number "connected" (nr_connected p) false |> string_field "type" (type_name (nr_type p)) true |> end_row.

Definition builtin_rule (pref table : Z) : net_rule :=
  zero_net_rule |> set_ru_iif NET_IIF_NONE |> set_ru_pref pref |> set_ru_table table.

Definition format_acl (o : output) (i : nat) : output :=
  let a := nth i (nc_acls config) zero_net_acl in
  let c := nth i (cs_rules (sn_acl v)) zero_acl_counter in
  o |> row |> number "id" (ac_pref a) false |> number "pref" (ac_pref a) false |> prefix_field "src" (ac_src a) (ac_src_prefix a) false
    |> prefix_field "dst" (ac_dst a) (ac_dst_prefix a) false |> string_field "iif" (device (ac_iif a)) false
    |> number "protocol" (ac_proto a) false |> number "ports" (ac_ports a) false
    |> number "sport_min" (ac_sport_min a) false |> number "sport_max" (ac_sport_max a) false
    |> number "dport_min" (ac_dport_min a) false |> number "dport_max" (ac_dport_max a) false
    |> string_field "action" (if truth (ac_drop a) then "drop" else "accept") false
    |> number "packets" (ct_packets c) false |> number "bytes" (ct_bytes c) true |> end_row.

Definition format_acl_default (o : output) : output :=
  o |> row |> string_field "default" (if truth (nc_default_drop config) then "drop" else "accept") false
    |> number "accepted" (cs_accepted (sn_acl v)) false |> number "dropped" (cs_dropped (sn_acl v)) false
    |> number "default_matches" (cs_defaults (sn_acl v)) true |> end_row.

Definition format_neighbour (filter : Z) (o : output) (n : neighbour_entry) : output :=
  if negb (ne_in_use n) || negb (selected filter (ne_netif_id n)) then o else
  o |> row |> string_field "address" (inet_ntop (ne_ip_be n)) false |> string_field "dev" (device (ne_netif_id n)) false
    |> string_field "lladdr" (mac_text (ne_mac n)) false
    |> string_field "state" (if ne_permanent n then "PERMANENT" else "DYNAMIC") true |> end_row.

Definition state_names : list string :=
  ["CLOSED"; "LISTEN"; "SYN_SENT"; "SYN_RECEIVED"; "ESTABLISHED"; "FIN_WAIT_1"; "FIN_WAIT_2"; "CLOSE_WAIT"; "LAST_ACK"; "TIME_WAIT"]%string.

Definition format_socket (o : output) (s : admin_socket) : output :=
  let udp := as_type s =? PS_SOCK_DGRAM in
  o |> row |> number "id" (as_fd s) false |> number "owner" (as_owner s) false |> string_field "protocol" (if udp then "udp" else "tcp") false
    |> string_field "local" (inet_ntop (sa_ip_be (as_local s))) false |> number "local_port" (sa_port (as_local s)) false
    |> string_field "remote" (inet_ntop (sa_ip_be (as_remote s))) false |> number "remote_port" (sa_port (as_remote s)) false
    |> string_field "state" (if udp then "BOUND"%string else nth (Z.to_nat (as_state s)) state_names "UNKNOWN"%string) false
    |> number "open" (bit (as_open s)) false |> number "rx_queue" (as_rx s) false |> number "tx_queue" (as_tx s) true |> end_row.

Definition format_app (o : output) (i : daemon_identity) : output :=
  o |> row |> number "id" (id_owner i) false |> number "pid" (id_pid i) false |> number "uid" (id_uid i) false
    |> number "sockets" (Z.of_nat (length (List.filter (fun s => as_owner s =? id_owner i) (sn_sockets v)))) false
    |> string_field "state" "connected" true |> end_row.

Definition format_tcp (o : output) : output :=
  let t := sn_tcp v in
  o |> row |> string_field "kind" "tcp" false |> number "syns" (ts_syns t) false |> number "established" (ts_established t) false
    |> number "closed" (ts_closed t) false |> number "resets" (ts_resets t) false |> number "retransmissions" (ts_retransmissions t) false
    |> number "timeouts" (ts_timeouts t) true |> end_row.

Definition format_icmp (o : output) : output :=
  let s := sn_icmp v in
  o |> row |> string_field "kind" "icmp" false |> number "generated" (ie_generated s) false |> number "suppressed" (ie_suppressed s) false
    |> number "rate_limited" (ie_rate_limited s) false |> number "failed" (ie_failed s) true |> end_row.

Definition format_node (o : output) (i : nat) : output :=
  let n := nth i (sn_nodes v) zero_node_stats in
  o |> row |> string_field "kind" "node" false |> string_field "name" (nth i (sn_node_names v) EmptyString) false
    |> number "node" (Z.of_nat i) false |> number "packets" (ns_packets n) false |> number "bytes" (ns_bytes n) false
    |> number "drops" (ns_drops n) false |> number "errors" (ns_errors n) true |> end_row.

Definition format_drop (o : output) (i : nat) : output :=
  let count := nth i (sn_drops v) 0 in
  if negb (truth count) then o else
  o |> row |> string_field "kind" "drop" false |> string_field "reason" (graph_drop_name i) false |> number "count" count true |> end_row.

(** The reasons for which a lookup has an answer to show. *)
Definition lookup_shown : bool :=
  bool_decide (sn_route_reason v ∈ [DROP_NONE; DROP_ROUTE_BLACKHOLE; DROP_ROUTE_UNREACHABLE; DROP_ROUTE_PROHIBIT]).

(** The chain of groups; [inl] is an early return. *)
Definition format_group (filter : Z) (o : output) : Z + output :=
  if rq_group r =? ADM_STATUS then inr (format_status o) else
  if rq_group r =? ADM_LINK then inr (foldl (format_link filter) o (seq 0 (length ports))) else
  if rq_group r =? ADM_ADDR then inr (foldl (format_address filter) o (nc_addresses config)) else
  if (rq_group r =? ADM_ROUTE) && (rq_verb r =? ADM_GET) then
    if lookup_shown then inr (format_lookup o) else inl (- ENETUNREACH)
  else
  if rq_group r =? ADM_ROUTE then
    let o := if (field r F_TABLE =? 0) || (field r F_TABLE =? NET_TABLE_LOCAL) then foldl format_local o (nc_addresses config) else o in
    inr (foldl format_route o (nc_routes config)) else
  if rq_group r =? ADM_RULE then
    inr (foldl (fun o u => format_rule u o) (format_rule (builtin_rule 0 NET_TABLE_LOCAL) o) (nc_rules config)
         |> format_rule (builtin_rule 32766 NET_TABLE_MAIN) |> format_rule (builtin_rule 32767 NET_TABLE_DEFAULT)) else
  if rq_group r =? ADM_ACL then inr (foldl format_acl o (seq 0 (length (nc_acls config))) |> format_acl_default) else
  if rq_group r =? ADM_NEIGH then inr (foldl (format_neighbour filter) o (sn_neighbours v)) else
  if rq_group r =? ADM_SOCKET then inr (foldl format_socket o (sn_sockets v)) else
  if rq_group r =? ADM_APP then inr (foldl format_app o connected) else
  if rq_group r =? ADM_STATS then
    let o := o |> format_tcp |> format_icmp in
    let o := if flag r ADMIN_NODES then foldl format_node o (seq 0 NODE_MAX) else o in
    inr (foldl format_drop o (seq 1 (DROP_REASON_MAX - 1))) else
  inl (- EOPNOTSUPP).

(** The return code (the length, or an error) and the text. *)
Definition admin_format (size : Z) : Z * string :=
  let json := flag r ADMIN_JSON in
  let o := mk_output EmptyString size 0 json true in
  let filter := if named (rq_dev r) then admin_device (sn_view v) (rq_dev r) else - 1 in
  if named (rq_dev r) && (filter <? 0) then (filter, EmptyString) else
  let o := if json then append ("{" +:+ quote +:+ "schema" +:+ quote +:+ ":1," +:+ quote +:+ "generation" +:+ quote +:+ ":" +:+
      pretty (nc_generation config) +:+ "," +:+ quote +:+ "items" +:+ quote +:+ ":[")%string o else o in
  match format_group filter o with
  | inl rc => (rc, EmptyString)
  | inr o =>
    let o := if json then append ("]}" +:+ String "010" EmptyString)%string o else o in
    (if truth (ou_error o) then ou_error o else text_length (ou_text o), ou_text o)
  end.
End format.

#[global] Arguments append : simpl never.
#[global] Arguments row : simpl never.
#[global] Arguments end_row : simpl never.
#[global] Arguments number : simpl never.
#[global] Arguments string_field : simpl never.
#[global] Arguments prefix_field : simpl never.
