(* ===== verification/AdminFormatSpec.v ===== *)
(** What the replies of [AdminFormat] say: a reply is a list of items, each a list
    of named values; [admin_format] returns exactly the text of that list when it
    fits, and the JSON form is a JSON text denoting it. *)
From Stdlib Require Import Ascii.
From stdpp Require Import pretty.
From S2P Require Import Prelude.
From S2P Require Import Dpdk.
From S2P Require Import Types.
From S2P Require Import Text.
From S2P Require Import Graph.
From S2P Require Import Control.
From S2P Require Import AdminWire.
From S2P Require Import AdminState.
From S2P Require Import AdminWorker.
From S2P Require Import AdminFormat.

(** * What a reply says *)

(** A reply is a list of items, an item a list of named values. *)
Inductive value : Type := Num (n : Z) | Str (s : string).
Abbreviation item := (list (string * value)).

Fixpoint escape (json : bool) (s : string) : string :=
  match s with EmptyString => EmptyString | String c s' => (escaped json c +:+ escape json s')%string end.

Definition name_text (json : bool) (name : string) : string :=
  if json then (quote +:+ name +:+ quote +:+ ":")%string else (name +:+ "=")%string.
Definition value_text (json : bool) (x : value) : string :=
  match x with
  | Num n => pretty n
  | Str s => if json then (quote +:+ escape json s +:+ quote)%string else escape json s
  end.
Definition field_text (json last : bool) (f : string * value) : string :=
  (name_text json f.1 +:+ value_text json f.2 +:+ separator json last)%string.
Fixpoint fields_text (json : bool) (l : item) : string :=
  match l with
  | [] => EmptyString
  | [f] => field_text json true f
  | f :: l' => (field_text json false f +:+ fields_text json l')%string
  end.
Definition item_text (json : bool) (l : item) : string :=
  if json then ("{" +:+ fields_text json l +:+ "}")%string else (fields_text json l +:+ String "010" EmptyString)%string.
(** [first]: no item was written before. *)
Fixpoint items_text (json first : bool) (items : list item) : string :=
  match items with
  | [] => EmptyString
  | l :: items' => ((if json && negb first then "," else "") +:+ item_text json l +:+ items_text json false items')%string
  end.

Definition document (json : bool) (generation : Z) (items : list item) : string :=
  if json then
    (("{" +:+ quote +:+ "schema" +:+ quote +:+ ":1," +:+ quote +:+ "generation" +:+ quote +:+ ":" +:+ pretty generation +:+ "," +:+
      quote +:+ "items" +:+ quote +:+ ":[") +:+ items_text json true items +:+ "]}" +:+ String "010" EmptyString)%string
  else items_text json true items.

Section items.
Context (v : admin_snapshot) (r : admin_request) (apps : daemon_service) (filter : Z).
Abbreviation dev_name := (device v).

Definition rule_item (u : net_rule) : item :=
  [("pref", Num (ru_pref u)); ("from", Str (prefix_text (ru_src u) (ru_src_prefix u))); ("to", Str (prefix_text (ru_dst u) (ru_dst_prefix u)));
   ("iif", Str (dev_name (ru_iif u))); ("action", Str (type_name (ru_type u))); ("table", Num (ru_table u))]%string.

Definition status_item : item :=
  [("state", Str "running"); ("uptime_seconds", Num (sn_uptime v)); ("generation", Num (nc_generation (config v))); ("workers", Num 1);
   ("ports", Num (Z.of_nat (length (ports v)))); ("applications", Num (Z.of_nat (length (connected apps))));
   ("sockets", Num (Z.of_nat (length (sn_sockets v)))); ("acl_rules", Num (Z.of_nat (length (nc_acls (config v)))));
   ("routing_tables", Num (Z.of_nat (length (routing_tables v)))); ("forwarding", Num (bit (sn_forwarding v)))]%string.

Definition link_item (i : nat) : item :=
  let l := nth i (sn_links v) zero_admin_link in
  let p := nth i (ports v) zero_port_state in
  [("id", Num (pt_id p)); ("name", Str (pt_name p)); ("admin", Str (if pt_admin_down p then "DOWN" else "UP"));
   ("carrier_known", Num (bit (al_carrier_known l))); ("carrier", Num (al_carrier l)); ("mtu", Num (pt_mtu p))]%string ++
  (if flag r ADMIN_BRIEF then [] else
   [("dpdk_port", Num (pt_port_id p)); ("mac", Str (mac_text (pt_mac p))); ("driver", Str (al_driver l))]%string) ++
  (if flag r ADMIN_STATS then
   [("rx_packets", Num (pt_rx_packets p)); ("rx_bytes", Num (pt_rx_bytes p)); ("tx_packets", Num (pt_tx_packets p)); ("tx_bytes", Num (pt_tx_bytes p));
    ("tx_drops", Num (pt_tx_drops p)); ("rx_errors", Num (nth 0 (al_hardware l) 0)); ("rx_missed", Num (nth 1 (al_hardware l) 0));
    ("tx_errors", Num (nth 2 (al_hardware l) 0))]%string else []).

Definition address_item (a : net_address) : item :=
  [("dev", Str (dev_name (na_dev a))); ("address", Str (prefix_text (na_ip a) (na_prefix a)))]%string.

Definition lookup_item : item :=
  let p := sn_route v in
  [("destination", Str (inet_ntop (field r F_IP))); ("source", Str (inet_ntop (rr_source_ip_be p)));
   ("dev", Str (if truth (rr_type p) then "*" else dev_name (rr_netif_id p))); ("next_hop", Str (inet_ntop (rr_next_hop_be p)));
   ("table", Num (rr_table p)); ("rule_pref", Num (rr_rule_pref p)); ("type", Str (if truth (rr_local p) then "local" else type_name (rr_type p)))]%string.

Definition local_item (a : net_address) : item :=
  [("destination", Str (prefix_text (na_ip a) 32)); ("dev", Str (dev_name (na_dev a))); ("table", Num NET_TABLE_LOCAL); ("type", Str "local")]%string.

Definition route_item (p : net_route) : item :=
  [("destination", Str (prefix_text (nr_ip p) (nr_prefix p))); ("gateway", Str (inet_ntop (nr_gateway p)));
   ("dev", Str (if truth (nr_type p) then "*" else dev_name (nr_dev p))); ("table", Num (nr_table p)); ("connected", Num (nr_connected p));
   ("type", Str (type_name (nr_type p)))]%string.

Definition acl_item (i : nat) : item :=
  let a := nth i (nc_acls (config v)) zero_net_acl in
  let c := nth i (cs_rules (sn_acl v)) zero_acl_counter in
  [("id", Num (ac_pref a)); ("pref", Num (ac_pref a)); ("src", Str (prefix_text (ac_src a) (ac_src_prefix a)));
   ("dst", Str (prefix_text (ac_dst a) (ac_dst_prefix a))); ("iif", Str (dev_name (ac_iif a))); ("protocol", Num (ac_proto a)); ("ports", Num (ac_ports a));
   ("sport_min", Num (ac_sport_min a)); ("sport_max", Num (ac_sport_max a)); ("dport_min", Num (ac_dport_min a)); ("dport_max", Num (ac_dport_max a));
   ("action", Str (if truth (ac_drop a) then "drop" else "accept")); ("packets", Num (ct_packets c)); ("bytes", Num (ct_bytes c))]%string.

Definition acl_default_item : item :=
  [("default", Str (if truth (nc_default_drop (config v)) then "drop" else "accept")); ("accepted", Num (cs_accepted (sn_acl v)));
   ("dropped", Num (cs_dropped (sn_acl v))); ("default_matches", Num (cs_defaults (sn_acl v)))]%string.

Definition neighbour_item (n : neighbour_entry) : item :=
  [("address", Str (inet_ntop (ne_ip_be n))); ("dev", Str (dev_name (ne_netif_id n))); ("lladdr", Str (mac_text (ne_mac n)));
   ("state", Str (if ne_permanent n then "PERMANENT" else "DYNAMIC"))]%string.

Definition socket_item (s : admin_socket) : item :=
  let udp := as_type s =? PS_SOCK_DGRAM in
  [("id", Num (as_fd s)); ("owner", Num (as_owner s)); ("protocol", Str (if udp then "udp" else "tcp"));
   ("local", Str (inet_ntop (sa_ip_be (as_local s)))); ("local_port", Num (sa_port (as_local s)));
   ("remote", Str (inet_ntop (sa_ip_be (as_remote s)))); ("remote_port", Num (sa_port (as_remote s)));
   ("state", Str (if udp then "BOUND" else nth (Z.to_nat (as_state s)) state_names "UNKNOWN")); ("open", Num (bit (as_open s)));
   ("rx_queue", Num (as_rx s)); ("tx_queue", Num (as_tx s))]%string.

Definition app_item (i : daemon_identity) : item :=
  [("id", Num (id_owner i)); ("pid", Num (id_pid i)); ("uid", Num (id_uid i));
   ("sockets", Num (Z.of_nat (length (List.filter (fun s => (as_owner s =? id_owner i)%Z) (sn_sockets v))))); ("state", Str "connected")]%string.

Definition tcp_item : item :=
  let t := sn_tcp v in
  [("kind", Str "tcp"); ("syns", Num (ts_syns t)); ("established", Num (ts_established t)); ("closed", Num (ts_closed t)); ("resets", Num (ts_resets t));
   ("retransmissions", Num (ts_retransmissions t)); ("timeouts", Num (ts_timeouts t))]%string.

Definition icmp_item : item :=
  let s := sn_icmp v in
  [("kind", Str "icmp"); ("generated", Num (ie_generated s)); ("suppressed", Num (ie_suppressed s)); ("rate_limited", Num (ie_rate_limited s));
   ("failed", Num (ie_failed s))]%string.

Definition node_item (i : nat) : item :=
  let n := nth i (sn_nodes v) zero_node_stats in
  [("kind", Str "node"); ("name", Str (nth i (sn_node_names v) "")); ("node", Num (Z.of_nat i)); ("packets", Num (ns_packets n));
   ("bytes", Num (ns_bytes n)); ("drops", Num (ns_drops n)); ("errors", Num (ns_errors n))]%string.

Definition drop_item (i : nat) : item :=
  [("kind", Str "drop"); ("reason", Str (graph_drop_name i)); ("count", Num (nth i (sn_drops v) 0))]%string.

(** The items of each group. *)
Definition reply_items : Z + list item :=
  if rq_group r =? ADM_STATUS then inr [status_item] else
  if rq_group r =? ADM_LINK then inr (link_item <$> List.filter (fun i => selected filter (Z.of_nat i)) (seq 0 (length (ports v)))) else
  if rq_group r =? ADM_ADDR then inr (address_item <$> List.filter (fun a => selected filter (na_dev a)) (nc_addresses (config v))) else
  if (rq_group r =? ADM_ROUTE) && (rq_verb r =? ADM_GET) then if lookup_shown v then inr [lookup_item] else inl (- ENETUNREACH) else
  if rq_group r =? ADM_ROUTE then
    inr ((if (field r F_TABLE =? 0) || (field r F_TABLE =? NET_TABLE_LOCAL) then local_item <$> nc_addresses (config v) else []) ++
         (route_item <$> List.filter (fun p => negb (truth (field r F_TABLE)) || (nr_table p =? field r F_TABLE)) (nc_routes (config v)))) else
  if rq_group r =? ADM_RULE then
    inr (rule_item <$> [builtin_rule 0 NET_TABLE_LOCAL] ++ nc_rules (config v) ++
         [builtin_rule 32766 NET_TABLE_MAIN; builtin_rule 32767 NET_TABLE_DEFAULT]) else
  if rq_group r =? ADM_ACL then inr ((acl_item <$> seq 0 (length (nc_acls (config v)))) ++ [acl_default_item]) else
  if rq_group r =? ADM_NEIGH then inr (neighbour_item <$> List.filter (fun n => ne_in_use n && selected filter (ne_netif_id n)) (sn_neighbours v)) else
  if rq_group r =? ADM_SOCKET then inr (socket_item <$> sn_sockets v) else
  if rq_group r =? ADM_APP then inr (app_item <$> connected apps) else
  if rq_group r =? ADM_STATS then
    inr ([tcp_item; icmp_item] ++ (if flag r ADMIN_NODES then node_item <$> seq 0 NODE_MAX else []) ++
         (drop_item <$> List.filter (fun i => truth (nth i (sn_drops v) 0)) (seq 1 (DROP_REASON_MAX - 1)))) else
  inl (- EOPNOTSUPP).
End items.

(** * Emission *)

(** What the calls of [row], [number], [string] and [end] for one item do. *)
Definition emit_field (last : bool) (f : string * value) : output -> output :=
  match f.2 with Num n => number f.1 n last | Str s => string_field f.1 s last end.
Fixpoint emit_fields (l : item) (o : output) : output :=
  match l with
  | [] => o
  | [f] => emit_field true f o
  | f :: l' => emit_fields l' (emit_field false f o)
  end.
Definition emit_item (o : output) (l : item) : output := end_row (emit_fields l (row o)).

Lemma foldl_filter {A B C} (f : B -> A -> B) (g : B -> C -> B) (h : A -> C) (p : A -> bool) l o :
  (forall o x, f o x = if p x then g o (h x) else o) -> foldl f o l = foldl g o (h <$> List.filter p l).
Proof. intros H. revert o. induction l as [|x l IH]; intros o; cbn; [done|]. rewrite H. destruct (p x); cbn; apply IH. Qed.
Lemma foldl_emit {A B C} (f : B -> A -> B) (g : B -> C -> B) (h : A -> C) l o :
  (forall o x, f o x = g o (h x)) -> foldl f o l = foldl g o (h <$> l).
Proof. intros H. revert o. induction l as [|x l IH]; intros o; cbn; [done|]. by rewrite H, IH. Qed.

#[local] Opaque row end_row number string_field.

Lemma format_link_emits v r filter o i :
  format_link v r filter o i = if selected filter (Z.of_nat i) then emit_item o (link_item v r i) else o.
Proof.
  unfold format_link. destruct (selected _ _); [|reflexivity]. unfold link_item.
  destruct (flag r ADMIN_BRIEF), (flag r ADMIN_STATS); reflexivity.
Qed.

(** Every branch emits its items in order. *)
Lemma format_group_emits v r apps filter o :
  format_group v r apps filter o = match reply_items v r apps filter with inl rc => inl rc | inr items => inr (foldl emit_item o items) end.
Proof.
  unfold format_group, reply_items.
  destruct (rq_group r =? ADM_STATUS); [reflexivity|].
  destruct (rq_group r =? ADM_LINK); [f_equal; apply foldl_filter; intros; apply format_link_emits|].
  destruct (rq_group r =? ADM_ADDR); [f_equal; apply foldl_filter; intros ? a; unfold format_address; by destruct (selected _ _)|].
  destruct (_ && _); [by destruct (lookup_shown v)|].
  destruct (rq_group r =? ADM_ROUTE).
  { f_equal. rewrite foldl_app. rewrite <- (foldl_filter (format_route v r)).
    - destruct (_ || _); [by rewrite <- (foldl_emit (format_local v))|done].
    - intros ? p. unfold format_route. by destruct (truth _), (_ =? _). }
  destruct (rq_group r =? ADM_RULE).
  { f_equal. rewrite !fmap_app, !foldl_app. cbn [foldl fmap list_fmap].
    by rewrite <- (foldl_emit (fun o u => format_rule v u o)). }
  destruct (rq_group r =? ADM_ACL); [f_equal; rewrite foldl_app; by rewrite <- (foldl_emit (format_acl v))|].
  destruct (rq_group r =? ADM_NEIGH).
  { f_equal. apply foldl_filter. intros ? n. unfold format_neighbour. by destruct (ne_in_use n), (selected _ _). }
  destruct (rq_group r =? ADM_SOCKET); [f_equal; by apply foldl_emit|].
  destruct (rq_group r =? ADM_APP); [f_equal; by apply foldl_emit|].
  destruct (rq_group r =? ADM_STATS); [|done].
  f_equal. rewrite !foldl_app. rewrite <- (foldl_filter (format_drop v)).
  - destruct (flag r ADMIN_NODES); [by rewrite <- (foldl_emit (format_node v))|done].
  - intros ? i. unfold format_drop. by destruct (truth _).
Qed.
#[local] Transparent row end_row number string_field.

(** * The buffer *)

(** The buffer after [s] was written: [s] itself when it fits with its terminator,
    else the error. *)
Definition shows (size : Z) (json first : bool) (s : string) (o : output) : Prop :=
  ou_size o = size /\ ou_json o = json /\ ou_first o = first /\
  if text_length s <? size then ou_error o = 0 /\ ou_text o = s else ou_error o = - ENOBUFS.

Lemma text_length_app s t : text_length (s +:+ t)%string = text_length s + text_length t.
Proof. unfold text_length. rewrite string_app_length. lia. Qed.
Lemma text_length_nonneg s : 0 <= text_length s.
Proof. unfold text_length. lia. Qed.

(** ** Lengths of printed numbers *)

Lemma pretty_N_go_length k : forall x s, Z.of_N x < 10 ^ Z.of_nat k -> text_length (pretty_N_go x s) <= Z.of_nat k + text_length s.
Proof.
  induction k as [|k IH]; intros x s Hx.
  - change (10 ^ Z.of_nat 0) with 1 in Hx. replace x with 0%N by lia. rewrite pretty_N_go_0. lia.
  - destruct (decide (x = 0)%N) as [->|Hne]; [rewrite pretty_N_go_0; lia|]. rewrite pretty_N_go_step by lia.
    rewrite Nat2Z.inj_succ, Z.pow_succ_r in Hx by lia. etrans; [apply IH|].
    + rewrite N2Z.inj_div. apply Z.div_lt_upper_bound; lia.
    + unfold text_length. cbn [String.length]. lia.
Qed.
Lemma pretty_length k x : (1 <= k)%nat -> 0 <= x < 10 ^ Z.of_nat k -> text_length (pretty x) <= Z.of_nat k.
Proof.
  intros Hk Hx. destruct x as [|p|p]; [change (text_length (pretty 0)) with 1; lia| |lia].
  change (pretty (Z.pos p)) with (pretty_N_go (N.pos p) ""). etrans; [apply (pretty_N_go_length k), Hx|]. change (text_length "") with 0. lia.
Qed.
Lemma pretty_u64 x : is_u64 x -> text_length (pretty x) <= 20.
Proof. intros H. apply (pretty_length 20); [lia|]. unfold is_u64 in H. lia. Qed.
Lemma pretty_u32 x : is_u32 x -> text_length (pretty x) <= 10.
Proof. intros H. apply (pretty_length 10); [lia|]. unfold is_u32 in H. lia. Qed.
Lemma inet_ntop_length ip : text_length (inet_ntop ip) <= 15.
Proof.
  assert (H : forall k, 0 <= k -> text_length (pretty (byte_at ip k)) <= 3).
  { intros k Hk. apply (pretty_length 3); [lia|]. assert (Hb := byte_at_range ip k Hk). unfold is_u8 in Hb. lia. }
  unfold inet_ntop. rewrite !text_length_app. change (text_length ".") with 1.
  assert (H0 := H 0 ltac:(lia)). assert (H1 := H 1 ltac:(lia)). assert (H2 := H 2 ltac:(lia)). assert (H3 := H 3 ltac:(lia)). lia.
Qed.

Lemma shows_append size json first s t o : shows size json first s o -> shows size json first (s +:+ t)%string (append t o).
Proof.
  intros (Hs & Hj & Hf & H). unfold shows. rewrite text_length_app. assert (Ht := text_length_nonneg t). unfold append.
  destruct (Z.ltb_spec (text_length s) size).
  - destruct H as [He Hx]. rewrite He. cbn [truth Z.eqb negb]. rewrite Hx, Hs.
    destruct (Z.leb_spec (size - text_length s) (text_length t)), (Z.ltb_spec (text_length s + text_length t) size); try lia; cbn; by rewrite ?Hx.
  - rewrite H. cbn. destruct (Z.ltb_spec (text_length s + text_length t) size); [lia|]. done.
Qed.

Lemma shows_row size json first s o : shows size json first s o ->
  shows size json (if json then false else first) (s +:+ (if json then if first then "{" else ",{" else ""))%string (row o).
Proof.
  intros H. destruct (H) as (Hs & Hj & Hf & _). unfold row. rewrite Hj, Hf.
  destruct json; [|by rewrite app_empty_r]. destruct (shows_append _ _ _ _ (if first then "{" else ",{")%string _ H) as (? & ? & ? & ?).
  repeat split; done.
Qed.

Lemma shows_chars size json first t s o : shows size json first s o -> shows size json first (s +:+ escape json t)%string (append_chars t o).
Proof.
  revert s o. induction t as [|c t IH]; intros s o H; cbn [append_chars escape]; [by rewrite app_empty_r|].
  destruct (H) as (_ & Hj & _). rewrite Hj, string_app_assoc. by apply IH, shows_append.
Qed.

Lemma shows_field size json first last f s o : shows size json first s o ->
  shows size json first (s +:+ field_text json last f)%string (emit_field last f o).
Proof.
  intros H. assert (Hj : ou_json o = json) by apply H. destruct f as [name [n|t]]; unfold emit_field, field_text; cbn [fst snd].
  - unfold number. rewrite Hj. by apply shows_append.
  - unfold string_field. rewrite Hj.
    assert (E : (name_text json name +:+ value_text json (Str t) +:+ separator json last =
      ((if json then quote +:+ name +:+ quote +:+ ":" +:+ quote else name +:+ "=") +:+ escape json t) +:+ ((if json then quote else "") +:+ separator json last))%string)
      by (destruct json; cbn [value_text name_text]; rewrite <- ?string_app_assoc; done).
    rewrite E, (string_app_assoc s), (string_app_assoc s). by apply shows_append, shows_chars, shows_append.
Qed.

Lemma shows_fields size json first l s o : shows size json first s o ->
  shows size json first (s +:+ fields_text json l)%string (emit_fields l o).
Proof.
  revert s o. induction l as [|f l IH]; intros s o H; [cbn; by rewrite app_empty_r|].
  destruct l as [|g l]; [by apply shows_field|].
  change (fields_text json (f :: g :: l)) with (field_text json false f +:+ fields_text json (g :: l))%string.
  rewrite string_app_assoc. by apply IH, shows_field.
Qed.

Lemma shows_end size json first s o : shows size json first s o ->
  shows size json first (s +:+ (if json then "}" else String "010" ""))%string (end_row o).
Proof. intros H. unfold end_row. assert (Hj : ou_json o = json) by apply H. rewrite Hj. by apply shows_append. Qed.

Lemma shows_items size json first items s o : shows size json first s o ->
  exists first', shows size json first' (s +:+ items_text json first items)%string (foldl emit_item o items).
Proof.
  revert s o first. induction items as [|l items IH]; intros s o first H; [exists first; cbn; by rewrite app_empty_r|].
  apply shows_row, (shows_fields _ _ _ l), shows_end in H. cbn [foldl items_text].
  destruct (IH _ _ _ H) as [first' IH']. exists first'. fold (emit_item o l) in IH'.
  enough (E : ((((s +:+ (if json then if first then "{" else ",{" else "")) +:+ fields_text json l) +:+ (if json then "}" else String "010" "")) +:+
    items_text json (if json then false else first) items)%string =
    (s +:+ (if json && negb first then "," else "") +:+ item_text json l +:+ items_text json false items)%string) by (by rewrite <- E).
  rewrite <- !string_app_assoc. f_equal. destruct json, first; cbn -[fields_text items_text]; rewrite <- ?string_app_assoc; try done.
  by destruct items.
Qed.

(** * What [admin_format] returns *)

(** The interface a request names, if any. *)
Definition request_filter (v : admin_snapshot) (r : admin_request) : Z :=
  if named (rq_dev r) then admin_device (sn_view v) (rq_dev r) else - 1.

(** The opening and the closing of the JSON form. *)
Lemma shows_document size json generation items o : shows size json true "" o ->
  exists first, shows size json first (document json generation items)
    (let o := foldl emit_item (if json then append ("{" +:+ quote +:+ "schema" +:+ quote +:+ ":1," +:+ quote +:+ "generation" +:+ quote +:+ ":" +:+
       pretty generation +:+ "," +:+ quote +:+ "items" +:+ quote +:+ ":[")%string o else o) items in
     if json then append ("]}" +:+ String "010" EmptyString)%string o else o).
Proof.
  intros H. cbv zeta. unfold document. destruct json; [|exact (shows_items _ _ _ items _ _ H)].
  apply (shows_append _ _ _ _ ("{" +:+ quote +:+ "schema" +:+ quote +:+ ":1," +:+ quote +:+ "generation" +:+ quote +:+ ":" +:+
       pretty generation +:+ "," +:+ quote +:+ "items" +:+ quote +:+ ":[")%string) in H.
  destruct (shows_items _ _ _ items _ _ H) as [first H']. exists first.
  apply (shows_append _ _ _ _ ("]}" +:+ String "010" EmptyString)%string) in H'. by rewrite <- string_app_assoc in H'.
Qed.

Lemma admin_format_reply v r apps size : 0 < size ->
  let filter := request_filter v r in
  let '(rc, text) := admin_format v r apps size in
  if named (rq_dev r) && (filter <? 0) then rc = filter else
  match reply_items v r apps filter with
  | inl e => rc = e
  | inr items =>
    let d := document (flag r ADMIN_JSON) (nc_generation (config v)) items in
    if text_length d <? size then rc = text_length d /\ text = d else rc = - ENOBUFS
  end.
Proof.
  intros Hsize. cbv zeta. unfold admin_format. fold (request_filter v r). destruct (_ && _); [done|].
  rewrite format_group_emits. destruct (reply_items v r apps _) as [e|items]; [done|].
  assert (H : shows size (flag r ADMIN_JSON) true "" (mk_output "" size 0 (flag r ADMIN_JSON) true)).
  { split_and!; [done..|]. change (text_length "") with 0. destruct (Z.ltb_spec 0 size); [done|lia]. }
  apply (shows_document _ _ (nc_generation (config v)) items) in H as (first & Hs & Hj & Hf & H). cbv zeta in H |- *.
  destruct (text_length _ <? size); [destruct H as [He Ht]|rename H into He]; rewrite He; [|reflexivity].
  rewrite Ht. by split.
Qed.

(** C17: the reply to a request, whatever the size of the buffer (of at least one
    byte, 131,072 in the control thread): an unknown interface and an unknown
    group or unroutable destination give their error; otherwise, with the items
    the group has in the snapshot, the function returns the length of their
    document and leaves that document in the buffer if it fits with its
    terminator, and returns [-ENOBUFS] if it does not. *)
Theorem admin_format_exact v r apps size : 0 < size ->
  let filter := request_filter v r in
  let '(rc, text) := admin_format v r apps size in
  if named (rq_dev r) && (filter <? 0) then rc = filter else
  match reply_items v r apps filter with
  | inl e => rc = e
  | inr items =>
    let d := document (flag r ADMIN_JSON) (nc_generation (config v)) items in
    if text_length d <? size then rc = text_length d /\ text = d else rc = - ENOBUFS
  end.
Proof. apply admin_format_reply. Qed.

(** * JSON *)

(** The tokens of a JSON text (RFC 8259, without fractions and exponents; of the
    escapes only the four-digit one of a byte). *)
Inductive token : Type := Punct (c : ascii) | Number (n : Z) | Literal (s : string).
Inductive lexing : Type :=
  | Between
  | InNumber (n : Z)
  | InMinus (n : option Z)
  | InString (s : string)
  | InEscape (s : string)
  | InHex (s : string) (k : nat) (n : Z).

Definition hex_value (c : ascii) : option Z :=
  if isdigit c then Some (code c - 48) else if (97 <=? code c) && (code c <=? 102) then Some (code c - 87) else None.

(** One character outside strings and numbers. *)
Definition lex_start (c : ascii) : option (list token * lexing) :=
  if code c =? 34 then Some ([], InString "") else
  if isdigit c then Some ([], InNumber (code c - 48)) else
  if code c =? 45 then Some ([], InMinus None) else
  if isspace c then Some ([], Between) else
  if existsb (Z.eqb (code c)) [123; 125; 91; 93; 44; 58] then Some ([Punct c], Between) else None.

Definition lex_step (st : lexing) (c : ascii) : option (list token * lexing) :=
  match st with
  | Between => lex_start c
  | InNumber n =>
    if isdigit c then if n =? 0 then None else Some ([], InNumber (n * 10 + (code c - 48)))
    else '(out, st') ← lex_start c; Some (Number n :: out, st')
  | InMinus None => if isdigit c then Some ([], InMinus (Some (code c - 48))) else None
  | InMinus (Some n) =>
    if isdigit c then if n =? 0 then None else Some ([], InMinus (Some (n * 10 + (code c - 48))))
    else '(out, st') ← lex_start c; Some (Number (- n) :: out, st')
  | InString s =>
    if code c =? 34 then Some ([Literal s], Between) else
    if code c =? 92 then Some ([], InEscape s) else
    if code c <? 32 then None else Some ([], InString (s +:+ String c ""))
  | InEscape s => if code c =? 117 then Some ([], InHex s 3 0) else None
  | InHex s k n =>
    d ← hex_value c;
    match k with
    | O => if n * 16 + d <? 256 then Some ([], InString (s +:+ String (ascii_of_N (Z.to_N (n * 16 + d))) "")) else None
    | S k' => Some ([], InHex s k' (n * 16 + d))
    end
  end.

Fixpoint lex (st : lexing) (s : string) : option (list token * lexing) :=
  match s with
  | EmptyString => Some ([], st)
  | String c s' => '(out, st') ← lex_step st c; '(out', st'') ← lex st' s'; Some (out ++ out', st'')
  end.

Inductive json : Type := JNum (n : Z) | JStr (s : string) | JArr (l : list json) | JObj (l : list (string * json)).

(** The grammar: which tokens denote which value. *)
Inductive value_of : list token -> json -> Prop :=
  | value_num n : value_of [Number n] (JNum n)
  | value_str s : value_of [Literal s] (JStr s)
  | value_arr ts l : elements_of ts l -> value_of (Punct "[" :: ts ++ [Punct "]"]) (JArr l)
  | value_obj ts l : members_of ts l -> value_of (Punct "{" :: ts ++ [Punct "}"]) (JObj l)
with elements_of : list token -> list json -> Prop :=
  | elements_nil : elements_of [] []
  | elements_one ts x : value_of ts x -> elements_of ts [x]
  | elements_cons ts ts' x y l : value_of ts x -> elements_of ts' (y :: l) -> elements_of (ts ++ Punct "," :: ts') (x :: y :: l)
with members_of : list token -> list (string * json) -> Prop :=
  | members_nil : members_of [] []
  | members_one name ts x : value_of ts x -> members_of (Literal name :: Punct ":" :: ts) [(name, x)]
  | members_cons name ts ts' x m l : value_of ts x -> members_of ts' (m :: l) ->
    members_of (Literal name :: Punct ":" :: ts ++ Punct "," :: ts') ((name, x) :: m :: l).

(** A text denotes a value. *)
Definition json_text (s : string) (x : json) : Prop := exists ts, lex Between s = Some (ts, Between) /\ value_of ts x.

Definition json_value (x : value) : json := match x with Num n => JNum n | Str s => JStr s end.
Definition json_item (l : item) : json := JObj ((fun f => (f.1, json_value f.2)) <$> l).
Definition json_reply (generation : Z) (items : list item) : json :=
  JObj [("schema", JNum 1); ("generation", JNum generation); ("items", JArr (json_item <$> items))]%string.

(** A name that needs no escape. *)
Definition plain (s : string) : bool := all_chars (fun c => negb ((code c <? 32) || (code c =? 34) || (code c =? 92))) s.

(** ** The lexer on the pieces *)

Lemma lex_app st s t ts st' : lex st s = Some (ts, st') -> lex st (s +:+ t)%string = '(out, st'') ← lex st' t; Some (ts ++ out, st'').
Proof.
  revert st ts. induction s as [|c s IH]; intros st ts.
  - intros [= <- <-]. change ("" +:+ t)%string with t. by destruct (lex st t) as [[??]|].
  - change (String c s +:+ t)%string with (String c (s +:+ t)%string). cbn [lex]. destruct (lex_step st c) as [[out st1]|]; [|done]. cbn [mbind option_bind].
    destruct (lex st1 s) as [[out' st2]|] eqn:E; [|done]. cbn [mbind option_bind]. intros [= <- <-].
    rewrite (IH _ _ E). destruct (lex st2 t) as [[??]|]; cbn; [|done]. by rewrite <- app_assoc.
Qed.

Lemma lex_punct st c s : lex_step st c = Some ([Punct c], Between) -> lex st (String c s) = '(out, st') ← lex Between s; Some (Punct c :: out, st').
Proof. intros H. cbn [lex]. by rewrite H. Qed.

(** A character of a string, escaped or not. *)
Lemma lex_escaped s c : lex (InString s) (escaped true c) = Some ([], InString (s +:+ String c "")).
Proof. destruct c as [[] [] [] [] [] [] [] []]; reflexivity. Qed.
Lemma lex_escape s t : lex (InString s) (escape true t) = Some ([], InString (s +:+ t)%string).
Proof.
  revert s. induction t as [|c t IH]; intros s; [cbn; by rewrite app_empty_r|].
  cbn [escape]. rewrite (lex_app _ _ _ _ _ (lex_escaped s c)), IH. cbn [mbind option_bind app]. by rewrite <- string_app_assoc.
Qed.
Lemma escape_plain s : plain s = true -> escape true s = s.
Proof.
  induction s as [|c s IH]; [done|]. unfold plain. cbn [all_chars]. rewrite andb_true_iff. intros [Hc Hs].
  cbn [escape]. rewrite IH by done. unfold escaped. apply negb_true_iff in Hc. by rewrite Hc.
Qed.

Lemma lex_literal s : lex Between (quote +:+ escape true s +:+ quote)%string = Some ([Literal s], Between).
Proof. by rewrite (lex_app Between quote _ [] (InString "") eq_refl), (lex_app _ _ _ _ _ (lex_escape "" s)). Qed.

(** A number, up to the character after it. *)
Definition pending (n : Z) : lexing := if n <? 0 then InMinus (Some (- n)) else InNumber n.

Lemma lex_digit_more n d s : 0 < n -> 0 <= d <= 9 -> lex (InNumber n) (String (digit d) s) = lex (InNumber (n * 10 + d)) s.
Proof.
  intros Hn Hd. cbn [lex lex_step]. rewrite isdigit_digit, digit_code by done. destruct (Z.eqb_spec n 0); [lia|]. cbn [mbind option_bind].
  replace (48 + d - 48) with d by lia. by destruct (lex _ s) as [[??]|].
Qed.
Lemma lex_digit_first d s : 0 <= d <= 9 -> lex Between (String (digit d) s) = lex (InNumber d) s.
Proof.
  intros Hd. cbn [lex lex_step]. unfold lex_start. rewrite isdigit_digit, digit_code by done.
  destruct (Z.eqb_spec (48 + d) 34); [lia|]. cbn [mbind option_bind]. replace (48 + d - 48) with d by lia. by destruct (lex _ s) as [[??]|].
Qed.
Lemma lex_minus_more n d s : 0 < n -> 0 <= d <= 9 -> lex (InMinus (Some n)) (String (digit d) s) = lex (InMinus (Some (n * 10 + d))) s.
Proof.
  intros Hn Hd. cbn [lex lex_step]. rewrite isdigit_digit, digit_code by done. destruct (Z.eqb_spec n 0); [lia|]. cbn [mbind option_bind].
  replace (48 + d - 48) with d by lia. by destruct (lex _ s) as [[??]|].
Qed.
Lemma lex_minus_first d s : 0 <= d <= 9 -> lex (InMinus None) (String (digit d) s) = lex (InMinus (Some d)) s.
Proof.
  intros Hd. cbn [lex lex_step]. rewrite isdigit_digit, digit_code by done. cbn [mbind option_bind].
  replace (48 + d - 48) with d by lia. by destruct (lex _ s) as [[??]|].
Qed.

Lemma lex_number n : lex Between (pretty n) = Some ([], pending n).
Proof.
  rewrite <- (app_empty_r (pretty n)). unfold pending. destruct (Z.ltb_spec n 0) as [H|H].
  - assert (E : pretty n = ("-" +:+ pretty (- n))%string) by (destruct n; done). rewrite E.
    change (lex Between (("-" +:+ pretty (- n)) +:+ ""))%string with
      ('(out, st) ← lex (InMinus None) (pretty (- n) +:+ "")%string; Some (([] : list token) ++ out, st)).
    rewrite (reads_number (lex (InMinus None)) (fun n => lex (InMinus (Some n))) (- n)); [done|..|lia].
    + apply lex_minus_first.
    + intros; by apply lex_minus_more.
  - rewrite (reads_number (lex Between) (fun n => lex (InNumber n)) n); [done|..|lia].
    + apply lex_digit_first.
    + intros; by apply lex_digit_more.
Qed.

(** ** The document *)

(** What follows a value: the end of the object or the next member. *)
Lemma lex_pending n c : c = ","%char \/ c = "}"%char \/ c = "]"%char -> lex_step (pending n) c = Some ([Number n; Punct c], Between).
Proof.
  unfold pending. destruct (Z.ltb_spec n 0); intros [-> | [-> | ->]]; cbn; rewrite ?Z.opp_involutive; done.
Qed.

Definition value_tokens (x : value) : list token := match x with Num n => [Number n] | Str s => [Literal s] end.
Fixpoint item_tokens (l : item) : list token :=
  match l with
  | [] => []
  | [f] => Literal f.1 :: Punct ":" :: value_tokens f.2
  | f :: l' => Literal f.1 :: Punct ":" :: value_tokens f.2 ++ Punct "," :: item_tokens l'
  end.

Lemma lex_value x c : c = ","%char \/ c = "}"%char \/ c = "]"%char ->
  lex Between (value_text true x +:+ String c "")%string = Some (value_tokens x ++ [Punct c], Between).
Proof.
  intros H. destruct x as [n|s]; cbn [value_text value_tokens].
  - rewrite (lex_app _ _ _ _ _ (lex_number n)). cbn [lex]. by rewrite lex_pending.
  - rewrite (lex_app _ _ _ _ _ (lex_literal s)). by destruct H as [-> | [-> | ->]].
Qed.
Lemma lex_name name : plain name = true -> lex Between (name_text true name) = Some ([Literal name; Punct ":"], Between).
Proof.
  intros H. unfold name_text. rewrite <- (escape_plain name H).
  rewrite string_app_assoc, string_app_assoc, <- (string_app_assoc quote), (lex_app _ _ _ _ _ (lex_literal name)). by rewrite escape_plain.
Qed.

(** The fields and the closing brace. *)
Lemma lex_fields l : Forall (fun f : string * value => plain f.1 = true) l ->
  lex Between (fields_text true l +:+ "}")%string = Some (item_tokens l ++ [Punct "}"], Between).
Proof.
  induction 1 as [|f l Hf Hl IH]; [done|]. destruct l as [|g l].
  - cbn [fields_text item_tokens]. unfold field_text. rewrite <- !string_app_assoc, (lex_app _ _ _ _ _ (lex_name _ Hf)).
    change (separator true true +:+ "}")%string with "}"%string. by rewrite lex_value by auto.
  - change (fields_text true (f :: g :: l)) with (field_text true false f +:+ fields_text true (g :: l))%string.
    unfold field_text. change (separator true false) with ","%string.
    rewrite <- !string_app_assoc, (lex_app _ _ _ _ _ (lex_name _ Hf)), string_app_assoc.
    rewrite (lex_app _ _ _ _ _ (lex_value f.2 "," ltac:(auto))), IH by done. cbn [mbind option_bind item_tokens app]. by rewrite <- !app_assoc.
Qed.

Lemma lex_item l : Forall (fun f : string * value => plain f.1 = true) l ->
  lex Between (item_text true l) = Some (Punct "{" :: item_tokens l ++ [Punct "}"], Between).
Proof. intros H. unfold item_text. by rewrite (lex_app Between "{" _ [Punct "{"] Between eq_refl), lex_fields. Qed.

Fixpoint items_tokens (first : bool) (items : list item) : list token :=
  match items with
  | [] => []
  | l :: items' => (if first then [] else [Punct ","]) ++ (Punct "{" :: item_tokens l ++ [Punct "}"]) ++ items_tokens false items'
  end.
Lemma lex_items first items : Forall (Forall (fun f : string * value => plain f.1 = true)) items ->
  lex Between (items_text true first items) = Some (items_tokens first items, Between).
Proof.
  intros H. revert first. induction H as [|l items Hl H IH]; intros first; [done|]. cbn [items_text items_tokens].
  assert (Hf : lex Between (if true && negb first then "," else "")%string = Some (if first then [] else [Punct ","], Between)) by (by destruct first).
  by rewrite (lex_app _ _ _ _ _ Hf), (lex_app _ _ _ _ _ (lex_item _ Hl)), IH.
Qed.

Lemma value_tokens_value x : value_of (value_tokens x) (json_value x).
Proof. destruct x; constructor. Qed.
Lemma item_tokens_members l : members_of (item_tokens l) ((fun f : string * value => (f.1, json_value f.2)) <$> l).
Proof.
  induction l as [|f l IH]; [constructor|]. destruct l as [|g l]; [constructor; apply value_tokens_value|].
  cbn [item_tokens fmap list_fmap]. constructor; [apply value_tokens_value|exact IH].
Qed.
Lemma items_tokens_elements items : elements_of (items_tokens true items) (json_item <$> items).
Proof.
  induction items as [|l items IH]; [constructor|].
  assert (Hl : value_of (Punct "{" :: item_tokens l ++ [Punct "}"]) (json_item l)) by (constructor; apply item_tokens_members).
  destruct items as [|m items]; [cbn [items_tokens]; rewrite app_nil_r; by constructor|].
  exact (elements_cons _ _ _ _ _ Hl IH).
Qed.

Lemma document_json generation items : Forall (Forall (fun f : string * value => plain f.1 = true)) items ->
  json_text (document true generation items) (json_reply generation items).
Proof.
  intros H. set (P := ("{" +:+ quote +:+ "schema" +:+ quote +:+ ":1," +:+ quote +:+ "generation" +:+ quote +:+ ":")%string).
  set (M := (quote +:+ "items" +:+ quote +:+ ":[")%string). set (T := ("]}" +:+ String "010" EmptyString)%string).
  assert (E : document true generation items = (P +:+ pretty generation +:+ String "," "" +:+ M +:+ items_text true true items +:+ T)%string)
    by (unfold document; rewrite <- !string_app_assoc; reflexivity).
  exists ([Punct "{"; Literal "schema"; Punct ":"; Number 1; Punct ","; Literal "generation"; Punct ":"] ++ [Number generation; Punct ","] ++
          [Literal "items"; Punct ":"; Punct "["] ++ items_tokens true items ++ [Punct "]"; Punct "}"]). split.
  - rewrite E. rewrite (lex_app Between P _ _ Between eq_refl), (lex_app _ _ _ _ _ (lex_number generation)).
    assert (Hc : lex (pending generation) "," = Some ([Number generation; Punct ","], Between)) by (cbn [lex]; by rewrite lex_pending by auto).
    by rewrite (lex_app _ _ _ _ _ Hc), (lex_app Between M _ _ Between eq_refl), (lex_app _ _ _ _ _ (lex_items true items H)).
  - assert (Ha := value_arr _ _ (items_tokens_elements items)).
    apply (members_one "items") in Ha. apply (members_cons "generation" [Number generation] _ (JNum generation)) in Ha; [|constructor].
    apply (members_cons "schema" [Number 1] _ (JNum 1)) in Ha; [|constructor]. apply value_obj in Ha.
    cbn [app] in Ha |- *. rewrite <- app_assoc in Ha. exact Ha.
Qed.

(** ** The replies *)

(** The names the replies use need no escape. *)
Lemma reply_plain v r apps filter items : reply_items v r apps filter = inr items ->
  Forall (Forall (fun f : string * value => plain f.1 = true)) items.
Proof.
  intros H. assert (Hmap : forall A (g : A -> item) l, (forall x, Forall (fun f : string * value => plain f.1 = true) (g x)) ->
    Forall (Forall (fun f : string * value => plain f.1 = true)) (g <$> l)) by (intros; apply Forall_fmap, Forall_true; auto).
  assert (Hlink : forall i, Forall (fun f : string * value => plain f.1 = true) (link_item v r i)).
  { intros i. unfold link_item. rewrite !Forall_app. destruct (flag r ADMIN_BRIEF), (flag r ADMIN_STATS); split_and!; repeat constructor. }
  unfold reply_items in H. repeat case_match; simplify_eq; rewrite ?Forall_app, ?Forall_singleton; split_and?;
    try (apply Hmap; try exact Hlink; intros; repeat constructor); repeat constructor.
Qed.

Lemma reply_error v r apps filter e : reply_items v r apps filter = inl e -> e < 0.
Proof. unfold reply_items. repeat case_match; intros; simplify_eq; done. Qed.

(** C18: a reply in JSON is a JSON text, whatever bytes the names of interfaces,
    drivers and nodes hold: when the function returns a length, the text it left is
    that long and denotes one object with the schema, the generation of the
    configuration and, in order, one object per item of the group with the values
    of the snapshot. *)
Theorem admin_format_json v r apps size rc text : 0 < size -> flag r ADMIN_JSON = true ->
  admin_format v r apps size = (rc, text) -> 0 <= rc ->
  exists items, reply_items v r apps (request_filter v r) = inr items /\ rc = text_length text /\
    json_text text (json_reply (nc_generation (config v)) items).
Proof.
  intros Hsize Hj H Hrc. assert (E := admin_format_reply v r apps size Hsize). rewrite H in E. cbv zeta in E.
  destruct (_ && (_ <? 0)) eqn:Hf; [apply andb_true_iff in Hf as [_ Hf]; apply Z.ltb_lt in Hf; lia|].
  destruct (reply_items v r apps _) as [e|items] eqn:Ei; [apply reply_error in Ei; lia|].
  exists items. rewrite Hj in E. destruct (text_length _ <? size); [|by rewrite E in Hrc].
  destruct E as [-> ->]. split_and!; [done..|]. by eapply document_json, reply_plain.
Qed.

(** * Samples *)

Module FormatSample.
(** Two interfaces, one with a quotation mark in its name. *)
Definition snapshot : admin_snapshot :=
  zero_admin_snapshot |> set_sn_view (mk_admin_view (set_nc_generation 7 zero_net_config)
    [set_pt_name "tap0" zero_port_state; zero_port_state |> set_pt_id 1 |> set_pt_name (String "034" "x")%string]).
Definition request : admin_request := mk_admin_request ADM_LINK ADM_SHOW (ADMIN_JSON + ADMIN_BRIEF) 0 (replicate 16 0) (replicate 64 0) [].
Definition text : string := (admin_format snapshot request zero_daemon_service ADMIN_RESPONSE_MAX).2.

Lemma admin_format_exact_witness :
  (admin_format snapshot request zero_daemon_service 64).1 = - ENOBUFS /\
  (admin_format snapshot request zero_daemon_service ADMIN_RESPONSE_MAX).1 = text_length text.
Proof.
  assert (H := admin_format_exact snapshot request zero_daemon_service 64 ltac:(lia)).
  assert (H' := admin_format_exact snapshot request zero_daemon_service ADMIN_RESPONSE_MAX ltac:(reflexivity)).
  split; [revert H|revert H']; vm_compute; [by intros|by intros [? _]].
Defined.

Lemma admin_format_json_witness : exists items, reply_items snapshot request zero_daemon_service (-1) = inr items /\
  text_length text = 189 /\ json_text text (json_reply 7 items).
Proof.
  destruct (admin_format_json snapshot request zero_daemon_service ADMIN_RESPONSE_MAX (text_length text) text
    ltac:(reflexivity) ltac:(reflexivity) ltac:(vm_compute; reflexivity) ltac:(vm_compute; discriminate)) as (items & H1 & _ & H3).
  exists items. split; [exact H1|]. split; [vm_compute; reflexivity|exact H3].
Defined.
End FormatSample.
