(* ===== verification/AdminControl.v ===== *)
(** The control thread of administration, [src/admin_control.c]: connections of
    [pulsarctl], the hand-over of one job at a time to the worker through the
    mailbox, the allocations of prepared configurations, and the event stream of
    subscribers.  The answers of the kernel are arguments of the operations. *)
From Stdlib Require Import Ascii.
From stdpp Require Import pretty.
From S2P Require Import Prelude.
From S2P Require Import Dpdk.
From S2P Require Import Types.
From S2P Require Import Text.
From S2P Require Import Control.
From S2P Require Import AdminWire.
From S2P Require Import AdminState.
From S2P Require Import AdminWorker.
From S2P Require Import AdminFormat.

Definition ADMIN_CLIENT_MAX : nat := 16.
Definition ADMIN_REQUEST_MAX : Z := ADMIN_REQUEST_BASE + NET_ACL_MAX * ADMIN_ACL_RECORD.

(** * State *)

(** [struct admin_connection]; [input] holds the bytes received so far, [output] the bytes of the reply. *)
Record admin_connection : Type := mk_admin_connection {
  cc_fd : Z;
  cc_pending : bool;
  cc_subscribed : bool;
  cc_last_id : Z;
  cc_sequence : Z;
  cc_have : Z;
  cc_target : Z;
  cc_sent : Z;
  cc_length : Z;
  cc_header : admin_header;
  cc_input : list Z;
  cc_output : list Z;
  cc_request : admin_request
}.
Definition zero_admin_connection : admin_connection := mk_admin_connection 0 false false 0 0 0 0 0 0 (mk_admin_header 0 0 0 0) [] [] zero_admin_request.
#[export] Instance admin_connection_inhabited : Inhabited admin_connection := populate zero_admin_connection.
Definition set_cc_fd (v : Z) (r : admin_connection) : admin_connection := mk_admin_connection v (cc_pending r) (cc_subscribed r) (cc_last_id r) (cc_sequence r) (cc_have r) (cc_target r) (cc_sent r) (cc_length r) (cc_header r) (cc_input r) (cc_output r) (cc_request r).
Definition set_cc_pending (v : bool) (r : admin_connection) : admin_connection := mk_admin_connection (cc_fd r) v (cc_subscribed r) (cc_last_id r) (cc_sequence r) (cc_have r) (cc_target r) (cc_sent r) (cc_length r) (cc_header r) (cc_input r) (cc_output r) (cc_request r).
Definition set_cc_subscribed (v : bool) (r : admin_connection) : admin_connection := mk_admin_connection (cc_fd r) (cc_pending r) v (cc_last_id r) (cc_sequence r) (cc_have r) (cc_target r) (cc_sent r) (cc_length r) (cc_header r) (cc_input r) (cc_output r) (cc_request r).
Definition set_cc_last_id (v : Z) (r : admin_connection) : admin_connection := mk_admin_connection (cc_fd r) (cc_pending r) (cc_subscribed r) v (cc_sequence r) (cc_have r) (cc_target r) (cc_sent r) (cc_length r) (cc_header r) (cc_input r) (cc_output r) (cc_request r).
Definition set_cc_sequence (v : Z) (r : admin_connection) : admin_connection := mk_admin_connection (cc_fd r) (cc_pending r) (cc_subscribed r) (cc_last_id r) v (cc_have r) (cc_target r) (cc_sent r) (cc_length r) (cc_header r) (cc_input r) (cc_output r) (cc_request r).
Definition set_cc_have (v : Z) (r : admin_connection) : admin_connection := mk_admin_connection (cc_fd r) (cc_pending r) (cc_subscribed r) (cc_last_id r) (cc_sequence r) v (cc_target r) (cc_sent r) (cc_length r) (cc_header r) (cc_input r) (cc_output r) (cc_request r).
Definition set_cc_target (v : Z) (r : admin_connection) : admin_connection := mk_admin_connection (cc_fd r) (cc_pending r) (cc_subscribed r) (cc_last_id r) (cc_sequence r) (cc_have r) v (cc_sent r) (cc_length r) (cc_header r) (cc_input r) (cc_output r) (cc_request r).
Definition set_cc_sent (v : Z) (r : admin_connection) : admin_connection := mk_admin_connection (cc_fd r) (cc_pending r) (cc_subscribed r) (cc_last_id r) (cc_sequence r) (cc_have r) (cc_target r) v (cc_length r) (cc_header r) (cc_input r) (cc_output r) (cc_request r).
Definition set_cc_length (v : Z) (r : admin_connection) : admin_connection := mk_admin_connection (cc_fd r) (cc_pending r) (cc_subscribed r) (cc_last_id r) (cc_sequence r) (cc_have r) (cc_target r) (cc_sent r) v (cc_header r) (cc_input r) (cc_output r) (cc_request r).
Definition set_cc_header (v : admin_header) (r : admin_connection) : admin_connection := mk_admin_connection (cc_fd r) (cc_pending r) (cc_subscribed r) (cc_last_id r) (cc_sequence r) (cc_have r) (cc_target r) (cc_sent r) (cc_length r) v (cc_input r) (cc_output r) (cc_request r).
Definition set_cc_input (v : list Z) (r : admin_connection) : admin_connection := mk_admin_connection (cc_fd r) (cc_pending r) (cc_subscribed r) (cc_last_id r) (cc_sequence r) (cc_have r) (cc_target r) (cc_sent r) (cc_length r) (cc_header r) v (cc_output r) (cc_request r).
Definition set_cc_output (v : list Z) (r : admin_connection) : admin_connection := mk_admin_connection (cc_fd r) (cc_pending r) (cc_subscribed r) (cc_last_id r) (cc_sequence r) (cc_have r) (cc_target r) (cc_sent r) (cc_length r) (cc_header r) (cc_input r) v (cc_request r).
Definition set_cc_request (v : admin_request) (r : admin_connection) : admin_connection := mk_admin_connection (cc_fd r) (cc_pending r) (cc_subscribed r) (cc_last_id r) (cc_sequence r) (cc_have r) (cc_target r) (cc_sent r) (cc_length r) (cc_header r) (cc_input r) (cc_output r) v.

(** [struct admin_service].  [sv_open] are the descriptors the service has open; [sv_blocks] counts the configurations ever allocated (the one published at the start is block 0) and [sv_freed] lists those freed, in order. *)
Record admin_service : Type := mk_admin_service {
  sv_mailbox : mailbox;
  sv_stopping : bool;
  sv_done : bool;
  sv_failed : bool;
  sv_listener : Z;
  sv_lock_fd : Z;
  sv_current : Z;
  sv_phase : Z;
  sv_cursor : Z;
  sv_last_scan : Z;
  sv_device : Z;
  sv_inode : Z;
  sv_path : string;
  sv_clients : list admin_connection;
  sv_open : list Z;
  sv_blocks : nat;
  sv_freed : list nat
}.
Definition zero_admin_service : admin_service := mk_admin_service zero_mailbox false false false 0 0 0 0 0 0 0 0 EmptyString [] [] 1%nat [].
#[export] Instance admin_service_inhabited : Inhabited admin_service := populate zero_admin_service.
Definition set_sv_mailbox (v : mailbox) (r : admin_service) : admin_service := mk_admin_service v (sv_stopping r) (sv_done r) (sv_failed r) (sv_listener r) (sv_lock_fd r) (sv_current r) (sv_phase r) (sv_cursor r) (sv_last_scan r) (sv_device r) (sv_inode r) (sv_path r) (sv_clients r) (sv_open r) (sv_blocks r) (sv_freed r).
Definition set_sv_stopping (v : bool) (r : admin_service) : admin_service := mk_admin_service (sv_mailbox r) v (sv_done r) (sv_failed r) (sv_listener r) (sv_lock_fd r) (sv_current r) (sv_phase r) (sv_cursor r) (sv_last_scan r) (sv_device r) (sv_inode r) (sv_path r) (sv_clients r) (sv_open r) (sv_blocks r) (sv_freed r).
Definition set_sv_done (v : bool) (r : admin_service) : admin_service := mk_admin_service (sv_mailbox r) (sv_stopping r) v (sv_failed r) (sv_listener r) (sv_lock_fd r) (sv_current r) (sv_phase r) (sv_cursor r) (sv_last_scan r) (sv_device r) (sv_inode r) (sv_path r) (sv_clients r) (sv_open r) (sv_blocks r) (sv_freed r).
Definition set_sv_failed (v : bool) (r : admin_service) : admin_service := mk_admin_service (sv_mailbox r) (sv_stopping r) (sv_done r) v (sv_listener r) (sv_lock_fd r) (sv_current r) (sv_phase r) (sv_cursor r) (sv_last_scan r) (sv_device r) (sv_inode r) (sv_path r) (sv_clients r) (sv_open r) (sv_blocks r) (sv_freed r).
Definition set_sv_listener (v : Z) (r : admin_service) : admin_service := mk_admin_service (sv_mailbox r) (sv_stopping r) (sv_done r) (sv_failed r) v (sv_lock_fd r) (sv_current r) (sv_phase r) (sv_cursor r) (sv_last_scan r) (sv_device r) (sv_inode r) (sv_path r) (sv_clients r) (sv_open r) (sv_blocks r) (sv_freed r).
Definition set_sv_lock_fd (v : Z) (r : admin_service) : admin_service := mk_admin_service (sv_mailbox r) (sv_stopping r) (sv_done r) (sv_failed r) (sv_listener r) v (sv_current r) (sv_phase r) (sv_cursor r) (sv_last_scan r) (sv_device r) (sv_inode r) (sv_path r) (sv_clients r) (sv_open r) (sv_blocks r) (sv_freed r).
Definition set_sv_current (v : Z) (r : admin_service) : admin_service := mk_admin_service (sv_mailbox r) (sv_stopping r) (sv_done r) (sv_failed r) (sv_listener r) (sv_lock_fd r) v (sv_phase r) (sv_cursor r) (sv_last_scan r) (sv_device r) (sv_inode r) (sv_path r) (sv_clients r) (sv_open r) (sv_blocks r) (sv_freed r).
Definition set_sv_phase (v : Z) (r : admin_service) : admin_service := mk_admin_service (sv_mailbox r) (sv_stopping r) (sv_done r) (sv_failed r) (sv_listener r) (sv_lock_fd r) (sv_current r) v (sv_cursor r) (sv_last_scan r) (sv_device r) (sv_inode r) (sv_path r) (sv_clients r) (sv_open r) (sv_blocks r) (sv_freed r).
Definition set_sv_cursor (v : Z) (r : admin_service) : admin_service := mk_admin_service (sv_mailbox r) (sv_stopping r) (sv_done r) (sv_failed r) (sv_listener r) (sv_lock_fd r) (sv_current r) (sv_phase r) v (sv_last_scan r) (sv_device r) (sv_inode r) (sv_path r) (sv_clients r) (sv_open r) (sv_blocks r) (sv_freed r).
Definition set_sv_last_scan (v : Z) (r : admin_service) : admin_service := mk_admin_service (sv_mailbox r) (sv_stopping r) (sv_done r) (sv_failed r) (sv_listener r) (sv_lock_fd r) (sv_current r) (sv_phase r) (sv_cursor r) v (sv_device r) (sv_inode r) (sv_path r) (sv_clients r) (sv_open r) (sv_blocks r) (sv_freed r).
Definition set_sv_device (v : Z) (r : admin_service) : admin_service := mk_admin_service (sv_mailbox r) (sv_stopping r) (sv_done r) (sv_failed r) (sv_listener r) (sv_lock_fd r) (sv_current r) (sv_phase r) (sv_cursor r) (sv_last_scan r) v (sv_inode r) (sv_path r) (sv_clients r) (sv_open r) (sv_blocks r) (sv_freed r).
Definition set_sv_inode (v : Z) (r : admin_service) : admin_service := mk_admin_service (sv_mailbox r) (sv_stopping r) (sv_done r) (sv_failed r) (sv_listener r) (sv_lock_fd r) (sv_current r) (sv_phase r) (sv_cursor r) (sv_last_scan r) (sv_device r) v (sv_path r) (sv_clients r) (sv_open r) (sv_blocks r) (sv_freed r).
Definition set_sv_path (v : string) (r : admin_service) : admin_service := mk_admin_service (sv_mailbox r) (sv_stopping r) (sv_done r) (sv_failed r) (sv_listener r) (sv_lock_fd r) (sv_current r) (sv_phase r) (sv_cursor r) (sv_last_scan r) (sv_device r) (sv_inode r) v (sv_clients r) (sv_open r) (sv_blocks r) (sv_freed r).
Definition set_sv_clients (v : list admin_connection) (r : admin_service) : admin_service := mk_admin_service (sv_mailbox r) (sv_stopping r) (sv_done r) (sv_failed r) (sv_listener r) (sv_lock_fd r) (sv_current r) (sv_phase r) (sv_cursor r) (sv_last_scan r) (sv_device r) (sv_inode r) (sv_path r) v (sv_open r) (sv_blocks r) (sv_freed r).
Definition set_sv_open (v : list Z) (r : admin_service) : admin_service := mk_admin_service (sv_mailbox r) (sv_stopping r) (sv_done r) (sv_failed r) (sv_listener r) (sv_lock_fd r) (sv_current r) (sv_phase r) (sv_cursor r) (sv_last_scan r) (sv_device r) (sv_inode r) (sv_path r) (sv_clients r) v (sv_blocks r) (sv_freed r).
Definition set_sv_blocks (v : nat) (r : admin_service) : admin_service := mk_admin_service (sv_mailbox r) (sv_stopping r) (sv_done r) (sv_failed r) (sv_listener r) (sv_lock_fd r) (sv_current r) (sv_phase r) (sv_cursor r) (sv_last_scan r) (sv_device r) (sv_inode r) (sv_path r) (sv_clients r) (sv_open r) v (sv_freed r).
Definition set_sv_freed (v : list nat) (r : admin_service) : admin_service := mk_admin_service (sv_mailbox r) (sv_stopping r) (sv_done r) (sv_failed r) (sv_listener r) (sv_lock_fd r) (sv_current r) (sv_phase r) (sv_cursor r) (sv_last_scan r) (sv_device r) (sv_inode r) (sv_path r) (sv_clients r) (sv_open r) (sv_blocks r) v.

Definition closed_connection : admin_connection := set_cc_fd (-1) zero_admin_connection.
Definition connection (s : admin_service) (i : nat) : admin_connection := nth i (sv_clients s) closed_connection.
Definition set_connection (i : nat) (c : admin_connection) (s : admin_service) : admin_service :=
  set_sv_clients (<[i := c]> (sv_clients s)) s.

Definition state (s : admin_service) : Z := mx_state (sv_mailbox s).
Definition job (s : admin_service) : admin_job := mx_job (sv_mailbox s).
Definition set_state (v : Z) (s : admin_service) : admin_service := set_sv_mailbox (set_mx_state v (sv_mailbox s)) s.
Definition set_job (j : admin_job) (s : admin_service) : admin_service := set_sv_mailbox (set_mx_job j (sv_mailbox s)) s.

(** [free]; the null pointer is [None]. *)
Definition free_block (b : option config_block) (s : admin_service) : admin_service :=
  match b with Some (block, _) => set_sv_freed (sv_freed s ++ [block]) s | None => s end.

(** The generation a reply reports. *)
Definition view_generation (j : admin_job) : Z := nc_generation (av_config (sn_view (jb_view j))).

Definition text_bytes (s : string) : list Z := code <$> String.list_ascii_of_string s.

(** * Connections *)

Definition milliseconds (sec nsec : Z) : Z := u64 (sec * 1000 + nsec / 1000000).

Definition hung_up (c : admin_connection) : admin_connection :=
  let c := c |> set_cc_fd (-1) |> set_cc_subscribed false in
  if cc_pending c then c else c |> set_cc_have 0 |> set_cc_length 0.

Definition disconnect (i : nat) (s : admin_service) : admin_service :=
  let c := connection s i in
  set_connection i (hung_up c) (set_sv_open (close_fd (cc_fd c) (sv_open s)) s).

(** The body was written behind the header already. *)
Definition response (result generation : Z) (body : list Z) (c : admin_connection) : admin_connection :=
  let h := mk_admin_header (ah_id (cc_header c)) (Z.of_nat (length body)) result generation in
  c |> set_cc_output (admin_header_encode h ++ body) |> set_cc_length (ADMIN_HEADER + Z.of_nat (length body))
    |> set_cc_sent 0 |> set_cc_have 0 |> set_cc_target ADMIN_HEADER.

(** * Events *)

(** Every event has one of these groups. *)
Definition kinds : list string :=
  [""; "generation"; "stats"; "link"; "addr"; "route"; "rule"; "neigh"; "acl"; "app"; "socket"; "monitor"]%string.

Definition name (s : string) : string := (quote +:+ s +:+ quote +:+ ":")%string.

Definition event_text (v : admin_event) (lost : Z) : string :=
  ("{" +:+ name "schema" +:+ "1," +:+ name "sequence" +:+ pretty (ev_sequence v) +:+ "," +:+
   name "generation" +:+ pretty (ev_generation v) +:+ "," +:+ name "group" +:+ pretty (ev_group v) +:+ "," +:+
   name "id" +:+ pretty (ev_id v) +:+ "," +:+ name "action" +:+ pretty (ev_action v) +:+ "," +:+
   name "kind" +:+ quote +:+ nth (Z.to_nat (ev_group v)) kinds EmptyString +:+ quote +:+ "," +:+
   name "address" +:+ quote +:+ inet_ntop (ev_ip v) +:+ quote +:+ "," +:+ name "prefix" +:+ pretty (ev_prefix v) +:+ "," +:+
   name "dev" +:+ pretty (ev_dev v) +:+ "," +:+ name "table" +:+ pretty (ev_table v) +:+ "," +:+
   name "lost" +:+ pretty lost +:+ "}" +:+ String "010" EmptyString)%string.

Definition overflow_text (sequence generation lost : Z) : string :=
  ("{" +:+ name "schema" +:+ "1," +:+ name "kind" +:+ quote +:+ "overflow" +:+ quote +:+ "," +:+
   name "sequence" +:+ pretty sequence +:+ "," +:+ name "generation" +:+ pretty generation +:+ "," +:+
   name "lost" +:+ pretty lost +:+ "}" +:+ String "010" EmptyString)%string.

(** Whether a subscriber wants an event. *)
Definition wanted (r : admin_request) (v : admin_event) : bool :=
  negb (truth (field r F_PROTO) && negb (field r F_PROTO =? ev_group v) && negb (ev_group v =? ADM_STATUS)).

(** The loop, from the next sequence number, the count still to be reported and
    the text so far.  [fuel] is the number of events left. *)
Fixpoint event_loop (fuel : nat) (e : admin_events) (r : admin_request) (sequence lost : Z) (text : string) : Z * Z * string :=
  match fuel with
  | O => (sequence, lost, text)
  | S fuel' =>
    if es_sequence e <=? sequence then (sequence, lost, text) else
    let v := nth (Z.to_nat (sequence mod ADMIN_EVENT_MAX)) (es_entries e) zero_admin_event in
    if negb (wanted r v) then event_loop fuel' e r (sequence + 1) lost text else
    let line := event_text v lost in
    if ADMIN_RESPONSE_MAX - text_length text <=? text_length line then (sequence + 1, lost, text) else
    event_loop fuel' e r (sequence + 1) 0 (text +:+ line)
  end.

Definition events (j : admin_job) (c : admin_connection) : admin_connection :=
  let e := sn_events (jb_view j) in
  if (cc_sequence c =? es_sequence e) || truth (cc_length c) then c else
  let behind := u64 (es_sequence e - cc_sequence c) in
  let lost := if ADMIN_EVENT_MAX <? behind then behind - ADMIN_EVENT_MAX else 0 in
  let start := u64 (cc_sequence c + lost) in
  let '(sequence, lost, text) := event_loop (Z.to_nat (es_sequence e - start)) e (cc_request c) start lost EmptyString in
  let c := set_cc_sequence sequence c in
  let text := if truth lost && empty text then overflow_text sequence (view_generation j) lost else text in
  if empty text then c else response 0 (view_generation j) (text_bytes text) c.

(** * The answer to a job *)

Definition software (r : admin_request) : bool :=
  ((rq_group r =? ADM_ADDR) || (rq_group r =? ADM_ROUTE) || (rq_group r =? ADM_RULE) || (rq_group r =? ADM_ACL)) &&
  negb (rq_verb r =? ADM_SHOW) && negb (rq_verb r =? ADM_GET).

(** A change of the configuration is prepared in a block of its own; [malloc]
    tells whether there was one.  [true]: the job goes back to the worker. *)
Definition prepare_change (malloc : bool) (r : admin_request) (s : admin_service) : admin_service * bool :=
  let j := job s in
  if malloc then
    let block := sv_blocks s in
    let s := set_sv_blocks (S block) s in
    match admin_mutate (sn_view (jb_view j)) r with
    | inr next =>
      (s |> set_job (j |> set_jb_result 0 |> set_jb_next (Some (block, next)) |> set_jb_retired None |> set_jb_type ADMIN_ACTIVATE)
         |> set_sv_phase 1 |> set_state 1, true)
    | inl rc => (free_block (Some (block, av_config (sn_view (jb_view j)))) (set_job (set_jb_result rc j) s), false)
    end
  else (set_job (set_jb_result (- ENOMEM) j) s, false).

(** What an activation leaves behind. *)
Definition reclaim (s : admin_service) : admin_service :=
  if negb (sv_phase s =? 1) then s else
  let j := job s in
  free_block (if truth (jb_result j) then jb_next j else jb_retired j) (set_job (j |> set_jb_next None |> set_jb_retired None) s).

Definition applied_text (json : bool) (generation : Z) : string :=
  if json then ("{" +:+ name "schema" +:+ "1," +:+ name "generation" +:+ pretty generation +:+ "," +:+ name "applied" +:+ "true}" +:+ String "010" EmptyString)%string
  else ("applied generation " +:+ pretty generation +:+ String "010" EmptyString)%string.

(** The reply to the connection that asked. *)
Definition answer (apps : daemon_service) (j : admin_job) (c : admin_connection) : Z * admin_connection :=
  let c := set_cc_pending false c in
  let r := cc_request c in
  let rc := jb_result j in
  let generation := view_generation j in
  if cc_fd c <? 0 then (rc, c |> set_cc_have 0 |> set_cc_length 0) else
  if truth rc then (rc, response rc generation [] c) else
  if rq_group r =? ADM_MONITOR then
    if negb (rq_verb r =? ADM_SHOW) || (ADM_MONITOR <? field r F_PROTO) then (- EINVAL, response (- EINVAL) generation [] c)
    else (0, response 0 generation [] (c |> set_cc_subscribed true |> set_cc_sequence (es_sequence (sn_events (jb_view j)))))
  else if negb (rq_verb r =? ADM_SHOW) && negb (rq_verb r =? ADM_GET) then
    (0, response 0 generation (text_bytes (applied_text (flag r ADMIN_JSON) generation)) c)
  else
    let '(n, text) := admin_format (jb_view j) r apps ADMIN_RESPONSE_MAX in
    if n <? 0 then (n, response n generation [] c) else (0, response 0 generation (take (Z.to_nat n) (text_bytes text)) c).

(** The subscribers that are still connected. *)
Definition deliver (s : admin_service) : admin_service :=
  set_sv_clients ((fun c => if (0 <=? cc_fd c) && cc_subscribed c then events (job s) c else c) <$> sv_clients s) s.

Definition complete (malloc : bool) (apps : daemon_service) (s : admin_service) : admin_service :=
  if negb (state s =? 2) then s else
  let asked := 0 <=? sv_current s in
  let i := Z.to_nat (sv_current s) in
  let '(s, again) :=
    if asked && (sv_phase s =? 0) && software (cc_request (connection s i))
    then prepare_change malloc (cc_request (connection s i)) s else (s, false) in
  if again : bool then s else
  let s := reclaim s in
  let s := if asked then let '(rc, c) := answer apps (job s) (connection s i) in
             set_connection i c (set_job (set_jb_result rc (job s)) s) else s in
  deliver s |> set_sv_current (-1) |> set_state 0.

(** * Input and output *)

(** A connection [accept4] hands out, with the user [SO_PEERCRED] reports. *)
Record admin_peer : Type := mk_admin_peer { ap_fd : Z; ap_uid : option Z }.

Definition free_connection (s : admin_service) : option nat :=
  find_index (fun c => (cc_fd c <? 0) && negb (cc_pending c)) (sv_clients s).

Definition accept_client (euid : Z) (p : admin_peer) (s : admin_service) : admin_service :=
  match ap_uid p with
  | None => s
  | Some uid =>
    if negb (uid =? 0) && negb (uid =? euid) then s else
    match free_connection s with
    | None => s
    | Some i =>
      set_connection i (zero_admin_connection |> set_cc_fd (ap_fd p) |> set_cc_target ADMIN_HEADER) (set_sv_open (ap_fd p :: sv_open s) s)
    end
  end.

(** At most [ADMIN_CLIENT_MAX] connections per call; a refused one is closed at
    once. *)
Definition accept_clients (euid : Z) (peers : list admin_peer) (s : admin_service) : admin_service :=
  foldl (fun s p => accept_client euid p s) s (take ADMIN_CLIENT_MAX peers).

(** The header is acceptable: [None] breaks the connection. *)
Definition admit_header (c : admin_connection) : option admin_connection :=
  match admin_header_decode (cc_input c) with
  | inl _ => None
  | inr h =>
    if (ADMIN_REQUEST_MAX <? ah_length h) || (ah_length h <? ADMIN_REQUEST_BASE) || truth (ah_result h) ||
       truth (ah_generation h) || (ah_id h =? cc_last_id c) then None
    else Some (c |> set_cc_header h |> set_cc_target (cc_target c + ah_length h))
  end.

(** A whole request is there. *)
Definition admit_request (c : admin_connection) : admin_connection :=
  let c := set_cc_last_id (ah_id (cc_header c)) c in
  match admin_request_decode (take (Z.to_nat (ah_length (cc_header c))) (drop (Z.to_nat ADMIN_HEADER) (cc_input c))) with
  | inl rc => response rc 0 [] c
  | inr r => set_cc_request r c
  end.

(** [recv] stores at most the room it is given. *)
Definition read_client (i : nat) (r : io_result (list Z)) (s : admin_service) : admin_service :=
  let c := connection s i in
  match r with
  | Failed errno => if retry errno then s else disconnect i s
  | Answered bytes =>
    let data := take (Z.to_nat (cc_target c - cc_have c)) bytes in
    if Nat.eqb (length data) 0 then disconnect i s else
    let c := c |> set_cc_input (take (Z.to_nat (cc_have c)) (cc_input c) ++ data) |> set_cc_have (cc_have c + Z.of_nat (length data)) in
    let header := (cc_have c =? ADMIN_HEADER) && (cc_target c =? ADMIN_HEADER) in
    match (if header then admit_header c else Some c) with
    | None => disconnect i (set_connection i c s)
    | Some c => set_connection i (if cc_have c =? cc_target c then admit_request c else c) s
    end
  end.

(** [send] takes at most the bytes it is given. *)
Definition write_client (i : nat) (r : io_result Z) (s : admin_service) : admin_service :=
  let c := connection s i in
  match r with
  | Failed errno => if retry errno then s else disconnect i s
  | Answered n =>
    let n := Z.min n (cc_length c - cc_sent c) in
    if n <=? 0 then disconnect i s else
    let c := set_cc_sent (cc_sent c + n) c in
    set_connection i (if cc_sent c =? cc_length c then c |> set_cc_sent 0 |> set_cc_length 0 else c) s
  end.

(** * Scheduling *)

(** A connection with a whole request and no reply under way. *)
Definition ready (c : admin_connection) : bool :=
  negb ((cc_fd c <? 0) || cc_subscribed c || cc_pending c || truth (cc_length c) || negb (cc_have c =? cc_target c)).

(** The order of the search: from the connection after the cursor, round. *)
Definition turn (cursor : Z) : list nat :=
  (fun n => Z.to_nat (u32 (cursor + Z.of_nat n) mod Z.of_nat ADMIN_CLIENT_MAX)) <$> seq 1 ADMIN_CLIENT_MAX.
Definition next_ready (s : admin_service) : option nat := List.find (fun i => ready (connection s i)) (turn (sv_cursor s)).

Definition job_of (r : admin_request) : admin_job_type :=
  if ((rq_group r =? ADM_LINK) || (rq_group r =? ADM_NEIGH)) && negb (rq_verb r =? ADM_SHOW) then ADMIN_HARDWARE else ADMIN_READ.

(** [now] and [later] are what the two clock readings give. *)
Definition schedule (now later : Z) (s : admin_service) : admin_service :=
  if truth (state s) then s else
  match next_ready s with
  | Some i =>
    let c := connection s i in
    s |> set_sv_cursor (Z.of_nat i) |> set_sv_current (Z.of_nat i) |> set_sv_phase 0
      |> set_job (job s |> set_jb_request (cc_request c) |> set_jb_type (job_of (cc_request c)))
      |> set_connection i (set_cc_pending true c) |> set_state 1
  | None =>
    if u64 (now - sv_last_scan s) <? 100 then s else
    if existsb cc_subscribed (sv_clients s) then
      s |> set_sv_last_scan later |> set_sv_current (-1) |> set_sv_phase 0
        |> set_job (job s |> set_jb_request (mk_admin_request ADM_MONITOR ADM_SHOW 0 0 (replicate 16 0) (replicate 64 0) []) |> set_jb_type ADMIN_READ)
        |> set_state 1
    else s
  end.

(** * The loop *)

(** What the kernel answers in one round. *)
Record admin_input : Type := mk_admin_input {
  ai_malloc : bool;
  ai_now : Z;
  ai_later : Z;
  ai_poll : Z + list Z;
  ai_euid : Z;
  ai_accept : list admin_peer;
  ai_send : nat -> io_result Z;
  ai_recv : nat -> io_result (list Z)
}.

Definition connection_events (c : admin_connection) : Z :=
  if truth (cc_length c) then POLLOUT else
  if negb (cc_pending c) && negb (cc_subscribed c) && (cc_have c <? cc_target c) then POLLIN else 0.

(** [poll] ignores an entry without a descriptor. *)
Definition connection_revents (reported : list Z) (s : admin_service) (i : nat) : Z :=
  let c := connection s i in
  if cc_fd c <? 0 then 0 else revents (nth (S i) reported 0) (connection_events c).

Definition poll_connection (e : admin_input) (s : admin_service) (entry : nat * Z) : admin_service :=
  let '(i, got) := entry in
  let s := if truth (Z.land got poll_failure) then disconnect i s else s in
  let s := if (0 <=? cc_fd (connection s i)) && truth (Z.land got POLLOUT) then write_client i (ai_send e i) s else s in
  if (0 <=? cc_fd (connection s i)) && truth (Z.land got POLLIN) then read_client i (ai_recv e i) s else s.

Definition poll_round (e : admin_input) (s : admin_service) : admin_service :=
  match ai_poll e with
  | inl errno => if errno =? EINTR then s else s |> set_sv_failed true |> set_sv_stopping true
  | inr reported =>
    let entries := (fun i => (i, connection_revents reported s i)) <$> seq 0 ADMIN_CLIENT_MAX in
    let s := if truth (Z.land (revents (nth 0 reported 0) POLLIN) POLLIN) then accept_clients (ai_euid e) (ai_accept e) s else s in
    foldl (poll_connection e) s entries
  end.

Definition disconnect_all (s : admin_service) : admin_service := foldl (fun s i => disconnect i s) s (seq 0 ADMIN_CLIENT_MAX).

(** One round of [run]; [true] when the thread ends. *)
Definition run_round (apps : daemon_service) (e : admin_input) (s : admin_service) : admin_service * bool :=
  if sv_stopping s && negb (truth (state s)) then (set_sv_done true (disconnect_all s), true) else
  let s := complete (ai_malloc e) apps s in
  if sv_stopping s then (disconnect_all s, false) else
  (poll_round e (schedule (ai_now e) (ai_later e) s), false).

(** * Start and end *)

Definition fresh_service : admin_service :=
  zero_admin_service |> set_sv_listener (-1) |> set_sv_lock_fd (-1) |> set_sv_current (-1)
    |> set_sv_clients (replicate ADMIN_CLIENT_MAX closed_connection).

(** The end of [admin_prepare], from [socket] on. *)
Definition listen_socket (e : prepare_input) (s : admin_service) : Z * admin_service :=
  if pi_socket e <? 0 then (pi_socket e, s) else
  let s := s |> set_sv_listener (pi_socket e) |> set_sv_open (pi_socket e :: sv_open s) in
  match pi_bind e with
  | Some errno => (- errno, s)
  | None =>
    match pi_bound e with
    | inl errno => (- errno, s)
    | inr info =>
      let s := s |> set_sv_device (in_device info) |> set_sv_inode (in_number info) in
      match pi_listen e with Some errno => (- errno, s) | None => (0, s) end
    end
  end.

(** The checks of the lock file and of the socket at the path are those of the
    daemon. *)
Definition admin_prepare (path : string) (e : prepare_input) : Z * admin_service :=
  let s := fresh_service in
  if empty path || Nat.leb SUN_PATH (String.length path) then (- EINVAL, s) else
  let s := set_sv_path path s in
  if pi_lock e <? 0 then (pi_lock e, s) else
  let s := s |> set_sv_lock_fd (pi_lock e) |> set_sv_open [pi_lock e] in
  let rc := lock_check e in
  if truth rc then (rc, s) else
  let rc := stale_socket e in
  if truth rc then (rc, s) else
  listen_socket e s.

(** [rc] is what [pthread_create] returns. *)
Definition admin_start (rc : Z) : Z := if truth rc then - rc else 0.

(** [info] is what [lstat] finds at the path: whether the socket file goes is the
    second result. *)
Definition admin_release (info : option inode_info) (s : admin_service) : admin_service * bool :=
  (set_sv_open (close_fd (sv_lock_fd s) (close_fd (sv_listener s) (sv_open s))) s,
   truth (sv_inode s) &&
   match info with
   | Some info => (in_device info =? sv_device s) && (in_number info =? sv_inode s)
   | None => false
   end).

#[global] Arguments hung_up : simpl never.
#[global] Arguments response : simpl never.
#[global] Arguments events : simpl never.
#[global] Arguments answer : simpl never.
#[global] Arguments turn : simpl never.
