(* ===== verification/AdminParse.v ===== *)
(** The command line of [pulsar], [src/admin_parse.c]: from arguments to a
    request.  [None] is [goto invalid].  Messages are given in full; the caller's buffer
    may cut them.  Opening a file is an argument of the
    parser, and so is [strerror]. *)
From Stdlib Require Import Ascii.
From stdpp Require Import pretty.
From S2P Require Import Prelude.
From S2P Require Import Types.
From S2P Require Import Text.
From S2P Require Import Prefix.
From S2P Require Import AdminWire.
From S2P Require Import AdminState.
From S2P Require Import AdminWorker.
From S2P Require Import AdminFormat.
From S2P Require Import AdminControl.

(** * Words *)

Definition same (s word : string) : bool := String.eqb s word.
Definition one_of (s : string) (words : list string) : bool := existsb (same s) words.

Definition arg_number (s : string) : option Z := Text.number s UINT32_MAX.

(** The address and the prefix length; [host] allows neither a prefix nor
    [all]. *)
Definition ip_prefix (s : string) (host : bool) : option (Z * Z) :=
  if one_of s ["all"; "default"]%string then if host then None else Some (0, 0) else
  if Nat.leb 64 (String.length s) then None else
  match strchr "/" s with
  | None => ip ← inet_pton s; Some (ip, 32)
  | Some (text, slash) =>
    if host then None else
    prefix ← arg_number slash;
    if 32 <? prefix then None else ip ← inet_pton text; Some (ip, prefix)
  end.

Definition arg_table (s : string) : option Z :=
  if same s "main" then Some NET_TABLE_MAIN else
  if same s "local" then Some NET_TABLE_LOCAL else
  if same s "default" then Some NET_TABLE_DEFAULT else
  if same s "all" then Some 0 else
  n ← arg_number s; if truth n then Some n else None.

Definition arg_action (s : string) : option Z :=
  if same s "unicast" then Some NET_UNICAST else
  if same s "blackhole" then Some NET_BLACKHOLE else
  if same s "unreachable" then Some NET_UNREACHABLE else
  if same s "prohibit" then Some NET_PROHIBIT else None.

Definition arg_drop (s : string) : option Z :=
  if same s "accept" then Some 0 else if same s "drop" then Some 1 else None.

Definition device_letter (c : ascii) : bool :=
  isalnum c || Ascii.eqb c "_" || Ascii.eqb c "-" || Ascii.eqb c "." || Ascii.eqb c ":".
(** The name in a [char[64]] of zeros. *)
Definition devname (s : string) : option (list Z) :=
  if empty s || Nat.leb 64 (String.length s) then None else
  if negb (all_chars device_letter s) then None else Some (text_bytes s ++ replicate (64 - String.length s) 0).

Definition arg_ports (s : string) : option (Z * Z) :=
  if same s "any" then Some (0, 65535) else
  if Nat.leb 32 (String.length s) then None else
  let '(text, dash) := match strchr "-" s with Some (l, r) => (l, Some r) | None => (s, None) end in
  lo ← arg_number text;
  hi ← match dash with Some d => arg_number d | None => Some lo end;
  if (hi <? lo) || (65535 <? hi) then None else Some (lo, hi).

Definition index_of (s : string) (names : list string) : option nat := find_index (same s) names.

Definition arg_group (s : string) : Z :=
  match index_of s ["status"; "stats"; "link"; "addr"; "route"; "rule"; "neigh"; "acl"; "app"; "socket"; "monitor"]%string with
  | Some i => Z.of_nat (S i)
  | None =>
    if one_of s ["address"; "a"]%string then ADM_ADDR else
    if same s "r" then ADM_ROUTE else
    if same s "l" then ADM_LINK else
    if one_of s ["neighbor"; "neighbour"; "n"]%string then ADM_NEIGH else 0
  end.

Definition arg_verb (s : string) : Z :=
  match index_of s ["show"; "add"; "replace"; "del"; "flush"; "get"; "set"; "apply"; "default"]%string with
  | Some i => Z.of_nat (S i)
  | None => if one_of s ["list"; "ls"]%string then ADM_SHOW else if same s "delete" then ADM_DEL else 0
  end.

(** [sscanf] with [%2x]: spaces are skipped, then a number of at most two
    characters with an optional sign.  A lone prefix [0x] is no number. *)
Definition hex_digit_value (c : ascii) : option Z :=
  if isdigit c then Some (code c - 48) else
  if (97 <=? code c) && (code c <=? 102) then Some (code c - 87) else
  if (65 <=? code c) && (code c <=? 70) then Some (code c - 55) else None.

Definition scan_hex2 (s : string) : option (Z * string) :=
  match skip_space s with
  | EmptyString => None
  | String c s1 =>
    if Ascii.eqb c "+" || Ascii.eqb c "-" then
      match s1 with
      | String d s2 => v ← hex_digit_value d; Some (if Ascii.eqb c "-" then u32 (- v) else v, s2)
      | EmptyString => None
      end
    else
      v ← hex_digit_value c;
      match s1 with
      | String d s2 =>
        if (v =? 0) && (Ascii.eqb d "x" || Ascii.eqb d "X") then None else
        match hex_digit_value d with Some w => Some (v * 16 + w, s2) | None => Some (v, s1) end
      | EmptyString => Some (v, s1)
      end
  end.

(** The six numbers and the colons; [%c] finds a character left over. *)
Fixpoint scan_mac (k : nat) (s : string) : option (list Z) :=
  '(v, rest) ← scan_hex2 s;
  match k with
  | O => match rest with EmptyString => Some [v] | _ => None end
  | S k' =>
    match rest with
    | String c rest' => if Ascii.eqb c ":" then l ← scan_mac k' rest'; Some (v :: l) else None
    | EmptyString => None
    end
  end.

Definition arg_mac (s : string) : option (Z * Z) :=
  if negb (Nat.eqb (String.length s) 17) then None else
  bytes ← scan_mac 5 s;
  if existsb (fun x => 255 <? x) bytes then None else
  let b := fun i => nth i bytes 0 in
  Some (Z.lor (Z.shiftl (b 0%nat) 8) (b 1%nat),
        Z.lor (Z.shiftl (b 2%nat) 24) (Z.lor (Z.shiftl (b 3%nat) 16) (Z.lor (Z.shiftl (b 4%nat) 8) (b 5%nat)))).

(** * The request being built *)

Definition set_verb (v : Z) (r : admin_request) : admin_request :=
  mk_admin_request (rq_group r) v (rq_flags r) (rq_count r) (rq_v r) (rq_dev r) (rq_acls r).
Definition add_flag (f : Z) (r : admin_request) : admin_request :=
  mk_admin_request (rq_group r) (rq_verb r) (Z.lor (rq_flags r) f) (rq_count r) (rq_v r) (rq_dev r) (rq_acls r).
Definition set_field (i : nat) (x : Z) (r : admin_request) : admin_request :=
  mk_admin_request (rq_group r) (rq_verb r) (rq_flags r) (rq_count r) (<[i := x]> (rq_v r)) (rq_dev r) (rq_acls r).
Definition set_dev (d : list Z) (r : admin_request) : admin_request :=
  mk_admin_request (rq_group r) (rq_verb r) (rq_flags r) (rq_count r) (rq_v r) d (rq_acls r).


(** The local variables of [admin_parse]. *)
Record parsing : Type := mk_parsing {
  pa_r : admin_request;
  pa_seen : Z;
  pa_prefix : bool;
  pa_pref : bool;
  pa_action : bool;
  pa_lookup : bool;
  pa_mac : bool;
  pa_nud : bool
}.
Definition zero_parsing : parsing := mk_parsing zero_admin_request 0 false false false false false false.
#[export] Instance parsing_inhabited : Inhabited parsing := populate zero_parsing.
Definition set_pa_r (v : admin_request) (r : parsing) : parsing := mk_parsing v (pa_seen r) (pa_prefix r) (pa_pref r) (pa_action r) (pa_lookup r) (pa_mac r) (pa_nud r).
Definition set_pa_seen (v : Z) (r : parsing) : parsing := mk_parsing (pa_r r) v (pa_prefix r) (pa_pref r) (pa_action r) (pa_lookup r) (pa_mac r) (pa_nud r).
Definition set_pa_prefix (v : bool) (r : parsing) : parsing := mk_parsing (pa_r r) (pa_seen r) v (pa_pref r) (pa_action r) (pa_lookup r) (pa_mac r) (pa_nud r).
Definition set_pa_pref (v : bool) (r : parsing) : parsing := mk_parsing (pa_r r) (pa_seen r) (pa_prefix r) v (pa_action r) (pa_lookup r) (pa_mac r) (pa_nud r).
Definition set_pa_action (v : bool) (r : parsing) : parsing := mk_parsing (pa_r r) (pa_seen r) (pa_prefix r) (pa_pref r) v (pa_lookup r) (pa_mac r) (pa_nud r).
Definition set_pa_lookup (v : bool) (r : parsing) : parsing := mk_parsing (pa_r r) (pa_seen r) (pa_prefix r) (pa_pref r) (pa_action r) v (pa_mac r) (pa_nud r).
Definition set_pa_mac (v : bool) (r : parsing) : parsing := mk_parsing (pa_r r) (pa_seen r) (pa_prefix r) (pa_pref r) (pa_action r) (pa_lookup r) v (pa_nud r).
Definition set_pa_nud (v : bool) (r : parsing) : parsing := mk_parsing (pa_r r) (pa_seen r) (pa_prefix r) (pa_pref r) (pa_action r) (pa_lookup r) (pa_mac r) v.

Definition on_r (f : admin_request -> admin_request) (p : parsing) : parsing := set_pa_r (f (pa_r p)) p.

Section parse.
Context (r0 : admin_request).

(** The group and the verb do not change in the loop over the options. *)
Definition group_in (groups : list Z) : bool := existsb (fun g => rq_group r0 =? g) groups.
Definition with_verb (verbs : list Z) : bool := existsb (fun v => rq_verb r0 =? v) verbs.

(** The argument that comes first: the rest of the arguments, and what was
    found. *)
Definition positional (args : list string) (p : parsing) : option (list string * parsing) :=
  if (rq_group r0 =? ADM_ROUTE) && negb (with_verb [ADM_SHOW; ADM_FLUSH]) then
    let '(args, p) := match args with
                      | s :: rest => match arg_action s with
                                     | Some a => (rest, p |> on_r (set_field F_ACTION a) |> set_pa_action true)
                                     | None => (args, p)
                                     end
                      | [] => (args, p)
                      end in
    match args with
    | [] => None
    | s :: rest =>
      '(ip, prefix) ← ip_prefix s (rq_verb r0 =? ADM_GET);
      Some (rest, p |> on_r (set_field F_IP ip) |> on_r (set_field F_PREFIX prefix) |> set_pa_prefix true)
    end
  else if (rq_group r0 =? ADM_ADDR) && negb (with_verb [ADM_SHOW; ADM_FLUSH]) then
    match args with
    | [] => None
    | s :: rest =>
      if negb (has_char "/" s) then None else
      '(ip, prefix) ← ip_prefix s false;
      Some (rest, p |> on_r (set_field F_IP ip) |> on_r (set_field F_PREFIX prefix) |> set_pa_prefix true)
    end
  else if (rq_group r0 =? ADM_NEIGH) && negb (with_verb [ADM_SHOW; ADM_FLUSH]) then
    match args with
    | [] => None
    | s :: rest => '(ip, _) ← ip_prefix s true; Some (rest, on_r (set_field F_IP ip) p)
    end
  else if (rq_group r0 =? ADM_ACL) && (rq_verb r0 =? ADM_DEFAULT) then
    match args with
    | [] => Some (args, p)
    | [s] => a ← arg_drop s; Some ([], p |> on_r (set_field F_ACTION a) |> set_pa_action true)
    | _ => None
    end
  else Some (args, p).

(** An option without a value. *)
Definition bare (key : string) (p : parsing) : option (option parsing) :=
  if (rq_group r0 =? ADM_STATS) && same key "--nodes" then Some (Some (on_r (add_flag ADMIN_NODES) p)) else
  if (rq_group r0 =? ADM_LINK) && (rq_verb r0 =? ADM_SET) && one_of key ["up"; "down"]%string then
    if truth (field (pa_r p) F_PORTS) then Some None
    else Some (Some (on_r (fun r => r |> set_field F_PORTS 1 |> set_field F_ACTION (if same key "up" then 1 else 0)) p)) else
  if (rq_group r0 =? ADM_ACL) && (rq_verb r0 =? ADM_ADD) then
    match arg_drop key with
    | Some a => if pa_action p then Some None else Some (Some (p |> on_r (set_field F_ACTION a) |> set_pa_action true))
    | None => None
    end
  else None.

(** A protocol. *)
Definition arg_proto (s : string) : option Z :=
  if same s "tcp" then Some 6 else if same s "udp" then Some 17 else if same s "icmp" then Some 1 else if same s "any" then Some 0 else
  n ← arg_number s; if 255 <? n then None else Some n.

(** An option with its value: its bit in [seen], and the effect. *)
Definition keyed (key value : string) (p : parsing) : option (nat * parsing) :=
  if same key "dev" then
    if negb (group_in [ADM_LINK; ADM_ADDR; ADM_ROUTE; ADM_NEIGH]) then None else
    d ← devname value; Some (0%nat, on_r (set_dev d) p)
  else if same key "iif" then
    if negb (group_in [ADM_RULE; ADM_ACL]) then None else
    if same value "any" then Some (0%nat, p) else d ← devname value; Some (0%nat, on_r (set_dev d) p)
  else if one_of key ["pref"; "priority"]%string then
    if negb (group_in [ADM_RULE; ADM_ACL]) then None else
    n ← arg_number value; Some (1%nat, p |> on_r (set_field F_PREF n) |> set_pa_pref true)
  else if one_of key ["src"; "from"]%string then
    if negb (group_in [ADM_RULE; ADM_ACL]) && negb ((rq_group r0 =? ADM_ROUTE) && (rq_verb r0 =? ADM_GET)) then None else
    '(ip, prefix) ← ip_prefix value (rq_group r0 =? ADM_ROUTE);
    Some (2%nat, on_r (fun r => r |> set_field F_SRC ip |> set_field F_SRC_PREFIX prefix) p)
  else if one_of key ["dst"; "to"]%string then
    if negb (group_in [ADM_RULE; ADM_ACL]) then None else
    '(ip, prefix) ← ip_prefix value false;
    Some (3%nat, on_r (fun r => r |> set_field F_DST ip |> set_field F_DST_PREFIX prefix) p)
  else if same key "proto" then
    if negb (rq_group r0 =? ADM_ACL) then None else
    n ← arg_proto value; Some (4%nat, on_r (set_field F_PROTO n) p)
  else if one_of key ["sport"; "dport"]%string then
    if negb (rq_group r0 =? ADM_ACL) then None else
    '(lo, hi) ← arg_ports value;
    let '(bit, first, mark) := if same key "sport" then (5%nat, F_SPORT_MIN, 1) else (6%nat, F_DPORT_MIN, 2) in
    Some (bit, on_r (fun r => let r := r |> set_field first lo |> set_field (S first) hi in set_field F_PORTS (Z.lor (field r F_PORTS) mark) r) p)
  else if same key "action" then
    if pa_action p then None else
    a ← (if rq_group r0 =? ADM_ACL then arg_drop value else
         if rq_group r0 =? ADM_RULE then a ← arg_action value; if truth a then Some a else None else None);
    Some (7%nat, p |> on_r (set_field F_ACTION a) |> set_pa_action true)
  else if one_of key ["table"; "lookup"]%string then
    if negb (group_in [ADM_ROUTE; ADM_RULE]) then None else
    t ← arg_table value; Some (8%nat, p |> on_r (set_field F_TABLE t) |> set_pa_lookup true)
  else if same key "via" then
    if negb (rq_group r0 =? ADM_ROUTE) then None else
    '(ip, _) ← ip_prefix value true; Some (9%nat, on_r (set_field F_GATEWAY ip) p)
  else if same key "mtu" then
    if negb (rq_group r0 =? ADM_LINK) || negb (rq_verb r0 =? ADM_SET) || truth (field (pa_r p) F_PORTS) then None else
    n ← arg_number value; Some (10%nat, on_r (fun r => r |> set_field F_IP n |> set_field F_PORTS 2) p)
  else if same key "lladdr" then
    if negb (rq_group r0 =? ADM_NEIGH) then None else
    '(first, rest) ← arg_mac value;
    Some (11%nat, p |> on_r (fun r => r |> set_field F_SPORT_MIN first |> set_field F_SPORT_MAX rest) |> set_pa_mac true)
  else if same key "nud" then
    if negb (rq_group r0 =? ADM_NEIGH) || negb (same value "permanent") then None else Some (12%nat, set_pa_nud true p)
  else None.

(** The loop over the options. *)
Fixpoint options (args : list string) (p : parsing) : option parsing :=
  match args with
  | [] => Some p
  | key :: rest =>
    match bare key p with
    | Some outcome => p ← outcome; options rest p
    | None =>
      match rest with
      | [] => None
      | value :: rest' =>
        '(bit, p) ← keyed key value p;
        if Z.testbit (pa_seen p) (Z.of_nat bit) then None else
        options rest' (set_pa_seen (Z.lor (pa_seen p) (Z.shiftl 1 (Z.of_nat bit))) p)
      end
    end
  end.

(** ** The checks after the loop *)

Definition incomplete (p : parsing) : bool :=
  let r := pa_r p in
  let change := negb (rq_verb r0 =? ADM_SHOW) in
  (group_in [ADM_STATUS; ADM_STATS; ADM_APP; ADM_SOCKET] && change) ||
  ((rq_group r0 =? ADM_ADDR) && change && negb (named (rq_dev r))) ||
  ((rq_group r0 =? ADM_LINK) && change && (negb (rq_verb r0 =? ADM_SET) || negb (named (rq_dev r)) || negb (truth (field r F_PORTS)))) ||
  ((rq_group r0 =? ADM_NEIGH) && change && (negb (named (rq_dev r)) || (with_verb [ADM_ADD; ADM_REPLACE] && (negb (pa_mac p) || negb (pa_nud p))))) ||
  ((rq_group r0 =? ADM_ROUTE) && change && negb (rq_verb r0 =? ADM_GET) && (negb (truth (field r F_TABLE)) || (field r F_TABLE =? NET_TABLE_LOCAL))) ||
  ((rq_group r0 =? ADM_ROUTE) && with_verb [ADM_ADD; ADM_REPLACE] && negb (truth (field r F_ACTION)) && negb (named (rq_dev r))) ||
  ((rq_group r0 =? ADM_RULE) &&
     (((rq_verb r0 =? ADM_ADD) && (negb (pa_pref p) || (negb (pa_lookup p) && negb (pa_action p)) || (pa_lookup p && pa_action p))) ||
      ((rq_verb r0 =? ADM_DEL) && negb (pa_pref p)))) ||
  ((rq_group r0 =? ADM_ACL) &&
     (((rq_verb r0 =? ADM_ADD) && (negb (pa_pref p) || negb (pa_action p))) || ((rq_verb r0 =? ADM_DEL) && negb (pa_pref p)))).

Definition host_bits (r : admin_request) (ip prefix : nat) : bool := truth (Z.land (field r ip) (not32 (net_mask (field r prefix)))).
Definition inconsistent (p : parsing) : bool :=
  let r := pa_r p in
  ((rq_group r0 =? ADM_ACL) && truth (field r F_PORTS) && negb (field r F_PROTO =? 6) && negb (field r F_PROTO =? 17)) ||
  ((rq_group r0 =? ADM_ROUTE) && pa_prefix p && negb (rq_verb r0 =? ADM_GET) && host_bits r F_IP F_PREFIX) ||
  (group_in [ADM_RULE; ADM_ACL] && (host_bits r F_SRC F_SRC_PREFIX || host_bits r F_DST F_DST_PREFIX)).

(** The options a command may have. *)
Definition allowed : Z :=
  if rq_group r0 =? ADM_LINK then if rq_verb r0 =? ADM_SET then bits [0; 10]%nat else bits [0]%nat else
  if rq_group r0 =? ADM_ADDR then bits [0]%nat else
  if rq_group r0 =? ADM_ROUTE then
    if rq_verb r0 =? ADM_GET then bits [2]%nat else if with_verb [ADM_ADD; ADM_REPLACE] then bits [0; 8; 9]%nat else bits [8]%nat else
  if rq_group r0 =? ADM_RULE then
    if rq_verb r0 =? ADM_ADD then bits [0; 1; 2; 3; 7; 8]%nat else if rq_verb r0 =? ADM_DEL then bits [1]%nat else 0 else
  if rq_group r0 =? ADM_NEIGH then if with_verb [ADM_ADD; ADM_REPLACE] then bits [0; 11; 12]%nat else bits [0]%nat else
  if rq_group r0 =? ADM_ACL then if rq_verb r0 =? ADM_ADD then 255 else if rq_verb r0 =? ADM_DEL then bits [1]%nat else 0 else 0.

(** From the options to the request. *)
Definition finish (p : parsing) : option admin_request :=
  let r := pa_r p in
  if incomplete p then None else
  if (rq_group r0 =? ADM_ACL) && (rq_verb r0 =? ADM_DEFAULT) && negb (pa_action p) then Some (set_verb ADM_SHOW r) else
  if inconsistent p then None else
  if (rq_group r0 =? ADM_ROUTE) && (rq_verb r0 =? ADM_FLUSH) && negb (pa_lookup p) then None else
  if truth (Z.land (pa_seen p) (not32 allowed)) then None else
  match admin_request_decode (admin_request_encode r) with inl _ => None | inr _ => Some r end.
End parse.

(** * The commands *)

(** [monitor], after the verb. *)
Definition parse_monitor (r : admin_request) (args : list string) : option admin_request :=
  if negb (rq_verb r =? ADM_SHOW) then None else
  match args with
  | [] => Some r
  | [s] => let g := arg_group s in if (g <? ADM_LINK) || (ADM_ACL <? g) then None else Some (set_field F_PROTO g r)
  | _ => None
  end.

(** Everything before the options: the request so far and the arguments left. *)
Definition parse_head (args : list string) : option (admin_request * list string) :=
  match args with
  | [] => None
  | first :: args =>
    if negb (truth (arg_group first)) then None else
    let '(verb, args) := match args with
                         | s :: rest => if truth (arg_verb s) then (arg_verb s, rest) else (ADM_SHOW, args)
                         | [] => (ADM_SHOW, args)
                         end in
    let r := mk_admin_request (arg_group first) verb 0 0 (replicate 16 0) (replicate 64 0) [] in
    let r := if (rq_group r =? ADM_ROUTE) && negb (rq_verb r =? ADM_GET) then set_field F_TABLE NET_TABLE_MAIN r else r in
    match args with
    | s :: rest => if (rq_group r =? ADM_ACL) && same s "stats" then Some (add_flag ADMIN_STATS r, rest) else Some (r, args)
    | [] => Some (r, args)
    end
  end.

Definition invalid : string := "invalid or unsupported arguments"%string.
Definition or_invalid (o : option admin_request) : Z * string + admin_request :=
  match o with Some r => inr r | None => inl (- EINVAL, invalid) end.

(** [apply] reads the rules of [acl apply] into the request. *)
Definition parse_with (apply : string -> admin_request -> Z * string + admin_request) (args : list string) : Z * string + admin_request :=
  match parse_head args with
  | None => inl (- EINVAL, invalid)
  | Some (r, args) =>
    if rq_group r =? ADM_MONITOR then or_invalid (parse_monitor r args) else
    if (rq_group r =? ADM_ACL) && (rq_verb r =? ADM_APPLY) then
      match args with [path] => apply path r | _ => inl (- EINVAL, invalid) end
    else or_invalid ('(args, p) ← positional r args (set_pa_r r zero_parsing); p ← options r args p; finish r p)
  end.

(** * Rule files *)

Section files.
Context (open : string -> Z + file) (strerror : Z -> string).

(** A line of the file is read like [acl add pref ...], which is no [apply]. *)
Definition parse_entry (tokens : list string) : Z * string + admin_request :=
  parse_with (fun _ _ => inl (- EINVAL, invalid)) (["acl"; "add"; "pref"]%string ++ tokens).

Definition entry_acl (r : admin_request) : admin_acl :=
  let v := field r in
  mk_admin_acl (mk_net_acl (v F_PREF) (v F_SRC) (v F_SRC_PREFIX) (v F_DST) (v F_DST_PREFIX) NET_IIF_NONE (v F_PROTO)
    (v F_SPORT_MIN) (v F_SPORT_MAX) (v F_DPORT_MIN) (v F_DPORT_MAX) (v F_PORTS) (v F_ACTION)) (rq_dev r).

Definition add_acl (a : admin_acl) (r : admin_request) : admin_request :=
  mk_admin_request (rq_group r) (rq_verb r) (rq_flags r) (rq_count r + 1) (rq_v r) (rq_dev r) (rq_acls r ++ [a]).

Definition line_space (c : ascii) : bool := (code c =? 32) || (code c =? 9) || (code c =? 13) || (code c =? 10).

(** One line: an error, or whether there was a default so far and the request. *)
Definition apply_line (line : string) (too_long have_default : bool) (r : admin_request) : Z + bool * admin_request :=
  if too_long then inl (- EINVAL) else
  let line := match strchr "#" line with Some (before, _) => before | None => line end in
  let tokens := tokens line_space line in
  if Nat.ltb 70 (length tokens) then inl (- EINVAL) else
  match tokens with
  | [] => inr (have_default, r)
  | first :: rest =>
    if same first "default" then
      if have_default then inl (- EINVAL) else
      match rest with
      | [s] => match arg_drop s with Some a => inr (true, set_field F_ACTION a r) | None => inl (- EINVAL) end
      | _ => inl (- EINVAL)
      end
    else
    if rq_count r =? NET_ACL_MAX then inl (- ENOSPC) else
    match parse_entry tokens with
    | inl (rc, _) => inl rc
    | inr entry =>
      let a := entry_acl entry in
      if existsb (fun b => ac_pref (aa_rule b) =? ac_pref (aa_rule a)) (rq_acls r) then inl (- EEXIST) else inr (have_default, add_acl a r)
    end
  end.

(** The loop over the lines: the number of the last line read, and the outcome. *)
Fixpoint apply_lines (lines : list (string * bool)) (lineno : Z) (have_default : bool) (r : admin_request) : Z * (Z + admin_request) :=
  match lines with
  | [] => (lineno, inr r)
  | (line, too_long) :: lines' =>
    match apply_line line too_long have_default r with
    | inl rc => (lineno + 1, inl rc)
    | inr (have_default, r) => apply_lines lines' (lineno + 1) have_default r
    end
  end.

(** [ferror] holds once the loop came to the end of a stream that a read error
    ended. *)
Definition apply_file (path : string) (r : admin_request) : Z * string + admin_request :=
  match open path with
  | inl errno => inl (- errno, path +:+ ": " +:+ strerror errno)%string
  | inr f =>
    let '(lineno, outcome) := apply_lines (lines 2047 f) 0 false r in
    let outcome := match outcome with inr _ => if fl_error f then inl (- EIO) else outcome | inl _ => outcome end in
    match outcome with
    | inl rc => inl (rc, path +:+ ":" +:+ pretty lineno +:+ ": invalid ACL ruleset (" +:+ strerror (- rc) +:+ ")")%string
    | inr r => inr r
    end
  end.

Definition admin_parse (args : list string) : Z * string + admin_request := parse_with apply_file args.
End files.
