(* ===== verification/AdminParseSpec.v ===== *)
(** The command line parser: every command line it accepts becomes a request
    that the daemon accepts too and decodes unchanged, and the commands that
    print a rule are read back as that rule. *)
From Stdlib Require Import Ascii.
From stdpp Require Import pretty.
From S2P Require Import Prelude.
From S2P Require Import Types.
From S2P Require Import Text.
From S2P Require Import Prefix.
From S2P Require Import Ipc.
From S2P Require Import Config.
From S2P Require Import AdminWire.
From S2P Require Import AdminState.
From S2P Require Import AdminWorker.
From S2P Require Import AdminFormat.
From S2P Require Import AdminControl.
From S2P Require Import AdminParse.

(** * What the words give *)

Lemma arg_number_range s n : arg_number s = Some n -> is_u32 n.
Proof. intros H. apply number_range in H. unfold UINT32_MAX in H. unfold is_u32. lia. Qed.

(** The cases in which a parser succeeds. *)
Ltac succeeds H :=
  repeat match type of H with
  | None = Some _ => discriminate H
  | Some _ = Some _ => injection H; clear H; intros; subst
  | mbind _ _ = Some _ => let x := fresh "x" in apply bind_Some in H as (x & ? & H)
  | (if ?b then _ else _) = Some _ => destruct b eqn:?
  | (match ?b with _ => _ end) = Some _ => destruct b eqn:?
  end.

Lemma ip_prefix_range s host ip prefix : ip_prefix s host = Some (ip, prefix) -> is_u32 ip /\ 0 <= prefix <= 32.
Proof.
  unfold ip_prefix. intros H. succeeds H; try done; (split; [first [by eapply inet_pton_u32 | unfold is_u32; lia]|]); try lia.
  match goal with E : (32 <? ?p) = false, E' : arg_number _ = Some ?p |- _ => apply Z.ltb_ge in E; apply arg_number_range in E'; unfold is_u32 in E' end. lia.
Qed.

Lemma arg_table_range s t : arg_table s = Some t -> is_u32 t.
Proof. unfold arg_table. intros H. succeeds H; try done; eauto using arg_number_range. Qed.
Lemma arg_action_range s a : arg_action s = Some a -> is_u32 a.
Proof. unfold arg_action. intros H. succeeds H; try done. Qed.
Lemma arg_drop_range s a : arg_drop s = Some a -> is_u32 a.
Proof. unfold arg_drop. intros H. succeeds H; try done. Qed.
Lemma arg_proto_range s n : arg_proto s = Some n -> is_u32 n.
Proof. unfold arg_proto. intros H. succeeds H; try done; eauto using arg_number_range. Qed.
Lemma arg_ports_range s lo hi : arg_ports s = Some (lo, hi) -> is_u32 lo /\ is_u32 hi /\ lo <= hi <= 65535.
Proof.
  unfold arg_ports. intros H. destruct (same s "any"); [by injection H as <- <-|]. destruct (Nat.leb _ _); [done|].
  destruct (match strchr "-" s with Some _ => _ | None => _ end) as [text dash]. succeeds H.
  match goal with E : _ || _ = false |- _ => apply orb_false_iff in E as [?%Z.ltb_ge ?%Z.ltb_ge] end.
  destruct dash; simplify_eq; eauto 6 using arg_number_range.
Qed.

Lemma text_bytes_range s : Forall is_u8 (text_bytes s).
Proof.
  unfold text_bytes. apply Forall_fmap, Forall_forall. intros c _. unfold compose, is_u8, code. assert (H := N_ascii_bounded c). lia.
Qed.
Lemma length_text_bytes s : length (text_bytes s) = String.length s.
Proof. unfold text_bytes. rewrite length_fmap. induction s as [|c s IH]; [done|]. cbn. by rewrite IH. Qed.

(** A device name as the request holds it. *)
Definition device_bytes (s : string) : list Z := text_bytes s ++ replicate (64 - String.length s) 0.
Lemma device_bytes_typed s : (String.length s < 64)%nat ->
  length (device_bytes s) = 64%nat /\ Forall is_u8 (device_bytes s) /\ terminated (device_bytes s) = true.
Proof.
  intros Hs. unfold device_bytes. split_and!.
  - rewrite length_app, length_text_bytes, length_replicate. lia.
  - apply Forall_app. split; [apply text_bytes_range|]. by apply Forall_replicate.
  - apply existsb_exists. exists 0. split; [|done]. apply list_elem_of_In, elem_of_app. right. apply elem_of_replicate. split; [done|lia].
Qed.
Lemma devname_spec s d : devname s = Some d ->
  d = device_bytes s /\ (String.length s < 64)%nat /\ empty s = false /\ all_chars device_letter s = true.
Proof.
  unfold devname. intros H. succeeds H. match goal with E : _ || _ = false |- _ => apply orb_false_iff in E as [? ?%Nat.leb_gt] end.
  split_and!; [done..|]. by apply negb_false_iff.
Qed.

Lemma lor_range a b n : 0 <= n -> 0 <= a < 2 ^ n -> 0 <= b < 2 ^ n -> 0 <= Z.lor a b < 2 ^ n.
Proof.
  intros Hn Ha Hb. assert (Hl : 0 <= Z.lor a b) by (apply Z.lor_nonneg; lia). split; [done|].
  destruct (Z.eq_dec (Z.lor a b) 0) as [->|]; [lia|]. apply Z.log2_lt_pow2; [lia|]. rewrite Z.log2_lor by lia.
  destruct (Z.eq_dec n 0) as [->|]; [|apply Z.max_lub_lt; (destruct (Z.eq_dec a 0), (Z.eq_dec b 0); subst; try (cbn; lia); try (apply Z.log2_lt_pow2; lia))].
  exfalso. assert (a = 0) as -> by lia. assert (b = 0) as -> by lia. done.
Qed.

Lemma scan_mac_bytes k s l : scan_mac k s = Some l -> length l = S k /\ Forall is_u32 l.
Proof.
  assert (Hhex : forall c v, hex_digit_value c = Some v -> 0 <= v <= 15).
  { intros c v. unfold hex_digit_value, isdigit. intros H. succeeds H; bool_hyps; lia. }
  assert (Hscan : forall s v rest, scan_hex2 s = Some (v, rest) -> is_u32 v).
  { intros t v rest. unfold scan_hex2. intros H. succeeds H; try case_match; try apply u32_range;
      repeat match goal with E : hex_digit_value _ = Some _ |- _ => apply Hhex in E end; unfold is_u32; lia. }
  revert s l. induction k as [|k IH]; intros s l H; cbn in H; succeeds H; simplify_eq; cbn.
  - split; [done|]. eauto.
  - match goal with E : scan_mac k _ = Some _ |- _ => apply IH in E as [El Ef] end. rewrite El. eauto.
Qed.

Lemma arg_mac_range s first rest : arg_mac s = Some (first, rest) -> 0 <= first < 65536 /\ is_u32 rest.
Proof.
  unfold arg_mac. intros H. succeeds H. match goal with E : scan_mac _ _ = Some _ |- _ => apply scan_mac_bytes in E as [Hl Hb] end.
  assert (Hn : forall i, 0 <= nth i x 0 < 256).
  { intros i. destruct (nth_in_or_default i x 0) as [Hin| ->]; [|lia].
    rewrite Forall_forall in Hb. specialize (Hb _ (proj2 (list_elem_of_In _ _) Hin)). unfold is_u32 in Hb.
    destruct (Z.ltb_spec 255 (nth i x 0)); [|lia].
    match goal with E : existsb _ _ = false |- _ => rewrite (proj2 (existsb_exists _ _)) in E; [done|] end. exists (nth i x 0). split; [done|]. by apply Z.ltb_lt. }
  rewrite !Z.shiftl_mul_pow2 by lia. split.
  - apply (lor_range _ _ 16); [lia|..]; assert (H0 := Hn 0%nat); assert (H1 := Hn 1%nat); lia.
  - unfold is_u32. assert (H2 := Hn 2%nat). assert (H3 := Hn 3%nat). assert (H4 := Hn 4%nat). assert (H5 := Hn 5%nat).
    repeat (apply (lor_range _ _ 32); [lia|lia|]). lia.
Qed.

(** * A request under construction *)

(** Typed, and without rules. *)
Definition plain_request (r : admin_request) : Prop := request_typed r /\ rq_acls r = [].

Lemma plain_fits r : plain_request r -> request_fits r.
Proof. intros [Ht Ha]. split; [done|]. destruct Ht as (_ & _ & _ & _ & _ & -> & _). by rewrite Ha. Qed.

Lemma plain_set_field i x r : is_u32 x -> plain_request r -> plain_request (set_field i x r).
Proof.
  intros Hx [(H1 & H2 & H3 & H4 & H5 & H6 & H7) Ha]. split; [|done]. split_and!; try done; cbn.
  - by rewrite length_insert.
  - by apply Forall_insert.
Qed.
Lemma plain_set_dev d r : length d = 64%nat -> Forall is_u8 d -> plain_request r -> plain_request (set_dev d r).
Proof. intros Hl Hd [(H1 & H2 & H3 & _ & _ & H6 & H7) Ha]. split; [|done]. by split_and!. Qed.
Lemma plain_add_flag f r : is_u32 f -> plain_request r -> plain_request (add_flag f r).
Proof.
  intros Hf [(H1 & H2) Ha]. split; [|done]. split; [|done]. cbn. apply Forall_cons in H1 as [Hg H1]. apply Forall_cons in H1 as [Hv H1]. apply Forall_cons in H1 as [Hfl H1].
  constructor; [done|]. constructor; [done|]. constructor; [|done]. by apply (lor_range _ _ 32).
Qed.

Lemma lor_u32 a b : is_u32 a -> is_u32 b -> is_u32 (Z.lor a b).
Proof. intros. by apply (lor_range _ _ 32). Qed.
Lemma plain_field r i : plain_request r -> is_u32 (field r i).
Proof. intros [Ht _]. by apply field_u32. Qed.

Ltac word_facts := repeat match goal with
  | E : ip_prefix _ _ = Some _ |- _ => apply ip_prefix_range in E as [? ?]
  | E : arg_number _ = Some _ |- _ => apply arg_number_range in E
  | E : arg_action _ = Some _ |- _ => apply arg_action_range in E
  | E : arg_drop _ = Some _ |- _ => apply arg_drop_range in E
  | E : arg_table _ = Some _ |- _ => apply arg_table_range in E
  | E : arg_proto _ = Some _ |- _ => apply arg_proto_range in E
  | E : arg_ports _ = Some _ |- _ => apply arg_ports_range in E as (? & ? & ?)
  | E : arg_mac _ = Some _ |- _ => apply arg_mac_range in E as [? ?]
  | E : devname _ = Some _ |- _ => apply devname_spec in E as (-> & (? & ? & ?)%device_bytes_typed & ? & ?)
  end.
Ltac plain := repeat match goal with
  | |- plain_request (set_field _ _ _) => apply plain_set_field
  | |- plain_request (set_dev _ _) => apply plain_set_dev
  | |- plain_request (add_flag _ _) => apply plain_add_flag
  | |- plain_request _ => assumption
  | |- is_u32 (if _ then _ else _) => case_match
  | |- is_u32 (Z.lor _ _) => apply lor_u32
  | |- is_u32 (field _ _) => apply plain_field
  | |- is_u32 ?c => first [assumption | is_const c; compute_closed | unfold is_u32 in *; lia]
  | |- _ => assumption
  end.

Section plain.
Context (r0 : admin_request).

Lemma positional_plain args p args' p' : plain_request (pa_r p) -> positional r0 args p = Some (args', p') -> plain_request (pa_r p').
Proof.
  intros Hp. unfold positional. intros H. succeeds H; simplify_eq; word_facts; cbn; plain.
  match goal with E : match args with [] => _ | _ :: _ => _ end = _ |- _ => rename E into Ha end.
  destruct args as [|s' rest]; [done|]. destruct (arg_action s') as [a|] eqn:Ea; simplify_eq; word_facts; cbn; plain.
Qed.

Lemma bare_plain key p p' : plain_request (pa_r p) -> bare r0 key p = Some (Some p') -> plain_request (pa_r p').
Proof. intros Hp. unfold bare. intros H. succeeds H; simplify_eq; word_facts; cbn; plain. Qed.

Lemma keyed_plain key value p bit p' : plain_request (pa_r p) -> keyed r0 key value p = Some (bit, p') -> plain_request (pa_r p').
Proof.
  intros Hp. unfold keyed. intros H. succeeds H; simplify_eq; word_facts;
    cbn [on_r pa_r set_pa_r set_pa_pref set_pa_lookup set_pa_action set_pa_mac set_pa_nud]; plain.
  - match goal with E : (if same key "sport" then _ else _) = _ |- _ => destruct (same key "sport"); simplify_eq; plain end.
  - match goal with E : _ = Some ?x |- is_u32 ?x => succeeds E; word_facts; simplify_eq; plain end.
Qed.

Lemma options_plain args p p' : plain_request (pa_r p) -> options r0 args p = Some p' -> plain_request (pa_r p').
Proof.
  revert p. induction args as [args IH] using (induction_ltof1 _ (@length string)). unfold ltof in IH.
  destruct args as [|key rest]; intros p Hp; cbn; [by intros [= <-]|].
  destruct (bare r0 key p) as [outcome|] eqn:Eb.
  - destruct outcome as [p1|]; [|done]. intros H. refine (IH rest _ p1 _ H); [cbn; lia|]. by eapply bare_plain.
  - destruct rest as [|value rest]; [done|]. destruct (keyed r0 key value p) as [[bit p1]|] eqn:Ek; [|done]. cbn. destruct (Z.testbit _ _); [done|]. intros H.
    refine (IH rest _ _ _ H); [cbn; lia|]. exact (keyed_plain _ _ _ _ _ Hp Ek).
Qed.
End plain.

(** * The beginning of a command *)

Lemma arg_group_range s : 0 <= arg_group s <= ADM_MONITOR.
Proof. unfold arg_group, index_of. destruct (find_index _ _) as [i|] eqn:E; [apply find_index_lt in E; cbn in E|]; repeat case_match; unfold ADM_MONITOR, ADM_ADDR, ADM_ROUTE, ADM_LINK, ADM_NEIGH; lia. Qed.
Lemma arg_verb_range s : 0 <= arg_verb s <= ADM_DEFAULT.
Proof. unfold arg_verb, index_of. destruct (find_index _ _) as [i|] eqn:E; [apply find_index_lt in E; cbn in E|]; repeat case_match; unfold ADM_DEFAULT, ADM_SHOW, ADM_DEL; lia. Qed.

(** A command with only a group and a verb. *)
Definition request_of (group verb flags : Z) : admin_request := mk_admin_request group verb flags 0 (replicate 16 0) (replicate 64 0) [].

(** The request before the options: only a route command has a field. *)
Record head_ok (r : admin_request) : Prop := {
  hd_group : 1 <= rq_group r <= ADM_MONITOR;
  hd_verb : 1 <= rq_verb r <= ADM_DEFAULT;
  hd_flags : rq_flags r = 0 \/ rq_flags r = ADMIN_STATS /\ rq_group r = ADM_ACL;
  hd_plain : plain_request r;
  hd_fields : rq_group r <> ADM_ROUTE -> r = request_of (rq_group r) (rq_verb r) (rq_flags r)
}.

Lemma request_of_plain g v f : is_u32 g -> is_u32 v -> is_u32 f -> plain_request (request_of g v f).
Proof. intros. split; [|done]. split_and!; try done; cbn; [by repeat (apply Forall_cons; split)|..]; first [by apply (Forall_replicate is_u32 16) | by apply (Forall_replicate is_u8 64)]. Qed.

Lemma parse_head_ok args r rest : parse_head args = Some (r, rest) -> head_ok r.
Proof.
  unfold parse_head. destruct args as [|first args]; [done|]. destruct (negb _) eqn:Eg; [done|].
  apply negb_false_iff, truth_true in Eg. assert (Hg := arg_group_range first). set (g := arg_group first) in *. clearbody g.
  destruct (match args with [] => _ | _ :: _ => _ end) as [verb args'] eqn:Ev.
  assert (Hv : 1 <= verb <= ADM_DEFAULT).
  { destruct args as [|s rest']; [injection Ev as <- <-; by vm_compute|]. destruct (truth (arg_verb s)) eqn:Es; injection Ev as <- <-; [|by vm_compute].
    apply truth_true in Es. assert (H := arg_verb_range s). lia. }
  clear Ev. change (mk_admin_request g verb 0 0 (replicate 16 0) (replicate 64 0) []) with (request_of g verb 0). cbn [rq_group rq_verb request_of].
  set (r1 := if (g =? ADM_ROUTE) && negb (verb =? ADM_GET) then set_field F_TABLE NET_TABLE_MAIN (request_of g verb 0) else request_of g verb 0).
  assert (Hr1 : head_ok r1 /\ rq_group r1 = g /\ rq_flags r1 = 0).
  { assert (Hp : plain_request (request_of g verb 0)) by (apply request_of_plain; unfold is_u32, ADM_MONITOR, ADM_DEFAULT in *; lia).
    unfold r1. destruct ((g =? ADM_ROUTE) && _) eqn:Er; (split; [|done]); split; cbn [set_field request_of rq_group rq_verb rq_flags]; try lia; auto.
    apply plain_set_field; [by vm_compute|done]. }
  clearbody r1. destruct Hr1 as (Hr1 & Hg1 & Hf1). intros H. assert (Hout : r = r1 \/ rq_group r1 = ADM_ACL /\ r = add_flag ADMIN_STATS r1).
  { destruct args' as [|s rest']; [injection H as <- _; by left|]. destruct (_ && same s _) eqn:E; injection H as <- _; [right|by left]. bool_hyps. done. }
  destruct Hout as [-> | [Ha ->]]; [done|]. destruct Hr1 as [H1 H2 _ H4 H5]. split; cbn [add_flag rq_group rq_verb rq_flags]; try done.
  - right. by rewrite Hf1.
  - apply plain_add_flag; [by vm_compute|done].
  - intros Hn. rewrite (H5 Hn) at 1. by rewrite Hf1.
Qed.

(** * Commands that need no more than their group *)

Lemma flags_zero r : head_ok r -> rq_group r <> ADM_ACL -> rq_flags r = 0.
Proof. intros Hr Hn. destruct (hd_flags _ Hr) as [H|[_ H]]; done. Qed.

Lemma parse_monitor_ok r args r' : head_ok r -> rq_group r = ADM_MONITOR -> parse_monitor r args = Some r' -> request_ok r'.
Proof.
  intros Hr Hg. rewrite (hd_fields _ Hr), Hg, flags_zero by (done || by rewrite Hg). unfold parse_monitor. cbn [request_of rq_verb].
  destruct (Z.eqb_spec (rq_verb r) ADM_SHOW) as [->|]; [|done]. destruct args as [|s [|]]; [intros [= <-]; compute_closed| |done].
  assert (Hs := arg_group_range s). destruct (_ || _) eqn:E; [done|]. apply orb_false_iff in E as [E1%Z.ltb_ge E2%Z.ltb_ge]. intros [= <-].
  unfold ADM_LINK, ADM_ACL in *. set (g := arg_group s) in *. clearbody g.
  assert (g = 3 \/ g = 4 \/ g = 5 \/ g = 6 \/ g = 7 \/ g = 8) as [-> | [-> | [-> | [-> | [-> | ->]]]]] by lia; compute_closed.
Qed.

(** * Commands with options *)

Lemma positional_default r args args' p p' : rq_group r = ADM_ACL -> rq_verb r = ADM_DEFAULT -> positional r args p = Some (args', p') ->
  args' = [] /\ (pa_action p' = false -> p' = p).
Proof.
  intros Hg Hv. unfold positional, with_verb. rewrite Hg, Hv. cbn. destruct args as [|s [|]]; [by intros [= <- <-]| |done].
  destruct (arg_drop s); [|done]. cbn. by intros [= <- <-].
Qed.

Lemma default_shown_ok f : f = 0 \/ f = ADMIN_STATS -> request_ok (request_of ADM_ACL ADM_SHOW f).
Proof. intros [-> | ->]; compute_closed. Qed.

(** The request is encoded and decoded once before it is returned; only the
    display of the default needs no check. *)
Lemma options_ok r args args' p p' r' : head_ok r -> positional r args (set_pa_r r zero_parsing) = Some (args', p) ->
  options r args' p = Some p' -> finish r p' = Some r' -> request_ok r' /\ plain_request r'.
Proof.
  intros Hr Hp Ho. assert (Hp' : plain_request (pa_r p')) by (eapply options_plain, Ho; eapply positional_plain, Hp; apply Hr).
  unfold finish. destruct (incomplete r p'); [done|]. destruct (_ && _ && _) eqn:Ed.
  - intros [= <-]. apply andb_true_iff in Ed as [[Hg%Z.eqb_eq Hv%Z.eqb_eq]%andb_true_iff Ha%negb_true_iff].
    destruct (positional_default _ _ _ _ _ Hg Hv Hp) as [-> Hd]. injection Ho as <-. rewrite (Hd Ha). cbn [set_pa_r pa_r].
    assert (Hf : rq_flags r = 0 \/ rq_flags r = ADMIN_STATS) by (destruct (hd_flags _ Hr) as [|[]]; auto).
    rewrite (hd_fields _ Hr) by (by rewrite Hg). rewrite Hg. cbn [set_verb request_of rq_group rq_flags rq_count rq_v rq_dev rq_acls].
    split; [by apply default_shown_ok|]. apply request_of_plain; [by vm_compute..|]. by destruct Hf as [-> | ->].
  - clear Ed. destruct (inconsistent r p'); [done|]. destruct (_ && _ && _); [done|]. destruct (truth (Z.land (pa_seen p') (not32 (allowed r)))); [done|].
    destruct (admin_request_decode _) as [|r''] eqn:E; [done|]. intros [= <-]. split; [|done].
    by apply (request_decoded_ok _ _ (plain_fits _ Hp')) in E.
Qed.

(** * Rule files *)

(** A rule of a request, as the daemon accepts it. *)
Definition rule_ok (a : admin_acl) : Prop := record_typed a /\ terminated (aa_dev a) = true /\ ac_iif (aa_rule a) = NET_IIF_NONE.

(** The ruleset read so far. *)
Record ruleset_ok (r : admin_request) : Prop := {
  rs_shape : exists flags drop, (flags = 0 \/ flags = ADMIN_STATS) /\ (drop = 0 \/ drop = 1) /\
    r = mk_admin_request ADM_ACL ADM_APPLY flags (Z.of_nat (length (rq_acls r))) (<[F_ACTION := drop]> (replicate 16 0)) (replicate 64 0) (rq_acls r);
  rs_room : Z.of_nat (length (rq_acls r)) <= NET_ACL_MAX;
  rs_rules : Forall rule_ok (rq_acls r);
  rs_prefs : NoDup (ac_pref ∘ aa_rule <$> rq_acls r)
}.

(** The fields of a ruleset do not depend on its rules. *)
Lemma ruleset_check flags drop acls : (flags = 0 \/ flags = ADMIN_STATS) -> (drop = 0 \/ drop = 1) -> Forall rule_ok acls ->
  request_check (mk_admin_request ADM_ACL ADM_APPLY flags (Z.of_nat (length acls)) (<[F_ACTION := drop]> (replicate 16 0)) (replicate 64 0) acls) = 0.
Proof.
  intros Hf Hd Ha. unfold request_check. cbn [rq_dev rq_acls].
  assert (H1 : forallb (fun a => terminated (aa_dev a)) acls = true).
  { apply forallb_forall. intros a Hin. rewrite Forall_forall in Ha. by apply Ha, list_elem_of_In. }
  assert (H2 : existsb (fun a => negb (ac_iif (aa_rule a) =? NET_IIF_NONE)) acls = false).
  { apply not_true_is_false. intros (a & Hin & Hn)%existsb_exists. apply negb_true_iff, Z.eqb_neq in Hn. apply Hn. rewrite Forall_forall in Ha. by apply Ha, list_elem_of_In. }
  rewrite H1, H2. unfold verb_valid, field_mask, verb_in, field. cbn [rq_group rq_verb rq_v]. by destruct Hf as [-> | ->], Hd as [-> | ->].
Qed.

Lemma ruleset_request_ok r : ruleset_ok r -> request_ok r.
Proof.
  intros [(flags & drop & Hf & Hd & ->) Hc Ha _]. cbn [rq_acls] in *. unfold request_ok, request_typed.
  split_and!; cbn [rq_group rq_verb rq_flags rq_count rq_v rq_dev rq_acls]; try done.
  - assert (Hn := Nat2Z.is_nonneg (length (rq_acls r))). unfold NET_ACL_MAX in Hc.
    repeat (apply Forall_cons; split); try done; unfold is_u32, ADMIN_STATS in *; lia.
  - apply Forall_insert; [|by destruct Hd as [-> | ->]]. by apply (Forall_replicate is_u32 16).
  - by apply (Forall_replicate is_u8 64).
  - eapply Forall_impl; [done|]. by intros a [].
  - unfold request_shape. rewrite Z.eqb_refl. destruct (Z.ltb_spec NET_ACL_MAX (Z.of_nat (length (rq_acls r)))); [lia|]. destruct Hf as [-> | ->]; cbn; by rewrite andb_false_r.
  - by apply ruleset_check.
Qed.

(** A line of a rule file, read as a command. *)
Lemma parse_entry_eq tokens : parse_entry tokens =
  (let r := request_of ADM_ACL ADM_ADD 0 in
   or_invalid (p ← options r ("pref"%string :: tokens) (set_pa_r r zero_parsing); finish r p)).
Proof. reflexivity. Qed.

Lemma parse_entry_ok tokens r : parse_entry tokens = inr r -> request_ok r /\ plain_request r.
Proof.
  rewrite parse_entry_eq. set (r0 := request_of ADM_ACL ADM_ADD 0).
  assert (Hr : head_ok r0). { apply (parse_head_ok ["acl"; "add"]%string _ []). reflexivity. }
  cbv zeta. unfold or_invalid. destruct (mbind _ _) as [r'|] eqn:E; [|done]. intros [= <-]. apply bind_Some in E as (p & Ho & Hf).
  by eapply (options_ok r0 ("pref"%string :: tokens)).
Qed.

Lemma entry_rule_ok r : request_ok r -> plain_request r -> rule_ok (entry_acl r).
Proof.
  intros (Ht & _ & Hk) Hp. unfold rule_ok, record_typed. split_and!.
  - assert (Hf := fun i => plain_field r i Hp). repeat (apply Forall_cons; split); try done; apply Hf.
  - apply Ht.
  - apply Ht.
  - change (terminated (rq_dev r) = true). unfold request_check in Hk. by destruct (terminated (rq_dev r)).
  - done.
Qed.

Lemma apply_line_ok line too_long have r have' r' : ruleset_ok r -> apply_line line too_long have r = inr (have', r') -> ruleset_ok r'.
Proof.
  intros Hr. unfold apply_line. destruct too_long; [done|]. cbv zeta. set (words := tokens _ _). clearbody words. destruct (Nat.ltb _ _); [done|].
  destruct words as [|first rest]; [by intros [= <- <-]|]. destruct (same first "default").
  - destruct have; [done|]. destruct rest as [|s [|]]; [done| |done]. destruct (arg_drop s) as [a|] eqn:Ea; [|done]. intros [= <- <-].
    assert (Ha : a = 0 \/ a = 1) by (unfold arg_drop in Ea; repeat case_match; simplify_eq; auto).
    destruct Hr as [(flags & drop & Hf & Hd & ->) Hc Hru Hpr]. cbn [set_field rq_acls] in *. split; cbn [rq_acls]; try done.
    exists flags, a. split_and!; [done..|]. unfold set_field. cbn [rq_group rq_verb rq_flags rq_count rq_v rq_dev rq_acls]. by rewrite list_insert_insert_eq.
  - destruct (Z.eqb_spec (rq_count r) NET_ACL_MAX) as [|Hroom]; [done|]. destruct (parse_entry _) as [[]|entry] eqn:Ee; [done|].
    apply parse_entry_ok in Ee as [He Hp]. destruct (existsb _ _) eqn:Ex; [done|]. intros [= <- <-].
    assert (Hcount : rq_count r = Z.of_nat (length (rq_acls r))) by (destruct (rs_shape _ Hr) as (? & ? & _ & _ & E); by rewrite E).
    rewrite Hcount in Hroom. destruct Hr as [(flags & drop & Hf & Hd & ->) Hc Hru Hpr]. cbn [rq_acls rq_count] in *. split; unfold add_acl; cbn [rq_group rq_verb rq_flags rq_count rq_v rq_dev rq_acls].
    + exists flags, drop. split_and!; [done..|]. rewrite length_app. do 2 f_equal. cbn. lia.
    + rewrite length_app. cbn. lia.
    + apply Forall_app. split; [done|]. constructor; [by apply entry_rule_ok|done].
    + rewrite fmap_app. apply NoDup_app. split_and!; [done| |apply NoDup_singleton]. intros x (b & -> & Hb)%list_elem_of_fmap Hx%list_elem_of_singleton.
      revert Ex. apply not_false_iff_true. apply existsb_exists. exists b. split; [by apply list_elem_of_In|]. by apply Z.eqb_eq.
Qed.

Lemma apply_lines_ok lines n have r n' r' : ruleset_ok r -> apply_lines lines n have r = (n', inr r') -> ruleset_ok r'.
Proof.
  revert n have r. induction lines as [|[line too_long] lines IH]; intros n have r Hr; cbn; [by intros [= <- <-]|].
  destruct (apply_line _ _ _ _) as [|[have' r1]] eqn:E; [done|]. apply IH. by eapply apply_line_ok.
Qed.

Lemma apply_file_ok open strerror path r r' : ruleset_ok r -> apply_file open strerror path r = inr r' -> ruleset_ok r'.
Proof.
  intros Hr. unfold apply_file. destruct (open path) as [|f]; [done|]. destruct (apply_lines _ _ _ _) as [n outcome] eqn:E.
  destruct outcome as [|r1]; [done|]. destruct (fl_error f); [done|]. intros [= <-]. by eapply apply_lines_ok.
Qed.

(** What the command line is turned into. *)
Lemma admin_parse_ok open strerror args r : admin_parse open strerror args = inr r ->
  request_ok r /\ Z.of_nat (length (rq_acls r)) <= NET_ACL_MAX /\ NoDup (ac_pref ∘ aa_rule <$> rq_acls r).
Proof.
  unfold admin_parse, parse_with. destruct (parse_head args) as [[r0 rest]|] eqn:Eh; [|done]. apply parse_head_ok in Eh.
  destruct (Z.eqb_spec (rq_group r0) ADM_MONITOR) as [Hg|_].
  { destruct (parse_monitor r0 rest) as [r1|] eqn:E; [|done]. intros [= <-]. split; [by eapply parse_monitor_ok|].
    assert (Ha : rq_acls r1 = []); [|by rewrite Ha; split; [|constructor]].
    rewrite (hd_fields _ Eh) in E by (by rewrite Hg). unfold parse_monitor in E. by repeat (case_match || simplify_eq). }
  destruct (_ && _) eqn:Ea.
  - apply andb_true_iff in Ea as [Hg%Z.eqb_eq Hv%Z.eqb_eq]. destruct rest as [|path [|]]; [done| |done]. intros H.
    assert (Hs : ruleset_ok r); [|split; [by apply ruleset_request_ok|split; apply Hs]]. eapply apply_file_ok, H.
    assert (Hf := hd_flags _ Eh). rewrite (hd_fields _ Eh), Hg, Hv by (by rewrite Hg). split; cbn; try done; [|constructor].
    exists (rq_flags r0), 0. split_and!; [tauto|by left|done].
  - intros H. unfold or_invalid in H. destruct (mbind _ _) as [r1|] eqn:E; [|done]. injection H as <-.
    apply bind_Some in E as ([args' p] & Hp & (p' & Ho & Hf)%bind_Some). destruct (options_ok _ _ _ _ _ _ Eh Hp Ho Hf) as [Hok [_ ->]].
    split; [done|]. by split; [|constructor].
Qed.

(** C23: Whatever the arguments, and whatever the files hold: a request the
    command line is turned into is one the daemon takes, and the daemon decodes
    it unchanged.  The rules of a file that was applied are no more than the
    access list holds, with distinct preferences. *)
Theorem admin_parse_accepted open strerror args r : admin_parse open strerror args = inr r ->
  request_ok r /\ admin_request_decode (admin_request_encode r) = inr r /\
  Z.of_nat (length (rq_acls r)) <= NET_ACL_MAX /\ NoDup (ac_pref ∘ aa_rule <$> rq_acls r).
Proof.
  intros H. destruct (admin_parse_ok _ _ _ _ H) as (? & ? & ?). auto using request_decode_encode.
Qed.

(** * A command line *)

Definition no_files : string -> Z + file := fun _ => inl ENOENT.
Definition no_messages : Z -> string := fun _ => EmptyString.
Definition sample_command : list string := ["rule"; "add"; "pref"; "100"; "from"; "10.1.0.0/16"; "lookup"; "7"]%string.

Lemma admin_parse_accepted_witness : exists r, admin_parse no_files no_messages sample_command = inr r /\
  field r F_PREF = 100 /\ field r F_SRC = htonl 167837696 /\ field r F_TABLE = 7 /\ request_ok r.
Proof.
  eexists. split; [vm_compute; reflexivity|]. split; [reflexivity|]. split; [reflexivity|]. split; [reflexivity|].
  apply (admin_parse_accepted no_files no_messages sample_command). vm_compute. reflexivity.
Defined.
