(* ===== verification/AdminRuleset.v ===== *)
(** Access lists as rule files: what [acl apply] reads from the file that spells
    out a list of rules is that list. *)
From Stdlib Require Import Ascii.
From stdpp Require Import pretty.
From S2P Require Import Prelude.
From S2P Require Import Types.
From S2P Require Import Text.
From S2P Require Import Prefix.
From S2P Require Import NetConfig.
From S2P Require Import AdminWire.
From S2P Require Import AdminState.
From S2P Require Import AdminFormat.
From S2P Require Import AdminFormatSpec.
From S2P Require Import AdminControl.
From S2P Require Import AdminParse.
From S2P Require Import AdminParseSpec.

(** * The text of a rule *)

Definition cidr_text (ip prefix : Z) : string := (inet_ntop ip +:+ String "/" (pretty prefix))%string.
Definition range_text (lo hi : Z) : string := (pretty lo +:+ String "-" (pretty hi))%string.

(** The words of a line that differ from rule to rule, and the line. *)
Record line_words : Type := mk_line_words { lw_pref : string; lw_src : string; lw_dst : string; lw_iif : string; lw_proto : string; lw_sport : string; lw_dport : string; lw_action : string }.
Definition words_of_line (ports : Z) (w : line_words) : list string :=
  [lw_pref w; "src"; lw_src w; "dst"; lw_dst w; "iif"; lw_iif w; "proto"; lw_proto w]%string ++
  (if Z.testbit ports 0 then ["sport"; lw_sport w]%string else []) ++ (if Z.testbit ports 1 then ["dport"; lw_dport w]%string else []) ++
  ["action"; lw_action w]%string.

(** [dev] is the input device, empty for any. *)
Definition rule_line (a : net_acl) (dev : string) : line_words :=
  mk_line_words (pretty (ac_pref a)) (cidr_text (ac_src a) (ac_src_prefix a)) (cidr_text (ac_dst a) (ac_dst_prefix a))
    (if empty dev then "any" else dev)%string (pretty (ac_proto a)) (range_text (ac_sport_min a) (ac_sport_max a))
    (range_text (ac_dport_min a) (ac_dport_max a)) (if truth (ac_drop a) then "drop" else "accept")%string.
Definition rule_words (a : net_acl) (dev : string) : list string := words_of_line (ac_ports a) (rule_line a dev).

(** A rule as an access list holds it, with the device by name; ports that do
    not count are zero. *)
Record rule_printable (a : net_acl) (dev : string) : Prop := {
  rv_typed : Forall is_u32 (acl_words a);
  rv_valid : acl_valid 0 a;
  rv_iif : ac_iif a = NET_IIF_NONE;
  rv_sport : Z.testbit (ac_ports a) 0 = false -> ac_sport_min a = 0 /\ ac_sport_max a = 0;
  rv_dport : Z.testbit (ac_ports a) 1 = false -> ac_dport_min a = 0 /\ ac_dport_max a = 0;
  rv_dev : dev = EmptyString \/ (devname dev = Some (device_bytes dev) /\ dev <> "any"%string)
}.

(** * Words read back *)

Lemma same_other p s w : all_chars p s = true -> all_chars p w = false -> same s w = false.
Proof. intros Hs Hw. apply String.eqb_neq. intros ->. by rewrite Hs in Hw. Qed.

Lemma digits_only x : 0 <= x -> all_chars isdigit (pretty x) = true.
Proof. apply pretty_chars, isdigit_digit. Qed.

Lemma arg_number_pretty x : is_u32 x -> arg_number (pretty x) = Some x.
Proof. intros H. apply number_pretty. unfold is_u32, UINT32_MAX in *. lia. Qed.

Lemma arg_proto_pretty x : 0 <= x <= 255 -> arg_proto (pretty x) = Some x.
Proof.
  intros H. assert (Hd := digits_only x ltac:(lia)). unfold arg_proto. rewrite !(same_other isdigit) by done.
  rewrite arg_number_pretty by (unfold is_u32; lia). cbn. destruct (Z.ltb_spec 255 x); [lia|done].
Qed.

(** A digit is none of the characters that separate. *)
Lemma digit_other c d : 0 <= d <= 9 -> isdigit c = false -> Ascii.eqb (digit d) c = false.
Proof. intros Hd Hc. apply Ascii.eqb_neq. intros <-. by rewrite isdigit_digit in Hc. Qed.

Lemma ip_prefix_cidr ip prefix : is_u32 ip -> 0 <= prefix <= 32 -> ip_prefix (cidr_text ip prefix) false = Some (ip, prefix).
Proof.
  intros Hi Hp. unfold ip_prefix, cidr_text, one_of, existsb.
  set (p := fun c => isdigit c || Ascii.eqb c "." || Ascii.eqb c "/").
  assert (Hc : all_chars p (inet_ntop ip +:+ String "/" (pretty prefix)) = true).
  { assert (Hd : forall d, 0 <= d <= 9 -> p (digit d) = true) by (intros d Hd; unfold p; by rewrite isdigit_digit).
    rewrite all_chars_app, inet_ntop_chars by done. cbn [all_chars andb]. rewrite pretty_chars by (done || lia). done. }
  rewrite !(same_other p) by done. cbn [orb].
  destruct (Nat.leb_spec 64 (String.length (inet_ntop ip +:+ String "/" (pretty prefix)))) as [Hl|_].
  { assert (H1 := inet_ntop_length ip). assert (H2 := pretty_length 2 prefix ltac:(lia) ltac:(lia)). unfold text_length in *.
    rewrite string_app_length in Hl. cbn [String.length] in Hl. lia. }
  rewrite strchr_app by (apply inet_ntop_chars; [intros d Hd; by rewrite digit_other|done]).
  rewrite arg_number_pretty by (unfold is_u32; lia). cbn [mbind option_bind]. destruct (Z.ltb_spec 32 prefix); [lia|]. by rewrite inet_pton_ntop.
Qed.

Lemma arg_ports_range_text lo hi : is_u32 lo -> lo <= hi <= 65535 -> arg_ports (range_text lo hi) = Some (lo, hi).
Proof.
  intros Hlo Hhi. unfold is_u32 in Hlo. unfold arg_ports, range_text. set (p := fun c => isdigit c || Ascii.eqb c "-").
  assert (Hd : forall d, 0 <= d <= 9 -> p (digit d) = true) by (intros d Hd; unfold p; by rewrite isdigit_digit).
  assert (Hc : all_chars p (pretty lo +:+ String "-" (pretty hi)) = true)
    by (rewrite all_chars_app, pretty_chars by (done || lia); cbn [all_chars andb]; rewrite pretty_chars by (done || lia); done).
  rewrite (same_other p) by done.
  destruct (Nat.leb_spec 32 (String.length (pretty lo +:+ String "-" (pretty hi)))) as [Hl|_].
  { assert (H1 := pretty_length 5 lo ltac:(lia) ltac:(lia)). assert (H2 := pretty_length 5 hi ltac:(lia) ltac:(lia)). unfold text_length in *.
    rewrite string_app_length in Hl. cbn [String.length] in Hl. lia. }
  rewrite strchr_app by (apply pretty_chars; [intros d Hd'; by rewrite digit_other|lia]).
  rewrite !arg_number_pretty by (unfold is_u32; lia). cbn [mbind option_bind]. destruct (Z.ltb_spec hi lo), (Z.ltb_spec 65535 hi); (lia || done).
Qed.

(** * A line read back *)

Lemma options_step r0 key value rest p bit p1 : bare r0 key p = None -> keyed r0 key value p = Some (bit, p1) ->
  Z.testbit (pa_seen p1) (Z.of_nat bit) = false ->
  options r0 (key :: value :: rest) p = options r0 rest (set_pa_seen (Z.lor (pa_seen p1) (Z.shiftl 1 (Z.of_nat bit))) p1).
Proof. intros Hb Hk Hs. cbn [options]. rewrite Hb, Hk. cbn [mbind option_bind]. by rewrite Hs. Qed.

(** The command that adds the rule. *)
Definition entry_request (a : net_acl) (dev : list Z) : admin_request :=
  mk_admin_request ADM_ACL ADM_ADD 0 0
    [ac_pref a; ac_src a; ac_src_prefix a; ac_dst a; ac_dst_prefix a; ac_proto a; ac_sport_min a; ac_sport_max a; ac_dport_min a; ac_dport_max a;
     ac_ports a; ac_drop a; 0; 0; 0; 0] dev [].

Lemma entry_acl_request a dev : ac_iif a = NET_IIF_NONE -> entry_acl (entry_request a dev) = mk_admin_acl a dev.
Proof. intros H. unfold entry_acl. destruct a. cbn in *. by rewrite H. Qed.

(** The bits of the options in [seen]. *)
Definition rule_seen (a : net_acl) : Z := 159 + 32 * ac_ports a.

(** Each word is read as its field. *)
Record words_read (a : net_acl) (dev : list Z) (w : line_words) : Prop := {
  wr_pref : arg_number (lw_pref w) = Some (ac_pref a);
  wr_src : ip_prefix (lw_src w) false = Some (ac_src a, ac_src_prefix a);
  wr_dst : ip_prefix (lw_dst w) false = Some (ac_dst a, ac_dst_prefix a);
  wr_iif : if same (lw_iif w) "any" then dev = replicate 64 0 else devname (lw_iif w) = Some dev;
  wr_proto : arg_proto (lw_proto w) = Some (ac_proto a);
  wr_sport : arg_ports (lw_sport w) = Some (ac_sport_min a, ac_sport_max a);
  wr_dport : arg_ports (lw_dport w) = Some (ac_dport_min a, ac_dport_max a);
  wr_action : arg_drop (lw_action w) = Some (ac_drop a);
  wr_ports : ac_ports a = 0 \/ ac_ports a = 1 \/ ac_ports a = 2 \/ ac_ports a = 3;
  wr_no_sport : Z.testbit (ac_ports a) 0 = false -> ac_sport_min a = 0 /\ ac_sport_max a = 0;
  wr_no_dport : Z.testbit (ac_ports a) 1 = false -> ac_dport_min a = 0 /\ ac_dport_max a = 0
}.

Lemma keyed_iif p s dev : (if same s "any" then dev = replicate 64 0 else devname s = Some dev) -> rq_dev (pa_r p) = replicate 64 0 ->
  keyed (request_of ADM_ACL ADM_ADD 0) "iif" s p = Some (0%nat, on_r (set_dev dev) p).
Proof.
  intros Hs Hp. change (keyed (request_of ADM_ACL ADM_ADD 0) "iif" s p)
    with (if same s "any" then Some (0%nat, p) else d ← devname s; Some (0%nat, on_r (set_dev d) p)).
  destruct (same s "any"); [|by rewrite Hs]. subst dev. destruct p as [[g v f c vs d l] ? ? ? ? ? ? ?]. cbn in Hp. by subst d.
Qed.

(** One option, with the state written out again. *)
Ltac read_option tac :=
  erewrite options_step; [|reflexivity|tac|reflexivity];
  match goal with |- options _ _ ?p = _ => let q := eval vm_compute in p in change p with q end.

Lemma options_words a dev w : words_read a dev w ->
  let r0 := request_of ADM_ACL ADM_ADD 0 in
  options r0 ("pref"%string :: words_of_line (ac_ports a) w) (set_pa_r r0 zero_parsing) =
  Some (mk_parsing (entry_request a dev) (rule_seen a) false true true false false false).
Proof.
  intros [H1 H2 H3 Hiif H4 H5 H6 Hdrop Hports Hsp Hdp] r0.
  destruct a as [pref src srcp dst dstp iif proto smin smax dmin dmax ports dr], w as [w1 w2 w3 wi w4 w5 w6 wd].
  cbn [ac_pref ac_src ac_src_prefix ac_dst ac_dst_prefix ac_iif ac_proto ac_ports ac_drop ac_sport_min ac_sport_max ac_dport_min ac_dport_max
    lw_pref lw_src lw_dst lw_iif lw_proto lw_sport lw_dport lw_action] in *. unfold words_of_line.
  cbn [app lw_pref lw_src lw_dst lw_iif lw_proto lw_sport lw_dport lw_action].
  read_option ltac:(cbn; rewrite H1; reflexivity). read_option ltac:(cbn; rewrite H2; reflexivity). read_option ltac:(cbn; rewrite H3; reflexivity).
  read_option ltac:(by apply keyed_iif). read_option ltac:(cbn; rewrite H4; reflexivity). clear H1 H2 H3 H4 Hiif.
  destruct Hports as [-> | [-> | [-> | ->]]];
    repeat match goal with |- context [Z.testbit ?x ?y] => let b := eval vm_compute in (Z.testbit x y) in change (Z.testbit x y) with b in * end;
    cbn [app];
    try read_option ltac:(cbn; rewrite H5; reflexivity); try read_option ltac:(cbn; rewrite H6; reflexivity);
    read_option ltac:(cbn; rewrite Hdrop; reflexivity);
    repeat match goal with H : false = false -> _ |- _ => destruct (H eq_refl) as [-> ->]; clear H end; reflexivity.
Qed.

Ltac words_typed H := unfold acl_words in H; repeat match type of H with Forall _ (_ :: _) => apply Forall_cons in H as [? H] end.

Lemma rule_words_read a dev : rule_printable a dev -> words_read a (device_bytes dev) (rule_line a dev).
Proof.
  intros [Ht (Hs & Hd & _ & Hp & Hdrop & Hports & _ & Hsp & Hdp) _ Hns Hnd Hdev]. words_typed Ht. destruct Hs as [Hs _], Hd as [Hd _]. unfold is_u32 in *.
  split; cbn [rule_line lw_pref lw_src lw_dst lw_iif lw_proto lw_sport lw_dport lw_action]; try done; try lia.
  - apply arg_number_pretty. done.
  - apply ip_prefix_cidr; unfold is_u32; lia.
  - apply ip_prefix_cidr; unfold is_u32; lia.
  - destruct Hdev as [-> | [Hdev Hn]]; [done|]. destruct (devname_spec _ _ Hdev) as (_ & _ & -> & _).
    unfold same. by rewrite (proj2 (String.eqb_neq _ _) Hn).
  - apply arg_proto_pretty. lia.
  - apply arg_ports_range_text; unfold is_u32; lia.
  - apply arg_ports_range_text; unfold is_u32; lia.
  - assert (ac_drop a = 0 \/ ac_drop a = 1) as [-> | ->] by lia; done.
Qed.

Lemma entry_ok a dev : rule_printable a dev -> request_ok (entry_request a (device_bytes dev)).
Proof.
  intros [Ht _ _ _ _ Hdev]. words_typed Ht.
  assert (Hl : (String.length dev < 64)%nat) by (destruct Hdev as [-> | [Hd%devname_spec _]]; [cbn; lia|apply Hd]).
  destruct (device_bytes_typed dev Hl) as (Hb1 & Hb2 & Hb3). unfold request_ok, request_typed. split_and!; try done.
  1,2: repeat (apply Forall_cons; split; [done|]); done.
  unfold request_check. cbn [entry_request rq_dev rq_acls forallb]. by rewrite Hb3.
Qed.

Lemma finish_rule a dev : rule_printable a dev ->
  finish (request_of ADM_ACL ADM_ADD 0) (mk_parsing (entry_request a (device_bytes dev)) (rule_seen a) false true true false false false) =
  Some (entry_request a (device_bytes dev)).
Proof.
  intros Ha. assert (Hok := entry_ok _ _ Ha). destruct Ha as [Ht (Hs & Hd & _ & Hp & Hdrop & Hports & Hproto & _) _ _ _ _]. words_typed Ht.
  assert (Hbits : forall ip p, is_u32 ip -> is_u32 p -> prefix_ok ip p -> truth (Z.land ip (not32 (net_mask p))) = false).
  { intros ip p Hip Hp0 Hv. apply prefix_valid_ok in Hv; [|done..]. unfold net_prefix_valid in Hv. by apply andb_true_iff in Hv as [_ Hv%negb_true_iff]. }
  assert (Hseen : Z.land (rule_seen a) (not32 255) = 0).
  { unfold rule_seen, is_u32 in *. assert (ac_ports a = 0 \/ ac_ports a = 1 \/ ac_ports a = 2 \/ ac_ports a = 3) as [-> | [-> | [-> | ->]]] by lia; reflexivity. }
  unfold finish. change (incomplete _ _) with false. cbn iota. change (_ && _ && _) with false at 1. cbn iota.
  assert (Hi : inconsistent (request_of ADM_ACL ADM_ADD 0) (mk_parsing (entry_request a (device_bytes dev)) (rule_seen a) false true true false false false) = false).
  { change ((truth (ac_ports a) && negb (ac_proto a =? 6) && negb (ac_proto a =? 17)) || false || ((truth (Z.land (ac_src a) (not32 (net_mask (ac_src_prefix a))))) ||
      truth (Z.land (ac_dst a) (not32 (net_mask (ac_dst_prefix a))))) = false). rewrite !Hbits by done. rewrite !orb_false_r.
    destruct (truth (ac_ports a)) eqn:Et; [|done]. apply truth_true in Et. destruct (Hproto Et) as [-> | ->]; reflexivity. }
  rewrite Hi. change (_ && _ && _) with false at 1. cbn iota. change (allowed _) with 255. cbn [pa_seen pa_r]. rewrite Hseen. cbn [truth].
  by rewrite request_decode_encode.
Qed.

(** A line is read as the rule it spells out. *)
Lemma parse_entry_rule a dev : rule_printable a dev -> parse_entry (rule_words a dev) = inr (entry_request a (device_bytes dev)).
Proof.
  intros Ha. rewrite parse_entry_eq. cbv zeta. unfold rule_words. rewrite (options_words _ _ _ (rule_words_read _ _ Ha)).
  cbn [mbind option_bind]. by rewrite finish_rule.
Qed.

(** * A file read back *)

Definition line_text (words : list string) : string := String.concat " " words.

(** A character of a word, and a word [strtok] cannot cut. *)
Definition word_char (c : ascii) : bool := negb (line_space c) && negb (Ascii.eqb c "#") && negb (code c =? 0).
Definition word_ok (w : string) : Prop := empty w = false /\ all_chars word_char w = true /\ (String.length w < 64)%nat.

Lemma concat_cons w v ws : String.concat " " (w :: v :: ws) = (w +:+ String " " (String.concat " " (v :: ws)))%string.
Proof. reflexivity. Qed.

Lemma word_separate w : word_ok w -> all_chars (fun c => negb (line_space c)) w = true.
Proof. intros (_ & Hw & _). revert Hw. apply all_chars_impl. unfold word_char. by intros c [[]%andb_true_iff _]%andb_true_iff. Qed.

Lemma tokens_line words : words <> [] -> Forall word_ok words -> tokens line_space (line_text words +:+ String "010" EmptyString) = words.
Proof.
  unfold line_text. induction words as [|w [|v words] IH]; intros Hn Hw; [done|..]; apply Forall_cons in Hw as [Hw Hws].
  - cbn [String.concat]. rewrite tokens_word; [done|by apply word_separate|apply Hw|done].
  - rewrite concat_cons, <- string_app_assoc. change (String " " ?x +:+ ?y)%string with (String " " (x +:+ y)%string).
    rewrite tokens_word; [|by apply word_separate|apply Hw|done]. by rewrite IH.
Qed.

Lemma line_chars (p : ascii -> bool) words : p " "%char = true -> (forall c, word_char c = true -> p c = true) -> Forall word_ok words ->
  all_chars p (line_text words) = true.
Proof.
  intros Hs Hc. unfold line_text. induction words as [|w [|v words] IH]; intros Hw; [done|..]; apply Forall_cons in Hw as [Hw Hws];
    assert (H := all_chars_impl _ _ _ Hc (proj1 (proj2 Hw))); [done|].
  rewrite concat_cons, all_chars_app, H. cbn [all_chars]. by rewrite Hs, IH.
Qed.

Lemma line_length words : Forall word_ok words -> (String.length (line_text words) <= 64 * length words)%nat.
Proof.
  unfold line_text. induction words as [|w [|v words] IH]; intros Hw; [cbn; lia|..]; apply Forall_cons in Hw as [(_ & _ & Hl) Hws]; [cbn; lia|].
  rewrite concat_cons, string_app_length. cbn [String.length]. specialize (IH Hws). cbn [length] in *. lia.
Qed.

(** What the loop sees of a line. *)
Lemma apply_line_words words have r : words <> [] -> Forall word_ok words -> (length words <= 70)%nat ->
  apply_line (line_text words +:+ String "010" EmptyString) false have r =
  match words with
  | [] => inr (have, r)
  | first :: rest =>
    if same first "default" then
      if have then inl (- EINVAL) else
      match rest with
      | [s] => match arg_drop s with Some a => inr (true, set_field F_ACTION a r) | None => inl (- EINVAL) end
      | _ => inl (- EINVAL)
      end
    else
    if rq_count r =? NET_ACL_MAX then inl (- ENOSPC) else
    match parse_entry words with
    | inl (rc, _) => inl rc
    | inr entry =>
      let a := entry_acl entry in
      if existsb (fun b => ac_pref (aa_rule b) =? ac_pref (aa_rule a)) (rq_acls r) then inl (- EEXIST) else inr (have, add_acl a r)
    end
  end.
Proof.
  intros Hn Hw Hl. unfold apply_line. rewrite strchr_none.
  - cbv zeta. rewrite tokens_line by done. destruct (Nat.ltb_spec 70 (length words)); [lia|]. done.
  - rewrite all_chars_app. rewrite line_chars; [done|done| |done]. unfold word_char. by intros c [[_ ?]%andb_true_iff _]%andb_true_iff.
Qed.

Lemma word_digit d : 0 <= d <= 9 -> word_char (digit d) = true.
Proof.
  intros H. unfold word_char, line_space. rewrite digit_code, digit_other by done. by rewrite !(proj2 (Z.eqb_neq _ _)) by lia.
Qed.
Lemma word_device c : device_letter c = true -> word_char c = true.
Proof. by destruct c as [[] [] [] [] [] [] [] []]. Qed.

Lemma word_number x : is_u32 x -> word_ok (pretty x).
Proof.
  intros Hx. split_and!; [apply pretty_nonempty, Hx|apply pretty_chars; [apply word_digit|apply Hx]|].
  assert (H := pretty_u32 x Hx). unfold text_length in H. lia.
Qed.
Lemma word_join c s t : word_ok s -> word_ok t -> word_char c = true -> (String.length s + String.length t < 63)%nat -> word_ok (s +:+ String c t).
Proof.
  intros (He & Hs & _) (_ & Ht & _) Hc Hl. split_and!.
  - by destruct s.
  - rewrite all_chars_app, Hs. cbn [all_chars]. by rewrite Hc, Ht.
  - rewrite string_app_length. cbn [String.length]. lia.
Qed.
Lemma word_cidr ip p : is_u32 ip -> is_u32 p -> word_ok (cidr_text ip p).
Proof.
  intros Hi Hp. assert (H := inet_ntop_length ip). assert (Hp' := pretty_u32 p Hp). unfold text_length in *. apply word_join; [|by apply word_number|done|lia].
  split_and!; [|apply inet_ntop_chars; [apply word_digit|done]|lia].
  unfold inet_ntop. assert (Hb := pretty_nonempty (byte_at ip 0) (proj1 (byte_at_range ip 0 ltac:(lia)))). by destruct (pretty (byte_at ip 0)).
Qed.
Lemma word_range lo hi : is_u32 lo -> is_u32 hi -> word_ok (range_text lo hi).
Proof.
  intros Hl Hh. assert (H := pretty_u32 lo Hl). assert (H' := pretty_u32 hi Hh). unfold text_length in *. apply word_join; [by apply word_number..|done|lia].
Qed.

Lemma rule_words_ok a dev : rule_printable a dev -> Forall word_ok (rule_words a dev) /\ (length (rule_words a dev) <= 15)%nat /\ rule_words a dev <> [].
Proof.
  intros [Ht _ _ _ _ Hdev]. words_typed Ht.
  assert (Hd : word_ok (if empty dev then "any" else dev)%string).
  { destruct Hdev as [-> | [(_ & Hl & He & Hc)%devname_spec _]]; [by split_and!; [..|cbn; lia]|]. rewrite He. split_and!; [done| |done]. by eapply all_chars_impl, Hc; apply word_device. }
  assert (Hk : forall w : string, bool_decide (word_ok w) = true -> word_ok w) by (intros w; apply bool_decide_eq_true).
  split_and!; [|unfold rule_words, words_of_line; rewrite !length_app; repeat case_match; cbn; lia|done].
  unfold rule_words, words_of_line. cbn [rule_line lw_pref lw_src lw_dst lw_iif lw_proto lw_sport lw_dport lw_action].
  repeat (apply Forall_app; split); try destruct (Z.testbit _ _); try destruct (truth _);
    repeat (apply Forall_cons; split); try apply Forall_nil; auto using word_number, word_cidr, word_range; by apply Hk.
Qed.

(** A rule with the name of its device. *)
Definition named_rule : Type := net_acl * string.
Definition rule_record (x : named_rule) : admin_acl := mk_admin_acl x.1 (device_bytes x.2).

Definition default_words (drop : Z) : list string := ["default"; if truth drop then "drop" else "accept"]%string.
Definition ruleset_lines (drop : Z) (rules : list named_rule) : list (list string) := default_words drop :: ((fun x => rule_words x.1 x.2) <$> rules).
Definition ruleset_text (drop : Z) (rules : list named_rule) : string := file_text (line_text <$> ruleset_lines drop rules).

Definition ruleset_request (drop : Z) (rules : list named_rule) : admin_request :=
  mk_admin_request ADM_ACL ADM_APPLY 0 (Z.of_nat (length rules)) (<[F_ACTION := drop]> (replicate 16 0)) (replicate 64 0) (rule_record <$> rules).

(** What a file may hold. *)
Record rules_printable (drop : Z) (rules : list named_rule) : Prop := {
  ru_drop : drop = 0 \/ drop = 1;
  ru_room : Z.of_nat (length rules) <= NET_ACL_MAX;
  ru_rules : Forall (fun x => rule_printable x.1 x.2) rules;
  ru_prefs : NoDup ((fun x : named_rule => ac_pref x.1) <$> rules)
}.

Definition as_lines (l : list (list string)) : list (string * bool) := (fun w => (line_text w +:+ String "010" EmptyString, false)%string) <$> l.

Lemma apply_line_rule a dev have r : rule_printable a dev -> rq_count r <> NET_ACL_MAX -> Forall (fun b => ac_pref (aa_rule b) <> ac_pref a) (rq_acls r) ->
  apply_line (line_text (rule_words a dev) +:+ String "010" EmptyString) false have r = inr (have, add_acl (rule_record (a, dev)) r).
Proof.
  intros Ha Hc Hp. destruct (rule_words_ok _ _ Ha) as (Hw & Hl & Hn). rewrite apply_line_words by (done || lia).
  change (rule_words a dev) with (pretty (ac_pref a) :: tail (rule_words a dev)) at 1. cbn iota.
  rewrite (same_other isdigit) by (done || apply digits_only, (Forall_inv (rv_typed _ _ Ha))).
  rewrite (proj2 (Z.eqb_neq _ _) Hc), parse_entry_rule by done. cbv zeta. rewrite entry_acl_request by apply Ha.
  destruct (existsb _ _) eqn:E; [|done]. apply existsb_exists in E as (b & Hb & Eb%Z.eqb_eq). rewrite Forall_forall in Hp.
  by destruct (Hp b (proj2 (list_elem_of_In _ _) Hb)).
Qed.

Lemma apply_lines_rules rules : forall n have r, Forall (fun x => rule_printable x.1 x.2) rules ->
  rq_count r = Z.of_nat (length (rq_acls r)) -> Z.of_nat (length (rq_acls r) + length rules) <= NET_ACL_MAX ->
  NoDup ((ac_pref ∘ aa_rule <$> rq_acls r) ++ ((fun x : named_rule => ac_pref x.1) <$> rules)) ->
  apply_lines (as_lines ((fun x => rule_words x.1 x.2) <$> rules)) n have r =
  (n + Z.of_nat (length rules),
   inr (mk_admin_request (rq_group r) (rq_verb r) (rq_flags r) (Z.of_nat (length (rq_acls r) + length rules)) (rq_v r) (rq_dev r) (rq_acls r ++ (rule_record <$> rules)))).
Proof.
  induction rules as [|[a dev] rules IH]; intros n have r Hv Hc Hroom Hd.
  - cbn. rewrite app_nil_r, Nat.add_0_r, Z.add_0_r. f_equal. f_equal. destruct r. cbn in *. by rewrite Hc.
  - apply Forall_cons in Hv as [Ha Hv]. cbn [fst snd] in Ha. unfold as_lines. rewrite !fmap_cons. cbn [apply_lines fst snd].
    rewrite apply_line_rule; [|done|unfold NET_ACL_MAX in *; cbn [length] in Hroom; lia|].
    + fold (as_lines ((fun x => rule_words x.1 x.2) <$> rules)). rewrite IH; unfold add_acl; cbn [rq_group rq_verb rq_flags rq_count rq_v rq_dev rq_acls].
      * rewrite length_app, <- app_assoc. cbn [length app]. f_equal; [lia|]. do 2 f_equal. lia.
      * done.
      * rewrite length_app. cbn. lia.
      * rewrite length_app. cbn in *. lia.
      * rewrite fmap_app, <- app_assoc. exact Hd.
    + apply NoDup_app in Hd as (_ & Hd & _). apply Forall_forall. intros b Hb E. apply (Hd (ac_pref a)); [|left].
      rewrite <- E. apply list_elem_of_fmap. by exists b.
Qed.

Lemma ruleset_lines_read drop rules : rules_printable drop rules -> lines 2047 (mk_file (ruleset_text drop rules) false) = as_lines (ruleset_lines drop rules).
Proof.
  intros [Hd _ Hr _]. unfold ruleset_text. rewrite lines_file_text.
  - unfold as_lines. by rewrite <- list_fmap_compose.
  - intros line (w & -> & Hw)%list_elem_of_fmap.
    assert (Hok : Forall word_ok w /\ (length w <= 15)%nat).
    { unfold ruleset_lines in Hw. apply elem_of_cons in Hw as [-> | (x & -> & Hx)%list_elem_of_fmap].
      - split; [|cbn; lia]. destruct Hd as [-> | ->]; compute_closed.
      - rewrite Forall_forall in Hr. destruct (rule_words_ok _ _ (Hr _ Hx)) as (? & ? & _). done. }
    destruct Hok as [Hok Hl]. split; [|assert (H := line_length w Hok); lia]. apply line_chars; [done| |done].
    unfold word_char, line_space, line_char. intros c Hc. by destruct (code c =? 10), (code c =? 0), (code c =? 32), (code c =? 9), (code c =? 13), (Ascii.eqb c "#").
Qed.

(** The file that spells out an access list, applied, is that list: the
    default, and every rule with its device, in the order of the file.  (Only a
    file called [stats] cannot be named.) *)
Lemma ruleset_parsed open strerror path drop rules : rules_printable drop rules -> path <> "stats"%string ->
  open path = inr (mk_file (ruleset_text drop rules) false) ->
  admin_parse open strerror ["acl"; "apply"; path]%string = inr (ruleset_request drop rules).
Proof.
  intros Hv Hp Ho. unfold admin_parse, parse_with.
  assert (Hh : parse_head ["acl"; "apply"; path]%string = Some (request_of ADM_ACL ADM_APPLY 0, [path])).
  { transitivity (if same path "stats" then Some (add_flag ADMIN_STATS (request_of ADM_ACL ADM_APPLY 0), []) else Some (request_of ADM_ACL ADM_APPLY 0, [path])); [reflexivity|].
    unfold same. by rewrite (proj2 (String.eqb_neq _ _) Hp). }
  rewrite Hh. change (rq_group _ =? ADM_MONITOR) with false. change (_ && _) with true. cbn iota. unfold apply_file. rewrite Ho, ruleset_lines_read by done.
  destruct Hv as [Hd Hroom Hr Hn]. unfold ruleset_lines, as_lines. rewrite fmap_cons. cbn [apply_lines]. rewrite apply_line_words; [|done| |cbn; lia].
  2:{ destruct Hd as [-> | ->]; compute_closed. }
  assert (Hdr : arg_drop (if truth drop then "drop" else "accept")%string = Some drop) by (by destruct Hd as [-> | ->]).
  unfold default_words. change (same "default" "default") with true. cbn iota. rewrite Hdr. fold (as_lines ((fun x => rule_words x.1 x.2) <$> rules)).
  rewrite apply_lines_rules; [done|done|done|done|done].
Qed.

(** * An access list saved and restored *)

(** The name of the input device of a rule, and the rule as a file has it. *)
Definition iif_name (names : list string) (iif : Z) : string := if iif =? NET_IIF_NONE then EmptyString else nth (Z.to_nat iif) names EmptyString.
Definition saved_rule (names : list string) (a : net_acl) : named_rule := (set_ac_iif NET_IIF_NONE a, iif_name names (ac_iif a)).
Definition saved_text (names : list string) (c : net_config) : string := ruleset_text (nc_default_drop c) (saved_rule names <$> nc_acls c).

(** Names a command can hold, each once. *)
Definition names_ok (names : list string) : Prop := NoDup names /\ Forall (fun s => devname s = Some (device_bytes s) /\ s <> "any"%string) names.

(** Ports that do not count are zero. *)
Definition acl_canonical (a : net_acl) : Prop := Forall is_u32 (acl_words a) /\
  (Z.testbit (ac_ports a) 0 = false -> ac_sport_min a = 0 /\ ac_sport_max a = 0) /\
  (Z.testbit (ac_ports a) 1 = false -> ac_dport_min a = 0 /\ ac_dport_max a = 0).

Lemma c_string_device s : all_chars device_letter s = true -> c_string (device_bytes s) = s.
Proof.
  unfold device_bytes. generalize (64 - String.length s)%nat as n. intros n. induction s as [|c s IH]; cbn [all_chars].
  - by destruct n.
  - intros [Hc Hs]%andb_true_iff. change (text_bytes (String c s)) with (code c :: text_bytes s). cbn [app c_string].
    apply word_device in Hc. unfold word_char in Hc. apply andb_true_iff in Hc as [_ Hc%negb_true_iff]. rewrite Hc, IH by done.
    f_equal. unfold code. by rewrite N2Z.id, ascii_N_embedding.
Qed.

Lemma named_device s : all_chars device_letter s = true -> named (device_bytes s) = negb (empty s).
Proof.
  destruct s as [|c s]; [done|]. cbn [all_chars]. intros [Hc _]%andb_true_iff. apply word_device in Hc. unfold word_char in Hc.
  apply andb_true_iff in Hc as [_ Hc%negb_true_iff]. change (truth (code c) = true). unfold truth. by rewrite Hc.
Qed.

Lemma sort_prefs_sorted {A} (pref : A -> Z) l : increasing pref l -> sort_prefs pref l = l.
Proof.
  intros Hl. apply (StronglySorted_unique_strong (pref_le pref)).
  - intros x y Hx Hy. unfold pref_le. intros H1 H2. rewrite sort_prefs_perm in Hx. apply list_elem_of_lookup in Hx as [i Hi], Hy as [j Hj].
    destruct (Nat.lt_total i j) as [Hij|[->|Hij]]; [specialize (Hl _ _ _ _ Hij Hi Hj); lia|congruence|specialize (Hl _ _ _ _ Hij Hj Hi); lia].
  - assert (Ht : Transitive (pref_le pref)) by (unfold pref_le; intros x y z; lia). assert (Hto : Total (pref_le pref)) by (unfold pref_le; intros x y; lia).
    apply (StronglySorted_merge_sort (pref_le pref)).
  - induction l as [|x l IH]; [constructor|]. constructor.
    + apply IH. intros i j y z Hij Hy Hz. apply (Hl (S i) (S j) y z ltac:(lia) Hy Hz).
    + apply Forall_lookup. intros i y Hy. specialize (Hl 0%nat (S i) x y ltac:(lia) eq_refl Hy). unfold pref_le. lia.
  - apply sort_prefs_perm.
Qed.

Section restored.
Context (v : admin_view).
Let ports := Z.of_nat (length (av_ports v)).
Let names := pt_name <$> av_ports v.
Context (Hnames : names_ok names) (Hports : ports <= NETIF_MAX).

Lemma port_name iif : 0 <= iif < ports -> names !! Z.to_nat iif = Some (iif_name names iif).
Proof using Hports.
  intros Hi. unfold iif_name. destruct (Z.eqb_spec iif NET_IIF_NONE) as [->|_]; [unfold NETIF_MAX in *; change NET_IIF_NONE with 4294967295 in Hi; lia|].
  destruct (lookup_lt_is_Some_2 names (Z.to_nat iif)) as [s Hs]; [unfold names; rewrite length_fmap; lia|]. rewrite Hs. f_equal. symmetry. by apply nth_lookup_Some.
Qed.

(** The daemon finds the device of a saved rule again. *)
Lemma device_restored iif : 0 <= iif < ports -> admin_device v (device_bytes (iif_name names iif)) = iif /\ named (device_bytes (iif_name names iif)) = true.
Proof using Hports Hnames.
  intros Hi. assert (Hs := port_name iif Hi). destruct Hnames as [Hd Hn]. rewrite Forall_lookup in Hn. destruct (Hn _ _ Hs) as [(_ & _ & He & Hc)%devname_spec _].
  rewrite named_device, He by done. split; [|done]. unfold admin_device. rewrite c_string_device by done.
  unfold names in Hs. rewrite list_lookup_fmap in Hs. apply fmap_Some in Hs as (p & Hp & Ep).
  assert (Hf : find_index (fun p => String.eqb (pt_name p) (iif_name names iif)) (av_ports v) = Some (Z.to_nat iif)).
  { apply find_index_Some. split; [exists p; split; [done|by apply String.eqb_eq]|]. intros j q Hj Hq. apply String.eqb_neq. intros Eq.
    assert (Hjn : names !! j = Some (iif_name names iif)) by (unfold names; rewrite list_lookup_fmap, Hq; cbn; by rewrite Eq).
    assert (Hin : names !! Z.to_nat iif = Some (iif_name names iif)) by (by apply port_name). assert (E := NoDup_lookup _ _ _ _ Hd Hjn Hin). lia. }
  rewrite Hf. lia.
Qed.

Lemma acl_restored a : is_u32 (ac_iif a) -> acl_valid ports a -> resolve_acls v [rule_record (saved_rule names a)] = inr [a].
Proof using Hports Hnames.
  intros Hu (_ & _ & Hiif & _). cbn [resolve_acls rule_record saved_rule fst snd aa_dev aa_rule].
  destruct (Z.eqb_spec (ac_iif a) NET_IIF_NONE) as [E|Hne].
  - unfold iif_name. rewrite E, Z.eqb_refl. cbn. destruct a. cbn in *. by rewrite E.
  - assert (Hi : 0 <= ac_iif a < ports) by (unfold is_u32 in Hu; lia). destruct (device_restored _ Hi) as [E1 E2]. rewrite E1, E2.
    destruct (Z.ltb_spec (ac_iif a) 0); [lia|]. cbn. by destruct a.
Qed.

Lemma acls_restored l : Forall (fun a => is_u32 (ac_iif a)) l -> Forall (acl_valid ports) l -> resolve_acls v (rule_record <$> (saved_rule names <$> l)) = inr l.
Proof using Hports Hnames.
  induction l as [|a l IH]; intros Hu Hv; [done|]. apply Forall_cons in Hu as [Hu Hus], Hv as [Hv Hvs]. assert (H := acl_restored a Hu Hv).
  rewrite !fmap_cons. cbn [resolve_acls rule_record saved_rule fst snd aa_dev aa_rule] in *. destruct (_ && _); [done|]. rewrite IH by done. injection H as H. by rewrite H.
Qed.

Lemma saved_printable a : acl_canonical a -> acl_valid ports a -> rule_printable (saved_rule names a).1 (saved_rule names a).2.
Proof using Hports Hnames.
  intros (Ht & Hs & Hd) Hv. destruct a as [pref src srcp dst dstp iif proto smin smax dmin dmax po dr]. cbn in *. split; cbn; try done.
  - words_typed Ht. repeat (apply Forall_cons; split; [done|]). done.
  - destruct Hv as (? & ? & _ & ?). split_and!; auto; tauto.
  - destruct Hv as (_ & _ & Hiif & _). unfold iif_name. destruct (Z.eqb_spec iif NET_IIF_NONE) as [|Hne]; [by left|right].
    words_typed Ht. assert (Hi : 0 <= iif < ports) by (cbn in *; unfold is_u32 in *; lia). assert (Hl := port_name iif Hi). unfold iif_name in Hl. rewrite (proj2 (Z.eqb_neq _ _) Hne) in Hl.
    destruct Hnames as [_ Hn]. rewrite Forall_lookup in Hn. by apply (Hn (Z.to_nat iif)).
Qed.
End restored.

(** The configuration with another access list. *)
Definition with_acls (drop : Z) (l : list net_acl) (c : net_config) : net_config := c |> set_nc_default_drop drop |> set_nc_acls l.

Lemma with_acls_valid c0 c ports : config_valid c0 ports -> config_valid c ports -> config_valid (with_acls (nc_default_drop c0) (nc_acls c0) c) ports.
Proof.
  intros [(_ & _ & _ & Hc & Hd) _ _ _ _ _ _ Hac] [(H1 & H2 & H3 & _) Ha Had Hr Hrd Hg Hru _]. by split.
Qed.
Lemma with_acls_typed c0 c : Forall (fun a => Forall is_u32 (acl_words a)) (nc_acls c0) -> net_typed c -> net_typed (with_acls (nc_default_drop c0) (nc_acls c0) c).
Proof.
  intros Hl (Ha & Hr & Hu & _). split_and!; [done..|]. eapply Forall_impl; [exact Hl|]. intros a Ht. words_typed Ht. by split_and!.
Qed.

(** A request that replaces the access list by a valid one succeeds. *)
Lemma apply_succeeds v c0 rules : let ports := Z.of_nat (length (av_ports v)) in
  let next := with_acls (nc_default_drop c0) (nc_acls c0) (av_config v) in
  Z.of_nat (length rules) <= NET_ACL_MAX -> resolve_acls v (rule_record <$> rules) = inr (nc_acls c0) -> increasing ac_pref (nc_acls c0) ->
  nc_generation (av_config v) <> UINT64_MAX -> net_config_validate next ports = 0 ->
  exists c, admin_mutate v (ruleset_request (nc_default_drop c0) rules) = inr c /\ nc_acls c = nc_acls c0 /\ nc_default_drop c = nc_default_drop c0 /\
    nc_addresses c = nc_addresses (av_config v) /\ nc_routes c = nc_routes (av_config v) /\ nc_rules c = nc_rules (av_config v) /\
    nc_generation c = u64 (nc_generation (av_config v) + 1).
Proof.
  intros ports next Hl Hres Hinc Hgen Hval.
  assert (Hm : mutate_group v (ruleset_request (nc_default_drop c0) rules) (-1) (av_config v) = inr next).
  { change (mutate_acls v (ruleset_request (nc_default_drop c0) rules) (-1) (av_config v) = inr next). unfold mutate_acls.
    cbn [ruleset_request rq_verb rq_count rq_acls]. change (ADM_APPLY =? ADM_FLUSH) with false. change (ADM_APPLY =? ADM_DEFAULT) with false. change (ADM_APPLY =? ADM_APPLY) with true. cbn iota.
    destruct (Z.ltb_spec NET_ACL_MAX (Z.of_nat (length rules))); [lia|]. rewrite Nat2Z.id, take_ge by (by rewrite length_fmap). rewrite Hres.
    by rewrite sort_prefs_sorted. }
  unfold admin_mutate. change (named (rq_dev (ruleset_request (nc_default_drop c0) rules))) with false. cbn [andb]. rewrite Hm.
  change (nc_generation next) with (nc_generation (av_config v)). rewrite (proj2 (Z.eqb_neq _ _) Hgen). fold ports.
  unfold net_config_prepare. set (next' := set_nc_routes_indexed false (set_nc_generation (u64 (nc_generation (av_config v) + 1)) next)).
  assert (Hv : net_config_validate next' ports = 0) by exact Hval. rewrite Hv. cbn [truth Z.eqb negb].
  destruct (Z.of_nat (length (nc_routes next')) <=? 2); (eexists; split; [reflexivity|]); by split_and!.
Qed.

(** C22: an access list can be saved and restored.  Take a valid configuration
    whose rules are canonical (every field 32 bits wide, the ports of a side the
    rule does not look at zero) and whose default action is a 32-bit word, and
    write its list as a rule file with the names of the devices: at most
    [NETIF_MAX] of them, distinct, each one a command can hold, none called any.
    Applying the file, under a path other than the word stats, to a daemon with
    these devices, a valid and typed configuration and a generation below [UINT64_MAX]
    goes through the parser, the wire and the change of configuration, and the
    list is in force again, rule by rule and in order, with its default.
    Addresses, routes and rules stay as they were, and the configuration is one
    generation later. *)
Theorem access_list_restored open strerror path v c0 :
  let ports := Z.of_nat (length (av_ports v)) in let names := pt_name <$> av_ports v in
  names_ok names -> ports <= NETIF_MAX -> config_valid c0 ports -> Forall acl_canonical (nc_acls c0) -> is_u32 (nc_default_drop c0) ->
  net_typed (av_config v) -> config_valid (av_config v) ports -> is_u64 (nc_generation (av_config v)) -> nc_generation (av_config v) <> UINT64_MAX ->
  path <> "stats"%string -> open path = inr (mk_file (saved_text names c0) false) ->
  exists r c, admin_parse open strerror ["acl"; "apply"; path]%string = inr r /\ admin_request_decode (admin_request_encode r) = inr r /\
    admin_mutate v r = inr c /\ nc_acls c = nc_acls c0 /\ nc_default_drop c = nc_default_drop c0 /\
    nc_addresses c = nc_addresses (av_config v) /\ nc_routes c = nc_routes (av_config v) /\ nc_rules c = nc_rules (av_config v) /\
    nc_generation c = nc_generation (av_config v) + 1.
Proof.
  intros ports names Hn Hp Hc0 Hcan Hdrop Ht Hv Hu Hg Hpath Ho.
  assert (Hac := cv_acls _ _ Hc0). destruct Hac as [Hac Hinc]. destruct (cv_counts _ _ Hc0) as (_ & _ & _ & Hcount & Hdef).
  assert (Hpr : rules_printable (nc_default_drop c0) (saved_rule names <$> nc_acls c0)).
  { split.
    - unfold is_u32 in Hdrop. lia.
    - by rewrite length_fmap.
    - apply Forall_fmap, Forall_forall. intros a Ha. rewrite Forall_forall in Hcan, Hac. by apply saved_printable; auto.
    - rewrite <- list_fmap_compose. apply NoDup_alt. intros i j x. rewrite !list_lookup_fmap. intros (y & Hy & ->)%fmap_Some (z & Hz & E)%fmap_Some. cbn in E.
      destruct (Nat.lt_total i j) as [Hij|[->|Hij]]; [specialize (Hinc _ _ _ _ Hij Hy Hz); lia|done|specialize (Hinc _ _ _ _ Hij Hz Hy); lia]. }
  assert (Hparse := ruleset_parsed open strerror path _ _ Hpr Hpath Ho).
  destruct (apply_succeeds v c0 (saved_rule names <$> nc_acls c0)) as (c & Hm & Hrest); [by rewrite length_fmap| |done|done| |].
  - apply acls_restored; [done|done| |done]. eapply Forall_impl; [exact Hcan|]. intros a [Hta _]. words_typed Hta. done.
  - apply net_config_validate_iff; [|by apply with_acls_valid]. apply with_acls_typed; [|done]. eapply Forall_impl; [exact Hcan|]. by intros a [].
  - exists (ruleset_request (nc_default_drop c0) (saved_rule names <$> nc_acls c0)), c. split; [done|].
    split; [by apply request_decode_encode, (admin_parse_ok _ _ _ _ Hparse)|]. split; [done|].
    destruct Hrest as (? & ? & ? & ? & ? & Hgen). split_and!; try done. rewrite Hgen. apply u64_id. unfold is_u64, UINT64_MAX in *. lia.
Qed.

(** * A rule file *)

(** A configuration with two rules, saved and applied to one without. *)
Definition saved_config : net_config :=
  set_nc_acls [sample_acl; mk_net_acl 20 (htonl 167837696) 16 0 0 1 6 0 0 80 443 2 1] sample_net.
Definition empty_view : admin_view := mk_admin_view (set_nc_acls [] sample_net) (av_ports sample_view).
Definition saved_file : string -> Z + file := fun _ => inr (mk_file (saved_text (pt_name <$> av_ports empty_view) saved_config) false).

Lemma saved_config_valid : config_valid saved_config 2.
Proof. apply net_config_validate_iff; [compute_closed|reflexivity]. Qed.
Lemma empty_view_valid : config_valid (av_config empty_view) 2.
Proof. apply net_config_validate_iff; [compute_closed|reflexivity]. Qed.

Lemma access_list_restored_witness : exists r c, admin_parse saved_file no_messages ["acl"; "apply"; "rules"]%string = inr r /\
  admin_mutate empty_view r = inr c /\ nc_acls (av_config empty_view) = [] /\ nc_acls c = nc_acls saved_config.
Proof.
  assert (Hn : names_ok (pt_name <$> av_ports empty_view)) by compute_closed.
  assert (Hc : Forall acl_canonical (nc_acls saved_config)) by compute_closed.
  destruct (access_list_restored saved_file no_messages "rules" empty_view saved_config) as (r & c & Hr & _ & Hm & Hacl & _);
    [exact Hn|vm_compute; discriminate|exact saved_config_valid|exact Hc|compute_closed|compute_closed|exact empty_view_valid|compute_closed|vm_compute; discriminate|discriminate|reflexivity|].
  exists r, c. auto.
Defined.
