(* ===== verification/AdminClient.v ===== *)
(** The administration tool: the client of the management socket,
    [src/admin_client.c], and the program around it, [src/pulsar.c].  The kernel
    is an argument, as in the client library: what [socket], [connect] and
    [getsockopt] answer, and the answers of [poll], [send] and [recv] in order.
    A deadline is the list of the answers of [poll] until it has passed. *)
From Stdlib Require Import Ascii.
From stdpp Require Import pretty.
From S2P Require Import Prelude.
From S2P Require Import Dpdk.
From S2P Require Import Types.
From S2P Require Import Text.
From S2P Require Import Ipc.
From S2P Require Import Control.
From S2P Require Import Client.
From S2P Require Import AdminWire.
From S2P Require Import AdminState.
From S2P Require Import AdminFormat.
From S2P Require Import AdminParse.

(** * The socket *)

(** [ready(fd, events, deadline)], and the answers left. *)
Fixpoint poll_ready (events : Z) (deadline : list poll_answer) : Z * list poll_answer :=
  match deadline with
  | [] => (- ETIMEDOUT, [])
  | answer :: deadline' => match wait_step events answer with Some rc => (rc, deadline') | None => poll_ready events deadline' end
  end.

(** [transfer(fd, data, length, 1, deadline)], the loop of the client library. *)
Definition transfer_request (deadline : list poll_answer) (data : list Z) (w : wire) : Z * wire := transfer_out deadline data w.

(** What the calls on the way to a connection answer; [None] is success. *)
Record opening : Type := mk_opening {
  op_socket : io_result Z;
  op_fcntl : option Z;
  op_connect : option Z;
  op_deadline : list poll_answer;
  op_error : io_result Z
}.

(** The descriptor or an error, and the open descriptors. *)
Definition admin_open (path : string) (o : opening) (open : list Z) : Z * list Z :=
  if empty path || Nat.leb SUN_PATH (String.length path) then (- EINVAL, open) else
  match op_socket o with
  | Failed errno => (- errno, open)
  | Answered fd =>
    let open := fd :: open in
    match op_fcntl o with
    | Some errno => (- errno, close_fd fd open)
    | None =>
      match op_connect o with
      | None => (fd, open)
      | Some errno =>
        if negb (errno =? EINPROGRESS) then (- errno, close_fd fd open) else
        let rc := (poll_ready POLLOUT (op_deadline o)).1 in
        let rc := if truth rc then rc else match op_error o with Failed errno => - errno | Answered error => - error end in
        if truth rc then (rc, close_fd fd open) else (fd, open)
      end
    end
  end.

(** * Requests *)

(** The result, the text and the generation of the reply when there is one.  One
    deadline covers the header and the text. *)
Definition admin_receive (deadline : list poll_answer) (id size : Z) (w : wire) : Z * option (list Z * Z) * wire :=
  let '(rc, header, w) := recv_all ADMIN_HEADER (set_wi_polls deadline w) in
  if truth rc then (rc, None, w) else
  match admin_header_decode header with
  | inl rc => (rc, None, w)
  | inr h =>
    if negb (ah_id h =? id) || (size <=? ah_length h) || (0 <? ah_result h) then (- EPROTO, None, w) else
    let '(rc, text, w) := recv_all (ah_length h) w in
    if truth rc then (rc, None, w) else
    ((if truth (ah_result h) then ah_result h else ah_length h), Some (text, ah_generation h), w)
  end.

(** The bytes of a request. *)
Definition request_frame (r : admin_request) : list Z :=
  let body := admin_request_encode r in
  admin_header_encode (mk_admin_header 1 (Z.of_nat (length body)) 0 0) ++ body.

Definition admin_call (sending receiving : list poll_answer) (r : admin_request) (size : Z) (w : wire) : Z * option (list Z * Z) * wire :=
  if Nat.eqb (length (admin_request_encode r)) 0 then (- EINVAL, None, w) else
  let '(rc, w) := transfer_request sending (request_frame r) w in
  if truth rc then (rc, None, w) else admin_receive receiving 1 size w.

Definition admin_exchange (path : string) (o : opening) (sending receiving : list poll_answer) (r : admin_request) (size : Z)
    (w : wire) (open : list Z) : Z * option (list Z * Z) * wire * list Z :=
  let '(fd, open) := admin_open path o open in
  if fd <? 0 then (fd, None, w, open) else
  let '(rc, reply, w) := admin_call sending receiving r size w in
  (rc, reply, w, close_fd fd open).

(** * The program *)

Definition ADMIN_DEFAULT_SOCKET : string := "/tmp/pulsaros-admin.sock".

Definition admin_usage : string := file_text [
  "usage: pulsar [-4] [-j] [-br] [-s] [--socket PATH] COMMAND";
  "  status | stats [--nodes] | app show | socket show";
  "  link show [dev DEV] | link set dev DEV up|down|mtu N";
  "  addr show [dev DEV] | addr add|replace|del IP/PREFIX dev DEV | addr flush dev DEV";
  "  route show [table TABLE|all] | route get IP [from IP]";
  "  route add|replace [unicast|blackhole|unreachable|prohibit] PREFIX [via IP] [dev DEV] [table TABLE]";
  "  route del PREFIX [table TABLE] | route flush table TABLE";
  "  rule show | rule add pref N [from PREFIX] [to PREFIX] [iif DEV] lookup TABLE";
  "  rule add pref N [from PREFIX] [to PREFIX] [iif DEV] action blackhole|unreachable|prohibit";
  "  rule del pref N | rule flush";
  "  neigh show [dev DEV] | neigh add|replace IP lladdr MAC dev DEV nud permanent";
  "  neigh del IP dev DEV | neigh flush dev DEV";
  "  acl show|stats | acl add pref N [src PREFIX] [dst PREFIX] [proto tcp|udp|icmp|N]";
  "      [sport N[-N]] [dport N[-N]] [iif DEV] action accept|drop";
  "  acl del pref N | acl flush | acl default [accept|drop] | acl apply FILE";
  "  monitor [link|addr|route|rule|neigh|acl] | help | version"]%string.

(** What the program leaves: its exit status ([None] while it still waits for
    events), and what it printed. *)
Record outcome : Type := mk_outcome { oc_status : option Z; oc_stdout : string; oc_stderr : string }.
Definition quits (status : Z) (out err : string) : outcome := mk_outcome (Some status) out err.

Definition message (s : string) : string := ("pulsar: " +:+ s +:+ String "010" EmptyString)%string.

Definition is_option (s : string) : bool := match s with String c _ => Ascii.eqb c "-" | EmptyString => false end.

(** The options before the command: how the program ends there, or the path, the
    flags and the command. *)
Fixpoint program_options (strerror : Z -> string) (args : list string) (path : string) (flags : Z) : outcome + string * Z * list string :=
  match args with
  | [] => inr (path, flags, [])
  | s :: rest =>
    if negb (is_option s) then inr (path, flags, args) else
    if same s "-4" then program_options strerror rest path flags else
    if same s "-6" then inl (quits 2 EmptyString (message ("IPv6: " +:+ strerror EAFNOSUPPORT))) else
    if same s "-j" then program_options strerror rest path (Z.lor flags ADMIN_JSON) else
    if same s "-br" then program_options strerror rest path (Z.lor flags ADMIN_BRIEF) else
    if same s "-s" then program_options strerror rest path (Z.lor flags ADMIN_STATS) else
    match rest with
    | value :: rest' =>
      if same s "--socket" then program_options strerror rest' value flags else
      if same s "--help" then inl (quits 0 admin_usage EmptyString) else inl (quits 2 EmptyString (message ("unsupported option " +:+ s)))
    | [] => if same s "--help" then inl (quits 0 admin_usage EmptyString) else inl (quits 2 EmptyString (message ("unsupported option " +:+ s)))
    end
  end.

(** [fputs(text, stdout)] of a reply. *)
Definition reply_text (reply : option (list Z * Z)) : string := match reply with Some (text, _) => c_string text | None => EmptyString end.

Definition TEXT_SIZE : Z := ADMIN_RESPONSE_MAX + 1.

(** The loop of [monitor].  A round is what [poll] answers and, when there is
    something to read, the deadline for it; [None] when the rounds are over and
    the program waits for the next. *)
Fixpoint monitor (rounds : list (poll_answer * list poll_answer)) (w : wire) (out : string) : option Z * string * wire :=
  match rounds with
  | [] => (None, out, w)
  | (answer, deadline) :: rounds' =>
    match answer with
    | Interrupted | PollTimeout => monitor rounds' w out
    | PollFailed errno => (Some (- errno), out, w)
    | Revents got =>
      if truth (Z.land got POLLIN) then
        let '(rc, reply, w) := admin_receive deadline 1 TEXT_SIZE w in
        if 0 <=? rc then monitor rounds' w (out +:+ reply_text reply) else (Some rc, out, w)
      else if truth (Z.land got poll_failure) then (Some (- ECONNRESET), out, w)
      else monitor rounds' w out
    end
  end.

(** Everything outside the program. *)
Record surroundings : Type := mk_surroundings {
  su_files : string -> Z + file;
  su_strerror : Z -> string;
  su_opening : opening;
  su_sending : list poll_answer;
  su_receiving : list poll_answer;
  su_rounds : list (poll_answer * list poll_answer);
  su_wire : wire
}.

(** Over the connection: the result, what is printed, the socket. *)
Definition converse (e : surroundings) (r : admin_request) : option Z * string * wire :=
  let '(rc, reply, w) := admin_call (su_sending e) (su_receiving e) r TEXT_SIZE (su_wire e) in
  if rc <? 0 then (Some rc, EmptyString, w) else
  if negb (rq_group r =? ADM_MONITOR) then (Some rc, reply_text reply, w) else monitor (su_rounds e) w EmptyString.

(** [main] of [pulsar], without [argv[0]]. *)
Definition pulsar (args : list string) (e : surroundings) : outcome * wire :=
  match program_options (su_strerror e) args ADMIN_DEFAULT_SOCKET 0 with
  | inl o => (o, su_wire e)
  | inr (path, flags, command) =>
    if match command with [] => true | [s] => same s "help" | _ => false end then (quits 0 admin_usage EmptyString, su_wire e) else
    if match command with [s] => same s "version" | _ => false end
    then (quits 0 ("pulsar 1 (management protocol 1)" +:+ String "010" EmptyString) EmptyString, su_wire e) else
    match admin_parse (su_files e) (su_strerror e) command with
    | inl (_, error) => (quits 2 EmptyString (message (String.substring 0 255 error)), su_wire e)
    | inr r =>
      let r := add_flag flags r in
      let '(fd, _) := admin_open path (su_opening e) [] in
      if fd <? 0 then (quits 1 EmptyString (message (path +:+ ": " +:+ su_strerror e (- fd))), su_wire e) else
      match converse e r with
      | (None, out, w) => (mk_outcome None out EmptyString, w)
      | (Some rc, out, w) =>
        if rc <? 0 then (quits 1 out (message (su_strerror e (- rc))), w) else (quits 0 out EmptyString, w)
      end
    end
  end.
