(* ===== verification/GraphInv.v ===== *)
(** The invariants of the packet graph.

    A buffer has exactly one owner.  [balance] is the ledger that says so: what
    was allocated or received, less what was freed or handed to the NIC, less
    what the frame slots and the neighbour queues hold.

    A frame slot is in exactly one place: in the ready queue, pending in the
    output of the running node, or being run.  This is what makes the pool of
    sixteen slots and the queue of the same size fit together: queueing never
    fails, no slot is reused while somebody still reads it, and a frame never
    outgrows its 64 entries. *)
From Stdlib Require Import ZifyNat.
From S2P Require Import Prelude.
From S2P Require Import Dpdk.
From S2P Require Import Types.
From S2P Require Import Graph.

(** * The ledger *)

Definition ids (frame : node_frame) : list Z := (fun p => mb_id p.1) <$> frame.

(** How often a buffer occurs in a list. *)
Definition cnt (l : list Z) (id : Z) : Z := Z.of_nat (count_occ Z.eq_dec l id).

Definition acquired (e : dpdk_event) : list Z :=
  match e with
  | EvAlloc (Some m) => [mb_id m]
  | EvRx _ batch => mb_id <$> batch
  | _ => []
  end.
Definition released (e : dpdk_event) : list Z :=
  match e with
  | EvFree m => [mb_id m]
  | EvTx _ batch sent => mb_id <$> take sent batch
  | _ => []
  end.

Definition ledger (events : list dpdk_event) (id : Z) : Z :=
  foldr (fun e acc => cnt (acquired e) id - cnt (released e) id + acc) 0 events.

Definition slot_ids (s : graph_frame_slot) : list Z := if sl_used s then ids (sl_frame s) else [].
Definition held_slots (slots : list graph_frame_slot) : list Z := concat (slot_ids <$> slots).
Definition pending_ids (entries : list pending_neighbour) : list Z := concat ((fun p => ids (pn_packets p)) <$> entries).

Definition balance (rt : app_runtime) (id : Z) : Z :=
  ledger (rt_dpdk rt) id - cnt (held_slots (gr_slots (rt_graph rt))) id - cnt (pending_ids (rt_pending_neighbours rt)) id.

(** * Where the slots are *)

Definition POOL : nat := GRAPH_FRAME_POOL_SIZE.

(** The ready queue in order. *)
Definition queued (g : dp_graph) : list nat :=
  (fun k => nth ((gr_q_head g + k) mod POOL)%nat (gr_queue g) O) <$> seq 0 (gr_q_count g).

(** The slots pending in an output. *)
Definition pendings (out : node_output) : list nat := omap id out.

Definition owned (g : dp_graph) (out : node_output) (cur : list nat) : list nat := queued g ++ pendings out ++ cur.

(** [cur] is the slot being run, if any. *)
Record graph_inv (g : dp_graph) (out : node_output) (cur : list nat) : Prop := {
  gi_len : length (gr_slots g) = POOL /\ length (gr_queue g) = POOL /\ length out = NODE_MAX;
  gi_ring : (gr_q_head g < POOL)%nat /\ gr_q_tail g = ((gr_q_head g + gr_q_count g) mod POOL)%nat;
  gi_nodup : NoDup (owned g out cur);
  gi_bound : Forall (fun i => (i < POOL)%nat) (owned g out cur);
  gi_used : forall i s, gr_slots g !! i = Some s -> sl_used s = true <-> i ∈ owned g out cur;
  gi_frames : forall i s, gr_slots g !! i = Some s -> sl_used s = true -> (length (sl_frame s) <= GRAPH_FRAME_SIZE)%nat;
  gi_pending : forall n slot, out !! node_index n = Some (Some slot) ->
    exists s, gr_slots g !! slot = Some s /\ sl_node s = n;
  gi_run : forall n, (dn_run <$> gr_nodes g) !! node_index n = Some (Some n)
}.

(** Pending frames have room for one more packet; [except] is the frame that was
    just filled. *)
Definition room (except : option node_id) (g : dp_graph) (out : node_output) : Prop :=
  forall n slot s, Some n <> except -> out !! node_index n = Some (Some slot) -> gr_slots g !! slot = Some s ->
    (length (sl_frame s) < GRAPH_FRAME_SIZE)%nat.

(** * Lemmas: counting *)

Lemma cnt_app l k id : cnt (l ++ k) id = cnt l id + cnt k id.
Proof. unfold cnt. rewrite count_occ_app. lia. Qed.

Lemma cnt_cons x l id : cnt (x :: l) id = cnt [x] id + cnt l id.
Proof. apply (cnt_app [x]). Qed.

Lemma cnt_nil id : cnt [] id = 0.
Proof. done. Qed.

Lemma cnt_perm l k id : l ≡ₚ k -> cnt l id = cnt k id.
Proof. intros H. unfold cnt. f_equal. by apply (Permutation_count_occ Z.eq_dec). Qed.

Lemma cnt_nonneg l id : 0 <= cnt l id.
Proof. unfold cnt. lia. Qed.

Lemma ids_app f k : ids (f ++ k) = ids f ++ ids k.
Proof. apply fmap_app. Qed.

(** Replacing one element changes the sum by the difference. *)
Lemma cnt_concat_insert {A} (f : A -> list Z) (l : list A) i x y id : l !! i = Some x ->
  cnt (concat (f <$> <[i := y]> l)) id = cnt (concat (f <$> l)) id - cnt (f x) id + cnt (f y) id.
Proof.
  intros H. assert (Hs := take_drop_middle l i x H). rewrite insert_take_drop by (by eapply lookup_lt_Some).
  rewrite <- Hs at 3. rewrite !fmap_app, !fmap_cons, !concat_app. cbn [concat]. rewrite !cnt_app. lia.
Qed.

Lemma list_alter_lookup {A} (f : A -> A) (l : list A) i x : l !! i = Some x -> alter f i l = <[i := f x]> l.
Proof. revert i. induction l as [|y l IH]; intros [|i] H; simplify_eq/=; [done|]. f_equal. by apply IH. Qed.

Lemma held_slots_insert slots i s s' id : slots !! i = Some s ->
  cnt (held_slots (<[i := s']> slots)) id = cnt (held_slots slots) id - cnt (slot_ids s) id + cnt (slot_ids s') id.
Proof. apply cnt_concat_insert. Qed.

Lemma pending_ids_insert l i p p' id : l !! i = Some p ->
  cnt (pending_ids (<[i := p']> l)) id = cnt (pending_ids l) id - cnt (ids (pn_packets p)) id + cnt (ids (pn_packets p')) id.
Proof. apply (cnt_concat_insert (fun p => ids (pn_packets p))). Qed.

(** * Lemmas: nodes and outputs *)

Lemma node_index_lt n : (node_index n < NODE_MAX)%nat.
Proof. destruct n; unfold NODE_MAX; simpl; lia. Qed.

Lemma node_index_inj n k : node_index n = node_index k -> n = k.
Proof. destruct n, k; done. Qed.

Lemma node_of_index i : (i < NODE_MAX)%nat -> exists n, node_index n = i /\ n ∈ all_nodes.
Proof.
  intros Hi. assert (Hl : exists n, all_nodes !! i = Some n) by (apply lookup_lt_is_Some_2; done).
  destruct Hl as [n Hn]. exists n. split; [|by eapply list_elem_of_lookup_2].
  unfold NODE_MAX in Hi. do 15 (destruct i as [|i]; [simpl in Hn; by injection Hn as <-|]). lia.
Qed.

Lemma pendings_elem (out : node_output) slot : slot ∈ pendings out <-> exists i, out !! i = Some (Some slot).
Proof.
  unfold pendings. rewrite list_elem_of_omap. split.
  - intros ([x|] & Hx & Hs); [|done]. simpl in Hs. injection Hs as ->. by apply list_elem_of_lookup in Hx.
  - intros [i Hi]. exists (Some slot). split; [by eapply list_elem_of_lookup_2|done].
Qed.

Lemma pendings_set (out : node_output) i slot : out !! i = Some None -> pendings (<[i := Some slot]> out) ≡ₚ slot :: pendings out.
Proof.
  intros H. assert (Hlt := lookup_lt_Some _ _ _ H). assert (Hs := take_drop_middle out i _ H). unfold pendings.
  rewrite insert_take_drop by done. rewrite <- Hs at 3. rewrite !omap_app. simpl. by rewrite <- Permutation_middle.
Qed.

Lemma pendings_clear (out : node_output) i slot : out !! i = Some (Some slot) -> pendings out ≡ₚ slot :: pendings (<[i := None]> out).
Proof.
  intros H. assert (Hlt := lookup_lt_Some _ _ _ H). assert (Hs := take_drop_middle out i _ H). unfold pendings.
  rewrite insert_take_drop by done. rewrite <- Hs at 1. rewrite !omap_app. simpl. by rewrite <- Permutation_middle.
Qed.

Lemma pendings_none : pendings no_output = [].
Proof. reflexivity. Qed.

Lemma no_output_lookup n : no_output !! node_index n = Some None.
Proof. by destruct n. Qed.

Lemma out_nth (out : node_output) n : length out = NODE_MAX -> out !! node_index n = Some (nth (node_index n) out None).
Proof.
  intros H. rewrite nth_lookup.
  destruct (lookup_lt_is_Some_2 out (node_index n)) as [x Hx]; [rewrite H; apply node_index_lt|]. by rewrite Hx.
Qed.

(** * Lemmas: the ring of ready slots *)

Lemma pool_bound l : NoDup l -> Forall (fun i => (i < POOL)%nat) l -> (length l <= POOL)%nat.
Proof.
  intros Hd Hb. rewrite <- (length_seq POOL 0). apply submseteq_length, NoDup_submseteq; [done|].
  intros i Hi. apply elem_of_seq. rewrite Forall_forall in Hb. specialize (Hb i Hi). lia.
Qed.

Ltac modlia := unfold POOL, GRAPH_FRAME_POOL_SIZE in *; zify; Z.div_mod_to_equations; lia.

Lemma queued_push g slot : length (gr_queue g) = POOL -> (gr_q_head g < POOL)%nat ->
  gr_q_tail g = ((gr_q_head g + gr_q_count g) mod POOL)%nat -> (gr_q_count g < POOL)%nat ->
  exists g', queue_slot g slot = (0, g') /\ queued g' = queued g ++ [slot] /\
    g' = (g |> set_gr_queue (gr_queue g') |> set_gr_q_tail (gr_q_tail g') |> set_gr_q_count (gr_q_count g')) /\
    length (gr_queue g') = POOL /\ gr_q_tail g' = ((gr_q_head g' + gr_q_count g') mod POOL)%nat.
Proof.
  intros Hl Hh Ht Hc. unfold queue_slot. destruct (Nat.eqb_spec (gr_q_count g) GRAPH_FRAME_POOL_SIZE) as [E|_]; [unfold POOL in *; lia|].
  eexists. split; [reflexivity|]. cbn [gr_queue gr_q_tail gr_q_count gr_q_head set_gr_queue set_gr_q_tail set_gr_q_count].
  split; [|split; [done|split; [by rewrite length_insert|]]].
  - unfold queued. cbn [gr_queue gr_q_tail gr_q_count gr_q_head set_gr_queue set_gr_q_tail set_gr_q_count].
    rewrite Nat.add_1_r, seq_S, fmap_app. f_equal.
    + apply list_fmap_ext. intros j k Hk. apply lookup_seq in Hk as [-> Hk]. rewrite !nth_lookup, list_lookup_insert_ne; [done|].
      rewrite Ht. modlia.
    + cbn [fmap list_fmap]. rewrite Nat.add_0_l, nth_lookup, <- Ht, list_lookup_insert_eq; [done|]. rewrite Hl, Ht. modlia.
  - rewrite Ht. modlia.
Qed.

(** Taking the head of the queue. *)
Lemma queued_pop g count : gr_q_count g = S count -> (gr_q_head g < POOL)%nat ->
  queued g = nth (gr_q_head g) (gr_queue g) O ::
    queued (g |> set_gr_q_head ((gr_q_head g + 1) mod GRAPH_FRAME_POOL_SIZE)%nat |> set_gr_q_count count).
Proof.
  intros Hc Hh. unfold queued. rewrite Hc. cbn [gr_queue gr_q_tail gr_q_count gr_q_head set_gr_queue set_gr_q_tail set_gr_q_count set_gr_q_head].
  cbn [seq]. rewrite fmap_cons. f_equal.
  - f_equal. rewrite Nat.add_0_r. by apply Nat.mod_small.
  - rewrite <- fmap_S_seq, <- list_fmap_compose. apply list_fmap_ext. intros _ k _. unfold compose. f_equal. modlia.
Qed.

(** * The parts of the state the invariants look at *)

(** Everything but the statistics. *)
Definition graph_core (g : dp_graph) :=
  (gr_slots g, gr_queue g, gr_q_head g, gr_q_tail g, gr_q_count g, dn_run <$> gr_nodes g).

Lemma fmap_alter_same {A B} (f : A -> A) (k : A -> B) i (l : list A) : (forall x, k (f x) = k x) -> k <$> alter f i l = k <$> l.
Proof.
  intros H. revert i. induction l as [|x l IH]; intros [|i]; try done; cbn; [by rewrite H|].
  f_equal. apply (IH i).
Qed.

Lemma alter_stats_core n f rt : graph_core (rt_graph (alter_stats n f rt)) = graph_core (rt_graph rt).
Proof.
  unfold graph_core, alter_stats, alter_graph. cbn [rt_graph set_rt_graph gr_slots gr_queue gr_q_head gr_q_tail gr_q_count gr_nodes set_gr_nodes].
  f_equal. by apply fmap_alter_same.
Qed.

Lemma queued_core g g' : graph_core g = graph_core g' -> queued g = queued g'.
Proof. destruct g, g'. unfold graph_core. cbn. by intros [= -> -> -> -> -> _]. Qed.

Lemma graph_inv_core g g' out cur : graph_core g = graph_core g' -> graph_inv g out cur -> graph_inv g' out cur.
Proof.
  destruct g, g'. unfold graph_core. cbn. intros [= -> -> -> -> -> Hn] [H1 H2 H3 H4 H5 H6 H7 H8].
  constructor; try done. cbn in *. by rewrite <- Hn.
Qed.

(** * Making progress *)

(** The rank of a node: packets only travel to lower ranks. *)
Definition rank (n : node_id) : nat :=
  match n with
  | NODE_DROP => 0 | NODE_TX => 1 | NODE_ARP_OUTPUT => 2 | NODE_ETH_OUTPUT => 3
  | NODE_IPV4_OUTPUT => 4 | NODE_ARP_INPUT => 4
  | NODE_UDP_OUTPUT => 5 | NODE_IPV4_FORWARD => 5 | NODE_ICMP_INPUT => 5 | NODE_UDP_INPUT => 5 | NODE_TCP_INPUT => 5
  | NODE_IPV4_ROUTE => 6 | NODE_IPV4_ACL => 6 | NODE_IPV4_INPUT => 7 | NODE_ETH_INPUT => 8
  end%nat.

Definition slot_node (g : dp_graph) (i : nat) : node_id :=
  match gr_slots g !! i with Some s => sl_node s | None => NODE_DROP end.

(** While a node of rank [r] runs from graph [g0], whose ready queue is [q0],
    everything it hands on goes to lower ranks, behind [q0]; the slots of [q0]
    and the running slot keep their contents. *)
Record progress (r : nat) (g0 : dp_graph) (q0 cur : list nat) (g : dp_graph) (out : node_output) : Prop := {
  pr_inv : graph_inv g out cur;
  pr_queue : exists new, queued g = q0 ++ new /\ Forall (fun i => (rank (slot_node g i) < r)%nat) (new ++ pendings out);
  pr_kept : forall i, i ∈ q0 ++ cur -> gr_slots g !! i = gr_slots g0 !! i
}.

Lemma progress_core r g0 q0 cur g g' out : graph_core g = graph_core g' ->
  progress r g0 q0 cur g out -> progress r g0 q0 cur g' out.
Proof.
  intros Hc [H1 H2 H3]. split; [by eapply graph_inv_core| |]; destruct g, g'; unfold graph_core in Hc; cbn in *;
    injection Hc as -> -> -> -> -> _; done.
Qed.

Lemma room_core e g g' out : graph_core g = graph_core g' -> room e g out -> room e g' out.
Proof. destruct g, g'. unfold graph_core. cbn. by intros [= -> -> -> -> -> _]. Qed.

Section progress.
Context (r : nat) (g0 : dp_graph) (q0 cur : list nat).
Notation progress := (progress r g0 q0 cur).

(** Moving a pending slot to the ready queue never fails. *)
Lemma flush_pending_ok rt out n : progress (rt_graph rt) out -> room (Some n) (rt_graph rt) out ->
  exists rt' out', flush_pending rt out n = (0, rt', out') /\ progress (rt_graph rt') out' /\ room None (rt_graph rt') out' /\
    rt' = set_rt_graph (rt_graph rt') rt /\ gr_slots (rt_graph rt') = gr_slots (rt_graph rt) /\
    out' = <[node_index n := None]> out.
Proof.
  intros [Hi (new & Hq & Hrank) Hk] Hroom. destruct (gi_len _ _ _ Hi) as (Hls & Hlq & Hlo). destruct (gi_ring _ _ _ Hi) as [Hh Ht].
  assert (Hn := out_nth out n Hlo). unfold flush_pending. destruct (nth (node_index n) out None) as [slot|] eqn:E.
  2:{ exists rt, out. split; [done|]. split; [by split; eauto|]. split; [|split; [by destruct rt|split; [done|]]].
      - intros k sl s _ Ho Hs. eapply Hroom; [|exact Ho|exact Hs]. intros [= ->]. rewrite Hn in Ho. done.
      - symmetry. by apply list_insert_id. }
  set (out' := <[node_index n := None]> out).
  assert (Hp : pendings out ≡ₚ slot :: pendings out') by (by apply pendings_clear).
  assert (Hcount : (gr_q_count (rt_graph rt) < POOL)%nat).
  { assert (Hle := pool_bound _ (gi_nodup _ _ _ Hi) (gi_bound _ _ _ Hi)). unfold owned in Hle. rewrite !length_app, Hp in Hle.
    simpl in Hle. unfold queued in Hle. rewrite length_fmap, length_seq in Hle. lia. }
  destruct (queued_push (rt_graph rt) slot Hlq Hh Ht Hcount) as (g' & Hpush & Hqueue & Hg' & Hlq' & Ht').
  rewrite Hpush. cbn [Z.eqb]. exists (set_rt_graph g' rt), out'. split; [done|]. cbn [rt_graph set_rt_graph].
  assert (Hslots : gr_slots g' = gr_slots (rt_graph rt)) by (by rewrite Hg').
  assert (Hown : owned g' out' cur ≡ₚ owned (rt_graph rt) out cur) by (unfold owned; rewrite Hqueue, Hp, <- app_assoc; done).
  split; [|split; [|done]].
  - split.
    + constructor; rewrite ?Hslots, ?Hown; try apply Hi.
      * split; [done|]. split; [done|]. by unfold out'; rewrite length_insert.
      * split; [rewrite Hg'; apply Hh|exact Ht'].
      * intros i s Hs. rewrite Hown. by apply Hi.
      * intros k sl Ho. destruct (decide (n = k)) as [->|Hne].
        -- unfold out' in Ho. rewrite list_lookup_insert_eq in Ho by (rewrite Hlo; apply node_index_lt). done.
        -- unfold out' in Ho. rewrite list_lookup_insert_ne in Ho by (intros Heq; by apply node_index_inj in Heq). by apply Hi.
      * intros k. rewrite Hg'. apply Hi.
    + exists (new ++ [slot]). split; [by rewrite Hqueue, Hq, <- app_assoc|].
      assert (Hperm : (new ++ [slot]) ++ pendings out' ≡ₚ new ++ pendings out) by (rewrite Hp, <- app_assoc; done).
      rewrite Hperm. unfold slot_node. by rewrite Hslots.
    + intros i Hi'. rewrite Hslots. by apply Hk.
  - intros k sl s _ Ho Hs. rewrite Hslots in Hs. destruct (decide (n = k)) as [->|Hne].
    + unfold out' in Ho. rewrite list_lookup_insert_eq in Ho by (rewrite Hlo; apply node_index_lt). done.
    + unfold out' in Ho. rewrite list_lookup_insert_ne in Ho by (intros Heq; by apply node_index_inj in Heq).
      eapply Hroom; [|exact Ho|exact Hs]. congruence.
Qed.

(** A pending slot is neither ready nor running. *)
Lemma pending_fresh g out n i : progress g out -> out !! node_index n = Some (Some i) -> i ∉ q0 ++ cur /\ i ∈ owned g out cur.
Proof.
  intros [Hi (new & Hq & _) _] Ho. assert (Hp : i ∈ pendings out) by (apply pendings_elem; eauto).
  assert (Hd := gi_nodup _ _ _ Hi). unfold owned in *. rewrite Hq in *. apply NoDup_app in Hd as (_ & Hd1 & Hd2).
  apply NoDup_app in Hd2 as (_ & Hd2 & _). split; [|set_solver].
  intros [H|H]%elem_of_app; [apply (Hd1 i); set_solver|apply (Hd2 i); set_solver].
Qed.

(** Appending a packet to the pending frame of [n]. *)
Lemma append_ok g out n i s p : progress g out -> room None g out ->
  out !! node_index n = Some (Some i) -> gr_slots g !! i = Some s ->
  let g' := set_gr_slots (<[i := set_sl_frame (sl_frame s ++ [p]) s]> (gr_slots g)) g in
  progress g' out /\ room (Some n) g' out /\
  (length (sl_frame s ++ [p]) <> GRAPH_FRAME_SIZE -> room None g' out).
Proof.
  intros Hp Hroom Ho Hs g'. destruct (pending_fresh g out n i Hp Ho) as [Hfresh Hown].
  assert (Hlt : (length (sl_frame s) < GRAPH_FRAME_SIZE)%nat) by (by eapply Hroom).
  destruct Hp as [Hi (new & Hq & Hrank) Hk]. assert (Hil := lookup_lt_Some _ _ _ Hs).
  assert (Hlook : forall k s', gr_slots g' !! k = Some s' ->
    exists s0, gr_slots g !! k = Some s0 /\ sl_node s' = sl_node s0 /\ sl_used s' = sl_used s0 /\
      (k <> i -> s' = s0) /\ (k = i -> sl_frame s' = sl_frame s ++ [p])).
  { intros k s' Hs'. unfold g' in Hs'. cbn [gr_slots set_gr_slots] in Hs'. destruct (decide (i = k)) as [<-|Hne].
    - rewrite list_lookup_insert_eq in Hs' by done. injection Hs' as <-. exists s. by split_and!.
    - rewrite list_lookup_insert_ne in Hs' by done. exists s'. by split_and!. }
  assert (Hnode : forall k, slot_node g' k = slot_node g k).
  { intros k. unfold slot_node, g'. cbn [gr_slots set_gr_slots]. destruct (decide (i = k)) as [<-|Hne].
    - rewrite list_lookup_insert_eq by done. by rewrite Hs.
    - by rewrite list_lookup_insert_ne. }
  split; [split|split].
  - constructor; try apply Hi.
    + unfold g'. cbn [gr_slots set_gr_slots]. rewrite length_insert. apply Hi.
    + intros k s' Hs'. destruct (Hlook k s' Hs') as (s0 & Hs0 & _ & -> & _). by apply Hi.
    + intros k s' Hs' Hu. destruct (Hlook k s' Hs') as (s0 & Hs0 & _ & Hu0 & Hne & Heq). destruct (decide (k = i)) as [->|].
      * rewrite Heq by done. rewrite length_app. simpl. lia.
      * rewrite Hne by done. eapply gi_frames; [exact Hi|exact Hs0|congruence].
    + intros k sl Hk'. destruct (gi_pending _ _ _ Hi k sl Hk') as (s0 & Hs0 & Hn0). unfold g'. cbn [gr_slots set_gr_slots].
      destruct (decide (i = sl)) as [->|]; [|rewrite list_lookup_insert_ne by done; eauto].
      rewrite list_lookup_insert_eq by done. exists (set_sl_frame (sl_frame s ++ [p]) s). split; [done|]. simpl. congruence.
  - exists new. split; [done|]. eapply Forall_impl; [exact Hrank|]. intros k. by rewrite Hnode.
  - intros k Hin. unfold g'. cbn [gr_slots set_gr_slots]. rewrite list_lookup_insert_ne by (intros ->; done). by apply Hk.
  - intros k sl s' Hne Hk' Hs'. destruct (Hlook sl s' Hs') as (s0 & Hs0 & _ & _ & Hsame & _). rewrite Hsame; [by eapply Hroom|].
    intros ->. destruct (gi_pending _ _ _ Hi _ _ Hk') as (s1 & Hs1 & Hn1). destruct (gi_pending _ _ _ Hi _ _ Ho) as (s2 & Hs2 & Hn2). congruence.
  - intros Hfull k sl s' _ Hk' Hs'. destruct (Hlook sl s' Hs') as (s0 & Hs0 & _ & _ & Hsame & Heq).
    destruct (decide (sl = i)) as [->|Hne]; [|rewrite Hsame by done; by eapply Hroom].
    rewrite Heq by done. rewrite length_app in *. simpl in *. lia.
Qed.

(** Taking a free slot for the output of [n]. *)
Lemma alloc_ok g out n i g1 : progress g out -> room None g out -> (rank n < r)%nat ->
  out !! node_index n = Some None -> slot_alloc g = (Some i, g1) ->
  let new_slot := mk_graph_frame_slot [] n true in
  let g2 := set_gr_slots (<[i := new_slot]> (gr_slots g)) g in
  set_gr_slots (alter (set_sl_node n) i (gr_slots g1)) g1 = g2 /\
  progress g2 (<[node_index n := Some i]> out) /\ room None g2 (<[node_index n := Some i]> out) /\
  gr_slots g2 !! i = Some new_slot /\ exists s, gr_slots g !! i = Some s /\ sl_used s = false.
Proof.
  intros [Hi (new & Hq & Hrank) Hk] Hroom Hr Ho Halloc new_slot g2. unfold slot_alloc in Halloc.
  destruct (find_index _ _) as [j|] eqn:Ef; [|done]. injection Halloc as -> <-.
  apply find_index_Some in Ef as [(s & Hs & Hu) _]. apply negb_true_iff in Hu. assert (Hil := lookup_lt_Some _ _ _ Hs).
  assert (Hfree : i ∉ owned g out cur) by (intros Hin; apply (gi_used _ _ _ Hi i s Hs) in Hin; congruence).
  assert (Hin : gr_slots g2 !! i = Some new_slot) by (by apply list_lookup_insert_eq).
  assert (Hne : forall k, k <> i -> gr_slots g2 !! k = gr_slots g !! k) by (intros; by apply list_lookup_insert_ne).
  set (out2 := <[node_index n := Some i]> out). destruct (gi_len _ _ _ Hi) as (Hls & Hlq & Hlo).
  assert (Hown : owned g2 out2 cur ≡ₚ i :: owned g out cur).
  { unfold owned, out2. rewrite (pendings_set out (node_index n) i Ho). cbn [app]; by rewrite <- Permutation_middle. }
  assert (Hout : forall k sl, out2 !! node_index k = Some (Some sl) -> (k = n /\ sl = i) \/ (k <> n /\ out !! node_index k = Some (Some sl))).
  { intros k sl Hk'. unfold out2 in Hk'. destruct (decide (n = k)) as [<-|Hnk].
    - rewrite list_lookup_insert_eq in Hk' by (rewrite Hlo; apply node_index_lt). left. by simplify_eq.
    - rewrite list_lookup_insert_ne in Hk' by (intros Heq; by apply node_index_inj in Heq). by right. }
  assert (Hpend : forall k sl, out !! node_index k = Some (Some sl) -> sl <> i).
  { intros k sl Hk' ->. apply Hfree. unfold owned. rewrite !elem_of_app. right. left. apply pendings_elem. eauto. }
  split; [|split; [split|split; [|split; [done|eauto]]]].
  - unfold g2. destruct g. cbn. rewrite (list_alter_lookup _ _ _ _ Hs), (list_alter_lookup (set_sl_node n) _ _ (mk_graph_frame_slot [] (sl_node s) true))
      by (by apply list_lookup_insert_eq). by rewrite list_insert_insert_eq.
  - constructor.
    + unfold g2, out2. cbn [gr_slots gr_queue set_gr_slots]. by rewrite !length_insert.
    + apply Hi.
    + rewrite Hown. constructor; [done|apply Hi].
    + rewrite Hown. constructor; [lia|apply Hi].
    + intros k s' Hs'. rewrite Hown, elem_of_cons. destruct (decide (k = i)) as [->|Hki].
      * rewrite Hin in Hs'. injection Hs' as <-. simpl. tauto.
      * rewrite Hne in Hs' by done. rewrite (gi_used _ _ _ Hi k s' Hs'). tauto.
    + intros k s' Hs' Hu'. destruct (decide (k = i)) as [->|Hki]; [|rewrite Hne in Hs' by done; by eapply gi_frames].
      rewrite Hin in Hs'. injection Hs' as <-. simpl. lia.
    + intros k sl Hk'. destruct (Hout k sl Hk') as [[-> ->]|[_ Hold]]; [by exists new_slot|].
      rewrite Hne by (by eapply Hpend). by apply Hi.
    + apply Hi.
  - exists new. split; [done|].
    assert (Hperm : new ++ pendings out2 ≡ₚ i :: new ++ pendings out)
      by (unfold out2; rewrite (pendings_set out (node_index n) i Ho); by rewrite <- Permutation_middle).
    rewrite Hperm. constructor; [unfold slot_node; by rewrite Hin|]. apply Forall_forall. intros k Hk'.
    rewrite Forall_forall in Hrank. specialize (Hrank k Hk'). unfold slot_node in *. rewrite Hne; [done|].
    intros ->. apply Hfree. unfold owned. rewrite Hq. set_solver.
  - intros k Hk'. rewrite Hne; [by apply Hk|]. intros ->. apply Hfree. unfold owned. rewrite Hq. set_solver.
  - intros k sl s' _ Hk' Hs'. destruct (Hout k sl Hk') as [[-> ->]|[_ Hold]].
    + rewrite Hin in Hs'. injection Hs' as <-. simpl. unfold GRAPH_FRAME_SIZE. lia.
    + rewrite Hne in Hs' by (by eapply Hpend). by eapply Hroom.
Qed.
(** The tail of [node_enqueue]: the packet goes into the pending frame, which
    is queued when full. *)
Lemma store_ok rt out n i s m ctx : progress (rt_graph rt) out -> room None (rt_graph rt) out ->
  out !! node_index n = Some (Some i) -> gr_slots (rt_graph rt) !! i = Some s ->
  let frame := sl_frame s ++ [(m, ctx)] in
  let rt1 := alter_graph (fun g => set_gr_slots (alter (set_sl_frame frame) i (gr_slots g)) g) rt in
  exists rt' out', (if Nat.eqb (length frame) GRAPH_FRAME_SIZE then flush_pending rt1 out n else (0, rt1, out)) = (0, rt', out') /\
    progress (rt_graph rt') out' /\ room None (rt_graph rt') out' /\ rt' = set_rt_graph (rt_graph rt') rt /\
    gr_slots (rt_graph rt') = <[i := set_sl_frame frame s]> (gr_slots (rt_graph rt)) /\
    (forall k, k <> node_index n -> out' !! k = out !! k).
Proof.
  intros Hp Hroom Ho Hs frame rt1. assert (H := append_ok _ _ _ _ _ (m, ctx) Hp Hroom Ho Hs). cbv zeta in H. fold frame in H.
  assert (Hrt1 : rt_graph rt1 = set_gr_slots (<[i := set_sl_frame frame s]> (gr_slots (rt_graph rt))) (rt_graph rt)).
  { unfold rt1, alter_graph. cbn [rt_graph set_rt_graph]. by rewrite (list_alter_lookup _ _ _ _ Hs). }
  rewrite <- Hrt1 in H. destruct H as (Hp1 & Hroom1 & Hroom2). destruct (Nat.eqb_spec (length frame) GRAPH_FRAME_SIZE) as [Hfull|Hfull].
  - destruct (flush_pending_ok rt1 out n Hp1 Hroom1) as (rt' & out' & Hf & Hp' & Hroom' & Hrt' & Hsl & ->).
    exists rt', (<[node_index n := None]> out). split; [done|]. split; [done|]. split; [done|].
    split; [rewrite Hrt'; by destruct rt|]. split; [by rewrite Hsl, Hrt1|]. intros k Hk. by apply list_lookup_insert_ne.
  - exists rt1, out. split; [done|]. split; [done|]. split; [by apply Hroom2|]. split; [by destruct rt|]. by rewrite Hrt1.
Qed.

(** Every call of [node_enqueue] keeps the invariants and takes the packet: it
    is in a frame, or freed when no slot is left. *)
Lemma node_enqueue_ok rt out n m ctx : progress (rt_graph rt) out -> room None (rt_graph rt) out -> (rank n < r)%nat ->
  exists rc rt' out', node_enqueue rt out n m ctx = (rc, rt', out') /\ progress (rt_graph rt') out' /\ room None (rt_graph rt') out' /\
    rt' = (rt |> set_rt_graph (rt_graph rt') |> set_rt_dpdk (rt_dpdk rt')) /\
    (forall k, k <> node_index n -> out' !! k = out !! k) /\
    (forall id, balance rt' id = balance rt id - cnt [mb_id m] id).
Proof.
  intros Hp Hroom Hr. assert (Hlo : length out = NODE_MAX) by apply Hp. assert (Hn := out_nth out n Hlo).
  unfold node_enqueue. destruct (nth (node_index n) out None) as [i|] eqn:E.
  - destruct (gi_pending _ _ _ (pr_inv _ _ _ _ _ _ Hp) n i Hn) as (s & Hs & _).
    assert (Hu : sl_used s = true) by (apply (gi_used _ _ _ (pr_inv _ _ _ _ _ _ Hp) i s Hs); by eapply pending_fresh).
    unfold slot_frame. rewrite Hs.
    destruct (store_ok rt out n i s m ctx Hp Hroom Hn Hs) as (rt' & out' & Heq & Hp' & Hroom' & Hrt' & Hsl & Hout). rewrite Heq.
    exists 0, rt', out'. split; [done|]. split; [done|]. split; [done|]. split; [rewrite Hrt'; by destruct rt|]. split; [done|].
    intros id. unfold balance. rewrite Hsl, Hrt', (held_slots_insert _ _ _ _ _ Hs). unfold slot_ids. cbn [sl_used set_sl_frame sl_frame rt_dpdk set_rt_graph rt_pending_neighbours].
    rewrite Hu, ids_app, cnt_app. cbn [ids fmap list_fmap fst]. lia.
  - destruct (slot_alloc (rt_graph rt)) as [[i|] g1] eqn:Ea.
    + destruct (alloc_ok _ _ _ _ _ Hp Hroom Hr Hn Ea) as (Hg & Hp2 & Hroom2 & Hs & (s & Hs0 & Hu0)). rewrite Hg.
      set (g2 := set_gr_slots (<[i := _]> _) _) in *. clear Hg. set (rt2 := set_rt_graph g2 rt). unfold slot_frame.
      change (rt_graph rt2) with g2. rewrite Hs. cbn [sl_frame app].
      assert (Hn2 : <[node_index n := Some i]> out !! node_index n = Some (Some i))
        by (apply list_lookup_insert_eq; rewrite Hlo; apply node_index_lt).
      destruct (store_ok rt2 _ n i _ m ctx Hp2 Hroom2 Hn2 Hs) as (rt' & out' & Heq & Hp' & Hroom' & Hrt' & Hsl & Hout).
      cbn [sl_frame app] in Heq. rewrite Heq.
      exists 0, rt', out'. split; [done|]. split; [done|]. split; [done|]. split; [rewrite Hrt'; by destruct rt|].
      split; [intros k Hk; rewrite Hout by done; by apply list_lookup_insert_ne|].
      intros id. unfold balance. rewrite Hsl, (held_slots_insert _ _ _ _ _ Hs). unfold rt2, g2. cbn [rt_graph set_rt_graph gr_slots set_gr_slots].
      rewrite (held_slots_insert _ _ _ _ _ Hs0), Hrt'. unfold slot_ids.
      cbn [sl_used sl_frame set_sl_frame rt_dpdk rt_pending_neighbours set_rt_graph app]. rewrite Hu0. unfold ids.
      cbn [fmap list_fmap fst]. rewrite cnt_nil. unfold rt2. cbn [rt_dpdk rt_pending_neighbours set_rt_graph]. lia.
    + set (rt' := mbuf_free m _). exists (- 1), rt', out. split; [done|].
      assert (Hcore : graph_core (rt_graph rt) = graph_core (rt_graph rt')).
      { unfold rt', mbuf_free, record_event, count_reason. cbn [rt_graph set_rt_dpdk]. unfold count_errors, count_drops.
        rewrite !alter_stats_core. done. }
      split; [by eapply progress_core|]. split; [by eapply room_core|]. split; [by destruct rt|]. split; [done|].
      intros id. unfold balance. assert (Hsl : gr_slots (rt_graph rt') = gr_slots (rt_graph rt)) by (unfold graph_core in Hcore; congruence).
      rewrite Hsl. unfold rt', mbuf_free, record_event. cbn [rt_dpdk set_rt_dpdk rt_pending_neighbours].
      change (rt_dpdk (count_errors _ _ _)) with (rt_dpdk rt). cbn [ledger foldr acquired released]. rewrite cnt_nil. unfold ledger.
      change (rt_pending_neighbours (count_errors _ _ _)) with (rt_pending_neighbours rt). lia.
Qed.
(** A whole frame enqueued for one node. *)
Lemma enqueue_frame_ok n frame : (rank n < r)%nat -> forall rt out, progress (rt_graph rt) out -> room None (rt_graph rt) out ->
  let '(rt', out') := foldl (fun '(rt, out) p => let '(_, rt, out) := node_enqueue rt out n p.1 p.2 in (rt, out)) (rt, out) frame in
  progress (rt_graph rt') out' /\ room None (rt_graph rt') out' /\
  rt' = (rt |> set_rt_graph (rt_graph rt') |> set_rt_dpdk (rt_dpdk rt')) /\
  (forall k, k <> node_index n -> out' !! k = out !! k) /\
  (forall id, balance rt' id = balance rt id - cnt (ids frame) id).
Proof.
  intros Hr. induction frame as [|[m ctx] frame IH]; intros rt out Hp Hroom; cbn [foldl].
  { split; [done|]. split; [done|]. split; [by destruct rt|]. split; [done|]. intros id. change (cnt (ids []) id) with 0. lia. }
  destruct (node_enqueue_ok rt out n m ctx Hp Hroom Hr) as (rc & rt1 & out1 & He & Hp1 & Hroom1 & Hrt1 & Hout1 & Hb1).
  cbn [fst snd]. rewrite He. specialize (IH rt1 out1 Hp1 Hroom1). destruct (foldl _ (rt1, out1) frame) as [rt' out'].
  destruct IH as (Hp' & Hroom' & Hrt' & Hout' & Hb'). split; [done|]. split; [done|]. split; [rewrite Hrt', Hrt1; by destruct rt|].
  split; [intros k Hk; by rewrite Hout', Hout1|]. intros id. unfold ids. rewrite fmap_cons. cbn [fst]. rewrite cnt_cons, Hb', Hb1. unfold ids. lia.
Qed.

(** Flushing several nodes: their outputs are empty afterwards. *)
Lemma flush_nodes_ok ns rt out : progress (rt_graph rt) out -> room None (rt_graph rt) out ->
  let '(rt', out') := foldl (fun '(rt, out) n => let '(_, rt, out) := flush_pending rt out n in (rt, out)) (rt, out) ns in
  progress (rt_graph rt') out' /\ rt' = set_rt_graph (rt_graph rt') rt /\ gr_slots (rt_graph rt') = gr_slots (rt_graph rt) /\
  (forall k, out' !! k = None \/ out' !! k = out !! k \/ out' !! k = Some None) /\
  (forall n, n ∈ ns -> out' !! node_index n = Some None).
Proof.
  revert rt out. induction ns as [|n ns IH]; intros rt out Hp Hroom; simpl.
  { split; [done|]. split; [by destruct rt|]. split; [done|]. split; [auto|]. intros n Hn. by apply not_elem_of_nil in Hn. }
  assert (Hroom' : room (Some n) (rt_graph rt) out) by (intros k sl s _; by apply Hroom).
  destruct (flush_pending_ok rt out n Hp Hroom') as (rt1 & out1 & Hf & Hp1 & Hroom1 & Hrt1 & Hsl1 & Hout1). rewrite Hf.
  specialize (IH rt1 out1 Hp1 Hroom1). destruct (foldl _ (rt1, out1) ns) as [rt' out'].
  destruct IH as (Hp' & Hrt' & Hsl' & Hk & Hns). split; [done|]. split; [rewrite Hrt', Hrt1; by destruct rt|].
  split; [congruence|]. assert (Hlo : length out = NODE_MAX) by apply Hp.
  assert (Hn1 : out1 !! node_index n = Some None) by (rewrite Hout1; apply list_lookup_insert_eq; rewrite Hlo; apply node_index_lt).
  assert (Hother : forall k, out1 !! k = out !! k \/ out1 !! k = Some None).
  { intros k. destruct (decide (k = node_index n)) as [->|Hne]; [by right|]. left. rewrite Hout1. by apply list_lookup_insert_ne. }
  split.
  - intros k. destruct (Hk k) as [H|[H|H]]; auto. destruct (Hother k) as [H'|H']; rewrite H; auto.
  - intros k Hin. apply elem_of_cons in Hin as [->|Hin]; [|by apply Hns].
    destruct (Hk (node_index n)) as [H|[H|H]]; [|congruence|done].
    assert (Hlt : (node_index n < length out')%nat) by (destruct (gi_len _ _ _ (pr_inv _ _ _ _ _ _ Hp')) as (_ & _ & ->); apply node_index_lt).
    apply lookup_ge_None in H. lia.
Qed.
End progress.

Lemma empty_output out : length out = NODE_MAX -> (forall n, out !! node_index n = Some None) -> out = no_output.
Proof.
  intros Hl H. apply list_eq. intros i. destruct (decide (i < NODE_MAX)%nat) as [Hi|Hi].
  - destruct (node_of_index i Hi) as (n & <- & _). by rewrite H, no_output_lookup.
  - rewrite !lookup_ge_None_2; [done|unfold no_output; rewrite length_replicate; lia|lia].
Qed.

Lemma all_nodes_elem n : n ∈ all_nodes.
Proof. destruct n; unfold all_nodes; set_solver. Qed.
