(* ===== verification/Scheduler.v ===== *)
(** The scheduler of [src/graph.c] over node functions that keep the interface
    [NodeFunctions]: every call of [graph_submit] finishes, leaves the graph
    drained, and accounts for every packet.

    The rounds terminate because packets only move to nodes of lower rank: the
    weight of the ready queue, [17 ^ rank] summed over its slots, drops with each
    round, since a slot makes room for at most sixteen of lower rank.  The
    largest weight is [16 * 17 ^ 8 < 2 ^ 40], the bound in [graph_drain]. *)
From S2P Require Import Prelude.
From S2P Require Import Dpdk.
From S2P Require Import Types.
From S2P Require Import Netif.
From S2P Require Import Graph.
From S2P Require Import GraphInv.

(** * States of the stack *)

(** The neighbour queues never exceed their arrays. *)
Definition pending_wf (entries : list pending_neighbour) : Prop :=
  length entries = NEIGHBOUR_PENDING_MAX /\
  Forall (fun p => (length (pn_packets p) <= NEIGHBOUR_PENDING_QUEUE_MAX)%nat) entries.

Definition tables_wf (rt : app_runtime) : Prop := pending_wf (rt_pending_neighbours rt) /\ ports_wf (rt_ports rt).

(** What packet processing never writes: the published configuration, the static
    routes, the forwarding switch and the ports up to their counters. *)
Definition port_base (p : port_state) : port_state :=
  p |> set_pt_rx_packets 0 |> set_pt_tx_packets 0 |> set_pt_tx_drops 0 |> set_pt_rx_bytes 0 |> set_pt_tx_bytes 0.
Definition base (rt : app_runtime) : option net_config * route_table * bool * list port_state :=
  (rt_network rt, rt_routes rt, rt_ipv4_forwarding rt, port_base <$> rt_ports rt).

(** Where the ledger and the base stand. *)
Record books : Type := mk_books {
  bk_balance : Z -> Z;
  bk_base : option net_config * route_table * bool * list port_state
}.

(** The ledger stands at [b0] plus the buffers [L] that the code has in hand,
    and the base is the one of [b0]. *)
Record accounts (b0 : books) (L : list Z) (rt : app_runtime) : Prop := {
  ac_balance : forall id, balance rt id = bk_balance b0 id + cnt L id;
  ac_base : base rt = bk_base b0
}.

(** The books while the packets of a frame belong to a slot. *)
Definition debit (frame : node_frame) (b0 : books) : books :=
  mk_books (fun id => bk_balance b0 id - cnt (ids frame) id) (bk_base b0).

(** Inside a node function. *)
Record running (r : nat) (g0 : dp_graph) (q0 cur : list nat) (b0 : books) (L : list Z) (rt : app_runtime) : Prop := {
  rn_out : exists out, rt_active_output rt = Some out /\ progress r g0 q0 cur (rt_graph rt) out /\ room None (rt_graph rt) out;
  rn_tables : tables_wf rt;
  rn_accounts : accounts b0 L rt
}.

(** Between two rounds. *)
Record scheduled (b0 : books) (L : list Z) (rt : app_runtime) : Prop := {
  sc_inactive : rt_active_output rt = None;
  sc_graph : graph_inv (rt_graph rt) no_output [];
  sc_tables : tables_wf rt;
  sc_accounts : accounts b0 L rt
}.

(** Outside the scheduler. *)
Definition idle (b0 : books) (L : list Z) (rt : app_runtime) : Prop :=
  scheduled b0 L rt /\ gr_q_count (rt_graph rt) = O.

(** What the scheduler expects of the node functions: the function of a node
    takes every packet of its frame and hands packets on to lower ranks only. *)
Class NodeFunctions (run : node_id -> node_frame -> app_runtime -> app_runtime) : Prop :=
  node_run_ok : forall n frame rt g0 q0 cur b0 L, (length frame <= GRAPH_FRAME_SIZE)%nat ->
    running (rank n) g0 q0 cur b0 (ids frame ++ L) rt -> running (rank n) g0 q0 cur b0 L (run n frame rt).

(** * Weights *)

Definition slot_weight (g : dp_graph) (i : nat) : Z := 17 ^ Z.of_nat (rank (slot_node g i)).
Definition weight (g : dp_graph) : Z := sum_list_Z (slot_weight g <$> queued g).

Lemma rank_le n : (rank n <= 8)%nat.
Proof. destruct n; simpl; lia. Qed.

Lemma slot_weight_pos g i : 0 < slot_weight g i.
Proof. apply Z.pow_pos_nonneg; lia. Qed.

Lemma sum_list_Z_app l k : sum_list_Z (l ++ k) = sum_list_Z l + sum_list_Z k.
Proof. induction l as [|x l IH]; cbn [app]; unfold sum_list_Z in *; cbn [foldr] in *; lia. Qed.

Lemma sum_list_Z_bound {A} (f : A -> Z) l b : Forall (fun x => 0 <= f x <= b) l ->
  0 <= sum_list_Z (f <$> l) <= Z.of_nat (length l) * b.
Proof.
  induction 1 as [|x l Hx Hl IH]; [done|]. rewrite fmap_cons. unfold sum_list_Z in *. cbn [foldr length]. lia.
Qed.

Lemma weight_bound g out cur : graph_inv g out cur -> 0 <= weight g < 2 ^ Z.of_nat 40.
Proof.
  intros Hi. assert (Hle := pool_bound _ (gi_nodup _ _ _ Hi) (gi_bound _ _ _ Hi)). unfold owned in Hle. rewrite length_app in Hle.
  assert (Hb : 0 <= weight g <= Z.of_nat (length (queued g)) * 17 ^ 8).
  { apply sum_list_Z_bound, Forall_forall. intros i _. assert (H := slot_weight_pos g i). split; [lia|].
    apply Z.pow_le_mono_r; [lia|]. pose proof (rank_le (slot_node g i)). lia. }
  change (2 ^ Z.of_nat 40) with 1099511627776. change (17 ^ 8) with 6975757441 in Hb. unfold POOL, GRAPH_FRAME_POOL_SIZE in Hle. lia.
Qed.

(** Slots of lower rank weigh less than one slot. *)
Lemma lower_weight g r new : Forall (fun i => (rank (slot_node g i) < r)%nat) new -> (length new <= POOL)%nat ->
  sum_list_Z (slot_weight g <$> new) < 17 ^ Z.of_nat r.
Proof.
  intros Hr Hl. destruct r as [|r].
  { destruct new as [|i new]; [done|]. apply Forall_cons_iff in Hr as [H _]. lia. }
  assert (Hb : 0 <= sum_list_Z (slot_weight g <$> new) <= Z.of_nat (length new) * 17 ^ Z.of_nat r).
  { apply sum_list_Z_bound. eapply Forall_impl; [exact Hr|]. intros i Hi. simpl in Hi. assert (H := slot_weight_pos g i).
    split; [lia|]. apply Z.pow_le_mono_r; lia. }
  rewrite Nat2Z.inj_succ, Z.pow_succ_r by lia. assert (0 < 17 ^ Z.of_nat r) by (apply Z.pow_pos_nonneg; lia).
  unfold POOL, GRAPH_FRAME_POOL_SIZE in Hl. nia.
Qed.

(** * Lemmas: the steps of a round *)

(** The statistics of a round leave everything else alone. *)
Lemma count_frame_quiet n (frame : node_frame) rt :
  let rt' := foldl (fun rt p => rt |> count_packets n 1 |> count_bytes n (rte_pktmbuf_pkt_len p.1)) rt frame in
  graph_core (rt_graph rt') = graph_core (rt_graph rt) /\ rt' = set_rt_graph (rt_graph rt') rt.
Proof.
  revert rt. induction frame as [|p frame IH]; intros rt; cbn [foldl]; [by destruct rt|]. cbv zeta in IH.
  destruct (IH (rt |> count_packets n 1 |> count_bytes n (rte_pktmbuf_pkt_len p.1))) as [Hc Hr]. cbv zeta. split.
  - rewrite Hc. unfold count_bytes, count_packets. by rewrite !alter_stats_core.
  - rewrite Hr. by destruct rt.
Qed.

(** Dequeueing moves the slot from the queue to the running position. *)
Lemma pop_ok g count s : graph_inv g no_output [] -> gr_q_count g = S count ->
  let slot := nth (gr_q_head g) (gr_queue g) O in
  let g1 := g |> set_gr_q_head ((gr_q_head g + 1) mod GRAPH_FRAME_POOL_SIZE)%nat |> set_gr_q_count count in
  s = nth slot (gr_slots g) zero_graph_frame_slot ->
  queued g = slot :: queued g1 /\ gr_slots g !! slot = Some s /\ sl_used s = true /\ graph_inv g1 no_output [slot].
Proof.
  intros Hi Hc slot g1 Hs. destruct (gi_ring _ _ _ Hi) as [Hh Ht]. assert (Hq := queued_pop g count Hc Hh). fold slot g1 in Hq.
  assert (Hown : owned g1 no_output [slot] ≡ₚ owned g no_output []).
  { unfold owned. rewrite Hq, pendings_none. cbn [app]. rewrite app_nil_r. by rewrite <- Permutation_cons_append. }
  assert (Hin : slot ∈ owned g no_output []) by (unfold owned; rewrite Hq; set_solver).
  assert (Hlt : (slot < POOL)%nat) by (assert (Hb := gi_bound _ _ _ Hi); rewrite Forall_forall in Hb; by apply Hb).
  assert (Hslot : gr_slots g !! slot = Some s).
  { destruct (lookup_lt_is_Some_2 (gr_slots g) slot) as [s' Hs']; [destruct (gi_len _ _ _ Hi) as (-> & _); done|].
    rewrite Hs, nth_lookup, Hs'. done. }
  split; [done|]. split; [done|]. split; [by apply (gi_used _ _ _ Hi slot)|].
  constructor; rewrite ?Hown; try apply Hi.
  - unfold g1. cbn [gr_q_head gr_q_tail gr_q_count set_gr_q_head set_gr_q_count]. rewrite Ht, Hc. split; modlia.
  - intros i s' Hs'. rewrite Hown. by apply Hi.
Qed.

(** The running slot is given back. *)
Lemma free_slot_ok r g0 q0 slot rt out s : progress r g0 q0 [slot] (rt_graph rt) out -> room None (rt_graph rt) out ->
  gr_slots (rt_graph rt) !! slot = Some s -> sl_used s = true ->
  let rt' := free_slot slot rt in
  progress r g0 q0 [] (rt_graph rt') out /\ room None (rt_graph rt') out /\
  (forall id, balance rt' id = balance rt id + cnt (ids (sl_frame s)) id).
Proof.
  intros [Hi (new & Hq & Hrank) Hk] Hroom Hs Hu rt'.
  assert (Hsl : gr_slots (rt_graph rt') = <[slot := set_sl_used false s]> (gr_slots (rt_graph rt))).
  { unfold rt', free_slot, alter_graph. cbn [rt_graph set_rt_graph gr_slots set_gr_slots]. by apply list_alter_lookup. }
  assert (Hlt := lookup_lt_Some _ _ _ Hs).
  assert (Hne : forall i, i <> slot -> gr_slots (rt_graph rt') !! i = gr_slots (rt_graph rt) !! i)
    by (intros; rewrite Hsl; by apply list_lookup_insert_ne).
  assert (Hat : gr_slots (rt_graph rt') !! slot = Some (set_sl_used false s)) by (rewrite Hsl; by apply list_lookup_insert_eq).
  assert (Hd := gi_nodup _ _ _ Hi). unfold owned in Hd. rewrite app_assoc in Hd. apply NoDup_app in Hd as (Hd1 & Hd2 & _).
  assert (Hnot : slot ∉ queued (rt_graph rt) ++ pendings out) by (intros Hin; apply (Hd2 slot Hin); set_solver).
  split; [split|split].
  - constructor; try apply Hi.
    + rewrite Hsl, length_insert. apply Hi.
    + unfold owned. rewrite app_nil_r. done.
    + assert (Hb := gi_bound _ _ _ Hi). unfold owned in *. rewrite app_assoc, Forall_app in Hb. rewrite app_nil_r. apply Hb.
    + intros i s' Hs'. unfold owned. rewrite app_nil_r. destruct (decide (i = slot)) as [->|Hi'].
      * rewrite Hat in Hs'. injection Hs' as <-. simpl. split; [done|]. intros Hin. by apply Hnot in Hin.
      * rewrite Hne in Hs' by done. rewrite (gi_used _ _ _ Hi i s' Hs'). unfold owned. set_solver.
    + intros i s' Hs' Hu'. destruct (decide (i = slot)) as [->|Hi']; [|rewrite Hne in Hs' by done; by eapply gi_frames].
      rewrite Hat in Hs'. injection Hs' as <-. done.
    + intros n sl Ho. rewrite Hne; [by apply Hi|]. intros ->. apply Hnot. apply elem_of_app. right. apply pendings_elem. eauto.
  - exists new. split; [done|]. apply Forall_forall. intros i Hin. rewrite Forall_forall in Hrank. specialize (Hrank i Hin).
    unfold slot_node in *. rewrite Hne; [done|]. intros ->. apply Hnot. rewrite Hq. set_solver.
  - intros i Hin. rewrite app_nil_r in Hin. rewrite Hne; [apply Hk; set_solver|]. intros ->. apply Hnot. rewrite Hq. set_solver.
  - intros n sl s' _ Ho Hs'. rewrite Hne in Hs'; [by eapply Hroom|]. intros ->. apply Hnot. apply elem_of_app. right. apply pendings_elem. eauto.
  - intros id. unfold balance. rewrite Hsl, (held_slots_insert _ _ _ _ _ Hs). unfold slot_ids. cbn [sl_used set_sl_used]. rewrite Hu, cnt_nil.
    change (rt_dpdk rt') with (rt_dpdk rt). change (rt_pending_neighbours rt') with (rt_pending_neighbours rt). lia.
Qed.

(** Statistics, and changes elsewhere, keep the accounts. *)
Lemma balance_same rt rt' id : graph_core (rt_graph rt) = graph_core (rt_graph rt') ->
  rt_dpdk rt = rt_dpdk rt' -> rt_pending_neighbours rt = rt_pending_neighbours rt' -> balance rt id = balance rt' id.
Proof. unfold balance, graph_core. intros [= Hsl _ _ _ _ _] -> ->. by rewrite Hsl. Qed.

Lemma accounts_same b0 L rt rt' : graph_core (rt_graph rt) = graph_core (rt_graph rt') ->
  rt_dpdk rt = rt_dpdk rt' -> rt_pending_neighbours rt = rt_pending_neighbours rt' -> base rt = base rt' -> accounts b0 L rt -> accounts b0 L rt'.
Proof. intros H1 H2 H3 H4 [H Hb]. split; [|congruence]. intros id. rewrite <- (balance_same rt rt') by done. apply H. Qed.

Section scheduler.
Context (run : node_id -> node_frame -> app_runtime -> app_runtime) `{!NodeFunctions run}.

(** The first half of a round: from the dequeue to the node function. *)
Lemma round_start b0 L rt count : scheduled b0 L rt -> gr_q_count (rt_graph rt) = S count ->
  let g := rt_graph rt in
  let slot := nth (gr_q_head g) (gr_queue g) O in
  let s := nth slot (gr_slots g) zero_graph_frame_slot in
  let rt1 := set_rt_graph (g |> set_gr_q_head ((gr_q_head g + 1) mod GRAPH_FRAME_POOL_SIZE)%nat |> set_gr_q_count count) rt in
  let rt2 := foldl (fun rt p => rt |> count_packets (sl_node s) 1 |> count_bytes (sl_node s) (rte_pktmbuf_pkt_len p.1)) rt1 (sl_frame s) in
  let rt3 := set_rt_active_output (Some no_output) rt2 in
  exists q0, queued g = slot :: q0 /\ gr_slots g !! slot = Some s /\ sl_used s = true /\
    (length (sl_frame s) <= GRAPH_FRAME_SIZE)%nat /\ gr_slots (rt_graph rt3) = gr_slots g /\
    running (rank (sl_node s)) (rt_graph rt3) q0 [slot] (debit (sl_frame s) b0) (ids (sl_frame s) ++ L) rt3.
Proof.
  intros [Hact Hg Hpend Hacc] Hc g slot s rt1 rt2 rt3. destruct (pop_ok g count s Hg Hc eq_refl) as (Hq & Hs & Hu & Hi1).
  fold slot in Hq, Hs, Hi1. destruct (count_frame_quiet (sl_node s) (sl_frame s) rt1) as [Hcore Hrt2]. fold rt2 in Hcore, Hrt2.
  assert (Hcore3 : graph_core (rt_graph rt1) = graph_core (rt_graph rt3)) by (symmetry; exact Hcore).
  eexists. split; [exact Hq|]. split; [done|]. split; [done|]. split; [by eapply (gi_frames _ _ _ Hg)|].
  split; [assert (Hsl : gr_slots (rt_graph rt1) = gr_slots (rt_graph rt3)) by (unfold graph_core in Hcore3; congruence); by rewrite <- Hsl|].
  split.
  - exists no_output. split; [done|]. split; [split|].
    + eapply graph_inv_core; [exact Hcore3|exact Hi1].
    + exists []. split; [|by rewrite pendings_none]. rewrite app_nil_r. symmetry. exact (queued_core _ _ Hcore3).
    + done.
    + intros n sl s' _ Ho. by rewrite no_output_lookup in Ho.
  - unfold rt3, tables_wf. cbn [rt_pending_neighbours rt_ports set_rt_active_output]. by rewrite Hrt2.
  - destruct Hacc as [Hacc Hbase]. split; [|unfold rt3, base; cbn [rt_network rt_routes rt_ipv4_forwarding rt_ports set_rt_active_output]; by rewrite Hrt2].
    intros id. rewrite cnt_app. rewrite <- (balance_same rt1 rt3) by (first [done|unfold rt3; cbn; by rewrite Hrt2]).
    assert (H := Hacc id). change (balance rt1 id) with (balance rt id). cbn [bk_balance debit]. lia.
Qed.

(** The second half: the slot is freed and the outputs are queued. *)
Lemma round_end b0 L r g0 q0 slot s rt : running r g0 q0 [slot] (debit (sl_frame s) b0) L rt ->
  gr_slots g0 !! slot = Some s -> sl_used s = true ->
  let out := default no_output (rt_active_output rt) in
  let rt' := (flush_all (rt |> set_rt_active_output None |> free_slot slot) out).1 in
  scheduled b0 L rt' /\
  exists new, queued (rt_graph rt') = q0 ++ new /\ Forall (fun i => (rank (slot_node (rt_graph rt') i) < r)%nat) new /\
    (forall i, i ∈ q0 -> gr_slots (rt_graph rt') !! i = gr_slots g0 !! i).
Proof.
  intros [(out & Hact & Hp & Hroom) Hpend Hacc] Hs Hu. cbv zeta. rewrite Hact. change (default no_output (Some out)) with out. set (rt1 := set_rt_active_output None rt).
  assert (Hs1 : gr_slots (rt_graph rt1) !! slot = Some s) by (rewrite <- Hs; apply (pr_kept _ _ _ _ _ _ Hp); set_solver).
  assert (H := free_slot_ok r g0 q0 slot rt1 out s Hp Hroom Hs1 Hu). cbv zeta in H. destruct H as (Hp2 & Hroom2 & Hbal).
  set (rt2 := free_slot slot rt1) in *. unfold flush_all. assert (H := flush_nodes_ok r g0 q0 [] all_nodes rt2 out Hp2 Hroom2).
  destruct (foldl _ (rt2, out) all_nodes) as [rt' out'] eqn:Ef. destruct H as (Hp' & Hrt' & Hsl & _ & Hall). cbn [fst].
  assert (Hout : out' = no_output) by (apply empty_output; [apply Hp'|intros n; apply Hall, all_nodes_elem]). subst out'.
  split.
  - destruct Hacc as [Hacc Hbase]. split; [by rewrite Hrt'|apply Hp'|by rewrite Hrt'|]. split; [|by rewrite Hrt'].
    intros id. assert (H := Hacc id). cbn [bk_balance debit] in H. assert (Hb := Hbal id). change (balance rt1 id) with (balance rt id) in Hb.
    assert (Heq : balance rt' id = balance rt2 id) by (unfold balance; rewrite Hsl; by rewrite Hrt'). lia.
  - destruct (pr_queue _ _ _ _ _ _ Hp') as (new & Hq & Hrank). rewrite pendings_none, app_nil_r in Hrank.
    exists new. split; [done|]. split; [done|]. intros i Hi. apply (pr_kept _ _ _ _ _ _ Hp'). set_solver.
Qed.

Lemma graph_round_ok b0 L rt : scheduled b0 L rt ->
  match graph_round run rt with
  | Done rt' => rt' = rt /\ gr_q_count (rt_graph rt) = O
  | More rt' => scheduled b0 L rt' /\ 0 <= weight (rt_graph rt') < weight (rt_graph rt)
  end.
Proof.
  intros Hsc. unfold graph_round. destruct (gr_q_count (rt_graph rt)) as [|count] eqn:Ec; [done|].
  destruct (round_start b0 L rt count Hsc Ec) as (q0 & Hq & Hs & Hu & Hlen & Hsl & Hrun). cbv zeta in *.
  set (slot := nth (gr_q_head _) _ _) in *. set (s := nth slot _ _) in *. set (rt3 := set_rt_active_output _ (foldl _ _ _)) in *.
  assert (Hfun := gi_run _ _ _ (sc_graph _ _ _ Hsc) (sl_node s)). rewrite list_lookup_fmap in Hfun.
  apply fmap_Some in Hfun as (d & Hd & Hdr). rewrite Hd, <- Hdr.
  apply (node_run_ok (sl_node s) (sl_frame s)) in Hrun; [|done]. set (rt4 := run _ _ rt3) in *.
  assert (Hs3 : gr_slots (rt_graph rt3) !! slot = Some s) by (by rewrite Hsl).
  destruct (round_end b0 L _ _ _ _ _ _ Hrun Hs3 Hu) as (Hsc' & new & Hq' & Hrank & Hkept). set (rt' := (flush_all _ _).1) in *.
  split; [done|]. split; [eapply weight_bound, Hsc'|]. unfold weight. rewrite Hq, Hq', fmap_app, sum_list_Z_app, fmap_cons.
  assert (Hlow : sum_list_Z (slot_weight (rt_graph rt') <$> new) < slot_weight (rt_graph rt) slot).
  { unfold slot_weight at 2. unfold slot_node. rewrite Hs. apply lower_weight; [done|].
    assert (Hle := pool_bound _ (gi_nodup _ _ _ (sc_graph _ _ _ Hsc')) (gi_bound _ _ _ (sc_graph _ _ _ Hsc'))).
    unfold owned in Hle. rewrite Hq', !length_app in Hle. lia. }
  assert (Hsame : slot_weight (rt_graph rt') <$> q0 = slot_weight (rt_graph rt) <$> q0).
  { apply list_fmap_ext. intros k i Hi. unfold slot_weight, slot_node. rewrite Hkept by (by eapply list_elem_of_lookup_2). by rewrite Hsl. }
  rewrite Hsame. unfold sum_list_Z in *. cbn [foldr] in *. lia.
Qed.

(** The loop of [graph_submit] always reaches the empty queue. *)
Lemma graph_drain_ok b0 L rt : scheduled b0 L rt -> idle b0 L (graph_drain run rt).
Proof.
  intros Hsc. unfold graph_drain.
  assert (H : exists rt', iterate 40 (graph_round run) rt = Done rt' /\ scheduled b0 L rt').
  { apply (iterate_terminates _ (fun rt => weight (rt_graph rt)) (scheduled b0 L)); [| |done|eapply weight_bound, Hsc].
    - intros rt1 rt2 H1 E. assert (H := graph_round_ok b0 L rt1 H1). by rewrite E in H.
    - intros rt1 rt2 H1 E. assert (H := graph_round_ok b0 L rt1 H1). rewrite E in H. by destruct H as [-> _]. }
  destruct H as (rt' & E & Hsc'). rewrite E. split; [done|].
  assert (Hd : exists rt0, scheduled b0 L rt0 /\ graph_round run rt0 = Done rt').
  { clear Hsc'. revert rt E Hsc. generalize 40%nat. intros n. induction n as [|n IH]; intros rt E Hsc; simpl in E; [eauto|].
    destruct (iterate n (graph_round run) rt) as [rt1|rt1] eqn:E1; [|injection E as <-; eauto].
    eapply IH; [exact E|]. assert (H := iterate_done_measure (graph_round run) (fun rt => weight (rt_graph rt)) (scheduled b0 L)).
    assert (H' := fun Ha Hb => H Ha Hb n rt Hsc). rewrite E1 in H'. apply H'.
    - intros rt2 rt3 H2 E2. assert (H3 := graph_round_ok b0 L rt2 H2). by rewrite E2 in H3.
    - intros rt2 rt3 H2 E2. assert (H3 := graph_round_ok b0 L rt2 H2). rewrite E2 in H3. by destruct H3 as [-> _].
    - eapply weight_bound, Hsc. }
  destruct Hd as (rt0 & H0 & E0). assert (H := graph_round_ok b0 L rt0 H0). rewrite E0 in H. by destruct H as [-> H].
Qed.

(** [graph_submit] queues its frame and then drains. *)
Lemma graph_seeded b0 L n frame rt : idle b0 (ids frame ++ L) rt -> (length frame <= GRAPH_FRAME_SIZE)%nat ->
  exists rt', graph_submit run n frame rt = (0, graph_drain run rt') /\ scheduled b0 L rt' /\ rt' = set_rt_dpdk (rt_dpdk rt') (set_rt_graph (rt_graph rt') rt) /\
    Forall (fun i => (rank (slot_node (rt_graph rt') i) <= rank n)%nat) (queued (rt_graph rt')).
Proof.
  intros [[Hact Hg Hpend Hacc] Hcount] Hlen. unfold graph_submit.
  destruct (Nat.ltb_spec GRAPH_FRAME_SIZE (length frame)) as [?|_]; [lia|].
  assert (Hp : progress (S (rank n)) (rt_graph rt) [] [] (rt_graph rt) no_output).
  { split; [done| |done]. exists []. split; [|by rewrite pendings_none]. unfold queued. by rewrite Hcount. }
  assert (Hroom : room None (rt_graph rt) no_output) by (intros k sl s _ Ho; by rewrite no_output_lookup in Ho).
  assert (H := enqueue_frame_ok (S (rank n)) (rt_graph rt) [] [] n frame (Nat.lt_succ_diag_r _) rt no_output Hp Hroom).
  destruct (foldl _ (rt, no_output) frame) as [rt1 seed]. destruct H as (Hp1 & Hroom1 & Hrt1 & Hout1 & Hb1).
  assert (Hroom2 : room (Some n) (rt_graph rt1) seed) by (intros k sl s _; by apply Hroom1).
  destruct (flush_pending_ok _ _ _ _ rt1 seed n Hp1 Hroom2) as (rt2 & out2 & Hf & Hp2 & _ & Hrt2 & Hsl2 & Hout2). rewrite Hf.
  assert (Hnone : out2 = no_output).
  { apply empty_output; [apply Hp2|]. intros k. rewrite Hout2. destruct (decide (n = k)) as [->|Hne].
    - apply list_lookup_insert_eq. destruct (gi_len _ _ _ (pr_inv _ _ _ _ _ _ Hp1)) as (_ & _ & ->). apply node_index_lt.
    - rewrite list_lookup_insert_ne by (intros Heq; by apply node_index_inj in Heq).
      rewrite Hout1 by (intros Heq; by apply node_index_inj in Heq). apply no_output_lookup. }
  exists rt2. split; [reflexivity|]. rewrite Hnone in Hp2. split; [|split].
  2: { by rewrite Hrt2, Hrt1. }
  2: { destruct (pr_queue _ _ _ _ _ _ Hp2) as (new & Hq & Hr). rewrite pendings_none, app_nil_r in Hr. rewrite Hq. cbn [app].
       eapply Forall_impl; [exact Hr|]. intros i Hi. simpl in Hi. lia. }
  split.
  - rewrite Hrt2, Hrt1. done.
  - apply Hp2.
  - rewrite Hrt2, Hrt1. done.
  - destruct Hacc as [Hacc Hbase]. split; [|by rewrite Hrt2, Hrt1].
    intros id. assert (H := Hacc id). rewrite cnt_app in H. assert (Hb := Hb1 id).
    assert (Heq : balance rt2 id = balance rt1 id) by (unfold balance; rewrite Hsl2; by rewrite Hrt2). lia.
Qed.

(** [graph_submit] takes the packets of its frame, finishes, and leaves nothing
    queued. *)
Lemma graph_submit_ok b0 L n frame rt : idle b0 (ids frame ++ L) rt -> (length frame <= GRAPH_FRAME_SIZE)%nat ->
  exists rt', graph_submit run n frame rt = (0, rt') /\ idle b0 L rt'.
Proof.
  intros H Hl. destruct (graph_seeded b0 L n frame rt H Hl) as (rt' & -> & Hsc & _). eexists. split; [done|]. by apply graph_drain_ok.
Qed.
End scheduler.
