(* ===== verification/Ownership.v ===== *)
(** Who owns a buffer.  [own L rt] says that the code holds exactly the buffers
    [L] in hand, everything else being accounted for in the ledger.  The protocol
    code (ICMP errors, neighbour resolution, TCP, UDP) is verified once against
    this interface; it holds both inside a node function, where packets go to the
    running node's output, and outside the scheduler, where they are submitted. *)
From S2P Require Import Prelude.
From S2P Require Import Dpdk.
From S2P Require Import Types.
From S2P Require Import Netif.
From S2P Require Import Graph.
From S2P Require Import GraphInv.
From S2P Require Import Scheduler.
From S2P Require Import Resolution.

(** * Changes that no buffer notices *)

Definition quiet (rt rt' : app_runtime) : Prop :=
  graph_core (rt_graph rt) = graph_core (rt_graph rt') /\ rt_active_output rt = rt_active_output rt' /\
  (rt_pending_neighbours rt, base rt) = (rt_pending_neighbours rt', base rt') /\ (forall id, ledger (rt_dpdk rt) id = ledger (rt_dpdk rt') id).

#[export] Instance quiet_equivalence : Equivalence quiet.
Proof.
  split.
  - by intros rt.
  - intros rt rt' (H1 & H2 & H3 & H4). split_and!; auto.
  - intros a b c (H1 & H2 & H3 & H4) (K1 & K2 & K3 & K4). split_and!; [congruence..|].
    intros id. by rewrite H4.
Qed.

Create HintDb quiet.

Lemma quiet_alter_stats rt rt' n f : quiet rt rt' -> quiet rt (alter_stats n f rt').
Proof. intros (H1 & H2 & H3 & H4). split_and!; try done. by rewrite alter_stats_core. Qed.

Lemma quiet_count_packets rt rt' n k : quiet rt rt' -> quiet rt (count_packets n k rt').
Proof. apply quiet_alter_stats. Qed.
Lemma quiet_count_bytes rt rt' n k : quiet rt rt' -> quiet rt (count_bytes n k rt').
Proof. apply quiet_alter_stats. Qed.
Lemma quiet_count_drops rt rt' n k : quiet rt rt' -> quiet rt (count_drops n k rt').
Proof. apply quiet_alter_stats. Qed.
Lemma quiet_count_errors rt rt' n k : quiet rt rt' -> quiet rt (count_errors n k rt').
Proof. apply quiet_alter_stats. Qed.
Lemma quiet_count_reason rt rt' n k : quiet rt rt' -> quiet rt (count_reason n k rt').
Proof. done. Qed.
Lemma quiet_ports rt rt' v : port_base <$> v = port_base <$> rt_ports rt' -> quiet rt rt' -> quiet rt (set_rt_ports v rt').
Proof. intros Hv (H1 & H2 & H3 & H4). split_and!; try done. unfold base. cbn [rt_ports set_rt_ports]. rewrite Hv. exact H3. Qed.
Lemma quiet_acl_stats rt rt' v : quiet rt rt' -> quiet rt (set_rt_acl_stats v rt').
Proof. done. Qed.
Lemma quiet_events rt rt' v : quiet rt rt' -> quiet rt (set_rt_events v rt').
Proof. done. Qed.
Lemma quiet_neighbours rt rt' v : quiet rt rt' -> quiet rt (set_rt_neighbours v rt').
Proof. done. Qed.
Lemma quiet_sockets rt rt' v : quiet rt rt' -> quiet rt (set_rt_sockets v rt').
Proof. done. Qed.
Lemma quiet_tcp_stats rt rt' v : quiet rt rt' -> quiet rt (set_rt_tcp_stats v rt').
Proof. done. Qed.
Lemma quiet_timer_next rt rt' v : quiet rt rt' -> quiet rt (set_rt_tcp_timer_next v rt').
Proof. done. Qed.
Lemma quiet_icmp rt rt' v : quiet rt rt' -> quiet rt (set_rt_icmp_errors v rt').
Proof. done. Qed.
Lemma quiet_learn_failures rt rt' v : quiet rt rt' -> quiet rt (set_rt_neighbour_learn_failures v rt').
Proof. done. Qed.
Lemma quiet_ip_id rt rt' v : quiet rt rt' -> quiet rt (set_rt_next_ip_id v rt').
Proof. done. Qed.
Lemma quiet_tx_packets rt rt' v : quiet rt rt' -> quiet rt (set_rt_tx_packets v rt').
Proof. done. Qed.
Lemma quiet_accepted rt rt' v : quiet rt rt' -> quiet rt (set_rt_accepted_sends v rt').
Proof. done. Qed.

#[export] Hint Resolve quiet_count_packets quiet_count_bytes quiet_count_drops quiet_count_errors quiet_count_reason
  quiet_acl_stats quiet_events quiet_neighbours quiet_sockets quiet_tcp_stats quiet_timer_next
  quiet_icmp quiet_learn_failures quiet_ip_id quiet_tx_packets quiet_accepted : quiet.
#[export] Hint Extern 0 (quiet ?x ?x) => reflexivity : quiet.

(** * The interface *)

(** How the protocol code passes packets to a node. *)
Definition send (submit : node_id -> node_frame -> app_runtime -> app_runtime) (n : node_id) (frame : node_frame)
  (rt : app_runtime) : app_runtime :=
  match rt_active_output rt with
  | Some _ => foldl (fun rt p => enqueue n p.1 p.2 rt) rt frame
  | None => submit n frame rt
  end.

Class Ownership {D : Dpdk} (submit : node_id -> node_frame -> app_runtime -> app_runtime)
  (allowed : node_id -> Prop) (own : list Z -> app_runtime -> Prop) : Prop := {
  own_perm : forall L L' rt, L ≡ₚ L' -> own L rt -> own L' rt;
  own_quiet : forall L rt rt', quiet rt rt' -> own L rt -> own L rt';
  own_free : forall L m rt, own (mb_id m :: L) rt -> own L (mbuf_free m rt);
  own_alloc : forall L rt, own L rt ->
    own (match (mbuf_alloc rt).1 with Some m => mb_id m :: L | None => L end) (mbuf_alloc rt).2;
  own_send : forall L n frame rt, allowed n -> (length frame <= NEIGHBOUR_PENDING_QUEUE_MAX)%nat ->
    own (ids frame ++ L) rt -> own L (send submit n frame rt);
  own_pending_wf : forall L rt, own L rt -> pending_wf (rt_pending_neighbours rt);
  own_set_pending : forall L L' i p rt, (i < NEIGHBOUR_PENDING_MAX)%nat ->
    (length (pn_packets p) <= NEIGHBOUR_PENDING_QUEUE_MAX)%nat ->
    ids (pn_packets (pending_at rt i)) ++ L ≡ₚ ids (pn_packets p) ++ L' -> own L rt -> own L' (set_pending i p rt)
}.

(** * Inside a node function *)

Lemma accounts_perm b0 L L' rt : L ≡ₚ L' -> accounts b0 L rt -> accounts b0 L' rt.
Proof. intros Hp [H Hb]. split; [|done]. intros id. rewrite <- (cnt_perm L L') by done. apply H. Qed.

Lemma balance_quiet rt rt' id : quiet rt rt' -> balance rt id = balance rt' id.
Proof. intros (Hc & _ & Hp & Hl). unfold balance, graph_core in *. injection Hc as Hsl _ _ _ _ _. injection Hp as Hp _ _ _ _. by rewrite Hsl, Hp, Hl. Qed.

Lemma base_shape (l l' : list port_state) : port_base <$> l = port_base <$> l' -> port_shape l = port_shape l'.
Proof.
  intros H. assert (Hs : forall k, port_shape k = (fun p => (pt_configured p, pt_port_id p)) <$> (port_base <$> k))
    by (intros k; unfold port_shape; by rewrite <- list_fmap_compose).
  by rewrite (Hs l), (Hs l'), H.
Qed.

Lemma tables_quiet rt rt' : quiet rt rt' -> tables_wf rt -> tables_wf rt'.
Proof.
  intros (_ & _ & Hp & _) [H1 H2]. injection Hp as Hp _ _ _ Hs. split; [by rewrite <- Hp|]. eapply ports_wf_shape; [|done]. by apply base_shape.
Qed.

Lemma accounts_quiet b0 L rt rt' : quiet rt rt' -> accounts b0 L rt -> accounts b0 L rt'.
Proof.
  intros Hq [H Hb]. split; [|destruct Hq as (_ & _ & Hq & _); by rewrite <- Hb, (f_equal snd Hq : base rt = base rt')]. intros id. rewrite <- (balance_quiet rt rt') by done. apply H.
Qed.

Lemma accounts_free b0 L m rt : accounts b0 (mb_id m :: L) rt -> accounts b0 L (mbuf_free m rt).
Proof.
  intros [H Hbase]. split; [|done]. intros id. assert (Hb := H id). rewrite cnt_cons in Hb. unfold balance in *. unfold mbuf_free, record_event.
  cbn [rt_dpdk set_rt_dpdk rt_graph rt_pending_neighbours ledger foldr acquired released]. rewrite cnt_nil. unfold ledger in Hb. lia.
Qed.

Lemma accounts_alloc {D : Dpdk} b0 L rt : accounts b0 L rt ->
  accounts b0 (match (mbuf_alloc rt).1 with Some m => mb_id m :: L | None => L end) (mbuf_alloc rt).2.
Proof.
  intros [Hacc Hbase]. split; [|done]. intros id. assert (Hb := Hacc id). unfold balance in *. unfold mbuf_alloc, record_event. cbn [fst snd].
  cbn [rt_dpdk set_rt_dpdk rt_graph rt_pending_neighbours ledger foldr released]. unfold ledger in Hb.
  destruct (alloc_of (rt_dpdk rt)) as [m|]; cbn [acquired]; [rewrite (cnt_cons (mb_id m) L)|]; rewrite ?cnt_nil; lia.
Qed.

Lemma pending_lookup rt i : pending_wf (rt_pending_neighbours rt) -> (i < NEIGHBOUR_PENDING_MAX)%nat ->
  rt_pending_neighbours rt !! i = Some (pending_at rt i).
Proof.
  intros [Hl _] Hi. unfold pending_at. rewrite nth_lookup.
  destruct (lookup_lt_is_Some_2 (rt_pending_neighbours rt) i) as [x Hx]; [lia|]. by rewrite Hx.
Qed.

Lemma tables_wf_set rt i p : tables_wf rt ->
  (length (pn_packets p) <= NEIGHBOUR_PENDING_QUEUE_MAX)%nat -> tables_wf (set_pending i p rt).
Proof. intros [[Hl Hf] Hports] Hp. split; [|done]. split; cbn; [by rewrite length_insert|]. by apply Forall_insert. Qed.

Lemma accounts_set_pending b0 L L' i p rt : pending_wf (rt_pending_neighbours rt) -> (i < NEIGHBOUR_PENDING_MAX)%nat ->
  ids (pn_packets (pending_at rt i)) ++ L ≡ₚ ids (pn_packets p) ++ L' -> accounts b0 L rt -> accounts b0 L' (set_pending i p rt).
Proof.
  intros Hwf Hi Hperm [H Hbase]. split; [|done]. intros id. assert (Hb := H id). assert (Hlook := pending_lookup rt i Hwf Hi).
  unfold balance in *. cbn [rt_dpdk rt_graph rt_pending_neighbours set_pending set_rt_pending_neighbours].
  rewrite (pending_ids_insert _ _ _ _ _ Hlook). apply (cnt_perm _ _ id) in Hperm. rewrite !cnt_app in Hperm. lia.
Qed.

Lemma enqueue_running r g0 q0 cur b0 L n m ctx rt : (rank n < r)%nat ->
  running r g0 q0 cur b0 (mb_id m :: L) rt -> running r g0 q0 cur b0 L (enqueue n m ctx rt).
Proof.
  intros Hr [(out & Hact & Hp & Hroom) Hpend Hacc]. unfold enqueue, enqueue_active. rewrite Hact.
  destruct (node_enqueue_ok r g0 q0 cur rt out n m ctx Hp Hroom Hr) as (rc & rt' & out' & He & Hp' & Hroom' & Hrt' & _ & Hb).
  rewrite He. cbn [snd]. split.
  - exists out'. done.
  - cbn. by rewrite Hrt'.
  - destruct Hacc as [Hacc Hbase]. split; [|by rewrite Hrt'].
    intros id. change (balance (set_rt_active_output (Some out') rt') id) with (balance rt' id).
    rewrite Hb. assert (H := Hacc id). rewrite cnt_cons in H. lia.
Qed.

#[export] Instance running_ownership {D : Dpdk} submit r g0 q0 cur b0 :
  Ownership submit (fun n => (rank n < r)%nat) (running r g0 q0 cur b0).
Proof.
  split.
  - intros L L' rt Hp [H1 H2 H3]. split; [done|done|by eapply accounts_perm].
  - intros L rt rt' Hq [(out & Hact & Hp & Hroom) Hpend Hacc]. assert (Hq' := Hq). destruct Hq' as (Hc & Ha & Hn & _). split.
    + exists out. rewrite <- Ha. split; [done|]. split; [by eapply progress_core|by eapply room_core].
    + by eapply tables_quiet.
    + by eapply accounts_quiet.
  - intros L m rt [H1 H2 H3]. split; [done|done|by apply accounts_free].
  - intros L rt [H1 H2 H3]. split; [done|done|by apply accounts_alloc].
  - intros L n frame rt Hr _ Hrun. unfold send. destruct (rn_out _ _ _ _ _ _ _ Hrun) as (out & -> & _).
    revert rt Hrun. induction frame as [|[m ctx] frame IH]; intros rt Hrun; [exact Hrun|]. cbn [foldl fst snd].
    apply IH. by apply enqueue_running.
  - by intros L rt [_ [H _] _].
  - intros L L' i p rt Hi Hp Hperm [H1 H2 H3]. split; [done|by apply tables_wf_set|by eapply accounts_set_pending; [apply H2| |..]].
Qed.

(** * Outside the scheduler *)

(** What the rest of the stack expects of a [submit] function. *)
Class Submits (submit : node_id -> node_frame -> app_runtime -> app_runtime) : Prop :=
  submit_ok : forall n frame rt b0 L, (length frame <= GRAPH_FRAME_SIZE)%nat ->
    idle b0 (ids frame ++ L) rt -> idle b0 L (submit n frame rt).

#[export] Instance idle_ownership {D : Dpdk} submit `{!Submits submit} b0 : Ownership submit (fun _ => True) (idle b0).
Proof.
  split.
  - intros L L' rt Hp [[H1 H2 H3 H4] H5]. split; [|done]. split; [done|done|done|by eapply accounts_perm].
  - intros L rt rt' Hq [[H1 H2 H3 H4] H5]. assert (Hq' := Hq). destruct Hq' as (Hc & Ha & Hn & _). split.
    + split; [by rewrite <- Ha|by eapply graph_inv_core|by eapply tables_quiet|by eapply accounts_quiet].
    + unfold graph_core in Hc. congruence.
  - intros L m rt [[H1 H2 H3 H4] H5]. split; [|done]. split; [done|done|done|by apply accounts_free].
  - intros L rt [[H1 H2 H3 H4] H5]. split; [|done]. split; [done|done|done|by apply accounts_alloc].
  - intros L n frame rt _ Hl Hidle. unfold send. rewrite (sc_inactive _ _ _ (proj1 Hidle)).
    apply submit_ok; [unfold NEIGHBOUR_PENDING_QUEUE_MAX, GRAPH_FRAME_SIZE in *; lia|done].
  - by intros L rt [[_ _ [H _] _] _].
  - intros L L' i p rt Hi Hp Hperm [[H1 H2 H3 H4] H5]. split; [|done].
    split; [done|done|by apply tables_wf_set|by eapply accounts_set_pending; [apply H3| |..]].
Qed.
