(* ===== verification/Protocols.v ===== *)
(** The protocol code keeps the accounts: ICMP errors, neighbour resolution, UDP
    and TCP, verified against [Ownership]. *)
From S2P Require Import Prelude.
From S2P Require Import Dpdk.
From S2P Require Import Types.
From S2P Require Import Netif.
From S2P Require Import PolicyRoute.
From S2P Require Import Neighbour.
From S2P Require Import Graph.
From S2P Require Import Packet.
From S2P Require Import GraphInv.
From S2P Require Import Scheduler.
From S2P Require Import IcmpError.
From S2P Require Import Resolution.
From S2P Require Import Sockets.
From S2P Require Import Udp.
From S2P Require Import Tcp.
From S2P Require Import Ownership.

(** * Quiet functions *)

Lemma quiet_record rt rt' e : acquired e = [] -> released e = [] -> quiet rt rt' -> quiet rt (record_event e rt').
Proof.
  intros Ha Hr (H1 & H2 & H3 & H4). split_and!; try done. intros id. cbn. rewrite Ha, Hr, H4. unfold ledger. cbn. lia.
Qed.

Lemma quiet_timer {D : Dpdk} rt rt' : quiet rt rt' -> quiet rt (timer_cycles rt').2.
Proof. by apply quiet_record. Qed.
Lemma quiet_rand {D : Dpdk} rt rt' : quiet rt rt' -> quiet rt (rte_rand rt').2.
Proof. by apply quiet_record. Qed.

Lemma quiet_alter_icmp rt rt' f : quiet rt rt' -> quiet rt (alter_icmp f rt').
Proof. done. Qed.
Lemma quiet_icmp_suppressed rt rt' : quiet rt rt' -> quiet rt (icmp_suppressed rt').
Proof. done. Qed.
Lemma quiet_icmp_failed rt rt' : quiet rt rt' -> quiet rt (icmp_failed rt').
Proof. done. Qed.
Lemma quiet_alter_sock rt rt' i f : quiet rt rt' -> quiet rt (alter_sock i f rt').
Proof. done. Qed.
Lemma quiet_clear_sock rt rt' i : quiet rt rt' -> quiet rt (clear_sock i rt').
Proof. done. Qed.
Lemma quiet_alter_tcp rt rt' i f : quiet rt rt' -> quiet rt (alter_tcp i f rt').
Proof. done. Qed.
Lemma quiet_tcp_stat rt rt' f : quiet rt rt' -> quiet rt (alter_tcp_stats f rt').
Proof. done. Qed.
Lemma quiet_event rt rt' group id action : quiet rt rt' -> quiet rt (admin_event_emit rt' group id action).
Proof. unfold admin_event_emit. destruct (rt_network rt'); [|done]. auto with quiet. Qed.
Lemma quiet_neighbour_event rt rt' dev ip action : quiet rt rt' -> quiet rt (admin_neighbour_event rt' dev ip action).
Proof.
  intros H. unfold admin_neighbour_event. apply (quiet_event _ _ ADM_NEIGH ip action) in H.
  destruct (rt_network _); [|done]. auto with quiet.
Qed.

#[export] Hint Resolve quiet_timer quiet_rand quiet_alter_icmp quiet_icmp_suppressed quiet_icmp_failed quiet_alter_sock
  quiet_clear_sock quiet_alter_tcp quiet_event quiet_neighbour_event : quiet.
#[export] Hint Extern 1 (quiet _ (stat_sent _)) => apply quiet_tcp_stat : quiet.
#[export] Hint Extern 1 (quiet _ (stat_output_failed _)) => apply quiet_tcp_stat : quiet.
#[export] Hint Extern 1 (quiet _ (stat_closed _)) => apply quiet_tcp_stat : quiet.
#[export] Hint Extern 1 (quiet _ (stat_resets _)) => apply quiet_tcp_stat : quiet.
#[export] Hint Extern 1 (quiet _ (stat_syns _)) => apply quiet_tcp_stat : quiet.
#[export] Hint Extern 1 (quiet _ (stat_established _)) => apply quiet_tcp_stat : quiet.
#[export] Hint Extern 1 (quiet _ (stat_duplicate _)) => apply quiet_tcp_stat : quiet.
#[export] Hint Extern 1 (quiet _ (stat_out_of_order _)) => apply quiet_tcp_stat : quiet.
#[export] Hint Extern 1 (quiet _ (stat_timeouts _)) => apply quiet_tcp_stat : quiet.
#[export] Hint Extern 1 (quiet _ (stat_retransmissions _)) => apply quiet_tcp_stat : quiet.

Lemma quiet_initialize {D : Dpdk} rt rt' i now : quiet rt rt' -> quiet rt (initialize i now rt').
Proof. intros H. unfold initialize. destruct (rte_rand rt') as [r rt1] eqn:E. apply quiet_alter_tcp.
  replace rt1 with (rte_rand rt').2 by (by rewrite E). auto with quiet. Qed.
#[export] Hint Resolve quiet_initialize : quiet.

Lemma quiet_allocate rt rt' type : quiet rt rt' -> quiet rt (socket_allocate rt' type).2.
Proof. intros H. unfold socket_allocate. destruct (find_index _ _); [|done]. cbn [snd]. auto with quiet. Qed.

Lemma quiet_ephemeral tries i ip rt rt' : quiet rt rt' -> quiet rt (ephemeral_port tries i ip rt').2.
Proof.
  revert rt'. induction tries as [|tries IH]; intros rt' H; [done|]. unfold ephemeral_port; fold ephemeral_port.
  destruct (next_ephemeral rt') as [port rt1] eqn:E. assert (H1 : quiet rt rt1) by (injection E as _ <-; auto with quiet).
  destruct (port_available rt1 _ _); [exact H1|]. by apply IH.
Qed.

Lemma quiet_bind i addr rt rt' : quiet rt rt' -> quiet rt (socket_bind i addr rt').2.
Proof.
  intros H. unfold socket_bind. destruct (truth _); [done|]. destruct (_ && _); [done|]. destruct (negb _).
  - assert (He := quiet_ephemeral EPHEMERAL_TRIES i (sa_ip_be addr) rt rt' H).
    destruct (ephemeral_port _ _ _ _) as [[port|] rt1]; [|done]. cbn [snd] in He. destruct (negb _); [done|]. cbn [snd]. auto with quiet.
  - destruct (negb _); [done|]. cbn [snd]. auto with quiet.
Qed.
#[export] Hint Resolve quiet_allocate quiet_bind : quiet.

Lemma quiet_deliver ip port source payload rt rt' : quiet rt rt' -> quiet rt (udp_deliver ip port source payload rt').2.
Proof.
  intros H. unfold udp_deliver. destruct (socket_bound _ _ _ _); [|done]. destruct (_ && _); [done|]. destruct (_ <? _); [done|].
  destruct (_ =? _); [done|]. cbn [snd]. auto with quiet.
Qed.
#[export] Hint Resolve quiet_deliver : quiet.

(** [own] after quiet changes. *)
Ltac own_quietly := match goal with
  | H : ?own ?L ?rt |- ?own ?L _ => apply (own_quiet (own := own) L rt); [solve [eauto 12 with quiet]|exact H]
  end.

Section protocols.
Context {D : Dpdk} {DL : DpdkLaws} {submit : node_id -> node_frame -> app_runtime -> app_runtime}
  {allowed : node_id -> Prop} {own : list Z -> app_runtime -> Prop} {OW : Ownership submit allowed own}.

(** A packet passed to one node. *)
Lemma own_send_one L n m ctx rt : allowed n -> own (mb_id m :: L) rt -> own L (send submit n [(m, ctx)] rt).
Proof. intros Hn H. apply own_send; [done|simpl; unfold NEIGHBOUR_PENDING_QUEUE_MAX; lia|exact H]. Qed.

Lemma send_one_active n m ctx rt out : rt_active_output rt = Some out -> send submit n [(m, ctx)] rt = enqueue n m ctx rt.
Proof. intros H. unfold send. by rewrite H. Qed.

Lemma own_alloc_eq L rt m rt' : own L rt -> mbuf_alloc rt = (m, rt') ->
  own (match m with Some m => mb_id m :: L | None => L end) rt'.
Proof. intros H E. assert (Ha := own_alloc L rt H). by rewrite E in Ha. Qed.

(** ** ICMP *)

Lemma send_ipv4_own L m ctx rt : allowed NODE_IPV4_OUTPUT -> own (mb_id m :: L) rt -> own L (send_ipv4 submit m ctx rt).2.
Proof.
  intros Hn H. apply (own_send_one L NODE_IPV4_OUTPUT m ctx) in H; [|done]. unfold send_ipv4, send in *.
  destruct (rt_active_output rt); exact H.
Qed.

Lemma icmp_send_error_own L original ctx type code mtu now rt : allowed NODE_IPV4_OUTPUT -> own L rt ->
  own L (icmp_send_error submit original ctx type code mtu now rt).
Proof.
  intros Hn H. unfold icmp_send_error. destruct (negb _); [own_quietly|].
  destruct (take_token _ _) as [granted state]. set (rt1 := set_rt_icmp_errors state rt).
  assert (H1 : own L rt1) by own_quietly. clearbody rt1. clear H. destruct (negb granted); [own_quietly|].
  destruct (ipv4_route_query _ _ _ _ _) as [reason route]. destruct (_ || _); [own_quietly|].
  destruct (mbuf_alloc rt1) as [[m|] rt2] eqn:E; apply (own_alloc_eq _ _ _ _ H1) in E; cbn in E; [|own_quietly].
  destruct (rte_pktmbuf_append m _) as [m'|] eqn:Em.
  - apply append_id in Em. match goal with |- own _ (let '(_, _) := send_ipv4 _ ?x ?c _ in _) => assert (Hs : own L (send_ipv4 submit x c rt2).2) end.
    { apply send_ipv4_own; [done|]. rewrite put_bytes_id, Em. exact E. }
    destruct (send_ipv4 _ _ _ _) as [rc rt3]. cbn [snd] in Hs. destruct (truth rc); own_quietly.
  - apply own_free in E. own_quietly.
Qed.

(** ** Neighbour resolution *)

Lemma arp_request_own L port ip rt : allowed NODE_ARP_OUTPUT -> own L rt -> own L (arp_request submit port ip rt).
Proof.
  intros Hn H. unfold arp_request. destruct (mbuf_alloc rt) as [[m|] rt1] eqn:E; apply (own_alloc_eq _ _ _ _ H) in E; cbn in E; [|own_quietly].
  set (ctx := zero_packet_ctx |> _ |> _). apply (own_send_one L NODE_ARP_OUTPUT m ctx) in E; [|done].
  unfold send in E. destruct (rt_active_output rt1); exact E.
Qed.

Lemma zero_pending_own L i rt : (i < NEIGHBOUR_PENDING_MAX)%nat -> own L rt ->
  own (ids (pn_packets (pending_at rt i)) ++ L) (set_pending i zero_pending_neighbour rt).
Proof. intros Hi H. eapply own_set_pending; [done|simpl; lia| |exact H]. done. Qed.

Lemma release_pending_own L i rt : allowed NODE_ETH_OUTPUT -> (i < NEIGHBOUR_PENDING_MAX)%nat -> own L rt ->
  own L (release_pending submit i rt).
Proof.
  intros Hn Hi H. unfold release_pending. apply (own_send L NODE_ETH_OUTPUT) ; [done| |by apply zero_pending_own].
  destruct (own_pending_wf L rt H) as [Hl Hf]. rewrite Forall_forall in Hf. apply Hf.
  eapply list_elem_of_lookup_2, pending_lookup; [by apply (own_pending_wf L)|done].
Qed.

Lemma discard_pending_own L i reason now rt : allowed NODE_IPV4_OUTPUT -> (i < NEIGHBOUR_PENDING_MAX)%nat -> own L rt ->
  own L (discard_pending submit i reason now rt).
Proof.
  intros Hn Hi H. unfold discard_pending. apply (zero_pending_own L i) in H; [|done].
  set (packets := pn_packets (pending_at rt i)) in *. set (rt1 := count_reason _ _ _).
  assert (H1 : own (ids packets ++ L) rt1) by (unfold rt1; own_quietly). clearbody rt1. clear H. revert rt1 H1.
  induction packets as [|[m ctx] packets IH]; intros rt1 H1; [exact H1|]. cbn [foldl fst snd]. apply IH. apply own_free.
  apply (own_quiet _ (if bool_decide (reason = DROP_NEIGHBOUR_RESOLUTION_TIMEOUT) && cx_transit ctx then
    icmp_send_error submit m ctx 3 1 0 now rt1 else rt1)); [auto with quiet|].
  destruct (_ && _); [|exact H1]. by apply icmp_send_error_own.
Qed.

Lemma find_pending_lt L rt netif ip i : own L rt -> find_pending rt netif ip = Some i -> (i < NEIGHBOUR_PENDING_MAX)%nat.
Proof.
  intros H. destruct (own_pending_wf L rt H) as [Hl _]. unfold find_pending.
  destruct (find_index _ (rt_pending_neighbours rt)) as [j|] eqn:E1.
  - intros [= <-]. apply find_index_lt in E1. lia.
  - intros E2. apply find_index_lt in E2. lia.
Qed.

Lemma pending_room L rt i : own L rt -> (i < NEIGHBOUR_PENDING_MAX)%nat ->
  (length (pn_packets (pending_at rt i)) <= NEIGHBOUR_PENDING_QUEUE_MAX)%nat.
Proof.
  intros H Hi. destruct (own_pending_wf L rt H) as [Hl Hf]. rewrite Forall_forall in Hf. apply Hf.
  eapply list_elem_of_lookup_2, pending_lookup; [by apply (own_pending_wf L)|done].
Qed.

(** The packet is queued exactly when the answer is [DROP_NONE]. *)
Lemma neighbour_queue_own L netif m ctx now rt : allowed NODE_ARP_OUTPUT -> own (mb_id m :: L) rt ->
  let '(reason, rt') := neighbour_queue submit netif m ctx now rt in
  own (if bool_decide (reason = DROP_NONE) then L else mb_id m :: L) rt'.
Proof.
  intros Hn H. unfold neighbour_queue. destruct (find_pending rt netif _) as [i|] eqn:Ef; [|exact H].
  assert (Hi := find_pending_lt _ _ _ _ _ H Ef). assert (Hroom := pending_room _ _ _ H Hi).
  set (p := pending_at rt i) in *. destruct (pending_count p =? _) eqn:Ec; [exact H|].
  destruct (netif_by_id rt netif) as [port|]; [|exact H]. destruct (_ || _); [exact H|].
  set (first := negb (pending_used p)). set (p1 := if first then _ else p).
  assert (Hp1 : pn_packets p1 = pn_packets p) by (unfold p1; by destruct first).
  set (p2 := set_pn_packets _ p1). set (rt1 := set_pending i p2 rt).
  assert (H1 : own L rt1).
  { unfold rt1. apply (own_set_pending (mb_id m :: L) L i p2 rt); [done| | |exact H].
    - unfold p2. cbn. rewrite length_app. simpl. rewrite Hp1. apply Z.eqb_neq in Ec. unfold pending_count in Ec.
      unfold NEIGHBOUR_PENDING_QUEUE_MAX in *. lia.
    - unfold p2. cbn [pn_packets set_pn_packets]. rewrite Hp1, ids_app. fold p. cbn [ids fmap list_fmap fst].
      rewrite <- app_assoc. done. }
  clearbody rt1. set (rt2 := if cx_report_acceptance ctx then _ else rt1).
  assert (H2 : own L rt2) by (unfold rt2; destruct (cx_report_acceptance ctx); [own_quietly|exact H1]). clearbody rt2.
  cbn [fst snd]. destruct first; [by apply arp_request_own|exact H2].
Qed.

Lemma foldl_own {A} (f : app_runtime -> A -> app_runtime) L l rt : (forall x rt, x ∈ l -> own L rt -> own L (f rt x)) ->
  own L rt -> own L (foldl f rt l).
Proof.
  revert rt. induction l as [|x l IH]; intros rt Hf H; [exact H|]. cbn [foldl].
  apply IH; [intros; apply Hf; [by right|done]|]. apply Hf; [by left|done].
Qed.

Lemma pending_slots_lt i : i ∈ pending_slots -> (i < NEIGHBOUR_PENDING_MAX)%nat.
Proof. intros H. apply elem_of_seq in H. lia. Qed.

Lemma neighbour_update_own L netif ip mac rt : allowed NODE_ETH_OUTPUT -> own L rt ->
  own L (neighbour_update submit netif ip mac rt).2.
Proof.
  intros Hn H. unfold neighbour_update. destruct (neighbour_learn _ _ _ _) as [rc table].
  set (rt1 := set_rt_neighbours table rt). assert (H1 : own L rt1) by own_quietly. clearbody rt1. clear H.
  destruct (truth rc); [exact H1|]. cbn [snd]. apply foldl_own.
  - intros i rt' Hi H'. destruct (_ && _); [|exact H']. apply release_pending_own; [done|by apply pending_slots_lt|done].
  - destruct (neighbour_lookup (rt_neighbours rt1) _ _) as [mac'|]; [|exact H1].
    match goal with |- own _ (if ?b then _ else _) => destruct b end; [own_quietly|exact H1].
Qed.

Lemma tick_pending_own L now rt i : allowed NODE_ETH_OUTPUT -> allowed NODE_ARP_OUTPUT -> allowed NODE_IPV4_OUTPUT ->
  (i < NEIGHBOUR_PENDING_MAX)%nat -> own L rt -> own L (tick_pending submit now rt i).
Proof.
  intros He Ha Hv Hi H. unfold tick_pending. destruct (negb (pending_used _)); [exact H|].
  destruct (netif_by_id _ _) as [port|]; [|by apply discard_pending_own]. destruct (negb _); [by apply discard_pending_own|].
  destruct (neighbour_lookup _ _ _); [by apply release_pending_own|]. destruct (_ <? _); [exact H|].
  destruct (_ =? _); [by apply discard_pending_own|]. apply arp_request_own; [done|].
  eapply own_set_pending; [done| | |exact H]; [|done]. apply (pending_room _ _ _ H Hi).
Qed.

Lemma neighbour_tick_own L now rt : allowed NODE_ETH_OUTPUT -> allowed NODE_ARP_OUTPUT -> allowed NODE_IPV4_OUTPUT ->
  own L rt -> own L (neighbour_tick submit now rt).
Proof. intros He Ha Hv H. apply foldl_own; [|exact H]. intros i rt' Hi. by apply tick_pending_own, pending_slots_lt. Qed.

Lemma neighbour_fini_own L rt : allowed NODE_IPV4_OUTPUT -> own L rt -> own L (neighbour_fini submit rt).
Proof. intros Hv H. apply foldl_own; [|exact H]. intros i rt' Hi. by apply discard_pending_own, pending_slots_lt. Qed.

Lemma neighbour_cancel_own L dev ip rt : allowed NODE_IPV4_OUTPUT -> own L rt -> own L (neighbour_cancel submit dev ip rt).
Proof.
  intros Hv H. apply foldl_own; [|exact H]. intros i rt' Hi H'. cbv beta zeta.
  match goal with |- own _ (if ?b then _ else _) => destruct b end; [|exact H']. by apply discard_pending_own, H'; [|apply pending_slots_lt].
Qed.

Lemma neighbour_set_own L dev ip mac replace rt : allowed NODE_ETH_OUTPUT -> own L rt ->
  own L (neighbour_set submit dev ip mac replace rt).2.
Proof.
  intros He H. unfold neighbour_set. destruct (_ || _); [exact H|]. destruct (neighbour_store _ _ _ _ _) as [rc table].
  destruct (truth rc); [exact H|]. apply neighbour_update_own; [done|]. own_quietly.
Qed.

Lemma neighbour_delete_own L dev ip rt : allowed NODE_IPV4_OUTPUT -> own L rt -> own L (neighbour_delete submit dev ip rt).2.
Proof.
  intros Hv H. unfold neighbour_delete. destruct (neighbour_remove _ _ _) as [rc table]. destruct (truth rc); [exact H|].
  cbn [snd]. apply neighbour_cancel_own; [done|]. own_quietly.
Qed.

(** ** UDP *)

Lemma udp_send_own L i buf dst rt : allowed NODE_IPV4_ROUTE -> rt_active_output rt = None -> own L rt ->
  own L (udp_send submit i buf dst rt).2.
Proof.
  intros Hn Hact H. unfold udp_send, send_failure. destruct (_ <? _); [cbn [snd]; own_quietly|].
  destruct (ipv4_route_query _ _ _ _ _) as [reason route]. destruct (_ || _); [cbn [snd]; own_quietly|].
  destruct (_ && _); [cbn [snd]; own_quietly|].
  destruct (mbuf_alloc rt) as [[m|] rt1] eqn:E; [assert (E' := E)|]; apply (own_alloc_eq _ _ _ _ H) in E; cbn in E; [|cbn [snd]; own_quietly].
  destruct (rte_pktmbuf_append m _) as [m'|] eqn:Em; [|apply own_free in E; cbn [snd]; own_quietly].
  apply append_id in Em. cbn [snd]. set (m'' := put_bytes _ _ m'). set (ctx := _ |> set_cx_report_acceptance true).
  assert (Hs : own L (send submit NODE_IPV4_ROUTE [(m'', ctx)] rt1)).
  { apply own_send_one; [done|]. unfold m''. rewrite put_bytes_id, Em. exact E. }
  unfold send in Hs. replace (rt_active_output rt1) with (@None node_output) in Hs; [exact Hs|].
  unfold mbuf_alloc in E'. injection E' as _ <-. done.
Qed.

(** ** TCP *)

(** A cancelled segment is freed and leaves the queue. *)
Definition cancel_one (s : ps_socket_entry) (rt : app_runtime) (p : mbuf * packet_ctx) : app_runtime :=
  if queued_for s p then
    rt |> count_packets NODE_DROP 1 |> count_drops NODE_DROP 1 |> count_bytes NODE_DROP (rte_pktmbuf_pkt_len p.1)
       |> count_drops NODE_ETH_OUTPUT 1 |> count_reason (drop_index DROP_NEIGHBOUR_CANCELLED) 1 |> mbuf_free p.1
  else rt.

Lemma cancel_one_commute s packets i q rt :
  set_pending i q (foldl (cancel_one s) rt packets) = foldl (cancel_one s) (set_pending i q rt) packets.
Proof.
  revert rt. induction packets as [|p packets IH]; intros rt; [done|]. cbn [foldl]. rewrite IH. f_equal.
  unfold cancel_one. by destruct (queued_for s p).
Qed.

Lemma cancel_one_own L s packets rt : own (ids (List.filter (queued_for s) packets) ++ L) rt -> own L (foldl (cancel_one s) rt packets).
Proof.
  revert rt. induction packets as [|p packets IH]; intros rt H; [exact H|]. cbn [foldl]. apply IH. cbn [List.filter] in H.
  unfold cancel_one. destruct (queued_for s p); [|exact H]. apply own_free.
  change (own (mb_id p.1 :: ids (List.filter (queued_for s) packets) ++ L) rt) in H. own_quietly.
Qed.

Lemma filter_split {A} (f : A -> bool) (l : list A) : l ≡ₚ List.filter f l ++ List.filter (fun x => negb (f x)) l.
Proof.
  induction l as [|x l IH]; [done|]. cbn [List.filter]. destruct (f x); cbn [negb app]; [by constructor|].
  rewrite <- Permutation_middle. by constructor.
Qed.

Lemma cancel_pending_own L s rt i : (i < NEIGHBOUR_PENDING_MAX)%nat -> own L rt -> own L (cancel_pending s rt i).
Proof.
  intros Hi H. unfold cancel_pending. fold (pending_at rt i). set (p := pending_at rt i).
  change (foldl _ rt (pn_packets p)) with (foldl (cancel_one s) rt (pn_packets p)).
  set (keep := List.filter _ _). set (q := if Nat.eqb _ 0 then _ else _).
  change (set_rt_pending_neighbours _ _) with (set_pending i q (foldl (cancel_one s) rt (pn_packets p))).
  rewrite cancel_one_commute. apply cancel_one_own.
  assert (Hq : pn_packets q = keep) by (unfold q; destruct keep; done).
  assert (Hroom := pending_room L rt i H Hi). fold p in Hroom.
  eapply own_set_pending; [done| | |exact H].
  - rewrite Hq. etransitivity; [|exact Hroom]. apply List.filter_length_le.
  - rewrite Hq. fold p. rewrite app_assoc. f_equiv. unfold ids. rewrite <- fmap_app. apply fmap_Permutation.
    rewrite (Permutation_app_comm keep). apply filter_split.
Qed.

Lemma tcp_fail_own L i error rt : own L rt -> own L (tcp_fail i error rt).
Proof.
  intros H. unfold tcp_fail. set (rt1 := if negb (in_state _ _) then _ else rt).
  assert (H1 : own L rt1).
  { unfold rt1. destruct (negb _); [|exact H].
    assert (Hc : own L (cancel_queued (sock rt i) rt)).
    { apply foldl_own; [|exact H]. intros k rt' Hk. apply cancel_pending_own. apply elem_of_seq in Hk. lia. }
    own_quietly. }
  destruct (negb (so_open _)); own_quietly.
Qed.

Context (Hip : allowed NODE_IPV4_OUTPUT).

Lemma tcp_emit_own L local remote seq ack flags window data rt : own L rt ->
  own L (tcp_emit submit local remote seq ack flags window data rt).2.
Proof.
  intros H. unfold tcp_emit. destruct (ipv4_route_query _ _ _ _ _) as [reason route]. destruct (negb _); [cbn [snd]; own_quietly|].
  destruct (_ <? _); [cbn [snd]; own_quietly|].
  destruct (mbuf_alloc rt) as [[m|] rt1] eqn:E; apply (own_alloc_eq _ _ _ _ H) in E; cbn in E; [|cbn [snd]; own_quietly].
  destruct (rte_pktmbuf_append m _) as [m'|] eqn:Em; [|apply own_free in E; cbn [snd]; own_quietly].
  apply append_id in Em.
  match goal with |- own _ (let '(_, _) := send_ipv4 _ ?x ?c _ in _).2 => assert (Hs : own L (send_ipv4 submit x c rt1).2) end.
  { apply send_ipv4_own; [done|]. rewrite put_bytes_id, Em. exact E. }
  destruct (send_ipv4 _ _ _ _) as [rc rt2]. cbn [snd] in Hs. destruct (truth rc); cbn [snd]; own_quietly.
Qed.

Lemma tcp_emit_flight_own L i rt : own L rt -> own L (tcp_emit_flight submit i rt).
Proof. intros H. by apply tcp_emit_own. Qed.
Lemma tcp_ack_own L i rt : own L rt -> own L (tcp_ack submit i rt).
Proof. intros H. by apply tcp_emit_own. Qed.

Lemma tcp_kick_own L i now rt : own L rt -> own L (tcp_kick submit i now rt).
Proof.
  intros H. unfold tcp_kick. destruct (_ || _); [exact H|]. destruct (_ && _).
  { destruct (negb _); [own_quietly|exact H]. }
  destruct (truth (tc_tx_len _)).
  - destruct (ipv4_route_query _ _ _ _ _) as [reason route]. destruct (_ || _); [by apply tcp_fail_own|].
    apply tcp_emit_flight_own. own_quietly.
  - destruct (tc_closing _); [|exact H]. apply tcp_emit_flight_own. own_quietly.
Qed.

Lemma tcp_connect_own L i addr rt : own L rt -> own L (tcp_connect submit i addr rt).2.
Proof.
  intros H. unfold tcp_connect. destruct (truth _); [exact H|]. destruct (_ || _); [exact H|]. destruct (negb _); [exact H|].
  destruct (ipv4_route_query _ _ _ _ _) as [reason route]. destruct (_ || _); [exact H|].
  set (bound := if truth (sa_port _) then _ else _). assert (Hb : quiet rt bound.2).
  { unfold bound. destruct (truth _); [done|]. auto with quiet. }
  destruct bound as [rc rt1]. cbn [snd] in Hb. assert (H1 : own L rt1) by (by eapply own_quiet). clear H Hb.
  destruct (truth rc); [exact H1|]. set (rt2 := alter_sock i (set_so_remote addr) _).
  assert (H2 : own L rt2) by (unfold rt2; own_quietly). clearbody rt2. clear H1.
  destruct (timer_cycles rt2) as [now rt3] eqn:E.
  assert (H3 : own L rt3) by (replace rt3 with (timer_cycles rt2).2 by (by rewrite E); own_quietly). clear H2 E.
  cbn [snd]. apply tcp_emit_flight_own. own_quietly.
Qed.

Lemma tcp_listen_own L i backlog rt : own L rt -> own L (tcp_listen i backlog rt).2.
Proof. intros H. unfold tcp_listen. destruct (_ || _); [exact H|]. destruct (_ && _); [exact H|]. cbn [snd]. own_quietly. Qed.

Lemma tcp_accept_own L i rt : own L rt -> own L (tcp_accept i rt).2.
Proof.
  intros H. unfold tcp_accept. destruct (negb _); [exact H|]. destruct (find_index _ _) as [k|]; [|exact H]. cbn [snd]. own_quietly.
Qed.

Lemma tcp_close_own L i now rt : own L rt -> own L (tcp_close submit i now rt).
Proof.
  intros H. unfold tcp_close. set (rt1 := alter_sock i _ rt). assert (H1 : own L rt1) by own_quietly. clearbody rt1. clear H.
  destruct (in_state _ TCP_LISTEN).
  - eapply own_quiet; [apply quiet_clear_sock; reflexivity|]. apply foldl_own; [|exact H1]. intros k rt' _ H'. unfold abort_child.
    destruct (_ || _); [exact H'|]. apply tcp_emit_own. by apply tcp_fail_own.
  - destruct (_ || _); [by apply tcp_fail_own|]. apply tcp_kick_own. own_quietly.
Qed.

Lemma tcp_send_own L i data rt : own L rt -> own L (tcp_send submit i data rt).2.
Proof.
  intros H. unfold tcp_send. destruct (truth _); [exact H|]. destruct (_ && _); [exact H|]. destruct (negb _); [exact H|].
  destruct (negb _); [exact H|]. set (rt1 := alter_tcp i _ rt). assert (H1 : own L rt1) by own_quietly. clearbody rt1. clear H.
  destruct (timer_cycles rt1) as [now rt2] eqn:E.
  assert (H2 : own L rt2) by (replace rt2 with (timer_cycles rt1).2 by (by rewrite E); own_quietly).
  cbn [snd]. by apply tcp_kick_own.
Qed.

Lemma tcp_recv_own L i length rt : own L rt -> own L (tcp_recv submit i length rt).2.
Proof.
  intros H. unfold tcp_recv. destruct (negb _); [exact H|]. destruct (negb _).
  - destruct (truth _); [exact H|]. by destruct (tc_peer_fin _).
  - cbn [snd]. apply tcp_ack_own. own_quietly.
Qed.

Lemma reset_reply_own L local remote seq ack flags length rt : own L rt -> own L (reset_reply submit local remote seq ack flags length rt).
Proof.
  intros H. unfold reset_reply. destruct (flag _ _); [exact H|]. cbv zeta.
  match goal with |- context[tcp_emit submit ?a ?b ?c ?d ?e ?f ?g ?r] => assert (He := tcp_emit_own L a b c d e f g r H) end.
  repeat case_match; cbn [snd] in *; own_quietly.
Qed.

Lemma passive_open_own L listen local remote seq window mss now rt : own L rt ->
  own L (passive_open submit listen local remote seq window mss now rt).2.
Proof.
  intros H. unfold passive_open. destruct (_ <=? _); [exact H|]. assert (Ha := quiet_allocate rt rt PS_SOCK_STREAM ltac:(reflexivity)).
  destruct (socket_allocate rt PS_SOCK_STREAM) as [[i|] rt1]; cbn [snd] in Ha; apply (own_quiet _ _ _ Ha) in H; [|exact H].
  cbn [snd]. eapply own_quiet; [apply quiet_tcp_stat; reflexivity|]. apply tcp_emit_flight_own. own_quietly.
Qed.

Lemma acknowledge_own L i ack now rt : own L rt -> own L (acknowledge i ack now rt).
Proof.
  intros H. unfold acknowledge. destruct (negb _); [own_quietly|]. destruct (acknowledge_flight _ _ _) as [flags c].
  set (rt1 := alter_tcp i _ rt). assert (H1 : own L rt1) by own_quietly. clearbody rt1. clear H.
  destruct flags as [flags|]; [|exact H1]. destruct (flag _ _); [|exact H1]. destruct (in_state _ _); [by apply tcp_fail_own|].
  destruct (tc_peer_fin _); own_quietly.
Qed.

Lemma input_syn_sent_own L i local remote seq ack window flags length mss rt : own L rt ->
  own L (input_syn_sent submit i local remote seq ack window flags length mss rt).2.
Proof.
  intros H. unfold input_syn_sent. destruct (_ && _); [by apply reset_reply_own|].
  destruct (flag flags RTE_TCP_RST_FLAG); [cbn [snd]; destruct (flag _ _); [by apply tcp_fail_own|exact H]|].
  destruct (negb _); [exact H|]. cbn [snd]. apply tcp_ack_own. own_quietly.
Qed.

Lemma input_data_own L i seq ack window flags payload now rt : own L rt ->
  own L (input_data submit i seq ack window flags payload now rt).2.
Proof.
  intros H. unfold input_data. set (rt1 := alter_tcp i _ rt). assert (H1 : own L rt1) by own_quietly. clearbody rt1. clear H.
  set (got := if negb _ && _ then _ else _). assert (Hg : own L got.2).
  { unfold got. destruct (_ && _); [|exact H1]. destruct (accept_payload _ _) as [received c]. cbn [snd]. own_quietly. }
  destruct got as [received rt2]. cbn [snd] in Hg. destruct (negb _); [cbn [snd]; apply tcp_kick_own; by apply tcp_ack_own|].
  set (rt3 := if _ && _ && _ then _ else rt2). assert (H3 : own L rt3) by (unfold rt3; destruct (_ && _ && _); [own_quietly|exact Hg]).
  clearbody rt3. cbn [snd]. apply tcp_kick_own. destruct (_ || _); [by apply tcp_ack_own|exact H3].
Qed.

Lemma input_synchronized_own L i local remote seq ack window flags payload now rt : own L rt ->
  own L (input_synchronized submit i local remote seq ack window flags payload now rt).2.
Proof.
  intros H. unfold input_synchronized. destruct (_ && _ && _); [by apply tcp_emit_flight_own|].
  destruct (in_state _ TCP_TIME_WAIT).
  { cbn [snd]. destruct (flag flags RTE_TCP_RST_FLAG); [exact H|]. apply (tcp_ack_own L i) in H. destruct (_ && _); [own_quietly|exact H]. }
  destruct (negb (seq =? _)).
  { cbn [snd]. eapply own_quiet; [apply quiet_tcp_stat; reflexivity|]. destruct (negb _); [by apply tcp_ack_own|].
    destruct (_ && _); [by apply tcp_ack_own|exact H]. }
  destruct (flag flags RTE_TCP_RST_FLAG); [cbn [snd]; apply tcp_fail_own; own_quietly|].
  destruct (flag flags RTE_TCP_SYN_FLAG); [by apply tcp_ack_own|]. destruct (_ && _); [by apply tcp_ack_own|].
  destruct (negb _); [exact H|]. destruct (before _ _); [by apply tcp_ack_own|]. destruct (_ && _); [by apply reset_reply_own|].
  set (rt1 := if in_state _ TCP_SYN_RECEIVED then _ else rt).
  assert (H1 : own L rt1) by (unfold rt1; destruct (in_state _ _); [own_quietly|exact H]). clearbody rt1. clear H.
  apply (acknowledge_own L i ack now) in H1. destruct (_ || _); [exact H1|]. by apply input_data_own.
Qed.

Lemma tcp_input_own L ctx m o header_len length mss now rt : own L rt ->
  own L (tcp_input submit ctx m o header_len length mss now rt).2.
Proof.
  intros H. unfold tcp_input. destruct (negb _); [exact H|]. destruct (connection _ _ _) as [i|].
  - destruct (in_state _ _); [by apply input_syn_sent_own|by apply input_synchronized_own].
  - destruct (listener _ _) as [l|]; [|by apply reset_reply_own]. destruct (_ && _); [by apply passive_open_own|by apply reset_reply_own].
Qed.

Lemma tick_socket_own L now rt i : own L rt -> own L (tick_socket submit now rt i).
Proof.
  intros H. unfold tick_socket. destruct (_ || _); [exact H|]. destruct (_ && _).
  { apply tcp_fail_own. destruct (in_state _ _); [exact H|own_quietly]. }
  destruct (_ || _); [exact H|]. destruct (_ =? _); [apply tcp_fail_own; own_quietly|].
  destruct (truth (tc_flight_flags _)).
  - apply (tcp_emit_flight_own L i) in H. own_quietly.
  - destruct (_ && _); [|own_quietly].
    match goal with |- own _ (alter_tcp _ _ (tcp_emit _ ?a ?b ?c ?d ?e ?f ?g _).2) => apply (tcp_emit_own L a b c d e f g) in H end. own_quietly.
Qed.

Lemma tcp_timer_own L now rt : own L rt -> own L (tcp_timer_progress submit now rt).
Proof.
  intros H. unfold tcp_timer_progress. destruct (_ <? _); [exact H|]. apply foldl_own; [intros; by apply tick_socket_own|]. own_quietly.
Qed.
End protocols.
