(* ===== verification/NodeProofs.v ===== *)
(** The node functions keep the interface [NodeFunctions] of the scheduler: each
    takes every packet of its frame exactly once, and hands packets on to nodes of
    lower rank only. *)
From S2P Require Import Prelude.
From S2P Require Import Dpdk.
From S2P Require Import Types.
From S2P Require Import Netif.
From S2P Require Import NetConfig.
From S2P Require Import PolicyRoute.
From S2P Require Import Neighbour.
From S2P Require Import Graph.
From S2P Require Import Packet.
From S2P Require Import GraphInv.
From S2P Require Import Scheduler.
From S2P Require Import IcmpError.
From S2P Require Import Resolution.
From S2P Require Import Udp.
From S2P Require Import Tcp.
From S2P Require Import Nodes.
From S2P Require Import Ownership.
From S2P Require Import Protocols.

Section node_proofs.
Context {D : Dpdk} {DL : DpdkLaws} (submit : node_id -> node_frame -> app_runtime -> app_runtime).
Context (r : nat) (g0 : dp_graph) (q0 cur : list nat) (b0 : books).
Abbreviation own := (running r g0 q0 cur b0).

#[local] Instance node_ownership : Ownership submit (fun n => (rank n < r)%nat) own := running_ownership submit r g0 q0 cur b0.

(** * Shared steps *)

Lemma own_drop L owner m ctx reason error rt : (0 < r)%nat -> own (mb_id m :: L) rt -> own L (graph_drop owner m ctx reason error rt).
Proof.
  intros Hr Hrun. unfold graph_drop. set (rt1 := if error then _ else _).
  assert (H1 : own (mb_id m :: L) rt1) by (unfold rt1; destruct error; own_quietly). clearbody rt1.
  destruct (rn_out _ _ _ _ _ _ _ H1) as (out & Ha & _). rewrite Ha. by apply enqueue_running.
Qed.

Lemma own_enqueue L n m ctx rt : (rank n < r)%nat -> own (mb_id m :: L) rt -> own L (enqueue n m ctx rt).
Proof. apply enqueue_running. Qed.

Lemma own_frame (f : app_runtime -> mbuf * packet_ctx -> app_runtime) L frame rt :
  (forall p rt L, own (mb_id p.1 :: L) rt -> own L (f rt p)) -> own (ids frame ++ L) rt -> own L (foldl f rt frame).
Proof.
  intros Hf. revert rt. induction frame as [|p frame IH]; intros rt H; [exact H|]. cbn [foldl]. apply IH. apply Hf. exact H.
Qed.

Lemma own_cycles L rt now rt' : timer_cycles rt = (now, rt') -> own L rt -> own L rt'.
Proof. intros E H. replace rt' with (timer_cycles rt).2 by (by rewrite E). own_quietly. Qed.

Lemma put_bytes_same m m' o bs : mb_id m = mb_id m' -> mb_id (put_bytes o bs m) = mb_id m'.
Proof. by rewrite put_bytes_id. Qed.

Lemma trim_same m n : mb_id (default m (rte_pktmbuf_trim m n)) = mb_id m.
Proof. destruct (rte_pktmbuf_trim m n) eqn:E; [by apply trim_id in E|done]. Qed.

Lemma adj_same m n : mb_id (default m (rte_pktmbuf_adj m n)) = mb_id m.
Proof. destruct (rte_pktmbuf_adj m n) eqn:E; [by apply adj_id in E|done]. Qed.

(** Every branch of a node ends in a drop, a hand-over or a free. *)
Ltac branch := match goal with
  | |- own _ (if ?b then _ else _) => destruct b
  | |- own _ (graph_drop _ _ _ _ _ _) => apply own_drop; [lia|]
  | |- own _ (enqueue _ _ _ _) => apply own_enqueue; [cbn; lia|]
  | |- own _ (mbuf_free _ _) => apply own_free
  | H : own ?L ?rt |- own ?L ?rt => exact H
  end.
Ltac branches := repeat branch.

Lemma ip_rechecksum_id o m : mb_id (ip_rechecksum o m) = mb_id m.
Proof. done. Qed.

Lemma icmp_error_now_own L m ctx type code mtu rt : (4 < r)%nat -> own L rt -> own L (icmp_error_now submit m ctx type code mtu rt).
Proof.
  intros Hr H. unfold icmp_error_now. destruct (timer_cycles rt) as [now rt'] eqn:E. apply (own_cycles _ _ _ _ E) in H.
  by apply icmp_send_error_own.
Qed.

(** * The nodes *)

Lemma drop_node_own L frame rt : own (ids frame ++ L) rt -> own L (drop_node_run frame rt).
Proof.
  intros H. unfold drop_node_run. apply own_frame.
  - intros [m ctx] rt' L' H'. unfold drop_packet. apply own_free. destruct (_ <? _); [own_quietly|exact H'].
  - own_quietly.
Qed.

Lemma eth_input_own L p rt : (7 < r)%nat -> own (mb_id p.1 :: L) rt -> own L (eth_input_packet rt p).
Proof.
  intros Hr H. destruct p as [m ctx]. unfold eth_input_packet. cbn [fst] in H. destruct (ingress_port rt ctx); cbv zeta; branches.
Qed.

Lemma arp_input_own L p rt : (3 < r)%nat -> own (mb_id p.1 :: L) rt -> own L (arp_input_packet submit rt p).
Proof.
  intros Hr H. destruct p as [m ctx]. unfold arp_input_packet. cbn [fst] in H. destruct (ingress_port rt ctx) as [port|]; [|branches].
  cbv zeta. do 4 (branch; [by branches|]). set (rt1 := if _ && _ && _ then _ else rt).
  assert (H1 : own (mb_id m :: L) rt1).
  { unfold rt1. destruct (_ && _ && _); [|exact H].
    assert (Hu := neighbour_update_own (OW := node_ownership) (mb_id m :: L) (pt_id port) (arp_sip m (cx_l3_offset ctx)) (arp_sha m (cx_l3_offset ctx)) rt Hr H).
    destruct (neighbour_update _ _ _ _ _) as [rc rt2]. cbn [snd] in Hu. destruct (_ <? _); [own_quietly|exact Hu]. }
  clearbody rt1. branches. rewrite trim_same. exact H1.
Qed.

Lemma ipv4_input_own L p rt : (6 < r)%nat -> own (mb_id p.1 :: L) rt -> own L (ipv4_input_packet rt p).
Proof.
  intros Hr H. destruct p as [m ctx]. unfold ipv4_input_packet. cbn [fst] in H. destruct (ingress_port rt ctx); cbv zeta; branches.
  by rewrite trim_same.
Qed.

Lemma acl_own L p rt : (5 < r)%nat -> own (mb_id p.1.1 :: L) rt -> own L (acl_packet rt p).
Proof.
  intros Hr H. destruct p as [[m ctx] result]. unfold acl_packet. cbn [fst] in H. cbv zeta.
  set (q := match rt_network rt with Some _ => _ | None => _ end).
  assert (Hq : own (mb_id m :: L) q.2).
  { unfold q. destruct (rt_network rt); [|exact H]. destruct (net_acl_account _ _ _ _). cbn [snd]. own_quietly. }
  destruct q as [accept rt1]. cbn [snd] in Hq. branches.
Qed.

Lemma forward_own L p rt : (4 < r)%nat -> own (mb_id p.1 :: L) rt -> own L (forward_packet submit rt p).
Proof.
  intros Hr H. destruct p as [m ctx]. unfold forward_packet, strip_l2. cbn [fst] in H. cbv zeta.
  branch; [branch; by apply icmp_error_now_own|]. destruct (ipv4_route_query _ _ _ _ _) as [reason route].
  branch; [branch; branches; by apply icmp_error_now_own|]. branch; [branch; branches; by apply icmp_error_now_own|].
  branches. rewrite adj_same. exact H.
Qed.

Lemma icmp_own L p rt : (4 < r)%nat -> own (mb_id p.1 :: L) rt -> own L (icmp_packet rt p).
Proof.
  intros Hr H. destruct p as [m ctx]. unfold icmp_packet, strip_l2. cbn [fst] in H. cbv zeta. branch; [branches|]. branch; [branches|].
  destruct (ipv4_route_query _ _ _ _ _) as [reason route]. branch; [branches|]. branch; [branches|]. branches.
  rewrite adj_same. exact H.
Qed.

Lemma udp_input_own L p rt : (4 < r)%nat -> own (mb_id p.1 :: L) rt -> own L (udp_input_packet submit rt p).
Proof.
  intros Hr H. destruct p as [m ctx]. unfold udp_input_packet. cbn [fst] in H. cbv zeta. do 3 (branch; [by branches|]).
  destruct (udp_deliver _ _ _ _ rt) as [rc rt1] eqn:E.
  assert (H1 : own (mb_id m :: L) rt1) by (replace rt1 with (udp_deliver (ip_dst m (cx_l3_offset ctx))
    (be16_in m (cx_l4_offset ctx + 2)) (mk_ps_sockaddr (ip_src m (cx_l3_offset ctx)) (be16_in m (cx_l4_offset ctx)))
    (bytes_in m (cx_l4_offset ctx + sizeof_udp_hdr) (be16_in m (cx_l4_offset ctx + 4) - sizeof_udp_hdr)) rt).2 by (by rewrite E); own_quietly).
  clear E H. branches. by apply icmp_error_now_own.
Qed.

Lemma udp_output_own L p rt : (4 < r)%nat -> own (mb_id p.1 :: L) rt -> own L (udp_output_packet rt p).
Proof.
  intros Hr H. destruct p as [m ctx]. unfold udp_output_packet. cbn [fst] in H. cbv zeta. branch; [branches|].
  destruct (rte_pktmbuf_prepend m _) as [m'|] eqn:E; branches. apply prepend_id in E. rewrite !put_bytes_id, E. exact H.
Qed.

Lemma tcp_input_packet_own L p rt : (4 < r)%nat -> own (mb_id p.1 :: L) rt -> own L (tcp_input_packet submit rt p).
Proof.
  intros Hr H. destruct p as [m ctx]. unfold tcp_input_packet. cbn [fst] in H. cbv zeta. do 3 (branch; [by branches|]).
  destruct (tcp_options _ _ _ _ _ _ _) as [mss|]; [|branches]. destruct (timer_cycles rt) as [now rt1] eqn:E.
  apply (own_cycles _ _ _ _ E) in H. match goal with |- context[tcp_input submit ?a ?b ?c ?d ?e ?f ?g ?x] =>
    assert (Hi := tcp_input_own (OW := node_ownership) Hr (mb_id m :: L) a b c d e f g x H); destruct (tcp_input submit a b c d e f g x) as [reason rt2] end.
  cbn [snd] in Hi. branches.
Qed.

Lemma route_own L p rt : (5 < r)%nat -> own (mb_id p.1 :: L) rt -> own L (route_packet rt p).
Proof.
  intros Hr H. destruct p as [m ctx]. unfold route_packet. cbn [fst] in H. destruct (ipv4_route_query _ _ _ _ _) as [reason route].
  cbv zeta. branches.
Qed.

Lemma ipv4_output_own L p rt : (3 < r)%nat -> own (mb_id p.1 :: L) rt -> own L (ipv4_output_packet rt p).
Proof.
  intros Hr H. destruct p as [m ctx]. unfold ipv4_output_packet. cbn [fst] in H. destruct (egress_port rt ctx); cbv zeta; [|branches].
  branch; [branches|]. destruct (rte_pktmbuf_prepend m _) as [m'|] eqn:E; branches. apply prepend_id in E.
  rewrite put_bytes_id, E. own_quietly.
Qed.

Lemma eth_output_own L p rt : (2 < r)%nat -> own (mb_id p.1 :: L) rt -> own L (eth_output_packet submit rt p).
Proof.
  intros Hr H. destruct p as [m ctx]. unfold eth_output_packet. cbn [fst] in H. destruct (egress_port rt ctx) as [port|]; cbv zeta; [|branches].
  branch; [branches|]. destruct (neighbour_lookup _ _ _) as [mac|].
  - destruct (rte_pktmbuf_prepend m _) as [m'|] eqn:E; branches. apply prepend_id in E. rewrite put_bytes_id, E. exact H.
  - destruct (timer_cycles rt) as [now rt1] eqn:E. apply (own_cycles _ _ _ _ E) in H.
    assert (Hq := neighbour_queue_own (OW := node_ownership) L (pt_id port) m ctx now rt1 Hr H).
    destruct (neighbour_queue _ _ _ _ _ _) as [reason rt2]. cbn [fst snd] in Hq. case_bool_decide; cbn [negb]; [exact Hq|]. branches.
Qed.

Lemma arp_output_own L p rt : (1 < r)%nat -> own (mb_id p.1 :: L) rt -> own L (arp_output_packet rt p).
Proof.
  intros Hr H. destruct p as [m ctx]. unfold arp_output_packet. cbn [fst] in H. destruct (egress_port rt ctx); [|branches].
  destruct (rte_pktmbuf_append m _) as [m'|] eqn:E; cbv zeta; branches. apply append_id in E. rewrite put_bytes_id, E. exact H.
Qed.

Lemma acl_frame_own L frame rt : (5 < r)%nat -> own (ids frame ++ L) rt -> own L (ipv4_acl_node_run frame rt).
Proof.
  intros Hr H. unfold ipv4_acl_node_run. set (results := match rt_network rt with Some _ => _ | None => _ end).
  assert (Hl : length results = length frame)
    by (unfold results; destruct (rt_network rt); [unfold net_acl_classify_batch; by rewrite !length_fmap|by rewrite length_replicate]).
  clearbody results. revert rt results Hl H. induction frame as [|p frame IH]; intros rt [|x results] Hl H; [done..|].
  cbn [zip zip_with foldl]. apply IH; [simpl in Hl; lia|]. by apply acl_own.
Qed.

(** ** Transmission *)

Lemma own_tx L port batch sent rt : own ((mb_id <$> take sent batch) ++ L) rt -> own L (record_event (EvTx port batch sent) rt).
Proof.
  intros [H1 H2 [H3 H4]]. split; [done|done|]. split; [|done]. intros id. assert (H := H3 id). rewrite cnt_app in H. unfold balance in *.
  cbn [rt_dpdk record_event set_rt_dpdk rt_graph rt_pending_neighbours ledger foldr acquired released].
  unfold ledger in *. rewrite cnt_nil. lia.
Qed.

(** What the two loops of [tx_node_run] test of a port; nothing in them changes it. *)
Definition port_key (p : port_state) : bool * Z * bool := (pt_configured p, pt_port_id p, port_up p).
Definition port_keys (rt : app_runtime) : list (bool * Z * bool) := port_key <$> rt_ports rt.

Definition key_of (p : mbuf * packet_ctx) : bool * Z * bool := (true, cx_egress_port_id p.2, true).

Lemma key_of_eq p id : bool_decide (key_of p = (true, id, true)) = (cx_egress_port_id p.2 =? id).
Proof. unfold key_of. case_bool_decide as H; [injection H as ->; by rewrite Z.eqb_refl|]. symmetry. apply Z.eqb_neq. congruence. Qed.

Lemma egress_port_key rt ctx p : egress_port rt ctx = Some p -> (true, cx_egress_port_id ctx, true) ∈ port_keys rt.
Proof.
  unfold egress_port. destruct (netif_by_dpdk_port rt _) as [q|] eqn:E; [|done]. destruct (port_up q) eqn:Eu; [|done]. intros [= <-].
  apply netif_by_dpdk_port_Some in E as (Hc & Hid & Hin). apply list_elem_of_fmap. exists q. unfold port_key. by rewrite Hc, Hid, Eu.
Qed.

Lemma port_keys_alter i f rt : (forall p, port_key (f p) = port_key p) -> port_keys (alter_port i f rt) = port_keys rt.
Proof.
  intros Hf. unfold port_keys, alter_port. cbn [rt_ports set_rt_ports]. generalize (rt_ports rt) as l. intros l. revert i.
  induction l as [|x l IH]; intros [|i]; [done..| |]; simpl; [by rewrite Hf|]. f_equal. apply IH.
Qed.

Lemma quiet_alter_port i f rt : (forall p, port_base (f p) = port_base p) -> quiet rt (alter_port i f rt).
Proof.
  intros Hf. apply quiet_ports; [|reflexivity]. generalize (rt_ports rt) as l. intros l. revert i.
  induction l as [|x l IH]; intros [|i]; [done..| |]; cbn [alter list_alter fmap list_fmap]; [by rewrite Hf|]. f_equal. apply IH.
Qed.

Lemma free_all_ports (frame : node_frame) rt : rt_ports (foldl (fun rt p => mbuf_free p.1 rt) rt frame) = rt_ports rt.
Proof. revert rt. induction frame as [|p frame IH]; intros rt; [done|]. cbn [foldl]. by rewrite IH. Qed.

Lemma flush_pending_ports rt out n : rt_ports (flush_pending rt out n).1.2 = rt_ports rt.
Proof.
  unfold flush_pending. destruct (nth _ _ _); [|done]. destruct (queue_slot _ _) as [rc g]. cbv zeta.
  destruct (rc =? 0); [done|]. apply free_all_ports.
Qed.

Lemma node_enqueue_ports rt out n m ctx : rt_ports (node_enqueue rt out n m ctx).1.2 = rt_ports rt.
Proof.
  unfold node_enqueue. destruct (nth _ _ _) as [slot|]; [|destruct (slot_alloc _) as [[slot|] g]]; cbv zeta; [| |done];
  destruct (Nat.eqb _ _); try done; by rewrite flush_pending_ports.
Qed.

Lemma drop_keys owner m ctx reason error rt : port_keys (graph_drop owner m ctx reason error rt) = port_keys rt.
Proof.
  unfold port_keys. f_equal. unfold graph_drop, enqueue, enqueue_active. cbv zeta. set (rt1 := if error then _ else _).
  assert (H1 : rt_ports rt1 = rt_ports rt) by (unfold rt1; by destruct error). clearbody rt1. rewrite <- H1.
  destruct (rt_active_output rt1) as [out|]; set (c := set_cx_drop_reason _ _).
  - assert (H := node_enqueue_ports rt1 out NODE_DROP m c). by destruct (node_enqueue _ _ _ _ _) as [[rc rt2] out2].
  - assert (H := node_enqueue_ports rt1 no_output NODE_DROP m c). destruct (node_enqueue _ _ _ _ _) as [[rc rt2] out2]. cbn [fst snd] in H.
    destruct (rc =? 0); [|done]. assert (H2 := flush_pending_ports rt2 out2 NODE_DROP).
    destruct (flush_pending _ _ _) as [[rc3 rt3] out3]. cbn [fst snd] in H2. congruence.
Qed.

Definition sendable (rt : app_runtime) (p : mbuf * packet_ctx) : Prop := key_of p ∈ port_keys rt.

(** The first loop sorts the frame into dropped and ready packets. *)
Lemma tx_pad_own L p rest ready rt : (0 < r)%nat -> own (mb_id p.1 :: rest ++ ids ready ++ L) rt -> Forall (sendable rt) ready ->
  let '(rt', ready') := tx_pad (rt, ready) p in
  own (rest ++ ids ready' ++ L) rt' /\ port_keys rt' = port_keys rt /\ Forall (sendable rt) ready'.
Proof.
  intros Hr H Hok. destruct p as [m ctx]. cbn [fst] in H. unfold tx_pad.
  assert (Hpush : forall m', mb_id m' = mb_id m -> own (rest ++ ids (ready ++ [(m', ctx)]) ++ L) rt).
  { intros m' Hm. eapply own_perm; [|exact H]. rewrite ids_app. cbn [ids fmap list_fmap fst]. rewrite Hm, <- app_assoc. simpl.
    rewrite Permutation_middle. apply Permutation_app_head. apply Permutation_middle. }
  destruct (egress_port rt ctx) as [port|] eqn:Ep.
  2: { split; [|split; [by rewrite drop_keys|done]]. by apply own_drop. }
  apply egress_port_key in Ep. assert (Hone : forall m', Forall (sendable rt) (ready ++ [(m', ctx)])) by (intros m'; apply Forall_app_2; [done|by apply Forall_singleton]).
  cbv zeta. destruct (_ <? _).
  - destruct (rte_pktmbuf_append m _) as [m'|] eqn:E.
    + split; [|split; [done|apply Hone]]. apply Hpush. apply append_id in E. exact E.
    + split; [|split; [by rewrite drop_keys, port_keys_alter|done]]. apply own_drop; [done|].
      eapply own_quiet; [by apply quiet_alter_port|]. exact H.
  - split; [|split; [done|apply Hone]]. by apply Hpush.
Qed.

Lemma tx_pads_own L frame ready rt : (0 < r)%nat -> own (ids frame ++ ids ready ++ L) rt -> Forall (sendable rt) ready ->
  let '(rt', ready') := foldl tx_pad (rt, ready) frame in own (ids ready' ++ L) rt' /\ Forall (sendable rt') ready'.
Proof.
  intros Hr. revert ready rt. induction frame as [|p frame IH]; intros ready rt H Hok; [done|]. cbn [foldl].
  assert (Hp := tx_pad_own L p (ids frame) ready rt Hr H Hok). destruct (tx_pad (rt, ready) p) as [rt1 ready1].
  destruct Hp as (H1 & Hk & Hok1). apply IH; [exact H1|]. eapply Forall_impl; [exact Hok1|]. intros x. unfold sendable. by rewrite Hk.
Qed.

(** The packets whose port the second loop has yet to reach. *)
Definition waiting (keys : list (bool * Z * bool)) (ready : node_frame) : node_frame :=
  List.filter (fun p => bool_decide (key_of p ∈ keys)) ready.

Lemma filter_partition {A} (f g h : A -> bool) (l : list A) : (forall x, f x = g x || h x) -> (forall x, g x && h x = false) ->
  List.filter f l ≡ₚ List.filter g l ++ List.filter h l.
Proof.
  intros Hf Hd. induction l as [|x l IH]; [done|]. cbn [List.filter]. rewrite Hf. assert (H := Hd x).
  destruct (g x), (h x); cbn [orb andb app] in *; [done|by f_equiv| |done]. by rewrite IH, Permutation_middle.
Qed.

Lemma waiting_skip key keys ready : (forall id, key <> (true, id, true)) -> waiting (key :: keys) ready = waiting keys ready.
Proof.
  intros Hk. unfold waiting. apply List.filter_ext. intros p. apply bool_decide_ext. rewrite elem_of_cons. split; [|by right].
  intros [Hp|Hp]; [|done]. destruct (Hk (cx_egress_port_id p.2)). by rewrite <- Hp.
Qed.

Lemma waiting_take id keys ready : (true, id, true) ∉ keys ->
  waiting ((true, id, true) :: keys) ready ≡ₚ List.filter (fun p => cx_egress_port_id p.2 =? id) ready ++ waiting keys ready.
Proof.
  intros Hk. unfold waiting. apply filter_partition; intros p; rewrite <- key_of_eq.
  - rewrite <- bool_decide_or. apply bool_decide_ext. by rewrite elem_of_cons.
  - rewrite <- bool_decide_and. apply bool_decide_eq_false. intros [-> Hin]. by apply Hk.
Qed.

(** A configured port occurs once among the keys. *)
Lemma key_unique L rt k id keys : own L rt -> drop k (port_keys rt) = (true, id, true) :: keys -> (true, id, true) ∉ keys.
Proof.
  intros H Hd Hin. destruct (rn_tables _ _ _ _ _ _ _ H) as [_ Hwf].
  assert (Hk : port_keys rt !! k = Some (true, id, true)) by (by rewrite <- (Nat.add_0_r k), <- lookup_drop, Hd).
  apply list_elem_of_lookup in Hin as [j Hj].
  assert (Hkj : port_keys rt !! (k + S j)%nat = Some (true, id, true)) by (by rewrite <- lookup_drop, Hd).
  unfold port_keys in Hk, Hkj. rewrite list_lookup_fmap in Hk, Hkj.
  destruct (rt_ports rt !! k) as [p|] eqn:Ep; [|done]. destruct (rt_ports rt !! (k + S j)%nat) as [q|] eqn:Eq; [|done].
  injection Hk as Hp1 Hp2 _. injection Hkj as Hq1 Hq2 _. assert (k = k + S j)%nat by (by eapply (Hwf _ _ p q); congruence). lia.
Qed.

(** One port: its batch is sent or dropped. *)
Lemma tx_port_own L ready k rt : (0 < r)%nat -> (k < length (port_keys rt))%nat ->
  own (ids (waiting (drop k (port_keys rt)) ready) ++ L) rt ->
  own (ids (waiting (drop (S k) (port_keys rt)) ready) ++ L) (tx_port ready rt k) /\ port_keys (tx_port ready rt k) = port_keys rt.
Proof.
  intros Hr Hk H. unfold port_keys in Hk. rewrite length_fmap in Hk. destruct (lookup_lt_is_Some_2 _ _ Hk) as [port Hp].
  assert (Hkey : port_keys rt !! k = Some (port_key port)) by (unfold port_keys; by rewrite list_lookup_fmap, Hp).
  assert (Hd := drop_S _ _ _ Hkey). unfold tx_port. rewrite Hp. rewrite Hd in H.
  destruct (negb (pt_configured port) || negb (port_up port)) eqn:Ec.
  { split; [|done]. rewrite waiting_skip in H; [exact H|]. intros id. unfold port_key. intros [= Hc _ Hu]. by rewrite Hc, Hu in Ec. }
  apply orb_false_iff in Ec as [Hc Hu]. apply negb_false_iff in Hc, Hu. unfold port_key in H, Hd. rewrite Hc, Hu in H, Hd.
  assert (Hnot := key_unique _ _ _ _ _ H Hd). set (batch := List.filter _ ready). set (rest := waiting (drop (S k) (port_keys rt)) ready) in *.
  assert (Hb : own (ids batch ++ ids rest ++ L) rt).
  { eapply own_perm; [|exact H]. rewrite app_assoc, <- ids_app. apply Permutation_app_tail. unfold ids. f_equiv. by apply waiting_take. }
  destruct (Nat.eqb_spec (length batch) 0) as [He|_]; [apply nil_length_inv in He; rewrite He in Hb; done|].
  unfold tx_burst. cbv zeta. set (sent := tx_burst_of _ _ _).
  assert (Hs : own (ids (drop sent batch) ++ ids rest ++ L) (record_event (EvTx (pt_port_id port) (fst <$> batch) sent) rt)).
  { apply own_tx. eapply own_perm; [|exact Hb].
    rewrite <- (take_drop sent batch) at 1. rewrite ids_app, <- app_assoc. apply Permutation_app_tail. unfold ids.
    by rewrite <- fmap_take, <- list_fmap_compose. }
  match goal with |- own _ (foldl _ ?x _) /\ _ => set (rt1 := x) end.
  assert (H1 : own (ids (drop sent batch) ++ ids rest ++ L) rt1 /\ port_keys rt1 = port_keys rt).
  { unfold rt1. split; [|by rewrite port_keys_alter]. eapply own_quiet; [by apply quiet_alter_port|]. own_quietly. }
  clearbody rt1. destruct H1 as [H1 Hkeys]. split.
  - apply own_frame; [|exact H1]. intros p rt2 L2 H2. by apply own_drop.
  - rewrite <- Hkeys. clear. generalize (drop sent batch) as l. intros l. revert rt1.
    induction l as [|p l IH]; intros rt1; [done|]. cbn [foldl]. by rewrite IH, drop_keys.
Qed.

Lemma tx_ports_own L ready n k rt : (0 < r)%nat -> (k + n)%nat = length (port_keys rt) ->
  own (ids (waiting (drop k (port_keys rt)) ready) ++ L) rt -> own L (foldl (tx_port ready) rt (seq k n)).
Proof.
  intros Hr. revert k rt. induction n as [|n IH]; intros k rt Hl H.
  - rewrite drop_ge in H by lia. unfold waiting in H. rewrite (List.filter_ext _ (fun _ => false)) in H.
    + rewrite List.filter_false in H. exact H.
    + intros p. apply bool_decide_eq_false. set_solver.
  - cbn [seq foldl]. destruct (tx_port_own L ready k rt Hr ltac:(lia) H) as [H1 Hk]. apply IH; rewrite Hk; [lia|exact H1].
Qed.

Lemma tx_node_own L frame rt : (0 < r)%nat -> own (ids frame ++ L) rt -> own L (tx_node_run frame rt).
Proof.
  intros Hr H. unfold tx_node_run. assert (Hp := tx_pads_own L frame [] rt Hr H ltac:(constructor)).
  destruct (foldl tx_pad (rt, []) frame) as [rt1 ready]. destruct Hp as [H1 Hok].
  apply tx_ports_own; [done|unfold port_keys; by rewrite length_fmap|]. replace (waiting _ ready) with ready; [exact H1|].
  symmetry. unfold waiting. clear H1. induction Hok as [|p ready Hp Hok IH]; [done|]. cbn [List.filter drop] in *.
  rewrite bool_decide_eq_true_2 by exact Hp. f_equal. apply IH.
Qed.
End node_proofs.

(** The node functions meet the scheduler's interface. *)
#[export] Instance nodes_run_functions {D : Dpdk} {DL : DpdkLaws} submit : NodeFunctions (nodes_run submit).
Proof.
  intros n frame rt g0 q0 cur b0 L Hl H. destruct n; cbn [nodes_run rank] in *.
  - by apply (drop_node_own submit).
  - apply own_frame; [|exact H]. intros p rt' L' H'. apply eth_input_own; first [lia|exact H'|exact submit].
  - apply own_frame; [|exact H]. intros p rt' L' H'. apply arp_input_own; first [lia|exact H'|exact submit].
  - apply own_frame; [|exact H]. intros p rt' L' H'. apply ipv4_input_own; first [lia|exact H'|exact submit].
  - apply own_frame; [|exact H]. intros p rt' L' H'. apply icmp_own; first [lia|exact H'|exact submit].
  - apply own_frame; [|exact H]. intros p rt' L' H'. apply udp_input_own; first [lia|exact H'|exact submit].
  - apply own_frame; [|exact H]. intros p rt' L' H'. apply tcp_input_packet_own; first [lia|exact H'|exact submit].
  - apply own_frame; [|exact H]. intros p rt' L' H'. apply route_own; first [lia|exact H'|exact submit].
  - apply own_frame; [|exact H]. intros p rt' L' H'. apply udp_output_own; first [lia|exact H'|exact submit].
  - apply own_frame; [|exact H]. intros p rt' L' H'. apply ipv4_output_own; first [lia|exact H'|exact submit].
  - apply own_frame; [|exact H]. intros p rt' L' H'. apply eth_output_own; first [lia|exact H'|exact submit].
  - apply own_frame; [|exact H]. intros p rt' L' H'. apply arp_output_own; first [lia|exact H'|exact submit].
  - apply tx_node_own; first [lia|done|exact submit].
  - apply own_frame; [|exact H]. intros p rt' L' H'. apply forward_own; first [lia|exact H'|exact submit].
  - apply acl_frame_own; first [lia|done|exact submit].
Qed.
