(* ===== verification/Conservation.v ===== *)
(** Buffer conservation for the whole stack.  Between two steps of the poll loop
    every buffer taken from DPDK has been given back, transmitted, or waits in a
    neighbour queue; after [app_fini] nothing is left.  The scheduler never runs
    out of rounds, never refuses a frame, and is drained after every call. *)
From S2P Require Import Prelude.
From S2P Require Import Dpdk.
From S2P Require Import Sim.
From S2P Require Import Types.
From S2P Require Import Netif.
From S2P Require Import Route.
From S2P Require Import Ports.
From S2P Require Import Neighbour.
From S2P Require Import Graph.
From S2P Require Import Packet.
From S2P Require Import GraphInv.
From S2P Require Import Scheduler.
From S2P Require Import IcmpError.
From S2P Require Import Resolution.
From S2P Require Import Sockets.
From S2P Require Import Udp.
From S2P Require Import Tcp.
From S2P Require Import Nodes.
From S2P Require Import Runtime.
From S2P Require Import CoreSocket.
From S2P Require Import Ipc.
From S2P Require Import Dispatch.
From S2P Require Import Ownership.
From S2P Require Import Protocols.
From S2P Require Import NodeProofs.
From S2P Require Import NetConfig.
From S2P Require Import AdminWire.
From S2P Require Import AdminState.
From S2P Require Import AdminWorker.

Section conservation.
Context {D : Dpdk} {DL : DpdkLaws}.

#[export] Instance submit_submits : Submits submit.
Proof.
  intros n frame rt b0 L Hl H. unfold submit, submit_depth.
  destruct (graph_submit_ok (nodes_run (fun _ _ rt => rt)) b0 L n frame rt H Hl) as (rt' & -> & H'). exact H'.
Qed.

Context (b0 : books).
Abbreviation own := (idle b0).
#[local] Instance stack_ownership : Ownership submit (fun _ => True) own := idle_ownership submit b0.

Lemma idle_inactive L rt : own L rt -> rt_active_output rt = None.
Proof. intros [[H _ _ _] _]. exact H. Qed.

Lemma idle_cycles L rt now rt' : timer_cycles rt = (now, rt') -> own L rt -> own L rt'.
Proof. intros E H. replace rt' with (timer_cycles rt).2 by (by rewrite E). own_quietly. Qed.

(** * The poll step *)

Lemma idle_rx L port batch rt : own L rt -> own ((mb_id <$> batch) ++ L) (record_event (EvRx port batch) rt).
Proof.
  intros [[H1 H2 H3 [H4 Hb]] H5]. split; [|done]. split; [done|done|done|]. split; [|done]. intros id. assert (H := H4 id). rewrite cnt_app. unfold balance in *.
  cbn [rt_dpdk record_event set_rt_dpdk rt_graph rt_pending_neighbours ledger foldr acquired released].
  unfold ledger in *. rewrite cnt_nil. lia.
Qed.

Lemma poll_port_own L acc i : own L acc.2 -> own L (poll_port acc i).2.
Proof.
  destruct acc as [received rt]. cbn [snd]. intros H. unfold poll_port. destruct (rt_ports rt !! i) as [port|]; [|exact H].
  destruct (_ || _ || _); [exact H|]. unfold rx_burst. cbv zeta. set (pkts := rx_burst_of _ _ _). set (frame := _ <$> pkts).
  cbn [snd]. match goal with |- context[alter_port ?a ?b ?c] => set (rt1 := alter_port a b c) end.
  assert (H1 : own (ids frame ++ L) rt1).
  { eapply own_quiet; [by apply quiet_alter_port|]. unfold frame, ids. rewrite <- list_fmap_compose. apply idle_rx. exact H. }
  clearbody rt1. destruct (Nat.eqb_spec (length frame) 0) as [He|_]; [apply nil_length_inv in He; rewrite He in H1; exact H1|].
  apply submit_ok; [|exact H1]. unfold frame. rewrite length_fmap. apply rx_burst_bound.
Qed.

Lemma app_step_own L rt : own L rt -> own L (app_step rt).2.
Proof.
  intros H. unfold app_step. set (polled := foldl poll_port _ _).
  assert (Hp : own L polled.2).
  { unfold polled. generalize (seq 0 (length (rt_ports rt))) as l. assert (Ha : own L (0, rt).2) by exact H. revert Ha.
    generalize (0, rt) as acc. intros acc Ha l. revert acc Ha. induction l as [|i l IH]; intros acc Ha; [exact Ha|].
    cbn [foldl]. apply IH. by apply poll_port_own. }
  destruct polled as [received rt1]. cbn [snd] in Hp. destruct (timer_cycles rt1) as [now rt2] eqn:E.
  apply (idle_cycles _ _ _ _ E) in Hp. cbn [snd]. apply tcp_timer_own; [done|]. by apply neighbour_tick_own.
Qed.

(** * The socket calls *)

Lemma core_socket_own L domain type protocol rt : own L rt -> own L (core_socket domain type protocol rt).2.
Proof.
  intros H. unfold core_socket. do 5 (case_match; [exact H|]).
  assert (Ha := quiet_allocate rt rt type ltac:(reflexivity)). destruct (socket_allocate rt type) as [[i|] rt1]; cbn [snd] in *; by eapply own_quiet.
Qed.

Lemma socket_bind_own L i addr rt : own L rt -> own L (socket_bind i addr rt).2.
Proof. intros H. own_quietly. Qed.

Lemma auto_bind_own L i rt : own L rt -> own L (auto_bind i rt).2.
Proof. intros H. unfold auto_bind. destruct (truth _); [exact H|by apply socket_bind_own]. Qed.

Lemma core_bind_own L fd addr rt : own L rt -> own L (core_bind fd addr rt).2.
Proof. intros H. unfold core_bind. destruct (get_open rt fd); [by apply socket_bind_own|exact H]. Qed.

Lemma core_close_own L fd rt : own L rt -> own L (core_close submit fd rt).2.
Proof.
  intros H. unfold core_close. destruct (get_open rt fd) as [i|]; [|exact H]. destruct (_ =? _); [|cbn [snd]; own_quietly].
  destruct (timer_cycles rt) as [now rt1] eqn:E. apply (idle_cycles _ _ _ _ E) in H. cbn [snd]. by apply tcp_close_own.
Qed.

Lemma core_sendto_own L fd buf dst rt : own L rt -> own L (core_sendto submit fd buf dst rt).2.
Proof.
  intros H. unfold core_sendto. destruct (get_open rt fd) as [i|]; [|exact H]. do 3 (case_match; [exact H|]).
  assert (Hb := auto_bind_own L i rt H). destruct (auto_bind i rt) as [rc rt1]. cbn [snd] in Hb. case_match; [exact Hb|].
  apply udp_send_own; [done|by eapply idle_inactive|exact Hb].
Qed.

Lemma core_recvfrom_own L fd len rt : own L rt -> own L (core_recvfrom fd len rt).2.
Proof.
  intros H. unfold core_recvfrom. destruct (get_open rt fd) as [i|]; [|exact H]. case_match; [exact H|].
  destruct (udp_recv _ _) as [[rc datagram] ep]. cbn [snd]. own_quietly.
Qed.

Lemma core_connect_own L fd addr rt : own L rt -> own L (core_connect submit fd addr rt).2.
Proof.
  intros H. unfold core_connect. destruct (get_open rt fd) as [i|]; [|exact H]. case_match; [exact H|].
  case_match; [by apply tcp_connect_own|]. assert (Hb := auto_bind_own L i rt H). destruct (auto_bind i rt) as [rc rt1]. cbn [snd] in Hb.
  case_match; [exact Hb|]. cbn [snd]. own_quietly.
Qed.

Lemma core_listen_own L fd backlog rt : own L rt -> own L (core_listen fd backlog rt).2.
Proof.
  intros H. unfold core_listen. destruct (get_open rt fd) as [i|]; [|exact H]. case_match; [exact H|]. by apply tcp_listen_own.
Qed.

Lemma core_accept_own L fd rt : own L rt -> own L (core_accept fd rt).2.
Proof.
  intros H. unfold core_accept. destruct (get_open rt fd) as [i|]; [|exact H]. case_match; [exact H|]. by apply tcp_accept_own.
Qed.

Lemma core_send_own L fd buf rt : own L rt -> own L (core_send submit fd buf rt).2.
Proof.
  intros H. unfold core_send. destruct (get_open rt fd) as [i|]; [|exact H]. case_match; [by apply tcp_send_own|].
  case_match; [exact H|]. by apply core_sendto_own.
Qed.

Lemma core_recv_own L fd len rt : own L rt -> own L (core_recv submit fd len rt).2.
Proof.
  intros H. unfold core_recv. destruct (get_open rt fd) as [i|]; [|exact H]. case_match; [by apply tcp_recv_own|].
  assert (Hr := core_recvfrom_own L fd len rt H). by destruct (core_recvfrom fd len rt) as [[rc datagram] rt1].
Qed.

(** * The daemon's requests *)

Lemma send_datagrams_own L i todo m rt out : own L rt -> own L (send_datagrams submit i todo m rt out).2.
Proof.
  revert i rt out. induction todo as [|[[addr offset] len] todo IH]; intros i rt out H; [exact H|]. cbn [send_datagrams].
  match goal with |- context[core_sendto submit ?a ?b ?c rt] => assert (Hs := core_sendto_own L a b c rt H); destruct (core_sendto submit a b c rt) as [n rt1] end.
  cbn [snd] in Hs. case_match; [exact Hs|by apply IH].
Qed.

Lemma receive_datagrams_own L i capacities fd rt out : own L rt -> own L (receive_datagrams i capacities fd rt out).2.
Proof.
  revert i rt out. induction capacities as [|wanted capacities IH]; intros i rt out H; [exact H|]. cbn [receive_datagrams].
  case_match; [exact H|]. match goal with |- context[core_recvfrom fd ?a rt] =>
    assert (Hs := core_recvfrom_own L fd a rt H); destruct (core_recvfrom fd a rt) as [[n datagram] rt1] end. cbn [snd] in Hs.
  case_match; [exact Hs|]. destruct (default _ datagram) as [bytes source]. by apply IH.
Qed.

Lemma dispatch_cleanup_own L owner rt : own L rt -> own L (dispatch_cleanup submit owner rt).
Proof.
  intros H. unfold dispatch_cleanup. apply foldl_own; [|exact H]. intros i rt' _ H'. unfold cleanup_socket.
  case_match; [by apply core_close_own|exact H'].
Qed.

Lemma dispatch_call_own L m out rt : own L rt -> own L (dispatch_call submit m out rt).2.
Proof.
  intros H. unfold dispatch_call, answer.
  case_match; [by apply core_bind_own|]. case_match; [by apply core_connect_own|]. case_match; [by apply core_listen_own|].
  case_match.
  { assert (Ha := core_accept_own L (im_fd m) rt H). by destruct (core_accept (im_fd m) rt) as [[rc peer] rt1]. }
  case_match; [by apply core_close_own|]. case_match; [by apply core_send_own|]. case_match; [by apply core_sendto_own|].
  case_match.
  { assert (Ha := core_recv_own L (im_fd m) (im_a m) rt H). by destruct (core_recv submit (im_fd m) (im_a m) rt) as [[rc bytes] rt1]. }
  case_match.
  { assert (Ha := core_recvfrom_own L (im_fd m) (im_a m) rt H). by destruct (core_recvfrom (im_fd m) (im_a m) rt) as [[rc datagram] rt1]. }
  case_match; [unfold send_batch|]; [|case_match; [unfold receive_batch|exact H]].
  - case_match; [|exact H]. case_match. case_match; [exact H|]. by apply send_datagrams_own.
  - case_match; [|exact H]. by apply receive_datagrams_own.
Qed.

Lemma daemon_dispatch_own L request rt : own L rt -> own L (daemon_dispatch submit request rt).2.
Proof.
  intros H. unfold daemon_dispatch. enough (Hm : own L (dispatch_message submit request rt).2) by (by destruct (dispatch_message submit request rt)).
  unfold dispatch_message. case_match; [exact H|]. case_match; [by apply dispatch_cleanup_own|]. case_match; [exact H|].
  case_match.
  - match goal with |- context[core_socket ?a ?b ?c rt] => assert (Hs := core_socket_own L a b c rt H); destruct (core_socket a b c rt) as [fd rt1] end.
    cbn [snd] in *. case_match; [|exact Hs]. case_match; [own_quietly|exact Hs].
  - case_match; [|exact H]. case_match; [exact H|]. case_match; [exact H|].
    match goal with |- context[dispatch_call submit ?a ?b rt] => assert (Hs := dispatch_call_own L a b rt H); destruct (dispatch_call submit a b rt) as [out rt1] end.
    exact Hs.
Qed.
End conservation.

(** * Start-up and shutdown *)

Section lifecycle.
Context {D : Dpdk} {DL : DpdkLaws}.

Lemma register_graph l g rt rt' : foldl register_node (set_rt_graph g rt) l =
  set_rt_graph (rt_graph (foldl register_node (set_rt_graph g rt') l)) rt.
Proof.
  revert g. induction l as [|n l IH]; intros g; [done|]. cbn [foldl]. unfold register_node at 2 4, alter_graph.
  cbn [rt_graph set_rt_graph]. apply IH.
Qed.

Definition fresh_graph : dp_graph := rt_graph (nodes_register (set_rt_graph zero_dp_graph zero_app_runtime)).

Lemma fresh_graph_core : graph_core fresh_graph =
  (replicate GRAPH_FRAME_POOL_SIZE zero_graph_frame_slot, replicate GRAPH_FRAME_POOL_SIZE O, O, O, O, Some <$> all_nodes).
Proof. vm_compute. reflexivity. Qed.

Lemma fresh_graph_inv g : graph_core g = graph_core fresh_graph ->
  graph_inv g no_output [] /\ gr_q_count g = O /\ held_slots (gr_slots g) = [].
Proof.
  rewrite fresh_graph_core. unfold graph_core. intros Hg.
  assert (Hs : gr_slots g = replicate GRAPH_FRAME_POOL_SIZE zero_graph_frame_slot) by congruence.
  assert (Hq : gr_queue g = replicate GRAPH_FRAME_POOL_SIZE O) by congruence. assert (Hh : gr_q_head g = O) by congruence.
  assert (Ht : gr_q_tail g = O) by congruence. assert (Hc : gr_q_count g = O) by congruence.
  assert (Hr : dn_run <$> gr_nodes g = Some <$> all_nodes) by congruence. split; [|split; [done|rewrite Hs; vm_compute; reflexivity]].
  assert (Hslot : forall i s, gr_slots g !! i = Some s -> s = zero_graph_frame_slot)
    by (intros i s Hi; rewrite Hs in Hi; by apply lookup_replicate in Hi as [-> _]).
  assert (Hown : owned g no_output [] = []) by (unfold owned, queued; by rewrite Hc, pendings_none).
  split; rewrite ?Hown.
  - by rewrite Hs, Hq, !length_replicate.
  - rewrite Hh, Ht, Hc. split; [unfold POOL, GRAPH_FRAME_POOL_SIZE; lia|done].
  - constructor.
  - constructor.
  - intros i s ->%Hslot. split; [done|]. intros H. by apply not_elem_of_nil in H.
  - intros i s ->%Hslot. done.
  - intros n slot Ho. by rewrite no_output_lookup in Ho.
  - intros n. rewrite Hr. by destruct n.
Qed.

Lemma nodes_register_graph rt : nodes_register (set_rt_graph zero_dp_graph rt) = set_rt_graph fresh_graph rt.
Proof. apply (register_graph _ _ rt zero_app_runtime). Qed.

Lemma fresh_graph_complete : existsb (fun d => match dn_run d with None => true | Some _ => false end) (gr_nodes fresh_graph) = false.
Proof. vm_compute. reflexivity. Qed.

Lemma graph_init_ok rt : exists g, graph_init rt = (0, set_rt_graph g rt) /\ graph_core g = graph_core fresh_graph.
Proof.
  exists fresh_graph. split; [|reflexivity]. unfold graph_init. rewrite nodes_register_graph. cbv zeta. cbn [rt_graph set_rt_graph].
  rewrite fresh_graph_complete. reflexivity.
Qed.

(** The empty ledger, at the base of a runtime. *)
Definition empty_books (rt : app_runtime) : books := mk_books (fun _ => 0) (base rt).

Lemma app_init_idle {E : Ethdev} progname conf rt0 rt : rt_dpdk rt0 = [] -> app_init progname conf rt0 = (0, rt) ->
  idle (empty_books rt) [] rt.
Proof.
  intros Hh H. unfold app_init in H. destruct (_ <? 0); [done|].
  set (rtz := _ |> set_rt_ipv4_forwarding _) in H. destruct (port_init conf rtz) as [rc rt1] eqn:Ep.
  destruct (rc <? 0) eqn:Er; [done|]. assert (rc = 0) as ->.
  { unfold port_init in Ep. repeat case_match; injection Ep as <- _; done. }
  apply port_init_ok in Ep as (Hu & _ & Hrt); [|done].
  destruct (graph_init_ok rt1) as (g & Hg & (Hinv & Hq & Hheld)%fresh_graph_inv). rewrite Hg in H. unfold socket_subsystem_init in H.
  change (0 <? 0) with false in H. cbv beta iota zeta in H.
  destruct (truth (ss_capacity _)); [cbv iota in H; change (- EBUSY <? 0) with true in H; discriminate H|]. change (0 <? 0) with false in H. cbv iota in H. injection H as <-. assert (Hports := pu_distinct _ _ _ Hu).
  assert (Hp : rt_pending_neighbours rt1 = replicate NEIGHBOUR_PENDING_MAX zero_pending_neighbour) by (by rewrite Hrt).
  assert (Hd : rt_dpdk rt1 = []) by (by rewrite Hrt, <- Hh).
  split; [|done]. split; [|done| |].
  - cbn. by rewrite Hrt.
  - split; [|exact Hports]. cbn [rt_pending_neighbours set_rt_graph set_rt_sockets set_rt_tcp_timer_next]. rewrite Hp. split; [done|].
    apply Forall_replicate. simpl. lia.
  - split; [|done]. intros id. unfold balance. cbn [rt_pending_neighbours rt_dpdk rt_graph set_rt_graph set_rt_sockets set_rt_tcp_timer_next].
    rewrite Hp, Hd, Hheld. done.
Qed.

(** With nothing queued no slot is in use. *)
Lemma idle_slots b0 L rt : idle b0 L rt -> held_slots (gr_slots (rt_graph rt)) = [].
Proof.
  intros [[_ Hg _ _] Hq]. unfold held_slots. enough (H : forall s, s ∈ gr_slots (rt_graph rt) -> slot_ids s = []).
  { induction (gr_slots (rt_graph rt)) as [|s l IH]; [done|]. simpl. rewrite H by set_solver. apply IH. intros s' Hs'. apply H. set_solver. }
  intros s Hs. apply list_elem_of_lookup in Hs as [i Hi]. unfold slot_ids. destruct (sl_used s) eqn:Eu; [|done].
  apply (gi_used _ _ _ Hg i s Hi) in Eu. unfold owned, queued in Eu. rewrite Hq in Eu. simpl in Eu. set_solver.
Qed.

(** [discard_pending] without ICMP errors empties one entry and touches no other. *)
Lemma cancel_entries (packets : node_frame) now rt :
  rt_pending_neighbours (foldl (fun rt p =>
    let rt := if bool_decide (DROP_NEIGHBOUR_CANCELLED = DROP_NEIGHBOUR_RESOLUTION_TIMEOUT) && cx_transit p.2
              then icmp_send_error submit p.1 p.2 3 1 0 now rt else rt in
    rt |> count_bytes NODE_DROP (rte_pktmbuf_pkt_len p.1) |> mbuf_free p.1) rt packets) = rt_pending_neighbours rt.
Proof. revert rt. induction packets as [|p packets IH]; intros rt; [done|]. cbn [foldl]. by rewrite IH. Qed.

Lemma cancel_entry i now rt : rt_pending_neighbours (discard_pending submit i DROP_NEIGHBOUR_CANCELLED now rt) =
  <[i := zero_pending_neighbour]> (rt_pending_neighbours rt).
Proof. unfold discard_pending. cbv zeta. by rewrite cancel_entries. Qed.

Lemma neighbour_fini_empty rt : length (rt_pending_neighbours rt) = NEIGHBOUR_PENDING_MAX ->
  pending_ids (rt_pending_neighbours (neighbour_fini submit rt)) = [].
Proof.
  intros Hl. assert (H : forall n k rt, (k + n)%nat = NEIGHBOUR_PENDING_MAX -> length (rt_pending_neighbours rt) = NEIGHBOUR_PENDING_MAX ->
    pending_ids (take k (rt_pending_neighbours rt)) = [] ->
    pending_ids (rt_pending_neighbours (foldl (fun rt i => discard_pending submit i DROP_NEIGHBOUR_CANCELLED 0 rt) rt (seq k n))) = []).
  { clear. induction n as [|n IH]; intros k rt Hkn Hl Hp.
    - rewrite take_ge in Hp by lia. exact Hp.
    - cbn [seq foldl]. apply IH; [lia|by rewrite cancel_entry, length_insert|]. rewrite cancel_entry.
      assert (Hk : (k < length (rt_pending_neighbours rt))%nat) by lia.
      rewrite (take_S_r _ _ zero_pending_neighbour) by (by apply list_lookup_insert_eq). rewrite take_insert_ge by lia.
      unfold pending_ids in *. rewrite fmap_app, concat_app, Hp. done. }
  apply (H NEIGHBOUR_PENDING_MAX O); [done|done|]. by rewrite take_0.
Qed.
End lifecycle.

#[local] Strategy 1000 [neighbour_fini submit].

Lemma last_writes_dpdk rt : rt_dpdk (port_fini (set_rt_network None rt)) = rt_dpdk rt.
Proof. reflexivity. Qed.

Lemma app_fini_dpdk {D : Dpdk} rt : rt_dpdk (app_fini rt) = rt_dpdk (neighbour_fini submit (socket_subsystem_fini rt)).
Proof. exact (last_writes_dpdk (neighbour_fini submit (socket_subsystem_fini rt))). Qed.

(** * The administrative step *)

Section administration.
Context {D : Dpdk} {DL : DpdkLaws} {N : Nic} (L : list Z).
#[local] Existing Instance stack_ownership.

(** The worker holds the buffers [L]; the base is free. *)
Definition held (b : Z -> Z) (w : worker) : Prop := idle (mk_books b (base (wk_rt w))) L (wk_rt w).

Lemma idle_base b B rt : idle (mk_books b B) L rt -> idle (mk_books b (base rt)) L rt.
Proof. intros [[H1 H2 H3 [H4 H5]] H6]. split; [|done]. split; [done|done|done|]. by split. Qed.

(** Writing the base keeps the ledger, as long as the ports keep their names. *)
Lemma idle_rebase b B rt rt' : idle (mk_books b B) L rt -> rt_graph rt' = rt_graph rt -> rt_active_output rt' = rt_active_output rt ->
  rt_pending_neighbours rt' = rt_pending_neighbours rt -> rt_dpdk rt' = rt_dpdk rt -> port_shape (rt_ports rt) = port_shape (rt_ports rt') ->
  idle (mk_books b (base rt')) L rt'.
Proof.
  intros [[H1 H2 [H3 H3'] [H4 H5]] H6] Hg Ha Hp Hd Hs. split; [|by rewrite Hg]. split.
  - by rewrite Ha.
  - by rewrite Hg.
  - split; [by rewrite Hp|by eapply ports_wf_shape].
  - split; [|done]. intros id. assert (H := H4 id). cbn [bk_balance] in *. rewrite <- H. unfold balance. by rewrite Hg, Hp, Hd.
Qed.

Lemma alter_port_held b i f w : (forall p, (pt_configured (f p), pt_port_id (f p)) = (pt_configured p, pt_port_id p)) -> held b w -> held b (on_port i f w).
Proof.
  intros Hf H. eapply idle_rebase; [exact H|done..|]. unfold port_shape, on_port, on_rt, alter_port. cbn [wk_rt set_wk_rt rt_ports set_rt_ports].
  generalize (rt_ports (wk_rt w)) as l. intros l. revert i.
  induction l as [|x l IH]; intros [|i]; [done..| |]; cbn [alter list_alter fmap list_fmap]; [by rewrite Hf|]. f_equal. apply IH.
Qed.

Lemma event_held b0 group id act rt : idle b0 L rt -> idle b0 L (admin_event_emit rt group id act).
Proof. intros H. apply (own_quiet (Ownership := stack_ownership b0) L rt); [|exact H]. by apply quiet_event. Qed.

Lemma link_operation_held b dev r w : held b w ->
  match link_operation dev r w with inl early => held b early.2 | inr w' => held b w' end.
Proof. apply link_operation_keeps; [by intros|]. intros. by apply alter_port_held. Qed.

Lemma flush_loop_held b0 dev fuel : forall i rt, idle b0 L rt -> idle b0 L (flush_loop fuel dev i rt).2.
Proof.
  induction fuel as [|fuel IH]; intros i rt H; [exact H|]. cbn [flush_loop]. destruct (_ <=? _); [exact H|]. destruct (_ && _); [|by apply IH].
  assert (H1 := neighbour_delete_own (OW := stack_ownership b0) L dev (ne_ip_be (slot (rt_neighbours rt) i)) rt I H).
  destruct (neighbour_delete _ _ _ _) as [rc rt']. destruct (truth rc); [exact H1|by apply IH].
Qed.

Lemma neighbour_operation_held b0 dev r rt : idle b0 L rt -> idle b0 L (neighbour_operation dev r rt).2.
Proof.
  intros H. unfold neighbour_operation, neighbour_flush. destruct (_ =? ADM_FLUSH).
  { assert (H1 := flush_loop_held b0 dev flush_fuel 0 rt H). destruct (flush_loop _ _ _ _) as [rc rt'].
    destruct (truth rc); [exact H1|]. by apply (neighbour_cancel_own (OW := stack_ownership b0)). }
  destruct (_ =? ADM_DEL); [by apply (neighbour_delete_own (OW := stack_ownership b0))|]. destruct (_ && _); [exact H|]. destruct (_ <? _); [exact H|].
  by apply (neighbour_set_own (OW := stack_ownership b0)).
Qed.

Lemma admin_worker_operation_held b r w : held b w -> held b (admin_worker_operation r w).2.
Proof.
  intros H. unfold admin_worker_operation. destruct (port_named _ _) as [dev|]; [|exact H]. destruct (_ && _).
  - assert (H1 := link_operation_held b dev r w H). destruct (link_operation _ _ _) as [[rc w']|w']; [exact H1|].
    apply (idle_base b (base (wk_rt w'))), event_held. by apply (neighbour_cancel_own (OW := stack_ownership _)).
  - destruct (negb _); [exact H|]. unfold on_rt_rc. assert (H1 := neighbour_operation_held _ (Z.of_nat dev) r (wk_rt w) H).
    destruct (neighbour_operation _ _ _). by apply idle_base in H1.
Qed.

Lemma publish_held b B r next rt : idle (mk_books b B) L rt -> idle (mk_books b (base (publish r next rt))) L (publish r next rt).
Proof.
  intros H. unfold publish. cbv zeta. set (rt2 := set_rt_network _ _).
  assert (H2 : idle (mk_books b (base rt2)) L rt2) by (by eapply idle_rebase). clearbody rt2. apply (idle_base b (base rt2)), event_held.
  unfold describe_change. set (rt1 := if reroutes r then _ else _). assert (H1 : idle (mk_books b (base rt2)) L rt1).
  { unfold rt1. destruct (reroutes r); [|exact H2]. by apply (neighbour_fini_own (OW := stack_ownership _)). }
  clearbody rt1. apply (event_held _ (rq_group r) (field r F_PREF) (rq_verb r)) in H1. own_quietly.
Qed.

Lemma capture_links_rt ports : forall w, wk_rt (capture_links ports w).2 = wk_rt w.
Proof.
  induction ports as [|p ports IH]; intros w; [done|]. cbn [capture_links]. unfold capture_link, link_get_nowait, stats_get, dev_info_get.
  destruct (link_of _ _) as [rc status]. destruct (info_of _ _) as [rc_info info]. set (w1 := record_nic _ _). assert (H := IH w1).
  destruct (capture_links ports w1) as [links w2]. exact H.
Qed.

Lemma capture_held b0 r w : idle b0 L (wk_rt w) -> idle b0 L (wk_rt (capture r w).2).
Proof.
  intros H. unfold capture, timer, on_rt_rc. destruct (timer_cycles (wk_rt w)) as [now rt'] eqn:E. cbv zeta.
  apply (idle_cycles b0 L) in E; [|exact H]. set (w1 := set_wk_rt rt' w). assert (H1 := capture_links_rt (rt_ports (wk_rt w)) w1).
  destruct (capture_links _ w1) as [links w2]. cbn [snd] in H1. destruct (if _ && _ then _ else _). cbn [snd]. by rewrite H1.
Qed.

Lemma check_carrier_held b0 l : forall w, idle b0 L (wk_rt w) -> idle b0 L (wk_rt (foldl check_carrier w l)).
Proof.
  induction l as [|i l IH]; intros w H; [done|]. apply IH. unfold check_carrier, link_get_nowait. destruct (link_of _ _) as [rc status].
  destruct (_ && _); [|exact H]. by apply event_held.
Qed.

Lemma scan_carrier_held b0 w : idle b0 L (wk_rt w) -> idle b0 L (wk_rt (scan_carrier w)).
Proof.
  intros H. unfold scan_carrier, timer, on_rt_rc. destruct (timer_cycles (wk_rt w)) as [now rt'] eqn:E.
  apply (idle_cycles b0 L) in E; [|exact H]. destruct (_ <? _); [exact E|by apply check_carrier_held].
Qed.

Lemma admin_progress_held b mx w : held b w -> held b (admin_progress mx w).2.
Proof.
  intros H%scan_carrier_held%idle_base. unfold admin_progress. destruct (negb _); [exact H|]. set (w1 := scan_carrier w) in *. clearbody w1.
  set (job := match _ with ADMIN_READ => _ | _ => _ end). assert (H1 : held b job.2).
  { unfold job. destruct (jb_type _); [exact H| |].
    - unfold activate. destruct (jb_next _) as [[block next]|]; [|exact H]. destruct (negb _); [exact H|].
      destruct (removed_binding _ _); [exact H|]. by eapply publish_held.
    - assert (H2 := admin_worker_operation_held b (jb_request (set_jb_result 0 (mx_job mx))) w1 H). by destruct (admin_worker_operation _ _). }
  destruct job as [j w2]. assert (H2 := capture_held _ (jb_request j) w2 H1). destruct (capture _ _). by apply idle_base in H2.
Qed.
End administration.

(** * Reachable states *)

(** What the poll thread does between two iterations of its loop. *)
Inductive stack_step {D : Dpdk} : app_runtime -> app_runtime -> Prop :=
| step_poll rt : stack_step rt (app_step rt).2
| step_request rt request : stack_step rt (daemon_dispatch submit request rt).2
| step_neighbour_set rt dev ip mac replace : stack_step rt (neighbour_set submit dev ip mac replace rt).2
| step_neighbour_delete rt dev ip : stack_step rt (neighbour_delete submit dev ip rt).2
| step_admin (N : Nic) mx w : stack_step (wk_rt w) (wk_rt (admin_progress mx w).2).

Lemma stack_step_idle {D : Dpdk} {DL : DpdkLaws} b rt rt' : stack_step rt rt' ->
  idle (mk_books b (base rt)) [] rt -> idle (mk_books b (base rt')) [] rt'.
Proof.
  intros Hstep H. destruct Hstep; [apply (idle_base [] b (base rt))..|].
  - by apply app_step_own.
  - by apply daemon_dispatch_own.
  - by apply (neighbour_set_own (OW := stack_ownership _)).
  - by apply (neighbour_delete_own (OW := stack_ownership _)).
  - by apply admin_progress_held.
Qed.

Lemma reachable_idle {D : Dpdk} {DL : DpdkLaws} {E : Ethdev} progname conf rt0 rt1 rt : rt_dpdk rt0 = [] ->
  app_init progname conf rt0 = (0, rt1) -> rtc stack_step rt1 rt -> idle (empty_books rt) [] rt.
Proof. intros Hh Hi Hr. apply app_init_idle in Hi; [|done]. induction Hr; eauto using stack_step_idle. Qed.

(** An idle stack gives everything back when it is taken down. *)
Lemma app_fini_ledger {D : Dpdk} {DL : DpdkLaws} rt : idle (empty_books rt) [] rt -> forall id, ledger (rt_dpdk (app_fini rt)) id = 0.
Proof.
  intros H id. rewrite app_fini_dpdk.
  assert (H2 : idle (empty_books rt) [] (neighbour_fini submit (socket_subsystem_fini rt))).
  { apply (neighbour_fini_own (OW := stack_ownership _)); [done|]. by apply (own_quiet (Ownership := stack_ownership _) _ rt). }
  assert (Hs := idle_slots _ _ _ H2). destruct H2 as [[_ _ _ [Hacc _]] _]. assert (Hid := Hacc id). unfold balance in Hid. cbn [bk_balance empty_books] in Hid.
  assert (Hlen : length (rt_pending_neighbours (socket_subsystem_fini rt)) = NEIGHBOUR_PENDING_MAX) by apply H.
  apply neighbour_fini_empty in Hlen. rewrite Hs, Hlen, !cnt_nil in Hid. lia.
Qed.

(** * Theorems *)

(** C2: [graph_submit] always finishes.  Called outside a node with at most 64
    packets, it answers 0 and leaves the graph drained; the packets it was given
    have been freed, transmitted, or put into a neighbour queue, each once. *)
Theorem graph_submit_conserves {D : Dpdk} {DL : DpdkLaws} nested b0 L n frame rt :
  idle b0 (ids frame ++ L) rt -> (length frame <= GRAPH_FRAME_SIZE)%nat ->
  exists rt', graph_submit (nodes_run nested) n frame rt = (0, rt') /\ idle b0 L rt'.
Proof. apply graph_submit_ok. apply nodes_run_functions. Qed.

(** C1: between two steps of the poll loop no packet is in flight inside the
    stack: the scheduler is idle, and a buffer that came from DPDK (allocated or
    received) and has not gone back (freed or transmitted) sits in exactly one
    neighbour queue.  This holds after any sequence of polls, client requests,
    neighbour operations and administrative steps, whatever the mailbox holds
    and the devices answer. *)
Theorem buffers_conserved {D : Dpdk} {DL : DpdkLaws} {E : Ethdev} progname conf rt0 rt1 rt : rt_dpdk rt0 = [] ->
  app_init progname conf rt0 = (0, rt1) -> rtc stack_step rt1 rt ->
  rt_active_output rt = None /\ gr_q_count (rt_graph rt) = O /\ held_slots (gr_slots (rt_graph rt)) = [] /\
  forall id, ledger (rt_dpdk rt) id = cnt (pending_ids (rt_pending_neighbours rt)) id.
Proof.
  intros Hh Hi Hr. assert (H := reachable_idle _ _ _ _ _ Hh Hi Hr). assert (Hs := idle_slots _ _ _ H).
  destruct H as [[Ha _ _ [Hacc _]] Hq]. split; [done|]. split; [done|]. split; [done|]. intros id. assert (Hid := Hacc id).
  unfold balance in Hid. cbn [bk_balance empty_books] in Hid. rewrite Hs, !cnt_nil in Hid. lia.
Qed.

(** After [app_fini] every buffer has gone back: each one that was allocated
    or received was freed or transmitted exactly as often. *)
Theorem shutdown_returns_buffers {D : Dpdk} {DL : DpdkLaws} {E : Ethdev} progname conf rt0 rt1 rt : rt_dpdk rt0 = [] ->
  app_init progname conf rt0 = (0, rt1) -> rtc stack_step rt1 rt -> forall id, ledger (rt_dpdk (app_fini rt)) id = 0.
Proof.
  intros Hh Hi Hr. by eapply app_fini_ledger, reachable_idle.
Qed.

(** * A concrete run *)

Lemma pair_of_code {A B} (p : A * B) a : p.1 = a -> p = (a, p.2).
Proof. destruct p. by intros <-. Qed.

Module Sample.
Definition ethdev : Ethdev := {|
  getpid := 4242; rte_eal_init := fun _ => 0; rte_lcore_count := 1;
  rte_eth_dev_get_port_by_name := fun _ => Some 3;
  rte_eth_dev_configure := fun _ => 0; rte_eth_dev_adjust_nb_rx_tx_desc := fun _ d => (0, d);
  rte_eth_rx_queue_setup := fun _ _ => 0; rte_eth_tx_queue_setup := fun _ _ => 0;
  rte_eth_macaddr_get := fun _ => (0, [2; 0; 0; 0; 0; 1]); rte_eth_dev_get_mtu := fun _ => (0, 1500);
  rte_eth_dev_start := fun _ => 0; rte_pktmbuf_pool_create := fun _ _ => true; interface_mtu := fun _ => None |}.

(** One tap interface, 10.0.0.1/24. *)
Definition conf : app_config :=
  zero_app_config |> set_cf_interfaces [mk_netif_config PMD_TAP "tap0" (rd_le32 [10; 0; 0; 1] 0) 24].

(** 10.0.0.2 asks for 10.0.0.1. *)
Definition arp_query : list Z :=
  replicate 6 255 ++ [2; 0; 0; 0; 0; 9] ++ be16 RTE_ETHER_TYPE_ARP ++
  be16 1 ++ be16 RTE_ETHER_TYPE_IPV4 ++ [6; 4] ++ be16 1 ++ [2; 0; 0; 0; 0; 9] ++ [10; 0; 0; 2] ++ replicate 6 0 ++ [10; 0; 0; 1].

(** The query arrives with the first poll. *)
Definition dpdk : Dpdk := sim (fun h _ => if existsb (fun e => match e with EvRx _ _ => true | _ => false end) h then []
                                         else [received 7 arp_query]).

#[local] Existing Instance dpdk.
#[local] Existing Instance ethdev.
#[local] Instance laws : DpdkLaws := sim_laws _.

Definition booted : app_runtime := (app_init "netstack" conf zero_app_runtime).2.

Lemma boot : app_init "netstack" conf zero_app_runtime = (0, booted).
Proof. unfold booted. apply pair_of_code. vm_compute. reflexivity. Qed.

Definition polled : app_runtime := (app_step booted).2.

Lemma run : rtc stack_step booted polled.
Proof. eapply rtc_l; [apply step_poll|apply rtc_refl]. Qed.

(** The poll answers the query: the buffer leaves again through port 3. *)
Example arp_answered :
  omap (fun e => match e with EvTx port batch sent => Some (port, mb_id <$> batch, sent) | _ => None end) (rt_dpdk polled) = [(3, [7], 1%nat)].
Proof. vm_compute. reflexivity. Qed.

Lemma booted_idle : idle (empty_books booted) [] booted.
Proof. apply (app_init_idle "netstack" conf zero_app_runtime); [reflexivity|apply boot]. Qed.

Lemma graph_submit_conserves_witness :
  exists rt', graph_submit (nodes_run submit) NODE_ETH_INPUT [] booted = (0, rt') /\ idle (empty_books booted) [] rt'.
Proof. apply (graph_submit_conserves submit (empty_books booted) [] NODE_ETH_INPUT [] booted); [exact booted_idle|simpl; unfold GRAPH_FRAME_SIZE; lia]. Defined.

Lemma buffers_conserved_witness : rt_active_output polled = None /\ gr_q_count (rt_graph polled) = O /\
  held_slots (gr_slots (rt_graph polled)) = [] /\
  forall id, ledger (rt_dpdk polled) id = cnt (pending_ids (rt_pending_neighbours polled)) id.
Proof. apply (buffers_conserved "netstack" conf zero_app_runtime booted polled); [reflexivity|exact boot|exact run]. Defined.

Lemma shutdown_returns_buffers_witness : ledger (rt_dpdk (app_fini polled)) 7 = 0.
Proof. apply (shutdown_returns_buffers "netstack" conf zero_app_runtime booted polled); [reflexivity|exact boot|exact run]. Defined.
End Sample.
