(* ===== verification/SocketFrame.v ===== *)
(** What output leaves alone: handing packets to the output nodes never touches
    the socket table.  The nodes of rank at most four (the output path, ARP and
    drop) do not write it, and packets given to such a node only ever reach
    such nodes. *)
From S2P Require Import Prelude.
From S2P Require Import Dpdk.
From S2P Require Import Types.
From S2P Require Import Netif.
From S2P Require Import Neighbour.
From S2P Require Import Graph.
From S2P Require Import Packet.
From S2P Require Import GraphInv.
From S2P Require Import Scheduler.
From S2P Require Import IcmpError.
From S2P Require Import Resolution.
From S2P Require Import Nodes.
From S2P Require Import Runtime.
From S2P Require Import Ownership.
From S2P Require Import NodeProofs.

(** * The graph operations write the graph and the history only *)

Definition graph_write (rt rt' : app_runtime) : Prop :=
  exists g d, rt' = (rt |> set_rt_graph g |> set_rt_dpdk d).

#[export] Instance graph_write_preorder : PreOrder graph_write.
Proof.
  split.
  - intros rt. exists (rt_graph rt), (rt_dpdk rt). by destruct rt.
  - intros a b c (g1 & d1 & ->) (g2 & d2 & ->). by exists g2, d2.
Qed.

Lemma free_all_write (frame : node_frame) rt : graph_write rt (foldl (fun rt p => mbuf_free p.1 rt) rt frame).
Proof.
  revert rt. induction frame as [|p frame IH]; intros rt; [reflexivity|]. cbn [foldl]. etransitivity; [|apply IH].
  exists (rt_graph rt), (EvFree p.1 :: rt_dpdk rt). by destruct rt.
Qed.

Lemma graph_write_graph f rt rt' : graph_write rt rt' -> graph_write rt (alter_graph f rt').
Proof. intros (g & d & ->). exists (f g), d. done. Qed.

Lemma flush_pending_write rt out n : graph_write rt (flush_pending rt out n).1.2.
Proof.
  unfold flush_pending. destruct (nth _ _ _) as [slot|]; [|reflexivity]. destruct (queue_slot _ _) as [rc g]. cbv zeta.
  destruct (rc =? 0); cbn [fst snd].
  - exists g, (rt_dpdk rt). by destruct rt.
  - repeat apply graph_write_graph. apply free_all_write.
Qed.

Lemma node_enqueue_write rt out n m ctx : graph_write rt (node_enqueue rt out n m ctx).1.2.
Proof.
  unfold node_enqueue. assert (Hs : forall g, graph_write rt (set_rt_graph g rt)) by (intros g; exists g, (rt_dpdk rt); by destruct rt).
  destruct (nth _ _ _) as [slot|]; [|destruct (slot_alloc _) as [[slot|] g]]; cbv zeta.
  - destruct (Nat.eqb _ _); [|apply Hs]. etransitivity; [apply Hs|apply flush_pending_write].
  - destruct (Nat.eqb _ _); [etransitivity; [|apply flush_pending_write]|cbn [fst snd]]; apply graph_write_graph, Hs.
  - cbn [fst snd]. eexists _, _. by destruct rt.
Qed.

(** * Functions that keep the socket table *)

Definition keeps (f : app_runtime -> app_runtime) : Prop := forall rt, rt_sockets (f rt) = rt_sockets rt.

Lemma graph_write_sockets rt rt' : graph_write rt rt' -> rt_sockets rt' = rt_sockets rt.
Proof. by intros (g & d & ->). Qed.

Lemma flush_pending_sockets rt out n : rt_sockets (flush_pending rt out n).1.2 = rt_sockets rt.
Proof. apply graph_write_sockets, flush_pending_write. Qed.
Lemma node_enqueue_sockets rt out n m ctx : rt_sockets (node_enqueue rt out n m ctx).1.2 = rt_sockets rt.
Proof. apply graph_write_sockets, node_enqueue_write. Qed.

Lemma enqueue_active_sockets n m ctx rt : rt_sockets (enqueue_active n m ctx rt).2 = rt_sockets rt.
Proof.
  unfold enqueue_active. destruct (rt_active_output rt) as [out|]; [|done]. assert (H := node_enqueue_sockets rt out n m ctx).
  by destruct (node_enqueue _ _ _ _ _) as [[rc rt1] out1].
Qed.
Lemma enqueue_sockets n m ctx rt : rt_sockets (enqueue n m ctx rt) = rt_sockets rt.
Proof. apply enqueue_active_sockets. Qed.

Lemma graph_drop_sockets owner m ctx reason error rt : rt_sockets (graph_drop owner m ctx reason error rt) = rt_sockets rt.
Proof.
  unfold graph_drop. cbv zeta. set (rt1 := if error then _ else _). assert (H1 : rt_sockets rt1 = rt_sockets rt) by (unfold rt1; by destruct error).
  clearbody rt1. rewrite <- H1. destruct (rt_active_output rt1); [apply enqueue_sockets|].
  match goal with |- context[node_enqueue ?a ?b ?c ?d ?e] => assert (H := node_enqueue_sockets a b c d e); destruct (node_enqueue a b c d e) as [[rc rt2] out2] end.
  cbn [fst snd] in H. destruct (rc =? 0); [|done]. assert (H2 := flush_pending_sockets rt2 out2 NODE_DROP).
  destruct (flush_pending _ _ _) as [[rc3 rt3] out3]. cbn [fst snd] in H2. congruence.
Qed.

Create HintDb sockets.
#[export] Hint Rewrite enqueue_active_sockets enqueue_sockets graph_drop_sockets : sockets.

Lemma foldl_sockets {A} (f : app_runtime -> A -> app_runtime) l rt : (forall rt x, rt_sockets (f rt x) = rt_sockets rt) ->
  rt_sockets (foldl f rt l) = rt_sockets rt.
Proof. intros Hf. revert rt. induction l as [|x l IH]; intros rt; [done|]. cbn [foldl]. by rewrite IH, Hf. Qed.

Section nodes.
Context {D : Dpdk} (submit : node_id -> node_frame -> app_runtime -> app_runtime).
Context (Hsubmit : forall n frame, keeps (submit n frame)).

Ltac kept := repeat (match goal with
  | |- context[if ?b then _ else _] => destruct b
  | |- context[match ?x with Some _ => _ | None => _ end] => destruct x
  | |- _ => progress (autorewrite with sockets)
  end); try done.

Lemma arp_request_sockets port ip rt : rt_sockets (arp_request submit port ip rt) = rt_sockets rt.
Proof.
  unfold arp_request, mbuf_alloc. cbv zeta. destruct (alloc_of _); [|done]. destruct (rt_active_output _); [by rewrite enqueue_sockets|].
  by rewrite Hsubmit.
Qed.

Lemma release_pending_sockets i rt : rt_sockets (release_pending submit i rt) = rt_sockets rt.
Proof.
  unfold release_pending. cbv zeta. destruct (rt_active_output _); [|by rewrite Hsubmit].
  rewrite foldl_sockets; [done|]. intros rt' x. apply enqueue_sockets.
Qed.

Lemma neighbour_queue_sockets netif m ctx now rt : rt_sockets (neighbour_queue submit netif m ctx now rt).2 = rt_sockets rt.
Proof.
  unfold neighbour_queue. destruct (find_pending _ _ _); [|done]. cbv zeta. destruct (_ =? _); [done|]. destruct (netif_by_id _ _); [|done].
  destruct (_ || _); [done|]. cbn [snd]. match goal with |- context[if negb ?b then _ else _] => destruct b end; cbn [negb];
  rewrite ?arp_request_sockets; by destruct (cx_report_acceptance ctx).
Qed.

Lemma event_sockets rt group id action : rt_sockets (admin_event_emit rt group id action) = rt_sockets rt.
Proof. unfold admin_event_emit. by destruct (rt_network rt). Qed.
Lemma neighbour_event_sockets rt dev ip action : rt_sockets (admin_neighbour_event rt dev ip action) = rt_sockets rt.
Proof. unfold admin_neighbour_event. cbv zeta. destruct (rt_network _); [cbn|]; by rewrite event_sockets. Qed.

Lemma neighbour_update_sockets netif ip mac rt : rt_sockets (neighbour_update submit netif ip mac rt).2 = rt_sockets rt.
Proof.
  unfold neighbour_update. destruct (neighbour_learn _ _ _ _) as [rc table]. cbv zeta. destruct (truth rc); [done|]. cbn [snd].
  rewrite foldl_sockets.
  - destruct (neighbour_lookup _ _ _); [|done]. match goal with |- context[if ?b then _ else _] => destruct b end; [|done]. by rewrite neighbour_event_sockets.
  - intros rt' i. destruct (_ && _); [apply release_pending_sockets|done].
Qed.

(** The nodes of rank at most four. *)
Lemma drop_sockets frame rt : rt_sockets (drop_node_run frame rt) = rt_sockets rt.
Proof. unfold drop_node_run. rewrite foldl_sockets; [done|]. intros rt' [m ctx]. unfold drop_packet. by destruct (_ <? _). Qed.

Lemma arp_output_sockets rt p : rt_sockets (arp_output_packet rt p) = rt_sockets rt.
Proof. destruct p as [m ctx]. unfold arp_output_packet. cbv zeta. destruct (egress_port _ _); [|apply graph_drop_sockets]. kept. Qed.

Lemma ipv4_output_sockets rt p : rt_sockets (ipv4_output_packet rt p) = rt_sockets rt.
Proof.
  destruct p as [m ctx]. unfold ipv4_output_packet. cbv zeta. destruct (egress_port _ _); [|apply graph_drop_sockets]. kept.
Qed.

Lemma eth_output_sockets rt p : rt_sockets (eth_output_packet submit rt p) = rt_sockets rt.
Proof.
  destruct p as [m ctx]. unfold eth_output_packet. cbv zeta. destruct (egress_port _ _) as [port|]; [|apply graph_drop_sockets].
  destruct (_ <? _); [apply graph_drop_sockets|]. destruct (neighbour_lookup _ _ _); [kept|]. unfold timer_cycles. cbv zeta.
  match goal with |- context[neighbour_queue submit ?a ?b ?c ?d ?e] =>
    assert (H := neighbour_queue_sockets a b c d e); destruct (neighbour_queue submit a b c d e) as [reason rt1] end.
  cbn [snd] in H. destruct (negb _); [rewrite graph_drop_sockets|]; by rewrite H.
Qed.

Lemma arp_input_sockets rt p : rt_sockets (arp_input_packet submit rt p) = rt_sockets rt.
Proof.
  destruct p as [m ctx]. unfold arp_input_packet. cbv zeta. destruct (ingress_port _ _) as [port|]; [|apply graph_drop_sockets].
  do 4 (match goal with |- context[if ?b then graph_drop _ _ _ _ _ _ else _] => destruct b; [apply graph_drop_sockets|] end).
  set (rt1 := if _ && _ && _ then _ else rt). assert (H1 : rt_sockets rt1 = rt_sockets rt).
  { unfold rt1. destruct (_ && _ && _); [|done]. match goal with |- context[neighbour_update submit ?a ?b ?c ?d] =>
      assert (H := neighbour_update_sockets a b c d); destruct (neighbour_update submit a b c d) as [rc rt2] end. by destruct (_ <? _). }
  clearbody rt1. rewrite <- H1. kept.
Qed.

Lemma tx_pad_sockets rt ready p : rt_sockets (tx_pad (rt, ready) p).1 = rt_sockets rt.
Proof.
  destruct p as [m ctx]. unfold tx_pad. destruct (egress_port _ _); [|apply graph_drop_sockets]. cbv zeta. destruct (_ <? _); [|done].
  destruct (rte_pktmbuf_append _ _); [done|]. cbn [fst]. by rewrite graph_drop_sockets.
Qed.

Lemma tx_port_sockets ready rt k : rt_sockets (tx_port ready rt k) = rt_sockets rt.
Proof.
  unfold tx_port. destruct (_ !! _); [|done]. destruct (_ || _); [done|]. cbv zeta. destruct (Nat.eqb _ _); [done|]. unfold tx_burst. cbv zeta.
  rewrite foldl_sockets; [done|]. intros rt' x. apply graph_drop_sockets.
Qed.

Lemma tx_sockets frame rt : rt_sockets (tx_node_run frame rt) = rt_sockets rt.
Proof.
  unfold tx_node_run. assert (H : forall acc, rt_sockets (foldl tx_pad acc frame).1 = rt_sockets acc.1).
  { clear. induction frame as [|p frame IH]; intros acc; [done|]. cbn [foldl]. rewrite IH. destruct acc as [rt ready]. apply tx_pad_sockets. }
  specialize (H (rt, [])). destruct (foldl tx_pad (rt, []) frame) as [rt1 ready]. cbn [fst] in H. rewrite foldl_sockets; [done|].
  intros rt' k. apply tx_port_sockets.
Qed.

Lemma low_nodes_sockets n frame rt : (rank n <= 4)%nat -> rt_sockets (nodes_run submit n frame rt) = rt_sockets rt.
Proof.
  intros Hn. destruct n; cbn [rank] in Hn; try lia; cbn [nodes_run].
  - apply drop_sockets.
  - apply foldl_sockets, arp_input_sockets.
  - apply foldl_sockets, ipv4_output_sockets.
  - apply foldl_sockets, eth_output_sockets.
  - apply foldl_sockets, arp_output_sockets.
  - apply tx_sockets.
Qed.
End nodes.

(** * The scheduler *)

Section drain.
Context (run : node_id -> node_frame -> app_runtime -> app_runtime) {NF : NodeFunctions run}.
Context (Hrun : forall n frame rt, (rank n <= 4)%nat -> rt_sockets (run n frame rt) = rt_sockets rt).

(** Everything queued is of rank at most four. *)
Definition low (g : dp_graph) : Prop := Forall (fun i => (rank (slot_node g i) <= 4)%nat) (queued g).

Lemma count_frame_sockets n (frame : node_frame) rt :
  rt_sockets (foldl (fun rt p => rt |> count_packets n 1 |> count_bytes n (rte_pktmbuf_pkt_len p.1)) rt frame) = rt_sockets rt.
Proof. by rewrite foldl_sockets. Qed.

Lemma flush_all_sockets rt out : rt_sockets (flush_all rt out).1 = rt_sockets rt.
Proof.
  unfold flush_all. generalize all_nodes as l. intros l. revert rt out. induction l as [|n l IH]; intros rt out; [done|]. cbn [foldl].
  assert (H := flush_pending_sockets rt out n). destruct (flush_pending rt out n) as [[rc rt1] out1]. by rewrite IH.
Qed.

Lemma graph_round_low b0 L rt : scheduled b0 L rt -> low (rt_graph rt) ->
  match graph_round run rt with
  | Done rt' => rt' = rt
  | More rt' => scheduled b0 L rt' /\ low (rt_graph rt') /\ rt_sockets rt' = rt_sockets rt
  end.
Proof.
  intros Hsc Hlow. unfold graph_round. destruct (gr_q_count (rt_graph rt)) as [|count] eqn:Ec; [done|].
  destruct (round_start b0 L rt count Hsc Ec) as (q0 & Hq & Hs & Hu & Hlen & Hsl & Hrunning). cbv zeta in *.
  set (slot := nth (gr_q_head _) _ _) in *. set (s := nth slot _ _) in *. set (rt3 := set_rt_active_output _ (foldl _ _ _)) in *.
  assert (H3 : rt_sockets rt3 = rt_sockets rt) by (unfold rt3; cbn [rt_sockets set_rt_active_output]; by rewrite count_frame_sockets).
  assert (Hfun := gi_run _ _ _ (sc_graph _ _ _ Hsc) (sl_node s)). rewrite list_lookup_fmap in Hfun.
  apply fmap_Some in Hfun as (d & Hd & Hdr). rewrite Hd, <- Hdr.
  apply (node_run_ok (sl_node s) (sl_frame s)) in Hrunning; [|done].
  unfold low in Hlow. rewrite Hq in Hlow. apply Forall_cons_iff in Hlow as [Hr Hlow0].
  assert (Hrank : (rank (sl_node s) <= 4)%nat) by (unfold slot_node in Hr; by rewrite Hs in Hr).
  assert (H4 := Hrun (sl_node s) (sl_frame s) rt3 Hrank). set (rt4 := run _ _ rt3) in *.
  assert (Hs3 : gr_slots (rt_graph rt3) !! slot = Some s) by (by rewrite Hsl).
  destruct (round_end run b0 L _ _ _ _ _ _ Hrunning Hs3 Hu) as (Hsc' & new & Hq' & Hnew & Hkept). cbv zeta in *.
  split; [done|]. split; [|by rewrite flush_all_sockets; cbn; rewrite H4].
  unfold low. rewrite Hq'. apply Forall_app_2; [|eapply Forall_impl; [exact Hnew|]; intros i Hi; simpl in Hi; lia].
  apply Forall_forall. intros i Hi. unfold slot_node. rewrite Hkept, Hsl by done. rewrite Forall_forall in Hlow0. by apply Hlow0.
Qed.

Lemma iterate_invariant {S} (body : S -> outcome S) (I : S -> Prop) n s :
  (forall s, I s -> I (state_of (body s))) -> I s -> I (state_of (iterate n body s)).
Proof.
  intros Hb. revert s. induction n as [|n IH]; intros s Hs; simpl; [by apply Hb|].
  assert (H := IH s Hs). destruct (iterate n body s) as [s1|s1]; [by apply IH|done].
Qed.

Lemma graph_drain_low b0 L rt : scheduled b0 L rt -> low (rt_graph rt) -> rt_sockets (graph_drain run rt) = rt_sockets rt.
Proof.
  intros Hsc Hlow. unfold graph_drain.
  apply (iterate_invariant (graph_round run) (fun rt' => scheduled b0 L rt' /\ low (rt_graph rt') /\ rt_sockets rt' = rt_sockets rt)); [|done].
  intros rt1 (H1 & H2 & H3). assert (H := graph_round_low b0 L rt1 H1 H2). destruct (graph_round run rt1); cbn [state_of].
  - destruct H as (? & ? & ?). split_and!; [done|done|congruence].
  - by subst.
Qed.

Lemma graph_submit_low b0 L n frame rt : (rank n <= 4)%nat -> idle b0 (ids frame ++ L) rt -> (length frame <= GRAPH_FRAME_SIZE)%nat ->
  rt_sockets (graph_submit run n frame rt).2 = rt_sockets rt.
Proof.
  intros Hn Hidle Hlen. destruct (graph_seeded run b0 L n frame rt Hidle Hlen) as (rt' & -> & Hsc & Hrt & Hr). cbn [snd].
  rewrite (graph_drain_low b0 L rt'); [by rewrite Hrt|done|]. eapply Forall_impl; [exact Hr|]. intros i Hi. simpl in Hi. lia.
Qed.
End drain.

(** * What the protocol code relies on *)

(** Sending through the output path keeps the socket table. *)
Class OutputKeepsSockets {D : Dpdk} (submit : node_id -> node_frame -> app_runtime -> app_runtime)
  (own : list Z -> app_runtime -> Prop) : Prop :=
  send_sockets : forall L n frame rt, (rank n <= 4)%nat -> (length frame <= NEIGHBOUR_PENDING_QUEUE_MAX)%nat ->
    own (ids frame ++ L) rt -> rt_sockets (send submit n frame rt) = rt_sockets rt.

#[export] Instance running_output {D : Dpdk} submit r g0 q0 cur b0 : OutputKeepsSockets submit (running r g0 q0 cur b0).
Proof.
  intros L n frame rt _ _ H. destruct (rn_out _ _ _ _ _ _ _ H) as (out & Ha & _). unfold send. rewrite Ha.
  rewrite foldl_sockets; [done|]. intros rt' p. apply enqueue_sockets.
Qed.

#[export] Instance idle_output {D : Dpdk} {DL : DpdkLaws} b0 : OutputKeepsSockets submit (idle b0).
Proof.
  intros L n frame rt Hn Hl H. unfold send. rewrite (sc_inactive _ _ _ (proj1 H)). unfold submit, submit_depth.
  apply (graph_submit_low _ (low_nodes_sockets (fun _ _ rt => rt) (fun _ _ _ => eq_refl)) b0 L); [done|done|].
  unfold NEIGHBOUR_PENDING_QUEUE_MAX, GRAPH_FRAME_SIZE in *. lia.
Qed.
