(* ===== verification/SocketTyped.v ===== *)
(** The ranges of the socket table.  Error numbers, receive lengths and datagram
    lengths stay within their C types under every function of the stack: the
    protocol code, the node functions, the scheduler, the poll step, the socket
    calls, the dispatcher and the administrative worker. *)
From S2P Require Import Prelude.
From S2P Require Import Dpdk.
From S2P Require Import Types.
From S2P Require Import Netif.
From S2P Require Import PolicyRoute.
From S2P Require Import Neighbour.
From S2P Require Import Graph.
From S2P Require Import Packet.
From S2P Require Import IcmpError.
From S2P Require Import Resolution.
From S2P Require Import Sockets.
From S2P Require Import Udp.
From S2P Require Import Tcp.
From S2P Require Import Nodes.
From S2P Require Import Runtime.
From S2P Require Import CoreSocket.
From S2P Require Import Ipc.
From S2P Require Import Queue.
From S2P Require Import Dispatch.
From S2P Require Import AdminWire.
From S2P Require Import AdminWorker.
From S2P Require Import Ports.
From S2P Require Import Conservation.
From S2P Require Import SocketFrame.

(** * The ranges *)

Definition socket_typed (s : ps_socket_entry) : Prop :=
  0 <= so_error s <= INT_MAX /\ is_u16 (tc_rx_len (so_tcp s)) /\ Forall (fun d => is_u16 (dg_length d)) (ud_queue (so_udp s)).
Definition sockets_typed (rt : app_runtime) : Prop := Forall socket_typed (ss_entries (rt_sockets rt)).

Lemma zero_socket_typed : socket_typed zero_ps_socket_entry.
Proof. split; [|split]; cbn; [unfold INT_MAX; lia|done|]. by apply Forall_replicate. Qed.

Lemma sock_typed rt i : sockets_typed rt -> socket_typed (sock rt i).
Proof.
  unfold sockets_typed. rewrite Forall_lookup. intros H. unfold sock. rewrite nth_lookup.
  destruct (ss_entries (rt_sockets rt) !! i) as [s|] eqn:E; [by apply (H i)|]. apply zero_socket_typed.
Qed.

Lemma entries_typed rt rt' : ss_entries (rt_sockets rt') = ss_entries (rt_sockets rt) -> sockets_typed rt -> sockets_typed rt'.
Proof. unfold sockets_typed. by intros ->. Qed.
Lemma sockets_typed_same rt rt' : rt_sockets rt' = rt_sockets rt -> sockets_typed rt -> sockets_typed rt'.
Proof. intros E. apply entries_typed. by rewrite E. Qed.
Lemma write_typed (f : app_runtime -> app_runtime) : (forall rt, ss_entries (rt_sockets (f rt)) = ss_entries (rt_sockets rt)) ->
  forall rt, sockets_typed rt -> sockets_typed (f rt).
Proof. intros Hf rt. apply entries_typed, Hf. Qed.

(** Writes of one entry. *)
Lemma alter_sock_typed i f rt : (forall s, socket_typed s -> socket_typed (f s)) -> sockets_typed rt -> sockets_typed (alter_sock i f rt).
Proof. intros Hf H. unfold sockets_typed, alter_sock. cbn. apply Forall_alter; [done|]. intros x _. apply Hf. Qed.
Lemma alter_tcp_typed i f rt : (forall c, is_u16 (tc_rx_len c) -> is_u16 (tc_rx_len (f c))) -> sockets_typed rt -> sockets_typed (alter_tcp i f rt).
Proof. intros Hf. apply alter_sock_typed. intros s (? & ? & ?). split; [done|]. split; [by apply Hf|done]. Qed.

Lemma clear_sock_typed i rt : sockets_typed rt -> sockets_typed (clear_sock i rt).
Proof. apply alter_sock_typed. intros s _. apply zero_socket_typed. Qed.

Create HintDb typed discriminated.
#[export] Hint Constants Opaque : typed.

(** A write of another field. *)
Ltac typed_peel := match goal with |- sockets_typed (?f ?rt) =>
  lazymatch type of rt with app_runtime => apply (write_typed f); [reflexivity|] end end.
#[export] Hint Extern 8 (sockets_typed (_ _)) => typed_peel : typed.

(** A function on a connection or an entry that keeps the ranges. *)
Ltac kept_range := intros; cbn; repeat match goal with |- context[if ?b then _ else _] => destruct b; cbn end; first [assumption | apply u16_range | done].
#[export] Hint Extern 1 => match goal with
  | |- forall c, is_u16 (tc_rx_len c) -> _ => solve [kept_range]
  | |- forall s, socket_typed s -> _ => solve [kept_range]
  end : typed.

(** [typed] follows the branches of a function; the calls it meets are closed by
    the lemmas of the database. *)
Ltac typed_leaf := solve [eauto 12 with typed nocore].
Ltac typed_case e := lazymatch e with
  | match ?e' with _ => _ end => typed_case e'
  | _ => first [ let H := fresh in assert (H : sockets_typed e.2) by typed_leaf; destruct e; cbn [snd] in H | destruct e ]
  end.
Ltac typed := repeat (cbn [fst snd]; match goal with
  | |- sockets_typed _ => typed_leaf
  | |- context[match ?e with _ => _ end] => typed_case e
  end).

Lemma foldl_typed {A} (f : app_runtime -> A -> app_runtime) l rt : (forall rt x, sockets_typed rt -> sockets_typed (f rt x)) ->
  sockets_typed rt -> sockets_typed (foldl f rt l).
Proof. intros Hf. revert rt. induction l as [|x l IH]; intros rt H; [done|]. cbn [foldl]. apply IH. by apply Hf. Qed.

#[export] Hint Resolve alter_sock_typed alter_tcp_typed clear_sock_typed foldl_typed : typed.
(** The loops over tables are never unrolled. *)
#[local] Opaque sockets_typed foldl alter_sock alter_tcp clear_sock sock.

Lemma enqueue_active_typed n m ctx rt : sockets_typed rt -> sockets_typed (enqueue_active n m ctx rt).2.
Proof. apply sockets_typed_same, enqueue_active_sockets. Qed.
Lemma enqueue_typed n m ctx rt : sockets_typed rt -> sockets_typed (enqueue n m ctx rt).
Proof. apply sockets_typed_same, enqueue_sockets. Qed.
Lemma graph_drop_typed owner m ctx reason error rt : sockets_typed rt -> sockets_typed (graph_drop owner m ctx reason error rt).
Proof. apply sockets_typed_same, graph_drop_sockets. Qed.
Lemma event_typed rt group id act : sockets_typed rt -> sockets_typed (admin_event_emit rt group id act).
Proof. apply sockets_typed_same, event_sockets. Qed.
Lemma neighbour_event_typed rt dev ip act : sockets_typed rt -> sockets_typed (admin_neighbour_event rt dev ip act).
Proof. apply sockets_typed_same, neighbour_event_sockets. Qed.
#[export] Hint Resolve enqueue_active_typed enqueue_typed graph_drop_typed event_typed neighbour_event_typed : typed.

Lemma errno_range reason : 0 <= ipv4_route_errno reason <= INT_MAX.
Proof. destruct reason; cbv; by split. Qed.

Section protocols.
Context {D : Dpdk} (submit : node_id -> node_frame -> app_runtime -> app_runtime).
Context (Hsubmit : forall n frame rt, sockets_typed rt -> sockets_typed (submit n frame rt)).
#[local] Hint Resolve Hsubmit : typed.

Lemma mbuf_alloc_typed rt : sockets_typed rt -> sockets_typed (mbuf_alloc rt).2.
Proof. intros H. unfold mbuf_alloc. cbv zeta. typed. Qed.
Lemma timer_cycles_typed rt : sockets_typed rt -> sockets_typed (timer_cycles rt).2.
Proof. intros H. unfold timer_cycles. cbv zeta. typed. Qed.
#[local] Hint Resolve mbuf_alloc_typed timer_cycles_typed : typed.

Lemma send_ipv4_typed m ctx rt : sockets_typed rt -> sockets_typed (send_ipv4 submit m ctx rt).2.
Proof. intros H. unfold send_ipv4. cbv zeta. typed. Qed.
#[local] Hint Resolve send_ipv4_typed : typed.
Lemma icmp_send_error_typed original ctx type code mtu now rt : sockets_typed rt -> sockets_typed (icmp_send_error submit original ctx type code mtu now rt).
Proof. intros H. unfold icmp_send_error. cbv zeta. typed. Qed.
#[local] Hint Resolve icmp_send_error_typed : typed.
Lemma icmp_error_now_typed m ctx type code mtu rt : sockets_typed rt -> sockets_typed (icmp_error_now submit m ctx type code mtu rt).
Proof. intros H. unfold icmp_error_now. typed. Qed.
#[local] Hint Resolve icmp_error_now_typed : typed.

(** ** Neighbour resolution *)

Lemma arp_request_typed port ip rt : sockets_typed rt -> sockets_typed (arp_request submit port ip rt).
Proof. intros H. unfold arp_request. cbv zeta. typed. Qed.
#[local] Hint Resolve arp_request_typed : typed.
Lemma release_pending_typed i rt : sockets_typed rt -> sockets_typed (release_pending submit i rt).
Proof. intros H. unfold release_pending, set_pending. cbv zeta. typed. Qed.
#[local] Hint Resolve release_pending_typed : typed.
Lemma discard_pending_typed i reason now rt : sockets_typed rt -> sockets_typed (discard_pending submit i reason now rt).
Proof. intros H. unfold discard_pending, set_pending. cbv zeta. apply foldl_typed; [intros rt1 p H1|]; typed. Qed.
#[local] Hint Resolve discard_pending_typed : typed.
Lemma neighbour_queue_typed netif m ctx now rt : sockets_typed rt -> sockets_typed (neighbour_queue submit netif m ctx now rt).2.
Proof. intros H. unfold neighbour_queue, set_pending. cbv zeta. typed. Qed.
#[local] Hint Resolve neighbour_queue_typed : typed.
Lemma neighbour_update_typed netif ip mac rt : sockets_typed rt -> sockets_typed (neighbour_update submit netif ip mac rt).2.
Proof. intros H. unfold neighbour_update. cbv zeta. destruct (neighbour_learn _ _ _ _) as [rc table]. destruct (truth rc); [typed|]. apply foldl_typed; [intros rt1 p H1|]; typed. Qed.
#[local] Hint Resolve neighbour_update_typed : typed.
Lemma tick_pending_typed now rt i : sockets_typed rt -> sockets_typed (tick_pending submit now rt i).
Proof. intros H. unfold tick_pending, set_pending. cbv zeta. typed. Qed.
#[local] Hint Resolve tick_pending_typed : typed.
Lemma neighbour_tick_typed now rt : sockets_typed rt -> sockets_typed (neighbour_tick submit now rt).
Proof. apply foldl_typed. apply tick_pending_typed. Qed.
Lemma neighbour_cancel_typed dev ip rt : sockets_typed rt -> sockets_typed (neighbour_cancel submit dev ip rt).
Proof. apply foldl_typed. intros rt1 i H. typed. Qed.
#[local] Hint Resolve neighbour_tick_typed neighbour_cancel_typed : typed.
Lemma neighbour_set_typed dev ip mac replace rt : sockets_typed rt -> sockets_typed (neighbour_set submit dev ip mac replace rt).2.
Proof. intros H. unfold neighbour_set. cbv zeta. typed. Qed.
#[local] Hint Resolve neighbour_set_typed : typed.
Lemma neighbour_delete_typed dev ip rt : sockets_typed rt -> sockets_typed (neighbour_delete submit dev ip rt).2.
Proof. intros H. unfold neighbour_delete. cbv zeta. typed. Qed.
#[local] Hint Resolve neighbour_delete_typed : typed.

(** ** Sockets *)

Lemma socket_allocate_typed rt type : sockets_typed rt -> sockets_typed (socket_allocate rt type).2.
Proof. intros H. unfold socket_allocate. cbv zeta. destruct (find_index _ _) as [i|]; [|done]. cbn [snd]. apply alter_sock_typed; [|done]. intros s _. exact zero_socket_typed. Qed.
#[local] Hint Resolve socket_allocate_typed : typed.
Lemma ephemeral_port_typed tries i ip rt : sockets_typed rt -> sockets_typed (ephemeral_port tries i ip rt).2.
Proof. revert rt. induction tries as [|tries IH]; intros rt H; [done|]. unfold ephemeral_port, next_ephemeral; fold ephemeral_port. cbv zeta. typed. Qed.
#[local] Hint Resolve ephemeral_port_typed : typed.
Lemma socket_bind_typed i addr rt : sockets_typed rt -> sockets_typed (socket_bind i addr rt).2.
Proof. intros H. unfold socket_bind. cbv zeta. typed. Qed.
#[local] Hint Resolve socket_bind_typed : typed.

(** ** UDP *)

Lemma ring_store_typed source payload ep : Forall (fun d => is_u16 (dg_length d)) (ud_queue ep) ->
  Forall (fun d => is_u16 (dg_length d)) (ud_queue (ring_store source payload ep)).
Proof. intros H. unfold ring_store. cbv zeta. cbn. apply Forall_insert; [done|]. apply u16_range. Qed.

Lemma udp_deliver_typed ip port source payload rt : sockets_typed rt -> sockets_typed (udp_deliver ip port source payload rt).2.
Proof.
  intros H. unfold udp_deliver. cbv zeta. destruct (socket_bound _ _ _ _) as [i|]; [|done]. repeat (match goal with |- context[if ?b then _ else _] => destruct b; [done|] end).
  cbn [snd]. apply alter_sock_typed; [|done]. intros s (? & ? & ?). split; [done|]. split; [done|]. by apply ring_store_typed.
Qed.
#[local] Hint Resolve udp_deliver_typed : typed.
Lemma udp_send_typed i buf dst rt : sockets_typed rt -> sockets_typed (udp_send submit i buf dst rt).2.
Proof. intros H. unfold udp_send, send_failure. cbv zeta. typed. Qed.
#[local] Hint Resolve udp_send_typed : typed.

(** ** TCP *)

Lemma initialize_typed i now rt : sockets_typed rt -> sockets_typed (initialize i now rt).
Proof. intros H. unfold initialize, rte_rand. cbv zeta. typed. Qed.
#[local] Hint Resolve initialize_typed : typed.
Lemma cancel_queued_typed s rt : sockets_typed rt -> sockets_typed (cancel_queued s rt).
Proof. intros H. unfold cancel_queued. cbv zeta. apply foldl_typed; [|done]. intros rt1 i H1. unfold cancel_pending. cbv zeta. typed_peel. apply foldl_typed; [|done]. intros rt2 q H2. typed. Qed.
#[local] Hint Resolve cancel_queued_typed : typed.
Lemma tcp_fail_typed i error rt : 0 <= error <= INT_MAX -> sockets_typed rt -> sockets_typed (tcp_fail i error rt).
Proof.
  intros He H. unfold tcp_fail. cbv zeta. destruct (negb (so_open _)); [typed|]. apply alter_sock_typed; [|typed].
  intros s (_ & _ & Hq). by split.
Qed.
#[local] Hint Resolve tcp_fail_typed errno_range : typed.
#[local] Hint Extern 1 (0 <= ?e <= INT_MAX) => first [is_const e | constr_eq e 0]; split; [discriminate|discriminate] : typed.
Lemma tcp_emit_typed local remote seq ack flags window data rt : sockets_typed rt -> sockets_typed (tcp_emit submit local remote seq ack flags window data rt).2.
Proof. intros H. unfold tcp_emit. cbv zeta. typed. Qed.
#[local] Hint Resolve tcp_emit_typed : typed.
Lemma tcp_emit_flight_typed i rt : sockets_typed rt -> sockets_typed (tcp_emit_flight submit i rt).
Proof. intros H. unfold tcp_emit_flight. cbv zeta. typed. Qed.
#[local] Hint Resolve tcp_emit_flight_typed : typed.
Lemma tcp_ack_typed i rt : sockets_typed rt -> sockets_typed (tcp_ack submit i rt).
Proof. intros H. unfold tcp_ack. cbv zeta. typed. Qed.
#[local] Hint Resolve tcp_ack_typed : typed.
Lemma tcp_kick_typed i now rt : sockets_typed rt -> sockets_typed (tcp_kick submit i now rt).
Proof. intros H. unfold tcp_kick. cbv zeta. typed. Qed.
#[local] Hint Resolve tcp_kick_typed : typed.
Lemma tcp_connect_typed i addr rt : sockets_typed rt -> sockets_typed (tcp_connect submit i addr rt).2.
Proof. intros H. unfold tcp_connect. cbv zeta. typed. Qed.
#[local] Hint Resolve tcp_connect_typed : typed.
Lemma tcp_listen_typed i backlog rt : sockets_typed rt -> sockets_typed (tcp_listen i backlog rt).2.
Proof. intros H. unfold tcp_listen. cbv zeta. typed. Qed.
#[local] Hint Resolve tcp_listen_typed : typed.
Lemma tcp_accept_typed i rt : sockets_typed rt -> sockets_typed (tcp_accept i rt).2.
Proof. intros H. unfold tcp_accept. cbv zeta. typed. Qed.
#[local] Hint Resolve tcp_accept_typed : typed.
Lemma abort_child_typed fd rt k : sockets_typed rt -> sockets_typed (abort_child submit fd rt k).
Proof. intros H. unfold abort_child. cbv zeta. typed. Qed.
#[local] Hint Resolve abort_child_typed : typed.
Lemma tcp_close_typed i now rt : sockets_typed rt -> sockets_typed (tcp_close submit i now rt).
Proof. intros H. unfold tcp_close. cbv zeta. typed. Qed.
#[local] Hint Resolve tcp_close_typed : typed.
Lemma tcp_send_typed i data rt : sockets_typed rt -> sockets_typed (tcp_send submit i data rt).2.
Proof. intros H. unfold tcp_send. cbv zeta. typed. Qed.
#[local] Hint Resolve tcp_send_typed : typed.
Lemma tcp_recv_typed i len rt : sockets_typed rt -> sockets_typed (tcp_recv submit i len rt).2.
Proof. intros H. unfold tcp_recv. cbv zeta. typed. Qed.
#[local] Hint Resolve tcp_recv_typed : typed.
Lemma reset_reply_typed local remote seq ack flags len rt : sockets_typed rt -> sockets_typed (reset_reply submit local remote seq ack flags len rt).
Proof. intros H. unfold reset_reply. cbv zeta. typed. Qed.
#[local] Hint Resolve reset_reply_typed : typed.
Lemma passive_open_typed listen local remote seq window mss now rt : sockets_typed rt -> sockets_typed (passive_open submit listen local remote seq window mss now rt).2.
Proof. intros H. unfold passive_open. cbv zeta. typed. Qed.
#[local] Hint Resolve passive_open_typed : typed.
Lemma acknowledge_flight_typed ack now c : is_u16 (tc_rx_len c) -> is_u16 (tc_rx_len (acknowledge_flight ack now c).2).
Proof. intros H. unfold acknowledge_flight. cbv zeta. by repeat match goal with |- context[if ?b then _ else _] => destruct b end. Qed.
Lemma acknowledge_typed i ack now rt : sockets_typed rt -> sockets_typed (acknowledge i ack now rt).
Proof.
  intros H. unfold acknowledge. destruct (negb _); [typed|]. assert (Hc := acknowledge_flight_typed ack now (conn rt i) (proj1 (proj2 (sock_typed rt i H)))).
  destruct (acknowledge_flight _ _ _) as [flags c]. cbn [snd] in Hc. cbv zeta. assert (H1 : sockets_typed (alter_tcp i (fun _ => c) rt)) by (by apply alter_tcp_typed).
  typed.
Qed.
#[local] Hint Resolve acknowledge_typed : typed.
Lemma input_syn_sent_typed i local remote seq ack window flags len mss rt : sockets_typed rt -> sockets_typed (input_syn_sent submit i local remote seq ack window flags len mss rt).2.
Proof. intros H. unfold input_syn_sent. cbv zeta. typed. Qed.
#[local] Hint Resolve input_syn_sent_typed : typed.
Lemma update_window_typed seq ack window c : is_u16 (tc_rx_len c) -> is_u16 (tc_rx_len (update_window seq ack window c)).
Proof. unfold update_window. by destruct (_ && _). Qed.
Lemma accept_fin_typed now c : is_u16 (tc_rx_len c) -> is_u16 (tc_rx_len (accept_fin now c)).
Proof. unfold accept_fin. cbv zeta. by repeat match goal with |- context[if ?b then _ else _] => destruct b end. Qed.
#[local] Hint Resolve update_window_typed accept_fin_typed : typed.
Lemma input_data_typed i seq ack window flags payload now rt : sockets_typed rt -> sockets_typed (input_data submit i seq ack window flags payload now rt).2.
Proof.
  intros H. unfold input_data. cbv zeta. assert (H1 : sockets_typed (alter_tcp i (update_window seq ack window) rt)) by typed.
  set (rt1 := alter_tcp i _ rt) in *. clearbody rt1. clear H rt. unfold accept_payload. cbv zeta.
  set (r := if _ && _ then _ else _). assert (H2 : sockets_typed r.2).
  { unfold r. destruct (_ && _); [|done]. cbn [snd]. apply alter_tcp_typed; [|done]. intros c _. cbn. apply u16_range. }
  destruct r as [received rt2]. cbn [snd] in H2. typed.
Qed.
#[local] Hint Resolve input_data_typed : typed.
Lemma input_synchronized_typed i local remote seq ack window flags payload now rt : sockets_typed rt -> sockets_typed (input_synchronized submit i local remote seq ack window flags payload now rt).2.
Proof. intros H. unfold input_synchronized. cbv zeta. typed. Qed.
#[local] Hint Resolve input_synchronized_typed : typed.
Lemma tcp_input_typed ctx m o header_len len mss now rt : sockets_typed rt -> sockets_typed (tcp_input submit ctx m o header_len len mss now rt).2.
Proof. intros H. unfold tcp_input. cbv zeta. typed. Qed.
#[local] Hint Resolve tcp_input_typed : typed.
Lemma tick_socket_typed now rt i : sockets_typed rt -> sockets_typed (tick_socket submit now rt i).
Proof. intros H. unfold tick_socket. cbv zeta. typed. Qed.
#[local] Hint Resolve tick_socket_typed : typed.
Lemma tcp_timer_progress_typed now rt : sockets_typed rt -> sockets_typed (tcp_timer_progress submit now rt).
Proof. intros H. unfold tcp_timer_progress, tcp_tick. cbv zeta. typed. Qed.
#[local] Hint Resolve tcp_timer_progress_typed : typed.

(** ** Node functions *)

Lemma drop_packet_typed rt p : sockets_typed rt -> sockets_typed (drop_packet rt p).
Proof. intros H. destruct p as [m ctx]. unfold drop_packet. cbv zeta. typed. Qed.
Lemma eth_input_packet_typed rt p : sockets_typed rt -> sockets_typed (eth_input_packet rt p).
Proof. intros H. destruct p as [m ctx]. unfold eth_input_packet. cbv zeta. typed. Qed.
Lemma arp_input_packet_typed rt p : sockets_typed rt -> sockets_typed (arp_input_packet submit rt p).
Proof. intros H. destruct p as [m ctx]. unfold arp_input_packet. cbv zeta. typed. Qed.
Lemma ipv4_input_packet_typed rt p : sockets_typed rt -> sockets_typed (ipv4_input_packet rt p).
Proof. intros H. destruct p as [m ctx]. unfold ipv4_input_packet. cbv zeta. typed. Qed.
Lemma acl_packet_typed rt p : sockets_typed rt -> sockets_typed (acl_packet rt p).
Proof. intros H. destruct p as [[m ctx] result]. unfold acl_packet. cbv zeta. destruct (rt_network rt); typed. Qed.
Lemma forward_packet_typed rt p : sockets_typed rt -> sockets_typed (forward_packet submit rt p).
Proof. intros H. destruct p as [m ctx]. unfold forward_packet. cbv zeta. typed. Qed.
Lemma icmp_packet_typed rt p : sockets_typed rt -> sockets_typed (icmp_packet rt p).
Proof. intros H. destruct p as [m ctx]. unfold icmp_packet. cbv zeta. typed. Qed.
Lemma udp_input_packet_typed rt p : sockets_typed rt -> sockets_typed (udp_input_packet submit rt p).
Proof. intros H. destruct p as [m ctx]. unfold udp_input_packet. cbv zeta. typed. Qed.
Lemma udp_output_packet_typed rt p : sockets_typed rt -> sockets_typed (udp_output_packet rt p).
Proof. intros H. destruct p as [m ctx]. unfold udp_output_packet. cbv zeta. typed. Qed.
Lemma tcp_input_packet_typed rt p : sockets_typed rt -> sockets_typed (tcp_input_packet submit rt p).
Proof. intros H. destruct p as [m ctx]. unfold tcp_input_packet. cbv zeta. typed. Qed.
Lemma route_packet_typed rt p : sockets_typed rt -> sockets_typed (route_packet rt p).
Proof. intros H. destruct p as [m ctx]. unfold route_packet. cbv zeta. typed. Qed.
Lemma ipv4_output_packet_typed rt p : sockets_typed rt -> sockets_typed (ipv4_output_packet rt p).
Proof. intros H. destruct p as [m ctx]. unfold ipv4_output_packet. cbv zeta. typed. Qed.
Lemma eth_output_packet_typed rt p : sockets_typed rt -> sockets_typed (eth_output_packet submit rt p).
Proof. intros H. destruct p as [m ctx]. unfold eth_output_packet. cbv zeta. typed. Qed.
Lemma arp_output_packet_typed rt p : sockets_typed rt -> sockets_typed (arp_output_packet rt p).
Proof. intros H. destruct p as [m ctx]. unfold arp_output_packet. cbv zeta. typed. Qed.
Lemma tx_typed frame rt : sockets_typed rt -> sockets_typed (tx_node_run frame rt).
Proof. apply sockets_typed_same, tx_sockets. Qed.
#[local] Hint Resolve drop_packet_typed eth_input_packet_typed arp_input_packet_typed ipv4_input_packet_typed acl_packet_typed forward_packet_typed
  icmp_packet_typed udp_input_packet_typed udp_output_packet_typed tcp_input_packet_typed route_packet_typed ipv4_output_packet_typed
  eth_output_packet_typed arp_output_packet_typed tx_typed : typed.

Lemma nodes_run_typed n frame rt : sockets_typed rt -> sockets_typed (nodes_run submit n frame rt).
Proof.
  intros H. destruct n; cbn [nodes_run]; [unfold drop_node_run|unfold eth_input_node_run|unfold arp_input_node_run|unfold ipv4_input_node_run|unfold icmp_input_node_run
    |unfold udp_input_node_run|unfold tcp_input_node_run|unfold ipv4_route_node_run|unfold udp_output_node_run|unfold ipv4_output_node_run|unfold eth_output_node_run
    |unfold arp_output_node_run| |unfold ipv4_forward_node_run|unfold ipv4_acl_node_run]; cbv zeta; typed_leaf.
Qed.

(** ** The socket calls *)

Lemma core_socket_typed domain type protocol rt : sockets_typed rt -> sockets_typed (core_socket domain type protocol rt).2.
Proof. intros H. unfold core_socket. cbv zeta. typed. Qed.
#[local] Hint Resolve core_socket_typed : typed.
Lemma core_bind_typed fd addr rt : sockets_typed rt -> sockets_typed (core_bind fd addr rt).2.
Proof. intros H. unfold core_bind. cbv zeta. typed. Qed.
#[local] Hint Resolve core_bind_typed : typed.
Lemma core_close_typed fd rt : sockets_typed rt -> sockets_typed (core_close submit fd rt).2.
Proof. intros H. unfold core_close. cbv zeta. typed. Qed.
#[local] Hint Resolve core_close_typed : typed.
Lemma auto_bind_typed i rt : sockets_typed rt -> sockets_typed (auto_bind i rt).2.
Proof. intros H. unfold auto_bind. cbv zeta. typed. Qed.
#[local] Hint Resolve auto_bind_typed : typed.
Lemma core_sendto_typed fd buf dst rt : sockets_typed rt -> sockets_typed (core_sendto submit fd buf dst rt).2.
Proof. intros H. unfold core_sendto. cbv zeta. typed. Qed.
#[local] Hint Resolve core_sendto_typed : typed.
Lemma core_recvfrom_typed fd len rt : sockets_typed rt -> sockets_typed (core_recvfrom fd len rt).2.
Proof.
  intros H. unfold core_recvfrom. destruct (get_open rt fd) as [i|]; [|done]. destruct (negb _); [done|]. unfold udp_recv. cbv zeta.
  destruct (sock_typed rt i H) as (_ & _ & Hq). repeat match goal with |- context[if ?b then _ else _] => destruct b end; cbn [snd];
    apply alter_sock_typed; try done; intros s (? & ? & _); by split.
Qed.
#[local] Hint Resolve core_recvfrom_typed : typed.
Lemma core_connect_typed fd addr rt : sockets_typed rt -> sockets_typed (core_connect submit fd addr rt).2.
Proof. intros H. unfold core_connect. cbv zeta. typed. Qed.
#[local] Hint Resolve core_connect_typed : typed.
Lemma core_listen_typed fd backlog rt : sockets_typed rt -> sockets_typed (core_listen fd backlog rt).2.
Proof. intros H. unfold core_listen. cbv zeta. typed. Qed.
#[local] Hint Resolve core_listen_typed : typed.
Lemma core_accept_typed fd rt : sockets_typed rt -> sockets_typed (core_accept fd rt).2.
Proof. intros H. unfold core_accept. cbv zeta. typed. Qed.
#[local] Hint Resolve core_accept_typed : typed.
Lemma core_send_typed fd buf rt : sockets_typed rt -> sockets_typed (core_send submit fd buf rt).2.
Proof. intros H. unfold core_send. cbv zeta. typed. Qed.
#[local] Hint Resolve core_send_typed : typed.
Lemma core_recv_typed fd len rt : sockets_typed rt -> sockets_typed (core_recv submit fd len rt).2.
Proof. intros H. unfold core_recv. cbv zeta. typed. Qed.
#[local] Hint Resolve core_recv_typed : typed.

(** ** The dispatcher *)

Lemma send_datagrams_typed i todo m rt out : sockets_typed rt -> sockets_typed (send_datagrams submit i todo m rt out).2.
Proof.
  revert i rt out. induction todo as [|[[addr offset] len] todo IH]; intros i rt out H; cbn [send_datagrams]; [done|]. typed.
Qed.
Lemma receive_datagrams_typed i capacities fd rt out : sockets_typed rt -> sockets_typed (receive_datagrams i capacities fd rt out).2.
Proof.
  revert i rt out. induction capacities as [|wanted capacities IH]; intros i rt out H; cbn [receive_datagrams]; [done|]. destruct (_ <? _); [done|].
  cbv zeta. typed.
Qed.
Lemma dispatch_cleanup_typed owner rt : sockets_typed rt -> sockets_typed (dispatch_cleanup submit owner rt).
Proof. apply foldl_typed. intros rt1 i H. unfold cleanup_socket. cbv zeta. typed. Qed.
#[local] Hint Resolve send_datagrams_typed receive_datagrams_typed dispatch_cleanup_typed : typed.
Lemma dispatch_call_typed m out rt : sockets_typed rt -> sockets_typed (dispatch_call submit m out rt).2.
Proof. intros H. unfold dispatch_call, answer, send_batch, receive_batch. cbv zeta. repeat match goal with |- context[if im_op m =? ?k then _ else _] => destruct (im_op m =? k); [typed|] end. typed. Qed.
#[local] Hint Resolve dispatch_call_typed : typed.
Lemma dispatch_message_typed request rt : sockets_typed rt -> sockets_typed (dispatch_message submit request rt).2.
Proof. intros H. unfold dispatch_message. cbv zeta. typed. Qed.
#[local] Hint Resolve dispatch_message_typed : typed.
Lemma daemon_dispatch_typed request rt : sockets_typed rt -> sockets_typed (daemon_dispatch submit request rt).2.
Proof. intros H. unfold daemon_dispatch. cbv zeta. typed. Qed.
#[local] Hint Resolve daemon_dispatch_typed : typed.
End protocols.

(** * The scheduler *)

Section scheduler.
Context (run : node_id -> node_frame -> app_runtime -> app_runtime).
Context (Hrun : forall n frame rt, sockets_typed rt -> sockets_typed (run n frame rt)).

Lemma graph_round_typed rt : sockets_typed rt -> sockets_typed (state_of (graph_round run rt)).
Proof.
  intros H. unfold graph_round. cbv zeta. destruct (gr_q_count (rt_graph rt)); [done|]. cbn [state_of]. set (slot := nth (gr_q_head _) _ _). set (s := nth slot _ _).
  eapply sockets_typed_same; [apply flush_all_sockets|]. set (rt1 := set_rt_active_output (Some no_output) _).
  assert (H1 : sockets_typed rt1) by (unfold rt1; typed_peel; apply foldl_typed; [|typed_leaf]; intros rt2 p H2; typed_leaf). clearbody rt1.
  typed_peel. typed_peel. destruct (gr_nodes _ !! _) as [d|]; [|done]. destruct (dn_run d); [by apply Hrun|done].
Qed.

Lemma graph_submit_typed n frame rt : sockets_typed rt -> sockets_typed (graph_submit run n frame rt).2.
Proof.
  intros H. unfold graph_submit. destruct (Nat.ltb _ _); [done|]. set (acc := foldl _ _ frame). assert (H1 : rt_sockets acc.1 = rt_sockets rt).
  { unfold acc. clear. generalize no_output. revert rt. induction frame as [|p frame IH]; intros rt out; [done|]. cbn [foldl].
    assert (Hs := node_enqueue_sockets rt out n p.1 p.2). destruct (node_enqueue _ _ _ _ _) as [[rc rt1] out1]. cbn [fst snd] in Hs. by rewrite IH. }
  destruct acc as [rt1 seed]. cbn [fst] in H1. assert (H2 := flush_pending_sockets rt1 seed n). destruct (flush_pending rt1 seed n) as [[rc rt2] out2].
  cbn [fst snd] in *. unfold graph_drain. apply (iterate_invariant _ sockets_typed); [apply graph_round_typed|].
  apply (sockets_typed_same rt); [congruence|done].
Qed.
End scheduler.

(** * The stack *)

Section stack.
Context {D : Dpdk}.

Lemma submit_typed n frame rt : sockets_typed rt -> sockets_typed (submit n frame rt).
Proof. apply graph_submit_typed. intros. by apply nodes_run_typed. Qed.

Lemma poll_port_typed acc i : sockets_typed acc.2 -> sockets_typed (poll_port acc i).2.
Proof.
  destruct acc as [received rt]. intros H. cbn [snd] in H. unfold poll_port, rx_burst. cbv zeta. destruct (_ !! i) as [port|]; [|done]. destruct (_ || _ || _); [done|]. cbn [snd].
  destruct (Nat.eqb _ 0); [|apply submit_typed]; typed_leaf.
Qed.

Lemma app_step_typed rt : sockets_typed rt -> sockets_typed (app_step rt).2.
Proof.
  intros H. unfold app_step. set (acc := foldl poll_port _ _). assert (H1 : sockets_typed acc.2).
  { unfold acc. generalize (seq 0 (length (rt_ports rt))) as l. intros l. assert (H0 : sockets_typed (0, rt).2) by done. revert H0. generalize (0, rt).
    induction l as [|i l IH]; intros a Ha; [done|]. cbn [foldl]. apply IH. by apply poll_port_typed. }
  destruct acc as [received rt1]. cbn [snd] in H1. apply timer_cycles_typed in H1. destruct (timer_cycles rt1) as [now rt2]. cbn [snd] in *.
  apply tcp_timer_progress_typed; [exact submit_typed|]. apply neighbour_tick_typed; [exact submit_typed|done].
Qed.

(** ** Administration *)

Context {N : Nic}.

Lemma flush_loop_typed dev fuel : forall i rt, sockets_typed rt -> sockets_typed (flush_loop fuel dev i rt).2.
Proof.
  induction fuel as [|fuel IH]; intros i rt H; [done|]. cbn [flush_loop]. destruct (_ <=? _); [done|]. destruct (_ && _); [|by apply IH].
  assert (H1 := neighbour_delete_typed _ submit_typed dev (ne_ip_be (slot (rt_neighbours rt) i)) rt H). destruct (neighbour_delete _ _ _ _) as [rc rt'].
  destruct (truth rc); [done|by apply IH].
Qed.

Lemma neighbour_operation_typed dev r rt : sockets_typed rt -> sockets_typed (neighbour_operation dev r rt).2.
Proof.
  intros H. unfold neighbour_operation, neighbour_flush. destruct (_ =? ADM_FLUSH).
  { assert (H1 := flush_loop_typed dev flush_fuel 0 rt H). destruct (flush_loop _ _ _ _) as [rc rt'].
    destruct (truth rc); [done|]. by apply neighbour_cancel_typed; [exact submit_typed|]. }
  destruct (_ =? ADM_DEL); [by apply neighbour_delete_typed; [exact submit_typed|]|]. destruct (_ && _); [done|]. destruct (_ <? _); [done|].
  by apply neighbour_set_typed; [exact submit_typed|].
Qed.

Lemma admin_worker_operation_typed r w : sockets_typed (wk_rt w) -> sockets_typed (wk_rt (admin_worker_operation r w).2).
Proof.
  intros H. unfold admin_worker_operation. destruct (port_named _ _) as [dev|]; [|done]. destruct (_ && _).
  - assert (H1 := link_operation_keeps (fun w => sockets_typed (wk_rt w))). specialize (H1 ltac:(by intros)).
    specialize (H1 ltac:(intros; unfold on_port, on_rt; cbn [wk_rt set_wk_rt]; typed_leaf) dev r w H). destruct (link_operation _ _ _) as [[rc w']|w']; [done|].
    apply event_typed. by apply neighbour_cancel_typed; [exact submit_typed|].
  - destruct (negb _); [done|]. unfold on_rt_rc. assert (H1 := neighbour_operation_typed (Z.of_nat dev) r (wk_rt w) H). by destruct (neighbour_operation _ _ _).
Qed.

Lemma neighbour_fini_typed rt : sockets_typed rt -> sockets_typed (neighbour_fini submit rt).
Proof. apply foldl_typed. intros rt1 i H. by apply discard_pending_typed; [exact submit_typed|]. Qed.

Lemma publish_typed r next rt : sockets_typed rt -> sockets_typed (publish r next rt).
Proof.
  intros H. unfold publish, describe_change. cbv zeta. apply event_typed. destruct (reroutes r); (typed_peel || idtac).
  all: repeat first [apply event_typed | apply neighbour_fini_typed | typed_peel | assumption].
Qed.

Lemma capture_typed r w : sockets_typed (wk_rt w) -> sockets_typed (wk_rt (capture r w).2).
Proof.
  intros H. unfold capture, timer, on_rt_rc. apply timer_cycles_typed in H. destruct (timer_cycles (wk_rt w)) as [now rt']. cbv zeta. cbn [snd] in H.
  set (w1 := set_wk_rt rt' w). assert (H1 := capture_links_rt (rt_ports (wk_rt w)) w1).
  destruct (capture_links _ w1) as [links w2]. cbn [snd] in H1. destruct (if _ && _ then _ else _). cbn [snd]. by rewrite H1.
Qed.

Lemma scan_carrier_typed w : sockets_typed (wk_rt w) -> sockets_typed (wk_rt (scan_carrier w)).
Proof.
  intros H. unfold scan_carrier, timer, on_rt_rc. apply timer_cycles_typed in H. destruct (timer_cycles (wk_rt w)) as [now rt']. cbn [snd] in H. destruct (_ <? _); [done|].
  generalize (seq 0 (length (rt_ports (wk_rt (set_wk_rt rt' w))))) as l. intros l. set (w1 := set_wk_carrier_checked _ _).
  assert (H1 : sockets_typed (wk_rt w1)) by done. clearbody w1. revert w1 H1. induction l as [|i l IH]; intros w1 H1; [done|]. cbn [foldl]. apply IH.
  unfold check_carrier, link_get_nowait. destruct (link_of _ _) as [rc status]. destruct (_ && _); [|done]. by apply event_typed.
Qed.

Lemma admin_progress_typed mx w : sockets_typed (wk_rt w) -> sockets_typed (wk_rt (admin_progress mx w).2).
Proof.
  intros H%scan_carrier_typed. unfold admin_progress. destruct (negb _); [done|]. set (w1 := scan_carrier w) in *. clearbody w1.
  set (job := match _ with ADMIN_READ => _ | _ => _ end). assert (H1 : sockets_typed (wk_rt job.2)).
  { unfold job. destruct (jb_type _); [done| |].
    - unfold activate. destruct (jb_next _) as [[block next]|]; [|done]. destruct (negb _); [done|].
      destruct (removed_binding _ _); [done|]. by apply publish_typed.
    - assert (H2 := admin_worker_operation_typed (jb_request (set_jb_result 0 (mx_job mx))) w1 H). by destruct (admin_worker_operation _ _). }
  destruct job as [j w2]. assert (H2 := capture_typed (jb_request j) w2 H1). by destruct (capture _ _).
Qed.
End stack.

(** Every step of the stack keeps the ranges, whatever the packets, requests and
    devices bring. *)
Lemma stack_step_typed {D : Dpdk} rt rt' : stack_step rt rt' -> sockets_typed rt -> sockets_typed rt'.
Proof.
  intros [] H.
  - by apply app_step_typed.
  - by apply daemon_dispatch_typed; [exact submit_typed|].
  - by apply neighbour_set_typed; [exact submit_typed|].
  - by apply neighbour_delete_typed; [exact submit_typed|].
  - by apply admin_progress_typed.
Qed.

Lemma app_init_typed {D : Dpdk} {E : Ethdev} progname conf rt0 rt : app_init progname conf rt0 = (0, rt) -> sockets_typed rt.
Proof.
  unfold app_init. cbv zeta. destruct (_ <? 0); [done|]. destruct (port_init _ _) as [rc1 rt1]. destruct (rc1 <? 0); [done|].
  destruct (graph_init rt1) as [rc2 rt2]. destruct (rc2 <? 0); [done|]. unfold socket_subsystem_init. destruct (truth _); [done|].
  intros [= <-]. with_strategy transparent [sockets_typed] (unfold sockets_typed). apply Forall_replicate, zero_socket_typed.
Qed.
