(* ===== verification/Service.v ===== *)
(** The worker side of the daemon as the control thread sees it: the dispatcher of
    [src/daemon/dispatch.c] answers every request with its owner, operation and
    identifier and within a frame, and the stack around it keeps the ranges this
    rests on. *)
From S2P Require Import Prelude.
From S2P Require Import Dpdk.
From S2P Require Import Types.
From S2P Require Import Graph.
From S2P Require Import Udp.
From S2P Require Import Sockets.
From S2P Require Import Tcp.
From S2P Require Import CoreSocket.
From S2P Require Import Ipc.
From S2P Require Import Queue.
From S2P Require Import Dispatch.
From S2P Require Import Control.
From S2P Require Import ControlInv.
From S2P Require Import Runtime.
From S2P Require Import Conservation.
From S2P Require Import SocketTyped.

Section Service.
Context {D : Dpdk}.
Context (submit : node_id -> node_frame -> app_runtime -> app_runtime).

Lemma send_datagrams_echoes i todo m rt out : let r := (send_datagrams submit i todo m rt out).1 in
  im_op r = im_op out /\ im_id r = im_id out /\ im_length r = im_length out.
Proof.
  revert i rt out. induction todo as [|[[addr offset] len] todo IH]; intros i rt out; cbn; [done|].
  destruct (core_sendto _ _ _ _ rt) as [n rt1]. destruct (n <? 0); [done|]. destruct (IH (i + 1) rt1 (set_im_result (i + 1) out)) as (? & ? & ?). done.
Qed.

Lemma core_recvfrom_bound fd len rt n datagram rt' : core_recvfrom fd len rt = (n, datagram, rt') -> 0 <= n -> n <= len.
Proof.
  unfold core_recvfrom. destruct (get_open rt fd) as [i|]; [|intros [= <- _ _]; unfold EBADF; lia].
  destruct (negb _); [intros [= <- _ _]; unfold EOPNOTSUPP; lia|]. unfold udp_recv. destruct (negb _); [intros [= <- _ _]; unfold EAGAIN; lia|].
  destruct (Z.ltb_spec len (dg_length (nth (Z.to_nat (ud_head (so_udp (sock rt i)))) (ud_queue (so_udp (sock rt i))) zero_udp_datagram))); intros [= <- _ _]; [unfold EMSGSIZE|]; lia.
Qed.

Lemma receive_datagrams_bound capacities i fd rt out : 0 <= im_length out <= IPC_PAYLOAD_MAX ->
  let r := (receive_datagrams i capacities fd rt out).1 in
  im_op r = im_op out /\ im_id r = im_id out /\ 0 <= im_length r <= IPC_PAYLOAD_MAX.
Proof.
  revert i rt out. induction capacities as [|wanted capacities IH]; intros i rt out Hl; cbn [receive_datagrams]; [done|].
  destruct (Z.ltb_spec (IPC_PAYLOAD_MAX - im_length out) IPC_DGRAM_HEADER) as [|Hroom]; [done|].
  set (capacity := if _ <? _ then _ else _).
  destruct (core_recvfrom fd capacity rt) as [[n datagram] rt1] eqn:E. destruct (Z.ltb_spec n 0) as [|Hn]; [by destruct (truth i)|].
  apply core_recvfrom_bound in E; [|done]. destruct (default _ _) as [bytes source]. cbv zeta.
  set (out1 := set_im_result _ _). assert (H1 : 0 <= im_length out1 <= IPC_PAYLOAD_MAX).
  { assert (Hc : capacity <= IPC_PAYLOAD_MAX - im_length out - IPC_DGRAM_HEADER) by (unfold capacity; destruct (Z.ltb_spec wanted (IPC_PAYLOAD_MAX - im_length out - IPC_DGRAM_HEADER)); lia).
    unfold out1. cbn. unfold u32, IPC_PAYLOAD_MAX, IPC_DGRAM_HEADER in *. rewrite Z.mod_small; lia. }
  destruct (IH (i + 1) rt1 out1 H1) as (? & ? & ?). done.
Qed.

(** A result is a count up to what was asked for, or an error number. *)
Definition bounded (n len : Z) : Prop := - INT_MAX <= n <= len.

Lemma core_recvfrom_bounded fd len rt n datagram rt' : sockets_typed rt -> 0 <= len -> core_recvfrom fd len rt = (n, datagram, rt') -> bounded n len.
Proof.
  intros Ht Hlen. unfold core_recvfrom. destruct (get_open rt fd) as [i|]; [|intros [= <- _ _]; unfold bounded, INT_MAX, EBADF; lia].
  destruct (negb _); [intros [= <- _ _]; unfold bounded, INT_MAX, EOPNOTSUPP; lia|]. unfold udp_recv.
  destruct (negb _); [intros [= <- _ _]; unfold bounded, INT_MAX, EAGAIN; lia|].
  set (d := nth (Z.to_nat (ud_head (so_udp (sock rt i)))) (ud_queue (so_udp (sock rt i))) zero_udp_datagram). assert (Hd : is_u16 (dg_length d)).
  { destruct (sock_typed rt i Ht) as (_ & _ & Hq). rewrite Forall_lookup in Hq. unfold d. rewrite nth_lookup.
    destruct (ud_queue _ !! _) as [x|] eqn:E; [by apply (Hq _ x E)|done]. }
  destruct (Z.ltb_spec len (dg_length d)); intros [= <- _ _]; unfold bounded, INT_MAX, EMSGSIZE, is_u16 in *; lia.
Qed.

Lemma core_recv_bounded fd len rt n bytes rt' : sockets_typed rt -> 0 <= len -> core_recv submit fd len rt = (n, bytes, rt') -> bounded n len.
Proof.
  intros Ht Hlen. unfold core_recv. destruct (get_open rt fd) as [i|]; [|intros [= <- _ _]; unfold bounded, INT_MAX, EBADF; lia].
  destruct (_ =? PS_SOCK_STREAM).
  - unfold tcp_recv. destruct (sock_typed rt i Ht) as (He & Hr & _). unfold bounded. destruct (negb (truth len)); [intros [= <- _ _]; unfold INT_MAX; lia|].
    destruct (negb _); [|intros [= <- _ _]; unfold INT_MAX, is_u16 in *; lia]. destruct (truth _); [intros [= <- _ _]; lia|].
    destruct (tc_peer_fin _); [intros [= <- _ _]; unfold INT_MAX; lia|].
    intros [= <- _ _]. destruct (in_state _ _); unfold INT_MAX, EAGAIN, ENOTCONN; lia.
  - destruct (core_recvfrom fd len rt) as [[n' datagram] rt1] eqn:E. intros [= <- _ _]. by eapply core_recvfrom_bounded.
Qed.

Lemma s32_bounded n len : bounded n len -> len <= INT_MAX -> s32 n = n.
Proof.
  unfold bounded, INT_MAX. intros H Hl. unfold s32, u32. cbv zeta. destruct (Z.ltb_spec (n mod 4294967296) 2147483648); Z.div_mod_to_equations; lia.
Qed.

Lemma recv_capacity m : ipc_request_valid m = true -> im_op m = IPC_RECV \/ im_op m = IPC_RECVFROM -> 0 <= im_a m <= IPC_PAYLOAD_MAX.
Proof.
  intros Hv Hop. unfold ipc_request_valid in Hv. destruct (_ || _ || truth _ || _); [done|]. destruct (_ && truth _); [done|].
  destruct (_ && ((im_a m <? 0) || _)) eqn:E; [done|]. clear Hv. apply andb_false_iff in E as [E|E].
  - apply orb_false_iff in E as [E1 E2]. apply Z.eqb_neq in E1, E2. tauto.
  - apply orb_false_iff in E as [E1 E2]. apply Z.ltb_ge in E1, E2. lia.
Qed.

(** An answer without data to a request that is not a receive. *)
Ltac plain_answer E := rewrite E; unfold answer; cbn [fst im_op im_id im_length set_im_result set_im_addr];
  split; [done|]; split; [done|]; split; [|by intros [?|?]];
  match goal with H : im_length _ = 0 |- _ => rewrite H; done end.

(** What the switch does to the answer. *)
Lemma dispatch_call_answer m out rt : sockets_typed rt -> ipc_request_valid m = true -> im_length out = 0 ->
  let r := (dispatch_call submit m out rt).1 in
  im_op r = im_op out /\ im_id r = im_id out /\ 0 <= im_length r <= IPC_PAYLOAD_MAX /\
  (im_op m = IPC_RECV \/ im_op m = IPC_RECVFROM -> im_result r <= IPC_PAYLOAD_MAX).
Proof.
  intros Ht Hv Hl. assert (Ha := recv_capacity m Hv). unfold dispatch_call. cbv zeta.
  destruct (Z.eqb_spec (im_op m) IPC_BIND) as [E|_]; [plain_answer E|].
  destruct (Z.eqb_spec (im_op m) IPC_CONNECT) as [E|_]; [plain_answer E|].
  destruct (Z.eqb_spec (im_op m) IPC_LISTEN) as [E|_]; [plain_answer E|].
  destruct (Z.eqb_spec (im_op m) IPC_ACCEPT) as [E|_].
  { destruct (core_accept _ rt) as [[rc peer] rt1]. destruct peer; plain_answer E. }
  destruct (Z.eqb_spec (im_op m) IPC_CLOSE) as [E|_]; [plain_answer E|].
  destruct (Z.eqb_spec (im_op m) IPC_SEND) as [E|_]; [plain_answer E|].
  destruct (Z.eqb_spec (im_op m) IPC_SENDTO) as [E|_]; [plain_answer E|].
  destruct (Z.eqb_spec (im_op m) IPC_RECV) as [E|Hr].
  { specialize (Ha (or_introl E)). destruct (core_recv _ _ _ rt) as [[rc bytes] rt1] eqn:Er. unfold answer. cbn. rewrite Hl. split_and!; try done.
    intros _. apply core_recv_bounded in Er; [|done|lia]. rewrite (s32_bounded _ _ Er) by (unfold IPC_PAYLOAD_MAX, INT_MAX in *; lia). unfold bounded in Er. lia. }
  destruct (Z.eqb_spec (im_op m) IPC_RECVFROM) as [E|Hrf].
  { specialize (Ha (or_intror E)). destruct (core_recvfrom _ _ rt) as [[rc datagram] rt1] eqn:Er. apply core_recvfrom_bounded in Er; [|done|lia].
    unfold answer. destruct datagram as [[bytes source]|]; cbn; rewrite Hl; (split_and!; try done); intros _;
      rewrite (s32_bounded _ _ Er) by (unfold IPC_PAYLOAD_MAX, INT_MAX in *; lia); unfold bounded in Er; lia. }
  destruct (Z.eqb_spec (im_op m) IPC_SENDMMSG) as [E|_].
  { unfold send_batch. destruct (parse_batch _ _ _) as [[todo used]|]; [|plain_answer E].
    destruct (negb _); [plain_answer E|]. destruct (send_datagrams_echoes 0 todo m rt out) as (-> & -> & ->).
    plain_answer E. }
  destruct (Z.eqb_spec (im_op m) IPC_RECVMMSG) as [E|_].
  { unfold receive_batch. destruct (parse_capacities _ _ _) as [capacities|]; [|plain_answer E].
    destruct (receive_datagrams_bound capacities 0 (im_fd m) rt out ltac:(by rewrite Hl)) as (-> & -> & ?). rewrite E. split; [done|]. split; [done|]. split; [done|]. by intros [?|?]. }
  cbn. rewrite Hl. split; [done|]. split; [done|]. split; [done|]. by intros [?|?].
Qed.

Lemma dispatch_echoes request rt : sockets_typed rt -> let r := (daemon_dispatch submit request rt).1 in
  di_owner r = di_owner request /\ im_op (di_message r) = im_op (di_message request) /\
  im_id (di_message r) = im_id (di_message request) /\ 0 <= im_length (di_message r) <= IPC_PAYLOAD_MAX.
Proof.
  intros Ht. unfold daemon_dispatch. destruct (dispatch_message submit request rt) as [out rt'] eqn:E. cbn. split; [done|]. revert E.
  assert (Hplain : forall n, 0 <= im_length (set_im_result n (response_to request)) <= IPC_PAYLOAD_MAX) by done.
  unfold dispatch_message. destruct (negb (truth _)); [by intros [= <- _]|]. destruct (im_op _ =? IPC_CLEANUP); [by intros [= <- _]|].
  destruct (ipc_request_valid (di_message request)) eqn:Ev; cbn [negb]; [|by intros [= <- _]].
  destruct (im_op _ =? IPC_SOCKET). { destruct (core_socket _ _ _ rt) as [fd rt1]. by intros [= <- _]. }
  destruct (socket_lookup rt _) as [i|]; [|by intros [= <- _]]. destruct (_ || _); [by intros [= <- _]|]. destruct (_ && negb _); [by intros [= <- _]|].
  destruct (dispatch_call_answer (di_message request) (response_to request) rt Ht Ev eq_refl) as (H1 & H2 & H3 & H4).
  destruct (dispatch_call submit _ _ rt) as [r rt1]. cbn in H1, H2, H3, H4. intros [= <- _]. destruct (_ && (0 <=? im_result r)) eqn:Er; [|done].
  apply andb_true_iff in Er as [Eop Er]. apply Z.leb_le in Er. cbn. split; [done|]. split; [done|].
  assert (Hb : im_result r <= IPC_PAYLOAD_MAX) by (apply H4; apply orb_true_iff in Eop as [E|E]; apply Z.eqb_eq in E; auto).
  unfold u32, IPC_PAYLOAD_MAX in *. rewrite Z.mod_small; lia.
Qed.

End Service.

(** The stack is the worker the control thread expects: it serves requests with
    the dispatcher, and between them takes any steps of its own. *)
#[export] Instance stack_worker {D : Dpdk} : Worker := {|
  worker := app_runtime;
  sound := sockets_typed;
  serve := daemon_dispatch submit;
  background := stack_step;
  serve_request := dispatch_echoes submit;
  serve_sound := daemon_dispatch_typed submit submit_typed;
  background_sound := stack_step_typed
|}.

(** Beside the control thread the stack does nothing but its own steps. *)
Lemma control_step_stack {D : Dpdk} x y : control_step x y -> rtc stack_step x.2 y.2.
Proof.
  intros [| | | | | | | |s w w' H|s w request ring _ _]; try reflexivity; apply rtc_once; [exact H|exact (step_request w request)].
Qed.
Lemma control_steps_stack {D : Dpdk} x y : rtc control_step x y -> rtc stack_step x.2 y.2.
Proof. induction 1; [done|]. etransitivity; [by eapply control_step_stack|done]. Qed.
