(* ===== verification/TcpMachine.v ===== *)
(** TCP as a state machine.  [conn_step] lists every change [src/tcp.c] and
    [src/tcp_timer.c] make to a connection, with the condition the code tests;
    the bytes that cross the socket or the wire are its labels.  [TcpRefine.v]
    shows that the code takes no other step.

    By rule induction: the buffers and the flight stay well formed (an
    acknowledgment never removes more than was in flight), the states follow the
    diagram of RFC 793, and the bytes read are a prefix of the bytes written by
    the peer, whatever the network loses, repeats or reorders. *)
From S2P Require Import Prelude.
From S2P Require Import Dpdk.
From S2P Require Import Types.
From S2P Require Import Tcp.

(** * The machine *)

(** The connection took its own or the peer's initial sequence number; the
    application wrote or read bytes; payload or a FIN was taken at a sequence
    number; an acknowledgment advanced. *)
Inductive tcp_label : Type :=
| Started (iss : Z)
| Opened (irs : Z)
| Wrote (bytes : list Z)
| Read (bytes : list Z)
| Got (seq : Z) (bytes : list Z)
| Fin (seq : Z)
| Acked (ack : Z).

(** States in which the peer is synchronised. *)
Definition synchronized (st : tcp_state) : bool :=
  match st with TCP_CLOSED | TCP_LISTEN | TCP_SYN_SENT | TCP_SYN_RECEIVED => false | _ => true end.
Definition sending (st : tcp_state) : bool := match st with TCP_ESTABLISHED | TCP_CLOSE_WAIT => true | _ => false end.

(** [initialize] with its random number. *)
Definition fresh_conn (iss : Z) (c : tcp_connection) : tcp_connection :=
  c |> set_tc_snd_una iss |> set_tc_snd_nxt iss |> set_tc_mss 536 |> set_tc_peer_window UINT16_MAX.

Section machine.
Context {D : Dpdk}.

(** What a completed flight leads to. *)
Definition flight_done (now : Z) (flags : option Z) (c : tcp_connection) : tcp_connection :=
  match flags with
  | Some flags =>
    if flag flags RTE_TCP_FIN_FLAG then
      if in_state c TCP_LAST_ACK then zero_tcp_connection else
      if tc_peer_fin c then tcp_time_wait now c else
      c |> set_tc_state TCP_FIN_WAIT_2 |> set_tc_expires (u64 (now + TCP_FIN_WAIT_SECONDS * rte_get_timer_hz))
    else c
  | None => c
  end.

Definition SYN_ACK : Z := Z.lor RTE_TCP_SYN_FLAG RTE_TCP_ACK_FLAG.
Definition PSH_ACK : Z := Z.lor RTE_TCP_ACK_FLAG RTE_TCP_PSH_FLAG.
Definition FIN_ACK : Z := Z.lor RTE_TCP_FIN_FLAG RTE_TCP_ACK_FLAG.

Inductive conn_step : tcp_connection -> list tcp_label -> tcp_connection -> Prop :=
| cs_listen c backlog : tc_state c = TCP_CLOSED \/ tc_state c = TCP_LISTEN ->
    conn_step c [] (c |> set_tc_backlog backlog |> set_tc_state TCP_LISTEN)
| cs_connect c iss now : tc_state c = TCP_CLOSED -> is_u32 iss ->
    conn_step c [Started iss] (start_flight RTE_TCP_SYN_FLAG 0 now (set_tc_state TCP_SYN_SENT (fresh_conn iss c)))
| cs_passive iss parent seq window mss now : is_u32 iss -> is_u32 seq -> is_u16 window -> is_u16 mss ->
    conn_step zero_tcp_connection [Started iss; Opened seq] (start_flight SYN_ACK 0 now (fresh_conn iss zero_tcp_connection |> set_tc_parent parent
      |> set_tc_state TCP_SYN_RECEIVED |> set_tc_rcv_nxt (u32 (seq + 1)) |> set_tc_peer_window window |> set_tc_mss mss
      |> set_tc_snd_wl1 seq))
| cs_connected c seq window mss : tc_state c = TCP_SYN_SENT -> is_u32 seq -> is_u16 window -> is_u16 mss ->
    conn_step c [Opened seq] (c |> set_tc_rcv_nxt (u32 (seq + 1)) |> set_tc_snd_una (tc_snd_nxt c) |> set_tc_flight_flags 0
      |> set_tc_deadline 0 |> set_tc_mss mss |> set_tc_peer_window window |> set_tc_snd_wl1 seq |> set_tc_snd_wl2 (tc_snd_nxt c)
      |> set_tc_state TCP_ESTABLISHED)
| cs_accepted c now : tc_state c = TCP_SYN_RECEIVED ->
    conn_step c [] (c |> set_tc_state TCP_ESTABLISHED |> set_tc_expires (u64 (now + 60 * rte_get_timer_hz)))
| cs_adopt c : sending (tc_state c) = true -> conn_step c [] (c |> set_tc_parent 0 |> set_tc_expires 0)
| cs_write c bytes : sending (tc_state c) = true -> bytes <> [] -> tc_tx_len c + Z.of_nat (length bytes) <= TCP_BUFFER_SIZE ->
    conn_step c [Wrote bytes] (c |> set_tc_tx (take (Z.to_nat (tc_tx_len c)) (tc_tx c) ++ bytes)
      |> set_tc_tx_len (u16 (tc_tx_len c + Z.of_nat (length bytes))))
| cs_read c n : 0 < n <= tc_rx_len c ->
    conn_step c [Read (take (Z.to_nat n) (tc_rx c))] (c |> set_tc_rx_len (u16 (tc_rx_len c - n))
      |> set_tc_rx (take (Z.to_nat (u16 (tc_rx_len c - n))) (drop (Z.to_nat n) (tc_rx c))))
| cs_ack c ack now flags c' : before (tc_snd_una c) ack = true -> before (tc_snd_nxt c) ack = false -> is_u32 ack ->
    synchronized (tc_state c) = true -> acknowledge_flight ack now c = (flags, c') ->
    conn_step c [Acked ack] (flight_done now flags c')
| cs_window c seq ack window : synchronized (tc_state c) = true -> is_u16 window ->
    conn_step c [] (update_window seq ack window c)
| cs_payload c payload received c' : synchronized (tc_state c) = true -> tc_peer_fin c = false -> payload <> [] ->
    accept_payload payload c = (received, c') -> conn_step c [Got (tc_rcv_nxt c) (take (Z.to_nat received) payload)] c'
| cs_fin c now : synchronized (tc_state c) = true -> tc_peer_fin c = false ->
    conn_step c [Fin (tc_rcv_nxt c)] (accept_fin now c)
| cs_flight c length now : sending (tc_state c) = true -> tc_flight_flags c = 0 ->
    0 <= length <= Z.min (tc_tx_len c) (Z.min (tc_peer_window c) (tc_mss c)) ->
    conn_step c [] (start_flight PSH_ACK length now c)
| cs_fin_flight c now : sending (tc_state c) = true -> tc_flight_flags c = 0 -> tc_tx_len c = 0 ->
    conn_step c [] (start_flight FIN_ACK 0 now
      (set_tc_state (if in_state c TCP_CLOSE_WAIT then TCP_LAST_ACK else TCP_FIN_WAIT_1) c))
| cs_close c : synchronized (tc_state c) = true -> conn_step c [] (set_tc_closing true c)
| cs_timer c rto deadline retries : tc_state c <> TCP_CLOSED ->
    conn_step c [] (c |> set_tc_rto rto |> set_tc_deadline deadline |> set_tc_retries retries)
| cs_time_wait c now : tc_state c = TCP_TIME_WAIT -> conn_step c [] (tcp_time_wait now c)
| cs_reset c : conn_step c [] zero_tcp_connection.

Inductive conn_run : tcp_connection -> list tcp_label -> tcp_connection -> Prop :=
| run_done c : conn_run c [] c
| run_more c ls c' ks c'' : conn_step c ls c' -> conn_run c' ks c'' -> conn_run c (ls ++ ks) c''.

Lemma run_one c ls c' : conn_step c ls c' -> conn_run c ls c'.
Proof. intros H. rewrite <- (app_nil_r ls). econstructor; [done|constructor]. Qed.

Lemma run_trans c ls c' ks c'' : conn_run c ls c' -> conn_run c' ks c'' -> conn_run c (ls ++ ks) c''.
Proof. induction 1; intros H'; [done|]. rewrite <- app_assoc. econstructor; eauto. Qed.

(** * Well-formed connections *)

Definition is_syn_fin (flags : Z) : bool := flag flags (Z.lor RTE_TCP_SYN_FLAG RTE_TCP_FIN_FLAG).

(** Data in flight is a prefix of the transmit buffer; a SYN or FIN flies alone. *)
Definition flight_kinds : list Z := [0; RTE_TCP_SYN_FLAG; SYN_ACK; PSH_ACK; FIN_ACK].

Record flight_wf (c : tcp_connection) : Prop := {
  fw_flags : In (tc_flight_flags c) flight_kinds;
  fw_len : 0 <= tc_flight_len c <= tc_tx_len c;
  fw_none : tc_flight_flags c = 0 -> tc_flight_len c = 0 /\ tc_snd_nxt c = tc_snd_una c;
  fw_some : tc_flight_flags c <> 0 ->
    tc_snd_nxt c = u32 (tc_snd_una c + tc_flight_len c + b2z (is_syn_fin (tc_flight_flags c))) /\
    (is_syn_fin (tc_flight_flags c) = true -> tc_flight_len c = 0)
}.

Record tcp_wf (c : tcp_connection) : Prop := {
  tw_rx : 0 <= tc_rx_len c <= TCP_BUFFER_SIZE /\ Z.of_nat (length (tc_rx c)) = tc_rx_len c;
  tw_tx : 0 <= tc_tx_len c <= TCP_BUFFER_SIZE /\ Z.of_nat (length (tc_tx c)) = tc_tx_len c;
  tw_seq : is_u32 (tc_snd_una c) /\ is_u32 (tc_snd_nxt c) /\ is_u32 (tc_rcv_nxt c);
  tw_limits : is_u16 (tc_peer_window c) /\ is_u16 (tc_mss c);
  tw_flight : flight_wf c;
  tw_closed : tc_state c = TCP_CLOSED -> c = zero_tcp_connection;
  tw_idle : tc_state c = TCP_FIN_WAIT_2 \/ tc_state c = TCP_TIME_WAIT -> tc_flight_flags c = 0;
  tw_fin : flag (tc_flight_flags c) RTE_TCP_FIN_FLAG = true -> tc_state c = TCP_FIN_WAIT_1 \/ tc_state c = TCP_LAST_ACK;
  tw_empty : sending (tc_state c) = false -> tc_tx_len c = 0;
  tw_unsynced : synchronized (tc_state c) = false -> tc_rx_len c = 0 /\ tc_peer_fin c = false
}.

(** * Lemmas *)

(** The fields of [tcp_wf] a change leaves alone, or decides by the new state. *)
Ltac conn_wf := constructor; cbn; try done; try (by intros [?|?]); try (split_and!; [done..|apply u32_range]);
  try (constructor; cbn; try done; by left);
  try (let Hf := fresh in intros Hf; match goal with H : flag _ _ = true -> _ |- _ => destruct (H Hf); congruence end).

Lemma before_spec a b : before a b = true <-> 2147483648 <= (a - b) mod 4294967296.
Proof.
  unfold before, s32, u32. rewrite Zmod_mod. assert (H := Z.mod_pos_bound (a - b) 4294967296 ltac:(lia)).
  destruct (Z.ltb_spec ((a - b) mod 4294967296) 2147483648); rewrite Z.ltb_lt; lia.
Qed.

Lemma ack_bound una nxt ack d : is_u32 una -> is_u32 ack -> 0 <= d <= TCP_BUFFER_SIZE + 1 -> nxt = u32 (una + d) ->
  before una ack = true -> before nxt ack = false -> 1 <= u32 (ack - una) <= d.
Proof.
  intros Ha Hk Hd -> H1 H2. apply before_spec in H1. apply not_true_iff_false in H2. rewrite before_spec in H2.
  unfold is_u32, u32, TCP_BUFFER_SIZE in *. rewrite Zminus_mod_idemp_l in H2. Z.div_mod_to_equations. lia.
Qed.

Lemma u32_small x : 0 <= x < 4294967296 -> u32 x = x.
Proof. intros H. unfold u32. by rewrite Z.mod_small. Qed.
Lemma u16_small x : 0 <= x < 65536 -> u16 x = x.
Proof. intros H. unfold u16. by rewrite Z.mod_small. Qed.
Lemma u32_add x y : u32 (u32 x + y) = u32 (x + y).
Proof. unfold u32. by rewrite Zplus_mod_idemp_l. Qed.
Lemma u32_add_sub a b : is_u32 b -> u32 (a + u32 (b - a)) = b.
Proof. unfold is_u32, u32. intros H. rewrite Zplus_mod_idemp_r. replace (a + (b - a)) with b by lia. by rewrite Z.mod_small. Qed.

(** The flight is as long as the sequence numbers say. *)
Lemma flight_span c : tcp_wf c ->
  exists d, 0 <= d <= TCP_BUFFER_SIZE + 1 /\ tc_snd_nxt c = u32 (tc_snd_una c + d) /\
    d = (if decide (tc_flight_flags c = 0) then 0 else tc_flight_len c + b2z (is_syn_fin (tc_flight_flags c))).
Proof.
  intros [_ [Htx _] (Hu & _ & _) _ [_ Hl Hn Hs] _ _ _ _ _]. eexists. split; [|split; [|reflexivity]].
  - unfold b2z. case_decide; [unfold TCP_BUFFER_SIZE; lia|]. destruct (is_syn_fin _); lia.
  - case_decide as Hz; [|destruct (Hs Hz) as [-> _]; f_equal; lia]. destruct (Hn Hz) as [_ ->]. rewrite Z.add_0_r, u32_small; [done|]. exact Hu.
Qed.

Lemma flags_syn : is_syn_fin RTE_TCP_SYN_FLAG = true /\ is_syn_fin SYN_ACK = true /\ is_syn_fin FIN_ACK = true /\ is_syn_fin PSH_ACK = false.
Proof. done. Qed.

Lemma flag_fin_syn_fin f : flag f RTE_TCP_FIN_FLAG = true -> is_syn_fin f = true.
Proof.
  unfold is_syn_fin, flag. rewrite !truth_true. unfold RTE_TCP_FIN_FLAG, RTE_TCP_SYN_FLAG. intros H Hz. apply H.
  apply Z.bits_inj_0. intros n. rewrite Z.land_spec. assert (Hb := Z.bits_0 n). rewrite <- Hz, Z.land_spec, Z.lor_spec in Hb.
  destruct (Z.testbit f n); [|done]. simpl in *. by apply orb_false_iff in Hb as [_ ->].
Qed.

(** What an acknowledgment of [bytes] of a flight spanning [d] removes. *)
Lemma flight_drop c bytes d : 0 <= tc_tx_len c <= TCP_BUFFER_SIZE -> Z.of_nat (length (tc_tx c)) = tc_tx_len c ->
  0 <= tc_flight_len c <= tc_tx_len c -> 1 <= bytes <= d -> d = tc_flight_len c + b2z (is_syn_fin (tc_flight_flags c)) ->
  (is_syn_fin (tc_flight_flags c) = true -> tc_flight_len c = 0) ->
  exists n, 0 <= n <= tc_flight_len c /\ (is_syn_fin (tc_flight_flags c) = false -> n = bytes) /\
    (is_syn_fin (tc_flight_flags c) = true -> n = 0 /\ bytes = d) /\
    (if truth (tc_flight_len c) then c |> set_tc_tx_len (u16 (tc_tx_len c - bytes)) |> set_tc_flight_len (u16 (tc_flight_len c - bytes))
        |> set_tc_tx (take (Z.to_nat (u16 (tc_tx_len c - bytes))) (drop (Z.to_nat bytes) (tc_tx c))) else c) =
    (c |> set_tc_tx_len (tc_tx_len c - n) |> set_tc_flight_len (tc_flight_len c - n) |> set_tc_tx (drop (Z.to_nat n) (tc_tx c))).
Proof.
  intros Htx Htl Hfl Hb Hdef Hsf. destruct (is_syn_fin (tc_flight_flags c)) eqn:Esf.
  - exists 0. specialize (Hsf eq_refl). rewrite Hsf in *. split; [lia|]. split; [done|]. split; [unfold b2z in Hdef; lia|].
    change (truth 0) with false. cbv iota. rewrite !Z.sub_0_r. change (Z.to_nat 0) with O. rewrite drop_0. clear -Hsf. destruct c; cbn in *; by subst.
  - exists bytes. unfold b2z in Hdef. split; [lia|]. split; [done|]. split; [done|].
    assert (Et : truth (tc_flight_len c) = true) by (apply truth_true; lia). rewrite Et.
    rewrite !u16_small by (unfold TCP_BUFFER_SIZE in *; lia). f_equal. apply take_ge. rewrite length_drop. lia.
Qed.

(** An acknowledgment within the flight. *)
Lemma acknowledge_flight_wf ack now c flags c' : tcp_wf c -> is_u32 ack -> synchronized (tc_state c) = true ->
  before (tc_snd_una c) ack = true -> before (tc_snd_nxt c) ack = false -> acknowledge_flight ack now c = (flags, c') ->
  tcp_wf c' /\ tc_state c' = tc_state c /\ tc_peer_fin c' = tc_peer_fin c /\ tc_rx c' = tc_rx c /\ tc_rcv_nxt c' = tc_rcv_nxt c /\
  (exists n, 0 <= n <= tc_flight_len c /\ tc_tx c' = drop (Z.to_nat n) (tc_tx c) /\ tc_tx_len c' = tc_tx_len c - n /\
     (is_syn_fin (tc_flight_flags c) = false -> tc_snd_una c' = u32 (tc_snd_una c + n)) /\
     (is_syn_fin (tc_flight_flags c) = true -> n = 0)) /\
  (forall f, flags = Some f -> f = tc_flight_flags c /\ tc_flight_flags c' = 0 /\ ack = tc_snd_nxt c) /\
  (flags = None -> tc_flight_flags c' = tc_flight_flags c /\ is_syn_fin (tc_flight_flags c) = false) /\
  tc_snd_una c' = ack /\ tc_flight_flags c <> 0.
Proof.
  intros Hwf Hack Hsync H1 H2 H. destruct (flight_span c Hwf) as (d & Hd & Hnxt & Hdef).
  destruct Hwf as [Hrx [Htx Htl] (Hu & Hn & Hr) Hlim [Hk Hfl Hf0 Hf1] Hcl Hidle Hfin Hem Hun].
  assert (Hb := ack_bound _ _ _ d Hu Hack Hd Hnxt H1 H2). case_decide as Hz; [lia|]. destruct (Hf1 Hz) as [Hnx Hsf]. clear Hf0 Hf1.
  unfold acknowledge_flight in H. set (bytes := u32 (ack - tc_snd_una c)) in *.
  assert (Hback : u32 (tc_snd_una c + bytes) = ack) by (by apply u32_add_sub).
  assert (Hremain : u32 (ack + (d - bytes)) = tc_snd_nxt c).
  { rewrite Hnxt, <- Hback. unfold u32. rewrite Zplus_mod_idemp_l. f_equal. lia. }
  destruct (flight_drop c bytes d) as (n & Hn0 & Hnb & Hns & Heq); [done|by rewrite Htl|done|done|done|done|].
  cbv zeta in H. rewrite Heq in H. clear Heq.
  cbn [tc_snd_nxt set_tc_tx set_tc_tx_len set_tc_flight_len set_tc_snd_una set_tc_deadline tc_flight_flags tc_rto] in H.
  assert (Hpart : negb (ack =? tc_snd_nxt c) = true -> is_syn_fin (tc_flight_flags c) = false /\ bytes < d).
  { intros Hne. apply negb_true_iff, Z.eqb_neq in Hne. destruct (is_syn_fin (tc_flight_flags c)) eqn:Esf.
    - destruct (Hns eq_refl) as [_ Hbd]. destruct Hne. rewrite <- Hremain, Hbd, Z.sub_diag, Z.add_0_r. by rewrite u32_small.
    - split; [done|]. destruct (Z.eq_dec bytes d) as [Hbd|]; [|lia]. destruct Hne. rewrite <- Hremain, Hbd, Z.sub_diag, Z.add_0_r. by rewrite u32_small. }
  assert (Hdone : negb (ack =? tc_snd_nxt c) = false -> tc_flight_len c - n = 0).
  { intros He. apply negb_false_iff, Z.eqb_eq in He. assert (bytes = d).
    { subst bytes. rewrite He, Hnxt. unfold u32. rewrite Zminus_mod_idemp_l. replace (tc_snd_una c + d - tc_snd_una c) with d by lia.
      apply Z.mod_small. unfold TCP_BUFFER_SIZE in *. lia. }
    destruct (is_syn_fin (tc_flight_flags c)) eqn:Esf; [specialize (Hsf eq_refl); lia|]. rewrite (Hnb eq_refl). unfold b2z in Hdef. lia. }
  assert (Hlen : Z.of_nat (length (drop (Z.to_nat n) (tc_tx c))) = tc_tx_len c - n) by (rewrite length_drop; lia).
  assert (Hnocl : tc_state c <> TCP_CLOSED) by (intros Hc; by rewrite Hc in Hsync).
  assert (Hadv : is_syn_fin (tc_flight_flags c) = false -> ack = u32 (tc_snd_una c + n)) by (intros Hs; by rewrite (Hnb Hs), Hback).
  destruct (negb (ack =? tc_snd_nxt c)) eqn:Ed; injection H as <- <-.
  - destruct (Hpart eq_refl) as [Hs Hlt]. split; [|split_and!; try done; exists n; split_and!; try done; lia || (by intros Ht; rewrite Ht in Hs)].
    constructor; cbn; try done; try lia.
    + constructor; cbn; [done|lia|done|]. intros _. split; [|by rewrite Hs]. rewrite Hs. cbn. rewrite <- Hremain, Hdef, (Hnb Hs), Hs. f_equal. cbn. lia.
    + intros He. assert (Ht := Hem He). lia.
  - apply negb_false_iff, Z.eqb_eq in Ed. specialize (Hdone eq_refl).
    split; [|split_and!; try done; [exists n; split_and!; try done; try lia; intros Ht; by apply Hns|by intros f [= <-]]].
    constructor; cbn; try done; try lia.
    + constructor; cbn; [by left|lia| |done]. intros _. split; [done|]. by rewrite Ed.
    + intros He. assert (Ht := Hem He). lia.
Qed.

Lemma start_flight_wf flags length now c : tcp_wf c -> tc_flight_flags c = 0 -> flags <> 0 -> In flags flight_kinds -> 0 <= length <= tc_tx_len c ->
  (is_syn_fin flags = true -> length = 0) ->
  (flag flags RTE_TCP_FIN_FLAG = true -> tc_state c = TCP_FIN_WAIT_1 \/ tc_state c = TCP_LAST_ACK) -> tc_state c <> TCP_CLOSED -> tc_state c <> TCP_FIN_WAIT_2 -> tc_state c <> TCP_TIME_WAIT ->
  tcp_wf (start_flight flags length now c).
Proof.
  intros [Hrx Htx (Hu & Hn & Hr) Hlim [Hk Hfl Hf0 Hf1] Hcl Hidle Hfin Hem Hun] Hz Hf Hkind Hl Hs Hff H1 H2 H3. unfold start_flight. constructor; cbn; try done.
  - split_and!; [done|apply u32_range|done].
  - intros [?|?]; done.
Qed.

Lemma zero_wf : tcp_wf zero_tcp_connection.
Proof. constructor; try done. constructor; try done. by left. Qed.

Lemma time_wait_wf now c : tcp_wf c -> tc_flight_flags c = 0 -> tc_tx_len c = 0 -> tcp_wf (tcp_time_wait now c).
Proof.
  intros [Hrx Htx (Hu & Hn & Hr) Hlim [Hk Hfl Hf0 Hf1] Hcl Hidle Hfin Hem Hun] Hz Ht. constructor; cbn; try done.
  constructor; cbn; [by left|done| |done]. intros _. by apply Hf0.
Qed.

(** Changes that keep the buffers and the flight. *)
Lemma same_core_wf c c' : tcp_wf c ->
  (tc_rx_len c, tc_rx c, tc_tx_len c, tc_tx c, tc_snd_una c, tc_snd_nxt c, tc_rcv_nxt c, tc_peer_window c, tc_mss c, tc_flight_len c, tc_flight_flags c, tc_peer_fin c, tc_state c) =
  (tc_rx_len c', tc_rx c', tc_tx_len c', tc_tx c', tc_snd_una c', tc_snd_nxt c', tc_rcv_nxt c', tc_peer_window c', tc_mss c', tc_flight_len c', tc_flight_flags c', tc_peer_fin c', tc_state c') ->
  tc_state c <> TCP_CLOSED -> tcp_wf c'.
Proof.
  intros [Hrx Htx Hseq Hlim [Hk Hfl Hf0 Hf1] Hcl Hidle Hfin Hem Hun] [= E1 E2 E3 E4 E5 E6 E7 Ew Em E8 E9 E10 E11] Hs.
  constructor; rewrite <- ?E1, <- ?E2, <- ?E3, <- ?E4, <- ?E5, <- ?E6, <- ?E7, <- ?Ew, <- ?Em, <- ?E9, <- ?E10, <- ?E11; try done.
  constructor; rewrite <- ?E3, <- ?E5, <- ?E6, <- ?E8, <- ?E9; done.
Qed.

Lemma sending_open c : sending (tc_state c) = true ->
  synchronized (tc_state c) = true /\ tc_state c <> TCP_CLOSED /\ tc_state c <> TCP_FIN_WAIT_2 /\ tc_state c <> TCP_TIME_WAIT.
Proof. by destruct (tc_state c). Qed.

(** A flight that completed with a FIN leaves a sending state behind. *)
Lemma flight_done_wf now flags c : tcp_wf c -> (forall f, flags = Some f -> tc_flight_flags c = 0) -> synchronized (tc_state c) = true ->
  (forall f, flags = Some f -> flag f RTE_TCP_FIN_FLAG = true -> tc_tx_len c = 0) -> tcp_wf (flight_done now flags c).
Proof.
  intros Hwf Hz Hsync Hfn. unfold flight_done. destruct flags as [f|]; [|done]. destruct (flag f RTE_TCP_FIN_FLAG) eqn:Ef; [|done].
  specialize (Hz f eq_refl). specialize (Hfn f eq_refl Ef). destruct (in_state c TCP_LAST_ACK); [apply zero_wf|].
  destruct (tc_peer_fin c); [by apply time_wait_wf|].
  destruct Hwf as [Hrx Htx Hseq Hlim [Hk Hfl Hf0 Hf1] Hcl Hidle Hfin Hem Hun].
  constructor; cbn; try done. by rewrite Hz.
Qed.

Lemma accept_payload_wf payload received c c' : tcp_wf c -> synchronized (tc_state c) = true -> accept_payload payload c = (received, c') ->
  tcp_wf c' /\ 0 <= received <= Z.of_nat (length payload) /\ tc_rx c' = tc_rx c ++ take (Z.to_nat received) payload /\
  tc_rcv_nxt c' = u32 (tc_rcv_nxt c + received) /\ tc_peer_fin c' = tc_peer_fin c /\ tc_state c' = tc_state c.
Proof.
  intros [[Hrx Hrl] Htx (Hu & Hn & Hr) Hlim [Hk Hfl Hf0 Hf1] Hcl Hidle Hfin Hem Hun] Hsync [= <- <-]. set (received := Z.min _ _).
  assert (Hb : 0 <= received <= Z.of_nat (length payload) /\ tc_rx_len c + received <= TCP_BUFFER_SIZE) by (unfold received; lia).
  assert (Ht : take (Z.to_nat (tc_rx_len c)) (tc_rx c) = tc_rx c) by (apply take_ge; lia).
  rewrite Ht, u16_small by (unfold TCP_BUFFER_SIZE in *; lia). destruct Hb as [Hb Hfit]. split; [|repeat split; try done; try lia].
  constructor; cbn; try done; [|split_and!; [done..|apply u32_range]| |].
  - split; [lia|]. rewrite length_app, length_take. lia.
  - intros Hc. by rewrite Hc in Hsync.
  - intros Hs. by rewrite Hs in Hsync.
Qed.

Lemma accept_fin_wf now c : tcp_wf c -> synchronized (tc_state c) = true -> tcp_wf (accept_fin now c).
Proof.
  intros Hwf Hsync. assert (H0 := Hwf). destruct Hwf as [Hrx Htx (Hu & Hn & Hr) Hlim [Hk Hfl Hf0 Hf1] Hcl Hidle Hfin Hem Hun].
  assert (Hc0 : tc_state c <> TCP_CLOSED) by (intros Hc; by rewrite Hc in Hsync).
  set (c1 := c |> set_tc_peer_fin true |> set_tc_rcv_nxt (u32 (tc_rcv_nxt c + 1))).
  assert (H1 : tcp_wf c1).
  { constructor; cbn; try done; [split_and!; [done..|apply u32_range]|]. intros Hs. by rewrite Hs in Hsync. }
  unfold accept_fin. fold c1. unfold in_state. case_bool_decide as Hs; cbn in Hs.
  - conn_wf.
  - case_bool_decide as Hs2; cbn in Hs2; [|done]. apply time_wait_wf; [done|by apply Hidle; left|apply Hem; by rewrite Hs2].
Qed.

(** Putting one of the four kinds of flight out. *)
Ltac flying := apply start_flight_wf; try done; try (by (cbn; auto 7)).

Lemma conn_step_wf c ls c' : conn_step c ls c' -> tcp_wf c -> tcp_wf c'.
Proof.
  intros Hstep Hwf. assert (H0 := Hwf). destruct Hwf as [[Hrx Hrl] [Htx Htl] (Hu & Hn & Hr) Hlim [Hk Hfl Hf0 Hf1] Hcl Hidle Hfin Hem Hun].
  destruct Hstep.
  - destruct H as [H|H]; conn_wf; intros _; apply Hem || apply Hun; by rewrite H.
  - rewrite (Hcl H). flying; conn_wf.
  - flying; conn_wf.
  - assert (Ht : tc_tx_len c = 0) by (apply Hem; by rewrite H). conn_wf. constructor; cbn; [by left|lia| |done]. intros _. split; [lia|done].
  - conn_wf.
  - apply sending_open in H as (_ & H & _). by eapply same_core_wf.
  - destruct (sending_open _ H) as (Hs & Hc & _). set (n := Z.of_nat (length bytes)) in *.
    assert (Ht : take (Z.to_nat (tc_tx_len c)) (tc_tx c) = tc_tx c) by (apply take_ge; lia).
    rewrite Ht, u16_small by (unfold TCP_BUFFER_SIZE in *; lia). constructor; cbn; try done.
    + split; [lia|]. rewrite length_app. lia.
    + constructor; cbn; try done. lia.
    + intros Hf. congruence.
  - rewrite u16_small by (unfold TCP_BUFFER_SIZE in *; lia). constructor; cbn; try done.
    + split; [lia|]. rewrite length_take, length_drop. lia.
    + intros Hc. rewrite (Hcl Hc) in H. cbn in H. lia.
    + intros Hs. destruct (Hun Hs) as [Hz _]. lia.
  - destruct (acknowledge_flight_wf _ _ _ _ _ H0 H2 H3 H H1 H4) as (Hw & Hst & _ & _ & _ & (n & Hn0 & _ & Htx' & _ & Hsf) & Hfl' & _).
    apply flight_done_wf; [done|by intros f Hf; apply (Hfl' f Hf)|by rewrite Hst|].
    intros f Hf Hfn. destruct (Hfl' f Hf) as [-> _]. assert (tc_tx_len c = 0); [|lia]. apply Hem. by destruct (Hfin Hfn) as [->| ->].
  - unfold update_window. destruct (_ && _); [|done]. destruct Hlim as [_ Hm]. conn_wf. intros Hc. by rewrite Hc in H.
  - by eapply accept_payload_wf.
  - by apply accept_fin_wf.
  - destruct (sending_open _ H) as (Hs & Hc & H3 & H4). flying; lia.
  - destruct (sending_open _ H) as (Hs & Hc & H3 & H4).
    destruct (in_state c TCP_CLOSE_WAIT); flying; auto; conn_wf; auto; lia.
  - eapply same_core_wf; [done..|]. intros Hc. by rewrite Hc in H.
  - by eapply same_core_wf.
  - apply time_wait_wf; [done|by apply Hidle; right|apply Hem; by rewrite H].
  - apply zero_wf.
Qed.

Lemma conn_run_wf c ls c' : conn_run c ls c' -> tcp_wf c -> tcp_wf c'.
Proof. induction 1; eauto using conn_step_wf. Qed.

(** * The state diagram *)

(** The edges of RFC 793.  A connection that has seen the peer's FIN and whose
    own FIN is not acknowledged ([CLOSING] there) stays in [TCP_FIN_WAIT_1] with
    [peer_fin] set; every state may be left for [TCP_CLOSED]. *)
Definition tcp_edge (st st' : tcp_state) : bool :=
  match st, st' with
  | _, TCP_CLOSED => true
  | TCP_CLOSED, (TCP_LISTEN | TCP_SYN_SENT | TCP_SYN_RECEIVED) => true
  | TCP_SYN_SENT, TCP_ESTABLISHED => true
  | TCP_SYN_RECEIVED, TCP_ESTABLISHED => true
  | TCP_ESTABLISHED, (TCP_FIN_WAIT_1 | TCP_CLOSE_WAIT) => true
  | TCP_CLOSE_WAIT, TCP_LAST_ACK => true
  | TCP_FIN_WAIT_1, (TCP_FIN_WAIT_2 | TCP_TIME_WAIT) => true
  | TCP_FIN_WAIT_2, TCP_TIME_WAIT => true
  | _, _ => bool_decide (st = st')
  end.

Lemma tcp_edge_refl st : tcp_edge st st = true.
Proof. by destruct st. Qed.

Lemma conn_step_edge c ls c' : tcp_wf c -> conn_step c ls c' -> tcp_edge (tc_state c) (tc_state c') = true.
Proof.
  intros Hwf Hstep. assert (Hsend : forall st, sending st = true -> tcp_edge st (if bool_decide (st = TCP_CLOSE_WAIT) then TCP_LAST_ACK else TCP_FIN_WAIT_1) = true)
    by (by intros []). destruct Hstep; cbn; rewrite ?H; try apply tcp_edge_refl; try done.
  - by destruct H as [->| ->].
  - destruct (acknowledge_flight_wf _ _ _ _ _ Hwf H1 H2 H H0 H3) as (_ & Hst & _ & _ & _ & _ & Hfl & _). unfold flight_done.
    destruct flags as [f|]; [|rewrite Hst; apply tcp_edge_refl]. destruct (Hfl f eq_refl) as [-> _].
    destruct (flag _ RTE_TCP_FIN_FLAG) eqn:Ef; [|rewrite Hst; apply tcp_edge_refl]. unfold in_state. rewrite Hst.
    destruct (tw_fin _ Hwf Ef) as [->| ->]; (case_bool_decide; [done|]); by destruct (tc_peer_fin c').
  - unfold update_window. destruct (_ && _); apply tcp_edge_refl.
  - rewrite (proj2 (proj2 (proj2 (proj2 (proj2 (accept_payload_wf _ _ _ _ Hwf H H2)))))). apply tcp_edge_refl.
  - unfold accept_fin, in_state. cbn. case_bool_decide as Hs; [by rewrite Hs|]. case_bool_decide as Hs'; cbn; [by rewrite Hs'|apply tcp_edge_refl].
  - by apply Hsend.
  - by destruct (tc_state c).
Qed.
End machine.
