(* ===== verification/TcpWire.v ===== *)
(** What the TCP output routines put on the wire.  [tcp_emit_flight] and [tcp_ack]
    build a segment in a fresh buffer and hand it to the IP output node; here the
    buffer they hand over is observed and its bytes are read back the way
    [tcp_input_packet] reads an arriving segment.  The fields read are the
    connection's own: the reliable-delivery theorem of [TcpStream.v] feeds its
    network with segments observed this way. *)
From S2P Require Import Prelude.
From S2P Require Import Dpdk.
From S2P Require Import Types.
From S2P Require Import Graph.
From S2P Require Import Packet.
From S2P Require Import Route.
From S2P Require Import PolicyRoute.
From S2P Require Import IcmpError.
From S2P Require Import Sockets.
From S2P Require Import Tcp.
From S2P Require Import TcpMachine.

(** * Segments as bytes *)

Record segment : Type := mk_segment { sg_seq : Z; sg_ack : Z; sg_syn : bool; sg_fin : bool; sg_payload : list Z }.

(** The fields of the segment at offset [o] of a buffer, as [tcp_input_packet]
    reads them. *)
Definition segment_at (o : Z) (m : mbuf) : segment :=
  let header_len := Z.shiftr (byte_in m (o + 12)) 4 * 4 in
  mk_segment (be32_in m (o + 4)) (be32_in m (o + 8))
    (flag (byte_in m (o + 13)) RTE_TCP_SYN_FLAG) (flag (byte_in m (o + 13)) RTE_TCP_FIN_FLAG)
    (bytes_in m (o + header_len) (u16 (rte_pktmbuf_pkt_len m - o) - header_len)).

(** * Observing the output *)

(** A function that submits frames to the graph. *)
Definition submitter : Type := node_id -> node_frame -> app_runtime -> app_runtime.

(** A graph that only notes the buffers it is given. *)
Definition wire : submitter := fun n frame rt =>
  record_event (EvTx (Z.of_nat (node_index n)) (fst <$> frame) (length frame)) rt.

Definition batch_of (ev : dpdk_event) : list mbuf := match ev with EvTx _ batch _ => batch | _ => [] end.

(** The buffers [f] hands to the graph from the state [rt], outside of a node. *)
Definition handed (f : submitter -> app_runtime -> app_runtime) (rt : app_runtime) : list mbuf :=
  let rt := set_rt_active_output None rt in
  let h := rt_dpdk (f wire rt) in
  flat_map batch_of (take (length h - length (rt_dpdk rt)) h).

(** The two routines that send a segment of a connection. *)
Inductive emission : Type := Flight | Ack.

Definition emission_run {D : Dpdk} (x : emission) (i : nat) (submit : submitter) (rt : app_runtime) : app_runtime :=
  match x with Flight => tcp_emit_flight submit i rt | Ack => tcp_ack submit i rt end.

(** The segments the routine sends for socket [i]. *)
Definition emits {D : Dpdk} (x : emission) (rt : app_runtime) (i : nat) : list segment :=
  segment_at 0 <$> handed (emission_run x i) rt.

(** * The bytes sent *)

Section wire.
Context {D : Dpdk} {BL : BufferLaws}.

Lemma tcp_segment_length local remote seq ack flags window mtu data :
  Z.of_nat (length (tcp_segment local remote seq ack flags window mtu data)) =
  sizeof_tcp_hdr + (if flag flags RTE_TCP_SYN_FLAG then 4 else 0) + Z.of_nat (length data).
Proof. unfold tcp_segment, sizeof_tcp_hdr. cbv zeta. rewrite !length_app. destruct (flag _ _); cbn [length app be16 be32]; lia. Qed.

(** The segment fills the buffer it was appended to. *)
Lemma fill_buffer m m' n seg : mb_data m = [] -> mb_segs m = 1 -> rte_pktmbuf_append m n = Some m' -> Z.of_nat (length seg) = n ->
  mb_data (put_bytes (rte_pktmbuf_data_len m) seg m') = seg.
Proof.
  intros Hd Hs Ha Hn. destruct (append_data _ _ _ Hs Ha) as ((tail & Ht & Hl) & _). rewrite Hd in Ht. cbn in Ht.
  unfold put_bytes, rte_pktmbuf_data_len, write_at. rewrite Hd, Ht. cbn. rewrite drop_ge by lia. apply app_nil_r.
Qed.

Lemma handed_events f rt es : rt_dpdk (f wire (set_rt_active_output None rt)) = es ++ rt_dpdk rt -> handed f rt = flat_map batch_of es.
Proof.
  intros H. unfold handed. cbv zeta. rewrite H, length_app. cbn [rt_dpdk set_rt_active_output].
  by rewrite Nat.add_sub, take_app_length.
Qed.

(** The buffer [tcp_emit] hands over holds the segment, checksum included, and
    nothing else. *)
Definition holds_segment (local remote : ps_sockaddr) (seq ack flags window : Z) (data : list Z) (m : mbuf) : Prop :=
  exists mtu cksum, mb_data m = write_at (tcp_segment local remote seq ack flags window mtu data) 16 (le16 cksum) /\ mb_rest m = 0.

Lemma tcp_emit_events local remote seq ack flags window data rt : rt_active_output rt = None ->
  exists es, rt_dpdk (tcp_emit wire local remote seq ack flags window data rt).2 = es ++ rt_dpdk rt /\
    Forall (holds_segment local remote seq ack flags window data) (flat_map batch_of es).
Proof.
  intros Hact. unfold tcp_emit. cbv zeta.
  destruct (ipv4_route_query _ _ _ _ _) as [reason route].
  destruct (negb _); [by exists []|]. destruct (rr_mtu route <? _); [by exists []|].
  unfold mbuf_alloc. destruct (alloc_of (rt_dpdk rt)) as [m0|] eqn:Ea; [|by exists [EvAlloc None]].
  destruct (alloc_empty _ _ Ea) as (Hd & Hs & Hr).
  destruct (rte_pktmbuf_append m0 _) as [m1|] eqn:Em; [|by exists [EvFree m0; EvAlloc (Some m0)]].
  unfold send_ipv4. cbn [rt_active_output record_event set_rt_dpdk]. rewrite Hact. set (pkt := put_bytes _ _ _).
  exists [EvTx (Z.of_nat (node_index NODE_IPV4_OUTPUT)) [pkt] 1; EvAlloc (Some m0)]. split; [by destruct (truth _)|].
  constructor; [|constructor]. eexists (rr_mtu route), _. split.
  - eapply (fill_buffer m0 m1); [done|done|exact Em|]. rewrite length_write_at; [apply tcp_segment_length|].
    assert (H := tcp_segment_length local remote seq ack flags window (rr_mtu route) data). unfold sizeof_tcp_hdr in H.
    cbn [length le16]. destruct (flag _ _); lia.
  - change (mb_rest pkt) with (mb_rest m1). by destruct (append_data _ _ _ Hs Em) as [_ ->].
Qed.

(** The segment, laid out around the fields a receiver reads. *)
Lemma segment_layout local remote seq ack flags window mtu data cksum :
  exists ports rest, length ports = 4%nat /\ Z.of_nat (length rest) = (if flag flags RTE_TCP_SYN_FLAG then 24 else 20) - 14 /\
  write_at (tcp_segment local remote seq ack flags window mtu data) 16 (le16 cksum) =
  ports ++ be32 seq ++ be32 ack ++ [if flag flags RTE_TCP_SYN_FLAG then 96 else 80; flags] ++ rest ++ data.
Proof.
  exists (be16 (sa_port local) ++ be16 (sa_port remote)). unfold tcp_segment, write_at. cbv zeta. destruct (flag flags RTE_TCP_SYN_FLAG).
  - by exists (be16 window ++ le16 cksum ++ [0; 0; 2; 4] ++ be16 (u16 (mtu - 40))).
  - by exists (be16 window ++ le16 cksum ++ [0; 0]).
Qed.

(** Reading the segment back gives what it was built from. *)
Lemma holds_segment_at local remote seq ack flags window data m : holds_segment local remote seq ack flags window data m ->
  is_u32 seq -> is_u32 ack -> Z.of_nat (length data) <= TCP_BUFFER_SIZE ->
  segment_at 0 m = mk_segment seq ack (flag flags RTE_TCP_SYN_FLAG) (flag flags RTE_TCP_FIN_FLAG) data.
Proof.
  intros (mtu & cksum & Hd & Hr) Hseq Hack Hlen. unfold TCP_BUFFER_SIZE in Hlen.
  destruct (segment_layout local remote seq ack flags window mtu data cksum) as (ports & rest & Hp & Hrest & E). rewrite E in Hd. clear E.
  assert (Hoff : byte_in m 12 = if flag flags RTE_TCP_SYN_FLAG then 96 else 80).
  { unfold byte_in. rewrite Hd, (byte_of_skip _ _ _ 8) by (rewrite Hp; done). done. }
  assert (Hdata : mb_data m = (ports ++ be32 seq ++ be32 ack ++ [byte_in m 12; flags] ++ rest) ++ data) by (by rewrite Hoff, Hd, <- !app_assoc).
  set (head := _ ++ _ ++ _) in Hdata. set (hl := if flag flags RTE_TCP_SYN_FLAG then 24 else 20) in *.
  assert (Hhl : Z.shiftr (byte_in m 12) 4 * 4 = hl) by (rewrite Hoff; unfold hl; by destruct (flag _ _)).
  assert (Hhead : Z.of_nat (length head) = hl) by (unfold head; rewrite !length_app, Hp; cbn [length be32]; lia).
  assert (Hflags : byte_in m 13 = flags) by (unfold byte_in; by rewrite Hd, (byte_of_skip _ _ _ 9) by (rewrite Hp; done)).
  unfold segment_at. cbv zeta. rewrite !Z.add_0_l, Hhl, Hflags, Z.sub_0_r. f_equal.
  - unfold be32_in. rewrite Hd, (rd_be32_skip _ _ _ 0) by (rewrite Hp; done). by apply rd_be32_be32.
  - unfold be32_in. rewrite Hd, (rd_be32_skip _ _ _ 4), (rd_be32_skip _ _ _ 0) by (rewrite ?Hp; done). by apply rd_be32_be32.
  - unfold bytes_in, rte_pktmbuf_pkt_len. rewrite Hdata, Hr, length_app, Z.add_0_r, drop_app_ge by lia.
    replace (_ - length head)%nat with 0%nat by lia. rewrite drop_0, u16_small by (unfold hl in *; destruct (flag _ _); lia). apply take_ge. lia.
Qed.

(** A routine that calls [tcp_emit] hands over the segment it asked for. *)
Lemma handed_reads f local remote seq ack flags window data rt m :
  f wire (set_rt_active_output None rt) = (tcp_emit wire local remote seq ack flags window data (set_rt_active_output None rt)).2 ->
  In m (handed f rt) -> is_u32 seq -> is_u32 ack -> Z.of_nat (length data) <= TCP_BUFFER_SIZE ->
  segment_at 0 m = mk_segment seq ack (flag flags RTE_TCP_SYN_FLAG) (flag flags RTE_TCP_FIN_FLAG) data.
Proof.
  intros Hf Hm Hs Ha Hd. destruct (tcp_emit_events local remote seq ack flags window data (set_rt_active_output None rt) eq_refl) as (es & He & Hes).
  rewrite <- Hf in He. rewrite (handed_events f rt es He) in Hm. rewrite List.Forall_forall in Hes. eapply holds_segment_at; [by apply Hes|done..].
Qed.

(** The fields of the segments a connection sends. *)
Definition segment_of (x : emission) (c : tcp_connection) : segment :=
  match x with
  | Flight => mk_segment (tc_snd_una c) (tc_rcv_nxt c) (flag (tc_flight_flags c) RTE_TCP_SYN_FLAG) (flag (tc_flight_flags c) RTE_TCP_FIN_FLAG)
      (take (Z.to_nat (tc_flight_len c)) (tc_tx c))
  | Ack => mk_segment (tc_snd_nxt c) (tc_rcv_nxt c) false false []
  end.

(** Every segment sent for a connection carries its sequence numbers; a flight
    carries the front of its transmit buffer. *)
Lemma emits_fields x rt i s : tcp_wf (conn rt i) -> In s (emits x rt i) -> s = segment_of x (conn rt i).
Proof.
  intros Hwf (m & <- & Hm)%in_map_iff. destruct (tw_seq _ Hwf) as (Hu & Hn & Hr). destruct (tw_tx _ Hwf) as [Hb Hl].
  destruct x; cbn [segment_of].
  - eapply handed_reads; cycle 1; [exact Hm|done|done| |with_strategy opaque [tcp_emit] reflexivity]. rewrite length_take. lia.
  - eapply (handed_reads _ _ _ _ _ RTE_TCP_ACK_FLAG _ []); cycle 1; [exact Hm|done|done|done|with_strategy opaque [tcp_emit] reflexivity].
Qed.
End wire.
