(* ===== verification/TcpStream.v ===== *)
(** Reliable delivery.  A sender and a receiver run the machine of [TcpMachine.v]
    over a network that may lose, repeat and reorder what was put into it: a
    segment once emitted can be delivered at any time, any number of times, or
    never.  The network holds the segments that the output routines of [Tcp.v] hand
    to the IP output node, read back from their bytes ([TcpWire.v]).  The bytes the
    receiver hands to its application are a prefix of the bytes the sender's
    application wrote; the end of the stream is reported only after all of them;
    and a byte leaves the transmit buffer only after the receiver took it.  Window
    probes and resets carry neither data nor a FIN and are left out. *)
From S2P Require Import Prelude.
From S2P Require Import Dpdk.
From S2P Require Import Types.
From S2P Require Import Sim.
From S2P Require Import Tcp.
From S2P Require Import TcpMachine.
From S2P Require Import TcpWire.
From S2P Require Import Sockets.
From S2P Require Import Runtime.
From S2P Require Import Conservation.

(** * What a trace carried *)

Definition wrote (ls : list tcp_label) : list Z := flat_map (fun l => match l with Wrote b => b | _ => [] end) ls.
Definition got (ls : list tcp_label) : list Z := flat_map (fun l => match l with Got _ b => b | _ => [] end) ls.
Definition read (ls : list tcp_label) : list Z := flat_map (fun l => match l with Read b => b | _ => [] end) ls.

Lemma wrote_app a b : wrote (a ++ b) = wrote a ++ wrote b.
Proof. apply flat_map_app. Qed.
Lemma got_app a b : got (a ++ b) = got a ++ got b.
Proof. apply flat_map_app. Qed.
Lemma read_app a b : read (a ++ b) = read a ++ read b.
Proof. apply flat_map_app. Qed.

(** * The exchange *)

(** Past the point where the peer's initial sequence number is known. *)
Definition opened (st : tcp_state) : bool := match st with TCP_CLOSED | TCP_LISTEN | TCP_SYN_SENT => false | _ => true end.

Record exchange : Type := mk_exchange {
  ex_out : tcp_connection; ex_sent : list tcp_label; ex_net : list segment;
  ex_in : tcp_connection; ex_taken : list tcp_label; ex_acks : list Z }.

Section stream.
Context {D : Dpdk} {BL : BufferLaws} (iss : Z).

(** What the receiver takes was emitted by the sender. *)
Definition delivered (net : list segment) (l : tcp_label) : Prop :=
  match l with
  | Opened irs => exists s, In s net /\ sg_syn s = true /\ irs = sg_seq s
  | Got seq bytes => exists s k, In s net /\ seq = sg_seq s /\ bytes = take k (sg_payload s)
  | Fin seq => exists s, In s net /\ sg_fin s = true /\ seq = u32 (sg_seq s + Z.of_nat (length (sg_payload s)))
  | _ => True
  end.

Lemma delivered_one net s k seq bytes : In s net -> seq = sg_seq s -> bytes = take k (sg_payload s) -> Forall (delivered net) [Got seq bytes].
Proof. intros Hin Hs Hb. constructor; [by exists s, k|constructor]. Qed.

Lemma delivered_read net bytes : Forall (delivered net) [Read bytes].
Proof. by repeat constructor. Qed.

(** What the sender sees acknowledged was acknowledged by the receiver. *)
Definition returned (acks : list Z) (l : tcp_label) : Prop := match l with Acked ack => In ack acks | _ => True end.

Lemma returned_one acks ack : In ack acks -> Forall (returned acks) [Acked ack].
Proof. by repeat constructor. Qed.

(** A flight is sent only while there is one. *)
Definition due (x : emission) (c : tcp_connection) : Prop := match x with Flight => tc_flight_flags c <> 0 | Ack => True end.

(** The runs.  Each side takes the steps of the machine; what it reacts to was put
    into the network by the other side, and what is put there is what the output
    routines hand to the IP output node in a state of the stack that holds the
    connection.  A segment stays in the network: it may be taken late, repeatedly,
    out of order or never.  The runs follow a connection that is not reset. *)
Inductive exchanges : exchange -> Prop :=
| ex_start ls out : conn_step zero_tcp_connection ls out -> In (Started iss) ls ->
    exchanges (mk_exchange out ls [] zero_tcp_connection [] [])
| ex_sender e ls out : exchanges e -> conn_step (ex_out e) ls out -> tc_state out <> TCP_CLOSED ->
    Forall (returned (ex_acks e)) ls ->
    exchanges (mk_exchange out (ex_sent e ++ ls) (ex_net e) (ex_in e) (ex_taken e) (ex_acks e))
| ex_emit e x rt i s : exchanges e -> conn rt i = ex_out e -> due x (ex_out e) -> In s (emits x rt i) ->
    exchanges (mk_exchange (ex_out e) (ex_sent e) (s :: ex_net e) (ex_in e) (ex_taken e) (ex_acks e))
| ex_receiver e ls inn : exchanges e -> conn_step (ex_in e) ls inn -> tc_state inn <> TCP_CLOSED ->
    Forall (delivered (ex_net e)) ls ->
    exchanges (mk_exchange (ex_out e) (ex_sent e) (ex_net e) inn (ex_taken e ++ ls) (ex_acks e))
| ex_ack e x rt i s : exchanges e -> conn rt i = ex_in e -> opened (tc_state (ex_in e)) = true -> In s (emits x rt i) ->
    exchanges (mk_exchange (ex_out e) (ex_sent e) (ex_net e) (ex_in e) (ex_taken e) (sg_ack s :: ex_acks e)).

(** * The sender's invariant *)

Definition settled (st : tcp_state) : bool := match st with TCP_FIN_WAIT_2 | TCP_TIME_WAIT => true | _ => false end.

Definition finished (st : tcp_state) : bool :=
  match st with TCP_FIN_WAIT_1 | TCP_FIN_WAIT_2 | TCP_LAST_ACK | TCP_TIME_WAIT => true | _ => false end.

(** The transmit buffer holds what was written and is not acknowledged; the
    unacknowledged sequence number is its position in the stream. *)
Record sends (c : tcp_connection) (W : list Z) (A : nat) : Prop := {
  sn_wf : tcp_wf c;
  sn_open : tc_state c <> TCP_CLOSED /\ tc_state c <> TCP_LISTEN;
  sn_tx : (A <= length W)%nat /\ tc_tx c = drop A W;
  sn_seq : settled (tc_state c) = false ->
    u32 (tc_snd_una c + b2z (flag (tc_flight_flags c) RTE_TCP_SYN_FLAG)) = u32 (iss + 1 + Z.of_nat A);
  sn_syn : tc_state c = TCP_SYN_SENT \/ tc_state c = TCP_SYN_RECEIVED -> flag (tc_flight_flags c) RTE_TCP_SYN_FLAG = true;
  sn_iss : flag (tc_flight_flags c) RTE_TCP_SYN_FLAG = true -> tc_snd_una c = iss
}.

Lemma syn_flag : flag RTE_TCP_SYN_FLAG RTE_TCP_SYN_FLAG = true.
Proof. done. Qed.
Lemma syn_ack_flag : flag SYN_ACK RTE_TCP_SYN_FLAG = true.
Proof. done. Qed.

Lemma start_sends ls c : conn_step zero_tcp_connection ls c -> In (Started iss) ls -> sends c [] 0 /\ wrote ls = [].
Proof.
  intros Hstep Hin. assert (Hwf := conn_step_wf _ _ _ Hstep zero_wf). remember zero_tcp_connection as z eqn:Ez.
  destruct Hstep; subst; cbn in Hin; repeat (destruct Hin as [Hin|Hin]); try done; injection Hin as ->;
    (split; [|done]); (constructor; [done|done|by split| |done|done]); intros _; unfold start_flight; cbn;
    rewrite ?syn_flag, ?syn_ack_flag; f_equal; cbn; lia.
Qed.

(** A step that leaves the stream alone. *)
Lemma sends_same c W A c' : sends c W A -> tcp_wf c' -> tcp_edge (tc_state c) (tc_state c') = true -> tc_state c' <> TCP_CLOSED ->
  tc_tx c' = tc_tx c -> tc_snd_una c' = tc_snd_una c ->
  flag (tc_flight_flags c') RTE_TCP_SYN_FLAG = flag (tc_flight_flags c) RTE_TCP_SYN_FLAG -> sends c' W A.
Proof.
  intros [_ [Hnc Hnl] [HA Htx] Hseq Hsyn Hiss] Hwf He Ho E1 E2 E3. constructor; rewrite ?E1, ?E2, ?E3; try done.
  - by destruct (tc_state c), (tc_state c').
  - intros Hs. apply Hseq. by destruct (tc_state c), (tc_state c').
  - intros Hs. apply Hsyn. destruct (tc_state c), (tc_state c'); try done; auto; by destruct Hs.
Qed.

(** The sequence number after an acknowledgment. *)
Lemma acknowledged_sends c W A ack now flags c' : sends c W A -> is_u32 ack -> synchronized (tc_state c) = true ->
  before (tc_snd_una c) ack = true -> before (tc_snd_nxt c) ack = false -> acknowledge_flight ack now c = (flags, c') ->
  exists A', (A <= A' <= length W)%nat /\ tc_tx c' = drop A' W /\ ((A < A')%nat -> ack = u32 (iss + 1 + Z.of_nat A')) /\
    settled (tc_state c) = false /\ tc_state c' = tc_state c /\
    (forall f, flags = Some f -> f = tc_flight_flags c) /\ (flags = None -> flag (tc_flight_flags c) RTE_TCP_FIN_FLAG = false) /\
    (flag (tc_flight_flags c) RTE_TCP_FIN_FLAG = false ->
      u32 (tc_snd_una c' + b2z (flag (tc_flight_flags c') RTE_TCP_SYN_FLAG)) = u32 (iss + 1 + Z.of_nat A')) /\
    flag (tc_flight_flags c') RTE_TCP_SYN_FLAG = false.
Proof.
  intros [Hwf [Hnc Hnl] [HA Htx] Hseq Hsyn _] Hack Hsync H1 H2 H.
  destruct (acknowledge_flight_wf _ _ _ _ _ Hwf Hack Hsync H1 H2 H)
    as (Hwf' & Hst & _ & _ & _ & (n & Hn & Htx' & _ & Huna & Hn0) & Hsome & Hnone & Hu & Hz).
  assert (Hs : settled (tc_state c) = false).
  { assert (Hi := tw_idle _ Hwf). destruct (tc_state c); try done; destruct Hz; auto. }
  specialize (Hseq Hs). destruct (tw_tx _ Hwf) as [_ Hlen]. rewrite Htx, length_drop in Hlen. destruct (fw_len _ (tw_flight _ Hwf)) as [_ Hfl].
  exists (A + Z.to_nat n)%nat. rewrite Htx', Htx, drop_drop, Hst. split; [lia|]. split; [done|].
  assert (Hk := fw_flags _ (tw_flight _ Hwf)).
  assert (Hdata : is_syn_fin (tc_flight_flags c) = false -> tc_flight_flags c = PSH_ACK).
  { clear -Hk Hz. intros Hf. cbn in Hk. repeat destruct Hk as [Hk|Hk]; try done; by rewrite <- Hk in *. }
  assert (Hpos : is_syn_fin (tc_flight_flags c) = false -> ack = u32 (iss + 1 + Z.of_nat (A + Z.to_nat n))).
  { intros Hf. rewrite <- Hu, (Huna Hf). rewrite (Hdata Hf) in Hseq. change (flag PSH_ACK RTE_TCP_SYN_FLAG) with false in Hseq. cbn [b2z] in Hseq.
    revert Hseq. unfold u32. rewrite Z.add_0_r. intros Hq. rewrite Zplus_mod, Hq, <- Zplus_mod. f_equal. lia. }
  split; [intros Hlt; apply Hpos; destruct (is_syn_fin _); [rewrite Hn0 in Hlt by done; lia|done]|].
  split; [done|]. split; [done|]. split; [by intros f Hf; apply Hsome|].
  split; [intros Hf; destruct (Hnone Hf); destruct (flag (tc_flight_flags c) RTE_TCP_FIN_FLAG) eqn:Ef; [apply flag_fin_syn_fin in Ef; congruence|done]|].
  assert (Hfn : flag (tc_flight_flags c') RTE_TCP_SYN_FLAG = false).
  { destruct flags as [f|]; [by destruct (Hsome f eq_refl) as (_ & -> & _)|]. destruct (Hnone eq_refl) as [-> Hf]. by rewrite (Hdata Hf). }
  split; [|done]. intros Hff. rewrite Hu, Hfn. cbn [b2z]. rewrite Z.add_0_r.
  destruct (is_syn_fin (tc_flight_flags c)) eqn:Esf; [|rewrite (Hpos eq_refl); unfold u32; by rewrite Zmod_mod].
  destruct flags as [f|]; [|by destruct (Hnone eq_refl)]. destruct (Hsome f eq_refl) as (_ & _ & ->). rewrite (Hn0 eq_refl), Nat.add_0_r, <- Hseq.
  destruct (fw_some _ (tw_flight _ Hwf) Hz) as [-> Hl0]. rewrite (Hl0 Esf), Esf. unfold u32. rewrite Zmod_mod. f_equal. rewrite Z.add_0_r. f_equal.
  cbn in Hk. repeat destruct Hk as [Hk|Hk]; try done; by rewrite <- Hk in *.
Qed.

(** An established sender takes one step. *)
Lemma sender_step c W A ls c' : sends c W A -> conn_step c ls c' -> tc_state c' <> TCP_CLOSED ->
  exists A', sends c' (W ++ wrote ls) A' /\ (A <= A')%nat /\
    (finished (tc_state c) = true -> wrote ls = [] /\ finished (tc_state c') = true) /\
    ((A < A')%nat -> exists ack, In (Acked ack) ls /\ ack = u32 (iss + 1 + Z.of_nat A')).
Proof.
  intros Hs Hstep Hopen. assert (Hwf' := conn_step_wf _ _ _ Hstep (sn_wf _ _ _ Hs)).
  assert (He := conn_step_edge _ _ _ (sn_wf _ _ _ Hs) Hstep).
  assert (Hf : finished (tc_state c) = true -> finished (tc_state c') = true)
    by (clear -He Hopen; by destruct (tc_state c), (tc_state c')).
  destruct (sn_open _ _ _ Hs) as [Hnc Hnl].
  assert (Hsame : wrote ls = [] -> tc_tx c' = tc_tx c -> tc_snd_una c' = tc_snd_una c ->
    flag (tc_flight_flags c') RTE_TCP_SYN_FLAG = flag (tc_flight_flags c) RTE_TCP_SYN_FLAG ->
    exists A', sends c' (W ++ wrote ls) A' /\ (A <= A')%nat /\
    (finished (tc_state c) = true -> wrote ls = [] /\ finished (tc_state c') = true) /\
    ((A < A')%nat -> exists ack, In (Acked ack) ls /\ ack = u32 (iss + 1 + Z.of_nat A'))).
  { intros Hw E1 E2 E3. exists A. rewrite Hw, app_nil_r. split; [by eapply sends_same|]. split; [done|]. split; [auto|lia]. }
  destruct Hstep; try (by apply Hsame).
  - (* connected *)
    assert (Hsy := sn_syn _ _ _ Hs (or_introl H)). assert (Hwf := sn_wf _ _ _ Hs).
    exists A. rewrite app_nil_r. split; [|split; [done|split; [auto|lia]]].
    constructor; cbn; [done|done|apply (sn_tx _ _ _ Hs)| |by intros [?|?]|done]. intros _. rewrite <- (sn_seq _ _ _ Hs) by (by rewrite H).
    assert (Hz : tc_flight_flags c <> 0) by (intros Hz; by rewrite Hz in Hsy).
    destruct (fw_some _ (tw_flight _ Hwf) Hz) as [-> Hl0]. rewrite Hsy.
    assert (Hsf : is_syn_fin (tc_flight_flags c) = true).
    { assert (Hk := fw_flags _ (tw_flight _ Hwf)). cbn in Hk. repeat destruct Hk as [Hk|Hk]; try done; by rewrite <- Hk in *. }
    rewrite (Hl0 Hsf), Hsf. unfold u32. change (b2z (flag 0 _)) with 0. rewrite Z.add_0_r, Zmod_mod. f_equal. cbn. lia.
  - (* write *)
    exists A. split; [|split; [done|split; [|lia]]].
    + destruct (sn_tx _ _ _ Hs) as [HA Htx]. destruct (tw_tx _ (sn_wf _ _ _ Hs)) as [_ Hlen].
      constructor; cbn; rewrite ?app_nil_r; [done|done| |apply (sn_seq _ _ _ Hs)|apply (sn_syn _ _ _ Hs)|apply (sn_iss _ _ _ Hs)].
      split; [rewrite length_app; lia|]. rewrite take_ge by lia. by rewrite Htx, drop_app_le by lia.
    + intros Hd. by destruct (tc_state c).
  - (* acknowledgment *)
    destruct (acknowledged_sends _ _ _ _ _ _ _ Hs H1 H2 H H0 H3) as (A' & HA & Htx & Hpos & Hset & Hst & Hsome & Hnone & Hseq & Hfn).
    exists A'. rewrite app_nil_r. split; [|split; [lia|split; [auto|intros Hlt; exists ack; split; [by left|auto]]]].
    clear Hsame Hf He. unfold flight_done in *. destruct flags as [f|].
    + rewrite <- (Hsome f eq_refl) in Hseq. destruct (flag f RTE_TCP_FIN_FLAG).
      * destruct (in_state c' TCP_LAST_ACK); [done|]. destruct (tc_peer_fin c'); (constructor; cbn; rewrite ?Hfn; try done; try (by intros [?|?])); split; lia || done.
      * rewrite Hfn in Hseq. constructor; rewrite ?Hst, ?Hfn; try done; auto; [split; [lia|done]|]. intros [Hq|Hq]; by rewrite Hq in H2.
    + rewrite Hfn in Hseq. constructor; rewrite ?Hst, ?Hfn; try done; [split; [lia|done]| |intros [Hq|Hq]; by rewrite Hq in H2].
      intros _. by apply Hseq, Hnone.
  - apply Hsame; try done; unfold update_window; by destruct (_ && _).
  - unfold accept_payload in H2. injection H2 as <- <-. by apply Hsame.
  - assert (Hi := tw_idle _ (sn_wf _ _ _ Hs)). apply Hsame; try done; unfold accept_fin, in_state; (case_bool_decide; [done|]); (case_bool_decide as Hq; [|done]);
      cbn in *; by rewrite ?Hi by auto.
  - apply Hsame; try done. cbn. by rewrite H0.
  - apply Hsame; try done. cbn. by rewrite H0.
  - apply Hsame; try done. cbn. by rewrite (tw_idle _ (sn_wf _ _ _ Hs)) by auto.
Qed.
(** * The receiver's invariant *)

Record takes (c : tcp_connection) (ls : list tcp_label) : Prop := {
  tk_wf : tcp_wf c;
  tk_read : read ls ++ tc_rx c = got ls;
  tk_seq : opened (tc_state c) = true -> tc_rcv_nxt c = u32 (iss + 1 + Z.of_nat (length (got ls)) + b2z (tc_peer_fin c));
  tk_closed : opened (tc_state c) = false -> got ls = [] /\ tc_peer_fin c = false
}.

Lemma zero_takes : takes zero_tcp_connection [].
Proof. constructor; try done. apply zero_wf. Qed.

Lemma takes_same c ls ks c' : takes c ls -> tcp_wf c' -> opened (tc_state c') = opened (tc_state c) -> read ks = [] -> got ks = [] ->
  tc_rx c' = tc_rx c -> tc_rcv_nxt c' = tc_rcv_nxt c -> tc_peer_fin c' = tc_peer_fin c -> takes c' (ls ++ ks).
Proof.
  intros [_ Hr Hs Hc] Hwf E1 E2 E3 E4 E5 E6. constructor; rewrite ?read_app, ?got_app, ?E1, ?E2, ?E3, ?E4, ?E5, ?E6, ?app_nil_r; auto.
Qed.

Lemma takes_open c ls ks c' : takes c ls -> opened (tc_state c) = false -> tcp_wf c' -> opened (tc_state c') = true -> read ks = [] -> got ks = [] ->
  tc_rx c' = tc_rx c -> tc_rcv_nxt c' = u32 (iss + 1) -> tc_peer_fin c' = false -> takes c' (ls ++ ks).
Proof.
  intros [_ Hr _ Hc] Hu Hwf E1 E2 E3 E4 E5 E6. destruct (Hc Hu) as [Hg _].
  constructor; rewrite ?read_app, ?got_app, ?E1, ?E2, ?E3, ?E4, ?E5, ?E6, ?app_nil_r, ?Hg; auto; [by rewrite Hr|]. intros _. cbn. by rewrite !Z.add_0_r.
Qed.

(** What one step takes from the peer. *)
Record taken (c : tcp_connection) (ks : list tcp_label) (c' : tcp_connection) : Prop := {
  ta_got : got ks <> [] -> ks = [Got (tc_rcv_nxt c) (got ks)] /\ opened (tc_state c) = true /\ tc_peer_fin c = false;
  ta_fin : tc_peer_fin c' = true -> tc_peer_fin c = true \/ ks = [Fin (tc_rcv_nxt c)] /\ opened (tc_state c) = true /\ tc_peer_fin c = false;
  ta_keep : tc_peer_fin c = true -> tc_peer_fin c' = true
}.

Lemma synced_opened c : synchronized (tc_state c) = true -> opened (tc_state c) = true.
Proof. by destruct (tc_state c). Qed.

Lemma receiver_step c ls ks c' : takes c ls -> conn_step c ks c' -> tc_state c' <> TCP_CLOSED ->
  (forall irs, In (Opened irs) ks -> irs = iss) -> takes c' (ls ++ ks) /\ taken c ks c'.
Proof.
  intros Ht Hstep Hopen Hiss. assert (Hwf := tk_wf _ _ Ht). assert (Hwf' := conn_step_wf _ _ _ Hstep Hwf).
  assert (Hsame : opened (tc_state c') = opened (tc_state c) -> read ks = [] -> got ks = [] ->
    tc_rx c' = tc_rx c -> tc_rcv_nxt c' = tc_rcv_nxt c -> tc_peer_fin c' = tc_peer_fin c -> takes c' (ls ++ ks) /\ taken c ks c').
  { intros E1 E2 E3 E4 E5 E6. split; [by eapply takes_same|]. constructor; rewrite ?E3, ?E6; auto. done. }
  assert (Hun := tw_unsynced _ Hwf).
  destruct Hstep; try (by apply Hsame).
  - apply Hsame; try done. cbn. by destruct H as [->| ->].
  - apply Hsame; try done. cbn. by rewrite H.
  - rewrite (Hiss seq) in * by (cbn; auto). split; [by eapply takes_open|by constructor].
  - rewrite (Hiss seq) in * by (cbn; auto). destruct Hun as [_ Hpf]; [by rewrite H|].
    split; [eapply takes_open; try done; by rewrite H|]. by constructor; cbn; rewrite ?Hpf.
  - apply Hsame; try done. cbn. by rewrite H.
  - destruct Ht as [_ Hr Hs Hc]. destruct (tw_rx _ Hwf) as [Hb Hl]. unfold TCP_BUFFER_SIZE in Hb. split; [|by constructor; auto].
    rewrite u16_small by lia. constructor; rewrite ?read_app, ?got_app, ?app_nil_r; [by rewrite u16_small in Hwf' by lia| |done|done].
    cbn. rewrite app_nil_r, (take_ge (drop _ _)) by (rewrite length_drop; lia). by rewrite <- app_assoc, take_drop.
  - destruct (acknowledge_flight_wf _ _ _ _ _ Hwf H1 H2 H H0 H3) as (_ & Hst & Hpf & Hrx & Hrn & _).
    apply synced_opened in H2. unfold flight_done in *. destruct flags as [f|]; [|apply Hsame; try done; by rewrite Hst].
    destruct (flag f _); [|apply Hsame; try done; by rewrite Hst]. destruct (in_state c' TCP_LAST_ACK); [done|].
    destruct (tc_peer_fin c') eqn:Ep; apply Hsame; try done; cbn; congruence.
  - apply Hsame; try done; unfold update_window; by destruct (_ && _).
  - destruct (accept_payload_wf _ _ _ _ Hwf H H2) as (_ & Hb & Hrx & Hrn & Hpf & Hst). destruct Ht as [_ Hr Hs Hc].
    apply synced_opened in H. specialize (Hs H). split; [|constructor; rewrite ?Hpf; auto; cbn; by rewrite app_nil_r].
    constructor; rewrite ?read_app, ?got_app; cbn; rewrite ?app_nil_r; [done| | |by rewrite Hst, H].
    + by rewrite Hrx, app_assoc, Hr.
    + intros _. rewrite Hrn, Hs, Hpf, H0, length_app, length_take. unfold u32. rewrite Zplus_mod_idemp_l. f_equal. cbn. lia.
  - destruct Ht as [_ Hr Hs Hc]. apply synced_opened in H. specialize (Hs H).
    assert (Ha : tc_rx (accept_fin now c) = tc_rx c /\ tc_rcv_nxt (accept_fin now c) = u32 (tc_rcv_nxt c + 1) /\
      tc_peer_fin (accept_fin now c) = true /\ opened (tc_state (accept_fin now c)) = true).
    { unfold accept_fin, in_state. repeat (case_bool_decide; [done|]). done. }
    destruct Ha as (E1 & E2 & E3 & E4). split; [|constructor; auto; done].
    constructor; rewrite ?read_app, ?got_app, ?app_nil_r, ?E1, ?E2, ?E3, ?E4; try done.
    intros _. rewrite Hs, H0. unfold u32. rewrite Zplus_mod_idemp_l. f_equal. cbn. rewrite ?app_nil_r. lia.
  - apply Hsame; try done. cbn. rewrite (synced_opened c) by (by apply sending_open). by destruct (in_state c TCP_CLOSE_WAIT).
  - apply Hsame; try done. cbn. by rewrite H.
Qed.
(** * Both sides and the network *)

#[local] Arguments wrote : simpl never.
#[local] Arguments got : simpl never.
#[local] Arguments read : simpl never.

(** A segment in the network is a piece of the stream at its position; a FIN
    stands at the end of a stream nobody writes to any more. *)
Definition in_stream (out : tcp_connection) (W : list Z) (s : segment) : Prop :=
  (sg_syn s = true -> sg_seq s = iss) /\
  (sg_payload s <> [] \/ sg_fin s = true -> exists off, sg_seq s = u32 (iss + 1 + Z.of_nat off) /\
    (off + length (sg_payload s) <= length W)%nat /\ sg_payload s = take (length (sg_payload s)) (drop off W) /\
    (sg_fin s = true -> sg_payload s = [] /\ off = length W /\ finished (tc_state out) = true)).

Definition ack_of (inn : tcp_connection) (R : list Z) (ack : Z) : Prop :=
  exists n f, ack = u32 (iss + 1 + Z.of_nat n + b2z f) /\ (n <= length R)%nat /\ (f = true -> tc_peer_fin inn = true).

Record link_inv (e : exchange) (A : nat) : Prop := {
  li_out : sends (ex_out e) (wrote (ex_sent e)) A;
  li_net : Forall (in_stream (ex_out e) (wrote (ex_sent e))) (ex_net e);
  li_in : takes (ex_in e) (ex_taken e);
  li_prefix : got (ex_taken e) `prefix_of` wrote (ex_sent e);
  li_fin : tc_peer_fin (ex_in e) = true -> got (ex_taken e) = wrote (ex_sent e) /\ finished (tc_state (ex_out e)) = true;
  li_acks : Forall (ack_of (ex_in e) (got (ex_taken e))) (ex_acks e);
  li_acked : (A <= length (got (ex_taken e)))%nat
}.

Lemma u32_pos a b : u32 (iss + 1 + a) = u32 (iss + 1 + b) -> 0 <= a < 4294967296 -> 0 <= b < 4294967296 -> a = b.
Proof. unfold u32. intros H Ha Hb. Z.div_mod_to_equations. lia. Qed.

Lemma emitted_in_stream x c W A : sends c W A -> due x c -> in_stream c W (segment_of x c).
Proof.
  intros [Hwf _ [HA Htx] Hseq _ Hiss] Hz. destruct x; [|by split; [|intros [Hne|Hne]]].
  split; [exact Hiss|]. intros Hne. cbn in *. assert (Hk := fw_flags _ (tw_flight _ Hwf)).
  destruct (fw_some _ (tw_flight _ Hwf) Hz) as [_ Hsf]. destruct (fw_len _ (tw_flight _ Hwf)) as [Hl0 Hl]. destruct (tw_tx _ Hwf) as [_ Hlen].
  assert (Hset : settled (tc_state c) = false).
  { assert (Hi := tw_idle _ Hwf). destruct (tc_state c); try done; destruct Hz; auto. }
  assert (Hns : flag (tc_flight_flags c) RTE_TCP_SYN_FLAG = false).
  { destruct Hne as [Hne|Hne]; cbn in Hk; repeat destruct Hk as [Hk|Hk]; try done; rewrite <- Hk in *; try done; destruct Hne; by rewrite Hsf. }
  specialize (Hseq Hset). rewrite Hns in Hseq. cbn [b2z] in Hseq. rewrite Z.add_0_r, u32_small in Hseq by apply (tw_seq _ Hwf).
  exists A. rewrite length_take, Htx, length_drop in *. split; [done|]. split; [lia|]. split; [f_equal; lia|].
  intros Hf. assert (Hst := tw_fin _ Hwf Hf). assert (H0 : tc_tx_len c = 0) by (apply (tw_empty _ Hwf); by destruct Hst as [->| ->]).
  split; [replace (tc_flight_len c) with 0 by lia; done|]. split; [lia|]. by destruct Hst as [->| ->].
Qed.

(** The network keeps the segments of a growing stream. *)
Lemma in_stream_step c c' W W' s : (finished (tc_state c) = true -> W' = [] /\ finished (tc_state c') = true) ->
  in_stream c W s -> in_stream c' (W ++ W') s.
Proof.
  intros Hf [Hy Hs]. split; [done|]. intros Hne. destruct (Hs Hne) as (off & Hq & Hl & Hp & Hfin). exists off. split; [done|]. rewrite length_app. split; [lia|].
  split; [rewrite drop_app_le by lia; rewrite take_app_le by (rewrite length_drop; lia); done|].
  intros He. destruct (Hfin He) as (H1 & -> & H2). destruct (Hf H2) as [-> H3]. cbn. by rewrite Nat.add_0_r.
Qed.

Lemma link_sender e A ls out : link_inv e A -> Z.of_nat (length (wrote (ex_sent e ++ ls))) < 4294967295 ->
  conn_step (ex_out e) ls out -> tc_state out <> TCP_CLOSED -> Forall (returned (ex_acks e)) ls ->
  exists A', link_inv (mk_exchange out (ex_sent e ++ ls) (ex_net e) (ex_in e) (ex_taken e) (ex_acks e)) A'.
Proof.
  intros [Ho Hn Hi [rest Hp] Hf Ha Hc] Hbig Hstep Hopen Hret.
  destruct (sender_step _ _ _ _ _ Ho Hstep Hopen) as (A' & Ho' & Hle & Hfin & Hadv). exists A'.
  rewrite wrote_app in *. constructor; cbn; rewrite ?wrote_app; try done.
  - eapply Forall_impl; [exact Hn|]. intros s. by apply in_stream_step.
  - exists (rest ++ wrote ls). by rewrite Hp, app_assoc.
  - intros Hpf. destruct (Hf Hpf) as [Hg Hfi]. destruct (Hfin Hfi) as [-> Hfi']. by rewrite app_nil_r.
  - destruct (Nat.le_gt_cases A' A) as [|Hlt]; [lia|]. destruct (Hadv Hlt) as (ack & Hin & Hack).
    rewrite List.Forall_forall in Hret. specialize (Hret _ Hin). rewrite List.Forall_forall in Ha. destruct (Ha _ Hret) as (n & f & Hn' & Hnl & Hff).
    destruct (sn_tx _ _ _ Ho') as [HA' _]. rewrite Hack, <- (Z.add_assoc (iss + 1)) in Hn'. rewrite Hp in HA', Hbig. rewrite !length_app in *.
    apply u32_pos in Hn'; [|lia|unfold b2z; destruct f; lia]. destruct f; [|cbn in Hn'; lia].
    destruct (Hf (Hff eq_refl)) as [Hg Hfi]. destruct (Hfin Hfi) as [Hw _]. rewrite Hw in HA'. rewrite Hg, Hp, length_app. cbn in HA'. lia.
Qed.

Lemma link_receiver e A ls inn : link_inv e A -> Z.of_nat (length (wrote (ex_sent e))) < 4294967295 ->
  conn_step (ex_in e) ls inn -> tc_state inn <> TCP_CLOSED -> Forall (delivered (ex_net e)) ls ->
  link_inv (mk_exchange (ex_out e) (ex_sent e) (ex_net e) inn (ex_taken e ++ ls) (ex_acks e)) A.
Proof.
  intros [Ho Hn Hi [rest Hp] Hf Ha Hc] Hbig Hstep Hopen Hdel. rewrite List.Forall_forall in Hdel. rewrite List.Forall_forall in Hn.
  assert (Hirs : forall irs, In (Opened irs) ls -> irs = iss).
  { intros irs Hin. destruct (Hdel _ Hin) as (s & Hs & Hy & ->). by apply (Hn s Hs). }
  destruct (receiver_step _ _ _ _ Hi Hstep Hopen Hirs) as [Hi' [Hgot Hfin Hkeep]].
  assert (Hlen := f_equal length Hp). rewrite length_app in Hlen.
  assert (Hpre : exists rest', wrote (ex_sent e) = got (ex_taken e ++ ls) ++ rest').
  { rewrite got_app. destruct (decide (got ls = [])) as [->|Hne]; [rewrite app_nil_r; eauto|]. destruct (Hgot Hne) as (Hls & Hop & Hpf).
    destruct (Hdel (Got (tc_rcv_nxt (ex_in e)) (got ls))) as (s & k & Hs & Hq & Hb); [rewrite Hls at 2; by left|].
    assert (Hpay : sg_payload s <> []) by (intros Hz; rewrite Hz, take_nil in Hb; done).
    destruct (proj2 (Hn _ Hs) (or_introl Hpay)) as (off & Hoff & Hl & Hpiece & _).
    rewrite (tk_seq _ _ Hi Hop), Hpf, Hoff, Z.add_0_r in Hq. apply u32_pos in Hq; [|lia|lia]. apply Nat2Z.inj in Hq. subst off.
    rewrite Hp, drop_app_length in Hpiece. rewrite Hb, Hpiece, take_take. eexists. by rewrite Hp, <- app_assoc, take_drop. }
  assert (Hmore : (length (got (ex_taken e)) <= length (got (ex_taken e ++ ls)))%nat) by (rewrite got_app, length_app; lia).
  constructor; cbn; try done; [by rewrite List.Forall_forall| | |lia].
  - intros Hpf. destruct (Hfin Hpf) as [Hold|(Hls & Hop & Hno)].
    + destruct (Hf Hold) as [Hg Hfi]. split; [|done]. destruct Hpre as [rest' Hpre]. rewrite got_app in *. rewrite Hg in *.
      apply (f_equal length) in Hpre as Hl. rewrite !length_app in Hl. apply (f_equal (@length Z)) in Hpre.
      assert (Hz : got ls = []) by (apply nil_length_inv; lia). by rewrite Hz, app_nil_r.
    + destruct (Hdel (Fin (tc_rcv_nxt (ex_in e)))) as (s & Hs & Hsf & Hq); [rewrite Hls; by left|].
      destruct (proj2 (Hn _ Hs) (or_intror Hsf)) as (off & Hoff & Hl & _ & Hend). destruct (Hend Hsf) as (Hpay & -> & Hfi). split; [|done].
      rewrite Hpay, Hoff, (tk_seq _ _ Hi Hop), Hno, u32_add in Hq. cbn [length b2z Z.of_nat] in Hq. rewrite !Z.add_0_r in Hq.
      apply u32_pos in Hq; [|lia|lia]. rewrite Hls, got_app, app_nil_r, Hp. assert (Hz : rest = []) by (apply nil_length_inv; lia).
      by rewrite Hz, app_nil_r.
  - eapply Forall_impl; [exact Ha|]. intros ack (n & f & Hk & Hnl & Hff). exists n, f. split; [done|]. split; [lia|auto].
Qed.

Lemma exchange_inv e : exchanges e -> Z.of_nat (length (wrote (ex_sent e))) < 4294967295 -> exists A, link_inv e A.
Proof.
  induction 1 as [ls out Hstep Hin|e ls out He IH Hstep Hopen Hret|e x rt i s He IH Hc Hz Hs|e ls inn He IH Hstep Hopen Hdel|e x rt i s He IH Hc Hop Hs]; cbn; intros Hbig.
  - destruct (start_sends _ _ Hstep Hin) as [Hs Hw]. exists 0%nat. constructor; cbn; rewrite ?Hw; try done; apply zero_takes.
  - destruct IH as [A HA]; [rewrite wrote_app, length_app in Hbig; lia|]. by eapply link_sender.
  - destruct (IH Hbig) as [A [Ho Hn Hi Hp Hf Ha Hk]]. exists A. constructor; try done. constructor; [|done].
    apply emits_fields in Hs; [|rewrite Hc; apply (sn_wf _ _ _ Ho)]. rewrite Hs, Hc. by eapply emitted_in_stream.
  - destruct (IH Hbig) as [A HA]. exists A. by apply link_receiver.
  - destruct (IH Hbig) as [A [Ho Hn Hi Hp Hf Ha Hk]]. exists A. constructor; try done. constructor; [|done]. cbn.
    apply emits_fields in Hs; [|rewrite Hc; apply (tk_wf _ _ Hi)]. exists (length (got (ex_taken e))), (tc_peer_fin (ex_in e)).
    split; [|done]. rewrite Hs, Hc. destruct x; by apply tk_seq.
Qed.

(** C4: Reliable in-order delivery.  A connection of the machine is followed from
    its start, as long as neither side is reset and fewer than 2^32 - 1 bytes were
    written.  The segments and acknowledgments in the network are the ones
    [tcp_emit_flight] and [tcp_ack] put into the buffers they hand over, and it may
    lose, repeat and reorder them.  What the receiver's application has read is a
    prefix of what the sender's application has written; the receiver sees the end
    of the stream only after taking every byte; and the sender keeps every byte the
    receiver has not taken. *)
Theorem delivery_is_a_prefix e : exchanges e -> Z.of_nat (length (wrote (ex_sent e))) < 4294967295 ->
  read (ex_taken e) `prefix_of` wrote (ex_sent e) /\
  (tc_peer_fin (ex_in e) = true -> read (ex_taken e) ++ tc_rx (ex_in e) = wrote (ex_sent e)) /\
  exists A, (A <= length (read (ex_taken e) ++ tc_rx (ex_in e)))%nat /\ tc_tx (ex_out e) = drop A (wrote (ex_sent e)).
Proof.
  intros He Hbig. destruct (exchange_inv e He Hbig) as [A [Ho Hn Hi Hp Hf Ha Hc]]. assert (Hr := tk_read _ _ Hi). split; [|split].
  - transitivity (got (ex_taken e)); [|done]. exists (tc_rx (ex_in e)). by rewrite Hr.
  - intros Hpf. rewrite Hr. by apply Hf.
  - exists A. rewrite Hr. split; [done|]. apply (sn_tx _ _ _ Ho).
Qed.
End stream.

(** * A concrete exchange *)

Module Exchange.
#[local] Instance quiet_network : Dpdk := sim (fun _ _ => []).
#[local] Existing Instance Conservation.Sample.ethdev.

Definition booted : app_runtime := (app_init "netstack" Conservation.Sample.conf zero_app_runtime).2.

(** The stack of the host 10.0.0.1, its socket 0 holding the connection to 10.0.0.2. *)
Definition host (c : tcp_connection) : app_runtime :=
  alter_sock 0 (fun s => s |> set_so_local (mk_ps_sockaddr (rd_le32 [10; 0; 0; 1] 0) 4000)
    |> set_so_remote (mk_ps_sockaddr (rd_le32 [10; 0; 0; 2] 0) 80) |> set_so_tcp c) booted.

(** Keep the state of the run in normal form. *)
#[local] Ltac settle H := match type of H with exchanges _ ?e =>
  let e' := eval vm_compute in e in let E := fresh in assert (E : e = e') by (vm_compute; reflexivity); rewrite E in H; clear E end.
#[local] Ltac sender H step labels :=
  let H' := fresh in eassert (H' : exchanges 7 _) by (eapply ex_sender; [exact H|step|done|labels]); clear H; rename H' into H; settle H.
#[local] Ltac receives H step labels :=
  let H' := fresh in eassert (H' : exchanges 7 _) by (eapply ex_receiver; [exact H|step|done|labels]); clear H; rename H' into H; settle H.
(** The segment is the one the output routine hands over. *)
#[local] Ltac observe := match goal with |- In _ ?l => let l' := eval vm_compute in l in
  let E := fresh in assert (E : l = l') by (vm_compute; reflexivity); rewrite E; left; reflexivity end.
#[local] Ltac emits H x := match type of H with exchanges _ ?e =>
  let H' := fresh in eassert (H' : exchanges 7 _) by (eapply (ex_emit 7 e x (host (ex_out e)) 0); [exact H|vm_compute; reflexivity|done|observe]);
  clear H; rename H' into H; settle H end.
#[local] Ltac acks H x := match type of H with exchanges _ ?e =>
  let H' := fresh in eassert (H' : exchanges 7 _) by (eapply (ex_ack 7 e x (host (ex_in e)) 0); [exact H|vm_compute; reflexivity|done|observe]);
  clear H; rename H' into H; settle H end.
#[local] Ltac nothing := by repeat constructor.

(** The client connects with sequence number 7, the server answers its SYN; the
    client writes five bytes, the server takes them, reads three and acknowledges. *)
Lemma handshake_and_data : exists e, exchanges 7 e /\ wrote (ex_sent e) = [1; 2; 3; 4; 5] /\ read (ex_taken e) = [1; 2; 3] /\
  tc_rx (ex_in e) = [4; 5] /\ tc_tx (ex_out e) = [].
Proof.
  eassert (H : exchanges 7 _) by (eapply ex_start; [by apply (cs_connect _ 7 5)|by left]).
  settle H. emits H Flight.
  receives H ltac:(by apply (cs_passive 90 3 7 1000 500 6)) ltac:(constructor; [done|]; constructor; [eexists; split; [by left|done]|constructor]).
  sender H ltac:(by apply (cs_connected _ 90 1000 500)) nothing.
  sender H ltac:(apply (cs_write _ [1; 2; 3; 4; 5]); [done|done|by apply Z.leb_le]) nothing.
  sender H ltac:(apply (cs_flight _ 5 8); [done|done|split; by apply Z.leb_le]) nothing.
  emits H Flight.
  receives H ltac:(by apply (cs_accepted _ 9)) nothing.
  receives H ltac:(eapply (cs_payload _ [1; 2; 3; 4; 5]); [by vm_compute|by vm_compute|done|apply surjective_pairing])
    ltac:(eapply (delivered_one _ _ 5); [by left|by vm_compute|by vm_compute]).
  acks H Ack.
  receives H ltac:(apply (cs_read _ 3); split; [apply Z.ltb_lt|apply Z.leb_le]; by vm_compute) ltac:(apply delivered_read).
  sender H ltac:(eapply (cs_ack _ 13 10); [by vm_compute|by vm_compute|done|by vm_compute|apply surjective_pairing]) ltac:(apply returned_one; left; by vm_compute).
  eexists. split; [exact H|]. by vm_compute.
Qed.

Lemma delivery_is_a_prefix_witness : exists e, exchanges 7 e /\ wrote (ex_sent e) = [1; 2; 3; 4; 5] /\ read (ex_taken e) = [1; 2; 3] /\
  read (ex_taken e) `prefix_of` wrote (ex_sent e).
Proof.
  destruct handshake_and_data as (e & He & Hw & Hr & _). exists e.
  split; [exact He|]. split; [exact Hw|]. split; [exact Hr|].
  apply (delivery_is_a_prefix 7 e He). rewrite Hw. done.
Defined.
End Exchange.
