(* ===== verification/TcpRefine.v ===== *)
(** The TCP code implements the machine of [TcpMachine.v]: every operation of
    [src/tcp.c], [src/tcp_output.c] and [src/tcp_timer.c] moves each connection of
    the socket table along steps of the machine, with the bytes the caller or the
    segment supplied as labels. *)
From S2P Require Import Prelude.
From S2P Require Import Dpdk.
From S2P Require Import Types.
From S2P Require Import PolicyRoute.
From S2P Require Import Graph.
From S2P Require Import Packet.
From S2P Require Import GraphInv.
From S2P Require Import Scheduler.
From S2P Require Import IcmpError.
From S2P Require Import Sockets.
From S2P Require Import Tcp.
From S2P Require Import Ownership.
From S2P Require Import Protocols.
From S2P Require Import SocketFrame.
From S2P Require Import TcpMachine.

(** * Moves of the socket table *)

Section moves.
Context {D : Dpdk}.

(** Slot [i] takes the labelled steps, the others unlabelled ones. *)
Definition moves (i : nat) (ls : list tcp_label) (rt rt' : app_runtime) : Prop :=
  length (ss_entries (rt_sockets rt')) = length (ss_entries (rt_sockets rt)) /\
  forall j, conn_run (conn rt j) (if decide (j = i) then ls else []) (conn rt' j).

Definition table_wf (rt : app_runtime) : Prop := forall j, tcp_wf (conn rt j).
Definition slot_in (rt : app_runtime) (i : nat) : Prop := (i < length (ss_entries (rt_sockets rt)))%nat.

#[export] Instance slot_in_dec rt i : Decision (slot_in rt i).
Proof. unfold slot_in. apply _. Defined.

Lemma moves_same i rt rt' : rt_sockets rt' = rt_sockets rt -> moves i [] rt rt'.
Proof. intros H. unfold moves, conn, sock. rewrite H. split; [done|]. intros j. case_decide; constructor. Qed.

Lemma moves_trans i ls ks rt rt1 rt2 : moves i ls rt rt1 -> moves i ks rt1 rt2 -> moves i (ls ++ ks) rt rt2.
Proof.
  intros [Hl H1] [Hl' H2]. split; [congruence|]. intros j. specialize (H1 j). specialize (H2 j). case_decide; [by eapply run_trans|].
  apply (run_trans _ _ _ _ _ H1 H2).
Qed.

Lemma moves_then i ls rt rt1 rt2 : moves i ls rt rt1 -> moves i [] rt1 rt2 -> moves i ls rt rt2.
Proof. intros H1 H2. rewrite <- (app_nil_r ls). by eapply moves_trans. Qed.

Lemma moves_first i ls rt rt1 rt2 : moves i [] rt rt1 -> moves i ls rt1 rt2 -> moves i ls rt rt2.
Proof. intros H1 H2. by apply (moves_trans i [] ls rt rt1). Qed.

Lemma moves_any i j rt rt' : moves i [] rt rt' -> moves j [] rt rt'.
Proof. intros [Hl H]. split; [done|]. intros k. specialize (H k). by repeat case_decide. Qed.

Lemma moves_wf i ls rt rt' : moves i ls rt rt' -> table_wf rt -> table_wf rt'.
Proof. intros [_ H] Hwf j. by eapply conn_run_wf. Qed.

Lemma moves_slot i ls rt rt' k : moves i ls rt rt' -> slot_in rt k -> slot_in rt' k.
Proof. intros [Hl _] H. unfold slot_in. by rewrite Hl. Qed.

(** ** Reading a changed slot *)

Lemma alter_sock_length i f rt : length (ss_entries (rt_sockets (alter_sock i f rt))) = length (ss_entries (rt_sockets rt)).
Proof. apply length_alter. Qed.

Lemma alter_sock_conn i f rt j : slot_in rt i -> conn (alter_sock i f rt) j = if decide (j = i) then so_tcp (f (sock rt i)) else conn rt j.
Proof.
  intros Hi. unfold conn, sock, alter_sock. cbn. rewrite !nth_lookup. case_decide as Hj.
  - subst j. rewrite list_lookup_alter_eq. by destruct (lookup_lt_is_Some_2 _ _ Hi) as [s ->].
  - by rewrite list_lookup_alter_ne.
Qed.

Lemma alter_tcp_conn i f rt j : slot_in rt i -> conn (alter_tcp i f rt) j = if decide (j = i) then f (conn rt i) else conn rt j.
Proof. intros Hi. unfold alter_tcp. by rewrite alter_sock_conn. Qed.

Lemma alter_sock_out i f rt : ~ slot_in rt i -> ss_entries (rt_sockets (alter_sock i f rt)) = ss_entries (rt_sockets rt).
Proof.
  intros Hi. apply list_eq. intros k. unfold alter_sock. cbn. rewrite list_lookup_alter. case_decide; [|done]. subst k.
  by rewrite (lookup_ge_None_2 (ss_entries (rt_sockets rt)) i) by (unfold slot_in in Hi; lia).
Qed.

(** ** Moves of one slot *)

Lemma alter_moves i f ls rt : slot_in rt i -> conn_run (conn rt i) ls (so_tcp (f (sock rt i))) -> moves i ls rt (alter_sock i f rt).
Proof.
  intros Hi H. split; [apply alter_sock_length|]. intros j. rewrite alter_sock_conn by done. case_decide; [by subst|constructor].
Qed.

Lemma tcp_moves i f ls rt : slot_in rt i -> conn_step (conn rt i) ls (f (conn rt i)) -> moves i ls rt (alter_tcp i f rt).
Proof. intros Hi H. apply alter_moves; [done|]. by apply run_one. Qed.

Lemma alter_tcp_length i f rt : length (ss_entries (rt_sockets (alter_tcp i f rt))) = length (ss_entries (rt_sockets rt)).
Proof. apply alter_sock_length. Qed.

Lemma tcp_moves_twice i f g ls rt : slot_in rt i -> conn_step (conn rt i) ls (g (f (conn rt i))) ->
  moves i ls rt (alter_tcp i g (alter_tcp i f rt)).
Proof.
  intros Hi H. split; [by rewrite !alter_tcp_length|]. intros j.
  rewrite alter_tcp_conn by (unfold slot_in; by rewrite alter_tcp_length). rewrite !alter_tcp_conn by done.
  case_decide; [|constructor]. subst. rewrite decide_True by done. by apply run_one.
Qed.

(** A change that keeps the connections. *)
Definition same_conns (rt rt' : app_runtime) : Prop :=
  length (ss_entries (rt_sockets rt')) = length (ss_entries (rt_sockets rt)) /\ forall j, conn rt' j = conn rt j.

#[export] Instance same_conns_preorder : PreOrder same_conns.
Proof. split; [done|]. intros a b c [H1 H2] [H3 H4]. split; [congruence|]. intros j. by rewrite H4. Qed.

Lemma same_moves i rt rt' : same_conns rt rt' -> moves i [] rt rt'.
Proof. intros [Hl H]. split; [done|]. intros j. rewrite H. case_decide; constructor. Qed.

Lemma same_slot rt rt' i : same_conns rt rt' -> slot_in rt i -> slot_in rt' i.
Proof. intros [Hl _]. unfold slot_in. by rewrite Hl. Qed.

Lemma alter_keeps i f rt : (forall s, so_tcp (f s) = so_tcp s) -> same_conns rt (alter_sock i f rt).
Proof.
  intros Hf. split; [apply alter_sock_length|]. intros j. destruct (decide (slot_in rt i)) as [Hi|Hi].
  - rewrite alter_sock_conn by done. case_decide; [by subst; rewrite Hf|done].
  - unfold conn, sock. by rewrite alter_sock_out.
Qed.

Lemma alter_resets i f rt : (forall s, so_tcp (f s) = zero_tcp_connection) -> moves i [] rt (alter_sock i f rt).
Proof.
  intros Hf. destruct (decide (slot_in rt i)) as [Hi|Hi].
  - apply alter_moves; [done|]. rewrite Hf. apply run_one, cs_reset.
  - split; [apply alter_sock_length|]. intros j. unfold conn, sock. rewrite alter_sock_out by done. case_decide; constructor.
Qed.
End moves.

(** * Output keeps the table *)

Lemma tcp_stats_sockets f rt : rt_sockets (alter_tcp_stats f rt) = rt_sockets rt.
Proof. done. Qed.

Lemma cancel_queued_sockets s rt : rt_sockets (cancel_queued s rt) = rt_sockets rt.
Proof.
  apply foldl_sockets. intros rt' i. unfold cancel_pending. cbn [rt_sockets set_rt_pending_neighbours]. rewrite foldl_sockets; [done|].
  intros rt'' p. by destruct (queued_for s p).
Qed.

Section output.
Context {D : Dpdk} {DL : DpdkLaws} {submit : node_id -> node_frame -> app_runtime -> app_runtime}
  {allowed : node_id -> Prop} {own : list Z -> app_runtime -> Prop} {OW : Ownership submit allowed own}
  {KS : OutputKeepsSockets submit own} (Hip : allowed NODE_IPV4_OUTPUT).

Lemma send_ipv4_sockets L m ctx rt : own (mb_id m :: L) rt -> rt_sockets (send_ipv4 submit m ctx rt).2 = rt_sockets rt.
Proof.
  intros H. assert (Hs := send_sockets L NODE_IPV4_OUTPUT [(m, ctx)] rt). unfold send_ipv4, send in *.
  destruct (rt_active_output rt); apply Hs; try exact H; cbn; unfold NEIGHBOUR_PENDING_QUEUE_MAX; lia.
Qed.

Lemma tcp_emit_sockets L local remote seq ack flags window data rt : own L rt ->
  rt_sockets (tcp_emit submit local remote seq ack flags window data rt).2 = rt_sockets rt.
Proof.
  intros H. unfold tcp_emit. cbv zeta. destruct (ipv4_route_query _ _ _ _ _) as [reason route]. destruct (negb _); [done|]. destruct (_ <? _); [done|].
  destruct (mbuf_alloc rt) as [m rt1] eqn:E. assert (E' := own_alloc_eq _ _ _ _ H E). unfold mbuf_alloc in E. injection E as Em E1.
  destruct m as [m|]; [|by rewrite <- E1]. destruct (rte_pktmbuf_append m _) as [m'|] eqn:Ea; [|by rewrite <- E1].
  apply append_id in Ea. match goal with |- context[send_ipv4 submit ?x ?c rt1] => assert (Hs := send_ipv4_sockets L x c rt1) end.
  rewrite put_bytes_id, Ea in Hs. specialize (Hs E'). destruct (send_ipv4 _ _ _ _) as [rc rt2]. cbn [snd] in Hs.
  destruct (truth rc); cbn; rewrite Hs, <- E1; done.
Qed.

Lemma tcp_emit_flight_sockets L i rt : own L rt -> rt_sockets (tcp_emit_flight submit i rt) = rt_sockets rt.
Proof. apply tcp_emit_sockets. Qed.
Lemma tcp_ack_sockets L i rt : own L rt -> rt_sockets (tcp_ack submit i rt) = rt_sockets rt.
Proof. apply tcp_emit_sockets. Qed.
Lemma reset_reply_sockets L local remote seq ack flags length rt : own L rt ->
  rt_sockets (reset_reply submit local remote seq ack flags length rt) = rt_sockets rt.
Proof. intros H. unfold reset_reply. destruct (flag _ _); [done|]. cbv zeta. cbn. by eapply tcp_emit_sockets. Qed.

(** * The operations *)

(** The code's next branch. *)
Ltac branch E := match goal with |- moves _ _ _ (if ?b then _ else _) => destruct b eqn:E end.

Lemma tcp_fail_moves i k error rt : moves i [] rt (tcp_fail k error rt).
Proof.
  unfold tcp_fail. cbv zeta. set (rt1 := if negb _ then _ else rt).
  assert (H1 : moves k [] rt rt1) by (apply moves_same; unfold rt1; destruct (negb _); [unfold stat_closed; by rewrite tcp_stats_sockets, cancel_queued_sockets|done]).
  apply (moves_any k). eapply moves_then; [exact H1|]. clearbody rt1. destruct (negb _); by apply alter_resets.
Qed.

Lemma tcp_kick_moves L i k now rt : table_wf rt -> own L rt -> slot_in rt k -> moves i [] rt (tcp_kick submit k now rt).
Proof.
  intros Hwf Hown Hk. unfold tcp_kick. cbv zeta. fold (conn rt k). set (c := conn rt k). apply (moves_any k).
  assert (Hc := Hwf k). fold c in Hc.
  branch E0; [by apply moves_same|]. apply orb_false_iff in E0 as [Hfl Hst]. apply truth_false in Hfl.
  assert (Hsend : sending (tc_state c) = true).
  { unfold in_state in Hst. clear -Hst. repeat case_bool_decide; try done; by destruct (tc_state c). }
  destruct (sending_open _ Hsend) as (Hsync & Hncl & _).
  clear Hst. branch E1.
  { branch E2; [|by apply moves_same]. apply tcp_moves; [done|]. by apply cs_timer. }
  branch Et.
  - destruct (ipv4_route_query _ _ _ _ _) as [reason route]. branch Er; [apply tcp_fail_moves|].
    apply orb_false_iff in Er as [_ Hmtu]. apply Z.leb_gt in Hmtu. set (len := Z.min _ _).
    eapply moves_then; [|apply moves_same; eapply (tcp_emit_flight_sockets L), own_quiet; [|exact Hown]; auto with quiet].
    apply tcp_moves; [done|]. fold c. apply cs_flight; [done|done|]. destruct (tw_tx _ Hc) as [Htx _]. destruct (tw_limits _ Hc) as [Hw Hm].
    unfold len, is_u16 in *. lia.
  - destruct (tc_closing c); [|by apply moves_same]. apply truth_false in Et.
    eapply moves_then; [|apply moves_same; eapply (tcp_emit_flight_sockets L), own_quiet; [|exact Hown]; auto with quiet].
    apply tcp_moves_twice; [done|]. by apply cs_fin_flight.
Qed.

Lemma kick_after L i ls rt rt1 now : table_wf rt -> slot_in rt i -> moves i ls rt rt1 -> own L rt1 -> moves i ls rt (tcp_kick submit i now rt1).
Proof.
  intros Hwf Hi Hm Hown. eapply moves_then; [exact Hm|]. eapply tcp_kick_moves; [by eapply moves_wf|exact Hown|by eapply moves_slot].
Qed.

Lemma sending_states c : negb (in_state c TCP_ESTABLISHED) && negb (in_state c TCP_CLOSE_WAIT) = false -> sending (tc_state c) = true.
Proof. unfold in_state. intros H. repeat case_bool_decide; try done; by destruct (tc_state c). Qed.

(** What [tcp_send] accepts is appended to the stream. *)
Lemma tcp_send_moves L i data rt : table_wf rt -> own L rt -> slot_in rt i ->
  let '(rc, rt') := tcp_send submit i data rt in
  exists ls, moves i ls rt rt' /\ (ls = [] \/ exists n, ls = [Wrote (take n data)]) /\
    (so_error (sock rt' i) = 0 -> ls = if 0 <? rc then [Wrote (take (Z.to_nat rc) data)] else []) /\
    (so_error (sock rt' i) <> 0 -> rc = - so_error (sock rt' i)).
Proof.
  intros Hwf Hown Hi. unfold tcp_send. cbv zeta. fold (conn rt i). set (c := conn rt i).
  assert (Hnone : forall rc, (so_error (sock rt i) = 0 -> rc <= 0) -> (so_error (sock rt i) <> 0 -> rc = - so_error (sock rt i)) ->
    exists ls, moves i ls rt rt /\ (ls = [] \/ exists n, ls = [Wrote (take n data)]) /\
    (so_error (sock rt i) = 0 -> ls = if 0 <? rc then [Wrote (take (Z.to_nat rc) data)] else []) /\ (so_error (sock rt i) <> 0 -> rc = - so_error (sock rt i))).
  { intros rc Hrc He'. exists []. split; [by apply moves_same|]. split; [by left|]. split; [|done]. intros He. destruct (Z.ltb_spec 0 rc); [|done]. specialize (Hrc He). lia. }
  destruct (truth (so_error (sock rt i))) eqn:Ee; [apply Hnone; [intros He; by rewrite He in Ee|done]|]. apply truth_false in Ee.
  destruct (_ && _) eqn:Es; [by apply Hnone|]. apply sending_states in Es.
  destruct (negb (truth (Z.of_nat _))) eqn:El; [by apply Hnone|]. set (accepted := Z.min _ _).
  destruct (negb (truth accepted)) eqn:Ea; [by apply Hnone|]. apply negb_false_iff, truth_true in Ea.
  destruct (tw_tx _ (Hwf i)) as [Htx Htl]. fold c in Htx, Htl. assert (Hacc : 0 < accepted <= TCP_BUFFER_SIZE - tc_tx_len c /\ accepted <= Z.of_nat (length data)) by lia.
  clearbody accepted. set (rt1 := alter_tcp i _ rt). assert (Hm : moves i [Wrote (take (Z.to_nat accepted) data)] rt rt1).
  { apply tcp_moves; [done|]. fold c. assert (Hlen : Z.of_nat (length (take (Z.to_nat accepted) data)) = accepted) by (rewrite length_take; lia).
    revert Hlen Hacc. generalize (take (Z.to_nat accepted) data) as bytes. intros bytes <- Hacc.
    apply cs_write; [done|intros ->; cbn in Hacc; lia|lia]. }
  assert (Hown1 : own L rt1) by (unfold rt1; own_quietly). clearbody rt1.
  destruct (timer_cycles rt1) as [now rt2] eqn:E. assert (Hk : moves i [Wrote (take (Z.to_nat accepted) data)] rt (tcp_kick submit i now rt2)).
  { assert (E2 : rt2 = (timer_cycles rt1).2) by (by rewrite E). rewrite E2.
    eapply (kick_after L); [done|done|eapply moves_then; [exact Hm|by apply moves_same]|own_quietly]. }
  eexists. split; [exact Hk|]. split; [by right; eexists|]. split.
  - intros He. rewrite He. change (truth 0) with false. cbv iota. destruct (Z.ltb_spec 0 accepted); [done|lia].
  - intros He%truth_true. by rewrite He.
Qed.

(** What [tcp_recv] hands out leaves the receive buffer in order. *)
Lemma tcp_recv_moves L i length rt : table_wf rt -> own L rt -> slot_in rt i -> 0 <= length ->
  let '(rc, bytes, rt') := tcp_recv submit i length rt in
  moves i (if Nat.eqb (List.length bytes) 0 then [] else [Read bytes]) rt rt' /\
  (bytes = [] /\ (rc = 0 -> length = 0 \/ tc_rx (conn rt i) = [] /\ tc_peer_fin (conn rt i) = true) \/
   bytes <> [] /\ rc = Z.of_nat (List.length bytes) /\ rc <= length).
Proof.
  intros Hwf Hown Hi Hlen. unfold tcp_recv. cbv zeta. fold (conn rt i). set (c := conn rt i).
  destruct (negb (truth length)) eqn:El.
  { apply negb_true_iff, truth_false in El. split; [by apply moves_same|]. left. auto. }
  apply negb_false_iff, truth_true in El. destruct (tw_rx _ (Hwf i)) as [Hb Hl]. fold c in Hb, Hl.
  destruct (negb (truth (tc_rx_len c))) eqn:Er.
  { apply negb_true_iff, truth_false in Er. assert (Hrx : tc_rx c = []) by (apply nil_length_inv; lia).
    destruct (truth (so_error _)) eqn:Ee; [|destruct (tc_peer_fin c) eqn:Ef]; (split; [by apply moves_same|]); left; (split; [done|]); [apply truth_true in Ee; lia|auto|by destruct (in_state c _)]. }
  apply negb_false_iff, truth_true in Er. set (n := Z.min _ _).
  assert (Hn : 0 < n <= tc_rx_len c /\ n <= length) by lia.
  assert (Ht : List.length (take (Z.to_nat n) (tc_rx c)) = Z.to_nat n) by (rewrite length_take; lia).
  rewrite Ht. destruct (Nat.eqb_spec (Z.to_nat n) 0) as [|_]; [lia|].
  split; [|right; split; [intros H0; rewrite H0 in Ht; cbn in Ht; lia|lia]].
  eapply moves_then; [|apply moves_same; eapply (tcp_ack_sockets L), own_quiet; [|exact Hown]; auto with quiet].
  apply tcp_moves; [done|]. apply cs_read, Hn.
Qed.

(** [tcp_listen], [tcp_accept], [tcp_close] and the timers move no bytes. *)
Lemma tcp_listen_moves i backlog rt : slot_in rt i -> moves i [] rt (tcp_listen i backlog rt).2.
Proof.
  intros Hi. unfold tcp_listen. cbv zeta. fold (conn rt i). destruct (_ || _); [by apply moves_same|].
  destruct (_ && _) eqn:E; [by apply moves_same|]. apply tcp_moves; [done|]. apply cs_listen. unfold in_state in E.
  repeat case_bool_decide; auto; done.
Qed.

Lemma open_slot_in rt i p : find_index p (open_slots rt) = Some i -> slot_in rt i /\ p (sock rt i) = true.
Proof.
  intros H. apply find_index_Some in H as [(s & Hs & Hp) _]. unfold open_slots in Hs. apply lookup_take_Some in Hs as [Hs _].
  split; [by eapply lookup_lt_Some|]. unfold sock. by rewrite nth_lookup, Hs.
Qed.

Lemma allocated_slot_in rt i : so_allocated (sock rt i) = true -> slot_in rt i.
Proof.
  unfold sock. rewrite nth_lookup. intros H. destruct (ss_entries (rt_sockets rt) !! i) as [s|] eqn:E; [by eapply lookup_lt_Some|done].
Qed.

Lemma tcp_accept_moves i rt : moves i [] rt (tcp_accept i rt).2.
Proof.
  unfold tcp_accept. cbv zeta. destruct (negb _); [by apply moves_same|]. destruct (find_index _ _) as [k|] eqn:E; [|by apply moves_same].
  apply open_slot_in in E as [Hk E]. cbn [snd]. apply (moves_any k). eapply moves_first; [by apply same_moves, (alter_keeps k (set_so_open true))|].
  assert (Hst : in_state (conn rt k) TCP_ESTABLISHED || in_state (conn rt k) TCP_CLOSE_WAIT = true) by (by apply andb_true_iff in E as [_ E]).
  apply tcp_moves; [unfold slot_in; by rewrite alter_sock_length|]. apply cs_adopt. rewrite alter_sock_conn, decide_True by done. cbn.
  unfold in_state in Hst. unfold conn in Hst. by destruct (tc_state (so_tcp (sock rt k))).
Qed.

Lemma abort_child_moves L fd i rt k : own L rt -> moves i [] rt (abort_child submit fd rt k).
Proof.
  intros Hown. unfold abort_child. cbv zeta. branch E; [by apply moves_same|].
  eapply moves_then; [apply tcp_fail_moves|]. apply moves_same. eapply (tcp_emit_sockets L). by apply tcp_fail_own.
Qed.

Lemma foldl_moves {A} L i (f : app_runtime -> A -> app_runtime) l rt :
  (forall rt x, x ∈ l -> table_wf rt -> own L rt -> moves i [] rt (f rt x) /\ own L (f rt x)) ->
  table_wf rt -> own L rt -> moves i [] rt (foldl f rt l).
Proof.
  intros Hf. revert rt. induction l as [|x l IH]; intros rt Hwf Hown; [by apply moves_same|]. cbn [foldl].
  destruct (Hf rt x) as [Hm Hown']; [by left|done|done|]. eapply moves_then; [exact Hm|]. apply IH; [|by eapply moves_wf|done].
  intros rt' y Hy. apply Hf. by right.
Qed.

Lemma tcp_close_moves L i now rt : table_wf rt -> own L rt -> slot_in rt i -> moves i [] rt (tcp_close submit i now rt).
Proof.
  intros Hwf Hown Hi. unfold tcp_close. cbv zeta. set (rt1 := alter_sock i (set_so_open false) rt).
  assert (Hm : moves i [] rt rt1) by (by apply same_moves, alter_keeps). assert (Hown1 : own L rt1) by (unfold rt1; own_quietly).
  eapply moves_first; [exact Hm|]. assert (Hwf1 := moves_wf _ _ _ _ Hm Hwf). assert (Hi1 := moves_slot _ _ _ _ i Hm Hi). clearbody rt1. clear Hm.
  fold (conn rt1 i). branch E0; [|branch E1].
  - eapply moves_then; [|by apply alter_resets]. apply (foldl_moves L); [|done|done].
    intros rt' k _ _ H'. split; [by eapply abort_child_moves|]. unfold abort_child. cbv zeta. destruct (_ || _ || _); [done|].
    apply tcp_emit_own; [done|]. by apply tcp_fail_own.
  - apply tcp_fail_moves.
  - eapply (kick_after L); [done|done| |own_quietly]. apply tcp_moves; [done|]. apply cs_close. clear -E0 E1.
    unfold in_state in *. destruct (tc_state (conn rt1 i)); try done; by repeat case_bool_decide.
Qed.

Lemma tick_socket_moves L now i rt k : table_wf rt -> own L rt -> moves i [] rt (tick_socket submit now rt k).
Proof.
  intros Hwf Hown. unfold tick_socket. cbv zeta. fold (conn rt k). set (c := conn rt k). apply (moves_any k).
  branch E0; [by apply moves_same|]. assert (Hk : slot_in rt k) by (apply allocated_slot_in; by destruct (so_allocated _)).
  branch E1.
  { eapply moves_first; [|apply tcp_fail_moves]. apply moves_same. by destruct (in_state c TCP_TIME_WAIT). }
  branch E2; [by apply moves_same|]. apply orb_false_iff in E2 as [Hd _]. apply negb_false_iff, truth_true in Hd.
  assert (Hcl : tc_state c <> TCP_CLOSED) by (intros Hc; apply (tw_closed _ (Hwf k)) in Hc; fold c in Hc; by rewrite Hc in Hd).
  branch E3; [eapply moves_first; [|apply tcp_fail_moves]; by apply moves_same|].
  assert (Hagain : forall rt', rt_sockets rt' = rt_sockets rt -> forall f, (forall c, exists a b d, f c = (c |> set_tc_rto a |> set_tc_deadline b |> set_tc_retries d)) ->
    moves k [] rt (alter_tcp k f rt')).
  { intros rt' Hs f Hf. eapply moves_first; [by apply moves_same|]. apply tcp_moves; [unfold slot_in; by rewrite Hs|].
    destruct (Hf (conn rt' k)) as (a & b & d & ->). apply cs_timer. unfold conn, sock. by rewrite Hs. }
  branch E4; [|branch E5]; (apply Hagain; [|intros c'; by eexists _, _, _]).
  - cbn. by eapply tcp_emit_flight_sockets.
  - by eapply tcp_emit_sockets.
  - done.
Qed.

Lemma tcp_timer_moves L now i rt : table_wf rt -> own L rt -> moves i [] rt (tcp_timer_progress submit now rt).
Proof.
  intros Hwf Hown. unfold tcp_timer_progress. branch E; [by apply moves_same|]. unfold tcp_tick.
  set (rt1 := set_rt_tcp_timer_next _ rt). eapply moves_first; [apply (moves_same _ _ rt1); done|]. apply (foldl_moves L); [|done|unfold rt1; own_quietly].
  intros rt' k _ Hwf' Hown'. split; [by eapply tick_socket_moves|]. by apply tick_socket_own.
Qed.

(** * Opening *)

Lemma lxor_u32 a b : is_u32 a -> is_u32 b -> is_u32 (Z.lxor a b).
Proof.
  intros Ha Hb. assert (E : Z.lxor a b = Z.land (Z.lxor a b) (Z.ones 32)).
  { apply Z.bits_inj'. intros n Hn. rewrite Z.land_spec, Z.lxor_spec. destruct (Z.lt_ge_cases n 32) as [Hl|Hl].
    - rewrite Z.ones_spec_low by lia. by rewrite andb_true_r.
    - rewrite Z.ones_spec_high by lia. unfold is_u32 in *.
      rewrite <- (Z.mod_small a (2 ^ 32)), <- (Z.mod_small b (2 ^ 32)) by lia. by rewrite !Z.mod_pow2_bits_high by lia. }
  rewrite E, Z.land_ones by lia. unfold is_u32. apply (Z.mod_pos_bound _ (2 ^ 32)). lia.
Qed.

(** What [initialize] followed by two changes of the slot leaves there. *)
Lemma initialize_conn i now rt : slot_in rt i -> exists iss, is_u32 iss /\
  length (ss_entries (rt_sockets (initialize i now rt))) = length (ss_entries (rt_sockets rt)) /\
  forall j, conn (initialize i now rt) j = if decide (j = i) then fresh_conn iss (conn rt i) else conn rt j.
Proof.
  intros Hi. unfold initialize, rte_rand. cbv zeta. eexists. split; [|split; [by rewrite alter_tcp_length|]].
  - apply lxor_u32; apply u32_range.
  - intros j. by rewrite alter_tcp_conn by done.
Qed.

Lemma opening_moves i now f g rt ls : slot_in rt i ->
  (forall iss, is_u32 iss -> conn_step (conn rt i) (ls iss) (g (f (fresh_conn iss (conn rt i))))) ->
  exists iss, moves i (ls iss) rt (rt |> initialize i now |> alter_tcp i f |> alter_tcp i g).
Proof.
  intros Hi Hstep. destruct (initialize_conn i now rt Hi) as (iss & Hiss & Hlen & Hconn). exists iss.
  set (rt1 := initialize i now rt) in *. assert (Hi1 : slot_in rt1 i) by (unfold slot_in; by rewrite Hlen). clearbody rt1.
  split; [by rewrite !alter_tcp_length|]. intros j. rewrite alter_tcp_conn by (unfold slot_in; by rewrite alter_tcp_length).
  rewrite !alter_tcp_conn, !Hconn by done. rewrite !(decide_True (P := i = i)) by done. case_decide; [|constructor]. subst. apply run_one. auto.
Qed.

Lemma ephemeral_same tries k ip rt : same_conns rt (ephemeral_port tries k ip rt).2.
Proof.
  revert rt. induction tries as [|tries IH]; intros rt; [reflexivity|]. unfold ephemeral_port; fold ephemeral_port.
  unfold next_ephemeral. cbv zeta. set (rt1 := set_rt_sockets _ rt). assert (H1 : same_conns rt rt1) by done.
  destruct (port_available rt1 _ _); [exact H1|]. etransitivity; [exact H1|apply IH].
Qed.

Lemma socket_bind_same k addr rt : same_conns rt (socket_bind k addr rt).2.
Proof.
  unfold socket_bind. cbv zeta. destruct (truth _); [reflexivity|]. destruct (_ && _); [reflexivity|]. destruct (negb _).
  - assert (He := ephemeral_same EPHEMERAL_TRIES k (sa_ip_be addr) rt).
    destruct (ephemeral_port _ _ _ _) as [[port|] rt1]; [|done]. cbn [snd] in *. destruct (negb _); [done|]. cbn [snd].
    etransitivity; [exact He|]. by apply alter_keeps.
  - destruct (negb _); [reflexivity|]. by apply alter_keeps.
Qed.

Lemma tcp_connect_moves L i addr rt : table_wf rt -> own L rt -> slot_in rt i ->
  exists ls, moves i ls rt (tcp_connect submit i addr rt).2 /\ (ls = [] \/ exists iss, ls = [Started iss] /\ (tcp_connect submit i addr rt).1 = - EINPROGRESS).
Proof.
  intros Hwf Hown Hi. unfold tcp_connect. cbv zeta. fold (conn rt i).
  assert (Hnone : forall rc, exists ls, moves i ls rt rt /\ (ls = [] \/ exists iss, ls = [Started iss] /\ rc = - EINPROGRESS)) by (intros rc; exists []; split; [by apply moves_same|by left]).
  destruct (truth (so_error _)); [apply Hnone|]. destruct (_ || _); [apply Hnone|]. destruct (negb (in_state (conn rt i) TCP_CLOSED)) eqn:Est; [apply Hnone|].
  destruct (ipv4_route_query _ _ _ _ _) as [reason route]. destruct (_ || _); [apply Hnone|].
  match goal with |- context[let '(_, _) := ?x in _] => set (bound := x) end.
  assert (Hb : same_conns rt bound.2 /\ own L bound.2).
  { unfold bound. destruct (truth (sa_port _)); [done|]. split; [apply socket_bind_same|own_quietly]. }
  destruct bound as [rc rt1]. cbn [snd] in Hb. destruct Hb as [Hs1 Hown1]. destruct (truth rc); [exists []; split; [by apply same_moves|by left]|].
  set (rt2 := alter_sock i (set_so_remote addr) _).
  assert (Hs2 : same_conns rt rt2).
  { etransitivity; [exact Hs1|]. etransitivity; [|by apply alter_keeps]. apply alter_keeps. intros s. by destruct (truth _). }
  assert (Hown2 : own L rt2) by (unfold rt2; own_quietly). clearbody rt2. unfold timer_cycles. cbv zeta. set (now := u64 _).
  set (rt3 := record_event _ rt2). assert (Hs3 : same_conns rt rt3) by exact Hs2. assert (Hown3 : own L rt3) by (change rt3 with (timer_cycles rt2).2; own_quietly). clearbody rt3 now.
  assert (Hcl : conn rt3 i = zero_tcp_connection).
  { destruct Hs3 as [_ ->]. apply (tw_closed _ (Hwf i)). unfold in_state in Est. by case_bool_decide. }
  destruct (opening_moves i now (set_tc_state TCP_SYN_SENT) (start_flight RTE_TCP_SYN_FLAG 0 now) rt3 (fun iss => [Started iss])) as [iss Hm].
  { by eapply same_slot. }
  { intros iss Hiss. apply cs_connect; [by rewrite Hcl|done]. }
  exists [Started iss]. split; [|by right; exists iss]. cbn [snd]. eapply moves_then; [|apply moves_same; eapply (tcp_emit_flight_sockets L), own_quiet; [|exact Hown3]; auto with quiet].
  eapply moves_first; [by apply same_moves|exact Hm].
Qed.

(** * Segment arrival *)

(** The labels a segment may cause. *)
Definition of_segment (seq ack : Z) (payload : list Z) (fin : bool) (l : tcp_label) : Prop :=
  match l with
  | Started _ => True
  | Opened irs => irs = seq
  | Got s bytes => s = seq /\ bytes `prefix_of` payload
  | Fin s => fin = true /\ s = u32 (seq + Z.of_nat (length payload))
  | Acked a => a = ack
  | Wrote _ | Read _ => False
  end.

Lemma passive_open_moves L listen local remote seq window mss now rt : own L rt -> is_u32 seq -> is_u16 window -> is_u16 mss ->
  exists i ls, moves i ls rt (passive_open submit listen local remote seq window mss now rt).2 /\
    (ls = [] \/ exists iss, ls = [Started iss; Opened seq]).
Proof.
  intros Hown Hs Hw Hmss. unfold passive_open. cbv zeta. assert (Hnone : exists i ls, moves i ls rt rt /\ (ls = [] \/ exists iss, ls = [Started iss; Opened seq])).
  { exists O, []. split; [by apply moves_same|by left]. }
  destruct (_ <=? _); [done|]. assert (Hq := quiet_allocate rt rt PS_SOCK_STREAM ltac:(reflexivity)). unfold socket_allocate in *. cbv zeta in *.
  destruct (find_index _ _) as [i|] eqn:Ei; [|done]. apply open_slot_in in Ei as [Hi _]. cbn [snd] in *. exists i.
  set (rt0 := set_rt_sockets _ rt) in *. assert (H0 : same_conns rt rt0) by done. assert (Hi0 : slot_in rt0 i) by exact Hi. clearbody rt0.
  set (rt1 := alter_sock i _ rt0) in *. assert (Hc1 : moves i [] rt rt1 /\ conn rt1 i = zero_tcp_connection).
  { split; [eapply moves_first; [by apply same_moves|by apply alter_resets]|]. unfold rt1. by rewrite alter_sock_conn, decide_True. }
  assert (Hi1 : slot_in rt1 i) by (unfold slot_in, rt1; by rewrite alter_sock_length).
  assert (Hown1 : own L rt1) by (by eapply own_quiet). clearbody rt1. destruct Hc1 as [Hm1 Hc1].
  set (rt2 := alter_sock i _ rt1). assert (H2 : same_conns rt1 rt2) by (by apply alter_keeps).
  assert (Hown2 : own L rt2) by (unfold rt2; own_quietly). clearbody rt2.
  set (f := fun c : tcp_connection => _). destruct (opening_moves i now f (start_flight SYN_ACK 0 now) rt2 (fun iss => [Started iss; Opened seq])) as [iss Hm].
  { by eapply same_slot. }
  { intros iss Hiss. destruct H2 as [_ H2]. rewrite H2, Hc1. by apply cs_passive. }
  exists [Started iss; Opened seq]. split; [|by right; exists iss]. cbn. eapply moves_first; [exact Hm1|]. eapply moves_first; [by apply same_moves|].
  eapply moves_then; [exact Hm|]. apply moves_same. unfold stat_syns. rewrite tcp_stats_sockets. eapply (tcp_emit_flight_sockets L), own_quiet; [|exact Hown2]; auto with quiet.
Qed.

Lemma tcp_fail_conn i error rt : slot_in rt i ->
  length (ss_entries (rt_sockets (tcp_fail i error rt))) = length (ss_entries (rt_sockets rt)) /\
  forall j, conn (tcp_fail i error rt) j = if decide (j = i) then zero_tcp_connection else conn rt j.
Proof.
  intros Hi. split; [apply (tcp_fail_moves i i error rt)|]. intros j. unfold tcp_fail. cbv zeta. set (rt1 := if negb _ then _ else rt).
  assert (H1 : rt_sockets rt1 = rt_sockets rt).
  { unfold rt1. destruct (negb _); [|done]. unfold stat_closed. by rewrite tcp_stats_sockets, cancel_queued_sockets. }
  clearbody rt1. assert (Hi1 : slot_in rt1 i) by (unfold slot_in; by rewrite H1). assert (Hc : conn rt1 j = conn rt j) by (unfold conn, sock; by rewrite H1).
  destruct (negb _); [unfold clear_sock|]; rewrite alter_sock_conn by done; by rewrite Hc.
Qed.

(** [acknowledge] is the acknowledgment step, or nothing. *)
Lemma acknowledge_moves i ack now rt : slot_in rt i -> is_u32 ack -> synchronized (tc_state (conn rt i)) = true ->
  before (tc_snd_nxt (conn rt i)) ack = false ->
  exists ls, moves i ls rt (acknowledge i ack now rt) /\ (ls = [] \/ ls = [Acked ack]) /\
    (tc_state (conn (acknowledge i ack now rt) i) <> TCP_CLOSED -> 
      tc_rcv_nxt (conn (acknowledge i ack now rt) i) = tc_rcv_nxt (conn rt i) /\ synchronized (tc_state (conn (acknowledge i ack now rt) i)) = true).
Proof.
  intros Hi Hack Hsync Hnxt. unfold acknowledge. destruct (before (tc_snd_una (conn rt i)) ack) eqn:Eb; cbn [negb];
    [|exists []; split; [by apply moves_same|split; [by left|done]]].
  destruct (acknowledge_flight ack now (conn rt i)) as [flags c] eqn:Ea.
  match goal with |- context[moves i _ rt ?x] => set (rt' := x) end.
  assert (Hrc : tc_rcv_nxt c = tc_rcv_nxt (conn rt i) /\ tc_state c = tc_state (conn rt i)).
  { unfold acknowledge_flight in Ea. cbv zeta in Ea. destruct (truth _), (negb _); injection Ea as _ <-; done. }
  assert (H : length (ss_entries (rt_sockets rt')) = length (ss_entries (rt_sockets rt)) /\
    forall j, conn rt' j = if decide (j = i) then flight_done now flags c else conn rt j).
  { set (rt1 := alter_tcp i (fun _ => c) rt) in *. assert (H1 : forall j, conn rt1 j = if decide (j = i) then c else conn rt j) by (intros j; by apply alter_tcp_conn).
    assert (Hl1 : length (ss_entries (rt_sockets rt1)) = length (ss_entries (rt_sockets rt))) by apply alter_tcp_length.
    assert (Hi1 : slot_in rt1 i) by (unfold slot_in; by rewrite Hl1). clearbody rt1. unfold rt', flight_done.
    assert (Halter : forall f, length (ss_entries (rt_sockets (alter_tcp i f rt1))) = length (ss_entries (rt_sockets rt)) /\
      forall j, conn (alter_tcp i f rt1) j = if decide (j = i) then f c else conn rt j).
    { intros f. split; [by rewrite alter_tcp_length|]. intros j. rewrite alter_tcp_conn, !H1, (decide_True (P := i = i)) by done. by case_decide. }
    destruct flags as [f|]; [|done]. destruct (flag f _); [|done]. destruct (in_state c TCP_LAST_ACK).
    - destruct (tcp_fail_conn i 0 rt1 Hi1) as [Hl Hc]. split; [congruence|]. intros j. rewrite Hc, H1. by case_decide.
    - destruct (tc_peer_fin c); apply Halter. }
  clearbody rt'. destruct H as [Hl Hc]. exists [Acked ack]. split; [|split; [by right|]].
  - split; [done|]. intros j. rewrite Hc. case_decide; [|constructor]. subst. apply run_one. by eapply cs_ack.
  - rewrite Hc, decide_True by done. destruct Hrc as [Hrc Hst]. unfold flight_done. destruct flags as [f|]; [|by rewrite Hst]. destruct (flag f _); [|by rewrite Hst].
    destruct (in_state c TCP_LAST_ACK); [done|]. by destruct (tc_peer_fin c).
Qed.

(** A prefix of the run of slot [i], with what the rest of the code needs to
    know of the connection. *)
Record at_seq (seq ack : Z) (payload : list Z) (fin : bool) (i : nat) (rt rt' : app_runtime) (next : Z) : Prop := {
  as_moves : exists ls, moves i ls rt rt' /\ Forall (of_segment seq ack payload fin) ls;
  as_sync : synchronized (tc_state (conn rt' i)) = true;
  as_next : tc_rcv_nxt (conn rt' i) = next
}.

Lemma at_seq_step seq ack payload fin i rt rt1 next f ls next' : slot_in rt i -> at_seq seq ack payload fin i rt rt1 next ->
  conn_step (conn rt1 i) ls (f (conn rt1 i)) -> Forall (of_segment seq ack payload fin) ls ->
  synchronized (tc_state (f (conn rt1 i))) = true -> tc_rcv_nxt (f (conn rt1 i)) = next' ->
  at_seq seq ack payload fin i rt (alter_tcp i f rt1) next'.
Proof.
  intros Hi [(ks & Hm & Hks) _ _] Hstep Hls Hsync Hnext. assert (Hi1 := moves_slot _ _ _ _ i Hm Hi).
  constructor; [|by rewrite alter_tcp_conn, decide_True..]. exists (ks ++ ls). split; [|by apply Forall_app].
  eapply moves_trans; [exact Hm|]. by apply tcp_moves.
Qed.

Lemma update_window_core seq ack window c : tc_state (update_window seq ack window c) = tc_state c /\
  tc_rcv_nxt (update_window seq ack window c) = tc_rcv_nxt c /\ tc_peer_fin (update_window seq ack window c) = tc_peer_fin c.
Proof. unfold update_window. by destruct (_ && _). Qed.

Lemma accept_fin_sync now c : synchronized (tc_state c) = true -> synchronized (tc_state (accept_fin now c)) = true.
Proof. intros H. unfold accept_fin, in_state. repeat (case_bool_decide; [done|]). exact H. Qed.

Lemma input_data_moves L i seq ack window flags payload now rt0 rt : table_wf rt0 -> slot_in rt0 i -> own L rt -> is_u32 seq -> is_u16 window ->
  at_seq seq ack payload (flag flags RTE_TCP_FIN_FLAG) i rt0 rt seq ->
  exists ls, moves i ls rt0 (input_data submit i seq ack window flags payload now rt).2 /\
    Forall (of_segment seq ack payload (flag flags RTE_TCP_FIN_FLAG)) ls.
Proof.
  intros Hwf Hi Hown Hseq Hw Hat. unfold input_data. cbv zeta.
  set (rt1 := alter_tcp i (update_window seq ack window) rt). assert (Hat1 : at_seq seq ack payload (flag flags RTE_TCP_FIN_FLAG) i rt0 rt1 seq).
  { destruct (update_window_core seq ack window (conn rt i)) as (E1 & E2 & _).
    eapply at_seq_step; [done|exact Hat|by apply cs_window; [apply Hat|]|constructor|rewrite E1; apply Hat|rewrite E2; apply Hat]. }
  assert (Hown1 : own L rt1) by (unfold rt1; own_quietly). clearbody rt1. clear Hat.
  match goal with |- context[let '(_, _) := ?x in _] => set (taken := x) end.
  assert (Htaken : own L taken.2 /\ exists next, at_seq seq ack payload (flag flags RTE_TCP_FIN_FLAG) i rt0 taken.2 next /\
    (taken.1 = Z.of_nat (length payload) -> tc_peer_fin (conn taken.2 i) = false -> next = u32 (seq + Z.of_nat (length payload)))).
  { unfold taken. destruct (tc_peer_fin (conn rt1 i)) eqn:Ep; cbn [negb andb].
    { split; [done|]. exists seq. split; [done|]. cbn. by rewrite Ep. }
    destruct (truth (Z.of_nat (length payload))) eqn:El.
    - destruct (accept_payload payload (conn rt1 i)) as [n c] eqn:Ea. cbn [fst snd]. split; [own_quietly|]. exists (tc_rcv_nxt c).
      destruct Hat1 as [(ls & Hm & Hls) Hs Hn]. assert (Hwf1 := moves_wf _ _ _ _ Hm Hwf i).
      destruct (accept_payload_wf _ _ _ _ Hwf1 Hs Ea) as (_ & Hb & _ & Hrn & _ & Hst). split; [|intros -> _; by rewrite Hrn, Hn].
      eapply (at_seq_step _ _ _ _ _ _ _ seq (fun _ => c)); [done|by constructor; [exists ls|..]| | |by rewrite Hst|done].
      + eapply cs_payload; [done|done| |exact Ea]. intros Hz. by rewrite Hz in El.
      + constructor; [|constructor]. rewrite Hn. split; [done|]. apply prefix_take.
    - split; [done|]. exists seq. split; [done|]. intros _ _. apply truth_false in El. cbn [fst]. rewrite El, Z.add_0_r. by rewrite u32_small. }
  destruct taken as [received rt2]. cbn [fst snd] in Htaken. destruct Htaken as (Hown2 & next & Hat2 & Hnext). clear Hat1 Hown1.
  assert (Hkick : forall rt3 rt4 nx, own L rt4 -> rt_sockets rt4 = rt_sockets rt3 -> at_seq seq ack payload (flag flags RTE_TCP_FIN_FLAG) i rt0 rt3 nx ->
    exists ls, moves i ls rt0 (tcp_kick submit i now rt4) /\ Forall (of_segment seq ack payload (flag flags RTE_TCP_FIN_FLAG)) ls).
  { intros rt3 rt4 nx Ho Hs [(ls & Hm & Hls) _ _]. exists ls. split; [|done]. eapply (kick_after L); [done|done| |done].
    eapply moves_then; [exact Hm|by apply moves_same]. }
  destruct (received =? Z.of_nat (length payload)) eqn:Er; cbn [negb].
  - apply Z.eqb_eq in Er. cbn [snd]. set (rt3 := if negb (tc_peer_fin _) && _ && _ then _ else rt2).
    assert (H3 : own L rt3 /\ exists nx, at_seq seq ack payload (flag flags RTE_TCP_FIN_FLAG) i rt0 rt3 nx).
    { unfold rt3. destruct (negb (tc_peer_fin (conn rt2 i)) && _ && _) eqn:Ef; [|split; [done|by exists next]].
      apply andb_true_iff in Ef as [Ef _]. apply andb_true_iff in Ef as [Epf Eflag]. apply negb_true_iff in Epf.
      split; [own_quietly|]. eexists. eapply at_seq_step; [done|exact Hat2|by apply cs_fin; [apply Hat2|]| |by apply accept_fin_sync, Hat2|reflexivity].
      constructor; [|constructor]. split; [done|]. rewrite (as_next _ _ _ _ _ _ _ _ Hat2). auto. }
    clearbody rt3. destruct H3 as [Hown3 [nx Hat3]]. eapply Hkick; [|  |exact Hat3].
    + destruct (_ || _); [by apply tcp_ack_own|done].
    + destruct (_ || _); [by eapply tcp_ack_sockets|done].
  - cbn [snd]. eapply Hkick; [by apply tcp_ack_own|by eapply tcp_ack_sockets|exact Hat2].
Qed.

Lemma syn_ack_has_ack flags : Z.land flags SYN_ACK = SYN_ACK -> flag flags RTE_TCP_ACK_FLAG = true.
Proof.
  intros H. unfold flag. change RTE_TCP_ACK_FLAG with (Z.land SYN_ACK RTE_TCP_ACK_FLAG). by rewrite Z.land_assoc, H.
Qed.

(** No step at all. *)
Lemma no_labels i P rt rt' : rt_sockets rt' = rt_sockets rt -> exists ls : list tcp_label, moves i ls rt rt' /\ Forall P ls.
Proof. intros H. exists []. split; [by apply moves_same|constructor]. Qed.

Lemma input_syn_sent_moves L i local remote seq ack window flags length mss payload fin rt : own L rt -> slot_in rt i ->
  tc_state (conn rt i) = TCP_SYN_SENT -> is_u32 seq -> is_u16 window -> is_u16 mss ->
  exists ls, moves i ls rt (input_syn_sent submit i local remote seq ack window flags length mss rt).2 /\ Forall (of_segment seq ack payload fin) ls.
Proof.
  intros Hown Hi Hst Hseq Hw Hm. unfold input_syn_sent. cbv zeta.
  destruct (flag flags RTE_TCP_ACK_FLAG && negb (ack =? tc_snd_nxt (conn rt i))) eqn:Ea; [by apply no_labels; eapply reset_reply_sockets|].
  destruct (flag flags RTE_TCP_RST_FLAG).
  { cbn [snd]. destruct (flag flags RTE_TCP_ACK_FLAG); [|by apply no_labels]. exists []. split; [apply tcp_fail_moves|constructor]. }
  destruct (_ =? Z.lor RTE_TCP_SYN_FLAG RTE_TCP_ACK_FLAG) eqn:Es; cbn [negb]; [|by apply no_labels].
  apply Z.eqb_eq, syn_ack_has_ack in Es. rewrite Es in Ea. cbn [andb] in Ea. apply negb_false_iff, Z.eqb_eq in Ea.
  exists [Opened seq]. split; [|by repeat constructor]. cbn [snd].
  eapply moves_then; [|apply moves_same; eapply (tcp_ack_sockets L), own_quiet; [|exact Hown]; auto with quiet].
  eapply moves_then; [|apply moves_same; unfold stat_established; apply tcp_stats_sockets].
  apply tcp_moves; [done|]. rewrite Ea. by apply cs_connected.
Qed.

Lemma established_conn i f rt j : slot_in rt i ->
  conn (stat_established (alter_tcp i f rt)) j = if decide (j = i) then f (conn rt i) else conn rt j.
Proof. apply alter_tcp_conn. Qed.

Lemma input_synchronized_moves L i local remote seq ack window flags payload now rt : table_wf rt -> own L rt -> slot_in rt i ->
  tc_state (conn rt i) <> TCP_CLOSED -> tc_state (conn rt i) <> TCP_LISTEN -> tc_state (conn rt i) <> TCP_SYN_SENT ->
  is_u32 seq -> is_u32 ack -> is_u16 window ->
  exists ls, moves i ls rt (input_synchronized submit i local remote seq ack window flags payload now rt).2 /\
    Forall (of_segment seq ack payload (flag flags RTE_TCP_FIN_FLAG)) ls.
Proof.
  intros Hwf Hown Hi Hc1 Hc2 Hc3 Hseq Hack Hw. unfold input_synchronized. cbv zeta.
  destruct (_ && _ && _); [by apply no_labels; eapply tcp_emit_flight_sockets|].
  destruct (in_state (conn rt i) TCP_TIME_WAIT) eqn:Etw.
  { cbn [snd]. destruct (flag flags RTE_TCP_RST_FLAG); [by apply no_labels|]. assert (Hs := tcp_ack_sockets L i rt Hown). set (rt1 := tcp_ack submit i rt) in *. clearbody rt1.
    destruct (_ && _); [|by apply no_labels]. exists []. split; [|constructor]. eapply moves_first; [by apply moves_same|]. apply tcp_moves; [unfold slot_in; by rewrite Hs|].
    apply cs_time_wait. unfold in_state in Etw. unfold conn, sock in *. rewrite Hs. by case_bool_decide. }
  destruct (seq =? tc_rcv_nxt (conn rt i)) eqn:Eseq; cbn [negb].
  2:{ apply no_labels. cbn [snd]. unfold stat_out_of_order. rewrite tcp_stats_sockets. repeat case_match; try done; by eapply tcp_ack_sockets. }
  apply Z.eqb_eq in Eseq. destruct (flag flags RTE_TCP_RST_FLAG).
  { exists []. split; [|constructor]. cbn [snd]. eapply moves_first; [|apply tcp_fail_moves]. apply moves_same. apply tcp_stats_sockets. }
  destruct (flag flags RTE_TCP_SYN_FLAG); [by apply no_labels; eapply tcp_ack_sockets|].
  destruct (_ && _); [by apply no_labels; eapply tcp_ack_sockets|]. destruct (negb _); [by apply no_labels|].
  destruct (before (tc_snd_nxt (conn rt i)) ack) eqn:Eb; [by apply no_labels; eapply tcp_ack_sockets|].
  destruct (_ && _); [by apply no_labels; eapply reset_reply_sockets|].
  set (rt1 := if in_state (conn rt i) TCP_SYN_RECEIVED then _ else rt).
  assert (H1 : own L rt1 /\ tc_snd_nxt (conn rt1 i) = tc_snd_nxt (conn rt i) /\ at_seq seq ack payload (flag flags RTE_TCP_FIN_FLAG) i rt rt1 seq).
  { unfold rt1, in_state. case_bool_decide as Es.
    - split; [own_quietly|]. rewrite !established_conn, !decide_True by done. split; [done|].
      constructor; rewrite ?established_conn, ?decide_True by done; try done. exists []. split; [|constructor].
      eapply moves_then; [|apply moves_same, tcp_stats_sockets]. apply tcp_moves; [done|by apply cs_accepted].
    - split; [done|]. split; [done|]. constructor; [by apply no_labels| |done]. clear -Hc1 Hc2 Hc3 Es. by destruct (tc_state (conn rt i)). }
  clearbody rt1. destruct H1 as (Hown1 & Hnx & Hat1). destruct Hat1 as [(ls & Hm & Hls) Hsync Hrcv]. rewrite <- Hnx in Eb.
  destruct (acknowledge_moves i ack now rt1 (moves_slot _ _ _ _ i Hm Hi) Hack Hsync Eb) as (ks & Hmk & Hks & Hrn).
  assert (Hown2 := acknowledge_own L i ack now rt1 Hown1). assert (Hkl : Forall (of_segment seq ack payload (flag flags RTE_TCP_FIN_FLAG)) ks).
  { destruct Hks as [->| ->]; by repeat constructor. }
  set (rt2 := acknowledge i ack now rt1) in *. clearbody rt2. assert (Hm2 := moves_trans _ _ _ _ _ _ Hm Hmk).
  destruct (_ || _) eqn:Ed; [exists (ls ++ ks); split; [exact Hm2|by apply Forall_app]|]. apply orb_false_iff in Ed as [_ Ed].
  assert (Hcl : tc_state (conn rt2 i) <> TCP_CLOSED) by (unfold in_state in Ed; by case_bool_decide).
  apply (input_data_moves L); try done. constructor; [exists (ls ++ ks); split; [exact Hm2|by apply Forall_app]|by apply Hrn|]. destruct (Hrn Hcl) as [-> _]. done.
Qed.

Lemma connection_slot rt local remote i : connection rt local remote = Some i ->
  slot_in rt i /\ tc_state (conn rt i) <> TCP_CLOSED /\ tc_state (conn rt i) <> TCP_LISTEN.
Proof.
  intros H. apply open_slot_in in H as [Hi H]. split; [done|]. rewrite !andb_true_iff, !negb_true_iff in H.
  destruct H as [[[[[[[_ _] H1] H2] _] _] _] _]. unfold in_state in *. fold (conn rt i) in *. by repeat case_bool_decide.
Qed.

(** The segment in [m] whose TCP header starts at [o]. *)
Lemma tcp_input_moves L ctx m o header_len length mss now rt : table_wf rt -> own L rt -> is_u16 mss ->
  is_u32 (be32_in m (o + 4)) -> is_u32 (be32_in m (o + 8)) -> is_u16 (be16_in m (o + 14)) ->
  exists i ls, moves i ls rt (tcp_input submit ctx m o header_len length mss now rt).2 /\
    Forall (of_segment (be32_in m (o + 4)) (be32_in m (o + 8)) (bytes_in m (o + header_len) length)
      (flag (byte_in m (o + 13)) RTE_TCP_FIN_FLAG)) ls.
Proof.
  intros Hwf Hown Hmss Hseq Hack Hw. unfold tcp_input. cbv zeta.
  assert (Hreset : forall P local remote seq ack flags len, exists (i : nat) (ls : list tcp_label), moves i ls rt (reset_reply submit local remote seq ack flags len rt) /\ Forall P ls).
  { intros P local remote seq ack flags len. exists O. apply no_labels. by eapply reset_reply_sockets. }
  match goal with |- context[if negb ?b then _ else _] => destruct b end; cbn [negb]; [|exists O; by apply no_labels].
  destruct (connection rt _ _) as [i|] eqn:Ec.
  - apply connection_slot in Ec as (Hi & H1 & H2). exists i. destruct (in_state (conn rt i) TCP_SYN_SENT) eqn:Es.
    + apply (input_syn_sent_moves L); try done. unfold in_state in Es. by case_bool_decide.
    + apply (input_synchronized_moves L); try done. unfold in_state in Es. by case_bool_decide.
  - destruct (listener rt _) as [l|]; [|apply Hreset]. destruct (_ && _ && _); [|apply Hreset].
    destruct (passive_open_moves L l (mk_ps_sockaddr (cx_dst_ip_be ctx) (be16_in m (o + 2))) (mk_ps_sockaddr (cx_src_ip_be ctx) (be16_in m o))
      (be32_in m (o + 4)) (be16_in m (o + 14)) mss now rt Hown Hseq Hw Hmss) as (i & ls & Hm & Hls).
    exists i, ls. split; [exact Hm|]. destruct Hls as [->|[iss ->]]; by repeat constructor.
Qed.
End output.
