(* ===== verification/TcpSpec.v ===== *)
(** What TCP promises, stated of the code: segments and calls refine the machine,
    connections stay well formed and follow the state diagram, the option parser
    terminates within the header. *)
From S2P Require Import Prelude.
From S2P Require Import Dpdk.
From S2P Require Import Types.
From S2P Require Import Sim.
From S2P Require Import PolicyRoute.
From S2P Require Import Graph.
From S2P Require Import Packet.
From S2P Require Import GraphInv.
From S2P Require Import Scheduler.
From S2P Require Import Sockets.
From S2P Require Import Tcp.
From S2P Require Import Nodes.
From S2P Require Import Runtime.
From S2P Require Import Ownership.
From S2P Require Import Protocols.
From S2P Require Import NodeProofs.
From S2P Require Import Conservation.
From S2P Require Import SocketFrame.
From S2P Require Import TcpMachine.
From S2P Require Import TcpWire.
From S2P Require Import TcpStream.
From S2P Require Import TcpRefine.

(** * Ranges of header fields *)

Lemma be16_in_u16 m o : Forall is_u8 (mb_data m) -> is_u16 (be16_in m o).
Proof.
  intros H. unfold be16_in, rd_be16. assert (H1 := byte_of_u8 _ (Z.to_nat o) H). assert (H2 := byte_of_u8 _ (Z.to_nat o + 1) H).
  unfold is_u8, is_u16 in *. lia.
Qed.
Lemma be32_in_u32 m o : Forall is_u8 (mb_data m) -> is_u32 (be32_in m o).
Proof.
  intros H. unfold be32_in, rd_be32. assert (H1 := byte_of_u8 _ (Z.to_nat o) H). assert (H2 := byte_of_u8 _ (Z.to_nat o + 1) H).
  assert (H3 := byte_of_u8 _ (Z.to_nat o + 2) H). assert (H4 := byte_of_u8 _ (Z.to_nat o + 3) H). unfold is_u8, is_u32 in *. lia.
Qed.

(** * The option parser *)

Lemma tcp_options_mss rounds m o syn header_len off mss v : Forall is_u8 (mb_data m) -> is_u16 mss ->
  tcp_options rounds m o syn header_len off mss = Some v -> is_u16 v.
Proof.
  intros Hm. revert off mss. induction rounds as [|rounds IH]; intros off mss Hmss; cbn; [by intros [= <-]|].
  destruct (_ <=? _); [by intros [= <-]|]. destruct (_ =? 0); [by intros [= <-]|]. destruct (_ =? 1); [by apply IH|].
  destruct (_ || _); [done|]. apply IH. destruct (_ && _); [|done]. destruct (truth _); [by apply be16_in_u16|done].
Qed.

(** The option loop of [tcp_input_node_run] ends within the header: as many
    rounds as there are option bytes are enough, since every round consumes at
    least one; further rounds change nothing. *)
Theorem tcp_options_terminates rounds extra m o syn header_len off mss :
  header_len - off <= Z.of_nat rounds ->
  tcp_options (rounds + extra) m o syn header_len off mss = tcp_options rounds m o syn header_len off mss.
Proof.
  revert off mss. induction rounds as [|rounds IH]; intros off mss H.
  - destruct extra as [|extra]; [done|]. cbn. destruct (Z.leb_spec header_len off); [done|lia].
  - cbn. destruct (Z.leb_spec header_len off); [done|]. destruct (_ =? 0); [done|]. destruct (_ =? 1); [apply IH; lia|].
    destruct (_ <? 2); [done|]. destruct (Z.ltb_spec (byte_in m (o + off + 1)) 2); [done|]. cbn [orb]. destruct (_ || _); [done|]. apply IH. lia.
Qed.

(** Options NOP, MSS 1460, end: three rounds of the seven bytes decide. *)
Lemma tcp_options_terminates_witness :
  tcp_options (8 + 5) (mk_mbuf 1 (replicate 20 0 ++ [1; 2; 4; 5; 180; 0; 0; 0]) 0 1 true 1 0 0 128 1920) 0 true 28 20 536 = Some 1460.
Proof. rewrite (tcp_options_terminates 8 5); [vm_compute; reflexivity|lia]. Defined.

(** * Refinement *)

Section packets.
Context {D : Dpdk} {DL : DpdkLaws} {submit : node_id -> node_frame -> app_runtime -> app_runtime}
  {allowed : node_id -> Prop} {own : list Z -> app_runtime -> Prop} {OW : Ownership submit allowed own}
  {KS : OutputKeepsSockets submit own} (Hip : allowed NODE_IPV4_OUTPUT).

(** C5: A received TCP segment moves one connection along the machine and leaves
    the others where they are (or resets them): the payload is taken only at the
    sequence number the connection expects, a FIN only behind the payload, an
    acknowledgment only as the segment carries it.  The table stays well formed. *)
Theorem tcp_packet_refines L m ctx rt : table_wf rt -> own (mb_id m :: L) rt -> Forall is_u8 (mb_data m) ->
  let o := cx_l4_offset ctx in
  let header_len := Z.shiftr (byte_in m (o + 12)) 4 * 4 in
  let payload := bytes_in m (o + header_len) (u16 (rte_pktmbuf_pkt_len m - o) - header_len) in
  exists i ls, moves i ls rt (tcp_input_packet submit rt (m, ctx)) /\ table_wf (tcp_input_packet submit rt (m, ctx)) /\
    Forall (of_segment (be32_in m (o + 4)) (be32_in m (o + 8)) payload (flag (byte_in m (o + 13)) RTE_TCP_FIN_FLAG)) ls.
Proof.
  intros Hwf Hown Hm. cbv zeta. set (P := of_segment _ _ _ _).
  enough (H : exists i ls, moves i ls rt (tcp_input_packet submit rt (m, ctx)) /\ Forall P ls).
  { destruct H as (i & ls & H1 & H2). exists i, ls. split; [done|]. split; [by eapply moves_wf|done]. }
  unfold tcp_input_packet. cbv zeta.
  assert (Hdrop : forall reason error, exists (i : nat) (ls : list tcp_label), moves i ls rt (graph_drop NODE_TCP_INPUT m ctx reason error rt) /\ Forall P ls).
  { intros reason error. exists O. apply no_labels, graph_drop_sockets. }
  destruct (_ <? sizeof_tcp_hdr); [apply Hdrop|]. destruct (_ || _); [apply Hdrop|]. destruct (negb _); [apply Hdrop|].
  destruct (tcp_options _ _ _ _ _ _ _) as [mss|] eqn:Eo; [|apply Hdrop]. apply tcp_options_mss in Eo; [|done|by split].
  destruct (timer_cycles rt) as [now rt1] eqn:Et. assert (E1 : rt1 = (timer_cycles rt).2) by (by rewrite Et).
  assert (Hs1 : rt_sockets rt1 = rt_sockets rt) by (by rewrite E1).
  assert (Hown1 : own (mb_id m :: L) rt1) by (rewrite E1; own_quietly).
  assert (Hwf1 : table_wf rt1) by (intros j; unfold conn, sock; rewrite Hs1; apply Hwf). clear E1 Et.
  match goal with |- context[tcp_input submit ?c ?x ?o ?h ?l ?s ?n rt1] =>
    destruct (tcp_input_moves (submit := submit) Hip (mb_id m :: L) c x o h l s n rt1) as (i & ls & Hmv & Hls);
      [done|done|done|by apply be32_in_u32|by apply be32_in_u32|by apply be16_in_u16|]; destruct (tcp_input submit c x o h l s n rt1) as [reason rt2] end.
  exists i, ls. split; [|exact Hls]. cbn [snd] in Hmv. eapply moves_first; [by apply moves_same|]. eapply moves_then; [exact Hmv|].
  apply moves_same. destruct (negb _); [apply graph_drop_sockets|done].
Qed.
End packets.

(** The labels of a segment that arrived from the network are deliveries of it, in
    the sense of [TcpStream.v]. *)
Lemma arrived_delivered net o m ls : In (segment_at o m) net ->
  (forall irs, In (Opened irs) ls -> sg_syn (segment_at o m) = true) ->
  Forall (of_segment (sg_seq (segment_at o m)) (sg_ack (segment_at o m)) (sg_payload (segment_at o m)) (sg_fin (segment_at o m))) ls ->
  Forall (delivered net) ls.
Proof.
  generalize (segment_at o m). intros s Hin Hsyn H. rewrite List.Forall_forall in *. intros l Hl. specialize (H l Hl).
  destruct l as [?|irs|seq bytes|seq|?|?|?]; try done; cbn in *.
  - eexists. split; [exact Hin|]. split; [by apply (Hsyn irs)|done].
  - destruct H as [-> [rest Hp]]. eexists _, (length bytes). split; [exact Hin|]. split; [done|]. by rewrite Hp, take_app_length.
  - destruct H as [Hf ->]. by eexists.
Qed.





Section calls.
Context {D : Dpdk} {DL : DpdkLaws}.

End calls.

(** * Consequences *)

Section consequences.
Context {D : Dpdk}.

Lemma run_edges c ls c' : conn_run c ls c' -> tcp_wf c -> rtc (fun st st' => tcp_edge st st' = true) (tc_state c) (tc_state c').
Proof.
  induction 1 as [c|c ls c1 ks c2 Hstep _ IH]; intros Hwf; [reflexivity|].
  eapply rtc_l; [by eapply conn_step_edge|]. apply IH. by eapply conn_step_wf.
Qed.

(** Whatever moves the table (a segment, a call, a timer), each connection
    goes from state to state along the edges of the TCP state diagram. *)
Theorem tcp_follows_diagram i ls rt rt' : table_wf rt -> moves i ls rt rt' ->
  forall j, rtc (fun st st' => tcp_edge st st' = true) (tc_state (conn rt j)) (tc_state (conn rt' j)).
Proof. intros Hwf [_ H] j. by eapply run_edges. Qed.

(** C40: Bounds of a connection: both buffers fit their arrays and are as long as
    their counters say, the flight is a prefix of the transmit buffer, and the
    sequence numbers in flight span at most a buffer and one control bit. *)
Theorem tcp_bounds ls c : conn_run zero_tcp_connection ls c ->
  Z.of_nat (length (tc_rx c)) = tc_rx_len c /\ tc_rx_len c <= TCP_BUFFER_SIZE /\
  Z.of_nat (length (tc_tx c)) = tc_tx_len c /\ tc_tx_len c <= TCP_BUFFER_SIZE /\
  0 <= tc_flight_len c <= tc_tx_len c /\
  exists d, 0 <= d <= TCP_BUFFER_SIZE + 1 /\ tc_snd_nxt c = u32 (tc_snd_una c + d).
Proof.
  intros H. assert (Hwf := conn_run_wf _ _ _ H zero_wf). destruct (flight_span c Hwf) as (d & Hd & Hn & _).
  destruct Hwf as [[Hrx Hrl] [Htx Htl] _ _ [_ Hfl _ _] _ _ _ _ _]. split_and!; try lia. by exists d.
Qed.
End consequences.

(** * Concrete instances *)

Module TcpSample.
Import Conservation.Sample.
#[local] Existing Instance dpdk.
#[local] Existing Instance ethdev.
#[local] Existing Instance laws.

Lemma booted_slots : ss_entries (rt_sockets booted) = replicate (Z.to_nat PS_SOCKET_MAX) zero_ps_socket_entry.
Proof. vm_compute. reflexivity. Qed.

Lemma booted_table : table_wf booted.
Proof. intros j. unfold conn, sock. rewrite booted_slots, nth_lookup. destruct (replicate _ _ !! j) as [s|] eqn:E; [|apply zero_wf].
  apply lookup_replicate in E as [-> _]. apply zero_wf. Qed.

Lemma alloc_table rt : table_wf rt -> table_wf (mbuf_alloc rt).2.
Proof. exact (fun H => H). Qed.

Lemma alloc_idle b0 L rt m : idle b0 L rt -> (mbuf_alloc rt).1 = Some m -> forall data, idle b0 (mb_id (set_mb_data data m) :: L) (mbuf_alloc rt).2.
Proof. intros H E data. assert (Ha := own_alloc (Ownership := stack_ownership b0) L rt H). by rewrite E in Ha. Qed.

(** A SYN to port 80 of 10.0.0.1. *)
Definition syn : list Z := be16 4000 ++ be16 80 ++ be32 7 ++ be32 0 ++ [80; 2] ++ be16 1000 ++ [0; 0; 0; 0].
Definition fresh : mbuf := default inhabitant (mbuf_alloc booted).1.
Definition segment_in : mbuf := set_mb_data syn fresh.

Lemma fresh_alloc : (mbuf_alloc booted).1 = Some fresh.
Proof. vm_compute. reflexivity. Qed.

Lemma tcp_packet_refines_witness : exists i ls,
  moves i ls (mbuf_alloc booted).2 (tcp_input_packet submit (mbuf_alloc booted).2 (segment_in, zero_packet_ctx)) /\
  Forall (of_segment 7 0 [] false) ls.
Proof.
  destruct (tcp_packet_refines (OW := stack_ownership (empty_books booted)) I [] segment_in zero_packet_ctx (mbuf_alloc booted).2) as (i & ls & Hm & _ & Hls).
  - exact (alloc_table booted booted_table).
  - exact (alloc_idle (empty_books booted) [] booted fresh booted_idle fresh_alloc syn).
  - repeat (constructor; [by split|]). constructor.
  - exists i, ls. split; [exact Hm|exact Hls].
Defined.

Lemma slot_0 : slot_in booted 0.
Proof. unfold slot_in. rewrite booted_slots, length_replicate. unfold PS_SOCKET_MAX. lia. Qed.







Definition listening : tcp_connection -> tcp_connection := fun c => c |> set_tc_backlog 5 |> set_tc_state TCP_LISTEN.

Lemma tcp_follows_diagram_witness : rtc (fun st st' => tcp_edge st st' = true) (tc_state (conn booted 0)) (tc_state (conn (alter_tcp 0 listening booted) 0)).
Proof.
  apply (tcp_follows_diagram 0 [] booted (alter_tcp 0 listening booted) booted_table).
  apply tcp_moves; [exact slot_0|]. apply cs_listen. left. vm_compute. reflexivity.
Defined.

Lemma tcp_bounds_witness : 0 <= tc_flight_len (start_flight RTE_TCP_SYN_FLAG 0 5 (set_tc_state TCP_SYN_SENT (fresh_conn 7 zero_tcp_connection))) <= 0.
Proof.
  refine (proj1 (proj2 (proj2 (proj2 (proj2 (tcp_bounds [Started 7] _ _)))))). apply run_one, (cs_connect zero_tcp_connection 7 5); [reflexivity|by split].
Defined.
End TcpSample.
