(* ===== verification/AdminWorkerSpec.v ===== *)
(** Properties of the administrative worker: flushing neighbours empties exactly
    one interface and terminates, link state follows the device, a change is
    published only when it is the successor of the published configuration and
    keeps the address of every bound socket. *)
From S2P Require Import Prelude.
From S2P Require Import Dpdk.
From S2P Require Import Sim.
From S2P Require Import Types.
From S2P Require Import Netif.
From S2P Require Import NetConfig.
From S2P Require Import PolicyRoute.
From S2P Require Import Neighbour.
From S2P Require Import Graph.
From S2P Require Import Packet.
From S2P Require Import IcmpError.
From S2P Require Import Resolution.
From S2P Require Import Nodes.
From S2P Require Import Runtime.
From S2P Require Import AdminWire.
From S2P Require Import AdminState.
From S2P Require Import AdminWorker.
From S2P Require Import Ipc.
From S2P Require Import Dispatch.
From S2P Require Import GraphInv.
From S2P Require Import Scheduler.
From S2P Require Import Ownership.
From S2P Require Import Protocols.
From S2P Require Import NodeProofs.
From S2P Require Import Conservation.

(** * What cancelling waiting packets touches *)

(** What is left when the graph, the waiting packets and the DPDK history are
    put aside. *)
Definition settled (rt : app_runtime) : app_runtime :=
  rt |> set_rt_graph zero_dp_graph |> set_rt_pending_neighbours [] |> set_rt_dpdk [].

Definition cancels (rt rt' : app_runtime) : Prop := settled rt' = settled rt.

#[export] Instance cancels_preorder : PreOrder cancels.
Proof. split; [done|]. intros a b c H1 H2. unfold cancels in *. congruence. Qed.

Lemma cancels_foldl {A} (f : app_runtime -> A -> app_runtime) l rt :
  (forall rt x, cancels rt (f rt x)) -> cancels rt (foldl f rt l).
Proof. intros Hf. revert rt. induction l as [|x l IH]; intros rt; [done|]. etrans; [apply Hf|apply IH]. Qed.

Section cancel.
Context {D : Dpdk}.
Variable sub : node_id -> node_frame -> app_runtime -> app_runtime.

Lemma discard_cancels i now rt : cancels rt (discard_pending sub i DROP_NEIGHBOUR_CANCELLED now rt).
Proof.
  unfold discard_pending. cbv zeta. etrans; [|apply cancels_foldl]; [reflexivity|]. intros rt' [m ctx].
  change (bool_decide (DROP_NEIGHBOUR_CANCELLED = DROP_NEIGHBOUR_RESOLUTION_TIMEOUT)) with false. reflexivity.
Qed.

Lemma neighbour_cancel_cancels dev ip rt : cancels rt (neighbour_cancel sub dev ip rt).
Proof. apply cancels_foldl. intros rt' i. cbv beta zeta. case_match; [apply discard_cancels|done]. Qed.

Lemma neighbour_fini_cancels rt : cancels rt (neighbour_fini sub rt).
Proof. apply cancels_foldl. intros rt' i. apply discard_cancels. Qed.
End cancel.

(** * Flushing an interface *)

(** Closing a probe chain never moves an entry of a slot from [s] on into a slot
    before [s], when the chain starts at [s]. *)
Section low_slots.
Context (P : neighbour_entry -> Prop) (s : Z).
Hypothesis Hs : 0 <= s < NEIGHBOUR_CAPACITY.
Hypothesis Hzero : P zero_neighbour_entry.

Definition low (t : neighbour_table) : Prop := forall j, 0 <= j < s -> P (slot t j).

Lemma close_gap_low n : forall t h c, length t = Z.to_nat NEIGHBOUR_CAPACITY -> low t ->
  0 <= h < c -> c + Z.of_nat n = NEIGHBOUR_CAPACITY ->
  let '(t', hole) := close_gap n t (at_rank s h) (at_rank s c) in
  length t' = Z.to_nat NEIGHBOUR_CAPACITY /\ low t' /\ 0 <= hole < NEIGHBOUR_CAPACITY.
Proof.
  induction n as [|n IH]; intros t h c Hl Hlow Hh Hc; cbn [close_gap]; [eauto with net|].
  destruct (negb _); [eauto with net|]. cbv zeta. rewrite at_rank_succ. destruct (_ <=? _); [|apply IH; [done|done|lia|lia]].
  apply IH; [by rewrite length_set_slot| |lia|lia]. intros j Hj. assert (X := at_rank_range s h).
  rewrite slot_set_slot by lia. case_decide as E; [|by apply Hlow]. apply Hlow. rewrite <- E in Hj.
  unfold at_rank, NEIGHBOUR_CAPACITY in *. Z.div_mod_to_equations. lia.
Qed.

Lemma neighbour_remove_low t dev ip rc t' : length t = Z.to_nat NEIGHBOUR_CAPACITY -> low t ->
  find_slot t dev ip = Some s -> neighbour_remove t dev ip = (rc, t') -> low t'.
Proof.
  intros Hl Hlow Hf. unfold neighbour_remove. rewrite Hf. destruct (negb _); [by intros [= _ <-]|].
  assert (H0 : at_rank s 0 = s) by (unfold at_rank; rewrite Z.add_0_r; by apply Z.mod_small).
  assert (Hg := close_gap_low (Z.to_nat NEIGHBOUR_CAPACITY - 1) t 0 1 Hl Hlow ltac:(lia) ltac:(unfold NEIGHBOUR_CAPACITY; lia)).
  rewrite H0 in Hg. change (at_rank s 1) with ((s + 1) mod NEIGHBOUR_CAPACITY) in Hg.
  destruct (close_gap _ _ _ _) as [t1 hole]. destruct Hg as (Hl1 & Hlow1 & Hh). intros [= _ <-] j Hj.
  rewrite slot_set_slot by lia. case_decide; [done|by apply Hlow1].
Qed.
End low_slots.

(** The part of the runtime no neighbour operation changes. *)
Definition beside_neighbours (rt : app_runtime) : app_runtime :=
  rt |> settled |> set_rt_neighbours [] |> set_rt_events zero_admin_events.

Lemma cancels_beside rt rt' : cancels rt rt' -> beside_neighbours rt' = beside_neighbours rt.
Proof. intros H. unfold beside_neighbours. by rewrite H. Qed.
Lemma cancels_neighbours rt rt' : cancels rt rt' -> rt_neighbours rt' = rt_neighbours rt.
Proof. intros H. exact (f_equal rt_neighbours H). Qed.

Lemma event_neighbours rt group id act : rt_neighbours (admin_event_emit rt group id act) = rt_neighbours rt.
Proof. unfold admin_event_emit. by destruct (rt_network rt). Qed.
Lemma neighbour_event_neighbours rt dev ip act : rt_neighbours (admin_neighbour_event rt dev ip act) = rt_neighbours rt.
Proof. unfold admin_neighbour_event. cbv zeta. destruct (rt_network (admin_event_emit _ _ _ _)); [cbn|]; apply event_neighbours. Qed.
Lemma event_beside rt group id act : beside_neighbours (admin_event_emit rt group id act) = beside_neighbours rt.
Proof. unfold admin_event_emit. by destruct (rt_network rt). Qed.
Lemma neighbour_event_beside rt dev ip act : beside_neighbours (admin_neighbour_event rt dev ip act) = beside_neighbours rt.
Proof. unfold admin_neighbour_event. cbv zeta. destruct (rt_network (admin_event_emit _ _ _ _)); [cbn|]; apply event_beside. Qed.

Section flush.
Context {D : Dpdk}.

(** The neighbours of an interface, and the others. *)
Definition of_device (dev : Z) (m : neighbour_map) : neighbour_map := filter (fun kv => kv.1.1 = dev) m.
Definition off_device (dev : Z) (m : neighbour_map) : neighbour_map := filter (fun kv => kv.1.1 <> dev) m.

Definition elsewhere (dev : Z) (e : neighbour_entry) : Prop := ne_in_use e = true -> ne_netif_id e <> dev.

Lemma neighbour_delete_present dev ip v rt m : represents (rt_neighbours rt) m -> m !! (dev, ip) = Some v ->
  exists rt', neighbour_delete submit dev ip rt = (0, rt') /\
    neighbour_remove (rt_neighbours rt) dev ip = (0, rt_neighbours rt') /\
    represents (rt_neighbours rt') (delete (dev, ip) m) /\ beside_neighbours rt' = beside_neighbours rt.
Proof.
  intros Hr Hm. destruct (represents_remove _ _ _ _ _ Hr Hm) as (t & Ht & Hrep). unfold neighbour_delete. rewrite Ht. cbn [truth].
  eexists. split; [done|]. rewrite (cancels_neighbours _ _ (neighbour_cancel_cancels _ _ _ _)), neighbour_event_neighbours.
  split; [done|]. split; [done|]. by rewrite (cancels_beside _ _ (neighbour_cancel_cancels _ _ _ _)), neighbour_event_beside.
Qed.

(** A used slot is where the search for its key ends. *)
Lemma used_slot_found t m i : represents t m -> 0 <= i < NEIGHBOUR_CAPACITY -> ne_in_use (slot t i) = true ->
  exists v, m !! entry_key (slot t i) = Some v /\ find_slot t (ne_netif_id (slot t i)) (ne_ip_be (slot t i)) = Some i.
Proof.
  intros Hr Hi Hu. pose proof Hr as (_ & [Hc Huniq] & _).
  assert (Hm : m !! entry_key (slot t i) = Some (entry_value (slot t i))).
  { apply Hc. exists i. split; [done|]. split; [lia|]. by split_and!. }
  exists (entry_value (slot t i)). split; [done|]. destruct (find_slot_present t m Hr _ _ _ Hm) as (j & Hj & Hjr & Huj & Hkj & _).
  rewrite Hj. f_equal. apply Huniq; first [done|lia].
Qed.

Lemma off_device_done dev t m : represents t m -> (forall j, 0 <= j < NEIGHBOUR_CAPACITY -> elsewhere dev (slot t j)) -> off_device dev m = m.
Proof.
  intros (_ & [Hc _] & _) Hall. apply map_filter_id. intros k v Hk. apply Hc in Hk as (i & Hi & _ & Hu & <- & _). by apply Hall.
Qed.

(** The loop ends before its fuel does: more fuel changes nothing. *)
Lemma flush_loop_exact dev fuel : forall i rt m, represents (rt_neighbours rt) m -> 0 <= i <= NEIGHBOUR_CAPACITY ->
  low (elsewhere dev) i (rt_neighbours rt) -> (Z.to_nat (NEIGHBOUR_CAPACITY - i) + size (of_device dev m) < fuel)%nat ->
  exists rt', (forall extra, flush_loop (fuel + extra) dev i rt = (0, rt')) /\ represents (rt_neighbours rt') (off_device dev m) /\
    beside_neighbours rt' = beside_neighbours rt.
Proof.
  induction fuel as [|fuel IH]; intros i rt m Hr Hi Hlow Hf; [lia|]. cbn [Nat.add flush_loop].
  destruct (Z.leb_spec NEIGHBOUR_CAPACITY i) as [He|Hlt].
  { exists rt. split; [done|]. split; [|done]. erewrite off_device_done; [done..|]. intros j Hj. apply Hlow. lia. }
  set (e := slot (rt_neighbours rt) i). destruct (ne_in_use e && (ne_netif_id e =? dev)) eqn:Ee.
  - apply andb_true_iff in Ee as [Hu Hd%Z.eqb_eq]. destruct (used_slot_found _ m i Hr ltac:(lia) Hu) as (v & Hv & Hfs).
    fold e in Hv, Hfs. unfold entry_key in Hv. rewrite Hd in Hv, Hfs.
    destruct (neighbour_delete_present _ _ _ _ _ Hr Hv) as (rt1 & -> & Hrem & Hr1 & Hb1). cbn [truth].
    destruct (IH i rt1 _ Hr1 Hi) as (rt2 & Heq & Hr2 & Hb2).
    + eapply neighbour_remove_low; [lia|done|apply Hr|exact Hlow|exact Hfs|exact Hrem].
    + unfold of_device in *. rewrite map_filter_delete. set (k := (dev, ne_ip_be e)).
      assert (Hk : filter (fun kv => kv.1.1 = dev) m !! k = Some v) by (by apply map_lookup_filter_Some).
      rewrite map_size_delete_Some by eauto. assert (Hne := proj2 (map_size_ne_0_lookup _) (ex_intro _ _ (ex_intro _ _ Hk))). lia.
    + exists rt2. split; [done|]. split; [|congruence]. unfold off_device in *.
      rewrite map_filter_delete_not in Hr2; [done|]. by intros y Hy [].
  - apply IH; [done|lia| |unfold NEIGHBOUR_CAPACITY in *; lia]. intros j Hj. destruct (decide (j = i)) as [->|]; [|apply Hlow; lia].
    intros Hu Hd. fold e in Hu, Hd. by rewrite Hu, Hd, Z.eqb_refl in Ee.
Qed.

Lemma flush_loop_device dev rt m : represents (rt_neighbours rt) m ->
  exists rt', (forall extra, flush_loop (flush_fuel + extra) dev 0 rt = (0, rt')) /\ represents (rt_neighbours rt') (off_device dev m) /\
    beside_neighbours rt' = beside_neighbours rt.
Proof.
  intros Hr. apply flush_loop_exact; [done|unfold NEIGHBOUR_CAPACITY; lia|intros j Hj; lia|].
  assert (H1 := represents_bound _ _ Hr). assert (H2 : (size (of_device dev m) <= size m)%nat) by (by apply map_size_filter).
  unfold flush_fuel, NEIGHBOUR_CAPACITY in *. lia.
Qed.

(** ** The waiting packets *)

(** No packet waits for a neighbour of the interface. *)
Definition none_waiting (dev : Z) (q : list pending_neighbour) : Prop :=
  Forall (fun p => pending_used p = true -> pn_netif_id p <> dev) q.

Lemma cancel_step dev rt i : let rt' := (let p := pending_at rt i in
    if pending_used p && (pn_netif_id p =? dev) && (negb (truth 0) || (pn_ip_be p =? 0))
    then discard_pending submit i DROP_NEIGHBOUR_CANCELLED 0 rt else rt) in
  (i < length (rt_pending_neighbours rt))%nat ->
  exists p, rt_pending_neighbours rt' = <[i := p]> (rt_pending_neighbours rt) /\ (pending_used p = true -> pn_netif_id p <> dev).
Proof.
  cbv zeta. intros Hi. change (negb (truth 0)) with true. cbn [orb]. rewrite andb_true_r.
  destruct (pending_used (pending_at rt i) && (pn_netif_id (pending_at rt i) =? dev)) eqn:E.
  - exists zero_pending_neighbour. split; [apply cancel_entry|done].
  - exists (pending_at rt i). split.
    + symmetry. apply list_insert_id. unfold pending_at. rewrite nth_lookup. destruct (lookup_lt_is_Some_2 _ _ Hi) as [p Hp]. by rewrite Hp.
    + intros Hu. rewrite Hu in E. by apply Z.eqb_neq in E.
Qed.

Lemma neighbour_cancel_device dev rt : length (rt_pending_neighbours rt) = NEIGHBOUR_PENDING_MAX ->
  none_waiting dev (rt_pending_neighbours (neighbour_cancel submit dev 0 rt)).
Proof.
  intros Hl. unfold neighbour_cancel, pending_slots.
  assert (H : forall n k rt, (k + n)%nat = NEIGHBOUR_PENDING_MAX -> length (rt_pending_neighbours rt) = NEIGHBOUR_PENDING_MAX ->
    none_waiting dev (take k (rt_pending_neighbours rt)) ->
    none_waiting dev (rt_pending_neighbours (foldl (fun rt i =>
      let p := pending_at rt i in
      if pending_used p && (pn_netif_id p =? dev) && (negb (truth 0) || (pn_ip_be p =? 0))
      then discard_pending submit i DROP_NEIGHBOUR_CANCELLED 0 rt else rt) rt (seq k n)))).
  { clear Hl rt. induction n as [|n IH]; intros k rt Hkn Hl Hp.
    - rewrite take_ge in Hp by lia. exact Hp.
    - cbn [seq foldl]. destruct (cancel_step dev rt k ltac:(lia)) as (p & Hq & Hd). cbv beta zeta in Hq.
      apply IH; [lia|cbv zeta; by rewrite Hq, length_insert|cbv zeta].
      rewrite Hq, (take_S_r _ _ p) by (apply list_lookup_insert_eq; lia). rewrite take_insert_ge by lia.
      apply Forall_app_2; [done|by constructor]. }
  apply (H NEIGHBOUR_PENDING_MAX O); [done|done|]. rewrite take_0. constructor.
Qed.
End flush.

(** * Link state *)

(** Whether a device runs, from the calls made so far: a successful start or stop
    decides, and [port_init] has started every port. *)
Fixpoint device_running (h : list nic_event) (port : Z) : bool :=
  match h with
  | [] => true
  | NicStart p rc :: h' => if (p =? port) && (rc =? 0) then true else device_running h' port
  | NicStop p rc :: h' => if (p =? port) && (rc =? 0) then false else device_running h' port
  | _ :: h' => device_running h' port
  end.

(** The flags of a port agree with its device. *)
Definition tracks (h : list nic_event) (p : port_state) : Prop :=
  pt_started p = device_running h (pt_port_id p) /\ (pt_admin_down p = true -> pt_started p = false).

Definition port_ids (ports : list port_state) : list Z := pt_port_id <$> ports.

Record links_ok (w : worker) : Prop := {
  lk_distinct : NoDup (port_ids (rt_ports (wk_rt w)));
  lk_tracks : Forall (tracks (wk_nic w)) (rt_ports (wk_rt w))
}.

(** An event that decides nothing. *)
Definition idle_event (e : nic_event) : bool :=
  match e with NicStart _ rc | NicStop _ rc => truth rc | _ => true end.

Lemma idle_event_running e h port : idle_event e = true -> device_running (e :: h) port = device_running h port.
Proof.
  destruct e as [p rc|p rc| | | | |]; cbn; try done; intros Ht%truth_true; apply Z.eqb_neq in Ht; by rewrite Ht, andb_false_r.
Qed.

Lemma idle_event_links e w : idle_event e = true -> links_ok w -> links_ok (record_nic e w).
Proof.
  intros He [Hd Ht]. split; [done|]. eapply Forall_impl; [exact Ht|]. intros p [H1 H2]. split; [|done].
  cbn [wk_nic record_nic set_wk_nic]. by rewrite idle_event_running.
Qed.

Lemma port_at_lookup w i p : rt_ports (wk_rt w) !! i = Some p -> port_at w i = p.
Proof. intros H. unfold port_at. by apply nth_lookup_Some. Qed.

Lemma on_port_ports i f w p : rt_ports (wk_rt w) !! i = Some p -> rt_ports (wk_rt (on_port i f w)) = <[i := f p]> (rt_ports (wk_rt w)).
Proof.
  intros H. unfold on_port, on_rt, alter_port. cbn [wk_rt set_wk_rt rt_ports set_rt_ports]. revert i H.
  induction (rt_ports (wk_rt w)) as [|x l IH]; intros [|i] H; try done; [by injection H as ->|]. cbn in *. f_equal. by apply IH.
Qed.

Lemma on_port_lookup i f w p : rt_ports (wk_rt w) !! i = Some p -> rt_ports (wk_rt (on_port i f w)) !! i = Some (f p).
Proof. intros H. rewrite (on_port_ports i f w p H). apply list_lookup_insert_eq. by eapply lookup_lt_Some. Qed.

(** One device changes state, and the flags of its port with it. *)
Lemma switch_links h e i p f w w' : links_ok w -> wk_nic w = h -> rt_ports (wk_rt w) !! i = Some p -> pt_port_id (f p) = pt_port_id p ->
  wk_nic w' = e :: h -> rt_ports (wk_rt w') = <[i := f p]> (rt_ports (wk_rt w)) ->
  (forall q, q <> pt_port_id p -> device_running (e :: h) q = device_running h q) -> tracks (e :: h) (f p) -> links_ok w'.
Proof.
  intros [Hd Ht] Hh Hp Hid Hn Hports Hother Hnew. rewrite Hh in Ht. split; rewrite Hports.
  - unfold port_ids in *. rewrite list_fmap_insert, Hid. rewrite list_insert_id; [done|]. by rewrite list_lookup_fmap, Hp.
  - rewrite Hn. apply Forall_lookup. intros j q Hq. destruct (decide (j = i)) as [->|Hne].
    + rewrite list_lookup_insert_eq in Hq by (by eapply lookup_lt_Some). by injection Hq as <-.
    + rewrite list_lookup_insert_ne in Hq by done. rewrite Forall_lookup in Ht. destruct (Ht j q Hq) as [H1 H2]. split; [|done].
      rewrite H1, Hother; [done|]. intros Heq. apply Hne. apply (NoDup_lookup (port_ids (rt_ports (wk_rt w))) j i (pt_port_id p) Hd);
      unfold port_ids; rewrite list_lookup_fmap; [by rewrite Hq, <- Heq|by rewrite Hp].
Qed.

(** Flags that say nothing about the device. *)
Lemma same_flags_links i f w p : links_ok w -> rt_ports (wk_rt w) !! i = Some p ->
  (pt_port_id (f p), pt_started (f p)) = (pt_port_id p, pt_started p) -> (pt_admin_down (f p) = true -> pt_started p = false) -> links_ok (on_port i f w).
Proof.
  intros [Hd Ht] Hp [= Hid Hst] Hdown. split; rewrite (on_port_ports i f w p Hp).
  - unfold port_ids in *. rewrite list_fmap_insert, Hid. rewrite list_insert_id; [done|]. by rewrite list_lookup_fmap, Hp.
  - cbn [wk_nic on_port on_rt set_wk_rt]. apply Forall_insert; [done|]. rewrite Forall_lookup in Ht. destruct (Ht i p Hp) as [H1 H2].
    split; [by rewrite Hid, Hst|by rewrite Hst].
Qed.

Section links.
Context {D : Dpdk} {N : Nic}.

Lemma running_start h port q : q <> port -> device_running (NicStart port 0 :: h) q = device_running h q.
Proof. intros H. cbn. by destruct (Z.eqb_spec port q); [congruence|]. Qed.
Lemma running_stop h port q : q <> port -> device_running (NicStop port 0 :: h) q = device_running h q.
Proof. intros H. cbn. by destruct (Z.eqb_spec port q); [congruence|]. Qed.

(** A successful start, with the flags set after it. *)
Lemma start_links i f w p : links_ok w -> rt_ports (wk_rt w) !! i = Some p ->
  (pt_port_id (f p), pt_started (f p), pt_admin_down (f p)) = (pt_port_id p, true, false) ->
  links_ok (on_port i f (record_nic (NicStart (pt_port_id p) 0) w)).
Proof.
  intros Hl Hp [= Hid Hs Ha]. eapply (switch_links (wk_nic w) _ i p f w); [done|done|done|done|reflexivity|by rewrite (on_port_ports i f _ p)|..].
  - intros q Hq. by apply running_start.
  - split; [|by rewrite Ha]. rewrite Hs, Hid. cbn. by rewrite Z.eqb_refl.
Qed.

Lemma stop_links i f w p : links_ok w -> rt_ports (wk_rt w) !! i = Some p ->
  (pt_port_id (f p), pt_started (f p)) = (pt_port_id p, false) ->
  links_ok (on_port i f (record_nic (NicStop (pt_port_id p) 0) w)).
Proof.
  intros Hl Hp [= Hid Hs]. eapply (switch_links (wk_nic w) _ i p f w); [done|done|done|done|reflexivity|by rewrite (on_port_ports i f _ p)|..].
  - intros q Hq. by apply running_stop.
  - split; [|done]. rewrite Hs, Hid. cbn. by rewrite Z.eqb_refl.
Qed.

Lemma lookup_tracks w i p : links_ok w -> rt_ports (wk_rt w) !! i = Some p -> tracks (wk_nic w) p.
Proof. intros [_ H] Hp. rewrite Forall_lookup in H. by apply (H i). Qed.

Lemma link_up_links i w p : links_ok w -> rt_ports (wk_rt w) !! i = Some p ->
  match link_up i w with inl early => links_ok early.2 | inr w' => links_ok w' end.
Proof.
  intros Hl Hp. unfold link_up. rewrite (port_at_lookup w i p Hp). cbv zeta. destruct (_ && _); [done|]. unfold dev_start.
  destruct (truth (start_of _ _)) eqn:Er; [by apply idle_event_links|]. apply truth_false in Er. rewrite Er. by apply start_links.
Qed.

Lemma link_down_links i w p : links_ok w -> rt_ports (wk_rt w) !! i = Some p ->
  match link_down i w with inl early => links_ok early.2 | inr w' => links_ok w' end.
Proof.
  intros Hl Hp. unfold link_down. rewrite (port_at_lookup w i p Hp). cbv zeta. destruct (pt_admin_down p); [done|]. unfold dev_stop.
  destruct (truth (stop_of _ _)) eqn:Er; [by apply idle_event_links|]. apply truth_false in Er. rewrite Er. by apply stop_links.
Qed.

(** The worker is as it was but for the port [i], which is now [q]. *)
Definition port_becomes (i : nat) (q : port_state) (rt0 : app_runtime) (w : worker) : Prop :=
  wk_rt w = set_rt_ports (<[i := q]> (rt_ports rt0)) rt0.

Lemma port_unchanged i p w : rt_ports (wk_rt w) !! i = Some p -> port_becomes i p (wk_rt w) w.
Proof. intros H. unfold port_becomes. rewrite list_insert_id by done. by destruct (wk_rt w). Qed.

Lemma becomes_lookup i q rt0 w : (i < length (rt_ports rt0))%nat -> port_becomes i q rt0 w -> rt_ports (wk_rt w) !! i = Some q.
Proof. intros Hi ->. by apply list_lookup_insert_eq. Qed.

Lemma becomes_on_port i q f rt0 w : (i < length (rt_ports rt0))%nat -> port_becomes i q rt0 w -> port_becomes i (f q) rt0 (on_port i f w).
Proof.
  intros Hi H. assert (Hq := becomes_lookup i q rt0 w Hi H). unfold port_becomes.
  assert (He : wk_rt (on_port i f w) = set_rt_ports (rt_ports (wk_rt (on_port i f w))) (wk_rt w)) by done.
  rewrite He, (on_port_ports i f w q Hq), H. cbn [rt_ports set_rt_ports]. by rewrite list_insert_insert_eq.
Qed.

(** What an MTU change does to the flags of its port [p]. *)
Definition mtu_outcome (i : nat) (p : port_state) (rt0 : app_runtime) (x : Z * worker) : Prop :=
  links_ok x.2 /\ (exists s a, port_becomes i (p |> set_pt_started s |> set_pt_admin_down a) rt0 x.2) /\
  (x.1 = 0 -> port_becomes i p rt0 x.2).

Section mtu.
Context (i : nat) (p : port_state) (rt0 : app_runtime).
Hypothesis Hi : (i < length (rt_ports rt0))%nat.
Abbreviation now := (fun q w => port_becomes i q rt0 w).

Lemma set_flags q s a : pt_started q = s -> pt_admin_down q = a -> (q |> set_pt_started s |> set_pt_admin_down a) = q.
Proof. intros H1 H2. destruct q. cbn in *. by subst. Qed.

(** A stopped port, after the change failed: the device is restarted or the
    port is taken down. *)
Lemma mtu_recover_ok old rc w : truth rc = true -> links_ok w -> now (set_pt_started false p) w -> pt_admin_down p = false ->
  mtu_outcome i p rt0 (let w := (dev_set_mtu (pt_port_id p) old w).2 in
    let '(rc2, w) := dev_start (pt_port_id p) w in
    (rc, if truth rc2 then on_port i (set_pt_admin_down true) w else on_port i (set_pt_started true) w)).
Proof.
  intros Hrc Hl Hp Ha. unfold dev_set_mtu, dev_start. cbv zeta. cbn [snd]. set (w1 := record_nic (NicSetMtu _ _ _) w).
  assert (Hl1 : links_ok w1) by (by apply idle_event_links). assert (Hp1 : now (set_pt_started false p) w1) by done. clearbody w1.
  assert (Hlook := becomes_lookup _ _ _ _ Hi Hp1).
  split; [|split; [|intros H0; cbn in H0; by rewrite H0 in Hrc]]; cbn [snd]; destruct (truth (start_of _ _)) eqn:Er.
  - eapply same_flags_links; [by apply idle_event_links|exact Hlook|done|done].
  - apply truth_false in Er. rewrite Er. change (pt_port_id p) with (pt_port_id (set_pt_started false p)).
    apply start_links; [done|done|]. cbn. by rewrite Ha.
  - exists false, true. by apply (becomes_on_port i _ (set_pt_admin_down true)).
  - exists true, false. apply (becomes_on_port i _ (set_pt_started true)) with (w := record_nic (NicStart (pt_port_id p) (start_of (wk_nic w1) (pt_port_id p))) w1) in Hp1; [|done].
    destruct p. cbn in *. by subst.
Qed.

Lemma mtu_restart_ok mtu old w : links_ok w -> now p w -> pt_started p = true ->
  mtu_outcome i p rt0 (mtu_restart i (pt_port_id p) mtu old w).
Proof.
  intros Hl Hp Hs. assert (Hlook := becomes_lookup _ _ _ _ Hi Hp). assert (Ha : pt_admin_down p = false).
  { destruct (lookup_tracks w i p Hl Hlook) as [_ H]. destruct (pt_admin_down p); [|done]. rewrite H in Hs by done. done. }
  unfold mtu_restart, dev_stop. destruct (truth (stop_of _ _)) eqn:Er.
  { split; [by apply idle_event_links|]. split; [exists true, false; by rewrite set_flags|]. intros H0. cbn in H0. by rewrite H0 in Er. }
  apply truth_false in Er. rewrite Er. set (w2 := on_port _ _ _). assert (Hl2 : links_ok w2) by (by apply stop_links).
  assert (Hp2 : now (set_pt_started false p) w2) by (by apply (becomes_on_port i p (set_pt_started false))). clearbody w2.
  unfold dev_set_mtu at 1. set (w3 := record_nic _ w2). assert (Hl3 : links_ok w3) by (by apply idle_event_links).
  assert (Hp3 : now (set_pt_started false p) w3) by done. clearbody w3.
  destruct (truth (set_mtu_of _ _ _)) eqn:Esm; [rewrite Esm; by apply mtu_recover_ok|].
  unfold dev_start at 1. destruct (truth (start_of (wk_nic w3) _)) eqn:Est; rewrite ?Est.
  - apply mtu_recover_ok; [done|by apply idle_event_links|done|done].
  - apply truth_false in Est. rewrite Est. set (w4 := on_port _ _ _).
    assert (Hp4 : now p w4).
    { assert (H : now (set_pt_started true (set_pt_started false p)) w4) by (by apply (becomes_on_port i (set_pt_started false p) (set_pt_started true))).
      destruct p. cbn in *. by subst. }
    split; [|split; [exists true, false; cbn [snd]; by rewrite set_flags|done]].
    apply (start_links i _ w3 (set_pt_started false p)); [done|exact (becomes_lookup _ _ _ _ Hi Hp3)|]. cbn. by rewrite Ha.
Qed.

(** The last part: the device is asked for its MTU. *)
Lemma mtu_confirm_ok mtu w : links_ok w -> now p w ->
  let '(rc, w') := mtu_confirm i (pt_port_id p) mtu (pt_mtu p) w in
  links_ok w' /\ (rc = 0 -> now (set_pt_mtu mtu p) w' /\ get_mtu_of (wk_nic w) (pt_port_id p) = (0, mtu)) /\
  (rc <> 0 -> now p w' /\ exists rc' h, wk_nic w' = NicSetMtu (pt_port_id p) (pt_mtu p) rc' :: h).
Proof.
  intros Hl Hp. unfold mtu_confirm, dev_get_mtu, dev_set_mtu. destruct (get_mtu_of _ _) as [rc actual]. cbn [snd].
  destruct (truth rc) eqn:Er; cbn [orb].
  { split; [auto using idle_event_links|]. split; [intros ->; done|]. intros _. split; [done|]. by eexists _, _. }
  apply truth_false in Er as ->. destruct (Z.eqb_spec actual mtu) as [->|Hne]; cbn [negb].
  - split; [|split; [|done]].
    + eapply same_flags_links; [by apply idle_event_links|exact (becomes_lookup _ _ _ _ Hi Hp)|done|]. apply (lookup_tracks w i p Hl), (becomes_lookup _ _ _ _ Hi Hp).
    + intros _. split; [|done]. by apply (becomes_on_port i p (set_pt_mtu mtu)).
  - split; [auto using idle_event_links|]. split; [done|]. intros _. split; [done|]. by eexists _, _.
Qed.
End mtu.

(** The MTUs the code and the device allow. *)
Definition mtu_allowed (info : dev_info) (mtu : Z) : Prop :=
  68 <= mtu <= 1500 /\ (di_min_mtu info <> 0 -> di_min_mtu info <= mtu) /\ (di_max_mtu info <> 0 -> mtu <= di_max_mtu info).

(** How changing the MTU of the port [p] ends. *)
Record mtu_result (i : nat) (p : port_state) (mtu : Z) (w : worker) (x : Z * worker) : Prop := {
  mr_links : links_ok x.2;
  mr_done : x.1 = 0 -> wk_rt x.2 = set_rt_ports (<[i := set_pt_mtu mtu p]> (rt_ports (wk_rt w))) (wk_rt w) /\
    mtu_allowed (info_of (wk_nic w) (pt_port_id p)).2 mtu;
  mr_failed : x.1 <> 0 -> exists s a,
    wk_rt x.2 = set_rt_ports (<[i := p |> set_pt_started s |> set_pt_admin_down a]> (rt_ports (wk_rt w))) (wk_rt w)
}.

(** The calls with which a device takes an MTU, newest first: at once, or stopped
    in between because it was busy. *)
Definition mtu_accepted (port mtu : Z) (calls : list nic_event) : Prop :=
  calls = [NicSetMtu port mtu 0; NicInfo port] \/
  calls = [NicStart port 0; NicSetMtu port mtu 0; NicStop port 0; NicSetMtu port mtu (- EBUSY); NicInfo port].

Lemma mtu_confirm_calls i port mtu old w w' : mtu_confirm i port mtu old w = (0, w') ->
  wk_nic w' = NicGetMtu port :: wk_nic w /\ get_mtu_of (wk_nic w) port = (0, mtu).
Proof.
  unfold mtu_confirm, dev_get_mtu. destruct (get_mtu_of (wk_nic w) port) as [rc actual]. destruct (truth rc) eqn:Er; cbn [orb].
  - intros [= -> _]. done.
  - apply truth_false in Er as ->. destruct (Z.eqb_spec actual mtu) as [->|]; cbn [negb]; [by intros [= <-]|done].
Qed.

Lemma mtu_restart_calls i port mtu old w w' : mtu_restart i port mtu old w = (0, w') ->
  wk_nic w' = NicStart port 0 :: NicSetMtu port (u16 mtu) 0 :: NicStop port 0 :: wk_nic w.
Proof.
  unfold mtu_restart, dev_stop. destruct (truth (stop_of _ _)) eqn:E1; [intros H%(f_equal fst); cbn [fst] in H; by rewrite H in E1|]. apply truth_false in E1. rewrite E1.
  unfold dev_set_mtu at 1. destruct (truth (set_mtu_of _ _ _)) eqn:E2.
  { rewrite E2. unfold dev_start. intros H%(f_equal fst). cbn [fst] in H. by rewrite H in E2. }
  apply truth_false in E2. rewrite E2. unfold dev_start at 1. destruct (truth (start_of _ _)) eqn:E3; rewrite ?E3.
  { unfold dev_start. intros H%(f_equal fst). cbn [fst] in H. by rewrite H in E3. }
  apply truth_false in E3. rewrite E3. intros H%(f_equal snd). cbn [snd] in H. by rewrite <- H.
Qed.

Lemma mtu_set_calls i mtu w w' p : rt_ports (wk_rt w) !! i = Some p -> mtu_set i mtu w = (0, w') ->
  exists calls, mtu_accepted (pt_port_id p) mtu calls /\ wk_nic w' = NicGetMtu (pt_port_id p) :: calls ++ wk_nic w /\
    get_mtu_of (calls ++ wk_nic w) (pt_port_id p) = (0, mtu).
Proof.
  intros Hp. unfold mtu_set. rewrite (port_at_lookup w i p Hp). cbv zeta. destruct ((mtu <? 68) || (1500 <? mtu)) eqn:Eb; [done|]. bool_hyps.
  assert (Eu : u16 mtu = mtu) by zlia. unfold dev_info_get. destruct (info_of _ _) as [rc info]. destruct (truth rc) eqn:Er; [intros [= -> _]; done|].
  destruct ((truth (di_min_mtu info) && _) || _); [done|]. unfold dev_set_mtu at 1. set (w1 := record_nic (NicSetMtu _ _ _) _).
  assert (Hend : forall rc2 w2 calls, mtu_accepted (pt_port_id p) mtu calls -> (rc2 = 0 -> wk_nic w2 = calls ++ wk_nic w) ->
    (if truth rc2 then (rc2, w2) else mtu_confirm i (pt_port_id p) mtu (pt_mtu p) w2) = (0, w') ->
    exists calls, mtu_accepted (pt_port_id p) mtu calls /\ wk_nic w' = NicGetMtu (pt_port_id p) :: calls ++ wk_nic w /\ get_mtu_of (calls ++ wk_nic w) (pt_port_id p) = (0, mtu)).
  { intros rc2 w2 calls Hc Hw. destruct (truth rc2) eqn:E2; [intros [= -> _]; done|]. apply truth_false in E2 as ->. specialize (Hw eq_refl).
    intros [H1 H2]%mtu_confirm_calls. exists calls. by rewrite H1, <- Hw. }
  destruct ((_ =? - EBUSY) && pt_started p) eqn:Eb2.
  - apply andb_true_iff in Eb2 as [Hbusy%Z.eqb_eq _]. destruct (mtu_restart _ _ _ _ w1) as [rc2 w2] eqn:Em. apply (Hend rc2 w2 [NicStart (pt_port_id p) 0; NicSetMtu (pt_port_id p) mtu 0; NicStop (pt_port_id p) 0; NicSetMtu (pt_port_id p) mtu (- EBUSY); NicInfo (pt_port_id p)]); [by right|].
    intros ->. apply mtu_restart_calls in Em. rewrite Em. unfold w1. by rewrite Hbusy, Eu.
  - apply (Hend _ w1 [NicSetMtu (pt_port_id p) mtu 0; NicInfo (pt_port_id p)]); [by left|]. intros Hz. unfold w1. by rewrite Hz, Eu.
Qed.

Lemma mtu_set_ok i mtu w p : links_ok w -> rt_ports (wk_rt w) !! i = Some p -> mtu_result i p mtu w (mtu_set i mtu w).
Proof.
  intros Hl Hp. assert (Hi := lookup_lt_Some _ _ _ Hp). assert (Hsame := port_unchanged i p w Hp).
  assert (Hno : forall rc w', rc <> 0 -> links_ok w' -> wk_rt w' = wk_rt w -> mtu_result i p mtu w (rc, w')).
  { intros rc w' Hrc Hl' Hrt. constructor; [done|done|]. intros _. exists (pt_started p), (pt_admin_down p). cbn [snd]. rewrite set_flags, Hrt by done. exact Hsame. }
  unfold mtu_set. rewrite (port_at_lookup w i p Hp). cbv zeta.
  destruct ((mtu <? 68) || (1500 <? mtu)) eqn:Eb; [by apply Hno|]. bool_hyps. unfold dev_info_get.
  destruct (info_of (wk_nic w) (pt_port_id p)) as [rc info] eqn:Einfo. destruct (truth rc) eqn:Er.
  { apply truth_true in Er. apply Hno; [done|by apply idle_event_links|done]. }
  destruct ((truth (di_min_mtu info) && _) || _) eqn:Ei.
  { apply Hno; [done|by apply idle_event_links|done]. }
  assert (Hallow : mtu_allowed info mtu).
  { apply orb_false_iff in Ei as [E1 E2]. split; [lia|]. split; intros Hne%truth_true; rewrite Hne in *; cbn [andb] in *; lia. }
  unfold dev_set_mtu at 1. set (w1 := record_nic (NicSetMtu _ _ _) _). assert (Hl1 : links_ok w1) by (unfold w1; auto using idle_event_links).
  assert (Hp1 : port_becomes i p (wk_rt w) w1) by exact Hsame. clearbody w1.
  assert (Hend : forall x, mtu_outcome i p (wk_rt w) x ->
    mtu_result i p mtu w (let '(rc, w2) := x in if truth rc then (rc, w2) else mtu_confirm i (pt_port_id p) mtu (pt_mtu p) w2)).
  { intros [rc2 w2] (Hl2 & Hany & Hok). destruct (truth rc2) eqn:Er2.
    - apply truth_true in Er2. by constructor.
    - apply truth_false in Er2 as ->. specialize (Hok eq_refl). assert (Hc := mtu_confirm_ok i p (wk_rt w) Hi mtu w2 Hl2 Hok).
      destruct (mtu_confirm _ _ _ _ _) as [rc3 w3]. destruct Hc as (Hl3 & Hgood & Hbad). constructor; [done|..]; cbn [fst snd].
      + intros Hrc0. destruct (Hgood Hrc0) as [Hw Hg]. rewrite Einfo. by split.
      + intros Hne. destruct (Hbad Hne) as [Hw _]. exists (pt_started p), (pt_admin_down p). by rewrite set_flags. }
  apply Hend. destruct ((_ =? _) && pt_started p) eqn:Eb2.
  - apply andb_true_iff in Eb2 as [_ Hs]. by apply mtu_restart_ok.
  - split; [done|]. split; [|done]. exists (pt_started p), (pt_admin_down p). by rewrite set_flags.
Qed.
End links.

(** * The whole step *)

(** Nothing changed that concerns a link. *)
Definition calm (w w' : worker) : Prop :=
  (forall port, device_running (wk_nic w') port = device_running (wk_nic w) port) /\
  port_base <$> rt_ports (wk_rt w') = port_base <$> rt_ports (wk_rt w).

#[export] Instance calm_preorder : PreOrder calm.
Proof. split; [done|]. intros a b c [H1 H2] [H3 H4]. split; [intros port; by rewrite H3|congruence]. Qed.

Lemma calm_links w w' : calm w w' -> links_ok w -> links_ok w'.
Proof.
  intros [Hr Hp] [Hd Ht].
  assert (Hf : forall i q, rt_ports (wk_rt w') !! i = Some q -> exists p, rt_ports (wk_rt w) !! i = Some p /\ port_base q = port_base p).
  { intros i q Hq. assert (H : (port_base <$> rt_ports (wk_rt w')) !! i = Some (port_base q)) by (by rewrite list_lookup_fmap, Hq).
    rewrite Hp, list_lookup_fmap in H. destruct (rt_ports (wk_rt w) !! i) as [p|] eqn:E; [|discriminate H].
    exists p. split; [done|]. symmetry. apply (inj Some). exact H. }
  split.
  - unfold port_ids in *. assert (H : forall l, pt_port_id <$> l = pt_port_id <$> (port_base <$> l)) by (intros l; by rewrite <- list_fmap_compose).
    rewrite (H (rt_ports (wk_rt w'))), Hp, <- H. exact Hd.
  - apply Forall_lookup. intros i q (p & Hl & Hb)%Hf. rewrite Forall_lookup in Ht. destruct (Ht i p Hl) as [H1 H2].
    assert (Hs : pt_started q = pt_started p) by exact (f_equal pt_started Hb).
    assert (Ha : pt_admin_down q = pt_admin_down p) by exact (f_equal pt_admin_down Hb).
    assert (Hi : pt_port_id q = pt_port_id p) by exact (f_equal pt_port_id Hb).
    split; [by rewrite Hs, Hi, Hr|by rewrite Hs, Ha].
Qed.

(** Two states with the same books have the same base. *)
Lemma idle_same_base b0 L L' rt rt' : idle b0 L rt -> idle b0 L' rt' -> base rt' = base rt.
Proof. intros [[_ _ _ [_ H1]] _] [[_ _ _ [_ H2]] _]. congruence. Qed.

Lemma base_ports rt rt' : base rt' = base rt -> port_base <$> rt_ports rt' = port_base <$> rt_ports rt.
Proof. intros H. exact (f_equal snd H). Qed.
Lemma base_network rt rt' : base rt' = base rt -> rt_network rt' = rt_network rt.
Proof. intros H. exact (f_equal (fun x => x.1.1.1) H). Qed.

Section step.
Context {D : Dpdk} {DL : DpdkLaws} {N : Nic}.

Lemma check_carriers_nic l : forall w port, device_running (wk_nic (foldl check_carrier w l)) port = device_running (wk_nic w) port.
Proof.
  induction l as [|i l IH]; intros w port; [done|]. cbn [foldl]. rewrite IH. unfold check_carrier, link_get_nowait.
  destruct (link_of _ _) as [rc status]. by destruct (_ && _).
Qed.

Lemma scan_carrier_calm b0 L w : idle b0 L (wk_rt w) -> calm w (scan_carrier w) /\ base (wk_rt (scan_carrier w)) = base (wk_rt w).
Proof.
  intros H. assert (Hb := idle_same_base _ _ _ _ _ H (scan_carrier_held L b0 w H)). split; [|done]. split; [|by apply base_ports].
  intros port. unfold scan_carrier, timer, on_rt_rc. destruct (timer_cycles _) as [now rt']. destruct (_ <? _); [done|]. by rewrite check_carriers_nic.
Qed.

Lemma capture_links_nic ports : forall w port, device_running (wk_nic (capture_links ports w).2) port = device_running (wk_nic w) port.
Proof.
  induction ports as [|p ports IH]; intros w port; [done|]. cbn [capture_links]. unfold capture_link, link_get_nowait, stats_get, dev_info_get.
  destruct (link_of _ _) as [rc status]. destruct (info_of _ _) as [rc_info info]. set (w1 := record_nic _ _). assert (H := IH w1 port).
  destruct (capture_links ports w1) as [links w2]. exact H.
Qed.

Lemma capture_calm b0 L r w : idle b0 L (wk_rt w) -> calm w (capture r w).2 /\ base (wk_rt (capture r w).2) = base (wk_rt w).
Proof.
  intros H. assert (Hb := idle_same_base _ _ _ _ _ H (capture_held L b0 r w H)). split; [|done]. split; [|by apply base_ports].
  intros port. unfold capture, timer, on_rt_rc. destruct (timer_cycles (wk_rt w)) as [now rt']. cbv zeta.
  assert (H1 := capture_links_nic (rt_ports (wk_rt w)) (set_wk_rt rt' w) port). destruct (capture_links _ _) as [links w2].
  destruct (if _ && _ then _ else _). exact H1.
Qed.

Lemma port_named_lookup name ports dev : port_named name ports = Some dev -> exists p, ports !! dev = Some p /\ pt_name p = c_string name.
Proof.
  unfold port_named. set (f := fun found '(i, p) => _).
  assert (H : forall l acc, (forall d, acc = Some d -> exists p, ports !! d = Some p /\ pt_name p = c_string name) ->
    (forall i p, (i, p) ∈ l -> ports !! i = Some p) -> foldl f acc l = Some dev -> exists p, ports !! dev = Some p /\ pt_name p = c_string name).
  { induction l as [|[i p] l IH]; intros acc Hacc Hl; [apply Hacc|]. cbn [foldl]. apply IH.
    - intros d. cbn. destruct (String.eqb_spec (c_string name) (pt_name p)) as [E|]; [|apply Hacc]. intros [= <-]. exists p.
      split; [apply Hl; set_solver|done].
    - intros j q Hj. apply Hl. set_solver. }
  apply H; [done|]. intros i p Hin. apply list_elem_of_lookup in Hin as (k & Hk). rewrite list_lookup_imap in Hk.
  destruct (ports !! k) as [q|] eqn:E; [|done]. cbn in Hk. by injection Hk as <- <-.
Qed.

Lemma link_operation_links dev r w p : links_ok w -> rt_ports (wk_rt w) !! dev = Some p ->
  match link_operation dev r w with inl early => links_ok early.2 | inr w' => links_ok w' end.
Proof.
  intros Hl Hp. unfold link_operation. destruct (_ =? 1).
  - destruct (_ <? _); [done|]. destruct (truth _); [by eapply link_up_links|by eapply link_down_links].
  - destruct (_ =? 2); [|done]. assert (H := mtu_set_ok dev (field r F_IP) w p Hl Hp). destruct (mtu_set _ _ _) as [rc w'].
    destruct (truth rc); apply H.
Qed.

Lemma admin_worker_operation_links b r w : held [] b w -> links_ok w -> links_ok (admin_worker_operation r w).2.
Proof.
  intros Hh Hl. unfold admin_worker_operation. destruct (port_named _ _) as [dev|] eqn:En; [|done].
  apply port_named_lookup in En as (p & Hp & _). destruct (_ && _).
  - assert (H1 := link_operation_links dev r w p Hl Hp). assert (Hh1 := link_operation_held [] b dev r w Hh).
    destruct (link_operation _ _ _) as [[rc w']|w']; [done|]. cbn [snd]. eapply calm_links; [|exact H1]. split; [done|].
    apply base_ports. eapply (idle_same_base (mk_books b (base (wk_rt w'))) [] []); [exact Hh1|].
    apply event_held. by apply (neighbour_cancel_own (OW := stack_ownership _)).
  - destruct (negb _); [done|]. unfold on_rt_rc. assert (H1 := neighbour_operation_held [] _ (Z.of_nat dev) r (wk_rt w) Hh).
    destruct (neighbour_operation _ _ _) as [rc rt']. cbn [snd] in *. eapply calm_links; [|exact Hl]. split; [done|]. apply base_ports.
    by eapply idle_same_base.
Qed.
End step.

(** * The event ring *)

(** The event of a sequence number; the ring keeps the last [ADMIN_EVENT_MAX]. *)
Definition event_at (es : admin_events) (n : Z) : option admin_event :=
  es_entries es !! Z.to_nat ((n - 1) mod ADMIN_EVENT_MAX).

Record ring_wf (es : admin_events) : Prop := {
  rw_length : length (es_entries es) = Z.to_nat ADMIN_EVENT_MAX;
  rw_sequence : 0 <= es_sequence es;
  rw_event : forall n, 1 <= n -> es_sequence es - ADMIN_EVENT_MAX < n <= es_sequence es ->
    exists e, event_at es n = Some e /\ ev_sequence e = n
}.

Lemma ring_index n : (Z.to_nat ((n - 1) mod ADMIN_EVENT_MAX) < Z.to_nat ADMIN_EVENT_MAX)%nat.
Proof. unfold ADMIN_EVENT_MAX. assert (H := Z.mod_pos_bound (n - 1) 128 ltac:(lia)). lia. Qed.

Lemma ring_index_ne n m : n < m < n + ADMIN_EVENT_MAX -> Z.to_nat ((n - 1) mod ADMIN_EVENT_MAX) <> Z.to_nat ((m - 1) mod ADMIN_EVENT_MAX).
Proof.
  unfold ADMIN_EVENT_MAX. intros H E. apply Z2Nat.inj in E; [|apply Z.mod_pos_bound; lia..]. Z.div_mod_to_equations. lia.
Qed.

Definition new_event (n : Z) (c : net_config) (group id act : Z) : admin_event :=
  zero_admin_event |> set_ev_sequence n |> set_ev_generation (nc_generation c) |> set_ev_group group
    |> set_ev_id id |> set_ev_action act |> set_ev_dev NET_IIF_NONE.

Lemma emit_events rt group id act c : rt_network rt = Some c -> 0 <= es_sequence (rt_events rt) < UINT64_MAX ->
  admin_event_emit rt group id act = set_rt_events (rt_events rt |> set_es_sequence (es_sequence (rt_events rt) + 1)
    |> set_es_entries (<[Z.to_nat ((es_sequence (rt_events rt) + 1 - 1) mod ADMIN_EVENT_MAX) :=
         new_event (es_sequence (rt_events rt) + 1) c group id act]> (es_entries (rt_events rt)))) rt.
Proof.
  intros Hn Hs. unfold admin_event_emit. rewrite Hn. cbv zeta.
  rewrite (u64_id (_ + 1)) by (unfold is_u64, UINT64_MAX in *; lia). rewrite u64_id by (unfold is_u64, UINT64_MAX in *; lia). done.
Qed.

Section emit.
Context (es : admin_events) (e : admin_event).
Hypothesis Hring : ring_wf es.
Hypothesis He : ev_sequence e = es_sequence es + 1.
Definition appended : admin_events := es |> set_es_sequence (es_sequence es + 1)
  |> set_es_entries (<[Z.to_nat ((es_sequence es + 1 - 1) mod ADMIN_EVENT_MAX) := e]> (es_entries es)).

Lemma appended_last : event_at appended (es_sequence es + 1) = Some e.
Proof. unfold event_at, appended. cbn [es_entries set_es_entries]. apply list_lookup_insert_eq. rewrite (rw_length _ Hring). apply ring_index. Qed.

Lemma appended_before n : es_sequence es + 1 - ADMIN_EVENT_MAX < n <= es_sequence es -> event_at appended n = event_at es n.
Proof.
  intros Hn. unfold event_at, appended. cbn [es_entries set_es_entries]. apply list_lookup_insert_ne. intros E. symmetry in E.
  revert E. apply ring_index_ne. lia.
Qed.

Lemma appended_wf : ring_wf appended.
Proof.
  destruct Hring as [Hl Hs Hev]. split.
  - unfold appended. cbn [es_entries set_es_entries]. by rewrite length_insert.
  - unfold appended. cbn. lia.
  - intros n Hn1 Hn. unfold appended in Hn. cbn [es_sequence set_es_sequence set_es_entries] in Hn.
    destruct (decide (n = es_sequence es + 1)) as [->|]; [exists e; split; [apply appended_last|done]|].
    rewrite appended_before by lia. apply Hev; lia.
Qed.
End emit.

(** Rewriting the details of the last event keeps the ring. *)
Lemma described_events rt r : es_sequence (rt_events rt) <= UINT64_MAX -> 1 <= es_sequence (rt_events rt) ->
  rt_events (describe_change r rt) = set_es_entries (alter (fun e => e |> set_ev_ip (field r F_IP) |> set_ev_prefix (field r F_PREFIX)
    |> set_ev_table (field r F_TABLE) |> set_ev_dev (match port_named (rq_dev r) (rt_ports rt) with Some d => Z.of_nat d | None => ev_dev e end))
    (Z.to_nat ((es_sequence (rt_events rt) - 1) mod ADMIN_EVENT_MAX)) (es_entries (rt_events rt))) (rt_events rt).
Proof.
  intros H1 H2. unfold describe_change. cbv zeta. rewrite u64_id by (unfold is_u64, UINT64_MAX in *; lia). done.
Qed.

(** The event of a change, as [admin_progress] completes it. *)
Definition change_event (n : Z) (c : net_config) (r : admin_request) (ports : list port_state) : admin_event :=
  new_event n c (rq_group r) (field r F_PREF) (rq_verb r)
    |> set_ev_ip (field r F_IP) |> set_ev_prefix (field r F_PREFIX) |> set_ev_table (field r F_TABLE)
    |> set_ev_dev (match port_named (rq_dev r) ports with Some d => Z.of_nat d | None => NET_IIF_NONE end).

(** A change is announced by two events of the new generation. *)
Record announced (r : admin_request) (next : net_config) (ports : list port_state) (es es' : admin_events) : Prop := {
  an_ring : ring_wf es';
  an_sequence : es_sequence es' = es_sequence es + 2;
  an_change : event_at es' (es_sequence es + 1) = Some (change_event (es_sequence es + 1) next r ports);
  an_status : event_at es' (es_sequence es + 2) = Some (new_event (es_sequence es + 2) next ADM_STATUS 0 ADM_APPLY);
  an_before : forall k, es_sequence es + 2 - ADMIN_EVENT_MAX < k <= es_sequence es -> event_at es' k = event_at es k
}.

Lemma alter_insert {A} (f : A -> A) l i x : (i < length l)%nat -> alter f i (<[i := x]> l) = <[i := f x]> l.
Proof. revert i. induction l as [|y l IH]; intros [|i] H; cbn in *; [lia..|done|]. f_equal. apply IH. lia. Qed.

Lemma announce rt r next : rt_network rt = Some next -> ring_wf (rt_events rt) -> es_sequence (rt_events rt) + 2 <= UINT64_MAX ->
  exists es', admin_event_emit (describe_change r (admin_event_emit rt (rq_group r) (field r F_PREF) (rq_verb r))) ADM_STATUS 0 ADM_APPLY =
    set_rt_events es' rt /\ announced r next (rt_ports rt) (rt_events rt) es'.
Proof.
  intros Hn Hring Hmax. assert (Hs := rw_sequence _ Hring). set (n := es_sequence (rt_events rt)) in *.
  rewrite (emit_events rt _ _ _ next Hn) by (fold n; lia). fold n.
  set (e1 := change_event (n + 1) next r (rt_ports rt)). set (es1 := appended (rt_events rt) e1).
  match goal with |- context[describe_change r ?x] => set (rt1 := x) end.
  assert (H1 : describe_change r rt1 = set_rt_events es1 rt).
  { assert (He : rt_events (describe_change r rt1) = es1).
    { rewrite described_events by (unfold rt1; cbn; lia). unfold rt1, es1, appended. cbn [rt_events set_rt_events es_sequence set_es_sequence set_es_entries es_entries rt_ports].
      unfold set_es_entries, set_es_sequence. cbn [es_sequence es_entries]. f_equal. rewrite alter_insert; [|rewrite (rw_length _ Hring); apply ring_index].
      f_equal. }
    rewrite <- He. reflexivity. }
  rewrite H1. assert (Hr1 : ring_wf es1) by (by apply appended_wf).
  rewrite (emit_events _ _ _ _ next) by (first [done|unfold es1, appended; cbn; fold n; lia]).
  set (e2 := new_event (n + 2) next ADM_STATUS 0 ADM_APPLY). set (es2 := appended es1 e2).
  assert (Hseq1 : es_sequence es1 = n + 1) by done. replace (n + 1 + 1) with (n + 2) in * by lia.
  exists es2. split.
  { cbn [rt_events set_rt_events]. unfold es2, appended. rewrite !Hseq1. replace (n + 1 + 1) with (n + 2) by lia. reflexivity. }
  assert (Hr2 : ring_wf es2) by (apply appended_wf; [done|cbn; lia]). split; fold n.
  - done.
  - unfold es2, appended. cbn. lia.
  - unfold es2. rewrite appended_before by (unfold ADMIN_EVENT_MAX; lia). by apply (appended_last (rt_events rt) e1).
  - assert (H := appended_last es1 e2 Hr1). rewrite Hseq1 in H. by replace (n + 1 + 1) with (n + 2) in H by lia.
  - intros k Hk. unfold es2. rewrite appended_before by lia. unfold es1. rewrite appended_before by (fold n; lia). done.
Qed.

(** * Publication *)

(** Every socket bound to an address keeps it. *)
Definition keeps_bindings (rt : app_runtime) (next : net_config) : Prop :=
  forall s, s ∈ live_sockets rt -> bound s = true -> exists a, a ∈ nc_addresses next /\ na_ip a = sa_ip_be (so_local s).

Lemma removed_binding_spec rt next : removed_binding rt next = false <-> keeps_bindings rt next.
Proof.
  unfold removed_binding, keeps_bindings. rewrite <- not_true_iff_false, existsb_exists. split.
  - intros Hno s Hs Hb. destruct (existsb (fun a => na_ip a =? sa_ip_be (so_local s)) (nc_addresses next)) eqn:E.
    + apply existsb_exists in E as (a & Ha & Hip). exists a. split; [by apply list_elem_of_In|lia].
    + destruct Hno. exists s. split; [by apply list_elem_of_In|]. by rewrite Hb, E.
  - intros H (s & Hs & Hbad). apply andb_true_iff in Hbad as [Hb Hne]. apply list_elem_of_In in Hs.
    destruct (H s Hs Hb) as (a & Ha & Hip). apply negb_true_iff in Hne. apply not_true_iff_false in Hne. apply Hne, existsb_exists.
    exists a. split; [by apply list_elem_of_In|lia].
Qed.

(** What publication leaves as it is. *)
Definition beside_publication (rt : app_runtime) : list port_state * socket_subsystem * neighbour_table * route_table * bool :=
  (rt_ports rt, rt_sockets rt, rt_neighbours rt, rt_routes rt, rt_ipv4_forwarding rt).

Record published_change (r : admin_request) (old next : net_config) (rt rt' : app_runtime) : Prop := {
  pc_network : rt_network rt' = Some next;
  pc_counters : rt_acl_stats rt' = net_acl_counters_migrate old next (rt_acl_stats rt);
  pc_events : announced r next (rt_ports rt) (rt_events rt) (rt_events rt');
  pc_beside : beside_publication rt' = beside_publication rt;
  pc_waiting : if reroutes r then pending_ids (rt_pending_neighbours rt') = [] else rt_pending_neighbours rt' = rt_pending_neighbours rt
}.

Section publication.
Context {D : Dpdk}.

Lemma publish_spec r old next rt : rt_network rt = Some old -> ring_wf (rt_events rt) -> es_sequence (rt_events rt) + 2 <= UINT64_MAX ->
  length (rt_pending_neighbours rt) = NEIGHBOUR_PENDING_MAX -> published_change r old next rt (publish r next rt).
Proof.
  intros Hn Hring Hmax Hlen. unfold publish. rewrite Hn. cbv zeta. cbn [default]. unfold id.
  set (rt2 := set_rt_network _ _). set (rt3 := if reroutes r then _ else _).
  assert (Hc : cancels rt2 rt3) by (unfold rt3; destruct (reroutes r); [apply neighbour_fini_cancels|done]).
  assert (Hev : rt_events rt3 = rt_events rt) by exact (f_equal rt_events Hc).
  assert (Hports : rt_ports rt3 = rt_ports rt) by exact (f_equal rt_ports Hc).
  destruct (announce rt3 r next) as (es' & -> & Ha); [exact (f_equal rt_network Hc)|by rewrite Hev|by rewrite Hev|].
  rewrite Hev, Hports in Ha. split; cbn [rt_network rt_acl_stats rt_events rt_pending_neighbours set_rt_events].
  - exact (f_equal rt_network Hc).
  - exact (f_equal rt_acl_stats Hc).
  - exact Ha.
  - exact (f_equal beside_publication Hc).
  - unfold rt3. destruct (reroutes r); [|done]. by apply neighbour_fini_empty.
Qed.

(** The configuration a job asks to publish may replace the current one. *)
Definition may_publish (w : worker) (old next : net_config) : Prop :=
  nc_generation next = nc_generation old + 1 /\ keeps_bindings (wk_rt w) next.

Definition refused_by (j : admin_job) (w : worker) (x : admin_job * worker) : Prop :=
  x.2 = w /\ jb_result x.1 <> 0 /\ x.1 = set_jb_result (jb_result x.1) j.

Record published_by (j : admin_job) (block : nat) (old next : net_config) (w : worker) (x : admin_job * worker) : Prop := {
  pb_job : x.1 = (j |> set_jb_retired (Some (wk_published w, old)) |> set_jb_result 0);
  pb_worker : x.2 = (w |> set_wk_rt (wk_rt x.2) |> set_wk_published block);
  pb_change : published_change (jb_request j) old next (wk_rt w) (wk_rt x.2)
}.

Lemma activate_spec j w block next old : jb_next j = Some (block, next) -> rt_network (wk_rt w) = Some old ->
  ring_wf (rt_events (wk_rt w)) -> es_sequence (rt_events (wk_rt w)) + 2 <= UINT64_MAX -> 0 <= nc_generation old < UINT64_MAX ->
  length (rt_pending_neighbours (wk_rt w)) = NEIGHBOUR_PENDING_MAX ->
  (may_publish w old next -> published_by j block old next w (activate j w)) /\
  (~ may_publish w old next -> refused_by j w (activate j w)).
Proof.
  intros Hj Hn Hring Hmax Hg Hlen. unfold activate, published. rewrite Hj, Hn. cbn [default]. unfold id.
  rewrite u64_id by (unfold is_u64, UINT64_MAX in *; lia). destruct (Z.eqb_spec (nc_generation next) (nc_generation old + 1)) as [He|He]; cbn [negb].
  - destruct (removed_binding (wk_rt w) next) eqn:Er.
    + split; [|done]. intros [_ Hk%removed_binding_spec]. congruence.
    + apply removed_binding_spec in Er. split; [|intros H; by destruct H]. intros _. split; [done|done|by apply publish_spec].
  - split; [by intros [? _]|]. done.
Qed.
End publication.

(** * The mailbox protocol, from the worker's side *)

Definition sans_events (rt : app_runtime) : app_runtime := set_rt_events zero_admin_events rt.

Lemma emit_sans rt group id act : sans_events (admin_event_emit rt group id act) = sans_events rt.
Proof. unfold admin_event_emit. by destruct (rt_network rt). Qed.

Lemma emit_network rt group id act : rt_network (admin_event_emit rt group id act) = rt_network rt.
Proof. exact (f_equal rt_network (emit_sans rt group id act)). Qed.
Lemma cancels_network rt rt' : cancels rt rt' -> rt_network rt' = rt_network rt.
Proof. intros H. exact (f_equal rt_network H). Qed.

Section protocol.
Context {D : Dpdk} {DL : DpdkLaws} {N : Nic}.

Lemma publish_config r next rt : rt_network (publish r next rt) = Some next /\ beside_publication (publish r next rt) = beside_publication rt.
Proof.
  unfold publish. cbv zeta. set (rt2 := set_rt_network _ _). set (rt3 := if reroutes r then _ else _).
  assert (Hc : cancels rt2 rt3) by (unfold rt3; destruct (reroutes r); [apply neighbour_fini_cancels|done]).
  match goal with |- rt_network ?x = _ /\ _ => assert (H : sans_events x = sans_events rt3) end.
  { rewrite emit_sans. unfold describe_change. cbv zeta. etransitivity; [|apply (emit_sans rt3 (rq_group r) (field r F_PREF) (rq_verb r))]. done. }
  assert (Hn := f_equal rt_network H). assert (Hb := f_equal beside_publication H). split.
  - etransitivity; [exact Hn|]. exact (f_equal rt_network Hc).
  - etransitivity; [exact Hb|]. exact (f_equal beside_publication Hc).
Qed.

Lemma beside_ports rt rt' : beside_publication rt' = beside_publication rt -> rt_ports rt' = rt_ports rt.
Proof. intros H. exact (f_equal (fun x => x.1.1.1.1) H). Qed.
Lemma keeps_bindings_beside rt rt' next : beside_publication rt' = beside_publication rt -> keeps_bindings rt next -> keeps_bindings rt' next.
Proof.
  intros H Hk. assert (Hs : rt_sockets rt' = rt_sockets rt) by exact (f_equal (fun x => x.1.1.1.2) H).
  unfold keeps_bindings, live_sockets in *. by rewrite Hs.
Qed.

(** What becomes of the published configuration: [changed] when the job was an
    activation that succeeded. *)
Record config_outcome (j : admin_job) (w : worker) (j' : admin_job) (w' : worker) : Prop := {
  co_changed : jb_type j = ADMIN_ACTIVATE -> jb_result j' = 0 -> exists block next old,
    jb_next j = Some (block, next) /\ rt_network (wk_rt w) = Some old /\ nc_generation next = u64 (nc_generation old + 1) /\
    keeps_bindings (wk_rt w') next /\ jb_retired j' = Some (wk_published w, old) /\
    wk_published w' = block /\ rt_network (wk_rt w') = Some next;
  co_kept : jb_type j <> ADMIN_ACTIVATE \/ jb_result j' <> 0 ->
    jb_retired j' = jb_retired j /\ wk_published w' = wk_published w /\ rt_network (wk_rt w') = rt_network (wk_rt w)
}.

(** A worker between two steps, with a configuration published. *)
Record worker_ok (b : Z -> Z) (w : worker) : Prop := {
  wo_held : held [] b w;
  wo_links : links_ok w;
  wo_config : is_Some (rt_network (wk_rt w))
}.

(** The job after the middle part of a step. *)
Definition job_step (j : admin_job) (w : worker) : admin_job * worker :=
  match jb_type j with
  | ADMIN_ACTIVATE => activate j w
  | ADMIN_HARDWARE => let '(rc, w) := admin_worker_operation (jb_request j) w in (set_jb_result rc j, w)
  | ADMIN_READ => (j, w)
  end.

Lemma admin_worker_operation_network b r w : held [] b w ->
  rt_network (wk_rt (admin_worker_operation r w).2) = rt_network (wk_rt w) /\ wk_published (admin_worker_operation r w).2 = wk_published w.
Proof.
  intros Hh. unfold admin_worker_operation. destruct (port_named _ _) as [dev|]; [|done]. destruct (_ && _).
  - assert (Hk := link_operation_keeps (fun w' => rt_network (wk_rt w') = rt_network (wk_rt w) /\ wk_published w' = wk_published w)
      (fun e w' H => H) (fun i f w' _ H => H) dev r w (conj eq_refl eq_refl)).
    destruct (link_operation _ _ _) as [[rc w']|w']; [done|]. cbn [snd] in *. destruct Hk as [Hn Hp]. split; [|done]. rewrite <- Hn.
    cbn [wk_rt on_rt set_wk_rt]. rewrite emit_network. by apply cancels_network, neighbour_cancel_cancels.
  - destruct (negb _); [done|]. unfold on_rt_rc. assert (H1 := neighbour_operation_held [] _ (Z.of_nat dev) r (wk_rt w) Hh).
    destruct (neighbour_operation _ _ _) as [rc rt']. cbn [snd] in *. split; [|done]. apply base_network. by eapply idle_same_base.
Qed.

Lemma job_step_ok b j w : worker_ok b w -> jb_result j = 0 ->
  let '(j', w') := job_step j w in
  worker_ok b w' /\ config_outcome j w j' w' /\
  (jb_type j', jb_request j', jb_next j') = (jb_type j, jb_request j, jb_next j).
Proof.
  intros [Hh Hl Hc] Hr. unfold job_step. destruct (jb_type j) eqn:Et; rewrite <- Et.
  - split; [done|]. split; [|done]. split; [congruence|done].
  - unfold activate. assert (Hno : forall rc, rc <> 0 -> worker_ok b w /\ config_outcome j w (set_jb_result rc j) w /\
      (jb_type (set_jb_result rc j), jb_request (set_jb_result rc j), jb_next (set_jb_result rc j)) = (jb_type j, jb_request j, jb_next j)).
    { intros rc Hrc. split; [done|]. split; [|done]. split; [done|done]. }
    destruct (jb_next j) as [[block next]|] eqn:En; [|by apply Hno].
    destruct (Z.eqb_spec (nc_generation next) (u64 (nc_generation (published w) + 1))) as [Hg|]; cbn [negb]; [|by apply Hno].
    destruct (removed_binding (wk_rt w) next) eqn:Eb; [by apply Hno|]. apply removed_binding_spec in Eb.
    destruct (publish_config (jb_request j) next (wk_rt w)) as [Hn Hb].
    destruct Hc as [old Hold]. unfold published in *. rewrite Hold in *. cbn [default] in *. unfold id in *. split; [split|split; [split|by rewrite <- En]].
    + unfold held, on_rt. cbn [wk_rt set_wk_rt set_wk_published]. exact (publish_held [] b _ (jb_request j) next (wk_rt w) Hh).
    + eapply calm_links; [|exact Hl]. split; [done|]. unfold on_rt. cbn [wk_rt set_wk_rt set_wk_published].
      by rewrite (beside_ports _ _ Hb).
    + unfold on_rt. cbn [wk_rt set_wk_rt set_wk_published]. rewrite Hn. by eexists.
    + intros _ _. exists block, next, old. split_and!; try done. unfold on_rt. cbn [wk_rt set_wk_rt set_wk_published].
      by apply (keeps_bindings_beside _ _ next Hb).
    + intros [H|H]; [congruence|done].
  - assert (H1 := admin_worker_operation_held [] b (jb_request j) w Hh). assert (H2 := admin_worker_operation_links b (jb_request j) w Hh Hl).
    destruct (admin_worker_operation_network b (jb_request j) w Hh) as [H3 H4].
    destruct (admin_worker_operation (jb_request j) w) as [rc w']. cbn [snd] in *. split; [split; [done|done|by rewrite H3]|].
    split; [|done]. split; [congruence|done].
Qed.

Lemma capture_rt r w : exists h, wk_rt (capture r w).2 = set_rt_dpdk h (wk_rt w) /\ wk_published (capture r w).2 = wk_published w /\
  sn_view (capture r w).1 = mk_admin_view (published w) (rt_ports (wk_rt w)) /\ sn_events (capture r w).1 = rt_events (wk_rt w).
Proof.
  unfold capture, timer, on_rt_rc, timer_cycles. cbv zeta.
  set (w1 := set_wk_rt _ w). assert (H1 := capture_links_rt (rt_ports (wk_rt w)) w1).
  assert (H2 : forall ports w, wk_published (capture_links ports w).2 = wk_published w).
  { clear. induction ports as [|p ports IH]; intros w; [done|]. cbn [capture_links]. unfold capture_link, link_get_nowait, stats_get, dev_info_get.
    destruct (link_of _ _) as [rc status]. destruct (info_of _ _) as [rc_info info]. set (w1 := record_nic _ _). assert (H := IH w1).
    by destruct (capture_links ports w1). }
  specialize (H2 (rt_ports (wk_rt w)) w1). destruct (capture_links _ w1) as [links w2]. cbn [snd] in *. destruct (if _ && _ then _ else _).
  eexists. cbn [fst snd sn_view sn_events]. split; [exact H1|]. split; [exact H2|]. split; [|done]. unfold published. by rewrite H1.
Qed.

Lemma check_carriers_published l : forall w, wk_published (foldl check_carrier w l) = wk_published w.
Proof.
  induction l as [|i l IH]; intros w; [done|]. cbn [foldl]. rewrite IH. unfold check_carrier, link_get_nowait.
  destruct (link_of _ _) as [rc status]. by destruct (_ && _).
Qed.

Lemma scan_carrier_published w : wk_published (scan_carrier w) = wk_published w.
Proof.
  unfold scan_carrier, timer, on_rt_rc. destruct (timer_cycles _) as [now rt']. destruct (_ <? _); [done|]. by rewrite check_carriers_published.
Qed.

Lemma scan_carrier_ok b w : worker_ok b w -> worker_ok b (scan_carrier w) /\ rt_network (wk_rt (scan_carrier w)) = rt_network (wk_rt w).
Proof.
  intros [Hh Hl Hc]. destruct (scan_carrier_calm _ _ w Hh) as [Hcalm Hb]. split; [|by apply base_network]. split.
  - apply (idle_base [] b (base (wk_rt w))). by apply scan_carrier_held.
  - by eapply calm_links.
  - by rewrite (base_network _ _ Hb).
Qed.

(** The answer to a job: the configuration it left, and the snapshot. *)
Record job_answered (mx : mailbox) (w : worker) (mx' : mailbox) (w' : worker) : Prop := {
  ja_state : mx_state mx' = 2;
  ja_same : (jb_type (mx_job mx'), jb_request (mx_job mx'), jb_next (mx_job mx')) = (jb_type (mx_job mx), jb_request (mx_job mx), jb_next (mx_job mx));
  ja_config : config_outcome (mx_job mx) w (mx_job mx') w';
  ja_view : sn_view (jb_view (mx_job mx')) = mk_admin_view (published w') (rt_ports (wk_rt w'));
  ja_events : sn_events (jb_view (mx_job mx')) = rt_events (wk_rt w')
}.

Lemma admin_progress_ok b mx w : worker_ok b w ->
  let '(n, mx', w') := admin_progress mx w in
  worker_ok b w' /\
  (mx_state mx <> 1 -> n = 0 /\ mx' = mx /\ wk_published w' = wk_published w /\ rt_network (wk_rt w') = rt_network (wk_rt w)) /\
  (mx_state mx = 1 -> n = 1 /\ job_answered mx w mx' w').
Proof.
  intros Hok. destruct (scan_carrier_ok b w Hok) as [Hok1 Hn1]. assert (Hp1 := scan_carrier_published w). unfold admin_progress.
  set (w1 := scan_carrier w) in *. clearbody w1. destruct (Z.eqb_spec (mx_state mx) 1) as [Hs|Hs]; cbn [negb]; [|by split].
  change (match jb_type (set_jb_result 0 (mx_job mx)) with ADMIN_READ => _ | _ => _ end) with (job_step (set_jb_result 0 (mx_job mx)) w1).
  assert (Hj := job_step_ok b (set_jb_result 0 (mx_job mx)) w1 Hok1 eq_refl). destruct (job_step _ w1) as [j w2].
  destruct Hj as (Hok2 & Hout & Hsame). destruct (capture_rt (jb_request j) w2) as (h & Hrt & Hpub & Hview & Hev).
  assert (Hheld := capture_held [] _ (jb_request j) w2 (wo_held _ _ Hok2)). assert (Hcalm := capture_calm _ [] (jb_request j) w2 (wo_held _ _ Hok2)).
  destruct (capture (jb_request j) w2) as [view w3]. cbn [fst snd] in *. destruct Hok2 as [Hh2 Hl2 Hc2]. split; [split|].
  - by apply (idle_base [] b (base (wk_rt w2))).
  - eapply calm_links; [apply Hcalm|done].
  - rewrite Hrt. exact Hc2.
  - split; [done|]. intros _. split; [done|]. split.
    + done.
    + exact Hsame.
    + destruct Hout as [H1 H2]. split.
      * intros Ht Hr. destruct (H1 Ht Hr) as (block & next & old & E1 & E2 & E3 & E4 & E5 & E6 & E7). exists block, next, old.
        split; [exact E1|]. split; [by rewrite <- Hn1|]. split; [done|]. split; [|].
        { eapply (keeps_bindings_beside (wk_rt w2)); [|exact E4]. by rewrite Hrt. }
        split; [by rewrite <- Hp1|]. split; [by rewrite Hpub|]. by rewrite Hrt.
      * intros Hk. destruct (H2 Hk) as (E1 & E2 & E3). split; [exact E1|]. split; [by rewrite Hpub, E2, Hp1|]. rewrite Hrt. cbn. by rewrite E3, Hn1.
    + cbn. rewrite Hview. unfold published. by rewrite Hrt.
    + cbn. by rewrite Hev, Hrt.
Qed.
End protocol.

(** * Theorems *)

(** What the packet thread does between two iterations of its loop. *)
Inductive worker_step {D : Dpdk} {N : Nic} : worker -> worker -> Prop :=
| worker_poll w : worker_step w (on_rt (fun rt => (app_step rt).2) w)
| worker_request w request : worker_step w (on_rt (fun rt => (daemon_dispatch submit request rt).2) w)
| worker_admin mx w : worker_step w (admin_progress mx w).2.

(** Packet processing keeps the worker and the published configuration. *)
Lemma traffic_ok {D : Dpdk} b w rt' : worker_ok b w -> idle (mk_books b (base (wk_rt w))) [] rt' ->
  worker_ok b (set_wk_rt rt' w) /\ rt_network rt' = rt_network (wk_rt w).
Proof.
  intros [Hh Hl Hc] Hi. assert (Hb : base rt' = base (wk_rt w)) by (by eapply idle_same_base). split; [split|by apply base_network].
  - by apply (idle_base [] b (base (wk_rt w))).
  - eapply calm_links; [|exact Hl]. split; [done|by apply base_ports].
  - cbn. by rewrite (base_network _ _ Hb).
Qed.

Lemma worker_step_ok {D : Dpdk} {DL : DpdkLaws} {N : Nic} b w w' : worker_step w w' -> worker_ok b w -> worker_ok b w'.
Proof.
  intros [w1|w1 request|mx w1] Hok.
  - apply traffic_ok; [done|]. by apply app_step_own, Hok.
  - apply traffic_ok; [done|]. by apply daemon_dispatch_own, Hok.
  - assert (H := admin_progress_ok b mx w1 Hok). destruct (admin_progress mx w1) as [[n mx'] w2]. apply H.
Qed.

(** C19: the flags of every port follow its device.  Whatever traffic, client
    requests and administrative jobs do, and however the devices answer, a port
    is marked started exactly when its device's last successful call was a start,
    and a port that is administratively down is not started; a configuration
    stays published and no packet is in flight between two steps. *)
Theorem links_follow_devices {D : Dpdk} {DL : DpdkLaws} {N : Nic} b w w' : worker_ok b w -> rtc worker_step w w' ->
  (forall i p, rt_ports (wk_rt w') !! i = Some p ->
     pt_started p = device_running (wk_nic w') (pt_port_id p) /\ (pt_admin_down p = true -> pt_started p = false)) /\
  is_Some (rt_network (wk_rt w')) /\ rt_active_output (wk_rt w') = None /\ gr_q_count (rt_graph (wk_rt w')) = O.
Proof.
  intros Hok Hr. assert (H : worker_ok b w') by (induction Hr; eauto using worker_step_ok). destruct H as [[[Ha _ _ _] Hq] [_ Ht] Hc].
  split; [|done]. intros i p Hp. rewrite Forall_lookup in Ht. exact (Ht i p Hp).
Qed.

(** C20: changing the MTU of a port either succeeds, and then the value lies
    between 68 and 1500 and within the device's limits, this device accepted it in
    this call, at once or after being stopped and before being started again, and
    reported exactly this value when it was read back after that, and nothing but
    the port's MTU changed; or it fails, and then the port keeps its MTU and only
    its started and down flags may change.  In both cases the flags still follow
    the device. *)
Theorem mtu_change {D : Dpdk} {N : Nic} i p mtu w : links_ok w -> rt_ports (wk_rt w) !! i = Some p ->
  let '(rc, w') := mtu_set i mtu w in
  links_ok w' /\
  (rc = 0 -> wk_rt w' = set_rt_ports (<[i := set_pt_mtu mtu p]> (rt_ports (wk_rt w))) (wk_rt w) /\
     mtu_allowed (info_of (wk_nic w) (pt_port_id p)).2 mtu /\
     exists calls, mtu_accepted (pt_port_id p) mtu calls /\ wk_nic w' = NicGetMtu (pt_port_id p) :: calls ++ wk_nic w /\
       get_mtu_of (calls ++ wk_nic w) (pt_port_id p) = (0, mtu)) /\
  (rc <> 0 -> exists s a,
     wk_rt w' = set_rt_ports (<[i := p |> set_pt_started s |> set_pt_admin_down a]> (rt_ports (wk_rt w))) (wk_rt w)).
Proof.
  intros Hl Hp. destruct (mtu_set_ok i mtu w p Hl Hp) as [H1 H2 H3]. assert (H4 := fun w' => mtu_set_calls i mtu w w' p Hp). destruct (mtu_set i mtu w) as [rc w'].
  split; [done|]. split; [|done]. intros Hrc. destruct (H2 Hrc). split; [done|]. split; [done|]. apply H4. cbn in Hrc. by rewrite Hrc.
Qed.

(** C21: flushing the neighbours of an interface ends within its fuel (more
    fuel changes nothing), removes exactly the neighbours of that interface from
    the table, although closing the probe chains moves entries while the loop
    scans them, leaves no packet waiting for it, and touches nothing else. *)
Theorem neighbour_flush_exact {D : Dpdk} {DL : DpdkLaws} b0 L dev rt m : represents (rt_neighbours rt) m -> idle b0 L rt ->
  (forall extra, flush_loop (flush_fuel + extra) dev 0 rt = flush_loop flush_fuel dev 0 rt) /\
  exists rt', neighbour_flush dev rt = (0, rt') /\ represents (rt_neighbours rt') (off_device dev m) /\
    none_waiting dev (rt_pending_neighbours rt') /\ idle b0 L rt' /\ beside_neighbours rt' = beside_neighbours rt.
Proof.
  intros Hr Hi. destruct (flush_loop_device dev rt m Hr) as (rt1 & Heq & Hr1 & Hb1). assert (H0 := Heq O). rewrite Nat.add_0_r in H0.
  split; [intros extra; by rewrite Heq, H0|]. assert (Hi1 := flush_loop_held L b0 dev flush_fuel 0 rt Hi). rewrite H0 in Hi1. cbn [snd] in Hi1.
  unfold neighbour_flush. rewrite H0. cbn [truth]. eexists. split; [done|].
  assert (Hc := neighbour_cancel_cancels submit dev 0 rt1). split; [by rewrite (cancels_neighbours _ _ Hc)|]. split.
  - apply neighbour_cancel_device. apply (sc_tables _ _ _ (proj1 Hi1)).
  - split; [by apply (neighbour_cancel_own (OW := stack_ownership _))|]. by rewrite (cancels_beside _ _ Hc).
Qed.

(** A prepared configuration is published exactly when it is the successor of
    the published one and keeps the address of every bound socket.  Then it
    replaces it, the old one is handed back for reclamation, counters of rules
    that stay are kept, two events of the new generation are added to the ring,
    packets waiting for a neighbour are dropped if routes may have moved, and
    interfaces, sockets and neighbours are as before.  Otherwise the job carries
    an error and nothing changed. *)
Theorem activation_exact {D : Dpdk} j w block next old : jb_next j = Some (block, next) -> rt_network (wk_rt w) = Some old ->
  ring_wf (rt_events (wk_rt w)) -> es_sequence (rt_events (wk_rt w)) + 2 <= UINT64_MAX -> 0 <= nc_generation old < UINT64_MAX ->
  length (rt_pending_neighbours (wk_rt w)) = NEIGHBOUR_PENDING_MAX ->
  (may_publish w old next -> published_by j block old next w (activate j w)) /\
  (~ may_publish w old next -> refused_by j w (activate j w)).
Proof. apply activate_spec. Qed.

(** * A concrete worker *)

(** One tap interface that must be stopped before its MTU can change. *)
Module WorkerSample.
Fixpoint last_mtu (h : list nic_event) : Z :=
  match h with
  | NicSetMtu _ mtu rc :: h' => if rc =? 0 then mtu else last_mtu h'
  | _ :: h' => last_mtu h'
  | [] => 1500
  end.
Definition nic : Nic := {|
  start_of := fun _ _ => 0; stop_of := fun _ _ => 0;
  set_mtu_of := fun h port _ => if device_running h port then - EBUSY else 0;
  get_mtu_of := fun h _ => (0, last_mtu h);
  info_of := fun _ _ => (0, mk_dev_info 68 9000 (Some "net_tap"%string));
  link_of := fun _ _ => (0, 1); stats_of := fun _ _ => [] |}.
#[local] Existing Instance Sample.dpdk.
#[local] Existing Instance Sample.ethdev.
#[local] Instance laws : DpdkLaws := sim_laws _.
#[local] Existing Instance nic.

Definition config : net_config := default zero_net_config (rt_network (net_config_init true Sample.booted).2).
Definition ready : app_runtime := set_rt_network (Some config) Sample.booted.
Definition start : worker := set_wk_rt ready zero_worker.

Lemma network_idle b B c rt : idle (mk_books b B) [] rt -> idle (mk_books b (base (set_rt_network c rt))) [] (set_rt_network c rt).
Proof. intros H. by eapply idle_rebase. Qed.

Lemma ready_idle : idle (mk_books (fun _ => 0) (base ready)) [] ready.
Proof. exact (network_idle (fun _ => 0) (base Sample.booted) (Some config) Sample.booted Sample.booted_idle). Qed.

Lemma sample_links : links_ok start.
Proof. split; [apply (bool_decide_unpack _); vm_compute; exact I|]. vm_compute. repeat constructor. discriminate. Qed.

Lemma start_ok : worker_ok (fun _ => 0) start.
Proof. split; [exact ready_idle|exact sample_links|by eexists]. Qed.

(** The successor of the published configuration. *)
Definition next : net_config := set_nc_generation (nc_generation config + 1) config.
Definition job : admin_job := zero_admin_job |> set_jb_type ADMIN_ACTIVATE |> set_jb_next (Some (1%nat, next)).

Lemma start_ring : ring_wf (rt_events ready).
Proof. split; [reflexivity|vm_compute; discriminate|]. intros n H1 H2. exfalso. change (es_sequence (rt_events ready)) with 0 in H2. lia. Qed.

Lemma start_publishes : may_publish start config next.
Proof. split; [reflexivity|]. apply removed_binding_spec. vm_compute. reflexivity. Qed.

Definition stepped : worker := (admin_progress (set_mx_state 1 zero_mailbox) start).2.
Lemma links_follow_devices_witness :
  exists p, rt_ports (wk_rt stepped) !! O = Some p /\ pt_started p = device_running (wk_nic stepped) (pt_port_id p).
Proof.
  exists (nth 0 (rt_ports (wk_rt stepped)) zero_port_state). split; [vm_compute; reflexivity|].
  apply (links_follow_devices (fun _ => 0) start stepped start_ok) with (i := O); [|vm_compute; reflexivity].
  eapply rtc_l; [exact (worker_admin (set_mx_state 1 zero_mailbox) start)|apply rtc_refl].
Defined.

Lemma mtu_change_witness : exists calls, mtu_accepted 3 1400 calls /\ wk_nic (mtu_set 0 1400 start).2 = NicGetMtu 3 :: calls ++ wk_nic start /\
  get_mtu_of (calls ++ wk_nic start) 3 = (0, 1400) /\ links_ok (mtu_set 0 1400 start).2.
Proof.
  assert (H := mtu_change 0 (nth 0 (rt_ports ready) zero_port_state) 1400 start sample_links ltac:(vm_compute; reflexivity)).
  assert (Hrc : (mtu_set 0 1400 start).1 = 0) by (vm_compute; reflexivity).
  destruct (mtu_set 0 1400 start) as [rc w']. cbn [fst snd] in *. destruct H as (Hl & Hok & _). destruct (Hok Hrc) as (_ & _ & calls & H1 & H2 & H3). exists calls.
  split; [exact H1|]. split; [exact H2|]. split; [exact H3|exact Hl].
Defined.

Lemma neighbour_flush_exact_witness :
  let rt := set_rt_neighbours sample_table ready in
  exists rt', neighbour_flush 0 rt = (0, rt') /\ represents (rt_neighbours rt') (off_device 0 sample_map).
Proof.
  intros rt. assert (Hi : idle (mk_books (fun _ => 0) (base ready)) [] rt).
  { apply (own_quiet (Ownership := stack_ownership _) [] ready); [apply quiet_neighbours; reflexivity|exact ready_idle]. }
  destruct (neighbour_flush_exact _ [] 0 rt sample_map sample_table_represents Hi) as (_ & rt' & H1 & H2 & _). exists rt'. split; [exact H1|exact H2].
Defined.

Lemma activation_exact_witness : published_by job 1 config next start (activate job start).
Proof.
  apply (activation_exact job start 1 next config);
    [reflexivity|reflexivity|exact start_ring|vm_compute; discriminate|vm_compute; split; [discriminate|reflexivity]|reflexivity|exact start_publishes].
Defined.
End WorkerSample.
