(* ===== verification/AdminControlSpec.v ===== *)
(** The administrative service as a whole: the control thread of [AdminControl]
    and the worker of [AdminWorker] around one mailbox.  In every interleaving
    the mailbox has one owner, every configuration is freed exactly once, what is
    published is valid and one generation after what it replaces, and a reply is
    never overwritten. *)
From stdpp Require Import relations.
From S2P Require Import Prelude.
From S2P Require Import Dpdk.
From S2P Require Import Sim.
From S2P Require Import Types.
From S2P Require Import Text.
From S2P Require Import NetConfig.
From S2P Require Import Graph.
From S2P Require Import Runtime.
From S2P Require Import Dispatch.
From S2P Require Import Control.
From S2P Require Import AdminWire.
From S2P Require Import AdminState.
From S2P Require Import AdminWorker.
From S2P Require Import AdminFormat.
From S2P Require Import AdminControl.
From S2P Require Import Scheduler.
From S2P Require Import Ownership.
From S2P Require Import Protocols.
From S2P Require Import NodeProofs.
From S2P Require Import Conservation.
From S2P Require Import AdminWorkerSpec.

(** * The system *)

Definition bytes_in (r : io_result (list Z)) : Prop := match r with Answered bytes => Forall is_u8 bytes | Failed _ => True end.

(** The steps of the two threads, in any order.  A connection is read or written
    when [poll] was asked for that. *)
Inductive admin_step {D : Dpdk} {N : Nic} : admin_service * worker -> admin_service * worker -> Prop :=
| do_complete malloc apps s w : admin_step (s, w) (complete malloc apps s, w)
| do_schedule now later s w : admin_step (s, w) (schedule now later s, w)
| do_accept euid p s w : 0 <= ap_fd p -> admin_step (s, w) (accept_client euid p s, w)
| do_read i r s w : 0 <= cc_fd (connection s i) -> connection_events (connection s i) = POLLIN -> bytes_in r ->
    admin_step (s, w) (read_client i r s, w)
| do_write i r s w : 0 <= cc_fd (connection s i) -> connection_events (connection s i) = POLLOUT -> admin_step (s, w) (write_client i r s, w)
| do_disconnect i s w : admin_step (s, w) (disconnect i s, w)
| do_flags stopping done failed s w : admin_step (s, w) (s |> set_sv_stopping stopping |> set_sv_done done |> set_sv_failed failed, w)
| do_worker s w : admin_step (s, w) (set_sv_mailbox (admin_progress (sv_mailbox s) w).1.2 s, (admin_progress (sv_mailbox s) w).2)
| do_poll s w : admin_step (s, w) (s, on_rt (fun rt => (app_step rt).2) w)
| do_request request s w : admin_step (s, w) (s, on_rt (fun rt => (daemon_dispatch submit request rt).2) w).

(** * Invariant *)

(** A configuration that may be published for [n] ports. *)
Record config_ok (n : nat) (c : net_config) : Prop := {
  cf_valid : config_valid c (Z.of_nat n);
  cf_typed : net_typed c;
  cf_generation : is_u64 (nc_generation c);
  cf_index : nc_routes_indexed c = true -> nc_route_index c = build_index (nc_routes c)
}.

(** A frame of the protocol. *)
Definition framed (bytes : list Z) : Prop :=
  exists h body, bytes = admin_header_encode h ++ body /\ ah_length h = Z.of_nat (length body).

Record connection_ok (c : admin_connection) : Prop := {
  ck_input : 0 <= cc_fd c -> Forall is_u8 (cc_input c) /\ 0 <= cc_have c <= Z.of_nat (length (cc_input c));
  ck_target : 0 <= cc_fd c ->
    cc_target c = ADMIN_HEADER /\ cc_have c < ADMIN_HEADER \/
    cc_target c = ADMIN_HEADER + ah_length (cc_header c) /\ ADMIN_HEADER <= cc_have c <= cc_target c /\ ADMIN_REQUEST_BASE <= ah_length (cc_header c);
  ck_request : 0 <= cc_fd c -> cc_have c = cc_target c -> request_ok (cc_request c);
  ck_pending : cc_pending c = true -> request_ok (cc_request c) /\ cc_length c = 0 /\ cc_subscribed c = false;
  ck_subscribed : cc_subscribed c = true -> 0 <= cc_fd c /\ cc_target c = ADMIN_HEADER;
  ck_reply : cc_length c <> 0 ->
    0 <= cc_fd c /\ cc_length c = Z.of_nat (length (cc_output c)) /\ 0 <= cc_sent c < cc_length c /\ framed (cc_output c) /\ cc_target c = ADMIN_HEADER
}.

(** The connection whose request is in the mailbox. *)
Definition current_is (s : admin_service) (i : nat) : Prop := sv_current s = Z.of_nat i.

(** [next] is what the request makes of [old]. *)
Definition changes (r : admin_request) (old next : net_config) : Prop := exists v, av_config v = old /\ admin_mutate v r = inr next.

(** The configuration under way, and what the job says of it. *)
Inductive flight (n : nat) (s : admin_service) (w : worker) : list nat -> Prop :=
| flight_idle : state s = 0 -> jb_next (job s) = None -> jb_retired (job s) = None -> flight n s w []
| flight_read : state s = 1 \/ state s = 2 -> sv_phase s = 0 -> jb_type (job s) <> ADMIN_ACTIVATE ->
    jb_next (job s) = None -> jb_retired (job s) = None -> flight n s w []
| flight_offered block next : state s = 1 -> sv_phase s = 1 -> jb_type (job s) = ADMIN_ACTIVATE ->
    jb_next (job s) = Some (block, next) -> jb_retired (job s) = None ->
    config_ok n next -> nc_generation next = nc_generation (published w) + 1 -> changes (jb_request (job s)) (published w) next ->
    flight n s w [block]
| flight_accepted block old next : state s = 2 -> sv_phase s = 1 -> jb_type (job s) = ADMIN_ACTIVATE -> jb_result (job s) = 0 ->
    jb_retired (job s) = Some (block, old) -> jb_next (job s) = Some (wk_published w, next) -> rt_network (wk_rt w) = Some next ->
    nc_generation next = nc_generation old + 1 -> changes (jb_request (job s)) old next -> flight n s w [block]
| flight_refused block next : state s = 2 -> sv_phase s = 1 -> jb_type (job s) = ADMIN_ACTIVATE -> jb_result (job s) <> 0 ->
    jb_next (job s) = Some (block, next) -> jb_retired (job s) = None -> flight n s w [block].

Record admin_inv (b : Z -> Z) (n : nat) (s : admin_service) (w : worker) : Prop := {
  iv_worker : worker_ok b w;
  iv_ports : length (rt_ports (wk_rt w)) = n;
  iv_config : config_ok n (published w);
  iv_clients : length (sv_clients s) = ADMIN_CLIENT_MAX;
  iv_connections : Forall connection_ok (sv_clients s);
  iv_pending : forall i c, sv_clients s !! i = Some c -> cc_pending c = true -> current_is s i /\ state s <> 0;
  iv_current : state s <> 0 -> sv_current s = -1 /\ sv_phase s = 0 \/
    exists i c, current_is s i /\ sv_clients s !! i = Some c /\ cc_pending c = true /\ jb_request (job s) = cc_request c;
  iv_view : state s = 2 -> av_config (sn_view (jb_view (job s))) = published w /\ length (av_ports (sn_view (jb_view (job s)))) = n;
  iv_blocks : exists l, flight n s w l /\ sv_freed s ++ wk_published w :: l ≡ₚ seq 0 (sv_blocks s)
}.

(** * Connections *)

Lemma length_header h : length (admin_header_encode h) = 32%nat.
Proof. done. Qed.
Lemma framed_response h body : ah_length h = Z.of_nat (length body) -> framed (admin_header_encode h ++ body).
Proof. intros H. by exists h, body. Qed.

Lemma hung_up_ok c : connection_ok c -> connection_ok (hung_up c).
Proof.
  intros Hok. unfold hung_up. cbv zeta. destruct (cc_pending _) eqn:E; cbn in E.
  - destruct (ck_pending _ Hok E) as (? & ? & _). split; cbn; try lia; done.
  - split; cbn; try lia; try done. congruence.
Qed.
Lemma hung_up_pending c : cc_pending (hung_up c) = cc_pending c.
Proof. unfold hung_up. cbn. destruct (cc_pending c) eqn:E; cbn; by rewrite ?E. Qed.
Lemma hung_up_request c : cc_request (hung_up c) = cc_request c.
Proof. unfold hung_up. cbn. by destruct (cc_pending c). Qed.

Lemma response_ok rc g body c : 0 <= cc_fd c -> cc_pending c = false -> Forall is_u8 (cc_input c) ->
  connection_ok (response rc g body c).
Proof.
  intros Hfd Hp Hi. unfold response. split; cbn; try lia; try done.
  - intros _. split; [done|lia].
  - by left.
  - congruence.
  - intros _. unfold ADMIN_HEADER. split_and!; try done; try lia; [|by apply framed_response].
    rewrite length_app, length_header. lia.
Qed.

Lemma events_ok j c : connection_ok c -> 0 <= cc_fd c -> cc_subscribed c = true -> connection_ok (events j c).
Proof.
  intros Hok Hfd Hs. unfold events. destruct (_ || _) eqn:E; [done|]. apply orb_false_iff in E as [_ E]. apply truth_false in E.
  destruct (event_loop _ _ _ _ _ _) as [[sequence lost] text]. assert (Hp : cc_pending c = false).
  { destruct (cc_pending c) eqn:E'; [|done]. destruct (ck_pending _ Hok E') as (_ & _ & ?). congruence. }
  destruct (empty _).
  - destruct Hok. split; done.
  - apply response_ok; try done. by apply (ck_input _ Hok).
Qed.
Lemma events_same j c : cc_pending (events j c) = cc_pending c /\ cc_fd (events j c) = cc_fd c.
Proof.
  unfold events. destruct (_ || _); [done|]. destruct (event_loop _ _ _ _ _ _) as [[sequence lost] text]. by destruct (empty _).
Qed.

Lemma answer_ok apps j c : connection_ok c -> cc_pending c = true ->
  connection_ok (answer apps j c).2 /\ cc_pending (answer apps j c).2 = false.
Proof.
  intros Hok Hp. unfold answer. set (c1 := set_cc_pending false c). cbv zeta.
  assert (Hr : 0 <= cc_fd c -> forall rc g body c', cc_fd c' = cc_fd c -> cc_pending c' = false -> cc_input c' = cc_input c ->
    connection_ok (response rc g body c') /\ cc_pending (response rc g body c') = false).
  { intros Hfd rc g body c' E1 E2 E3. split; [|done]. apply response_ok; [lia|done|]. rewrite E3. by apply (ck_input _ Hok). }
  destruct (Z.ltb_spec (cc_fd c1) 0) as [H|H]; cbn [cc_fd c1 set_cc_pending] in H; cbn [snd].
  - split; [|done]. destruct (ck_pending _ Hok Hp) as (_ & _ & Hs). split; cbn; try lia; try done. congruence.
  - specialize (Hr H). destruct (truth _); [by apply Hr|]. destruct (_ =? ADM_MONITOR).
    + destruct (_ || _); by apply Hr.
    + destruct (_ && _); [by apply Hr|]. destruct (admin_format _ _ _ _) as [k text]. destruct (k <? 0); by apply Hr.
Qed.

(** * Reading *)

Lemma admit_request_ok c : 0 <= cc_fd c -> cc_pending c = false -> cc_subscribed c = false -> cc_length c = 0 ->
  Forall is_u8 (cc_input c) -> cc_have c <= Z.of_nat (length (cc_input c)) -> cc_have c = cc_target c ->
  cc_target c = ADMIN_HEADER + ah_length (cc_header c) -> ADMIN_REQUEST_BASE <= ah_length (cc_header c) -> connection_ok (admit_request c).
Proof.
  intros Hfd Hp Hs Hl Hi Hlen Heq Ht Hb. unfold admit_request. destruct (admin_request_decode _) as [rc|r] eqn:Er; [by apply response_ok|].
  apply request_encode_decode in Er as [Hok _]; [|apply Forall_take, Forall_drop; exact Hi].
  split; cbn; try lia; try done; [..|congruence]; intros _; unfold ADMIN_HEADER, ADMIN_REQUEST_BASE in *.
  - split; [done|]. lia.
  - right. lia.
Qed.

Definition receiving (data : list Z) (c : admin_connection) : admin_connection :=
  c |> set_cc_input (take (Z.to_nat (cc_have c)) (cc_input c) ++ data) |> set_cc_have (cc_have c + Z.of_nat (length data)).

Lemma admit_header_ok c c' : admit_header c = Some c' -> exists h, c' = (c |> set_cc_header h |> set_cc_target (cc_target c + ah_length h)) /\
  ADMIN_REQUEST_BASE <= ah_length h <= ADMIN_REQUEST_MAX.
Proof.
  unfold admit_header. destruct (admin_header_decode _) as [|h]; [done|]. destruct (_ || _) eqn:E; [done|]. intros [= <-]. exists h. split; [done|].
  bool_hyps. lia.
Qed.

Lemma wants_input c : connection_events c = POLLIN ->
  cc_length c = 0 /\ cc_pending c = false /\ cc_subscribed c = false /\ cc_have c < cc_target c.
Proof.
  unfold connection_events. destruct (truth (cc_length c)) eqn:E; [done|]. apply truth_false in E. destruct (_ && _) eqn:Ea; [|done].
  intros _. bool_hyps. split_and!; try done; lia.
Qed.
Lemma wants_output c : connection_events c = POLLOUT -> cc_length c <> 0.
Proof. unfold connection_events. destruct (truth (cc_length c)) eqn:E; [by intros _; apply truth_true in E|]. by destruct (_ && _). Qed.

(** A connection in the middle of a request. *)
Record receives (c : admin_connection) : Prop := {
  rc_fd : 0 <= cc_fd c;
  rc_quiet : cc_pending c = false /\ cc_subscribed c = false /\ cc_length c = 0;
  rc_input : Forall is_u8 (cc_input c) /\ 0 <= cc_have c <= Z.of_nat (length (cc_input c))
}.
Definition header_done (c : admin_connection) : Prop :=
  cc_target c = ADMIN_HEADER + ah_length (cc_header c) /\ ADMIN_HEADER <= cc_have c <= cc_target c /\ ADMIN_REQUEST_BASE <= ah_length (cc_header c).

Lemma receives_waiting c : receives c -> cc_have c <> cc_target c -> cc_target c = ADMIN_HEADER /\ cc_have c < ADMIN_HEADER \/ header_done c ->
  connection_ok c.
Proof. intros [Hfd (Hp & Hs & Hl) Hi] Hne Ht. split; try done; congruence. Qed.

Lemma receives_done c : receives c -> header_done c ->
  connection_ok (if cc_have c =? cc_target c then admit_request c else c) /\
  cc_pending (if cc_have c =? cc_target c then admit_request c else c) = false.
Proof.
  intros Hr Hd. destruct (Z.eqb_spec (cc_have c) (cc_target c)) as [E|E]; [|split; [apply receives_waiting; auto|apply (rc_quiet _ Hr)]].
  destruct Hr as [Hfd (Hp & Hs & Hl) [Hi Hh]], Hd as (Ht & Hd & Hb). split; [apply admit_request_ok; done || lia|].
  unfold admit_request. by destruct (admin_request_decode _).
Qed.

Lemma receiving_receives c data : connection_ok c -> 0 <= cc_fd c -> connection_events c = POLLIN -> Forall is_u8 data -> receives (receiving data c).
Proof.
  intros Hok Hfd Hev Hd. apply wants_input in Hev as (Hl & Hp & Hs & _). destruct (ck_input _ Hok Hfd) as [Hi Hh]. split; [done|done|].
  cbn. split; [apply Forall_app; split; [by apply Forall_take|done]|]. rewrite length_app, length_take. lia.
Qed.

Lemma receiving_ok c data c' : connection_ok c -> 0 <= cc_fd c -> connection_events c = POLLIN ->
  Forall is_u8 data -> (0 < length data)%nat -> Z.of_nat (length data) <= cc_target c - cc_have c ->
  let c1 := receiving data c in
  (if (cc_have c1 =? ADMIN_HEADER) && (cc_target c1 =? ADMIN_HEADER) then admit_header c1 else Some c1) = Some c' ->
  connection_ok (if cc_have c' =? cc_target c' then admit_request c' else c') /\
  cc_pending (if cc_have c' =? cc_target c' then admit_request c' else c') = false.
Proof.
  intros Hok Hfd Hev Hd Hn Hle. cbv zeta. assert (Hr := receiving_receives c data Hok Hfd Hev Hd).
  assert (Hh : cc_have (receiving data c) = cc_have c + Z.of_nat (length data)) by done.
  assert (Htg : cc_target (receiving data c) = cc_target c) by done. assert (Hhd : cc_header (receiving data c) = cc_header c) by done.
  set (c1 := receiving data c) in *. clearbody c1. unfold ADMIN_HEADER, ADMIN_REQUEST_BASE in *.
  destruct (ck_target _ Hok Hfd) as [[Ht Hlo]|(Ht & Hhi & Hb)]; unfold ADMIN_HEADER, ADMIN_REQUEST_BASE in *.
  - rewrite Htg, Ht in *. destruct (Z.eqb_spec (cc_have c1) 32) as [E|E]; cbn [andb Z.eqb Pos.eqb].
    + intros (h & -> & Hb & _)%admit_header_ok. apply receives_done; [by destruct Hr; split|].
      unfold header_done, ADMIN_HEADER, ADMIN_REQUEST_BASE in *. cbn. lia.
    + intros [= <-]. rewrite Htg. destruct (Z.eqb_spec (cc_have c1) 32); [done|]. split; [|apply (rc_quiet _ Hr)].
      apply receives_waiting; [done|lia|]. left. unfold ADMIN_HEADER. lia.
  - destruct (Z.eqb_spec (cc_target c1) 32); [lia|]. rewrite andb_false_r. intros [= <-]. apply receives_done; [done|].
    unfold header_done, ADMIN_HEADER, ADMIN_REQUEST_BASE. rewrite Hhd. lia.
Qed.

(** * Operations on one connection *)

(** What the hand-over of jobs depends on. *)
Definition handover (s : admin_service) : mailbox * Z * Z * nat * list nat :=
  (sv_mailbox s, sv_current s, sv_phase s, sv_blocks s, sv_freed s).

Lemma handover_fields s s' : handover s' = handover s ->
  sv_mailbox s' = sv_mailbox s /\ sv_current s' = sv_current s /\ sv_phase s' = sv_phase s /\ sv_blocks s' = sv_blocks s /\ sv_freed s' = sv_freed s.
Proof. by intros [= -> -> -> -> ->]. Qed.

Lemma flight_handover n s s' w l : handover s' = handover s -> flight n s w l -> flight n s' w l.
Proof.
  intros (Em & _ & Ep & _ & _)%handover_fields.
  assert (Ej : job s' = job s) by (unfold job; by rewrite Em). assert (Es : state s' = state s) by (unfold state; by rewrite Em).
  intros []; [eapply flight_idle|eapply flight_read|eapply flight_offered|eapply flight_accepted|eapply flight_refused]; rewrite ?Ej, ?Es, ?Ep; eassumption.
Qed.

Section inv.
Context {D : Dpdk} {DL : DpdkLaws} {N : Nic} (b : Z -> Z) (n : nat).
Abbreviation inv := (admin_inv b n).

Lemma lookup_connection s i c : sv_clients s !! i = Some c -> connection s i = c.
Proof. intros H. unfold connection. by rewrite (nth_lookup_Some _ _ _ _ H). Qed.
Lemma connection_at s w i : inv s w -> 0 <= cc_fd (connection s i) \/ cc_pending (connection s i) = true -> sv_clients s !! i = Some (connection s i).
Proof.
  intros Hi H. destruct (sv_clients s !! i) as [c|] eqn:E; [by rewrite (lookup_connection _ _ _ E)|]. exfalso.
  unfold connection in H. rewrite nth_lookup, E in H. cbn in H. destruct H; [lia|done].
Qed.

(** A connection changes and its request, if under way, stays. *)
Lemma change_connection s w s' i c' : inv s w -> handover s' = handover s -> sv_clients s' = <[i := c']> (sv_clients s) ->
  connection_ok c' -> cc_pending c' = cc_pending (connection s i) -> (cc_pending c' = true -> cc_request c' = cc_request (connection s i)) ->
  inv s' w.
Proof.
  intros [Hw Hp Hc Hl Hok Hpe Hcu Hv (l & Hf & Hb)] Hh Hcl Hc' Hpend Hreq.
  apply handover_fields in Hh as Hh'. destruct Hh' as (Em & Ecu & Eph & Ebl & Efr). assert (Es : state s' = state s) by (unfold state; by rewrite Em).
  assert (Ej : job s' = job s) by (unfold job; by rewrite Em). unfold current_is in *.
  split; [done|done|done|by rewrite Hcl, length_insert|rewrite Hcl; by apply Forall_insert|..]; unfold current_is.
  - intros k c Hk Hck. rewrite Es, Ecu. destruct (decide (k = i)) as [->|Hne].
    + assert (Hlt : (i < length (sv_clients s))%nat) by (apply lookup_lt_Some in Hk; by rewrite Hcl, length_insert in Hk).
      rewrite Hcl, list_lookup_insert_eq in Hk by done. injection Hk as <-. destruct (lookup_lt_is_Some_2 _ _ Hlt) as [c Hk].
      apply (Hpe i c Hk). by rewrite <- (lookup_connection _ _ _ Hk), <- Hpend.
    + apply (Hpe k c); [|done]. by rewrite Hcl, list_lookup_insert_ne in Hk by done.
  - rewrite Es, Ecu, Eph, Ej. intros H. destruct (Hcu H) as [?|(k & c & H1 & H2 & H3 & H4)]; [by left|]. right. destruct (decide (k = i)) as [->|Hne].
    + assert (Hlt := lookup_lt_Some _ _ _ H2). apply lookup_connection in H2. exists i, c'. rewrite Hcl, list_lookup_insert_eq by done.
      rewrite H2 in *. split_and!; try done; [congruence|]. rewrite H4. symmetry. apply Hreq. congruence.
    + exists k, c. by rewrite Hcl, list_lookup_insert_ne.
  - rewrite Es, Ej. exact Hv.
  - exists l. split; [by apply (flight_handover n s)|]. by rewrite Ebl, Efr.
Qed.

Lemma connection_inv s w i : inv s w -> connection_ok (connection s i).
Proof.
  intros Hi. unfold connection. destruct (sv_clients s !! i) as [c|] eqn:E.
  - rewrite (nth_lookup_Some _ _ _ _ E). by eapply Forall_lookup_1; [apply (iv_connections _ _ _ _ Hi)|].
  - rewrite nth_overflow by (by apply lookup_ge_None). split; cbn; try lia; done.
Qed.

Lemma admin_disconnect_inv s w i : inv s w -> inv (disconnect i s) w.
Proof.
  intros Hi. apply (change_connection s w _ i (hung_up (connection s i)) Hi); try done.
  - by eapply hung_up_ok, connection_inv.
  - apply hung_up_pending.
  - intros _. apply hung_up_request.
Qed.

Lemma admin_accept_inv s w euid p : inv s w -> 0 <= ap_fd p -> inv (accept_client euid p s) w.
Proof.
  intros Hi Hfd. unfold accept_client. destruct (ap_uid p) as [uid|]; [|done]. destruct (_ && _); [done|].
  destruct (free_connection s) as [i|] eqn:E; [|done]. unfold free_connection in E. apply find_index_Some in E as [(c & Hc & Hf) _].
  bool_hyps. apply (change_connection s w _ i (zero_admin_connection |> set_cc_fd (ap_fd p) |> set_cc_target ADMIN_HEADER) Hi); try done.
  - split; cbn; try lia; try done. by left.
  - by rewrite (lookup_connection _ _ _ Hc).
Qed.

Lemma admin_read_inv s w i r : inv s w -> 0 <= cc_fd (connection s i) -> connection_events (connection s i) = POLLIN -> bytes_in r ->
  inv (read_client i r s) w.
Proof.
  intros Hi Hfd Hev Hr. assert (Hok := connection_inv s w i Hi). assert (Hp := proj1 (proj2 (wants_input _ Hev))). unfold read_client.
  destruct r as [bytes|errno]; [|destruct (retry errno); [done|by apply admin_disconnect_inv]].
  set (data := take _ bytes). destruct (Nat.eqb_spec (length data) 0) as [Hz|Hz]; [by apply admin_disconnect_inv|].
  assert (Hd : Forall is_u8 data) by (by apply Forall_take). assert (Hle : Z.of_nat (length data) <= cc_target (connection s i) - cc_have (connection s i)).
  { unfold data. rewrite length_take. apply wants_input in Hev. lia. }
  fold (receiving data (connection s i)). assert (H := fun c' => receiving_ok _ data c' Hok Hfd Hev Hd ltac:(lia) Hle). cbv zeta in *.
  assert (Hrec := receiving_receives _ data Hok Hfd Hev Hd).
  destruct (if _ && _ then _ else _) as [c'|].
  - destruct (H c' eq_refl) as [H1 H2]. eapply (change_connection s w _ i _ Hi); [done|done|exact H1|congruence|congruence].
  - set (s1 := set_connection i (receiving data (connection s i)) s).
    assert (Hc : connection s1 i = receiving data (connection s i)).
    { apply lookup_connection, list_lookup_insert_eq. eapply lookup_lt_Some, (connection_at s w i Hi). by left. }
    eapply (change_connection s w _ i (hung_up (receiving data (connection s i))) Hi); [done|..].
    + unfold disconnect. rewrite Hc. apply list_insert_insert_eq.
    + destruct Hrec as [_ (H3 & _ & _) _]. unfold hung_up. cbv zeta.
      change (cc_pending _) with (cc_pending (connection s i)). rewrite Hp. split; cbn; try lia; try done. congruence.
    + by rewrite hung_up_pending.
    + rewrite hung_up_pending. change (cc_pending _) with (cc_pending (connection s i)). congruence.
Qed.

Lemma admin_write_inv s w i r : inv s w -> 0 <= cc_fd (connection s i) -> connection_events (connection s i) = POLLOUT -> inv (write_client i r s) w.
Proof.
  intros Hi Hfd Hev. assert (Hok := connection_inv s w i Hi). apply wants_output in Hev. unfold write_client.
  destruct r as [k|errno]; [|destruct (retry errno); [done|by apply admin_disconnect_inv]].
  destruct (Z.leb_spec (Z.min k (cc_length (connection s i) - cc_sent (connection s i))) 0) as [|Hk]; [by apply admin_disconnect_inv|].
  assert (Hpe : cc_pending (connection s i) = false) by (destruct (cc_pending _) eqn:E; [by destruct (ck_pending _ Hok E) as (_ & ? & _)|done]).
  destruct (ck_reply _ Hok Hev) as (_ & Hlen & Hsent & Hfr & Ht). eapply (change_connection s w _ i _ Hi); [done|done|..].
  - destruct (_ =? _) eqn:E; cbn in E |- *; (split; cbn; try apply Hok; try congruence).
    + intros _. apply Z.eqb_neq in E. split_and!; try done; lia.
  - by destruct (_ =? _).
  - destruct (_ =? _); cbn; congruence.
Qed.
End inv.

(** * The worker *)

Section ports.
Context {D : Dpdk} {DL : DpdkLaws} {N : Nic} (b : Z -> Z).

Abbreviation port_count w := (length (rt_ports (wk_rt w))).

Lemma base_count rt rt' : base rt' = base rt -> length (rt_ports rt') = length (rt_ports rt).
Proof. intros H%base_ports. by rewrite <- (length_fmap port_base (rt_ports rt')), H, length_fmap. Qed.

Lemma operation_count r w : worker_ok b w -> port_count (admin_worker_operation r w).2 = port_count w.
Proof.
  intros Hok. unfold admin_worker_operation. destruct (port_named _ _) as [dev|]; [|done]. destruct (_ && _).
  - assert (Hh := link_operation_held [] b dev r w (wo_held _ _ Hok)).
    assert (Hk := link_operation_keeps (fun w' => port_count w' = port_count w) (fun e w' H => H)
      (fun i f w' _ H => eq_trans (length_alter f (rt_ports (wk_rt w')) i) H) dev r w eq_refl).
    destruct (link_operation _ _ _) as [[rc w']|w']; [done|]. cbn [snd] in *. rewrite <- Hk. apply base_count.
    eapply (idle_same_base (mk_books b (base (wk_rt w'))) [] []); [exact Hh|].
    apply event_held. by apply (neighbour_cancel_own (OW := stack_ownership _)).
  - destruct (negb _); [done|]. unfold on_rt_rc. assert (H1 := neighbour_operation_held [] _ (Z.of_nat dev) r (wk_rt w) (wo_held _ _ Hok)).
    destruct (neighbour_operation _ _ _) as [rc rt']. cbn [snd] in *. apply base_count. eapply idle_same_base; [apply (wo_held _ _ Hok)|exact H1].
Qed.

Lemma job_step_count j w : worker_ok b w -> port_count (job_step j w).2 = port_count w.
Proof.
  intros Hok. unfold job_step. destruct (jb_type j); [done| |].
  - unfold activate. destruct (jb_next j) as [[block next]|]; [|done]. destruct (negb _); [done|]. destruct (removed_binding _ _); [done|].
    cbn [snd]. unfold on_rt. cbn [wk_rt set_wk_rt set_wk_published].
    by rewrite (beside_ports _ _ (proj2 (publish_config (jb_request j) next (wk_rt w)))).
  - assert (H := operation_count (jb_request j) w Hok). by destruct (admin_worker_operation _ _).
Qed.

Lemma admin_progress_count mx w : worker_ok b w -> port_count (admin_progress mx w).2 = port_count w.
Proof.
  intros Hok. destruct (scan_carrier_ok b w Hok) as [Hok1 _]. destruct (scan_carrier_calm _ [] w (wo_held _ _ Hok)) as [_ Hb]. apply base_count in Hb.
  unfold admin_progress. set (w1 := scan_carrier w) in *. clearbody w1. destruct (negb _); [done|].
  change (match jb_type (set_jb_result 0 (mx_job mx)) with ADMIN_READ => _ | _ => _ end) with (job_step (set_jb_result 0 (mx_job mx)) w1).
  assert (Hj := job_step_count (set_jb_result 0 (mx_job mx)) w1 Hok1). destruct (job_step _ w1) as [j w2]. cbn [snd] in Hj.
  destruct (capture_rt (jb_request j) w2) as (h & Hrt & _). destruct (capture (jb_request j) w2) as [view w3]. cbn [snd] in *.
  rewrite Hrt. cbn. by rewrite Hj, Hb.
Qed.
End ports.

Section steps.
Context {D : Dpdk} {DL : DpdkLaws} {N : Nic} (b : Z -> Z) (n : nat).
Hypothesis Hn : Z.of_nat n <= NETIF_MAX.
Abbreviation inv := (admin_inv b n).

Lemma published_network w w' : rt_network (wk_rt w') = rt_network (wk_rt w) -> published w' = published w.
Proof. intros H. unfold published. by rewrite H. Qed.

Lemma change_worker s w w' : inv s w -> worker_ok b w' -> rt_network (wk_rt w') = rt_network (wk_rt w) ->
  wk_published w' = wk_published w -> length (rt_ports (wk_rt w')) = n -> inv s w'.
Proof.
  intros [Hw Hp Hc Hl Hok Hpe Hcu Hv (l & Hf & Hb)] Hw' Hnet Hpub Hlen. assert (Hpd := published_network _ _ Hnet).
  split; try done; [by rewrite Hpd|by rewrite Hpd|]. exists l. rewrite Hpub. split; [|done].
  destruct Hf; [eapply flight_idle|eapply flight_read|eapply flight_offered|eapply flight_accepted|eapply flight_refused]; rewrite ?Hpd, ?Hpub, ?Hnet; eassumption.
Qed.

(** Traffic and the requests of applications. *)
Lemma traffic_inv s w rt' : inv s w -> idle (mk_books b (base (wk_rt w))) [] rt' -> inv s (set_wk_rt rt' w).
Proof.
  intros Hi Hrt. destruct (traffic_ok b w rt' (iv_worker _ _ _ _ Hi) Hrt) as [Hok Hnet].
  eapply change_worker; [exact Hi|exact Hok|exact Hnet|done|]. rewrite <- (iv_ports _ _ _ _ Hi). apply base_count.
  eapply idle_same_base; [apply (wo_held _ _ (iv_worker _ _ _ _ Hi))|exact Hrt].
Qed.

(** The flight of a job the worker has answered. *)
Lemma answered_flight s w mx' w' l : inv s w -> state s = 1 -> job_answered (sv_mailbox s) w mx' w' -> flight n s w l ->
  sv_freed s ++ wk_published w :: l ≡ₚ seq 0 (sv_blocks s) ->
  config_ok n (published w') /\ exists l', flight n (set_sv_mailbox mx' s) w' l' /\ sv_freed s ++ wk_published w' :: l' ≡ₚ seq 0 (sv_blocks s).
Proof.
  intros Hi Hs [Hst Hsame [Hch Hke] Hview _] Hf Hb. assert (Hc := iv_config _ _ _ _ Hi). injection Hsame as Ety Erq Enx.
  unfold job, state in *. destruct Hf as [H|H Hph Hty Hnx Hre|block next _ Hph Hty Hnx Hre Hcf Hgen Hch'|?? ? H|?? H]; try (unfold state in *; congruence); unfold job, state in *.
  - destruct (Hke (or_introl Hty)) as (E1 & E2 & E3). split; [by rewrite (published_network _ _ E3)|]. exists []. rewrite E2. split; [|done].
    apply flight_read; unfold job, state; cbn; [by right|done|congruence|congruence|congruence].
  - destruct (decide (jb_result (mx_job mx') = 0)) as [Hz|Hz].
    + destruct (Hch Hty Hz) as (block' & next' & old & E1 & E2 & E3 & E4 & E5 & E6 & E7). rewrite Hnx in E1. injection E1 as <- <-.
      split; [unfold published; by rewrite E7|]. exists [wk_published w]. split.
      * unfold published in Hgen, Hch'. rewrite E2 in Hgen, Hch'. cbn in Hgen, Hch'.
        apply (flight_accepted n _ _ (wk_published w) old next); unfold job, state; cbn; try done; congruence.
      * rewrite E6, <- Hb. apply Permutation_app_head, perm_swap.
    + destruct (Hke (or_intror Hz)) as (E1 & E2 & E3). split; [by rewrite (published_network _ _ E3)|]. exists [block]. rewrite E2. split; [|done].
      apply (flight_refused n _ _ block next); unfold job, state; cbn; try done; congruence.
Qed.

Lemma admin_worker_inv s w : inv s w -> inv (set_sv_mailbox (admin_progress (sv_mailbox s) w).1.2 s) (admin_progress (sv_mailbox s) w).2.
Proof.
  intros Hi. assert (Hcount := admin_progress_count b (sv_mailbox s) w (iv_worker _ _ _ _ Hi)).
  assert (H := admin_progress_ok b (sv_mailbox s) w (iv_worker _ _ _ _ Hi)). destruct (admin_progress (sv_mailbox s) w) as [[k mx'] w'].
  cbn [fst snd] in *. destruct H as (Hok & Hother & Hjob). rewrite (iv_ports _ _ _ _ Hi) in Hcount. destruct (decide (mx_state (sv_mailbox s) = 1)) as [Hs|Hs].
  - destruct (Hjob Hs) as [_ Ha]. destruct (iv_blocks _ _ _ _ Hi) as (l & Hf & Hb).
    destruct (answered_flight s w mx' w' l Hi Hs Ha Hf Hb) as [Hc Hl]. destruct Ha as [Hst Hsame _ Hview _]. injection Hsame as Ety Erq Enx.
    assert (Hne : state s <> 0) by (unfold state; lia). destruct Hi as [Hw Hp Hcf Hlen Hco Hpe Hcu Hv _].
    split; try done; unfold current_is, state, job in *; cbn.
    + intros i c H1 H2. split; [by apply (Hpe i c)|]. rewrite Hst. lia.
    + intros _. destruct (Hcu Hne) as [H|(i & c & H1 & H2 & H3 & H4)]; [by left|]. right. exists i, c. split_and!; try done. congruence.
    + intros _. rewrite Hview. done.
  - destruct (Hother Hs) as (_ & -> & Hpub & Hnet). replace (set_sv_mailbox (sv_mailbox s) s) with s by (by destruct s). by eapply change_worker.
Qed.

Lemma free_handover_clients x s : sv_clients (free_block x s) = sv_clients s /\ sv_mailbox (free_block x s) = sv_mailbox s /\
  sv_current (free_block x s) = sv_current s /\ sv_phase (free_block x s) = sv_phase s /\ sv_blocks (free_block x s) = sv_blocks s /\
  sv_freed (free_block x s) = sv_freed s ++ match x with Some (block, _) => [block] | None => [] end.
Proof. destruct x as [[block c]|]; cbn; rewrite ?app_nil_r; done. Qed.

(** ** Scheduling *)

Lemma ready_spec c : ready c = true <->
  0 <= cc_fd c /\ cc_subscribed c = false /\ cc_pending c = false /\ cc_length c = 0 /\ cc_have c = cc_target c.
Proof.
  unfold ready. rewrite negb_true_iff, !orb_false_iff, truth_false, negb_false_iff, Z.ltb_ge, Z.eqb_eq. tauto.
Qed.

Lemma schedule_inv s w now later : inv s w -> inv (schedule now later s) w.
Proof.
  intros Hi. unfold schedule. destruct (truth (state s)) eqn:Es; [done|]. apply truth_false in Es.
  assert (Hno : forall i c, sv_clients s !! i = Some c -> cc_pending c = false).
  { intros i c Hc. destruct (cc_pending c) eqn:E; [|done]. by destruct (iv_pending _ _ _ _ Hi i c Hc E). }
  destruct (iv_blocks _ _ _ _ Hi) as (l & Hf & Hb). destruct Hf as [_ Hnx Hre|[?|?]|?? H|??? H|?? H]; try congruence.
  destruct (next_ready s) as [i|] eqn:En.
  - apply find_some in En as [_ Hr]. cbv zeta. apply ready_spec in Hr as (Hfd & Hsub & Hpe & Hl & Hh).
    assert (Hok := connection_inv b n s w i Hi). assert (Hat := connection_at b n s w i Hi (or_introl Hfd)).
    assert (Hrq := ck_request _ Hok Hfd Hh). destruct Hi as [Hw Hp Hc Hlen Hco Hpd Hcu Hv _]. set (c := connection s i) in *.
    split; cbn; try done.
    + by rewrite length_insert.
    + apply Forall_insert; [done|]. destruct Hok. by split; cbn.
    + intros k ck Hk Hck. destruct (decide (k = i)) as [->|Hne]; [done|]. rewrite list_lookup_insert_ne in Hk by done.
      apply Hno in Hk. congruence.
    + intros _. right. exists i, (set_cc_pending true c). split_and!; try done. apply list_lookup_insert_eq. by eapply lookup_lt_Some.
    + exists []. split; [|done]. apply flight_read; cbn; try done; [by left|]. unfold job_of. by destruct (_ && _).
  - destruct (_ <? 100); [done|]. destruct (existsb _ _); [|done]. destruct Hi as [Hw Hp Hc Hlen Hco Hpd Hcu Hv _]. split; cbn; try done.
    + intros k ck Hk Hck. apply Hno in Hk. congruence.
    + intros _. by left.
    + exists []. split; [|done]. apply flight_read; cbn; try done. by left.
Qed.

(** ** Completion *)

(** Between the reclamation and the end of [complete]: no configuration is under
    way. *)
Record settled_job (s0 : admin_service) (w : worker) (s : admin_service) : Prop := {
  st_clients : sv_clients s = sv_clients s0;
  st_current : sv_current s = sv_current s0;
  st_job : jb_next (job s) = None /\ jb_retired (job s) = None;
  st_blocks : sv_freed s ++ [wk_published w] ≡ₚ seq 0 (sv_blocks s)
}.

Lemma seq_next k : seq 0 (S k) = seq 0 k ++ [k].
Proof. by rewrite seq_S. Qed.

Lemma reclaim_settled s w : inv s w -> state s = 2 -> settled_job s w (reclaim s).
Proof.
  intros Hi Hs. destruct (iv_blocks _ _ _ _ Hi) as (l & Hf & Hb). unfold reclaim.
  destruct Hf as [H|H Hph Hty Hnx Hre|?? H|block old next H Hph Hty Hz Hre Hnx|block next H Hph Hty Hz Hnx Hre]; try congruence.
  - rewrite Hph. cbn. split; try done.
  - rewrite Hph. cbn [Z.eqb Pos.eqb negb]. rewrite Hz, Hre. change (truth 0) with false. split; cbn; try done.
    rewrite <- Hb, <- app_assoc. apply Permutation_app_head, perm_swap.
  - rewrite Hph. cbn [Z.eqb Pos.eqb negb]. rewrite (proj2 (truth_true _) Hz), Hnx. split; cbn; try done.
    rewrite <- Hb, <- app_assoc. apply Permutation_app_head, perm_swap.
Qed.

(** An inv-state at the end of [complete]. *)
Lemma finish_inv s0 s w cl : inv s0 w -> settled_job s0 w s -> length cl = ADMIN_CLIENT_MAX -> Forall connection_ok cl ->
  (forall i c, cl !! i = Some c -> cc_pending c = false) ->
  inv (s |> set_sv_clients cl |> set_sv_current (-1) |> set_state 0) w.
Proof.
  intros [Hw Hp Hc Hlen Hco Hpe Hcu Hv _] [Hcl Hcr [Hnx Hre] Hb] Hl Hok Hno. split; cbn; try done.
  - intros i c H1 H2. apply Hno in H1. congruence.
  - exists []. split; [by apply flight_idle|done].
Qed.

Lemma settled_result s0 w s rc : settled_job s0 w s -> settled_job s0 w (set_job (set_jb_result rc (job s)) s).
Proof. intros []. by split. Qed.

(** The reply and the event stream. *)
Lemma answer_inv s0 w s apps : inv s0 w -> state s0 = 2 -> settled_job s0 w s ->
  let asked := 0 <=? sv_current s0 in
  let i := Z.to_nat (sv_current s0) in
  inv (deliver (if asked then let '(rc, c) := answer apps (job s) (connection s i) in
                  set_connection i c (set_job (set_jb_result rc (job s)) s) else s) |> set_sv_current (-1) |> set_state 0) w.
Proof.
  intros Hi Hs Hst. cbv zeta.
  assert (Hone : forall i c, sv_clients s0 !! i = Some c -> cc_pending c = true -> sv_current s0 = Z.of_nat i)
    by (intros i c H1 H2; by apply (iv_pending _ _ _ _ Hi i c)).
  set (s1 := if 0 <=? sv_current s0 then _ else s).
  assert (H1 : settled_job s0 w (set_sv_clients (sv_clients s0) s1) /\ length (sv_clients s1) = ADMIN_CLIENT_MAX /\ Forall connection_ok (sv_clients s1) /\
    forall i c, sv_clients s1 !! i = Some c -> cc_pending c = false).
  { assert (Hlen := iv_clients _ _ _ _ Hi). assert (Hco := iv_connections _ _ _ _ Hi). assert (Hcl := st_clients _ _ _ Hst).
    unfold s1. destruct (Z.leb_spec 0 (sv_current s0)) as [Hc|Hc].
    - destruct (iv_current _ _ _ _ Hi ltac:(lia)) as [[? _]|(i & c & E1 & E2 & E3 & E4)]; [lia|]. unfold current_is in E1. rewrite E1, Nat2Z.id.
      replace (connection s i) with c by (symmetry; apply lookup_connection; by rewrite Hcl).
      assert (Hok : connection_ok c) by (by eapply Forall_lookup_1). destruct (answer_ok apps (job s) c Hok E3) as [Hc1 Hc2].
      destruct (answer apps (job s) c) as [rc c']. cbn [snd] in *. split; [by destruct Hst; split|]. cbn. rewrite Hcl.
      split; [by rewrite length_insert|]. split; [by apply Forall_insert|]. intros k ck Hk. destruct (decide (k = i)) as [->|Hne].
      + rewrite list_lookup_insert_eq in Hk by (by eapply lookup_lt_Some). congruence.
      + rewrite list_lookup_insert_ne in Hk by done. destruct (cc_pending ck) eqn:E; [|done]. apply (Hone _ _ Hk) in E. lia.
    - rewrite Hcl. split; [by destruct Hst; split|]. split; [done|]. split; [done|]. intros k ck Hk. destruct (cc_pending ck) eqn:E; [|done].
      apply (Hone _ _ Hk) in E. lia. }
  clearbody s1. destruct H1 as (Hst1 & Hlen & Hok & Hno).
  apply (finish_inv s0 (set_sv_clients (sv_clients s0) s1) w _ Hi Hst1).
  - by rewrite length_fmap.
  - apply Forall_fmap. eapply Forall_impl; [exact Hok|]. intros c Hc. cbn. destruct (_ && _) eqn:E; [|done]. bool_hyps. apply events_ok; [done|lia|done].
  - intros i c. rewrite list_lookup_fmap. destruct (sv_clients s1 !! i) as [c0|] eqn:E; [|done]. intros [= <-].
    apply Hno in E. destruct (_ && _); [|done]. by rewrite (proj1 (events_same _ _)).
Qed.

(** A prepared change: it goes to the worker, or nothing is left of it. *)
Lemma prepare_change_inv malloc r s w i c : inv s w -> state s = 2 -> sv_phase s = 0 -> current_is s i -> sv_clients s !! i = Some c ->
  cc_pending c = true -> jb_request (job s) = cc_request c -> r = cc_request c ->
  let '(s', again) := prepare_change malloc r s in
  if again then inv s' w else settled_job s w (reclaim s').
Proof.
  intros Hi Hs Hph Hcur Hat Hpe Hrq ->. assert (Hok : connection_ok c) by (by eapply Forall_lookup_1; [apply (iv_connections _ _ _ _ Hi)|]).
  destruct (ck_pending _ Hok Hpe) as ((Hty & _) & _ & _). destruct (iv_view _ _ _ _ Hi Hs) as [Hvc Hvp]. destruct (iv_config _ _ _ _ Hi) as [Hcv Hct Hcg Hci].
  destruct (iv_blocks _ _ _ _ Hi) as (l & Hf & Hb). destruct Hf as [H|_ _ Htp Hnx Hre|?? H|??? ? H|?? ? H]; try congruence.
  assert (Hset : forall rc (s' : admin_service), sv_clients s' = sv_clients s -> sv_current s' = sv_current s -> sv_phase s' = sv_phase s ->
    job s' = set_jb_result rc (job s) -> sv_freed s' ++ [wk_published w] ≡ₚ seq 0 (sv_blocks s') -> settled_job s w (reclaim s')).
  { intros rc s' E1 E2 E3 E4 E5. unfold reclaim. rewrite E3, Hph. cbn. split; try done. by rewrite E4. }
  unfold prepare_change. destruct malloc; [|by apply (Hset (- ENOMEM))]. destruct (admin_mutate _ _) as [rc|next] eqn:Em.
  - apply (Hset rc); try done. change ((sv_freed s ++ [sv_blocks s]) ++ [wk_published w] ≡ₚ seq 0 (S (sv_blocks s))).
    rewrite seq_next, <- Hb, <- !app_assoc. apply Permutation_app_head, perm_swap.
  - rewrite <- Hvc in Hct, Hcg. destruct (admin_mutate_sound _ _ next Hct Hty ltac:(by rewrite Hvp) Hcg Em) as (Hv & Hnt & Hg & Hix).
    assert (Hmut := Em). apply admin_mutate_ok in Em as (_ & _ & _ & _ & Hmax & _). rewrite Hvp in Hv. rewrite Hvc in *.
    destruct Hi as [Hw Hp Hcf Hlen Hco Hpd Hcu _ _]. split; cbn; try done.
    + intros k ck Hk Hck. split; [|done]. by apply (Hpd k ck).
    + intros _. right. by exists i, c.
    + exists [sv_blocks s]. split; [|change (sv_freed s ++ [wk_published w; sv_blocks s] ≡ₚ seq 0 (S (sv_blocks s))); by rewrite seq_next, <- Hb, <- app_assoc].
      apply (flight_offered n _ _ (sv_blocks s) next); try done; [split; try done; unfold is_u64, UINT64_MAX in *; lia|].
      cbn. rewrite Hrq. by eexists.
Qed.

Lemma complete_inv s w malloc apps : inv s w -> inv (complete malloc apps s) w.
Proof.
  intros Hi. unfold complete. destruct (Z.eqb_spec (state s) 2) as [Hs|Hs]; cbn [negb]; [|done].
  destruct (_ && software _) eqn:Ea; [|exact (answer_inv s w (reclaim s) apps Hi Hs (reclaim_settled s w Hi Hs))].
  apply andb_true_iff in Ea as [Ea _]. apply andb_true_iff in Ea as [Ecur Eph]. apply Z.leb_le in Ecur. apply Z.eqb_eq in Eph.
  destruct (iv_current _ _ _ _ Hi ltac:(lia)) as [[? _]|(k & c & E1 & E2 & E3 & E4)]; [lia|].
  assert (Ek : Z.to_nat (sv_current s) = k) by (unfold current_is in E1; lia).
  assert (H := prepare_change_inv malloc (cc_request (connection s (Z.to_nat (sv_current s)))) s w k c Hi Hs Eph E1 E2 E3 E4
    ltac:(by rewrite Ek, (lookup_connection _ _ _ E2))).
  destruct (prepare_change _ _ _) as [s' [|]]; [exact H|]. exact (answer_inv s w (reclaim s') apps Hi Hs H).
Qed.

(** Every step. *)
Lemma admin_step_inv s w s' w' : inv s w -> admin_step (s, w) (s', w') -> inv s' w'.
Proof.
  intros Hi H. inversion H; subst.
  - by apply complete_inv.
  - by apply schedule_inv.
  - by apply admin_accept_inv.
  - by apply admin_read_inv.
  - by apply admin_write_inv.
  - by apply admin_disconnect_inv.
  - destruct Hi as [Hw Hp Hc Hlen Hco Hpd Hcu Hv (l & Hf & Hb)]. split; try done. exists l. split; [|done]. by apply (flight_handover n s).
  - by apply admin_worker_inv.
  - apply traffic_inv; [done|]. apply app_step_own. apply (iv_worker _ _ _ _ Hi).
  - apply traffic_inv; [done|]. apply daemon_dispatch_own. apply (iv_worker _ _ _ _ Hi).
Qed.

Lemma admin_steps_inv x y : rtc admin_step x y -> inv x.1 x.2 -> inv y.1 y.2.
Proof. induction 1 as [|[s w] [s1 w1] [s2 w2] H _ IH]; [done|]. intros Hi. apply IH. by eapply admin_step_inv. Qed.
End steps.

(** * The loop takes these steps *)

Section loop.
Context {D : Dpdk} {N : Nic}.

(** What the kernel may answer: descriptors of accepted connections, bytes. *)
Definition input_ok (e : admin_input) : Prop := Forall (fun p => 0 <= ap_fd p) (ai_accept e) /\ forall i, bytes_in (ai_recv e i).

Lemma connection_ne s s' i j c : sv_clients s' = <[j := c]> (sv_clients s) -> i <> j -> connection s' i = connection s i.
Proof. intros H Hne. unfold connection. by rewrite H, !nth_lookup, list_lookup_insert_ne. Qed.

Lemma disconnect_ne s i j : i <> j -> connection (disconnect j s) i = connection s i.
Proof. by apply connection_ne with (hung_up (connection s j)). Qed.
Lemma write_ne s r i j : i <> j -> connection (write_client j r s) i = connection s i.
Proof.
  intros Hne. unfold write_client. destruct r; [|destruct (retry _); [done|by apply disconnect_ne]].
  destruct (_ <=? 0); [by apply disconnect_ne|]. by eapply connection_ne.
Qed.
Lemma read_ne s r i j : i <> j -> connection (read_client j r s) i = connection s i.
Proof.
  intros Hne. unfold read_client. destruct r; [|destruct (retry _); [done|by apply disconnect_ne]].
  destruct (Nat.eqb _ _); [by apply disconnect_ne|]. destruct (if _ && _ then _ else _) as [c|]; [by eapply connection_ne|].
  rewrite disconnect_ne by done. by eapply connection_ne.
Qed.

Lemma revents_in reported c : truth (Z.land (revents reported (connection_events c)) POLLIN) = true -> connection_events c = POLLIN.
Proof.
  unfold revents, connection_events. intros H. destruct (truth (cc_length c)); [|destruct (_ && _); [done|]];
    rewrite <- Z.land_assoc in H; cbn in H; by rewrite Z.land_0_r in H.
Qed.
Lemma revents_out reported c : truth (Z.land (revents reported (connection_events c)) POLLOUT) = true -> connection_events c = POLLOUT.
Proof.
  unfold revents, connection_events. intros H. destruct (truth (cc_length c)); [done|destruct (_ && _)];
    rewrite <- Z.land_assoc in H; cbn in H; by rewrite Z.land_0_r in H.
Qed.

(** What [poll] reported of a connection. *)
Definition reported_of (s : admin_service) (entry : nat * Z) : Prop :=
  let '(i, got) := entry in got = 0 \/ 0 <= cc_fd (connection s i) /\ exists reported, got = revents reported (connection_events (connection s i)).

Lemma step_one x y : admin_step x y -> rtc admin_step x y.
Proof. intros H. by eapply rtc_once. Qed.

Lemma poll_connection_steps e s w entry : input_ok e -> reported_of s entry ->
  rtc admin_step (s, w) (poll_connection e s entry, w) /\ forall i, i <> entry.1 -> connection (poll_connection e s entry) i = connection s i.
Proof.
  intros [_ Hr] Hrep. destruct entry as [i got]. cbn [fst]. unfold poll_connection. destruct Hrep as [->|(Hfd & reported & ->)].
  { cbn. rewrite !andb_false_r. done. }
  set (got := revents reported _). destruct (truth (Z.land got poll_failure)).
  - assert (Hcl : 0 <=? cc_fd (connection (disconnect i s) i) = false).
    { unfold connection, disconnect. cbn. destruct (decide (i < length (sv_clients s))%nat) as [Hlt|Hge].
      - rewrite nth_lookup, list_lookup_insert_eq by done. cbn. unfold hung_up. cbv zeta. by destruct (cc_pending _).
      - rewrite nth_overflow by (rewrite length_insert; lia). done. }
    rewrite Hcl. cbn [andb]. rewrite Hcl. cbn [andb]. split; [apply step_one, do_disconnect|]. intros k Hk. by apply disconnect_ne.
  - destruct (Z.leb_spec 0 (cc_fd (connection s i))); [cbn [andb]|lia]. destruct (truth (Z.land got POLLOUT)) eqn:Eo.
    + apply revents_out in Eo. assert (Ei : truth (Z.land got POLLIN) = false).
      { destruct (truth (Z.land got POLLIN)) eqn:E; [|done]. apply revents_in in E. rewrite E in Eo. done. }
      rewrite Ei, andb_false_r. split; [by apply step_one, do_write|]. intros k Hk. by apply write_ne.
    + destruct (Z.leb_spec 0 (cc_fd (connection s i))); [cbn [andb]|lia]. destruct (truth (Z.land got POLLIN)) eqn:Ei; [|done].
      apply revents_in in Ei. split; [by apply step_one, do_read|]. intros k Hk. by apply read_ne.
Qed.

Lemma poll_connections_steps e w entries : forall s, input_ok e -> NoDup (entries.*1) -> Forall (reported_of s) entries ->
  rtc admin_step (s, w) (foldl (poll_connection e) s entries, w).
Proof.
  induction entries as [|entry entries IH]; intros s He Hnd Hrep; [done|]. cbn [fmap list_fmap] in Hnd. apply NoDup_cons in Hnd as [Hni Hnd].
  apply Forall_cons in Hrep as [Hr Hrep]. destruct (poll_connection_steps e s w entry He Hr) as [H1 H2]. cbn [foldl].
  etrans; [exact H1|]. apply IH; [done|done|]. rewrite Forall_forall in Hrep |- *. intros [k got] Hk.
  assert (Hne : k <> entry.1) by (intros ->; apply Hni, list_elem_of_fmap; by exists (entry.1, got)).
  specialize (Hrep _ Hk). unfold reported_of in *. by rewrite (H2 k Hne).
Qed.

Lemma accept_other s euid p i : 0 <= cc_fd (connection s i) -> connection (accept_client euid p s) i = connection s i.
Proof.
  intros Hfd. unfold accept_client. destruct (ap_uid p); [|done]. destruct (_ && _); [done|]. destruct (free_connection s) as [j|] eqn:E; [|done].
  unfold free_connection in E. apply find_index_Some in E as [(c & Hc & Hf) _]. bool_hyps. eapply connection_ne; [done|]. intros ->.
  rewrite (lookup_connection _ _ _ Hc) in Hfd. lia.
Qed.

Lemma accept_steps euid w peers : forall s, Forall (fun p => 0 <= ap_fd p) peers ->
  rtc admin_step (s, w) (foldl (fun s p => accept_client euid p s) s peers, w) /\
  forall i, 0 <= cc_fd (connection s i) -> connection (foldl (fun s p => accept_client euid p s) s peers) i = connection s i.
Proof.
  induction peers as [|p peers IH]; intros s Hp; [done|]. apply Forall_cons in Hp as [Hp Hps]. cbn [foldl].
  destruct (IH (accept_client euid p s) Hps) as [H1 H2]. split; [eapply rtc_l; [by apply do_accept|done]|].
  intros i Hi. rewrite H2; by rewrite accept_other.
Qed.

Lemma disconnect_steps w l : forall s, rtc admin_step (s, w) (foldl (fun s i => disconnect i s) s l, w).
Proof. induction l as [|i l IH]; intros s; [done|]. cbn [foldl]. eapply rtc_l; [apply do_disconnect|apply IH]. Qed.

Lemma done_step s w : admin_step (s, w) (set_sv_done true s, w).
Proof. replace (set_sv_done true s) with (s |> set_sv_stopping (sv_stopping s) |> set_sv_done true |> set_sv_failed (sv_failed s)) by (by destruct s). apply do_flags. Qed.
Lemma failed_step s w : admin_step (s, w) (s |> set_sv_failed true |> set_sv_stopping true, w).
Proof.
  replace (s |> set_sv_failed true |> set_sv_stopping true) with (s |> set_sv_stopping true |> set_sv_done (sv_done s) |> set_sv_failed true) by (by destruct s).
  apply do_flags.
Qed.

Lemma admin_poll_steps e s w : input_ok e -> rtc admin_step (s, w) (poll_round e s, w).
Proof.
  intros He. unfold poll_round. destruct (ai_poll e) as [errno|reported].
  { destruct (_ =? EINTR); [done|]. apply step_one, failed_step. }
  set (entries := _ <$> seq 0 ADMIN_CLIENT_MAX). set (s1 := if truth _ then _ else s).
  assert (H1 : rtc admin_step (s, w) (s1, w) /\ forall i, 0 <= cc_fd (connection s i) -> connection s1 i = connection s i).
  { unfold s1. destruct (truth _); [|done]. apply accept_steps, Forall_take, He. }
  destruct H1 as [H1 H2]. etrans; [exact H1|]. apply poll_connections_steps; [done|..].
  - unfold entries. rewrite <- list_fmap_compose. rewrite (list_fmap_ext _ id); [|done]. rewrite list_fmap_id. apply NoDup_seq.
  - unfold entries. apply Forall_fmap, Forall_true. intros i. cbn. unfold connection_revents. destruct (Z.ltb_spec (cc_fd (connection s i)) 0); [by left|].
    right. rewrite (H2 i) by done. split; [done|]. by eexists.
Qed.

(** A round of [run] is a sequence of steps of the control thread. *)
Lemma run_round_steps apps e s w : input_ok e -> rtc admin_step (s, w) ((run_round apps e s).1, w).
Proof.
  intros He. unfold run_round. destruct (sv_stopping s && _).
  - cbn [fst]. eapply rtc_r; [apply disconnect_steps|apply done_step].
  - eapply rtc_l; [apply (do_complete (ai_malloc e) apps)|]. destruct (sv_stopping _); cbn [fst]; [apply disconnect_steps|].
    eapply rtc_l; [apply (do_schedule (ai_now e) (ai_later e))|]. by apply admin_poll_steps.
Qed.
End loop.

(** * Start *)

Section start.
Context {D : Dpdk} {DL : DpdkLaws} {N : Nic}.

(** The service is prepared, and the worker runs with a configuration published. *)
Record launched (b : Z -> Z) (n : nat) (s : admin_service) (w : worker) : Prop := {
  la_prepared : exists path e, admin_prepare path e = (0, s);
  la_worker : worker_ok b w;
  la_ports : length (rt_ports (wk_rt w)) = n /\ Z.of_nat n <= NETIF_MAX;
  la_config : config_ok n (published w);
  la_block : wk_published w = O
}.

(** What every prepared service has in common. *)
Lemma admin_prepare_fresh path e rc s : admin_prepare path e = (rc, s) ->
  handover s = handover fresh_service /\ sv_clients s = sv_clients fresh_service.
Proof.
  assert (Hl : forall s0 rc s, listen_socket e s0 = (rc, s) -> handover s = handover s0 /\ sv_clients s = sv_clients s0).
  { intros s0 rc' s'. unfold listen_socket. repeat case_match; intros; simplify_eq; done. }
  unfold admin_prepare. destruct (_ || _); [by intros [= <- <-]|]. destruct (_ <? 0); [by intros [= <- <-]|].
  destruct (truth _); [by intros [= <- <-]|]. destruct (truth _); [by intros [= <- <-]|]. intros H. by apply Hl in H.
Qed.

Lemma launched_inv b n s w : launched b n s w -> admin_inv b n s w.
Proof.
  intros [(path & e & Hp) Hw [Hn _] Hc Hb]. apply admin_prepare_fresh in Hp as [Hh Hcl].
  apply handover_fields in Hh as (Em & Ec & Ep & Eb & Ef). assert (Hst : state s = 0) by (unfold state; by rewrite Em).
  assert (Hjob : job s = zero_admin_job) by (unfold job; by rewrite Em).
  assert (Hcon : Forall (fun c => connection_ok c /\ cc_pending c = false) (sv_clients s)).
  { rewrite Hcl. apply Forall_replicate. split; [|done]. split; cbn; try lia; done. }
  split; try done.
  - by rewrite Hcl.
  - eapply Forall_impl; [exact Hcon|]. by intros c [].
  - intros i c Hi Hpe. rewrite Forall_lookup in Hcon. destruct (Hcon i c Hi). congruence.
  - by rewrite Hst.
  - exists []. split; [apply flight_idle; [done|by rewrite Hjob..]|]. rewrite Eb, Ef. by rewrite Hb.
Qed.

Lemma launched_steps b n s w s' w' : launched b n s w -> rtc admin_step (s, w) (s', w') -> admin_inv b n s' w'.
Proof.
  intros Hl Hr. exact (admin_steps_inv b n (proj2 (la_ports _ _ _ _ Hl)) (s, w) (s', w') Hr (launched_inv _ _ _ _ Hl)).
Qed.

(** ** Generations *)

Lemma step_generation b n s w s' w' : admin_inv b n s w -> admin_step (s, w) (s', w') -> nc_generation (published w) <= nc_generation (published w').
Proof.
  intros Hi H. assert (Htraffic : forall rt', idle (mk_books b (base (wk_rt w))) [] rt' -> nc_generation (published w) <= nc_generation (published (set_wk_rt rt' w))).
  { intros rt' Hrt. destruct (traffic_ok b w rt' (iv_worker _ _ _ _ Hi) Hrt) as [_ Hnet]. by rewrite (published_network w (set_wk_rt rt' w) Hnet). }
  inversion H; subst; try done.
  - assert (Hp := admin_progress_ok b (sv_mailbox s) w (iv_worker _ _ _ _ Hi)). destruct (admin_progress _ _) as [[k mx'] w1]. cbn [snd].
    destruct Hp as (_ & Hother & Hjob). destruct (decide (mx_state (sv_mailbox s) = 1)) as [Hs|Hs].
    + destruct (Hjob Hs) as [_ [_ _ [Hch Hke] _ _]].
      destruct (decide (jb_type (mx_job (sv_mailbox s)) = ADMIN_ACTIVATE /\ jb_result (mx_job mx') = 0)) as [[Ht Hz]|Hd].
      * destruct (Hch Ht Hz) as (block & next & old & E1 & E2 & _ & _ & _ & _ & E7). destruct (iv_blocks _ _ _ _ Hi) as (l & Hf & _).
        unfold published in *. rewrite E7, E2 in *. cbn in *.
        destruct Hf as [Hx|_ _ Hx|block' next' _ _ _ Hnx _ _ Hg|??? Hx|?? Hx]; unfold state, job in *; try congruence.
        unfold published in Hg. rewrite E2 in Hg. cbn in Hg. rewrite Hnx in E1. injection E1 as -> ->. lia.
      * assert (Hk : jb_type (mx_job (sv_mailbox s)) <> ADMIN_ACTIVATE \/ jb_result (mx_job mx') <> 0)
          by (destruct (decide (jb_type (mx_job (sv_mailbox s)) = ADMIN_ACTIVATE)); [right|left]; tauto).
        destruct (Hke Hk) as (_ & _ & E). by rewrite (published_network w w1 E).
    + destruct (Hother Hs) as (_ & _ & _ & E). by rewrite (published_network w w1 E).
  - apply Htraffic, app_step_own, (iv_worker _ _ _ _ Hi).
  - apply Htraffic, daemon_dispatch_own, (iv_worker _ _ _ _ Hi).
Qed.

Lemma steps_generation b n x y : Z.of_nat n <= NETIF_MAX -> rtc admin_step x y -> admin_inv b n x.1 x.2 ->
  nc_generation (published x.2) <= nc_generation (published y.2).
Proof.
  intros Hn. induction 1 as [|[s w] [s1 w1] [s2 w2] H _ IH]; intros Hi; [done|]. etrans; [by eapply step_generation|]. apply IH. by eapply admin_step_inv.
Qed.
End start.

(** * Theorems *)

(** C11: whatever the clients send, whichever system calls and allocations fail and
    however the two threads interleave, the published configuration is at every
    moment a valid one for the interfaces, with its route index right, and its
    generation never goes back.  At most one connection has a job under way, the
    one the mailbox names, its request is one the daemon accepts, and the
    snapshot a reply is made from shows the configuration published at that
    moment.  Every round of the thread's loop is such a sequence of steps. *)
Theorem administration_safe {D : Dpdk} {DL : DpdkLaws} {N : Nic} b n s w s' w' : launched b n s w -> rtc admin_step (s, w) (s', w') ->
  config_ok n (published w') /\ nc_generation (published w) <= nc_generation (published w') /\
  (forall i c, sv_clients s' !! i = Some c -> cc_pending c = true -> sv_current s' = Z.of_nat i /\ state s' <> 0 /\ request_ok (cc_request c)) /\
  (state s' = 2 -> av_config (sn_view (jb_view (job s'))) = published w') /\
  forall apps e, input_ok e -> rtc admin_step (s', w') ((run_round apps e s').1, w').
Proof.
  intros Hl Hr. assert (Hi := launched_steps _ _ _ _ _ _ Hl Hr).
  assert (Hg := steps_generation b n (s, w) (s', w') (proj2 (la_ports _ _ _ _ Hl)) Hr (launched_inv _ _ _ _ Hl)).
  split; [apply (iv_config _ _ _ _ Hi)|]. split; [exact Hg|]. split; [|split].
  - intros i c Hc Hp. destruct (iv_pending _ _ _ _ Hi i c Hc Hp). split; [done|]. split; [done|].
    eapply ck_pending; [|done]. by eapply Forall_lookup_1; [apply (iv_connections _ _ _ _ Hi)|].
  - intros Hs. by destruct (iv_view _ _ _ _ Hi Hs).
  - intros apps e He. by apply run_round_steps.
Qed.

(** C12: prepared configurations are neither leaked nor freed twice nor freed while
    published: of all the blocks ever allocated, at most one is beside the
    published one and those freed, and none whenever the mailbox is idle. *)
Theorem configurations_reclaimed {D : Dpdk} {DL : DpdkLaws} {N : Nic} b n s w s' w' : launched b n s w -> rtc admin_step (s, w) (s', w') ->
  exists under_way, sv_freed s' ++ wk_published w' :: under_way ≡ₚ seq 0 (sv_blocks s') /\ (length under_way <= 1)%nat /\
    NoDup (sv_freed s') /\ wk_published w' ∉ sv_freed s' /\ (state s' = 0 -> under_way = []).
Proof.
  intros Hl Hr. assert (Hi := launched_steps _ _ _ _ _ _ Hl Hr). destruct (iv_blocks _ _ _ _ Hi) as (l & Hf & Hb). exists l. split; [done|].
  assert (Hnd : NoDup (sv_freed s' ++ wk_published w' :: l)) by (rewrite Hb; apply NoDup_seq). apply NoDup_app in Hnd as (H1 & H2 & _).
  split; [destruct Hf; cbn; lia|]. split; [done|]. split; [intros H; apply (H2 _ H); by left|]. intros Hs. destruct Hf as [|[]| | |]; congruence || done.
Qed.

(** C13: a change that the worker accepted is the change the client asked for: when
    its reply is due, the published configuration is what [admin_mutate] made of
    the one it retires by exactly the request of the connection that waits, one
    generation later, and what is then freed is the retired one. *)
Theorem accepted_change_published {D : Dpdk} {DL : DpdkLaws} {N : Nic} b n s w s' w' : launched b n s w -> rtc admin_step (s, w) (s', w') ->
  state s' = 2 -> sv_phase s' = 1 -> jb_result (job s') = 0 ->
  exists i c block old, sv_current s' = Z.of_nat i /\ sv_clients s' !! i = Some c /\ cc_pending c = true /\
    jb_retired (job s') = Some (block, old) /\ block <> wk_published w' /\
    nc_generation (published w') = nc_generation old + 1 /\ changes (cc_request c) old (published w').
Proof.
  intros Hl Hr Hs Hp Hz. assert (Hi := launched_steps _ _ _ _ _ _ Hl Hr). destruct (iv_blocks _ _ _ _ Hi) as (l & Hf & Hb).
  destruct (iv_current _ _ _ _ Hi ltac:(lia)) as [[_ ?]|(i & c & E1 & E2 & E3 & E4)]; [lia|].
  destruct Hf as [H|_ H|?? H|block old next _ _ _ _ Hre Hnx Hnet Hg Hch|?? _ _ _ H]; try congruence || lia.
  exists i, c, block, old. unfold published. rewrite Hnet, <- E4. split_and!; try done. intros ->.
  assert (Hnd : NoDup (sv_freed s' ++ [wk_published w'; wk_published w'])) by (rewrite Hb; apply NoDup_seq).
  apply NoDup_app in Hnd as (_ & _ & Hnd). apply NoDup_cons in Hnd as [Hnd _]. apply Hnd. by left.
Qed.

(** ** Replies *)

(** The reply of a connection goes on, or it is over. *)
Definition reply_goes_on (c c' : admin_connection) : Prop :=
  cc_length c' = 0 \/ cc_output c' = cc_output c /\ cc_length c' = cc_length c /\ cc_sent c <= cc_sent c'.

Section replies.
Context {D : Dpdk} {N : Nic} (b : Z -> Z) (n : nat).
Abbreviation inv := (admin_inv b n).

Lemma goes_on_refl c : reply_goes_on c c.
Proof. by right. Qed.
Lemma busy_idle s w i : inv s w -> cc_length (connection s i) <> 0 -> cc_pending (connection s i) = false /\ 0 <= cc_fd (connection s i).
Proof.
  intros Hi Hl. assert (Hok := connection_inv b n s w i Hi). split; [|by apply (ck_reply _ Hok Hl)].
  destruct (cc_pending _) eqn:E; [|done]. by destruct (ck_pending _ Hok E) as (_ & ? & _).
Qed.

Lemma connection_eq s s' i j c : sv_clients s' = <[j := c]> (sv_clients s) -> i = j -> (j < length (sv_clients s))%nat -> connection s' i = c.
Proof. intros H -> Hlt. apply lookup_connection. rewrite H. by apply list_lookup_insert_eq. Qed.

Lemma events_busy j c : cc_length c <> 0 -> events j c = c.
Proof. intros H. unfold events. apply truth_true in H. by rewrite H, orb_true_r. Qed.

(** A connection that [deliver] passes over. *)
Definition passed (c : admin_connection) : Prop := cc_length c <> 0 \/ cc_subscribed c = false.

Lemma deliver_passed s i : passed (connection s i) -> connection (deliver s) i = connection s i.
Proof.
  intros H. unfold connection, deliver in *. cbn. rewrite !nth_lookup, list_lookup_fmap in *. destruct (sv_clients s !! i) as [c|]; [|done].
  cbn in *. destruct H as [H|H]; [destruct (_ && _); [by apply events_busy|done]|]. by rewrite H, andb_false_r.
Qed.

Lemma disconnect_reply s w i j : inv s w -> cc_length (connection s i) <> 0 -> reply_goes_on (connection s i) (connection (disconnect j s) i).
Proof.
  intros Hi Hl. destruct (decide (i = j)) as [->|Hne]; [|rewrite disconnect_ne by done; apply goes_on_refl].
  destruct (busy_idle s w j Hi Hl) as [Hp Hfd]. left. unfold disconnect.
  erewrite connection_eq; [|done|done|eapply lookup_lt_Some, (connection_at b n s w j Hi); by left].
  unfold hung_up. cbn. by rewrite Hp.
Qed.

Lemma complete_other s w i malloc apps : inv s w -> cc_pending (connection s i) = false -> passed (connection s i) ->
  connection (complete malloc apps s) i = connection s i.
Proof.
  intros Hi Hp Hl. unfold complete. destruct (Z.eqb_spec (state s) 2) as [Hs|Hs]; cbn [negb]; [|done].
  assert (Hother : forall k c, sv_clients s !! k = Some c -> cc_pending c = true -> k <> i) by (intros k c Hk Hc ->; apply lookup_connection in Hk; congruence).
  assert (Hsame : forall s1, sv_clients s1 = sv_clients s -> sv_current s1 = sv_current s ->
    connection (deliver (if 0 <=? sv_current s then let '(rc, c) := answer apps (job (reclaim s1)) (connection (reclaim s1) (Z.to_nat (sv_current s))) in
      set_connection (Z.to_nat (sv_current s)) c (set_job (set_jb_result rc (job (reclaim s1))) (reclaim s1)) else reclaim s1)
      |> set_sv_current (-1) |> set_state 0) i = connection s i).
  { intros s1 Hc1 Hc2. assert (Hrc : sv_clients (reclaim s1) = sv_clients s).
    { unfold reclaim. destruct (negb _); [done|]. by rewrite (proj1 (free_handover_clients _ _)). }
    set (s2 := reclaim s1) in *. clearbody s2. set (s3 := if 0 <=? sv_current s then _ else s2).
    change (connection (deliver s3) i = connection s i). assert (E3 : connection s3 i = connection s i).
    { subst s3. destruct (Z.leb_spec 0 (sv_current s)).
      - destruct (iv_current _ _ _ _ Hi ltac:(lia)) as [[? _]|(k & c & E1 & E2 & E3 & _)]; [lia|]. unfold current_is in E1. rewrite E1, Nat2Z.id.
        destruct (answer _ _ _) as [rc c'].
        apply (connection_ne s _ i k c'); [exact (f_equal (<[k := c']>) Hrc)|intros ->; by apply (Hother k c)].
      - unfold connection. by rewrite Hrc. }
    rewrite deliver_passed; by rewrite E3. }
  destruct (_ && software _); [|by apply Hsame].
  assert (Hpc : sv_clients (prepare_change malloc (cc_request (connection s (Z.to_nat (sv_current s)))) s).1 = sv_clients s /\
    sv_current (prepare_change malloc (cc_request (connection s (Z.to_nat (sv_current s)))) s).1 = sv_current s)
    by (unfold prepare_change; by repeat case_match).
  destruct (prepare_change _ _ _) as [s1 [|]]; cbn [fst] in Hpc; [unfold connection; by rewrite (proj1 Hpc)|]. apply Hsame; apply Hpc.
Qed.

Lemma step_reply s w s' w' i : inv s w -> admin_step (s, w) (s', w') -> cc_length (connection s i) <> 0 ->
  reply_goes_on (connection s i) (connection s' i).
Proof.
  intros Hi H Hl. destruct (busy_idle s w i Hi Hl) as [Hp Hfd]. inversion H; subst; try (apply goes_on_refl).
  - rewrite (complete_other s w') by (done || by left). apply goes_on_refl.
  - unfold schedule. destruct (truth _); [apply goes_on_refl|]. destruct (next_ready s) as [k|] eqn:E; [|by repeat case_match; apply goes_on_refl].
    apply find_some in E as [_ E]. apply ready_spec in E as (_ & _ & _ & E & _). assert (Hne : i <> k) by (intros ->; congruence).
    cbv zeta. match goal with |- reply_goes_on _ (connection ?x i) => assert (Es : connection x i = connection s i) end;
      [by apply (connection_ne s _ i k (set_cc_pending true (connection s k)))|]. rewrite Es. apply goes_on_refl.
  - rewrite accept_other by done. apply goes_on_refl.
  - match goal with Hev : connection_events (connection s ?k) = POLLIN |- _ => assert (Hne : i <> k) by (intros ->; apply wants_input in Hev; lia) end.
    rewrite read_ne by done. apply goes_on_refl.
  - match goal with r : io_result Z |- _ => rename r into answer0 end.
    match goal with |- context [write_client ?k _ _] => destruct (decide (i = k)) as [->|Hne]; [|rewrite write_ne by done; apply goes_on_refl] end.
    unfold write_client. destruct answer0 as [count|errno]; [|destruct (retry errno); [apply goes_on_refl|by apply (disconnect_reply s w')]].
    destruct (Z.leb_spec (Z.min count (cc_length (connection s i0) - cc_sent (connection s i0))) 0); [by apply (disconnect_reply s w')|].
    cbv zeta. match goal with |- reply_goes_on _ (connection (set_connection i0 ?x s) i0) => assert (Es : connection (set_connection i0 x s) i0 = x) end;
      [eapply (connection_eq s); [reflexivity|done|eapply lookup_lt_Some, (connection_at b n s w' i0 Hi); by left]|]. rewrite Es.
    destruct (_ =? _); [by left|]. right. cbn. split_and!; try done. lia.
  - by apply (disconnect_reply s w').
Qed.
End replies.

(** C14: a reply is never disturbed.  As long as a connection has bytes of a reply
    to send, they are one frame of the protocol whose header declares exactly the
    length of its body; no step of either thread changes the frame or takes back
    what was sent, until it is sent completely or the connection is closed, and a
    connection with a reply under way has no job in the mailbox. *)
Theorem replies_undisturbed {D : Dpdk} {DL : DpdkLaws} {N : Nic} b n s w s1 w1 s2 w2 i : launched b n s w -> rtc admin_step (s, w) (s1, w1) ->
  let c := connection s1 i in
  cc_length c <> 0 ->
  (exists h body, cc_output c = admin_header_encode h ++ body /\ ah_length h = Z.of_nat (length body) /\ cc_length c = ADMIN_HEADER + ah_length h) /\
  0 <= cc_sent c < cc_length c /\ cc_pending c = false /\
  (admin_step (s1, w1) (s2, w2) -> reply_goes_on c (connection s2 i)).
Proof.
  intros Hl Hr. cbv zeta. intros Hlen. assert (Hi := launched_steps _ _ _ _ _ _ Hl Hr). assert (Hok := connection_inv _ _ _ _ i Hi).
  destruct (ck_reply _ Hok Hlen) as (_ & E1 & E2 & (h & body & E3 & E4) & _). split; [|split; [done|]].
  - exists h, body. split; [done|]. split; [done|]. rewrite E1, E3, length_app, length_header. unfold ADMIN_HEADER. lia.
  - split; [by apply (busy_idle _ _ _ _ i Hi)|]. intros Hs. by eapply step_reply.
Qed.

(** ** The end *)

(** One round of the control thread, then one step of the worker. *)
Definition stop_round {D : Dpdk} {N : Nic} (p : admin_service * worker) (x : daemon_service * admin_input) : admin_service * worker :=
  let s := (run_round x.1 x.2 p.1).1 in
  (set_sv_mailbox (admin_progress (sv_mailbox s) p.2).1.2 s, (admin_progress (sv_mailbox s) p.2).2).

(** How many rounds are left at most. *)
Definition rounds_left (s : admin_service) : nat :=
  if state s =? 0 then 1 else if sv_phase s =? 1 then (if state s =? 2 then 2 else 3) else (if state s =? 2 then 3 else 4).

Lemma rounds_left_bound s : (1 <= rounds_left s <= 4)%nat.
Proof. unfold rounds_left. repeat case_match; lia. Qed.

Lemma disconnect_all_handover s : handover (disconnect_all s) = handover s /\ sv_stopping (disconnect_all s) = sv_stopping s.
Proof. unfold disconnect_all. generalize (seq 0 ADMIN_CLIENT_MAX). intros l. revert s. induction l as [|i l IH]; intros s; [done|]. cbn [foldl]. exact (IH (disconnect i s)). Qed.

Lemma disconnect_closed s i : (i < length (sv_clients s))%nat -> cc_fd (connection (disconnect i s) i) < 0.
Proof.
  intros H. rewrite (connection_eq s (disconnect i s) i i (hung_up (connection s i)) eq_refl eq_refl H). unfold hung_up. cbv zeta. by destruct (cc_pending _).
Qed.

Lemma disconnects_length l : forall s, length (sv_clients (foldl (fun s i => disconnect i s) s l)) = length (sv_clients s).
Proof. induction l as [|k l IH]; intros s; [done|]. cbn [foldl]. rewrite IH. cbn. apply length_insert. Qed.
Lemma disconnects_closed l i : forall s, (i < length (sv_clients s))%nat -> i ∈ l \/ cc_fd (connection s i) < 0 ->
  cc_fd (connection (foldl (fun s i => disconnect i s) s l) i) < 0.
Proof.
  induction l as [|k l IH]; intros s Hi Hor; cbn [foldl]; [destruct Hor as [H|]; [by apply not_elem_of_nil in H|done]|].
  apply IH; [cbn; by rewrite length_insert|]. destruct (decide (i = k)) as [->|Hne]; [right; by apply disconnect_closed|].
  destruct Hor as [H|H]; [apply elem_of_cons in H as [|H]; [done|by left]|]. right. by rewrite disconnect_ne.
Qed.
Lemma disconnect_all_closed s i c : length (sv_clients s) = ADMIN_CLIENT_MAX -> sv_clients (disconnect_all s) !! i = Some c -> cc_fd c < 0.
Proof.
  intros Hlen Hc. assert (Hlt := lookup_lt_Some _ _ _ Hc). unfold disconnect_all in Hlt. rewrite disconnects_length in Hlt.
  rewrite <- (lookup_connection _ _ _ Hc). apply disconnects_closed; [done|]. left. apply elem_of_seq. lia.
Qed.

Lemma complete_phase malloc apps s : sv_stopping (complete malloc apps s) = sv_stopping s /\
  (state s <> 2 -> complete malloc apps s = s) /\
  (state s = 2 -> state (complete malloc apps s) = 0 \/
     sv_phase s = 0 /\ state (complete malloc apps s) = 1 /\ sv_phase (complete malloc apps s) = 1).
Proof.
  unfold complete. destruct (Z.eqb_spec (state s) 2) as [Hs|Hs]; cbn [negb]; [|done].
  assert (Hrec : forall s1, sv_stopping (reclaim s1) = sv_stopping s1) by (intros s1; unfold reclaim, free_block; by repeat case_match).
  assert (Hend : forall s1 (x : admin_service), sv_stopping s1 = sv_stopping s -> sv_stopping x = sv_stopping (reclaim s1) ->
    sv_stopping (deliver x |> set_sv_current (-1) |> set_state 0) = sv_stopping s) by (intros s1 x H1 H2; cbn; by rewrite H2, Hrec).
  destruct (_ && software _) eqn:E.
  - assert (Hpc : sv_stopping (prepare_change malloc (cc_request (connection s (Z.to_nat (sv_current s)))) s).1 = sv_stopping s)
      by (unfold prepare_change; destruct malloc; [destruct (admin_mutate _ _)|]; done).
    assert (Hag : let '(s1, again) := prepare_change malloc (cc_request (connection s (Z.to_nat (sv_current s)))) s in
      again = true -> state s1 = 1 /\ sv_phase s1 = 1) by (unfold prepare_change; destruct malloc; [destruct (admin_mutate _ _)|]; done).
    destruct (prepare_change _ _ _) as [s1 [|]]; cbn [fst] in Hpc.
    + split; [done|]. split; [done|]. intros _. right. bool_hyps. destruct (Hag eq_refl). split_and!; done || lia.
    + split; [|split; [done|by left]]. eapply Hend; [exact Hpc|]. destruct (0 <=? _); [|done]. by destruct (answer _ _ _).
  - split; [|split; [done|by left]]. eapply (Hend s); [done|]. destruct (0 <=? _); [|done]. by destruct (answer _ _ _).
Qed.

Section stop.
Context {D : Dpdk} {DL : DpdkLaws} {N : Nic} (b : Z -> Z) (n : nat).
Hypothesis Hn : Z.of_nat n <= NETIF_MAX.
Abbreviation inv := (admin_inv b n).

(** All is closed and nothing is under way. *)
Definition stopped (s : admin_service) (w : worker) : Prop :=
  sv_done s = true /\ state s = 0 /\ Forall (fun c => cc_fd c < 0 /\ cc_pending c = false) (sv_clients s) /\
  sv_freed s ++ [wk_published w] ≡ₚ seq 0 (sv_blocks s).

(** The step of the worker, as far as the mailbox goes. *)
Lemma worker_state s w : inv s w -> let s' := set_sv_mailbox (admin_progress (sv_mailbox s) w).1.2 s in
  (state s <> 1 -> s' = s) /\ (state s = 1 -> state s' = 2).
Proof.
  intros Hi. assert (H := admin_progress_ok b (sv_mailbox s) w (iv_worker _ _ _ _ Hi)). destruct (admin_progress _ _) as [[k mx'] w'].
  destruct H as (_ & H1 & H2). cbn [fst snd]. split; intros Hs.
  - destruct (H1 Hs) as (_ & -> & _). by destruct s.
  - destruct (H2 Hs) as [_ [Ha _ _ _ _]]. exact Ha.
Qed.

(** What a round leaves when the thread is to stop. *)
Definition stopping_round (s s1 : admin_service) : Prop :=
  sv_stopping s1 = true /\
    ((state s = 0 /\ state s1 = 0 /\ sv_done s1 = true /\ forall i c, sv_clients s1 !! i = Some c -> cc_fd c < 0) \/
     (state s = 1 /\ state s1 = 1 /\ sv_phase s1 = sv_phase s) \/
     (state s = 2 /\ (state s1 = 0 \/ sv_phase s = 0 /\ state s1 = 1 /\ sv_phase s1 = 1))).

Lemma stopping_idle s s0 : sv_stopping s = true -> state s = 0 -> handover s0 = handover s /\ sv_stopping s0 = sv_stopping s ->
  (forall i c, sv_clients s0 !! i = Some c -> cc_fd c < 0) -> stopping_round s (set_sv_done true s0).
Proof. intros Hst Hs [(Em & _)%handover_fields Es] Hcl. split; [exact (eq_trans Es Hst)|]. left. split; [done|]. split; [exact (eq_trans (f_equal mx_state Em) Hs)|done]. Qed.

Lemma stopping_busy s w s0 s1 : inv s w -> state s <> 0 -> sv_stopping s0 = true -> (state s <> 2 -> s0 = s) ->
  (state s = 2 -> state s0 = 0 \/ sv_phase s = 0 /\ state s0 = 1 /\ sv_phase s0 = 1) ->
  handover s1 = handover s0 /\ sv_stopping s1 = sv_stopping s0 -> stopping_round s s1.
Proof.
  intros Hi Hs Hst H1 H2 [(Em & _ & Ep & _ & _)%handover_fields Es]. split; [congruence|]. right.
  assert (E : state s1 = state s0) by (unfold state; by rewrite Em). rewrite E, Ep.
  destruct (iv_blocks _ _ _ _ Hi) as (l & Hf & _). destruct Hf as [|[]| | |]; try congruence;
    (right; split; [done|]; by apply H2) || (left; by rewrite H1 by lia).
Qed.

Lemma stop_round_head s w x : inv s w -> sv_stopping s = true -> stopping_round s (run_round x.1 x.2 s).1.
Proof.
  intros Hi Hst. unfold run_round. rewrite Hst. destruct (complete_phase (ai_malloc x.2) x.1 s) as (Hcs & Hc1 & Hc2).
  destruct (truth (state s)) eqn:Et; cbn [andb negb].
  - rewrite Hcs, Hst. cbn [fst]. apply truth_true in Et. eapply stopping_busy; [exact Hi|done|by rewrite Hcs|exact Hc1|exact Hc2|apply disconnect_all_handover].
  - apply truth_false in Et. cbn [fst]. apply stopping_idle; [done|done|apply disconnect_all_handover|]. intros i c. apply disconnect_all_closed, Hi.
Qed.

Lemma stop_round_left s w x : inv s w -> sv_stopping s = true -> input_ok x.2 ->
  let '(s', w') := stop_round (s, w) x in
  inv s' w' /\ sv_stopping s' = true /\ (rounds_left s' <= Nat.max 1 (rounds_left s - 1))%nat /\ (rounds_left s = 1%nat -> stopped s' w').
Proof.
  intros Hi Hst Hx. unfold stop_round. cbn [fst snd].
  assert (Hi1 : inv (run_round x.1 x.2 s).1 w) by exact (admin_steps_inv b n Hn (s, w) _ (run_round_steps x.1 x.2 s w Hx) Hi).
  assert (Hw := worker_state _ _ Hi1). cbv zeta in Hw. assert (Hi2 := admin_worker_inv b n _ _ Hi1). assert (Hs1 := stop_round_head s w x Hi Hst). set (s1 := (run_round x.1 x.2 s).1) in *.
  clearbody s1. destruct Hs1 as [Hst1 Hcases]. destruct Hw as [Hw1 Hw2]. split; [exact Hi2|]. split; [done|].
  assert (Hleft : forall s', state s' = 0 -> rounds_left s' = 1%nat) by (intros s' H; unfold rounds_left; by rewrite H).
  destruct Hcases as [(H0 & H1 & Hd & Hcl)|[(H0 & H1 & Hp)|(H0 & [H1|(Hp & H1 & Hp1)])]].
  - rewrite (Hw1 ltac:(lia)) in *. split; [rewrite (Hleft s1 H1); lia|]. intros _. split; [done|]. split; [done|]. split.
    + apply Forall_lookup. intros i c Hc. split; [by apply (Hcl i)|]. destruct (cc_pending c) eqn:E; [|done]. by destruct (iv_pending _ _ _ _ Hi2 i c Hc E).
    + destruct (iv_blocks _ _ _ _ Hi2) as (l & Hf & Hb). destruct Hf as [|[]| | |]; unfold state in *; congruence || exact Hb.
  - specialize (Hw2 H1). unfold rounds_left. rewrite Hw2, H0. cbn [sv_phase set_sv_mailbox]. rewrite Hp. cbn. split; destruct (sv_phase s =? 1); lia.
  - rewrite (Hw1 ltac:(lia)). rewrite (Hleft s1 H1). split; [lia|]. unfold rounds_left. rewrite H0. cbn. destruct (sv_phase s =? 1); lia.
  - specialize (Hw2 H1). unfold rounds_left. rewrite Hw2, H0, Hp. cbn [sv_phase set_sv_mailbox]. rewrite Hp1. cbn. split; lia.
Qed.

Lemma stop_rounds rounds x : forall s w, inv s w -> sv_stopping s = true -> Forall (fun x => input_ok x.2) (rounds ++ [x]) ->
  (rounds_left s <= S (length rounds))%nat -> stopped (foldl stop_round (s, w) (rounds ++ [x])).1 (foldl stop_round (s, w) (rounds ++ [x])).2.
Proof.
  induction rounds as [|y rounds IH]; intros s w Hi Hst Hx Hle; cbn [app foldl length] in *.
  - apply Forall_cons in Hx as [Hx _]. assert (H := stop_round_left s w x Hi Hst Hx). destruct (stop_round (s, w) x) as [s' w'].
    apply H. assert (Hb := rounds_left_bound s). lia.
  - apply Forall_cons in Hx as [Hy Hx]. assert (H := stop_round_left s w y Hi Hst Hy). destruct (stop_round (s, w) y) as [s' w'].
    destruct H as (Hi' & Hst' & Hl & _). apply IH; try done. lia.
Qed.
End stop.

(** Once it is told to stop, the control thread ends: whatever it was doing,
    after at most four of its rounds, each followed by a step of the worker, it
    is done, every connection is closed, the mailbox is idle and the only
    configuration left on the heap is the published one. *)
Theorem administration_stops {D : Dpdk} {DL : DpdkLaws} {N : Nic} b n s w s1 w1 x1 x2 x3 x4 : launched b n s w -> rtc admin_step (s, w) (s1, w1) ->
  sv_stopping s1 = true -> Forall (fun x => input_ok x.2) [x1; x2; x3; x4] ->
  let '(s2, w2) := foldl stop_round (s1, w1) [x1; x2; x3; x4] in
  sv_done s2 = true /\ state s2 = 0 /\ Forall (fun c => cc_fd c < 0 /\ cc_pending c = false) (sv_clients s2) /\
  sv_freed s2 ++ [wk_published w2] ≡ₚ seq 0 (sv_blocks s2).
Proof.
  intros Hl Hr Hst Hx. assert (Hi := launched_steps _ _ _ _ _ _ Hl Hr).
  assert (H := stop_rounds b n (proj2 (la_ports _ _ _ _ Hl)) [x1; x2; x3] x4 s1 w1 Hi Hst Hx (proj2 (rounds_left_bound s1))).
  change ([x1; x2; x3] ++ [x4]) with [x1; x2; x3; x4] in H. by destruct (foldl _ _ _).
Qed.

(** ** Scheduling *)

(** How many connections come before [i] in the order of the search. *)
Definition turns_before (i : nat) (s : admin_service) : nat := Z.to_nat ((Z.of_nat i - sv_cursor s - 1) mod 16).

Lemma find_first {A} (f : A -> bool) l m x : l !! m = Some x -> f x = true ->
  exists k y, List.find f l = Some y /\ l !! k = Some y /\ f y = true /\ (k <= m)%nat.
Proof.
  revert m. induction l as [|z l IH]; intros m Hm Hf; [done|]. cbn. destruct (f z) eqn:E; [exists O, z; split_and!; try done; lia|].
  destruct m as [|m]; [cbn in Hm; congruence|]. destruct (IH m Hm Hf) as (k & y & H1 & H2 & H3 & H4). exists (S k), y. split_and!; try done. lia.
Qed.

Lemma turn_lookup cursor k : (k < ADMIN_CLIENT_MAX)%nat -> turn cursor !! k = Some (Z.to_nat ((cursor + 1 + Z.of_nat k) mod 16)).
Proof.
  intros H. unfold turn. rewrite list_lookup_fmap, lookup_seq_lt by done. cbn [fmap option_fmap option_map]. do 2 f_equal.
  unfold u32. change (Z.of_nat ADMIN_CLIENT_MAX) with 16. rewrite Z.mod_mod_divide by (by exists (2 ^ 28)). f_equal. lia.
Qed.

Lemma turns_position i s : (i < ADMIN_CLIENT_MAX)%nat -> (turns_before i s < ADMIN_CLIENT_MAX)%nat /\ turn (sv_cursor s) !! turns_before i s = Some i.
Proof.
  unfold turns_before, ADMIN_CLIENT_MAX. intros H. assert (Hm := Z.mod_pos_bound (Z.of_nat i - sv_cursor s - 1) 16 ltac:(lia)).
  split; [lia|]. rewrite turn_lookup by (unfold ADMIN_CLIENT_MAX; lia). f_equal. rewrite Z2Nat.id by lia. Z.div_mod_to_equations. lia.
Qed.

Lemma next_ready_turn s i : (i < ADMIN_CLIENT_MAX)%nat -> ready (connection s i) = true ->
  exists k, next_ready s = Some k /\ ready (connection s k) = true /\ (k < ADMIN_CLIENT_MAX)%nat /\
    (k <> i -> (Z.to_nat ((Z.of_nat i - Z.of_nat k - 1) mod 16) < turns_before i s)%nat).
Proof.
  intros Hi Hr. destruct (turns_position i s Hi) as [Hlt Hpos].
  destruct (find_first (fun i => ready (connection s i)) _ _ _ Hpos Hr) as (m & k & H1 & H2 & H3 & H4). exists k. split; [done|]. split; [done|].
  rewrite turn_lookup in H2 by lia. injection H2 as H2. unfold turns_before, ADMIN_CLIENT_MAX in *.
  assert (Hm := Z.mod_pos_bound (sv_cursor s + 1 + Z.of_nat m) 16 ltac:(lia)). split; [lia|]. intros Hne.
  assert (E : Z.of_nat k = (sv_cursor s + 1 + Z.of_nat m) mod 16) by lia. clear H2 Hpos H1 H3 Hr.
  assert (Hd : (m < Z.to_nat ((Z.of_nat i - sv_cursor s - 1) mod 16))%nat).
  { destruct (decide (m = Z.to_nat ((Z.of_nat i - sv_cursor s - 1) mod 16))) as [Em|]; [|lia]. exfalso. apply Hne.
    apply Nat2Z.inj. rewrite E. subst m. rewrite Z2Nat.id by (apply Z.mod_pos_bound; lia). Z.div_mod_to_equations. lia. }
  apply Z2Nat.inj_lt; [apply Z.mod_pos_bound; lia..|]. assert (Hd' : Z.of_nat m < (Z.of_nat i - sv_cursor s - 1) mod 16) by lia.
  rewrite E. clear -Hd' Hi. Z.div_mod_to_equations. lia.
Qed.

(** What becomes of a connection that waits for its turn. *)
Definition waits_on (s s' : admin_service) (i : nat) : Prop :=
  ready (connection s' i) = true /\ (turns_before i s' <= turns_before i s)%nat /\ (state s = 0 -> state s' <> 0 -> (turns_before i s' < turns_before i s)%nat).

Section fair.
Context {D : Dpdk} {DL : DpdkLaws} {N : Nic} (b : Z -> Z) (n : nat).
Abbreviation inv := (admin_inv b n).

Lemma waits_same s s' i : ready (connection s i) = true -> connection s' i = connection s i -> sv_cursor s' = sv_cursor s ->
  (state s = 0 -> state s' = 0) -> waits_on s s' i.
Proof. intros Hr Hc Hcu Hs. unfold waits_on, turns_before. rewrite Hc, Hcu. split; [done|]. split; [done|]. intros H1 H2. by destruct H2; apply Hs. Qed.

Lemma schedule_turn s i now later : (i < ADMIN_CLIENT_MAX)%nat -> length (sv_clients s) = ADMIN_CLIENT_MAX -> ready (connection s i) = true ->
  let s' := schedule now later s in
  sv_current s' = Z.of_nat i /\ cc_pending (connection s' i) = true /\ state s' = 1 \/ waits_on s s' i.
Proof.
  intros Hi Hlen Hr. cbv zeta. unfold schedule. destruct (truth (state s)) eqn:Es; [right; by apply waits_same|]. apply truth_false in Es.
  destruct (next_ready_turn s i Hi Hr) as (k & -> & _ & Hk & Hlt). cbv zeta. destruct (decide (k = i)) as [->|Hne].
  - left. split; [done|]. split; [|done].
    match goal with |- cc_pending (connection ?x i) = _ => assert (E : connection x i = set_cc_pending true (connection s i)) end;
      [apply (connection_eq s _ i i); [done|done|lia]|by rewrite E].
  - right. match goal with |- waits_on _ ?x _ => assert (E : connection x i = connection s i) end;
      [by apply (connection_ne s _ i k (set_cc_pending true (connection s k)))|].
    specialize (Hlt Hne). unfold waits_on, turns_before in *. rewrite E. cbn [sv_cursor set_state set_connection set_job set_sv_mailbox set_sv_clients set_sv_phase set_sv_current set_sv_cursor] in *.
    split; [done|]. split; [exact (Nat.lt_le_incl _ _ Hlt)|]. intros _ _. exact Hlt.
Qed.
(** No operation but [schedule] moves the cursor. *)
Lemma read_cursor i r s : sv_cursor (read_client i r s) = sv_cursor s /\ sv_mailbox (read_client i r s) = sv_mailbox s.
Proof. unfold read_client. by repeat case_match. Qed.
Lemma write_cursor i r s : sv_cursor (write_client i r s) = sv_cursor s /\ sv_mailbox (write_client i r s) = sv_mailbox s.
Proof. unfold write_client. by repeat case_match. Qed.
Lemma accept_cursor euid p s : sv_cursor (accept_client euid p s) = sv_cursor s /\ sv_mailbox (accept_client euid p s) = sv_mailbox s.
Proof. unfold accept_client. by repeat case_match. Qed.
Lemma complete_cursor malloc apps s : sv_cursor (complete malloc apps s) = sv_cursor s.
Proof.
  unfold complete. destruct (negb _); [done|].
  assert (Hr : forall s1, sv_cursor (reclaim s1) = sv_cursor s1) by (intros s1; unfold reclaim, free_block; by repeat case_match).
  assert (Hp : forall r s1, sv_cursor (prepare_change malloc r s1).1 = sv_cursor s1)
    by (intros r s1; unfold prepare_change; destruct malloc; [destruct (admin_mutate _ _)|]; done).
  destruct (_ && software _).
  - specialize (Hp (cc_request (connection s (Z.to_nat (sv_current s)))) s). destruct (prepare_change _ _ _) as [s1 [|]]; [done|]. cbn [fst] in Hp.
    rewrite <- Hp, <- (Hr s1). destruct (0 <=? _); [|done]. by destruct (answer _ _ _).
  - rewrite <- (Hr s). destruct (0 <=? _); [|done]. by destruct (answer _ _ _).
Qed.

Lemma step_turn s w s' w' i : inv s w -> admin_step (s, w) (s', w') -> ready (connection s i) = true ->
  cc_fd (connection s' i) < 0 \/ sv_current s' = Z.of_nat i /\ cc_pending (connection s' i) = true /\ state s' = 1 \/ waits_on s s' i.
Proof.
  intros Hi H Hr. destruct (proj1 (ready_spec _) Hr) as (Hfd & Hsub & Hpe & Hl & Hh).
  assert (Hlt : (i < length (sv_clients s))%nat) by (eapply lookup_lt_Some, (connection_at b n s w i Hi); by left).
  inversion H; subst; try (right; right; by apply waits_same).
  - right; right. apply waits_same; [done|apply (complete_other b n s w'); [done..|by right]|apply complete_cursor|].
    intros Hs. by rewrite (proj1 (proj2 (complete_phase malloc apps s))) by lia.
  - right. apply schedule_turn; [by rewrite <- (iv_clients _ _ _ _ Hi)|apply Hi|done].
  - right; right. destruct (accept_cursor euid p s) as [Ec Em]. apply waits_same; [done|by apply accept_other|done|unfold state; by rewrite Em].
  - right; right. match goal with |- waits_on _ (read_client ?k ?r _) _ => destruct (read_cursor k r s) as [Ec Em];
      assert (Hne : i <> k) by (intros ->; match goal with Hev : _ = POLLIN |- _ => apply wants_input in Hev; lia end) end.
    apply waits_same; [done|by apply read_ne|done|unfold state; by rewrite Em].
  - right; right. match goal with |- waits_on _ (write_client ?k ?r _) _ => destruct (write_cursor k r s) as [Ec Em];
      assert (Hne : i <> k) by (intros ->; match goal with Hev : _ = POLLOUT |- _ => by apply wants_output in Hev end) end.
    apply waits_same; [done|by apply write_ne|done|unfold state; by rewrite Em].
  - match goal with |- context [disconnect ?k _] => destruct (decide (i = k)) as [->|Hne] end; [left; by apply disconnect_closed|].
    right; right. apply waits_same; [done|by apply disconnect_ne|done|done].
  - right; right. destruct (worker_state b n s w Hi) as [H1 _]. cbv zeta in H1. apply waits_same; [done|done|done|]. intros Hs. by rewrite H1 by lia.
Qed.
End fair.

(** C15: no connection starves.  A connection with a whole request waits for at
    most fifteen other jobs: every step of either thread closes it, starts its
    job, or leaves it ready with its place in the order no worse, and strictly
    better whenever another job was started. *)
Theorem requests_take_turns {D : Dpdk} {DL : DpdkLaws} {N : Nic} b n s w s1 w1 s2 w2 i : launched b n s w -> rtc admin_step (s, w) (s1, w1) ->
  ready (connection s1 i) = true -> admin_step (s1, w1) (s2, w2) ->
  (turns_before i s1 <= 15)%nat /\
  (cc_fd (connection s2 i) < 0 \/ sv_current s2 = Z.of_nat i /\ cc_pending (connection s2 i) = true /\ state s2 = 1 \/
   ready (connection s2 i) = true /\ (turns_before i s2 <= turns_before i s1)%nat /\
     (state s1 = 0 -> state s2 <> 0 -> (turns_before i s2 < turns_before i s1)%nat)).
Proof.
  intros Hl Hr Hrd Hs. assert (Hi := launched_steps _ _ _ _ _ _ Hl Hr). split; [|by eapply step_turn].
  unfold turns_before. assert (H := Z.mod_pos_bound (Z.of_nat i - sv_cursor s1 - 1) 16 ltac:(lia)). lia.
Qed.

(** * A concrete service *)

Module ControlSample.
#[local] Existing Instance Sample.dpdk.
#[local] Existing Instance Sample.ethdev.
#[local] Instance laws : DpdkLaws := sim_laws _.
#[local] Existing Instance WorkerSample.nic.

Definition system : prepare_input :=
  mk_prepare_input 0 5 (inr (mk_inode_info true false 0 1 1 2)) 0 None (inl ENOENT) 0 None None 6 None (inr (mk_inode_info false true 0 1 1 3)) None.
Definition service : admin_service := (admin_prepare "/run/admin" system).2.
Definition start : worker := WorkerSample.start.

Lemma sample_config : config_ok 1 (published start).
Proof.
  split; [apply net_config_validate_iff; [compute_closed|reflexivity]|compute_closed|compute_closed|vm_compute; discriminate].
Qed.
Lemma sample_launched : launched (fun _ => 0) 1 service start.
Proof.
  split; [by exists "/run/admin"%string, system|exact WorkerSample.start_ok| |exact sample_config|reflexivity].
  split; [vm_compute; reflexivity|vm_compute; discriminate].
Qed.

(** A client asks for the default action of the access list to be changed. *)
Definition request : admin_request :=
  mk_admin_request ADM_ACL ADM_DEFAULT 0 0 (<[F_ACTION := 1]> (replicate 16 0)) (replicate 64 0) [].
Definition header : list Z := admin_header_encode (mk_admin_header 1 144 0 0).
Definition accepted : admin_service := accept_client 0 (mk_admin_peer 7 (Some 0)) service.
Definition half : admin_service := read_client 0 (Answered header) accepted.
Definition asked : admin_service := read_client 0 (Answered (admin_request_encode request)) half.
Definition scheduled : admin_service := schedule 0 0 asked.
Definition captured : admin_service := set_sv_mailbox (admin_progress (sv_mailbox scheduled) start).1.2 scheduled.
Definition worker1 : worker := (admin_progress (sv_mailbox scheduled) start).2.
Definition offered : admin_service := complete true zero_daemon_service captured.
Definition activated : admin_service := set_sv_mailbox (admin_progress (sv_mailbox offered) worker1).1.2 offered.
Definition worker2 : worker := (admin_progress (sv_mailbox offered) worker1).2.
Definition replied : admin_service := complete true zero_daemon_service activated.

Lemma asks : rtc admin_step (service, start) (asked, start).
Proof.
  apply (rtc_l _ _ (accepted, start)); [apply do_accept; vm_compute; discriminate|].
  apply (rtc_l _ _ (half, start)); [apply do_read; [vm_compute; discriminate|vm_compute; reflexivity|compute_closed]|].
  apply (rtc_l _ _ (asked, start)); [apply do_read; [vm_compute; discriminate|vm_compute; reflexivity|compute_closed]|apply rtc_refl].
Qed.
Lemma activates : rtc admin_step (service, start) (activated, worker2).
Proof.
  etrans; [exact asks|]. apply (rtc_l _ _ (scheduled, start)); [exact (do_schedule 0 0 asked start)|]. apply (rtc_l _ _ (captured, worker1)); [exact (do_worker scheduled start)|].
  apply (rtc_l _ _ (offered, worker1)); [exact (do_complete true zero_daemon_service captured worker1)|]. apply (rtc_l _ _ (activated, worker2)); [exact (do_worker offered worker1)|apply rtc_refl].
Qed.
Lemma replies : rtc admin_step (service, start) (replied, worker2).
Proof. eapply rtc_r; [exact activates|exact (do_complete true zero_daemon_service activated worker2)]. Qed.

Lemma administration_safe_witness :
  config_ok 1 (published worker2) /\ nc_generation (published worker2) = nc_generation (published start) + 1.
Proof.
  destruct (administration_safe (fun _ => 0) 1 service start replied worker2 sample_launched replies) as (H & _).
  split; [exact H|vm_compute; reflexivity].
Defined.

Lemma configurations_reclaimed_witness : sv_freed replied = [0%nat] /\ wk_published worker2 = 1%nat /\ wk_published worker2 ∉ sv_freed replied.
Proof.
  destruct (configurations_reclaimed (fun _ => 0) 1 service start replied worker2 sample_launched replies) as (l & _ & _ & _ & H & _).
  split; [vm_compute; reflexivity|]. split; [vm_compute; reflexivity|exact H].
Defined.

Lemma accepted_change_published_witness : exists i c block old, sv_current activated = Z.of_nat i /\ sv_clients activated !! i = Some c /\
  jb_retired (job activated) = Some (block, old) /\ changes (cc_request c) old (published worker2).
Proof.
  destruct (accepted_change_published (fun _ => 0) 1 service start activated worker2 sample_launched activates
    ltac:(vm_compute; reflexivity) ltac:(vm_compute; reflexivity) ltac:(vm_compute; reflexivity)) as (i & c & block & old & H1 & H2 & _ & H4 & _ & _ & H7).
  exists i, c, block, old. split; [exact H1|]. split; [exact H2|]. split; [exact H4|exact H7].
Defined.

Lemma replies_undisturbed_witness : cc_length (connection replied 0) = 53 /\ cc_pending (connection replied 0) = false.
Proof.
  destruct (replies_undisturbed (fun _ => 0) 1 service start replied worker2 replied worker2 0 sample_launched replies ltac:(vm_compute; discriminate)) as (_ & _ & H & _).
  split; [vm_compute; reflexivity|exact H].
Defined.

Definition idle_input : admin_input := mk_admin_input true 0 0 (inr []) 0 [] (fun _ => Failed EAGAIN) (fun _ => Failed EAGAIN).
Lemma idle_ok : input_ok idle_input.
Proof. split; [constructor|intros i; exact I]. Qed.
Lemma administration_stops_witness :
  let x := (zero_daemon_service, idle_input) in
  let '(s2, w2) := foldl stop_round (activated |> set_sv_stopping true |> set_sv_done false |> set_sv_failed false, worker2) [x; x; x; x] in
  sv_done s2 = true /\ state s2 = 0.
Proof.
  cbv zeta. set (x := (zero_daemon_service, idle_input)). set (s1 := activated |> set_sv_stopping true |> set_sv_done false |> set_sv_failed false).
  assert (H := administration_stops (fun _ => 0) 1 service start s1 worker2 x x x x sample_launched).
  assert (Hr : rtc admin_step (service, start) (s1, worker2)) by (eapply rtc_r; [exact activates|exact (do_flags true false false activated worker2)]).
  specialize (H Hr eq_refl). destruct (foldl stop_round (s1, worker2) [x; x; x; x]) as [s2 w2].
  destruct H as (H1 & H2 & _); [|split; [exact H1|exact H2]]. exact (Forall_replicate (fun x => input_ok x.2) 4 x idle_ok).
Defined.

Lemma requests_take_turns_witness : (turns_before 0 asked <= 15)%nat /\
  (cc_fd (connection scheduled 0) < 0 \/ sv_current scheduled = 0 \/ ready (connection scheduled 0) = true).
Proof.
  destruct (requests_take_turns (fun _ => 0) 1 service start asked start scheduled start 0 sample_launched asks
    ltac:(vm_compute; reflexivity) (do_schedule 0 0 asked start)) as (H & [H1|[(H1 & _)|(H1 & _)]]).
  - split; [exact H|by left].
  - split; [exact H|right; left; exact H1].
  - split; [exact H|right; right; exact H1].
Defined.
End ControlSample.
