(* ===== verification/AdminClientSpec.v ===== *)
(** The administration tool and the daemon: what the tool sends arrives as it was
    sent, in whatever pieces, the reply comes back the same way, and no reply
    overruns the tool's buffer. *)
From S2P Require Import Prelude.
From S2P Require Import Dpdk.
From S2P Require Import Types.
From S2P Require Import Ipc.
From S2P Require Import Control.
From S2P Require Import Client.
From S2P Require Import ClientSpec.
From S2P Require Import AdminWire.
From S2P Require Import AdminState.
From S2P Require Import AdminWorker.
From S2P Require Import AdminControl.
From S2P Require Import AdminParse.
From S2P Require Import AdminParseSpec.
From S2P Require Import AdminClient.

(** * The request arrives *)

Lemma take_of_length {A} m (l : list A) : take (length (take m l)) l = take m l.
Proof. rewrite length_take. destruct (Nat.le_ge_cases m (length l)); [by rewrite Nat.min_l|]. by rewrite Nat.min_r, !take_ge by lia. Qed.
Lemma set_connection_same i s : (i < length (sv_clients s))%nat -> set_connection i (connection s i) s = s.
Proof.
  intros Hi. unfold set_connection, connection. destruct (lookup_lt_is_Some_2 (sv_clients s) i Hi) as [x Hx].
  rewrite nth_lookup, Hx. cbn [default]. rewrite list_insert_id by done. by destruct s.
Qed.
Lemma set_connection_again i c c' s : set_connection i c (set_connection i c' s) = set_connection i c s.
Proof. unfold set_connection. cbn [sv_clients set_sv_clients]. rewrite list_insert_insert_eq. by destruct s. Qed.

(** The bytes waiting in the socket of connection [i]; each element of [sizes] is
    a round in which that many have arrived.  The daemon reads while the request
    is incomplete ([connection_events]). *)
Fixpoint admin_feed (i : nat) (sizes : list nat) (stream : list Z) (s : admin_service) : list Z * admin_service :=
  match sizes with
  | [] => (stream, s)
  | n :: sizes' =>
    let c := connection s i in
    let data := take (Nat.min n (Z.to_nat (cc_target c - cc_have c))) stream in
    if (connection_events c =? POLLIN) && negb (Nat.eqb (length data) 0)
    then admin_feed i sizes' (drop (length data) stream) (read_client i (Answered data) s)
    else admin_feed i sizes' stream s
  end.

(** The header of the request. *)
Definition request_header (r : admin_request) : admin_header := mk_admin_header 1 (Z.of_nat (length (admin_request_encode r))) 0 0.

(** [k] bytes of the request are in. *)
Record arriving (r : admin_request) (k : nat) (c : admin_connection) : Prop := {
  ar_open : 0 <= cc_fd c /\ cc_pending c = false /\ cc_subscribed c = false /\ cc_length c = 0;
  ar_have : cc_have c = Z.of_nat k;
  ar_input : take k (cc_input c) = take k (request_frame r) /\ (k <= length (cc_input c))%nat;
  ar_header : (k < 32)%nat -> cc_target c = ADMIN_HEADER /\ cc_last_id c <> 1;
  ar_body : (32 <= k)%nat -> cc_target c = ADMIN_HEADER + Z.of_nat (length (admin_request_encode r)) /\ cc_header c = request_header r;
  ar_request : k = length (request_frame r) -> cc_request c = r
}.

Section arrive.
Context (r : admin_request) (Hr : request_ok r).

Lemma request_size : ADMIN_REQUEST_BASE <= Z.of_nat (length (admin_request_encode r)) <= ADMIN_REQUEST_MAX /\ length (request_frame r) = (32 + length (admin_request_encode r))%nat.
Proof using Hr.
  assert (Hf := request_ok_fits _ Hr). destruct Hf as [Ht Hc]. rewrite length_request_encode by (by apply request_ok_fits).
  destruct Ht as (_ & _ & _ & _ & _ & Ht & _). unfold NET_ACL_MAX in Hc. split; [unfold ADMIN_REQUEST_MAX, ADMIN_REQUEST_BASE, NET_ACL_MAX, ADMIN_ACL_RECORD; lia|]. unfold request_frame. cbv zeta.
  rewrite length_app, length_request_encode by (by apply request_ok_fits). done.
Qed.

Lemma request_header_ok : header_ok (request_header r).
Proof using Hr.
  destruct request_size as [Hs _]. unfold ADMIN_REQUEST_MAX, ADMIN_REQUEST_BASE, NET_ACL_MAX, ADMIN_ACL_RECORD in Hs. unfold header_ok, request_header, ADMIN_RESPONSE_MAX, is_u32, is_s32, is_u64. cbn [ah_id ah_length ah_result ah_generation]. lia.
Qed.

(** What is asked of [recv] after [k] bytes. *)
Definition wanted_bytes (k : nat) : nat := if Nat.ltb k 32 then (32 - k)%nat else (length (request_frame r) - k)%nat.

Lemma arriving_wants k c : arriving r k c -> (k < length (request_frame r))%nat ->
  Z.to_nat (cc_target c - cc_have c) = wanted_bytes k /\ connection_events c = POLLIN.
Proof using Hr.
  intros [(Hfd & Hp & Hs & Hl) Hh _ Hhd Hb _] Hk. destruct request_size as [_ Hsz]. unfold wanted_bytes, ADMIN_HEADER in *.
  assert (Ht : cc_have c < cc_target c /\ Z.to_nat (cc_target c - cc_have c) = (if Nat.ltb k 32 then 32 - k else length (request_frame r) - k)%nat).
  { destruct (Nat.ltb_spec k 32) as [Hlt|Hge]; [destruct (Hhd Hlt) as [-> _]|destruct (Hb Hge) as [-> _]]; lia. }
  destruct Ht as [Ht1 Ht2]. split; [done|]. unfold connection_events. rewrite Hp, Hs, Hl. cbn. by rewrite (proj2 (Z.ltb_lt _ _) Ht1).
Qed.

Lemma frame_prefix : take 32 (request_frame r) = admin_header_encode (request_header r) /\ drop 32 (request_frame r) = admin_request_encode r.
Proof. split; reflexivity || (unfold request_frame; cbv zeta; first [by rewrite take_app_le | by rewrite drop_app_ge]). Qed.

(** The next bytes of the request, at most as many as are asked for. *)
Lemma arriving_read k n c s i : arriving r k c -> (k < length (request_frame r))%nat -> connection s i = c -> (i < length (sv_clients s))%nat ->
  (1 <= n <= wanted_bytes k)%nat ->
  exists c', read_client i (Answered (take n (drop k (request_frame r)))) s = set_connection i c' s /\ arriving r (k + n) c'.
Proof using Hr.
  intros Ha Hk Hc Hi Hn. destruct (arriving_wants k c Ha Hk) as [Hw _]. destruct request_size as [Hbase Hsz].
  assert (Hl : length (take n (drop k (request_frame r))) = n).
  { rewrite length_take, length_drop. unfold wanted_bytes in Hn. destruct (Nat.ltb_spec k 32); lia. }
  unfold read_client. rewrite Hc, Hw, take_ge by lia. rewrite Hl. destruct (Nat.eqb_spec n 0); [lia|]. cbv zeta.
  set (c1 := set_cc_have _ _).
  assert (Hin : cc_input c1 = take (k + n) (request_frame r)).
  { change (cc_input c1) with (take (Z.to_nat (cc_have c)) (cc_input c) ++ take n (drop k (request_frame r))).
    rewrite (ar_have _ _ _ Ha), Nat2Z.id, (proj1 (ar_input _ _ _ Ha)). by rewrite take_take_drop. }
  assert (Hh1 : cc_have c1 = Z.of_nat (k + n)) by (change (cc_have c1) with (cc_have c + Z.of_nat n); rewrite (ar_have _ _ _ Ha); lia).
  assert (Hlen : (k + n <= length (request_frame r))%nat) by (unfold wanted_bytes in Hn; destruct (Nat.ltb_spec k 32); lia).
  assert (Hinput : take (k + n) (cc_input c1) = take (k + n) (request_frame r) /\ (k + n <= length (cc_input c1))%nat)
    by (rewrite Hin, take_take, Nat.min_id, length_take; split; [done|lia]).
  assert (Hop : 0 <= cc_fd c1 /\ cc_pending c1 = false /\ cc_subscribed c1 = false /\ cc_length c1 = 0) by exact (ar_open _ _ _ Ha).
  destruct (Nat.ltb_spec k 32) as [Hlt|Hge].
  - destruct (ar_header _ _ _ Ha Hlt) as [Ht Hid]. assert (Ht1 : cc_target c1 = 32) by exact Ht. assert (Hid1 : cc_last_id c1 <> 1) by exact Hid.
    unfold wanted_bytes in Hn. destruct (Nat.ltb_spec k 32); [|lia]. clearbody c1. rewrite Hh1, Ht1. unfold ADMIN_HEADER. rewrite andb_true_r.
    destruct (Z.eqb_spec (Z.of_nat (k + n)) 32) as [E|E].
    + exists (c1 |> set_cc_header (request_header r) |> set_cc_target (32 + Z.of_nat (length (admin_request_encode r)))).
      unfold admit_header. rewrite Hin. replace (k + n)%nat with 32%nat by lia. rewrite (proj1 frame_prefix), <- (app_nil_r (admin_header_encode _)), header_decode_encode by apply request_header_ok.
      cbn [request_header ah_length ah_result ah_generation ah_id]. change (truth 0) with false.
      destruct (Z.ltb_spec ADMIN_REQUEST_MAX (Z.of_nat (length (admin_request_encode r)))); [lia|].
      destruct (Z.ltb_spec (Z.of_nat (length (admin_request_encode r))) ADMIN_REQUEST_BASE); [lia|]. destruct (Z.eqb_spec 1 (cc_last_id c1)); [lia|]. cbn [orb].
      rewrite Ht1. split.
      * cbn [set_cc_target set_cc_header cc_have cc_target]. rewrite Hh1. destruct (Z.eqb_spec (Z.of_nat (k + n)) (32 + Z.of_nat (length (admin_request_encode r)))); [|done].
        unfold ADMIN_REQUEST_BASE in *. lia.
      * replace (k + n)%nat with 32%nat in * by lia. split; cbn; try done; try lia. unfold ADMIN_REQUEST_BASE in *. lia.
    + exists c1. rewrite Hh1, Ht1. destruct (Z.eqb_spec (Z.of_nat (k + n)) 32); [done|]. split; [done|].
      split; try done; try lia.
  - destruct (ar_body _ _ _ Ha Hge) as [Ht Hhd]. assert (Ht1 : cc_target c1 = ADMIN_HEADER + Z.of_nat (length (admin_request_encode r))) by exact Ht.
    assert (Hhd1 : cc_header c1 = request_header r) by exact Hhd. clearbody c1. rewrite Hh1, Ht1. unfold ADMIN_HEADER in *.
    destruct (Z.eqb_spec (32 + Z.of_nat (length (admin_request_encode r))) 32); [unfold ADMIN_REQUEST_BASE in *; lia|]. rewrite andb_false_r, Hh1, Ht1.
    destruct (Z.eqb_spec (Z.of_nat (k + n)) (32 + Z.of_nat (length (admin_request_encode r)))) as [E|E].
    + exists (c1 |> set_cc_last_id 1 |> set_cc_request r). split.
      * unfold admit_request. cbv zeta. cbn [set_cc_last_id cc_header cc_input]. rewrite Hhd1, Hin, (take_ge (request_frame r)) by lia.
        change (Z.to_nat ADMIN_HEADER) with 32%nat. rewrite (proj2 frame_prefix). cbn [request_header ah_length ah_id].
        rewrite Nat2Z.id, take_ge, request_decode_encode by (done || lia). done.
      * split; cbn; try done; lia.
    + exists c1. split; [done|]. split; try done; lia.
Qed.

(** A frame cut into any pieces. *)
Lemma feed_arrives sizes : forall k s i, (i < length (sv_clients s))%nat -> (k <= length (request_frame r))%nat -> arriving r k (connection s i) ->
  exists k' c, (k' <= length (request_frame r))%nat /\ arriving r k' c /\
    admin_feed i sizes (drop k (request_frame r)) s = (drop k' (request_frame r), set_connection i c s).
Proof using Hr.
  induction sizes as [|n sizes IH]; intros k s i Hi Hk Ha; cbn [admin_feed].
  - exists k, (connection s i). split_and!; [done|done|]. by rewrite set_connection_same.
  - set (c := connection s i) in *. set (data := take _ (drop k (request_frame r))).
    destruct (_ && _) eqn:E; [|by apply IH]. apply andb_true_iff in E as [E1%Z.eqb_eq E2%negb_true_iff]. apply Nat.eqb_neq in E2.
    assert (Hlt : (k < length (request_frame r))%nat) by (unfold data in E2; rewrite length_take, length_drop in E2; lia).
    destruct (arriving_wants k c Ha Hlt) as [Hw _].
    assert (Hd : data = take (length data) (drop k (request_frame r)) /\ (1 <= length data <= wanted_bytes k)%nat).
    { unfold data. rewrite Hw, take_of_length. split; [done|]. unfold data in E2. rewrite Hw, length_take in E2. rewrite length_take. lia. }
    destruct Hd as [Hd Hn]. destruct (arriving_read k (length data) c s i Ha Hlt eq_refl Hi Hn) as (c' & Er & Ha'). rewrite <- Hd in Er. rewrite Er, drop_drop.
    destruct (IH (k + length data)%nat (set_connection i c' s) i) as (k' & c'' & Hk' & Ha'' & Ef).
    + unfold set_connection. cbn. by rewrite length_insert.
    + assert (H := f_equal (@length Z) Hd). rewrite length_take, length_drop in H. lia.
    + unfold connection, set_connection. cbn [sv_clients set_sv_clients]. rewrite nth_lookup, list_lookup_insert_eq by done. done.
    + exists k', c''. split_and!; [done|done|]. by rewrite Ef, set_connection_again.
Qed.

Lemma arrived_ready c : arriving r (length (request_frame r)) c -> ready c = true /\ cc_request c = r /\ cc_header c = request_header r.
Proof using Hr.
  intros [(Hfd & Hp & Hs & Hl) Hh _ _ Hb Hreq]. destruct request_size as [_ Hsz]. destruct (Hb ltac:(lia)) as [Ht Hhd]. split_and!; [|by apply Hreq|done].
  unfold ready. rewrite Hp, Hs, Hl, Hh, Ht. destruct (Z.ltb_spec (cc_fd c) 0); [lia|]. unfold ADMIN_HEADER.
  destruct (Z.eqb_spec (Z.of_nat (length (request_frame r))) (32 + Z.of_nat (length (admin_request_encode r)))); [done|lia].
Qed.
End arrive.

(** A connection as [accept_client] leaves it, or after a reply was sent. *)
Definition fresh (c : admin_connection) : Prop := 0 <= cc_fd c /\ cc_pending c = false /\ cc_subscribed c = false /\ cc_length c = 0 /\
  cc_have c = 0 /\ cc_target c = ADMIN_HEADER /\ cc_last_id c <> 1.

Lemma fresh_arriving r c : fresh c -> request_ok r -> arriving r 0 c.
Proof.
  intros (Hfd & Hp & Hs & Hl & Hh & Ht & Hid) Hr. destruct (request_size r Hr) as [_ Hsz]. split; try done; try lia. split; [done|lia].
Qed.

(** * The reply arrives *)

(** Nothing but waiting: [poll] is interrupted or reports what was asked for, at
    least [k] times the latter. *)
Inductive calm (events : Z) : nat -> list poll_answer -> Prop :=
| calm_any l : Forall (fun a => a = Interrupted \/ exists got, a = Revents got /\ truth (Z.land got events) = true) l -> calm events 0 l
| calm_interrupted k l : calm events k l -> calm events k (Interrupted :: l)
| calm_ready k l got : truth (Z.land got events) = true -> calm events k l -> calm events (S k) (Revents got :: l).

Definition pieces (chunks : list (list Z)) : Prop := Forall (fun c => c <> []) chunks.

Lemma transfer_in_pieces deadline chunks rest k : forall got w,
  calm POLLIN (length chunks + k) deadline -> pieces chunks -> wi_recvs w = (Answered <$> chunks) ++ rest ->
  exists deadline', calm POLLIN k deadline' /\
    transfer_in deadline (length (concat chunks)) got w = (0, got ++ concat chunks, w |> set_wi_recvs rest |> set_wi_polls deadline').
Proof.
  induction deadline as [|a deadline IH] in chunks |- *; intros got w Hc Hp Hw.
  - destruct chunks as [|c chunks]; [|by inversion Hc]. exists []. split; [done|]. cbn in *. rewrite app_nil_r. destruct w. cbn in *. by subst.
  - destruct chunks as [|c chunks].
    { exists (a :: deadline). split; [done|]. cbn in *. rewrite app_nil_r. destruct w. cbn in *. by subst. }
    apply Forall_cons in Hp as [Hne Hp]. assert (Hlen : length (concat (c :: chunks)) = (length c + length (concat chunks))%nat) by (cbn; apply length_app).
    assert (Hpos : (0 < length c)%nat) by (destruct c; [done|cbn; lia]). rewrite Hlen. cbn [transfer_in].
    destruct (Nat.eqb_spec (length c + length (concat chunks)) 0); [lia|]. inversion Hc as [|k' l Hc' |k' l got' Hg Hc']; subst.
    + cbn [wait_step]. rewrite <- Hlen. apply (IH (c :: chunks)); [done|by constructor|done].
    + cbn [wait_step]. rewrite Hg. cbn [truth Z.eqb negb]. change (truth 0) with false. cbn iota. rewrite Hw. cbn [fmap list_fmap app].
      rewrite take_ge by lia. destruct (Nat.eqb_spec (length c) 0); [lia|]. replace (length c + length (concat chunks) - length c)%nat with (length (concat chunks)) by lia.
      destruct (IH chunks (got ++ c) (set_wi_recvs ((Answered <$> chunks) ++ rest) w)) as (d & Hd & E); [done|done|done|].
      exists d. split; [done|]. rewrite E. cbn [concat]. by rewrite app_assoc.
Qed.

Lemma recv_all_pieces deadline chunks rest k w : calm POLLIN (length chunks + k) deadline -> pieces chunks -> wi_polls w = deadline ->
  wi_recvs w = (Answered <$> chunks) ++ rest ->
  exists deadline', calm POLLIN k deadline' /\
    recv_all (Z.of_nat (length (concat chunks))) w = (0, concat chunks, w |> set_wi_recvs rest |> set_wi_polls deadline').
Proof.
  intros Hc Hp Hd Hw. unfold recv_all. rewrite Nat2Z.id, Hd. destruct (transfer_in_pieces deadline chunks rest k [] w Hc Hp Hw) as (d & Hd' & E). eauto.
Qed.

(** A reply in any pieces; [recv] is asked for the header first. *)
Lemma receive_reply deadline h body head tail size w : header_ok h -> ah_result h <= 0 -> ah_length h = Z.of_nat (length body) -> ah_length h < size ->
  pieces head -> pieces tail -> concat head = admin_header_encode h -> concat tail = body ->
  calm POLLIN (length head + length tail) deadline -> wi_recvs w = Answered <$> head ++ tail ->
  exists w', admin_receive deadline (ah_id h) size w =
    ((if truth (ah_result h) then ah_result h else ah_length h), Some (body, ah_generation h), w') /\ wi_written w' = wi_written w.
Proof.
  intros Hh Hres Hlen Hsize Hp1 Hp2 E1 E2 Hcalm Hw. unfold admin_receive.
  rewrite fmap_app in Hw. destruct (recv_all_pieces deadline head (Answered <$> tail) (length tail) (set_wi_polls deadline w) Hcalm Hp1 eq_refl Hw) as (d & Hd & R1).
  rewrite E1 in R1. change (Z.of_nat (length (admin_header_encode h))) with ADMIN_HEADER in R1. rewrite R1. change (truth 0) with false. cbn iota.
  rewrite <- (app_nil_r (admin_header_encode h)), header_decode_encode by done. rewrite Z.eqb_refl. cbn [negb orb].
  destruct (Z.leb_spec size (ah_length h)); [lia|]. destruct (Z.ltb_spec 0 (ah_result h)); [lia|]. cbn [orb].
  destruct (recv_all_pieces d tail [] 0 (set_wi_polls deadline w |> set_wi_recvs (Answered <$> tail) |> set_wi_polls d)) as (d' & _ & R2);
    [by rewrite Nat.add_0_r|done|done|by rewrite app_nil_r|].
  rewrite E2, <- Hlen in R2. rewrite R2. change (truth 0) with false. cbn iota. eexists. split; [reflexivity|]. by destruct w.
Qed.

(** Sending touches nothing that is received. *)
Lemma transfer_out_recvs deadline data w rc w' : transfer_out deadline data w = (rc, w') -> wi_recvs w' = wi_recvs w.
Proof.
  revert data w. induction deadline as [|a deadline IH]; intros data w; cbn [transfer_out].
  - by destruct data; intros [= <- <-].
  - destruct data as [|b data]; [by intros [= <- <-]|]. destruct (wait_step POLLOUT a) as [rc1|]; [|apply IH]. destruct (truth rc1); [by intros [= <- <-]|].
    destruct (wi_sends w) as [|[n|errno] sends]; [apply IH| |].
    + destruct (_ <=? 0); [by intros [= <- <-]|]. intros H%IH. done.
    + destruct (retry errno); [intros H%IH; done|by intros [= <- <-]].
Qed.

(** * Theorems *)

(** C24: a command and its answer go through the socket unchanged, in whatever
    pieces they travel.  Once the tool has sent a request and the daemon has read
    all of it, the daemon has exactly that request, ready for the worker; and
    when the answer arrives, the tool has its text, its generation and its
    result, having written nothing but the request. *)
Theorem request_and_answer r sizes s i sending receiving size w w1 result generation body head tail :
  request_ok r -> (i < length (sv_clients s))%nat -> fresh (connection s i) ->
  kernel_ok w -> Forall poll_ok sending -> transfer_request sending (request_frame r) w = (0, w1) ->
  let '(unread, s') := admin_feed i sizes (request_frame r) s in
  unread = [] ->
  let c := connection s' i in
  let reply := response result generation body c in
  -2147483648 <= result <= 0 -> is_u64 generation -> Z.of_nat (length body) <= ADMIN_RESPONSE_MAX -> Z.of_nat (length body) < size ->
  pieces head -> pieces tail -> concat head ++ concat tail = cc_output reply -> length (concat head) = Z.to_nat ADMIN_HEADER ->
  calm POLLIN (length head + length tail) receiving -> wi_recvs w = Answered <$> head ++ tail ->
  ready c = true /\ cc_request c = r /\
  exists w', admin_call sending receiving r size w =
    ((if truth result then result else Z.of_nat (length body)), Some (body, generation), w') /\
    wi_written w' = wi_written w ++ request_frame r.
Proof.
  intros Hr Hi Hf Hk Hpo Hsend. destruct (admin_feed i sizes (request_frame r) s) as [unread s'] eqn:Ef. intros ->.
  destruct (feed_arrives r Hr sizes 0 s i Hi ltac:(lia) (fresh_arriving _ _ Hf Hr)) as (k & c & Hk' & Ha & E). rewrite drop_0, Ef in E. injection E as E1 ->.
  assert (Hkl : k = length (request_frame r)) by (assert (H := f_equal (@length Z) E1); rewrite length_drop in H; cbn in H; lia). subst k.
  destruct (arrived_ready r Hr c Ha) as (Hready & Hreq & Hhd).
  assert (Ec : connection (set_connection i c s) i = c) by (unfold connection, set_connection; cbn [sv_clients set_sv_clients]; by rewrite nth_lookup, list_lookup_insert_eq).
  rewrite Ec. cbv zeta. intros Hres Hgen Hmax Hsize Hp1 Hp2 Hcat Hlen Hcalm Hrecv. split; [done|]. split; [done|].
  set (h := mk_admin_header 1 (Z.of_nat (length body)) result generation).
  assert (Hout : cc_output (response result generation body c) = admin_header_encode h ++ body) by (unfold response; cbn; by rewrite Hhd).
  rewrite Hout in Hcat. apply app_inj_1 in Hcat as [Eh Et]; [|by rewrite Hlen].
  unfold admin_call. destruct (request_size r Hr) as [Hsz _]. destruct (Nat.eqb_spec (length (admin_request_encode r)) 0); [unfold ADMIN_REQUEST_BASE in *; lia|].
  rewrite Hsend. change (truth 0) with false. cbn iota.
  assert (Hrecv1 : wi_recvs w1 = Answered <$> head ++ tail) by (rewrite <- Hrecv; by eapply transfer_out_recvs).
  destruct (receive_reply receiving h body head tail size w1) as (w' & R & Hw'); try done.
  - unfold header_ok, h. cbn [ah_id ah_length ah_result ah_generation]. split_and!; try done; try lia; unfold is_s32; lia.
  - cbn. lia.
  - exists w'. split; [exact R|]. rewrite Hw'.
    destruct Hk as [_ Hks Hkr]. destruct (transfer_out_written _ _ _ _ _ Hpo Hks Hkr Hsend) as (_ & _ & n0 & _ & Hw1). by rewrite Hw1.
Qed.

(** Calls that fail report a positive [errno], and [socket] no negative descriptor. *)
Record opening_ok (o : opening) : Prop := {
  oo_socket : match op_socket o with Answered fd => 0 <= fd | Failed errno => 0 < errno end;
  oo_fcntl : forall errno, op_fcntl o = Some errno -> 0 < errno;
  oo_connect : forall errno, op_connect o = Some errno -> 0 < errno;
  oo_deadline : Forall poll_ok (op_deadline o);
  oo_error : match op_error o with Answered error => 0 <= error | Failed errno => 0 < errno end
}.

Lemma poll_ready_ok events deadline : Forall poll_ok deadline -> (poll_ready events deadline).1 <= 0.
Proof.
  induction 1 as [|a deadline Ha Hd IH]; cbn; [done|]. destruct (wait_step events a) as [rc|] eqn:E; [|done].
  cbn. destruct (wait_step_ok _ _ _ Ha E); lia.
Qed.

(** A failed connection leaves no descriptor behind, a good one exactly one. *)
Lemma admin_open_ok path o open fd open' : opening_ok o -> admin_open path o open = (fd, open') ->
  fd < 0 /\ open' = open \/ 0 <= fd /\ open' = fd :: open.
Proof.
  intros [Hs Hf Hc Hd He]. unfold admin_open. destruct (_ || _); [intros [= <- <-]; by left|].
  destruct (op_socket o) as [x|errno]; [|intros [= <- <-]; left; split; [lia|done]].
  assert (Hclose : close_fd x (x :: open) = open) by (unfold close_fd; rewrite (proj2 (Z.leb_le _ _) Hs); cbn; by rewrite Z.eqb_refl). rewrite Hclose.
  destruct (op_fcntl o) as [e|]; [intros [= <- <-]; left; specialize (Hf e eq_refl); split; [lia|done]|].
  destruct (op_connect o) as [e|]; [|intros [= <- <-]; by right]. specialize (Hc e eq_refl).
  destruct (negb _); [intros [= <- <-]; left; split; [lia|done]|]. assert (Hp := poll_ready_ok POLLOUT _ Hd). cbv zeta.
  destruct (truth (poll_ready POLLOUT (op_deadline o)).1) eqn:E1.
  { rewrite E1. intros [= <- <-]. left. apply truth_true in E1. split; [lia|done]. }
  destruct (truth (match op_error o with Answered error => - error | Failed errno => - errno end)) eqn:E2; intros [= <- <-]; [left|by right].
  apply truth_true in E2. destruct (op_error o); (split; [lia|done]).
Qed.

(** Whatever comes in, the text fits the buffer with its terminator. *)
Lemma admin_receive_bounds deadline id size w rc reply w' : kernel_ok w -> Forall poll_ok deadline -> admin_receive deadline id size w = (rc, reply, w') ->
  wi_written w' = wi_written w /\
  match reply with Some (text, _) => Z.of_nat (length text) < size /\ (0 <= rc -> rc = Z.of_nat (length text)) | None => rc < 0 end.
Proof.
  intros [_ Hks Hkr] Hp. unfold admin_receive, recv_all. cbn [wi_polls set_wi_polls].
  destruct (transfer_in deadline _ [] _) as [[rc1 header] w1] eqn:E1.
  destruct (transfer_in_length deadline _ _ (set_wi_polls deadline w) _ _ _ Hp Hks Hkr E1) as ([Hp1 Hs1 Hr1] & Hle1 & Hw1 & _). cbn in Hw1.
  destruct (truth rc1) eqn:T1; [intros [= <- <- <-]; apply truth_true in T1; split; [done|lia]|].
  destruct (admin_header_decode header) as [rc2|h] eqn:Eh.
  { intros [= <- <- <-]. split; [done|]. unfold admin_header_decode in Eh. by repeat case_match; simplify_eq. }
  destruct (_ || _) eqn:Eb; [intros [= <- <- <-]; by split|]. apply orb_false_iff in Eb as [[_ Hsz%Z.leb_gt]%orb_false_iff Hres%Z.ltb_ge].
  assert (Hlen : 0 <= ah_length h). { unfold admin_header_decode in Eh. repeat case_match; simplify_eq. cbn. apply bswap32_range. }
  destruct (transfer_in (wi_polls w1) _ [] w1) as [[rc2 text] w2] eqn:E2.
  destruct (transfer_in_length _ _ _ _ _ _ _ Hp1 Hs1 Hr1 E2) as (_ & Hle2 & Hw2 & Hlt).
  destruct (truth rc2) eqn:T2; [intros [= <- <- <-]; apply truth_true in T2; split; [congruence|lia]|].
  apply truth_false in T2. specialize (Hlt T2). cbn in Hlt. intros [= <- <- <-]. split; [congruence|].
  rewrite Hlt, Z2Nat.id by lia. split; [done|]. destruct (truth (ah_result h)) eqn:T3; [apply truth_true in T3; lia|done].
Qed.

Lemma admin_call_bounds sending receiving r size w rc reply w' : kernel_ok w -> Forall poll_ok sending -> Forall poll_ok receiving ->
  admin_call sending receiving r size w = (rc, reply, w') ->
  (exists n, wi_written w' = wi_written w ++ take n (request_frame r)) /\
  match reply with
  | Some (text, _) => wi_written w' = wi_written w ++ request_frame r /\ Z.of_nat (length text) < size /\ (0 <= rc -> rc = Z.of_nat (length text))
  | None => rc < 0
  end.
Proof.
  intros Hk Hp1 Hp2. unfold admin_call. destruct (Nat.eqb _ 0); [intros [= <- <- <-]; split; [exists 0%nat; cbn; by rewrite app_nil_r|done]|].
  destruct (transfer_request _ _ _) as [rc1 w1] eqn:E1. destruct Hk as [Hkp Hks Hkr].
  destruct (transfer_out_written _ _ _ _ _ Hp1 Hks Hkr E1) as (Hk1 & Hle & n & Hn & Hall).
  destruct (truth rc1) eqn:T1; [intros [= <- <- <-]; apply truth_true in T1; split; [by exists n|lia]|].
  apply truth_false in T1. intros H. destruct (admin_receive_bounds _ _ _ _ _ _ _ Hk1 Hp2 H) as [Hw Hr]. rewrite Hw. split; [by exists n|].
  destruct reply as [[text g]|]; [|done]. split; [by apply Hall|done].
Qed.

(** Whatever the daemon and the kernel answer, an exchange of the tool leaves
    its descriptors as they were, has written a beginning of the request and all
    of it when there is a reply, and never receives more text than its buffer
    holds; a result that is no error is the length of the text, and without a
    reply the result is an error. *)
Theorem admin_exchange_bounds path o sending receiving r size w open rc reply w' open' :
  opening_ok o -> kernel_ok w -> Forall poll_ok sending -> Forall poll_ok receiving ->
  admin_exchange path o sending receiving r size w open = (rc, reply, w', open') ->
  open' = open /\ (exists n, wi_written w' = wi_written w ++ take n (request_frame r)) /\
  match reply with
  | Some (text, _) => wi_written w' = wi_written w ++ request_frame r /\ Z.of_nat (length text) < size /\ (0 <= rc -> rc = Z.of_nat (length text))
  | None => rc < 0
  end.
Proof.
  intros Ho Hk Hp1 Hp2. unfold admin_exchange. destruct (admin_open path o open) as [fd opened] eqn:Eo. destruct (admin_open_ok _ _ _ _ _ Ho Eo) as [[Hfd ->]|[Hfd ->]].
  - rewrite (proj2 (Z.ltb_lt _ _) Hfd). intros [= <- <- <- <-]. split_and!; [done| |done]. exists 0%nat. cbn. by rewrite app_nil_r.
  - rewrite (proj2 (Z.ltb_ge _ _) Hfd). destruct (admin_call _ _ _ _ _) as [[rc1 reply1] w1] eqn:Ec. intros [= <- <- <- <-].
    split; [|exact (admin_call_bounds _ _ _ _ _ _ _ _ Hk Hp1 Hp2 Ec)]. unfold close_fd. rewrite (proj2 (Z.leb_le _ _) Hfd). cbn. by rewrite Z.eqb_refl.
Qed.

(** * The program *)

(** The flags of the options do not make a request unacceptable. *)
Lemma flags_ok flags r : 0 <= flags <= 7 -> request_ok r -> request_ok (add_flag flags r).
Proof.
  intros Hf ((H1 & H2 & H3 & H4 & H5 & H6 & H7) & Hs & Hk).
  assert (Hfl : 0 <= rq_flags r <= 15).
  { apply Forall_cons in H1 as [_ H1]. apply Forall_cons in H1 as [_ H1]. apply Forall_cons in H1 as [Hu _]. unfold request_shape in Hs.
    apply negb_true_iff in Hs. bool_hyps. unfold is_u32 in Hu. lia. }
  assert (Hor : 0 <= Z.lor (rq_flags r) flags <= 15) by (assert (H := lor_range (rq_flags r) flags 4 ltac:(lia) ltac:(lia) ltac:(lia)); lia).
  unfold request_ok, request_typed, add_flag. cbn [rq_group rq_verb rq_flags rq_count rq_v rq_dev rq_acls]. split_and!; try done.
  - apply Forall_cons in H1 as [? H1]. apply Forall_cons in H1 as [? H1]. apply Forall_cons in H1 as [_ H1].
    repeat (apply Forall_cons; split; [done|]). apply Forall_cons. split; [unfold is_u32; lia|done].
  - unfold request_shape in *. apply negb_true_iff in Hs. apply negb_true_iff. rewrite <- Hs.
    rewrite (proj2 (Z.ltb_ge 15 (Z.lor _ _))), (proj2 (Z.ltb_ge 15 (rq_flags r))) by lia. done.
Qed.

Lemma program_options_flags strerror args path flags path' flags' command : 0 <= flags <= 7 ->
  program_options strerror args path flags = inr (path', flags', command) -> 0 <= flags' <= 7.
Proof.
  assert (Hor : forall f b, 0 <= f <= 7 -> 0 <= b <= 7 -> 0 <= Z.lor f b <= 7)
    by (intros f b Hf Hb; assert (H := lor_range f b 3 ltac:(lia) ltac:(lia) ltac:(lia)); lia).
  revert path flags. induction args as [args IH] using (induction_ltof1 _ (@length string)). unfold ltof in IH. intros path flags.
  destruct args as [|s rest]; cbn [program_options]; [by intros ? [= <- <- <-]|]. intros Hf.
  destruct (negb (is_option s)); [by intros [= <- <- <-]|].
  destruct (same s "-4"); [apply (IH rest); [cbn; lia|done]|]. destruct (same s "-6"); [done|].
  destruct (same s "-j"); [apply (IH rest); [cbn; lia|by apply Hor]|]. destruct (same s "-br"); [apply (IH rest); [cbn; lia|by apply Hor]|].
  destruct (same s "-s"); [apply (IH rest); [cbn; lia|by apply Hor]|]. destruct rest as [|value rest]; [by destruct (same s "--help")|].
  destruct (same s "--socket"); [apply (IH rest); [cbn; lia|done]|]. by destruct (same s "--help").
Qed.

Lemma program_options_quits strerror args path flags o : program_options strerror args path flags = inl o ->
  oc_status o = Some 0 \/ oc_status o = Some 2.
Proof.
  revert path flags. induction args as [args IH] using (induction_ltof1 _ (@length string)). unfold ltof in IH. intros path flags.
  destruct args as [|s rest]; cbn [program_options]; [done|]. destruct (negb _); [done|].
  destruct (same s "-4"); [apply (IH rest); cbn; lia|]. destruct (same s "-6"); [intros [= <-]; by right|].
  destruct (same s "-j"); [apply (IH rest); cbn; lia|]. destruct (same s "-br"); [apply (IH rest); cbn; lia|].
  destruct (same s "-s"); [apply (IH rest); cbn; lia|].
  destruct rest as [|v rest]; [by destruct (same s "--help"); intros [= <-]; auto|].
  destruct (same s "--socket"); [apply (IH rest); cbn; lia|]. by destruct (same s "--help"); intros [= <-]; auto.
Qed.

Record surroundings_ok (e : surroundings) : Prop := {
  so_opening : opening_ok (su_opening e);
  so_kernel : kernel_ok (su_wire e);
  so_sending : Forall poll_ok (su_sending e);
  so_receiving : Forall poll_ok (su_receiving e);
  so_rounds : Forall (fun round => poll_ok round.1 /\ Forall poll_ok round.2) (su_rounds e)
}.

Lemma admin_receive_kernel deadline id size w rc reply w' : kernel_ok w -> Forall poll_ok deadline -> admin_receive deadline id size w = (rc, reply, w') -> kernel_ok w'.
Proof.
  intros [_ Hks Hkr] Hp. unfold admin_receive, recv_all. cbn [wi_polls set_wi_polls].
  destruct (transfer_in deadline _ [] _) as [[rc1 header] w1] eqn:E1.
  destruct (transfer_in_length deadline _ _ (set_wi_polls deadline w) _ _ _ Hp Hks Hkr E1) as ([Hp1 Hs1 Hr1] & _).
  destruct (truth rc1); [by intros [= <- <- <-]|]. destruct (admin_header_decode header) as [rc2|h]; [by intros [= <- <- <-]|].
  destruct (_ || _); [by intros [= <- <- <-]|]. destruct (transfer_in (wi_polls w1) _ [] w1) as [[rc2 text] w2] eqn:E2.
  destruct (transfer_in_length _ _ _ _ _ _ _ Hp1 Hs1 Hr1 E2) as (Hk2 & _). destruct (truth rc2); by intros [= <- <- <-].
Qed.

Lemma admin_call_kernel sending receiving r size w rc reply w' : kernel_ok w -> Forall poll_ok sending -> Forall poll_ok receiving ->
  admin_call sending receiving r size w = (rc, reply, w') -> kernel_ok w'.
Proof.
  intros Hk Hp1 Hp2. unfold admin_call. destruct (Nat.eqb _ 0); [by intros [= <- <- <-]|].
  destruct (transfer_request _ _ _) as [rc1 w1] eqn:E1. destruct Hk as [_ Hks Hkr].
  destruct (transfer_out_written _ _ _ _ _ Hp1 Hks Hkr E1) as (Hk1 & _). destruct (truth rc1); [by intros [= <- <- <-]|]. by apply admin_receive_kernel.
Qed.

(** Watching writes nothing, and ends only with an error. *)
Lemma monitor_quiet rounds w out status out' w' : kernel_ok w -> Forall (fun round => poll_ok round.1 /\ Forall poll_ok round.2) rounds ->
  monitor rounds w out = (status, out', w') -> wi_written w' = wi_written w /\ (forall rc, status = Some rc -> rc < 0).
Proof.
  intros Hk Hr. induction rounds as [|[a deadline] rounds IH] in w, out, Hk, Hr |- *; cbn [monitor]; [by intros [= <- <- <-]|].
  apply Forall_cons in Hr as [[Ha Hd] Hr]. cbn [fst snd] in *. destruct a as [|errno| |got]; [by apply IH| |by apply IH|].
  - intros [= <- <- <-]. split; [done|]. intros rc [= <-]. cbn in Ha. lia.
  - destruct (truth (Z.land got POLLIN)).
    + destruct (admin_receive deadline 1 TEXT_SIZE w) as [[rc reply] w1] eqn:E. destruct (admin_receive_bounds _ _ _ _ _ _ _ Hk Hd E) as [Hw _].
      destruct (Z.leb_spec 0 rc); [rewrite <- Hw; apply IH; [by eapply admin_receive_kernel|done]|]. intros [= <- <- <-]. split; [done|]. by intros ? [= <-].
    + destruct (truth _); [|by apply IH]. intros [= <- <- <-]. split; [done|]. by intros rc [= <-].
Qed.

(** C25: what the program does to the daemon.  Whatever its arguments, its files
    and the answers of the kernel, either it sends nothing, or its command was
    parsed and it sends a beginning of one request, which the daemon accepts;
    when it succeeds, or is still watching, it has sent all of it.  It fails
    with status 1 or 2, and with 2 only if it sent nothing. *)
Theorem pulsar_requests args e o w' : surroundings_ok e -> pulsar args e = (o, w') ->
  let sent := wi_written w' in let before := wi_written (su_wire e) in
  (oc_status o = None \/ oc_status o = Some 0 \/ oc_status o = Some 1 \/ oc_status o = Some 2) /\
  (sent = before \/
   exists flags command r, admin_parse (su_files e) (su_strerror e) command = inr r /\
     let r := add_flag flags r in
     request_ok r /\ admin_request_decode (admin_request_encode r) = inr r /\ (exists n, sent = before ++ take n (request_frame r)) /\
     (oc_status o = None \/ oc_status o = Some 0 -> sent = before ++ request_frame r) /\ oc_status o <> Some 2).
Proof.
  intros [Ho Hk Hs Hr Hro]. unfold pulsar. cbv zeta.
  destruct (program_options _ _ _ _) as [o1|[[path flags] command]] eqn:Ep.
  { intros [= <- <-]. split; [|by left].
    destruct (program_options_quits _ _ _ _ _ Ep); auto. }
  assert (Hflags := program_options_flags (su_strerror e) args ADMIN_DEFAULT_SOCKET 0 _ _ _ ltac:(lia) Ep).
  destruct (match command with [] => true | _ => _ end); [intros [= <- <-]; split; [auto|by left]|].
  destruct (match command with [] => false | _ => _ end); [intros [= <- <-]; split; [auto|by left]|].
  destruct (admin_parse _ _ command) as [[rc error]|r] eqn:Epa; [intros [= <- <-]; split; [auto|by left]|].
  destruct (admin_open path (su_opening e) []) as [fd opened]. destruct (fd <? 0); [intros [= <- <-]; split; [auto|by left]|].
  assert (Hok : request_ok (add_flag flags r)) by (apply flags_ok; [done|]; by apply (admin_parse_ok _ _ _ _ Epa)).
  unfold converse. destruct (admin_call _ _ _ _ _) as [[rc reply] w1] eqn:Ec. destruct (admin_call_bounds _ _ _ _ _ _ _ _ Hk Hs Hr Ec) as [Hn Hreply].
  destruct (Z.ltb_spec rc 0) as [Hneg|Hpos].
  - rewrite (proj2 (Z.ltb_lt _ _) Hneg). intros [= <- <-]. split; [auto|]. right. exists flags, command, r. split; [done|].
    split_and!; [done|by apply request_decode_encode|done|by intros [|]|done].
  - destruct reply as [[text g]|]; [|cbn in Hreply; lia]. destruct Hreply as (Hall & _ & _).
    destruct (negb _).
    + rewrite (proj2 (Z.ltb_ge _ _) Hpos). intros [= <- <-]. split; [auto|]. right. exists flags, command, r. split; [done|].
      split_and!; [done|by apply request_decode_encode|done|done|done].
    + destruct (monitor (su_rounds e) w1 "") as [[status out] w2] eqn:Em.
      assert (Hk1 : kernel_ok w1) by (eapply admin_call_kernel, Ec; done). destruct (monitor_quiet _ _ _ _ _ _ Hk1 Hro Em) as [Hw Hend].
      destruct status as [rc'|].
      * rewrite (proj2 (Z.ltb_lt _ _) (Hend rc' eq_refl)). intros [= <- <-]. split; [auto|]. right. exists flags, command, r. split; [done|]. rewrite Hw.
        split_and!; [done|by apply request_decode_encode|done|done|done].
      * intros [= <- <-]. split; [auto|]. right. exists flags, command, r. split; [done|]. rewrite Hw. split_and!; [done|by apply request_decode_encode|done|done|done].
Qed.

(** * A session *)

Module ClientSample.
Definition asked : admin_request := request_of ADM_STATUS ADM_SHOW 0.
Definition accepted : admin_connection := zero_admin_connection |> set_cc_fd 5 |> set_cc_target ADMIN_HEADER.
Definition serving : admin_service := set_sv_clients (replicate ADMIN_CLIENT_MAX accepted) zero_admin_service.
Definition sizes : list nat := [10; 100; 50; 300]%nat.
Definition arrived : admin_service := (admin_feed 0 sizes (request_frame asked) serving).2.

Definition body : list Z := [117; 112; 10].
Definition head : list Z := admin_header_encode (mk_admin_header 1 3 0 7).
Definition cut : list (list Z) := [take 7 head; drop 7 head].
Definition sending : list poll_answer := [Revents POLLOUT; Interrupted; Revents POLLOUT].
Definition receiving : list poll_answer := [Revents POLLIN; Interrupted; Revents POLLIN; Revents POLLIN].
Definition kernel : wire := mk_wire [] [Answered 100; Answered 200] (Answered <$> cut ++ [body]) [].
Definition opened : opening := mk_opening (Answered 5) None (Some EINPROGRESS) [Revents POLLOUT] (Answered 0).
Definition around : surroundings := mk_surroundings no_files no_messages opened sending receiving [] kernel.
End ClientSample.
Import ClientSample.

Lemma sample_arrival : admin_feed 0 sizes (request_frame asked) serving = ([], arrived).
Proof. vm_compute. reflexivity. Qed.
Lemma sample_calm : calm POLLIN 3 receiving.
Proof. apply calm_ready; [reflexivity|]. apply calm_interrupted. apply calm_ready; [reflexivity|]. apply calm_ready; [reflexivity|]. by apply calm_any. Qed.
Lemma sample_kernel : kernel_ok kernel.
Proof. by split; repeat constructor. Qed.

Lemma request_and_answer_witness :
  ready (connection arrived 0) = true /\ cc_request (connection arrived 0) = asked /\
  exists w', admin_call sending receiving asked 1000 kernel = (3, Some (body, 7), w') /\ wi_written w' = request_frame asked.
Proof.
  assert (H := request_and_answer asked sizes serving 0 sending receiving 1000 kernel (transfer_request sending (request_frame asked) kernel).2 0 7 body cut [body]).
  rewrite sample_arrival in H.
  apply H; clear H;
    [compute_closed|vm_compute; lia|compute_closed|exact sample_kernel|by repeat constructor|vm_compute; reflexivity|reflexivity|lia|compute_closed
    |vm_compute; discriminate|vm_compute; reflexivity|by repeat constructor|by repeat constructor|vm_compute; reflexivity|reflexivity|exact sample_calm|reflexivity].
Defined.

Lemma sample_opening : opening_ok opened.
Proof. split; cbn; [lia|done|by intros ? [= <-]|by repeat constructor|lia]. Qed.

Lemma admin_exchange_bounds_witness :
  exists w', admin_exchange "/tmp/admin" opened sending receiving asked 1000 kernel [3; 4] = (3, Some (body, 7), w', [3; 4]) /\ wi_written w' = request_frame asked.
Proof.
  destruct (admin_exchange "/tmp/admin" opened sending receiving asked 1000 kernel [3; 4]) as [[[rc reply] w'] open'] eqn:E.
  destruct (admin_exchange_bounds "/tmp/admin" opened sending receiving asked 1000 kernel [3; 4] rc reply w' open' sample_opening
    sample_kernel ltac:(by repeat constructor) ltac:(by repeat constructor) E) as (-> & _ & Hr).
  vm_compute in E. injection E as <- <- <-. eexists. split; [reflexivity|]. apply Hr.
Defined.

Lemma sample_surroundings : surroundings_ok around.
Proof. split; [exact sample_opening|exact sample_kernel|by repeat constructor|by repeat constructor|constructor]. Qed.

Lemma pulsar_requests_witness : exists o w' r, pulsar ["-j"; "status"]%string around = (o, w') /\ oc_status o = Some 0 /\
  request_ok r /\ wi_written w' = request_frame r.
Proof.
  destruct (pulsar ["-j"; "status"]%string around) as [o w'] eqn:E.
  destruct (pulsar_requests ["-j"; "status"]%string around o w' sample_surroundings E) as [_ H].
  assert (Hs : oc_status o = Some 0 /\ wi_written w' <> []) by (vm_compute in E; injection E as <- <-; split; [reflexivity|discriminate]).
  destruct H as [H|(flags & command & r & _ & Hok & _ & _ & Hall & _)]; [exact (False_ind _ (proj2 Hs H))|].
  exists o, w', (add_flag flags r). split; [reflexivity|]. split; [apply Hs|]. split; [exact Hok|]. apply Hall. right. apply Hs.
Defined.
