(* ===== verification/AdminEvents.v ===== *)
(** The event stream of a subscriber ([events] of [src/admin_control.c]): each
    scan brings the subscriber up to the ring, every event it wants in order and
    once, and the number of those the ring had already dropped. *)
From Stdlib Require Import Ascii.
From stdpp Require Import pretty relations.
From S2P Require Import Prelude.
From S2P Require Import Dpdk.
From S2P Require Import Types.
From S2P Require Import Text.
From S2P Require Import Control.
From S2P Require Import AdminWire.
From S2P Require Import AdminState.
From S2P Require Import AdminWorker.
From S2P Require Import AdminFormat.
From S2P Require Import AdminFormatSpec.
From S2P Require Import AdminControl.
From S2P Require Import AdminWorkerSpec.

(** * Reference *)

(** The events numbered above [q]. *)
Definition events_after (e : admin_events) (q : Z) : list admin_event := omap (event_at e) (seqZ (q + 1) (es_sequence e - q)).

(** The first line carries the number of lost events. *)
Definition event_lines (lost : Z) (l : list admin_event) : list string :=
  match l with [] => [] | v :: l' => event_text v lost :: ((fun v => event_text v 0) <$> l') end.
Definition joined (l : list string) : string := foldr String.append EmptyString l.

Definition lost_after (e : admin_events) (q : Z) : Z := Z.max 0 (es_sequence e - q - ADMIN_EVENT_MAX).

(** What a subscriber at [q] is sent. *)
Definition stream_text (e : admin_events) (r : admin_request) (generation q : Z) : string :=
  let lost := lost_after e q in
  match List.filter (wanted r) (events_after e (q + lost)) with
  | [] => if truth lost then overflow_text (es_sequence e) generation lost else EmptyString
  | shown => joined (event_lines lost shown)
  end.

(** The items of a line. *)
Definition event_item (v : admin_event) (lost : Z) : list (string * value) :=
  [("schema", Num 1); ("sequence", Num (ev_sequence v)); ("generation", Num (ev_generation v)); ("group", Num (ev_group v)); ("id", Num (ev_id v));
   ("action", Num (ev_action v)); ("kind", Str (nth (Z.to_nat (ev_group v)) kinds "")); ("address", Str (inet_ntop (ev_ip v)));
   ("prefix", Num (ev_prefix v)); ("dev", Num (ev_dev v)); ("table", Num (ev_table v)); ("lost", Num lost)]%string.

Definition event_typed (v : admin_event) : Prop :=
  is_u64 (ev_sequence v) /\ is_u64 (ev_generation v) /\
  Forall is_u32 [ev_group v; ev_id v; ev_action v; ev_prefix v; ev_dev v; ev_table v].
#[export] Instance event_typed_dec v : Decision (event_typed v).
Proof. unfold event_typed. apply _. Defined.

(** * Lengths *)

Lemma kinds_length i : text_length (nth i kinds "") <= 10.
Proof. do 12 (destruct i as [|i]; [vm_compute; discriminate|]). by destruct i. Qed.

Ltac text_bound :=
  rewrite !text_length_app;
  repeat match goal with |- context [text_length (name ?s)] => let l := eval vm_compute in (text_length (name s)) in change (text_length (name s)) with l end;
  repeat match goal with |- context [text_length ?s] => let l := eval vm_compute in (text_length s) in
    lazymatch l with Zpos _ => idtac | Z0 => idtac end; change (text_length s) with l end.

Lemma event_text_length v lost : event_typed v -> is_u64 lost -> text_length (event_text v lost) <= 350.
Proof.
  intros (Hs & Hg & Hw) Hl. repeat (apply Forall_cons in Hw as [? Hw]).
  apply pretty_u64 in Hs, Hg, Hl.
  repeat match goal with H : is_u32 ?x |- _ => apply pretty_u32 in H end.
  assert (Hk := kinds_length (Z.to_nat (ev_group v))). assert (Hip := inet_ntop_length (ev_ip v)).
  unfold event_text. text_bound. lia.
Qed.
Lemma overflow_text_length q g lost : is_u64 q -> is_u64 g -> is_u64 lost -> 0 < text_length (overflow_text q g lost) <= 350.
Proof.
  intros H1%pretty_u64 H2%pretty_u64 H3%pretty_u64. assert (Hn := text_length_nonneg (pretty q)). assert (Hn' := text_length_nonneg (pretty g)).
  assert (Hn'' := text_length_nonneg (pretty lost)). unfold overflow_text. text_bound. lia.
Qed.

(** * The loop *)

Section stream.
Context (e : admin_events) (r : admin_request).
Hypothesis Hring : ring_wf e.
Hypothesis Htyped : Forall event_typed (es_entries e).

(** The entry the loop reads is the next event. *)
Lemma loop_entry q : Z.max 0 (es_sequence e - ADMIN_EVENT_MAX) <= q < es_sequence e ->
  exists v, event_at e (q + 1) = Some v /\ nth (Z.to_nat (q mod ADMIN_EVENT_MAX)) (es_entries e) zero_admin_event = v /\
    event_typed v /\ events_after e q = v :: events_after e (q + 1).
Proof using Hring Htyped.
  intros Hq. destruct (rw_event _ Hring (q + 1)) as (v & Hv & _); [unfold ADMIN_EVENT_MAX in *; lia..|]. exists v. split; [done|].
  unfold event_at in Hv. replace (q + 1 - 1) with q in Hv by lia. split; [by apply nth_lookup_Some|]. split; [by eapply Forall_lookup_1|].
  unfold events_after. replace (es_sequence e - q) with (Z.succ (es_sequence e - (q + 1))) by lia.
  rewrite seqZ_cons by lia. cbn [omap list_omap]. unfold event_at at 1. replace (q + 1 - 1) with q by lia. rewrite Hv.
  f_equal. f_equal. f_equal; lia.
Qed.

Lemma events_after_end q : es_sequence e <= q -> events_after e q = [].
Proof. intros H. unfold events_after. by rewrite seqZ_nil by lia. Qed.

(** What is still to be reported after the wanted events. *)
Definition lost_left (lost : Z) (l : list admin_event) : Z := match l with [] => lost | _ => 0 end.

Lemma event_loop_stream k : forall q lost text, Z.max 0 (es_sequence e - ADMIN_EVENT_MAX) <= q -> es_sequence e - q = Z.of_nat k -> is_u64 lost ->
  text_length text + 350 * Z.of_nat k < ADMIN_RESPONSE_MAX ->
  event_loop k e r q lost text =
    (es_sequence e, lost_left lost (List.filter (wanted r) (events_after e q)),
     (text +:+ joined (event_lines lost (List.filter (wanted r) (events_after e q))))%string) /\
  text_length (joined (event_lines lost (List.filter (wanted r) (events_after e q)))) <= 350 * Z.of_nat k.
Proof using Hring Htyped.
  induction k as [|k IH]; intros q lost text Hq Hk Hl Hroom.
  - rewrite events_after_end by lia. cbn. rewrite app_empty_r. split; [|vm_compute; discriminate]. f_equal. f_equal. lia.
  - destruct (loop_entry q ltac:(lia)) as (v & _ & Hnth & Hv & ->). cbn [event_loop]. destruct (Z.leb_spec (es_sequence e) q); [lia|]. rewrite Hnth.
    cbn [List.filter]. destruct (wanted r v); cbn [negb].
    + assert (Hlen := event_text_length v lost Hv Hl). rewrite Nat2Z.inj_succ in *.
      destruct (Z.leb_spec (ADMIN_RESPONSE_MAX - text_length text) (text_length (event_text v lost))); [unfold ADMIN_RESPONSE_MAX in *; lia|].
      destruct (IH (q + 1) 0 (text +:+ event_text v lost)%string) as [E Hb]; [lia|lia|unfold is_u64; lia|rewrite text_length_app; lia|].
      rewrite E. assert (Ej : joined (event_lines 0 (List.filter (wanted r) (events_after e (q + 1)))) =
        joined ((fun v => event_text v 0) <$> List.filter (wanted r) (events_after e (q + 1)))) by (by destruct (List.filter _ _)).
      rewrite Ej in Hb |- *. cbn [event_lines joined foldr]. fold (joined ((fun v => event_text v 0) <$> List.filter (wanted r) (events_after e (q + 1)))).
      rewrite string_app_assoc, text_length_app. split; [|lia]. f_equal. f_equal. by destruct (List.filter _ _).
    + destruct (IH (q + 1) lost text) as [E Hb]; [lia|lia|done|lia|]. rewrite E. split; [done|]. lia.
Qed.
End stream.

Lemma text_length_empty s : empty s = true <-> text_length s = 0.
Proof. destruct s; unfold text_length; cbn; split; try done; lia. Qed.
Lemma event_text_nonempty v lost : 0 < text_length (event_text v lost).
Proof. unfold event_text. rewrite text_length_app. change (text_length "{") with 1. match goal with |- context [_ + text_length ?s] => assert (H := text_length_nonneg s) end. lia. Qed.

(** ** Lines *)

Lemma plain_pretty x : 0 <= x -> plain (pretty x) = true.
Proof.
  intros H. apply pretty_chars; [|done]. intros d Hd. rewrite digit_code by done.
  by rewrite (proj2 (Z.ltb_ge _ _)), !(proj2 (Z.eqb_neq _ _)) by lia.
Qed.
Lemma plain_inet_ntop ip : plain (inet_ntop ip) = true.
Proof.
  assert (H : forall k, 0 <= k -> plain (pretty (byte_at ip k)) = true) by (intros k Hk; apply plain_pretty; by apply byte_at_range).
  unfold inet_ntop, plain in *. by rewrite !all_chars_app, !H.
Qed.
Lemma plain_kind i : plain (nth i kinds "") = true.
Proof. do 12 (destruct i as [|i]; [reflexivity|]). by destruct i. Qed.

Lemma event_json v lost : json_text (event_text v lost) (json_item (event_item v lost)).
Proof.
  assert (E : event_text v lost = (item_text true (event_item v lost) +:+ String "010" "")%string).
  { unfold item_text, event_item. cbn [fields_text]. unfold field_text, value_text. cbn [fst snd].
    rewrite !(escape_plain (nth _ _ _)), !(escape_plain (inet_ntop _)) by auto using plain_kind, plain_inet_ntop.
    unfold event_text, name, name_text. rewrite <- !string_app_assoc. reflexivity. }
  assert (Hp : Forall (fun f : string * value => plain f.1 = true) (event_item v lost)) by (repeat constructor).
  exists (Punct "{" :: item_tokens (event_item v lost) ++ [Punct "}"]). split.
  - rewrite E, (lex_app _ _ _ _ _ (lex_item _ Hp)). cbn [lex]. change (lex_step Between "010") with (Some ([] : list token, Between)).
    cbn [mbind option_bind app]. by rewrite app_nil_r.
  - constructor. apply item_tokens_members.
Qed.

(** C16: a scan brings a subscriber up to date.  Whatever it wants and however far
    it is behind, it is then at the end of the ring, and what it is sent, if
    anything, is one reply of less than the size of the buffer: the wanted events
    after the last one it was shown, in order and each once, the first carrying
    the number of those the ring had dropped before they could be shown; and a
    line of its own for that number when no wanted event is left to carry it.
    Every event line is a JSON text denoting the event. *)
Theorem monitor_stream j c : let e := sn_events (jb_view j) in let q := cc_sequence c in
  ring_wf e -> Forall event_typed (es_entries e) -> is_u64 (es_sequence e) -> is_u64 (view_generation j) -> 0 <= q <= es_sequence e -> cc_length c = 0 ->
  let text := stream_text e (cc_request c) (view_generation j) q in
  let c1 := set_cc_sequence (es_sequence e) c in
  events j c = (if empty text then c1 else response 0 (view_generation j) (text_bytes text) c1) /\
  text_length text < ADMIN_RESPONSE_MAX /\
  forall v lost, json_text (event_text v lost) (json_item (event_item v lost)).
Proof.
  cbv zeta. intros Hring Hty Hseq Hgen Hq Hlen. refine ((fun H => conj (proj1 H) (conj (proj2 H) event_json)) _).
  unfold events. rewrite Hlen. change (truth 0) with false. rewrite orb_false_r.
  set (e := sn_events (jb_view j)) in *. set (r := cc_request c). set (q := cc_sequence c) in *.
  assert (Hl : lost_after e q = if ADMIN_EVENT_MAX <? u64 (es_sequence e - q) then u64 (es_sequence e - q) - ADMIN_EVENT_MAX else 0).
  { rewrite u64_id by (unfold is_u64 in *; lia). unfold lost_after. destruct (Z.ltb_spec ADMIN_EVENT_MAX (es_sequence e - q)); lia. }
  destruct (Z.eqb_spec q (es_sequence e)) as [E|Hne].
  { unfold stream_text. assert (Hz : lost_after e q = 0) by (unfold lost_after, ADMIN_EVENT_MAX; lia). rewrite Hz, events_after_end by lia. cbn.
    split; [|done]. unfold q in E. rewrite <- E. by destruct c. }
  rewrite <- Hl. set (lost := lost_after e q) in *. clear Hl.
  assert (Hlost : 0 <= lost /\ es_sequence e - ADMIN_EVENT_MAX <= q + lost <= es_sequence e /\ es_sequence e - (q + lost) <= ADMIN_EVENT_MAX)
    by (unfold lost, lost_after, ADMIN_EVENT_MAX in *; lia).
  rewrite u64_id by (unfold is_u64 in *; lia).
  destruct (event_loop_stream e r Hring Hty (Z.to_nat (es_sequence e - (q + lost))) (q + lost) lost "") as [El Hb];
    [lia|lia|unfold is_u64 in *; lia|change (text_length "") with 0; unfold ADMIN_EVENT_MAX, ADMIN_RESPONSE_MAX in *; lia|].
  rewrite El. clear El. unfold stream_text. fold lost. change ("" +:+ ?s)%string with s.
  assert (Hov := overflow_text_length (es_sequence e) (view_generation j) lost Hseq Hgen ltac:(unfold is_u64 in *; lia)).
  destruct (List.filter (wanted r) (events_after e (q + lost))) as [|v l].
  - cbn [lost_left event_lines joined foldr empty andb]. rewrite andb_true_r. destruct (truth lost); [|done]. split; [done|]. unfold ADMIN_RESPONSE_MAX. lia.
  - cbn [lost_left]. change (truth 0) with false. cbn [andb]. split; [done|]. unfold ADMIN_EVENT_MAX, ADMIN_RESPONSE_MAX in *. lia.
Qed.

(** * A sample *)

Module EventSample.
(** A ring that has seen 130 events, and a subscriber that has seen none. *)
Definition entry (i : nat) : admin_event :=
  zero_admin_event |> set_ev_sequence (if Nat.ltb i 2 then Z.of_nat i + 129 else Z.of_nat i + 1) |> set_ev_group ADM_LINK.
Definition ring : admin_events := mk_admin_events 130 (entry <$> seq 0 128).
Definition job : admin_job := set_jb_view (set_sn_events ring zero_admin_snapshot) zero_admin_job.
Definition subscriber : admin_connection := zero_admin_connection |> set_cc_fd 7 |> set_cc_subscribed true |> set_cc_target ADMIN_HEADER.

Lemma ring_ok : ring_wf ring.
Proof.
  split; [reflexivity|vm_compute; discriminate|]. intros n H1 H2. change (es_sequence ring) with 130 in H2. unfold ADMIN_EVENT_MAX in H2.
  assert (H : Forall (fun n => ev_sequence <$> event_at ring n = Some n) (seqZ 3 128)) by compute_closed.
  rewrite Forall_forall in H. specialize (H n ltac:(apply elem_of_seqZ; lia)). destruct (event_at ring n) as [v|]; [|done]. exists v. split; [done|]. by injection H.
Qed.

Lemma monitor_stream_witness : cc_sequence (events job subscriber) = 130 /\ 0 < cc_length (events job subscriber).
Proof.
  destruct (monitor_stream job subscriber ring_ok ltac:(compute_closed) ltac:(compute_closed) ltac:(compute_closed) ltac:(vm_compute; split; discriminate) eq_refl)
    as (H & _). rewrite H. split; vm_compute; reflexivity.
Defined.
End EventSample.
