(* ===== verification/Main.v ===== *)
(** The process of [src/main.c]: its arguments, the order in which the parts are
    brought up and taken down, and the loops of the main thread, which is the
    worker of both services.  What the kernel and [calloc] answer is an argument.
    A struct on the heap is [Live] between [calloc] and [free] and keeps its last
    contents afterwards, so that what a freed struct still held can be told. *)
From S2P Require Import Prelude.
From S2P Require Import Dpdk.
From S2P Require Import Types.
From S2P Require Import Text.
From S2P Require Import Config.
From S2P Require Import Ports.
From S2P Require Import NetConfig.
From S2P Require Import Queue.
From S2P Require Import Graph.
From S2P Require Import Resolution.
From S2P Require Import Runtime.
From S2P Require Import Dispatch.
From S2P Require Import Control.
From S2P Require Import AdminWorker.
From S2P Require Import AdminControl.
From S2P Require Import AdminClient.

(** * Arguments *)

Definition PS_DEFAULT_SOCKET : string := "/tmp/pulsaros.sock".
Definition CPU_SETSIZE : Z := 1024.

Definition capacity (text : string) (limit : Z) : option Z :=
  match number text limit with
  | Some n => if negb (truth n) then None else Some n
  | None => None
  end.

Record settings : Type := mk_settings {
  se_path : string;
  se_admin_path : option string;
  se_max_clients : Z;
  se_max_sockets : Z
}.
Definition default_settings : settings := mk_settings PS_DEFAULT_SOCKET None DAEMON_CLIENT_MAX PS_SOCKET_MAX.

(** The loop over [argv[2]] on; [None] is the usage message. *)
Fixpoint parse_options (args : list string) (o : settings) : option settings :=
  match args with
  | [] => Some o
  | [_] => None
  | name :: value :: rest =>
    if String.eqb name "--socket" then
      parse_options rest (mk_settings value (se_admin_path o) (se_max_clients o) (se_max_sockets o))
    else if String.eqb name "--admin-socket" then
      parse_options rest (mk_settings (se_path o) (Some value) (se_max_clients o) (se_max_sockets o))
    else if String.eqb name "--max-sockets" then
      match capacity value PS_SOCKET_MAX with
      | Some n => parse_options rest (mk_settings (se_path o) (se_admin_path o) (se_max_clients o) n)
      | None => None
      end
    else if String.eqb name "--max-clients" then
      match capacity value DAEMON_CLIENT_MAX with
      | Some n => parse_options rest (mk_settings (se_path o) (se_admin_path o) n (se_max_sockets o))
      | None => None
      end
    else None
  end.

(** [admin_path] after the defaults: [snprintf] into [derived_admin[108]]. *)
Definition admin_path (o : settings) : option string :=
  match se_admin_path o with
  | Some path => Some path
  | None =>
    if String.eqb (se_path o) PS_DEFAULT_SOCKET then Some ADMIN_DEFAULT_SOCKET else
    if Nat.leb 108 (String.length (se_path o +:+ ".admin")) then None else Some (se_path o +:+ ".admin")
  end.

Definition arguments (argv : list string) : option (settings * string) :=
  match argv with
  | _ :: _ :: args => o ← parse_options args default_settings; path ← admin_path o; Some (o, path)
  | _ => None
  end.

(** The processors of the control thread: not that of the worker, if any other is
    left. *)
Definition control_cpus (lcore : Z) (allowed : gset Z) : gset Z :=
  let cpus := if lcore <? CPU_SETSIZE then allowed ∖ {[lcore]} else allowed in
  if Nat.eqb (size cpus) 0 then allowed else cpus.

(** * The process *)

Inductive heap (A : Type) : Type :=
| Unallocated
| Live (a : A)
| Freed (a : A).
Arguments Unallocated {A}.
Arguments Live {A} a.
Arguments Freed {A} a.

(** Where the main thread is: in the main loop, in one of the two loops that wait
    for a thread, in the last second ([start] is its beginning), in the loop after
    [admin_start] failed, or past [return code]. *)
Inductive phase : Type :=
| Serving
| AdminStopping
| ServiceStopping
| Draining (start : Z)
| Aborting
| Exited (code : Z).

(** [pc_signalled] is the flag of the signal handler, [pc_cpus] is
    [service->control_cpus]. *)
Record process : Type := mk_process {
  pc_phase : phase;
  pc_signalled : bool;
  pc_service : heap daemon_service;
  pc_admin : heap admin_service;
  pc_worker : worker;
  pc_cpus : gset Z
}.
Definition set_pc_phase (v : phase) (r : process) : process := mk_process v (pc_signalled r) (pc_service r) (pc_admin r) (pc_worker r) (pc_cpus r).
Definition set_pc_signalled (v : bool) (r : process) : process := mk_process (pc_phase r) v (pc_service r) (pc_admin r) (pc_worker r) (pc_cpus r).
Definition set_pc_service (v : heap daemon_service) (r : process) : process := mk_process (pc_phase r) (pc_signalled r) v (pc_admin r) (pc_worker r) (pc_cpus r).
Definition set_pc_admin (v : heap admin_service) (r : process) : process := mk_process (pc_phase r) (pc_signalled r) (pc_service r) v (pc_worker r) (pc_cpus r).
Definition set_pc_worker (v : worker) (r : process) : process := mk_process (pc_phase r) (pc_signalled r) (pc_service r) (pc_admin r) v (pc_cpus r).
Definition set_pc_cpus (v : gset Z) (r : process) : process := mk_process (pc_phase r) (pc_signalled r) (pc_service r) (pc_admin r) (pc_worker r) v.

(** What [lstat] finds at the two socket paths when they are released. *)
Record socket_files : Type := mk_socket_files { sf_admin : option inode_info; sf_service : option inode_info }.

(** ** Release *)

(** [admin_release(admin); free(admin)]. *)
Definition drop_admin (files : socket_files) (p : process) : process :=
  match pc_admin p with Live a => set_pc_admin (Freed (admin_release (sf_admin files) a).1) p | _ => p end.
(** [daemon_release(service); free(service)]. *)
Definition drop_service (files : socket_files) (p : process) : process :=
  match pc_service p with Live s => set_pc_service (Freed (daemon_release (sf_service files) s).1) p | _ => p end.

Section main.
Context `{!Dpdk}.

Definition on_worker (f : worker -> worker) (p : process) : process := set_pc_worker (f (pc_worker p)) p.

(** The releases that end every run past [app_init], then [return code]. *)
Definition shut_down (code : Z) (files : socket_files) (p : process) : process :=
  p |> drop_admin files |> on_worker (on_rt app_fini) |> drop_service files |> set_pc_phase (Exited code).

(** ** Start *)

(** What the kernel and [calloc] answer while the process comes up: the
    configuration file, [sched_getaffinity], [chmod], the two [pthread_create]. *)
Record boot : Type := mk_boot {
  bo_file : option file;
  bo_service_calloc : bool;
  bo_prepare : prepare_input;
  bo_affinity : option (gset Z);
  bo_admin_calloc : bool;
  bo_config_calloc : bool;
  bo_admin_prepare : prepare_input;
  bo_chmod : option Z;
  bo_daemon_thread : Z;
  bo_admin_thread : Z;
  bo_files : socket_files
}.

Definition no_process : process := mk_process (Exited 1) false Unallocated Unallocated zero_worker ∅.

Definition daemon_start (rc : Z) : Z := if truth rc then - rc else 0.

(** From [daemon_start] on. *)
Definition start_threads (o : settings) (e : boot) (p : process) : process :=
  let p := on_worker (fun w => let '(now, w) := timer w in set_wk_admin_started now w) p in
  let p := on_worker (on_rt (fun rt => set_rt_sockets (set_ss_capacity (se_max_sockets o) (rt_sockets rt)) rt)) p in
  if truth (daemon_start (bo_daemon_thread e)) then shut_down 1 (bo_files e) p else
  if truth (admin_start (bo_admin_thread e)) then
    match pc_service p with
    | Live s => p |> set_pc_service (Live (set_ds_stopping true s)) |> set_pc_phase Aborting
    | _ => p
    end
  else set_pc_phase Serving p.

(** From the allocation of [admin] to the check of [chmod]. *)
Definition start_admin (o : settings) (path : string) (e : boot) (p : process) : process :=
  if negb (bo_admin_calloc e) then shut_down 1 (bo_files e) p else
  let '(rc, rt) := net_config_init (bo_config_calloc e) (wk_rt (pc_worker p)) in
  let p := on_worker (set_wk_rt rt) p in
  let '(rc, p) :=
    if negb (truth rc) then let '(rc, a) := admin_prepare path (bo_admin_prepare e) in (rc, set_pc_admin (Live a) p)
    else (rc, set_pc_admin (Freed zero_admin_service) p) in
  let rc := if negb (truth rc) then match bo_chmod e with Some errno => - errno | None => rc end else rc in
  if truth rc then shut_down 1 (bo_files e) p else start_threads o e p.

Definition main_start `{!Ethdev} (argv : list string) (e : boot) : process :=
  match arguments argv with
  | None => set_pc_phase (Exited 2) no_process
  | Some (o, admin_path) =>
    match bo_file e with
    | None => no_process
    | Some f =>
      match app_config_load f with
      | inl _ => no_process
      | inr conf =>
        if negb (bo_service_calloc e) then no_process else
        let '(rc, s) := daemon_prepare (se_path o) (se_max_clients o) (se_max_sockets o) (bo_prepare e) in
        let p := set_pc_service (Live s) no_process in
        if truth rc then drop_service (bo_files e) p else
        match bo_affinity e with
        | None => drop_service (bo_files e) p
        | Some allowed =>
          let p := set_pc_cpus (control_cpus (cf_lcore conf) allowed) p in
          let '(rc, rt) := app_init (nth 0 argv EmptyString) conf zero_app_runtime in
          let p := on_worker (set_wk_rt rt) p in
          if truth rc then drop_service (bo_files e) p else start_admin o admin_path e p
        end
      end
    end
  end.

(** ** The loops *)

Context `{!Nic}.

(** [daemon_progress(service, &rt)]; the rings are in the service. *)
Definition service_progress (s : daemon_service) (w : worker) : daemon_service * worker :=
  let '(_, rings, rt) := daemon_progress submit (mk_daemon_rings (ds_requests s) (ds_responses s)) (wk_rt w) in
  (s |> set_ds_requests (dr_requests rings) |> set_ds_responses (dr_responses rings), set_wk_rt rt w).

Definition mail_progress (a : admin_service) (w : worker) : admin_service * worker :=
  let '(_, mx, w) := admin_progress (sv_mailbox a) w in (set_sv_mailbox mx a, w).

Definition poll_step (w : worker) : worker := on_rt (fun rt => (app_step rt).2) w.

(** One round of the loop the main thread is in, or the way to the next one.  A
    thread that set its [done] flag has ended: [pthread_join] returns. *)
Definition main_turn (files : socket_files) (p : process) : process :=
  match pc_phase p, pc_service p, pc_admin p with
  | Serving, Live s, Live a =>
    if pc_signalled p || ds_failed s || sv_failed a then
      p |> set_pc_admin (Live (set_sv_stopping true a)) |> set_pc_phase AdminStopping
    else
      let '(s, w) := service_progress s (pc_worker p) in
      let '(a, w) := mail_progress a w in
      p |> set_pc_service (Live s) |> set_pc_admin (Live a) |> set_pc_worker (poll_step w)
  | AdminStopping, Live s, Live a =>
    if sv_done a then p |> set_pc_service (Live (set_ds_stopping true s)) |> set_pc_phase ServiceStopping else
    let '(a, w) := mail_progress a (pc_worker p) in
    p |> set_pc_admin (Live a) |> set_pc_worker (poll_step w)
  | ServiceStopping, Live s, Live a =>
    if ds_done s then
      let '(start, w) := timer (pc_worker p) in p |> set_pc_worker w |> set_pc_phase (Draining start)
    else
      let '(s, w) := service_progress s (pc_worker p) in
      p |> set_pc_service (Live s) |> set_pc_worker (poll_step w)
  | Draining start, Live s, Live a =>
    let '(now, w) := timer (pc_worker p) in
    let p := set_pc_worker w p in
    if u64 (now - start) <? rte_get_timer_hz then on_worker poll_step p else
    p |> on_worker (on_rt (neighbour_fini submit)) |> shut_down (b2z (ds_failed s || sv_failed a)) files
  | Aborting, Live s, Live a =>
    if ds_done s then shut_down 1 files p else
    let '(s, w) := service_progress s (pc_worker p) in
    p |> set_pc_service (Live s) |> set_pc_worker (poll_step w)
  | _, _, _ => p
  end.

(** ** The threads *)

(** A round of the control thread, which runs from [daemon_start] until it is
    done. *)
Definition control_thread (r : round_input) (p : process) : process :=
  match pc_phase p, pc_service p with
  | (Serving | AdminStopping | ServiceStopping | Aborting), Live s =>
    if ds_done s then p else set_pc_service (Live (control_round r s).1) p
  | _, _ => p
  end.

(** A round of the administrative thread; [apps] is the service it was given. *)
Definition admin_thread (e : admin_input) (p : process) : process :=
  match pc_phase p, pc_service p, pc_admin p with
  | (Serving | AdminStopping), Live s, Live a =>
    if sv_done a then p else set_pc_admin (Live (run_round s e a).1) p
  | _, _, _ => p
  end.

(** [request_stop]. *)
Definition request_stop (p : process) : process := set_pc_signalled true p.
End main.
