(* ===== verification/MainSpec.v ===== *)
(** The process of [Main.v]: start-up establishes the states the other files
    start from, whichever way a run ends nothing is left behind, and a run that is
    told to stop ends. *)
From stdpp Require Import relations.
From S2P Require Import Prelude.
From S2P Require Import Dpdk.
From S2P Require Import Sim.
From S2P Require Import Types.
From S2P Require Import Text.
From S2P Require Import Netif.
From S2P Require Import Route.
From S2P Require Import Config.
From S2P Require Import Ports.
From S2P Require Import NetConfig.
From S2P Require Import Queue.
From S2P Require Import Ipc.
From S2P Require Import Graph.
From S2P Require Import Resolution.
From S2P Require Import Sockets.
From S2P Require Import Runtime.
From S2P Require Import Dispatch.
From S2P Require Import Control.
From S2P Require Import ControlInv.
From S2P Require Import ControlSpec.
From S2P Require Import Shutdown.
From S2P Require Import GraphInv.
From S2P Require Import Scheduler.
From S2P Require Import Ownership.
From S2P Require Import Protocols.
From S2P Require Import NodeProofs.
From S2P Require Import Conservation.
From S2P Require Import SocketTyped.
From S2P Require Import Service.
From S2P Require Import AdminWire.
From S2P Require Import AdminState.
From S2P Require Import AdminWorker.
From S2P Require Import AdminControl.
From S2P Require Import AdminWorkerSpec.
From S2P Require Import AdminControlSpec.
From S2P Require Import Main.

(** * The flags and descriptors of the administrative thread *)

Definition connection_fds (c : admin_connection) : list Z := if 0 <=? cc_fd c then [cc_fd c] else [].
(** The descriptors the service itself holds. *)
Definition admin_own (a : admin_service) : list Z :=
  (if 0 <=? sv_lock_fd a then [sv_lock_fd a] else []) ++ (if 0 <=? sv_listener a then [sv_listener a] else []).
(** The open descriptors are those of the service and of its connections. *)
Definition admin_fds (a : admin_service) : Prop := sv_open a ≡ₚ admin_own a ++ (sv_clients a ≫= connection_fds).

(** What the descriptors depend on, with the flag [done]. *)
Definition frame_of (a : admin_service) : list Z * Z * Z * bool * list Z :=
  (sv_open a, sv_lock_fd a, sv_listener a, sv_done a, cc_fd <$> sv_clients a).

Lemma fds_of_connections l : l ≫= connection_fds = (cc_fd <$> l) ≫= (fun fd => if 0 <=? fd then [fd] else []).
Proof. induction l as [|c l IH]; [done|]. cbn. by rewrite IH. Qed.

Lemma frame_fds a a' : frame_of a' = frame_of a -> admin_fds a -> admin_fds a'.
Proof. unfold frame_of, admin_fds, admin_own. intros [= -> -> -> _ Hc]. by rewrite !fds_of_connections, Hc. Qed.

Lemma set_connection_frame i c a : cc_fd c = cc_fd (connection a i) -> frame_of (set_connection i c a) = frame_of a.
Proof.
  intros H. unfold frame_of, set_connection. cbn [sv_open sv_lock_fd sv_listener sv_done sv_clients set_sv_clients]. f_equal. rewrite list_fmap_insert. apply list_insert_id'. intros Hi. rewrite length_fmap in Hi.
  destruct (lookup_lt_is_Some_2 _ _ Hi) as [x Hx]. rewrite list_lookup_fmap, Hx. cbn. f_equal. rewrite H. unfold connection. by rewrite (nth_lookup_Some _ _ _ _ Hx).
Qed.

Lemma response_fd result generation body c : cc_fd (response result generation body c) = cc_fd c.
Proof. done. Qed.
Lemma events_fd j c : cc_fd (events j c) = cc_fd c.
Proof. unfold events. cbv zeta. by repeat case_match. Qed.
Lemma answer_fd apps j c : cc_fd (answer apps j c).2 = cc_fd c.
Proof. unfold answer. cbv zeta. by repeat case_match. Qed.

Lemma deliver_frame a : frame_of (deliver a) = frame_of a.
Proof.
  unfold frame_of, deliver. cbn [sv_open sv_lock_fd sv_listener sv_done sv_clients set_sv_clients]. f_equal. rewrite <- list_fmap_compose. apply list_fmap_ext. intros i c _. cbn. destruct (_ && _); [apply events_fd|done].
Qed.

Lemma complete_frame malloc apps a : frame_of (complete malloc apps a) = frame_of a.
Proof.
  unfold complete. destruct (negb _); [done|]. cbv zeta. set (r := if _ && _ && _ then _ else _). assert (H : frame_of r.1 = frame_of a).
  { unfold r, prepare_change, free_block. cbv zeta. by repeat case_match. }
  destruct r as [a1 again]. cbn [fst] in H. destruct again; [done|]. rewrite <- H.
  change (frame_of (deliver (if 0 <=? sv_current a then let '(rc, c) := answer apps (job (reclaim a1)) (connection (reclaim a1) (Z.to_nat (sv_current a))) in
    set_connection (Z.to_nat (sv_current a)) c (set_job (set_jb_result rc (job (reclaim a1))) (reclaim a1)) else reclaim a1)) = frame_of a1).
  rewrite deliver_frame. assert (H1 : frame_of (reclaim a1) = frame_of a1) by (unfold reclaim, free_block; cbv zeta; by repeat case_match).
  rewrite <- H1. destruct (0 <=? _); [|done]. set (a2 := reclaim a1). assert (Hf := answer_fd apps (job a2) (connection a2 (Z.to_nat (sv_current a)))).
  destruct (answer _ _ _) as [rc c]. cbn [snd] in Hf. rewrite set_connection_frame; [done|exact Hf].
Qed.

Lemma schedule_frame now later a : frame_of (schedule now later a) = frame_of a.
Proof.
  unfold schedule. destruct (truth _); [done|]. destruct (next_ready a) as [i|]; [|by repeat case_match]. cbv zeta.
  match goal with |- frame_of (set_state 1 (set_connection i ?c ?x)) = _ => change (frame_of (set_connection i c x) = frame_of x) end. by rewrite set_connection_frame.
Qed.

(** A connection is closed, one is taken in. *)
Lemma disconnect_fds i a : admin_fds a -> admin_fds (disconnect i a) /\ sv_done (disconnect i a) = sv_done a.
Proof.
  intros H. split; [|done]. unfold admin_fds, disconnect in *. unfold admin_own in *. cbn [sv_open sv_lock_fd sv_listener sv_clients set_connection set_sv_clients set_sv_open].
  assert (Hh : connection_fds (hung_up (connection a i)) = []) by (unfold hung_up; cbv zeta; by repeat case_match). apply close_fd_head. rewrite H.
  destruct (sv_clients a !! i) as [c|] eqn:E.
  - assert (Hp := bind_insert_perm connection_fds _ i c (hung_up (connection a i)) E). rewrite Hh, app_nil_r in Hp. rewrite <- Hp.
    assert (Hc : connection a i = c) by (unfold connection; by rewrite (nth_lookup_Some _ _ _ _ E)). rewrite Hc. unfold connection_fds at 2. solve_Permutation.
  - rewrite list_insert_ge by (by apply lookup_ge_None). unfold connection. rewrite (nth_overflow (sv_clients a)) by (by apply lookup_ge_None). done.
Qed.

Lemma accept_fds euid p a : 0 <= ap_fd p -> admin_fds a -> admin_fds (accept_client euid p a) /\ sv_done (accept_client euid p a) = sv_done a.
Proof.
  intros Hp H. unfold accept_client. destruct (ap_uid p); [|done]. destruct (_ && _); [done|]. destruct (free_connection a) as [i|] eqn:E; [|done]. split; [|done].
  apply find_index_Some in E as [(c & Hi & Hc) _]. apply andb_true_iff in Hc as [Hc _]. apply Z.ltb_lt in Hc.
  unfold admin_fds in *. unfold admin_own in *. cbn [sv_open sv_lock_fd sv_listener sv_clients set_connection set_sv_clients set_sv_open].
  set (c' := zero_admin_connection |> _ |> _). assert (Hb := bind_insert_perm connection_fds _ i c c' Hi).
  assert (E1 : connection_fds c = []) by (unfold connection_fds; destruct (Z.leb_spec 0 (cc_fd c)); [lia|done]).
  assert (E2 : connection_fds c' = [ap_fd p]) by (unfold connection_fds, c'; cbn; destruct (Z.leb_spec 0 (ap_fd p)); [done|lia]).
  rewrite E1, E2, app_nil_r in Hb. rewrite Hb, H. solve_Permutation.
Qed.

Definition kept (a a' : admin_service) : Prop := admin_fds a -> admin_fds a' /\ sv_done a' = sv_done a.
#[local] Instance kept_preorder : PreOrder kept.
Proof. split; [by intros a H|]. intros a b c H1 H2 H. destruct (H1 H) as [H3 <-]. by apply H2. Qed.
Lemma frame_kept a a' : frame_of a' = frame_of a -> kept a a'.
Proof. intros E H. split; [by eapply frame_fds|]. by injection E. Qed.

Lemma foldl_kept {A} (f : admin_service -> A -> admin_service) l a : (forall a x, x ∈ l -> kept a (f a x)) -> kept a (foldl f a l).
Proof.
  revert a. induction l as [|x l IH]; intros a Hf; [done|]. cbn [foldl]. etransitivity; [apply (Hf a x), elem_of_cons; by left|]. apply IH. intros b y Hy. apply Hf, elem_of_cons. by right.
Qed.

Lemma disconnect_kept i a : kept a (disconnect i a).
Proof. exact (disconnect_fds i a). Qed.

Lemma read_kept i r a : kept a (read_client i r a).
Proof.
  unfold read_client. cbv zeta. destruct r as [bytes|errno]; [|destruct (retry errno); [done|apply disconnect_kept]].
  destruct (Nat.eqb _ 0); [apply disconnect_kept|]. match goal with |- context[set_cc_have ?h (set_cc_input ?x ?c0)] => set (c := set_cc_have h (set_cc_input x c0)) end.
  assert (Hc : cc_fd c = cc_fd (connection a i)) by done. clearbody c. destruct (if _ && _ then _ else _) as [c1|] eqn:E.
  - apply frame_kept, set_connection_frame. assert (H1 : cc_fd c1 = cc_fd c).
    { destruct (_ && _); [|by injection E as <-]. unfold admit_header in E. repeat case_match; simplify_eq; done. }
    rewrite <- Hc, <- H1. destruct (cc_have c1 =? cc_target c1); [|done]. unfold admit_request. cbv zeta. by destruct (admin_request_decode _).
  - etransitivity; [apply frame_kept, (set_connection_frame i c a Hc)|]. apply disconnect_kept.
Qed.

Lemma write_kept i r a : kept a (write_client i r a).
Proof.
  unfold write_client. cbv zeta. destruct r as [n|errno]; [|destruct (retry errno); [done|apply disconnect_kept]].
  destruct (_ <=? 0); [apply disconnect_kept|]. apply frame_kept, set_connection_frame. by destruct (_ =? _).
Qed.

(** A round sets [done] only when it ends the thread. *)
Lemma run_round_kept apps e a : Forall (fun p => 0 <= ap_fd p) (ai_accept e) -> admin_fds a ->
  let '(a', finished) := run_round apps e a in
  admin_fds a' /\ (if finished : bool then sv_done a' = true /\ sv_stopping a = true /\ state a = 0 else sv_done a' = sv_done a).
Proof.
  intros He H. unfold run_round. assert (Hall : forall a, kept a (disconnect_all a)) by (intros b; apply foldl_kept; intros ? ? _; apply disconnect_kept).
  destruct (sv_stopping a && negb (truth (state a))) eqn:E.
  { apply andb_true_iff in E as [E1 E2]. apply negb_true_iff, truth_false in E2. destruct (Hall a H) as [H1 _]. generalize dependent (disconnect_all a). intros b H1. split; [exact H1|]. split; [reflexivity|split; [exact E1|exact E2]]. }
  clear E. cbv zeta. assert (H1 := frame_kept _ _ (complete_frame (ai_malloc e) apps a) H). set (a1 := complete _ _ a) in *. clearbody a1. destruct H1 as [H1 <-].
  destruct (sv_stopping a1); [exact (Hall a1 H1)|].
  assert (H2 := frame_kept _ _ (schedule_frame (ai_now e) (ai_later e) a1) H1). set (a2 := schedule _ _ a1) in *. clearbody a2. destruct H2 as [H2 <-].
  unfold poll_round. destruct (ai_poll e) as [errno|reported]; [by destruct (_ =? _)|]. cbv zeta. set (a3 := if truth _ then _ else a2).
  assert (H3 : kept a2 a3).
  { unfold a3. destruct (truth _); [|reflexivity]. apply foldl_kept. intros b p Hp Hb. apply accept_fds; [|done]. rewrite Forall_forall in He. apply He.
    by apply (subseteq_take ADMIN_CLIENT_MAX). }
  clearbody a3. revert H2. change (kept a2 (foldl (poll_connection e) a3 ((fun i => (i, connection_revents reported a2 i)) <$> seq 0 ADMIN_CLIENT_MAX))). etransitivity; [exact H3|].
  apply foldl_kept. intros b [i got] _. unfold poll_connection. cbv zeta.
  set (b1 := if truth (Z.land got poll_failure) then _ else b). assert (K1 : kept b b1) by (unfold b1; destruct (truth _); [apply disconnect_kept|reflexivity]). clearbody b1.
  set (b2 := if (0 <=? _) && truth (Z.land got POLLOUT) then _ else b1). assert (K2 : kept b1 b2) by (unfold b2; destruct (_ && _); [apply write_kept|reflexivity]). clearbody b2.
  etransitivity; [exact K1|]. etransitivity; [exact K2|]. destruct (_ && _); [apply read_kept|reflexivity].
Qed.

(** * The running process *)

(** Nothing is under way in the administrative service and nobody is connected. *)
Definition quiet (a : admin_service) : Prop := state a = 0 /\ Forall (fun c => cc_fd c < 0) (sv_clients a).

Section process.
Context {D : Dpdk} {DL : DpdkLaws} {E : Ethdev} {N : Nic}.

(** What holds while both services are allocated, for [n] ports. *)
Record up (n : nat) (s : daemon_service) (a : admin_service) (w : worker) : Prop := {
  up_service : exists reqs resps, service_inv s reqs resps;
  up_typed : sockets_typed (wk_rt w);
  up_admin : admin_inv (fun _ => 0) n a w;
  up_fds : admin_fds a;
  up_ports : Z.of_nat n <= NETIF_MAX;
  up_done : ds_done s = true -> live_clients s = O;
  up_quiet : sv_done a = true -> quiet a
}.

(** ** The worker's part of a turn *)

(** What a turn leaves of the service: only the rings change. *)
Definition same_sessions (s s' : daemon_service) : Prop :=
  (ds_clients s', ds_max_clients s', flags s', ds_failed s', ds_listener s') = (ds_clients s, ds_max_clients s, flags s, ds_failed s, ds_listener s).

Definition with_rings (rings : daemon_rings) (s : daemon_service) : daemon_service :=
  s |> set_ds_requests (dr_requests rings) |> set_ds_responses (dr_responses rings).

Lemma progress_loop_ok budget n a : Z.of_nat n <= NETIF_MAX -> forall count rings s w reqs resps,
  service_inv (with_rings rings s) reqs resps -> sockets_typed (wk_rt w) -> admin_inv (fun _ => 0) n a w ->
  let '(_, rings', rt) := progress_loop submit budget count rings (wk_rt w) in
  (exists resps', service_inv (with_rings rings' s) (drop budget reqs) resps') /\ sockets_typed rt /\ admin_inv (fun _ => 0) n a (set_wk_rt rt w).
Proof.
  intros Hn. induction budget as [|budget IH]; intros count rings s w reqs resps Hinv Ht Ha; cbn [progress_loop].
  { split; [by exists resps|]. split; [done|]. by destruct w. }
  assert (Hsame : exists resps', service_inv (with_rings rings s) reqs resps') by (by exists resps).
  assert (Hw : set_wk_rt (wk_rt w) w = w) by (by destruct w).
  assert (Hq := pop_holds _ _ (si_requests _ _ _ Hinv)). destruct reqs as [|request reqs].
  { cbn in Hq. rewrite Hq. destruct (negb _); (split; [exact Hsame|]; split; [done|by rewrite Hw]). }
  assert (Hroom : daemon_queue_room (dr_responses rings) = true) by exact (responses_room _ _ _ Hinv ltac:(done)). rewrite Hroom. cbn [negb].
  destruct (daemon_queue_pop (dr_requests rings)) as [o ring] eqn:Epop. cbn in Hq. rewrite Epop in Hq. destruct Hq as [Hq1 _]. cbn in Hq1. subst o.
  assert (Hinv' := worker_inv (W := stack_worker) _ reqs resps (wk_rt w) request ring Ht Hinv (responses_room _ _ _ Hinv ltac:(done)) Epop).
  assert (Ht' := daemon_dispatch_typed submit submit_typed request _ Ht).
  assert (Ha' : admin_inv (fun _ => 0) n a (on_rt (fun rt => (daemon_dispatch submit request rt).2) w)) by (eapply admin_step_inv; [done|exact Ha|apply do_request]).
  change (@serve stack_worker request (wk_rt w)) with (daemon_dispatch submit request (wk_rt w)) in Hinv'.
  destruct (daemon_dispatch submit request (wk_rt w)) as [response rt1] eqn:Ed. unfold on_rt in Ha'. rewrite Ed in Ha'. cbn [fst snd] in *.
  destruct (daemon_queue_push (dr_responses rings) response) as [rc responses] eqn:Epush.
  assert (H := IH (count + 1) (mk_daemon_rings ring responses) s (set_wk_rt rt1 w) reqs (resps ++ [response])).
  cbn [wk_rt set_wk_rt] in H. destruct (progress_loop _ _ _ _ _) as [[k rings'] rt']. apply H; [|done|done].
  replace responses with (daemon_queue_push (dr_responses rings) response).2 by (by rewrite Epush). exact Hinv'.
Qed.

Lemma service_progress_up n s a w : up n s a w ->
  let '(s', w') := service_progress s w in up n s' a w' /\ same_sessions s s' /\ wk_published w' = wk_published w /\
  forall reqs resps, service_inv s reqs resps -> exists resps', service_inv s' (drop 16 reqs) resps'.
Proof.
  intros [(reqs & resps & Hs) Ht Ha Hf Hn Hd Hq]. unfold service_progress, daemon_progress. set (rings := mk_daemon_rings _ _).
  assert (Es : with_rings rings s = s) by (by destruct s). assert (H := fun reqs resps => progress_loop_ok 16 n a Hn 0 rings s w reqs resps). rewrite Es in H.
  destruct (progress_loop _ _ _ _ _) as [[k rings'] rt]. change (s |> set_ds_requests _ |> set_ds_responses _) with (with_rings rings' s).
  destruct (H reqs resps Hs Ht Ha) as (Hs' & Ht' & Ha'). split; [|split; [done|split; [done|]]].
  - destruct Hs' as [resps' Hs']. split; try done. by exists (drop 16 reqs), resps'.
  - intros reqs1 resps1 Hs1. by destruct (H reqs1 resps1 Hs1 Ht Ha).
Qed.

Lemma mail_progress_up n s a w : up n s a w ->
  let '(a', w') := mail_progress a w in up n s a' w' /\ sv_done a' = sv_done a /\ sv_stopping a' = sv_stopping a /\ sv_failed a' = sv_failed a /\ (sv_done a = true -> a' = a).
Proof.
  intros [Hs Ht Ha Hf Hn Hd Hq]. unfold mail_progress. assert (Ha' := admin_worker_inv _ n a w Ha). assert (Ht' := admin_progress_typed (sv_mailbox a) w Ht).
  assert (Hst := worker_state _ n a w Ha). cbv zeta in Hst. destruct (admin_progress (sv_mailbox a) w) as [[k mx] w']. cbn [fst snd] in *.
  assert (Hsame : sv_done a = true -> set_sv_mailbox mx a = a) by (intros H; apply Hst; rewrite (proj1 (Hq H)); done).
  split; [|split_and!; done]. split; try done. intros H. rewrite (Hsame H). by apply Hq.
Qed.

Lemma runtime_up n s a w rt : up n s a w -> idle (mk_books (fun _ => 0) (base (wk_rt w))) [] rt -> sockets_typed rt -> up n s a (set_wk_rt rt w).
Proof. intros [Hs Ht Ha Hf Hn Hd Hq] Hi Ht'. split; try done. by apply traffic_inv. Qed.

Lemma up_idle n s a w : up n s a w -> idle (mk_books (fun _ => 0) (base (wk_rt w))) [] (wk_rt w).
Proof. intros H. apply (iv_worker _ _ _ _ (up_admin _ _ _ _ H)). Qed.

Lemma poll_step_up n s a w : up n s a w -> up n s a (poll_step w).
Proof.
  intros H. apply runtime_up; [done| |]; [|apply app_step_typed, H]. apply app_step_own. by eapply up_idle.
Qed.

Lemma timer_up n s a w : up n s a w -> up n s a (timer w).2 /\ wk_published (timer w).2 = wk_published w.
Proof.
  intros H. unfold timer, on_rt_rc. assert (Hi := up_idle _ _ _ _ H). assert (Ht := timer_cycles_typed (wk_rt w) (up_typed _ _ _ _ H)).
  destruct (timer_cycles (wk_rt w)) as [now rt] eqn:Et. apply (idle_cycles (mk_books (fun _ => 0) (base (wk_rt w))) []) in Et; [|exact Hi]. cbn [snd]. split; [|done]. by apply runtime_up.
Qed.

(** ** The threads *)

Lemma control_up n s a w r : up n s a w -> Forall (fun conn => 0 <= cn_fd conn) (ri_accept r) -> ds_done s = false ->
  up n (control_round r s).1 a w /\ (ds_stopping s = true -> ds_stopping (control_round r s).1 = true).
Proof.
  intros H Hr Hnd. destruct (up_service _ _ _ _ H) as (reqs & resps & Hs). assert (Hfl := control_round_flags r s reqs resps Hs).
  assert (Hst := control_round_steps (W := stack_worker) r s (wk_rt w) Hr). apply control_reachable_inv in Hst as [_ Hinv]; [|split; [apply H|apply H]].
  destruct (control_round r s) as [s' fin]. cbn [fst] in *. destruct Hfl as [Hd Hst]. split; [|done]. destruct H as [_ Ht Ha Hf Hn _ Hq]. split; try done.
  destruct fin; [tauto|]. congruence.
Qed.

Lemma admin_up n s a w e : up n s a w -> input_ok e -> sv_done a = false ->
  up n s (run_round s e a).1 w.
Proof.
  intros [Hs Ht Ha Hf Hn Hd Hq] He Hnd. assert (Hi := admin_steps_inv _ n Hn (a, w) _ (run_round_steps s e a w He) Ha). cbn [fst snd] in Hi.
  assert (Hk := run_round_kept s e a (proj1 He) Hf). assert (Hh := fun st => stop_round_head _ n a w (s, e) Ha st). cbn [fst snd] in Hh.
  destruct (run_round s e a) as [a' fin]. cbn [fst] in *. destruct Hk as [Hf' Hk]. split; try done. intros Hd'. destruct fin; [|congruence].
  destruct Hk as (_ & Hst & H0). destruct (Hh Hst) as [_ [(_ & H1 & _ & Hcl)|[(H1 & _)|(H1 & _)]]]; [|congruence..].
  split; [done|]. by apply Forall_lookup.
Qed.

Lemma stop_admin_up n s a w : up n s a w -> up n s (set_sv_stopping true a) w.
Proof.
  intros [Hs Ht Ha Hf Hn Hd Hq]. split; try done. replace (set_sv_stopping true a) with (a |> set_sv_stopping true |> set_sv_done (sv_done a) |> set_sv_failed (sv_failed a)) by (by destruct a).
  eapply admin_step_inv; [done|exact Ha|apply do_flags].
Qed.

Lemma stop_service_up n s a w : up n s a w -> up n (set_ds_stopping true s) a w.
Proof.
  intros [(reqs & resps & Hs) Ht Ha Hf Hn Hd Hq]. split; try done. exists reqs, resps.
  replace (set_ds_stopping true s) with (s |> set_ds_stopping true |> set_ds_done (ds_done s) |> set_ds_failed (ds_failed s)) by (by destruct s). by apply flags_inv.
Qed.

(** ** The end *)

(** What is left after the process returned [code]: no descriptor, no block of
    memory, no buffer; it returns 0 only when neither service failed. *)
Record gone (code : Z) (p : process) : Prop := {
  gn_service : match pc_service p with Unallocated => True | Live _ => False | Freed s => ds_open s = [] end;
  gn_admin : match pc_admin p with
             | Unallocated => True
             | Live _ => False
             | Freed a => sv_open a = [] /\ sv_freed a ++ [wk_published (pc_worker p)] ≡ₚ seq 0 (sv_blocks a)
             end;
  gn_network : rt_network (wk_rt (pc_worker p)) = None;
  gn_buffers : forall id, ledger (rt_dpdk (wk_rt (pc_worker p))) id = 0;
  gn_code : code = 0 -> exists s a, pc_service p = Freed s /\ pc_admin p = Freed a /\ ds_failed s = false /\ sv_failed a = false
}.

Lemma admin_release_closes info a : admin_fds a -> Forall (fun c => cc_fd c < 0) (sv_clients a) -> sv_open (admin_release info a).1 = [].
Proof.
  intros H Hc. unfold admin_fds in H. apply Permutation_nil_r. cbn. apply close_fd_head, close_fd_head. rewrite H, app_nil_r.
  replace (sv_clients a ≫= connection_fds) with (@nil Z); [unfold admin_own; rewrite app_nil_r; apply Permutation_app_comm|].
  clear -Hc. induction Hc as [|c l H _ IH]; [done|]. cbn. rewrite <- IH. unfold connection_fds. destruct (Z.leb_spec 0 (cc_fd c)); [lia|done].
Qed.

Lemma quiet_blocks n a w : admin_inv (fun _ => 0) n a w -> quiet a -> sv_freed a ++ [wk_published w] ≡ₚ seq 0 (sv_blocks a).
Proof. intros Ha [H0 _]. destruct (iv_blocks _ _ _ _ Ha) as (l & Hf & Hb). destruct Hf; try (unfold state in *; lia); exact Hb. Qed.

(** What the releases expect. *)
Record closing (p : process) : Prop := {
  cl_service : exists s reqs resps, pc_service p = Live s /\ service_inv s reqs resps /\ live_clients s = O;
  cl_admin : match pc_admin p with
             | Unallocated => True
             | Live a => admin_fds a /\ quiet a /\ sv_freed a ++ [wk_published (pc_worker p)] ≡ₚ seq 0 (sv_blocks a)
             | Freed a => sv_open a = [] /\ sv_freed a ++ [wk_published (pc_worker p)] ≡ₚ seq 0 (sv_blocks a)
             end;
  cl_idle : idle (empty_books (wk_rt (pc_worker p))) [] (wk_rt (pc_worker p))
}.

Lemma shut_down_gone code files p : closing p ->
  (code = 0 -> exists s a, pc_service p = Live s /\ pc_admin p = Live a /\ ds_failed s = false /\ sv_failed a = false) ->
  gone code (shut_down code files p) /\ pc_phase (shut_down code files p) = Exited code.
Proof.
  intros [(s & reqs & resps & Es & Hs & Hl) Ha Hi] Hcode. unfold shut_down. set (p1 := drop_admin files p).
  assert (H1 : pc_service p1 = pc_service p /\ pc_worker p1 = pc_worker p) by (unfold p1, drop_admin; by destruct (pc_admin p)). destruct H1 as [E1 E2].
  unfold on_worker. rewrite E2. unfold drop_service at 1 2. cbn [pc_service set_pc_worker set_pc_phase pc_phase]. rewrite E1, Es. split; [|done]. split.
  - exact (release_closes s reqs resps (sf_service files) Hs Hl).
  - cbn. unfold p1, drop_admin. destruct (pc_admin p) as [|a|a] eqn:Ea; cbn; rewrite ?Ea; [done| |exact Ha]. destruct Ha as (Hf & [_ Hc] & Hb). split; [exact (admin_release_closes (sf_admin files) a Hf Hc)|exact Hb].
  - done.
  - exact (app_fini_ledger _ Hi).
  - intros ->. destruct (Hcode eq_refl) as (s' & a & Es' & Ea & Hf). rewrite Es in Es'. injection Es' as <-. exists (daemon_release (sf_service files) s).1, (admin_release (sf_admin files) a).1.
    split; [done|]. split; [|done]. cbn. unfold p1, drop_admin. by rewrite Ea.
Qed.

Lemma up_closing n s a p : pc_service p = Live s -> pc_admin p = Live a -> up n s a (pc_worker p) -> live_clients s = O -> quiet a -> closing p.
Proof.
  intros Es Ea H Hl Hq. destruct (up_service _ _ _ _ H) as (reqs & resps & Hs). split.
  - by exists s, reqs, resps.
  - rewrite Ea. split; [apply H|]. split; [done|]. eapply quiet_blocks; [apply H|done].
  - by eapply up_idle.
Qed.

(** ** Every state of the process *)

Definition phase_ok (ph : phase) (s : daemon_service) (a : admin_service) : Prop :=
  match ph with
  | Serving => True
  | AdminStopping => sv_stopping a = true
  | ServiceStopping => ds_stopping s = true /\ sv_done a = true
  | Draining _ => ds_done s = true /\ sv_done a = true
  | Aborting => ds_stopping s = true /\ quiet a
  | Exited _ => False
  end.

Definition process_ok (p : process) : Prop :=
  match pc_phase p with
  | Exited code => gone code p
  | ph => exists n s a, pc_service p = Live s /\ pc_admin p = Live a /\ up n s a (pc_worker p) /\ phase_ok ph s a
  end.

Lemma running_ok n s a p : pc_service p = Live s -> pc_admin p = Live a -> up n s a (pc_worker p) -> phase_ok (pc_phase p) s a -> process_ok p.
Proof. intros Es Ea H Hp. unfold process_ok. destruct (pc_phase p); try done; by exists n, s, a. Qed.

Lemma exited_ok code p : pc_phase p = Exited code -> gone code p -> process_ok p.
Proof. intros Ep H. unfold process_ok. by rewrite Ep. Qed.

Lemma main_turn_ok files p : process_ok p -> process_ok (main_turn files p).
Proof.
  intros H. unfold main_turn. unfold process_ok in H. destruct (pc_phase p) as [| | |start| |code] eqn:Ep; [..|exact (exited_ok code p Ep H)].
  all: destruct H as (n & s & a & Es & Ea & Hu & Hp); rewrite Es, Ea.
  - destruct (pc_signalled p || ds_failed s || sv_failed a).
    { apply (running_ok n s (set_sv_stopping true a)); try done. by apply stop_admin_up. }
    assert (H1 := service_progress_up n s a _ Hu). destruct (service_progress s (pc_worker p)) as [s1 w1]. destruct H1 as (H1 & _).
    assert (H2 := mail_progress_up n s1 a w1 H1). destruct (mail_progress a w1) as [a1 w2]. destruct H2 as (H2 & _).
    apply (running_ok n s1 a1); cbn; try done; [by apply poll_step_up|by rewrite Ep].
  - destruct (sv_done a) eqn:Ed.
    { apply (running_ok n (set_ds_stopping true s) a); try done. by apply stop_service_up. }
    assert (H2 := mail_progress_up n s a _ Hu). destruct (mail_progress a (pc_worker p)) as [a1 w2]. destruct H2 as (H2 & _ & Hst & _).
    apply (running_ok n s a1); cbn; try done; [by apply poll_step_up|rewrite Ep; cbn in *; congruence].
  - destruct (ds_done s) eqn:Ed.
    { destruct (timer_up n s a _ Hu) as [H1 _]. destruct (timer (pc_worker p)) as [start w1]. apply (running_ok n s a); try done. cbn. by destruct Hp. }
    assert (H1 := service_progress_up n s a _ Hu). destruct (service_progress s (pc_worker p)) as [s1 w1]. destruct H1 as (H1 & Hsame & _). unfold same_sessions, flags in Hsame. injection Hsame as _ _ Hfl _ _.
    apply (running_ok n s1 a); cbn; try done; [by apply poll_step_up|]. rewrite Ep. cbn in *. split; [|apply Hp]. destruct Hp. congruence.
  - destruct Hp as [Hd Hq]. destruct (timer_up n s a _ Hu) as [H1 Hb1]. destruct (timer (pc_worker p)) as [now w1]. cbn [snd] in *. destruct (_ <? _).
    { apply (running_ok n s a); try done; [by apply poll_step_up|]. cbn. by rewrite Ep. }
    assert (H2 : up n s a (on_rt (neighbour_fini submit) w1)).
    { apply runtime_up; [done| |apply neighbour_fini_typed, H1]. by apply (neighbour_fini_own (OW := stack_ownership _)); [done|eapply up_idle]. }
    destruct (shut_down_gone (b2z (ds_failed s || sv_failed a)) files (on_worker (on_rt (neighbour_fini submit)) (set_pc_worker w1 p))) as [Hg Hph].
    + eapply up_closing; [exact Es|exact Ea|exact H2|by apply Hu|by apply Hu].
    + intros Hz. exists s, a. split; [done|]. split; [done|]. by destruct (ds_failed s), (sv_failed a).
    + by eapply exited_ok.
  - destruct Hp as [Hst Hq]. destruct (ds_done s) eqn:Ed.
    { destruct (shut_down_gone 1 files p) as [Hg Hph]; [|done|by eapply exited_ok]. eapply up_closing; [exact Es|exact Ea|exact Hu|by apply Hu|done]. }
    assert (H1 := service_progress_up n s a _ Hu). destruct (service_progress s (pc_worker p)) as [s1 w1]. destruct H1 as (H1 & Hsame & _). unfold same_sessions, flags in Hsame. injection Hsame as _ _ Hfl _ _.
    apply (running_ok n s1 a); cbn; try done; [by apply poll_step_up|]. rewrite Ep. cbn. split; [congruence|done].
Qed.

Lemma control_thread_ok r p : Forall (fun conn => 0 <= cn_fd conn) (ri_accept r) -> process_ok p -> process_ok (control_thread r p).
Proof.
  intros Hr H. unfold control_thread. assert (H' := H). unfold process_ok in H'. destruct (pc_phase p) as [| | |start| |code] eqn:Ep; try exact H.
  all: destruct H' as (n & s & a & Es & Ea & Hu & Hp); rewrite Es; destruct (ds_done s) eqn:Ed; [exact H|]; destruct (control_up n s a _ r Hu Hr Ed) as [H1 H2];
    apply (running_ok n (control_round r s).1 a); try done; cbn; rewrite Ep; cbn in *; tauto.
Qed.

Lemma admin_thread_ok e p : input_ok e -> process_ok p -> process_ok (admin_thread e p).
Proof.
  intros He H. unfold admin_thread. assert (H' := H). unfold process_ok in H'. destruct (pc_phase p) as [| | |start| |code] eqn:Ep; try exact H.
  all: destruct H' as (n & s & a & Es & Ea & Hu & Hp); rewrite Es, Ea; destruct (sv_done a) eqn:Ed; [exact H|]; assert (H1 := admin_up n s a _ e Hu He Ed);
    apply (running_ok n s (run_round s e a).1); try done; cbn; rewrite Ep; cbn in *; try done.
  by destruct (stop_round_head _ n a _ (s, e) (up_admin _ _ _ _ Hu) Hp).
Qed.

(** ** Start *)

(** The first configuration has the C types of its fields. *)
Lemma prepare_same c ports c' : net_config_prepare c ports = (0, c') ->
  (nc_addresses c', nc_routes c', nc_rules c', nc_acls c') = (nc_addresses c, nc_routes c, nc_rules c, nc_acls c).
Proof.
  unfold net_config_prepare. cbv zeta. destruct (truth _) eqn:Et; [intros [= H _]; apply truth_true in Et; done|]. destruct (_ <=? 2); by intros [= <-].
Qed.

Lemma net_config_init_typed ok rt rt' c : net_config_init ok rt = (0, rt') -> rt_network rt' = Some c ->
  Forall (fun p => is_u32 (pt_ip_be p) /\ is_u32 (pt_prefix_len p) /\ is_u32 (pt_id p)) (rt_ports rt) ->
  Forall (fun r => is_u32 (re_prefix_be r) /\ is_u32 (re_prefix_len r) /\ is_u32 (re_gateway_be r) /\ is_u32 (re_netif_id r)) (rt_routes rt) -> net_typed c.
Proof.
  unfold net_config_init. destruct ok; [|done]. cbn [negb]. cbv zeta. set (c0 := set_nc_routes _ _).
  destruct (net_connected_rebuild c0) as [rc1 c1] eqn:E1. destruct (truth rc1) eqn:Er1; [rewrite Er1; by intros [= -> _]|].
  apply truth_false in Er1 as ->. destruct (net_config_prepare c1 _) as [rc2 c2] eqn:E2. destruct (truth rc2) eqn:Er2; [by intros [= -> _]|].
  apply truth_false in Er2 as ->. intros [= <-] [= <-] Hp Hr. apply prepare_same in E2 as [= Ea Ero Eru Eac].
  destruct (net_connected_rebuild_ok _ _ E1) as (Hreb & Hc1 & _). unfold net_typed. rewrite Ea, Ero, Eru, Eac.
  assert (Ha : Forall address_typed (nc_addresses c0)) by (apply Forall_fmap; eapply Forall_impl; [exact Hp|]; by intros p (? & ? & ?)).
  rewrite Hc1. cbn [nc_addresses nc_rules nc_acls nc_routes set_nc_routes_indexed set_nc_routes]. split; [exact Ha|]. split; [|split; constructor].
  eapply rebuilt_typed; [exact Hreb| |exact Ha]. apply Forall_bfilter, Forall_fmap, Forall_drop. eapply Forall_impl; [exact Hr|]. intros r (? & ? & ? & ?).
  unfold route_typed. cbn. split_and!; try done; unfold is_u32, NET_TABLE_MAIN; lia.
Qed.

(** The ports and routes [app_init] leaves. *)
Lemma app_init_parts progname conf rt : app_init progname conf zero_app_runtime = (0, rt) ->
  ports_upto conf (length (cf_interfaces conf)) (rt_ports rt) /\ route_config_init conf [] = (0, rt_routes rt) /\ rt_network rt = None.
Proof.
  intros H. unfold app_init in H. destruct (_ <? 0); [done|]. set (rtz := _ |> set_rt_ipv4_forwarding _) in H. destruct (port_init conf rtz) as [rc rt1] eqn:Ep.
  destruct (rc <? 0) eqn:Er; [done|]. assert (rc = 0) as -> by (unfold port_init in Ep; repeat case_match; injection Ep as <- _; done).
  apply port_init_ok in Ep as (Hu & Hro & Hrt); [|done]. destruct (graph_init_ok rt1) as (g & Hg & _). rewrite Hg in H. unfold socket_subsystem_init in H.
  change (0 <? 0) with false in H. cbv beta iota zeta in H.
  destruct (truth (ss_capacity _)); [cbv iota in H; change (- EBUSY <? 0) with true in H; discriminate H|]. change (0 <? 0) with false in H. cbv iota in H. injection H as <-.
  cbn [rt_ports rt_routes rt_network set_rt_graph set_rt_sockets set_rt_tcp_timer_next]. split; [done|]. split; [done|]. by rewrite Hrt.
Qed.

Lemma configured_typed conf table : Config.config_valid conf -> route_config_init conf [] = (0, table) ->
  Forall (fun r => is_u32 (re_prefix_be r) /\ is_u32 (re_prefix_len r) /\ is_u32 (re_gateway_be r) /\ is_u32 (re_netif_id r)) table.
Proof.
  intros [_ [_ Hn] Hi _ _ _ Hr _] H. apply route_config_init_ok in H as [(st & -> & Hst & _ & _) _]. unfold NETIF_MAX in Hn.
  assert (Hid : forall i (x : netif_config), cf_interfaces conf !! i = Some x -> is_u32 (Z.of_nat i)) by (intros i x Hx; apply lookup_lt_Some in Hx; unfold is_u32; lia).
  assert (Hent : forall ip len id g, is_u32 ip -> 0 <= len <= 32 -> is_u32 id -> is_u32 g -> let r := entry_of ip len id g in
    is_u32 (re_prefix_be r) /\ is_u32 (re_prefix_len r) /\ is_u32 (re_gateway_be r) /\ is_u32 (re_netif_id r)).
  { intros ip len id g Hip Hlen Hid' Hg. cbn. split; [by apply land_u32|]. split; [unfold is_u32; lia|done]. }
  apply Forall_app_2.
  - apply Forall_fmap, Forall_forall. intros [i x] Hx%indexed_elem. destruct Hx as [Hx0 Hx]. assert (Hlt := Hid _ _ Hx). rewrite Forall_lookup in Hi. destruct (Hi _ _ Hx) as (_ & _ & (? & ? & _)).
    apply Hent; try done; cbn in *. unfold is_u32 in *. lia.
  - clear Hi Hn. induction Hst as [|r e rs es He Hst IH]; [done|]. apply Forall_cons in Hr as [(_ & Hl & Hp & Hg & _) Hr]. constructor; [|by apply IH].
    destruct He as (id & x & Hx & _ & _ & ->). apply Hent; try done. by eapply Hid.
Qed.

Lemma capacity_bound text limit n : capacity text limit = Some n -> 1 <= n <= limit.
Proof.
  unfold capacity. destruct (number text limit) as [v|] eqn:En; [|done]. apply number_range in En. destruct (negb (truth v)) eqn:E0; [done|].
  intros [= <-]. apply negb_false_iff, truth_true in E0. lia.
Qed.

Definition settings_ok (o : settings) : Prop := 1 <= se_max_clients o <= DAEMON_CLIENT_MAX /\ 1 <= se_max_sockets o <= PS_SOCKET_MAX.

Lemma parse_options_ok k : forall args o o', (length args <= k)%nat -> settings_ok o -> parse_options args o = Some o' -> settings_ok o'.
Proof.
  induction k as [|k IH]; intros [|name [|value args]] o o' Hk Ho H; cbn [length] in Hk; try lia; cbn [parse_options] in H; try done; try (by injection H as <-).
  repeat match type of H with context[if ?b then _ else _] => destruct b end; try done;
    try (destruct (capacity _ _) as [v|] eqn:Ec; [|done]; apply capacity_bound in Ec);
    (eapply IH; [|idtac|exact H]; [lia|]); destruct Ho; by split.
Qed.

Lemma arguments_ok argv o path : arguments argv = Some (o, path) -> settings_ok o.
Proof.
  unfold arguments. destruct argv as [|name [|file args]]; [done..|]. destruct (parse_options args default_settings) as [o'|] eqn:Ep; [|done]. cbn.
  destruct (admin_path o'); [|done]. intros [= <- _]. eapply parse_options_ok; [reflexivity| |exact Ep]. split; cbv; by split.
Qed.

(** A prepared service has no sessions. *)
Lemma prepared_sessions path max_clients max_sockets e rc s : daemon_prepare path max_clients max_sockets e = (rc, s) -> live_clients s = O /\ flags s = (false, false).
Proof.
  intros H. assert (Hs : ds_clients s = ds_clients zero_service /\ flags s = (false, false)).
  { unfold daemon_prepare, Control.listen_socket in H. cbv zeta in H. repeat case_match; simplify_eq; done. }
  destruct Hs as [Hc Hf]. split; [|done]. apply live_zero. intros i. unfold client. rewrite Hc, nth_lookup.
  destruct (ds_clients zero_service !! i) as [c|] eqn:Ei; [|done]. apply lookup_replicate in Ei as [-> _]. done.
Qed.

Lemma prepared_admin path e rc a : admin_prepare path e = (rc, a) -> admin_fds a /\ quiet a /\ (sv_freed a, sv_blocks a, sv_done a) = ([], 1%nat, false).
Proof.
  intros H. destruct (admin_prepare_fresh _ _ _ _ H) as [(Em & _ & _ & Eb & Ef)%handover_fields Hc].
  assert (Hq : quiet a). { split; [unfold state; by rewrite Em|]. rewrite Hc. apply Forall_replicate. cbn. lia. }
  assert (Hd : sv_done a = false /\ sv_open a ≡ₚ admin_own a).
  { unfold admin_prepare in H. destruct (_ || _); [by injection H as <- <-|]. cbv zeta in H. destruct (Z.ltb_spec (pi_lock e) 0); [by injection H as <- <-|].
    assert (Hlock : (if 0 <=? pi_lock e then [pi_lock e] else []) = [pi_lock e]) by (destruct (Z.leb_spec 0 (pi_lock e)); [done|lia]).
    destruct (truth _); [injection H as <- <-; unfold admin_own; cbn; by rewrite Hlock|]. destruct (truth _); [injection H as <- <-; unfold admin_own; cbn; by rewrite Hlock|].
    unfold listen_socket in H. destruct (Z.ltb_spec (pi_socket e) 0); [injection H as <- <-; unfold admin_own; cbn; by rewrite Hlock|].
    assert (Hsock : (if 0 <=? pi_socket e then [pi_socket e] else []) = [pi_socket e]) by (destruct (Z.leb_spec 0 (pi_socket e)); [done|lia]).
    cbv zeta in H. destruct (pi_bind e); [|destruct (pi_bound e); [|destruct (pi_listen e)]]; injection H as <- <-; (split; [done|]); unfold admin_own; cbn; rewrite Hlock, Hsock; apply perm_swap. }
  destruct Hd as [Hd Ho]. split; [|split; [done|]].
  - unfold admin_fds. rewrite Ho, Hc. replace (sv_clients fresh_service ≫= connection_fds) with (@nil Z) by done. by rewrite app_nil_r.
  - by rewrite Eb, Ef, Hd.
Qed.

(** ** A failed [app_init] *)

Lemma configure_ports_writes conf l : forall rt rc rt', fold_rc (configure_port conf) l rt = (rc, rt') -> exists ports, rt' = set_rt_ports ports rt.
Proof.
  induction l as [|i l IH]; intros rt rc rt' H; cbn [fold_rc] in H; [injection H as _ <-; exists (rt_ports rt); by destruct rt|].
  destruct (configure_port conf rt i) as [rc1 rt1] eqn:Ec. assert (H1 : exists ports, rt1 = set_rt_ports ports rt).
  { unfold configure_port in Ec. cbv zeta in Ec. destruct (rte_eth_dev_get_port_by_name _) as [id|]; [|injection Ec as _ <-; exists (rt_ports rt); by destruct rt].
    destruct (netif_by_dpdk_port rt id); [injection Ec as _ <-; exists (rt_ports rt); by destruct rt|]. destruct (set_up_port _ _ _ _) as [rc2 [port desc]].
    destruct (truth rc2); injection Ec as _ <-; by eexists. }
  destruct H1 as [ports1 ->]. destruct (truth rc1); [injection H as _ <-; by exists ports1|]. destruct (IH _ _ _ H) as [ports2 ->]. by exists ports2.
Qed.

Lemma port_init_writes conf rt rc rt' : port_init conf rt = (rc, rt') -> exists ports routes, rt' = (rt |> set_rt_ports ports |> set_rt_routes routes).
Proof.
  assert (Hsame : forall r, exists ports routes, r = (r |> set_rt_ports ports |> set_rt_routes routes)) by (intros r; exists (rt_ports r), (rt_routes r); by destruct r).
  intros H. unfold port_init in H. cbv zeta in H. destruct (_ || _); [injection H as _ <-; apply Hsame|].
  destruct (negb _); [injection H as _ <-; match goal with |- exists _ _, set_rt_ports ?x _ = _ => exists x, (rt_routes rt) end; by destruct rt|].
  destruct (fold_rc _ _ _) as [rc1 rt1] eqn:Ef. apply configure_ports_writes in Ef as [ports ->].
  destruct (truth rc1); [injection H as _ <-; exists ports, (rt_routes rt); by destruct rt|]. destruct (route_config_init _ _) as [rc2 routes].
  injection H as _ <-. by exists ports, routes.
Qed.

Definition nothing_queued (rt : app_runtime) : Prop := Forall (fun q => pn_packets q = []) (rt_pending_neighbours rt).

Lemma neighbour_fini_nothing rt : nothing_queued rt -> rt_dpdk (neighbour_fini submit rt) = rt_dpdk rt.
Proof.
  unfold neighbour_fini. generalize pending_slots as l. intros l. revert rt. induction l as [|i l IH]; intros rt H; [done|]. cbn [foldl].
  assert (Hp : pn_packets (pending_at rt i) = []).
  { unfold pending_at. rewrite nth_lookup. destruct (rt_pending_neighbours rt !! i) as [q|] eqn:Eq; [|done]. by apply (proj1 (Forall_lookup _ _) H i). }
  assert (Hd : discard_pending submit i DROP_NEIGHBOUR_CANCELLED 0 rt = (set_pending i zero_pending_neighbour rt |> count_packets NODE_DROP (pending_count (pending_at rt i))
    |> count_drops NODE_DROP (pending_count (pending_at rt i)) |> count_drops NODE_ETH_OUTPUT (pending_count (pending_at rt i)) |> count_reason (drop_index DROP_NEIGHBOUR_CANCELLED) (pending_count (pending_at rt i)))).
  { unfold discard_pending. cbv zeta. by rewrite Hp. }
  rewrite Hd, IH; [done|]. unfold nothing_queued in *. cbn. by apply Forall_insert.
Qed.

Lemma app_fini_nothing rt : nothing_queued rt -> rt_dpdk (app_fini rt) = rt_dpdk rt /\ rt_network (app_fini rt) = None.
Proof. intros H. split; [|done]. rewrite app_fini_dpdk. by rewrite neighbour_fini_nothing. Qed.

Lemma app_init_failed progname conf rc rt : app_init progname conf zero_app_runtime = (rc, rt) -> rc <> 0 -> rt_network rt = None /\ rt_dpdk rt = [].
Proof.
  intros H Hrc. unfold app_init in H. cbv zeta in H. destruct (_ <? 0); [by injection H as _ <-|]. set (rtz := zero_app_runtime |> _ |> _) in H.
  destruct (port_init conf rtz) as [rc1 rt1] eqn:Ep. apply port_init_writes in Ep as (ports & routes & E1).
  assert (Hq : nothing_queued rt1) by (rewrite E1; apply Forall_replicate; done). assert (Hd : rt_dpdk rt1 = []) by (by rewrite E1).
  destruct (rc1 <? 0); [injection H as _ <-; destruct (app_fini_nothing rt1 Hq) as [-> ->]; done|].
  destruct (graph_init_ok rt1) as (g & Hg & _). rewrite Hg in H. change (0 <? 0) with false in H. cbv beta iota in H.
  unfold socket_subsystem_init in H. assert (Hc : ss_capacity (rt_sockets (set_rt_graph g rt1)) = 0) by (by rewrite E1). rewrite Hc in H.
  change (truth 0) with false in H. cbv iota in H. change (0 <? 0) with false in H. injection H as <- _. done.
Qed.

(** ** The start establishes the invariant *)

Lemma ready_ports conf rt : Config.config_valid conf -> ports_upto conf (length (cf_interfaces conf)) (rt_ports rt) ->
  Z.of_nat (length (rt_ports rt)) <= NETIF_MAX /\ NoDup (port_ids (rt_ports rt)) /\ Forall (tracks []) (rt_ports rt) /\
  Forall (fun p => is_u32 (pt_ip_be p) /\ is_u32 (pt_prefix_len p) /\ is_u32 (pt_id p)) (rt_ports rt).
Proof.
  intros [_ [_ Hn] Hi _ _ _ _ _] [Hl Hr _ Hd]. rewrite Hl. split; [done|].
  assert (Hready : forall i p, rt_ports rt !! i = Some p -> exists x, cf_interfaces conf !! i = Some x /\ port_ready x i p).
  { intros i p Hp. assert (Hlt := lookup_lt_Some _ _ _ Hp). destruct (lookup_lt_is_Some_2 (cf_interfaces conf) i) as [x Hx]; [lia|]. exists x. split; [done|]. apply Hr; [lia|done..]. }
  split; [|split].
  - apply NoDup_alt. intros i j v Hiv Hjv. unfold port_ids in *. rewrite list_lookup_fmap in Hiv, Hjv. apply fmap_Some in Hiv as (p & Hp & ->). apply fmap_Some in Hjv as (q & Hq & Eq).
    destruct (Hready _ _ Hp) as (? & _ & (_ & _ & _ & Hc & _)). destruct (Hready _ _ Hq) as (? & _ & (_ & _ & _ & Hc' & _)). by eapply Hd.
  - apply Forall_lookup. intros i p Hp. destruct (Hready _ _ Hp) as (x & _ & (_ & _ & _ & _ & Hup & _)). unfold port_up in Hup. apply andb_true_iff in Hup as [H1 H2].
    split; [done|]. apply negb_true_iff in H2. congruence.
  - apply Forall_lookup. intros i p Hp. destruct (Hready _ _ Hp) as (x & Hx & (-> & -> & -> & _)). rewrite Forall_lookup in Hi. destruct (Hi _ _ Hx) as (_ & _ & (? & ? & _)).
    apply lookup_lt_Some in Hx. unfold NETIF_MAX in Hn. split_and!; try done; unfold is_u32; lia.
Qed.

Lemma published_start conf progname rt ok rt' path e a s reqs resps : Config.config_valid conf -> app_init progname conf zero_app_runtime = (0, rt) ->
  net_config_init ok rt = (0, rt') -> admin_prepare path e = (0, a) -> service_inv s reqs resps -> live_clients s = O ->
  up (length (rt_ports rt)) s a (set_wk_rt rt' zero_worker).
Proof.
  intros Hv Hinit Hnet Hprep Hs Hl. destruct (app_init_parts _ _ _ Hinit) as (Hu & Hro & _). destruct (ready_ports conf rt Hv Hu) as (Hn & Hnd & Htr & Hty).
  assert (Hidle := app_init_idle progname conf zero_app_runtime rt eq_refl Hinit).
  destruct (net_config_init_ok _ _ _ Hnet) as (c & -> & Hg & Hval & _ & Hix & _).
  assert (Htc := net_config_init_typed _ _ _ c Hnet eq_refl Hty (configured_typed _ _ Hv Hro)).
  destruct (prepared_admin _ _ _ _ Hprep) as (Hf & Hq & [= _ _ Hd]).
  assert (Hla : launched (fun _ => 0) (length (rt_ports rt)) a (set_wk_rt (set_rt_network (Some c) rt) zero_worker)).
  { split; [by exists path, e| |done| |done].
    - split; [|by split|by eexists]. unfold held. cbn [wk_rt set_wk_rt]. by eapply idle_rebase.
    - split; [by apply net_config_validate_iff|exact Htc|unfold published; cbn; rewrite Hg; done|exact Hix]. }
  split; try done.
  - by exists reqs, resps.
  - cbn. apply (sockets_typed_same rt); [done|]. by eapply app_init_typed.
  - by apply launched_inv.
Qed.

Lemma start_threads_ok n o e s a p : pc_service p = Live s -> pc_admin p = Live a -> up n s a (pc_worker p) -> live_clients s = O -> quiet a ->
  process_ok (start_threads o e p).
Proof.
  intros Es Ea Hu Hl Hq. unfold start_threads. cbv zeta.
  set (p1 := on_worker (fun w => let '(now, w) := timer w in set_wk_admin_started now w) p). set (p2 := on_worker (on_rt _) p1).
  assert (H1 : up n s a (pc_worker p1)).
  { unfold p1, on_worker. cbn [pc_worker set_pc_worker]. destruct (timer_up n s a _ Hu) as [H1 _]. destruct (timer (pc_worker p)) as [now w]. cbn [snd] in H1.
    destruct H1 as [? ? Ha ? ? ? ?]. split; try done. apply (change_worker _ n a w); [done| |done|done|apply Ha]. by destruct (iv_worker _ _ _ _ Ha) as [? [] ?]. }
  assert (H2 : up n s a (pc_worker p2)).
  { apply runtime_up; [done| |apply (entries_typed (wk_rt (pc_worker p1))); [done|apply H1]]. set (rt := wk_rt (pc_worker p1)).
    assert (Hi : idle (mk_books (fun _ => 0) (base rt)) [] rt) by (by eapply up_idle). clearbody rt.
    exact (idle_rebase [] (fun _ => 0) (base rt) rt (set_rt_sockets (set_ss_capacity (se_max_sockets o) (rt_sockets rt)) rt) Hi eq_refl eq_refl eq_refl eq_refl eq_refl). }
  assert (Es2 : pc_service p2 = Live s) by done. assert (Ea2 : pc_admin p2 = Live a) by done. clearbody p2. clear p1 H1.
  destruct (truth (daemon_start _)).
  { destruct (shut_down_gone 1 (bo_files e) p2) as [Hg Hph]; [by eapply up_closing|done|by eapply exited_ok]. }
  destruct (truth (admin_start _)); [|by apply (running_ok n s a)].
  rewrite Es2. apply (running_ok n (set_ds_stopping true s) a); try done. by apply stop_service_up.
Qed.

Lemma start_admin_ok conf progname rt o path e s reqs resps p : Config.config_valid conf -> app_init progname conf zero_app_runtime = (0, rt) ->
  pc_service p = Live s -> pc_admin p = Unallocated -> pc_worker p = set_wk_rt rt zero_worker -> service_inv s reqs resps -> live_clients s = O ->
  process_ok (start_admin o path e p).
Proof.
  intros Hv Hinit Es Ea Ew Hs Hl. assert (Hidle := app_init_idle progname conf zero_app_runtime rt eq_refl Hinit).
  assert (Hexit : forall q, closing q -> process_ok (shut_down 1 (bo_files e) q)) by (intros q Hq; destruct (shut_down_gone 1 (bo_files e) q Hq) as [Hg Hph]; [done|by eapply exited_ok]).
  unfold start_admin. destruct (negb _).
  { apply Hexit. split; [by exists s, reqs, resps|by rewrite Ea|by rewrite Ew]. }
  rewrite Ew. cbn [wk_rt set_wk_rt]. destruct (net_config_init (bo_config_calloc e) rt) as [rc rt'] eqn:En. destruct (truth rc) eqn:Er; cbn [negb].
  { rewrite Er. cbn [negb]. assert (rt' = rt) as ->.
    { unfold net_config_init in En. repeat case_match; injection En as <- <-; done. }
    rewrite Er. apply Hexit. split; [by exists s, reqs, resps|cbn; by rewrite Ew|by cbn]. }
  apply truth_false in Er as ->. destruct (admin_prepare path (bo_admin_prepare e)) as [rc a] eqn:Ep. destruct (prepared_admin _ _ _ _ Ep) as (Hf & Hq & [= Hb1 Hb2 _]).
  set (p1 := set_pc_admin (Live a) (on_worker (set_wk_rt rt') p)). assert (Ew1 : pc_worker p1 = set_wk_rt rt' zero_worker) by (unfold p1, on_worker; cbn; by rewrite Ew).
  assert (Hclose : closing p1).
  { destruct (net_config_init_ok _ _ _ En) as (c & -> & _). split; [by exists s, reqs, resps| |].
    - cbn. rewrite Ew, Hb1, Hb2. done.
    - rewrite Ew1. cbn [wk_rt set_wk_rt]. by eapply idle_rebase. }
  destruct (negb (truth rc)) eqn:Er; [|rewrite <- (negb_involutive (truth rc)), Er; by apply Hexit].
  apply negb_true_iff, truth_false in Er as ->. destruct (truth _); [by apply Hexit|].
  eapply start_threads_ok; [exact Es|done| |exact Hl|exact Hq]. rewrite Ew1. by eapply published_start.
Qed.

Lemma drop_service_gone s reqs resps files p : pc_phase p = Exited 1 -> pc_service p = Live s -> pc_admin p = Unallocated -> service_inv s reqs resps -> live_clients s = O ->
  rt_network (wk_rt (pc_worker p)) = None -> rt_dpdk (wk_rt (pc_worker p)) = [] -> process_ok (drop_service files p).
Proof.
  intros Ep Es Ea Hs Hl Hn Hd. unfold drop_service. rewrite Es. apply (exited_ok 1); [done|]. split; try done.
  - exact (release_closes s reqs resps (sf_service files) Hs Hl).
  - cbn. by rewrite Ea.
  - cbn. by rewrite Hd.
Qed.

Lemma main_start_ok argv e : process_ok (main_start argv e).
Proof.
  assert (Hno : forall code, code <> 0 -> process_ok (set_pc_phase (Exited code) no_process)) by (intros code Hc; apply (exited_ok code); [done|]; by split).
  unfold main_start. destruct (arguments argv) as [[o path]|] eqn:Ea; [|by apply Hno]. apply arguments_ok in Ea. destruct (bo_file e) as [f|]; [|by apply (Hno 1)].
  destruct (app_config_load f) as [|conf] eqn:Ec; [by apply (Hno 1)|]. apply config_load_valid in Ec. destruct (negb _); [by apply (Hno 1)|].
  destruct (daemon_prepare _ _ _ _) as [rc s] eqn:Ed. assert (Hl := proj1 (prepared_sessions _ _ _ _ _ _ Ed)).
  apply prepare_inv in Ed; [|destruct Ea; lia]. cbv zeta. destruct (truth rc); [by eapply drop_service_gone|]. destruct (bo_affinity e) as [allowed|]; [|by eapply drop_service_gone].
  destruct (app_init _ conf zero_app_runtime) as [rc1 rt] eqn:Ei. destruct (truth rc1) eqn:Er.
  - apply truth_true in Er. destruct (app_init_failed _ _ _ _ Ei Er) as [Hn Hd]. by eapply drop_service_gone.
  - apply truth_false in Er as ->. by eapply start_admin_ok.
Qed.
(** * Runs *)

(** The threads interleave round by round, and a signal may come at any time. *)
Inductive main_step : process -> process -> Prop :=
| step_signal p : main_step p (request_stop p)
| step_turn files p : main_step p (main_turn files p)
| step_control r p : Forall (fun conn => 0 <= cn_fd conn) (ri_accept r) -> main_step p (control_thread r p)
| step_admin e p : input_ok e -> main_step p (admin_thread e p).

Lemma request_stop_ok p : process_ok p -> process_ok (request_stop p).
Proof. unfold process_ok. change (pc_phase (request_stop p)) with (pc_phase p). destruct (pc_phase p); try done. by intros [? ? ? ? ?]. Qed.

Lemma main_step_ok p p' : main_step p p' -> process_ok p -> process_ok p'.
Proof. intros [p0|files p0|r p0 Hr|e p0 He]; [apply request_stop_ok|by apply main_turn_ok|by apply control_thread_ok|by apply admin_thread_ok]. Qed.

Lemma main_reachable_ok argv e p : rtc main_step (main_start argv e) p -> process_ok p.
Proof.
  intros H. assert (H0 := main_start_ok argv e). revert H0. induction H as [p|p p1 p2 Hs _ IH]; [done|]. intros H0. by apply IH, (main_step_ok p).
Qed.

(** ** Rounds until the end *)

(** What the kernel gives the two threads in a round. *)
Record slot : Type := mk_slot { sl_admin : admin_input; sl_control : round_input; sl_files : socket_files }.
Definition slot_ok (x : slot) : Prop := input_ok (sl_admin x) /\ Forall (fun conn => 0 <= cn_fd conn) (ri_accept (sl_control x)).

(** Each thread gets to run: a round of each of the two others for four of the
    main one, which takes at most 16 of up to 64 requests in each. *)
Definition fair_round (p : process) (x : slot) : process :=
  Nat.iter 4 (main_turn (sl_files x)) (control_thread (sl_control x) (admin_thread (sl_admin x) p)).























(** Rounds are steps. *)
Lemma turns_reached files j p : rtc main_step p (Nat.iter j (main_turn files) p).
Proof. induction j as [|j IH]; [apply rtc_refl|]. eapply rtc_r; [exact IH|apply step_turn]. Qed.

Lemma fair_round_reached p x : slot_ok x -> rtc main_step p (fair_round p x).
Proof. intros [H1 H2]. eapply rtc_l; [by apply step_admin|]. eapply rtc_l; [by apply step_control|]. apply turns_reached. Qed.

Lemma fair_rounds_reached xs : forall p, Forall slot_ok xs -> rtc main_step p (foldl fair_round p xs).
Proof. induction xs as [|x xs IH]; intros p Hx; [apply rtc_refl|]. apply Forall_cons in Hx as [Hx Hxs]. etrans; [by apply fair_round_reached|by apply IH]. Qed.

(** * Theorems *)

(** C3: however a run of the daemon ends, from the arguments it was given, through
    whatever the kernel answered while it came up, to any interleaving of turns,
    thread rounds and signals, nothing is left when [main] returns: both services
    are freed, without an open descriptor, every configuration on the heap has
    been freed, every packet buffer has gone back, and the exit code 0 means that
    neither service had failed. *)
Theorem main_leaves_nothing argv e p code : rtc main_step (main_start argv e) p -> pc_phase p = Exited code -> gone code p.
Proof. intros H Ep. apply main_reachable_ok in H. unfold process_ok in H. by rewrite Ep in H. Qed.

End process.

(** A daemon with one client is stopped by a signal. *)
Module ProcessSample.
#[local] Existing Instance Conservation.Sample.dpdk.
#[local] Existing Instance Conservation.Sample.ethdev.
#[local] Instance laws : DpdkLaws := sim_laws _.
#[local] Existing Instance WorkerSample.nic.

Definition text : string := String.concat SampleConfig.eol ["[interface]"; "pmd=tap"; "device=tap0"; "ip=10.0.0.1/24"; ""]%string.
Definition argv : list string := ["netstack"; "router.conf"; "--max-clients"; "4"; "--socket"; ControlSpec.Sample.path]%string.
Definition no_files : socket_files := mk_socket_files None None.
Definition answers : boot :=
  mk_boot (Some (mk_file text false)) true ControlSpec.Sample.answers (Some {[0; 1]}) true true ControlSample.system None 0 0 no_files.
Definition started : process := main_start argv answers.
Definition client_connected : process := main_turn no_files (control_thread ControlSpec.Sample.connects started).
Definition signalled : process := request_stop client_connected.
Definition quiet_slot : slot := mk_slot ControlSample.idle_input ControlSpec.Sample.idle no_files.
Definition joined : process := foldl fair_round signalled (replicate 8 quiet_slot).
Definition ended : process := Nat.iter 400 (main_turn no_files) joined.

Example one_client : match pc_service client_connected with Live s => live_clients s | _ => O end = 1%nat.
Proof. vm_compute. reflexivity. Qed.

Lemma quiet_slot_ok : slot_ok quiet_slot.
Proof. split; [split; [constructor|]|constructor]. intros i. exact I. Qed.

Lemma signalled_reached : rtc main_step started signalled.
Proof.
  apply (rtc_l _ _ (control_thread ControlSpec.Sample.connects started)); [apply step_control; repeat constructor; cbn; lia|].
  apply (rtc_l _ _ client_connected); [apply step_turn|]. apply (rtc_l _ _ signalled); [apply step_signal|apply rtc_refl].
Qed.

Lemma joined_reached : rtc main_step started joined.
Proof. transitivity signalled; [exact signalled_reached|]. unfold joined. apply fair_rounds_reached, (Forall_replicate slot_ok), quiet_slot_ok. Qed.

Lemma ended_reached : rtc main_step started ended.
Proof. transitivity joined; [exact joined_reached|]. unfold ended. apply turns_reached. Qed.

Lemma main_leaves_nothing_witness : pc_phase ended = Exited 0 /\ gone 0 ended.
Proof.
  assert (H : pc_phase ended = Exited 0) by (vm_compute; reflexivity). split; [exact H|].
  exact (main_leaves_nothing argv answers ended 0 ended_reached H).
Defined.

End ProcessSample.
