(* ===== verification/Wire.v ===== *)
(** The packets of the traffic benchmarks, [bench/wire.c] and [bench/wire.h]: the
    frames the generator builds, the check the receiver makes of them, and the
    options both are started with.  [getopt_long] is the list of the options it
    finds and whether an argument was left over.  A duration is the number of
    nanoseconds the programs make of it; the floating point parser that gives it
    is an argument. *)
From Stdlib Require Import Ascii.
From S2P Require Import Prelude.
From S2P Require Import Text.
From S2P Require Import AdminParse.

Definition BENCH_MAGIC : Z := 1347633713.
Definition BENCH_BATCH : Z := 64.
Definition BENCH_FRAME_MAX : Z := 1514.
Definition BENCH_TAG_SIZE : nat := 16.

Record options : Type := mk_options {
  op_interface : string;
  op_output : string;
  op_pcap : string;
  op_source_mac : list Z;
  op_destination_mac : list Z;
  op_source_ip : Z;
  op_destination_ip : Z;
  op_run : Z;
  op_seed : Z;
  op_flows : Z;
  op_destinations : Z;
  op_stride : Z;
  op_pattern : Z;
  op_frame_size : Z;
  op_source_port : Z;
  op_destination_port : Z;
  op_ttl : Z;
  op_probe_run : Z;
  op_drop_mod : Z;
  op_drop_rem : Z;
  op_rate : Z;
  op_sequence_limit : Z;
  op_duration : Z;
  op_arp : bool;
  op_echo : bool
}.
Definition set_op_interface (v : string) (r : options) : options := mk_options v (op_output r) (op_pcap r) (op_source_mac r) (op_destination_mac r) (op_source_ip r) (op_destination_ip r) (op_run r) (op_seed r) (op_flows r) (op_destinations r) (op_stride r) (op_pattern r) (op_frame_size r) (op_source_port r) (op_destination_port r) (op_ttl r) (op_probe_run r) (op_drop_mod r) (op_drop_rem r) (op_rate r) (op_sequence_limit r) (op_duration r) (op_arp r) (op_echo r).
Definition set_op_output (v : string) (r : options) : options := mk_options (op_interface r) v (op_pcap r) (op_source_mac r) (op_destination_mac r) (op_source_ip r) (op_destination_ip r) (op_run r) (op_seed r) (op_flows r) (op_destinations r) (op_stride r) (op_pattern r) (op_frame_size r) (op_source_port r) (op_destination_port r) (op_ttl r) (op_probe_run r) (op_drop_mod r) (op_drop_rem r) (op_rate r) (op_sequence_limit r) (op_duration r) (op_arp r) (op_echo r).
Definition set_op_pcap (v : string) (r : options) : options := mk_options (op_interface r) (op_output r) v (op_source_mac r) (op_destination_mac r) (op_source_ip r) (op_destination_ip r) (op_run r) (op_seed r) (op_flows r) (op_destinations r) (op_stride r) (op_pattern r) (op_frame_size r) (op_source_port r) (op_destination_port r) (op_ttl r) (op_probe_run r) (op_drop_mod r) (op_drop_rem r) (op_rate r) (op_sequence_limit r) (op_duration r) (op_arp r) (op_echo r).
Definition set_op_source_mac (v : list Z) (r : options) : options := mk_options (op_interface r) (op_output r) (op_pcap r) v (op_destination_mac r) (op_source_ip r) (op_destination_ip r) (op_run r) (op_seed r) (op_flows r) (op_destinations r) (op_stride r) (op_pattern r) (op_frame_size r) (op_source_port r) (op_destination_port r) (op_ttl r) (op_probe_run r) (op_drop_mod r) (op_drop_rem r) (op_rate r) (op_sequence_limit r) (op_duration r) (op_arp r) (op_echo r).
Definition set_op_destination_mac (v : list Z) (r : options) : options := mk_options (op_interface r) (op_output r) (op_pcap r) (op_source_mac r) v (op_source_ip r) (op_destination_ip r) (op_run r) (op_seed r) (op_flows r) (op_destinations r) (op_stride r) (op_pattern r) (op_frame_size r) (op_source_port r) (op_destination_port r) (op_ttl r) (op_probe_run r) (op_drop_mod r) (op_drop_rem r) (op_rate r) (op_sequence_limit r) (op_duration r) (op_arp r) (op_echo r).
Definition set_op_source_ip (v : Z) (r : options) : options := mk_options (op_interface r) (op_output r) (op_pcap r) (op_source_mac r) (op_destination_mac r) v (op_destination_ip r) (op_run r) (op_seed r) (op_flows r) (op_destinations r) (op_stride r) (op_pattern r) (op_frame_size r) (op_source_port r) (op_destination_port r) (op_ttl r) (op_probe_run r) (op_drop_mod r) (op_drop_rem r) (op_rate r) (op_sequence_limit r) (op_duration r) (op_arp r) (op_echo r).
Definition set_op_destination_ip (v : Z) (r : options) : options := mk_options (op_interface r) (op_output r) (op_pcap r) (op_source_mac r) (op_destination_mac r) (op_source_ip r) v (op_run r) (op_seed r) (op_flows r) (op_destinations r) (op_stride r) (op_pattern r) (op_frame_size r) (op_source_port r) (op_destination_port r) (op_ttl r) (op_probe_run r) (op_drop_mod r) (op_drop_rem r) (op_rate r) (op_sequence_limit r) (op_duration r) (op_arp r) (op_echo r).
Definition set_op_run (v : Z) (r : options) : options := mk_options (op_interface r) (op_output r) (op_pcap r) (op_source_mac r) (op_destination_mac r) (op_source_ip r) (op_destination_ip r) v (op_seed r) (op_flows r) (op_destinations r) (op_stride r) (op_pattern r) (op_frame_size r) (op_source_port r) (op_destination_port r) (op_ttl r) (op_probe_run r) (op_drop_mod r) (op_drop_rem r) (op_rate r) (op_sequence_limit r) (op_duration r) (op_arp r) (op_echo r).
Definition set_op_seed (v : Z) (r : options) : options := mk_options (op_interface r) (op_output r) (op_pcap r) (op_source_mac r) (op_destination_mac r) (op_source_ip r) (op_destination_ip r) (op_run r) v (op_flows r) (op_destinations r) (op_stride r) (op_pattern r) (op_frame_size r) (op_source_port r) (op_destination_port r) (op_ttl r) (op_probe_run r) (op_drop_mod r) (op_drop_rem r) (op_rate r) (op_sequence_limit r) (op_duration r) (op_arp r) (op_echo r).
Definition set_op_flows (v : Z) (r : options) : options := mk_options (op_interface r) (op_output r) (op_pcap r) (op_source_mac r) (op_destination_mac r) (op_source_ip r) (op_destination_ip r) (op_run r) (op_seed r) v (op_destinations r) (op_stride r) (op_pattern r) (op_frame_size r) (op_source_port r) (op_destination_port r) (op_ttl r) (op_probe_run r) (op_drop_mod r) (op_drop_rem r) (op_rate r) (op_sequence_limit r) (op_duration r) (op_arp r) (op_echo r).
Definition set_op_destinations (v : Z) (r : options) : options := mk_options (op_interface r) (op_output r) (op_pcap r) (op_source_mac r) (op_destination_mac r) (op_source_ip r) (op_destination_ip r) (op_run r) (op_seed r) (op_flows r) v (op_stride r) (op_pattern r) (op_frame_size r) (op_source_port r) (op_destination_port r) (op_ttl r) (op_probe_run r) (op_drop_mod r) (op_drop_rem r) (op_rate r) (op_sequence_limit r) (op_duration r) (op_arp r) (op_echo r).
Definition set_op_stride (v : Z) (r : options) : options := mk_options (op_interface r) (op_output r) (op_pcap r) (op_source_mac r) (op_destination_mac r) (op_source_ip r) (op_destination_ip r) (op_run r) (op_seed r) (op_flows r) (op_destinations r) v (op_pattern r) (op_frame_size r) (op_source_port r) (op_destination_port r) (op_ttl r) (op_probe_run r) (op_drop_mod r) (op_drop_rem r) (op_rate r) (op_sequence_limit r) (op_duration r) (op_arp r) (op_echo r).
Definition set_op_pattern (v : Z) (r : options) : options := mk_options (op_interface r) (op_output r) (op_pcap r) (op_source_mac r) (op_destination_mac r) (op_source_ip r) (op_destination_ip r) (op_run r) (op_seed r) (op_flows r) (op_destinations r) (op_stride r) v (op_frame_size r) (op_source_port r) (op_destination_port r) (op_ttl r) (op_probe_run r) (op_drop_mod r) (op_drop_rem r) (op_rate r) (op_sequence_limit r) (op_duration r) (op_arp r) (op_echo r).
Definition set_op_frame_size (v : Z) (r : options) : options := mk_options (op_interface r) (op_output r) (op_pcap r) (op_source_mac r) (op_destination_mac r) (op_source_ip r) (op_destination_ip r) (op_run r) (op_seed r) (op_flows r) (op_destinations r) (op_stride r) (op_pattern r) v (op_source_port r) (op_destination_port r) (op_ttl r) (op_probe_run r) (op_drop_mod r) (op_drop_rem r) (op_rate r) (op_sequence_limit r) (op_duration r) (op_arp r) (op_echo r).
Definition set_op_source_port (v : Z) (r : options) : options := mk_options (op_interface r) (op_output r) (op_pcap r) (op_source_mac r) (op_destination_mac r) (op_source_ip r) (op_destination_ip r) (op_run r) (op_seed r) (op_flows r) (op_destinations r) (op_stride r) (op_pattern r) (op_frame_size r) v (op_destination_port r) (op_ttl r) (op_probe_run r) (op_drop_mod r) (op_drop_rem r) (op_rate r) (op_sequence_limit r) (op_duration r) (op_arp r) (op_echo r).
Definition set_op_destination_port (v : Z) (r : options) : options := mk_options (op_interface r) (op_output r) (op_pcap r) (op_source_mac r) (op_destination_mac r) (op_source_ip r) (op_destination_ip r) (op_run r) (op_seed r) (op_flows r) (op_destinations r) (op_stride r) (op_pattern r) (op_frame_size r) (op_source_port r) v (op_ttl r) (op_probe_run r) (op_drop_mod r) (op_drop_rem r) (op_rate r) (op_sequence_limit r) (op_duration r) (op_arp r) (op_echo r).
Definition set_op_ttl (v : Z) (r : options) : options := mk_options (op_interface r) (op_output r) (op_pcap r) (op_source_mac r) (op_destination_mac r) (op_source_ip r) (op_destination_ip r) (op_run r) (op_seed r) (op_flows r) (op_destinations r) (op_stride r) (op_pattern r) (op_frame_size r) (op_source_port r) (op_destination_port r) v (op_probe_run r) (op_drop_mod r) (op_drop_rem r) (op_rate r) (op_sequence_limit r) (op_duration r) (op_arp r) (op_echo r).
Definition set_op_probe_run (v : Z) (r : options) : options := mk_options (op_interface r) (op_output r) (op_pcap r) (op_source_mac r) (op_destination_mac r) (op_source_ip r) (op_destination_ip r) (op_run r) (op_seed r) (op_flows r) (op_destinations r) (op_stride r) (op_pattern r) (op_frame_size r) (op_source_port r) (op_destination_port r) (op_ttl r) v (op_drop_mod r) (op_drop_rem r) (op_rate r) (op_sequence_limit r) (op_duration r) (op_arp r) (op_echo r).
Definition set_op_drop_mod (v : Z) (r : options) : options := mk_options (op_interface r) (op_output r) (op_pcap r) (op_source_mac r) (op_destination_mac r) (op_source_ip r) (op_destination_ip r) (op_run r) (op_seed r) (op_flows r) (op_destinations r) (op_stride r) (op_pattern r) (op_frame_size r) (op_source_port r) (op_destination_port r) (op_ttl r) (op_probe_run r) v (op_drop_rem r) (op_rate r) (op_sequence_limit r) (op_duration r) (op_arp r) (op_echo r).
Definition set_op_drop_rem (v : Z) (r : options) : options := mk_options (op_interface r) (op_output r) (op_pcap r) (op_source_mac r) (op_destination_mac r) (op_source_ip r) (op_destination_ip r) (op_run r) (op_seed r) (op_flows r) (op_destinations r) (op_stride r) (op_pattern r) (op_frame_size r) (op_source_port r) (op_destination_port r) (op_ttl r) (op_probe_run r) (op_drop_mod r) v (op_rate r) (op_sequence_limit r) (op_duration r) (op_arp r) (op_echo r).
Definition set_op_rate (v : Z) (r : options) : options := mk_options (op_interface r) (op_output r) (op_pcap r) (op_source_mac r) (op_destination_mac r) (op_source_ip r) (op_destination_ip r) (op_run r) (op_seed r) (op_flows r) (op_destinations r) (op_stride r) (op_pattern r) (op_frame_size r) (op_source_port r) (op_destination_port r) (op_ttl r) (op_probe_run r) (op_drop_mod r) (op_drop_rem r) v (op_sequence_limit r) (op_duration r) (op_arp r) (op_echo r).
Definition set_op_sequence_limit (v : Z) (r : options) : options := mk_options (op_interface r) (op_output r) (op_pcap r) (op_source_mac r) (op_destination_mac r) (op_source_ip r) (op_destination_ip r) (op_run r) (op_seed r) (op_flows r) (op_destinations r) (op_stride r) (op_pattern r) (op_frame_size r) (op_source_port r) (op_destination_port r) (op_ttl r) (op_probe_run r) (op_drop_mod r) (op_drop_rem r) (op_rate r) v (op_duration r) (op_arp r) (op_echo r).
Definition set_op_duration (v : Z) (r : options) : options := mk_options (op_interface r) (op_output r) (op_pcap r) (op_source_mac r) (op_destination_mac r) (op_source_ip r) (op_destination_ip r) (op_run r) (op_seed r) (op_flows r) (op_destinations r) (op_stride r) (op_pattern r) (op_frame_size r) (op_source_port r) (op_destination_port r) (op_ttl r) (op_probe_run r) (op_drop_mod r) (op_drop_rem r) (op_rate r) (op_sequence_limit r) v (op_arp r) (op_echo r).
Definition set_op_arp (v : bool) (r : options) : options := mk_options (op_interface r) (op_output r) (op_pcap r) (op_source_mac r) (op_destination_mac r) (op_source_ip r) (op_destination_ip r) (op_run r) (op_seed r) (op_flows r) (op_destinations r) (op_stride r) (op_pattern r) (op_frame_size r) (op_source_port r) (op_destination_port r) (op_ttl r) (op_probe_run r) (op_drop_mod r) (op_drop_rem r) (op_rate r) (op_sequence_limit r) (op_duration r) v (op_echo r).
Definition set_op_echo (v : bool) (r : options) : options := mk_options (op_interface r) (op_output r) (op_pcap r) (op_source_mac r) (op_destination_mac r) (op_source_ip r) (op_destination_ip r) (op_run r) (op_seed r) (op_flows r) (op_destinations r) (op_stride r) (op_pattern r) (op_frame_size r) (op_source_port r) (op_destination_port r) (op_ttl r) (op_probe_run r) (op_drop_mod r) (op_drop_rem r) (op_rate r) (op_sequence_limit r) (op_duration r) (op_arp r) v.

Record metrics : Type := mk_metrics {
  me_packets : Z;
  me_bytes : Z;
  me_unique : Z;
  me_duplicates : Z;
  me_invalid : Z;
  me_unexpected : Z;
  me_reordered : Z;
  me_out_of_range : Z;
  me_highest_sequence : Z;
  me_missing_below_highest : Z;
  me_arp_requests : Z;
  me_first_ns : Z;
  me_last_ns : Z;
  me_start_ns : Z;
  me_end_ns : Z;
  me_retries : Z;
  me_kernel_packets : Z;
  me_kernel_drops : Z;
  me_arp : Z;
  me_probes : Z
}.
Definition set_me_packets (v : Z) (r : metrics) : metrics := mk_metrics v (me_bytes r) (me_unique r) (me_duplicates r) (me_invalid r) (me_unexpected r) (me_reordered r) (me_out_of_range r) (me_highest_sequence r) (me_missing_below_highest r) (me_arp_requests r) (me_first_ns r) (me_last_ns r) (me_start_ns r) (me_end_ns r) (me_retries r) (me_kernel_packets r) (me_kernel_drops r) (me_arp r) (me_probes r).
Definition set_me_bytes (v : Z) (r : metrics) : metrics := mk_metrics (me_packets r) v (me_unique r) (me_duplicates r) (me_invalid r) (me_unexpected r) (me_reordered r) (me_out_of_range r) (me_highest_sequence r) (me_missing_below_highest r) (me_arp_requests r) (me_first_ns r) (me_last_ns r) (me_start_ns r) (me_end_ns r) (me_retries r) (me_kernel_packets r) (me_kernel_drops r) (me_arp r) (me_probes r).
Definition set_me_unique (v : Z) (r : metrics) : metrics := mk_metrics (me_packets r) (me_bytes r) v (me_duplicates r) (me_invalid r) (me_unexpected r) (me_reordered r) (me_out_of_range r) (me_highest_sequence r) (me_missing_below_highest r) (me_arp_requests r) (me_first_ns r) (me_last_ns r) (me_start_ns r) (me_end_ns r) (me_retries r) (me_kernel_packets r) (me_kernel_drops r) (me_arp r) (me_probes r).
Definition set_me_duplicates (v : Z) (r : metrics) : metrics := mk_metrics (me_packets r) (me_bytes r) (me_unique r) v (me_invalid r) (me_unexpected r) (me_reordered r) (me_out_of_range r) (me_highest_sequence r) (me_missing_below_highest r) (me_arp_requests r) (me_first_ns r) (me_last_ns r) (me_start_ns r) (me_end_ns r) (me_retries r) (me_kernel_packets r) (me_kernel_drops r) (me_arp r) (me_probes r).
Definition set_me_invalid (v : Z) (r : metrics) : metrics := mk_metrics (me_packets r) (me_bytes r) (me_unique r) (me_duplicates r) v (me_unexpected r) (me_reordered r) (me_out_of_range r) (me_highest_sequence r) (me_missing_below_highest r) (me_arp_requests r) (me_first_ns r) (me_last_ns r) (me_start_ns r) (me_end_ns r) (me_retries r) (me_kernel_packets r) (me_kernel_drops r) (me_arp r) (me_probes r).
Definition set_me_unexpected (v : Z) (r : metrics) : metrics := mk_metrics (me_packets r) (me_bytes r) (me_unique r) (me_duplicates r) (me_invalid r) v (me_reordered r) (me_out_of_range r) (me_highest_sequence r) (me_missing_below_highest r) (me_arp_requests r) (me_first_ns r) (me_last_ns r) (me_start_ns r) (me_end_ns r) (me_retries r) (me_kernel_packets r) (me_kernel_drops r) (me_arp r) (me_probes r).
Definition set_me_reordered (v : Z) (r : metrics) : metrics := mk_metrics (me_packets r) (me_bytes r) (me_unique r) (me_duplicates r) (me_invalid r) (me_unexpected r) v (me_out_of_range r) (me_highest_sequence r) (me_missing_below_highest r) (me_arp_requests r) (me_first_ns r) (me_last_ns r) (me_start_ns r) (me_end_ns r) (me_retries r) (me_kernel_packets r) (me_kernel_drops r) (me_arp r) (me_probes r).
Definition set_me_out_of_range (v : Z) (r : metrics) : metrics := mk_metrics (me_packets r) (me_bytes r) (me_unique r) (me_duplicates r) (me_invalid r) (me_unexpected r) (me_reordered r) v (me_highest_sequence r) (me_missing_below_highest r) (me_arp_requests r) (me_first_ns r) (me_last_ns r) (me_start_ns r) (me_end_ns r) (me_retries r) (me_kernel_packets r) (me_kernel_drops r) (me_arp r) (me_probes r).
Definition set_me_highest_sequence (v : Z) (r : metrics) : metrics := mk_metrics (me_packets r) (me_bytes r) (me_unique r) (me_duplicates r) (me_invalid r) (me_unexpected r) (me_reordered r) (me_out_of_range r) v (me_missing_below_highest r) (me_arp_requests r) (me_first_ns r) (me_last_ns r) (me_start_ns r) (me_end_ns r) (me_retries r) (me_kernel_packets r) (me_kernel_drops r) (me_arp r) (me_probes r).
Definition set_me_missing_below_highest (v : Z) (r : metrics) : metrics := mk_metrics (me_packets r) (me_bytes r) (me_unique r) (me_duplicates r) (me_invalid r) (me_unexpected r) (me_reordered r) (me_out_of_range r) (me_highest_sequence r) v (me_arp_requests r) (me_first_ns r) (me_last_ns r) (me_start_ns r) (me_end_ns r) (me_retries r) (me_kernel_packets r) (me_kernel_drops r) (me_arp r) (me_probes r).
Definition set_me_arp_requests (v : Z) (r : metrics) : metrics := mk_metrics (me_packets r) (me_bytes r) (me_unique r) (me_duplicates r) (me_invalid r) (me_unexpected r) (me_reordered r) (me_out_of_range r) (me_highest_sequence r) (me_missing_below_highest r) v (me_first_ns r) (me_last_ns r) (me_start_ns r) (me_end_ns r) (me_retries r) (me_kernel_packets r) (me_kernel_drops r) (me_arp r) (me_probes r).
Definition set_me_first_ns (v : Z) (r : metrics) : metrics := mk_metrics (me_packets r) (me_bytes r) (me_unique r) (me_duplicates r) (me_invalid r) (me_unexpected r) (me_reordered r) (me_out_of_range r) (me_highest_sequence r) (me_missing_below_highest r) (me_arp_requests r) v (me_last_ns r) (me_start_ns r) (me_end_ns r) (me_retries r) (me_kernel_packets r) (me_kernel_drops r) (me_arp r) (me_probes r).
Definition set_me_last_ns (v : Z) (r : metrics) : metrics := mk_metrics (me_packets r) (me_bytes r) (me_unique r) (me_duplicates r) (me_invalid r) (me_unexpected r) (me_reordered r) (me_out_of_range r) (me_highest_sequence r) (me_missing_below_highest r) (me_arp_requests r) (me_first_ns r) v (me_start_ns r) (me_end_ns r) (me_retries r) (me_kernel_packets r) (me_kernel_drops r) (me_arp r) (me_probes r).
Definition set_me_start_ns (v : Z) (r : metrics) : metrics := mk_metrics (me_packets r) (me_bytes r) (me_unique r) (me_duplicates r) (me_invalid r) (me_unexpected r) (me_reordered r) (me_out_of_range r) (me_highest_sequence r) (me_missing_below_highest r) (me_arp_requests r) (me_first_ns r) (me_last_ns r) v (me_end_ns r) (me_retries r) (me_kernel_packets r) (me_kernel_drops r) (me_arp r) (me_probes r).
Definition set_me_end_ns (v : Z) (r : metrics) : metrics := mk_metrics (me_packets r) (me_bytes r) (me_unique r) (me_duplicates r) (me_invalid r) (me_unexpected r) (me_reordered r) (me_out_of_range r) (me_highest_sequence r) (me_missing_below_highest r) (me_arp_requests r) (me_first_ns r) (me_last_ns r) (me_start_ns r) v (me_retries r) (me_kernel_packets r) (me_kernel_drops r) (me_arp r) (me_probes r).
Definition set_me_retries (v : Z) (r : metrics) : metrics := mk_metrics (me_packets r) (me_bytes r) (me_unique r) (me_duplicates r) (me_invalid r) (me_unexpected r) (me_reordered r) (me_out_of_range r) (me_highest_sequence r) (me_missing_below_highest r) (me_arp_requests r) (me_first_ns r) (me_last_ns r) (me_start_ns r) (me_end_ns r) v (me_kernel_packets r) (me_kernel_drops r) (me_arp r) (me_probes r).
Definition set_me_kernel_packets (v : Z) (r : metrics) : metrics := mk_metrics (me_packets r) (me_bytes r) (me_unique r) (me_duplicates r) (me_invalid r) (me_unexpected r) (me_reordered r) (me_out_of_range r) (me_highest_sequence r) (me_missing_below_highest r) (me_arp_requests r) (me_first_ns r) (me_last_ns r) (me_start_ns r) (me_end_ns r) (me_retries r) v (me_kernel_drops r) (me_arp r) (me_probes r).
Definition set_me_kernel_drops (v : Z) (r : metrics) : metrics := mk_metrics (me_packets r) (me_bytes r) (me_unique r) (me_duplicates r) (me_invalid r) (me_unexpected r) (me_reordered r) (me_out_of_range r) (me_highest_sequence r) (me_missing_below_highest r) (me_arp_requests r) (me_first_ns r) (me_last_ns r) (me_start_ns r) (me_end_ns r) (me_retries r) (me_kernel_packets r) v (me_arp r) (me_probes r).
Definition set_me_arp (v : Z) (r : metrics) : metrics := mk_metrics (me_packets r) (me_bytes r) (me_unique r) (me_duplicates r) (me_invalid r) (me_unexpected r) (me_reordered r) (me_out_of_range r) (me_highest_sequence r) (me_missing_below_highest r) (me_arp_requests r) (me_first_ns r) (me_last_ns r) (me_start_ns r) (me_end_ns r) (me_retries r) (me_kernel_packets r) (me_kernel_drops r) v (me_probes r).
Definition set_me_probes (v : Z) (r : metrics) : metrics := mk_metrics (me_packets r) (me_bytes r) (me_unique r) (me_duplicates r) (me_invalid r) (me_unexpected r) (me_reordered r) (me_out_of_range r) (me_highest_sequence r) (me_missing_below_highest r) (me_arp_requests r) (me_first_ns r) (me_last_ns r) (me_start_ns r) (me_end_ns r) (me_retries r) (me_kernel_packets r) (me_kernel_drops r) (me_arp r) v.

(** * Words in a frame *)

Definition read16 (p : list Z) (i : nat) : Z := rd_be16 p i.
Definition read32 (p : list Z) (i : nat) : Z := rd_be32 p i.
Definition read64 (p : list Z) (i : nat) : Z := Z.lor (Z.shiftl (read32 p i) 32) (read32 p (i + 4)).
Definition write16 (i : nat) (n : Z) (p : list Z) : list Z := write_at p i (be16 n).
Definition write32 (i : nat) (n : Z) (p : list Z) : list Z := write_at p i (be32 n).
Definition write64 (i : nat) (n : Z) (p : list Z) : list Z := p |> write32 i (Z.shiftr n 32) |> write32 (i + 4) (u32 n).
Definition put (i : nat) (v : list Z) (p : list Z) : list Z := write_at p i v.
(** [memcmp(b + i, v, n)] finds a difference; [v] has [n] bytes. *)
Definition differs (p : list Z) (i : nat) (v : list Z) : bool := negb (bool_decide (take (length v) (drop i p) = v)).

(** * Checksums *)

(** [sum]: the 16-bit words of the bytes, the last one padded with a zero. *)
Fixpoint sum_from (s : Z) (p : list Z) : Z :=
  match p with
  | a :: b :: p' => sum_from (u32 (s + Z.lor (Z.shiftl a 8) b)) p'
  | [a] => u32 (s + Z.shiftl a 8)
  | [] => s
  end.
Definition sum (p : list Z) : Z := sum_from 0 p.

(** The loop of [fold]; the carries of a 32-bit sum are gone after two rounds. *)
Fixpoint fold_loop (rounds : nat) (s : Z) : Z :=
  match rounds with
  | O => s
  | S rounds' => if truth (Z.shiftr s 16) then fold_loop rounds' (u32 (Z.land s 65535 + Z.shiftr s 16)) else s
  end.
Definition fold (s : Z) : Z := not16 (fold_loop 2 s).

Definition packet_checksum (p : list Z) : Z := fold (sum p).
(** [udp_checksum(ip, udp, n)] in a frame [b] whose IPv4 header is at 14. *)
Definition udp_packet_checksum (b : list Z) (n : nat) : Z :=
  fold (u32 (u32 (u32 (sum (take 8 (drop 26 b)) + 17) + Z.of_nat n) + sum (take n (drop 34 b)))).
Definition ip_checksum (b : list Z) : Z := packet_checksum (take 20 (drop 14 b)).

(** * Frames *)

Definition mixed (seed seq : Z) : Z :=
  let index := Z.lxor seq seed in
  let index := Z.lxor index (Z.shiftr index 33) in
  let index := u64 (index * 18397679294719823053) in
  Z.lxor index (Z.shiftr index 33).

Definition destination (o : options) (seq : Z) : Z :=
  let index := if op_pattern o =? 1 then mixed (op_seed o) seq else seq in
  let index := if op_pattern o =? 2 then u32 (op_destinations o - 1) else index in
  htonl (u32 (ntohl (op_destination_ip o) + u32 (u32 (index mod op_destinations o) * op_stride o))).

(** Byte [i] of the payload after its tag. *)
Definition filler (seq seed : Z) (i : nat) : Z := u8 (seq + Z.of_nat i * 17 + seed).
Definition fill (first count : nat) (seq seed : Z) : list Z := (fun k => filler seq seed k) <$> List.seq first count.

(** The frame is the [frame_size] bytes of the buffer the first [memset] clears.
    The Ethernet and IPv4 headers first. *)
Definition build_ip (o : options) (seq : Z) : list Z :=
  let b := replicate (Z.to_nat (op_frame_size o)) 0
    |> put 0 (op_destination_mac o) |> put 6 (op_source_mac o) |> write16 12 2048
    |> put 14 [69] |> write16 16 (u32 (op_frame_size o - 14)) |> write16 18 (u16 seq) |> write16 20 16384
    |> put 22 [u8 (op_ttl o)] |> put 23 [17]
    |> put 26 (le32 (op_source_ip o)) |> put 30 (le32 (destination o seq)) in
  b |> write16 24 (ip_checksum b).

(** The UDP header without its checksum, and the tag of the payload. *)
Definition build_tag (o : options) (seq : Z) : list Z :=
  let flow := u32 (seq mod op_flows o) in
  build_ip o seq
    |> write16 34 (u32 (op_source_port o + flow)) |> write16 36 (u32 (op_destination_port o + flow)) |> write16 38 (u32 (op_frame_size o - 34))
    |> write32 42 BENCH_MAGIC |> write32 46 (op_run o) |> write64 50 seq.

Definition packet_build (o : options) (seq : Z) : list Z :=
  let size := Z.to_nat (op_frame_size o) in
  let b := build_tag o seq |> put (42 + BENCH_TAG_SIZE) (fill BENCH_TAG_SIZE (size - 42 - BENCH_TAG_SIZE) seq (op_seed o)) in
  let checksum := udp_packet_checksum b (size - 34) in
  b |> write16 40 (if truth checksum then checksum else 65535).

(** The fields after the run: what a frame of the run must be to count. *)
Definition field_differs (b : list Z) (o : options) (seq : Z) : bool :=
  let n := Z.of_nat (length b) in
  negb (n =? op_frame_size o) || negb (byte_of b 14 =? 69) || negb (read16 b 16 =? n - 14) ||
  negb (read16 b 20 =? 16384) || negb (byte_of b 22 =? op_ttl o) || truth (ip_checksum b) ||
  differs b 26 (le32 (op_source_ip o)) || differs b 30 (le32 (destination o seq)) ||
  negb (read16 b 18 =? u16 seq) || negb (read16 b 38 =? n - 34) || negb (truth (read16 b 40)) ||
  truth (udp_packet_checksum b (length b - 34)) || negb (read16 b 34 =? u64 (op_source_port o + seq mod op_flows o)) ||
  negb (read16 b 36 =? u64 (op_destination_port o + seq mod op_flows o)) ||
  differs b 0 (op_destination_mac o) || differs b 6 (op_source_mac o).

(** [packet_validate(b, n, o, &seq)] on the [n] bytes of [b]: the verdict and
    [*seq]. *)
Definition packet_validate (b : list Z) (o : options) (seq : Z) : Z * Z :=
  let n := Z.of_nat (length b) in
  if (n <? 14) || negb (read16 b 12 =? 2048) then (0, seq) else
  if n <? 34 then (-1, seq) else
  if negb (byte_of b 23 =? 17) then (if (58 <=? n) && (read32 b 42 =? BENCH_MAGIC) then -1 else 0, seq) else
  if (n <? 58) || negb (read32 b 42 =? BENCH_MAGIC) then (-1, seq) else
  if negb (read32 b 46 =? op_run o) then (2, seq) else
  let seq := read64 b 50 in
  if field_differs b o seq then (-1, seq) else
  if negb (bool_decide (drop (42 + BENCH_TAG_SIZE) b = fill BENCH_TAG_SIZE (length b - 42 - BENCH_TAG_SIZE) seq (op_seed o))) then (-1, seq) else
  (1, seq).

(** * Payloads of the socket programs *)

Definition payload_fill (length : nat) (run seq seed : Z) (p : list Z) : list Z :=
  p |> write32 0 BENCH_MAGIC |> write32 4 run |> write64 8 seq |> put 16 (fill 16 (length - 16) seq seed).

(** The verdict and [*sequence], which is only set behind the tag. *)
Definition payload_valid (p : list Z) (run seed seq : Z) : bool * Z :=
  if (Z.of_nat (length p) <? 16) || negb (read32 p 0 =? BENCH_MAGIC) || negb (read32 p 4 =? run) then (false, seq) else
  let seq := read64 p 8 in
  (bool_decide (drop 16 p = fill 16 (length p - 16) seq seed), seq).

(** [stream_byte]: byte [offset] of the stream of the bulk transfers. *)
Definition stream_byte (offset : Z) : Z :=
  let word := u64 (Z.shiftr offset 3 + 11400714819323198485) in
  let word := u64 (Z.lxor word (Z.shiftr word 30) * 13787848793156543929) in
  let word := u64 (Z.lxor word (Z.shiftr word 27) * 10723151780598845931) in
  let word := Z.lxor word (Z.shiftr word 31) in
  u8 (Z.shiftr word (Z.land offset 7 * 8)).

(** * Options *)

Definition unsigned_parse (s : string) (max : Z) : option Z := number s max.

Definition mac (s : string) : option (list Z) :=
  if negb (Nat.eqb (String.length s) 17) then None else
  v ← scan_mac 5 s;
  if existsb (fun x => 255 <? x) v then None else Some (u8 <$> v).

Definition default_options : options := {|
  op_interface := ""; op_output := ""; op_pcap := "";
  op_source_mac := replicate 6 0; op_destination_mac := replicate 6 0; op_source_ip := 0; op_destination_ip := 0;
  op_run := 1; op_seed := 42; op_flows := 1; op_destinations := 1; op_stride := 256; op_pattern := 0;
  op_frame_size := 128; op_source_port := 20000; op_destination_port := 9000; op_ttl := 63;
  op_probe_run := 0; op_drop_mod := 0; op_drop_rem := 0; op_rate := 0; op_sequence_limit := 64000000;
  op_duration := 10000000000; op_arp := false; op_echo := false |}.

(** [strlen(optarg) >= size ? -1 : strcpy] *)
Definition fitting (size : nat) (s : string) : option string := if Nat.leb size (String.length s) then None else Some s.

Section parse.
Context (duration_parse : string -> option Z).

(** One round of the loop on [getopt_long]: the option and [optarg]. *)
Definition option_value (c : ascii) (optarg : string) (o : options) : option options :=
  let value := fun set : Z -> options -> options => v ← unsigned_parse optarg UINT32_MAX; Some (o |> set v) in
  match c with
  | "i"%char => s ← fitting 32 optarg; Some (o |> set_op_interface s)
  | "o"%char => s ← fitting 512 optarg; Some (o |> set_op_output s)
  | "c"%char => s ← fitting 512 optarg; Some (o |> set_op_pcap s)
  | "s"%char => ip ← inet_pton optarg; Some (o |> set_op_source_ip ip)
  | "d"%char => ip ← inet_pton optarg; Some (o |> set_op_destination_ip ip)
  | "m"%char => m ← mac optarg; Some (o |> set_op_source_mac m)
  | "M"%char => m ← mac optarg; Some (o |> set_op_destination_mac m)
  | "z"%char => value set_op_frame_size
  | "r"%char => value set_op_rate
  | "f"%char => value set_op_flows
  | "n"%char => value set_op_destinations
  | "S"%char => value set_op_stride
  | "R"%char => value set_op_run
  | "e"%char => value set_op_seed
  | "a"%char => value set_op_source_port
  | "b"%char => value set_op_destination_port
  | "T"%char => value set_op_ttl
  | "l"%char => value set_op_sequence_limit
  | "P"%char => value set_op_probe_run
  | "D"%char => value set_op_drop_mod
  | "F"%char => value set_op_drop_rem
  | "A"%char => Some (o |> set_op_arp true)
  | "E"%char => Some (o |> set_op_echo true)
  | "p"%char =>
    if same optarg "random" then Some (o |> set_op_pattern 1) else
    if same optarg "last" then Some (o |> set_op_pattern 2) else
    if same optarg "sequential" then Some o else None
  | "t"%char => d ← duration_parse optarg; Some (o |> set_op_duration d)
  | _ => None
  end.

Definition options_refused (rest : bool) (o : options) : bool :=
  rest || empty (op_interface o) || empty (op_output o) || (op_frame_size o <? 60) ||
  (1514 <? op_frame_size o) || (op_flows o =? 0) || (4096 <? op_flows o) || (op_destinations o =? 0) ||
  (4096 <? op_destinations o) || (65535 <? op_source_port o) || (65535 <? op_destination_port o) ||
  (65536 <? op_source_port o + op_flows o) || (65536 <? op_destination_port o + op_flows o) || (op_sequence_limit o =? 0) ||
  (256000000 <? op_sequence_limit o) || (255 <? op_ttl o) || (op_run o =? 0) ||
  (truth (op_drop_mod o) && (op_drop_mod o <=? op_drop_rem o)).

Fixpoint option_loop (found : list (ascii * string)) (o : options) : option options :=
  match found with
  | [] => Some o
  | (c, optarg) :: found' => o ← option_value c optarg o; option_loop found' o
  end.

Definition options_parse (found : list (ascii * string)) (rest : bool) : option options :=
  o ← option_loop found default_options;
  if options_refused rest o then None else Some o.
End parse.
