(* ===== verification/WireSpec.v ===== *)
(** The frames of the traffic benchmarks: what [packet_build] writes, in one
    concatenation, the arithmetic of the checksums, and the frames
    [packet_validate] takes for one of the run. *)
From Stdlib Require Import Ascii.
From S2P Require Import Prelude.
From S2P Require Import Text.
From S2P Require Import Config.
From S2P Require Import AdminParse.
From S2P Require Import AdminParseSpec.
From S2P Require Import Wire.

(** * Checksums *)

(** The sum of the 16-bit words, without the width of the accumulator. *)
Fixpoint words (p : list Z) : Z :=
  match p with
  | a :: b :: p' => a * 256 + b + words p'
  | [a] => a * 256
  | [] => 0
  end.

Lemma list_pairs_ind {A} (P : list A -> Prop) :
  P [] -> (forall a, P [a]) -> (forall a b l, P l -> P (a :: b :: l)) -> forall l, P l.
Proof.
  intros H0 H1 H2 l. cut (P l /\ forall a, P (a :: l)); [by intros []|]. induction l as [|b l [IH IH']]; split; auto.
Qed.

Lemma words_range p : Forall is_u8 p -> 0 <= words p <= 32768 * (Z.of_nat (length p) + 1).
Proof.
  induction p as [|a|a b p IH] using list_pairs_ind; intros H; cbn [words length]; [lia|..]; inversion H as [|?? Ha H']; subst; unfold is_u8 in *; [lia|].
  inversion H' as [|?? Hb H'']; subst. specialize (IH H''). lia.
Qed.

Lemma sum_words p s : Forall is_u8 p -> 0 <= s -> s + words p < 2 ^ 32 -> sum_from s p = s + words p.
Proof.
  revert s. induction p as [|a|a b p IH] using list_pairs_ind; intros s H Hs Hb; cbn [words sum_from] in *; [lia|..]; inversion H as [|?? Ha H']; subst; unfold is_u8 in *.
  - rewrite Z.shiftl_mul_pow2 by lia. apply u32_id. unfold is_u32. lia.
  - inversion H' as [|?? Hb' H'']; subst. assert (Hw := words_range p H''). rewrite lor_shiftl by lia. change (2 ^ 8) with 256 in *.
    rewrite u32_id by (unfold is_u32; lia). rewrite IH by (done || lia). lia.
Qed.

Lemma words_app p q : Nat.even (length p) = true -> words (p ++ q) = words p + words q.
Proof. induction p as [|a|a b p IH] using list_pairs_ind; intros H; cbn in *; [done|done|]. rewrite IH by done. lia. Qed.

(** Folding the carries keeps the remainder modulo 65535 and leaves a sum that is
    not zero different from zero. *)
Lemma fold_round s : 0 <= s -> Z.land s 65535 + Z.shiftr s 16 = s - 65535 * (s / 65536).
Proof.
  intros. change 65535 with (Z.ones 16) at 1. rewrite Z.land_ones, Z.shiftr_div_pow2 by lia. change (2 ^ 16) with 65536. zlia.
Qed.

Lemma fold_spec s : 0 < s < 2 ^ 32 -> 0 <= fold s < 65535 /\ (s + fold s) mod 65535 = 0.
Proof.
  intros Hs. unfold fold. cbn [fold_loop].
  assert (Hr : forall s, 0 < s < 2 ^ 32 -> exists q, u32 (Z.land s 65535 + Z.shiftr s 16) = s - 65535 * q /\ q = s / 65536).
  { intros t Ht. exists (t / 65536). rewrite fold_round by lia. split; [|done]. apply u32_id. unfold is_u32. zlia. }
  assert (Ht : forall s, 0 < s < 2 ^ 32 -> truth (Z.shiftr s 16) = negb (s <? 65536)).
  { intros t Ht. unfold truth. f_equal. rewrite Z.shiftr_div_pow2 by lia. change (2 ^ 16) with 65536. apply eq_true_iff_eq. rewrite Z.eqb_eq, Z.ltb_lt. zlia. }
  assert (Hend : forall k t, s = t + 65535 * k -> 0 < t < 65536 -> 0 <= not16 t < 65535 /\ (s + not16 t) mod 65535 = 0).
  { intros k t -> Ht'. unfold not16. rewrite u16_id by (unfold is_u16; lia). split; [lia|].
    replace (t + 65535 * k + (65535 - t)) with ((k + 1) * 65535) by lia. apply Z.mod_mul. lia. }
  rewrite Ht by done. destruct (Z.ltb_spec s 65536); cbn [negb]; [apply (Hend 0); lia|].
  destruct (Hr s Hs) as (q & -> & Hq). set (t := s - 65535 * q). assert (Hbt : 0 < t < 2 ^ 32) by (unfold t; zlia).
  rewrite Ht by done. destruct (Z.ltb_spec t 65536); cbn [negb]; [apply (Hend q); unfold t in *; lia|].
  destruct (Hr t Hbt) as (q' & -> & Hq'). apply (Hend (q + q')); [unfold t; lia|]. unfold t in *. zlia.
Qed.

(** The checksum that makes a sum fold to zero. *)
Lemma fold_complement s c : 0 < s -> 0 <= c -> s + c < 2 ^ 32 -> (fold (s + c) =? 0) = ((c - fold s) mod 65535 =? 0).
Proof.
  intros Hs Hc Hb. destruct (fold_spec s) as [Hr Hm]; [lia|]. destruct (fold_spec (s + c)) as [Hr' Hm']; [lia|].
  apply eq_true_iff_eq. rewrite !Z.eqb_eq. zlia.
Qed.

(** * Accepted options *)

Definition address (m : list Z) : Prop := length m = 6%nat /\ Forall is_u8 m.

Record options_ok (o : options) : Prop := {
  ok_source_mac : address (op_source_mac o);
  ok_destination_mac : address (op_destination_mac o);
  ok_source_ip : is_u32 (op_source_ip o);
  ok_destination_ip : is_u32 (op_destination_ip o);
  ok_run : is_u32 (op_run o);
  ok_flows : 0 < op_flows o <= 4096;
  ok_destinations : 0 < op_destinations o <= 4096;
  ok_frame_size : 60 <= op_frame_size o <= 1514;
  ok_ttl : 0 <= op_ttl o <= 255;
  ok_source_port : 0 <= op_source_port o /\ op_source_port o + op_flows o <= 65536;
  ok_destination_port : 0 <= op_destination_port o /\ op_destination_port o + op_flows o <= 65536;
  ok_sequence_limit : 0 < op_sequence_limit o <= 256000000;
  ok_drop : 0 <= op_drop_mod o /\ 0 <= op_drop_rem o /\ (op_drop_mod o <> 0 -> op_drop_rem o < op_drop_mod o)
}.

(** * The frame in one piece *)

(** The fields of a frame of the run, the type of service and both checksums left
    open. *)
Definition wire_frame (o : options) (seq tos ip_sum udp_sum : Z) : list Z :=
  let flow := u32 (seq mod op_flows o) in
  op_destination_mac o ++ op_source_mac o ++ be16 2048 ++ [69; tos] ++ be16 (u32 (op_frame_size o - 14)) ++ be16 (u16 seq) ++ be16 16384 ++
  [u8 (op_ttl o); 17] ++ be16 ip_sum ++ le32 (op_source_ip o) ++ le32 (destination o seq) ++
  be16 (u32 (op_source_port o + flow)) ++ be16 (u32 (op_destination_port o + flow)) ++ be16 (u32 (op_frame_size o - 34)) ++ be16 udp_sum ++
  be32 BENCH_MAGIC ++ be32 (op_run o) ++ be32 (Z.shiftr seq 32) ++ be32 (u32 seq) ++
  fill 16 (Z.to_nat (op_frame_size o) - 58) seq (op_seed o).

Lemma length_fill first count seq seed : length (fill first count seq seed) = count.
Proof. unfold fill. by rewrite length_fmap, length_seq. Qed.

#[global] Arguments fill : simpl never.
#[global] Arguments be16 : simpl never.
#[global] Arguments destination : simpl never.

Lemma address_bytes m : address m -> exists a b c d e f, m = [a; b; c; d; e; f].
Proof. intros [H _]. do 7 (destruct m as [|? m]; try discriminate H). by eexists _, _, _, _, _, _. Qed.
Lemma length_be16 x : length (be16 x) = 2%nat.
Proof. done. Qed.

Definition ip_sum_of (o : options) (seq : Z) : Z := ip_checksum (wire_frame o seq 0 0 0).
Definition udp_sum_of (o : options) (seq : Z) : Z :=
  let c := udp_packet_checksum (wire_frame o seq 0 0 0) (Z.to_nat (op_frame_size o) - 34) in if truth c then c else 65535.

Lemma ip_checksum_ext b b' : take 34 b = take 34 b' -> ip_checksum b = ip_checksum b'.
Proof. intros H. unfold ip_checksum. rewrite !take_drop_commute. change (14 + 20)%nat with 34%nat. by rewrite H. Qed.
Lemma udp_checksum_ext b b' n : drop 26 b = drop 26 b' -> udp_packet_checksum b n = udp_packet_checksum b' n.
Proof. intros H. unfold udp_packet_checksum. rewrite H. change 34%nat with (26 + 8)%nat. rewrite <- !drop_drop. by rewrite H. Qed.

Section build.
Context (o : options) (seq : Z) (k : nat).
Context (Ho : options_ok o) (Hk : Z.to_nat (op_frame_size o) = (58 + k)%nat).

Definition headers (ip_sum : Z) (udp : list Z) : list Z :=
  op_destination_mac o ++ op_source_mac o ++ be16 2048 ++ [69; 0] ++ be16 (u32 (op_frame_size o - 14)) ++ be16 (u16 seq) ++ be16 16384 ++
  [u8 (op_ttl o); 17] ++ be16 ip_sum ++ le32 (op_source_ip o) ++ le32 (destination o seq) ++ udp.

Lemma build_ip_headers : build_ip o seq = headers (ip_sum_of o seq) (replicate 24 0 ++ replicate k 0).
Proof using Ho Hk.
  destruct (address_bytes _ (ok_source_mac o Ho)) as (a & b & c & d & e & f & Hs).
  destruct (address_bytes _ (ok_destination_mac o Ho)) as (a' & b' & c' & d' & e' & f' & Hd).
  transitivity (headers 0 (replicate 24 0 ++ replicate k 0) |> write16 24 (ip_checksum (headers 0 (replicate 24 0 ++ replicate k 0)))).
  - unfold build_ip, headers. rewrite Hk, Hs, Hd, replicate_add. change (replicate 58 0) with (repeat 0 58). change (replicate 24 0) with (repeat 0 24).
    cbv [put write16 write_at take drop app length Nat.add repeat be16 le32]. reflexivity.
  - rewrite (ip_checksum_ext _ (wire_frame o seq 0 0 0)).
    + fold (ip_sum_of o seq). generalize (ip_sum_of o seq). intros s. unfold headers. rewrite Hs, Hd. reflexivity.
    + unfold headers, wire_frame. rewrite Hs, Hd. reflexivity.
Qed.

Definition udp_header (udp_sum : Z) (rest : list Z) : list Z :=
  let flow := u32 (seq mod op_flows o) in
  be16 (u32 (op_source_port o + flow)) ++ be16 (u32 (op_destination_port o + flow)) ++ be16 (u32 (op_frame_size o - 34)) ++ be16 udp_sum ++
  be32 BENCH_MAGIC ++ be32 (op_run o) ++ be32 (Z.shiftr seq 32) ++ be32 (u32 seq) ++ rest.

Lemma build_tag_headers : build_tag o seq = headers (ip_sum_of o seq) (udp_header 0 (replicate k 0)).
Proof using Ho Hk.
  destruct (address_bytes _ (ok_source_mac o Ho)) as (a & b & c & d & e & f & Hs).
  destruct (address_bytes _ (ok_destination_mac o Ho)) as (a' & b' & c' & d' & e' & f' & Hd).
  unfold build_tag. rewrite build_ip_headers. generalize (ip_sum_of o seq). intros s. unfold headers, udp_header. rewrite Hs, Hd.
  generalize (replicate k 0). intros r. change (replicate 24 0) with (repeat 0 24).
  cbv [put write16 write32 write64 write_at take drop app length Nat.add repeat be16 be32 le32]. reflexivity.
Qed.

Lemma frame_headers ip_sum udp_sum : wire_frame o seq 0 ip_sum udp_sum = headers ip_sum (udp_header udp_sum (fill 16 k seq (op_seed o))).
Proof using Hk. unfold wire_frame. rewrite Hk. replace (58 + k - 58)%nat with k by lia. reflexivity. Qed.

Lemma packet_build_headers : packet_build o seq = wire_frame o seq 0 (ip_sum_of o seq) (udp_sum_of o seq).
Proof using Ho Hk.
  destruct (address_bytes _ (ok_source_mac o Ho)) as (a & b & c & d & e & f & Hs).
  destruct (address_bytes _ (ok_destination_mac o Ho)) as (a' & b' & c' & d' & e' & f' & Hd).
  unfold packet_build, BENCH_TAG_SIZE. rewrite build_tag_headers. 
  replace (Z.to_nat (op_frame_size o) - 42 - 16)%nat with k by lia. set (F := fill 16 k seq (op_seed o)).
  assert (Hput : put (42 + 16) F (headers (ip_sum_of o seq) (udp_header 0 (replicate k 0))) = headers (ip_sum_of o seq) (udp_header 0 F)).
  { unfold headers, udp_header. rewrite Hs, Hd. unfold put, write_at. rewrite (drop_ge _ (42 + 16 + length F)).
    - rewrite app_nil_r. reflexivity.
    - rewrite !length_app, length_replicate. unfold F. rewrite length_fill, !length_be16. cbn [length be32 le32]. lia. }
  rewrite Hput. rewrite (udp_checksum_ext _ (wire_frame o seq 0 0 0)).
  - unfold udp_sum_of. set (u := if truth _ then _ else _). clearbody u. rewrite frame_headers. fold F. clearbody F. generalize (ip_sum_of o seq). intros s.
    unfold headers, udp_header. rewrite Hs, Hd. reflexivity.
  - rewrite frame_headers. fold F. generalize (ip_sum_of o seq). intros s. unfold headers, udp_header. rewrite Hs, Hd. reflexivity.
Qed.
End build.

(** ** What [packet_build] writes *)
Lemma packet_build_frame o seq : options_ok o -> packet_build o seq = wire_frame o seq 0 (ip_sum_of o seq) (udp_sum_of o seq).
Proof. intros H. assert (Hf := ok_frame_size o H). apply (packet_build_headers o seq (Z.to_nat (op_frame_size o) - 58)); [done|lia]. Qed.

(** * Reading a frame *)

Lemma bytes2_eq x : is_u16 x -> byte_at x 1 * 256 + byte_at x 0 = x.
Proof. intros. rewrite !byte_at_div by lia. simpl Z.mul. simpl Z.pow. zlia. Qed.

Lemma drop_byte b i : (i < length b)%nat -> drop i b = byte_of b i :: drop (S i) b.
Proof. intros H. apply lookup_lt_is_Some in H as [x Hx]. rewrite (drop_S _ _ _ Hx). unfold byte_of. by rewrite Hx. Qed.

Lemma be16_split a c : is_u8 a -> is_u8 c -> be16 (a * 256 + c) = [a; c].
Proof. unfold be16. rewrite !byte_at_div by lia. simpl Z.mul. simpl Z.pow. unfold is_u8. intros. f_equal; [|f_equal]; zlia. Qed.

Lemma be32_split a c d e : is_u8 a -> is_u8 c -> is_u8 d -> is_u8 e -> be32 (a * 16777216 + c * 65536 + d * 256 + e) = [a; c; d; e].
Proof. unfold be32. rewrite !byte_at_div by lia. simpl Z.mul. simpl Z.pow. unfold is_u8. intros. repeat (f_equal; [zlia|]). f_equal. zlia. Qed.

Section cut.
Context (b : list Z) (Hb : Forall is_u8 b).

Lemma cut16 i : (i + 2 <= length b)%nat -> drop i b = be16 (read16 b i) ++ drop (i + 2) b.
Proof using Hb.
  intros H. unfold read16, rd_be16. rewrite be16_split by by apply byte_of_u8.
  rewrite (drop_byte b i), (drop_byte b (S i)) by lia. replace (i + 1)%nat with (S i) by lia. by replace (i + 2)%nat with (S (S i)) by lia.
Qed.

Lemma cut32 i : (i + 4 <= length b)%nat -> drop i b = be32 (read32 b i) ++ drop (i + 4) b.
Proof using Hb.
  intros H. unfold read32, rd_be32. rewrite be32_split by by apply byte_of_u8.
  rewrite (drop_byte b i), (drop_byte b (S i)), (drop_byte b (S (S i))), (drop_byte b (S (S (S i)))) by lia.
  replace (i + 1)%nat with (S i) by lia. replace (i + 2)%nat with (S (S i)) by lia. replace (i + 3)%nat with (S (S (S i))) by lia.
  by replace (i + 4)%nat with (S (S (S (S i)))) by lia.
Qed.

Lemma cut_bytes i v : differs b i v = false -> drop i b = v ++ drop (i + length v) b.
Proof using.
  unfold differs. intros H%negb_false_iff%bool_decide_eq_true. rewrite <- H at 1. rewrite <- drop_drop. by rewrite take_drop.
Qed.

Lemma read64_halves i : (read32 b i * 4294967296 + read32 b (i + 4)) = read64 b i /\ is_u32 (read32 b i) /\ is_u32 (read32 b (i + 4)).
Proof using Hb.
  assert (H : forall j, is_u32 (read32 b j)).
  { intros j. unfold read32, rd_be32. assert (B := fun k => byte_of_u8 b k Hb). assert (B0 := B j). assert (B1 := B (j + 1)%nat). assert (B2 := B (j + 2)%nat). assert (B3 := B (j + 3)%nat).
    unfold is_u8, is_u32 in *. lia. }
  split; [|auto]. unfold read64. rewrite lor_shiftl; [done|lia|]. apply H.
Qed.
End cut.

(** The value of a sequence number from its halves. *)
Lemma sequence_halves hi lo : is_u32 hi -> is_u32 lo -> Z.shiftr (hi * 4294967296 + lo) 32 = hi /\ u32 (hi * 4294967296 + lo) = lo.
Proof. intros. rewrite Z.shiftr_div_pow2 by lia. change (2 ^ 32) with 4294967296. split; zlia. Qed.

Lemma packet_validate_fields b o s0 seq : packet_validate b o s0 = (1, seq) <->
  (58 <= length b)%nat /\ read16 b 12 = 2048 /\ byte_of b 23 = 17 /\ read32 b 42 = BENCH_MAGIC /\ read32 b 46 = op_run o /\ read64 b 50 = seq /\
  field_differs b o seq = false /\ drop 58 b = fill 16 (length b - 58) seq (op_seed o).
Proof.
  unfold packet_validate, BENCH_TAG_SIZE. replace (length b - 42 - 16)%nat with (length b - 58)%nat by lia. split.
  - intros H. repeat match type of H with
    | (if ?c then _ else _) = _ => destruct c eqn:?; cbn [fst snd] in H; try (discriminate H)
    | ((if ?c then _ else _), _) = _ => destruct c; discriminate H
    end. injection H as <-. bool_hyps. split_and!; try done; try lia; try (exact (proj1 (bool_decide_eq_true _) Heqb6)).
  - intros (Hl & H12 & H23 & H42 & H46 & H50 & Hf & Hp). change (42 + 16)%nat with 58%nat. rewrite H12, H23, H42, H46, H50, Hf, Hp.
    destruct (Z.ltb_spec (Z.of_nat (length b)) 14); [lia|]. destruct (Z.ltb_spec (Z.of_nat (length b)) 34); [lia|].
    destruct (Z.ltb_spec (Z.of_nat (length b)) 58); [lia|]. rewrite !Z.eqb_refl. cbn. by rewrite bool_decide_true.
Qed.

Lemma field_differs_fields b o seq : field_differs b o seq = false <->
  Z.of_nat (length b) = op_frame_size o /\ byte_of b 14 = 69 /\ read16 b 16 = Z.of_nat (length b) - 14 /\ read16 b 20 = 16384 /\ byte_of b 22 = op_ttl o /\
  ip_checksum b = 0 /\ differs b 26 (le32 (op_source_ip o)) = false /\ differs b 30 (le32 (destination o seq)) = false /\
  read16 b 18 = u16 seq /\ read16 b 38 = Z.of_nat (length b) - 34 /\ read16 b 40 <> 0 /\ udp_packet_checksum b (length b - 34) = 0 /\
  read16 b 34 = u64 (op_source_port o + seq mod op_flows o) /\ read16 b 36 = u64 (op_destination_port o + seq mod op_flows o) /\
  differs b 0 (op_destination_mac o) = false /\ differs b 6 (op_source_mac o) = false.
Proof. unfold field_differs. rewrite !orb_false_iff, !negb_false_iff, !Z.eqb_eq, !truth_false, truth_true. tauto. Qed.

Section valid.
Context (o : options) (seq : Z) (Ho : options_ok o) (Hseq : is_u64 seq).

(** The flow of a sequence number keeps the ports in range. *)
Lemma flow_ports : let flow := u32 (seq mod op_flows o) in
  u64 (op_source_port o + seq mod op_flows o) = u32 (op_source_port o + flow) /\ u64 (op_destination_port o + seq mod op_flows o) = u32 (op_destination_port o + flow) /\
  is_u16 (u32 (op_source_port o + flow)) /\ is_u16 (u32 (op_destination_port o + flow)).
Proof using Ho.
  destruct Ho. assert (Hm := Z.mod_pos_bound seq (op_flows o) ltac:(lia)). cbv zeta. rewrite (u32_id (seq mod op_flows o)) by (unfold is_u32; lia).
  rewrite !u32_id, !u64_id by (unfold is_u32, is_u64; lia). unfold is_u16. lia.
Qed.

Lemma length_wire_frame tos ip_sum udp_sum : length (wire_frame o seq tos ip_sum udp_sum) = Z.to_nat (op_frame_size o).
Proof using Ho.
  unfold wire_frame. rewrite !length_app, length_fill, !length_be16. destruct Ho as [[-> _] [-> _]]. cbn [length le32 be32]. lia.
Qed.

Lemma u32_frame_size k : 0 <= k <= 60 -> u32 (op_frame_size o - k) = op_frame_size o - k.
Proof using Ho. intros. destruct Ho. apply u32_id. unfold is_u32. lia. Qed.

(** What the checks leave of a frame. *)
Ltac step16 i := rewrite (cut16 _ ltac:(eassumption) i) by lia; cbn [Nat.add].
Ltac step32 i := rewrite (cut32 _ ltac:(eassumption) i) by lia; cbn [Nat.add].

Lemma validate_frame b s0 : Forall is_u8 b -> packet_validate b o s0 = (1, seq) -> exists tos ip_sum udp_sum,
  b = wire_frame o seq tos ip_sum udp_sum /\ is_u8 tos /\ is_u16 ip_sum /\ is_u16 udp_sum /\ udp_sum <> 0 /\ ip_checksum b = 0 /\ udp_packet_checksum b (length b - 34) = 0.
Proof using Ho Hseq.
  intros Hb (Hl & H12 & H23 & H42 & H46 & H50 & (Hn & H14 & H16 & H20 & H22 & Hip & H26 & H30 & H18 & H38 & H40 & Hudp & H34 & H36 & Hdm & Hsm)%field_differs_fields & Hp)%packet_validate_fields.
  assert (B := fun k => byte_of_u8 b k Hb). assert (R : forall i, is_u16 (read16 b i)).
  { intros i. unfold read16, rd_be16. assert (B0 := B i). assert (B1 := B (i + 1)%nat). unfold is_u8, is_u16 in *. lia. }
  exists (byte_of b 15), (read16 b 24), (read16 b 40). split_and!; auto.
  destruct (read64_halves b Hb 50) as (Hs64 & Hhi & Hlo). destruct (sequence_halves _ _ Hhi Hlo) as [Ehi Elo]. rewrite Hs64, H50 in Ehi, Elo.
  destruct flow_ports as (Esp & Edp & _). destruct (ok_source_mac o Ho) as [Lsm _]. destruct (ok_destination_mac o Ho) as [Ldm _].
  assert (Ht : byte_of b 22 = u8 (op_ttl o)). { rewrite H22. symmetry. apply u8_id. unfold is_u8. assert (T := ok_ttl o Ho). lia. }
  unfold wire_frame. change b with (drop 0 b) at 1.
  rewrite (cut_bytes b 0 _ Hdm), Ldm. cbn [Nat.add]. rewrite (cut_bytes b 6 _ Hsm), Lsm. cbn [Nat.add].
  step16 12%nat. rewrite H12, (drop_byte b 14), (drop_byte b 15), H14 by lia.
  step16 16%nat. rewrite H16, Hn. step16 18%nat. rewrite H18. step16 20%nat. rewrite H20, (drop_byte b 22), (drop_byte b 23), Ht, H23 by lia. step16 24%nat.
  rewrite (cut_bytes b 26 _ H26). cbn [length le32 Nat.add]. rewrite (cut_bytes b 30 _ H30). cbn [length le32 Nat.add].
  step16 34%nat. rewrite H34, Esp. step16 36%nat. rewrite H36, Edp. step16 38%nat. rewrite H38, Hn. step16 40%nat.
  step32 42%nat. rewrite H42. step32 46%nat. rewrite H46. step32 50%nat. step32 54%nat. cbn [Nat.add] in Ehi, Elo. rewrite <- Ehi, <- Elo, Hp.
  rewrite !u32_frame_size by lia. replace (Z.to_nat (op_frame_size o)) with (length b) by lia. reflexivity.
Qed.

(** ** The checksums of a frame *)

Lemma be16_u8 x : Forall is_u8 (be16 x).
Proof using. repeat constructor; apply byte_at_range; lia. Qed.
Lemma be32_u8 x : Forall is_u8 (be32 x).
Proof using. repeat constructor; apply byte_at_range; lia. Qed.
Lemma le32_u8 x : Forall is_u8 (le32 x).
Proof using. repeat constructor; apply byte_at_range; lia. Qed.
Lemma fill_u8 first count s seed : Forall is_u8 (fill first count s seed).
Proof using. apply Forall_fmap, Forall_true. intros i. apply (Z.mod_pos_bound _ 256). lia. Qed.

Lemma frame_bytes tos ip_sum udp_sum : is_u8 tos -> Forall is_u8 (wire_frame o seq tos ip_sum udp_sum).
Proof using Ho.
  intros Ht. unfold wire_frame. assert (Hu : is_u8 (u8 (op_ttl o))) by (apply (Z.mod_pos_bound _ 256); lia). rewrite !Forall_app. split_and!; try apply be16_u8; try apply be32_u8; try apply le32_u8; try apply fill_u8; try apply Ho.
  - repeat (apply Forall_cons_2; [done || (unfold is_u8; lia)|]). apply Forall_nil_2.
  - repeat (apply Forall_cons_2; [done || (unfold is_u8; lia)|]). apply Forall_nil_2.
Qed.

Definition ip_words : Z := words (take 20 (drop 14 (wire_frame o seq 0 0 0))).
Definition udp_words : Z := words (take 8 (drop 26 (wire_frame o seq 0 0 0))) + 17 + (op_frame_size o - 34) + words (drop 34 (wire_frame o seq 0 0 0)).

Ltac open_frame :=
  destruct (address_bytes _ (ok_source_mac o Ho)) as (? & ? & ? & ? & ? & ? & Hs);
  destruct (address_bytes _ (ok_destination_mac o Ho)) as (? & ? & ? & ? & ? & ? & Hd);
  unfold wire_frame; rewrite Hs, Hd; cbv [be16 be32 le32 app take drop words].

Lemma frame_ip_words tos ip_sum udp_sum : is_u16 ip_sum -> words (take 20 (drop 14 (wire_frame o seq tos ip_sum udp_sum))) = ip_words + tos + ip_sum.
Proof using Ho.
  intros Hi. assert (E := bytes2_eq ip_sum Hi). assert (E0 := bytes2_eq 0 ltac:(unfold is_u16; lia)). unfold ip_words. open_frame. lia.
Qed.

Lemma frame_udp_words tos ip_sum udp_sum : is_u16 udp_sum ->
  words (take 8 (drop 26 (wire_frame o seq tos ip_sum udp_sum))) + 17 + (op_frame_size o - 34) + words (drop 34 (wire_frame o seq tos ip_sum udp_sum)) = udp_words + udp_sum.
Proof using Ho.
  intros Hi. assert (E := bytes2_eq udp_sum Hi). assert (E0 := bytes2_eq 0 ltac:(unfold is_u16; lia)). unfold udp_words. open_frame. lia.
Qed.

Lemma frame_words_bounds : 0 < ip_words <= 688128 /\ 0 < udp_words <= 52000000.
Proof using Ho.
  assert (Hb := frame_bytes 0 0 0 ltac:(unfold is_u8; lia)). assert (Hl := length_wire_frame 0 0 0). assert (Hf := ok_frame_size o Ho).
  assert (R : forall n l, Forall is_u8 l -> 0 <= words (take n l) <= 32768 * (Z.of_nat n + 1)).
  { intros n l H. assert (H' := words_range _ (Forall_take _ n l H)). rewrite length_take in H'. lia. }
  assert (H26 := R 8%nat _ (Forall_drop _ 26 _ Hb)). assert (H14 := R 20%nat _ (Forall_drop _ 14 _ Hb)).
  assert (H34 := words_range _ (Forall_drop _ 34 _ Hb)). rewrite length_drop, Hl in H34. unfold ip_words, udp_words. split; [|lia]. split; [|lia].
  rewrite <- (take_drop 2 (take 20 (drop 14 (wire_frame o seq 0 0 0)))), words_app; [|open_frame; reflexivity].
  assert (Hr := words_range _ (Forall_drop _ 2 _ (Forall_take _ 20 _ (Forall_drop _ 14 _ Hb)))).
  assert (E : words (take 2 (take 20 (drop 14 (wire_frame o seq 0 0 0)))) = 17664) by (open_frame; reflexivity). lia.
Qed.

Lemma frame_ip_checksum tos ip_sum udp_sum : is_u8 tos -> is_u16 ip_sum -> ip_checksum (wire_frame o seq tos ip_sum udp_sum) = fold (ip_words + tos + ip_sum).
Proof using Ho.
  intros Ht Hi. unfold ip_checksum, packet_checksum, sum. f_equal. rewrite <- (frame_ip_words tos ip_sum udp_sum Hi).
  destruct frame_words_bounds as [Hw _]. unfold is_u8, is_u16 in *. rewrite sum_words; [lia|apply Forall_take, Forall_drop, frame_bytes; done|lia|].
  rewrite (frame_ip_words tos ip_sum udp_sum Hi). lia.
Qed.

Lemma frame_udp_checksum tos ip_sum udp_sum : is_u8 tos -> is_u16 udp_sum ->
  udp_packet_checksum (wire_frame o seq tos ip_sum udp_sum) (Z.to_nat (op_frame_size o) - 34) = fold (udp_words + udp_sum).
Proof using Ho.
  intros Ht Hi. unfold udp_packet_checksum, sum. f_equal. assert (Hb := frame_bytes tos ip_sum udp_sum Ht). assert (Hf := ok_frame_size o Ho).
  assert (E := frame_udp_words tos ip_sum udp_sum Hi). destruct frame_words_bounds as [_ Hw]. unfold is_u8, is_u16 in *.
  rewrite (take_ge (drop 34 _)) by (rewrite length_drop, length_wire_frame; lia).
  assert (R8 := words_range _ (Forall_take _ 8 _ (Forall_drop _ 26 _ Hb))). assert (R34 := words_range _ (Forall_drop _ 34 _ Hb)).
  rewrite !sum_words by (first [apply Forall_take, Forall_drop | apply Forall_drop | idtac]; first [done | lia]).
  rewrite Nat2Z.inj_sub, Z2Nat.id by lia.
  unfold u32. rewrite Z.add_mod_idemp_l, <- Z.add_assoc, Z.add_mod_idemp_l, Z.mod_small by lia. lia.
Qed.

Lemma ip_sum_of_words : ip_sum_of o seq = fold ip_words.
Proof using Ho. unfold ip_sum_of. rewrite frame_ip_checksum by (unfold is_u8, is_u16; lia). f_equal. lia. Qed.
Lemma udp_sum_of_words : udp_sum_of o seq = if truth (fold udp_words) then fold udp_words else 65535.
Proof using Ho. unfold udp_sum_of. rewrite frame_udp_checksum by (unfold is_u8, is_u16; lia). by rewrite Z.add_0_r. Qed.

(** The sums that make a frame pass, those of [packet_build]. *)
Lemma ip_sum_unique s : is_u16 s -> fold (ip_words + 0 + s) = 0 /\ s <> 65535 <-> s = ip_sum_of o seq.
Proof using Ho.
  clear Hseq. intros Hs. rewrite ip_sum_of_words. destruct frame_words_bounds as [Hw _]. unfold is_u16 in Hs. assert (F := fold_complement ip_words s ltac:(lia) ltac:(lia) ltac:(lia)).
  destruct (fold_spec ip_words) as [Hr _]; [lia|]. rewrite Z.add_0_r, <- Z.eqb_eq, F, Z.eqb_eq. zlia.
Qed.
Lemma udp_sum_unique s : is_u16 s -> fold (udp_words + s) = 0 /\ s <> 0 <-> s = udp_sum_of o seq.
Proof using Ho.
  clear Hseq. intros Hs. rewrite udp_sum_of_words. destruct frame_words_bounds as [_ Hw]. unfold is_u16 in Hs. assert (F := fold_complement udp_words s ltac:(lia) ltac:(lia) ltac:(lia)).
  destruct (fold_spec udp_words) as [Hr _]; [lia|]. rewrite <- Z.eqb_eq, F, Z.eqb_eq. unfold truth. destruct (Z.eqb_spec (fold udp_words) 0); cbn [negb]; zlia.
Qed.

(** ** The frames that pass *)

Lemma sum_ranges : is_u16 (ip_sum_of o seq) /\ is_u16 (udp_sum_of o seq).
Proof using Ho.
  clear Hseq. rewrite ip_sum_of_words, udp_sum_of_words. destruct frame_words_bounds as [Hi Hu].
  destruct (fold_spec ip_words) as [Ri _]; [lia|]. destruct (fold_spec udp_words) as [Ru _]; [lia|]. unfold is_u16. destruct (truth _); lia.
Qed.

Lemma frame_valid s0 tos ip_sum udp_sum : is_u8 tos -> is_u16 ip_sum -> is_u16 udp_sum -> udp_sum <> 0 ->
  fold (ip_words + tos + ip_sum) = 0 -> fold (udp_words + udp_sum) = 0 -> packet_validate (wire_frame o seq tos ip_sum udp_sum) o s0 = (1, seq).
Proof using Ho Hseq.
  intros Ht Hi Hu Hnz Hip Hudp. assert (Hf := ok_frame_size o Ho). assert (Hl := length_wire_frame tos ip_sum udp_sum).
  assert (Ci := frame_ip_checksum tos ip_sum udp_sum Ht Hi). assert (Cu := frame_udp_checksum tos ip_sum udp_sum Ht Hu). rewrite Hip in Ci. rewrite Hudp in Cu.
  destruct flow_ports as (Esp & Edp & Rsp & Rdp).
  apply packet_validate_fields. rewrite field_differs_fields, Hl, Z2Nat.id by lia.
  destruct (address_bytes _ (ok_source_mac o Ho)) as (? & ? & ? & ? & ? & ? & Hs).
  destruct (address_bytes _ (ok_destination_mac o Ho)) as (? & ? & ? & ? & ? & ? & Hd).
  rewrite Esp, Edp. set (b := wire_frame o seq tos ip_sum udp_sum) in *.
  assert (D : forall i v, take (length v) (drop i b) = v -> differs b i v = false) by (intros i v E; unfold differs; by rewrite bool_decide_true).
  assert (R16 : forall i v, read16 b i = byte_at v 1 * 256 + byte_at v 0 -> is_u16 v -> read16 b i = v) by (intros i v -> Hv; by apply bytes2_eq).
  assert (R32 : forall i v, read32 b i = byte_at v 3 * 16777216 + byte_at v 2 * 65536 + byte_at v 1 * 256 + byte_at v 0 -> is_u32 v -> read32 b i = v) by (intros i v -> Hv; by apply bytes4_eq).
  assert (Hhi : read32 b 50 = Z.shiftr seq 32).
  { apply R32; [subst b; unfold wire_frame; rewrite Hs, Hd; reflexivity|]. rewrite Z.shiftr_div_pow2 by lia. change (2 ^ 32) with 4294967296. unfold is_u32. zlia. }
  assert (Hlo : read32 b (50 + 4) = u32 seq) by (apply R32; [subst b; unfold wire_frame; rewrite Hs, Hd; reflexivity|apply u32_range]).
  assert (Et : u8 (op_ttl o) = op_ttl o) by (apply u8_id; destruct Ho; unfold is_u8; lia).
  assert (E14 := u32_frame_size 14 ltac:(lia)). assert (E34 := u32_frame_size 34 ltac:(lia)).
  assert (I14 : is_u16 (u32 (op_frame_size o - 14))) by (unfold is_u16; lia). assert (I34 : is_u16 (u32 (op_frame_size o - 34))) by (unfold is_u16; lia).
  split_and!; try done; try lia.
  all: try (apply D; subst b; unfold wire_frame; rewrite Hs, Hd; reflexivity).
  all: try (subst b; unfold wire_frame; rewrite Hs, Hd; reflexivity).
  - apply R32; [subst b; unfold wire_frame; rewrite Hs, Hd; reflexivity|apply Ho].
  - unfold read64. rewrite Hhi, Hlo, lor_shiftl; [|lia|apply u32_range]. rewrite Z.shiftr_div_pow2 by lia. change (2 ^ 32) with 4294967296. zlia.
  - rewrite <- E14. apply R16; [subst b; unfold wire_frame; rewrite Hs, Hd; reflexivity|done].
  - rewrite <- Et. subst b; unfold wire_frame; rewrite Hs, Hd; reflexivity.
  - apply R16; [subst b; unfold wire_frame; rewrite Hs, Hd; reflexivity|apply u16_range].
  - rewrite <- E34. apply R16; [subst b; unfold wire_frame; rewrite Hs, Hd; reflexivity|done].
  - rewrite (R16 40%nat udp_sum); [done|subst b; unfold wire_frame; rewrite Hs, Hd; reflexivity|done].
  - apply R16; [subst b; unfold wire_frame; rewrite Hs, Hd; reflexivity|done].
  - apply R16; [subst b; unfold wire_frame; rewrite Hs, Hd; reflexivity|done].
Qed.

(** A frame passes the check for the sequence number [seq] exactly when it is the
    frame [packet_build] makes, but for the type of service, which is not checked,
    and a checksum written as minus zero. *)
Lemma valid_is_built b s0 : Forall is_u8 b ->
  (packet_validate b o s0 = (1, seq) /\ byte_of b 15 = 0 /\ read16 b 24 <> 65535) <-> b = packet_build o seq.
Proof using Ho Hseq.
  intros Hb. rewrite packet_build_frame by done. destruct sum_ranges as [Ri Ru].
  destruct (address_bytes _ (ok_source_mac o Ho)) as (? & ? & ? & ? & ? & ? & Hs).
  destruct (address_bytes _ (ok_destination_mac o Ho)) as (? & ? & ? & ? & ? & ? & Hd).
  assert (E15 : forall tos i u, byte_of (wire_frame o seq tos i u) 15 = tos) by (intros; unfold wire_frame; rewrite Hs, Hd; reflexivity).
  assert (E24 : forall tos i u, is_u16 i -> read16 (wire_frame o seq tos i u) 24 = i) by (intros tos i u Hi; transitivity (byte_at i 1 * 256 + byte_at i 0); [unfold wire_frame; rewrite Hs, Hd; reflexivity|by apply bytes2_eq]).
  split.
  - intros (Hv & H15 & H24). destruct (validate_frame b s0 Hb Hv) as (tos & i & u & -> & Ht & Hi & Hu & Hnz & Hip & Hudp).
    rewrite E15 in H15. rewrite E24 in H24 by done. subst tos. rewrite length_wire_frame in Hudp. rewrite frame_ip_checksum in Hip by done. rewrite frame_udp_checksum in Hudp by done.
    f_equal; [by apply ip_sum_unique|by apply udp_sum_unique].
  - intros ->. rewrite E15, E24 by done. destruct (proj2 (ip_sum_unique _ Ri) eq_refl) as [Fi Ni]. destruct (proj2 (udp_sum_unique _ Ru) eq_refl) as [Fu Nu].
    split; [|done]. by apply frame_valid.
Qed.
End valid.

(** * The options *)

(** What every option keeps: widths and addresses. *)
Record options_typed (o : options) : Prop := {
  ty_source_mac : address (op_source_mac o);
  ty_destination_mac : address (op_destination_mac o);
  ty_words : Forall is_u32 [op_source_ip o; op_destination_ip o; op_run o; op_flows o; op_destinations o; op_stride o; op_seed o; op_frame_size o; op_ttl o;
    op_source_port o; op_destination_port o; op_sequence_limit o; op_probe_run o; op_drop_mod o; op_drop_rem o; op_rate o]
}.

Lemma mac_address s m : mac s = Some m -> address m.
Proof.
  unfold mac. intros H. succeeds H. match goal with E : scan_mac _ _ = Some _ |- _ => apply scan_mac_bytes in E as [Hl _] end.
  split; [by rewrite length_fmap|]. apply Forall_fmap, Forall_true. intros v. apply (Z.mod_pos_bound _ 256). lia.
Qed.

Lemma option_value_typed duration_parse c optarg o o' : option_value duration_parse c optarg o = Some o' -> options_typed o -> options_typed o'.
Proof.
  intros H [Hs Hd Hw]. unfold option_value, unsigned_parse in H. rewrite !Forall_cons in Hw.
  assert (Hnum : forall v, number optarg UINT32_MAX = Some v -> is_u32 v) by (intros v [Hv Hv']%number_range; unfold UINT32_MAX, is_u32 in *; lia).
  destruct c as [[] [] [] [] [] [] [] []]; try discriminate H; succeeds H;
    (split; cbn [set_op_interface set_op_output set_op_pcap set_op_source_mac set_op_destination_mac op_source_mac op_destination_mac]; [first [done | by eapply mac_address] ..|]);
    rewrite !Forall_cons; naive_solver eauto using inet_pton_u32.
Qed.

Lemma option_loop_typed duration_parse found o o' : option_loop duration_parse found o = Some o' -> options_typed o -> options_typed o'.
Proof.
  revert o. induction found as [|[c optarg] found IH]; intros o H Ho; cbn in H; [by simplify_eq|]. apply bind_Some in H as (o1 & H1 & H). eauto using option_value_typed.
Qed.

Lemma default_options_typed : options_typed default_options.
Proof. split; [split; [done|] ..|]; compute_closed. Qed.

Lemma options_parse_ok duration_parse found rest o : options_parse duration_parse found rest = Some o -> options_ok o.
Proof.
  unfold options_parse. intros (o' & H & H')%bind_Some. apply option_loop_typed in H; [|apply default_options_typed]. destruct (options_refused rest o') eqn:E; [done|].
  injection H' as ->. destruct H as [Hs Hd Hw]. rewrite !Forall_cons in Hw. unfold options_refused in E. rewrite !orb_false_iff, andb_false_iff, truth_false, !Z.eqb_neq, !Z.ltb_ge, Z.leb_gt in E.
  unfold is_u32 in Hw. split; unfold is_u32; tauto || lia.
Qed.

(** * Payloads *)

Lemma payload_fill_eq n run seq seed p : length p = n -> (16 <= n)%nat ->
  payload_fill n run seq seed p = be32 BENCH_MAGIC ++ be32 run ++ be32 (Z.shiftr seq 32) ++ be32 (u32 seq) ++ fill 16 (n - 16) seq seed.
Proof.
  intros <- H. do 16 (destruct p as [|? p]; [cbn in H; lia|]). unfold payload_fill, put, write64, write32.
  replace (length _ - 16)%nat with (length p) by (cbn; lia). assert (Hl := length_fill 16 (length p) seq seed).
  set (F := fill _ _ _ _) in *. clearbody F. cbn [write_at take drop app length Nat.add be32]. by rewrite take_0, !drop_0, (drop_ge p), app_nil_r by lia.
Qed.

(** ** The claims *)

(** C37: whatever options a generator and a receiver were started with, a frame of
    any bytes passes the check of the receiver for a sequence number exactly when
    it is the frame the generator builds for it, apart from the type of service,
    which is not checked, and from a header checksum of minus zero. *)
Theorem packet_validate_exact duration_parse found rest o seq b s0 :
  options_parse duration_parse found rest = Some o -> is_u64 seq -> Forall is_u8 b ->
  (packet_validate b o s0 = (1, seq) /\ byte_of b 15 = 0 /\ read16 b 24 <> 65535) <-> b = packet_build o seq.
Proof. intros Ho%options_parse_ok Hs Hb. by apply valid_is_built. Qed.

(** The check of a datagram of the socket programs accepts exactly what
    [payload_fill] leaves alone. *)
Theorem payload_valid_exact p run seed seq s0 : Forall is_u8 p -> is_u32 run -> is_u64 seq ->
  payload_valid p run seed s0 = (true, seq) <-> (16 <= length p)%nat /\ payload_fill (length p) run seq seed p = p.
Proof.
  intros Hb Hr Hs. unfold payload_valid. destruct (Z.ltb_spec (Z.of_nat (length p)) 16) as [Hl|Hl]; cbn [orb].
  { split; [done|]. lia. }
  rewrite payload_fill_eq by lia. destruct (read64_halves p Hb 8) as (E64 & Hhi & Hlo). destruct (sequence_halves _ _ Hhi Hlo) as [Ehi Elo]. cbn [Nat.add] in *.
  assert (Ep : p = be32 (read32 p 0) ++ be32 (read32 p 4) ++ be32 (read32 p 8) ++ be32 (read32 p 12) ++ drop 16 p).
  { change p with (drop 0 p) at 1. do 4 (rewrite (cut32 p Hb) at 1 by lia; f_equal; cbn [Nat.add]). }
  split.
  - destruct (Z.eqb_spec (read32 p 0) BENCH_MAGIC) as [E0|]; [|done]. destruct (Z.eqb_spec (read32 p 4) run) as [E4|]; [|done]. cbn [negb orb].
    intros [= Hd%bool_decide_eq_true Es]. split; [lia|]. rewrite Ep at 2. rewrite E0, E4, Hd. rewrite <- Es, <- E64, Ehi, Elo. done.
  - intros [_ E].
    assert (Hw : read32 p 0 = BENCH_MAGIC /\ read32 p 4 = run /\ read32 p 8 = Z.shiftr seq 32 /\ read32 p 12 = u32 seq /\ drop 16 p = fill 16 (length p - 16) seq seed).
    { set (F := fill _ _ _ _) in *. clearbody F. rewrite <- E. split_and!; [reflexivity|..|reflexivity]; (etransitivity; [|apply bytes4_eq]; [reflexivity|]); [done| |apply u32_range].
      rewrite Z.shiftr_div_pow2 by lia. change (2 ^ 32) with 4294967296. unfold is_u32. zlia. }
    destruct Hw as (E0 & E4 & E8 & E12 & E16). rewrite E0, E4, !Z.eqb_refl. cbn [negb orb].
    assert (Es : read64 p 8 = seq). { rewrite <- E64, E8, E12, Z.shiftr_div_pow2 by lia. change (2 ^ 32) with 4294967296. zlia. }
    rewrite Es. f_equal. by apply bool_decide_eq_true.
Qed.

Module WireSample.

Definition found : list (ascii * string) :=
  [("i"%char, "eth0"%string); ("o"%char, "out.json"%string); ("s"%char, "10.0.0.1"%string); ("d"%char, "10.0.1.1"%string);
   ("M"%char, "02:00:00:00:00:01"%string); ("z"%char, "64"%string); ("f"%char, "4"%string); ("p"%char, "random"%string); ("n"%char, "32"%string)].
Definition sample : options := Eval vm_compute in default default_options (options_parse (fun _ => None) found false).

Lemma packet_validate_exact_witness : packet_validate (packet_build sample 9) sample 0 = (1, 9) /\ byte_of (packet_build sample 9) 15 = 0 /\ read16 (packet_build sample 9) 24 <> 65535.
Proof. apply (packet_validate_exact (fun _ => None) found false sample 9 (packet_build sample 9) 0); [reflexivity|unfold is_u64; lia|compute_closed|reflexivity]. Defined.
End WireSample.
