(* ===== verification/Traffic.v ===== *)
(** The traffic benchmarks: [bench/traffic_generator.c], [bench/traffic_receiver.c],
    [bench/traffic_probe.c] and the latency samples of [bench/latency.h].  What
    the kernel answers and the clocks read are arguments; a frame handed to [send]
    is kept in the list of the frames sent. *)
From S2P Require Import Prelude.
From S2P Require Import Dpdk.
From S2P Require Import Types.
From S2P Require Import Text.
From S2P Require Import AdminParse.
From S2P Require Import Control.
From S2P Require Import Wire.

(** [x++] on a 64-bit counter, and [x += n]. *)
Definition counted (x n : Z) : Z := u64 (x + n).

(** * The generator *)

Record generator : Type := mk_generator {
  ge_packets : Z;
  ge_bytes : Z;
  ge_retries : Z;
  ge_sent : list (list Z)
}.
Definition generator0 : generator := mk_generator 0 0 0 [].

(** The size of the next batch. *)
Definition batch_size (o : options) (packets : Z) : Z :=
  let batch := if truth (op_rate o) then u32 (op_rate o / 10000) else BENCH_BATCH in
  let batch := if batch =? 0 then 1 else batch in
  let batch := if BENCH_BATCH <? batch then BENCH_BATCH else batch in
  if op_sequence_limit o - packets <? batch then u32 (op_sequence_limit o - packets) else batch.

Definition batch_frames (o : options) (packets batch : Z) : list (list Z) :=
  (fun i => packet_build o (u64 (packets + i))) <$> seqZ 0 batch.

(** One round: [sendmmsg] takes the first frames of the batch or fails. *)
Definition generate_round (o : options) (answer : io_result Z) (g : generator) : option generator :=
  let batch := batch_size o (ge_packets g) in
  match answer with
  | Answered n => Some (mk_generator (counted (ge_packets g) n) (counted (ge_bytes g) (u64 (n * op_frame_size o))) (ge_retries g)
                         (ge_sent g ++ take (Z.to_nat n) (batch_frames o (ge_packets g) batch)))
  | Failed e => if (e =? EAGAIN) || (e =? ENOBUFS) || (e =? EINTR) then Some (mk_generator (ge_packets g) (ge_bytes g) (counted (ge_retries g) 1) (ge_sent g)) else None
  end.

(** The loop: it ends with the answers, at the deadline or when stopped, or at the
    sequence limit. *)
Fixpoint generate (o : options) (answers : list (io_result Z)) (g : generator) : option generator :=
  match answers with
  | [] => Some g
  | answer :: answers' => if op_sequence_limit o <=? ge_packets g then Some g else g ← generate_round o answer g; generate o answers' g
  end.

(** The exit status of the generator and the highest sequence number it reports. *)
Definition generator_status (o : options) (g : generator) : Z := if ge_packets g =? op_sequence_limit o then 3 else 0.
Definition generator_highest (g : generator) : Z := if truth (ge_packets g) then ge_packets g - 1 else 0.

(** * The receiver *)

Record receiver : Type := mk_receiver {
  re_seen : list Z;
  re_m : metrics;
  re_high : Z;
  re_sent : list (list Z);
  re_pcap : list (list Z)
}.
Definition set_re_seen (v : list Z) (r : receiver) : receiver := mk_receiver v (re_m r) (re_high r) (re_sent r) (re_pcap r).
Definition set_re_m (v : metrics) (r : receiver) : receiver := mk_receiver (re_seen r) v (re_high r) (re_sent r) (re_pcap r).
Definition set_re_high (v : Z) (r : receiver) : receiver := mk_receiver (re_seen r) (re_m r) v (re_sent r) (re_pcap r).
Definition set_re_sent (v : list (list Z)) (r : receiver) : receiver := mk_receiver (re_seen r) (re_m r) (re_high r) v (re_pcap r).
Definition set_re_pcap (v : list (list Z)) (r : receiver) : receiver := mk_receiver (re_seen r) (re_m r) (re_high r) (re_sent r) v.

Definition no_metrics : metrics := mk_metrics 0 0 0 0 0 0 0 0 0 0 0 0 0 0 0 0 0 0 0 0.
(** [calloc((sequence_limit + 7) / 8, 1)] and the cleared counters. *)
Definition receiver0 (o : options) (start : Z) : receiver :=
  mk_receiver (replicate (Z.to_nat ((op_sequence_limit o + 7) / 8)) 0) (no_metrics |> set_me_start_ns start) 0 [] [].

Definition send_frame (f : list Z) (r : receiver) : receiver := r |> set_re_sent (re_sent r ++ [f]).
Definition on_m (f : metrics -> metrics) (r : receiver) : receiver := r |> set_re_m (f (re_m r)).

Definition is_arp_request (p : list Z) : bool :=
  negb ((Z.of_nat (length p) <? 42) || negb (read16 p 12 =? 2054) || negb (read16 p 14 =? 1) || negb (read16 p 16 =? 2048) ||
        negb (byte_of p 18 =? 6) || negb (byte_of p 19 =? 4) || negb (read16 p 20 =? 1)).

Definition arp_answer (o : options) (p : list Z) : list Z :=
  replicate 60 0 |> put 0 (take 42 p) |> put 0 (take 6 (drop 22 p)) |> put 6 (op_destination_mac o) |> write16 20 2
    |> put 22 (op_destination_mac o) |> put 28 (take 4 (drop 38 p)) |> put 32 (take 6 (drop 22 p)) |> put 38 (take 4 (drop 28 p)).

(** [arp_reply]; [sent] says whether [send] took the 60 bytes. *)
Definition receiver_arp (o : options) (p : list Z) (sent : bool) (r : receiver) : receiver :=
  if negb (is_arp_request p) then r else
  let r := r |> on_m (fun m => m |> set_me_arp_requests (counted (me_arp_requests m) 1)) in
  if negb (op_arp o) then r else
  let r := r |> send_frame (arp_answer o p) in
  if sent then r |> on_m (fun m => m |> set_me_arp (counted (me_arp m) 1)) else r.

(** [echo]: addresses and ports swapped, a new time to live, both checksums. *)
Definition echo_ip (p : list Z) : list Z :=
  let p := p |> put 0 (take 6 (drop 6 p)) |> put 6 (take 6 p) in
  let p := p |> put 26 (take 4 (drop 30 p)) |> put 30 (take 4 (drop 26 p)) in
  let p := p |> write16 34 (read16 p 36) |> write16 36 (read16 p 34) |> put 22 [64] |> write16 24 0 in
  p |> write16 24 (ip_checksum p) |> write16 40 0.
Definition echo (p : list Z) : list Z :=
  let q := echo_ip p in
  let sum := udp_packet_checksum q (length p - 34) in
  q |> write16 40 (if truth sum then sum else 65535).

Definition is_probe (o : options) (p : list Z) : bool :=
  truth (op_probe_run o) && (58 <=? Z.of_nat (length p)) && (read32 p 42 =? BENCH_MAGIC) && (read32 p 46 =? op_probe_run o).
Definition probe_options (o : options) : options :=
  o |> set_op_run (op_probe_run o) |> set_op_flows 1 |> set_op_destinations 1 |> set_op_pattern 0.

Definition dropped (o : options) (seq : Z) : bool := truth (op_drop_mod o) && (seq mod op_drop_mod o =? op_drop_rem o).
Definition seen_bit (seen : list Z) (seq : Z) : bool := truth (Z.land (byte_of seen (Z.to_nat (seq / 8))) (Z.shiftl 1 (seq mod 8))).
Definition mark (seen : list Z) (seq : Z) : list Z :=
  <[Z.to_nat (seq / 8) := Z.lor (byte_of seen (Z.to_nat (seq / 8))) (u8 (Z.shiftl 1 (seq mod 8)))]> seen.

(** A sequence number seen for the first time. *)
Definition receive_unique (capture : bool) (at_ns : Z) (p : list Z) (seq : Z) (r : receiver) : receiver :=
  let r := r |> set_re_seen (mark (re_seen r) seq) |> on_m (fun m => m |> set_me_unique (counted (me_unique m) 1)) in
  let r := if seq <? re_high r then r |> on_m (fun m => m |> set_me_reordered (counted (me_reordered m) 1)) else r in
  let r := if re_high r <? seq then r |> set_re_high seq else r in
  let r := r |> on_m (fun m => m |> set_me_highest_sequence (re_high r)) in
  let r := if me_first_ns (re_m r) =? 0 then r |> on_m (set_me_first_ns at_ns) else r in
  let r := r |> on_m (set_me_last_ns at_ns) in
  if capture && (me_unique (re_m r) <=? 16) then r |> set_re_pcap (re_pcap r ++ [p]) else r.

(** A frame that passed the check. *)
Definition receive_valid (o : options) (at_ns : Z) (p : list Z) (seq : Z) (r : receiver) : receiver :=
  let r := r |> on_m (fun m => m |> set_me_packets (counted (me_packets m) 1) |> set_me_bytes (counted (me_bytes m) (Z.of_nat (length p)))) in
  if op_sequence_limit o <=? seq then r |> on_m (fun m => m |> set_me_out_of_range (counted (me_out_of_range m) 1)) else
  if dropped o seq then r |> on_m (fun m => m |> set_me_invalid (counted (me_invalid m) 1)) else
  if seen_bit (re_seen r) seq then r |> on_m (fun m => m |> set_me_duplicates (counted (me_duplicates m) 1)) else
  receive_unique (negb (empty (op_pcap o))) at_ns p seq r.

(** One received frame. *)
Definition receive_frame (o : options) (at_ns : Z) (p : list Z) (arp_sent : bool) (r : receiver) : receiver :=
  let r := receiver_arp o p arp_sent r in
  if is_probe o p then
    if (packet_validate p (probe_options o) 0).1 =? 1 then
      let r := if op_echo o then r |> send_frame (echo p) else r in
      r |> on_m (fun m => m |> set_me_probes (counted (me_probes m) 1))
    else r |> on_m (fun m => m |> set_me_invalid (counted (me_invalid m) 1))
  else
  let '(valid, seq) := packet_validate p o 0 in
  if valid =? 0 then r else
  if valid =? 2 then r |> on_m (fun m => m |> set_me_unexpected (counted (me_unexpected m) 1)) else
  if valid <? 0 then r |> on_m (fun m => m |> set_me_invalid (counted (me_invalid m) 1)) else
  receive_valid o at_ns p seq r.

(** One round of the receiver: what [recvmmsg] gave, when, and the time of the
    snapshot if one was asked for. *)
Record reception : Type := mk_reception {
  rn_frames : io_result (list (list Z * bool));
  rn_at : Z;
  rn_snapshot : option Z
}.

Definition receive_round (o : options) (n : reception) (r : receiver) : option receiver :=
  let batch := fun frames => foldl (fun r '(p, sent) => receive_frame o (rn_at n) p sent r) r frames in
  let snapshot := fun r => match rn_snapshot n with Some t => r |> on_m (set_me_end_ns t) | None => r end in
  match rn_frames n with
  | Answered frames => Some (snapshot (batch frames))
  | Failed e => if (e =? EAGAIN) || (e =? EINTR) then Some (snapshot r) else None
  end.

Fixpoint receive (o : options) (rounds : list reception) (r : receiver) : option receiver :=
  match rounds with
  | [] => Some r
  | n :: rounds' => r ← receive_round o n r; receive o rounds' r
  end.

(** The report after the loop; [stats] are the counters of the socket, if it has
    them. *)
Definition report (o : options) (end_ns : Z) (stats : option (Z * Z)) (r : receiver) : metrics :=
  let m := re_m r in
  let high := re_high r in
  let m := m |> set_me_missing_below_highest (if truth (me_unique m) then u64 (high + 1 - me_unique m) else 0) in
  let m := if truth (me_unique m) && truth (op_drop_mod o) then
      let eligible := if op_drop_rem o <=? high then (high - op_drop_rem o) / op_drop_mod o + 1 else 0 in
      m |> set_me_missing_below_highest (u64 (me_missing_below_highest m - eligible))
    else m in
  let m := m |> set_me_end_ns end_ns in
  match stats with Some (packets, drops) => m |> set_me_kernel_packets packets |> set_me_kernel_drops drops | None => m end.

(** * The probe *)

Definition LATENCY_CAPACITY : Z := 1000000.
Record latency : Type := mk_latency { la_values : list Z; la_total : Z; la_random : Z; la_maximum : Z }.
Definition latency0 : latency := mk_latency [] 0 42 0.

(** [latency_add] with the memory it asks for: the samples are the first
    [la_count], the length of the list. *)
Definition latency_add (value : Z) (s : latency) : latency :=
  let total := counted (la_total s) 1 in
  let maximum := if la_maximum s <? value then value else la_maximum s in
  if Z.of_nat (length (la_values s)) <? LATENCY_CAPACITY then mk_latency (la_values s ++ [value]) total (la_random s) maximum else
  let random := u64 (la_random s * 6364136223846793005 + 1) in
  let i := random mod total in
  mk_latency (if i <? LATENCY_CAPACITY then <[Z.to_nat i := value]> (la_values s) else la_values s) total random maximum.

(** What a probe expects back: everything swapped, one hop later. *)
Definition reply_options (o : options) : options :=
  o |> set_op_source_ip (op_destination_ip o) |> set_op_destination_ip (op_source_ip o)
    |> set_op_source_mac (op_destination_mac o) |> set_op_destination_mac (op_source_mac o)
    |> set_op_source_port (op_destination_port o) |> set_op_destination_port (op_source_port o) |> set_op_ttl 63.

Record probing : Type := mk_probe { pr_sent : Z; pr_received : Z; pr_invalid : Z; pr_latency : latency; pr_frames : list (list Z) }.
Definition probe0 : probing := mk_probe 0 0 0 latency0 [].

(** The wait for the answer to [expected]: what [recv] gives until the quarter of
    a second is over, each with the time since the probe was sent. *)
Fixpoint await (o : options) (expected : Z) (inputs : list (option (list Z) * Z)) (s : probing) : probing :=
  match inputs with
  | [] => s
  | (None, _) :: inputs' => await o expected inputs' s
  | (Some input, elapsed) :: inputs' =>
    let '(rc, seq) := packet_validate input (reply_options o) 0 in
    let s := if rc <? 0 then mk_probe (pr_sent s) (pr_received s) (counted (pr_invalid s) 1) (pr_latency s) (pr_frames s) else s in
    if (rc =? 1) && (seq =? expected) then mk_probe (pr_sent s) (counted (pr_received s) 1) (pr_invalid s) (latency_add elapsed (pr_latency s)) (pr_frames s)
    else await o expected inputs' s
  end.

(** One probe: [n] is the answer of [send], [errno] what it leaves there. *)
Definition probe_round (o : options) (n errno : Z) (inputs : list (option (list Z) * Z)) (s : probing) : option probing :=
  if negb (n =? op_frame_size o) then (if errno =? EAGAIN then Some s else None) else
  Some (await o (pr_sent s) inputs (mk_probe (counted (pr_sent s) 1) (pr_received s) (pr_invalid s) (pr_latency s) (pr_frames s ++ [packet_build o (pr_sent s)]))).
