(* ===== verification/TrafficSpec.v ===== *)
(** The traffic benchmarks: the generator sends the frames of the sequence numbers
    in order, the receiver counts what arrives exactly, and an echoed probe is the
    frame the probe waits for. *)
From Stdlib Require Import Ascii.
From S2P Require Import Prelude.
From S2P Require Import Dpdk.
From S2P Require Import Types.
From S2P Require Import Text.
From S2P Require Import AdminParse.
From S2P Require Import Control.
From S2P Require Import Wire.
From S2P Require Import WireSpec.
From S2P Require Import Traffic.

(** * The generator *)

(** [sendmmsg] takes part of the batch. *)
Definition batch_answer (o : options) (g : generator) (answer : io_result Z) : Prop :=
  match answer with Answered n => 0 <= n <= batch_size o (ge_packets g) | Failed _ => True end.
Fixpoint batch_answers (o : options) (answers : list (io_result Z)) (g : generator) : Prop :=
  match answers with
  | [] => True
  | answer :: answers' => batch_answer o g answer /\ match generate_round o answer g with Some g' => batch_answers o answers' g' | None => True end
  end.

Record generated (o : options) (g : generator) : Prop := {
  gd_packets : 0 <= ge_packets g <= op_sequence_limit o;
  gd_sent : ge_sent g = packet_build o <$> seqZ 0 (ge_packets g);
  gd_bytes : ge_bytes g = ge_packets g * op_frame_size o
}.

Lemma batch_size_range o packets : options_ok o -> 0 <= packets < op_sequence_limit o -> 0 < batch_size o packets <= op_sequence_limit o - packets.
Proof.
  intros Ho Hp. destruct Ho. unfold batch_size. assert (Hr := u32_range (op_rate o / 10000)). unfold is_u32, BENCH_BATCH in *.
  set (b := if truth (op_rate o) then _ else _). assert (Hb : 0 <= b) by (unfold b; destruct (truth _); lia). clearbody b.
  destruct (Z.eqb_spec b 0); cbv zeta; repeat match goal with |- context [?x <? ?y] => destruct (Z.ltb_spec x y) end; try lia; rewrite u32_id by (unfold is_u32; lia); lia.
Qed.

Lemma seqZ_prefix n m : 0 <= n <= m -> take (Z.to_nat n) (seqZ 0 m) = seqZ 0 n.
Proof.
  intros H. replace m with (n + (m - n)) by lia. rewrite seqZ_app by lia. rewrite take_app_length'; [done|]. rewrite length_seqZ. lia.
Qed.

Lemma generate_round_ok o answer g g' : options_ok o -> generated o g -> ge_packets g < op_sequence_limit o -> batch_answer o g answer ->
  generate_round o answer g = Some g' -> generated o g'.
Proof.
  intros Ho [Hp Hs Hb] Hlt Ha H. assert (Hr := batch_size_range o (ge_packets g) Ho ltac:(lia)). destruct (ok_sequence_limit o Ho). destruct (ok_frame_size o Ho).
  unfold generate_round in H. destruct answer as [n|e]; [|destruct (_ || _); [|done]; injection H as <-; by split].
  injection H as <-. cbn in Ha. unfold counted. assert (0 <= n * op_frame_size o <= 256000000 * 1514) by nia. assert (0 <= ge_packets g * op_frame_size o <= 256000000 * 1514) by nia.
  assert (En : u64 (ge_packets g + n) = ge_packets g + n) by (apply u64_id; unfold is_u64; lia). split; cbn [ge_packets ge_sent ge_bytes]; rewrite En; [lia|..].
  - rewrite Hs. unfold batch_frames. rewrite <- fmap_take, seqZ_prefix by lia. rewrite seqZ_app by lia. rewrite fmap_app. f_equal.
    rewrite (Z.add_comm 0), <- (fmap_add_seqZ (ge_packets g) 0), <- list_fmap_compose. apply list_fmap_ext. intros i x Hx.
    apply lookup_seqZ in Hx. unfold compose. f_equal. apply u64_id. unfold is_u64. lia.
  - rewrite Hb, (u64_id (n * _)) by (unfold is_u64; lia). rewrite u64_id by (unfold is_u64; lia). lia.
Qed.

(** Whatever [sendmmsg] takes, what was sent are the frames of the first sequence
    numbers, each once and in order. *)
Lemma generate_ok o answers g g' : options_ok o -> generated o g -> batch_answers o answers g -> generate o answers g = Some g' -> generated o g'.
Proof.
  intros Ho. revert g. induction answers as [|answer answers IH]; intros g Hg Ha H; cbn in H, Ha; [by simplify_eq|].
  destruct (Z.leb_spec (op_sequence_limit o) (ge_packets g)); [by simplify_eq|]. apply bind_Some in H as (g1 & H1 & H). destruct Ha as [Ha Ha']. rewrite H1 in Ha'.
  eauto using generate_round_ok.
Qed.

Lemma generated0 o : options_ok o -> generated o generator0.
Proof. intros Ho. destruct (ok_sequence_limit o Ho). split; cbn; [lia|done|done]. Qed.

(** * Probes *)

(** The options of the frame an echo makes of one of the options [o]. *)
Definition echoed (o : options) : options := reply_options o |> set_op_ttl 64.

Lemma echoed_ok o : options_ok o -> options_ok (echoed o).
Proof. intros [? ? ? ? ? ? ? ? ? ? ? ? ?]. by split. Qed.

(** With one destination every frame goes there. *)
Lemma one_destination o seq : op_destinations o = 1 -> is_u32 (op_destination_ip o) -> destination o seq = op_destination_ip o.
Proof.
  intros H Hd. unfold destination. rewrite H, Z.mod_1_r. change (u32 (u32 0 * op_stride o)) with 0. rewrite Z.add_0_r, u32_id by apply bswap32_range. by apply bswap32_involutive.
Qed.

Lemma echo_ip_frame o seq ip_sum udp_sum : options_ok o -> op_destinations o = 1 ->
  echo_ip (wire_frame o seq 0 ip_sum udp_sum) = wire_frame (echoed o) seq 0 (ip_sum_of (echoed o) seq) 0.
Proof.
  intros Ho H1. destruct (flow_ports o seq Ho) as (_ & _ & Hsp & Hdp). 
  assert (Ed := one_destination o seq H1 (ok_destination_ip o Ho)). assert (Er := one_destination (echoed o) seq H1 (ok_source_ip o Ho)).
  set (F := fill 16 (Z.to_nat (op_frame_size o) - 58) seq (op_seed o)).
  destruct (address_bytes _ (ok_source_mac o Ho)) as (a & b & c & d & e & f & Hs).
  destruct (address_bytes _ (ok_destination_mac o Ho)) as (a' & b' & c' & d' & e' & f' & Hd).
  transitivity (wire_frame (echoed o) seq 0 0 udp_sum |> write16 24 (ip_checksum (wire_frame (echoed o) seq 0 0 udp_sum)) |> write16 40 0).
  - unfold wire_frame, echo_ip. rewrite Ed, Er. cbn [echoed reply_options op_source_mac op_destination_mac op_source_ip op_destination_ip op_source_port op_destination_port op_ttl op_frame_size op_seed op_run op_flows
      set_op_source_ip set_op_destination_ip set_op_source_mac set_op_destination_mac set_op_source_port set_op_destination_port set_op_ttl]. rewrite Hs, Hd. fold F. clearbody F.
    set (sp := u32 (op_source_port o + _)) in *. set (dp := u32 (op_destination_port o + _)) in *. clearbody sp dp.
    cbv [put write16 write_at take drop app length Nat.add be16 be32 le32 read16 rd_be16 byte_of lookup list_lookup default id].
    rewrite !bytes2_eq by done. reflexivity.
  - rewrite (ip_checksum_ext _ (wire_frame (echoed o) seq 0 0 0)).
    + unfold ip_sum_of. generalize (ip_checksum (wire_frame (echoed o) seq 0 0 0)). intros s. unfold wire_frame. cbn [op_source_mac op_destination_mac echoed reply_options
        set_op_source_ip set_op_destination_ip set_op_source_mac set_op_destination_mac set_op_source_port set_op_destination_port set_op_ttl]. rewrite Hs, Hd. reflexivity.
    + unfold wire_frame. cbn [op_source_mac op_destination_mac echoed reply_options
        set_op_source_ip set_op_destination_ip set_op_source_mac set_op_destination_mac set_op_source_port set_op_destination_port set_op_ttl]. rewrite Hs, Hd. reflexivity.
Qed.

(** An echoed probe is exactly the frame of the probe with addresses and ports
    swapped. *)
Theorem echo_is_reply o seq : options_ok o -> op_destinations o = 1 -> echo (packet_build o seq) = packet_build (echoed o) seq.
Proof.
  intros Ho H1. rewrite !packet_build_frame by (done || by apply echoed_ok). unfold echo. rewrite echo_ip_frame, length_wire_frame by done.
  assert (Hu : udp_packet_checksum (wire_frame (echoed o) seq 0 (ip_sum_of (echoed o) seq) 0) (Z.to_nat (op_frame_size o) - 34) = udp_packet_checksum (wire_frame (echoed o) seq 0 0 0) (Z.to_nat (op_frame_size (echoed o)) - 34)).
  { apply udp_checksum_ext. generalize (ip_sum_of (echoed o) seq). intros s. unfold wire_frame.
    destruct (address_bytes _ (ok_source_mac _ (echoed_ok o Ho))) as (a & b & c & d & e & f & ->).
    destruct (address_bytes _ (ok_destination_mac _ (echoed_ok o Ho))) as (a' & b' & c' & d' & e' & f' & ->). reflexivity. }
  rewrite Hu. unfold udp_sum_of. generalize (udp_packet_checksum (wire_frame (echoed o) seq 0 0 0) (Z.to_nat (op_frame_size (echoed o)) - 34)) (ip_sum_of (echoed o) seq). intros u s.
  unfold wire_frame. destruct (address_bytes _ (ok_source_mac _ (echoed_ok o Ho))) as (a & b & c & d & e & f & ->).
  destruct (address_bytes _ (ok_destination_mac _ (echoed_ok o Ho))) as (a' & b' & c' & d' & e' & f' & ->). reflexivity.
Qed.

(** * The receiver *)

(** What a frame is to a receiver. *)
Inductive verdict : Type :=
| Probe
| BadProbe
| Ignored
| Unexpected
| Invalid
| Beyond
| Dropped
| Counted (seq : Z).

Definition judge (o : options) (p : list Z) : verdict :=
  if is_probe o p then (if (packet_validate p (probe_options o) 0).1 =? 1 then Probe else BadProbe) else
  let '(valid, seq) := packet_validate p o 0 in
  if valid =? 0 then Ignored else if valid =? 2 then Unexpected else if valid <? 0 then Invalid else
  if op_sequence_limit o <=? seq then Beyond else if dropped o seq then Dropped else Counted seq.

(** How many verdicts are of a kind, and the sequence numbers that count. *)
Definition tally (kind : verdict -> bool) (vs : list verdict) : Z := sum_list_Z (b2z ∘ kind <$> vs).
Definition numbers (vs : list verdict) : list Z := omap (fun v => match v with Counted s => Some s | _ => None end) vs.

(** The sequence numbers up to [high] the receiver waits for. *)
Definition awaited (o : options) (high : Z) : gset Z := list_to_set (filter (fun s => dropped o s = false) (seqZ 0 (high + 1))).

Record counts (vs : list verdict) (m : metrics) : Prop := {
  co_packets : me_packets m = u64 (tally (fun v => match v with Beyond | Dropped | Counted _ => true | _ => false end) vs);
  co_invalid : me_invalid m = u64 (tally (fun v => match v with BadProbe | Invalid | Dropped => true | _ => false end) vs);
  co_unexpected : me_unexpected m = u64 (tally (fun v => match v with Unexpected => true | _ => false end) vs);
  co_out_of_range : me_out_of_range m = u64 (tally (fun v => match v with Beyond => true | _ => false end) vs);
  co_probes : me_probes m = u64 (tally (fun v => match v with Probe => true | _ => false end) vs);
  co_unique : me_unique m = Z.of_nat (size (list_to_set (numbers vs) : gset Z));
  co_duplicates : me_duplicates m = u64 (Z.of_nat (length (numbers vs)) - Z.of_nat (size (list_to_set (numbers vs) : gset Z)))
}.

Record tracks (o : options) (vs : list verdict) (r : receiver) : Prop := {
  tr_counts : counts vs (re_m r);
  tr_length : Z.of_nat (length (re_seen r)) = (op_sequence_limit o + 7) / 8;
  tr_seen : forall s, 0 <= s < op_sequence_limit o -> seen_bit (re_seen r) s = bool_decide (s ∈ numbers vs);
  tr_numbers : Forall (fun s => 0 <= s < op_sequence_limit o /\ dropped o s = false) (numbers vs);
  tr_high : 0 <= re_high r /\ Forall (fun s => s <= re_high r) (numbers vs) /\ (numbers vs <> [] -> re_high r ∈ numbers vs) /\ (numbers vs = [] -> re_high r = 0);
  tr_highest : me_highest_sequence (re_m r) = re_high r
}.

Lemma tally_app kind vs v : tally kind (vs ++ [v]) = tally kind vs + b2z (kind v).
Proof. unfold tally. rewrite fmap_app. unfold sum_list_Z. rewrite foldr_app. cbn. induction (_ <$> vs) as [|x l IH]; cbn in *; lia. Qed.
Lemma counted_u64 a n : counted (u64 a) n = u64 (a + n).
Proof. unfold counted. zlia. Qed.
Lemma numbers_app vs v : numbers (vs ++ [v]) = numbers vs ++ match v with Counted s => [s] | _ => [] end.
Proof. unfold numbers. rewrite omap_app. by destruct v. Qed.

(** ** The bitmap *)

Lemma land_bit x k : 0 <= k -> truth (Z.land x (Z.shiftl 1 k)) = Z.testbit x k.
Proof.
  intros Hk. rewrite Z.shiftl_1_l. apply eq_true_iff_eq. rewrite truth_true. split.
  - intros H. destruct (Z.testbit x k) eqn:E; [done|]. destruct H. apply Z.bits_inj'. intros i Hi. rewrite Z.land_spec, Z.bits_0, Z.pow2_bits_eqb by done.
    destruct (Z.eqb_spec k i) as [->|]; [by rewrite E|apply andb_false_r].
  - intros E H. assert (B := f_equal (fun y => Z.testbit y k) H). cbn in B. rewrite Z.land_spec, Z.pow2_bits_true, E, Z.bits_0 in B by done. done.
Qed.

Lemma seen_bit_testbit seen s : 0 <= s -> seen_bit seen s = Z.testbit (byte_of seen (Z.to_nat (s / 8))) (s mod 8).
Proof. intros. unfold seen_bit. apply land_bit. apply Z.mod_pos_bound. lia. Qed.

Lemma byte_of_insert l i x j : (i < length l)%nat -> byte_of (<[i := x]> l) j = if decide (i = j) then x else byte_of l j.
Proof. intros H. unfold byte_of. destruct (decide (i = j)) as [->|]; [by rewrite list_lookup_insert_eq|by rewrite list_lookup_insert_ne]. Qed.

Lemma seen_mark o seen s t : Z.of_nat (length seen) = (op_sequence_limit o + 7) / 8 -> 0 <= s < op_sequence_limit o -> 0 <= t ->
  seen_bit (mark seen s) t = (s =? t) || seen_bit seen t.
Proof.
  intros Hl Hs Ht. rewrite !seen_bit_testbit by done. unfold mark.
  assert (Hi : (Z.to_nat (s / 8) < length seen)%nat) by zlia. rewrite byte_of_insert by done.
  assert (Hk := Z.mod_pos_bound s 8 ltac:(lia)). assert (Hk' := Z.mod_pos_bound t 8 ltac:(lia)).
  destruct (decide _) as [E|E].
  - assert (E8 : s / 8 = t / 8) by zlia. rewrite E. rewrite u8_id.
    + rewrite Z.lor_spec, Z.shiftl_1_l, Z.pow2_bits_eqb, orb_comm by lia. f_equal. apply eq_true_iff_eq. rewrite !Z.eqb_eq. zlia.
    + rewrite Z.shiftl_1_l. assert (2 ^ (s mod 8) <= 2 ^ 7) by (apply Z.pow_le_mono_r; lia). assert (0 < 2 ^ (s mod 8)) by (apply Z.pow_pos_nonneg; lia). unfold is_u8. lia.
  - destruct (Z.eqb_spec s t) as [->|]; [done|done].
Qed.

Lemma length_mark seen s : length (mark seen s) = length seen.
Proof. apply length_insert. Qed.

(** ** One frame *)

(** A step that leaves the bitmap alone and counts a verdict without a number. *)
Lemma tracks_other o vs v r r' : tracks o vs r -> (forall s, v <> Counted s) -> re_seen r' = re_seen r -> re_high r' = re_high r ->
  me_highest_sequence (re_m r') = me_highest_sequence (re_m r) -> (counts vs (re_m r) -> counts (vs ++ [v]) (re_m r')) -> tracks o (vs ++ [v]) r'.
Proof.
  intros [Hc Hl Hs Hn Hh Hhs] Hv E1 E2 E3 E4. assert (En : numbers (vs ++ [v]) = numbers vs) by (rewrite numbers_app; destruct v; try apply app_nil_r; by destruct (Hv seq)).
  split; rewrite ?E1, ?E2, ?E3, ?En; auto.
Qed.

Ltac count_fields := intros [? ? ? ? ? ? ?]; split; rewrite ?tally_app, ?numbers_app, ?app_nil_r; cbn; rewrite ?Z.add_0_r; try done;
  match goal with H : _ = u64 _ |- counted _ _ = _ => rewrite H; apply counted_u64 end.

Lemma arp_reply_tracks o p sent vs r : tracks o vs r -> tracks o vs (receiver_arp o p sent r).
Proof.
  intros H. unfold receiver_arp. destruct (negb (is_arp_request p)); [done|]. destruct (negb (op_arp o)), sent; destruct H as [[] ? ? ? ? ?]; (split; [split|..]); done.
Qed.

(** The set of the numbers so far. *)
Definition arrived (vs : list verdict) : gset Z := list_to_set (numbers vs).

Lemma arrived_bound o vs : options_ok o -> Forall (fun s => 0 <= s < op_sequence_limit o /\ dropped o s = false) (numbers vs) -> Z.of_nat (size (arrived vs)) <= op_sequence_limit o.
Proof.
  intros Ho H. assert (Hlim := ok_sequence_limit o Ho). assert (Hsub : arrived vs ⊆ list_to_set (seqZ 0 (op_sequence_limit o))).
  { intros s Hs. apply elem_of_list_to_set in Hs. rewrite Forall_forall in H. apply H in Hs as [Hs _]. apply elem_of_list_to_set, elem_of_seqZ. lia. }
  apply subseteq_size in Hsub. rewrite size_list_to_set in Hsub by apply NoDup_seqZ. rewrite length_seqZ in Hsub. lia.
Qed.

Lemma receive_unique_fields capture t p s r : let r' := receive_unique capture t p s r in
  re_seen r' = mark (re_seen r) s /\ re_high r' = Z.max (re_high r) s /\ me_highest_sequence (re_m r') = Z.max (re_high r) s /\
  me_unique (re_m r') = counted (me_unique (re_m r)) 1 /\ me_duplicates (re_m r') = me_duplicates (re_m r) /\ me_packets (re_m r') = me_packets (re_m r) /\
  me_invalid (re_m r') = me_invalid (re_m r) /\ me_unexpected (re_m r') = me_unexpected (re_m r) /\ me_out_of_range (re_m r') = me_out_of_range (re_m r) /\ me_probes (re_m r') = me_probes (re_m r).
Proof.
  unfold receive_unique. cbv zeta. destruct (Z.ltb_spec s (re_high (r |> set_re_seen (mark (re_seen r) s) |> on_m (fun m => m |> set_me_unique (counted (me_unique m) 1))))) as [H|H]; cbn in H |- *;
    destruct (Z.ltb_spec (re_high r) s) as [H'|H']; cbn; try lia; destruct (me_first_ns (re_m r) =? 0); cbn; destruct capture; cbn; try destruct (_ <=? 16); cbn; split_and!; try done; lia.
Qed.

Lemma arrived_app vs s : arrived (vs ++ [Counted s]) = arrived vs ∪ {[s]}.
Proof. unfold arrived. rewrite numbers_app, list_to_set_app_L. cbn. by rewrite union_empty_r_L. Qed.
Lemma arrived_new vs s : s ∉ numbers vs -> size (arrived (vs ++ [Counted s])) = S (size (arrived vs)).
Proof. intros H. rewrite arrived_app, size_union, size_singleton; [lia|]. unfold arrived. intros x Hx%elem_of_list_to_set ->%elem_of_singleton. done. Qed.
Lemma arrived_again vs s : s ∈ numbers vs -> arrived (vs ++ [Counted s]) = arrived vs.
Proof. intros H. rewrite arrived_app. apply set_eq. intros x. unfold arrived. rewrite elem_of_union, elem_of_singleton, elem_of_list_to_set. naive_solver. Qed.

Lemma length_numbers_new vs s : Z.of_nat (length (numbers (vs ++ [Counted s]))) = Z.of_nat (length (numbers vs)) + 1.
Proof. rewrite numbers_app, length_app. cbn. lia. Qed.

Lemma high_step o vs r s : tracks o vs r -> 0 <= s ->
  Forall (fun x => x <= Z.max (re_high r) s) (numbers (vs ++ [Counted s])) /\ Z.max (re_high r) s ∈ numbers (vs ++ [Counted s]).
Proof.
  intros [_ _ _ _ (H0 & Hf & Hin & Hnil) _] Hs. rewrite numbers_app. split.
  - apply Forall_app. split; [eapply Forall_impl; [exact Hf|]; cbn; lia|]. apply Forall_singleton. lia.
  - apply elem_of_app. destruct (decide (numbers vs = [])) as [E|E]; [rewrite (Hnil E); right; apply list_elem_of_singleton; lia|].
    destruct (Z.max_spec (re_high r) s) as [[_ ->]|[_ ->]]; [right; by apply list_elem_of_singleton|left; by apply Hin].
Qed.

(** A frame that passed the check and counts. *)
Lemma receive_counted_tracks o capture t p s vs r : options_ok o -> 0 <= s < op_sequence_limit o -> dropped o s = false ->
  let r1 := r |> on_m (fun m => m |> set_me_packets (counted (me_packets m) 1) |> set_me_bytes (counted (me_bytes m) (Z.of_nat (length p)))) in
  tracks o vs r -> tracks o (vs ++ [Counted s]) (if seen_bit (re_seen r1) s then r1 |> on_m (fun m => m |> set_me_duplicates (counted (me_duplicates m) 1)) else receive_unique capture t p s r1).
Proof.
  intros Ho Hs Hd r1 H. assert (Hh := high_step o vs r s H ltac:(lia)). assert (Ho' := H). destruct Ho' as [[] Hl Hb Hn (H0 & Hf & Hin & Hnil) Hhs]. change (re_seen r1) with (re_seen r). rewrite Hb by done.
  assert (Hn' : Forall (fun s => 0 <= s < op_sequence_limit o /\ dropped o s = false) (numbers (vs ++ [Counted s]))) by (rewrite numbers_app; apply Forall_app; split; [done|by apply Forall_singleton]).
  case_bool_decide as E.
  - assert (Em : re_high r = Z.max (re_high r) s) by (rewrite Forall_forall in Hf; specialize (Hf s E); lia).
    split; [split|..]; cbn; rewrite ?tally_app, ?length_numbers_new; cbn; rewrite ?Z.add_0_r; try done.
    + rewrite co_packets0. apply counted_u64.
    + fold (arrived (vs ++ [Counted s])). by rewrite arrived_again.
    + fold (arrived (vs ++ [Counted s])). rewrite arrived_again, co_duplicates0, counted_u64 by done. f_equal. unfold arrived. lia.
    + intros x Hx. rewrite Hb, numbers_app by done. apply bool_decide_ext. rewrite elem_of_app, list_elem_of_singleton. naive_solver.
    + rewrite Em. split_and!; [lia|apply Hh|intros; apply Hh|]. intros Hnn. rewrite numbers_app in Hnn. by destruct (numbers vs).
  - destruct (receive_unique_fields capture t p s r1) as (F1 & F2 & F3 & F4 & F5 & F6 & F7 & F8 & F9 & F10). set (r' := receive_unique _ _ _ _ _) in *. clearbody r'.
    assert (Hsz := arrived_bound o vs Ho Hn). destruct (ok_sequence_limit o Ho).
    split; [split|..]; rewrite ?F1, ?F2, ?F3, ?F4, ?F5, ?F6, ?F7, ?F8, ?F9, ?F10; cbn; rewrite ?tally_app, ?length_numbers_new, ?length_mark; cbn; rewrite ?Z.add_0_r; try done.
    + rewrite co_packets0. apply counted_u64.
    + fold (arrived (vs ++ [Counted s])). rewrite arrived_new, co_unique0 by done. fold (arrived vs). unfold counted. rewrite u64_id by (unfold is_u64; lia). lia.
    + fold (arrived (vs ++ [Counted s])). rewrite arrived_new, co_duplicates0 by done. fold (arrived vs). f_equal. lia.
    + intros x Hx. rewrite (seen_mark o) by (done || lia). rewrite Hb by done. rewrite numbers_app. apply eq_true_iff_eq. rewrite orb_true_iff, Z.eqb_eq, !bool_decide_eq_true, elem_of_app, list_elem_of_singleton. naive_solver.
    + split_and!; [lia|apply Hh|intros; apply Hh|]. intros Hnn. rewrite numbers_app in Hnn. by destruct (numbers vs).
Qed.

Lemma packet_validate_verdict b o s0 : let v := packet_validate b o s0 in v.1 = 1 \/ v.1 = 0 \/ v.1 = 2 \/ v.1 = -1.
Proof. unfold packet_validate. repeat case_match; cbn; auto. Qed.

Lemma validated_sequence b o s0 seq : Forall is_u8 b -> packet_validate b o s0 = (1, seq) -> is_u64 seq.
Proof.
  intros Hb (_ & _ & _ & _ & _ & <- & _)%packet_validate_fields. destruct (read64_halves b Hb 50) as (<- & Hhi & Hlo). unfold is_u32, is_u64 in *. lia.
Qed.

Lemma receive_frame_tracks o t p sent vs r : options_ok o -> Forall is_u8 p -> tracks o vs r -> tracks o (vs ++ [judge o p]) (receive_frame o t p sent r).
Proof.
  intros Ho Hp H%(arp_reply_tracks o p sent). unfold receive_frame, judge. set (r1 := receiver_arp o p sent r) in *. clearbody r1. destruct (is_probe o p).
  { destruct (_ =? 1); [destruct (op_echo o)|]; eapply tracks_other; try exact H; try done; count_fields. }
  assert (Hv := packet_validate_verdict p o 0). destruct (packet_validate p o 0) as [v seq] eqn:E. cbv zeta in Hv. cbn [fst] in Hv.
  destruct (Z.eqb_spec v 0); [eapply tracks_other; try exact H; try done; count_fields|].
  destruct (Z.eqb_spec v 2); [eapply tracks_other; try exact H; try done; count_fields|].
  destruct (Z.ltb_spec v 0); [eapply tracks_other; try exact H; try done; count_fields|].
  assert (v = 1) as -> by lia. assert (Hseq := validated_sequence p o 0 seq Hp E). unfold receive_valid.
  destruct (Z.leb_spec (op_sequence_limit o) seq); [eapply tracks_other; try exact H; try done; count_fields|].
  destruct (dropped o seq) eqn:Ed; [eapply tracks_other; try exact H; try done; count_fields|].
  apply receive_counted_tracks; [done|unfold is_u64 in Hseq; lia|done..].
Qed.

(** ** The whole run *)

(** The frames of a run. *)
Definition received_frames (rounds : list reception) : list (list Z) :=
  concat ((fun n => match rn_frames n with Answered frames => frames.*1 | Failed _ => [] end) <$> rounds).

Lemma receive_batch_tracks o t frames vs r : options_ok o -> Forall (Forall is_u8) frames.*1 -> tracks o vs r ->
  tracks o (vs ++ (judge o <$> frames.*1)) (foldl (fun r '(p, sent) => receive_frame o t p sent r) r frames).
Proof.
  intros Ho. revert vs r. induction frames as [|[p sent] frames IH]; intros vs r Hf H; cbn; [by rewrite app_nil_r|].
  apply Forall_cons in Hf as [Hp Hf]. rewrite cons_middle, app_assoc. apply IH; [done|]. by apply receive_frame_tracks.
Qed.

Lemma tracks_snapshot o vs t r : tracks o vs r -> tracks o vs (r |> on_m (set_me_end_ns t)).
Proof. intros [[] ? ? ? ? ?]. by (split; [split|..]). Qed.

Lemma receive_tracks o rounds vs r r' : options_ok o -> Forall (Forall is_u8) (received_frames rounds) -> tracks o vs r -> receive o rounds r = Some r' ->
  tracks o (vs ++ (judge o <$> received_frames rounds)) r'.
Proof.
  intros Ho. revert vs r. induction rounds as [|n rounds IH]; intros vs r Hf H E; cbn in E; [simplify_eq; by rewrite app_nil_r|].
  apply bind_Some in E as (r1 & E1 & E). unfold received_frames in Hf |- *. cbn [fmap list_fmap concat] in *. apply Forall_app in Hf as [Hn Hf].
  assert (H1 : tracks o (vs ++ (judge o <$> match rn_frames n with Answered frames => frames.*1 | Failed _ => [] end)) r1).
  { unfold receive_round in E1. destruct (rn_frames n) as [frames|e].
    - injection E1 as <-. apply (receive_batch_tracks o (rn_at n) frames vs r) in H; [|done..]. destruct (rn_snapshot n); [by apply tracks_snapshot|done].
    - destruct (_ || _); [|done]. injection E1 as <-. cbn. rewrite app_nil_r. destruct (rn_snapshot n); [by apply tracks_snapshot|done]. }
  specialize (IH _ _ Hf H1 E). by rewrite <- app_assoc, <- fmap_app in IH.
Qed.

Lemma receiver0_tracks o start : options_ok o -> tracks o [] (receiver0 o start).
Proof.
  intros Ho. destruct (ok_sequence_limit o Ho). split; [split; done|..]; cbn.
  - rewrite length_replicate. zlia.
  - intros s Hs. rewrite seen_bit_testbit by lia. unfold byte_of. destruct (_ !! _) eqn:E; cbn; [|by rewrite Z.bits_0]. apply lookup_replicate in E as [-> _]. by rewrite Z.bits_0.
  - constructor.
  - split_and!; [lia|constructor|done|done].
  - done.
Qed.

(** ** What is missing *)

Lemma dropped_count m r n : 0 < m -> 0 <= r < m -> 0 <= n ->
  Z.of_nat (length (filter (fun s => s mod m = r) (seqZ 0 n))) = (n - 1 - r) / m + 1.
Proof.
  intros Hm Hr. revert n. apply natlike_ind.
  - change (seqZ 0 0) with (@nil Z). change (Z.of_nat (length (filter (fun s => s mod m = r) []))) with 0. assert ((0 - 1 - r) / m = -1); [|lia]. symmetry. apply (Z.div_unique _ _ _ (m - 1 - r)); lia.
  - intros n Hn IH. rewrite <- Z.add_1_r, seqZ_app by lia. rewrite filter_app, length_app, Nat2Z.inj_add, IH, Z.add_0_l.
    assert (E1 : seqZ n 1 = [n]) by (rewrite seqZ_cons by lia; f_equal; by apply seqZ_nil). rewrite E1.
    replace (n + 1 - 1 - r) with (n - r) by lia. assert (D := Z.div_mod (n - 1 - r) m ltac:(lia)). assert (B := Z.mod_pos_bound (n - 1 - r) m Hm).
    set (q := (n - 1 - r) / m) in *. set (k := (n - 1 - r) mod m) in *. destruct (decide (n mod m = r)) as [E|E]; [rewrite filter_cons_True by done|rewrite filter_cons_False by done]; change (filter (fun s => s mod m = r) []) with (@nil Z); cbn [length].
    + assert (E' : k = m - 1). { unfold k. symmetry. apply (Z.mod_unique _ _ (n / m - 1)); [lia|]. assert (Dn := Z.div_mod n m ltac:(lia)). lia. }
      assert ((n - r) / m = q + 1); [|lia]. symmetry. apply (Z.div_unique _ _ _ 0); lia.
    + assert (Hk : k <> m - 1). { intros E'. apply E. symmetry. apply (Z.mod_unique _ _ (q + 1)); [lia|]. lia. }
      assert ((n - r) / m = q); [|lia]. symmetry. apply (Z.div_unique _ _ _ (k + 1)); lia.
Qed.

Definition eligible (o : options) (high : Z) : Z :=
  if truth (op_drop_mod o) then (if op_drop_rem o <=? high then (high - op_drop_rem o) / op_drop_mod o + 1 else 0) else 0.

Lemma size_wanted o high : options_ok o -> 0 <= high -> Z.of_nat (size (awaited o high)) = high + 1 - eligible o high.
Proof.
  intros Ho Hh. unfold awaited. rewrite size_list_to_set by (apply NoDup_filter, NoDup_seqZ). unfold eligible, dropped. destruct (truth (op_drop_mod o)) eqn:E; cbn [andb].
  - apply truth_true in E. destruct (ok_drop o Ho) as (Hm & Hr & Hlt). specialize (Hlt E).
    assert (C := dropped_count (op_drop_mod o) (op_drop_rem o) (high + 1) ltac:(lia) ltac:(lia) ltac:(lia)). replace (high + 1 - 1 - op_drop_rem o) with (high - op_drop_rem o) in C by lia.
    assert (P := Permutation_length (filter_app_complement (fun s => s mod op_drop_mod o = op_drop_rem o) (seqZ 0 (high + 1)))). rewrite length_app, length_seqZ in P.
    rewrite (list_filter_iff _ (fun s => ~ s mod op_drop_mod o = op_drop_rem o)) by (intros s; apply Z.eqb_neq).
    destruct (Z.leb_spec (op_drop_rem o) high); [lia|]. assert (D : (high - op_drop_rem o) / op_drop_mod o = -1); [|lia].
    symmetry. apply (Z.div_unique _ _ _ (op_drop_mod o + high - op_drop_rem o)); lia.
  - assert (F : forall l : list Z, filter (fun _ => false = false) l = l) by (induction l as [|x l IH]; [done|by rewrite filter_cons_True, IH]). rewrite F, length_seqZ. lia.
Qed.

(** The report of a run whose verdicts are [vs]. *)
Lemma report_counts o vs r end_ns stats : tracks o vs r -> counts vs (report o end_ns stats r) /\ me_highest_sequence (report o end_ns stats r) = re_high r.
Proof. intros [[] ? ? ? ? ?]. unfold report. destruct stats as [[packets drops]|], (truth _ && truth _); (split; [split|]); done. Qed.

Lemma report_missing o vs r end_ns stats : options_ok o -> tracks o vs r -> numbers vs <> [] ->
  me_missing_below_highest (report o end_ns stats r) = Z.of_nat (size (awaited o (re_high r) ∖ arrived vs)).
Proof.
  intros Ho [[] ? ? Hn (Hh & Hf & Hin & _) ?] Hne. fold (arrived vs) in *.
  assert (Hsub : arrived vs ⊆ awaited o (re_high r)).
  { intros s Hs%elem_of_list_to_set. rewrite Forall_forall in Hn, Hf. destruct (Hn s Hs). specialize (Hf s Hs). apply elem_of_list_to_set, list_elem_of_filter. split; [done|]. apply elem_of_seqZ. lia. }
  rewrite size_difference by done. assert (Hsz := subseteq_size _ _ Hsub). assert (Hw := size_wanted o (re_high r) Ho Hh).
  rewrite Forall_forall in Hn. destruct (Hn _ (Hin Hne)) as [Hlim _]. destruct (ok_sequence_limit o Ho).
  assert (Hpos : (0 < size (arrived vs))%nat).
  { apply Nat.neq_0_lt_0. intros E%size_empty_inv. apply (not_elem_of_empty (C := gset Z) (re_high r)). rewrite <- E. apply elem_of_list_to_set. by apply Hin. }
  assert (He : 0 <= eligible o (re_high r)).
  { destruct (ok_drop o Ho) as (Hm & Hr & _). unfold eligible. destruct (truth (op_drop_mod o)) eqn:Et; [apply truth_true in Et|lia]. destruct (Z.leb_spec (op_drop_rem o) (re_high r)); [|lia]. apply Z.add_nonneg_nonneg; [|lia]. apply Z.div_pos; lia. }
  assert (Hu : truth (me_unique (re_m r)) = true) by (apply truth_true; lia).
  unfold report. cbn. rewrite Hu. cbn. unfold eligible in *. destruct (truth (op_drop_mod o)); destruct stats as [[packets drops]|]; cbn; rewrite co_unique0, ?(u64_id (_ - Z.of_nat (size (arrived vs)))) by (unfold is_u64; lia); rewrite ?u64_id by (unfold is_u64; lia); lia.
Qed.

(** The report of the receiver is exact, whatever arrives: every frame is counted
    under its verdict, the unique ones are the distinct sequence numbers, and the
    missing ones those up to the highest that never came. *)
Theorem receiver_report duration_parse found rest o rounds start end_ns stats r :
  options_parse duration_parse found rest = Some o -> Forall (Forall is_u8) (received_frames rounds) -> receive o rounds (receiver0 o start) = Some r ->
  let vs := judge o <$> received_frames rounds in
  let m := report o end_ns stats r in
  counts vs m /\ Forall (fun s => s <= me_highest_sequence m) (numbers vs) /\
  (numbers vs <> [] -> me_highest_sequence m ∈ numbers vs /\ me_missing_below_highest m = Z.of_nat (size (awaited o (me_highest_sequence m) ∖ arrived vs))).
Proof.
  intros Ho%options_parse_ok Hb H vs m. apply (receive_tracks o rounds [] (receiver0 o start) r Ho Hb (receiver0_tracks o start Ho)) in H. cbn in H. fold vs in H.
  destruct (report_counts o vs r end_ns stats H) as [Hc Hh]. fold m in Hc, Hh. rewrite Hh. split; [done|]. assert (H' := tr_high _ _ _ H). split; [apply H'|].
  intros Hn. split; [by apply H'|]. by apply report_missing.
Qed.

(** * From the generator to the receiver *)

Section traffic.
Context (o : options) (Ho : options_ok o).

Lemma build_bytes seq : Forall is_u8 (packet_build o seq).
Proof using Ho. rewrite packet_build_frame by done. by apply frame_bytes. Qed.

Lemma build_valid seq s0 : is_u64 seq -> packet_validate (packet_build o seq) o s0 = (1, seq).
Proof using Ho. intros Hs. by apply (valid_is_built o seq Ho Hs _ s0 (build_bytes seq)). Qed.

Lemma build_injective s t : is_u64 s -> is_u64 t -> packet_build o s = packet_build o t -> s = t.
Proof using Ho. intros Hs Ht E. assert (H := build_valid s 0 Hs). rewrite E, build_valid in H by done. by injection H. Qed.

Lemma build_counted s : op_probe_run o <> op_run o -> op_drop_mod o = 0 -> 0 <= s < op_sequence_limit o -> judge o (packet_build o s) = Counted s.
Proof using Ho.
  intros Hp Hd Hs. assert (Hlim := ok_sequence_limit o Ho). assert (H := build_valid s 0 ltac:(unfold is_u64; lia)).
  assert (Hr : read32 (packet_build o s) 46 = op_run o) by by apply packet_validate_fields in H as (_ & _ & _ & _ & ? & _).
  unfold judge, is_probe, dropped. rewrite Hr, H, Hd. destruct (Z.eqb_spec (op_run o) (op_probe_run o)); [congruence|]. rewrite andb_false_r. cbn. destruct (Z.leb_spec (op_sequence_limit o) s); [lia|done].
Qed.

(** Frames of the generator, in any order and any number. *)
Lemma drawn_numbers n fs : Forall (fun f => f ∈ (packet_build o <$> seqZ 0 n)) fs -> exists l, fs = packet_build o <$> l /\ Forall (fun s => 0 <= s < n) l.
Proof using.
  clear Ho. induction 1 as [|f fs Hf _ (l & -> & Hl)]; [by exists []|]. apply list_elem_of_fmap in Hf as (s & -> & Hs%elem_of_seqZ). exists (s :: l). split; [done|]. constructor; [lia|done].
Qed.

Lemma size_frames l : Forall is_u64 l -> size (list_to_set (packet_build o <$> l) : gset (list Z)) = size (list_to_set l : gset Z).
Proof using Ho.
  intros Hl. assert (E1 : (list_to_set l : gset Z) = list_to_set (remove_dups l)) by (apply set_eq; intros x; by rewrite !elem_of_list_to_set, elem_of_remove_dups).
  assert (E2 : (list_to_set (packet_build o <$> l) : gset (list Z)) = list_to_set (packet_build o <$> remove_dups l)).
  { apply set_eq. intros x. rewrite !elem_of_list_to_set, !list_elem_of_fmap. by setoid_rewrite elem_of_remove_dups. }
  rewrite E1, E2, !size_list_to_set; [by rewrite length_fmap|apply NoDup_remove_dups|]. apply NoDup_fmap_2_strong; [|apply NoDup_remove_dups].
  intros x y Hx Hy. rewrite elem_of_remove_dups in Hx, Hy. rewrite Forall_forall in Hl. apply build_injective; auto.
Qed.
End traffic.

Lemma tally_counted kind l : tally kind (Counted <$> l) = sum_list_Z ((fun s => b2z (kind (Counted s))) <$> l).
Proof. unfold tally. by rewrite <- list_fmap_compose. Qed.
Lemma sum_list_const c (l : list Z) : sum_list_Z ((fun _ => c) <$> l) = c * Z.of_nat (length l).
Proof.
  induction l as [|x l IH]; [cbn; lia|]. change (c + sum_list_Z ((fun _ => c) <$> l) = c * Z.of_nat (S (length l))).
  rewrite IH, Nat2Z.inj_succ, Z.mul_succ_r. lia.
Qed.

(** C36: options that were accepted, with no frames dropped on purpose
    (--drop-mod zero, as by default) and with a probe run that differs from the
    run.  The generator's run ends, [sendmmsg] never taking more than it was given;
    a receiver with the same options gets frames the generator sent, lost, repeated
    and reordered in any way, and its run ends too.  It counts nothing as invalid,
    unexpected or out of range; the unique frames it reports are the distinct
    frames that arrived and the rest of what the generator sent is exactly what was
    lost; the missing ones it reports are those of them below the highest that
    arrived. *)
Theorem traffic_accounting duration_parse found rest o answers g rounds start end_ns stats r :
  options_parse duration_parse found rest = Some o -> op_probe_run o <> op_run o -> op_drop_mod o = 0 ->
  batch_answers o answers generator0 -> generate o answers generator0 = Some g ->
  Forall (fun f => f ∈ ge_sent g) (received_frames rounds) -> receive o rounds (receiver0 o start) = Some r ->
  let m := report o end_ns stats r in
  let arrived : gset (list Z) := list_to_set (received_frames rounds) in
  me_invalid m = 0 /\ me_unexpected m = 0 /\ me_out_of_range m = 0 /\ me_packets m = u64 (Z.of_nat (length (received_frames rounds))) /\
  me_unique m = Z.of_nat (size arrived) /\ me_duplicates m = u64 (Z.of_nat (length (received_frames rounds)) - me_unique m) /\
  Z.of_nat (size (list_to_set (ge_sent g) ∖ arrived)) = ge_packets g - me_unique m /\
  (received_frames rounds <> [] -> me_unique m + me_missing_below_highest m = me_highest_sequence m + 1 /\ me_highest_sequence m < ge_packets g).
Proof.
  intros Hparse Hp Hd Ha Hg Hf Hr m A. assert (Ho := options_parse_ok _ _ _ _ Hparse). assert (Hlim := ok_sequence_limit o Ho).
  destruct (generate_ok o answers generator0 g Ho (generated0 o Ho) Ha Hg) as [Hn Hs _]. rewrite Hs in Hf |- *.
  destruct (drawn_numbers o _ _ Hf) as (l & El & Hl).
  assert (Hu : Forall is_u64 l) by (eapply Forall_impl; [exact Hl|]; unfold is_u64; cbn; lia).
  assert (Ev : judge o <$> received_frames rounds = Counted <$> l).
  { rewrite El, <- list_fmap_compose. apply list_fmap_ext. intros i s Hi. apply (build_counted o Ho); try done. rewrite Forall_forall in Hl. assert (B := Hl s (list_elem_of_lookup_2 _ _ _ Hi)). cbn in B. lia. }
  assert (En : numbers (Counted <$> l) = l) by (clear; induction l as [|x l IH]; [done|cbn; by f_equal]).
  assert (Hb : Forall (Forall is_u8) (received_frames rounds)) by (rewrite El; apply Forall_fmap, Forall_true; intros s; by apply build_bytes).
  destruct (receiver_report _ _ _ o rounds start end_ns stats r Hparse Hb Hr) as (Hc & Hmax & Hmiss). fold m in Hc, Hmax, Hmiss. rewrite Ev in Hc, Hmax, Hmiss.
  destruct Hc as [C1 C2 C3 C4 _ C6 C7]. unfold arrived in Hmiss. rewrite En in C6, C7, Hmax, Hmiss. rewrite tally_counted, sum_list_const in C1, C2, C3, C4. cbn [b2z] in *.
  assert (Esz : size A = size (list_to_set l : gset Z)) by (unfold A; rewrite El; by apply size_frames).
  assert (Elen : length (received_frames rounds) = length l) by (rewrite El; apply length_fmap). rewrite Elen, Esz. split_and!; try done.
  - by rewrite C1, Z.mul_1_l.
  - by rewrite C7, C6.
  - assert (Hsub : A ⊆ list_to_set (packet_build o <$> seqZ 0 (ge_packets g))).
    { intros f Hin%elem_of_list_to_set. rewrite Forall_forall in Hf. by apply elem_of_list_to_set, Hf. }
    assert (Hle := subseteq_size _ _ Hsub). rewrite size_difference by done. rewrite Esz in *. 
    assert (Hall : Forall is_u64 (seqZ 0 (ge_packets g))) by (apply Forall_forall; intros s Hin%elem_of_seqZ; unfold is_u64; lia).
    rewrite (size_frames o Ho _ Hall), (size_list_to_set (seqZ _ _)), length_seqZ in * by apply NoDup_seqZ. lia.
  - intros Hne. assert (Hl0 : l <> []) by (intros ->; by rewrite El in Hne). destruct (Hmiss Hl0) as [Hin Hm]. rewrite Forall_forall in Hl. assert (Hh := Hl _ Hin). cbn in Hh. split; [|lia].
    rewrite Hm, C6. assert (Hsub : (list_to_set l : gset Z) ⊆ awaited o (me_highest_sequence m)).
    { intros s Hs'%elem_of_list_to_set. rewrite Forall_forall in Hmax. apply elem_of_list_to_set, list_elem_of_filter. unfold dropped. rewrite Hd. split; [done|]. apply elem_of_seqZ. specialize (Hmax s Hs'). cbn in Hmax. specialize (Hl s Hs'). cbn in Hl. lia. }
    rewrite size_difference by done. assert (Hle := subseteq_size _ _ Hsub). assert (Hw := size_wanted o (me_highest_sequence m) Ho ltac:(lia)). unfold eligible in Hw. rewrite Hd in Hw. change (truth 0) with false in Hw. lia.
Qed.

(** * A run *)

Module TrafficSample.

Definition found : list (Ascii.ascii * string) :=
  [("i"%char, "eth0"%string); ("o"%char, "out.json"%string); ("s"%char, "10.0.0.1"%string); ("d"%char, "10.0.1.1"%string);
   ("M"%char, "02:00:00:00:00:01"%string); ("z"%char, "64"%string); ("f"%char, "4"%string); ("l"%char, "16"%string); ("p"%char, "random"%string); ("n"%char, "32"%string)].
Definition sample : options := Eval vm_compute in default default_options (options_parse (fun _ => None) found false).
Definition answers : list (io_result Z) := [Answered 3; Failed EAGAIN; Answered 2].
Definition sent : generator := Eval vm_compute in default generator0 (generate sample answers generator0).
Definition frame_of (i : nat) : list Z := nth i (ge_sent sent) [].
(** Frames 4, 1 and again 4 arrive of the five that were sent. *)
Definition rounds : list reception :=
  [mk_reception (Answered [(frame_of 4, false)]) 100 None; mk_reception (Failed EAGAIN) 110 (Some 115); mk_reception (Answered [(frame_of 1, false); (frame_of 4, false)]) 120 None].
Definition final : receiver := Eval vm_compute in default (receiver0 sample 50) (receive sample rounds (receiver0 sample 50)).

Lemma traffic_accounting_witness : let m := report sample 200 None final in
  me_unique m = 2 /\ me_duplicates m = 1 /\ me_missing_below_highest m = 3 /\ me_reordered m = 1 /\
  Z.of_nat (size (list_to_set (ge_sent sent) ∖ list_to_set (received_frames rounds) : gset (list Z))) = 5 - 2.
Proof.
  cbv zeta. split_and!; [reflexivity..|].
  apply (traffic_accounting (fun _ => None) found false sample answers sent rounds 50 200 None final); try (vm_compute; reflexivity).
  - vm_compute. discriminate.
  - vm_compute. intuition discriminate.
  - repeat (apply Forall_cons; split; [compute_closed|]). constructor.
Defined.
End TrafficSample.
