(* ===== verification/SocketBench.v ===== *)
(** The socket benchmarks: the server of [bench/socket_server.c], which echoes or
    swallows datagrams and streams, and the client of [bench/socket_client.c].
    What the sockets answer and the clock reads are arguments, the same for the
    sockets of the kernel and those of the stack; what is sent is logged. *)
From Stdlib Require Import Ascii.
From S2P Require Import Prelude.
From S2P Require Import Dpdk.
From S2P Require Import Types.
From S2P Require Import Text.
From S2P Require Import Control.
From S2P Require Import Wire.
From S2P Require Import Traffic.

(** What leaves the programs. *)
Inductive bench_event : Type :=
| Sent (fd : Z) (bytes : list Z)
| SentTo (peer : ps_sockaddr) (bytes : list Z)
| Closed (fd : Z).

(** * The server *)

(** A cleared bitmap. *)
Definition cleared : list Z := replicate (Z.to_nat 8000000) 0.

(** An accepted connection and the bytes to echo. *)
Record bench_client : Type := mk_bench_client {
  bc_fd : Z;
  bc_have : Z;
  bc_sent : Z;
  bc_data : list Z
}.
Definition free_client : bench_client := mk_bench_client (-1) 0 0 (replicate 8192 0).
Definition set_bc_fd (v : Z) (r : bench_client) : bench_client := mk_bench_client v (bc_have r) (bc_sent r) (bc_data r).
Definition set_bc_have (v : Z) (r : bench_client) : bench_client := mk_bench_client (bc_fd r) v (bc_sent r) (bc_data r).
Definition set_bc_sent (v : Z) (r : bench_client) : bench_client := mk_bench_client (bc_fd r) (bc_have r) v (bc_data r).
Definition set_bc_data (v : list Z) (r : bench_client) : bench_client := mk_bench_client (bc_fd r) (bc_have r) (bc_sent r) v.

(** The counters, the bitmap of the current run and the connections. *)
Record bench_server : Type := mk_bench_server {
  bs_packets : Z;
  bs_bytes : Z;
  bs_invalid : Z;
  bs_calls : Z;
  bs_accepted : Z;
  bs_unique : Z;
  bs_duplicates : Z;
  bs_run_packets : Z;
  bs_run_unique : Z;
  bs_run_bytes : Z;
  bs_run_first : Z;
  bs_run_last : Z;
  bs_seen_run : Z;
  bs_seen : list Z;
  bs_clients : list bench_client;
  bs_stopping : bool;
  bs_log : list bench_event
}.
Definition server0 : bench_server := mk_bench_server 0 0 0 0 0 0 0 0 0 0 0 0 0 cleared (replicate 64 free_client) false [].
Definition set_bs_packets (v : Z) (r : bench_server) : bench_server := mk_bench_server v (bs_bytes r) (bs_invalid r) (bs_calls r) (bs_accepted r) (bs_unique r) (bs_duplicates r) (bs_run_packets r) (bs_run_unique r) (bs_run_bytes r) (bs_run_first r) (bs_run_last r) (bs_seen_run r) (bs_seen r) (bs_clients r) (bs_stopping r) (bs_log r).
Definition set_bs_bytes (v : Z) (r : bench_server) : bench_server := mk_bench_server (bs_packets r) v (bs_invalid r) (bs_calls r) (bs_accepted r) (bs_unique r) (bs_duplicates r) (bs_run_packets r) (bs_run_unique r) (bs_run_bytes r) (bs_run_first r) (bs_run_last r) (bs_seen_run r) (bs_seen r) (bs_clients r) (bs_stopping r) (bs_log r).
Definition set_bs_invalid (v : Z) (r : bench_server) : bench_server := mk_bench_server (bs_packets r) (bs_bytes r) v (bs_calls r) (bs_accepted r) (bs_unique r) (bs_duplicates r) (bs_run_packets r) (bs_run_unique r) (bs_run_bytes r) (bs_run_first r) (bs_run_last r) (bs_seen_run r) (bs_seen r) (bs_clients r) (bs_stopping r) (bs_log r).
Definition set_bs_calls (v : Z) (r : bench_server) : bench_server := mk_bench_server (bs_packets r) (bs_bytes r) (bs_invalid r) v (bs_accepted r) (bs_unique r) (bs_duplicates r) (bs_run_packets r) (bs_run_unique r) (bs_run_bytes r) (bs_run_first r) (bs_run_last r) (bs_seen_run r) (bs_seen r) (bs_clients r) (bs_stopping r) (bs_log r).
Definition set_bs_accepted (v : Z) (r : bench_server) : bench_server := mk_bench_server (bs_packets r) (bs_bytes r) (bs_invalid r) (bs_calls r) v (bs_unique r) (bs_duplicates r) (bs_run_packets r) (bs_run_unique r) (bs_run_bytes r) (bs_run_first r) (bs_run_last r) (bs_seen_run r) (bs_seen r) (bs_clients r) (bs_stopping r) (bs_log r).
Definition set_bs_unique (v : Z) (r : bench_server) : bench_server := mk_bench_server (bs_packets r) (bs_bytes r) (bs_invalid r) (bs_calls r) (bs_accepted r) v (bs_duplicates r) (bs_run_packets r) (bs_run_unique r) (bs_run_bytes r) (bs_run_first r) (bs_run_last r) (bs_seen_run r) (bs_seen r) (bs_clients r) (bs_stopping r) (bs_log r).
Definition set_bs_duplicates (v : Z) (r : bench_server) : bench_server := mk_bench_server (bs_packets r) (bs_bytes r) (bs_invalid r) (bs_calls r) (bs_accepted r) (bs_unique r) v (bs_run_packets r) (bs_run_unique r) (bs_run_bytes r) (bs_run_first r) (bs_run_last r) (bs_seen_run r) (bs_seen r) (bs_clients r) (bs_stopping r) (bs_log r).
Definition set_bs_run_packets (v : Z) (r : bench_server) : bench_server := mk_bench_server (bs_packets r) (bs_bytes r) (bs_invalid r) (bs_calls r) (bs_accepted r) (bs_unique r) (bs_duplicates r) v (bs_run_unique r) (bs_run_bytes r) (bs_run_first r) (bs_run_last r) (bs_seen_run r) (bs_seen r) (bs_clients r) (bs_stopping r) (bs_log r).
Definition set_bs_run_unique (v : Z) (r : bench_server) : bench_server := mk_bench_server (bs_packets r) (bs_bytes r) (bs_invalid r) (bs_calls r) (bs_accepted r) (bs_unique r) (bs_duplicates r) (bs_run_packets r) v (bs_run_bytes r) (bs_run_first r) (bs_run_last r) (bs_seen_run r) (bs_seen r) (bs_clients r) (bs_stopping r) (bs_log r).
Definition set_bs_run_bytes (v : Z) (r : bench_server) : bench_server := mk_bench_server (bs_packets r) (bs_bytes r) (bs_invalid r) (bs_calls r) (bs_accepted r) (bs_unique r) (bs_duplicates r) (bs_run_packets r) (bs_run_unique r) v (bs_run_first r) (bs_run_last r) (bs_seen_run r) (bs_seen r) (bs_clients r) (bs_stopping r) (bs_log r).
Definition set_bs_run_first (v : Z) (r : bench_server) : bench_server := mk_bench_server (bs_packets r) (bs_bytes r) (bs_invalid r) (bs_calls r) (bs_accepted r) (bs_unique r) (bs_duplicates r) (bs_run_packets r) (bs_run_unique r) (bs_run_bytes r) v (bs_run_last r) (bs_seen_run r) (bs_seen r) (bs_clients r) (bs_stopping r) (bs_log r).
Definition set_bs_run_last (v : Z) (r : bench_server) : bench_server := mk_bench_server (bs_packets r) (bs_bytes r) (bs_invalid r) (bs_calls r) (bs_accepted r) (bs_unique r) (bs_duplicates r) (bs_run_packets r) (bs_run_unique r) (bs_run_bytes r) (bs_run_first r) v (bs_seen_run r) (bs_seen r) (bs_clients r) (bs_stopping r) (bs_log r).
Definition set_bs_seen_run (v : Z) (r : bench_server) : bench_server := mk_bench_server (bs_packets r) (bs_bytes r) (bs_invalid r) (bs_calls r) (bs_accepted r) (bs_unique r) (bs_duplicates r) (bs_run_packets r) (bs_run_unique r) (bs_run_bytes r) (bs_run_first r) (bs_run_last r) v (bs_seen r) (bs_clients r) (bs_stopping r) (bs_log r).
Definition set_bs_seen (v : list Z) (r : bench_server) : bench_server := mk_bench_server (bs_packets r) (bs_bytes r) (bs_invalid r) (bs_calls r) (bs_accepted r) (bs_unique r) (bs_duplicates r) (bs_run_packets r) (bs_run_unique r) (bs_run_bytes r) (bs_run_first r) (bs_run_last r) (bs_seen_run r) v (bs_clients r) (bs_stopping r) (bs_log r).
Definition set_bs_clients (v : list bench_client) (r : bench_server) : bench_server := mk_bench_server (bs_packets r) (bs_bytes r) (bs_invalid r) (bs_calls r) (bs_accepted r) (bs_unique r) (bs_duplicates r) (bs_run_packets r) (bs_run_unique r) (bs_run_bytes r) (bs_run_first r) (bs_run_last r) (bs_seen_run r) (bs_seen r) v (bs_stopping r) (bs_log r).
Definition set_bs_stopping (v : bool) (r : bench_server) : bench_server := mk_bench_server (bs_packets r) (bs_bytes r) (bs_invalid r) (bs_calls r) (bs_accepted r) (bs_unique r) (bs_duplicates r) (bs_run_packets r) (bs_run_unique r) (bs_run_bytes r) (bs_run_first r) (bs_run_last r) (bs_seen_run r) (bs_seen r) (bs_clients r) v (bs_log r).
Definition set_bs_log (v : list bench_event) (r : bench_server) : bench_server := mk_bench_server (bs_packets r) (bs_bytes r) (bs_invalid r) (bs_calls r) (bs_accepted r) (bs_unique r) (bs_duplicates r) (bs_run_packets r) (bs_run_unique r) (bs_run_bytes r) (bs_run_first r) (bs_run_last r) (bs_seen_run r) (bs_seen r) (bs_clients r) (bs_stopping r) v.

(** ** Options *)

Record server_options : Type := mk_server_options { sq_path : option string; sq_output : option string; sq_tcp : bool; sq_sink : bool; sq_port : Z }.

Definition either_word (a b s : string) : bool := String.eqb s a || String.eqb s b.

(** The loop over what [getopt_long] finds; [None] is exit status 2. *)
Fixpoint server_option_loop (found : list (ascii * string)) (o : server_options) : option server_options :=
  match found with
  | [] => Some o
  | (c, optarg) :: found' =>
    o' ← match c with
         | "s"%char => Some (mk_server_options (Some optarg) (sq_output o) (sq_tcp o) (sq_sink o) (sq_port o))
         | "o"%char => Some (mk_server_options (sq_path o) (Some optarg) (sq_tcp o) (sq_sink o) (sq_port o))
         | "k"%char => if either_word "udp" "tcp" optarg then Some (mk_server_options (sq_path o) (sq_output o) (String.eqb optarg "tcp") (sq_sink o) (sq_port o)) else None
         | "m"%char => if either_word "echo" "sink" optarg then Some (mk_server_options (sq_path o) (sq_output o) (sq_tcp o) (String.eqb optarg "sink") (sq_port o)) else None
         | "p"%char => port ← unsigned_parse optarg 65535; Some (mk_server_options (sq_path o) (sq_output o) (sq_tcp o) (sq_sink o) port)
         | _ => None
         end;
    server_option_loop found' o'
  end.

Definition server_options_parse (found : list (ascii * string)) (rest : bool) : option server_options :=
  o ← server_option_loop found (mk_server_options None None false false 9000);
  if rest || bool_decide (sq_output o = None) || (sq_port o <? 1) || (65535 <? sq_port o) then None else Some o.

(** ** Datagrams *)

Definition emits (e : bench_event) (s : bench_server) : bench_server := s |> set_bs_log (bs_log s ++ [e]).
Definition called (s : bench_server) : bench_server := s |> set_bs_calls (counted (bs_calls s) 1).
Definition flawed (s : bench_server) : bench_server := s |> set_bs_invalid (counted (bs_invalid s) 1).

(** A datagram of another run than the last one starts a new count. *)
Definition enter_run (run : Z) (s : bench_server) : bench_server :=
  if negb (run =? bs_seen_run s) then
    s |> set_bs_seen cleared |> set_bs_seen_run run |> set_bs_run_packets 0 |> set_bs_run_unique 0 |> set_bs_run_bytes 0
      |> set_bs_run_first 0 |> set_bs_run_last 0
  else s.

Definition received_datagram (now : Z) (data : list Z) (s : bench_server) : bench_server :=
  let n := Z.of_nat (length data) in
  let s := s |> set_bs_packets (counted (bs_packets s) 1) |> set_bs_bytes (counted (bs_bytes s) n) in
  let '(valid, seq) := payload_valid data (read32 data 4) 42 0 in
  if (n <? 16) || negb valid || (64000000 <=? seq) then flawed s else
  let s := enter_run (read32 data 4) s in
  let s := s |> set_bs_run_packets (counted (bs_run_packets s) 1) |> set_bs_run_last now in
  let s := if negb (truth (bs_run_first s)) then s |> set_bs_run_first (bs_run_last s) else s in
  if seen_bit (bs_seen s) seq then s |> set_bs_duplicates (counted (bs_duplicates s) 1) else
  s |> set_bs_seen (mark (bs_seen s) seq) |> set_bs_unique (counted (bs_unique s) 1) |> set_bs_run_unique (counted (bs_run_unique s) 1)
    |> set_bs_run_bytes (counted (bs_run_bytes s) n).

(** One datagram; the verdict [true] leaves the loop. *)
Definition serve_datagram (sink : bool) (now : Z) (answer : io_result (list Z * ps_sockaddr)) (sent : Z) (s : bench_server) : bench_server * bool :=
  let s := called s in
  match answer with
  | Answered (data, peer) =>
    let s := received_datagram now data s in
    if sink then (s, false) else
    let s := s |> called |> emits (SentTo peer data) in
    (if negb (sent =? Z.of_nat (length data)) && negb (sent =? - EAGAIN) then flawed s else s, false)
  | Failed e => (s, negb (e =? EAGAIN))
  end.

(** The loop that emits a batch back; [answer] is what [transmit_many] returns
    behind the first [done] messages.  A round ends the loop or takes a message,
    so as many rounds as messages are enough. *)
Fixpoint transmit_loop (fuel done : nat) (messages : list (list Z * ps_sockaddr)) (answer : nat -> Z) (s : bench_server) : bench_server :=
  match fuel with
  | O => s
  | S fuel' =>
    if negb (Nat.ltb done (length messages)) then s else
    let s := called s in
    let n := answer done in
    if 0 <? n then
      transmit_loop fuel' (done + Z.to_nat n) messages answer
        (foldl (fun s '(data, peer) => emits (SentTo peer data) s) s (take (Z.to_nat n) (drop done messages)))
    else if negb (n =? - EAGAIN) then flawed s else s
  end.

(** The same for a build with batches. *)
Definition serve_batch (sink : bool) (now : Z) (answer : io_result (list (list Z * ps_sockaddr))) (sent : nat -> Z) (s : bench_server) : bench_server * bool :=
  let s := called s in
  match answer with
  | Answered [] => (s, true)
  | Answered messages =>
    let s := foldl (fun s '(data, _) => received_datagram now data s) s messages in
    (if sink then s else transmit_loop (length messages) 0 messages sent s, false)
  | Failed e => (s, negb (e =? EAGAIN))
  end.

(** ** Streams *)

Definition bench_client_at (s : bench_server) (i : nat) : bench_client := nth i (bs_clients s) free_client.
Definition set_bench_client (i : nat) (c : bench_client) (s : bench_server) : bench_server := s |> set_bs_clients (<[i := c]> (bs_clients s)).

(** The first free slot takes the connection [accept_socket] gives, if any. *)
Definition accept_first (child : Z) (s : bench_server) : bench_server :=
  match list_find (fun c => bc_fd c < 0) (bs_clients s) with
  | None => s
  | Some (i, c) =>
    let s := called s in
    if 0 <=? child then s |> set_bench_client i (c |> set_bc_fd child) |> set_bs_accepted (counted (bs_accepted s) 1)
    else if negb (child =? - EAGAIN) then s |> set_bs_stopping true else s
  end.

Definition drop_client (i : nat) (s : bench_server) : bench_server :=
  let c := bench_client_at s i in
  s |> emits (Closed (bc_fd c)) |> set_bench_client i (c |> set_bc_fd (-1) |> set_bc_have 0 |> set_bc_sent 0).

(** What is left to echo. *)
Definition unsent (c : bench_client) : list Z := take (Z.to_nat (bc_have c - bc_sent c)) (drop (Z.to_nat (bc_sent c)) (bc_data c)).

(** One connection: [wrote] is what [transmit] returns, [read] what [receive]
    does, in case the one or the other is called. *)
Definition serve_client (sink : bool) (wrote : Z) (read : io_result (list Z)) (i : nat) (s : bench_server) : bench_server :=
  let c := bench_client_at s i in
  if bc_fd c <? 0 then s else
  let s := called s in
  if truth (bc_have c) then
    if 0 <? wrote then
      let s := s |> emits (Sent (bc_fd c) (take (Z.to_nat wrote) (unsent c))) in
      let c := c |> set_bc_sent (bc_sent c + wrote) in
      set_bench_client i (if bc_sent c =? bc_have c then c |> set_bc_have 0 |> set_bc_sent 0 else c) s
    else if negb (wrote =? - EAGAIN) then drop_client i s else s
  else
  match read with
  | Answered [] => drop_client i s
  | Answered data =>
    let n := Z.of_nat (length data) in
    let c := c |> set_bc_data (put 0 data (bc_data c)) in
    s |> set_bs_packets (counted (bs_packets s) 1) |> set_bs_bytes (counted (bs_bytes s) n) |> set_bench_client i (if sink then c else c |> set_bc_have n)
  | Failed e => if negb (e =? EAGAIN) then drop_client i s else s
  end.

(** ** The loop *)

Record server_input : Type := mk_server_input {
  vi_now : Z;
  vi_datagram : io_result (list Z * ps_sockaddr);
  vi_sent : Z;
  vi_accept : Z;
  vi_wrote : nat -> Z;
  vi_read : nat -> io_result (list Z)
}.

Definition server_round (tcp sink : bool) (r : server_input) (s : bench_server) : bench_server * bool :=
  if negb tcp then serve_datagram sink (vi_now r) (vi_datagram r) (vi_sent r) s else
  (foldl (fun s i => serve_client sink (vi_wrote r i) (vi_read r i) i s) (accept_first (vi_accept r) s) (seq 0 64), false).

(** The rounds until a signal, which is where the inputs end, or an error. *)
Fixpoint server_loop (tcp sink : bool) (rounds : list server_input) (s : bench_server) : bench_server :=
  match rounds with
  | [] => s
  | r :: rounds' =>
    if bs_stopping s then s else
    let '(s, over) := server_round tcp sink r s in
    if over then s else server_loop tcp sink rounds' s
  end.

(** The end closes what is open; the exit status. *)
Definition server_end (fd : Z) (s : bench_server) : bench_server * Z :=
  let s := foldl (fun s c => if 0 <=? bc_fd c then emits (Closed (bc_fd c)) s else s) s (bs_clients s) in
  (emits (Closed fd) s, if truth (bs_invalid s) then 1 else 0).

(** * The client *)

(** A connection of a bulk transfer. *)
Record bulk_peer : Type := mk_bulk_peer { bp_fd : Z; bp_sent : Z; bp_received : Z }.

(** The counters of the client; [br_bytes] is the size of its requests. *)
Record bench_run : Type := mk_bench_run {
  br_bytes : Z;
  br_packets : Z;
  br_delivered : Z;
  br_submitted : Z;
  br_failures : Z;
  br_invalid : Z;
  br_end : Z;
  br_last : Z;
  br_latency : latency;
  br_handshake : latency;
  br_peers : list bulk_peer;
  br_log : list bench_event
}.
Definition run0 : bench_run := mk_bench_run 0 0 0 0 0 0 0 0 latency0 latency0 [] [].
Definition set_br_bytes (v : Z) (r : bench_run) : bench_run := mk_bench_run v (br_packets r) (br_delivered r) (br_submitted r) (br_failures r) (br_invalid r) (br_end r) (br_last r) (br_latency r) (br_handshake r) (br_peers r) (br_log r).
Definition set_br_packets (v : Z) (r : bench_run) : bench_run := mk_bench_run (br_bytes r) v (br_delivered r) (br_submitted r) (br_failures r) (br_invalid r) (br_end r) (br_last r) (br_latency r) (br_handshake r) (br_peers r) (br_log r).
Definition set_br_delivered (v : Z) (r : bench_run) : bench_run := mk_bench_run (br_bytes r) (br_packets r) v (br_submitted r) (br_failures r) (br_invalid r) (br_end r) (br_last r) (br_latency r) (br_handshake r) (br_peers r) (br_log r).
Definition set_br_submitted (v : Z) (r : bench_run) : bench_run := mk_bench_run (br_bytes r) (br_packets r) (br_delivered r) v (br_failures r) (br_invalid r) (br_end r) (br_last r) (br_latency r) (br_handshake r) (br_peers r) (br_log r).
Definition set_br_failures (v : Z) (r : bench_run) : bench_run := mk_bench_run (br_bytes r) (br_packets r) (br_delivered r) (br_submitted r) v (br_invalid r) (br_end r) (br_last r) (br_latency r) (br_handshake r) (br_peers r) (br_log r).
Definition set_br_invalid (v : Z) (r : bench_run) : bench_run := mk_bench_run (br_bytes r) (br_packets r) (br_delivered r) (br_submitted r) (br_failures r) v (br_end r) (br_last r) (br_latency r) (br_handshake r) (br_peers r) (br_log r).
Definition set_br_end (v : Z) (r : bench_run) : bench_run := mk_bench_run (br_bytes r) (br_packets r) (br_delivered r) (br_submitted r) (br_failures r) (br_invalid r) v (br_last r) (br_latency r) (br_handshake r) (br_peers r) (br_log r).
Definition set_br_last (v : Z) (r : bench_run) : bench_run := mk_bench_run (br_bytes r) (br_packets r) (br_delivered r) (br_submitted r) (br_failures r) (br_invalid r) (br_end r) v (br_latency r) (br_handshake r) (br_peers r) (br_log r).
Definition set_br_latency (v : latency) (r : bench_run) : bench_run := mk_bench_run (br_bytes r) (br_packets r) (br_delivered r) (br_submitted r) (br_failures r) (br_invalid r) (br_end r) (br_last r) v (br_handshake r) (br_peers r) (br_log r).
Definition set_br_handshake (v : latency) (r : bench_run) : bench_run := mk_bench_run (br_bytes r) (br_packets r) (br_delivered r) (br_submitted r) (br_failures r) (br_invalid r) (br_end r) (br_last r) (br_latency r) v (br_peers r) (br_log r).
Definition set_br_peers (v : list bulk_peer) (r : bench_run) : bench_run := mk_bench_run (br_bytes r) (br_packets r) (br_delivered r) (br_submitted r) (br_failures r) (br_invalid r) (br_end r) (br_last r) (br_latency r) (br_handshake r) v (br_log r).
Definition set_br_log (v : list bench_event) (r : bench_run) : bench_run := mk_bench_run (br_bytes r) (br_packets r) (br_delivered r) (br_submitted r) (br_failures r) (br_invalid r) (br_end r) (br_last r) (br_latency r) (br_handshake r) (br_peers r) v.

Definition transmits (e : bench_event) (s : bench_run) : bench_run := s |> set_br_log (br_log s ++ [e]).
Definition fails (s : bench_run) : bench_run := s |> set_br_failures (counted (br_failures s) 1).
Definition errs (s : bench_run) : bench_run := s |> set_br_invalid (counted (br_invalid s) 1).

(** ** Connecting *)

(** What the kernel answers: [socket], [connect] (an error number if it fails),
    [poll], the pending error of [getsockopt] and the time it took. *)
Record connect_input : Type := mk_connect_input { ci_socket : Z; ci_connect : option Z; ci_poll : Z; ci_error : option Z; ci_elapsed : Z }.

Definition connect_socket (tcp : bool) (e : connect_input) (s : bench_run) : Z * bench_run :=
  let fd := ci_socket e in
  if fd <? 0 then (-1, s) else
  let connected :=
    match ci_connect e with
    | None => true
    | Some errno => (errno =? EINPROGRESS) && (0 <? ci_poll e) && bool_decide (ci_error e = None)
    end in
  if negb connected then (-1, transmits (Closed fd) s) else
  (fd, if tcp then s |> set_br_handshake (latency_add (ci_elapsed e) (br_handshake s)) else s).

(** ** Requests *)

Record exchange_input : Type := mk_exchange_input { xi_reported : Z; xi_send : io_result Z; xi_recv : io_result (list Z) }.

(** [exchange]: a round of the loop emits on from [sent] and receives on from
    [received] into [reply]; the inputs end at the deadline or with a signal.  The
    outcome, the reply buffer and [submitted]. *)
Fixpoint exchange (tcp : bool) (request : list Z) (rounds : list exchange_input) (sent received : Z) (reply : list Z) (submitted : Z) : Z * list Z * Z :=
  let length := Z.of_nat (length request) in
  let ended := (if negb (received =? length) then -1 else if bool_decide (reply = request) then 0 else -2, reply, submitted) in
  match rounds with
  | [] => ended
  | r :: rounds' =>
    if negb ((sent <? length) || (received <? length)) then ended else
    let revents := Z.land (xi_reported r) (Z.lor (Z.lor POLLIN (if sent <? length then POLLOUT else 0)) poll_failure) in
    let writing := (sent <? length) && truth (Z.land revents POLLOUT) in
    let n := match xi_send r with Answered n => if writing && (0 <? n) then n else 0 | Failed _ => 0 end in
    let sent := sent + n in
    let submitted := counted submitted n in
    if writing && match xi_send r with Failed e => negb (e =? EAGAIN) && negb (e =? EINTR) | Answered _ => false end then (-1, reply, submitted) else
    if truth (Z.land revents POLLIN) then
      match xi_recv r with
      | Answered [] => (-1, reply, submitted)
      | Answered data =>
        let reply := put (Z.to_nat received) data reply in
        let received := received + Z.of_nat (List.length data) in
        if negb tcp && negb (received =? length) then (-2, reply, submitted) else exchange tcp request rounds' sent received reply submitted
      | Failed e => if (e =? EAGAIN) || (e =? EINTR) then exchange tcp request rounds' sent received reply submitted else (-1, reply, submitted)
      end
    else exchange tcp request rounds' sent received reply submitted
  end.

(** The request of number [seq]: [payload_fill] on the buffer of the last one. *)
Definition bench_request (run seq : Z) (s : bench_run) (buffer : list Z) : list Z := payload_fill (Z.to_nat (br_bytes s)) run seq 42 buffer.

(** What follows an exchange in all modes. *)
Definition account (status elapsed : Z) (s : bench_run) : bench_run :=
  if truth status then fails (if status =? -2 then errs s else s) else
  s |> set_br_latency (latency_add elapsed (br_latency s)) |> set_br_delivered (counted (br_delivered s) (br_bytes s)) |> set_br_packets (counted (br_packets s) 1).

(** One round of the request loop; the verdict [true] leaves it.  The buffers are
    those of the last round. *)
Definition request_round (tcp : bool) (fd run : Z) (rounds : list exchange_input) (elapsed now : Z) (buffers : list Z * list Z) (s : bench_run) :
  bench_run * (list Z * list Z) * bool :=
  let request := bench_request run (counted (br_packets s) (br_failures s)) s buffers.1 in
  let '(status, reply, submitted) := exchange tcp request rounds 0 0 buffers.2 (br_submitted s) in
  let s := account status elapsed (s |> set_br_submitted submitted) in
  if truth status && tcp then (s, (request, reply), true) else (s |> set_br_last now, (request, reply), false).

(** One round of the connecting modes; [short] makes a request as well. *)
Definition connect_round (tcp short : bool) (run : Z) (e : connect_input) (rounds : list exchange_input) (elapsed now : Z) (buffers : list Z * list Z) (s : bench_run) :
  bench_run * (list Z * list Z) :=
  let '(fd, s) := connect_socket tcp e s in
  if fd <? 0 then (fails s, buffers) else
  let '(s, buffers) :=
    if short then
      let request := bench_request run (br_packets s) s buffers.1 in
      let '(status, reply, submitted) := exchange true request rounds 0 0 buffers.2 (br_submitted s) in
      (account status elapsed (s |> set_br_submitted submitted), (request, reply))
    else (s |> set_br_packets (counted (br_packets s) 1), buffers) in
  (s |> transmits (Closed fd) |> set_br_last now, buffers).

(** The loops, as long as the clock is before the end. *)
Record request_input : Type := mk_request_input { qi_clock : Z; qi_connect : connect_input; qi_rounds : list exchange_input; qi_elapsed : Z; qi_now : Z }.

Fixpoint request_loop (tcp : bool) (fd run : Z) (inputs : list request_input) (buffers : list Z * list Z) (s : bench_run) : bench_run :=
  match inputs with
  | [] => s
  | r :: inputs' =>
    if negb (qi_clock r <? br_end s) then s else
    let '(s, buffers, over) := request_round tcp fd run (qi_rounds r) (qi_elapsed r) (qi_now r) buffers s in
    if over then s else request_loop tcp fd run inputs' buffers s
  end.

Fixpoint connect_loop (tcp short : bool) (run : Z) (inputs : list request_input) (buffers : list Z * list Z) (s : bench_run) : bench_run :=
  match inputs with
  | [] => s
  | r :: inputs' =>
    if negb (qi_clock r <? br_end s) then s else
    let '(s, buffers) := connect_round tcp short run (qi_connect r) (qi_rounds r) (qi_elapsed r) (qi_now r) buffers s in
    connect_loop tcp short run inputs' buffers s
  end.

(** The mode [rr]: one connection, requests one after the other. *)
Definition request_mode (tcp : bool) (run : Z) (e : connect_input) (inputs : list request_input) (buffers : list Z * list Z) (s : bench_run) : bench_run :=
  let '(fd, s) := connect_socket tcp e s in
  if fd <? 0 then fails s else request_loop tcp fd run inputs buffers s |> transmits (Closed fd).

(** ** Bulk transfers *)

Definition peer_at (s : bench_run) (i : nat) : bulk_peer := nth i (br_peers s) (mk_bulk_peer (-1) 0 0).
Definition set_peer (i : nat) (p : bulk_peer) (s : bench_run) : bench_run := s |> set_br_peers (<[i := p]> (br_peers s)).

(** The bytes under way on a connection and the events it waits for. *)
Definition window (p : bulk_peer) : Z := u64 (bp_sent p - bp_received p).
Definition bulk_events (p : bulk_peer) : Z := Z.lor POLLIN (if window p <? 8192 then POLLOUT else 0).

(** The stream from byte [offset] on. *)
Definition stream (offset n : Z) : list Z := (fun j => stream_byte (u64 (offset + j))) <$> seqZ 0 n.

(** How much is handed to [send]. *)
Definition bulk_chunk (bytes : Z) (p : bulk_peer) : Z :=
  let n := u64 (8192 - window p) in
  if bytes <? n then bytes else n.

Definition bulk_send (answer : io_result Z) (i : nat) (s : bench_run) : bench_run :=
  let p := peer_at s i in
  let n := bulk_chunk (br_bytes s) p in
  match answer with
  | Answered wrote =>
    if 0 <? wrote then
      s |> transmits (Sent (bp_fd p) (take (Z.to_nat wrote) (stream (bp_sent p) n)))
        |> set_peer i (mk_bulk_peer (bp_fd p) (counted (bp_sent p) wrote) (bp_received p)) |> set_br_submitted (counted (br_submitted s) wrote)
    else s
  | Failed e => if negb (e =? EAGAIN) then fails s |> set_br_end 0 else s
  end.

(** The bytes that differ from the stream. *)
Definition mismatches (data : list Z) (offset : Z) : nat := length (filter (fun '(x, y) => x <> y) (zip data (stream offset (Z.of_nat (length data))))).

Definition bulk_receive (answer : io_result (list Z)) (now : Z) (i : nat) (s : bench_run) : bench_run :=
  let p := peer_at s i in
  match answer with
  | Answered [] => fails s |> set_br_end 0
  | Answered data =>
    let n := Z.of_nat (length data) in
    s |> set_br_invalid (counted (br_invalid s) (Z.of_nat (mismatches data (bp_received p))))
      |> set_peer i (mk_bulk_peer (bp_fd p) (bp_sent p) (counted (bp_received p) n)) |> set_br_delivered (counted (br_delivered s) n)
      |> set_br_packets (counted (br_packets s) 1) |> set_br_last now
  | Failed e => if negb (e =? EAGAIN) then fails s |> set_br_end 0 else s
  end.

(** A round of the loop: the clock, what [poll] reports, [send] and [recv] answer. *)
Record bulk_input : Type := mk_bulk_input {
  bi_clock : Z;
  bi_reported : nat -> Z;
  bi_send : nat -> io_result Z;
  bi_recv : nat -> io_result (list Z);
  bi_now : nat -> Z
}.

(** One connection in a round; [poll] reports only what was asked for. *)
Definition bulk_turn (events reported : Z) (wrote : io_result Z) (read : io_result (list Z)) (now : Z) (i : nat) (s : bench_run) : bench_run :=
  let revents := Z.land reported (Z.lor events poll_failure) in
  let s := if truth (Z.land revents POLLOUT) then bulk_send wrote i s else s in
  if truth (Z.land revents POLLIN) then bulk_receive read now i s else s.

Definition bulk_round (r : bulk_input) (s : bench_run) : bench_run :=
  foldl (fun s' i => bulk_turn (bulk_events (peer_at s i)) (bi_reported r i) (bi_send r i) (bi_recv r i) (bi_now r i) i s') s (seq 0 (length (br_peers s))).

(** The connections are opened one by one until one fails. *)
Fixpoint bulk_connect (inputs : list connect_input) (s : bench_run) : bench_run :=
  match inputs with
  | [] => s
  | e :: inputs' =>
    let '(fd, s) := connect_socket true e s in
    if fd <? 0 then fails s else bulk_connect inputs' (s |> set_br_peers (br_peers s ++ [mk_bulk_peer fd 0 0]))
  end.

Fixpoint bulk_loop (rounds : list bulk_input) (s : bench_run) : bench_run :=
  match rounds with
  | [] => s
  | r :: rounds' => if bi_clock r <? br_end s then bulk_loop rounds' (bulk_round r s) else s
  end.

(** The end of the measurement and the exit status. *)
Definition measured_end (start finish : Z) (s : bench_run) : Z :=
  let e := if br_end s <? br_last s then br_last s else br_end s in
  if e <? start then finish else e.
Definition client_status (s : bench_run) : Z := if truth (br_invalid s) then 1 else 0.
