(* ===== verification/SocketBenchSpec.v ===== *)
(** The socket benchmarks: over connections that keep the bytes of a stream in
    order, the bulk client sees its stream come back from the echoing server
    unchanged, and its counters tell what is under way; the server tells the
    datagrams of a run apart. *)
From stdpp Require Import relations functions.
From S2P Require Import Prelude.
From S2P Require Import Types.
From S2P Require Import Control.
From S2P Require Import Wire.
From S2P Require Import Traffic.
From S2P Require Import TrafficSpec.
From S2P Require Import SocketBench.

(** * The stream *)

Lemma length_stream o n : 0 <= n -> Z.of_nat (length (stream o n)) = n.
Proof. intros H. unfold stream. rewrite length_fmap, length_seqZ. lia. Qed.

Lemma stream_app o n m : 0 <= n -> 0 <= m -> stream o (n + m) = stream o n ++ stream (u64 (o + n)) m.
Proof.
  intros Hn Hm. unfold stream. rewrite seqZ_app by done. rewrite fmap_app. f_equal. rewrite Z.add_comm, <- (fmap_add_seqZ n 0), <- list_fmap_compose.
  apply list_fmap_ext. intros i x _. unfold compose. f_equal. zlia.
Qed.

Lemma stream_u64 o n : stream (u64 o) n = stream o n.
Proof. unfold stream. apply list_fmap_ext. intros i x _. f_equal. zlia. Qed.

Lemma take_stream o n m : 0 <= n <= m -> take (Z.to_nat n) (stream o m) = stream o n.
Proof. intros H. unfold stream. by rewrite <- fmap_take, seqZ_prefix. Qed.

(** A beginning and an end of a piece of the stream. *)
Lemma stream_split o n l k : 0 <= n -> l ++ k = stream o n -> let m := Z.of_nat (length l) in m <= n /\ l = stream o m /\ k = stream (u64 (o + m)) (n - m).
Proof.
  intros Hn H. cbv zeta. assert (Hl : Z.of_nat (length l) <= n) by (rewrite <- (length_stream o n Hn), <- H, length_app; lia). split; [done|].
  replace n with (Z.of_nat (length l) + (n - Z.of_nat (length l))) in H at 1 by lia. rewrite stream_app in H by lia. apply app_inj_1 in H; [done|].
  assert (E := length_stream o (Z.of_nat (length l)) ltac:(lia)). lia.
Qed.

Lemma mismatches_none o n : 0 <= n -> mismatches (stream o n) o = O.
Proof.
  intros Hn. unfold mismatches. rewrite length_stream by done. assert (E : forall l : list Z, filter (fun '(x, y) => x <> y) (zip l l) = []).
  { induction l as [|x l IH]; [done|]. change (zip (x :: l) (x :: l)) with ((x, x) :: zip l l). by rewrite filter_cons_False by naive_solver. }
  by rewrite E.
Qed.

(** * One connection *)

(** The bytes under way: those coming back, those the server holds, those going
    out. *)
Record channel_ok (p : bulk_peer) (c : bench_client) (up down : list Z) : Prop := {
  ch_window : window p <= 8192;
  ch_open : 0 <= bc_fd c;
  ch_data : Z.of_nat (length (bc_data c)) = 8192;
  ch_held : bc_have c = 0 /\ bc_sent c = 0 \/ 0 <= bc_sent c < bc_have c /\ bc_have c <= 8192;
  ch_stream : down ++ unsent c ++ up = stream (bp_received p) (window p)
}.

Lemma window_range p : 0 <= window p.
Proof. apply (u64_range (bp_sent p - bp_received p)). Qed.

Lemma unsent_idle c : bc_have c = 0 -> bc_sent c = 0 -> unsent c = [].
Proof. intros H1 H2. unfold unsent. by rewrite H1, H2. Qed.

Lemma length_unsent p c up down : channel_ok p c up down -> Z.of_nat (length (unsent c)) = bc_have c - bc_sent c.
Proof. intros [_ _ Hd Hh _]. unfold unsent. rewrite length_take, length_drop. lia. Qed.

Lemma channel_send p c up down n k : channel_ok p c up down -> 0 <= k <= n -> n <= 8192 - window p ->
  channel_ok (mk_bulk_peer (bp_fd p) (counted (bp_sent p) k) (bp_received p)) c (up ++ take (Z.to_nat k) (stream (bp_sent p) n)) down.
Proof.
  intros H Hk Hn. assert (Hw := window_range p). assert (Ew : window (mk_bulk_peer (bp_fd p) (counted (bp_sent p) k) (bp_received p)) = window p + k).
  { destruct H as [Hw' _ _ _ _]. unfold window, counted in *. cbn in *. zlia. }
  destruct H as [Hw' Ho Hd Hh Hs]. split; try done; [lia|]. rewrite Ew. cbn [bp_received]. rewrite stream_app by lia. rewrite <- Hs, <- !app_assoc. repeat f_equal.
  rewrite take_stream by lia. rewrite <- (stream_u64 (bp_sent p)), <- (stream_u64 (u64 _)). f_equal. unfold window in *. zlia.
Qed.

Lemma channel_receive p c up data rest : channel_ok p c up (data ++ rest) ->
  let n := Z.of_nat (length data) in
  mismatches data (bp_received p) = O /\ n <= window p /\ window (mk_bulk_peer (bp_fd p) (bp_sent p) (counted (bp_received p) n)) = window p - n /\
  channel_ok (mk_bulk_peer (bp_fd p) (bp_sent p) (counted (bp_received p) n)) c up rest.
Proof.
  intros [Hw Ho Hd Hh Hs]. assert (Hw' := window_range p). cbv zeta. rewrite <- app_assoc in Hs. destruct (stream_split _ _ _ _ Hw' Hs) as (Hle & E1 & E2).
  assert (Ew : window (mk_bulk_peer (bp_fd p) (bp_sent p) (counted (bp_received p) (Z.of_nat (length data)))) = window p - Z.of_nat (length data)).
  { unfold window, counted in *. cbn. zlia. }
  split; [rewrite E1 at 1; apply mismatches_none; lia|]. split; [done|]. split; [done|]. split; try done; [lia|]. rewrite Ew. exact E2.
Qed.

Lemma put_head data buffer : (length data <= length buffer)%nat -> take (length data) (put 0 data buffer) = data.
Proof. intros H. unfold put, write_at. change (take 0 buffer) with (@nil Z). rewrite app_nil_l. by rewrite take_app_length. Qed.

(** The server takes bytes from the stream. *)
Lemma channel_hold p c data rest down : channel_ok p c (data ++ rest) down -> bc_have c = 0 -> data <> [] -> Z.of_nat (length data) <= 8192 ->
  channel_ok p (c |> set_bc_data (put 0 data (bc_data c)) |> set_bc_have (Z.of_nat (length data))) rest down.
Proof.
  intros [Hw Ho Hd Hh Hs] H0 Hne Hl. assert (Hs0 : bc_sent c = 0) by lia. split; try done.
  - cbn. unfold put. rewrite length_write_at; [done|]. lia.
  - right. cbn. rewrite Hs0. destruct data; [done|]. cbn in *. lia.
  - rewrite unsent_idle in Hs by done. rewrite <- Hs. f_equal. cbn [app]. f_equal. unfold unsent. cbn. rewrite Hs0, Z.sub_0_r, Nat2Z.id. apply put_head. lia.
Qed.

(** The server gives bytes back. *)
Lemma channel_echo p c up down k : channel_ok p c up down -> 0 < k <= bc_have c - bc_sent c ->
  channel_ok p (let c := c |> set_bc_sent (bc_sent c + k) in if bc_sent c =? bc_have c then c |> set_bc_have 0 |> set_bc_sent 0 else c) up (down ++ take (Z.to_nat k) (unsent c)).
Proof.
  intros H Hk. assert (Hl := length_unsent _ _ _ _ H). destruct H as [Hw Ho Hd Hh Hs]. cbv zeta. set (c1 := c |> set_bc_sent (bc_sent c + k)).
  assert (E : unsent c1 = drop (Z.to_nat k) (unsent c)).
  { unfold unsent, c1. cbn. rewrite (take_drop_commute (bc_data c)), take_drop_commute, drop_drop. f_equal; [lia|]. f_equal. lia. }
  assert (Hsplit : (down ++ take (Z.to_nat k) (unsent c)) ++ unsent c1 ++ up = stream (bp_received p) (window p)).
  { rewrite E, <- Hs, <- app_assoc. f_equal. by rewrite app_assoc, take_drop. }
  destruct (Z.eqb_spec (bc_sent c1) (bc_have c1)) as [Heq|Hne].
  - split; try done; [by left|]. rewrite <- Hsplit. do 2 f_equal. unfold c1 in Heq. cbn in Heq. rewrite E, drop_ge by lia. by apply unsent_idle.
  - split; try done. right. unfold c1 in *. cbn in *. lia.
Qed.

(** * All connections *)

(** The client and the server with the bytes of each connection on their way out
    and back; connection [i] of the client is in slot [slot i] of the server. *)
Record transfer : Type := mk_transfer { tf_client : bench_run; tf_server : bench_server; tf_up : nat -> list Z; tf_down : nat -> list Z }.

(** What a call answers that takes [n] bytes, or gives [data]. *)
Definition took (n : Z) : io_result Z := if n =? 0 then Failed EAGAIN else Answered n.
Definition gave (data : list Z) : io_result (list Z) := match data with [] => Failed EAGAIN | _ => Answered data end.

(** The bytes a program has sent on a descriptor between two states of its log. *)
Definition sent_since (fd : Z) (before after : list bench_event) : list Z :=
  concat ((fun e => match e with Sent fd' bytes => if fd' =? fd then bytes else [] | _ => [] end) <$> drop (length before) after).

Lemma sent_none fd log : sent_since fd log log = [].
Proof. unfold sent_since. by rewrite drop_all. Qed.
Lemma sent_one log fd bytes : sent_since fd log (log ++ [Sent fd bytes]) = bytes.
Proof. unfold sent_since. rewrite drop_app_length. cbn. rewrite Z.eqb_refl. apply app_nil_r. Qed.

Definition writable (p : bulk_peer) (reported : Z) : bool := (window p <? 8192) && truth (Z.land reported POLLOUT).
Definition readable (reported : Z) : bool := truth (Z.land reported POLLIN).

Section transfers.
Context (slot : nat -> nat).

(** A turn of the client for connection [i]: the socket takes [k] bytes of what
    [send] is given and gives [data] of those on their way back.  What goes out is
    what the program sent meanwhile. *)
Definition client_next (i : nat) (reported k : Z) (data rest : list Z) (now : Z) (t : transfer) : transfer :=
  let s := bulk_turn (bulk_events (peer_at (tf_client t) i)) reported (took k) (gave data) now i (tf_client t) in
  mk_transfer s (tf_server t) (<[i := tf_up t i ++ sent_since (bp_fd (peer_at (tf_client t) i)) (br_log (tf_client t)) (br_log s)]> (tf_up t))
    (<[i := if readable reported then rest else data ++ rest]> (tf_down t)).

(** A turn of the server for the same connection. *)
Definition server_next (i : nat) (k : Z) (data rest : list Z) (t : transfer) : transfer :=
  let s := serve_client false (if k =? 0 then - EAGAIN else k) (gave data) (slot i) (tf_server t) in
  mk_transfer (tf_client t) s (<[i := if truth (bc_have (bench_client_at (tf_server t) (slot i))) then data ++ rest else rest]> (tf_up t))
    (<[i := tf_down t i ++ sent_since (bc_fd (bench_client_at (tf_server t) (slot i))) (bs_log (tf_server t)) (bs_log s)]> (tf_down t)).

(** The two take turns in any order, with the sockets taking and giving as much as
    they like; other clients may be served and accepted as well. *)
Inductive transfer_step (t : transfer) : transfer -> Prop :=
| client_turn i reported k data rest now :
    (i < length (br_peers (tf_client t)))%nat -> 0 <= k <= bulk_chunk (br_bytes (tf_client t)) (peer_at (tf_client t) i) -> tf_down t i = data ++ rest ->
    transfer_step t (client_next i reported k data rest now t)
| server_turn i k data rest :
    let c := bench_client_at (tf_server t) (slot i) in
    (i < length (br_peers (tf_client t)))%nat -> 0 <= k <= bc_have c - bc_sent c -> tf_up t i = data ++ rest -> Z.of_nat (length data) <= 8192 ->
    transfer_step t (server_next i k data rest t)
| other_turn sink wrote read j :
    (forall i, (i < length (br_peers (tf_client t)))%nat -> slot i <> j) ->
    transfer_step t (mk_transfer (tf_client t) (serve_client sink wrote read j (tf_server t)) (tf_up t) (tf_down t))
| accept_turn child :
    transfer_step t (mk_transfer (tf_client t) (accept_first child (tf_server t)) (tf_up t) (tf_down t)).

(** All bytes under way. *)
Definition under_way (s : bench_run) : Z := foldr (fun p n => window p + n) 0 (br_peers s).

Record transfer_ok (t : transfer) : Prop := {
  to_bytes : 0 < br_bytes (tf_client t);
  to_slots : forall i j, (i < length (br_peers (tf_client t)))%nat -> (j < length (br_peers (tf_client t)))%nat -> slot i = slot j -> i = j;
  to_inside : forall i, (i < length (br_peers (tf_client t)))%nat -> (slot i < length (bs_clients (tf_server t)))%nat;
  to_invalid : br_invalid (tf_client t) = 0;
  to_counts : br_submitted (tf_client t) = u64 (br_delivered (tf_client t) + under_way (tf_client t));
  to_channels : forall i, (i < length (br_peers (tf_client t)))%nat ->
    channel_ok (peer_at (tf_client t) i) (bench_client_at (tf_server t) (slot i)) (tf_up t i) (tf_down t i)
}.

(** ** Updates *)

Lemma peer_set s i p j : (i < length (br_peers s))%nat -> peer_at (set_peer i p s) j = if decide (i = j) then p else peer_at s j.
Proof.
  intros Hi. unfold peer_at, set_peer. cbn. rewrite !nth_lookup. destruct (decide (i = j)) as [<-|Hne]; [by rewrite list_lookup_insert_eq|by rewrite list_lookup_insert_ne].
Qed.

Lemma bench_client_set s i c j : (i < length (bs_clients s))%nat -> bench_client_at (set_bench_client i c s) j = if decide (i = j) then c else bench_client_at s j.
Proof.
  intros Hi. unfold bench_client_at, set_bench_client. cbn. rewrite !nth_lookup. destruct (decide (i = j)) as [<-|Hne]; [by rewrite list_lookup_insert_eq|by rewrite list_lookup_insert_ne].
Qed.

Lemma under_way_set s i p : (i < length (br_peers s))%nat -> under_way (set_peer i p s) = under_way s - window (peer_at s i) + window p.
Proof.
  unfold under_way, peer_at, set_peer. cbn. generalize (br_peers s) as l. clear s. intros l. revert i. induction l as [|q l IH]; intros i Hi; [cbn in Hi; lia|].
  destruct i as [|i]; [change (<[O := p]> (q :: l)) with (p :: l); cbn [foldr nth]; lia|].
  change (<[S i := p]> (q :: l)) with (q :: <[i := p]> l). cbn [foldr nth]. cbn in Hi. rewrite IH by lia. lia.
Qed.

(** ** The client's turn *)

Lemma reported_out p reported : truth (Z.land (Z.land reported (Z.lor (bulk_events p) poll_failure)) POLLOUT) = writable p reported.
Proof.
  unfold writable, bulk_events. rewrite <- Z.land_assoc. destruct (window p <? 8192).
  - change (Z.land (Z.lor (Z.lor POLLIN POLLOUT) poll_failure) POLLOUT) with POLLOUT. done.
  - change (Z.land (Z.lor (Z.lor POLLIN 0) poll_failure) POLLOUT) with 0. by rewrite Z.land_0_r.
Qed.

Lemma reported_in p reported : truth (Z.land (Z.land reported (Z.lor (bulk_events p) poll_failure)) POLLIN) = readable reported.
Proof.
  unfold readable, bulk_events. rewrite <- Z.land_assoc. destruct (window p <? 8192).
  - by change (Z.land (Z.lor (Z.lor POLLIN POLLOUT) poll_failure) POLLIN) with POLLIN.
  - by change (Z.land (Z.lor (Z.lor POLLIN 0) poll_failure) POLLIN) with POLLIN.
Qed.

(** What a step of the client leaves: the other connections, and the counters in
    balance. *)
Record client_kept (i : nat) (s s' : bench_run) : Prop := {
  ck_bytes : br_bytes s' = br_bytes s;
  ck_length : length (br_peers s') = length (br_peers s);
  ck_others : forall j, j <> i -> peer_at s' j = peer_at s j;
  ck_invalid : br_invalid s = 0 -> br_invalid s' = 0;
  ck_failures : br_failures s' = br_failures s;
  ck_counts : br_submitted s = u64 (br_delivered s + under_way s) -> br_submitted s' = u64 (br_delivered s' + under_way s')
}.

Lemma client_kept_refl i s : client_kept i s s.
Proof. by split. Qed.
Lemma client_kept_trans i s1 s2 s3 : client_kept i s1 s2 -> client_kept i s2 s3 -> client_kept i s1 s3.
Proof. intros [A1 A2 A3 A4 A5 A6] [B1 B2 B3 B4 B5 B6]. split; try congruence; auto. intros j Hj. by rewrite B3, A3. Qed.

Lemma send_ok i k s c up down : (i < length (br_peers s))%nat -> channel_ok (peer_at s i) c up down -> 0 < br_bytes s -> 0 <= k <= bulk_chunk (br_bytes s) (peer_at s i) ->
  let s' := bulk_send (took k) i s in
  client_kept i s s' /\ channel_ok (peer_at s' i) c (up ++ sent_since (bp_fd (peer_at s i)) (br_log s) (br_log s')) down.
Proof.
  intros Hi Hc Hb Hk. assert (Hw := ch_window _ _ _ _ Hc). assert (Hw0 := window_range (peer_at s i)). unfold bulk_send, took. cbv zeta.
  destruct (Z.eqb_spec k 0) as [->|Hk0].
  { change (negb (EAGAIN =? EAGAIN)) with false. cbv iota. split; [apply client_kept_refl|]. by rewrite sent_none, app_nil_r. }
  set (n := bulk_chunk (br_bytes s) (peer_at s i)) in *. assert (Hn : n <= 8192 - window (peer_at s i)).
  { unfold n, bulk_chunk. rewrite u64_id by (unfold is_u64; lia). destruct (Z.ltb_spec (br_bytes s) (8192 - window (peer_at s i))); lia. }
  clearbody n. destruct (Z.ltb_spec 0 k); [|lia]. set (p := mk_bulk_peer _ _ _).
  assert (Hch := channel_send (peer_at s i) c up down n k Hc Hk Hn). fold p in Hch.
  match goal with |- client_kept i s ?s1 /\ _ => set (s' := s1) end.
  assert (Hp : forall j, peer_at s' j = if decide (i = j) then p else peer_at s j) by (intros j; exact (peer_set s i p j Hi)).
  split; [|rewrite Hp, decide_True by done; change (br_log s') with (br_log s ++ [Sent (bp_fd (peer_at s i)) (take (Z.to_nat k) (stream (bp_sent (peer_at s i)) n))]); by rewrite sent_one].
  split; try done.
  - cbn. apply length_insert.
  - intros j Hj. rewrite Hp. by rewrite decide_False by congruence.
  - intros Hs. assert (Eu := under_way_set s i p Hi). assert (Ew : window p = window (peer_at s i) + k).
    { unfold window, p, counted in *. cbn. zlia. }
    change (under_way s') with (under_way (set_peer i p s)). change (br_delivered s') with (br_delivered s). change (br_submitted s') with (counted (br_submitted s) k).
    rewrite Hs, Eu, Ew. clear. unfold counted. zlia.
Qed.

Lemma receive_ok i data rest now s c up : (i < length (br_peers s))%nat -> channel_ok (peer_at s i) c up (data ++ rest) ->
  let s' := bulk_receive (gave data) now i s in client_kept i s s' /\ br_log s' = br_log s /\ channel_ok (peer_at s' i) c up rest.
Proof.
  intros Hi Hc. unfold bulk_receive, gave. cbv zeta. destruct data as [|x data]; [change (negb (EAGAIN =? EAGAIN)) with false; cbv iota; split; [apply client_kept_refl|by split]|].
  set (d := x :: data) in *. destruct (channel_receive _ _ _ _ _ Hc) as (Hm & Hn & Hw & Hch). set (p := mk_bulk_peer _ _ _) in *.
  match goal with |- client_kept i s ?s1 /\ _ => set (s' := s1) end.
  assert (Hp : forall j, peer_at s' j = if decide (i = j) then p else peer_at s j) by (intros j; exact (peer_set s i p j Hi)).
  split; [|split; [done|by rewrite Hp, decide_True]]. split; try done.
  - cbn. apply length_insert.
  - intros j Hj. rewrite Hp. by rewrite decide_False by congruence.
  - intros H0. change (br_invalid s') with (counted (br_invalid s) (Z.of_nat (mismatches d (bp_received (peer_at s i))))). by rewrite Hm, H0.
  - intros Hs. assert (Eu := under_way_set s i p Hi). change (under_way s') with (under_way (set_peer i p s)).
    change (br_delivered s') with (counted (br_delivered s) (Z.of_nat (length d))). change (br_submitted s') with (br_submitted s). rewrite Hs, Eu, Hw. clear. unfold counted. zlia.
Qed.

(** One turn of the client. *)
Lemma turn_ok i reported k data rest now s c up : (i < length (br_peers s))%nat -> channel_ok (peer_at s i) c up (data ++ rest) -> 0 < br_bytes s ->
  0 <= k <= bulk_chunk (br_bytes s) (peer_at s i) ->
  let s' := bulk_turn (bulk_events (peer_at s i)) reported (took k) (gave data) now i s in
  client_kept i s s' /\ channel_ok (peer_at s' i) c (up ++ sent_since (bp_fd (peer_at s i)) (br_log s) (br_log s')) (if readable reported then rest else data ++ rest).
Proof.
  intros Hi Hc Hb Hk. cbv zeta. unfold bulk_turn. rewrite reported_out, reported_in. set (s1 := if writable (peer_at s i) reported then _ else s).
  assert (H1 : client_kept i s s1 /\ channel_ok (peer_at s1 i) c (up ++ sent_since (bp_fd (peer_at s i)) (br_log s) (br_log s1)) (data ++ rest)).
  { unfold s1. destruct (writable _ reported); [by apply send_ok|]. rewrite sent_none, app_nil_r. split; [apply client_kept_refl|done]. }
  clearbody s1. destruct H1 as [K1 C1]. destruct (readable reported); [|done].
  destruct (receive_ok i data rest now s1 c _ ltac:(by rewrite (ck_length _ _ _ K1)) C1) as (K2 & El & C2). rewrite El. split; [by eapply client_kept_trans|done].
Qed.

(** ** The server's turn *)

Lemma serve_other sink wrote read i j s : i <> j -> bench_client_at (serve_client sink wrote read i s) j = bench_client_at s j /\ length (bs_clients (serve_client sink wrote read i s)) = length (bs_clients s).
Proof.
  intros Hne. assert (Hset : forall c s', bs_clients s' = bs_clients s -> bench_client_at (set_bench_client i c s') j = bench_client_at s j /\ length (bs_clients (set_bench_client i c s')) = length (bs_clients s)).
  { intros c s' E. unfold bench_client_at, set_bench_client. cbn. rewrite E, length_insert. split; [|done]. rewrite !nth_lookup. by rewrite list_lookup_insert_ne. }
  unfold serve_client, drop_client. cbv zeta. repeat case_match; try done; by apply Hset.
Qed.

Lemma serve_ok i k data rest s p down : let c := bench_client_at s i in
  (i < length (bs_clients s))%nat -> channel_ok p c (data ++ rest) down -> 0 <= k <= bc_have c - bc_sent c -> Z.of_nat (length data) <= 8192 ->
  let s' := serve_client false (if k =? 0 then - EAGAIN else k) (gave data) i s in
  length (bs_clients s') = length (bs_clients s) /\
  channel_ok p (bench_client_at s' i) (if truth (bc_have c) then data ++ rest else rest) (down ++ sent_since (bc_fd c) (bs_log s) (bs_log s')).
Proof.
  intros c Hi Hc Hk Hl. cbv zeta. unfold serve_client. fold c. assert (Ho := ch_open _ _ _ _ Hc). destruct (Z.ltb_spec (bc_fd c) 0); [lia|]. destruct (truth (bc_have c)) eqn:Et.
  - destruct (Z.eqb_spec k 0) as [->|Hk0].
    { change (0 <? - EAGAIN) with false. change (negb (- EAGAIN =? - EAGAIN)) with false. cbv iota. split; [done|].
      change (bs_log (called s)) with (bs_log s). by rewrite sent_none, app_nil_r. }
    destruct (Z.ltb_spec 0 k); [|lia]. split; [apply length_insert|]. rewrite bench_client_set by done. rewrite decide_True by done.
    match goal with |- context[sent_since _ _ ?l] => change l with (bs_log s ++ [Sent (bc_fd c) (take (Z.to_nat k) (unsent c))]) end. rewrite sent_one.
    apply channel_echo; [done|lia].
  - apply truth_false in Et. destruct data as [|x data].
    { unfold gave. change (negb (EAGAIN =? EAGAIN)) with false. cbv iota. split; [done|]. change (bs_log (called s)) with (bs_log s). by rewrite sent_none, app_nil_r. }
    unfold gave. set (d := x :: data) in *. split; [apply length_insert|]. rewrite bench_client_set by done. rewrite decide_True by done.
    match goal with |- context[sent_since _ _ ?l] => change l with (bs_log s) end. rewrite sent_none, app_nil_r. by apply channel_hold.
Qed.

Lemma accept_kept child s j : 0 <= bc_fd (bench_client_at s j) -> (j < length (bs_clients s))%nat ->
  bench_client_at (accept_first child s) j = bench_client_at s j /\ length (bs_clients (accept_first child s)) = length (bs_clients s).
Proof.
  intros Ho Hj. unfold accept_first. destruct (list_find _ (bs_clients s)) as [[i c]|] eqn:E; [|done]. apply list_find_Some in E as (Hi & Hc & _).
  cbv zeta. destruct (0 <=? child); [|by destruct (negb _)]. split; [|apply length_insert].
  change (bench_client_at (set_bench_client i (set_bc_fd child c) s) j = bench_client_at s j). rewrite bench_client_set by (by eapply lookup_lt_Some).
  destruct (decide (i = j)) as [->|]; [|done]. unfold bench_client_at in Ho. rewrite (nth_lookup_Some _ _ _ _ Hi) in Ho. lia.
Qed.

(** ** Every step *)

Lemma transfer_step_ok t t' : transfer_step t t' -> transfer_ok t -> transfer_ok t' /\ br_failures (tf_client t') = br_failures (tf_client t) /\
  length (br_peers (tf_client t')) = length (br_peers (tf_client t)).
Proof.
  intros H [Hb Hs Hin Hz Hc Hch]. destruct H as [i reported k data rest now Hi Hk Hd|i k data rest c Hi Hk Hd Hl|sink wrote read j Hj|child].
  - unfold client_next. cbv zeta. assert (H := Hch i Hi). rewrite Hd in H. destruct (turn_ok i reported k data rest now _ _ _ Hi H Hb Hk) as [[K1 K2 K3 K4 K5 K6] Hnew]. split; [|by split].
    split; cbn [tf_client tf_server tf_up tf_down]; rewrite ?K2; auto; [by rewrite K1|].
    intros j Hj. destruct (decide (i = j)) as [<-|Hne]; [by rewrite !fn_lookup_insert|]. rewrite !fn_lookup_insert_ne, K3 by done. by apply Hch.
  - subst c. unfold server_next. cbv zeta. assert (H := Hch i Hi). rewrite Hd in H. destruct (serve_ok (slot i) k data rest _ _ _ (Hin i Hi) H Hk Hl) as [Hlen Hnew]. split; [|done].
    split; cbn [tf_client tf_server tf_up tf_down]; rewrite ?Hlen; auto.
    intros j Hj. destruct (decide (i = j)) as [<-|Hne]; [by rewrite !fn_lookup_insert|]. rewrite !fn_lookup_insert_ne by done.
    rewrite (proj1 (serve_other _ _ _ (slot i) (slot j) _ ltac:(auto))). by apply Hch.
  - split; [|done]. split; cbn [tf_client tf_server tf_up tf_down]; auto; intros i Hi; destruct (serve_other sink wrote read j (slot i) (tf_server t)) as [E1 E2]; [auto using not_eq_sym|rewrite E2; auto|auto using not_eq_sym|rewrite E1; auto].
  - split; [|done]. split; cbn [tf_client tf_server tf_up tf_down]; auto; intros i Hi; destruct (accept_kept child (tf_server t) (slot i)) as [E1 E2]; auto; try apply (ch_open _ _ _ _ (Hch i Hi)); [rewrite E2; auto|rewrite E1; auto].
Qed.

(** The beginning: every connection is new and nothing is under way. *)
Record transfer_start (t : transfer) : Prop := {
  ts_bytes : 0 < br_bytes (tf_client t);
  ts_counters : br_invalid (tf_client t) = 0 /\ br_submitted (tf_client t) = 0 /\ br_delivered (tf_client t) = 0;
  ts_slots : forall i j, (i < length (br_peers (tf_client t)))%nat -> (j < length (br_peers (tf_client t)))%nat -> slot i = slot j -> i = j;
  ts_peers : Forall (fun p => bp_sent p = 0 /\ bp_received p = 0) (br_peers (tf_client t));
  ts_accepted : forall i, (i < length (br_peers (tf_client t)))%nat -> exists c, bs_clients (tf_server t) !! slot i = Some c /\
    0 <= bc_fd c /\ bc_have c = 0 /\ bc_sent c = 0 /\ Z.of_nat (length (bc_data c)) = 8192 /\ tf_up t i = [] /\ tf_down t i = []
}.

Lemma transfer_start_ok t : transfer_start t -> transfer_ok t.
Proof.
  intros [Hb (Hi & Hsub & Hdel) Hs Hp Ha]. assert (Hw : forall p, p ∈ br_peers (tf_client t) -> window p = 0) by (intros p [E1 E2]%(proj1 (Forall_forall _ _) Hp); unfold window; by rewrite E1, E2).
  split; try done.
  - intros i Hi'. destruct (Ha i Hi') as (c & Hc & _). by eapply lookup_lt_Some.
  - rewrite Hsub, Hdel. replace (under_way (tf_client t)) with 0; [done|]. unfold under_way. clear -Hw. induction (br_peers (tf_client t)) as [|p l IH]; [done|].
    cbn. rewrite Hw by set_solver. rewrite <- IH; [done|]. set_solver.
  - intros i Hi'. destruct (Ha i Hi') as (c & Hc & Ho & H1 & H2 & Hd & Hup & Hdown). unfold bench_client_at. rewrite (nth_lookup_Some _ _ _ _ Hc).
    destruct (lookup_lt_is_Some_2 _ _ Hi') as [p Hp']. assert (Ep : peer_at (tf_client t) i = p) by (unfold peer_at; by apply nth_lookup_Some). rewrite Ep.
    assert (Hw0 := Hw p ltac:(by eapply list_elem_of_lookup_2)). split; try done; [rewrite Hw0; done|by left|]. by rewrite Hup, Hdown, unsent_idle, Hw0.
Qed.

(** C38: over new connections that keep the bytes the two programs send in order,
    with the sockets taking and giving any amounts at any time and other clients
    served in between, a bulk transfer to the echoing server sees no wrong byte and
    no failure: what comes back on a connection is the stream the client sent, at
    most 8192 bytes of it are on the way out, held by the server and on the way
    back, in order, and the counters of the client differ by exactly the bytes
    under way. *)
Theorem bulk_echo t0 t : transfer_start t0 -> rtc transfer_step t0 t ->
  client_status (tf_client t) = 0 /\ br_failures (tf_client t) = br_failures (tf_client t0) /\
  br_submitted (tf_client t) = u64 (br_delivered (tf_client t) + under_way (tf_client t)) /\
  forall i, (i < length (br_peers (tf_client t)))%nat -> let p := peer_at (tf_client t) i in
    window p <= 8192 /\ tf_down t i ++ unsent (bench_client_at (tf_server t) (slot i)) ++ tf_up t i = stream (bp_received p) (window p).
Proof.
  intros H0 H. apply transfer_start_ok in H0. assert (Hok : transfer_ok t /\ br_failures (tf_client t) = br_failures (tf_client t0)).
  { induction H as [t|t t1 t2 Hs _ IH]; [done|]. destruct (transfer_step_ok _ _ Hs H0) as (H1 & E & _). destruct (IH H1) as [H2 E2]. split; [done|congruence]. }
  destruct Hok as [[_ _ _ Hz Hc Hch] Hf]. split; [unfold client_status; by rewrite Hz|]. split; [done|]. split; [done|]. intros i Hi. destruct (Hch i Hi). by split.
Qed.
End transfers.

(** * Datagrams *)

(** More rounds than messages change nothing: the loop over a batch has ended. *)
Lemma transmit_loop_ends messages answer more fuel : forall sent s, (length messages <= sent + fuel)%nat ->
  transmit_loop (fuel + more) sent messages answer s = transmit_loop fuel sent messages answer s.
Proof.
  induction fuel as [|fuel IH]; intros sent s H; cbn [Nat.add transmit_loop].
  - destruct more; [done|]. cbn [transmit_loop]. destruct (Nat.ltb_spec sent (length messages)); [lia|done].
  - destruct (negb _); [done|]. destruct (Z.ltb_spec 0 (answer sent)); [|done]. apply IH. lia.
Qed.

(** The counters of a run after the sequence numbers [seqs]. *)
Record counted_run (run : Z) (seqs : list Z) (s : bench_server) : Prop := {
  cr_run : bs_seen_run s = run;
  cr_length : Z.of_nat (length (bs_seen s)) = 8000000;
  cr_seen : forall x, 0 <= x < 64000000 -> seen_bit (bs_seen s) x = bool_decide (x ∈ seqs);
  cr_packets : bs_run_packets s = u64 (Z.of_nat (length seqs));
  cr_unique : bs_run_unique s = u64 (Z.of_nat (size (list_to_set seqs : gset Z)))
}.

Lemma seen_empty n x : 0 <= x -> seen_bit (replicate n 0) x = false.
Proof.
  intros Hx. rewrite seen_bit_testbit by done. unfold byte_of. destruct (replicate n 0 !! _) eqn:E; cbn; [|apply Z.bits_0]. apply lookup_replicate in E as [-> _]. apply Z.bits_0.
Qed.

Lemma cleared_empty : Z.of_nat (length cleared) = 8000000 /\ forall x, 0 <= x -> seen_bit cleared x = false.
Proof. unfold cleared. rewrite length_replicate. split; [apply Z2Nat.id; lia|]. intros x. apply seen_empty. Qed.
#[local] Opaque cleared.

Lemma enter_run_new run s : bs_seen_run s <> run -> counted_run run [] (enter_run run s).
Proof.
  intros Hne. unfold enter_run. destruct (Z.eqb_spec run (bs_seen_run s)); [congruence|]. split; [reflexivity| | |reflexivity|reflexivity].
  - apply cleared_empty.
  - intros x Hx. rewrite bool_decide_eq_false_2 by apply not_elem_of_nil. apply cleared_empty. lia.
Qed.

Lemma enter_run_same run seqs s : counted_run run seqs s -> enter_run run s = s.
Proof. intros H. unfold enter_run. by rewrite (cr_run _ _ _ H), Z.eqb_refl. Qed.

Lemma enter_run_traffic run n b s : enter_run run (set_bs_bytes b (set_bs_packets n s)) = set_bs_bytes b (set_bs_packets n (enter_run run s)).
Proof. unfold enter_run. change (bs_seen_run (set_bs_bytes b (set_bs_packets n s))) with (bs_seen_run s). destruct (negb _); [|reflexivity]. cbv -[cleared]. reflexivity. Qed.

Lemma enter_run_invalid run s : bs_invalid (enter_run run s) = bs_invalid s.
Proof. unfold enter_run. destruct (negb _); reflexivity. Qed.

(** One datagram of the run. *)
Lemma datagram_counted run seqs now p seq s : counted_run run seqs (enter_run run s) -> payload_valid p run 42 0 = (true, seq) -> 0 <= seq < 64000000 ->
  counted_run run (seqs ++ [seq]) (received_datagram now p s) /\ bs_invalid (received_datagram now p s) = bs_invalid s.
Proof.
  intros H Hv Hs. assert (Hp : 16 <= Z.of_nat (length p) /\ read32 p 4 = run).
  { unfold payload_valid in Hv. destruct (Z.ltb_spec (Z.of_nat (length p)) 16); [done|]. destruct (Z.eqb_spec (read32 p 4) run); [done|]. by rewrite orb_true_r in Hv. }
  destruct Hp as [Hl Hr]. unfold received_datagram. rewrite Hr, Hv. cbv zeta beta iota. destruct (Z.ltb_spec (Z.of_nat (length p)) 16); [lia|]. destruct (Z.leb_spec 64000000 seq); [lia|]. cbn [orb negb].
  rewrite enter_run_traffic. assert (Hi : bs_invalid (enter_run run s) = bs_invalid s) by apply enter_run_invalid. set (s1 := enter_run run s) in *. clearbody s1. destruct H as [R1 R2 R3 R4 R5].
  set (s2 := set_bs_run_last now _). set (s3 := if negb (truth (bs_run_first s2)) then _ else s2).
  assert (E3 : bs_seen_run s3 = run /\ bs_seen s3 = bs_seen s1 /\ bs_run_packets s3 = counted (bs_run_packets s1) 1 /\ bs_run_unique s3 = bs_run_unique s1 /\ bs_invalid s3 = bs_invalid s1) by (unfold s3; destruct (negb _); split_and!; try reflexivity; exact R1).
  clearbody s3. destruct E3 as (E1 & E2 & E3 & E4 & E5). rewrite E2, R3 by done.
  assert (Hn : counted (bs_run_packets s1) 1 = u64 (Z.of_nat (length (seqs ++ [seq])))) by (rewrite R4, length_app; unfold counted; cbn; zlia).
  destruct (bool_decide_reflect (seq ∈ seqs)) as [Hin|Hin].
  - split; [|by rewrite <- Hi, <- E5]. split; cbn [bs_seen_run bs_seen bs_run_packets bs_run_unique set_bs_duplicates]; try congruence.
    + intros x Hx. rewrite E2, R3 by done. apply bool_decide_ext. set_solver.
    + rewrite E4, R5. do 3 f_equal. set_solver.
  - split; [|by rewrite <- Hi, <- E5]. split; cbn [bs_seen_run bs_seen bs_run_packets bs_run_unique set_bs_seen set_bs_unique set_bs_run_unique set_bs_run_bytes]; try congruence.
    + by rewrite length_mark.
    + intros x Hx. rewrite (seen_mark default_options (bs_seen s1) seq x R2 Hs (proj1 Hx)). rewrite R3 by done. apply eq_true_iff_eq. rewrite orb_true_iff, Z.eqb_eq, !bool_decide_eq_true. set_solver.
    + rewrite E4, R5, list_to_set_app_L. replace (list_to_set [seq] : gset Z) with ({[seq]} : gset Z) by set_solver. rewrite size_union by set_solver. rewrite size_singleton. unfold counted. zlia.
Qed.

(** The server tells the datagrams of a run from their repetitions: after those of
    a new run, in any order and any number, [run_packets] is how many came,
    [run_unique] how many different ones, and none of them is invalid. *)
Theorem datagrams_counted run now ps seqs s : bs_seen_run s <> run -> ps <> [] ->
  Forall2 (fun p seq => payload_valid p run 42 0 = (true, seq) /\ 0 <= seq < 64000000) ps seqs ->
  let s' := foldl (fun s p => received_datagram now p s) s ps in
  bs_run_packets s' = u64 (Z.of_nat (length ps)) /\ bs_run_unique s' = u64 (Z.of_nat (size (list_to_set seqs : gset Z))) /\ bs_invalid s' = bs_invalid s.
Proof.
  intros Hne Hps H. cbv zeta. assert (Hgen : forall ps seqs, Forall2 (fun p seq => payload_valid p run 42 0 = (true, seq) /\ 0 <= seq < 64000000) ps seqs -> forall done s, counted_run run done s ->
    counted_run run (done ++ seqs) (foldl (fun s p => received_datagram now p s) s ps) /\ bs_invalid (foldl (fun s p => received_datagram now p s) s ps) = bs_invalid s).
  { clear. induction 1 as [|p seq ps seqs [Hv Hs] _ IH]; intros seen s Hc; cbn [foldl]; [by rewrite app_nil_r|].
    destruct (datagram_counted run seen now p seq s) as [H1 E1]; [by rewrite (enter_run_same run seen s Hc)|done..|]. destruct (IH _ _ H1) as [H2 E2]. rewrite <- app_assoc in H2. split; [exact H2|congruence]. }
  destruct H as [|p seq ps seqs [Hv Hs] H]; [done|]. cbn [foldl].
  destruct (datagram_counted run [] now p seq s (enter_run_new run s Hne) Hv Hs) as [H1 E1]. destruct (Hgen ps seqs H _ _ H1) as [[_ _ _ H2 H3] E2].
  rewrite H2, H3, E2, E1. cbn [app length]. by rewrite (Forall2_length _ _ _ H).
Qed.

(** * A transfer *)

(** Sixteen bytes go to the server and come back. *)
Module EchoSample.
Definition client : bench_run := bulk_connect [mk_connect_input 5 None 0 None 10] (run0 |> set_br_bytes 16 |> set_br_end 1000).
Definition server : bench_server := accept_first 7 (mk_bench_server 0 0 0 0 0 0 0 0 0 0 0 0 0 [] (replicate 64 free_client) false []).
Definition slot (i : nat) : nat := i.
Definition start : transfer := mk_transfer client server (fun _ => []) (fun _ => []).
Definition bytes : list Z := stream 0 16.
Definition sent : transfer := client_next 0 POLLOUT 16 [] [] 1 start.
Definition held : transfer := server_next slot 0 0 bytes [] sent.
Definition echoed : transfer := server_next slot 0 16 [] [] held.
Definition back : transfer := client_next 0 POLLIN 0 bytes [] 2 echoed.

Lemma started : transfer_start slot start.
Proof.
  split; try done.
  - repeat constructor.
  - intros i Hi. assert (i = O) as -> by (change (length (br_peers (tf_client start))) with 1%nat in Hi; lia).
    exists (free_client |> set_bc_fd 7). split; [vm_compute; reflexivity|]. split; [done|]. split; [done|]. split; [done|]. split; [vm_compute; reflexivity|done].
Qed.

Lemma back_reached : rtc (transfer_step slot) start back.
Proof.
  apply (rtc_l _ _ sent); [apply client_turn; vm_compute; intuition congruence || lia|].
  apply (rtc_l _ _ held); [apply server_turn; vm_compute; intuition congruence || lia|].
  apply (rtc_l _ _ echoed); [apply server_turn; vm_compute; intuition congruence || lia|].
  apply (rtc_l _ _ back); [apply client_turn; vm_compute; intuition congruence || lia|apply rtc_refl].
Qed.

Lemma bulk_echo_witness : br_delivered (tf_client back) = 16 /\ client_status (tf_client back) = 0.
Proof. split; [vm_compute; reflexivity|]. exact (proj1 (bulk_echo slot start back started back_reached)). Defined.
End EchoSample.
